(* ===== verification/_CoqProject ===== *)
-Q . S2P
Prelude.v
Params.v
Ring.v
State.v
Spinlock.v
Wakeup.v
Sched.v
CString.v
Kalloc.v
Vm.v
PageTable.v
UserMem.v
AddrSpace.v
Asm.v
AsmSpec.v
Pipe.v
Copy.v
Uart.v
Printf.v
Console.v
Frame.v
CopySpec.v
PipeSpec.v
UartSpec.v
ConsoleSpec.v
Bio.v
Cache.v
Virtio.v
Demo.v
DiskSpec.v
Log.v
Fs.v
Dir.v
Path.v
File.v
Proc.v
ProcSpec.v
Exec.v
Sysfile.v
Trap.v
Main.v
Commit.v
Transaction.v
DemoFs.v
Blocks.v
Content.v
Alloc.v
Itable.v
ExitSpec.v
Dinode.v
Write.v
Crash.v
DirSpec.v
Mkfs.v
MkfsSpec.v
MkfsImage.v
Reserve.v
User.v
UserIo.v
Tools.v
Grep.v
Shell.v
ShellParse.v
ShellRun.v
Umalloc.v
Usertests.v
System.v
Boot.v
