(* ===== verification/Prelude.v ===== *)
(** * A verification of xv6 for RISC-V

    xv6 is a small Unix for RISC-V multiprocessors: a kernel in C with a little
    assembly (src/kernel), user programs and their library (src/user), and the
    program that makes the first disk image (src/mkfs).  This library translates
    the code into Rocq definitions, function by function, and proves what makes
    the parts correct.

    ** How the code is modelled

    The kernel's globals are one record [kst] (State): CPU, lock table, physical
    memory as bytes, process table, buffer cache, log, inode table, file table,
    pipes, console, UART, disk and device registers.  A kernel function is a
    definition in the monad [M A = kst -> outcome A]; an outcome is a result with
    the new state, a panic with its message, [Blocked] with the state in which
    swtch() leaves a process that waits, or [OutOfFuel].  Pointers into a table are
    indices, a null pointer is [None], integers keep their C width (u8, u16, u32,
    u64, i32 in Prelude write out the wrap-around), structs on disk and in memory
    are read and written at their byte offsets.  Loops that are not structural have
    fuel, set by the caller to a bound on the number of rounds; the theorems state
    that the result is reached, so that the fuel is enough.  A function of the
    kernel that sleeps runs up to the sleep, or, where the schedule matters, in a
    step relation on many CPUs.

    User programs are trees of system calls, the type [U] of User: what a program
    does next depends on the answers.  [urun] runs a tree against an operating
    system given as a function; UserIo and ShellRun give such systems.  mkfs is
    written in a monad of its own over the blocks of the image.  The assembly is a
    list of instructions for a small RISC-V machine.

    ** Files and what they show

    Shared: Prelude (integers, bytes, memory, tactics and hints), Params (the
    constants and address macros of param.h, memlayout.h, riscv.h and fs.h), Ring
    (ring buffers with free-running counters), State (data and the monad), Frame
    (what a call leaves alone).

    Locks and scheduling: Spinlock (spinlock.c; module Smp interleaves the atomic
    accesses of acquire() and release(): mutual exclusion), Sched (sched, yield,
    sleep, wakeup, kill, sleeplock.c), Wakeup (sleep() against wakeup() on many
    CPUs: no wakeup is lost).

    Memory: CString (string.c), Kalloc (kalloc.c: the free list), Vm (vm.c),
    PageTable (page tables as finite maps: what mappages() and uvmunmap() do to the
    translation), AddrSpace (user address spaces as lists of pages: uvmalloc(),
    uvmdealloc(), uvmcopy(), uvmfree()), Copy and CopySpec (either_copyin/out),
    UserMem (copyin(), copyout(), copyinstr() against byte-by-byte definitions).
    A cell of memory holds an integer and is read modulo 256.

    Assembly: Asm (swtch.S, trampoline.S, kernelvec.S, entry.S with Sv39
    translation), AsmSpec (a trap or a context switch gives back every register).

    Devices: Uart, UartSpec (the transmit queue), Printf, Console, ConsoleSpec (the
    line editor), Pipe, PipeSpec (a pipe is a bounded queue), Virtio and DiskSpec
    (the virtio driver over a device given by its laws transfers the block).

    File system, bottom up.  Bio is bio.c with its linked list, Cache its contract:
    the class [DiskLaws] is what it needs of a driver, and Virtio proves an
    instance; [bst] and [kview] are what it gives to the layers above.  Log, Commit
    and Transaction are log.c: a commit is a list of block writes, a crash keeps a
    prefix of it, and recovery ends with all or nothing.  Fs, Dir and Path are fs.c;
    Blocks (balloc, bfree), Alloc (bmap), Content (readi), Write (writei), Dinode
    (ilock, iupdate), Itable (iget, idup, iput) and DirSpec (dirlookup, dirlink)
    relate the functions to the contents of files as byte lists and of directories
    as lists of entries.  Crash puts the layers together: a file write is atomic
    across crashes.  Mkfs is mkfs.c; MkfsSpec and MkfsImage show that fsinit() finds
    in its image a file system with which the theorems above apply.  Reserve shows
    that a piece of a write, begin_op() and writei(), stays within the log space of
    one operation.

    Processes and system calls: File (file.c), Proc (proc.c), Exec (exec.c), Sysfile
    (sysfile.c and the arguments of syscall.c), Trap (trap.c, plic.c, sysproc.c),
    Main (start.c, main.c).  These are translations, complete with their error
    paths, that call the functions of the files above.  ProcSpec shows what fork(),
    wait() and growproc() do to the process table, the files and every page of
    memory, ExitSpec what exit() leaves behind.

    User space: User (user.h, ulib.c, printf.c), UserIo (files with short reads, and
    what printf() writes), Tools (the small programs; cat and wc against the
    contents of their files), Grep (the matcher against the language of a pattern),
    Shell, ShellParse (the parser terminates, accepts exactly the grammar and builds
    its trees), ShellRun (the processes, redirections and pipes of a command line),
    Umalloc (the free list of malloc() as a list of blocks), Usertests (the tests of
    usertests.c).

    The whole system: System runs a user program on the kernel, each call through
    usertrap() with its arguments in user memory and registers.  Boot starts the
    kernel from a disk of mkfs and shows that it passes tests of usertests.c, by
    running them.  Its machine has eight free pages; the tests are those that do
    not fork, as a run follows one process.

    Demo and DemoFs are concrete machines on which hypotheses are shown to hold.

    ** What is assumed

    The addresses the linker defines are the class [KernelImage] (Kalloc), with
    their order and alignment.  The virtio device is the parameter [device_run] with
    the class [BlockDeviceLaws]: it serves each request in the avail ring and reports
    it in the used ring; Demo has an instance.  The UART, the console input and the
    interrupt controller answer from lists in the state.  A block write to the disk
    is atomic, as log.c assumes of its header.  Each theorem names its other
    hypotheses, and where it has any a lemma with the suffix [_witness] applies it to
    a concrete case.

    ** Bounds

    Tables have the sizes of param.h (NPROC 64, NBUF 30, NINODE 50, LOGSIZE 30,
    FSSIZE 1000), and no theorem needs smaller ones.  Fuel: a loop over a byte range
    has one unit for each byte or page; walks over a table or a linked list have one
    for each element, and the parser of the shell has one for each character and
    level, which [parse_terminates] proves to be enough.

    ** Not modelled

    The test programs grind, forktest and stressfs: they promise nothing
    themselves.  initcode.S and usys.pl: the bytes of the first are in Proc, and user
    programs are modelled above the stubs the second prints.  ramdisk.c: it is not
    built and uses fields that no longer exist.  Headers that only declare, the
    linker script, the Makefile, and the grading and synchronisation scripts.
    The kernel's own page table (kvminit() is translated in Vm, the C code of the
    model uses physical addresses).  Instruction fetch and the TLB; the memory model below the atomic accesses of
    Spinlock and Wakeup; the timing of devices.  The theorems about the file system
    are about one process inside its transaction: concurrent operations meet in the
    locks, whose theorems are those of Spinlock, Sched and Wakeup. *)

From Stdlib Require Import ZArith Lia Ascii.
From stdpp Require Import base gmap strings list list_numbers numbers fin_maps sorting.

Export list_relations.list.

Open Scope Z_scope.

(** * Machine integers

    C integers are [Z]; a [w]-bit unsigned value is kept in [0, 2^w) and the
    arithmetic of the source wraps through the functions below.  [int] and
    [short] are two's-complement. *)

Definition u8  (x : Z) : Z := x `mod` 2 ^ 8.
Definition u16 (x : Z) : Z := x `mod` 2 ^ 16.
Definition u32 (x : Z) : Z := x `mod` 2 ^ 32.
Definition u64 (x : Z) : Z := x `mod` 2 ^ 64.
Definition i16 (x : Z) : Z := (x + 2 ^ 15) `mod` 2 ^ 16 - 2 ^ 15.
Definition i32 (x : Z) : Z := (x + 2 ^ 31) `mod` 2 ^ 32 - 2 ^ 31.
Definition i64 (x : Z) : Z := (x + 2 ^ 63) `mod` 2 ^ 64 - 2 ^ 63.

Create HintDb xv6 discriminated.

(** [lia] with division and modulo by constants. *)
Ltac dlia := Z.to_euclidean_division_equations; lia.
Ltac unfold_ints := unfold u8, u16, u32, u64, i16, i32, i64 in *.

Lemma u32_small x : 0 <= x < 2 ^ 32 -> u32 x = x.
Proof. apply Z.mod_small. Qed.

Lemma u64_small x : 0 <= x < 2 ^ 64 -> u64 x = x.
Proof. apply Z.mod_small. Qed.

Lemma u16_small x : 0 <= x < 2 ^ 16 -> u16 x = x.
Proof. apply Z.mod_small. Qed.

Lemma u8_small x : 0 <= x < 2 ^ 8 -> u8 x = x.
Proof. apply Z.mod_small. Qed.

Lemma i32_small x : - 2 ^ 31 <= x < 2 ^ 31 -> i32 x = x.
Proof. intros. unfold i32. rewrite Z.mod_small; lia. Qed.

Lemma i16_small x : - 2 ^ 15 <= x < 2 ^ 15 -> i16 x = x.
Proof. intros. unfold i16. rewrite Z.mod_small; lia. Qed.

Lemma u32_range x : 0 <= u32 x < 2 ^ 32.
Proof. apply Z.mod_pos_bound. lia. Qed.

Lemma u64_range x : 0 <= u64 x < 2 ^ 64.
Proof. apply Z.mod_pos_bound. lia. Qed.

Lemma u8_range x : 0 <= u8 x < 2 ^ 8.
Proof. apply Z.mod_pos_bound. lia. Qed.

Lemma i32_range x : - 2 ^ 31 <= i32 x < 2 ^ 31.
Proof.
  unfold i32. pose proof (Z.mod_pos_bound (x + 2 ^ 31) (2 ^ 32) ltac:(lia)). lia.
Qed.

#[export] Hint Resolve u32_range u64_range u8_range i32_range : xv6.

(** A C condition on an integer. *)
Definition truth (x : Z) : bool := negb (x =? 0).
(** The [int] value of a C comparison. *)
Definition b2z (b : bool) : Z := if b then 1 else 0.

(** * Little-endian words in byte lists *)

Definition byte_ok (b : Z) : Prop := 0 <= b < 2 ^ 8.

(** [bytes_of n z]: the [n]-byte little-endian representation of [z]. *)
Definition bytes_of (n : nat) (z : Z) : list Z := Z_to_little_endian (Z.of_nat n) 8 z.
(** The value of a little-endian byte list. *)
Definition of_bytes (bs : list Z) : Z := little_endian_to_Z 8 bs.

Lemma length_bytes_of n z : length (bytes_of n z) = n.
Proof.
  apply Nat2Z.inj. unfold bytes_of. rewrite length_Z_to_little_endian; lia.
Qed.

Lemma of_bytes_of n z : of_bytes (bytes_of n z) = z `mod` 2 ^ (Z.of_nat n * 8).
Proof. unfold of_bytes, bytes_of. apply little_endian_to_Z_to_little_endian; lia. Qed.

Lemma bytes_of_ok n z : Forall byte_ok (bytes_of n z).
Proof. apply Z_to_little_endian_bound; lia. Qed.

Lemma bytes_of_of_bytes bs : Forall byte_ok bs -> bytes_of (length bs) (of_bytes bs) = bs.
Proof. intros. apply Z_to_little_endian_to_Z; [done | lia | done]. Qed.

Lemma of_bytes_range bs :
  Forall byte_ok bs -> 0 <= of_bytes bs < 2 ^ (Z.of_nat (length bs) * 8).
Proof. intros. apply little_endian_to_Z_bound; [lia | done]. Qed.

(** [getb off n bs]: the [n] bytes of [bs] from offset [off];
    [putb off v bs]: [bs] with [v] stored at offset [off]. *)
Definition getb (off n : nat) (bs : list Z) : list Z := take n (drop off bs).
Definition putb (off : nat) (v bs : list Z) : list Z :=
  take off bs ++ v ++ drop (off + length v) bs.

Definition get16 (off : nat) (bs : list Z) : Z := of_bytes (getb off 2 bs).
Definition get32 (off : nat) (bs : list Z) : Z := of_bytes (getb off 4 bs).
Definition put16 (off : nat) (v : Z) (bs : list Z) : list Z := putb off (bytes_of 2 v) bs.
Definition put32 (off : nat) (v : Z) (bs : list Z) : list Z := putb off (bytes_of 4 v) bs.

Lemma length_putb off v bs :
  (off + length v <= length bs)%nat -> length (putb off v bs) = length bs.
Proof. intros. unfold putb. rewrite !length_app, length_take, length_drop. lia. Qed.

Lemma getb_putb_same off v bs :
  (off <= length bs)%nat -> getb off (length v) (putb off v bs) = v.
Proof.
  intros. unfold getb, putb.
  rewrite drop_app_ge by (rewrite length_take; lia).
  rewrite length_take, Nat.min_l, Nat.sub_diag, drop_0 by lia.
  apply take_app_length.
Qed.

Lemma lookup_putb off v bs i :
  (off + length v <= length bs)%nat ->
  putb off v bs !! i =
    if decide (off <= i < off + length v)%nat then v !! (i - off)%nat else bs !! i.
Proof.
  intros Hl. unfold putb. case_decide as Hi.
  - rewrite lookup_app_r by (rewrite length_take; lia).
    rewrite length_take, Nat.min_l by lia. rewrite lookup_app_l by lia. done.
  - destruct (decide (i < off)%nat).
    + rewrite lookup_app_l by (rewrite length_take; lia).
      rewrite lookup_take, decide_True by lia. done.
    + rewrite lookup_app_r by (rewrite length_take; lia).
      rewrite length_take, Nat.min_l by lia.
      rewrite lookup_app_r by lia. rewrite lookup_drop. f_equal. lia.
Qed.

Lemma lookup_getb off n bs i :
  getb off n bs !! i = if decide (i < n)%nat then bs !! (off + i)%nat else None.
Proof.
  unfold getb. rewrite lookup_take. case_decide; [by rewrite lookup_drop | done].
Qed.

Lemma getb_putb_disj off v bs off' n :
  (off + length v <= length bs)%nat ->
  (off' + n <= off \/ off + length v <= off')%nat ->
  getb off' n (putb off v bs) = getb off' n bs.
Proof.
  intros Hl Hd. apply list_eq. intros i. rewrite !lookup_getb.
  case_decide; [|done]. rewrite lookup_putb by done. rewrite decide_False by lia. done.
Qed.

Lemma putb_bytes_ok off v bs :
  Forall byte_ok v -> Forall byte_ok bs -> Forall byte_ok (putb off v bs).
Proof.
  intros. unfold putb. rewrite !Forall_app. split; [|split]; auto using Forall_take, Forall_drop.
Qed.

Lemma get32_put32_same off v bs :
  (off + 4 <= length bs)%nat -> get32 off (put32 off v bs) = u32 v.
Proof.
  intros. unfold get32, put32.
  pose proof (getb_putb_same off (bytes_of 4 v) bs) as E. rewrite length_bytes_of in E.
  rewrite E by lia. rewrite of_bytes_of. done.
Qed.

Lemma get32_put32_disj off v bs off' :
  (off + 4 <= length bs)%nat -> (off' + 4 <= off \/ off + 4 <= off')%nat ->
  get32 off' (put32 off v bs) = get32 off' bs.
Proof.
  intros. unfold get32, put32. rewrite getb_putb_disj; rewrite ?length_bytes_of; auto.
Qed.

Lemma length_put32 off v bs :
  (off + 4 <= length bs)%nat -> length (put32 off v bs) = length bs.
Proof. intros. unfold put32. apply length_putb. rewrite length_bytes_of. lia. Qed.

Lemma getb_app off a b bs : getb off (a + b) bs = getb off a bs ++ getb (off + a) b bs.
Proof. unfold getb. rewrite <- drop_drop. symmetry. apply take_take_drop. Qed.

Lemma length_put16 off v bs : (off + 2 <= length bs)%nat -> length (put16 off v bs) = length bs.
Proof. intros. unfold put16. apply length_putb. rewrite length_bytes_of. lia. Qed.

Lemma getb_put16_disj off v bs off' n :
  (off + 2 <= length bs)%nat -> (off' + n <= off \/ off + 2 <= off')%nat -> getb off' n (put16 off v bs) = getb off' n bs.
Proof. intros. unfold put16. rewrite getb_putb_disj; rewrite ?length_bytes_of; auto. Qed.

Lemma getb_put32_disj off v bs off' n :
  (off + 4 <= length bs)%nat -> (off' + n <= off \/ off + 4 <= off')%nat -> getb off' n (put32 off v bs) = getb off' n bs.
Proof. intros. unfold put32. rewrite getb_putb_disj; rewrite ?length_bytes_of; auto. Qed.

Lemma get16_put16_same off v bs :
  (off + 2 <= length bs)%nat -> get16 off (put16 off v bs) = u16 v.
Proof.
  intros. unfold get16, put16.
  pose proof (getb_putb_same off (bytes_of 2 v) bs) as E. rewrite length_bytes_of in E.
  rewrite E by lia. rewrite of_bytes_of. done.
Qed.

(** * Lists used as C arrays *)

Lemma list_bind_ext_in {A B} (f g : A -> list B) l : (forall x, x ∈ l -> f x = g x) -> l ≫= f = l ≫= g.
Proof.
  induction l as [|x l IH]; [done|]. intros H. cbn [mbind list_bind]. rewrite (H x) by (by left). f_equal.
  apply IH. intros y Hy. apply H. by right.
Qed.

(** [seqz a n] lists [a, a+1, ..., a+n-1]. *)
Definition seqz (a : Z) (n : nat) : list Z := (fun i => a + Z.of_nat i) <$> seq 0 n.

Lemma length_seqz a n : length (seqz a n) = n.
Proof. unfold seqz. by rewrite length_fmap, length_seq. Qed.

Lemma elem_of_seqz x a n : x ∈ seqz a n <-> a <= x < a + Z.of_nat n.
Proof.
  unfold seqz. rewrite list_elem_of_fmap. split.
  - intros (i & -> & Hi%elem_of_seq). lia.
  - intros Hx. exists (Z.to_nat (x - a)). rewrite elem_of_seq. lia.
Qed.

Lemma NoDup_seqz a n : NoDup (seqz a n).
Proof. unfold seqz. apply NoDup_fmap_2; [intros i j; lia|apply NoDup_seq]. Qed.

Lemma seqz_S a n : seqz a (S n) = a :: seqz (a + 1) n.
Proof.
  unfold seqz. simpl. f_equal; [lia|].
  rewrite <- (fmap_S_seq 0 n), <- list_fmap_compose. apply list_fmap_ext.
  intros ? ? _. simpl. lia.
Qed.

(** * Byte-addressed memory

    Physical memory is a finite map from addresses to bytes; a cell is read
    modulo 256, and an address that was never written reads as 0. *)

Abbreviation bmem := (gmap Z Z).

Definition ld8 (m : bmem) (a : Z) : Z := u8 (default 0 (m !! a)).
Definition st8 (m : bmem) (a v : Z) : bmem := <[a := u8 v]> m.

(** [ldn m a n] reads [n] bytes from [a]; [stn m a bs] stores [bs] at [a]. *)
Definition ldn (m : bmem) (a : Z) (n : nat) : list Z := ld8 m <$> seqz a n.
Fixpoint stn (m : bmem) (a : Z) (bs : list Z) : bmem :=
  match bs with
  | [] => m
  | b :: bs => stn (st8 m a b) (a + 1) bs
  end.

Definition ld64 (m : bmem) (a : Z) : Z := of_bytes (ldn m a 8).
Definition st64 (m : bmem) (a v : Z) : bmem := stn m a (bytes_of 8 v).

Lemma ld8_st8 m a b v : ld8 (st8 m a v) b = if decide (a = b) then u8 v else ld8 m b.
Proof.
  unfold ld8, st8. rewrite lookup_insert. case_decide; [|done]. apply u8_small, u8_range.
Qed.

Lemma ld8_stn m a bs b :
  ld8 (stn m a bs) b =
    if decide (a <= b < a + Z.of_nat (length bs))
    then u8 (bs !!! Z.to_nat (b - a)) else ld8 m b.
Proof.
  revert m a. induction bs as [|x bs IH]; intros m a; simpl.
  - rewrite decide_False by lia. done.
  - rewrite IH. destruct (decide (a = b)) as [->|Hne].
    + rewrite decide_False by lia. rewrite decide_True by lia.
      rewrite ld8_st8, decide_True by done. by rewrite Z.sub_diag.
    + rewrite ld8_st8. repeat case_decide; try lia; try done.
      replace (Z.to_nat (b - a)) with (S (Z.to_nat (b - (a + 1)))) by lia. done.
Qed.

Lemma length_ldn m a n : length (ldn m a n) = n.
Proof. unfold ldn. by rewrite length_fmap, length_seqz. Qed.

Lemma lookup_ldn m a n i : (i < n)%nat -> ldn m a n !! i = Some (ld8 m (a + Z.of_nat i)).
Proof.
  intros. unfold ldn, seqz. rewrite !list_lookup_fmap, lookup_seq_lt by done. done.
Qed.

Lemma lookup_total_ldn m a n i : (i < n)%nat -> ldn m a n !!! i = ld8 m (a + Z.of_nat i).
Proof. intros Hi. by apply list_lookup_total_correct, lookup_ldn. Qed.

Lemma ldn_ext m m' a n :
  (forall b, a <= b < a + Z.of_nat n -> ld8 m b = ld8 m' b) -> ldn m a n = ldn m' a n.
Proof.
  intros H. apply list_eq_same_length with n; rewrite ?length_ldn; auto.
  intros i x y Hi. rewrite !lookup_ldn by done. intros [= <-] [= <-]. apply H. lia.
Qed.

Lemma ldn_stn_disj m a bs b n :
  b + Z.of_nat n <= a \/ a + Z.of_nat (length bs) <= b ->
  ldn (stn m a bs) b n = ldn m b n.
Proof. intros. apply ldn_ext. intros. rewrite ld8_stn, decide_False by lia. done. Qed.

Lemma ldn_stn_same m a bs :
  Forall byte_ok bs -> ldn (stn m a bs) a (length bs) = bs.
Proof.
  intros Hb. apply list_eq_same_length with (length bs); rewrite ?length_ldn; auto.
  intros i x y Hi. rewrite lookup_ldn by done. intros [= <-] Hy.
  rewrite ld8_stn, decide_True by lia.
  replace (Z.to_nat (a + Z.of_nat i - a)) with i by lia.
  rewrite (list_lookup_total_correct _ _ _ Hy). apply u8_small.
  rewrite Forall_lookup in Hb. exact (Hb _ _ Hy).
Qed.

Lemma ld64_st64_same m a v : ld64 (st64 m a v) a = u64 v.
Proof.
  unfold ld64, st64. pose proof (ldn_stn_same m a (bytes_of 8 v) (bytes_of_ok _ _)) as E.
  rewrite length_bytes_of in E. rewrite E, of_bytes_of. done.
Qed.

Lemma ld64_st64_disj m a v b : b + 8 <= a \/ a + 8 <= b -> ld64 (st64 m a v) b = ld64 m b.
Proof.
  intros. unfold ld64, st64. rewrite ldn_stn_disj; [done|]. rewrite length_bytes_of. lia.
Qed.

Lemma ldn_S m a n : ldn m a (S n) = ld8 m a :: ldn m (a + 1) n.
Proof. unfold ldn. by rewrite seqz_S. Qed.

Lemma ld8_st64_zero m a b : a <= b < a + 8 -> ld8 (st64 m a 0) b = 0.
Proof.
  intros Hb. unfold st64. rewrite ld8_stn, length_bytes_of, decide_True by lia. change (bytes_of 8 0) with (replicate 8 0).
  by rewrite lookup_total_replicate_2 by lia.
Qed.

Lemma ld8_st64_out m a v b : ~ (a <= b < a + 8) -> ld8 (st64 m a v) b = ld8 m b.
Proof. intros. unfold st64. rewrite ld8_stn, length_bytes_of, decide_False by lia. done. Qed.

Lemma ld64_ext m m' a :
  (forall b, a <= b < a + 8 -> ld8 m b = ld8 m' b) -> ld64 m a = ld64 m' a.
Proof. intros. unfold ld64. f_equal. apply ldn_ext. intros. apply H. lia. Qed.

Lemma ld64_zero m a : (forall b, a <= b < a + 8 -> ld8 m b = 0) -> ld64 m a = 0.
Proof.
  intros H. rewrite (ld64_ext m ∅); [done|]. intros b Hb. rewrite H by done. done.
Qed.

Lemma ld8_range m a : byte_ok (ld8 m a).
Proof. apply u8_range. Qed.

Lemma ldn_bytes_ok m a n : Forall byte_ok (ldn m a n).
Proof.
  apply Forall_lookup. intros i x Hi.
  pose proof (lookup_lt_Some _ _ _ Hi) as Hl. rewrite length_ldn in Hl.
  rewrite lookup_ldn in Hi by done. injection Hi as <-. apply ld8_range.
Qed.

#[export] Hint Resolve ld8_range ldn_bytes_ok : xv6.

Arguments stn : simpl never.
Arguments ldn : simpl never.
Arguments st64 : simpl never.
Arguments ld64 : simpl never.
Arguments seqz : simpl never.

Lemma elem_of_rev {A} (x : A) l : x ∈ rev l <-> x ∈ l.
Proof. rewrite !list_elem_of_In. symmetry. apply in_rev. Qed.

(** * String literals *)

(** The bytes of a string literal. *)
Fixpoint str (s : string) : list Z :=
  match s with
  | EmptyString => []
  | String c s => Z.of_nat (nat_of_ascii c) :: str s
  end.

Definition newline : string := String (ascii_of_nat 10) EmptyString.
(** A literal that ends in a newline. *)
Definition line (s : string) : string := String.append s newline.
