(* ===== verification/Params.v ===== *)
(** Constants and address arithmetic: kernel/param.h, kernel/memlayout.h,
    kernel/fs.h, kernel/fcntl.h, kernel/stat.h and the page-table macros at the
    end of kernel/riscv.h.  Object-like macros are abbreviations, function-like
    macros are definitions with the width of the C expression written out. *)

From Stdlib Require Import ZArith Lia.
From stdpp Require Import base list numbers.
From S2P Require Import Prelude.

Open Scope Z_scope.

(** ** param.h *)
Abbreviation NPROC := 64%nat.
Abbreviation NCPU := 8.
Abbreviation NOFILE := 16%nat.
Abbreviation NFILE := 100%nat.
Abbreviation NINODE := 50%nat.
Abbreviation NDEV := 10.
Abbreviation ROOTDEV := 1.
Abbreviation MAXARG := 32%nat.
Abbreviation MAXOPBLOCKS := 10.
Abbreviation LOGSIZE := 30.
Abbreviation NBUF := 30%nat.
Abbreviation FSSIZE := 1000.
Abbreviation MAXPATH := 128.

(** ** fs.h, stat.h, fcntl.h, file.h *)
Abbreviation ROOTINO := 1.
Abbreviation BSIZE := 1024%nat.
Abbreviation FSMAGIC := 270544960. (* 0x10203040 *)
Abbreviation NDIRECT := 12%nat.
Abbreviation NINDIRECT := 256%nat.
Abbreviation MAXFILE := 268.
Abbreviation IPB := 16.
Abbreviation BPB := 8192.
Abbreviation DIRSIZ := 14%nat.
Abbreviation T_DIR := 1.
Abbreviation T_FILE := 2.
Abbreviation T_DEVICE := 3.
Abbreviation O_RDONLY := 0.
Abbreviation O_WRONLY := 1.
Abbreviation O_RDWR := 2.
Abbreviation O_CREATE := 512.
Abbreviation O_TRUNC := 1024.
Abbreviation CONSOLE := 1.
(** struct stat (stat.h). *)
Record stat := Stat { st_dev : Z; st_ino : Z; st_type : Z; st_nlink : Z; st_size : Z }.

(** Sizes of the on-disk structures. *)
Abbreviation SIZEOF_DINODE := 64%nat.
Abbreviation SIZEOF_DIRENT := 16%nat.

(** ** memlayout.h *)
Abbreviation UART0 := 268435456.         (* 0x10000000 *)
Abbreviation UART0_IRQ := 10.
Abbreviation VIRTIO0 := 268439552.       (* 0x10001000 *)
Abbreviation VIRTIO0_IRQ := 1.
Abbreviation CLINT := 33554432.          (* 0x2000000 *)
Abbreviation PLIC := 201326592.          (* 0x0c000000 *)
Abbreviation KERNBASE := 2147483648.     (* 0x80000000 *)
Abbreviation PHYSTOP := 2281701376.      (* KERNBASE + 128*1024*1024 *)

(** ** riscv.h *)
Abbreviation PGSIZE := 4096.
Abbreviation PGSHIFT := 12.
Abbreviation PTE_V := 1.
Abbreviation PTE_R := 2.
Abbreviation PTE_W := 4.
Abbreviation PTE_X := 8.
Abbreviation PTE_U := 16.
Abbreviation PXMASK := 511.
Abbreviation MAXVA := 274877906944.      (* 1L << 38 *)

Definition PGROUNDUP (sz : Z) : Z := Z.land (u64 (sz + PGSIZE - 1)) (Z.lnot (PGSIZE - 1)).
Definition PGROUNDDOWN (a : Z) : Z := Z.land a (Z.lnot (PGSIZE - 1)).
Definition PA2PTE (pa : Z) : Z := u64 (Z.shiftl (Z.shiftr pa 12) 10).
Definition PTE2PA (pte : Z) : Z := u64 (Z.shiftl (Z.shiftr pte 10) 12).
Definition PTE_FLAGS (pte : Z) : Z := Z.land pte 1023.
Definition PXSHIFT (level : Z) : Z := PGSHIFT + 9 * level.
Definition PX (level va : Z) : Z := Z.land (Z.shiftr va (PXSHIFT level)) PXMASK.

Definition TRAMPOLINE : Z := MAXVA - PGSIZE.
Definition TRAPFRAME : Z := TRAMPOLINE - PGSIZE.
Definition KSTACK (p : Z) : Z := TRAMPOLINE - (p + 1) * 2 * PGSIZE.

Definition CLINT_MTIMECMP (hartid : Z) : Z := CLINT + 0x4000 + 8 * hartid.
Definition PLIC_SENABLE (hart : Z) : Z := PLIC + 0x2080 + hart * 0x100.
Definition PLIC_SPRIORITY (hart : Z) : Z := PLIC + 0x201000 + hart * 0x2000.
Definition PLIC_SCLAIM (hart : Z) : Z := PLIC + 0x201004 + hart * 0x2000.

(** file.h: device numbers. *)
Definition major (dev : Z) : Z := Z.land (Z.shiftr dev 16) 65535.
Definition minor (dev : Z) : Z := Z.land dev 65535.
Definition mkdev (m n : Z) : Z := u32 (Z.lor (Z.shiftl m 16) n).

(** ** Facts about the macros *)

Lemma land_lnot_page a : 0 <= a -> Z.land a (Z.lnot (PGSIZE - 1)) = a - a `mod` PGSIZE.
Proof.
  intros. change (PGSIZE - 1) with (Z.ones 12). rewrite <- Z.ldiff_land.
  rewrite Z.ldiff_ones_r, Z.shiftl_mul_pow2, Z.shiftr_div_pow2 by lia.
  change (2 ^ 12) with 4096. dlia.
Qed.

Lemma PGROUNDDOWN_eq a : 0 <= a -> PGROUNDDOWN a = a - a `mod` PGSIZE.
Proof. apply land_lnot_page. Qed.

Lemma PGROUNDUP_eq sz :
  0 <= sz < 2 ^ 64 - PGSIZE -> PGROUNDUP sz = (sz + PGSIZE - 1) / PGSIZE * PGSIZE.
Proof.
  intros. unfold PGROUNDUP. rewrite u64_small by lia. rewrite land_lnot_page by lia. dlia.
Qed.

Lemma PGROUNDUP_bounds sz :
  0 <= sz < 2 ^ 64 - PGSIZE ->
  sz <= PGROUNDUP sz < sz + PGSIZE /\ PGROUNDUP sz `mod` PGSIZE = 0.
Proof.
  intros. rewrite PGROUNDUP_eq by lia. split; [dlia|]. apply Z.mod_mul. lia.
Qed.

Lemma PGROUNDDOWN_bounds a :
  0 <= a -> a - PGSIZE < PGROUNDDOWN a <= a /\ PGROUNDDOWN a `mod` PGSIZE = 0.
Proof. intros. rewrite PGROUNDDOWN_eq by lia. dlia. Qed.

Lemma PX_eq level va :
  0 <= level -> PX level va = (va / 2 ^ (12 + 9 * level)) `mod` 512.
Proof.
  intros. unfold PX, PXSHIFT. change PXMASK with (Z.ones 9).
  rewrite Z.land_ones, Z.shiftr_div_pow2 by lia. done.
Qed.

Lemma PX_range level va : 0 <= level -> 0 <= PX level va < 512.
Proof. intros. rewrite PX_eq by done. dlia. Qed.

(** The three indices and the page offset determine a user-range address. *)
Lemma PX_decompose va :
  0 <= va < MAXVA ->
  va = PX 2 va * 2 ^ 30 + PX 1 va * 2 ^ 21 + PX 0 va * 2 ^ 12 + va `mod` PGSIZE.
Proof.
  intros. rewrite !PX_eq by lia. simpl (2 ^ (_ + _)).
  change (2 ^ (12 + 9 * 2)) with 1073741824. change (2 ^ (12 + 9 * 1)) with 2097152.
  change (2 ^ (12 + 9 * 0)) with 4096. change (2 ^ 30) with 1073741824.
  change (2 ^ 21) with 2097152. change (2 ^ 12) with 4096. dlia.
Qed.

Lemma PA2PTE_eq pa : 0 <= pa < 2 ^ 56 -> PA2PTE pa = pa / 4096 * 1024.
Proof.
  intros. unfold PA2PTE. rewrite Z.shiftl_mul_pow2, Z.shiftr_div_pow2 by lia.
  change (2 ^ 12) with 4096. change (2 ^ 10) with 1024. apply u64_small. dlia.
Qed.

Lemma lor_low_flags hi fl : 0 <= hi -> 0 <= fl < 1024 -> Z.lor (hi * 1024) fl = hi * 1024 + fl.
Proof.
  intros. assert (Z.land (hi * 1024) fl = 0) as E.
  { apply Z.bits_inj'. intros i Hi. rewrite Z.land_spec, Z.bits_0.
    change 1024 with (2 ^ 10). destruct (decide (i < 10)).
    - rewrite Z.mul_pow2_bits_low by lia. done.
    - rewrite <- (Z.mod_small fl (2 ^ 10)), Z.mod_pow2_bits_high by lia. apply andb_false_r. }
  rewrite <- Z.lxor_lor, Z.add_nocarry_lxor by done. done.
Qed.

(** A leaf PTE built from a page address gives that address and its flags back. *)
Lemma PTE2PA_PA2PTE pa fl :
  0 <= pa < 2 ^ 56 -> pa `mod` PGSIZE = 0 -> 0 <= fl < 1024 ->
  PTE2PA (Z.lor (PA2PTE pa) fl) = pa /\ PTE_FLAGS (Z.lor (PA2PTE pa) fl) = fl.
Proof.
  intros Hpa Hal Hfl. rewrite PA2PTE_eq, lor_low_flags by dlia. split.
  - unfold PTE2PA. rewrite Z.shiftl_mul_pow2, Z.shiftr_div_pow2 by lia.
    change (2 ^ 12) with 4096. change (2 ^ 10) with 1024.
    rewrite Z.div_add_l by lia. rewrite (Z.div_small fl) by lia. rewrite u64_small; dlia.
  - unfold PTE_FLAGS. change 1023 with (Z.ones 10). rewrite Z.land_ones by lia.
    change (2 ^ 10) with 1024. rewrite Z.add_comm, Z.mod_add, Z.mod_small; lia.
Qed.

(** Distinct processes' kernel stacks are separated by an unmapped guard page. *)
Lemma KSTACK_guard p q :
  0 <= p -> p < q -> KSTACK q + PGSIZE + PGSIZE <= KSTACK p.
Proof. intros. unfold KSTACK. lia. Qed.
