(* ===== verification/Ring.v ===== *)
(** Ring buffers addressed by free-running counters, as the pipe, the console
    input buffer and the UART transmit buffer use them: an array of [sz] elements
    and two counters modulo [N], a multiple of [sz]. *)

From Stdlib Require Import ZArith Lia.
From stdpp Require Import base list numbers.
From S2P Require Import Prelude.

Open Scope Z_scope.

Section ring.
Context (N sz : Z).
Hypothesis Hsz : 0 < sz.
Hypothesis Hdiv : (sz | N).
Hypothesis HN : sz <= N.

(** The number of elements between counters [r] and [w]. *)
Definition ring_len (r w : Z) : Z := (w - r) `mod` N.

(** The elements, oldest first. *)
Definition ring_list (data : list Z) (r w : Z) : list Z :=
  (fun i => data !!! Z.to_nat ((r + i) `mod` sz)) <$> seqz 0 (Z.to_nat (ring_len r w)).

Lemma ring_mod x : (x `mod` N) `mod` sz = x `mod` sz.
Proof. by apply Z.mod_mod_divide. Qed.

Lemma ring_len_range r w : 0 <= ring_len r w < N.
Proof. unfold ring_len. apply Z.mod_pos_bound. lia. Qed.

Lemma length_ring_list data r w : length (ring_list data r w) = Z.to_nat (ring_len r w).
Proof. unfold ring_list. by rewrite length_fmap, length_seqz. Qed.

Lemma ring_list_empty data r w : 0 <= r < N -> 0 <= w < N -> ring_list data r w = [] <-> r = w.
Proof.
  intros Hr Hw. pose proof (ring_len_range r w) as R. split.
  - intros E. apply (f_equal length) in E. rewrite length_ring_list in E. simpl in E.
    assert (ring_len r w = 0) as E0 by lia. unfold ring_len in E0.
    apply Z.mod_divide in E0 as [q Hq]; [|lia]. assert (- 1 < q < 1) by nia. assert (q = 0) as -> by lia. lia.
  - intros ->. unfold ring_list, ring_len. by rewrite Z.sub_diag, Z.mod_0_l by lia.
Qed.

(** Full means that the write counter is [sz] ahead. *)
Lemma ring_full r w :
  0 <= w < N -> sz < N -> ring_len r w = sz <-> w = (r + sz) `mod` N.
Proof.
  intros Hw HsN. unfold ring_len. split.
  - intros E. rewrite <- (Z.mod_small w N) by lia. rewrite <- E at 1.
    rewrite Zplus_mod_idemp_r. f_equal. lia.
  - intros ->. rewrite Zminus_mod_idemp_l. replace (r + sz - r) with sz by lia. apply Z.mod_small. lia.
Qed.

Lemma ring_len_push r w :
  ring_len r w + 1 < N -> ring_len r ((w + 1) `mod` N) = ring_len r w + 1.
Proof.
  intros H. pose proof (ring_len_range r w). unfold ring_len in *. rewrite Zminus_mod_idemp_l.
  replace (w + 1 - r) with (w - r + 1) by lia. rewrite <- Zplus_mod_idemp_l. apply Z.mod_small. lia.
Qed.

Lemma ring_len_pop r w :
  0 < ring_len r w -> ring_len ((r + 1) `mod` N) w = ring_len r w - 1.
Proof.
  intros H. pose proof (ring_len_range r w). unfold ring_len in *. rewrite Zminus_mod_idemp_r.
  replace (w - (r + 1)) with (w - r - 1) by lia. rewrite <- Zminus_mod_idemp_l. apply Z.mod_small. lia.
Qed.

(** Storing at the write counter appends. *)
Lemma ring_push data r w c :
  0 <= r -> Z.of_nat (length data) = sz -> ring_len r w < sz -> sz < N ->
  ring_list (<[Z.to_nat (w `mod` sz) := c]> data) r ((w + 1) `mod` N) = ring_list data r w ++ [c].
Proof.
  intros Hr Hd Hl HsN. pose proof (ring_len_range r w) as R.
  pose proof (Z.mod_pos_bound w sz Hsz) as Rw.
  assert (w `mod` sz = (r + ring_len r w) `mod` sz) as Ew.
  { unfold ring_len. rewrite <- (Zplus_mod_idemp_r _ _ sz), ring_mod, Zplus_mod_idemp_r.
    f_equal. lia. }
  apply list_eq. intros j. unfold ring_list. rewrite ring_len_push by lia.
  replace (Z.to_nat (ring_len r w + 1)) with (S (Z.to_nat (ring_len r w))) by lia.
  unfold seqz. rewrite seq_S, !fmap_app. cbn [fmap list_fmap].
  set (n := Z.to_nat (ring_len r w)) in *.
  assert (Z.of_nat n = ring_len r w) as En by lia.
  destruct (decide (j < n)%nat) as [Hj|Hj].
  - rewrite !lookup_app_l by (rewrite !length_fmap, length_seq; lia).
    rewrite !list_lookup_fmap, lookup_seq_lt by done. cbn [fmap option_map option_fmap]. f_equal.
    rewrite list_lookup_total_insert_ne; [done|]. intros E.
    pose proof (Z.mod_pos_bound (r + (0 + Z.of_nat (0 + j))) sz Hsz).
    apply Z2Nat.inj in E; [|lia..]. rewrite Ew in E.
    assert ((ring_len r w - Z.of_nat j) `mod` sz = 0) as E0.
    { replace (ring_len r w - Z.of_nat j) with ((r + ring_len r w) - (r + (0 + Z.of_nat (0 + j)))) by lia.
      rewrite Zminus_mod, E, Z.sub_diag. done. }
    rewrite Z.mod_small in E0; lia.
  - rewrite !lookup_app_r by (rewrite !length_fmap, length_seq; lia).
    rewrite !length_fmap, length_seq. destruct (j - n)%nat; [|done]. cbn. f_equal.
    replace (r + (0 + Z.of_nat n)) with (r + ring_len r w) by lia. rewrite <- Ew.
    apply list_lookup_total_insert_eq. lia.
Qed.

(** The element at the read counter is the oldest. *)
Lemma ring_pop data r w :
  0 < ring_len r w ->
  ring_list data r w = data !!! Z.to_nat (r `mod` sz) :: ring_list data ((r + 1) `mod` N) w.
Proof.
  intros Hl. unfold ring_list. rewrite ring_len_pop by done.
  destruct (Z.to_nat (ring_len r w)) as [|n] eqn:En; [lia|].
  replace (Z.to_nat (ring_len r w - 1)) with n by lia.
  unfold seqz. cbn [seq fmap list_fmap]. rewrite Z.add_0_r. f_equal.
  rewrite <- fmap_S_seq, <- !list_fmap_compose. apply list_fmap_ext. intros _ i _. cbn.
  do 2 f_equal. rewrite <- (Zplus_mod_idemp_l ((r + 1) `mod` N) _ sz), ring_mod, Zplus_mod_idemp_l.
  f_equal. lia.
Qed.

(** Moving the write counter back drops the newest element. *)
Lemma ring_drop data r w :
  0 < ring_len r w ->
  exists c, ring_list data r w = ring_list data r ((w - 1) `mod` N) ++ [c] /\
    c = data !!! Z.to_nat ((w - 1) `mod` sz).
Proof.
  intros Hl. pose proof (ring_len_range r w).
  assert (ring_len r ((w - 1) `mod` N) = ring_len r w - 1) as El.
  { unfold ring_len in *. rewrite Zminus_mod_idemp_l. replace (w - 1 - r) with (w - r - 1) by lia.
    rewrite <- Zminus_mod_idemp_l. apply Z.mod_small. lia. }
  eexists. split; [|reflexivity]. unfold ring_list. rewrite El.
  destruct (Z.to_nat (ring_len r w)) as [|n] eqn:En; [lia|].
  replace (Z.to_nat (ring_len r w - 1)) with n by lia.
  unfold seqz. rewrite seq_S, !fmap_app. cbn [fmap list_fmap]. do 4 f_equal.
  replace (r + (0 + Z.of_nat (0 + n))) with (ring_len r w + (r - 1)) by lia.
  unfold ring_len. rewrite <- (Zplus_mod_idemp_l ((w - r) `mod` N)), ring_mod, Zplus_mod_idemp_l.
  f_equal. lia.
Qed.

End ring.
