(* ===== verification/State.v ===== *)
(** The kernel's data: the structs of kernel/proc.h, spinlock.h, sleeplock.h,
    buf.h, file.h, fs.h, log.c, pipe.c, console.c and uart.c as records, all
    global variables in one record [kst], and the monad [M] in which every
    kernel function is written. *)

From Stdlib Require Import ZArith Lia.
From stdpp Require Import base gmap strings list numbers countable.
From S2P Require Import Prelude Params.

Open Scope Z_scope.

(** ** Identities of locks and sleep channels

    A lock is named by the variable it is; a channel by the address the source
    passes to sleep() and wakeup(). *)

Inductive sleepid := SlBuf (i : nat) | SlInode (i : nat).

Inductive lockid :=
| LKmem | LPid | LWait | LProc (i : nat) | LBcache | LLog | LItable | LFtable
| LTicks | LCons | LUart | LPr | LVdisk | LPipe (a : Z) | LSleep (s : sleepid).

Inductive channel :=
| ChSleep (s : sleepid)      (* a struct sleeplock *)
| ChLog                      (* &log *)
| ChPipeRead (a : Z)         (* &pi->nread *)
| ChPipeWrite (a : Z)        (* &pi->nwrite *)
| ChTicks                    (* &ticks *)
| ChProc (i : nat)           (* a struct proc, in wait() *)
| ChCons                     (* &cons.r *)
| ChUartTx                   (* &uart_tx_r *)
| ChDiskFree                 (* &disk.free[0] *)
| ChBuf (i : nat).           (* a struct buf, in virtio_disk_rw() *)

#[export] Instance sleepid_eq_dec : EqDecision sleepid.
Proof. solve_decision. Defined.
#[export] Instance lockid_eq_dec : EqDecision lockid.
Proof. solve_decision. Defined.
#[export] Instance channel_eq_dec : EqDecision channel.
Proof. solve_decision. Defined.

Definition lockid_encode (l : lockid) : nat * Z :=
  match l with
  | LKmem => (0%nat, 0) | LPid => (1%nat, 0) | LWait => (2%nat, 0)
  | LProc i => (3%nat, Z.of_nat i) | LBcache => (4%nat, 0) | LLog => (5%nat, 0)
  | LItable => (6%nat, 0) | LFtable => (7%nat, 0) | LTicks => (8%nat, 0)
  | LCons => (9%nat, 0) | LUart => (10%nat, 0) | LPr => (11%nat, 0)
  | LVdisk => (12%nat, 0) | LPipe a => (13%nat, a)
  | LSleep (SlBuf i) => (14%nat, Z.of_nat i) | LSleep (SlInode i) => (15%nat, Z.of_nat i)
  end.

Definition lockid_decode (p : nat * Z) : option lockid :=
  let (n, z) := p in
  match n with
  | 0%nat => Some LKmem | 1%nat => Some LPid | 2%nat => Some LWait
  | 3%nat => Some (LProc (Z.to_nat z)) | 4%nat => Some LBcache | 5%nat => Some LLog
  | 6%nat => Some LItable | 7%nat => Some LFtable | 8%nat => Some LTicks
  | 9%nat => Some LCons | 10%nat => Some LUart | 11%nat => Some LPr
  | 12%nat => Some LVdisk | 13%nat => Some (LPipe z)
  | 14%nat => Some (LSleep (SlBuf (Z.to_nat z)))
  | 15%nat => Some (LSleep (SlInode (Z.to_nat z))) | _ => None
  end.

Lemma lockid_decode_encode l : lockid_decode (lockid_encode l) = Some l.
Proof. destruct l as [| | | | | | | | | | | | | |[]]; simpl; rewrite ?Nat2Z.id; done. Qed.

#[export] Instance lockid_countable : Countable lockid :=
  inj_countable lockid_encode lockid_decode lockid_decode_encode.

(** ** Structs *)

(** The anonymous enum of struct file. *)
Inductive ftype := FD_NONE | FD_PIPE | FD_INODE | FD_DEVICE.

(** enum procstate. *)
Inductive procstate := UNUSED | USED | SLEEPING | RUNNABLE | RUNNING | ZOMBIE.

(** What a disk descriptor points to: a request header in ops[], the data of a
    buffer, or the status byte in info[]. *)
Inductive daddr := DNull | DOp (i : nat) | DData (i : nat) | DStatus (i : nat).

(** The drivers a [devsw] entry can name; the console is the only one. *)
Inductive devfn := DevConsole.

#[export] Instance ftype_eq_dec : EqDecision ftype.
Proof. solve_decision. Defined.
#[export] Instance procstate_eq_dec : EqDecision procstate.
Proof. solve_decision. Defined.

(** struct cpu (proc.h) together with the interrupt-enable bit of [sstatus]:
    the CPU the model runs on.  [h_id] is what [r_tp()] returns, [h_proc] is
    [c->proc] as an index into [proc[]]. *)
Record hart := Hart {
  h_id : Z;
  h_proc : option nat;
  h_noff : Z;
  h_intena : bool;
  h_sie : bool }.

(** struct sleeplock; the spinlock inside it is a [lockid]. *)
Record sleeplock := Sleeplock {
  sl_locked : bool;
  sl_pid : Z }.

(** struct buf (buf.h).  [b_prev] and [b_next] are the links of the LRU list,
    indices into [bcache.buf], where index [NBUF] is [bcache.head]. *)
Record buf := Buf {
  b_valid : Z;
  b_disk : Z;
  b_dev : Z;
  b_blockno : Z;
  b_lock : sleeplock;
  b_refcnt : Z;
  b_prev : nat;
  b_next : nat;
  b_data : list Z }.

(** struct inode (file.h). *)
Record inode := Inode {
  i_dev : Z;
  i_inum : Z;
  i_ref : Z;
  i_lock : sleeplock;
  i_valid : Z;
  i_type : Z;
  i_major : Z;
  i_minor : Z;
  i_nlink : Z;
  i_size : Z;
  i_addrs : list Z }.

(** struct file (file.h); [f_pipe] is the address of the page that holds the
    pipe, [f_ip] an index into [itable.inode]. *)
Record file := File {
  f_type : ftype;
  f_ref : Z;
  f_readable : bool;
  f_writable : bool;
  f_pipe : Z;
  f_ip : option nat;
  f_off : Z;
  f_major : Z }.

(** struct pipe (pipe.c). *)
Record pipe := Pipe {
  p_data : list Z;
  p_nread : Z;
  p_nwrite : Z;
  p_readopen : bool;
  p_writeopen : bool }.

(** struct superblock (fs.h). *)
Record superblock := Superblock {
  sb_magic : Z;
  sb_size : Z;
  sb_nblocks : Z;
  sb_ninodes : Z;
  sb_nlog : Z;
  sb_logstart : Z;
  sb_inodestart : Z;
  sb_bmapstart : Z }.

(** struct log with its struct logheader (log.c). *)
Record log := Log {
  l_start : Z;
  l_size : Z;
  l_outstanding : Z;
  l_committing : Z;
  l_dev : Z;
  l_n : Z;
  l_block : list Z }.

(** struct proc (proc.h).  [pr_ctx] holds the [ra] and [sp] slots of the saved
    context; pointers into [proc[]], [ftable] and [itable] are indices. *)
Record proc := Proc {
  pr_state : procstate;
  pr_chan : option channel;
  pr_killed : Z;
  pr_xstate : Z;
  pr_pid : Z;
  pr_parent : option nat;
  pr_kstack : Z;
  pr_sz : Z;
  pr_pagetable : Z;
  pr_trapframe : Z;
  pr_ctx : Z * Z;
  pr_ofile : list (option nat);
  pr_cwd : option nat;
  pr_name : list Z }.

(** The disk behind the virtio device: its blocks, and the sequence of block
    writes it has performed, newest first.  A crash keeps [d_img] only. *)
Record disk := Disk {
  d_img : gmap Z (list Z);
  d_hist : list (Z * list Z) }.

(** The console input buffer (console.c). *)
Record cons := Cons {
  c_buf : list Z;
  c_r : Z;
  c_w : Z;
  c_e : Z }.

(** The UART transmit buffer (uart.c) and the device's registers: [u_lsr] answers
    the successive reads of LSR, [u_rhr] the reads of RHR, [u_wr] logs the
    register writes (register, value), newest first. *)
Record uart := Uart {
  u_tx_buf : list Z;
  u_tx_w : Z;
  u_tx_r : Z;
  u_lsr : list Z;
  u_rhr : list Z;
  u_wr : list (Z * Z) }.

(** struct virtq_desc (virtio.h). *)
Record vdesc := Vdesc {
  vd_addr : daddr;
  vd_len : Z;
  vd_flags : Z;
  vd_next : Z }.

(** struct disk (virtio_disk.c): the descriptor table, the avail and used rings
    shared with the device, and the driver's own bookkeeping.  [v_info] holds
    info[].b and info[].status, [v_ops] the type and sector of ops[],
    [v_mmio] the writes to the device's registers, newest first. *)
Record vdisk := Vdisk {
  v_desc : list vdesc;
  v_avail_idx : Z;
  v_avail_ring : list Z;
  v_dev_idx : Z;
  v_used_ring : list Z;
  v_free : list bool;
  v_used_idx : Z;
  v_info : list (option nat * Z);
  v_ops : list (Z * Z);
  v_mmio : list (Z * Z) }.

(** The supervisor CSRs the kernel's trap code reads and writes; [s_spp] and
    [s_spie] are bits of sstatus. *)
Record csr := Csr {
  s_sepc : Z;
  s_scause : Z;
  s_stval : Z;
  s_stvec : Z;
  s_satp : Z;
  s_spp : bool;
  s_spie : bool;
  s_sip : Z }.

(** The interrupt controller: [pl_claims] answers the successive reads of the
    claim register, [pl_wr] logs the register writes, newest first. *)
Record plic := Plic {
  pl_claims : list Z;
  pl_wr : list (Z * Z) }.

(** The kernel's global variables, one field per variable or table, and the
    hardware they are used with. *)
Record kst := Kst {
  k_hart : hart;
  k_locks : gmap lockid Z;
  k_mem : bmem;
  k_freelist : Z;
  k_procs : list proc;
  k_nextpid : Z;
  k_initproc : option nat;
  k_ticks : Z;
  k_disk : disk;
  k_bufs : list buf;
  k_log : log;
  k_sb : superblock;
  k_inodes : list inode;
  k_files : list file;
  k_pipes : gmap Z pipe;
  k_cons : cons;
  k_uart : uart;
  k_panicked : bool;
  k_vdisk : vdisk;
  k_csr : csr;
  k_plic : plic;
  k_devsw : list (option devfn);
  k_kpt : Z;
  k_locking : bool;
  k_first : bool }.

(** ** Field updates *)

Definition set_h_id (v : Z) (r : hart) : hart :=
  {| h_id := v; h_proc := h_proc r; h_noff := h_noff r; h_intena := h_intena r;
     h_sie := h_sie r |}.
Definition set_h_proc (v : option nat) (r : hart) : hart :=
  {| h_id := h_id r; h_proc := v; h_noff := h_noff r; h_intena := h_intena r;
     h_sie := h_sie r |}.
Definition set_h_noff (v : Z) (r : hart) : hart :=
  {| h_id := h_id r; h_proc := h_proc r; h_noff := v; h_intena := h_intena r;
     h_sie := h_sie r |}.
Definition set_h_intena (v : bool) (r : hart) : hart :=
  {| h_id := h_id r; h_proc := h_proc r; h_noff := h_noff r; h_intena := v;
     h_sie := h_sie r |}.
Definition set_h_sie (v : bool) (r : hart) : hart :=
  {| h_id := h_id r; h_proc := h_proc r; h_noff := h_noff r; h_intena := h_intena r;
     h_sie := v |}.

Definition set_sl_locked (v : bool) (r : sleeplock) : sleeplock :=
  {| sl_locked := v; sl_pid := sl_pid r |}.
Definition set_sl_pid (v : Z) (r : sleeplock) : sleeplock :=
  {| sl_locked := sl_locked r; sl_pid := v |}.

Definition set_b_valid (v : Z) (r : buf) : buf :=
  {| b_valid := v; b_disk := b_disk r; b_dev := b_dev r; b_blockno := b_blockno r;
     b_lock := b_lock r; b_refcnt := b_refcnt r; b_prev := b_prev r; b_next := b_next r;
     b_data := b_data r |}.
Definition set_b_disk (v : Z) (r : buf) : buf :=
  {| b_valid := b_valid r; b_disk := v; b_dev := b_dev r; b_blockno := b_blockno r;
     b_lock := b_lock r; b_refcnt := b_refcnt r; b_prev := b_prev r; b_next := b_next r;
     b_data := b_data r |}.
Definition set_b_dev (v : Z) (r : buf) : buf :=
  {| b_valid := b_valid r; b_disk := b_disk r; b_dev := v; b_blockno := b_blockno r;
     b_lock := b_lock r; b_refcnt := b_refcnt r; b_prev := b_prev r; b_next := b_next r;
     b_data := b_data r |}.
Definition set_b_blockno (v : Z) (r : buf) : buf :=
  {| b_valid := b_valid r; b_disk := b_disk r; b_dev := b_dev r; b_blockno := v;
     b_lock := b_lock r; b_refcnt := b_refcnt r; b_prev := b_prev r; b_next := b_next r;
     b_data := b_data r |}.
Definition set_b_lock (v : sleeplock) (r : buf) : buf :=
  {| b_valid := b_valid r; b_disk := b_disk r; b_dev := b_dev r; b_blockno := b_blockno r;
     b_lock := v; b_refcnt := b_refcnt r; b_prev := b_prev r; b_next := b_next r;
     b_data := b_data r |}.
Definition set_b_refcnt (v : Z) (r : buf) : buf :=
  {| b_valid := b_valid r; b_disk := b_disk r; b_dev := b_dev r; b_blockno := b_blockno r;
     b_lock := b_lock r; b_refcnt := v; b_prev := b_prev r; b_next := b_next r;
     b_data := b_data r |}.
Definition set_b_prev (v : nat) (r : buf) : buf :=
  {| b_valid := b_valid r; b_disk := b_disk r; b_dev := b_dev r; b_blockno := b_blockno r;
     b_lock := b_lock r; b_refcnt := b_refcnt r; b_prev := v; b_next := b_next r;
     b_data := b_data r |}.
Definition set_b_next (v : nat) (r : buf) : buf :=
  {| b_valid := b_valid r; b_disk := b_disk r; b_dev := b_dev r; b_blockno := b_blockno r;
     b_lock := b_lock r; b_refcnt := b_refcnt r; b_prev := b_prev r; b_next := v;
     b_data := b_data r |}.
Definition set_b_data (v : list Z) (r : buf) : buf :=
  {| b_valid := b_valid r; b_disk := b_disk r; b_dev := b_dev r; b_blockno := b_blockno r;
     b_lock := b_lock r; b_refcnt := b_refcnt r; b_prev := b_prev r; b_next := b_next r;
     b_data := v |}.

Definition set_i_dev (v : Z) (r : inode) : inode :=
  {| i_dev := v; i_inum := i_inum r; i_ref := i_ref r; i_lock := i_lock r;
     i_valid := i_valid r; i_type := i_type r; i_major := i_major r; i_minor := i_minor r;
     i_nlink := i_nlink r; i_size := i_size r; i_addrs := i_addrs r |}.
Definition set_i_inum (v : Z) (r : inode) : inode :=
  {| i_dev := i_dev r; i_inum := v; i_ref := i_ref r; i_lock := i_lock r;
     i_valid := i_valid r; i_type := i_type r; i_major := i_major r; i_minor := i_minor r;
     i_nlink := i_nlink r; i_size := i_size r; i_addrs := i_addrs r |}.
Definition set_i_ref (v : Z) (r : inode) : inode :=
  {| i_dev := i_dev r; i_inum := i_inum r; i_ref := v; i_lock := i_lock r;
     i_valid := i_valid r; i_type := i_type r; i_major := i_major r; i_minor := i_minor r;
     i_nlink := i_nlink r; i_size := i_size r; i_addrs := i_addrs r |}.
Definition set_i_lock (v : sleeplock) (r : inode) : inode :=
  {| i_dev := i_dev r; i_inum := i_inum r; i_ref := i_ref r; i_lock := v;
     i_valid := i_valid r; i_type := i_type r; i_major := i_major r; i_minor := i_minor r;
     i_nlink := i_nlink r; i_size := i_size r; i_addrs := i_addrs r |}.
Definition set_i_valid (v : Z) (r : inode) : inode :=
  {| i_dev := i_dev r; i_inum := i_inum r; i_ref := i_ref r; i_lock := i_lock r;
     i_valid := v; i_type := i_type r; i_major := i_major r; i_minor := i_minor r;
     i_nlink := i_nlink r; i_size := i_size r; i_addrs := i_addrs r |}.
Definition set_i_type (v : Z) (r : inode) : inode :=
  {| i_dev := i_dev r; i_inum := i_inum r; i_ref := i_ref r; i_lock := i_lock r;
     i_valid := i_valid r; i_type := v; i_major := i_major r; i_minor := i_minor r;
     i_nlink := i_nlink r; i_size := i_size r; i_addrs := i_addrs r |}.
Definition set_i_major (v : Z) (r : inode) : inode :=
  {| i_dev := i_dev r; i_inum := i_inum r; i_ref := i_ref r; i_lock := i_lock r;
     i_valid := i_valid r; i_type := i_type r; i_major := v; i_minor := i_minor r;
     i_nlink := i_nlink r; i_size := i_size r; i_addrs := i_addrs r |}.
Definition set_i_minor (v : Z) (r : inode) : inode :=
  {| i_dev := i_dev r; i_inum := i_inum r; i_ref := i_ref r; i_lock := i_lock r;
     i_valid := i_valid r; i_type := i_type r; i_major := i_major r; i_minor := v;
     i_nlink := i_nlink r; i_size := i_size r; i_addrs := i_addrs r |}.
Definition set_i_nlink (v : Z) (r : inode) : inode :=
  {| i_dev := i_dev r; i_inum := i_inum r; i_ref := i_ref r; i_lock := i_lock r;
     i_valid := i_valid r; i_type := i_type r; i_major := i_major r; i_minor := i_minor r;
     i_nlink := v; i_size := i_size r; i_addrs := i_addrs r |}.
Definition set_i_size (v : Z) (r : inode) : inode :=
  {| i_dev := i_dev r; i_inum := i_inum r; i_ref := i_ref r; i_lock := i_lock r;
     i_valid := i_valid r; i_type := i_type r; i_major := i_major r; i_minor := i_minor r;
     i_nlink := i_nlink r; i_size := v; i_addrs := i_addrs r |}.
Definition set_i_addrs (v : list Z) (r : inode) : inode :=
  {| i_dev := i_dev r; i_inum := i_inum r; i_ref := i_ref r; i_lock := i_lock r;
     i_valid := i_valid r; i_type := i_type r; i_major := i_major r; i_minor := i_minor r;
     i_nlink := i_nlink r; i_size := i_size r; i_addrs := v |}.

Definition set_f_type (v : ftype) (r : file) : file :=
  {| f_type := v; f_ref := f_ref r; f_readable := f_readable r; f_writable := f_writable r;
     f_pipe := f_pipe r; f_ip := f_ip r; f_off := f_off r; f_major := f_major r |}.
Definition set_f_ref (v : Z) (r : file) : file :=
  {| f_type := f_type r; f_ref := v; f_readable := f_readable r; f_writable := f_writable r;
     f_pipe := f_pipe r; f_ip := f_ip r; f_off := f_off r; f_major := f_major r |}.
Definition set_f_readable (v : bool) (r : file) : file :=
  {| f_type := f_type r; f_ref := f_ref r; f_readable := v; f_writable := f_writable r;
     f_pipe := f_pipe r; f_ip := f_ip r; f_off := f_off r; f_major := f_major r |}.
Definition set_f_writable (v : bool) (r : file) : file :=
  {| f_type := f_type r; f_ref := f_ref r; f_readable := f_readable r; f_writable := v;
     f_pipe := f_pipe r; f_ip := f_ip r; f_off := f_off r; f_major := f_major r |}.
Definition set_f_pipe (v : Z) (r : file) : file :=
  {| f_type := f_type r; f_ref := f_ref r; f_readable := f_readable r;
     f_writable := f_writable r; f_pipe := v; f_ip := f_ip r; f_off := f_off r;
     f_major := f_major r |}.
Definition set_f_ip (v : option nat) (r : file) : file :=
  {| f_type := f_type r; f_ref := f_ref r; f_readable := f_readable r;
     f_writable := f_writable r; f_pipe := f_pipe r; f_ip := v; f_off := f_off r;
     f_major := f_major r |}.
Definition set_f_off (v : Z) (r : file) : file :=
  {| f_type := f_type r; f_ref := f_ref r; f_readable := f_readable r;
     f_writable := f_writable r; f_pipe := f_pipe r; f_ip := f_ip r; f_off := v;
     f_major := f_major r |}.
Definition set_f_major (v : Z) (r : file) : file :=
  {| f_type := f_type r; f_ref := f_ref r; f_readable := f_readable r;
     f_writable := f_writable r; f_pipe := f_pipe r; f_ip := f_ip r; f_off := f_off r;
     f_major := v |}.

Definition set_p_data (v : list Z) (r : pipe) : pipe :=
  {| p_data := v; p_nread := p_nread r; p_nwrite := p_nwrite r; p_readopen := p_readopen r;
     p_writeopen := p_writeopen r |}.
Definition set_p_nread (v : Z) (r : pipe) : pipe :=
  {| p_data := p_data r; p_nread := v; p_nwrite := p_nwrite r; p_readopen := p_readopen r;
     p_writeopen := p_writeopen r |}.
Definition set_p_nwrite (v : Z) (r : pipe) : pipe :=
  {| p_data := p_data r; p_nread := p_nread r; p_nwrite := v; p_readopen := p_readopen r;
     p_writeopen := p_writeopen r |}.
Definition set_p_readopen (v : bool) (r : pipe) : pipe :=
  {| p_data := p_data r; p_nread := p_nread r; p_nwrite := p_nwrite r; p_readopen := v;
     p_writeopen := p_writeopen r |}.
Definition set_p_writeopen (v : bool) (r : pipe) : pipe :=
  {| p_data := p_data r; p_nread := p_nread r; p_nwrite := p_nwrite r;
     p_readopen := p_readopen r; p_writeopen := v |}.

Definition set_l_start (v : Z) (r : log) : log :=
  {| l_start := v; l_size := l_size r; l_outstanding := l_outstanding r;
     l_committing := l_committing r; l_dev := l_dev r; l_n := l_n r; l_block := l_block r |}.
Definition set_l_size (v : Z) (r : log) : log :=
  {| l_start := l_start r; l_size := v; l_outstanding := l_outstanding r;
     l_committing := l_committing r; l_dev := l_dev r; l_n := l_n r; l_block := l_block r |}.
Definition set_l_outstanding (v : Z) (r : log) : log :=
  {| l_start := l_start r; l_size := l_size r; l_outstanding := v;
     l_committing := l_committing r; l_dev := l_dev r; l_n := l_n r; l_block := l_block r |}.
Definition set_l_committing (v : Z) (r : log) : log :=
  {| l_start := l_start r; l_size := l_size r; l_outstanding := l_outstanding r;
     l_committing := v; l_dev := l_dev r; l_n := l_n r; l_block := l_block r |}.
Definition set_l_dev (v : Z) (r : log) : log :=
  {| l_start := l_start r; l_size := l_size r; l_outstanding := l_outstanding r;
     l_committing := l_committing r; l_dev := v; l_n := l_n r; l_block := l_block r |}.
Definition set_l_n (v : Z) (r : log) : log :=
  {| l_start := l_start r; l_size := l_size r; l_outstanding := l_outstanding r;
     l_committing := l_committing r; l_dev := l_dev r; l_n := v; l_block := l_block r |}.
Definition set_l_block (v : list Z) (r : log) : log :=
  {| l_start := l_start r; l_size := l_size r; l_outstanding := l_outstanding r;
     l_committing := l_committing r; l_dev := l_dev r; l_n := l_n r; l_block := v |}.

Definition set_pr_state (v : procstate) (r : proc) : proc :=
  {| pr_state := v; pr_chan := pr_chan r; pr_killed := pr_killed r;
     pr_xstate := pr_xstate r; pr_pid := pr_pid r; pr_parent := pr_parent r;
     pr_kstack := pr_kstack r; pr_sz := pr_sz r; pr_pagetable := pr_pagetable r;
     pr_trapframe := pr_trapframe r; pr_ctx := pr_ctx r; pr_ofile := pr_ofile r;
     pr_cwd := pr_cwd r; pr_name := pr_name r |}.
Definition set_pr_chan (v : option channel) (r : proc) : proc :=
  {| pr_state := pr_state r; pr_chan := v; pr_killed := pr_killed r;
     pr_xstate := pr_xstate r; pr_pid := pr_pid r; pr_parent := pr_parent r;
     pr_kstack := pr_kstack r; pr_sz := pr_sz r; pr_pagetable := pr_pagetable r;
     pr_trapframe := pr_trapframe r; pr_ctx := pr_ctx r; pr_ofile := pr_ofile r;
     pr_cwd := pr_cwd r; pr_name := pr_name r |}.
Definition set_pr_killed (v : Z) (r : proc) : proc :=
  {| pr_state := pr_state r; pr_chan := pr_chan r; pr_killed := v; pr_xstate := pr_xstate r;
     pr_pid := pr_pid r; pr_parent := pr_parent r; pr_kstack := pr_kstack r;
     pr_sz := pr_sz r; pr_pagetable := pr_pagetable r; pr_trapframe := pr_trapframe r;
     pr_ctx := pr_ctx r; pr_ofile := pr_ofile r; pr_cwd := pr_cwd r; pr_name := pr_name r |}.
Definition set_pr_xstate (v : Z) (r : proc) : proc :=
  {| pr_state := pr_state r; pr_chan := pr_chan r; pr_killed := pr_killed r; pr_xstate := v;
     pr_pid := pr_pid r; pr_parent := pr_parent r; pr_kstack := pr_kstack r;
     pr_sz := pr_sz r; pr_pagetable := pr_pagetable r; pr_trapframe := pr_trapframe r;
     pr_ctx := pr_ctx r; pr_ofile := pr_ofile r; pr_cwd := pr_cwd r; pr_name := pr_name r |}.
Definition set_pr_pid (v : Z) (r : proc) : proc :=
  {| pr_state := pr_state r; pr_chan := pr_chan r; pr_killed := pr_killed r;
     pr_xstate := pr_xstate r; pr_pid := v; pr_parent := pr_parent r;
     pr_kstack := pr_kstack r; pr_sz := pr_sz r; pr_pagetable := pr_pagetable r;
     pr_trapframe := pr_trapframe r; pr_ctx := pr_ctx r; pr_ofile := pr_ofile r;
     pr_cwd := pr_cwd r; pr_name := pr_name r |}.
Definition set_pr_parent (v : option nat) (r : proc) : proc :=
  {| pr_state := pr_state r; pr_chan := pr_chan r; pr_killed := pr_killed r;
     pr_xstate := pr_xstate r; pr_pid := pr_pid r; pr_parent := v; pr_kstack := pr_kstack r;
     pr_sz := pr_sz r; pr_pagetable := pr_pagetable r; pr_trapframe := pr_trapframe r;
     pr_ctx := pr_ctx r; pr_ofile := pr_ofile r; pr_cwd := pr_cwd r; pr_name := pr_name r |}.
Definition set_pr_kstack (v : Z) (r : proc) : proc :=
  {| pr_state := pr_state r; pr_chan := pr_chan r; pr_killed := pr_killed r;
     pr_xstate := pr_xstate r; pr_pid := pr_pid r; pr_parent := pr_parent r; pr_kstack := v;
     pr_sz := pr_sz r; pr_pagetable := pr_pagetable r; pr_trapframe := pr_trapframe r;
     pr_ctx := pr_ctx r; pr_ofile := pr_ofile r; pr_cwd := pr_cwd r; pr_name := pr_name r |}.
Definition set_pr_sz (v : Z) (r : proc) : proc :=
  {| pr_state := pr_state r; pr_chan := pr_chan r; pr_killed := pr_killed r;
     pr_xstate := pr_xstate r; pr_pid := pr_pid r; pr_parent := pr_parent r;
     pr_kstack := pr_kstack r; pr_sz := v; pr_pagetable := pr_pagetable r;
     pr_trapframe := pr_trapframe r; pr_ctx := pr_ctx r; pr_ofile := pr_ofile r;
     pr_cwd := pr_cwd r; pr_name := pr_name r |}.
Definition set_pr_pagetable (v : Z) (r : proc) : proc :=
  {| pr_state := pr_state r; pr_chan := pr_chan r; pr_killed := pr_killed r;
     pr_xstate := pr_xstate r; pr_pid := pr_pid r; pr_parent := pr_parent r;
     pr_kstack := pr_kstack r; pr_sz := pr_sz r; pr_pagetable := v;
     pr_trapframe := pr_trapframe r; pr_ctx := pr_ctx r; pr_ofile := pr_ofile r;
     pr_cwd := pr_cwd r; pr_name := pr_name r |}.
Definition set_pr_trapframe (v : Z) (r : proc) : proc :=
  {| pr_state := pr_state r; pr_chan := pr_chan r; pr_killed := pr_killed r;
     pr_xstate := pr_xstate r; pr_pid := pr_pid r; pr_parent := pr_parent r;
     pr_kstack := pr_kstack r; pr_sz := pr_sz r; pr_pagetable := pr_pagetable r;
     pr_trapframe := v; pr_ctx := pr_ctx r; pr_ofile := pr_ofile r; pr_cwd := pr_cwd r;
     pr_name := pr_name r |}.
Definition set_pr_ctx (v : Z * Z) (r : proc) : proc :=
  {| pr_state := pr_state r; pr_chan := pr_chan r; pr_killed := pr_killed r;
     pr_xstate := pr_xstate r; pr_pid := pr_pid r; pr_parent := pr_parent r;
     pr_kstack := pr_kstack r; pr_sz := pr_sz r; pr_pagetable := pr_pagetable r;
     pr_trapframe := pr_trapframe r; pr_ctx := v; pr_ofile := pr_ofile r;
     pr_cwd := pr_cwd r; pr_name := pr_name r |}.
Definition set_pr_ofile (v : list (option nat)) (r : proc) : proc :=
  {| pr_state := pr_state r; pr_chan := pr_chan r; pr_killed := pr_killed r;
     pr_xstate := pr_xstate r; pr_pid := pr_pid r; pr_parent := pr_parent r;
     pr_kstack := pr_kstack r; pr_sz := pr_sz r; pr_pagetable := pr_pagetable r;
     pr_trapframe := pr_trapframe r; pr_ctx := pr_ctx r; pr_ofile := v; pr_cwd := pr_cwd r;
     pr_name := pr_name r |}.
Definition set_pr_cwd (v : option nat) (r : proc) : proc :=
  {| pr_state := pr_state r; pr_chan := pr_chan r; pr_killed := pr_killed r;
     pr_xstate := pr_xstate r; pr_pid := pr_pid r; pr_parent := pr_parent r;
     pr_kstack := pr_kstack r; pr_sz := pr_sz r; pr_pagetable := pr_pagetable r;
     pr_trapframe := pr_trapframe r; pr_ctx := pr_ctx r; pr_ofile := pr_ofile r;
     pr_cwd := v; pr_name := pr_name r |}.
Definition set_pr_name (v : list Z) (r : proc) : proc :=
  {| pr_state := pr_state r; pr_chan := pr_chan r; pr_killed := pr_killed r;
     pr_xstate := pr_xstate r; pr_pid := pr_pid r; pr_parent := pr_parent r;
     pr_kstack := pr_kstack r; pr_sz := pr_sz r; pr_pagetable := pr_pagetable r;
     pr_trapframe := pr_trapframe r; pr_ctx := pr_ctx r; pr_ofile := pr_ofile r;
     pr_cwd := pr_cwd r; pr_name := v |}.

Definition set_d_img (v : gmap Z (list Z)) (r : disk) : disk :=
  {| d_img := v; d_hist := d_hist r |}.
Definition set_d_hist (v : list (Z * list Z)) (r : disk) : disk :=
  {| d_img := d_img r; d_hist := v |}.

Definition set_c_buf (v : list Z) (r : cons) : cons :=
  {| c_buf := v; c_r := c_r r; c_w := c_w r; c_e := c_e r |}.
Definition set_c_r (v : Z) (r : cons) : cons :=
  {| c_buf := c_buf r; c_r := v; c_w := c_w r; c_e := c_e r |}.
Definition set_c_w (v : Z) (r : cons) : cons :=
  {| c_buf := c_buf r; c_r := c_r r; c_w := v; c_e := c_e r |}.
Definition set_c_e (v : Z) (r : cons) : cons :=
  {| c_buf := c_buf r; c_r := c_r r; c_w := c_w r; c_e := v |}.

Definition set_u_tx_buf (v : list Z) (r : uart) : uart :=
  {| u_tx_buf := v; u_tx_w := u_tx_w r; u_tx_r := u_tx_r r; u_lsr := u_lsr r;
     u_rhr := u_rhr r; u_wr := u_wr r |}.
Definition set_u_tx_w (v : Z) (r : uart) : uart :=
  {| u_tx_buf := u_tx_buf r; u_tx_w := v; u_tx_r := u_tx_r r; u_lsr := u_lsr r;
     u_rhr := u_rhr r; u_wr := u_wr r |}.
Definition set_u_tx_r (v : Z) (r : uart) : uart :=
  {| u_tx_buf := u_tx_buf r; u_tx_w := u_tx_w r; u_tx_r := v; u_lsr := u_lsr r;
     u_rhr := u_rhr r; u_wr := u_wr r |}.
Definition set_u_lsr (v : list Z) (r : uart) : uart :=
  {| u_tx_buf := u_tx_buf r; u_tx_w := u_tx_w r; u_tx_r := u_tx_r r; u_lsr := v;
     u_rhr := u_rhr r; u_wr := u_wr r |}.
Definition set_u_rhr (v : list Z) (r : uart) : uart :=
  {| u_tx_buf := u_tx_buf r; u_tx_w := u_tx_w r; u_tx_r := u_tx_r r; u_lsr := u_lsr r;
     u_rhr := v; u_wr := u_wr r |}.
Definition set_u_wr (v : list (Z * Z)) (r : uart) : uart :=
  {| u_tx_buf := u_tx_buf r; u_tx_w := u_tx_w r; u_tx_r := u_tx_r r; u_lsr := u_lsr r;
     u_rhr := u_rhr r; u_wr := v |}.

Definition set_vd_addr (v : daddr) (r : vdesc) : vdesc :=
  {| vd_addr := v; vd_len := vd_len r; vd_flags := vd_flags r; vd_next := vd_next r |}.
Definition set_vd_len (v : Z) (r : vdesc) : vdesc :=
  {| vd_addr := vd_addr r; vd_len := v; vd_flags := vd_flags r; vd_next := vd_next r |}.
Definition set_vd_flags (v : Z) (r : vdesc) : vdesc :=
  {| vd_addr := vd_addr r; vd_len := vd_len r; vd_flags := v; vd_next := vd_next r |}.
Definition set_vd_next (v : Z) (r : vdesc) : vdesc :=
  {| vd_addr := vd_addr r; vd_len := vd_len r; vd_flags := vd_flags r; vd_next := v |}.

Definition set_v_desc (v : list vdesc) (r : vdisk) : vdisk :=
  {| v_desc := v; v_avail_idx := v_avail_idx r; v_avail_ring := v_avail_ring r;
     v_dev_idx := v_dev_idx r; v_used_ring := v_used_ring r; v_free := v_free r;
     v_used_idx := v_used_idx r; v_info := v_info r; v_ops := v_ops r; v_mmio := v_mmio r |}.
Definition set_v_avail_idx (v : Z) (r : vdisk) : vdisk :=
  {| v_desc := v_desc r; v_avail_idx := v; v_avail_ring := v_avail_ring r;
     v_dev_idx := v_dev_idx r; v_used_ring := v_used_ring r; v_free := v_free r;
     v_used_idx := v_used_idx r; v_info := v_info r; v_ops := v_ops r; v_mmio := v_mmio r |}.
Definition set_v_avail_ring (v : list Z) (r : vdisk) : vdisk :=
  {| v_desc := v_desc r; v_avail_idx := v_avail_idx r; v_avail_ring := v;
     v_dev_idx := v_dev_idx r; v_used_ring := v_used_ring r; v_free := v_free r;
     v_used_idx := v_used_idx r; v_info := v_info r; v_ops := v_ops r; v_mmio := v_mmio r |}.
Definition set_v_dev_idx (v : Z) (r : vdisk) : vdisk :=
  {| v_desc := v_desc r; v_avail_idx := v_avail_idx r; v_avail_ring := v_avail_ring r;
     v_dev_idx := v; v_used_ring := v_used_ring r; v_free := v_free r;
     v_used_idx := v_used_idx r; v_info := v_info r; v_ops := v_ops r; v_mmio := v_mmio r |}.
Definition set_v_used_ring (v : list Z) (r : vdisk) : vdisk :=
  {| v_desc := v_desc r; v_avail_idx := v_avail_idx r; v_avail_ring := v_avail_ring r;
     v_dev_idx := v_dev_idx r; v_used_ring := v; v_free := v_free r;
     v_used_idx := v_used_idx r; v_info := v_info r; v_ops := v_ops r; v_mmio := v_mmio r |}.
Definition set_v_free (v : list bool) (r : vdisk) : vdisk :=
  {| v_desc := v_desc r; v_avail_idx := v_avail_idx r; v_avail_ring := v_avail_ring r;
     v_dev_idx := v_dev_idx r; v_used_ring := v_used_ring r; v_free := v;
     v_used_idx := v_used_idx r; v_info := v_info r; v_ops := v_ops r; v_mmio := v_mmio r |}.
Definition set_v_used_idx (v : Z) (r : vdisk) : vdisk :=
  {| v_desc := v_desc r; v_avail_idx := v_avail_idx r; v_avail_ring := v_avail_ring r;
     v_dev_idx := v_dev_idx r; v_used_ring := v_used_ring r; v_free := v_free r;
     v_used_idx := v; v_info := v_info r; v_ops := v_ops r; v_mmio := v_mmio r |}.
Definition set_v_info (v : list (option nat * Z)) (r : vdisk) : vdisk :=
  {| v_desc := v_desc r; v_avail_idx := v_avail_idx r; v_avail_ring := v_avail_ring r;
     v_dev_idx := v_dev_idx r; v_used_ring := v_used_ring r; v_free := v_free r;
     v_used_idx := v_used_idx r; v_info := v; v_ops := v_ops r; v_mmio := v_mmio r |}.
Definition set_v_ops (v : list (Z * Z)) (r : vdisk) : vdisk :=
  {| v_desc := v_desc r; v_avail_idx := v_avail_idx r; v_avail_ring := v_avail_ring r;
     v_dev_idx := v_dev_idx r; v_used_ring := v_used_ring r; v_free := v_free r;
     v_used_idx := v_used_idx r; v_info := v_info r; v_ops := v; v_mmio := v_mmio r |}.
Definition set_v_mmio (v : list (Z * Z)) (r : vdisk) : vdisk :=
  {| v_desc := v_desc r; v_avail_idx := v_avail_idx r; v_avail_ring := v_avail_ring r;
     v_dev_idx := v_dev_idx r; v_used_ring := v_used_ring r; v_free := v_free r;
     v_used_idx := v_used_idx r; v_info := v_info r; v_ops := v_ops r; v_mmio := v |}.

Definition set_s_sepc (v : Z) (r : csr) : csr :=
  {| s_sepc := v; s_scause := s_scause r; s_stval := s_stval r; s_stvec := s_stvec r;
     s_satp := s_satp r; s_spp := s_spp r; s_spie := s_spie r; s_sip := s_sip r |}.
Definition set_s_scause (v : Z) (r : csr) : csr :=
  {| s_sepc := s_sepc r; s_scause := v; s_stval := s_stval r; s_stvec := s_stvec r;
     s_satp := s_satp r; s_spp := s_spp r; s_spie := s_spie r; s_sip := s_sip r |}.
Definition set_s_stval (v : Z) (r : csr) : csr :=
  {| s_sepc := s_sepc r; s_scause := s_scause r; s_stval := v; s_stvec := s_stvec r;
     s_satp := s_satp r; s_spp := s_spp r; s_spie := s_spie r; s_sip := s_sip r |}.
Definition set_s_stvec (v : Z) (r : csr) : csr :=
  {| s_sepc := s_sepc r; s_scause := s_scause r; s_stval := s_stval r; s_stvec := v;
     s_satp := s_satp r; s_spp := s_spp r; s_spie := s_spie r; s_sip := s_sip r |}.
Definition set_s_satp (v : Z) (r : csr) : csr :=
  {| s_sepc := s_sepc r; s_scause := s_scause r; s_stval := s_stval r; s_stvec := s_stvec r;
     s_satp := v; s_spp := s_spp r; s_spie := s_spie r; s_sip := s_sip r |}.
Definition set_s_spp (v : bool) (r : csr) : csr :=
  {| s_sepc := s_sepc r; s_scause := s_scause r; s_stval := s_stval r; s_stvec := s_stvec r;
     s_satp := s_satp r; s_spp := v; s_spie := s_spie r; s_sip := s_sip r |}.
Definition set_s_spie (v : bool) (r : csr) : csr :=
  {| s_sepc := s_sepc r; s_scause := s_scause r; s_stval := s_stval r; s_stvec := s_stvec r;
     s_satp := s_satp r; s_spp := s_spp r; s_spie := v; s_sip := s_sip r |}.
Definition set_s_sip (v : Z) (r : csr) : csr :=
  {| s_sepc := s_sepc r; s_scause := s_scause r; s_stval := s_stval r; s_stvec := s_stvec r;
     s_satp := s_satp r; s_spp := s_spp r; s_spie := s_spie r; s_sip := v |}.

Definition set_pl_claims (v : list Z) (r : plic) : plic :=
  {| pl_claims := v; pl_wr := pl_wr r |}.
Definition set_pl_wr (v : list (Z * Z)) (r : plic) : plic :=
  {| pl_claims := pl_claims r; pl_wr := v |}.

Definition set_k_hart (v : hart) (k : kst) : kst :=
  {| k_hart := v; k_locks := k_locks k; k_mem := k_mem k; k_freelist := k_freelist k;
     k_procs := k_procs k; k_nextpid := k_nextpid k; k_initproc := k_initproc k;
     k_ticks := k_ticks k; k_disk := k_disk k; k_bufs := k_bufs k; k_log := k_log k;
     k_sb := k_sb k; k_inodes := k_inodes k; k_files := k_files k; k_pipes := k_pipes k;
     k_cons := k_cons k; k_uart := k_uart k; k_panicked := k_panicked k;
     k_vdisk := k_vdisk k; k_csr := k_csr k; k_plic := k_plic k; k_devsw := k_devsw k;
     k_kpt := k_kpt k; k_locking := k_locking k; k_first := k_first k |}.
Definition set_k_locks (v : gmap lockid Z) (k : kst) : kst :=
  {| k_hart := k_hart k; k_locks := v; k_mem := k_mem k; k_freelist := k_freelist k;
     k_procs := k_procs k; k_nextpid := k_nextpid k; k_initproc := k_initproc k;
     k_ticks := k_ticks k; k_disk := k_disk k; k_bufs := k_bufs k; k_log := k_log k;
     k_sb := k_sb k; k_inodes := k_inodes k; k_files := k_files k; k_pipes := k_pipes k;
     k_cons := k_cons k; k_uart := k_uart k; k_panicked := k_panicked k;
     k_vdisk := k_vdisk k; k_csr := k_csr k; k_plic := k_plic k; k_devsw := k_devsw k;
     k_kpt := k_kpt k; k_locking := k_locking k; k_first := k_first k |}.
Definition set_k_mem (v : bmem) (k : kst) : kst :=
  {| k_hart := k_hart k; k_locks := k_locks k; k_mem := v; k_freelist := k_freelist k;
     k_procs := k_procs k; k_nextpid := k_nextpid k; k_initproc := k_initproc k;
     k_ticks := k_ticks k; k_disk := k_disk k; k_bufs := k_bufs k; k_log := k_log k;
     k_sb := k_sb k; k_inodes := k_inodes k; k_files := k_files k; k_pipes := k_pipes k;
     k_cons := k_cons k; k_uart := k_uart k; k_panicked := k_panicked k;
     k_vdisk := k_vdisk k; k_csr := k_csr k; k_plic := k_plic k; k_devsw := k_devsw k;
     k_kpt := k_kpt k; k_locking := k_locking k; k_first := k_first k |}.
Definition set_k_freelist (v : Z) (k : kst) : kst :=
  {| k_hart := k_hart k; k_locks := k_locks k; k_mem := k_mem k; k_freelist := v;
     k_procs := k_procs k; k_nextpid := k_nextpid k; k_initproc := k_initproc k;
     k_ticks := k_ticks k; k_disk := k_disk k; k_bufs := k_bufs k; k_log := k_log k;
     k_sb := k_sb k; k_inodes := k_inodes k; k_files := k_files k; k_pipes := k_pipes k;
     k_cons := k_cons k; k_uart := k_uart k; k_panicked := k_panicked k;
     k_vdisk := k_vdisk k; k_csr := k_csr k; k_plic := k_plic k; k_devsw := k_devsw k;
     k_kpt := k_kpt k; k_locking := k_locking k; k_first := k_first k |}.
Definition set_k_procs (v : list proc) (k : kst) : kst :=
  {| k_hart := k_hart k; k_locks := k_locks k; k_mem := k_mem k; k_freelist := k_freelist k;
     k_procs := v; k_nextpid := k_nextpid k; k_initproc := k_initproc k;
     k_ticks := k_ticks k; k_disk := k_disk k; k_bufs := k_bufs k; k_log := k_log k;
     k_sb := k_sb k; k_inodes := k_inodes k; k_files := k_files k; k_pipes := k_pipes k;
     k_cons := k_cons k; k_uart := k_uart k; k_panicked := k_panicked k;
     k_vdisk := k_vdisk k; k_csr := k_csr k; k_plic := k_plic k; k_devsw := k_devsw k;
     k_kpt := k_kpt k; k_locking := k_locking k; k_first := k_first k |}.
Definition set_k_nextpid (v : Z) (k : kst) : kst :=
  {| k_hart := k_hart k; k_locks := k_locks k; k_mem := k_mem k; k_freelist := k_freelist k;
     k_procs := k_procs k; k_nextpid := v; k_initproc := k_initproc k; k_ticks := k_ticks k;
     k_disk := k_disk k; k_bufs := k_bufs k; k_log := k_log k; k_sb := k_sb k;
     k_inodes := k_inodes k; k_files := k_files k; k_pipes := k_pipes k; k_cons := k_cons k;
     k_uart := k_uart k; k_panicked := k_panicked k; k_vdisk := k_vdisk k; k_csr := k_csr k;
     k_plic := k_plic k; k_devsw := k_devsw k; k_kpt := k_kpt k; k_locking := k_locking k;
     k_first := k_first k |}.
Definition set_k_initproc (v : option nat) (k : kst) : kst :=
  {| k_hart := k_hart k; k_locks := k_locks k; k_mem := k_mem k; k_freelist := k_freelist k;
     k_procs := k_procs k; k_nextpid := k_nextpid k; k_initproc := v; k_ticks := k_ticks k;
     k_disk := k_disk k; k_bufs := k_bufs k; k_log := k_log k; k_sb := k_sb k;
     k_inodes := k_inodes k; k_files := k_files k; k_pipes := k_pipes k; k_cons := k_cons k;
     k_uart := k_uart k; k_panicked := k_panicked k; k_vdisk := k_vdisk k; k_csr := k_csr k;
     k_plic := k_plic k; k_devsw := k_devsw k; k_kpt := k_kpt k; k_locking := k_locking k;
     k_first := k_first k |}.
Definition set_k_ticks (v : Z) (k : kst) : kst :=
  {| k_hart := k_hart k; k_locks := k_locks k; k_mem := k_mem k; k_freelist := k_freelist k;
     k_procs := k_procs k; k_nextpid := k_nextpid k; k_initproc := k_initproc k;
     k_ticks := v; k_disk := k_disk k; k_bufs := k_bufs k; k_log := k_log k; k_sb := k_sb k;
     k_inodes := k_inodes k; k_files := k_files k; k_pipes := k_pipes k; k_cons := k_cons k;
     k_uart := k_uart k; k_panicked := k_panicked k; k_vdisk := k_vdisk k; k_csr := k_csr k;
     k_plic := k_plic k; k_devsw := k_devsw k; k_kpt := k_kpt k; k_locking := k_locking k;
     k_first := k_first k |}.
Definition set_k_disk (v : disk) (k : kst) : kst :=
  {| k_hart := k_hart k; k_locks := k_locks k; k_mem := k_mem k; k_freelist := k_freelist k;
     k_procs := k_procs k; k_nextpid := k_nextpid k; k_initproc := k_initproc k;
     k_ticks := k_ticks k; k_disk := v; k_bufs := k_bufs k; k_log := k_log k;
     k_sb := k_sb k; k_inodes := k_inodes k; k_files := k_files k; k_pipes := k_pipes k;
     k_cons := k_cons k; k_uart := k_uart k; k_panicked := k_panicked k;
     k_vdisk := k_vdisk k; k_csr := k_csr k; k_plic := k_plic k; k_devsw := k_devsw k;
     k_kpt := k_kpt k; k_locking := k_locking k; k_first := k_first k |}.
Definition set_k_bufs (v : list buf) (k : kst) : kst :=
  {| k_hart := k_hart k; k_locks := k_locks k; k_mem := k_mem k; k_freelist := k_freelist k;
     k_procs := k_procs k; k_nextpid := k_nextpid k; k_initproc := k_initproc k;
     k_ticks := k_ticks k; k_disk := k_disk k; k_bufs := v; k_log := k_log k;
     k_sb := k_sb k; k_inodes := k_inodes k; k_files := k_files k; k_pipes := k_pipes k;
     k_cons := k_cons k; k_uart := k_uart k; k_panicked := k_panicked k;
     k_vdisk := k_vdisk k; k_csr := k_csr k; k_plic := k_plic k; k_devsw := k_devsw k;
     k_kpt := k_kpt k; k_locking := k_locking k; k_first := k_first k |}.
Definition set_k_log (v : log) (k : kst) : kst :=
  {| k_hart := k_hart k; k_locks := k_locks k; k_mem := k_mem k; k_freelist := k_freelist k;
     k_procs := k_procs k; k_nextpid := k_nextpid k; k_initproc := k_initproc k;
     k_ticks := k_ticks k; k_disk := k_disk k; k_bufs := k_bufs k; k_log := v;
     k_sb := k_sb k; k_inodes := k_inodes k; k_files := k_files k; k_pipes := k_pipes k;
     k_cons := k_cons k; k_uart := k_uart k; k_panicked := k_panicked k;
     k_vdisk := k_vdisk k; k_csr := k_csr k; k_plic := k_plic k; k_devsw := k_devsw k;
     k_kpt := k_kpt k; k_locking := k_locking k; k_first := k_first k |}.
Definition set_k_sb (v : superblock) (k : kst) : kst :=
  {| k_hart := k_hart k; k_locks := k_locks k; k_mem := k_mem k; k_freelist := k_freelist k;
     k_procs := k_procs k; k_nextpid := k_nextpid k; k_initproc := k_initproc k;
     k_ticks := k_ticks k; k_disk := k_disk k; k_bufs := k_bufs k; k_log := k_log k;
     k_sb := v; k_inodes := k_inodes k; k_files := k_files k; k_pipes := k_pipes k;
     k_cons := k_cons k; k_uart := k_uart k; k_panicked := k_panicked k;
     k_vdisk := k_vdisk k; k_csr := k_csr k; k_plic := k_plic k; k_devsw := k_devsw k;
     k_kpt := k_kpt k; k_locking := k_locking k; k_first := k_first k |}.
Definition set_k_inodes (v : list inode) (k : kst) : kst :=
  {| k_hart := k_hart k; k_locks := k_locks k; k_mem := k_mem k; k_freelist := k_freelist k;
     k_procs := k_procs k; k_nextpid := k_nextpid k; k_initproc := k_initproc k;
     k_ticks := k_ticks k; k_disk := k_disk k; k_bufs := k_bufs k; k_log := k_log k;
     k_sb := k_sb k; k_inodes := v; k_files := k_files k; k_pipes := k_pipes k;
     k_cons := k_cons k; k_uart := k_uart k; k_panicked := k_panicked k;
     k_vdisk := k_vdisk k; k_csr := k_csr k; k_plic := k_plic k; k_devsw := k_devsw k;
     k_kpt := k_kpt k; k_locking := k_locking k; k_first := k_first k |}.
Definition set_k_files (v : list file) (k : kst) : kst :=
  {| k_hart := k_hart k; k_locks := k_locks k; k_mem := k_mem k; k_freelist := k_freelist k;
     k_procs := k_procs k; k_nextpid := k_nextpid k; k_initproc := k_initproc k;
     k_ticks := k_ticks k; k_disk := k_disk k; k_bufs := k_bufs k; k_log := k_log k;
     k_sb := k_sb k; k_inodes := k_inodes k; k_files := v; k_pipes := k_pipes k;
     k_cons := k_cons k; k_uart := k_uart k; k_panicked := k_panicked k;
     k_vdisk := k_vdisk k; k_csr := k_csr k; k_plic := k_plic k; k_devsw := k_devsw k;
     k_kpt := k_kpt k; k_locking := k_locking k; k_first := k_first k |}.
Definition set_k_pipes (v : gmap Z pipe) (k : kst) : kst :=
  {| k_hart := k_hart k; k_locks := k_locks k; k_mem := k_mem k; k_freelist := k_freelist k;
     k_procs := k_procs k; k_nextpid := k_nextpid k; k_initproc := k_initproc k;
     k_ticks := k_ticks k; k_disk := k_disk k; k_bufs := k_bufs k; k_log := k_log k;
     k_sb := k_sb k; k_inodes := k_inodes k; k_files := k_files k; k_pipes := v;
     k_cons := k_cons k; k_uart := k_uart k; k_panicked := k_panicked k;
     k_vdisk := k_vdisk k; k_csr := k_csr k; k_plic := k_plic k; k_devsw := k_devsw k;
     k_kpt := k_kpt k; k_locking := k_locking k; k_first := k_first k |}.
Definition set_k_cons (v : cons) (k : kst) : kst :=
  {| k_hart := k_hart k; k_locks := k_locks k; k_mem := k_mem k; k_freelist := k_freelist k;
     k_procs := k_procs k; k_nextpid := k_nextpid k; k_initproc := k_initproc k;
     k_ticks := k_ticks k; k_disk := k_disk k; k_bufs := k_bufs k; k_log := k_log k;
     k_sb := k_sb k; k_inodes := k_inodes k; k_files := k_files k; k_pipes := k_pipes k;
     k_cons := v; k_uart := k_uart k; k_panicked := k_panicked k; k_vdisk := k_vdisk k;
     k_csr := k_csr k; k_plic := k_plic k; k_devsw := k_devsw k; k_kpt := k_kpt k;
     k_locking := k_locking k; k_first := k_first k |}.
Definition set_k_uart (v : uart) (k : kst) : kst :=
  {| k_hart := k_hart k; k_locks := k_locks k; k_mem := k_mem k; k_freelist := k_freelist k;
     k_procs := k_procs k; k_nextpid := k_nextpid k; k_initproc := k_initproc k;
     k_ticks := k_ticks k; k_disk := k_disk k; k_bufs := k_bufs k; k_log := k_log k;
     k_sb := k_sb k; k_inodes := k_inodes k; k_files := k_files k; k_pipes := k_pipes k;
     k_cons := k_cons k; k_uart := v; k_panicked := k_panicked k; k_vdisk := k_vdisk k;
     k_csr := k_csr k; k_plic := k_plic k; k_devsw := k_devsw k; k_kpt := k_kpt k;
     k_locking := k_locking k; k_first := k_first k |}.
Definition set_k_panicked (v : bool) (k : kst) : kst :=
  {| k_hart := k_hart k; k_locks := k_locks k; k_mem := k_mem k; k_freelist := k_freelist k;
     k_procs := k_procs k; k_nextpid := k_nextpid k; k_initproc := k_initproc k;
     k_ticks := k_ticks k; k_disk := k_disk k; k_bufs := k_bufs k; k_log := k_log k;
     k_sb := k_sb k; k_inodes := k_inodes k; k_files := k_files k; k_pipes := k_pipes k;
     k_cons := k_cons k; k_uart := k_uart k; k_panicked := v; k_vdisk := k_vdisk k;
     k_csr := k_csr k; k_plic := k_plic k; k_devsw := k_devsw k; k_kpt := k_kpt k;
     k_locking := k_locking k; k_first := k_first k |}.
Definition set_k_vdisk (v : vdisk) (k : kst) : kst :=
  {| k_hart := k_hart k; k_locks := k_locks k; k_mem := k_mem k; k_freelist := k_freelist k;
     k_procs := k_procs k; k_nextpid := k_nextpid k; k_initproc := k_initproc k;
     k_ticks := k_ticks k; k_disk := k_disk k; k_bufs := k_bufs k; k_log := k_log k;
     k_sb := k_sb k; k_inodes := k_inodes k; k_files := k_files k; k_pipes := k_pipes k;
     k_cons := k_cons k; k_uart := k_uart k; k_panicked := k_panicked k; k_vdisk := v;
     k_csr := k_csr k; k_plic := k_plic k; k_devsw := k_devsw k; k_kpt := k_kpt k;
     k_locking := k_locking k; k_first := k_first k |}.
Definition set_k_csr (v : csr) (k : kst) : kst :=
  {| k_hart := k_hart k; k_locks := k_locks k; k_mem := k_mem k; k_freelist := k_freelist k;
     k_procs := k_procs k; k_nextpid := k_nextpid k; k_initproc := k_initproc k;
     k_ticks := k_ticks k; k_disk := k_disk k; k_bufs := k_bufs k; k_log := k_log k;
     k_sb := k_sb k; k_inodes := k_inodes k; k_files := k_files k; k_pipes := k_pipes k;
     k_cons := k_cons k; k_uart := k_uart k; k_panicked := k_panicked k;
     k_vdisk := k_vdisk k; k_csr := v; k_plic := k_plic k; k_devsw := k_devsw k;
     k_kpt := k_kpt k; k_locking := k_locking k; k_first := k_first k |}.
Definition set_k_plic (v : plic) (k : kst) : kst :=
  {| k_hart := k_hart k; k_locks := k_locks k; k_mem := k_mem k; k_freelist := k_freelist k;
     k_procs := k_procs k; k_nextpid := k_nextpid k; k_initproc := k_initproc k;
     k_ticks := k_ticks k; k_disk := k_disk k; k_bufs := k_bufs k; k_log := k_log k;
     k_sb := k_sb k; k_inodes := k_inodes k; k_files := k_files k; k_pipes := k_pipes k;
     k_cons := k_cons k; k_uart := k_uart k; k_panicked := k_panicked k;
     k_vdisk := k_vdisk k; k_csr := k_csr k; k_plic := v; k_devsw := k_devsw k;
     k_kpt := k_kpt k; k_locking := k_locking k; k_first := k_first k |}.
Definition set_k_devsw (v : list (option devfn)) (k : kst) : kst :=
  {| k_hart := k_hart k; k_locks := k_locks k; k_mem := k_mem k; k_freelist := k_freelist k;
     k_procs := k_procs k; k_nextpid := k_nextpid k; k_initproc := k_initproc k;
     k_ticks := k_ticks k; k_disk := k_disk k; k_bufs := k_bufs k; k_log := k_log k;
     k_sb := k_sb k; k_inodes := k_inodes k; k_files := k_files k; k_pipes := k_pipes k;
     k_cons := k_cons k; k_uart := k_uart k; k_panicked := k_panicked k;
     k_vdisk := k_vdisk k; k_csr := k_csr k; k_plic := k_plic k; k_devsw := v;
     k_kpt := k_kpt k; k_locking := k_locking k; k_first := k_first k |}.
Definition set_k_kpt (v : Z) (k : kst) : kst :=
  {| k_hart := k_hart k; k_locks := k_locks k; k_mem := k_mem k; k_freelist := k_freelist k;
     k_procs := k_procs k; k_nextpid := k_nextpid k; k_initproc := k_initproc k;
     k_ticks := k_ticks k; k_disk := k_disk k; k_bufs := k_bufs k; k_log := k_log k;
     k_sb := k_sb k; k_inodes := k_inodes k; k_files := k_files k; k_pipes := k_pipes k;
     k_cons := k_cons k; k_uart := k_uart k; k_panicked := k_panicked k;
     k_vdisk := k_vdisk k; k_csr := k_csr k; k_plic := k_plic k; k_devsw := k_devsw k;
     k_kpt := v; k_locking := k_locking k; k_first := k_first k |}.
Definition set_k_locking (v : bool) (k : kst) : kst :=
  {| k_hart := k_hart k; k_locks := k_locks k; k_mem := k_mem k; k_freelist := k_freelist k;
     k_procs := k_procs k; k_nextpid := k_nextpid k; k_initproc := k_initproc k;
     k_ticks := k_ticks k; k_disk := k_disk k; k_bufs := k_bufs k; k_log := k_log k;
     k_sb := k_sb k; k_inodes := k_inodes k; k_files := k_files k; k_pipes := k_pipes k;
     k_cons := k_cons k; k_uart := k_uart k; k_panicked := k_panicked k;
     k_vdisk := k_vdisk k; k_csr := k_csr k; k_plic := k_plic k; k_devsw := k_devsw k;
     k_kpt := k_kpt k; k_locking := v; k_first := k_first k |}.
Definition set_k_first (v : bool) (k : kst) : kst :=
  {| k_hart := k_hart k; k_locks := k_locks k; k_mem := k_mem k; k_freelist := k_freelist k;
     k_procs := k_procs k; k_nextpid := k_nextpid k; k_initproc := k_initproc k;
     k_ticks := k_ticks k; k_disk := k_disk k; k_bufs := k_bufs k; k_log := k_log k;
     k_sb := k_sb k; k_inodes := k_inodes k; k_files := k_files k; k_pipes := k_pipes k;
     k_cons := k_cons k; k_uart := k_uart k; k_panicked := k_panicked k;
     k_vdisk := k_vdisk k; k_csr := k_csr k; k_plic := k_plic k; k_devsw := k_devsw k;
     k_kpt := k_kpt k; k_locking := k_locking k; k_first := v |}.

(** [ksimpl] reduces every field read of an updated record. *)
Ltac ksimpl :=
  cbn [
    h_id h_proc h_noff h_intena h_sie sl_locked sl_pid b_valid b_disk b_dev b_blockno
    b_lock b_refcnt b_prev b_next b_data i_dev i_inum i_ref i_lock i_valid i_type
    i_major i_minor i_nlink i_size i_addrs f_type f_ref f_readable f_writable f_pipe
    f_ip f_off f_major p_data p_nread p_nwrite p_readopen p_writeopen sb_magic sb_size
    sb_nblocks sb_ninodes sb_nlog sb_logstart sb_inodestart sb_bmapstart l_start l_size
    l_outstanding l_committing l_dev l_n l_block pr_state pr_chan pr_killed pr_xstate
    pr_pid pr_parent pr_kstack pr_sz pr_pagetable pr_trapframe pr_ctx pr_ofile pr_cwd
    pr_name d_img d_hist c_buf c_r c_w c_e u_tx_buf u_tx_w u_tx_r u_lsr u_rhr u_wr
    vd_addr vd_len vd_flags vd_next v_desc v_avail_idx v_avail_ring v_dev_idx
    v_used_ring v_free v_used_idx v_info v_ops v_mmio s_sepc s_scause s_stval s_stvec
    s_satp s_spp s_spie s_sip pl_claims pl_wr k_hart k_locks k_mem k_freelist k_procs
    k_nextpid k_initproc k_ticks k_disk k_bufs k_log k_sb k_inodes k_files k_pipes
    k_cons k_uart k_panicked k_vdisk k_csr k_plic k_devsw k_kpt k_locking k_first
    set_h_id set_h_proc set_h_noff set_h_intena set_h_sie set_sl_locked set_sl_pid
    set_b_valid set_b_disk set_b_dev set_b_blockno set_b_lock set_b_refcnt set_b_prev
    set_b_next set_b_data set_i_dev set_i_inum set_i_ref set_i_lock set_i_valid
    set_i_type set_i_major set_i_minor set_i_nlink set_i_size set_i_addrs set_f_type
    set_f_ref set_f_readable set_f_writable set_f_pipe set_f_ip set_f_off set_f_major
    set_p_data set_p_nread set_p_nwrite set_p_readopen set_p_writeopen set_l_start
    set_l_size set_l_outstanding set_l_committing set_l_dev set_l_n set_l_block
    set_pr_state set_pr_chan set_pr_killed set_pr_xstate set_pr_pid set_pr_parent
    set_pr_kstack set_pr_sz set_pr_pagetable set_pr_trapframe set_pr_ctx set_pr_ofile
    set_pr_cwd set_pr_name set_d_img set_d_hist set_c_buf set_c_r set_c_w set_c_e
    set_u_tx_buf set_u_tx_w set_u_tx_r set_u_lsr set_u_rhr set_u_wr set_vd_addr
    set_vd_len set_vd_flags set_vd_next set_v_desc set_v_avail_idx set_v_avail_ring
    set_v_dev_idx set_v_used_ring set_v_free set_v_used_idx set_v_info set_v_ops
    set_v_mmio set_s_sepc set_s_scause set_s_stval set_s_stvec set_s_satp set_s_spp
    set_s_spie set_s_sip set_pl_claims set_pl_wr set_k_hart set_k_locks set_k_mem
    set_k_freelist set_k_procs set_k_nextpid set_k_initproc set_k_ticks set_k_disk
    set_k_bufs set_k_log set_k_sb set_k_inodes set_k_files set_k_pipes set_k_cons
    set_k_uart set_k_panicked set_k_vdisk set_k_csr set_k_plic set_k_devsw set_k_kpt
    set_k_locking set_k_first].
Ltac ksimpl_in H :=
  cbn [
    h_id h_proc h_noff h_intena h_sie sl_locked sl_pid b_valid b_disk b_dev b_blockno
    b_lock b_refcnt b_prev b_next b_data i_dev i_inum i_ref i_lock i_valid i_type
    i_major i_minor i_nlink i_size i_addrs f_type f_ref f_readable f_writable f_pipe
    f_ip f_off f_major p_data p_nread p_nwrite p_readopen p_writeopen sb_magic sb_size
    sb_nblocks sb_ninodes sb_nlog sb_logstart sb_inodestart sb_bmapstart l_start l_size
    l_outstanding l_committing l_dev l_n l_block pr_state pr_chan pr_killed pr_xstate
    pr_pid pr_parent pr_kstack pr_sz pr_pagetable pr_trapframe pr_ctx pr_ofile pr_cwd
    pr_name d_img d_hist c_buf c_r c_w c_e u_tx_buf u_tx_w u_tx_r u_lsr u_rhr u_wr
    vd_addr vd_len vd_flags vd_next v_desc v_avail_idx v_avail_ring v_dev_idx
    v_used_ring v_free v_used_idx v_info v_ops v_mmio s_sepc s_scause s_stval s_stvec
    s_satp s_spp s_spie s_sip pl_claims pl_wr k_hart k_locks k_mem k_freelist k_procs
    k_nextpid k_initproc k_ticks k_disk k_bufs k_log k_sb k_inodes k_files k_pipes
    k_cons k_uart k_panicked k_vdisk k_csr k_plic k_devsw k_kpt k_locking k_first
    set_h_id set_h_proc set_h_noff set_h_intena set_h_sie set_sl_locked set_sl_pid
    set_b_valid set_b_disk set_b_dev set_b_blockno set_b_lock set_b_refcnt set_b_prev
    set_b_next set_b_data set_i_dev set_i_inum set_i_ref set_i_lock set_i_valid
    set_i_type set_i_major set_i_minor set_i_nlink set_i_size set_i_addrs set_f_type
    set_f_ref set_f_readable set_f_writable set_f_pipe set_f_ip set_f_off set_f_major
    set_p_data set_p_nread set_p_nwrite set_p_readopen set_p_writeopen set_l_start
    set_l_size set_l_outstanding set_l_committing set_l_dev set_l_n set_l_block
    set_pr_state set_pr_chan set_pr_killed set_pr_xstate set_pr_pid set_pr_parent
    set_pr_kstack set_pr_sz set_pr_pagetable set_pr_trapframe set_pr_ctx set_pr_ofile
    set_pr_cwd set_pr_name set_d_img set_d_hist set_c_buf set_c_r set_c_w set_c_e
    set_u_tx_buf set_u_tx_w set_u_tx_r set_u_lsr set_u_rhr set_u_wr set_vd_addr
    set_vd_len set_vd_flags set_vd_next set_v_desc set_v_avail_idx set_v_avail_ring
    set_v_dev_idx set_v_used_ring set_v_free set_v_used_idx set_v_info set_v_ops
    set_v_mmio set_s_sepc set_s_scause set_s_stval set_s_stvec set_s_satp set_s_spp
    set_s_spie set_s_sip set_pl_claims set_pl_wr set_k_hart set_k_locks set_k_mem
    set_k_freelist set_k_procs set_k_nextpid set_k_initproc set_k_ticks set_k_disk
    set_k_bufs set_k_log set_k_sb set_k_inodes set_k_files set_k_pipes set_k_cons
    set_k_uart set_k_panicked set_k_vdisk set_k_csr set_k_plic set_k_devsw set_k_kpt
    set_k_locking set_k_first] in H.
Tactic Notation "ksimpl" "in" hyp(H) := ksimpl_in H.
Lemma hart_ext (x y : hart) :
  h_id x = h_id y ->
  h_proc x = h_proc y ->
  h_noff x = h_noff y ->
  h_intena x = h_intena y ->
  h_sie x = h_sie y -> x = y.
Proof. destruct x, y; simpl; intros; subst; reflexivity. Qed.

Lemma buf_ext (x y : buf) :
  b_valid x = b_valid y ->
  b_disk x = b_disk y ->
  b_dev x = b_dev y ->
  b_blockno x = b_blockno y ->
  b_lock x = b_lock y ->
  b_refcnt x = b_refcnt y ->
  b_prev x = b_prev y ->
  b_next x = b_next y ->
  b_data x = b_data y -> x = y.
Proof. destruct x, y; simpl; intros; subst; reflexivity. Qed.

Lemma inode_ext (x y : inode) :
  i_dev x = i_dev y ->
  i_inum x = i_inum y ->
  i_ref x = i_ref y ->
  i_lock x = i_lock y ->
  i_valid x = i_valid y ->
  i_type x = i_type y ->
  i_major x = i_major y ->
  i_minor x = i_minor y ->
  i_nlink x = i_nlink y ->
  i_size x = i_size y ->
  i_addrs x = i_addrs y -> x = y.
Proof. destruct x, y; simpl; intros; subst; reflexivity. Qed.

Lemma proc_ext (x y : proc) :
  pr_state x = pr_state y ->
  pr_chan x = pr_chan y ->
  pr_killed x = pr_killed y ->
  pr_xstate x = pr_xstate y ->
  pr_pid x = pr_pid y ->
  pr_parent x = pr_parent y ->
  pr_kstack x = pr_kstack y ->
  pr_sz x = pr_sz y ->
  pr_pagetable x = pr_pagetable y ->
  pr_trapframe x = pr_trapframe y ->
  pr_ctx x = pr_ctx y ->
  pr_ofile x = pr_ofile y ->
  pr_cwd x = pr_cwd y ->
  pr_name x = pr_name y -> x = y.
Proof. destruct x, y; simpl; intros; subst; reflexivity. Qed.

Lemma kst_ext (x y : kst) :
  k_hart x = k_hart y ->
  k_locks x = k_locks y ->
  k_mem x = k_mem y ->
  k_freelist x = k_freelist y ->
  k_procs x = k_procs y ->
  k_nextpid x = k_nextpid y ->
  k_initproc x = k_initproc y ->
  k_ticks x = k_ticks y ->
  k_disk x = k_disk y ->
  k_bufs x = k_bufs y ->
  k_log x = k_log y ->
  k_sb x = k_sb y ->
  k_inodes x = k_inodes y ->
  k_files x = k_files y ->
  k_pipes x = k_pipes y ->
  k_cons x = k_cons y ->
  k_uart x = k_uart y ->
  k_panicked x = k_panicked y ->
  k_vdisk x = k_vdisk y ->
  k_csr x = k_csr y ->
  k_plic x = k_plic y ->
  k_devsw x = k_devsw y ->
  k_kpt x = k_kpt y ->
  k_locking x = k_locking y ->
  k_first x = k_first y -> x = y.
Proof. destruct x, y; simpl; intros; subst; reflexivity. Qed.

(** [kst_eq] proves two updates of the same state equal, field by field. *)
Ltac kst_eq := apply kst_ext; ksimpl; try done.

(** ** The kernel monad

    A kernel function runs on one CPU from a state and ends in one of four
    ways: it returns; it calls panic(); it leaves the CPU (it sleeps, spins on
    a lock another CPU holds, or never comes back), with the reason and the
    state at that point; or the loop bound of the model was too small, an
    outcome the theorems exclude.  [WSleep ch loc] carries the loop variable
    the function keeps across the sleep. *)

Inductive waiting :=
| WSleep (ch : channel) (loc : Z)
| WSched
| WSpin (l : lockid)
| WForever.

Inductive outcome (A : Type) :=
| Ret (a : A) (k : kst)
| Panic (msg : string)
| Blocked (w : waiting) (k : kst)
| OutOfFuel.
Arguments Ret {A} a k.
Arguments Panic {A} msg.
Arguments Blocked {A} w k.
Arguments OutOfFuel {A}.

Definition M (A : Type) : Type := kst -> outcome A.

#[export] Instance M_ret : MRet M := fun A a k => Ret a k.
#[export] Instance M_bind : MBind M := fun A B f m k =>
  match m k with
  | Ret a k' => f a k'
  | Panic msg => Panic msg
  | Blocked w k' => Blocked w k'
  | OutOfFuel => OutOfFuel
  end.

Definition panic {A} (msg : string) : M A := fun _ => Panic msg.
Definition blocked {A} (w : waiting) : M A := fun k => Blocked w k.
Definition nofuel {A} : M A := fun _ => OutOfFuel.
(** Reading and writing the global variables. *)
Definition gets {A} (f : kst -> A) : M A := fun k => Ret (f k) k.
Definition modify (f : kst -> kst) : M unit := fun k => Ret tt (f k).
Definition when (b : bool) (m : M unit) : M unit := if b then m else mret tt.
(** A pointer dereference: element [i] of an array in bounds. *)
Definition deref {A} (msg : string) (l : kst -> list A) (i : nat) : M A := fun k =>
  match l k !! i with Some x => Ret x k | None => Panic msg end.

(** for(i = ...) body(i), over the listed values of the loop variable. *)
Fixpoint forM {B} (l : list B) (body : B -> M unit) : M unit :=
  match l with
  | [] => mret tt
  | x :: l => body x;; forM l body
  end.

(** ** Equations of the monad *)

Lemma bind_ret {A B} (m : M A) (f : A -> M B) k a k' :
  m k = Ret a k' -> (m ≫= f) k = f a k'.
Proof. intros H. unfold mbind, M_bind. by rewrite H. Qed.

Lemma bind_panic {A B} (m : M A) (f : A -> M B) k msg :
  m k = Panic msg -> (m ≫= f) k = Panic msg.
Proof. intros H. unfold mbind, M_bind. by rewrite H. Qed.

Lemma bind_blocked {A B} (m : M A) (f : A -> M B) k w k' :
  m k = Blocked w k' -> (m ≫= f) k = Blocked w k'.
Proof. intros H. unfold mbind, M_bind. by rewrite H. Qed.

Lemma bind_mret {A B} (a : A) (f : A -> M B) k : (mret a ≫= f) k = f a k.
Proof. done. Qed.

Lemma bind_gets {A B} (g : kst -> A) (f : A -> M B) k : (gets g ≫= f) k = f (g k) k.
Proof. done. Qed.

Lemma bind_modify {B} (g : kst -> kst) (f : unit -> M B) k : (modify g ≫= f) k = f tt (g k).
Proof. done. Qed.

Lemma bind_bind {A B C} (m : M A) (f : A -> M B) (g : B -> M C) k :
  ((m ≫= f) ≫= g) k = (m ≫= (fun x => f x ≫= g)) k.
Proof. unfold mbind, M_bind. by destruct (m k). Qed.

Lemma bind_inv {A B} (m : M A) (f : A -> M B) k b k' :
  (m ≫= f) k = Ret b k' -> exists a k1, m k = Ret a k1 /\ f a k1 = Ret b k'.
Proof. unfold mbind, M_bind. destruct (m k); naive_solver. Qed.

Lemma bind_deref {A B} msg (l : kst -> list A) i (f : A -> M B) k x :
  l k !! i = Some x -> (deref msg l i ≫= f) k = f x k.
Proof. intros H. apply bind_ret. unfold deref. by rewrite H. Qed.

(** [mstep] runs the monad's own operations at the head of the goal. *)
Ltac mstep :=
  repeat first
    [ rewrite bind_mret | rewrite bind_gets | rewrite bind_modify | rewrite bind_bind ].

(** [mcall H by tac] runs the call at the head of the goal with its equation
    [H], whose side conditions [tac] proves. *)
Tactic Notation "mcall" uconstr(H) := rewrite (bind_ret _ _ _ _ _ H).
Tactic Notation "mcall" uconstr(H) "by" tactic3(tac) := erewrite bind_ret by (eapply H; tac).

(** ** The state at boot: every global variable zero, except nextpid and
    forkret()'s first. *)

Definition sleeplock0 : sleeplock := Sleeplock false 0.
Definition buf0 : buf := Buf 0 0 0 0 sleeplock0 0 0 0 (replicate BSIZE 0).
Definition inode0 : inode := Inode 0 0 0 sleeplock0 0 0 0 0 0 0 (replicate (NDIRECT + 1) 0).
Definition file0 : file := File FD_NONE 0 false false 0 None 0 0.
Definition proc0 : proc :=
  Proc UNUSED None 0 0 0 None 0 0 0 0 (0, 0) (replicate NOFILE None) None (replicate 16 0).
Definition vdisk0 : vdisk :=
  Vdisk (replicate 8 (Vdesc DNull 0 0 0)) 0 (replicate 8 0) 0 (replicate 8 0)
        (replicate 8 false) 0 (replicate 8 (None, 0)) (replicate 8 (0, 0)) [].
Definition boot_state : kst :=
  Kst (Hart 0 None 0 false false) ∅ ∅ 0 (replicate NPROC proc0) 1 None 0 (Disk ∅ [])
      (replicate (NBUF + 1) buf0) (Log 0 0 0 0 0 0 (replicate 30 0))
      (Superblock 0 0 0 0 0 0 0 0) (replicate NINODE inode0) (replicate NFILE file0) ∅
      (Cons (replicate 128 0) 0 0 0) (Uart (replicate 32 0) 0 0 [] [] []) false vdisk0
      (Csr 0 0 0 0 0 false false 0) (Plic [] []) (replicate 10 None) 0 false true.

(** The boot state with process 0, pid 1, running on the CPU. *)
Definition run_state : kst :=
  set_k_hart (Hart 0 (Some 0%nat) 0 true true)
    (set_k_procs (<[0%nat := set_pr_pid 1 (set_pr_state RUNNING proc0)]> (k_procs boot_state))
      boot_state).
