(* ===== verification/Spinlock.v ===== *)
(** Spin locks: kernel/spinlock.c, with intr_on(), intr_off() and intr_get() of
    kernel/riscv.h and cpuid(), mycpu() of kernel/proc.c.

    The first part gives the functions as they run on one CPU: a held lock is
    an entry of [k_locks] that names the holder, so [lk->locked] is "has an
    entry" and [lk->cpu] is the entry.  Module [Smp] breaks acquire() and
    release() into their atomic memory accesses and interleaves any number of
    CPUs. *)

From Stdlib Require Import ZArith Lia.
From stdpp Require Import base gmap strings list numbers.
From S2P Require Import Prelude Params State.

Open Scope Z_scope.

(** ** Interrupt enabling *)

Definition intr_on : M unit := modify (fun k => set_k_hart (set_h_sie true (k_hart k)) k).
Definition intr_off : M unit := modify (fun k => set_k_hart (set_h_sie false (k_hart k)) k).
Definition intr_get : M bool := gets (fun k => h_sie (k_hart k)).

Definition cpuid : M Z := gets (fun k => h_id (k_hart k)).
(** The fields of [*mycpu()]. *)
Definition mycpu : M hart := gets k_hart.

Definition push_off : M unit :=
  old ← intr_get;
  intr_off;;
  c ← mycpu;
  when (h_noff c =? 0) (modify (fun k => set_k_hart (set_h_intena old (k_hart k)) k));;
  modify (fun k => set_k_hart (set_h_noff (h_noff (k_hart k) + 1) (k_hart k)) k).

Definition pop_off : M unit :=
  on ← intr_get;
  if on : bool then panic "pop_off - interruptible" else
  c ← mycpu;
  if h_noff c <? 1 then panic "pop_off" else
  modify (fun k => set_k_hart (set_h_noff (h_noff (k_hart k) - 1) (k_hart k)) k);;
  c ← mycpu;
  when ((h_noff c =? 0) && h_intena c) intr_on.

(** ** Locks *)

(** Check whether this cpu is holding the lock. *)
Definition holding (l : lockid) : M bool :=
  gets (fun k => match k_locks k !! l with
                 | Some c => c =? h_id (k_hart k)
                 | None => false
                 end).

Definition initlock (l : lockid) : M unit :=
  modify (fun k => set_k_locks (delete l (k_locks k)) k).

Definition acquire (l : lockid) : M unit :=
  push_off;;
  h ← holding l;
  if h : bool then panic "acquire" else
  locked ← gets (fun k => bool_decide (is_Some (k_locks k !! l)));
  if locked : bool then blocked (WSpin l) else
  modify (fun k => set_k_locks (<[l := h_id (k_hart k)]> (k_locks k)) k).

Definition release (l : lockid) : M unit :=
  h ← holding l;
  if negb h then panic "release" else
  modify (fun k => set_k_locks (delete l (k_locks k)) k);;
  pop_off.

(** ** The interrupt nesting invariant

    Interrupts are off while a lock is held; outside every critical section
    [intena] holds the current interrupt state, as any completed push_off()/
    pop_off() pair leaves it. *)
Definition hart_ok (h : hart) : Prop :=
  0 <= h_noff h /\ (0 < h_noff h -> h_sie h = false) /\ (h_noff h = 0 -> h_intena h = h_sie h).

Definition push_hart (h : hart) : hart :=
  Hart (h_id h) (h_proc h) (h_noff h + 1)
       (if h_noff h =? 0 then h_sie h else h_intena h) false.

Definition pop_hart (h : hart) : hart :=
  Hart (h_id h) (h_proc h) (h_noff h - 1) (h_intena h)
       ((h_noff h - 1 =? 0) && h_intena h).

(** The state inside a critical section, and after leaving it. *)
Definition acq (l : lockid) (k : kst) : kst :=
  set_k_locks (<[l := h_id (k_hart k)]> (k_locks k)) (set_k_hart (push_hart (k_hart k)) k).

Definition rel (l : lockid) (k : kst) : kst :=
  set_k_locks (delete l (k_locks k)) (set_k_hart (pop_hart (k_hart k)) k).

Lemma push_off_eq k : push_off k = Ret tt (set_k_hart (push_hart (k_hart k)) k).
Proof.
  unfold push_off, intr_get, intr_off, mycpu, when, push_hart. mstep. ksimpl.
  destruct (h_noff (k_hart k) =? 0); reflexivity.
Qed.

Lemma pop_off_eq k :
  h_sie (k_hart k) = false -> 1 <= h_noff (k_hart k) ->
  pop_off k = Ret tt (set_k_hart (pop_hart (k_hart k)) k).
Proof.
  intros Hs Hn. unfold pop_off, intr_get, mycpu, when, pop_hart. mstep. rewrite Hs. mstep.
  assert (h_noff (k_hart k) <? 1 = false) as -> by lia. mstep. ksimpl.
  destruct ((h_noff (k_hart k) - 1 =? 0) && h_intena (k_hart k)); try done.
  unfold mret, M_ret, set_k_hart, set_h_noff. rewrite Hs. done.
Qed.

Lemma hart_ok_push h : hart_ok h -> hart_ok (push_hart h).
Proof. unfold hart_ok, push_hart. simpl. intros (?&?&?). repeat split; intros; lia || done. Qed.

Lemma pop_push_hart h : hart_ok h -> pop_hart (push_hart h) = h.
Proof.
  intros (H0 & H1 & H2). unfold pop_hart, push_hart. destruct h as [id p n ie si]; simpl in *.
  replace (n + 1 - 1) with n by lia. destruct (n =? 0) eqn:E; simpl.
  - by rewrite H2 by lia.
  - by rewrite H1 by lia.
Qed.

#[export] Hint Resolve hart_ok_push : xv6.

Lemma acquire_eq l k :
  k_locks k !! l = None -> acquire l k = Ret tt (acq l k).
Proof.
  intros Hl. unfold acquire. mcall (push_off_eq k).
  unfold holding. mstep. ksimpl. rewrite Hl. mstep. ksimpl. rewrite Hl.
  rewrite bool_decide_false by (intros [? [=]]). done.
Qed.

Lemma acquire_held_by_me l k :
  k_locks k !! l = Some (h_id (k_hart k)) -> acquire l k = Panic "acquire".
Proof.
  intros Hl. unfold acquire. mcall (push_off_eq k).
  unfold holding. mstep. ksimpl. rewrite Hl. unfold push_hart. ksimpl. by rewrite Z.eqb_refl.
Qed.

Lemma acquire_held_by_other l k c :
  k_locks k !! l = Some c -> c <> h_id (k_hart k) ->
  acquire l k = Blocked (WSpin l) (set_k_hart (push_hart (k_hart k)) k).
Proof.
  intros Hl Hc. unfold acquire. mcall (push_off_eq k).
  unfold holding. mstep. ksimpl. rewrite Hl. unfold push_hart. ksimpl.
  assert (c =? h_id (k_hart k) = false) as -> by lia. mstep. ksimpl. rewrite Hl.
  by rewrite bool_decide_true by eauto.
Qed.

Lemma release_eq l k :
  k_locks k !! l = Some (h_id (k_hart k)) ->
  h_sie (k_hart k) = false -> 1 <= h_noff (k_hart k) ->
  release l k = Ret tt (rel l k).
Proof.
  intros Hl Hs Hn. unfold release, holding. mstep. rewrite Hl, Z.eqb_refl. cbn [negb]. mstep.
  rewrite pop_off_eq; done.
Qed.

(** Leaving the critical section entered from [k0] restores the CPU state and
    the lock table, whatever else the section changed. *)
Lemma release_after l k0 k :
  hart_ok (k_hart k0) -> k_locks k0 !! l = None ->
  k_hart k = push_hart (k_hart k0) ->
  k_locks k = <[l := h_id (k_hart k0)]> (k_locks k0) ->
  release l k = Ret tt (set_k_locks (k_locks k0) (set_k_hart (k_hart k0) k)).
Proof.
  intros Hok Hl Hh Hk. rewrite release_eq.
  - unfold rel. rewrite Hh, Hk, pop_push_hart, delete_insert_id by done. done.
  - rewrite Hk, Hh. apply lookup_insert_eq.
  - by rewrite Hh.
  - rewrite Hh. destruct Hok as (?&?&?). unfold push_hart. ksimpl. lia.
Qed.

(** ** All CPUs: mutual exclusion *)
Module Smp.

(** Where a CPU is in acquire() and release(): [Out], outside; [Chk] and [ChkCpu],
    in holding() before its read of [lk->locked] and of [lk->cpu]; [Try],
    spinning on the atomic swap; [Got], the
    swap returned 0 but [lk->cpu] is not yet written; [In], in the critical
    section, up to the read of [lk->locked] by holding() in release(); [RelCpu],
    before its read of [lk->cpu]; [Rel], before the store that clears [lk->cpu];
    [Leave], release() has cleared [lk->cpu] but not [lk->locked]. *)
Inductive pc := Out | Chk | ChkCpu | Try | Got | In | RelCpu | Rel | Leave.

#[export] Instance pc_eq_dec : EqDecision pc.
Proof. solve_decision. Defined.

(** One struct spinlock and the CPUs that use it. *)
Record smp := Smp { locked : bool; lkcpu : option nat; pcs : list pc }.

(** One atomic access by CPU [c].  holding() reads [lk->locked] and then
    [lk->cpu]; the panics of acquire() and release() are steps too, into [None].
    push_off() and pop_off() touch only data of the CPU itself: with their panics
    they are in the definitions above. *)
Inductive step : smp -> option smp -> Prop :=
| step_push b w ps c :                      (* push_off() *)
    ps !! c = Some Out -> step (Smp b w ps) (Some (Smp b w (<[c := Chk]> ps)))
| step_chk_free w ps c :                    (* holding: lk->locked == 0 *)
    ps !! c = Some Chk -> step (Smp false w ps) (Some (Smp false w (<[c := Try]> ps)))
| step_chk_locked w ps c :                  (* holding: lk->locked != 0 *)
    ps !! c = Some Chk -> step (Smp true w ps) (Some (Smp true w (<[c := ChkCpu]> ps)))
| step_chk_cpu_ne b w ps c :                (* holding: lk->cpu != mycpu() *)
    ps !! c = Some ChkCpu -> w <> Some c -> step (Smp b w ps) (Some (Smp b w (<[c := Try]> ps)))
| step_chk_cpu_eq b ps c :                  (* panic("acquire") *)
    ps !! c = Some ChkCpu -> step (Smp b (Some c) ps) None
| step_swap_fail w ps c :                   (* amoswap returned 1 *)
    ps !! c = Some Try -> step (Smp true w ps) (Some (Smp true w ps))
| step_swap_ok w ps c :                     (* amoswap returned 0 *)
    ps !! c = Some Try -> step (Smp false w ps) (Some (Smp true w (<[c := Got]> ps)))
| step_setcpu b w ps c :                    (* lk->cpu = mycpu() *)
    ps !! c = Some Got -> step (Smp b w ps) (Some (Smp b (Some c) (<[c := In]> ps)))
| step_rel_locked w ps c :                  (* release, holding: lk->locked != 0 *)
    ps !! c = Some In -> step (Smp true w ps) (Some (Smp true w (<[c := RelCpu]> ps)))
| step_rel_free w ps c :                    (* panic("release") *)
    ps !! c = Some In -> step (Smp false w ps) None
| step_rel_cpu_eq b ps c :                  (* release, holding: lk->cpu == mycpu() *)
    ps !! c = Some RelCpu -> step (Smp b (Some c) ps) (Some (Smp b (Some c) (<[c := Rel]> ps)))
| step_rel_cpu_ne b w ps c :                (* panic("release") *)
    ps !! c = Some RelCpu -> w <> Some c -> step (Smp b w ps) None
| step_clrcpu b w ps c :                    (* release: lk->cpu = 0 *)
    ps !! c = Some Rel -> step (Smp b w ps) (Some (Smp b None (<[c := Leave]> ps)))
| step_unlock b w ps c :                    (* release: lk->locked = 0; pop_off() *)
    ps !! c = Some Leave -> step (Smp b w ps) (Some (Smp false w (<[c := Out]> ps))).

(** initlock(), then any interleaving. *)
Inductive reach (n : nat) : option smp -> Prop :=
| reach_init : reach n (Some (Smp false None (replicate n Out)))
| reach_step s o : reach n (Some s) -> step s o -> reach n o.

Definition owns (p : pc) : bool := match p with Got | In | RelCpu | Rel | Leave => true | _ => false end.

(** From the store of [lk->cpu] in acquire() to the one that clears it. *)
Definition recorded (p : pc) : bool := match p with In | RelCpu | Rel => true | _ => false end.

(** At most one CPU is past the swap, exactly when the lock word is set, and
    [lk->cpu] names it exactly from its store in acquire() to the one in
    release(). *)
Record inv (s : smp) : Prop := {
  inv_locked : forall c p, pcs s !! c = Some p -> owns p = true -> locked s = true;
  inv_unique : forall c d p q, pcs s !! c = Some p -> pcs s !! d = Some q ->
                 owns p = true -> owns q = true -> c = d;
  inv_cpu : forall c, lkcpu s = Some c <-> exists p, pcs s !! c = Some p /\ recorded p = true
}.

Lemma pcs_insert (ps : list pc) c p p' d q :
  ps !! c = Some p ->
  <[c := p']> ps !! d = Some q <-> (d = c /\ q = p') \/ (d <> c /\ ps !! d = Some q).
Proof.
  intros Hc. pose proof (lookup_lt_Some _ _ _ Hc). rewrite list_lookup_insert_Some.
  naive_solver.
Qed.

Lemma recorded_owns p : recorded p = true -> owns p = true.
Proof. by destruct p. Qed.

Lemma inv_preserved s s' : inv s -> step s (Some s') -> inv s'.
Proof.
  intros [HL HU HC] Hs. inversion Hs; subst; clear Hs; simpl in *;
  try match goal with H : ?ps !! ?c = Some ?p |- inv (Smp _ _ (<[?c := ?q]> ?ps)) =>
    pose proof (fun d r => pcs_insert ps c p q d r H) as Hins;
    pose proof (HL c p H) as HLc; pose proof (HU c) as HUc; pose proof (HC c) as HCc
  end;
  (constructor; simpl;
   [intros c' p' Hp Ho | intros c' d' p' q' Hp Hq Ho Hq' | intros c'; specialize (HC c')]);
  try setoid_rewrite Hins; rewrite ?Hins in *; destruct_or?; destruct_and?; simplify_eq; try done; eauto; try congruence.
  (* lk->cpu against the CPU it names *)
  all: destruct (decide (c' = c)) as [->|Hne]; [clear HU HUc; naive_solver|].
  all: split; [intros Hw; try congruence; destruct (proj1 HC Hw) as (p & ? & ?); by eauto 6
              |intros (p & [[? _]|[_ Hp]] & Hr); [done|]; try (apply HC; by exists p)].
  all: exfalso; apply Hne; symmetry; eapply HUc; [done..|by apply recorded_owns].
Qed.

Lemma inv_init n : inv (Smp false None (replicate n Out)).
Proof.
  constructor; simpl; intros *; [rewrite ?lookup_replicate; naive_solver..|].
  split; [done|]. by intros (p & [-> _]%lookup_replicate & ?).
Qed.

Lemma inv_no_panic s : inv s -> ~ step s None.
Proof.
  intros [HL HU HC] Hs. inversion Hs; subst; simpl in *.
  - destruct (proj1 (HC c) eq_refl) as (p & Hp & Hr). simplify_eq.
  - by specialize (HL c In H eq_refl).
  - by destruct H0; apply HC; exists RelCpu.
Qed.

Lemma reach_inv n o : reach n o -> exists s, o = Some s /\ inv s.
Proof.
  induction 1 as [|s o _ (s0 & [= <-] & Hi) Hs].
  - eauto using inv_init.
  - destruct o as [s'|]; [eauto using inv_preserved|]. by apply inv_no_panic in Hs.
Qed.

End Smp.

(** ** Properties *)

(** C4: for any number of CPUs and any interleaving of the atomic accesses of
    acquire() and release(), at most one CPU is between the successful swap and
    the store that frees the lock, [lk->cpu] names a CPU exactly from the store
    of it in acquire() to the one that clears it in release() (so holding() is
    exact in the critical section), and neither
    panic("acquire") nor panic("release") is reachable. *)
Theorem spinlock_mutual_exclusion n o :
  Smp.reach n o ->
  exists s, o = Some s /\
    (forall c d p q, Smp.pcs s !! c = Some p -> Smp.pcs s !! d = Some q ->
       Smp.owns p = true -> Smp.owns q = true -> c = d) /\
    (forall c, Smp.lkcpu s = Some c <-> exists p, Smp.pcs s !! c = Some p /\ Smp.recorded p = true).
Proof.
  intros (s & -> & [HL HU HC])%Smp.reach_inv. eauto.
Qed.

Lemma spinlock_mutual_exclusion_witness :
  exists s, Smp.reach 2 (Some s) /\ Smp.pcs s = [Smp.In; Smp.Try] /\
    (forall c, Smp.lkcpu s = Some c <-> exists p, Smp.pcs s !! c = Some p /\ Smp.recorded p = true).
Proof.
  set (s := Smp.Smp true (Some 0%nat) [Smp.In; Smp.Try]).
  assert (Smp.reach 2 (Some s)) as Hr.
  { eapply Smp.reach_step; [|apply (Smp.step_setcpu true None [Smp.Got; Smp.Try] 0%nat eq_refl)].
    eapply Smp.reach_step; [|apply (Smp.step_swap_ok None [Smp.Try; Smp.Try] 0%nat eq_refl)].
    eapply Smp.reach_step; [|apply (Smp.step_chk_free None [Smp.Try; Smp.Chk] 1%nat eq_refl)].
    eapply Smp.reach_step; [|apply (Smp.step_chk_free None [Smp.Chk; Smp.Chk] 0%nat eq_refl)].
    eapply Smp.reach_step; [|apply (Smp.step_push false None [Smp.Chk; Smp.Out] 1%nat eq_refl)].
    eapply Smp.reach_step; [|apply (Smp.step_push false None [Smp.Out; Smp.Out] 0%nat eq_refl)].
    apply Smp.reach_init. }
  exists s. split; [exact Hr|]. split; [reflexivity|].
  destruct (spinlock_mutual_exclusion 2 (Some s) Hr) as (s' & [= <-] & _ & Hc). exact Hc.
Defined.

(** acquire() of a free lock succeeds with interrupts off and the lock held
    by this CPU, and the matching release() restores the exact state before it,
    interrupt enabling and nesting depth included; acquire() of a lock this CPU
    already holds panics; of a lock another CPU holds, it spins. *)
Theorem acquire_release_balanced l k :
  hart_ok (k_hart k) ->
  match k_locks k !! l with
  | None => exists k1, acquire l k = Ret tt k1 /\
      k_locks k1 !! l = Some (h_id (k_hart k)) /\ h_sie (k_hart k1) = false /\
      h_noff (k_hart k1) = h_noff (k_hart k) + 1 /\ release l k1 = Ret tt k
  | Some c =>
      if c =? h_id (k_hart k) then acquire l k = Panic "acquire"
      else exists k1, acquire l k = Blocked (WSpin l) k1
  end.
Proof.
  intros Hok. destruct (k_locks k !! l) as [c|] eqn:Hl.
  - destruct (c =? h_id (k_hart k)) eqn:E.
    + apply Z.eqb_eq in E as ->. by apply acquire_held_by_me.
    + eexists. apply (acquire_held_by_other l k c); [done|lia].
  - exists (acq l k). split; [by apply acquire_eq|]. split; [apply lookup_insert_eq|].
    split; [done|]. split; [done|].
    rewrite (release_after l k) by done. apply f_equal. unfold acq. kst_eq.
Qed.

Lemma acquire_release_balanced_witness :
  exists k1, acquire LKmem boot_state = Ret tt k1 /\ release LKmem k1 = Ret tt boot_state.
Proof.
  assert (hart_ok (k_hart boot_state)) as Hok by (split_and!; simpl; intros; lia || done).
  destruct (acquire_release_balanced LKmem boot_state Hok) as (k1 & H1 & _ & _ & _ & H2).
  exists k1. split; [exact H1 | exact H2].
Defined.
