(* ===== verification/Wakeup.v ===== *)
(** sleep() and wakeup() on many CPUs (kernel/proc.c): the interleavings of any
    number of processes that wait for a condition with a process or interrupt
    handler that makes it true.  The locks are those of Spinlock: one holder at a
    time, waiting while held. *)

From Stdlib Require Import ZArith Lia.
From stdpp Require Import base list relations.
From S2P Require Import Prelude State.

Module Wait.

(** A process in

      acquire(lk); while(!cond) sleep(chan, lk); release(lk);

    [PLock] to [Swtch] are in sleep() before sched(), [Asleep] is after swtch(),
    [Resume] is in sleep() after sched(). *)
Inductive spc :=
| Lock                (* acquire(lk), also the last line of sleep() *)
| Test                (* while(!cond) *)
| PLock               (* sleep: acquire(&p->lock) *)
| Unlk                (* sleep: release(lk) *)
| SetSleep            (* sleep: p->chan = chan; p->state = SLEEPING *)
| Swtch               (* sched; scheduler: release(&p->lock) *)
| Asleep              (* scheduler: acquire(&p->lock), if RUNNABLE swtch *)
| Resume              (* sleep: p->chan = 0; release(&p->lock) *)
| Unlock              (* release(lk) *)
| Done.

(** The waker: acquire(lk); cond = 1; wakeup(chan); release(lk). *)
Inductive wpc :=
| WLock               (* acquire(lk) *)
| WSet                (* cond = 1 *)
| WPLock (i : nat)    (* wakeup, process i: acquire(&p->lock) *)
| WCheck (i : nat)    (* if(p->state == SLEEPING && p->chan == chan) p->state = RUNNABLE *)
| WPUnlock (i : nat)  (* release(&p->lock) *)
| WUnlock             (* release(lk) *)
| WDone.

(** Who holds a lock: the waker, or process [i], or the scheduler for it. *)
Inductive holder := ByWaker | ByProc (i : nat).

#[export] Instance holder_eq_dec : EqDecision holder.
Proof. solve_decision. Defined.

(** A waiting process: its pc, p->lock, p->state, and whether p->chan == chan. *)
Record wproc := Wproc { pc : spc; plock : option holder; pstate : procstate; onchan : bool }.
Record world := World { lk : option holder; cond : bool; procs : list wproc; waker : wpc }.

Inductive step : world -> world -> Prop :=
| st_lock c ps w i l s b :
    ps !! i = Some (Wproc Lock l s b) ->
    step (World None c ps w) (World (Some (ByProc i)) c (<[i := Wproc Test l s b]> ps) w)
| st_test o c ps w i l s b :
    ps !! i = Some (Wproc Test l s b) ->
    step (World o c ps w) (World o c (<[i := Wproc (if c then Unlock else PLock) l s b]> ps) w)
| st_plock o c ps w i s b :
    ps !! i = Some (Wproc PLock None s b) ->
    step (World o c ps w) (World o c (<[i := Wproc Unlk (Some (ByProc i)) s b]> ps) w)
| st_unlk o c ps w i l s b :
    ps !! i = Some (Wproc Unlk l s b) ->
    step (World o c ps w) (World None c (<[i := Wproc SetSleep l s b]> ps) w)
| st_sleep o c ps w i l s b :
    ps !! i = Some (Wproc SetSleep l s b) ->
    step (World o c ps w) (World o c (<[i := Wproc Swtch l SLEEPING true]> ps) w)
| st_swtch o c ps w i l s b :
    ps !! i = Some (Wproc Swtch l s b) ->
    step (World o c ps w) (World o c (<[i := Wproc Asleep None s b]> ps) w)
| st_sched o c ps w i b :
    ps !! i = Some (Wproc Asleep None RUNNABLE b) ->
    step (World o c ps w) (World o c (<[i := Wproc Resume (Some (ByProc i)) RUNNING b]> ps) w)
| st_resume o c ps w i l s b :
    ps !! i = Some (Wproc Resume l s b) ->
    step (World o c ps w) (World o c (<[i := Wproc Lock None s false]> ps) w)
| st_unlock o c ps w i l s b :
    ps !! i = Some (Wproc Unlock l s b) ->
    step (World o c ps w) (World None c (<[i := Wproc Done l s b]> ps) w)
| wk_lock c ps : step (World None c ps WLock) (World (Some ByWaker) c ps WSet)
| wk_set o c ps : step (World o c ps WSet) (World o true ps (WPLock 0))
| wk_plock o c ps i a s b :
    ps !! i = Some (Wproc a None s b) ->
    step (World o c ps (WPLock i)) (World o c (<[i := Wproc a (Some ByWaker) s b]> ps) (WCheck i))
| wk_check o c ps i a l s b :
    ps !! i = Some (Wproc a l s b) ->
    step (World o c ps (WCheck i))
      (World o c (<[i := Wproc a l (if bool_decide (s = SLEEPING) && b then RUNNABLE else s) b]> ps) (WPUnlock i))
| wk_punlock o c ps i a l s b :
    ps !! i = Some (Wproc a l s b) ->
    step (World o c ps (WPUnlock i)) (World o c (<[i := Wproc a None s b]> ps) (WPLock (S i)))
| wk_end o c ps i : ps !! i = None -> step (World o c ps (WPLock i)) (World o c ps WUnlock)
| wk_unlock o c ps : step (World o c ps WUnlock) (World None c ps WDone).

(** [n] processes about to wait, nobody sleeping, the condition false. *)
Definition start (n : nat) : world := World None false (replicate n (Wproc Lock None RUNNING false)) WLock.

Definition finished (w : world) : Prop :=
  waker w = WDone /\ Forall (fun p => pc p = Done) (procs w).

(** ** The invariant *)

Definition has_lk (a : spc) : bool := match a with Test | PLock | Unlk | Unlock => true | _ => false end.
Definition has_plock (a : spc) : bool := match a with Unlk | SetSleep | Swtch | Resume => true | _ => false end.
Definition waker_lk (w : wpc) : bool := match w with WLock | WDone => false | _ => true end.
Definition waker_at (w : wpc) (i : nat) : bool :=
  match w with WCheck j | WPUnlock j => bool_decide (i = j) | _ => false end.
(** The waker has made the condition true. *)
Definition is_set (w : wpc) : bool := match w with WLock | WSet => false | _ => true end.
(** The waker has still to look at process [i]. *)
Definition to_visit (w : wpc) (i : nat) : bool :=
  match w with
  | WLock | WSet => true
  | WPLock j | WCheck j => bool_decide (j <= i)%nat
  | WPUnlock j => bool_decide (j < i)%nat
  | WUnlock | WDone => false
  end.

Record pinv (o : option holder) (c : bool) (w : wpc) (i : nat) (p : wproc) : Prop := Pinv {
  pi_lk : o = Some (ByProc i) <-> has_lk (pc p) = true;
  pi_plock : plock p = if has_plock (pc p) then Some (ByProc i) else if waker_at w i then Some ByWaker else None;
  pi_excl : has_plock (pc p) = true -> waker_at w i = false;
  pi_state : match pc p with
             | Swtch => pstate p = SLEEPING /\ onchan p = true
             | Asleep => onchan p = true /\ (pstate p = SLEEPING \/ pstate p = RUNNABLE)
             | _ => pstate p = RUNNING
             end;
  (** sleep() is entered while the condition is false. *)
  pi_tested : pc p = PLock \/ pc p = Unlk -> c = false;
  (** No lost wakeup: one who sleeps, or is about to, will be visited. *)
  pi_lost : pc p = SetSleep \/ pstate p = SLEEPING -> to_visit w i = true;
  (** Who was woken finds the condition true. *)
  pi_woken : pstate p = RUNNABLE \/ pc p = Resume -> c = true }.

Record inv (w : world) : Prop := Inv {
  in_cond : cond w = is_set (waker w);
  in_lk : lk w = Some ByWaker <-> waker_lk (waker w) = true;
  in_owner : forall i, lk w = Some (ByProc i) -> exists p, procs w !! i = Some p /\ has_lk (pc p) = true;
  in_procs : forall i p, procs w !! i = Some p -> pinv (lk w) (cond w) (waker w) i p }.

Lemma procs_insert (ps : list wproc) i p p' j q :
  ps !! i = Some p -> <[i := p']> ps !! j = Some q -> (j = i /\ q = p') \/ (j <> i /\ ps !! j = Some q).
Proof.
  intros Hi Hj. destruct (decide (j = i)) as [->|Hne].
  - rewrite list_lookup_insert_eq in Hj by eauto using lookup_lt_Some. left. by injection Hj as <-.
  - rewrite list_lookup_insert_ne in Hj by done. auto.
Qed.

Lemma start_inv n : inv (start n).
Proof.
  constructor; simpl; try done. intros i p (-> & _)%lookup_replicate. constructor; simpl; try done; naive_solver.
Qed.

(** A step of process [i] that leaves lk, the condition and the waker alone. *)
Lemma inv_local o c ps w i p p' :
  inv (World o c ps w) -> ps !! i = Some p -> has_lk (pc p') = has_lk (pc p) -> pinv o c w i p' ->
  inv (World o c (<[i := p']> ps) w).
Proof.
  intros [C L O P] Hi Hl Hp. simpl in *. constructor; simpl; auto.
  - intros j Hj. destruct (O j Hj) as (q & Hq & Hh). destruct (decide (j = i)) as [->|Hne].
    + exists p'. rewrite list_lookup_insert_eq by eauto using lookup_lt_Some. split; [done|]. congruence.
    + exists q. by rewrite list_lookup_insert_ne.
  - intros j q Hq. apply (procs_insert _ _ _ _ _ _ Hi) in Hq as [[-> ->]|[_ Hq]]; [done|auto].
Qed.

(** Process [i] takes lk, or gives it up. *)
Lemma inv_take c ps w i p p' :
  inv (World None c ps w) -> ps !! i = Some p -> has_lk (pc p') = true -> pinv (Some (ByProc i)) c w i p' ->
  inv (World (Some (ByProc i)) c (<[i := p']> ps) w).
Proof.
  intros [C L O P] Hi Hl Hp. simpl in *. constructor; simpl; auto.
  - split; [done|]. intros Hw. apply L in Hw. done.
  - intros j [= <-]. exists p'. by rewrite list_lookup_insert_eq by eauto using lookup_lt_Some.
  - intros j q Hq. apply (procs_insert _ _ _ _ _ _ Hi) in Hq as [[-> ->]|[Hne Hq]]; [done|].
    destruct (P j q Hq) as [? ? ? ? ? ? ?]. constructor; auto. split; [congruence|]. naive_solver.
Qed.

Lemma inv_give o c ps w i p p' :
  inv (World o c ps w) -> ps !! i = Some p -> has_lk (pc p) = true -> has_lk (pc p') = false -> pinv None c w i p' ->
  inv (World None c (<[i := p']> ps) w).
Proof.
  intros [C L O P] Hi Hl Hl' Hp. simpl in *. pose proof (proj2 (pi_lk _ _ _ _ _ (P i p Hi)) Hl) as ->.
  constructor; simpl; auto.
  - split; [done|]. intros Hw. apply L in Hw. done.
  - done.
  - intros j q Hq. apply (procs_insert _ _ _ _ _ _ Hi) in Hq as [[-> ->]|[Hne Hq]]; [done|].
    destruct (P j q Hq) as [? ? ? ? ? ? ?]. constructor; auto. split; [done|]. intros Hh. apply pi_lk0 in Hh. congruence.
Qed.

(** ** Every step keeps the invariant *)

Lemma not_set w i : is_set w = false -> to_visit w i = true.
Proof. by destruct w. Qed.

(** Closes the conditions on one process from those before the step. *)
Ltac pinv_tac Q C :=
  revert Q C; clear; intros [] C;
  try match type of C with _ = is_set ?w => match goal with |- pinv _ _ _ ?i _ => pose proof (not_set w i) end end;
  constructor; simpl in *;
  try match goal with |- context [waker_at ?w ?i] => destruct (waker_at w i) in * end;
  first [solve [intuition congruence] | naive_solver].

Lemma step_inv_proc w w' : inv w -> step w w' -> waker w' = waker w -> inv w'.
Proof.
  intros I. pose proof (in_procs _ I) as P. pose proof (in_cond _ I) as C.
  destruct 1 as [c ps w i l s b Hi|o c ps w i l s b Hi|o c ps w i s b Hi|o c ps w i l s b Hi|o c ps w i l s b Hi
    |o c ps w i l s b Hi|o c ps w i b Hi|o c ps w i l s b Hi|o c ps w i l s b Hi|c ps|o c ps|o c ps i a s b Hi
    |o c ps i a l s b Hi|o c ps i a l s b Hi|o c ps i Hi|o c ps];
    simpl in *; try (pose proof (P i _ Hi) as Q); intros Hw; try discriminate Hw.
  - apply (inv_take _ _ _ _ _ _ I Hi); [done|]. pinv_tac Q C.
  - apply (inv_local _ _ _ _ _ _ _ I Hi); [by destruct c|]. destruct c; pinv_tac Q C.
  - apply (inv_local _ _ _ _ _ _ _ I Hi); [done|]. pinv_tac Q C.
  - apply (inv_give _ _ _ _ _ _ _ I Hi); [done..|]. pinv_tac Q C.
  - apply (inv_local _ _ _ _ _ _ _ I Hi); [done|]. pinv_tac Q C.
  - apply (inv_local _ _ _ _ _ _ _ I Hi); [done|]. pinv_tac Q C.
  - apply (inv_local _ _ _ _ _ _ _ I Hi); [done|]. pinv_tac Q C.
  - apply (inv_local _ _ _ _ _ _ _ I Hi); [done|]. pinv_tac Q C.
  - apply (inv_give _ _ _ _ _ _ _ I Hi); [done..|]. pinv_tac Q C.
Qed.

(** The conditions on a process that the step does not touch. *)
Lemma pinv_change o o' c c' w w' i p :
  pinv o c w i p -> (o' = Some (ByProc i) <-> o = Some (ByProc i)) -> waker_at w' i = waker_at w i ->
  (to_visit w i = true -> to_visit w' i = true) -> c' = c \/ (c' = true /\ o <> Some (ByProc i)) -> pinv o' c' w' i p.
Proof.
  intros [Q1 Q2 Q3 Q4 Q5 Q6 Q7] Ho Hw Hv Hc. constructor; rewrite ?Hw; auto.
  - by rewrite Ho.
  - intros Hp. destruct Hc as [->|[-> Hne]]; [auto|]. destruct Hne. apply Q1. by destruct Hp as [-> | ->].
  - intros Hp. destruct Hc as [->|[-> _]]; auto.
Qed.

(** A step of the waker that changes no process. *)
Lemma inv_waker o c ps w o' c' w' :
  inv (World o c ps w) -> c' = is_set w' -> (o' = Some ByWaker <-> waker_lk w' = true) ->
  (forall i, o <> Some (ByProc i) /\ o' <> Some (ByProc i)) ->
  (forall i p, ps !! i = Some p -> pinv o c w i p -> pinv o' c' w' i p) -> inv (World o' c' ps w').
Proof.
  intros [C L O P] HC HL Ho HP. simpl in *. constructor; simpl; auto.
  intros i Hi. destruct (Ho i). done.
Qed.

(** A step of the waker at process [i]. *)
Lemma inv_visit o c ps w w' i p p' :
  inv (World o c ps w) -> is_set w = true -> is_set w' = true -> waker_lk w = true -> waker_lk w' = true ->
  ps !! i = Some p -> (pinv (Some ByWaker) true w i p -> pinv (Some ByWaker) true w' i p') ->
  (forall j, j <> i -> waker_at w' j = waker_at w j /\ to_visit w' j = to_visit w j) ->
  inv (World o c (<[i := p']> ps) w').
Proof.
  intros [C L O P] HC HC' HL HL' Hi HP Hj. simpl in *. rewrite HC in C. subst c. rewrite (proj2 L HL) in *.
  constructor; simpl; auto; try done.
  intros j q Hq. apply (procs_insert _ _ _ _ _ _ Hi) in Hq as [[-> ->]|[Hne Hq]]; [auto|].
  destruct (Hj j Hne) as [E1 E2]. eapply pinv_change; [exact (P j q Hq)|done|done|by rewrite E2|by left].
Qed.

(** The three steps of wakeup() at process [i]. *)
Lemma visit_lock i a s b : pinv (Some ByWaker) true (WPLock i) i (Wproc a None s b) ->
  pinv (Some ByWaker) true (WCheck i) i (Wproc a (Some ByWaker) s b).
Proof.
  intros [Q1 Q2 Q3 Q4 Q5 Q6 Q7]. simpl in *. constructor; simpl; auto; rewrite bool_decide_true by done.
  - by destruct (has_plock a).
  - by destruct (has_plock a).
Qed.

Lemma visit_check i a l s b : pinv (Some ByWaker) true (WCheck i) i (Wproc a l s b) ->
  pinv (Some ByWaker) true (WPUnlock i) i (Wproc a l (if bool_decide (s = SLEEPING) && b then RUNNABLE else s) b).
Proof.
  intros [Q1 Q2 Q3 Q4 Q5 Q6 Q7]. simpl in *. rewrite bool_decide_true in Q2, Q3 by done.
  assert (has_plock a = false) as Ha by (destruct (has_plock a); [by discriminate Q3|done]).
  constructor; simpl; rewrite ?bool_decide_true by done; auto.
  - destruct a; try done; try (subst s; reflexivity). destruct Q4 as [-> [-> | ->]]; auto.
  - intros [-> |Hs]; [done|]. exfalso. destruct a; try done; try (subst s; simpl in Hs; done).
    destruct Q4 as [-> [-> | ->]]; done.
Qed.

Lemma visit_unlock i a l s b : pinv (Some ByWaker) true (WPUnlock i) i (Wproc a l s b) ->
  pinv (Some ByWaker) true (WPLock (S i)) i (Wproc a None s b).
Proof.
  intros [Q1 Q2 Q3 Q4 Q5 Q6 Q7]. simpl in *. rewrite bool_decide_true in Q2, Q3 by done.
  assert (has_plock a = false) as Ha by (destruct (has_plock a); [by discriminate Q3|done]).
  constructor; simpl; rewrite ?Ha; auto.
Qed.

Lemma step_inv_waker w w' : inv w -> step w w' -> waker w' <> waker w -> inv w'.
Proof.
  intros I. pose proof (in_cond _ I) as C. pose proof (in_lk _ I) as L.
  destruct 1 as [c ps w i l s b Hi|o c ps w i l s b Hi|o c ps w i s b Hi|o c ps w i l s b Hi|o c ps w i l s b Hi
    |o c ps w i l s b Hi|o c ps w i b Hi|o c ps w i l s b Hi|o c ps w i l s b Hi|c ps|o c ps|o c ps i a s b Hi
    |o c ps i a l s b Hi|o c ps i a l s b Hi|o c ps i Hi|o c ps];
    simpl in *; intros Hw; try (destruct Hw; reflexivity); clear Hw.
  - apply (inv_waker _ _ _ _ _ _ _ I); try done. intros i p _ Q. by eapply pinv_change; [exact Q|..]; auto.
  - rewrite (proj2 L eq_refl) in *. apply (inv_waker _ _ _ _ _ _ _ I); try done. intros i p _ Q.
    eapply pinv_change; [exact Q|done|done| |by right]. done.
  - apply (inv_visit _ _ _ _ (WCheck i) _ _ _ I eq_refl eq_refl eq_refl eq_refl Hi); simpl.
    + intros Q. by apply (visit_lock i a s b).
    + intros j Hj. by rewrite bool_decide_false.
  - apply (inv_visit _ _ _ _ (WPUnlock i) _ _ _ I eq_refl eq_refl eq_refl eq_refl Hi); simpl.
    + intros Q. by apply (visit_check i a l s b).
    + intros j Hj. split; [done|]. apply bool_decide_ext. lia.
  - apply (inv_visit _ _ _ _ (WPLock (S i)) _ _ _ I eq_refl eq_refl eq_refl eq_refl Hi); simpl.
    + intros Q. by apply (visit_unlock i a l s b).
    + intros j Hj. rewrite bool_decide_false by done. split; [done|]. apply bool_decide_ext. lia.
  - rewrite (proj2 L eq_refl) in *. apply (inv_waker _ _ _ _ _ _ _ I); try done. intros j p Hp Q.
    eapply pinv_change; [exact Q|done|done| |by left]. simpl. rewrite bool_decide_eq_true. intros Hle.
    apply lookup_lt_Some in Hp. apply lookup_ge_None in Hi. lia.
  - rewrite (proj2 L eq_refl) in *. apply (inv_waker _ _ _ _ _ _ _ I); try done. intros i p Hp Q.
    eapply pinv_change; [exact Q|done|done|done|by left].
Qed.

#[export] Instance wpc_eq_dec : EqDecision wpc.
Proof. solve_decision. Defined.

Lemma step_inv w w' : inv w -> step w w' -> inv w'.
Proof.
  intros I St. destruct (decide (waker w' = waker w)); [by eapply step_inv_proc|by eapply step_inv_waker].
Qed.

Lemma wait_inv n w : rtc step (start n) w -> inv w.
Proof.
  intros R. pose proof (start_inv n) as I. revert I. induction R as [|w1 w2 w3 St _ IH]; [done|].
  intros I. apply IH. by eapply step_inv.
Qed.

(** ** Termination *)

Definition srank (c : bool) (p : wproc) : nat :=
  match pc p with
  | Lock => if c then 3 else 12
  | Test => if c then 2 else 11
  | PLock => 10
  | Unlk => 9
  | SetSleep => 8
  | Swtch => 7
  | Asleep => 6
  | Resume => 5
  | Unlock => 1
  | Done => 0
  end.
Definition wrank (n : nat) (w : wpc) : nat :=
  match w with
  | WLock => 3 * n + 6
  | WSet => 3 * n + 5
  | WPLock i => 3 * (n - i) + 4
  | WCheck i => 3 * (n - i) + 3
  | WPUnlock i => 3 * (n - i) + 2
  | WUnlock => 1
  | WDone => 0
  end.
Definition measure (w : world) : nat :=
  sum_list_with (srank (cond w)) (procs w) + wrank (length (procs w)) (waker w).

Lemma sum_insert (f : wproc -> nat) ps i p p' : ps !! i = Some p ->
  (sum_list_with f (<[i := p']> ps) + f p = sum_list_with f ps + f p')%nat.
Proof.
  revert i. induction ps as [|q ps IH]; intros [|i] Hi; try done; [injection Hi as <-; simpl; lia|].
  change (f q + sum_list_with f (<[i := p']> ps) + f p = f q + sum_list_with f ps + f p')%nat.
  specialize (IH i Hi). lia.
Qed.

Lemma srank_le p : (srank true p <= srank false p)%nat.
Proof. unfold srank. destruct (pc p); lia. Qed.

Lemma step_measure w w' : inv w -> step w w' -> (measure w' < measure w)%nat.
Proof.
  intros I St. pose proof (in_procs _ I) as P. pose proof (in_cond _ I) as C.
  destruct St as [c ps w i l s b Hi|o c ps w i l s b Hi|o c ps w i s b Hi|o c ps w i l s b Hi|o c ps w i l s b Hi
    |o c ps w i l s b Hi|o c ps w i b Hi|o c ps w i l s b Hi|o c ps w i l s b Hi|c ps|o c ps|o c ps i a s b Hi
    |o c ps i a l s b Hi|o c ps i a l s b Hi|o c ps i Hi|o c ps]; unfold measure; simpl in *;
    rewrite ?length_insert;
    try match goal with |- context [<[i := ?p']> ps] =>
      pose proof (sum_insert (srank c) ps i _ p' Hi) as Hs; unfold srank at 2 4 in Hs; simpl in Hs;
      pose proof (lookup_lt_Some _ _ _ Hi); pose proof (P i _ Hi) as [Q1 Q2 Q3 Q4 Q5 Q6 Q7]; simpl in * end;
    try lia.
  all: try (destruct c; simpl in *; lia).
  - rewrite (Q7 (or_intror eq_refl)) in *. lia.
  - assert (sum_list_with (srank true) ps <= sum_list_with (srank c) ps)%nat; [|lia].
    clear -ps. induction ps as [|p ps IH]; simpl; [lia|]. destruct c; [lia|]. pose proof (srank_le p). lia.
Qed.

(** ** Progress *)

Definition at_ok (w : world) : Prop := forall i, waker_at (waker w) i = true -> (i < length (procs w))%nat.

Lemma step_at w w' : at_ok w -> step w w' -> at_ok w'.
Proof.
  intros A St. destruct St; intros j Hj; simpl in *; rewrite ?length_insert; try done;
    try (apply bool_decide_eq_true in Hj; subst; by eapply lookup_lt_Some); by apply A.
Qed.

Lemma reach_at n w : rtc step (start n) w -> at_ok w.
Proof.
  intros R. assert (at_ok (start n)) as A by done. revert A. induction R as [|w1 w2 w3 St _ IH]; [done|].
  intros A. apply IH. by eapply step_at.
Qed.

#[export] Instance spc_eq_dec : EqDecision spc.
Proof. solve_decision. Defined.

(** A process that is not waiting for lk, asleep or done can move. *)
Lemma proc_moves o c ps w i p : inv (World o c ps w) -> ps !! i = Some p -> (has_plock (pc p) = true \/ has_lk (pc p) = true) ->
  (pc p = PLock -> waker_at w i = false) -> exists w', step (World o c ps w) w'.
Proof.
  intros I Hi Hh Hp. destruct (in_procs _ I i p Hi) as [_ Q _ _ _ _ _]. simpl in Q.
  destruct p as [a l s b]. simpl in *. destruct a; simpl in *; try (destruct Hh; done); try (eexists; by econstructor).
  rewrite Hp in Q by done. subst l. eexists. by econstructor.
Qed.

Lemma progress w : inv w -> at_ok w -> finished w \/ exists w', step w w'.
Proof.
  intros I A. destruct w as [o c ps w]. pose proof (in_lk _ I) as L. simpl in L. destruct o as [[|i]|].
  - right. pose proof (proj1 L eq_refl) as Hw. destruct w as [| |i|i|i| |]; try done; try (eexists; by econstructor).
    + destruct (ps !! i) as [p|] eqn:Hi; [|eexists; by econstructor].
      destruct (in_procs _ I i p Hi) as [_ Q _ _ _ _ _]. simpl in Q.
      destruct (has_plock (pc p)) eqn:Hh.
      * eapply proc_moves; eauto.
      * destruct p as [a l s b]. simpl in *. subst l. eexists. by econstructor.
    + destruct (lookup_lt_is_Some_2 ps i) as [[a l s b] Hi]; [apply A; by apply bool_decide_eq_true|].
      eexists. by econstructor.
    + destruct (lookup_lt_is_Some_2 ps i) as [[a l s b] Hi]; [apply A; by apply bool_decide_eq_true|].
      eexists. by econstructor.
  - right. destruct (in_owner _ I i eq_refl) as (p & Hi & Hh). simpl in Hi. eapply proc_moves; eauto.
    intros _. destruct w; try done; discriminate (proj2 L eq_refl).
  - assert (w = WLock \/ w = WDone) as [->| ->]; [|right; eexists; by econstructor|].
    { destruct w; auto; discriminate (proj2 L eq_refl). }
    destruct (decide (Forall (fun p => pc p = Done) ps)) as [HD|HD]; [by left|]. right.
    apply not_Forall_Exists in HD; [|intros p; apply _].
    apply Exists_exists in HD as (p & [i Hi]%list_elem_of_lookup_1 & Hne).
    pose proof (in_procs _ I i p Hi) as [Q1 Q2 Q3 Q4 Q5 Q6 Q7]. simpl in *.
    destruct p as [a l s b]. simpl in *. destruct a; simpl in *; try done; try (by discriminate (proj2 Q1 eq_refl)); try (eexists; by econstructor).
    destruct Q4 as [-> [-> | ->]]; [discriminate (Q6 (or_intror eq_refl))|]. subst l. eexists. by econstructor.
Qed.

(** C3: no wakeup is lost, and waiting ends.  Any number of processes wait for a
    condition under lk with sleep(); one process or handler makes it true under
    lk and calls wakeup().  In every state that an interleaving of their steps on
    the CPUs can reach: once wakeup() is done no process sleeps on the channel;
    if no step is possible every process is past its wait; and every further
    interleaving is finite. *)
Theorem no_lost_wakeup (n : nat) (w : world) (R : rtc step (start n) w) :
  (waker w = WDone -> Forall (fun p => pstate p <> SLEEPING) (procs w)) /\
  (nf step w -> finished w) /\ sn step w.
Proof.
  pose proof (wait_inv n w R) as I. pose proof (reach_at n w R) as A. split_and!.
  - intros Hw. apply Forall_lookup. intros i p Hi Hs. pose proof (pi_lost _ _ _ _ _ (in_procs _ I i p Hi) (or_intror Hs)) as Hv.
    by rewrite Hw in Hv.
  - intros Hn. destruct (progress w I A) as [|[w' St]]; [done|]. destruct Hn. by exists w'.
  - clear A R. remember (measure w) as m eqn:Em. revert w I Em. induction m as [m IH] using lt_wf_ind. intros w I ->.
    constructor. intros w' St. eapply IH; [by apply step_measure|by eapply step_inv|done].
Qed.

(** Two processes; the first is asleep when the waker starts. *)
Lemma no_lost_wakeup_witness :
  exists w, rtc step (start 2) w /\ sn step w /\ procs w !! 0%nat = Some (Wproc Asleep None SLEEPING true).
Proof.
  assert (exists w, rtc step (start 2) w /\ procs w !! 0%nat = Some (Wproc Asleep None SLEEPING true)) as (w & R & Hw).
  { eexists. split.
    - eapply rtc_l; [by eapply (st_lock _ _ _ 0)|]. eapply rtc_l; [by eapply (st_test _ _ _ _ 0)|]. simpl.
      eapply rtc_l; [by eapply (st_plock _ _ _ _ 0)|]. eapply rtc_l; [by eapply (st_unlk _ _ _ _ 0)|].
      eapply rtc_l; [by eapply (st_sleep _ _ _ _ 0)|]. eapply rtc_l; [by eapply (st_swtch _ _ _ _ 0)|]. apply rtc_refl.
    - reflexivity. }
  exists w. split; [exact R|]. split; [|exact Hw]. apply (no_lost_wakeup 2 w R).
Defined.

End Wait.
