(* ===== verification/Sched.v ===== *)
(** Scheduling and sleeping: myproc(), sched(), yield(), sleep(), wakeup(), kill()
    and the body of scheduler() from kernel/proc.c, and the sleep locks of
    kernel/sleeplock.c built on them.

    A call that gives up the CPU ends in [Blocked]: the state is the one swtch()
    saves, with [p->lock] still held for the scheduler to release. *)

From Stdlib Require Import ZArith Lia.
From stdpp Require Import base gmap strings list numbers.
From S2P Require Import Prelude Params State Spinlock.

Open Scope Z_scope.

(** ** The current process *)

Definition myproc : M (option nat) :=
  push_off;;
  c ← mycpu;
  pop_off;;
  mret (h_proc c).

(** Dereferencing the result of myproc(); a null pointer traps in the kernel. *)
Definition curproc : M nat :=
  p ← myproc;
  match p with Some i => mret i | None => panic "kerneltrap" end.

Definition getproc (i : nat) : M proc := deref "proc" k_procs i.
Definition modproc (i : nat) (f : proc -> proc) : M unit :=
  modify (fun k => set_k_procs (alter f i (k_procs k)) k).

(** Switch to scheduler.  [w] records why the process gave up the CPU. *)
Definition sched {A} (w : waiting) : M A :=
  i ← curproc;
  h ← holding (LProc i);
  if negb h then panic "sched p->lock" else
  c ← mycpu;
  if negb (h_noff c =? 1) then panic "sched locks" else
  p ← getproc i;
  if bool_decide (pr_state p = RUNNING) then panic "sched running" else
  on ← intr_get;
  if on : bool then panic "sched interruptible" else
  blocked w.

(** What sched() does when the scheduler switches back: restore [intena]. *)
Definition sched_return (intena : bool) : M unit :=
  modify (fun k => set_k_hart (set_h_intena intena (k_hart k)) k).

(** Give up the CPU for one scheduling round. *)
Definition yield {A} : M A :=
  i ← curproc;
  acquire (LProc i);;
  modproc i (set_pr_state RUNNABLE);;
  sched WSched.

(** Atomically release lock and sleep on chan.  [loc] is the caller's loop
    variable, live across the sleep. *)
Definition sleep {A} (ch : channel) (l : lockid) (loc : Z) : M A :=
  i ← curproc;
  acquire (LProc i);;
  release l;;
  modproc i (set_pr_chan (Some ch));;
  modproc i (set_pr_state SLEEPING);;
  sched (WSleep ch loc).

(** The part of sleep() after sched() returns. *)
Definition sleep_return (l : lockid) : M unit :=
  i ← curproc;
  modproc i (set_pr_chan None);;
  release (LProc i);;
  acquire l.

Definition wakeup1 (ch : channel) (i : nat) : M unit :=
  me ← myproc;
  if bool_decide (me = Some i) then mret tt else
  acquire (LProc i);;
  p ← getproc i;
  when (bool_decide (pr_state p = SLEEPING) && bool_decide (pr_chan p = Some ch))
    (modproc i (set_pr_state RUNNABLE));;
  release (LProc i).

(** Wake up all processes sleeping on chan. *)
Definition wakeup (ch : channel) : M unit := forM (seq 0 NPROC) (wakeup1 ch).

(** Kill the process with the given pid. *)
Fixpoint kill_from (l : list nat) (pid : Z) : M Z :=
  match l with
  | [] => mret (-1)
  | i :: l =>
      acquire (LProc i);;
      p ← getproc i;
      if pr_pid p =? pid then
        modproc i (set_pr_killed 1);;
        when (bool_decide (pr_state p = SLEEPING)) (modproc i (set_pr_state RUNNABLE));;
        release (LProc i);;
        mret 0
      else
        release (LProc i);;
        kill_from l pid
  end.
Definition kill (pid : Z) : M Z := kill_from (seq 0 NPROC) pid.

(** One visit of scheduler()'s inner loop, up to the swtch() into process [i]:
    the result says whether the CPU now runs it. *)
Definition scheduler_visit (i : nat) : M bool :=
  acquire (LProc i);;
  p ← getproc i;
  if bool_decide (pr_state p = RUNNABLE) then
    modproc i (set_pr_state RUNNING);;
    modify (fun k => set_k_hart (set_h_proc (Some i) (k_hart k)) k);;
    mret true
  else
    release (LProc i);;
    mret false.

(** scheduler() after the process has switched back. *)
Definition scheduler_back (i : nat) : M unit :=
  modify (fun k => set_k_hart (set_h_proc None (k_hart k)) k);;
  release (LProc i).

(** ** Sleep locks *)

Definition sleeplock_ref (s : sleepid) (k : kst) : option sleeplock :=
  match s with
  | SlBuf i => b_lock <$> k_bufs k !! i
  | SlInode i => i_lock <$> k_inodes k !! i
  end.

Definition get_sleeplock (s : sleepid) : M sleeplock := fun k =>
  match sleeplock_ref s k with Some lk => Ret lk k | None => Panic "sleeplock" end.

Definition put_sleeplock (s : sleepid) (lk : sleeplock) : M unit := modify (fun k =>
  match s with
  | SlBuf i => set_k_bufs (alter (set_b_lock lk) i (k_bufs k)) k
  | SlInode i => set_k_inodes (alter (set_i_lock lk) i (k_inodes k)) k
  end).

Definition initsleeplock (s : sleepid) : M unit :=
  initlock (LSleep s);;
  put_sleeplock s (Sleeplock false 0).

(** The while loop tests [lk->locked] again after every sleep. *)
Definition acquiresleep (s : sleepid) : M unit :=
  acquire (LSleep s);;
  lk ← get_sleeplock s;
  if sl_locked lk then sleep (ChSleep s) (LSleep s) 0 else
  i ← curproc;
  p ← getproc i;
  put_sleeplock s (Sleeplock true (pr_pid p));;
  release (LSleep s).

Definition releasesleep (s : sleepid) : M unit :=
  acquire (LSleep s);;
  put_sleeplock s (Sleeplock false 0);;
  wakeup (ChSleep s);;
  release (LSleep s).

Definition holdingsleep (s : sleepid) : M bool :=
  acquire (LSleep s);;
  lk ← get_sleeplock s;
  r ← (if sl_locked lk
       then i ← curproc; p ← getproc i; mret (sl_pid lk =? pr_pid p)
       else mret false);
  release (LSleep s);;
  mret r.

(** ** Facts *)

Lemma set_k_hart_eta k : set_k_hart (k_hart k) k = k.
Proof. by destruct k. Qed.
Lemma set_k_locks_eta k : set_k_locks (k_locks k) k = k.
Proof. by destruct k. Qed.
Lemma set_k_procs_eta k : set_k_procs (k_procs k) k = k.
Proof. by destruct k. Qed.
Lemma set_k_bufs_eta k : set_k_bufs (k_bufs k) k = k.
Proof. by destruct k. Qed.

Lemma myproc_eq k : hart_ok (k_hart k) -> myproc k = Ret (h_proc (k_hart k)) k.
Proof.
  intros Hok. unfold myproc. mcall (push_off_eq k). unfold mycpu. mstep.
  assert (pop_off (set_k_hart (push_hart (k_hart k)) k) = Ret tt k) as E.
  { rewrite pop_off_eq; ksimpl; [|done|].
    - rewrite pop_push_hart by done.
      change (Ret () (set_k_hart (k_hart k) k) = Ret () k). by rewrite set_k_hart_eta.
    - destruct Hok as (?&?&?). unfold push_hart. ksimpl. lia. }
  mcall E. done.
Qed.

(** Process [i], with record [p], is running on this CPU. *)
Definition running (k : kst) (i : nat) (p : proc) : Prop :=
  hart_ok (k_hart k) /\ h_proc (k_hart k) = Some i /\ k_procs k !! i = Some p.

Lemma curproc_eq k i p : running k i p -> curproc k = Ret i k.
Proof.
  intros (Hok & Hp & _). unfold curproc. mcall (myproc_eq k Hok).
  by rewrite Hp.
Qed.

Lemma getproc_eq k i p : k_procs k !! i = Some p -> getproc i k = Ret p k.
Proof. intros H. unfold getproc, deref. by rewrite H. Qed.

Lemma running_acq l k i p : running k i p -> running (acq l k) i p.
Proof.
  intros (Hok & Hp & Hi). unfold running, acq. ksimpl. split_and!; auto with xv6.
Qed.

(** What wakeup(ch), called by process [me], does to process [i]. *)
Definition wake (ch : channel) (me : option nat) (i : nat) (p : proc) : proc :=
  if bool_decide (me = Some i) then p
  else if bool_decide (pr_state p = SLEEPING) && bool_decide (pr_chan p = Some ch)
  then set_pr_state RUNNABLE p else p.

Definition wakeall (ch : channel) (k : kst) : kst :=
  set_k_procs (imap (wake ch (h_proc (k_hart k))) (k_procs k)) k.

Definition plocks_free (k : kst) : Prop := forall i, k_locks k !! LProc i = None.

Lemma alter_ext_at {A} (f g : A -> A) (l : list A) i x :
  l !! i = Some x -> f x = g x -> alter f i l = alter g i l.
Proof.
  intros Hi Hf. apply list_eq. intros j. rewrite !list_lookup_alter. case_decide; [|done].
  rewrite Hi. simpl. by rewrite Hf.
Qed.

Lemma alter_id_at {A} (f : A -> A) (l : list A) i x :
  l !! i = Some x -> f x = x -> alter f i l = l.
Proof. intros Hi Hf. rewrite (alter_ext_at f id l i x) by done. by apply list_alter_id. Qed.

Lemma alter_insert_at {A} (f : A -> A) (l : list A) i x :
  l !! i = Some x -> alter f i l = <[i := f x]> l.
Proof.
  intros Hi. apply list_eq. intros j. rewrite list_lookup_alter.
  destruct (decide (i = j)) as [->|].
  - rewrite Hi, list_lookup_insert_eq by eauto using lookup_lt_Some. done.
  - by rewrite list_lookup_insert_ne.
Qed.


Lemma wakeup1_eq ch i k p :
  hart_ok (k_hart k) -> k_locks k !! LProc i = None -> k_procs k !! i = Some p ->
  wakeup1 ch i k = Ret tt (set_k_procs (alter (wake ch (h_proc (k_hart k)) i) i (k_procs k)) k).
Proof.
  intros Hok Hl Hp. unfold wakeup1. mcall (myproc_eq k Hok).
  case_bool_decide as Hme.
  { rewrite (alter_id_at _ _ _ p) by (done || unfold wake; by rewrite bool_decide_true).
    by rewrite set_k_procs_eta. }
  mcall (acquire_eq _ _ Hl).
  mcall (getproc_eq (acq (LProc i) k) i p Hp).
  unfold when, modproc.
  rewrite (alter_ext_at _ (fun q =>
    if bool_decide (pr_state p = SLEEPING) && bool_decide (pr_chan p = Some ch)
    then set_pr_state RUNNABLE q else q) _ _ p)
    by (done || unfold wake; by rewrite bool_decide_false).
  destruct (bool_decide (pr_state p = SLEEPING) && bool_decide (pr_chan p = Some ch)); mstep;
    rewrite (release_after _ k) by done; apply f_equal; unfold acq; kst_eq.
  symmetry. by apply (alter_id_at _ _ _ p).
Qed.

Lemma foldl_alter_lookup {A} (f : nat -> A -> A) l (ps : list A) j :
  NoDup l ->
  foldl (fun ps i => alter (f i) i ps) ps l !! j =
    if bool_decide (j ∈ l) then f j <$> ps !! j else ps !! j.
Proof.
  revert ps. induction l as [|i l IH]; intros ps Hnd; simpl; [done|].
  apply NoDup_cons in Hnd as [Hi Hnd]. rewrite IH, list_lookup_alter by done.
  repeat case_bool_decide; repeat case_decide; subst; set_solver.
Qed.

Lemma wakeup_foldl ch l k :
  hart_ok (k_hart k) -> plocks_free k -> Forall (fun i => i < length (k_procs k))%nat l ->
  forM l (wakeup1 ch) k =
    Ret tt (set_k_procs (foldl (fun ps i => alter (wake ch (h_proc (k_hart k)) i) i ps)
                               (k_procs k) l) k).
Proof.
  intros Hok Hl. revert k Hok Hl. induction l as [|i l IH]; intros k Hok Hl Hlt; simpl.
  - by rewrite set_k_procs_eta.
  - apply Forall_cons_1 in Hlt as [Hi Hlt]. apply lookup_lt_is_Some in Hi as [p Hp].
    mcall (wakeup1_eq ch i k p Hok (Hl i) Hp).
    rewrite IH; [done|done|done|]. ksimpl. by rewrite length_alter.
Qed.

Lemma wakeup_eq ch k :
  hart_ok (k_hart k) -> plocks_free k -> length (k_procs k) = NPROC ->
  wakeup ch k = Ret tt (wakeall ch k).
Proof.
  intros Hok Hl Hn. unfold wakeup. rewrite wakeup_foldl; auto.
  - unfold wakeall. f_equal. f_equal. apply list_eq. intros j.
    rewrite foldl_alter_lookup by apply NoDup_seq. rewrite list_lookup_imap.
    case_bool_decide as Hj; [done|]. rewrite elem_of_seq in Hj.
    rewrite lookup_ge_None_2 by lia. done.
  - apply Forall_forall. intros j. rewrite elem_of_seq. lia.
Qed.

(** The state in which process [i], holding only lock [l], sleeps on [ch]. *)
Definition asleep (ch : channel) (l : lockid) (i : nat) (k : kst) : kst :=
  set_k_locks (delete l (<[LProc i := h_id (k_hart k)]> (k_locks k)))
    (set_k_procs (alter (fun p => set_pr_state SLEEPING (set_pr_chan (Some ch) p)) i (k_procs k)) k).

(** A process that holds exactly the lock it passes to sleep() is descheduled
    without a panic, with that lock released and its own lock held. *)
Lemma sleep_eq {A} ch l loc k i p :
  running k i p -> h_noff (k_hart k) = 1 -> l <> LProc i ->
  k_locks k !! l = Some (h_id (k_hart k)) -> k_locks k !! LProc i = None ->
  sleep (A := A) ch l loc k = Blocked (WSleep ch loc) (asleep ch l i k).
Proof.
  intros Hr Hn Hne Hl Hp. destruct Hr as (Hok & Hcur & Hi).
  assert (running k i p) as Hr by done.
  unfold sleep. mcall (curproc_eq k i p Hr).
  mcall (acquire_eq _ _ Hp).
  assert (release l (acq (LProc i) k) = Ret tt (rel l (acq (LProc i) k))) as E.
  { apply release_eq; unfold acq; ksimpl; [by rewrite lookup_insert_ne by done|done|].
    unfold push_hart. ksimpl. lia. }
  mcall E. unfold modproc. mstep.
  set (k1 := set_k_procs _ (set_k_procs _ _)).
  assert (k1 = asleep ch l i k) as ->.
  { subst k1. unfold asleep, rel, acq. kst_eq.
    - rewrite pop_push_hart; done.
    - by rewrite list_alter_alter_eq. }
  assert (running (asleep ch l i k) i (set_pr_state SLEEPING (set_pr_chan (Some ch) p))) as Hr'.
  { unfold asleep, running. ksimpl. split_and!; try done.
    by rewrite list_lookup_alter_eq, Hi. }
  unfold sched. mcall (curproc_eq _ _ _ Hr').
  unfold holding. mstep. unfold asleep at 1 2. ksimpl.
  rewrite lookup_delete_ne, lookup_insert_eq, Z.eqb_refl by done. cbn [negb].
  unfold mycpu. mstep. unfold asleep at 1. ksimpl. rewrite Hn. cbn [negb Z.eqb Pos.eqb].
  mcall (getproc_eq _ _ _ (proj2 (proj2 Hr'))). ksimpl.
  rewrite bool_decide_false by done.
  unfold intr_get. mstep. unfold asleep at 1. ksimpl.
  destruct Hok as (_ & Hs & _). rewrite Hs by lia. done.
Qed.

(** ** Sleep locks *)

Definition put_sl (s : sleepid) (lk : sleeplock) (k : kst) : kst :=
  match s with
  | SlBuf i => set_k_bufs (alter (set_b_lock lk) i (k_bufs k)) k
  | SlInode i => set_k_inodes (alter (set_i_lock lk) i (k_inodes k)) k
  end.

Lemma get_sleeplock_eq s k lk : sleeplock_ref s k = Some lk -> get_sleeplock s k = Ret lk k.
Proof. intros H. unfold get_sleeplock. by rewrite H. Qed.

Lemma put_sleeplock_eq s lk k : put_sleeplock s lk k = Ret tt (put_sl s lk k).
Proof. by destruct s. Qed.

Lemma sleeplock_ref_acq s l k : sleeplock_ref s (acq l k) = sleeplock_ref s k.
Proof. by destruct s. Qed.

Lemma put_sl_release s lk l k k' :
  set_k_locks (k_locks k) (set_k_hart (k_hart k) (put_sl s lk (acq l k))) = k' ->
  put_sl s lk k = k'.
Proof. intros <-. destruct s; unfold put_sl, acq; kst_eq. Qed.

Lemma acquiresleep_eq s k i p lk :
  running k i p -> k_locks k !! LSleep s = None ->
  sleeplock_ref s k = Some lk -> sl_locked lk = false ->
  acquiresleep s k = Ret tt (put_sl s (Sleeplock true (pr_pid p)) k).
Proof.
  intros Hr Hl Hs Hf. unfold acquiresleep.
  mcall (acquire_eq _ _ Hl).
  assert (sleeplock_ref s (acq (LSleep s) k) = Some lk) as Hs' by by rewrite sleeplock_ref_acq.
  mcall (get_sleeplock_eq _ _ _ Hs'). rewrite Hf.
  pose proof (running_acq (LSleep s) k i p Hr) as Hr'.
  mcall (curproc_eq _ _ _ Hr').
  mcall (getproc_eq _ _ _ (proj2 (proj2 Hr'))).
  mcall (put_sleeplock_eq _ _ _).
  destruct Hr as (Hok & _).
  rewrite (release_after _ k) by (done || by destruct s). f_equal.
  symmetry. by eapply put_sl_release.
Qed.

(** A process that finds the sleep lock held goes to sleep on it. *)
Lemma acquiresleep_blocks s k i p lk :
  running k i p -> h_noff (k_hart k) = 0 -> k_locks k !! LSleep s = None ->
  k_locks k !! LProc i = None ->
  sleeplock_ref s k = Some lk -> sl_locked lk = true ->
  acquiresleep s k =
    Blocked (WSleep (ChSleep s) 0) (asleep (ChSleep s) (LSleep s) i (acq (LSleep s) k)).
Proof.
  intros Hr Hn Hl Hp Hs Hf. unfold acquiresleep.
  mcall (acquire_eq _ _ Hl).
  assert (sleeplock_ref s (acq (LSleep s) k) = Some lk) as Hs' by by rewrite sleeplock_ref_acq.
  mcall (get_sleeplock_eq _ _ _ Hs'). rewrite Hf.
  apply (sleep_eq _ _ _ _ i p); auto using running_acq; unfold acq, push_hart; ksimpl.
  - lia.
  - apply lookup_insert_eq.
  - by rewrite lookup_insert_ne.
Qed.

Lemma holdingsleep_eq s k i p lk :
  running k i p -> k_locks k !! LSleep s = None -> sleeplock_ref s k = Some lk ->
  holdingsleep s k = Ret (sl_locked lk && (sl_pid lk =? pr_pid p)) k.
Proof.
  intros Hr Hl Hs. unfold holdingsleep.
  mcall (acquire_eq _ _ Hl).
  assert (sleeplock_ref s (acq (LSleep s) k) = Some lk) as Hs' by by rewrite sleeplock_ref_acq.
  mcall (get_sleeplock_eq _ _ _ Hs').
  pose proof (running_acq (LSleep s) k i p Hr) as Hr'. destruct Hr as (Hok & _).
  assert (release (LSleep s) (acq (LSleep s) k) = Ret tt k) as Hrel.
  { rewrite (release_after _ k) by done. apply f_equal; unfold acq; kst_eq. }
  destruct (sl_locked lk); mstep.
  - mcall (curproc_eq _ _ _ Hr'). mstep.
    mcall (getproc_eq _ _ _ (proj2 (proj2 Hr'))). mstep.
    mcall Hrel. done.
  - mcall Hrel. done.
Qed.

Lemma releasesleep_eq s k :
  hart_ok (k_hart k) -> plocks_free k -> length (k_procs k) = NPROC ->
  k_locks k !! LSleep s = None ->
  releasesleep s k = Ret tt (wakeall (ChSleep s) (put_sl s (Sleeplock false 0) k)).
Proof.
  intros Hok Hpl Hn Hl. unfold releasesleep.
  mcall (acquire_eq _ _ Hl).
  mcall (put_sleeplock_eq _ _ _).
  assert (wakeup (ChSleep s) (put_sl s (Sleeplock false 0) (acq (LSleep s) k)) =
    Ret tt (wakeall (ChSleep s) (put_sl s (Sleeplock false 0) (acq (LSleep s) k)))) as E.
  { apply wakeup_eq; destruct s; unfold put_sl, acq, plocks_free; ksimpl; auto with xv6;
      intros j; by rewrite lookup_insert_ne by done. }
  mcall E.
  rewrite (release_after _ k) by (done || by destruct s). f_equal.
  destruct s; unfold wakeall, put_sl, acq; kst_eq.
Qed.

(** ** A sleep and its wakeup

    A process that sleeps in a critical section of [l] entered from [k0], the
    scheduler's release of its lock, and its return once it is runnable. *)

Lemma sleep_out {A} ch l loc k0 kw me p :
  running k0 me p -> h_noff (k_hart k0) = 0 -> k_locks k0 = ∅ -> (forall i, l <> LProc i) ->
  k_hart kw = push_hart (k_hart k0) -> k_locks kw = {[l := h_id (k_hart k0)]} ->
  k_procs kw !! me = Some p ->
  exists ka, sleep (A := A) ch l loc kw = Blocked (WSleep ch loc) ka /\
    k_hart ka = push_hart (k_hart k0) /\
    scheduler_back me ka = Ret tt (set_k_hart (set_h_proc None (k_hart k0)) (set_k_locks ∅
      (set_k_procs (<[me := set_pr_state SLEEPING (set_pr_chan (Some ch) p)]> (k_procs kw)) kw))).
Proof.
  intros (Hok & Hc & Hp) Hn Hl Hne Hh Hk Hpw. exists (asleep ch l me kw). split_and!.
  - apply (sleep_eq _ _ _ _ me p).
    + unfold running. rewrite Hh. split_and!; auto with xv6.
    + rewrite Hh. unfold push_hart. ksimpl. lia.
    + done.
    + rewrite Hk, Hh. apply lookup_singleton_eq.
    + rewrite Hk. by apply lookup_singleton_ne.
  - done.
  - unfold scheduler_back. mstep. rewrite release_eq; unfold asleep, rel; ksimpl.
    + apply f_equal. kst_eq.
      * rewrite Hh. rewrite <- (pop_push_hart (k_hart k0)) at 2 by done. done.
      * rewrite Hk, delete_insert_ne, delete_insert_eq, delete_singleton_eq by done. done.
      * by rewrite (alter_insert_at _ _ _ p).
    + rewrite lookup_delete_ne, lookup_insert_eq by done. by rewrite Hh.
    + by rewrite Hh.
    + rewrite Hh. unfold push_hart. ksimpl. lia.
Qed.

Lemma sleep_in ch l k0 kc me p :
  running k0 me p -> h_noff (k_hart k0) = 0 -> (forall i, l <> LProc i) ->
  pr_state p = RUNNING -> pr_chan p = None ->
  k_hart kc = set_h_proc None (k_hart k0) -> k_locks kc = ∅ ->
  k_procs kc !! me = Some (set_pr_state RUNNABLE (set_pr_chan (Some ch) p)) ->
  (r ← scheduler_visit me;
   if r : bool then sched_return (h_intena (push_hart (k_hart k0)));; sleep_return l
   else blocked WSched) kc =
  Ret tt (set_k_hart (push_hart (k_hart k0)) (set_k_locks {[l := h_id (k_hart k0)]}
    (set_k_procs (<[me := p]> (k_procs kc)) kc))).
Proof.
  intros (Hok & Hc & Hp) Hn Hne Hst Hch Hh Hk Hpw.
  unfold scheduler_visit. mstep.
  mcall (acquire_eq (LProc me) kc) by (by rewrite Hk).
  mstep. mcall (getproc_eq (acq (LProc me) kc) me) by (exact Hpw). ksimpl.
  rewrite bool_decide_true by done. unfold modproc, sched_return. mstep. unfold sleep_return.
  set (k1 := set_k_hart _ _).
  assert (k_hart k1 = push_hart (k_hart k0)) as Hh1.
  { unfold k1, acq, push_hart. ksimpl. rewrite Hh. ksimpl.
    apply hart_ext; ksimpl; try done. }
  assert (k_procs k1 !! me = Some (set_pr_state RUNNING (set_pr_chan (Some ch) p))) as Hp1.
  { unfold k1, acq. ksimpl. by rewrite list_lookup_alter_eq, Hpw. }
  mcall (curproc_eq k1 me (set_pr_state RUNNING (set_pr_chan (Some ch) p))) by
    (unfold running; rewrite Hh1; split_and!; auto with xv6).
  unfold modproc. mstep.
  set (k2 := set_k_procs _ k1).
  assert (release (LProc me) k2 = Ret tt (rel (LProc me) k2)) as Hrel.
  { apply release_eq; unfold k2; ksimpl; rewrite Hh1; [|done|unfold push_hart; ksimpl; lia].
    unfold k1, acq. ksimpl. by rewrite lookup_insert_eq, Hh. }
  mcall Hrel.
  rewrite acquire_eq.
  - apply f_equal. unfold acq at 1, k2. unfold rel. kst_eq.
    + rewrite Hh1, pop_push_hart by done. done.
    + rewrite Hh1, pop_push_hart by done. unfold k1, acq. ksimpl.
      by rewrite Hk, delete_insert_eq, delete_empty.
    + unfold k1, acq. ksimpl. rewrite !list_alter_alter_eq.
      rewrite (alter_insert_at _ _ _ _ Hpw). apply (f_equal (fun x => <[me := x]> (k_procs kc))).
      apply proc_ext; unfold compose; ksimpl; congruence.
  - unfold k2, rel, k1, acq. ksimpl. rewrite Hk, delete_insert_eq, delete_empty. done.
Qed.
