(* ===== verification/CString.v ===== *)
(** kernel/string.c.

    memset(), memmove() and memcpy() work on memory, loop by loop as in the
    source.  A [char *] that is only read is a function from offsets to chars
    (memory from an address, or a local array), and strncpy() and safestrcpy()
    give the bytes they store at the destination. *)

From Stdlib Require Import ZArith Lia.
From stdpp Require Import base gmap strings list numbers.
From S2P Require Import Prelude.

Open Scope Z_scope.

(** ** Memory *)

(** for(i = 0; i < n; i++) cdst[i] = c; *)
Fixpoint memset (m : bmem) (dst c : Z) (n : nat) : bmem :=
  match n with
  | O => m
  | S n => memset (st8 m dst c) (dst + 1) c n
  end.

(** while(n-- > 0) *d++ = *s++; *)
Fixpoint copy_up (m : bmem) (d s : Z) (n : nat) : bmem :=
  match n with
  | O => m
  | S n => copy_up (st8 m d (ld8 m s)) (d + 1) (s + 1) n
  end.

(** while(n-- > 0) *--d = *--s; *)
Fixpoint copy_down (m : bmem) (d s : Z) (n : nat) : bmem :=
  match n with
  | O => m
  | S n => copy_down (st8 m (d - 1) (ld8 m (s - 1))) (d - 1) (s - 1) n
  end.

Definition memmove (m : bmem) (dst src : Z) (n : nat) : bmem :=
  if (n =? 0)%nat then m
  else if (src <? dst) && (dst <? src + Z.of_nat n)
  then copy_down m (dst + Z.of_nat n) (src + Z.of_nat n) n
  else copy_up m dst src n.

Definition memcpy (m : bmem) (dst src : Z) (n : nat) : bmem := memmove m dst src n.

(** ** Comparison and strings *)

(** A readable [char *]: the char at each offset. *)
Definition cptr : Type := Z -> Z.
(** The pointer to memory address [a], and to a local array. *)
Definition mptr (m : bmem) (a : Z) : cptr := fun i => ld8 m (a + i).
Definition aptr (l : list Z) : cptr := fun i => default 0 (l !! Z.to_nat i).
Definition padd (p : cptr) (n : Z) : cptr := fun i => p (n + i).

Fixpoint memcmp_at (v1 v2 : cptr) (i : Z) (n : nat) : Z :=
  match n with
  | O => 0
  | S n => if negb (v1 i =? v2 i) then v1 i - v2 i else memcmp_at v1 v2 (i + 1) n
  end.
Definition memcmp (v1 v2 : cptr) (n : nat) : Z := memcmp_at v1 v2 0 n.

Fixpoint strncmp_at (p q : cptr) (i : Z) (n : nat) : Z :=
  match n with
  | O => 0
  | S n => if truth (p i) && (p i =? q i) then strncmp_at p q (i + 1) n else p i - q i
  end.
Definition strncmp (p q : cptr) (n : nat) : Z := strncmp_at p q 0 n.

(** The bytes strncpy(s, t, n) stores at s. *)
Fixpoint strncpy_at (t : cptr) (i : Z) (n : nat) : list Z :=
  match n with
  | O => []
  | S n => t i :: (if t i =? 0 then replicate n 0 else strncpy_at t (i + 1) n)
  end.
Definition strncpy (t : cptr) (n : nat) : list Z := strncpy_at t 0 n.

(** The bytes safestrcpy(s, t, n) stores at s. *)
Fixpoint safestrcpy_at (t : cptr) (i : Z) (n : nat) : list Z :=
  match n with
  | O => [0]
  | S n => t i :: (if t i =? 0 then [0] else safestrcpy_at t (i + 1) n)
  end.
Definition safestrcpy (t : cptr) (n : nat) : list Z :=
  match n with O => [] | S n => safestrcpy_at t 0 n end.

(** for(n = 0; s[n]; n++), reading at most [fuel] chars. *)
Fixpoint strlen_at (fuel : nat) (s : cptr) (n : Z) : option Z :=
  match fuel with
  | O => None
  | S fuel => if truth (s n) then strlen_at fuel s (n + 1) else Some n
  end.
Definition strlen (fuel : nat) (s : cptr) : option Z := strlen_at fuel s 0.

(** The string in a char array: the bytes before the first nul. *)
Fixpoint cstr (l : list Z) : list Z :=
  match l with
  | [] => []
  | c :: l => if c =? 0 then [] else c :: cstr l
  end.

(** ** Facts *)

Lemma memset_stn m dst c n : memset m dst c n = stn m dst (replicate n c).
Proof. revert m dst. induction n as [|n IH]; intros; simpl; [done|]. apply IH. Qed.

Lemma ld8_memset m dst c n a :
  ld8 (memset m dst c n) a =
    if decide (dst <= a < dst + Z.of_nat n) then u8 c else ld8 m a.
Proof.
  rewrite memset_stn, ld8_stn, length_replicate. case_decide; [|done].
  f_equal. apply list_lookup_total_correct. apply lookup_replicate_2. lia.
Qed.

(** Copying upwards is exact when the destination does not run into source
    bytes still to be read. *)
Lemma ld8_copy_up m d s n a :
  d <= s \/ s + Z.of_nat n <= d ->
  ld8 (copy_up m d s n) a =
    if decide (d <= a < d + Z.of_nat n) then ld8 m (s + (a - d)) else ld8 m a.
Proof.
  revert m d s. induction n as [|n IH]; intros m d s Ho; cbn [copy_up].
  { rewrite decide_False by lia. done. }
  rewrite IH.
  - rewrite !ld8_st8. repeat case_decide; subst; try lia; try done.
    + f_equal. lia.
    + rewrite Z.sub_diag, Z.add_0_r. apply u8_small, ld8_range.
  - lia.
Qed.

Lemma ld8_copy_down m d s n a :
  s <= d \/ d + Z.of_nat n <= s ->
  ld8 (copy_down m (d + Z.of_nat n) (s + Z.of_nat n) n) a =
    if decide (d <= a < d + Z.of_nat n) then ld8 m (s + (a - d)) else ld8 m a.
Proof.
  revert m. induction n as [|n IH]; intros m Ho; cbn [copy_down].
  { rewrite decide_False by lia. done. }
  replace (d + Z.of_nat (S n) - 1) with (d + Z.of_nat n) by lia.
  replace (s + Z.of_nat (S n) - 1) with (s + Z.of_nat n) by lia.
  rewrite IH.
  - rewrite !ld8_st8. repeat case_decide; subst; try lia; try done.
    rewrite u8_small by apply ld8_range. f_equal. lia.
  - lia.
Qed.

Lemma strlen_at_some fuel s n i :
  0 <= i -> s (n + i) = 0 -> (forall j, 0 <= j < i -> s (n + j) <> 0) ->
  i < Z.of_nat fuel -> strlen_at fuel s n = Some (n + i).
Proof.
  revert n i. induction fuel as [|fuel IH]; intros n i Hi H0 Hj Hf; [lia|]. simpl.
  destruct (decide (i = 0)) as [->|Hne].
  - rewrite Z.add_0_r in *. by rewrite H0.
  - unfold truth. pose proof (Hj 0 ltac:(lia)) as H1. rewrite Z.add_0_r in H1.
    assert (s n =? 0 = false) as -> by lia. simpl.
    rewrite (IH (n + 1) (i - 1)); [f_equal; lia | lia | | | lia].
    + replace (n + 1 + (i - 1)) with (n + i) by lia. done.
    + intros j Hr. replace (n + 1 + j) with (n + (j + 1)) by lia. apply Hj. lia.
Qed.

(** Equality of C strings within the first [n] chars. *)
Definition str_eq_n (p q : cptr) (n : nat) : Prop :=
  exists k, 0 <= k <= Z.of_nat n /\
    (forall j, 0 <= j < k -> p j = q j /\ p j <> 0) /\
    (k = Z.of_nat n \/ (p k = 0 /\ q k = 0)).

Lemma strncmp_at_zero p q i n :
  strncmp_at p q i n = 0 <->
  exists k, 0 <= k <= Z.of_nat n /\
    (forall j, 0 <= j < k -> p (i + j) = q (i + j) /\ p (i + j) <> 0) /\
    (k = Z.of_nat n \/ (p (i + k) = 0 /\ q (i + k) = 0)).
Proof.
  revert i. induction n as [|n IH]; intros i; simpl.
  { split; [|done]. intros _. exists 0. split; [lia|]. split; [intros; lia | by left]. }
  unfold truth. destruct (p i =? 0) eqn:E0; simpl.
  - apply Z.eqb_eq in E0. split.
    + intros. exists 0. split; [lia|]. split; [intros; lia|]. right. rewrite Z.add_0_r. lia.
    + intros (k & Hk & Hj & He). destruct (decide (k = 0)) as [->|].
      * rewrite Z.add_0_r in He. lia.
      * destruct (Hj 0 ltac:(lia)) as [_ H]. rewrite Z.add_0_r in H. lia.
  - destruct (p i =? q i) eqn:E1.
    + rewrite IH. split; intros (k & Hk & Hj & He).
      * exists (k + 1). split; [lia|]. replace (i + (k + 1)) with (i + 1 + k) by lia.
        split; [|destruct He; [left; lia | by right]].
        intros j Hr. destruct (decide (j = 0)) as [->|]; [rewrite Z.add_0_r; lia|].
        replace (i + j) with (i + 1 + (j - 1)) by lia. apply Hj. lia.
      * assert (k <> 0) by (intros ->; rewrite Z.add_0_r in He; lia).
        exists (k - 1). split; [lia|]. replace (i + 1 + (k - 1)) with (i + k) by lia.
        split; [|destruct He; [left; lia | by right]].
        intros j Hr. replace (i + 1 + j) with (i + (j + 1)) by lia. apply Hj. lia.
    + split; [lia|]. intros (k & Hk & Hj & He). destruct (decide (k = 0)) as [->|].
      * rewrite Z.add_0_r in He. lia.
      * destruct (Hj 0 ltac:(lia)) as [H _]. rewrite Z.add_0_r in H. lia.
Qed.

Lemma strncmp_zero p q n : strncmp p q n = 0 <-> str_eq_n p q n.
Proof. unfold strncmp, str_eq_n. apply strncmp_at_zero. Qed.

Lemma length_strncpy_at t i n : length (strncpy_at t i n) = n.
Proof.
  revert i. induction n as [|n IH]; intros i; simpl; [done|]. f_equal.
  destruct (t i =? 0); [apply length_replicate | apply IH].
Qed.

Lemma length_strncpy t n : length (strncpy t n) = n.
Proof. apply length_strncpy_at. Qed.

(** The copy agrees with the source up to and including its NUL; the rest is
    zero. *)
Lemma lookup_strncpy_at t i n j :
  (j < n)%nat -> (forall m, (m < j)%nat -> t (i + Z.of_nat m) <> 0) ->
  strncpy_at t i n !! j = Some (t (i + Z.of_nat j)).
Proof.
  revert i j. induction n as [|n IH]; intros i j Hj Ht; [lia|]. simpl.
  destruct j as [|j]; simpl; [by rewrite Z.add_0_r|].
  assert (t i =? 0 = false) as -> by (pose proof (Ht 0%nat ltac:(lia)) as H; rewrite Z.add_0_r in H; lia).
  rewrite IH; [do 2 f_equal; lia | lia |].
  intros m Hm. replace (i + 1 + Z.of_nat m) with (i + Z.of_nat (S m)) by lia. apply Ht. lia.
Qed.

Lemma lookup_strncpy_pad t i n m j :
  (m < j < n)%nat -> t (i + Z.of_nat m) = 0 -> strncpy_at t i n !! j = Some 0.
Proof.
  revert i j m. induction n as [|n IH]; intros i j m Hj Ht; [lia|]. simpl.
  destruct j as [|j]; [lia|]. simpl. destruct (t i =? 0) eqn:E.
  - apply lookup_replicate_2. lia.
  - destruct m as [|m]; [rewrite Z.add_0_r in Ht; lia|].
    apply (IH _ _ m); [lia|]. rewrite <- Ht. f_equal. lia.
Qed.

(** A stored name compares equal to the string it was copied from. *)
Lemma strncmp_strncpy t n : strncmp t (aptr (strncpy t n)) n = 0.
Proof.
  apply strncmp_zero. unfold strncpy.
  assert (forall N, (N <= n)%nat -> (exists j, (j < N)%nat /\ t (Z.of_nat j) = 0 /\
            forall m, (m < j)%nat -> t (Z.of_nat m) <> 0) \/
          (forall m, (m < N)%nat -> t (Z.of_nat m) <> 0)) as Hfirst.
  { induction N as [|N IH]; intros HN; [right; lia|].
    destruct IH as [(j & ? & ? & ?)|Hall]; [lia|left; exists j; eauto with lia|].
    destruct (decide (t (Z.of_nat N) = 0)) as [E|E]; [left; exists N; eauto with lia|].
    right. intros m Hm. destruct (decide (m = N)) as [->|]; [done|]. apply Hall. lia. }
  assert (forall j, (j < n)%nat -> (forall m, (m < j)%nat -> t (Z.of_nat m) <> 0) ->
            aptr (strncpy_at t 0 n) (Z.of_nat j) = t (Z.of_nat j)) as Hcopy.
  { intros j Hj Hm. unfold aptr. rewrite Nat2Z.id, lookup_strncpy_at; [done|done|].
    intros m. simpl. apply Hm. }
  destruct (Hfirst n ltac:(lia)) as [(k & Hk & H0 & Hm)|Hall].
  - exists (Z.of_nat k). split; [lia|]. split.
    + intros j Hj. rewrite <- (Z2Nat.id j) by lia.
      split; [symmetry; apply Hcopy; [lia|] | apply Hm; lia]. intros m ?. apply Hm. lia.
    + right. rewrite Hcopy by auto. done.
  - exists (Z.of_nat n). split; [lia|]. split; [|by left].
    intros j Hj. rewrite <- (Z2Nat.id j) by lia.
    split; [symmetry; apply Hcopy; [lia|] | apply Hall; lia]. intros m ?. apply Hall. lia.
Qed.

(** safestrcpy() stores at most [n] bytes and ends them with a NUL. *)
Lemma safestrcpy_at_spec t i n :
  exists l, safestrcpy_at t i n = l ++ [0] /\ (length l <= n)%nat.
Proof.
  revert i. induction n as [|n IH]; intros i; cbn [safestrcpy_at]; [by exists []|].
  destruct (t i =? 0).
  - exists [t i]. simpl. split; [done|lia].
  - destruct (IH (i + 1)) as (l & -> & Hl). exists (t i :: l). simpl. split; [done|lia].
Qed.

Arguments memset : simpl never.
Arguments memmove : simpl never.
