(* ===== verification/Kalloc.v ===== *)
(** The physical page allocator: kernel/kalloc.c.

    The free list is the linked list the source keeps inside the free pages:
    [k_freelist] is kmem.freelist, and [r->next] is the 64-bit word at address
    [r] of memory. *)

From Stdlib Require Import ZArith Lia.
From stdpp Require Import base gmap strings list numbers.
From S2P Require Import Prelude Params State Spinlock CString.

Open Scope Z_scope.

(** The symbols kernel/kernel.ld defines, whose values the link decides: [end],
    [etext] and [trampoline], inside RAM, the last two on page boundaries. *)
Class KernelImage := {
  kend : Z;
  etext : Z;
  trampoline : Z;
  trampoline_ge : KERNBASE <= trampoline;
  etext_gt : trampoline + PGSIZE <= etext;
  kend_ge : etext <= kend;
  kend_le : kend <= PHYSTOP;
  etext_aligned : etext `mod` PGSIZE = 0;
  trampoline_aligned : trampoline `mod` PGSIZE = 0
}.

Section kalloc.
Context `{KI : KernelImage}.

(** Free the page of physical memory pointed at by pa. *)
Definition kfree (pa : Z) : M unit :=
  if negb (pa `mod` PGSIZE =? 0) || (pa <? kend) || (PHYSTOP <=? pa) then panic "kfree" else
  modify (fun k => set_k_mem (memset (k_mem k) pa 1 (Z.to_nat PGSIZE)) k);;
  acquire LKmem;;
  modify (fun k => set_k_mem (st64 (k_mem k) pa (k_freelist k)) k);;
  modify (set_k_freelist pa);;
  release LKmem.

(** Allocate one 4096-byte page of physical memory; 0 if there is none. *)
Definition kalloc : M Z :=
  acquire LKmem;;
  r ← gets k_freelist;
  when (truth r) (modify (fun k => set_k_freelist (ld64 (k_mem k) r) k));;
  release LKmem;;
  when (truth r) (modify (fun k => set_k_mem (memset (k_mem k) r 5 (Z.to_nat PGSIZE)) k));;
  mret r.

Fixpoint freerange_loop (fuel : nat) (p pa_end : Z) : M unit :=
  match fuel with
  | O => nofuel
  | S fuel =>
      if p + PGSIZE <=? pa_end
      then kfree p;; freerange_loop fuel (p + PGSIZE) pa_end
      else mret tt
  end.

(** One more iteration than there are pages below [pa_end]. *)
Definition freerange (pa_start pa_end : Z) : M unit :=
  freerange_loop (S (Z.to_nat (pa_end / PGSIZE))) (PGROUNDUP pa_start) pa_end.

Definition kinit : M unit :=
  initlock LKmem;;
  freerange kend PHYSTOP.

(** ** The free list *)

Definition page_ok (p : Z) : Prop := p `mod` PGSIZE = 0 /\ kend <= p < PHYSTOP.

Fixpoint free_rep (m : bmem) (head : Z) (l : list Z) : Prop :=
  match l with
  | [] => head = 0
  | p :: l => head = p /\ page_ok p /\ free_rep m (ld64 m p) l
  end.

(** [l] is the free list: distinct pages of the allocator's range. *)
Definition kmem_inv (k : kst) (l : list Z) : Prop :=
  free_rep (k_mem k) (k_freelist k) l /\ NoDup l.

(** Two memories agree outside page [p]. *)
Definition same_but_page (p : Z) (m m' : bmem) : Prop :=
  forall a, ~ (p <= a < p + PGSIZE) -> ld8 m' a = ld8 m a.

Lemma page_ok_pos p : page_ok p -> KERNBASE <= p < PHYSTOP.
Proof.
  intros [_ Hp]. pose proof kend_ge. pose proof etext_gt. pose proof trampoline_ge. lia.
Qed.

Lemma page_disjoint p q : page_ok p -> page_ok q -> p <> q -> q + PGSIZE <= p \/ p + PGSIZE <= q.
Proof. intros [Hp _] [Hq _] Hne. dlia. Qed.

Lemma free_rep_pages m h l : free_rep m h l -> Forall page_ok l.
Proof. revert h. induction l as [|p l IH]; intros h; simpl; [done|]. intros (_&?&?). eauto. Qed.

Lemma free_rep_frame m m' p h l :
  page_ok p -> p ∉ l -> same_but_page p m m' -> free_rep m h l -> free_rep m' h l.
Proof.
  intros Hp. revert h. induction l as [|q l IH]; intros h Hn Hs; simpl; [done|].
  apply not_elem_of_cons in Hn as [Hne Hn]. intros (-> & Hq & Hr).
  split; [done|]. split; [done|].
  rewrite (ld64_ext m' m); [by apply IH|]. intros b Hb. apply Hs.
  destruct (page_disjoint p q Hp Hq Hne); lia.
Qed.

Lemma kmem_inv_nodup k l : kmem_inv k l -> NoDup l.
Proof. by intros []. Qed.

Lemma same_but_page_memset p c m : same_but_page p m (memset m p c (Z.to_nat PGSIZE)).
Proof. intros a Ha. rewrite ld8_memset, decide_False by lia. done. Qed.

Lemma kalloc_empty k :
  hart_ok (k_hart k) -> k_locks k !! LKmem = None -> kmem_inv k [] -> kalloc k = Ret 0 k.
Proof.
  intros Hok Hl [Hf _]. simpl in Hf. unfold kalloc.
  mcall (acquire_eq _ _ Hl). mstep.
  change (k_freelist (acq LKmem k)) with (k_freelist k). rewrite Hf. cbn [truth Z.eqb negb when]. mstep.
  mcall (release_after _ k) by done. mstep.
  unfold mret, M_ret. apply f_equal; unfold acq; kst_eq.
Qed.

(** The state after kalloc() returned [p] with [l] left free. *)
Lemma kalloc_cons k p l :
  hart_ok (k_hart k) -> k_locks k !! LKmem = None -> kmem_inv k (p :: l) ->
  kalloc k = Ret p (set_k_mem (memset (k_mem k) p 5 (Z.to_nat PGSIZE))
                     (set_k_freelist (ld64 (k_mem k) p) k)).
Proof.
  intros Hok Hl [Hf _]. simpl in Hf. destruct Hf as (Hh & Hp & Hf).
  pose proof (page_ok_pos p Hp) as Hpos. unfold kalloc.
  mcall (acquire_eq _ _ Hl). mstep.
  change (k_freelist (acq LKmem k)) with (k_freelist k). rewrite Hh.
  unfold truth. assert (p =? 0 = false) as -> by lia. cbn [negb when]. mstep.
  mcall (release_after _ k) by done. mstep.
  unfold mret, M_ret. apply f_equal; unfold acq; kst_eq.
Qed.

Lemma kmem_inv_kalloc k p l :
  kmem_inv k (p :: l) ->
  kmem_inv (set_k_mem (memset (k_mem k) p 5 (Z.to_nat PGSIZE))
             (set_k_freelist (ld64 (k_mem k) p) k)) l /\ page_ok p /\ p ∉ l.
Proof.
  intros [(Hh & Hp & Hf) Hnd]. apply NoDup_cons in Hnd as [Hn Hnd].
  split; [|done]. split; [|done]. ksimpl.
  eapply free_rep_frame; eauto using same_but_page_memset.
Qed.

Lemma kfree_ok k pa :
  hart_ok (k_hart k) -> k_locks k !! LKmem = None -> page_ok pa ->
  kfree pa k = Ret tt (set_k_mem (st64 (memset (k_mem k) pa 1 (Z.to_nat PGSIZE)) pa (k_freelist k))
                        (set_k_freelist pa k)).
Proof.
  intros Hok Hl [Hal Hr]. unfold kfree.
  assert (pa `mod` PGSIZE =? 0 = true) as -> by lia.
  assert (pa <? kend = false) as -> by lia. assert (PHYSTOP <=? pa = false) as -> by lia.
  cbn [negb orb]. mstep.
  assert (k_locks (set_k_mem (memset (k_mem k) pa 1 (Z.to_nat PGSIZE)) k) !! LKmem = None) as Hl' by done.
  mcall (acquire_eq _ _ Hl'). mstep.
  rewrite (release_after _ k) by done. apply f_equal; unfold acq; kst_eq.
Qed.

Lemma kfree_bad k pa : ~ page_ok pa -> kfree pa k = Panic "kfree".
Proof.
  intros Hbad. unfold kfree.
  destruct (negb (pa `mod` PGSIZE =? 0) || (pa <? kend) || (PHYSTOP <=? pa)) eqn:E; [done|].
  destruct Hbad. unfold page_ok. apply orb_false_iff in E as [E ?].
  apply orb_false_iff in E as [E ?]. apply negb_false_iff in E. lia.
Qed.

Lemma kmem_inv_kfree k pa l :
  kmem_inv k l -> page_ok pa -> pa ∉ l ->
  kmem_inv (set_k_mem (st64 (memset (k_mem k) pa 1 (Z.to_nat PGSIZE)) pa (k_freelist k))
             (set_k_freelist pa k)) (pa :: l).
Proof.
  intros [Hf Hnd] Hp Hn. split; [|by constructor]. ksimpl. cbn [free_rep].
  split; [done|]. split; [done|].
  rewrite ld64_st64_same. assert (u64 (k_freelist k) = k_freelist k) as ->.
  { destruct l; simpl in Hf; [by rewrite Hf|]. destruct Hf as (-> & Hq & _).
    pose proof (page_ok_pos _ Hq). apply u64_small. lia. }
  apply (free_rep_frame (k_mem k) _ pa); [done|done| |done].
  intros a Ha. unfold st64. rewrite ld8_stn, length_bytes_of, decide_False by lia.
  apply same_but_page_memset. done.
Qed.

(** ** Initialisation *)

(** The pages of [p, pa_end) in the order freerange() pushes them. *)
Fixpoint range_pages (n : nat) (p : Z) : list Z :=
  match n with O => [] | S n => range_pages n (p + PGSIZE) ++ [p] end.

Lemma elem_of_range_pages_iff n p q :
  q ∈ range_pages n p <-> p <= q < p + Z.of_nat n * PGSIZE /\ (q - p) `mod` PGSIZE = 0.
Proof.
  revert p. induction n as [|n IH]; intros p; cbn [range_pages].
  - rewrite elem_of_nil. lia.
  - rewrite elem_of_app, list_elem_of_singleton, IH. split.
    + intros [[Hr Hm]| ->]; [|split; [lia|by rewrite Z.sub_diag]]. dlia.
    + intros [Hr Hm]. destruct (decide (q = p)); [by right|left]. dlia.
Qed.

Lemma freerange_loop_ok n : forall fuel p pa_end k l,
  hart_ok (k_hart k) -> k_locks k !! LKmem = None -> kmem_inv k l ->
  p `mod` PGSIZE = 0 -> kend <= p -> pa_end <= PHYSTOP ->
  n = Z.to_nat ((pa_end - p) / PGSIZE) -> (n < fuel)%nat ->
  Forall (fun q => ~ (p <= q < pa_end)) l ->
  exists m' h', freerange_loop fuel p pa_end k = Ret tt (set_k_mem m' (set_k_freelist h' k)) /\
    kmem_inv (set_k_mem m' (set_k_freelist h' k)) (range_pages n p ++ l).
Proof.
  induction n as [|n IH]; intros fuel p pa_end k l Hok Hl Hinv Hal Hlo Hhi Hn Hf Hfresh;
    (destruct fuel as [|fuel]; [lia|]); cbn [freerange_loop].
  - assert (p + PGSIZE <=? pa_end = false) as -> by dlia.
    exists (k_mem k), (k_freelist k). rewrite (kst_ext (set_k_mem _ _) k) by done. done.
  - assert (p + PGSIZE <=? pa_end = true) as -> by dlia.
    assert (page_ok p) as Hp by (split; [done|dlia]).
    mcall (kfree_ok k p Hok Hl Hp).
    assert (p ∉ l) as Hpl.
    { intros Hin. rewrite Forall_forall in Hfresh. apply (Hfresh p Hin). dlia. }
    destruct (IH fuel (p + PGSIZE) pa_end
      (set_k_mem (st64 (memset (k_mem k) p 1 (Z.to_nat PGSIZE)) p (k_freelist k)) (set_k_freelist p k))
      (p :: l)) as (m' & h' & He & Hi); try done.
    + by apply kmem_inv_kfree.
    + dlia.
    + lia.
    + dlia.
    + lia.
    + constructor; [lia|]. eapply Forall_impl; [exact Hfresh|]. simpl. lia.
    + exists m', h'. rewrite He. split; [apply f_equal; kst_eq|].
      cbn [range_pages]. rewrite <- app_assoc. destruct Hi as [H1 H2].
      split; [exact H1 | exact H2].
Qed.

(** ** Properties *)

(** kalloc() implements a stack of free pages.  With an empty free list it
    returns 0 and changes nothing; otherwise it returns the first free page,
    removes exactly that page from the free list, fills it with the byte 5,
    touches no other memory, and leaves every lock and the interrupt state as
    they were. *)
Theorem kalloc_correct k l :
  hart_ok (k_hart k) -> k_locks k !! LKmem = None -> kmem_inv k l ->
  match l with
  | [] => kalloc k = Ret 0 k
  | p :: l' => exists m h,
      kalloc k = Ret p (set_k_mem m (set_k_freelist h k)) /\
      kmem_inv (set_k_mem m (set_k_freelist h k)) l' /\
      page_ok p /\ p ∉ l' /\ same_but_page p (k_mem k) m /\
      (forall a, p <= a < p + PGSIZE -> ld8 m a = 5)
  end.
Proof.
  intros Hok Hl Hinv. destruct l as [|p l]; [by apply kalloc_empty|].
  destruct (kmem_inv_kalloc k p l Hinv) as (Hi & Hp & Hn).
  eexists _, _. split; [by apply (kalloc_cons k p l)|]. split_and!; try done.
  - apply same_but_page_memset.
  - intros a Ha. rewrite ld8_memset, decide_True by lia. done.
Qed.

(** kfree() of a page of the allocator's range that is not already free
    pushes it on the free list, and the next kalloc() hands the same page out
    again with the free list back to what it was; kfree() of anything that is
    not such a page address panics. *)
Theorem kfree_kalloc_roundtrip k l pa :
  hart_ok (k_hart k) -> k_locks k !! LKmem = None -> kmem_inv k l ->
  if decide (pa `mod` PGSIZE = 0 /\ kend <= pa < PHYSTOP) then
    pa ∉ l ->
    exists k1 k2, kfree pa k = Ret tt k1 /\ kmem_inv k1 (pa :: l) /\
      same_but_page pa (k_mem k) (k_mem k1) /\
      kalloc k1 = Ret pa k2 /\ kmem_inv k2 l /\ k_freelist k2 = k_freelist k
  else kfree pa k = Panic "kfree".
Proof.
  intros Hok Hl Hinv. case_decide as Hp; [|by apply kfree_bad]. intros Hn.
  pose proof (kmem_inv_kfree k pa l Hinv Hp Hn) as H1.
  eexists _, _. split; [by apply kfree_ok|]. split; [done|]. split.
  { ksimpl. intros a Ha. unfold st64. rewrite ld8_stn, length_bytes_of, decide_False by lia.
    by apply same_but_page_memset. }
  split; [by apply (kalloc_cons _ pa l)|]. split; [by apply kmem_inv_kalloc|].
  ksimpl. rewrite ld64_st64_same. destruct Hinv as [Hf _].
  destruct l; simpl in Hf; [by rewrite Hf|]. destruct Hf as (-> & Hq & _).
  pose proof (page_ok_pos _ Hq). apply u64_small. lia.
Qed.

(** kinit() terminates and puts every whole page between [end] and PHYSTOP
    on the free list exactly once. *)
Theorem kinit_frees_all_pages k :
  hart_ok (k_hart k) -> k_freelist k = 0 ->
  exists k' l, kinit k = Ret tt k' /\ kmem_inv k' l /\
    forall p, p ∈ l <-> (p `mod` PGSIZE = 0 /\ kend <= p /\ p + PGSIZE <= PHYSTOP).
Proof.
  intros Hok Hf. unfold kinit, initlock. mstep.
  set (k0 := set_k_locks _ k). pose proof kend_le. pose proof kend_ge. pose proof etext_gt.
  pose proof trampoline_ge. assert (0 <= kend < 2 ^ 64 - PGSIZE) as Hk by lia.
  destruct (PGROUNDUP_bounds kend Hk) as [Hb Hal].
  unfold freerange. assert (Z.to_nat ((PHYSTOP - PGROUNDUP kend) / PGSIZE)
    < S (Z.to_nat (PHYSTOP / PGSIZE)))%nat as Hfuel.
  { rewrite Nat.lt_succ_r. apply Z2Nat.inj_le; dlia. }
  revert Hfuel. generalize (S (Z.to_nat (PHYSTOP / PGSIZE))) as fuel. intros fuel Hfuel.
  destruct (freerange_loop_ok (Z.to_nat ((PHYSTOP - PGROUNDUP kend) / PGSIZE))
    fuel (PGROUNDUP kend) PHYSTOP k0 [] Hok)
    as (m' & h' & He & Hi); [| |exact Hal|lia|lia|reflexivity|exact Hfuel|constructor|].
  - subst k0. ksimpl. apply lookup_delete_eq.
  - split; [done|constructor].
  - eexists _, _. split; [exact He|]. split; [exact Hi|].
    intros p. rewrite app_nil_r, elem_of_range_pages_iff.
    revert Hb Hal H. clear. generalize (PGROUNDUP kend) as G. intros G Hb Hal Hk.
    rewrite Z2Nat.id by dlia. split; intros; dlia.
Qed.

End kalloc.

(** ** A concrete image, for evaluation *)
#[refine] Instance demo_image : KernelImage :=
  { kend := KERNBASE + 0x22000; etext := KERNBASE + 0x8000; trampoline := KERNBASE + 0x7000 }.
Proof. all: abstract (by vm_compute). Defined.

Lemma hart_ok_boot : hart_ok (k_hart boot_state).
Proof. split_and!; simpl; intros; lia || done. Qed.

(** The boot state with a single free page, the first one above [end]. *)
Definition one_page : kst := set_k_freelist (KERNBASE + 0x22000) boot_state.

Lemma one_page_inv : kmem_inv one_page [KERNBASE + 0x22000].
Proof.
  split; [|apply NoDup_singleton]. split; [done|]. split; [|by vm_compute].
  split; [by vm_compute|]. cbn [kend demo_image]. lia.
Qed.

Lemma kalloc_correct_witness :
  exists m h, kalloc one_page = Ret (KERNBASE + 0x22000) (set_k_mem m (set_k_freelist h one_page)) /\
    kmem_inv (set_k_mem m (set_k_freelist h one_page)) [].
Proof.
  destruct (kalloc_correct one_page [KERNBASE + 0x22000] hart_ok_boot eq_refl one_page_inv)
    as (m & h & He & Hi & _).
  exists m, h. split; [exact He | exact Hi].
Defined.

Lemma kfree_kalloc_roundtrip_witness :
  exists k1 k2, kfree (KERNBASE + 0x23000) one_page = Ret tt k1 /\
    kalloc k1 = Ret (KERNBASE + 0x23000) k2.
Proof.
  pose proof (kfree_kalloc_roundtrip one_page _ (KERNBASE + 0x23000) hart_ok_boot eq_refl one_page_inv) as H.
  rewrite decide_True in H by (cbn [kend demo_image]; by vm_compute).
  destruct H as (k1 & k2 & H1 & _ & _ & H2 & _); [set_solver by lia|].
  exists k1, k2. split; [exact H1 | exact H2].
Defined.

Lemma kinit_frees_all_pages_witness :
  exists k' l, kinit boot_state = Ret tt k' /\ kmem_inv k' l /\ (PHYSTOP - PGSIZE) ∈ l.
Proof.
  destruct (kinit_frees_all_pages boot_state hart_ok_boot eq_refl) as (k' & l & H1 & H2 & H3).
  exists k', l. split; [exact H1|]. split; [exact H2|]. apply H3.
  cbn [kend demo_image]. split; [reflexivity | lia].
Defined.
