(* ===== verification/Vm.v ===== *)
(** Virtual memory: kernel/vm.c.

    Page tables live in physical memory: a page-table page at address [pt] has
    its PTE [i] in the 64-bit word at [pt + 8 * i].  Kernel buffers that are
    copied to or from user space are byte lists; they never overlap user pages. *)

From Stdlib Require Import ZArith Lia.
From stdpp Require Import base gmap strings list numbers.
From S2P Require Import Prelude Params State Spinlock CString Kalloc.

Open Scope Z_scope.

(** MAKE_SATP of riscv.h. *)
Definition MAKE_SATP (pagetable : Z) : Z := Z.lor (Z.shiftl 8 60) (Z.shiftr pagetable 12).

(** The bits of [x] in [mask] are not all clear. *)
Definition has (x mask : Z) : bool := truth (Z.land x mask).

Definition read64 (a : Z) : M Z := gets (fun k => ld64 (k_mem k) a).
Definition write64 (a v : Z) : M unit := modify (fun k => set_k_mem (st64 (k_mem k) a v) k).
(** memset(p, c, PGSIZE), and memmove(dst, bytes, n) of bytes that are not in
    the written range. *)
Definition fill_page (p c : Z) : M unit :=
  modify (fun k => set_k_mem (memset (k_mem k) p c (Z.to_nat PGSIZE)) k).
Definition write_bytes (a : Z) (bs : list Z) : M unit :=
  modify (fun k => set_k_mem (stn (k_mem k) a bs) k).
Definition read_bytes (a : Z) (n : nat) : M (list Z) := gets (fun k => ldn (k_mem k) a n).

Definition pte_at (pt level va : Z) : Z := pt + 8 * PX level va.

Section vm.
Context `{KI : KernelImage}.

(** The loop of walk() over the levels above the last. *)
Fixpoint walk_levels (levels : list Z) (pagetable va : Z) (alloc : bool) : M Z :=
  match levels with
  | [] => mret (pte_at pagetable 0 va)
  | level :: levels =>
      let pte := pte_at pagetable level va in
      v ← read64 pte;
      if has v PTE_V then walk_levels levels (PTE2PA v) va alloc
      else if negb alloc then mret 0
      else
        p ← kalloc;
        if p =? 0 then mret 0 else
        fill_page p 0;;
        write64 pte (Z.lor (PA2PTE p) PTE_V);;
        walk_levels levels p va alloc
  end.

(** Return the address of the PTE for [va], 0 if there is none. *)
Definition walk (pagetable va : Z) (alloc : bool) : M Z :=
  if MAXVA <=? va then panic "walk" else walk_levels [2; 1] pagetable va alloc.

(** Look up a user virtual address, return the physical address, or 0. *)
Definition walkaddr (pagetable va : Z) : M Z :=
  if MAXVA <=? va then mret 0 else
  pte ← walk pagetable va false;
  if pte =? 0 then mret 0 else
  v ← read64 pte;
  if negb (has v PTE_V) then mret 0 else
  if negb (has v PTE_U) then mret 0 else
  mret (PTE2PA v).

Fixpoint mappages_loop (fuel : nat) (pagetable a last pa perm : Z) : M Z :=
  match fuel with
  | O => nofuel
  | S fuel =>
      pte ← walk pagetable a true;
      if pte =? 0 then mret (-1) else
      v ← read64 pte;
      if has v PTE_V then panic "mappages: remap" else
      write64 pte (Z.lor (Z.lor (PA2PTE pa) perm) PTE_V);;
      if a =? last then mret 0
      else mappages_loop fuel pagetable (u64 (a + PGSIZE)) last (u64 (pa + PGSIZE)) perm
  end.

(** Create PTEs for [size] bytes from [va]; one iteration per page. *)
Definition mappages (pagetable va size pa perm : Z) : M Z :=
  if size =? 0 then panic "mappages: size" else
  let a := PGROUNDDOWN va in
  let last := PGROUNDDOWN (u64 (va + size - 1)) in
  mappages_loop (S (Z.to_nat (u64 (last - a) / PGSIZE))) pagetable a last pa perm.

Definition kvmmap (kpgtbl va pa sz perm : Z) : M unit :=
  r ← mappages kpgtbl va sz pa perm;
  if negb (r =? 0) then panic "kvmmap" else mret tt.

Fixpoint uvmunmap_loop (fuel : nat) (pagetable a a_end : Z) (do_free : bool) : M unit :=
  match fuel with
  | O => nofuel
  | S fuel =>
      if negb (a <? a_end) then mret tt else
      pte ← walk pagetable a false;
      if pte =? 0 then panic "uvmunmap: walk" else
      v ← read64 pte;
      if negb (has v PTE_V) then panic "uvmunmap: not mapped" else
      if PTE_FLAGS v =? PTE_V then panic "uvmunmap: not a leaf" else
      when do_free (kfree (PTE2PA v));;
      write64 pte 0;;
      uvmunmap_loop fuel pagetable (u64 (a + PGSIZE)) a_end do_free
  end.

(** Remove [npages] of mappings starting from [va]. *)
Definition uvmunmap (pagetable va npages : Z) (do_free : bool) : M unit :=
  if negb (va `mod` PGSIZE =? 0) then panic "uvmunmap: not aligned" else
  uvmunmap_loop (S (Z.to_nat npages)) pagetable va (u64 (va + npages * PGSIZE)) do_free.

(** create an empty user page table; 0 if out of memory. *)
Definition uvmcreate : M Z :=
  pagetable ← kalloc;
  if pagetable =? 0 then mret 0 else
  fill_page pagetable 0;;
  mret pagetable.

(** Load the user initcode [src] into address 0; the results of kalloc() and
    mappages() are not checked. *)
Definition uvminit (pagetable : Z) (src : list Z) : M unit :=
  if PGSIZE <=? Z.of_nat (length src) then panic "inituvm: more than a page" else
  mem ← kalloc;
  fill_page mem 0;;
  mappages pagetable 0 PGSIZE mem (Z.lor (Z.lor (Z.lor PTE_W PTE_R) PTE_X) PTE_U);;
  write_bytes mem src.

(** Deallocate user pages to bring the process size from oldsz to newsz. *)
Definition uvmdealloc (pagetable oldsz newsz : Z) : M Z :=
  if oldsz <=? newsz then mret oldsz else
  when (PGROUNDUP newsz <? PGROUNDUP oldsz) (
    let npages := i32 ((PGROUNDUP oldsz - PGROUNDUP newsz) / PGSIZE) in
    uvmunmap pagetable (PGROUNDUP newsz) (u64 npages) true);;
  mret newsz.

Fixpoint uvmalloc_loop (fuel : nat) (pagetable a oldsz newsz : Z) : M Z :=
  match fuel with
  | O => nofuel
  | S fuel =>
      if negb (a <? newsz) then mret newsz else
      mem ← kalloc;
      if mem =? 0 then
        uvmdealloc pagetable a oldsz;;
        mret 0
      else
        fill_page mem 0;;
        r ← mappages pagetable a PGSIZE mem (Z.lor (Z.lor (Z.lor PTE_W PTE_X) PTE_R) PTE_U);
        if negb (r =? 0) then
          kfree mem;;
          uvmdealloc pagetable a oldsz;;
          mret 0
        else uvmalloc_loop fuel pagetable (u64 (a + PGSIZE)) oldsz newsz
  end.

(** Grow a process from oldsz to newsz; 0 on error. *)
Definition uvmalloc (pagetable oldsz newsz : Z) : M Z :=
  if newsz <? oldsz then mret oldsz else
  let oldsz := PGROUNDUP oldsz in
  uvmalloc_loop (S (Z.to_nat ((newsz - oldsz + PGSIZE) / PGSIZE))) pagetable oldsz oldsz newsz.

(** Recursively free page-table pages; [depth] is the number of levels. *)
Fixpoint freewalk (depth : nat) (pagetable : Z) : M unit :=
  match depth with
  | O => nofuel
  | S depth =>
      forM (seqz 0 512) (fun i =>
        pte ← read64 (pagetable + 8 * i);
        if has pte PTE_V && negb (has pte (Z.lor (Z.lor PTE_R PTE_W) PTE_X)) then
          freewalk depth (PTE2PA pte);;
          write64 (pagetable + 8 * i) 0
        else if has pte PTE_V then panic "freewalk: leaf"
        else mret tt);;
      kfree pagetable
  end.

(** Free user memory pages, then page-table pages. *)
Definition uvmfree (pagetable sz : Z) : M unit :=
  when (0 <? sz) (uvmunmap pagetable 0 (PGROUNDUP sz / PGSIZE) true);;
  freewalk 3 pagetable.

(** The loop of uvmcopy(); the result is [Some i] at [goto err] with the loop
    variable, [None] at the end. *)
Fixpoint uvmcopy_loop (fuel : nat) (old new i sz : Z) : M (option Z) :=
  match fuel with
  | O => nofuel
  | S fuel =>
      if negb (i <? sz) then mret None else
      pte ← walk old i false;
      if pte =? 0 then panic "uvmcopy: pte should exist" else
      v ← read64 pte;
      if negb (has v PTE_V) then panic "uvmcopy: page not present" else
      mem ← kalloc;
      if mem =? 0 then mret (Some i) else
      bs ← read_bytes (PTE2PA v) (Z.to_nat PGSIZE);
      write_bytes mem bs;;
      r ← mappages new i PGSIZE mem (PTE_FLAGS v);
      if negb (r =? 0) then kfree mem;; mret (Some i)
      else uvmcopy_loop fuel old new (u64 (i + PGSIZE)) sz
  end.

(** Copy a parent's memory into a child's page table: 0, or -1. *)
Definition uvmcopy (old new sz : Z) : M Z :=
  r ← uvmcopy_loop (S (Z.to_nat ((sz + PGSIZE - 1) / PGSIZE))) old new 0 sz;
  match r with
  | None => mret 0
  | Some i => uvmunmap new 0 (i / PGSIZE) true;; mret (-1)
  end.

(** mark a PTE invalid for user access. *)
Definition uvmclear (pagetable va : Z) : M unit :=
  pte ← walk pagetable va false;
  if pte =? 0 then panic "uvmclear" else
  v ← read64 pte;
  write64 pte (Z.land v (Z.lnot PTE_U)).

(** Copy the bytes [src] to user address [dstva]: 0, or -1.  Every iteration but
    the last ends a page. *)
Fixpoint copyout_loop (fuel : nat) (pagetable dstva : Z) (src : list Z) : M Z :=
  match src with
  | [] => mret 0
  | _ =>
      match fuel with
      | O => nofuel
      | S fuel =>
          let va0 := PGROUNDDOWN dstva in
          pa0 ← walkaddr pagetable va0;
          if pa0 =? 0 then mret (-1) else
          let n := Z.to_nat (Z.min (PGSIZE - (dstva - va0)) (Z.of_nat (length src))) in
          write_bytes (pa0 + (dstva - va0)) (take n src);;
          copyout_loop fuel pagetable (u64 (va0 + PGSIZE)) (drop n src)
      end
  end.
Definition copyout (pagetable dstva : Z) (src : list Z) : M Z :=
  copyout_loop (S (length src)) pagetable dstva src.

(** Copy [len] bytes from user address [srcva]: the status, and the bytes that
    were stored at [dst]. *)
Fixpoint copyin_loop (fuel : nat) (pagetable : Z) (got : list Z) (srcva : Z) (len : nat)
  : M (Z * list Z) :=
  match len with
  | O => mret (0, got)
  | _ =>
      match fuel with
      | O => nofuel
      | S fuel =>
          let va0 := PGROUNDDOWN srcva in
          pa0 ← walkaddr pagetable va0;
          if pa0 =? 0 then mret (-1, got) else
          let n := Z.to_nat (Z.min (PGSIZE - (srcva - va0)) (Z.of_nat len)) in
          bs ← read_bytes (pa0 + (srcva - va0)) n;
          copyin_loop fuel pagetable (got ++ bs) (u64 (va0 + PGSIZE)) (len - n)
      end
  end.
Definition copyin (pagetable srcva : Z) (len : nat) : M (Z * list Z) :=
  copyin_loop (S len) pagetable [] srcva len.

(** The bytes of [bs] up to and including the first nul, if it has one. *)
Fixpoint upto_nul (bs : list Z) : list Z * bool :=
  match bs with
  | [] => ([], false)
  | b :: bs => if b =? 0 then ([0], true) else let '(r, z) := upto_nul bs in (b :: r, z)
  end.

(** Copy a null-terminated string of at most [max] bytes from user space. *)
Fixpoint copyinstr_loop (fuel : nat) (pagetable : Z) (got : list Z) (srcva : Z) (max : nat)
  : M (Z * list Z) :=
  match max with
  | O => mret (-1, got)
  | _ =>
      match fuel with
      | O => nofuel
      | S fuel =>
          let va0 := PGROUNDDOWN srcva in
          pa0 ← walkaddr pagetable va0;
          if pa0 =? 0 then mret (-1, got) else
          let n := Z.to_nat (Z.min (PGSIZE - (srcva - va0)) (Z.of_nat max)) in
          bs ← read_bytes (pa0 + (srcva - va0)) n;
          let '(r, got_null) := upto_nul bs in
          if got_null : bool then mret (0, got ++ r)
          else copyinstr_loop fuel pagetable (got ++ r) (u64 (va0 + PGSIZE)) (max - n)
      end
  end.
Definition copyinstr (pagetable srcva : Z) (max : nat) : M (Z * list Z) :=
  copyinstr_loop (S max) pagetable [] srcva max.

(** proc_mapstacks() of proc.c: a kernel stack page per process, above a guard. *)
Definition proc_mapstacks (kpgtbl : Z) : M unit :=
  forM (seq 0 NPROC) (fun i =>
    pa ← kalloc;
    if pa =? 0 then panic "kalloc" else
    kvmmap kpgtbl (KSTACK (Z.of_nat i)) pa PGSIZE (Z.lor PTE_R PTE_W)).

(** Make a direct-map page table for the kernel. *)
Definition kvmmake : M Z :=
  kpgtbl ← kalloc;
  fill_page kpgtbl 0;;
  kvmmap kpgtbl UART0 UART0 PGSIZE (Z.lor PTE_R PTE_W);;
  kvmmap kpgtbl VIRTIO0 VIRTIO0 PGSIZE (Z.lor PTE_R PTE_W);;
  kvmmap kpgtbl PLIC PLIC 0x400000 (Z.lor PTE_R PTE_W);;
  kvmmap kpgtbl KERNBASE KERNBASE (etext - KERNBASE) (Z.lor PTE_R PTE_X);;
  kvmmap kpgtbl etext etext (PHYSTOP - etext) (Z.lor PTE_R PTE_W);;
  kvmmap kpgtbl TRAMPOLINE trampoline PGSIZE (Z.lor PTE_R PTE_X);;
  proc_mapstacks kpgtbl;;
  mret kpgtbl.

Definition kvminit : M unit :=
  p ← kvmmake;
  modify (set_k_kpt p).

(** Switch h/w page table register to the kernel's page table. *)
Definition kvminithart : M unit :=
  modify (fun k => set_k_csr (set_s_satp (MAKE_SATP (k_kpt k)) (k_csr k)) k).

End vm.
