(* ===== verification/PageTable.v ===== *)
(** Page tables as finite maps (kernel/vm.c, modelled in Vm).

    [pteof m pt va] is the leaf PTE that the three-level walk finds for [va]; the
    functions of vm.c are specified by what they do to that map. *)

From Stdlib Require Import ZArith Lia.
From stdpp Require Import base gmap strings list numbers.
From S2P Require Import Prelude Params State Spinlock CString Kalloc Vm.

Open Scope Z_scope.

#[local] Opaque memset st64 ld64 stn.

(** ** The map a page table represents *)

Definition ptwalk (m : bmem) (pt va : Z) : option Z :=
  let v2 := ld64 m (pte_at pt 2 va) in
  if has v2 PTE_V then
    let v1 := ld64 m (pte_at (PTE2PA v2) 1 va) in
    if has v1 PTE_V then Some (pte_at (PTE2PA v1) 0 va) else None
  else None.

Definition pteof (m : bmem) (pt va : Z) : option Z :=
  a ← ptwalk m pt va;
  let v := ld64 m a in
  if has v PTE_V then Some v else None.

(** Virtual page number. *)
Definition vpn (va : Z) : Z := va / PGSIZE.

Section pagetable.
Context `{KI : KernelImage}.

(** ** Well-formed page tables

    [L] gives the level of every page-table page.  Every valid PTE above level 0
    points to a page of the level below, no two point to the same page, and every
    page but the root is pointed to.  The upper half of the root is unused: it is
    for the addresses from MAXVA on. *)
Record pt_wf (m : bmem) (root : Z) (L : gmap Z Z) : Prop := PtWf {
  wf_root : L !! root = Some 2;
  wf_page : forall p l, L !! p = Some l -> page_ok p /\ 0 <= l <= 2;
  wf_down : forall p l i, L !! p = Some l -> 0 < l -> 0 <= i < 512 ->
    has (ld64 m (p + 8 * i)) PTE_V = true ->
    exists q, ld64 m (p + 8 * i) = Z.lor (PA2PTE q) PTE_V /\ L !! q = Some (l - 1);
  wf_tree : forall p l i p' l' i' q, L !! p = Some l -> L !! p' = Some l' ->
    0 < l -> 0 < l' -> 0 <= i < 512 -> 0 <= i' < 512 ->
    ld64 m (p + 8 * i) = Z.lor (PA2PTE q) PTE_V ->
    ld64 m (p' + 8 * i') = Z.lor (PA2PTE q) PTE_V -> L !! q = Some (l - 1) ->
    p = p' /\ i = i';
  wf_up : forall q l, L !! q = Some l -> q <> root -> exists p i, L !! p = Some (l + 1) /\ 0 <= i < 512 /\
    ld64 m (p + 8 * i) = Z.lor (PA2PTE q) PTE_V;
  wf_low : forall i, 256 <= i < 512 -> has (ld64 m (root + 8 * i)) PTE_V = false }.

Lemma page_ok_range p : page_ok p -> 0 < p < 2 ^ 56 /\ p `mod` PGSIZE = 0.
Proof. intros Hp. pose proof (page_ok_pos p Hp). destruct Hp. lia. Qed.

Lemma node_pte q : page_ok q ->
  PTE2PA (Z.lor (PA2PTE q) PTE_V) = q /\ has (Z.lor (PA2PTE q) PTE_V) PTE_V = true.
Proof.
  intros Hq. destruct (page_ok_range q Hq) as [Hr Ha].
  split; [apply PTE2PA_PA2PTE; lia|]. unfold has, truth.
  rewrite PA2PTE_eq, lor_low_flags by dlia. change PTE_V with (Z.ones 1) at 2.
  rewrite Z.land_ones by lia. change (2 ^ 1) with 2. dlia.
Qed.

(** Two PTE slots of page-table pages are the same or do not overlap. *)
Lemma slot_disjoint p i q j :
  page_ok p -> page_ok q -> 0 <= i < 512 -> 0 <= j < 512 -> (p, i) <> (q, j) ->
  q + 8 * j + 8 <= p + 8 * i \/ p + 8 * i + 8 <= q + 8 * j.
Proof.
  intros Hp Hq Hi Hj Hne. destruct (decide (p = q)) as [->|Hpq].
  - assert (i <> j) by congruence. lia.
  - destruct (page_disjoint p q Hp Hq Hpq); lia.
Qed.

Lemma slot_in_page p i a : 0 <= i < 512 -> p + 8 * i <= a < p + 8 * i + 8 -> p <= a < p + PGSIZE.
Proof. lia. Qed.

Section walks.
Context (m : bmem) (root : Z) (L : gmap Z Z).
Hypothesis WF : pt_wf m root L.

(** The path of a successful walk. *)
Lemma ptwalk_path va a :
  ptwalk m root va = Some a ->
  exists p1 p0, L !! p1 = Some 1 /\ L !! p0 = Some 0 /\ a = p0 + 8 * PX 0 va /\
    ld64 m (root + 8 * PX 2 va) = Z.lor (PA2PTE p1) PTE_V /\
    ld64 m (p1 + 8 * PX 1 va) = Z.lor (PA2PTE p0) PTE_V.
Proof.
  unfold ptwalk, pte_at. intros H.
  pose proof (PX_range 2 va ltac:(lia)) as R2. pose proof (PX_range 1 va ltac:(lia)) as R1.
  destruct (has (ld64 m (root + 8 * PX 2 va)) PTE_V) eqn:V2; [|done].
  destruct (wf_down _ _ _ WF root 2 _ (wf_root _ _ _ WF) ltac:(lia) R2 V2) as (p1 & E1 & L1).
  destruct (wf_page _ _ _ WF p1 _ L1) as [P1 _]. rewrite E1 in H.
  destruct (node_pte p1 P1) as [T1 _]. rewrite T1 in H.
  destruct (has (ld64 m (p1 + 8 * PX 1 va)) PTE_V) eqn:V1; [|done].
  destruct (wf_down _ _ _ WF p1 1 _ L1 ltac:(lia) R1 V1) as (p0 & E0 & L0).
  destruct (wf_page _ _ _ WF p0 _ L0) as [P0 _]. rewrite E0 in H.
  destruct (node_pte p0 P0) as [T0 _]. rewrite T0 in H. injection H as <-.
  exists p1, p0. done.
Qed.

(** Distinct virtual pages have distinct leaf PTEs. *)
Lemma ptwalk_inj va va' a :
  0 <= va < MAXVA -> 0 <= va' < MAXVA ->
  ptwalk m root va = Some a -> ptwalk m root va' = Some a -> vpn va = vpn va'.
Proof.
  intros Hva Hva' (p1 & p0 & L1 & L0 & Ea & E2 & E1)%ptwalk_path
    (q1 & q0 & M1 & M0 & Ea' & F2 & F1)%ptwalk_path.
  pose proof (PX_range 0 va ltac:(lia)). pose proof (PX_range 0 va' ltac:(lia)).
  pose proof (PX_range 1 va ltac:(lia)). pose proof (PX_range 1 va' ltac:(lia)).
  pose proof (PX_range 2 va ltac:(lia)). pose proof (PX_range 2 va' ltac:(lia)).
  assert (p0 = q0) as <-.
  { destruct (decide (p0 = q0)) as [|Hne]; [done|].
    destruct (wf_page _ _ _ WF p0 _ L0) as [P0 _], (wf_page _ _ _ WF q0 _ M0) as [Q0 _].
    destruct (page_disjoint p0 q0 P0 Q0 Hne); lia. }
  destruct (wf_tree _ _ _ WF p1 1 (PX 1 va) q1 1 (PX 1 va') p0) as [<- X1]; auto; try lia.
  destruct (wf_tree _ _ _ WF root 2 (PX 2 va) root 2 (PX 2 va') p1) as [_ X2]; auto; try lia; try apply WF.
  unfold vpn. rewrite (PX_decompose va Hva), (PX_decompose va' Hva').
  assert (PX 0 va = PX 0 va') as X0 by lia. rewrite X0, X1, X2.
  change (2 ^ 30) with 1073741824. change (2 ^ 21) with 2097152. change (2 ^ 12) with 4096. dlia.
Qed.

(** A walk depends on the virtual page only. *)
Lemma PX_vpn va va' level : 0 <= level -> vpn va = vpn va' -> PX level va = PX level va'.
Proof.
  intros Hl E. rewrite !PX_eq by done.
  assert (forall x, x / 2 ^ (12 + 9 * level) = vpn x / 2 ^ (9 * level)) as D.
  { intros x. unfold vpn. rewrite Z.pow_add_r by lia. change (2 ^ 12) with 4096.
    by rewrite Z.div_div by lia. }
  by rewrite !D, E.
Qed.

End walks.

Lemma pteof_vpn m pt va va' : vpn va = vpn va' -> pteof m pt va = pteof m pt va'.
Proof.
  intros E. unfold pteof, ptwalk, pte_at.
  by rewrite !(PX_vpn va va' 2), !(PX_vpn va va' 1), !(PX_vpn va va' 0) by (done || lia).
Qed.

(** ** Adding a page-table page *)

(** [m'] is [m] with the zeroed page [p] hung into slot [i] of page [P]. *)
Record grown (m m' : bmem) (P i p : Z) : Prop := Grown {
  gr_same : forall a, ~ (p <= a < p + PGSIZE) -> ~ (P + 8 * i <= a < P + 8 * i + 8) ->
              ld8 m' a = ld8 m a;
  gr_zero : forall j, 0 <= j < 512 -> ld64 m' (p + 8 * j) = 0;
  gr_pte : ld64 m' (P + 8 * i) = Z.lor (PA2PTE p) PTE_V }.

Lemma node_inj p q :
  page_ok p -> page_ok q -> Z.lor (PA2PTE p) PTE_V = Z.lor (PA2PTE q) PTE_V -> p = q.
Proof.
  intros Pp Pq E. destruct (node_pte p Pp) as [Tp _], (node_pte q Pq) as [Tq _].
  rewrite <- Tp, <- Tq, E. done.
Qed.

Lemma node_nonzero p : page_ok p -> Z.lor (PA2PTE p) PTE_V <> 0.
Proof. intros Pp E. destruct (node_pte p Pp) as [_ V]. rewrite E in V. done. Qed.

Section grow.
Context (m m' : bmem) (root : Z) (L : gmap Z Z) (P i p l : Z).
Hypothesis WF : pt_wf m root L.
Hypothesis HP : L !! P = Some l.
Hypothesis Hl : 0 < l.
Hypothesis Hi : 0 <= i < 512.
Hypothesis Hlow : P = root -> i < 256.
Hypothesis Hfree : has (ld64 m (P + 8 * i)) PTE_V = false.
Hypothesis Hp : page_ok p.
Hypothesis Hnew : L !! p = None.
Hypothesis G : grown m m' P i p.

(** Other slots of the old pages are unchanged. *)
Lemma grown_slot q j lq :
  L !! q = Some lq -> 0 <= j < 512 -> (q, j) <> (P, i) -> ld64 m' (q + 8 * j) = ld64 m (q + 8 * j).
Proof.
  intros Hq Hj Hne. apply ld64_ext. intros b Hb. apply (gr_same _ _ _ _ _ G).
  - assert (q <> p) as Hqp by congruence. destruct (wf_page _ _ _ WF q lq Hq) as [Pq _].
    destruct (page_disjoint q p Pq Hp Hqp); lia.
  - destruct (wf_page _ _ _ WF q lq Hq) as [Pq _], (wf_page _ _ _ WF P l HP) as [PP _].
    destruct (slot_disjoint q j P i Pq PP Hj Hi Hne); lia.
Qed.

Lemma has_zero : has 0 PTE_V = false.
Proof. done. Qed.

(** A slot of the grown table: the new one, one of the new page, or an old one. *)
Lemma grown_cases q j lq :
  <[p := l - 1]> L !! q = Some lq -> 0 <= j < 512 ->
  (q = P /\ j = i /\ lq = l /\ ld64 m' (q + 8 * j) = Z.lor (PA2PTE p) PTE_V) \/
  (q = p /\ lq = l - 1 /\ ld64 m' (q + 8 * j) = 0) \/
  (L !! q = Some lq /\ (q, j) <> (P, i) /\ ld64 m' (q + 8 * j) = ld64 m (q + 8 * j)).
Proof.
  intros Hq Hj. destruct (decide (q = p)) as [->|Hqp].
  - rewrite lookup_insert_eq in Hq. injection Hq as <-. right. left.
    split; [done|]. split; [done|]. by apply (gr_zero _ _ _ _ _ G).
  - rewrite lookup_insert_ne in Hq by done. destruct (decide ((q, j) = (P, i))) as [[= -> ->]|Hne].
    + left. rewrite HP in Hq. injection Hq as <-. split_and!; try done. apply G.
    + right. right. split; [done|]. split; [done|]. by eapply grown_slot.
Qed.

Lemma grown_wf : pt_wf m' root (<[p := l - 1]> L).
Proof.
  destruct (wf_page _ _ _ WF P l HP) as [PP Hlr]. constructor.
  - rewrite lookup_insert_ne; [apply WF|]. intros ->. rewrite (wf_root _ _ _ WF) in Hnew. done.
  - intros q lq [[<- <-]|[_ Hq]]%lookup_insert_Some; [split; [done|lia]|by apply (wf_page _ _ _ WF)].
  - intros q lq j Hq Hlq Hj Hv.
    destruct (grown_cases q j lq Hq Hj) as [(-> & -> & -> & E)|[(-> & -> & E)|(Hq' & Hne & E)]].
    + exists p. split; [done|]. by rewrite lookup_insert_eq.
    + by rewrite E in Hv.
    + rewrite E in *. destruct (wf_down _ _ _ WF q lq j Hq' Hlq Hj Hv) as (r & Er & Lr).
      exists r. split; [done|]. rewrite lookup_insert_ne by congruence. done.
  - intros q lq j q' lq' j' r Hq Hq' Hlq Hlq' Hj Hj' Er Er' Hr.
    assert (page_ok r) as Pr.
    { apply lookup_insert_Some in Hr as [[<- _]|[_ Hr]]; [done|]. by apply (wf_page _ _ _ WF r (lq - 1)). }
    assert (forall x jx lx, L !! x = Some lx -> 0 < lx -> 0 <= jx < 512 ->
      ld64 m (x + 8 * jx) = Z.lor (PA2PTE p) PTE_V -> False) as Hno.
    { intros x jx lx Hx Hlx Hjx E. destruct (wf_down _ _ _ WF x lx jx Hx Hlx Hjx) as (y & Ey & Ly).
      { rewrite E. by apply node_pte. }
      destruct (wf_page _ _ _ WF y _ Ly) as [Py _]. rewrite E in Ey.
      apply node_inj in Ey; [congruence|done..]. }
    destruct (grown_cases q j lq Hq Hj) as [(-> & -> & -> & E)|[(-> & -> & E)|(Hq1 & Hne & E)]];
      rewrite Er in E; symmetry in E;
      [apply node_inj in E as <-; [|done..]|by destruct (node_nonzero r)|];
      destruct (grown_cases q' j' lq' Hq' Hj') as [(-> & -> & -> & E')|[(-> & -> & E')|(Hq1' & Hne' & E')]];
      rewrite Er' in E'; symmetry in E'; try done;
      try (by destruct (node_nonzero _ Pr)).
    + by destruct (Hno q' j' lq').
    + apply node_inj in E' as <-; [|done..]. by destruct (Hno q j lq).
    + eapply (wf_tree _ _ _ WF q lq j q' lq' j' r); eauto.
      rewrite lookup_insert_ne in Hr; [done|]. intros <-. by apply (Hno q j lq).
  - intros q lq Hq Hne. destruct (decide (q = p)) as [->|Hqp].
    + rewrite lookup_insert_eq in Hq. injection Hq as <-. exists P, i. rewrite lookup_insert_ne by congruence.
      split; [rewrite HP; f_equal; lia|]. split; [done|]. apply G.
    + rewrite lookup_insert_ne in Hq by done. destruct (wf_up _ _ _ WF q lq Hq Hne) as (p' & i' & Hp' & Hi' & E).
      exists p', i'. rewrite lookup_insert_ne by congruence. split; [done|]. split; [done|]. rewrite (grown_slot p' i' (lq + 1)); [done..|].
      intros [= -> ->]. rewrite E in Hfree. destruct (wf_page _ _ _ WF q lq Hq) as [Pq _]. destruct (node_pte q Pq) as [_ V]. congruence.
  - intros j Hj. pose proof (wf_root _ _ _ WF). rewrite (grown_slot root j 2); [by apply (wf_low _ _ _ WF)|done|lia|]. intros [= E ->]. pose proof (Hlow (eq_sym E)). lia.
Qed.

(** The map is unchanged: the new page maps nothing. *)
Lemma grown_pteof va : pteof m' root va = pteof m root va.
Proof.
  destruct (wf_page _ _ _ WF P l HP) as [PP Hlr].
  pose proof (PX_range 2 va ltac:(lia)) as R2. pose proof (PX_range 1 va ltac:(lia)) as R1.
  pose proof (PX_range 0 va ltac:(lia)) as R0. destruct (node_pte p Hp) as [Tp Vp].
  pose proof (wf_root _ _ _ WF) as Hroot.
  unfold pteof, ptwalk, pte_at.
  destruct (decide ((root, PX 2 va) = (P, i))) as [[= Er Ei]|N2].
  { rewrite Er, Ei, (gr_pte _ _ _ _ _ G), Vp, Tp, (gr_zero _ _ _ _ _ G), Hfree by done. done. }
  rewrite (grown_slot root (PX 2 va) 2) by done.
  destruct (has (ld64 m (root + 8 * PX 2 va)) PTE_V) eqn:V2; [|done].
  destruct (wf_down _ _ _ WF root 2 _ Hroot ltac:(lia) R2 V2) as (p1 & E1 & L1).
  destruct (wf_page _ _ _ WF p1 _ L1) as [P1 _]. rewrite E1. destruct (node_pte p1 P1) as [-> _].
  destruct (decide ((p1, PX 1 va) = (P, i))) as [[= Er Ei]|N1].
  { rewrite Er, Ei, (gr_pte _ _ _ _ _ G), Vp, Tp, Hfree. simpl.
    by rewrite (gr_zero _ _ _ _ _ G). }
  rewrite (grown_slot p1 (PX 1 va) 1) by done.
  destruct (has (ld64 m (p1 + 8 * PX 1 va)) PTE_V) eqn:V1; [|done].
  destruct (wf_down _ _ _ WF p1 1 _ L1 ltac:(lia) R1 V1) as (p0 & E0 & L0).
  destruct (wf_page _ _ _ WF p0 _ L0) as [P0 _]. rewrite E0. destruct (node_pte p0 P0) as [-> _].
  simpl. rewrite (grown_slot p0 (PX 0 va) 0); [done..|].
  intros [= -> _]. rewrite HP in L0. injection L0 as ->. lia.
Qed.

End grow.

(** ** Writing a leaf PTE *)

Section leaf.
Context (m : bmem) (root : Z) (L : gmap Z Z) (va a v : Z).
Hypothesis WF : pt_wf m root L.
Hypothesis Hva : 0 <= va < MAXVA.
Hypothesis Ha : ptwalk m root va = Some a.
Hypothesis Hv : 0 <= v < 2 ^ 64.

Lemma leaf_node p l i :
  L !! p = Some l -> 0 < l -> 0 <= i < 512 -> ld64 (st64 m a v) (p + 8 * i) = ld64 m (p + 8 * i).
Proof.
  intros Hp Hl Hi. destruct (ptwalk_path m root L WF va a Ha) as (p1 & p0 & L1 & L0 & -> & _).
  pose proof (PX_range 0 va ltac:(lia)) as R0.
  apply ld64_st64_disj. apply or_comm, (slot_disjoint p i p0 (PX 0 va)); try done.
  - by destruct (wf_page _ _ _ WF p l Hp).
  - by destruct (wf_page _ _ _ WF p0 0 L0).
  - intros [= -> ->]. rewrite L0 in Hp. injection Hp as <-. lia.
Qed.

Lemma leaf_wf : pt_wf (st64 m a v) root L.
Proof.
  constructor; [apply WF|apply WF|..].
  - intros p l i Hp Hl Hi. rewrite (leaf_node p l) by done. by apply (wf_down _ _ _ WF).
  - intros p l i p' l' i' q Hp Hp' Hl Hl' Hi Hi'. rewrite (leaf_node p l), (leaf_node p' l') by done.
    by apply (wf_tree _ _ _ WF p l i p' l' i' q).
  - intros q l Hq Hne. destruct (wf_up _ _ _ WF q l Hq Hne) as (p & i & Hp & Hi & E). exists p, i.
    destruct (wf_page _ _ _ WF q l Hq). by rewrite (leaf_node p (l + 1)) by (done || lia).
  - intros i Hi. rewrite (leaf_node root 2) by (lia || apply WF). by apply (wf_low _ _ _ WF).
Qed.

Lemma leaf_ptwalk va' : ptwalk (st64 m a v) root va' = ptwalk m root va'.
Proof.
  pose proof (PX_range 2 va' ltac:(lia)) as R2. pose proof (PX_range 1 va' ltac:(lia)) as R1.
  unfold ptwalk, pte_at. rewrite (leaf_node root 2) by (done || apply WF).
  destruct (has (ld64 m (root + 8 * PX 2 va')) PTE_V) eqn:V2; [|done].
  destruct (wf_down _ _ _ WF root 2 _ (wf_root _ _ _ WF) ltac:(lia) R2 V2) as (p1 & -> & L1).
  destruct (wf_page _ _ _ WF p1 _ L1) as [P1 _]. destruct (node_pte p1 P1) as [-> _].
  by rewrite (leaf_node p1 1).
Qed.

(** The write changes the map at the page of [va] and nowhere else. *)
Lemma leaf_pteof va' : 0 <= va' < MAXVA ->
  pteof (st64 m a v) root va' =
  if decide (vpn va' = vpn va) then (if has v PTE_V then Some v else None) else pteof m root va'.
Proof.
  intros Hva'. destruct (decide (vpn va' = vpn va)) as [E|N].
  - rewrite (pteof_vpn _ _ va' va E). unfold pteof. rewrite leaf_ptwalk, Ha. cbn [mbind option_bind].
    by rewrite ld64_st64_same, u64_small.
  - unfold pteof. rewrite leaf_ptwalk. destruct (ptwalk m root va') as [a'|] eqn:Ha'; [|done]. cbn [mbind option_bind].
    rewrite ld64_st64_disj; [done|].
    destruct (ptwalk_path m root L WF va a Ha) as (p1 & p0 & L1 & L0 & Ea & _).
    destruct (ptwalk_path m root L WF va' a' Ha') as (q1 & q0 & M1 & M0 & Ea' & _).
    pose proof (PX_range 0 va ltac:(lia)). pose proof (PX_range 0 va' ltac:(lia)). subst a a'.
    apply or_comm, (slot_disjoint q0 _ p0 _); try done.
    + by destruct (wf_page _ _ _ WF q0 0 M0).
    + by destruct (wf_page _ _ _ WF p0 0 L0).
    + intros [= -> E]. apply N. apply (ptwalk_inj m root L WF va' va (p0 + 8 * PX 0 va)); try done.
      by rewrite Ha', E.
Qed.

End leaf.

(** ** Walks of a kernel state *)

(** A kernel state with page table [root] and free list [l]: the allocator can
    run, and the page-table pages are not on the free list. *)
Record vmst (k : kst) (root : Z) (L : gmap Z Z) (l : list Z) : Prop := VmSt {
  vm_hart : hart_ok (k_hart k);
  vm_lock : k_locks k !! LKmem = None;
  vm_free : kmem_inv k l;
  vm_pt : pt_wf (k_mem k) root L;
  vm_disj : forall q, q ∈ l -> L !! q = None }.

(** Address [a] is in a page-table page or in a free page. *)
Definition owned (L : gmap Z Z) (l : list Z) (a : Z) : Prop :=
  exists q, (is_Some (L !! q) \/ q ∈ l) /\ q <= a < q + PGSIZE.

(** The pages of the table. *)
Definition nodes (L : gmap Z Z) : list Z := (map_to_list L).*1.

Lemma elem_of_nodes L q : q ∈ nodes L <-> is_Some (L !! q).
Proof.
  unfold nodes. rewrite list_elem_of_fmap. split.
  - intros ([p l] & -> & Hp%elem_of_map_to_list). by exists l.
  - intros [l Hl]. exists (q, l). split; [done|]. by apply elem_of_map_to_list.
Qed.

Lemma nodes_insert L p l : L !! p = None -> nodes (<[p := l]> L) ≡ₚ p :: nodes L.
Proof. intros H. unfold nodes. by rewrite map_to_list_insert. Qed.

Lemma nodes_nodup L : NoDup (nodes L).
Proof. apply NoDup_fst_map_to_list. Qed.

(** From [k] to [k'] only the free list, the page table's pages and pages that
    were free have changed, the interior nodes have only been added to, and every
    page that was free is free or a page of the table. *)
Record vmstep (root : Z) (k : kst) (L : gmap Z Z) (l : list Z) (k' : kst) (L' : gmap Z Z) (l' : list Z)
    : Prop := VmStep {
  vs_st : vmst k' root L' l';
  vs_k : k' = set_k_mem (k_mem k') (set_k_freelist (k_freelist k') k);
  vs_L : L ⊆ L';
  vs_new : forall q, is_Some (L' !! q) -> is_Some (L !! q) \/ q ∈ l;
  vs_l : forall q, q ∈ l' -> q ∈ l;
  vs_mem : forall a, ~ owned L l a -> ld8 (k_mem k') a = ld8 (k_mem k) a;
  vs_node : forall q lq j, L !! q = Some lq -> 0 < lq -> 0 <= j < 512 ->
    has (ld64 (k_mem k) (q + 8 * j)) PTE_V = true -> ld64 (k_mem k') (q + 8 * j) = ld64 (k_mem k) (q + 8 * j);
  vs_pages : l ++ nodes L ≡ₚ l' ++ nodes L' }.

Lemma vmstep_refl root k L l : vmst k root L l -> vmstep root k L l k L l.
Proof. intros H. constructor; try done; [by destruct k|auto..]. Qed.

Lemma vmstep_trans root k1 L1 l1 k2 L2 l2 k3 L3 l3 :
  vmstep root k1 L1 l1 k2 L2 l2 -> vmstep root k2 L2 l2 k3 L3 l3 -> vmstep root k1 L1 l1 k3 L3 l3.
Proof.
  intros [S1 K1 I1 N1 F1 M1 D1 P1] [S2 K2 I2 N2 F2 M2 D2 P2]. constructor.
  - done.
  - rewrite K2. rewrite K1 at 1. by destruct k1.
  - by transitivity L2.
  - intros q [Hq|Hq]%N2; auto.
  - auto.
  - intros a Ha. rewrite M2, M1; [done|done|]. intros (q & Hq & Hr). apply Ha. exists q.
    split; [|done]. destruct Hq as [Hq|Hq]; auto.
  - intros q lq j Hq Hl Hj Hv. rewrite <- (D1 q lq j) in Hv |- * by done.
    apply (D2 q lq j); try done. by apply (lookup_weaken L1).
  - by rewrite P1.
Qed.

(** The three steps walk() takes at an invalid interior PTE. *)
Definition hang (k : kst) (p slot : Z) : kst :=
  set_k_mem (st64 (memset (memset (k_mem k) p 5 (Z.to_nat PGSIZE)) p 0 (Z.to_nat PGSIZE)) slot
                  (Z.lor (PA2PTE p) PTE_V))
    (set_k_freelist (ld64 (k_mem k) p) k).

Lemma hang_grown k root L l P lv i p :
  vmst k root L (p :: l) -> L !! P = Some lv -> 0 <= i < 512 ->
  grown (k_mem k) (k_mem (hang k p (P + 8 * i))) P i p.
Proof.
  intros S HP Hi. destruct (vm_free _ _ _ _ S) as [(_ & Hp & _) _].
  pose proof (vm_disj _ _ _ _ S p (list_elem_of_here _ _)) as Hn.
  destruct (wf_page _ _ _ (vm_pt _ _ _ _ S) P lv HP) as [PP _].
  assert (P <> p) as Hne by congruence.
  pose proof (page_disjoint P p PP Hp Hne) as D. unfold hang. ksimpl. constructor.
  - intros a H1 H2. rewrite ld8_st64_out by done.
    rewrite !ld8_memset, !decide_False by lia. done.
  - intros j Hj. rewrite ld64_st64_disj by lia. apply ld64_zero. intros b Hb.
    rewrite ld8_memset, decide_True by lia. done.
  - rewrite ld64_st64_same. apply u64_small. destruct (page_ok_range p Hp) as [R A].
    rewrite PA2PTE_eq, lor_low_flags by dlia. dlia.
Qed.

Lemma mem_shape m f k :
  set_k_mem m (set_k_freelist f k) =
  set_k_mem (k_mem (set_k_mem m (set_k_freelist f k)))
    (set_k_freelist (k_freelist (set_k_mem m (set_k_freelist f k))) k).
Proof. done. Qed.

Lemma hang_step k root L l P lv i p :
  vmst k root L (p :: l) -> L !! P = Some lv -> 0 < lv -> 0 <= i < 512 -> (P = root -> i < 256) ->
  has (ld64 (k_mem k) (P + 8 * i)) PTE_V = false ->
  vmstep root k L (p :: l) (hang k p (P + 8 * i)) (<[p := lv - 1]> L) l.
Proof.
  intros S HP Hlv Hi Hlow Hv. pose proof (hang_grown _ _ _ _ _ _ _ _ S HP Hi) as G.
  destruct (kmem_inv_kalloc k p l (vm_free _ _ _ _ S)) as ([Hf Hnd] & Hp & Hpl).
  pose proof (vm_disj _ _ _ _ S p (list_elem_of_here _ _)) as Hn.
  pose proof (vm_pt _ _ _ _ S) as WF.
  destruct (wf_page _ _ _ WF P lv HP) as [PP _].
  constructor; [constructor|..].
  - apply S.
  - apply S.
  - split; [|done]. unfold hang. ksimpl. ksimpl in Hf.
    apply (free_rep_frame (memset (memset (k_mem k) p 5 (Z.to_nat PGSIZE)) p 0 (Z.to_nat PGSIZE)) _ P _ _ PP); [intros HPl|..].
    { rewrite (vm_disj _ _ _ _ S P) in HP; [done|]. by right. }
    { intros a Ha. apply ld8_st64_out. lia. }
    apply (free_rep_frame (memset (k_mem k) p 5 (Z.to_nat PGSIZE)) _ p _ _ Hp Hpl); [|done]. apply same_but_page_memset.
  - by apply (grown_wf (k_mem k) _ root L P i p lv).
  - intros q Hq. rewrite lookup_insert_ne by congruence. apply (vm_disj _ _ _ _ S). by right.
  - apply mem_shape.
  - by apply insert_subseteq.
  - intros q. rewrite lookup_insert_is_Some'. intros [<-|]; [right; by left|by left].
  - intros q Hq. by right.
  - intros a Ha. apply (gr_same _ _ _ _ _ G); intros Hr; apply Ha.
    + exists p. split; [right; by left|done].
    + exists P. split; [left; by rewrite HP|lia].
  - intros q lq j Hq Hl Hj Hvj. eapply (grown_slot (k_mem k) _ root L P i p lv); eauto.
    intros [= -> ->]. congruence.
  - rewrite nodes_insert by done. by rewrite <- Permutation_middle.
Qed.

(** ** walk() *)

Fixpoint levels (n : nat) : list Z :=
  match n with O => [] | S n => Z.of_nat (S n) :: levels n end.

Fixpoint ptpath (m : bmem) (lv : list Z) (P va : Z) : option Z :=
  match lv with
  | [] => Some (pte_at P 0 va)
  | l :: lv =>
      let v := ld64 m (pte_at P l va) in
      if has v PTE_V then ptpath m lv (PTE2PA v) va else None
  end.

Lemma ptpath_ptwalk m root va : ptpath m [2; 1] root va = ptwalk m root va.
Proof. done. Qed.

Lemma walk_levels_find lv P va k :
  walk_levels lv P va false k = Ret (default 0 (ptpath (k_mem k) lv P va)) k.
Proof.
  revert P. induction lv as [|l lv IH]; intros P; simpl; [done|].
  unfold read64. mstep. destruct (has _ _); [apply IH|done].
Qed.

(** walk() without alloc reads the map and changes nothing. *)
Lemma walk_find pt va k :
  va < MAXVA -> walk pt va false k = Ret (default 0 (ptwalk (k_mem k) pt va)) k.
Proof.
  intros. unfold walk. destruct (MAXVA <=? va) eqn:E; [lia|]. apply walk_levels_find.
Qed.

Lemma walk_levels_alloc n : forall P va k root L l,
  0 <= va < MAXVA -> L !! P = Some (Z.of_nat n) -> vmst k root L l ->
  exists r k' L' l', walk_levels (levels n) P va true k = Ret r k' /\
    vmstep root k L l k' L' l' /\
    (forall va', pteof (k_mem k') root va' = pteof (k_mem k) root va') /\
    (length l <= length l' + n)%nat /\
    ((r = 0 /\ l' = [] /\ (length l < n)%nat) \/ ptpath (k_mem k') (levels n) P va = Some r).
Proof.
  induction n as [|n IH]; intros P va k root L l Hva HP S.
  { exists (pte_at P 0 va), k, L, l. split; [done|]. split; [by apply vmstep_refl|]. split; [done|]. split; [lia|by right]. }
  pose proof (PX_range (Z.of_nat (Datatypes.S n)) va ltac:(lia)) as R.
  cbn [levels walk_levels ptpath]. unfold read64. mstep. unfold pte_at.
  set (v := ld64 (k_mem k) (P + 8 * PX (Z.of_nat (Datatypes.S n)) va)) in *.
  assert (Z.of_nat (Datatypes.S n) - 1 = Z.of_nat n) as En by lia.
  destruct (has v PTE_V) eqn:V.
  - destruct (wf_down _ _ _ (vm_pt _ _ _ _ S) P _ _ HP ltac:(lia) R V) as (q & Eq & Lq).
    rewrite En in Lq. destruct (wf_page _ _ _ (vm_pt _ _ _ _ S) q _ Lq) as [Pq _].
    destruct (node_pte q Pq) as [Tq Vq]. unfold v. rewrite Eq, Tq.
    destruct (IH q va k root L l Hva Lq S) as (r & k' & L' & l' & W & St & Hp & Hn & Hr).
    exists r, k', L', l'. split; [exact W|]. split; [exact St|]. split; [exact Hp|]. split; [lia|].
    destruct Hr as [(? & ? & ?)|Hr]; [left; split_and!; [done|done|lia]|right].
    rewrite (vs_node _ _ _ _ _ _ _ St P _ _ HP ltac:(lia) R V), Eq, Vq, Tq. exact Hr.
  - cbn [negb]. destruct l as [|p l].
    { mcall (kalloc_empty k) by (first [apply S]). cbn [Z.eqb].
      exists 0, k, L, []. split; [done|]. split; [by apply vmstep_refl|]. split; [done|]. split; [simpl; lia|].
      left. split_and!; [done|done|simpl; lia]. }
    mcall (kalloc_cons k p l) by (first [apply S]).
    destruct (vm_free _ _ _ _ S) as [(_ & Hp & _) _].
    destruct (page_ok_range p Hp) as [Rp _]. assert (p =? 0 = false) as -> by lia.
    unfold fill_page, write64. mstep. ksimpl.
    assert (P = root -> PX (Z.of_nat (Datatypes.S n)) va < 256) as Hlow.
    { intros ->. rewrite (wf_root _ _ _ (vm_pt _ _ _ _ S)) in HP. assert (Z.of_nat (Datatypes.S n) = 2) as -> by congruence. rewrite PX_eq by lia. change (2 ^ (12 + 9 * 2)) with (2 ^ 30). dlia. }
    pose proof (hang_step k root L l P _ _ p S HP ltac:(lia) R Hlow V) as St1.
    pose proof (hang_grown k root L l P _ _ p S HP R) as G.
    rewrite En in St1. destruct (node_pte p Hp) as [Tp Vp].
    destruct (IH p va _ root _ l Hva (lookup_insert_eq L p (Z.of_nat n)) (vs_st _ _ _ _ _ _ _ St1))
      as (r & k' & L' & l' & W & St & Hpt & Hn & Hr).
    exists r, k', L', l'. split; [exact W|]. split; [exact (vmstep_trans _ _ _ _ _ _ _ _ _ _ St1 St)|].
    split; [|split; [simpl; lia|]].
    { intros va'. rewrite Hpt. eapply (grown_pteof (k_mem k) _ root L P _ p _ (vm_pt _ _ _ _ S)); eauto; try lia.
      apply (vm_disj _ _ _ _ S). by left. }
    destruct Hr as [(? & ? & ?)|Hr]; [left; split_and!; [done|done|simpl; lia]|right].
    assert (<[p:=Z.of_nat n]> L !! P = Some (Z.of_nat (Datatypes.S n))) as HP'.
    { apply (lookup_weaken L); [exact HP|apply St1]. }
    rewrite (vs_node _ _ _ _ _ _ _ St P _ _ HP' ltac:(lia) R), (gr_pte _ _ _ _ _ G), Vp, Tp;
      [exact Hr|]. by rewrite (gr_pte _ _ _ _ _ G).
Qed.

(** walk() with alloc finds or makes the leaf slot, without changing the map;
    it returns 0 when the free list has run out, which takes fewer than two free
    pages. *)
Lemma walk_alloc k root L l va :
  0 <= va < MAXVA -> vmst k root L l ->
  exists r k' L' l', walk root va true k = Ret r k' /\ vmstep root k L l k' L' l' /\
    (forall va', pteof (k_mem k') root va' = pteof (k_mem k) root va') /\
    (length l <= length l' + 2)%nat /\
    ((r = 0 /\ l' = [] /\ (length l < 2)%nat) \/ ptwalk (k_mem k') root va = Some r).
Proof.
  intros Hva S. unfold walk. destruct (MAXVA <=? va) eqn:E; [lia|].
  apply (walk_levels_alloc 2); [done| |done]. apply (wf_root _ _ _ (vm_pt _ _ _ _ S)).
Qed.

(** ** mappages() and uvmunmap() *)

Lemma leaf_step k root L l va a v :
  vmst k root L l -> 0 <= va < MAXVA -> ptwalk (k_mem k) root va = Some a -> 0 <= v < 2 ^ 64 ->
  vmstep root k L l (set_k_mem (st64 (k_mem k) a v) k) L l.
Proof.
  intros S Hva Ha Hv. pose proof (vm_pt _ _ _ _ S) as WF.
  destruct (ptwalk_path _ _ _ WF va a Ha) as (p1 & p0 & L1 & L0 & Ea & _).
  pose proof (PX_range 0 va ltac:(lia)) as R0. destruct (wf_page _ _ _ WF p0 0 L0) as [P0 _].
  constructor; [constructor|..]; ksimpl; try done; try apply S.
  - split; [|apply S]. ksimpl. destruct (vm_free _ _ _ _ S) as [Hf Hnd].
    apply (free_rep_frame (k_mem k) _ p0 _ _ P0); [|..|done].
    + intros Hin. rewrite (vm_disj _ _ _ _ S p0 Hin) in L0. done.
    + intros b Hb. apply ld8_st64_out. lia.
  - by apply (leaf_wf _ _ _ va).
  - auto.
  - intros b Hb. apply ld8_st64_out. intros Hr. apply Hb. exists p0.
    split; [left; by rewrite L0|lia].
  - intros q lq j Hq Hlq Hj _. by apply (leaf_node _ _ L va _ _ WF Ha q lq).
Qed.

(** The PTE mappages() writes. *)
Definition leaf_pte (pa perm : Z) : Z := Z.lor (Z.lor (PA2PTE pa) perm) PTE_V.

Lemma leaf_pte_ok pa perm :
  0 <= pa < 2 ^ 56 -> 0 <= perm < 1024 ->
  0 <= leaf_pte pa perm < 2 ^ 64 /\ has (leaf_pte pa perm) PTE_V = true.
Proof.
  intros Hpa Hp. unfold leaf_pte. rewrite <- Z.lor_assoc.
  assert (0 <= Z.lor perm PTE_V < 1024) as Hf.
  { split; [apply Z.lor_nonneg; lia|]. change 1024 with (2 ^ 10).
    destruct (decide (Z.lor perm PTE_V = 0)) as [->|]; [lia|].
    apply Z.log2_lt_pow2; [pose proof (Z.lor_nonneg perm PTE_V); lia|].
    rewrite Z.log2_lor by lia. apply Z.max_lub_lt; [|done].
    destruct (decide (perm = 0)) as [->|]; [done|]. apply Z.log2_lt_pow2; lia. }
  split.
  - rewrite PA2PTE_eq, lor_low_flags by dlia. dlia.
  - unfold has, truth. rewrite Z.lor_assoc, Z.land_lor_distr_l.
    change (Z.land PTE_V PTE_V) with 1.
    destruct (Z.lor _ 1 =? 0) eqn:E; [|done]. apply Z.eqb_eq, Z.lor_eq_0_iff in E as [_ E]. lia.
Qed.

(** [m'] maps the [n] pages from [a] to the pages from [pa] and is [m] elsewhere. *)
Definition maps (m m' : bmem) (root a : Z) (n : nat) (pa perm : Z) : Prop :=
  forall va, 0 <= va < MAXVA -> pteof m' root va =
    if decide (vpn a <= vpn va < vpn a + Z.of_nat n)
    then Some (leaf_pte (pa + (vpn va - vpn a) * PGSIZE) perm) else pteof m root va.

Lemma maps_zero m root a pa perm : maps m m root a 0 pa perm.
Proof. intros va _. rewrite decide_False by lia. done. Qed.

Lemma vpn_add a i : a `mod` PGSIZE = 0 -> vpn (a + i * PGSIZE) = vpn a + i.
Proof. intros. unfold vpn. dlia. Qed.

(** One page mapped, then [n] more. *)
Lemma maps_cons m m1 m2 root a n pa perm :
  a `mod` PGSIZE = 0 -> maps m m1 root a 1 pa perm ->
  maps m1 m2 root (a + PGSIZE) n (pa + PGSIZE) perm -> maps m m2 root a (S n) pa perm.
Proof.
  intros Ha H1 H2 va Hva. rewrite (H2 va Hva).
  pose proof (vpn_add a 1 Ha) as E. rewrite Z.mul_1_l in E. rewrite E.
  destruct (decide (vpn a + 1 <= vpn va < vpn a + 1 + Z.of_nat n)) as [D|D].
  - rewrite decide_True by lia. f_equal. f_equal. lia.
  - rewrite (H1 va Hva). destruct (decide (vpn va = vpn a)) as [->|].
    + rewrite !decide_True by lia. done.
    + rewrite !decide_False by lia. done.
Qed.

Lemma map1 k root L l va pa perm :
  vmst k root L l -> 0 <= va < MAXVA -> 0 <= pa < 2 ^ 56 -> 0 <= perm < 1024 ->
  forall a, ptwalk (k_mem k) root va = Some a ->
  maps (k_mem k) (st64 (k_mem k) a (leaf_pte pa perm)) root va 1 pa perm.
Proof.
  intros S Hva Hpa Hp a Ha va' Hva'. destruct (leaf_pte_ok pa perm Hpa Hp) as [Hr Hv].
  rewrite (leaf_pteof _ _ L va a) by (done || apply S). rewrite Hv.
  destruct (decide (vpn va' = vpn va)) as [->|].
  - rewrite decide_True by lia. do 2 f_equal. lia.
  - rewrite decide_False by lia. done.
Qed.

Lemma ptwalk_nonzero m root L va a : pt_wf m root L -> ptwalk m root va = Some a -> 0 < a < 2 ^ 56.
Proof.
  intros WF Ha. destruct (ptwalk_path _ _ _ WF va a Ha) as (q1 & q0 & _ & Q0 & -> & _).
  pose proof (PX_range 0 va ltac:(lia)). destruct (wf_page _ _ _ WF q0 0 Q0) as [P _].
  pose proof (page_ok_pos q0 P). lia.
Qed.

(** One iteration of mappages(). *)
Lemma mappages_iter k root L l a pa perm :
  vmst k root L l -> 0 <= a < MAXVA -> 0 <= pa < 2 ^ 56 -> 0 <= perm < 1024 ->
  pteof (k_mem k) root a = None ->
  exists k1 L1 l1, vmstep root k L l k1 L1 l1 /\
    (length l <= length l1 + 2)%nat /\
    ((l1 = [] /\ (length l < 2)%nat /\ maps (k_mem k) (k_mem k1) root a 0 pa perm /\ forall fuel last,
        mappages_loop (S fuel) root a last pa perm k = Ret (-1) k1) \/
     (maps (k_mem k) (k_mem k1) root a 1 pa perm /\ forall fuel last,
        mappages_loop (S fuel) root a last pa perm k =
        (if a =? last then mret 0
         else mappages_loop fuel root (u64 (a + PGSIZE)) last (u64 (pa + PGSIZE)) perm) k1)).
Proof.
  intros S Ha Hpa Hp Hun.
  destruct (walk_alloc k root L l a Ha S) as (r1 & k1 & L1 & l1 & W & St1 & Hpt & Hc & Hr).
  pose proof (vs_st _ _ _ _ _ _ _ St1) as S1. destruct Hr as [(-> & -> & Hl)|Hr].
  - exists k1, L1, []. split; [exact St1|]. split; [done|]. left. split; [done|]. split; [done|]. split.
    + intros va Hva. rewrite decide_False by lia. apply Hpt.
    + intros fuel last. cbn [mappages_loop]. by mcall W.
  - pose proof (ptwalk_nonzero _ _ _ _ _ (vm_pt _ _ _ _ S1) Hr) as R1.
    rewrite <- Hpt in Hun. unfold pteof in Hun. rewrite Hr in Hun. cbn [mbind option_bind] in Hun.
    destruct (leaf_pte_ok pa perm Hpa Hp) as [Bv _].
    pose proof (leaf_step k1 root L1 l1 a r1 _ S1 Ha Hr Bv) as St2.
    exists (set_k_mem (st64 (k_mem k1) r1 (leaf_pte pa perm)) k1), L1, l1.
    split; [exact (vmstep_trans _ _ _ _ _ _ _ _ _ _ St1 St2)|]. split; [done|]. right. split.
    + intros va Hva. rewrite <- Hpt. by apply (map1 k1 root L1 l1).
    + intros fuel last. cbn [mappages_loop]. mcall W. assert (r1 =? 0 = false) as -> by lia.
      unfold read64, write64. mstep.
      destruct (has (ld64 (k_mem k1) r1) PTE_V) eqn:V; [done|]. by mstep.
Qed.

Lemma mappages_loop_ok n : forall fuel k root L l a pa perm,
  vmst k root L l -> a `mod` PGSIZE = 0 -> 0 <= a -> a + Z.of_nat n * PGSIZE < MAXVA ->
  0 <= pa -> pa + Z.of_nat n * PGSIZE < 2 ^ 56 -> 0 <= perm < 1024 -> (n < fuel)%nat ->
  (forall i, 0 <= i <= Z.of_nat n -> pteof (k_mem k) root (a + i * PGSIZE) = None) ->
  exists r k' L' l' j,
    mappages_loop fuel root a (a + Z.of_nat n * PGSIZE) pa perm k = Ret r k' /\
    vmstep root k L l k' L' l' /\ maps (k_mem k) (k_mem k') root a j pa perm /\
    ((r = 0 /\ j = S n) \/ (r = -1 /\ l' = [] /\ (j <= n)%nat /\ (length l < 2 * S n)%nat)).
Proof.
  induction n as [|n IH]; intros [|fuel] k root L l a pa perm S Ha Ha0 HaN Hpa HpaN Hp Hf Hun; try lia;
    pose proof (Hun 0 ltac:(lia)) as Hn; rewrite Z.add_0_r in Hn;
    destruct (mappages_iter k root L l a pa perm S ltac:(lia) ltac:(lia) Hp Hn)
      as (k1 & L1 & l1 & St & Hl & [(-> & Hl0 & M & E)|[M E]]); rewrite E.
  - exists (-1), k1, L1, [], O. split_and!; try done. right. split_and!; [done|done|lia|lia].
  - change (Z.of_nat 0 * PGSIZE) with 0. rewrite Z.add_0_r, Z.eqb_refl.
    exists 0, k1, L1, l1, 1%nat. split_and!; try done. by left.
  - exists (-1), k1, L1, [], O. split_and!; try done. right. split_and!; [done|done|lia|lia].
  - rewrite (proj2 (Z.eqb_neq a (a + Z.of_nat (Datatypes.S n) * PGSIZE))) by lia.
    rewrite !u64_small by lia.
    assert (a + Z.of_nat (Datatypes.S n) * PGSIZE = a + PGSIZE + Z.of_nat n * PGSIZE) as -> by lia.
    destruct (IH fuel k1 root L1 l1 (a + PGSIZE) (pa + PGSIZE) perm)
      as (r & k' & L' & l' & j & W' & St3 & M3 & Hr3); try lia; [apply St|dlia|..].
    { intros i Hi. rewrite (M (a + PGSIZE + i * PGSIZE)) by lia.
      replace (a + PGSIZE + i * PGSIZE) with (a + (1 + i) * PGSIZE) by lia.
      rewrite vpn_add, decide_False by lia. apply Hun. lia. }
    exists r, k', L', l', (Datatypes.S j). split; [exact W'|].
    split; [exact (vmstep_trans _ _ _ _ _ _ _ _ _ _ St St3)|].
    split; [exact (maps_cons _ _ _ _ _ _ _ _ Ha M M3)|].
    destruct Hr3 as [[-> ->]|(-> & -> & ? & ?)]; [by left|right; split_and!; [done|done|lia|lia]].
Qed.

(** Every page from [va] to [va + size - 1] is unmapped. *)
Definition unmapped (m : bmem) (root va size : Z) : Prop :=
  forall a, va - va `mod` PGSIZE <= a < va + size -> pteof m root a = None.

(** C7: mappages() on a range of unmapped pages below MAXVA either maps exactly
    the [n] pages that contain the range, to consecutive physical pages with the
    given permissions, and returns 0, or returns -1 with the free list empty at
    the return, having mapped a proper prefix of them.  It returns -1 only if
    fewer than [2 * n] pages were free at the call.  In both cases every other
    translation is as before, the page table stays well-formed and disjoint from
    the free list, and no memory outside the page table and the formerly free
    pages changes. *)
Theorem mappages_correct (k : kst) (root : Z) (L : gmap Z Z) (l : list Z) (va size pa perm : Z)
    (S : vmst k root L l) (Hva : 0 <= va) (Hsize : 0 < size) (Hmax : va + size <= MAXVA)
    (Hpa : 0 <= pa) (HpaN : pa + size + PGSIZE < 2 ^ 56) (Hperm : 0 <= perm < 1024)
    (Hun : unmapped (k_mem k) root va size) :
  let n := Z.to_nat (vpn (va + size - 1) - vpn va + 1) in
  exists r k' L' l' j,
    mappages root va size pa perm k = Ret r k' /\
    vmstep root k L l k' L' l' /\
    maps (k_mem k) (k_mem k') root (va - va `mod` PGSIZE) j pa perm /\
    ((r = 0 /\ j = n) \/ (r = -1 /\ l' = [] /\ (j < n)%nat /\ (length l < 2 * n)%nat)).
Proof.
  intros n. unfold mappages. assert (size =? 0 = false) as -> by lia.
  rewrite (u64_small (va + size - 1)), !PGROUNDDOWN_eq by lia.
  set (a := va - va `mod` PGSIZE) in *. set (d := Nat.pred n).
  assert (va + size - 1 - (va + size - 1) `mod` PGSIZE = a + Z.of_nat d * PGSIZE) as ->.
  { unfold a, d, n, vpn. dlia. }
  assert (0 <= a /\ a `mod` PGSIZE = 0 /\ vpn a = vpn va /\ va - PGSIZE < a) as (Ha & Hal & Hv & _).
  { unfold a, vpn. dlia. }
  assert (a + Z.of_nat d * PGSIZE <= va + size - 1) as Hd by (unfold a, d, n, vpn; dlia).
  assert (Z.of_nat d * PGSIZE < size + PGSIZE) by (unfold a in *; dlia).
  destruct (mappages_loop_ok d (Datatypes.S (Z.to_nat (u64 (a + Z.of_nat d * PGSIZE - a) / PGSIZE)))
              k root L l a pa perm S) as (r & k' & L' & l' & j & W & St & M & Hr); try lia; try done.
  { rewrite u64_small by lia. replace (a + Z.of_nat d * PGSIZE - a) with (Z.of_nat d * PGSIZE) by lia.
    rewrite Z.div_mul by lia. lia. }
  { intros i Hi. apply Hun. unfold a in *. lia. }
  exists r, k', L', l', j. split; [exact W|]. split; [exact St|]. split; [exact M|].
  assert (n = Datatypes.S d) as En by (unfold d, n, vpn; dlia). rewrite En.
  destruct Hr as [[-> ->]|(-> & -> & Hj & Hl)]; [by left|right; split_and!; [done|done|lia|lia]].
Qed.

(** ** Memory outside the page table *)

Lemma outside_slot m m' root L q lq i :
  pt_wf m root L ->
  (forall a q lq, L !! q = Some lq -> q <= a < q + PGSIZE -> ld8 m' a = ld8 m a) ->
  L !! q = Some lq -> 0 <= i < 512 -> ld64 m' (q + 8 * i) = ld64 m (q + 8 * i).
Proof. intros WF H Hq Hi. apply ld64_ext. intros b Hb. apply (H b q lq Hq). lia. Qed.

(** Writes outside the page-table pages keep the table and its map. *)
Lemma outside_wf m m' root L :
  pt_wf m root L ->
  (forall a q lq, L !! q = Some lq -> q <= a < q + PGSIZE -> ld8 m' a = ld8 m a) ->
  pt_wf m' root L /\ (forall va, ptwalk m' root va = ptwalk m root va) /\
  (forall va, pteof m' root va = pteof m root va).
Proof.
  intros WF H. pose proof (fun q lq i => outside_slot m m' root L q lq i WF H) as E.
  assert (forall va, ptwalk m' root va = ptwalk m root va) as W.
  { intros va. unfold ptwalk, pte_at.
    pose proof (PX_range 2 va ltac:(lia)) as R2. pose proof (PX_range 1 va ltac:(lia)) as R1.
    rewrite (E root 2) by (done || apply WF).
    destruct (has (ld64 m (root + 8 * PX 2 va)) PTE_V) eqn:V2; [|done].
    destruct (wf_down _ _ _ WF root 2 _ (wf_root _ _ _ WF) ltac:(lia) R2 V2) as (p1 & -> & L1).
    destruct (wf_page _ _ _ WF p1 _ L1) as [P1 _]. destruct (node_pte p1 P1) as [-> _].
    by rewrite (E p1 1). }
  split; [constructor; try apply WF|split; [exact W|]].
  - intros p l i Hp Hl Hi. rewrite (E p l) by done. by apply (wf_down _ _ _ WF).
  - intros p l i p' l' i' q Hp Hp' Hl Hl' Hi Hi'. rewrite (E p l), (E p' l') by done.
    by apply (wf_tree _ _ _ WF p l i p' l' i' q).
  - intros q l Hq Hne. destruct (wf_up _ _ _ WF q l Hq Hne) as (p & i & Hp & Hi & Ei). exists p, i. by rewrite (E p (l + 1)).
  - intros i Hi. rewrite (E root 2) by (lia || apply WF). by apply (wf_low _ _ _ WF).
  - intros va. unfold pteof. rewrite W. destruct (ptwalk m root va) as [a|] eqn:Ha; [|done].
    cbn [mbind option_bind].
    destruct (ptwalk_path _ _ _ WF va a Ha) as (q1 & q0 & _ & Q0 & -> & _).
    rewrite (E q0 0) by (done || (apply PX_range; lia)). done.
Qed.

(** The state after kfree(). *)
Definition kfreed (k : kst) (pa : Z) : kst :=
  set_k_mem (st64 (memset (k_mem k) pa 1 (Z.to_nat PGSIZE)) pa (k_freelist k)) (set_k_freelist pa k).

Lemma kfreed_same k pa : same_but_page pa (k_mem k) (k_mem (kfreed k pa)).
Proof.
  intros a Ha. unfold kfreed. ksimpl. rewrite ld8_st64_out by lia. by apply same_but_page_memset.
Qed.

(** Freeing a user page keeps the page table. *)
Lemma kfreed_vmst k root L l pa :
  vmst k root L l -> page_ok pa -> pa ∉ l -> L !! pa = None ->
  vmst (kfreed k pa) root L (pa :: l) /\
  (forall va, ptwalk (k_mem (kfreed k pa)) root va = ptwalk (k_mem k) root va) /\
  (forall va, pteof (k_mem (kfreed k pa)) root va = pteof (k_mem k) root va).
Proof.
  intros S Hp Hl HL.
  destruct (outside_wf (k_mem k) (k_mem (kfreed k pa)) root L (vm_pt _ _ _ _ S)) as (WF & W & P).
  { intros a q lq Hq Ha. apply kfreed_same. assert (q <> pa) as Hne by congruence.
    destruct (wf_page _ _ _ (vm_pt _ _ _ _ S) q lq Hq) as [Pq _].
    destruct (page_disjoint q pa Pq Hp Hne); lia. }
  split; [|done]. constructor; try apply S; [by apply kmem_inv_kfree; [apply S|..]|done|].
  intros q [->|Hq]%elem_of_cons; [done|by apply (vm_disj _ _ _ _ S)].
Qed.

(** Pages that uvmunmap() may free: user pages, not free and not in the table. *)
Definition user_page (L : gmap Z Z) (l : list Z) (pa : Z) : Prop :=
  page_ok pa /\ pa ∉ l /\ L !! pa = None.

(** [m'] is [m] without the [n] pages from [a]. *)
Definition unmaps (m m' : bmem) (root a : Z) (n : nat) : Prop :=
  forall va, 0 <= va < MAXVA -> pteof m' root va =
    if decide (vpn a <= vpn va < vpn a + Z.of_nat n) then None else pteof m root va.

(** What one iteration of uvmunmap() does. *)
Lemma uvmunmap_iter k root L l a v (do_free : bool) :
  vmst k root L l -> 0 <= a < MAXVA -> pteof (k_mem k) root a = Some v -> PTE_FLAGS v <> PTE_V ->
  (do_free = true -> user_page L l (PTE2PA v)) ->
  exists k1, let l1 := if do_free then PTE2PA v :: l else l in
    vmst k1 root L l1 /\ unmaps (k_mem k) (k_mem k1) root a 1 /\
    k1 = set_k_mem (k_mem k1) (set_k_freelist (k_freelist k1) k) /\
    (forall b, ~ owned L l1 b -> ld8 (k_mem k1) b = ld8 (k_mem k) b) /\
    forall fuel a_end, a < a_end ->
      uvmunmap_loop (S fuel) root a a_end do_free k =
      uvmunmap_loop fuel root (u64 (a + PGSIZE)) a_end do_free k1.
Proof.
  intros S Ha Hv Hfl Hu. unfold pteof in Hv.
  destruct (ptwalk (k_mem k) root a) as [s|] eqn:W; [|done]. cbn [mbind option_bind] in Hv.
  destruct (has (ld64 (k_mem k) s) PTE_V) eqn:V; [|done]. injection Hv as Ev.
  pose proof (ptwalk_nonzero _ _ _ _ _ (vm_pt _ _ _ _ S) W) as Rs.
  set (k0 := if do_free then kfreed k (PTE2PA v) else k). intros.
  assert (vmst k0 root L (if do_free then PTE2PA v :: l else l) /\
    (forall va, ptwalk (k_mem k0) root va = ptwalk (k_mem k) root va) /\
    (forall va, pteof (k_mem k0) root va = pteof (k_mem k) root va)) as (S0 & W0 & P0).
  { unfold k0. destruct do_free; [|done]. destruct (Hu eq_refl) as (? & ? & ?). by apply kfreed_vmst. }
  rewrite <- W0 in W.
  pose proof (leaf_step k0 root L _ a s 0 S0 Ha W ltac:(lia)) as St.
  exists (set_k_mem (st64 (k_mem k0) s 0) k0). cbv zeta. split; [apply St|]. split; [|split; [|split]].
  - intros va Hva. ksimpl. rewrite (leaf_pteof _ _ L a s 0) by (done || apply S0). rewrite has_zero, P0.
    destruct (decide (vpn va = vpn a)) as [->|].
    + rewrite decide_True by lia. done.
    + rewrite decide_False by lia. done.
  - unfold k0, kfreed. destruct do_free; [done|]. by destruct k.
  - intros b Hb. rewrite (vs_mem _ _ _ _ _ _ _ St b Hb). unfold k0. destruct do_free; [|done].
    apply kfreed_same. intros Hr. apply Hb. exists (PTE2PA v). split; [right; by left|done].
  - intros fuel a_end Hlt. cbn [uvmunmap_loop]. assert (a <? a_end = true) as -> by lia. cbn [negb].
    mcall (walk_find root a k ltac:(lia)). rewrite <- W0, W. change (default 0 (Some s)) with s.
    assert (s =? 0 = false) as -> by lia. unfold read64, write64. mstep. rewrite V, Ev. cbn [negb].
    assert (PTE_FLAGS v =? PTE_V = false) as -> by lia. unfold k0. destruct do_free; cbn [when]; mstep.
    + mcall (kfree_ok k (PTE2PA v) (vm_hart _ _ _ _ S) (vm_lock _ _ _ _ S) (proj1 (Hu eq_refl))). by mstep.
    + done.
Qed.

(** The free list after unmapping the pages [vs] in order. *)
Definition after_unmap (do_free : bool) (vs l : list Z) : list Z :=
  if do_free then rev (PTE2PA <$> vs) ++ l else l.

Lemma after_unmap_cons do_free v vs l :
  after_unmap do_free (v :: vs) l = after_unmap do_free vs (if do_free then PTE2PA v :: l else l).
Proof. destruct do_free; [|done]. cbn. by rewrite <- app_assoc. Qed.

Lemma after_unmap_mono do_free vs l q : q ∈ l -> q ∈ after_unmap do_free vs l.
Proof. destruct do_free; [|done]. intros. apply elem_of_app. by right. Qed.

Lemma uvmunmap_loop_ok vs : forall fuel k root L l a (do_free : bool),
  vmst k root L l -> a `mod` PGSIZE = 0 -> 0 <= a -> a + Z.of_nat (length vs) * PGSIZE <= MAXVA ->
  (length vs < fuel)%nat ->
  (forall i v, vs !! i = Some v -> pteof (k_mem k) root (a + Z.of_nat i * PGSIZE) = Some v /\
     PTE_FLAGS v <> PTE_V /\ (do_free = true -> user_page L l (PTE2PA v))) ->
  NoDup (PTE2PA <$> vs) ->
  exists k', let l' := after_unmap do_free vs l in
    uvmunmap_loop fuel root a (a + Z.of_nat (length vs) * PGSIZE) do_free k = Ret tt k' /\
    vmst k' root L l' /\ unmaps (k_mem k) (k_mem k') root a (length vs) /\
    k' = set_k_mem (k_mem k') (set_k_freelist (k_freelist k') k) /\
    (forall b, ~ owned L l' b -> ld8 (k_mem k') b = ld8 (k_mem k) b).
Proof.
  induction vs as [|v vs IH]; intros [|fuel] k root L l a do_free S Hal Ha HaN Hf Hvs Hnd; simpl in Hf; try lia.
  { exists k. cbv zeta. cbn [length uvmunmap_loop]. change (Z.of_nat 0 * PGSIZE) with 0.
    rewrite Z.add_0_r, Z.ltb_irrefl. split; [done|]. split; [by destruct do_free|].
    split; [intros va _; by rewrite decide_False by lia|]. split; [by destruct k|done]. }
  cbn [length] in *. destruct (Hvs O v eq_refl) as (Hv & Hfl & Hu). change (Z.of_nat 0 * PGSIZE) with 0 in Hv.
  rewrite Z.add_0_r in Hv.
  destruct (uvmunmap_iter k root L l a v do_free S ltac:(lia) Hv Hfl Hu) as (k1 & S1 & U1 & E1 & F1 & W1).
  apply NoDup_cons in Hnd as [Hnin Hnd].
  set (l1 := if do_free then PTE2PA v :: l else l) in *.
  destruct (IH fuel k1 root L l1 (a + PGSIZE) do_free S1) as (k' & W & S' & U & E & F); try lia; try done.
  { dlia. }
  { intros i w Hw. destruct (Hvs (Datatypes.S i) w Hw) as (Hpw & Hflw & Huw). pose proof (lookup_lt_Some _ _ _ Hw).
    split; [|split; [done|]].
    - rewrite (U1 (a + PGSIZE + Z.of_nat i * PGSIZE)) by lia.
      replace (a + PGSIZE + Z.of_nat i * PGSIZE) with (a + Z.of_nat (Datatypes.S i) * PGSIZE) by lia.
      rewrite vpn_add, decide_False by lia. exact Hpw.
    - intros Hdf. destruct (Huw Hdf) as (? & ? & ?). split; [done|]. split; [|done].
      unfold l1. rewrite Hdf. apply not_elem_of_cons. split; [|done]. intros Heq. apply Hnin.
      apply list_elem_of_fmap. exists w. split; [done|]. by apply list_elem_of_lookup_2 in Hw. }
  exists k'. cbv zeta. rewrite after_unmap_cons. fold l1.
  rewrite W1 by lia. rewrite u64_small by lia.
  replace (a + Z.of_nat (Datatypes.S (length vs)) * PGSIZE) with (a + PGSIZE + Z.of_nat (length vs) * PGSIZE) by lia.
  split; [exact W|]. split; [exact S'|]. split; [|split].
  - intros va Hva. rewrite (U va Hva). pose proof (vpn_add a 1 Hal) as V1. rewrite Z.mul_1_l in V1. rewrite V1.
    rewrite (U1 va Hva). repeat destruct (decide _); try done; lia.
  - rewrite E. rewrite E1 at 1. by destruct k.
  - intros b Hb. rewrite (F b Hb). apply F1. intros (q & Hq & Hr). apply Hb. exists q.
    split; [|done]. destruct Hq; [by left|right; by apply after_unmap_mono].
Qed.

(** C8: uvmunmap() of mapped leaf pages removes exactly those translations, pushes
    the physical pages on the free list in order when do_free is set, and leaves
    every other translation and all other memory unchanged.  A misaligned address
    panics. *)
Theorem uvmunmap_correct (k : kst) (root : Z) (L : gmap Z Z) (l vs : list Z) (va : Z) (do_free : bool)
    (S : vmst k root L l) (Hva : 0 <= va) (Hmax : va + Z.of_nat (length vs) * PGSIZE <= MAXVA)
    (Hvs : forall i v, vs !! i = Some v -> pteof (k_mem k) root (va + Z.of_nat i * PGSIZE) = Some v /\
       PTE_FLAGS v <> PTE_V /\ (do_free = true -> user_page L l (PTE2PA v)))
    (Hnd : NoDup (PTE2PA <$> vs)) :
  if decide (va `mod` PGSIZE = 0) then
    exists k', let l' := after_unmap do_free vs l in
      uvmunmap root va (Z.of_nat (length vs)) do_free k = Ret tt k' /\
      vmst k' root L l' /\ unmaps (k_mem k) (k_mem k') root va (length vs) /\
      k' = set_k_mem (k_mem k') (set_k_freelist (k_freelist k') k) /\
      (forall b, ~ owned L l' b -> ld8 (k_mem k') b = ld8 (k_mem k) b)
  else uvmunmap root va (Z.of_nat (length vs)) do_free k = Panic "uvmunmap: not aligned".
Proof.
  unfold uvmunmap. destruct (decide (va `mod` PGSIZE = 0)) as [Hal|Hal].
  - assert (va `mod` PGSIZE =? 0 = true) as -> by lia. cbn [negb].
    rewrite u64_small, Nat2Z.id by lia. apply uvmunmap_loop_ok; try done. lia.
  - assert (va `mod` PGSIZE =? 0 = false) as -> by lia. done.
Qed.

End pagetable.

(** ** A concrete page table, for evaluation *)

Definition page_no (n : Z) : Z := KERNBASE + 0x22000 + n * PGSIZE.

(** An empty page table at page 0; pages 1 and 2 are free. *)
Definition pt_empty : kst :=
  set_k_mem (st64 ∅ (page_no 1) (page_no 2)) (set_k_freelist (page_no 1) boot_state).

Lemma page_no_ok n : 0 <= n < 16 -> page_ok (page_no n).
Proof. intros. unfold page_ok, page_no. cbn [kend demo_image]. dlia. Qed.

Lemma pt_empty_zero a : a + 8 <= page_no 1 -> ld64 (k_mem pt_empty) a = 0.
Proof. intros. unfold pt_empty. ksimpl. rewrite ld64_st64_disj by lia. by apply ld64_zero. Qed.

Lemma pt_empty_vmst : vmst pt_empty (page_no 0) {[page_no 0 := 2]} [page_no 1; page_no 2].
Proof.
  constructor.
  - apply hart_ok_boot.
  - done.
  - split.
    + split; [done|]. split; [by apply page_no_ok|]. unfold pt_empty. ksimpl.
      rewrite ld64_st64_same. split; [by vm_compute|]. split; [by apply page_no_ok|].
      rewrite ld64_st64_disj by (unfold page_no; lia). by apply ld64_zero.
    + apply NoDup_cons. split; [|apply NoDup_singleton]. rewrite list_elem_of_singleton.
      unfold page_no. lia.
  - assert (forall i, 0 <= i < 512 -> ld64 (k_mem pt_empty) (page_no 0 + 8 * i) = 0) as Z0.
    { intros i Hi. apply pt_empty_zero. unfold page_no. lia. }
    constructor.
    + apply lookup_singleton_eq.
    + intros p l [<- <-]%lookup_singleton_Some. split; [by apply page_no_ok|lia].
    + intros p l i [<- <-]%lookup_singleton_Some _ Hi. by rewrite Z0.
    + intros p l i p' l' i' q [<- <-]%lookup_singleton_Some _ _ _ Hi _ E _ [<- _]%lookup_singleton_Some.
      rewrite Z0 in E by done. by vm_compute in E.
    + intros q l [<- _]%lookup_singleton_Some. done.
    + intros i Hi. by rewrite Z0 by lia.
  - intros q Hq. apply lookup_singleton_ne. intros <-.
    rewrite elem_of_cons, list_elem_of_singleton in Hq. unfold page_no in Hq. lia.
Qed.

Lemma pt_empty_pteof va : pteof (k_mem pt_empty) (page_no 0) va = None.
Proof.
  unfold pteof, ptwalk, pte_at. pose proof (PX_range 2 va ltac:(lia)).
  rewrite pt_empty_zero by (unfold page_no; lia). done.
Qed.

Lemma mappages_correct_witness :
  exists r k' L' l' j, mappages (page_no 0) 0 PGSIZE (page_no 3) 22 pt_empty = Ret r k' /\
    vmst k' (page_no 0) L' l' /\ maps (k_mem pt_empty) (k_mem k') (page_no 0) 0 j (page_no 3) 22.
Proof.
  destruct (mappages_correct pt_empty (page_no 0) {[page_no 0 := 2]} [page_no 1; page_no 2] 0 PGSIZE
    (page_no 3) 22 pt_empty_vmst) as (r & k' & L' & l' & j & H1 & H2 & H3 & _);
    try (unfold page_no; lia).
  { intros a _. apply pt_empty_pteof. }
  exists r, k', L', l', j. split; [exact H1|]. split; [apply H2 | exact H3].
Defined.

(** The same table with user page 3 mapped at virtual address 0. *)
Definition pt_one : kst :=
  match mappages (page_no 0) 0 PGSIZE (page_no 3) 22 pt_empty with Ret _ k => k | _ => pt_empty end.

Lemma pt_one_ok : exists L l,
  vmst pt_one (page_no 0) L l /\ user_page L l (page_no 3) /\
  forall va, 0 <= va < MAXVA -> pteof (k_mem pt_one) (page_no 0) va =
    if decide (vpn va = 0) then Some (leaf_pte (page_no 3) 22) else None.
Proof.
  destruct (mappages_iter pt_empty (page_no 0) _ _ 0 (page_no 3) 22 pt_empty_vmst)
    as (k1 & L1 & l1 & St & _ & [(_ & Hl & _)|[M E]]); try (unfold page_no; lia).
  { apply pt_empty_pteof. }
  { simpl in Hl. lia. }
  assert (pt_one = k1) as ->.
  { unfold pt_one, mappages. change (PGSIZE =? 0) with false. cbv iota.
    change (PGROUNDDOWN 0) with 0. change (PGROUNDDOWN (u64 (0 + PGSIZE - 1))) with 0.
    by rewrite E. }
  exists L1, l1. split; [apply St|]. split.
  - split; [by apply page_no_ok|].
    assert (page_no 3 ∉ [page_no 1; page_no 2]) as H3.
    { rewrite elem_of_cons, list_elem_of_singleton. unfold page_no. lia. }
    split; [intros H; by apply H3, (vs_l _ _ _ _ _ _ _ St)|].
    apply eq_None_not_Some. intros [H%lookup_singleton_is_Some|H]%(vs_new _ _ _ _ _ _ _ St); [|done].
    unfold page_no in H. lia.
  - intros va Hva. rewrite (M va Hva), pt_empty_pteof. change (vpn 0) with 0.
    destruct (decide (vpn va = 0)) as [->|]; [by rewrite decide_True by lia|].
    rewrite decide_False by lia. done.
Qed.

Lemma uvmunmap_correct_witness :
  exists L l k', vmst pt_one (page_no 0) L l /\
    uvmunmap (page_no 0) 0 1 true pt_one = Ret tt k' /\ vmst k' (page_no 0) L (page_no 3 :: l) /\
    pteof (k_mem k') (page_no 0) 0 = None.
Proof.
  destruct pt_one_ok as (L & l & S & U & P).
  assert (PTE2PA (leaf_pte (page_no 3) 22) = page_no 3) as E3 by reflexivity.
  pose proof (uvmunmap_correct pt_one (page_no 0) L l [leaf_pte (page_no 3) 22] 0 true S) as H.
  cbv iota in H. destruct H as (k' & W & S' & UM & _).
  - lia.
  - simpl. lia.
  - intros i v Hv. destruct i as [|i]; [|done]. injection Hv as <-.
    split; [by rewrite P by (simpl; lia)|]. split; [by vm_compute|]. intros _. by rewrite E3.
  - apply NoDup_singleton.
  - exists L, l, k'. split; [exact S|]. split; [exact W|].
    split; [rewrite <- E3; exact S'|]. rewrite (UM 0) by lia. done.
Defined.

#[global] Opaque pt_one.
