(* ===== verification/UserMem.v ===== *)
(** User memory as seen through a page table: walkaddr(), copyin(), copyout() and
    copyinstr() of kernel/vm.c against byte-by-byte reference definitions. *)

From Stdlib Require Import ZArith Lia.
From stdpp Require Import base gmap strings list numbers.
From S2P Require Import Prelude Params State Spinlock CString Kalloc Vm PageTable.

Open Scope Z_scope.

#[local] Opaque memset st64 ld64 stn.

(** ** Translation of user addresses *)

(** The physical page of a user-accessible virtual page. *)
Definition upage (m : bmem) (root va : Z) : option Z :=
  if MAXVA <=? va then None else
  v ← pteof m root va;
  if negb (has v PTE_U) then None else
  if PTE2PA v =? 0 then None else Some (PTE2PA v).

Definition uaddr (m : bmem) (root va : Z) : option Z :=
  pa ← upage m root va;
  Some (pa + va `mod` PGSIZE).

Definition ubyte (m : bmem) (root va : Z) : option Z := ld8 m <$> uaddr m root va.

(** [n] user bytes from [va], if they are all accessible. *)
Fixpoint uread (m : bmem) (root va : Z) (n : nat) : option (list Z) :=
  match n with
  | O => Some []
  | S n =>
      b ← ubyte m root va;
      bs ← uread m root (va + 1) n;
      Some (b :: bs)
  end.

(** The nul-terminated string at [va], if it ends within [max] accessible bytes. *)
Fixpoint ustr (m : bmem) (root va : Z) (max : nat) : option (list Z) :=
  match max with
  | O => None
  | S max =>
      b ← ubyte m root va;
      if b =? 0 then Some [0] else
      s ← ustr m root (va + 1) max;
      Some (b :: s)
  end.

Section usermem.
Context `{KI : KernelImage}.

Lemma walkaddr_eq root L va k :
  pt_wf (k_mem k) root L -> walkaddr root va k = Ret (default 0 (upage (k_mem k) root va)) k.
Proof.
  intros WF. unfold walkaddr, upage. destruct (MAXVA <=? va) eqn:E; [done|].
  mcall (walk_find root va k ltac:(lia)). unfold pteof.
  destruct (ptwalk (k_mem k) root va) as [a|] eqn:Ha; [|done].
  pose proof (ptwalk_nonzero _ _ _ _ _ WF Ha) as Ra.
  change (default 0 (Some a)) with a. cbn [mbind option_bind].
  assert (a =? 0 = false) as -> by lia.
  unfold read64. mstep. destruct (has (ld64 (k_mem k) a) PTE_V); [|done]. cbn [negb mbind option_bind].
  destruct (has (ld64 (k_mem k) a) PTE_U); [|done]. cbn [negb].
  destruct (PTE2PA (ld64 (k_mem k) a) =? 0) eqn:Ep; [|done].
  apply Z.eqb_eq in Ep. by rewrite Ep.
Qed.

Lemma upage_some m root va pa : upage m root va = Some pa -> va < MAXVA /\ pa <> 0.
Proof.
  unfold upage. destruct (MAXVA <=? va) eqn:E; [done|].
  destruct (pteof m root va) as [v|]; [|done]. cbn [mbind option_bind].
  destruct (has v PTE_U); [|done]. destruct (PTE2PA v =? 0) eqn:E0; [done|]. intros [= <-]. lia.
Qed.

(** All addresses of a virtual page have the same physical page. *)
Lemma upage_vpn m root va va' : vpn va = vpn va' -> upage m root va = upage m root va'.
Proof.
  intros E. unfold upage. rewrite (pteof_vpn m root va va' E).
  replace (MAXVA <=? va') with (MAXVA <=? va); [done|].
  unfold vpn in E. destruct (MAXVA <=? va) eqn:E1, (MAXVA <=? va') eqn:E2; dlia.
Qed.

Lemma uread_app m root va n n' :
  uread m root va (n + n') =
  (bs ← uread m root va n; bs' ← uread m root (va + Z.of_nat n) n'; Some (bs ++ bs')).
Proof.
  revert va. induction n as [|n IH]; intros va; cbn [Nat.add uread].
  - cbn [mbind option_bind]. rewrite Z.add_0_r. by destruct (uread m root va n').
  - destruct (ubyte m root va) as [b|]; [|done]. cbn [mbind option_bind]. rewrite IH.
    replace (va + 1 + Z.of_nat n) with (va + Z.of_nat (S n)) by lia.
    destruct (uread m root (va + 1) n); [|done]. cbn [mbind option_bind].
    by destruct (uread m root (va + Z.of_nat (S n)) n').
Qed.

Lemma uread_split m root va n' n : (n' <= n)%nat ->
  uread m root va n =
  (bs ← uread m root va n'; bs' ← uread m root (va + Z.of_nat n') (n - n'); Some (bs ++ bs')).
Proof. intros. rewrite <- uread_app. f_equal. lia. Qed.

(** Within a page the user bytes are consecutive physical bytes. *)
Lemma uread_page m root va pa n :
  upage m root va = Some pa -> va `mod` PGSIZE + Z.of_nat n <= PGSIZE ->
  uread m root va n = Some (ldn m (pa + va `mod` PGSIZE) n).
Proof.
  revert va. induction n as [|n IH]; intros va Hp Hn; [done|]. cbn [uread].
  unfold ubyte, uaddr. rewrite Hp. cbn [mbind option_bind fmap option_map option_fmap].
  rewrite ldn_S. destruct (decide (n = O)) as [->|Hn0]; [done|].
  assert (vpn (va + 1) = vpn va /\ (va + 1) `mod` PGSIZE = va `mod` PGSIZE + 1) as [Ev Em].
  { unfold vpn. dlia. }
  rewrite (IH (va + 1)); [|by rewrite (upage_vpn m root (va + 1) va)|lia].
  cbn [mbind option_bind]. rewrite Em. do 3 f_equal. lia.
Qed.

Lemma uread_none m root va n : upage m root va = None -> uread m root va (S n) = None.
Proof. intros H. cbn [uread]. unfold ubyte, uaddr. by rewrite H. Qed.

(** The number of bytes one iteration of the copy loops handles. *)
Lemma chunk_eq va (n : nat) : 0 <= va -> (0 < n)%nat ->
  let c := Z.to_nat (Z.min (PGSIZE - (va - PGROUNDDOWN va)) (Z.of_nat n)) in
  va - PGROUNDDOWN va = va `mod` PGSIZE /\ (0 < c <= n)%nat /\ va `mod` PGSIZE + Z.of_nat c <= PGSIZE /\
  (c = n \/ PGROUNDDOWN va + PGSIZE = va + Z.of_nat c).
Proof. intros Hva Hn. cbv zeta. rewrite PGROUNDDOWN_eq by lia. dlia. Qed.

Lemma copyin_loop_ok root L k (WF : pt_wf (k_mem k) root L) fuel : forall got va n,
  0 <= va -> (n < fuel)%nat ->
  match uread (k_mem k) root va n with
  | Some bs => copyin_loop fuel root got va n k = Ret (0, got ++ bs) k
  | None => exists pre, copyin_loop fuel root got va n k = Ret (-1, got ++ pre) k
  end.
Proof.
  induction fuel as [|fuel IH]; intros got va n Hva Hn; [lia|].
  destruct n as [|n]; [cbn; by rewrite app_nil_r|]. cbn [copyin_loop].
  destruct (chunk_eq va (S n) Hva ltac:(lia)) as (Eo & Hc & Hpg & Hnext). rewrite Eo in *.
  remember (Z.to_nat (Z.min (PGSIZE - va `mod` PGSIZE) (Z.of_nat (S n)))) as c eqn:Ec. clear Ec.
  mcall (walkaddr_eq root L (PGROUNDDOWN va) k WF).
  rewrite (upage_vpn _ _ (PGROUNDDOWN va) va) by (rewrite PGROUNDDOWN_eq by lia; unfold vpn; dlia).
  destruct (upage (k_mem k) root va) as [pa|] eqn:Hp.
  2: { rewrite uread_none by done. exists []. by rewrite app_nil_r. }
  change (default 0 (Some pa)) with pa. destruct (upage_some _ _ _ _ Hp) as [Hmax Hpa].
  assert (pa =? 0 = false) as -> by lia. unfold read_bytes. mstep.
  rewrite (uread_split _ _ _ c) by lia. rewrite (uread_page _ _ _ _ _ Hp Hpg). cbn [mbind option_bind].
  destruct Hnext as [->|En].
  - rewrite Nat.sub_diag. cbn [uread mbind option_bind]. rewrite app_nil_r.
    destruct fuel; [lia|]. cbn [copyin_loop]. done.
  - rewrite En, u64_small by dlia.
    specialize (IH (got ++ ldn (k_mem k) (pa + va `mod` PGSIZE) c) (va + Z.of_nat c) (S n - c)%nat
                  ltac:(lia) ltac:(lia)).
    destruct (uread (k_mem k) root (va + Z.of_nat c) (S n - c)) as [bs|]; cbn [mbind option_bind].
    + rewrite IH. by rewrite <- app_assoc.
    + destruct IH as [pre IH]. rewrite IH. eexists. by rewrite <- app_assoc.
Qed.

(** C27: copyin() is the byte-by-byte read of user memory through the page table: it
    returns 0 and the bytes when all of them are mapped for the user, -1 when one
    is not, and changes nothing. *)
Theorem copyin_correct (k : kst) (root : Z) (L : gmap Z Z) (srcva : Z) (len : nat)
    (WF : pt_wf (k_mem k) root L) (Hva : 0 <= srcva) :
  match uread (k_mem k) root srcva len with
  | Some bs => copyin root srcva len k = Ret (0, bs) k
  | None => exists pre, copyin root srcva len k = Ret (-1, pre) k
  end.
Proof. apply (copyin_loop_ok root L k WF (S len) [] srcva len); [done|lia]. Qed.

(** ** Writing user memory *)

(** A user address space: its pages are aligned, not shared between two virtual
    pages, and none is a page-table page. *)
Record uspace (m : bmem) (root : Z) (L : gmap Z Z) : Prop := USpace {
  us_wf : pt_wf m root L;
  us_page : forall va pa, 0 <= va -> upage m root va = Some pa -> pa `mod` PGSIZE = 0;
  us_out : forall va pa q lq, 0 <= va -> upage m root va = Some pa -> L !! q = Some lq ->
    q + PGSIZE <= pa \/ pa + PGSIZE <= q;
  us_inj : forall va va' pa, 0 <= va -> 0 <= va' ->
    upage m root va = Some pa -> upage m root va' = Some pa -> vpn va = vpn va' }.

(** A write inside one user page. *)
Section page_write.
Context (m : bmem) (root : Z) (L : gmap Z Z) (va pa : Z) (bs : list Z).
Hypothesis U : uspace m root L.
Hypothesis Hva : 0 <= va.
Hypothesis Hp : upage m root va = Some pa.
Hypothesis Hn : va `mod` PGSIZE + Z.of_nat (length bs) <= PGSIZE.
Hypothesis Hb : Forall byte_ok bs.
Let m' := stn m (pa + va `mod` PGSIZE) bs.

Lemma page_write_upage va' : upage m' root va' = upage m root va'.
Proof.
  destruct (outside_wf m m' root L (us_wf _ _ _ U)) as (_ & _ & P).
  { intros a q lq Hq Ha. unfold m'. rewrite ld8_stn, decide_False; [done|].
    destruct (us_out _ _ _ U va pa q lq Hva Hp Hq); dlia. }
  unfold upage. by rewrite P.
Qed.

Lemma page_write_uspace : uspace m' root L.
Proof.
  destruct (outside_wf m m' root L (us_wf _ _ _ U)) as (W & _ & _).
  { intros a q lq Hq Ha. unfold m'. rewrite ld8_stn, decide_False; [done|].
    destruct (us_out _ _ _ U va pa q lq Hva Hp Hq); dlia. }
  constructor; [exact W|..].
  - intros va' pa'. rewrite page_write_upage. apply U.
  - intros va' pa' q lq. rewrite page_write_upage. apply U.
  - intros v1 v2 p. rewrite !page_write_upage. apply U.
Qed.

Lemma page_write_ubyte va' : 0 <= va' ->
  ubyte m' root va' =
  if decide (va <= va' < va + Z.of_nat (length bs)) then bs !! Z.to_nat (va' - va) else ubyte m root va'.
Proof.
  intros Hva'. unfold ubyte, uaddr. rewrite page_write_upage.
  destruct (decide (vpn va' = vpn va)) as [E|N].
  - rewrite (upage_vpn m root va' va E), Hp. cbn [mbind option_bind fmap option_map option_fmap].
    unfold m'. rewrite ld8_stn. unfold vpn in E.
    destruct (decide (va <= va' < va + Z.of_nat (length bs))) as [D|D].
    + rewrite decide_True by dlia.
      replace (pa + va' `mod` PGSIZE - (pa + va `mod` PGSIZE)) with (va' - va) by dlia.
      destruct (lookup_lt_is_Some_2 bs (Z.to_nat (va' - va)) ltac:(lia)) as [b Eb].
      rewrite (list_lookup_total_correct _ _ _ Eb), Eb. f_equal. apply u8_small. by eapply Forall_lookup_1 in Hb.
    + rewrite decide_False by dlia. done.
  - rewrite decide_False by (unfold vpn in N; dlia).
    destruct (upage m root va') as [pa'|] eqn:Hp'; [|done].
    cbn [mbind option_bind fmap option_map option_fmap]. unfold m'. rewrite ld8_stn, decide_False; [done|].
    assert (pa' <> pa) as Hne.
    { intros ->. apply N. by apply (us_inj _ _ _ U va' va pa). }
    pose proof (us_page _ _ _ U va pa Hva Hp). pose proof (us_page _ _ _ U va' pa' Hva' Hp'). dlia.
Qed.

(** Memory that is not in a user page is unchanged. *)
Lemma page_write_other a : (forall v, 0 <= v -> uaddr m root v <> Some a) -> ld8 m' a = ld8 m a.
Proof.
  intros Ha. unfold m'. rewrite ld8_stn, decide_False; [done|]. intros Hr.
  apply (Ha (va - va `mod` PGSIZE + (a - pa)) ltac:(dlia)). unfold uaddr.
  rewrite (upage_vpn m root _ va) by (unfold vpn; dlia). rewrite Hp. cbn [mbind option_bind].
  f_equal. dlia.
Qed.

End page_write.

(** Every one of [n] bytes from [va] is mapped for the user. *)
Definition accessible (m : bmem) (root va : Z) (n : nat) : Prop :=
  forall i, 0 <= i < Z.of_nat n -> is_Some (upage m root (va + i)).

(** [m'] differs from [m] in user memory by the bytes [bs] at [va] only. *)
Definition written (m m' : bmem) (root va : Z) (bs : list Z) : Prop :=
  forall v, 0 <= v -> ubyte m' root v =
    if decide (va <= v < va + Z.of_nat (length bs)) then bs !! Z.to_nat (v - va) else ubyte m root v.

(** Only user memory in the [n] bytes from [va] has changed. *)
Record only_user (m m' : bmem) (root : Z) (L : gmap Z Z) (va : Z) (n : nat) : Prop := OnlyUser {
  ou_space : uspace m' root L;
  ou_page : forall v, upage m' root v = upage m root v;
  ou_byte : forall v, 0 <= v -> ~ (va <= v < va + Z.of_nat n) -> ubyte m' root v = ubyte m root v;
  ou_other : forall a, (forall v, 0 <= v -> uaddr m root v <> Some a) -> ld8 m' a = ld8 m a }.

Lemma only_user_refl m root L va n : uspace m root L -> only_user m m root L va n.
Proof. by constructor. Qed.

Lemma only_user_trans m m1 m2 root L va n va' n' :
  only_user m m1 root L va n -> only_user m1 m2 root L va' n' ->
  va <= va' -> va' + Z.of_nat n' <= va + Z.of_nat n -> only_user m m2 root L va n.
Proof.
  intros [S1 P1 B1 O1] [S2 P2 B2 O2] H1 H2. constructor; [done|..].
  - intros v. by rewrite P2.
  - intros v Hv Hr. rewrite B2, B1 by lia. done.
  - intros a Ha. rewrite O2, O1; [done|done|]. intros v Hv. unfold uaddr. rewrite P1. by apply Ha.
Qed.

Lemma page_write_only m root L va pa bs n :
  uspace m root L -> 0 <= va -> upage m root va = Some pa ->
  va `mod` PGSIZE + Z.of_nat (length bs) <= PGSIZE -> Forall byte_ok bs -> (length bs <= n)%nat ->
  only_user m (stn m (pa + va `mod` PGSIZE) bs) root L va n.
Proof.
  intros U Hva Hp Hn Hb Hl. constructor.
  - by apply page_write_uspace.
  - intros v. by apply (page_write_upage m root L).
  - intros v Hv Hr. rewrite (page_write_ubyte m root L) by done. rewrite decide_False by lia. done.
  - intros a Ha. by apply (page_write_other m root).
Qed.

Lemma written_app m m1 m2 root va bs (c : nat) :
  (c <= length bs)%nat -> written m m1 root va (take c bs) ->
  written m1 m2 root (va + Z.of_nat c) (drop c bs) -> written m m2 root va bs.
Proof.
  intros Hc H1 H2 v Hv. rewrite (H2 v Hv), (H1 v Hv), length_drop, length_take.
  repeat destruct (decide _); try lia; try done.
  - rewrite lookup_drop. f_equal. lia.
  - rewrite lookup_take_lt by lia. done.
Qed.

Lemma accessible_app m root va (c n : nat) :
  (c <= n)%nat -> accessible m root va c ->
  accessible m root va n <-> accessible m root (va + Z.of_nat c) (n - c).
Proof.
  intros Hc H1. split.
  - intros H i Hi. replace (va + Z.of_nat c + i) with (va + (Z.of_nat c + i)) by lia. apply H. lia.
  - intros H i Hi. destruct (decide (i < Z.of_nat c)); [apply H1; lia|].
    replace (va + i) with (va + Z.of_nat c + (i - Z.of_nat c)) by lia. apply H. lia.
Qed.

(** One iteration of copyout() on a mapped page. *)
Lemma copyout_iter root L fuel k va bs pa :
  pt_wf (k_mem k) root L -> 0 <= va -> bs <> [] -> upage (k_mem k) root va = Some pa ->
  exists c, (0 < c <= length bs)%nat /\ va `mod` PGSIZE + Z.of_nat c <= PGSIZE /\
    copyout_loop (S fuel) root va bs k =
    copyout_loop fuel root (va + Z.of_nat c) (drop c bs)
      (set_k_mem (stn (k_mem k) (pa + va `mod` PGSIZE) (take c bs)) k).
Proof.
  intros WF Hva Hne Hp. assert (0 < length bs)%nat as Hl by (destruct bs; [done|simpl; lia]).
  destruct (chunk_eq va (length bs) Hva Hl) as (Eo & Hc & Hpg & Hnext).
  eexists. split; [exact Hc|]. split; [exact Hpg|].
  destruct bs as [|b bs]; [done|]. cbn [copyout_loop].
  mcall (walkaddr_eq root L (PGROUNDDOWN va) k WF).
  rewrite (upage_vpn _ _ (PGROUNDDOWN va) va) by (rewrite PGROUNDDOWN_eq by lia; unfold vpn; dlia).
  rewrite Hp. change (default 0 (Some pa)) with pa. destruct (upage_some _ _ _ _ Hp) as [Hmax Hpa].
  assert (pa =? 0 = false) as -> by lia. unfold write_bytes. mstep. rewrite Eo in *.
  destruct Hnext as [->|En].
  - rewrite drop_all. by destruct fuel.
  - rewrite En, u64_small by dlia. done.
Qed.

Lemma copyout_unmapped root L fuel k va bs :
  pt_wf (k_mem k) root L -> 0 <= va -> bs <> [] -> upage (k_mem k) root va = None ->
  copyout_loop (S fuel) root va bs k = Ret (-1) k.
Proof.
  intros WF Hva Hne Hp. destruct bs as [|b bs]; [done|]. cbn [copyout_loop].
  mcall (walkaddr_eq root L (PGROUNDDOWN va) k WF).
  rewrite (upage_vpn _ _ (PGROUNDDOWN va) va) by (rewrite PGROUNDDOWN_eq by lia; unfold vpn; dlia).
  by rewrite Hp.
Qed.

Lemma copyout_loop_ok root L fuel : forall k va bs,
  uspace (k_mem k) root L -> 0 <= va -> (length bs < fuel)%nat -> Forall byte_ok bs ->
  exists r m', copyout_loop fuel root va bs k = Ret r (set_k_mem m' k) /\
    only_user (k_mem k) m' root L va (length bs) /\
    ((r = 0 /\ accessible (k_mem k) root va (length bs) /\ written (k_mem k) m' root va bs) \/
     (r = -1 /\ ~ accessible (k_mem k) root va (length bs))).
Proof.
  induction fuel as [|fuel IH]; intros k va bs U Hva Hn Hb; [lia|].
  assert (set_k_mem (k_mem k) k = k) as Ek by (by destruct k).
  destruct (decide (bs = [])) as [->|Hne].
  { exists 0, (k_mem k). split; [by rewrite Ek|]. split; [by apply only_user_refl|].
    left. split; [done|]. split; [intros i Hi; simpl in Hi; lia|].
    intros v Hv. rewrite decide_False by (simpl; lia). done. }
  destruct (upage (k_mem k) root va) as [pa|] eqn:Hp.
  2: { exists (-1), (k_mem k). rewrite (copyout_unmapped root L), Ek by (done || apply U).
       split; [done|]. split; [by apply only_user_refl|]. right. split; [done|]. intros A.
       assert (0 < length bs)%nat by (destruct bs; [done|simpl; lia]).
       destruct (A 0 ltac:(lia)) as [pa A0]. rewrite Z.add_0_r in A0. congruence. }
  destruct (copyout_iter root L fuel k va bs pa (us_wf _ _ _ U) Hva Hne Hp) as (c & Hc & Hpg & ->).
  assert (length (take c bs) = c) as Et by (rewrite length_take; lia).
  assert (Forall byte_ok (take c bs)) as Hbt by (by apply Forall_take).
  pose proof (page_write_only (k_mem k) root L va pa (take c bs) (length bs) U Hva Hp ltac:(lia) Hbt ltac:(lia)) as O1.
  pose proof (page_write_ubyte (k_mem k) root L va pa (take c bs) U Hva Hp ltac:(lia) Hbt) as B1.
  set (m1 := stn (k_mem k) (pa + va `mod` PGSIZE) (take c bs)) in *.
  assert (accessible (k_mem k) root va c) as A1.
  { intros i Hi. exists pa. rewrite <- Hp. apply upage_vpn. unfold vpn. dlia. }
  pose proof (length_drop bs c) as Ed.
  destruct (IH (set_k_mem m1 k) (va + Z.of_nat c) (drop c bs)) as (r & m2 & W & O2 & Hr);
    [apply O1|lia|lia|by apply Forall_drop|].
  exists r, m2. split; [rewrite W; by destruct k|]. ksimpl in O2. ksimpl in Hr.
  split; [apply (only_user_trans _ _ _ _ _ _ _ _ _ O1 O2); lia|].
  rewrite (accessible_app _ _ _ c (length bs)) by (done || lia). rewrite Ed in Hr.
  assert (accessible m1 root (va + Z.of_nat c) (length bs - c) <->
          accessible (k_mem k) root (va + Z.of_nat c) (length bs - c)) as EA.
  { unfold accessible. by setoid_rewrite (ou_page _ _ _ _ _ _ O1). }
  rewrite EA in Hr. destruct Hr as [(-> & HA & HW)|[-> HA]]; [left|by right].
  split; [done|]. split; [done|]. eapply written_app; [|exact B1|exact HW]. lia.
Qed.

(** C26: copyout() into a user address space whose pages are its own: when every
    byte of the range is mapped for the user it returns 0 and user memory holds
    the bytes there and is otherwise unchanged; else it returns -1.  Translations,
    page-table pages and all memory that is not mapped for the user never change. *)
Theorem copyout_correct (k : kst) (root : Z) (L : gmap Z Z) (dstva : Z) (src : list Z)
    (U : uspace (k_mem k) root L) (Hva : 0 <= dstva) (Hb : Forall byte_ok src) :
  exists r m', copyout root dstva src k = Ret r (set_k_mem m' k) /\
    only_user (k_mem k) m' root L dstva (length src) /\
    ((r = 0 /\ accessible (k_mem k) root dstva (length src) /\ written (k_mem k) m' root dstva src) \/
     (r = -1 /\ ~ accessible (k_mem k) root dstva (length src))).
Proof. apply copyout_loop_ok; auto with lia. Qed.

Lemma uread_written m m' root va bs :
  0 <= va -> written m m' root va bs -> uread m' root va (length bs) = Some bs.
Proof.
  intros Hva H. assert (forall i, (i <= length bs)%nat ->
    uread m' root (va + Z.of_nat i) (length bs - i) = Some (drop i bs)) as G.
  2: { specialize (G O ltac:(lia)). by rewrite Z.add_0_r, Nat.sub_0_r, drop_0 in G. }
  intros i Hi. remember (length bs - i)%nat as d eqn:Ed. revert i Hi Ed.
  induction d as [|d IH]; intros i Hi Ed.
  - rewrite drop_ge by lia. done.
  - cbn [uread]. rewrite (H (va + Z.of_nat i)) by lia. rewrite decide_True by lia.
    replace (Z.to_nat (va + Z.of_nat i - va)) with i by lia.
    destruct (lookup_lt_is_Some_2 bs i ltac:(lia)) as [b Eb]. rewrite Eb. cbn [mbind option_bind].
    replace (va + Z.of_nat i + 1) with (va + Z.of_nat (S i)) by lia.
    rewrite (IH (S i)) by lia. cbn [mbind option_bind]. by rewrite <- (drop_S _ _ _ Eb).
Qed.

(** Bytes copied out to accessible user memory and copied in again are the
    same bytes. *)
Theorem copyout_copyin_roundtrip (k : kst) (root : Z) (L : gmap Z Z) (va : Z) (bs : list Z)
    (U : uspace (k_mem k) root L) (Hva : 0 <= va) (Hb : Forall byte_ok bs)
    (Ha : accessible (k_mem k) root va (length bs)) :
  exists k', copyout root va bs k = Ret 0 k' /\ copyin root va (length bs) k' = Ret (0, bs) k'.
Proof.
  destruct (copyout_loop_ok root L (S (length bs)) k va bs U Hva ltac:(lia) Hb)
    as (r & m' & W & O & [(-> & _ & Hw)|[_ Hn]]); [|done].
  exists (set_k_mem m' k). split; [exact W|].
  pose proof (copyin_loop_ok root L (set_k_mem m' k) (us_wf _ _ _ (ou_space _ _ _ _ _ _ O))
                (S (length bs)) [] va (length bs) Hva ltac:(lia)) as C.
  ksimpl in C. rewrite (uread_written (k_mem k)) in C by done. exact C.
Qed.

(** ** Strings *)

Lemma ustr_page m root va pa (c max : nat) :
  upage m root va = Some pa -> va `mod` PGSIZE + Z.of_nat c <= PGSIZE -> (c <= max)%nat ->
  ustr m root va max =
  let '(r, z) := upto_nul (ldn m (pa + va `mod` PGSIZE) c) in
  if z : bool then Some r else (s ← ustr m root (va + Z.of_nat c) (max - c); Some (r ++ s)).
Proof.
  revert va max. induction c as [|c IH]; intros va max Hp Hn Hc.
  { cbn. rewrite Z.add_0_r, Nat.sub_0_r. by destruct (ustr m root va max). }
  destruct max as [|max]; [lia|]. rewrite ldn_S. cbn [ustr upto_nul].
  unfold ubyte, uaddr. rewrite Hp. cbn [mbind option_bind fmap option_map option_fmap].
  destruct (ld8 m (pa + va `mod` PGSIZE) =? 0) eqn:E0; [done|].
  destruct (decide (c = O)) as [->|Hc0].
  { change (ldn m (pa + va `mod` PGSIZE + 1) 0) with (@nil Z). cbn [upto_nul]. rewrite Nat.sub_succ, Nat.sub_0_r.
    change (Z.of_nat 1) with 1. cbn [app].
    by destruct (ustr m root (va + 1) max). }
  assert (vpn (va + 1) = vpn va /\ (va + 1) `mod` PGSIZE = va `mod` PGSIZE + 1) as [Ev Em].
  { unfold vpn. dlia. }
  rewrite (IH (va + 1) max); [|by rewrite (upage_vpn m root (va + 1) va)|lia..]. rewrite Em.
  replace (pa + (va `mod` PGSIZE + 1)) with (pa + va `mod` PGSIZE + 1) by lia.
  destruct (upto_nul (ldn m (pa + va `mod` PGSIZE + 1) c)) as [r z]. destruct z; [done|].
  replace (va + 1 + Z.of_nat c) with (va + Z.of_nat (S c)) by lia. rewrite Nat.sub_succ.
  by destruct (ustr m root (va + Z.of_nat (S c)) (max - c)).
Qed.

Lemma copyinstr_loop_ok root L k (WF : pt_wf (k_mem k) root L) fuel : forall got va max,
  0 <= va -> (max < fuel)%nat ->
  match ustr (k_mem k) root va max with
  | Some s => copyinstr_loop fuel root got va max k = Ret (0, got ++ s) k
  | None => exists pre, copyinstr_loop fuel root got va max k = Ret (-1, got ++ pre) k
  end.
Proof.
  induction fuel as [|fuel IH]; intros got va max Hva Hn; [lia|].
  destruct max as [|max]; [exists []; by rewrite app_nil_r|]. cbn [copyinstr_loop].
  destruct (chunk_eq va (S max) Hva ltac:(lia)) as (Eo & Hc & Hpg & Hnext). rewrite Eo in *.
  remember (Z.to_nat (Z.min (PGSIZE - va `mod` PGSIZE) (Z.of_nat (S max)))) as c eqn:Ec. clear Ec.
  mcall (walkaddr_eq root L (PGROUNDDOWN va) k WF).
  rewrite (upage_vpn _ _ (PGROUNDDOWN va) va) by (rewrite PGROUNDDOWN_eq by lia; unfold vpn; dlia).
  destruct (upage (k_mem k) root va) as [pa|] eqn:Hp.
  2: { cbn [ustr]. unfold ubyte, uaddr. rewrite Hp. exists []. by rewrite app_nil_r. }
  change (default 0 (Some pa)) with pa. destruct (upage_some _ _ _ _ Hp) as [Hmax Hpa].
  assert (pa =? 0 = false) as -> by lia. unfold read_bytes. mstep.
  rewrite (ustr_page _ _ _ _ c (S max) Hp Hpg ltac:(lia)).
  destruct (upto_nul _) as [r z]. destruct z; [done|]. destruct Hnext as [->|En].
  - rewrite Nat.sub_diag. cbn [ustr mbind option_bind]. exists r. by destruct fuel; [lia|].
  - rewrite En, u64_small by dlia.
    specialize (IH (got ++ r) (va + Z.of_nat c) (S max - c)%nat ltac:(lia) ltac:(lia)).
    destruct (ustr (k_mem k) root (va + Z.of_nat c) (S max - c)) as [s|]; cbn [mbind option_bind].
    + rewrite IH. by rewrite <- app_assoc.
    + destruct IH as [pre IH]. rewrite IH. eexists. by rewrite <- app_assoc.
Qed.

(** C28: copyinstr() copies exactly the nul-terminated string at the address,
    terminator included, and returns 0 when it ends within max accessible bytes;
    otherwise it returns -1.  It never reads an unmapped byte. *)
Theorem copyinstr_correct (k : kst) (root : Z) (L : gmap Z Z) (srcva : Z) (max : nat)
    (WF : pt_wf (k_mem k) root L) (Hva : 0 <= srcva) :
  match ustr (k_mem k) root srcva max with
  | Some s => copyinstr root srcva max k = Ret (0, s) k
  | None => exists pre, copyinstr root srcva max k = Ret (-1, pre) k
  end.
Proof. apply (copyinstr_loop_ok root L k WF (S max) [] srcva max); [done|lia]. Qed.

End usermem.

(** ** The concrete address space of one user page *)

Lemma pt_one_upage va :
  0 <= va -> upage (k_mem pt_one) (page_no 0) va = if decide (vpn va = 0) then Some (page_no 3) else None.
Proof.
  intros Hva. destruct pt_one_ok as (L & l & _ & _ & P). unfold upage.
  destruct (MAXVA <=? va) eqn:E.
  - rewrite decide_False by (unfold vpn; dlia). done.
  - rewrite P by lia. destruct (decide (vpn va = 0)); [|done]. reflexivity.
Qed.

Lemma pt_one_uspace L l : vmst pt_one (page_no 0) L l -> user_page L l (page_no 3) ->
  uspace (k_mem pt_one) (page_no 0) L.
Proof.
  intros S (P3 & _ & L3). constructor.
  - apply S.
  - intros va pa Hva. rewrite pt_one_upage by done. destruct (decide _); [|done]. by intros [= <-].
  - intros va pa q lq Hva. rewrite pt_one_upage by done. destruct (decide _); [|done]. intros [= <-] Hq.
    destruct (wf_page _ _ _ (vm_pt _ _ _ _ S) q lq Hq) as [Pq _].
    apply or_comm, page_disjoint; [done|done|congruence].
  - intros va va' pa Hva Hva'. rewrite !pt_one_upage by done. repeat destruct (decide _); congruence.
Qed.

Lemma pt_one_accessible (n : nat) : Z.of_nat n <= PGSIZE -> accessible (k_mem pt_one) (page_no 0) 0 n.
Proof.
  intros Hn i Hi. rewrite pt_one_upage by lia. rewrite decide_True by (unfold vpn; dlia). done.
Qed.

Lemma copyin_correct_witness :
  exists bs, copyin (page_no 0) 0 4 pt_one = Ret (0, bs) pt_one.
Proof.
  destruct pt_one_ok as (L & l & S & _).
  pose proof (copyin_correct pt_one (page_no 0) L 0 4 (vm_pt _ _ _ _ S) ltac:(lia)) as H.
  assert (upage (k_mem pt_one) (page_no 0) 0 = Some (page_no 3)) as E.
  { rewrite pt_one_upage, decide_True; [reflexivity | reflexivity | lia]. }
  rewrite (uread_page _ _ _ _ 4 E ltac:(vm_compute; discriminate)) in H. eexists. exact H.
Defined.

Lemma copyout_correct_witness :
  exists r m', copyout (page_no 0) 0 [1; 2; 3] pt_one = Ret r (set_k_mem m' pt_one) /\
    written (k_mem pt_one) m' (page_no 0) 0 [1; 2; 3].
Proof.
  destruct pt_one_ok as (L & l & S & U & _).
  destruct (copyout_correct pt_one (page_no 0) L 0 [1; 2; 3] (pt_one_uspace L l S U) ltac:(lia)
    ltac:(repeat constructor; unfold byte_ok; lia)) as (r & m' & H1 & _ & [(_ & _ & H2)|[_ H2]]).
  - exists r, m'. split; [exact H1 | exact H2].
  - destruct H2. apply pt_one_accessible. by vm_compute.
Defined.

Lemma copyout_copyin_roundtrip_witness :
  exists k', copyout (page_no 0) 0 [1; 2; 3] pt_one = Ret 0 k' /\
    copyin (page_no 0) 0 3 k' = Ret (0, [1; 2; 3]) k'.
Proof.
  destruct pt_one_ok as (L & l & S & U & _).
  apply (copyout_copyin_roundtrip pt_one (page_no 0) L 0 [1; 2; 3] (pt_one_uspace L l S U) ltac:(lia)).
  - repeat constructor; unfold byte_ok; lia.
  - apply pt_one_accessible. by vm_compute.
Defined.

Lemma copyinstr_correct_witness :
  match ustr (k_mem pt_one) (page_no 0) 0 4 with
  | Some s => copyinstr (page_no 0) 0 4 pt_one = Ret (0, s) pt_one
  | None => exists pre, copyinstr (page_no 0) 0 4 pt_one = Ret (-1, pre) pt_one
  end.
Proof.
  destruct pt_one_ok as (L & l & S & _).
  apply (copyinstr_correct pt_one (page_no 0) L 0 4 (vm_pt _ _ _ _ S)). lia.
Defined.
