(* ===== verification/AddrSpace.v ===== *)
(** Address spaces: growing, copying and freeing them (uvmalloc(), uvmdealloc(),
    uvmcopy(), uvmfree() and freewalk() of kernel/vm.c), with an account of every
    physical page. *)

From Stdlib Require Import ZArith Lia.
From stdpp Require Import base gmap strings list numbers.
From S2P Require Import Prelude Params State Spinlock Sched CString Kalloc Vm PageTable UserMem.

Open Scope Z_scope.

#[local] Opaque memset st64 ld64 stn seqz.

(** Membership in concatenations, as propositional logic. *)
Ltac elems :=
  repeat match goal with H : context [_ ∈ _] |- _ => revert H end;
  repeat first [rewrite elem_of_app | rewrite elem_of_cons | rewrite elem_of_nil | rewrite elem_of_rev]; tauto.

(** ** The pages below a page-table page *)

(** In the order in which freewalk() frees them; [d] is the number of levels. *)
Fixpoint subtree (m : bmem) (d : nat) (P : Z) : list Z :=
  match d with
  | O => []
  | S d =>
      (seqz 0 512 ≫= fun i => let v := ld64 m (P + 8 * i) in if has v PTE_V then subtree m d (PTE2PA v) else []) ++ [P]
  end.

Definition child (m : bmem) (d : nat) (P i : Z) : list Z :=
  let v := ld64 m (P + 8 * i) in if has v PTE_V then subtree m d (PTE2PA v) else [].

Abbreviation RWX := (Z.lor (Z.lor PTE_R PTE_W) PTE_X).
Abbreviation PTE_WXRU := (Z.lor (Z.lor (Z.lor PTE_W PTE_X) PTE_R) PTE_U).

(** No leaf is left below [P]. *)
Fixpoint no_leaf (m : bmem) (d : nat) (P : Z) : Prop :=
  match d with
  | O => False
  | S d => forall i, 0 <= i < 512 -> has (ld64 m (P + 8 * i)) PTE_V = true ->
      has (ld64 m (P + 8 * i)) RWX = false /\ no_leaf m d (PTE2PA (ld64 m (P + 8 * i)))
  end.

(** Two memories agree on the pages [ps]. *)
Definition same_pages (ps : list Z) (m m' : bmem) : Prop := forall q a, q ∈ ps -> q <= a < q + PGSIZE -> ld8 m' a = ld8 m a.

Lemma same_pages_slot ps m m' q i : same_pages ps m m' -> q ∈ ps -> 0 <= i < 512 -> ld64 m' (q + 8 * i) = ld64 m (q + 8 * i).
Proof. intros H Hq Hi. apply ld64_ext. intros b Hb. apply (H q); [done|lia]. Qed.

Lemma subtree_root m d P : (0 < d)%nat -> P ∈ subtree m d P.
Proof. destruct d; [lia|]. intros _. cbn [subtree]. apply elem_of_app. right. by left. Qed.

Lemma child_subtree m d P i q : 0 <= i < 512 -> q ∈ child m d P i -> q ∈ subtree m (S d) P.
Proof.
  intros Hi Hq. cbn [subtree]. apply elem_of_app. left. apply list_elem_of_bind. exists i. split; [done|]. apply elem_of_seqz. lia.
Qed.

Lemma subtree_elem m d P q : q ∈ subtree m (S d) P -> q = P \/ exists i, 0 <= i < 512 /\ q ∈ child m d P i.
Proof.
  cbn [subtree]. intros [(i & Hq & Hi%elem_of_seqz)%list_elem_of_bind| ->%list_elem_of_singleton]%elem_of_app;
    [right; exists i; split; [lia|done]|by left].
Qed.

Lemma subtree_ext m m' d : forall P, same_pages (subtree m d P) m m' ->
  subtree m' d P = subtree m d P /\ (no_leaf m d P -> no_leaf m' d P).
Proof.
  induction d as [|d IH]; intros P H; [done|].
  assert (forall i, 0 <= i < 512 -> ld64 m' (P + 8 * i) = ld64 m (P + 8 * i)) as Es.
  { intros i Hi. eapply same_pages_slot; [exact H| |done]. apply subtree_root. lia. }
  assert (forall i, 0 <= i < 512 -> has (ld64 m (P + 8 * i)) PTE_V = true -> same_pages (subtree m d (PTE2PA (ld64 m (P + 8 * i)))) m m') as Hc.
  { intros i Hi Hv q a Hq. apply H. apply (child_subtree m d P i); [done|]. unfold child. by rewrite Hv. }
  split.
  - cbn [subtree]. f_equal. apply list_bind_ext_in. intros i Hi%elem_of_seqz. cbv zeta.
    rewrite Es by lia. destruct (has _ _) eqn:Hv; [|done]. apply IH, Hc; [lia|done].
  - cbn [no_leaf]. intros Hn i Hi. rewrite Es by done. intros Hv. destruct (Hn i Hi Hv) as [H1 H2]. split; [done|]. by apply IH; [apply Hc|].
Qed.

Section addrspace.
Context `{KI : KernelImage}.

(** ** freewalk() *)

(** From [k] to [k'] only the free list and the pages [ps] have changed. *)
Record memstep (ps : list Z) (k k' : kst) : Prop := MemStep {
  ms_k : k' = set_k_mem (k_mem k') (set_k_freelist (k_freelist k') k);
  ms_mem : forall a, (forall q, q ∈ ps -> ~ (q <= a < q + PGSIZE)) -> ld8 (k_mem k') a = ld8 (k_mem k) a }.

Lemma memstep_refl ps k : memstep ps k k.
Proof. split; [by destruct k|done]. Qed.

Lemma memstep_trans ps qs k k1 k2 : memstep ps k k1 -> memstep qs k1 k2 -> memstep (ps ++ qs) k k2.
Proof.
  intros [K1 M1] [K2 M2]. split.
  - rewrite K2. rewrite K1 at 1. by destruct k.
  - intros a Ha. rewrite M2, M1; [done|..]; intros q Hq; apply Ha; set_solver.
Qed.

Lemma memstep_weaken ps qs k k' : memstep ps k k' -> (forall q, q ∈ ps -> q ∈ qs) -> memstep qs k k'.
Proof. intros [K M] H. split; [done|]. intros a Ha. apply M. auto. Qed.

(** The allocator can run, with [l] free. *)
Record alloc_ok (k : kst) (l : list Z) : Prop := AllocOk {
  ao_hart : hart_ok (k_hart k);
  ao_lock : k_locks k !! LKmem = None;
  ao_free : kmem_inv k l }.

Lemma kfree_step k l pa : alloc_ok k l -> page_ok pa -> pa ∉ l ->
  kfree pa k = Ret tt (kfreed k pa) /\ alloc_ok (kfreed k pa) (pa :: l) /\ memstep [pa] k (kfreed k pa).
Proof.
  intros [Hh Hl Hf] Hp Hn. split; [by apply kfree_ok|]. split; [split; [done..|by apply kmem_inv_kfree]|].
  split; [done|]. intros a Ha. apply kfreed_same. apply Ha. set_solver.
Qed.

Lemma kalloc_alloc k p l : alloc_ok k (p :: l) ->
  exists k', kalloc k = Ret p k' /\ page_ok p /\ p ∉ l /\ alloc_ok k' l /\ memstep [p] k k'.
Proof.
  intros [Hh Hl Hf]. destruct (kmem_inv_kalloc k p l Hf) as (Hf' & Hp & Hn). eexists. split; [by apply (kalloc_cons k p l)|].
  split; [done|]. split; [done|]. split; [by split|]. split; [done|]. intros a Ha. ksimpl. apply same_but_page_memset, Ha. by left.
Qed.

(** A page that is neither free nor anything else's is written. *)
Lemma write_step k l p a v : alloc_ok k l -> page_ok p -> p ∉ l -> p <= a -> a + 8 <= p + PGSIZE ->
  alloc_ok (set_k_mem (st64 (k_mem k) a v) k) l /\ memstep [p] k (set_k_mem (st64 (k_mem k) a v) k).
Proof.
  intros [Hh Hl [Hf Hnd]] Hp Hn Ha Ha8. split; [split; [done..|split; [|done]]|split; [by destruct k|]].
  - ksimpl. apply (free_rep_frame (k_mem k) _ p); [done..| |done]. intros b Hb. apply ld8_st64_out. lia.
  - intros b Hb. ksimpl. apply ld8_st64_out. specialize (Hb p ltac:(set_solver)). lia.
Qed.
(** Pages that are not in [ps] keep their contents. *)
Lemma memstep_same ps qs k k' m : memstep ps k k' -> Forall page_ok ps -> Forall page_ok qs -> (forall q, q ∈ ps -> q ∉ qs) ->
  same_pages qs m (k_mem k) -> same_pages qs m (k_mem k').
Proof.
  intros [_ M] Pp Pq D H q a Hq Ha. rewrite M; [by apply (H q)|]. intros p Hp Hr. rewrite Forall_forall in Pp, Pq.
  destruct (page_disjoint q p (Pq q Hq) (Pp p Hp)); [intros ->; by apply (D p)|lia..].
Qed.

Definition freewalk_spec (d : nat) : Prop := forall k l P,
  alloc_ok k l -> no_leaf (k_mem k) d P -> NoDup (subtree (k_mem k) d P) -> Forall page_ok (subtree (k_mem k) d P) ->
  (forall q, q ∈ subtree (k_mem k) d P -> q ∉ l) ->
  exists k', freewalk d P k = Ret tt k' /\ alloc_ok k' (rev (subtree (k_mem k) d P) ++ l) /\ memstep (subtree (k_mem k) d P) k k'.

(** One iteration of freewalk()'s loop. *)
Definition freewalk_entry (d : nat) (P i : Z) : M unit :=
  pte ← read64 (P + 8 * i);
  if has pte PTE_V && negb (has pte RWX) then freewalk d (PTE2PA pte);; write64 (P + 8 * i) 0
  else if has pte PTE_V then panic "freewalk: leaf"
  else mret tt.

Lemma freewalk_entry_ok d P i k l : freewalk_spec d -> 0 <= i < 512 -> page_ok P -> P ∉ l -> P ∉ child (k_mem k) d P i ->
  alloc_ok k l -> NoDup (child (k_mem k) d P i) -> Forall page_ok (child (k_mem k) d P i) -> (forall q, q ∈ child (k_mem k) d P i -> q ∉ l) ->
  (has (ld64 (k_mem k) (P + 8 * i)) PTE_V = true -> has (ld64 (k_mem k) (P + 8 * i)) RWX = false /\ no_leaf (k_mem k) d (PTE2PA (ld64 (k_mem k) (P + 8 * i)))) ->
  exists k', freewalk_entry d P i k = Ret tt k' /\ alloc_ok k' (rev (child (k_mem k) d P i) ++ l) /\
    memstep (child (k_mem k) d P i ++ [P]) k k' /\
    (forall j, 0 <= j < 512 -> j <> i -> ld64 (k_mem k') (P + 8 * j) = ld64 (k_mem k) (P + 8 * j)).
Proof.
  intros IH Hi PP HPl HPc A Hnd Hpg Hdisj Hn. unfold child in *. unfold freewalk_entry, read64. mstep.
  destruct (has (ld64 (k_mem k) (P + 8 * i)) PTE_V) eqn:V; cbn [andb].
  2: { exists k. split; [done|]. split; [done|]. split; [|done]. apply memstep_refl. }
  destruct (Hn eq_refl) as [R Hn']. rewrite R. cbn [negb].
  destruct (IH k l _ A Hn' Hnd Hpg Hdisj) as (k1 & E & A1 & M1). mcall E.
  destruct (write_step k1 _ P (P + 8 * i) 0 A1 PP) as [A2 M2]; [|lia..|].
  { rewrite elem_of_app, elem_of_rev. tauto. }
  eexists. split; [done|]. split; [exact A2|]. split; [by eapply memstep_trans|].
  intros j Hj Hne. ksimpl. rewrite ld64_st64_disj by lia. apply ld64_ext. intros b Hb. apply (ms_mem _ _ _ M1).
  intros q Hq Hr. rewrite Forall_forall in Hpg. destruct (page_disjoint P q PP (Hpg q Hq)); [congruence|lia..].
Qed.

Lemma freewalk_loop_ok d P m xs : forall k l, freewalk_spec d -> NoDup xs -> (forall i, i ∈ xs -> 0 <= i < 512) -> page_ok P -> P ∉ l ->
  let ps := (xs ≫= child m d P) in
  alloc_ok k l -> NoDup ps -> P ∉ ps -> Forall page_ok ps -> (forall q, q ∈ ps -> q ∉ l) ->
  (forall i, i ∈ xs -> ld64 (k_mem k) (P + 8 * i) = ld64 m (P + 8 * i)) -> same_pages ps m (k_mem k) ->
  (forall i, i ∈ xs -> has (ld64 m (P + 8 * i)) PTE_V = true -> has (ld64 m (P + 8 * i)) RWX = false /\ no_leaf m d (PTE2PA (ld64 m (P + 8 * i)))) ->
  exists k', forM xs (freewalk_entry d P) k = Ret tt k' /\ alloc_ok k' (rev ps ++ l) /\ memstep (ps ++ [P]) k k'.
Proof.
  induction xs as [|i xs IHx]; intros k l IH Hnd Hr PP HPl ps A Hps HPs Hpg Hd Hs Hsame Hn.
  { exists k. split; [done|]. split; [done|]. apply memstep_refl. }
  apply NoDup_cons in Hnd as [Hi Hnd]. cbn [mbind list_bind] in ps. set (c := child m d P i) in *. set (qs := (xs ≫= child m d P)) in *.
  apply NoDup_app in Hps as (Nc & Ncq & Nq). apply Forall_app in Hpg as [Pc Pq].
  assert (child (k_mem k) d P i = c /\ (has (ld64 m (P + 8 * i)) PTE_V = true -> no_leaf (k_mem k) d (PTE2PA (ld64 m (P + 8 * i))))) as [Ec Hn'].
  { unfold c, child. rewrite Hs by (by left). destruct (has _ _) eqn:V; [|done]. destruct (subtree_ext m (k_mem k) d (PTE2PA (ld64 m (P + 8 * i)))) as [E1 E2].
    - intros q a Hq. apply Hsame. apply elem_of_app. left. unfold c, child. by rewrite V.
    - split; [done|]. intros _. apply E2. by apply Hn; [left|]. }
  destruct (freewalk_entry_ok d P i k l) as (k1 & E1 & A1 & M1 & S1); rewrite ?Ec; try done.
  { apply Hr. by left. }
  { intros Hin. apply HPs, elem_of_app. by left. }
  { intros q Hq. apply Hd, elem_of_app. by left. }
  { rewrite Hs by (by left). intros V. split; [by apply Hn; [left|]|by apply Hn']. }
  rewrite Ec in A1, M1.
  destruct (IHx k1 (rev c ++ l)) as (k2 & E2 & A2 & M2); fold qs; try done.
  { intros j Hj. apply Hr. by right. }
  { rewrite elem_of_app, elem_of_rev. intros [|]; [|done]. apply HPs, elem_of_app. by left. }
  { intros Hin. apply HPs, elem_of_app. by right. }
  { intros q Hq. rewrite elem_of_app, elem_of_rev. intros [Hc|Hl]; [by apply (Ncq q)|]. apply (Hd q); [|done]. apply elem_of_app. by right. }
  { intros j Hj. rewrite S1; [apply Hs; by right|apply Hr; by right|]. intros ->. done. }
  { eapply (memstep_same _ qs); [exact M1| |done|..].
    - apply Forall_app. by split; [|apply Forall_singleton].
    - intros q [Hq| ->%list_elem_of_singleton]%elem_of_app Hq'; [by apply (Ncq q)|]. apply HPs, elem_of_app. by right.
    - intros q a Hq. apply Hsame, elem_of_app. by right. }
  { intros j Hj. apply Hn. by right. }
  exists k2. cbn [forM]. mcall E1. split; [exact E2|]. split; [unfold ps; by rewrite rev_app_distr, <- app_assoc|].
  eapply memstep_weaken; [exact (memstep_trans _ _ _ _ _ M1 M2)|]. unfold ps. intros q. rewrite !elem_of_app. tauto.
Qed.

Lemma freewalk_ok d : freewalk_spec d.
Proof.
  induction d as [|d IH]; intros k l P A Hn Hnd Hpg Hd; [done|]. change (subtree (k_mem k) (S d) P) with ((seqz 0 512 ≫= child (k_mem k) d P) ++ [P]) in *.
  apply NoDup_app in Hnd as (Nc & NP & _). apply Forall_app in Hpg as [Pc PP]. rewrite Forall_singleton in PP.
  assert (P ∉ (seqz 0 512 ≫= child (k_mem k) d P)) as HP by (intros H; apply (NP P H); by left).
  assert (P ∉ l) as HPl by (apply Hd, elem_of_app; right; by left).
  destruct (freewalk_loop_ok d P (k_mem k) (seqz 0 512) k l IH) as (k1 & E1 & A1 & M1); try done.
  { apply NoDup_seqz. }
  { intros i ?%elem_of_seqz. lia. }
  { intros q Hq. apply Hd, elem_of_app. by left. }
  { intros i Hi%elem_of_seqz. apply Hn. lia. }
  destruct (kfree_step k1 _ P A1 PP) as (E2 & A2 & M2).
  { rewrite elem_of_app, elem_of_rev. tauto. }
  exists (kfreed k1 P). cbn [freewalk]. change (forM (seqz 0 512) _) with (forM (seqz 0 512) (freewalk_entry d P)). mcall E1.
  split; [exact E2|]. split; [by rewrite rev_app_distr|].
  eapply memstep_weaken; [exact (memstep_trans _ _ _ _ _ M1 M2)|]. intros q. rewrite !elem_of_app. tauto.
Qed.

(** ** The pages of a table without leaves *)

Lemma node_interior q : page_ok q -> has (Z.lor (PA2PTE q) PTE_V) RWX = false.
Proof.
  intros Hq. destruct (page_ok_range q Hq) as [Hr Ha]. unfold has, truth. rewrite PA2PTE_eq, lor_low_flags by dlia.
  change RWX with (Z.land (Z.ones 4) 14). rewrite Z.land_assoc, Z.land_ones by lia.
  replace ((q / 4096 * 1024 + PTE_V) `mod` 2 ^ 4) with 1; [done|]. change (2 ^ 4) with 16. dlia.
Qed.

Section leafless.
Context (m : bmem) (root : Z) (L : gmap Z Z).
Hypothesis WF : pt_wf m root L.
Hypothesis Hnone : forall va, 0 <= va < MAXVA -> pteof m root va = None.

Lemma level2_root p : L !! p = Some 2 -> p = root.
Proof.
  intros Hp. destruct (decide (p = root)) as [|Hne]; [done|]. destruct (wf_up _ _ _ WF p 2 Hp Hne) as (q & i & Hq & _).
  destruct (wf_page _ _ _ WF q _ Hq). lia.
Qed.

Lemma PX_build i2 i1 i0 : 0 <= i2 < 256 -> 0 <= i1 < 512 -> 0 <= i0 < 512 ->
  let va := i2 * 2 ^ 30 + i1 * 2 ^ 21 + i0 * 2 ^ 12 in 0 <= va < MAXVA /\ PX 2 va = i2 /\ PX 1 va = i1 /\ PX 0 va = i0.
Proof.
  intros H2 H1 H0. cbv zeta. rewrite !PX_eq by lia. change (2 ^ (12 + 9 * 2)) with 1073741824. change (2 ^ (12 + 9 * 1)) with 2097152.
  change (2 ^ (12 + 9 * 0)) with 4096. change (2 ^ 30) with 1073741824. change (2 ^ 21) with 2097152. change (2 ^ 12) with 4096. dlia.
Qed.

Lemma leaf_invalid p i : L !! p = Some 0 -> 0 <= i < 512 -> has (ld64 m (p + 8 * i)) PTE_V = false.
Proof.
  intros Hp Hi. pose proof (wf_root _ _ _ WF) as Hroot.
  destruct (wf_up _ _ _ WF p 0 Hp ltac:(congruence)) as (p1 & i1 & Hp1 & Hi1 & E1).
  destruct (wf_up _ _ _ WF p1 _ Hp1 ltac:(intros ->; by rewrite Hroot in Hp1)) as (p2 & i2 & Hp2 & Hi2 & E2). apply level2_root in Hp2 as ->.
  destruct (wf_page _ _ _ WF p _ Hp) as [Pp _], (wf_page _ _ _ WF p1 _ Hp1) as [Pp1 _]. destruct (node_pte p Pp) as [Tp Vp], (node_pte p1 Pp1) as [Tp1 Vp1].
  assert (i2 < 256) as Hlow.
  { destruct (decide (256 <= i2)); [|lia]. pose proof (wf_low _ _ _ WF i2 ltac:(lia)) as H. rewrite E2 in H. congruence. }
  destruct (PX_build i2 i1 i ltac:(lia) Hi1 Hi) as (Hva & X2 & X1 & X0). specialize (Hnone _ Hva). revert Hnone.
  unfold pteof, ptwalk, pte_at. rewrite X2, X1, X0, E2, Vp1, Tp1, E1, Vp, Tp. cbn [mbind option_bind]. destruct (has (ld64 m (p + 8 * i)) PTE_V); [discriminate|reflexivity].
Qed.

(** A valid entry of a page of the table. *)
Lemma entry_node p n i : L !! p = Some (Z.of_nat n) -> 0 <= i < 512 -> has (ld64 m (p + 8 * i)) PTE_V = true ->
  exists q n', n = S n' /\ ld64 m (p + 8 * i) = Z.lor (PA2PTE q) PTE_V /\ PTE2PA (ld64 m (p + 8 * i)) = q /\
    L !! q = Some (Z.of_nat n') /\ page_ok q.
Proof.
  intros Hp Hi V. destruct n as [|n]; [by rewrite leaf_invalid in V|].
  destruct (wf_down _ _ _ WF p _ i Hp ltac:(lia) Hi V) as (q & E & Hq). destruct (wf_page _ _ _ WF q _ Hq) as [Pq _].
  exists q, n. rewrite E, (proj1 (node_pte q Pq)), Hq. split_and!; try done. f_equal. lia.
Qed.

Lemma leafless_no_leaf n : forall P, L !! P = Some (Z.of_nat n) -> no_leaf m (S n) P.
Proof.
  induction n as [|n IH]; intros P HP i Hi V; destruct (entry_node P _ i HP Hi V) as (q & n' & [= ->] & E & T & Hq & Pq).
  rewrite T. split; [rewrite E; by apply node_interior|by apply IH].
Qed.

Lemma child_elem n P i q : L !! P = Some (Z.of_nat n) -> 0 <= i < 512 -> q ∈ child m n P i ->
  exists c n', n = S n' /\ ld64 m (P + 8 * i) = Z.lor (PA2PTE c) PTE_V /\ L !! c = Some (Z.of_nat n') /\ q ∈ subtree m (S n') c.
Proof.
  intros HP Hi. unfold child. destruct (has _ _) eqn:V; [|by intros ?%not_elem_of_nil].
  destruct (entry_node P n i HP Hi V) as (c & n' & -> & E & T & Hc & Pc). rewrite T. intros Hq. by exists c, n'.
Qed.

Lemma subtree_level n : forall P q, L !! P = Some (Z.of_nat n) -> q ∈ subtree m (S n) P ->
  exists lq, L !! q = Some lq /\ lq <= Z.of_nat n /\ (lq = Z.of_nat n -> q = P).
Proof.
  induction n as [|n IH]; intros P q HP [->|(i & Hi & Hq)]%subtree_elem; try (eexists; split; [exact HP|split; [lia|done]]);
    destruct (child_elem _ P i q HP Hi Hq) as (c & n' & [= ->] & _ & Hc & Hq').
  destruct (IH c q Hc Hq') as (lq & ? & ? & _). exists lq. split; [done|]. split; lia.
Qed.

Lemma child_level n P i q : L !! P = Some (Z.of_nat n) -> 0 <= i < 512 -> q ∈ child m n P i -> q <> P.
Proof.
  intros HP Hi Hq ->. destruct (child_elem _ P i P HP Hi Hq) as (c & n' & -> & _ & Hc & Hq').
  destruct (subtree_level _ c P Hc Hq') as (lq & Hl & Hle & _). rewrite HP in Hl. injection Hl as <-. lia.
Qed.

(** The subtrees of two pages of a level are disjoint. *)
Lemma subtree_uniq n : forall P P' q, L !! P = Some (Z.of_nat n) -> L !! P' = Some (Z.of_nat n) ->
  q ∈ subtree m (S n) P -> q ∈ subtree m (S n) P' ->
  P = P' /\ forall i i', 0 <= i < 512 -> 0 <= i' < 512 -> q ∈ child m n P i -> q ∈ child m n P' i' -> i = i'.
Proof.
  induction n as [|n IH]; intros P P' q HP HP' Hq Hq'.
  { split; [|intros i i' Hi Hi' Hc; by destruct (child_elem _ P i q HP Hi Hc) as (? & ? & ? & _)].
    destruct (subtree_level _ P q HP Hq) as (l1 & H1 & B1 & E1), (subtree_level _ P' q HP' Hq') as (l2 & H2 & B2 & E2).
    destruct (wf_page _ _ _ WF q _ H1). assert (l2 = l1) as -> by congruence. rewrite <- E1, <- E2 by lia. done. }
  assert (forall i i', 0 <= i < 512 -> 0 <= i' < 512 -> q ∈ child m (S n) P i -> q ∈ child m (S n) P' i' -> P = P' /\ i = i') as H.
  { intros i i' Hi Hi' Hc Hc'.
    destruct (child_elem _ P i q HP Hi Hc) as (c & ? & [= <-] & E & Lc & Hqc).
    destruct (child_elem _ P' i' q HP' Hi' Hc') as (c' & ? & [= <-] & E' & Lc' & Hqc').
    destruct (IH c c' q Lc Lc' Hqc Hqc') as [<- _].
    eapply (wf_tree _ _ _ WF P _ i P' _ i' c); eauto; try lia. rewrite Lc. f_equal. lia. }
  split; [|intros i i' Hi Hi' Hc Hc'; by apply (H i i')].
  apply subtree_elem in Hq as [->|(i & Hi & Hq)], Hq' as [->|(i' & Hi' & Hq')]; [done|..|by apply (H i i')].
  - destruct (child_elem _ P' i' P HP' Hi' Hq') as (c & ? & [= <-] & _ & Lc & Hqc). destruct (subtree_level _ c _ Lc Hqc) as (lq & Hl & Hle & _). rewrite HP in Hl. injection Hl as <-. lia.
  - destruct (child_elem _ P i P' HP Hi Hq) as (c & ? & [= <-] & _ & Lc & Hqc). destruct (subtree_level _ c _ Lc Hqc) as (lq & Hl & Hle & _). rewrite HP' in Hl. injection Hl as <-. lia.
Qed.

Lemma subtree_nodup n : forall P, L !! P = Some (Z.of_nat n) -> NoDup (subtree m (S n) P).
Proof.
  induction n as [n IH] using (well_founded_induction lt_wf). intros P HP. cbn [subtree]. apply NoDup_app. split; [|split; [|apply NoDup_singleton]].
  - apply NoDup_bind; [|intros i Hi%elem_of_seqz|apply NoDup_seqz].
    + intros i i' q Hi%elem_of_seqz Hi'%elem_of_seqz Hq Hq'. change (q ∈ child m n P i) in Hq. change (q ∈ child m n P i') in Hq'.
      assert (q ∈ subtree m (S n) P) as Hs by (eapply child_subtree; [|exact Hq]; lia).
      destruct (subtree_uniq n P P q HP HP Hs Hs) as [_ H]. apply H; (lia || done).
    + cbv zeta. destruct (has _ _) eqn:V; [|constructor]. destruct (entry_node P n i HP ltac:(lia) V) as (c & n' & -> & _ & -> & Hc & _).
      by apply IH; [lia|].
  - intros q (i & Hq & Hi%elem_of_seqz)%list_elem_of_bind ->%list_elem_of_singleton. apply (child_level n P i P HP ltac:(lia) Hq eq_refl).
Qed.

Lemma subtree_entry n P i q : 0 <= i < 512 -> page_ok q -> ld64 m (P + 8 * i) = Z.lor (PA2PTE q) PTE_V -> forall r,
  r ∈ subtree m n q -> r ∈ subtree m (S n) P.
Proof.
  intros Hi Pq E r Hr. apply (child_subtree m n P i); [done|]. unfold child. destruct (node_pte q Pq) as [T V]. by rewrite E, V, T.
Qed.

(** freewalk() visits exactly the pages of the table. *)
Lemma subtree_nodes : subtree m 3 root ≡ₚ nodes L.
Proof.
  pose proof (wf_root _ _ _ WF) as Hroot. apply NoDup_Permutation; [by apply (subtree_nodup 2)|apply nodes_nodup|]. intros q. rewrite elem_of_nodes. split.
  { intros Hq. destruct (subtree_level 2 root q Hroot Hq) as (lq & H & _). by exists lq. }
  intros [lq Hq]. destruct (wf_page _ _ _ WF q lq Hq) as [Pq Hl].
  destruct (decide (q = root)) as [->|Hne]; [by apply subtree_root; lia|].
  destruct (wf_up _ _ _ WF q lq Hq Hne) as (p & i & Hp & Hi & E). destruct (wf_page _ _ _ WF p _ Hp) as [Pp Hlp].
  destruct (decide (p = root)) as [->|Hnp]; [eapply (subtree_entry 2 root i q); eauto; apply subtree_root; lia|].
  destruct (wf_up _ _ _ WF p _ Hp Hnp) as (p' & i' & Hp' & Hi' & E'). destruct (wf_page _ _ _ WF p' _ Hp') as [_ Hlp'].
  assert (p' = root) as -> by (apply level2_root; rewrite Hp'; f_equal; lia).
  eapply (subtree_entry 2 root i' p); eauto. eapply (subtree_entry 1 p i q); eauto. apply subtree_root. lia.
Qed.

End leafless.

(** freewalk() of a table without leaves returns all its pages to the free list. *)
Lemma freewalk_nodes k root L l : vmst k root L l -> (forall va, 0 <= va < MAXVA -> pteof (k_mem k) root va = None) ->
  exists k' l', freewalk 3 root k = Ret tt k' /\ alloc_ok k' l' /\ l' ≡ₚ l ++ nodes L /\ memstep (nodes L) k k'.
Proof.
  intros S Hn. pose proof (vm_pt _ _ _ _ S) as WF. pose proof (subtree_nodes _ _ _ WF Hn) as Hp.
  destruct (freewalk_ok 3 k l root) as (k' & E & A & M).
  - destruct S. by split.
  - by apply (leafless_no_leaf _ root L WF Hn 2), WF.
  - by apply (subtree_nodup _ root L WF Hn 2), WF.
  - apply Forall_forall. intros q. rewrite Hp, elem_of_nodes. intros [lq Hq]. by destruct (wf_page _ _ _ WF q lq Hq).
  - intros q. rewrite Hp, elem_of_nodes. intros [lq Hq] Hl. by rewrite (vm_disj _ _ _ _ S q Hl) in Hq.
  - exists k', (rev (subtree (k_mem k) 3 root) ++ l). split; [exact E|]. split; [exact A|]. split.
    + by rewrite <- Permutation_rev, Hp, (Permutation_app_comm l).
    + eapply memstep_weaken; [exact M|]. intros q. by rewrite Hp.
Qed.

(** ** The levels are determined by the memory *)

Lemma pt_wf_sub m root L L' : pt_wf m root L -> pt_wf m root L' -> L ⊆ L'.
Proof.
  intros WF WF'. assert (forall n q l, l + Z.of_nat n = 2 -> L !! q = Some l -> L' !! q = Some l) as H.
  2: { apply map_subseteq_spec. intros q l Hq. destruct (wf_page _ _ _ WF q l Hq) as [_ Hl]. by apply (H (Z.to_nat (2 - l))); [lia|]. }
  induction n as [|n IH]; intros q l Hn Hq.
  { assert (l = 2) as -> by lia. rewrite (level2_root m root L WF q Hq). apply WF'. }
  assert (q <> root) as Hne. { intros ->. rewrite (wf_root _ _ _ WF) in Hq. injection Hq as <-. lia. }
  destruct (wf_up _ _ _ WF q l Hq Hne) as (p & i & Hp & Hi & E). pose proof (IH p (l + 1) ltac:(lia) Hp) as Hp'.
  destruct (wf_page _ _ _ WF q l Hq) as [Pq Hl]. destruct (node_pte q Pq) as [_ V]. rewrite <- E in V.
  destruct (wf_down _ _ _ WF' p (l + 1) i Hp' ltac:(lia) Hi V) as (q' & E' & Hq'). destruct (wf_page _ _ _ WF' q' _ Hq') as [Pq' _].
  rewrite E in E'. apply node_inj in E' as <-; [|done..]. rewrite Hq'. f_equal. lia.
Qed.

Lemma pt_wf_inj m root L L' : pt_wf m root L -> pt_wf m root L' -> L = L'.
Proof. intros WF WF'. apply (anti_symm (⊆)); by apply (pt_wf_sub m root). Qed.

(** ** User address spaces *)

(** Number of pages that [sz] bytes take. *)
Definition npages (sz : Z) : nat := Z.to_nat (PGROUNDUP sz / PGSIZE).

(** [root] maps its first pages by the PTEs [vs], in order, and elsewhere, by page
    number, the pages of [X]. *)
Record uvm (m : bmem) (root : Z) (X L : gmap Z Z) (vs : list Z) : Prop := Uvm {
  uv_wf : pt_wf m root L;
  uv_map : forall va, 0 <= va < MAXVA -> pteof m root va =
    if decide (vpn va < Z.of_nat (length vs)) then vs !! Z.to_nat (vpn va) else X !! vpn va;
  uv_top : forall i, i < Z.of_nat (length vs) -> X !! i = None;
  uv_max : Z.of_nat (length vs) * PGSIZE <= MAXVA;
  uv_leaf : Forall (fun v => PTE_FLAGS v <> PTE_V) vs;
  uv_page : Forall page_ok (PTE2PA <$> vs) }.

Lemma uvm_inj m root X L L' vs vs' : uvm m root X L vs -> uvm m root X L' vs' -> length vs = length vs' -> L = L' /\ vs = vs'.
Proof.
  intros U U' El. split; [eapply pt_wf_inj; [apply U|apply U']|]. apply list_eq_same_length with (length vs'); [done..|]. intros i x y Hi Hx Hy.
  pose proof (uv_max _ _ _ _ _ U). assert (vpn (Z.of_nat i * PGSIZE) = Z.of_nat i) as Ev by (unfold vpn; by rewrite Z.div_mul).
  pose proof (uv_map _ _ _ _ _ U (Z.of_nat i * PGSIZE) ltac:(lia)) as H1. pose proof (uv_map _ _ _ _ _ U' (Z.of_nat i * PGSIZE) ltac:(lia)) as H2.
  rewrite Ev, decide_True, Nat2Z.id in H1 by lia. rewrite Ev, decide_True, Nat2Z.id in H2 by lia. congruence.
Qed.

(** A kernel state with such a table, [l] the free pages; no page has two uses. *)
Record uvmst (k : kst) (root : Z) (X L : gmap Z Z) (l vs : list Z) : Prop := UvmSt {
  ut_alloc : alloc_ok k l;
  ut_uvm : uvm (k_mem k) root X L vs;
  ut_nodup : NoDup ((PTE2PA <$> vs) ++ l ++ nodes L) }.

Lemma uvmst_vmst k root X L l vs : uvmst k root X L l vs -> vmst k root L l.
Proof.
  intros [[Hh Hl Hf] [] Hnd]. constructor; try done. intros q Hq. apply eq_None_not_Some. intros HL%elem_of_nodes.
  apply NoDup_app in Hnd as (_ & _ & Hnd). apply NoDup_app in Hnd as (_ & Hd & _). by apply (Hd q).
Qed.

Lemma vmst_alloc k root L l : vmst k root L l -> alloc_ok k l.
Proof. by intros []. Qed.

Lemma uvmst_user k root X L l vs v : uvmst k root X L l vs -> v ∈ vs -> user_page L l (PTE2PA v).
Proof.
  intros [_ [_ _ _ _ _ Hp] Hnd] Hv. assert (PTE2PA v ∈ PTE2PA <$> vs) as Hin by (by apply list_elem_of_fmap_2).
  rewrite Forall_forall in Hp. apply NoDup_app in Hnd as (_ & Hd & _). specialize (Hd _ Hin). split; [by apply Hp|].
  rewrite elem_of_app, elem_of_nodes in Hd. split; [tauto|]. apply eq_None_not_Some. tauto.
Qed.

Lemma vmstep_memstep root k L l k' L' l' : vmstep root k L l k' L' l' -> memstep (l ++ nodes L) k k'.
Proof.
  intros H. split; [apply H|]. intros a Ha. apply (vs_mem _ _ _ _ _ _ _ H). intros (q & Hq & Hr). apply (Ha q); [|done].
  rewrite elem_of_app, elem_of_nodes. tauto.
Qed.

(** The address space depends on the pages of its table only. *)
Lemma uvm_frame m m' root X L vs : uvm m root X L vs -> same_pages (nodes L) m m' -> uvm m' root X L vs.
Proof.
  intros [WF Hm Ht Hx Hl Hp] Hs. destruct (outside_wf m m' root L WF) as (WF' & _ & P).
  { intros a q lq Hq. apply Hs. apply elem_of_nodes. by exists lq. }
  constructor; try done. intros va Hva. by rewrite P, Hm.
Qed.

Lemma memstep_disjoint ps k k' m qs : memstep ps k k' -> Forall page_ok ps -> Forall page_ok qs -> NoDup (qs ++ ps) ->
  same_pages qs m (k_mem k) -> same_pages qs m (k_mem k').
Proof.
  intros M Pp Pq Hnd. apply (memstep_same ps qs k k' m M Pp Pq). intros q Hq Hq'. apply NoDup_app in Hnd as (_ & Hd & _). by apply (Hd q).
Qed.

Lemma alloc_pages k l : alloc_ok k l -> Forall page_ok l.
Proof. intros [_ _ [Hf _]]. by eapply free_rep_pages. Qed.

Lemma nodes_pages m root L : pt_wf m root L -> Forall page_ok (nodes L).
Proof. intros WF. apply Forall_forall. intros q [lq Hq]%elem_of_nodes. by apply (wf_page _ _ _ WF q lq). Qed.

Lemma uvmst_pages k root X L l vs : uvmst k root X L l vs -> Forall page_ok ((PTE2PA <$> vs) ++ l ++ nodes L).
Proof.
  intros [A U _]. rewrite !Forall_app. split; [apply U|]. split; [by eapply alloc_pages|]. eapply nodes_pages, U.
Qed.

(** ** Taking pages away *)

Lemma uvmunmap_tail k root X L l vs n : uvmst k root X L l vs -> (n <= length vs)%nat ->
  exists k', uvmunmap root (Z.of_nat n * PGSIZE) (Z.of_nat (length vs - n)) true k = Ret tt k' /\
    uvmst k' root X L (rev (PTE2PA <$> drop n vs) ++ l) (take n vs) /\
    memstep ((PTE2PA <$> drop n vs) ++ l ++ nodes L) k k'.
Proof.
  intros U Hn. pose proof U as [A [WF Hm Ht Hx Hl Hp] Hnd]. pose proof (length_drop vs n) as Ed.
  assert (Permutation ((PTE2PA <$> take n vs) ++ (rev (PTE2PA <$> drop n vs) ++ l) ++ nodes L) ((PTE2PA <$> vs) ++ l ++ nodes L)) as HP.
  { rewrite <- Permutation_rev. rewrite <- (take_drop n vs) at 3. by rewrite fmap_app, <- !app_assoc. }
  unfold uvmunmap. rewrite Z.mod_mul by lia. cbn [Z.eqb negb]. rewrite Nat2Z.id, <- Ed, u64_small by lia.
  destruct (uvmunmap_loop_ok (drop n vs) (S (length (drop n vs))) k root L l (Z.of_nat n * PGSIZE) true) as (k' & E & S' & UM & Ek & F); try lia.
  - by eapply uvmst_vmst.
  - by rewrite Z.mod_mul.
  - intros i v Hi. rewrite lookup_drop in Hi. pose proof (lookup_lt_Some _ _ _ Hi). split; [|split].
    + assert (vpn (Z.of_nat n * PGSIZE + Z.of_nat i * PGSIZE) = Z.of_nat (n + i)) as Ev by (unfold vpn; dlia).
      rewrite Hm, Ev, decide_True, Nat2Z.id by lia. exact Hi.
    + by eapply Forall_lookup_1 in Hl.
    + intros _. eapply uvmst_user; [exact U|]. by eapply list_elem_of_lookup_2.
  - apply NoDup_app in Hnd as [Hnd _]. rewrite <- (take_drop n vs), fmap_app in Hnd. by apply NoDup_app in Hnd as (_ & _ & ?).
  - exists k'. split; [exact E|]. cbn [after_unmap] in *. split; [split|].
    + by eapply vmst_alloc.
    + constructor; rewrite ?length_take; try lia.
      * apply S'.
      * intros va Hva. rewrite (UM va Hva), Ed, Hm by done. unfold vpn in *. rewrite Z.div_mul by lia.
        replace (n `min` length vs)%nat with n by lia. destruct (decide (va / PGSIZE < Z.of_nat n)).
        -- rewrite decide_False, decide_True by lia. rewrite lookup_take_lt by (pose proof (Z.div_pos va PGSIZE); lia). done.
        -- destruct (decide (va / PGSIZE < Z.of_nat (length vs))); [|by rewrite decide_False by lia].
           rewrite decide_True, Ht by lia. done.
      * intros i Hi. apply Ht. lia.
      * by apply Forall_take.
      * rewrite fmap_take. by apply Forall_take.
    + by rewrite HP.
    + split; [exact Ek|]. intros a Ha. apply F. intros (q & Hq & Hr). apply (Ha q); [|done].
      rewrite !elem_of_app, elem_of_rev, elem_of_nodes in *. tauto.
Qed.

Lemma npages_eq sz : 0 <= sz <= MAXVA -> Z.of_nat (npages sz) * PGSIZE = PGROUNDUP sz /\ sz <= PGROUNDUP sz <= MAXVA /\ PGROUNDUP sz < sz + PGSIZE.
Proof. intros Hs. unfold npages. rewrite PGROUNDUP_eq by lia. dlia. Qed.

Lemma uvmdealloc_ok k root X L l vs oldsz newsz : uvmst k root X L l vs -> 0 <= newsz -> 0 <= oldsz <= MAXVA -> length vs = npages oldsz ->
  newsz < oldsz -> exists k', let n := npages newsz in uvmdealloc root oldsz newsz k = Ret newsz k' /\
    uvmst k' root X L (rev (PTE2PA <$> drop n vs) ++ l) (take n vs) /\
    memstep ((PTE2PA <$> drop n vs) ++ l ++ nodes L) k k'.
Proof.
  intros U Hn Ho Hlen Hlt. destruct (npages_eq newsz ltac:(lia)) as (En & Bn & Cn), (npages_eq oldsz ltac:(lia)) as (Eo & Bo & Co).
  assert (npages newsz <= npages oldsz)%nat as Hle by dlia. cbv zeta.
  destruct (uvmunmap_tail k root X L l vs (npages newsz) U ltac:(lia)) as (k' & E & U' & M).
  unfold uvmdealloc. rewrite (proj2 (Z.leb_gt oldsz newsz)) by lia. destruct (PGROUNDUP newsz <? PGROUNDUP oldsz) eqn:Lt.
  - exists k'. split; [|done]. cbn [when]. rewrite <- En, <- Eo, <- Hlen.
    replace ((Z.of_nat (length vs) * PGSIZE - Z.of_nat (npages newsz) * PGSIZE) / PGSIZE) with (Z.of_nat (length vs - npages newsz)) by dlia.
    pose proof (uv_max _ _ _ _ _ (ut_uvm _ _ _ _ _ _ U)). rewrite i32_small, u64_small by lia. by mcall E.
  - exists k. assert (drop (npages newsz) vs = []) as -> by (apply drop_ge; dlia). rewrite take_ge by dlia.
    split; [done|]. split; [done|]. apply memstep_refl.
Qed.

(** ** Freeing an address space *)

Lemma uvmfree_ok k root L l vs sz : uvmst k root ∅ L l vs -> 0 <= sz <= MAXVA -> length vs = npages sz ->
  exists k' l', uvmfree root sz k = Ret tt k' /\ alloc_ok k' l' /\ l' ≡ₚ (PTE2PA <$> vs) ++ l ++ nodes L /\
    memstep ((PTE2PA <$> vs) ++ l ++ nodes L) k k'.
Proof.
  intros U Hsz Hlen. destruct (npages_eq sz Hsz) as (En & Bn & _).
  assert (exists k1, when (0 <? sz) (uvmunmap root 0 (PGROUNDUP sz / PGSIZE) true) k = Ret tt k1 /\
    uvmst k1 root ∅ L (rev (PTE2PA <$> vs) ++ l) [] /\ memstep ((PTE2PA <$> vs) ++ l ++ nodes L) k k1) as (k1 & E1 & U1 & M1).
  { destruct (0 <? sz) eqn:Z0; cbn [when].
    - destruct (uvmunmap_tail k root ∅ L l vs O U ltac:(lia)) as (k1 & E & U1 & M). exists k1. split; [|done].
      rewrite Nat.sub_0_r in E. rewrite <- E, Hlen, <- En, Z.div_mul by lia. done.
    - assert (vs = []) as -> by (apply nil_length_inv; rewrite Hlen; assert (sz = 0) as -> by lia; done).
      exists k. split; [done|]. split; [done|]. apply memstep_refl. }
  destruct (freewalk_nodes k1 root L _ (uvmst_vmst _ _ _ _ _ _ U1)) as (k' & l' & E2 & A & HP & M2).
  { intros va Hva. rewrite (uv_map _ _ _ _ _ (ut_uvm _ _ _ _ _ _ U1)) by done. destruct (decide _); [done|apply lookup_empty]. }
  exists k', l'. unfold uvmfree. mcall E1. split; [exact E2|]. split; [exact A|]. split.
  - by rewrite HP, <- Permutation_rev, <- app_assoc.
  - eapply memstep_weaken; [exact (memstep_trans _ _ _ _ _ M1 M2)|]. intros q. rewrite !elem_of_app. tauto.
Qed.

(** ** Adding a page *)

Lemma lor_flags perm : 0 <= perm < 1024 -> 0 <= Z.lor perm PTE_V < 1024.
Proof.
  intros Hf. split; [apply Z.lor_nonneg; lia|]. change 1024 with (2 ^ 10). destruct (decide (Z.lor perm PTE_V = 0)) as [->|]; [lia|].
  apply Z.log2_lt_pow2; [pose proof (Z.lor_nonneg perm PTE_V); lia|]. rewrite Z.log2_lor by lia. apply Z.max_lub_lt; [|done].
  destruct (decide (perm = 0)) as [->|]; [done|]. apply Z.log2_lt_pow2; lia.
Qed.

Lemma leaf_pte_flags p perm : page_ok p -> 0 <= perm < 1024 ->
  PTE2PA (leaf_pte p perm) = p /\ PTE_FLAGS (leaf_pte p perm) = Z.lor perm PTE_V.
Proof.
  intros Hp Hf. destruct (page_ok_range p Hp) as [Hr Ha]. unfold leaf_pte. rewrite <- Z.lor_assoc. apply PTE2PA_PA2PTE; [lia|done|by apply lor_flags].
Qed.

(** mappages() of one page. *)
Lemma mappages_one k root L l a pa perm : vmst k root L l -> a `mod` PGSIZE = 0 -> 0 <= a < MAXVA -> 0 <= pa < 2 ^ 56 -> 0 <= perm < 1024 ->
  pteof (k_mem k) root a = None ->
  exists r k' L' l', mappages root a PGSIZE pa perm k = Ret r k' /\ vmstep root k L l k' L' l' /\ (length l <= length l' + 2)%nat /\
    ((r = 0 /\ maps (k_mem k) (k_mem k') root a 1 pa perm) \/
     (r = -1 /\ l' = [] /\ (length l < 2)%nat /\ maps (k_mem k) (k_mem k') root a 0 pa perm)).
Proof.
  intros S Hal Ha Hpa Hp Hun. destruct (mappages_iter k root L l a pa perm S Ha Hpa Hp Hun) as (k' & L' & l' & St & Hn & H).
  unfold mappages. change (PGSIZE =? 0) with false. cbv iota. rewrite (u64_small (a + PGSIZE - 1)), !PGROUNDDOWN_eq by lia.
  replace (a - a `mod` PGSIZE) with a by lia. replace (a + PGSIZE - 1 - (a + PGSIZE - 1) `mod` PGSIZE) with a by dlia.
  destruct H as [(-> & Hl & M & E)|[M E]]; rewrite E.
  - exists (-1), k', L', []. split_and!; try done. by right.
  - rewrite Z.eqb_refl. exists 0, k', L', l'. split_and!; try done. by left.
Qed.

(** The page after the last one is mapped to [p]. *)
Lemma uvmst_snoc k root X L l vs k' L' l' p perm : uvmst k root X L l vs -> page_ok p -> p ∉ (PTE2PA <$> vs) ++ l ++ nodes L ->
  0 <= perm < 1024 -> Z.lor perm PTE_V <> PTE_V -> X !! Z.of_nat (length vs) = None -> (Z.of_nat (length vs) + 1) * PGSIZE <= MAXVA ->
  vmstep root k L l k' L' l' -> maps (k_mem k) (k_mem k') root (Z.of_nat (length vs) * PGSIZE) 1 p perm ->
  uvmst k' root X L' l' (vs ++ [leaf_pte p perm]).
Proof.
  intros [A [WF Hm Ht Hx Hl Hpg] Hnd] Hp Hn Hf Hf' HX Hmax St M. destruct (leaf_pte_flags p perm Hp Hf) as [Ep Ef].
  split; [eapply vmst_alloc, St|constructor; rewrite ?length_app; cbn [length]|].
  - apply St.
  - intros va Hva. rewrite (M va Hva). unfold vpn in *. rewrite Z.div_mul by lia. pose proof (Z.div_pos va PGSIZE ltac:(lia) ltac:(lia)).
    destruct (decide (va / PGSIZE < Z.of_nat (length vs))) as [D|D].
    + rewrite decide_False, Hm, decide_True, decide_True, lookup_app_l by lia. done.
    + destruct (decide (va / PGSIZE = Z.of_nat (length vs))) as [->|D'].
      * rewrite decide_True, decide_True, Nat2Z.id, list_lookup_middle by lia. do 2 f_equal. lia.
      * rewrite decide_False, Hm, decide_False, decide_False by lia. done.
  - intros i Hi. destruct (decide (i = Z.of_nat (length vs))) as [->|]; [done|apply Ht; lia].
  - lia.
  - apply Forall_app. split; [done|]. apply Forall_singleton. by rewrite Ef.
  - rewrite fmap_app, Forall_app. split; [done|]. cbn. apply Forall_singleton. by rewrite Ep.
  - rewrite fmap_app. cbn [fmap list_fmap]. rewrite Ep, <- app_assoc, <- (vs_pages _ _ _ _ _ _ _ St). cbn [app].
    rewrite <- Permutation_middle. by apply NoDup_cons.
Qed.

(** A failed mapping changes no translation. *)
Lemma uvmst_same k root X L l vs k' L' l' a pa perm : uvmst k root X L l vs ->
  vmstep root k L l k' L' l' -> maps (k_mem k) (k_mem k') root a 0 pa perm -> uvmst k' root X L' l' vs.
Proof.
  intros [A [WF Hm Ht Hx Hl Hpg] Hnd] St M. split; [eapply vmst_alloc, St|constructor; try done|by rewrite <- (vs_pages _ _ _ _ _ _ _ St)].
  - apply St.
  - intros va Hva. rewrite (M va Hva), decide_False by lia. by apply Hm.
Qed.

(** The state after kalloc() returned [p], which was then filled with [bs]. *)
Definition kalloced (k : kst) (p : Z) (f : bmem -> bmem) : kst :=
  set_k_mem (f (memset (k_mem k) p 5 (Z.to_nat PGSIZE))) (set_k_freelist (ld64 (k_mem k) p) k).

Lemma kalloc_step k root X L l vs p f : uvmst k root X L (p :: l) vs -> (forall m, same_but_page p m (f m)) ->
  kalloc k = Ret p (kalloced k p id) /\ p <> 0 /\ page_ok p /\ p ∉ (PTE2PA <$> vs) ++ l ++ nodes L /\
  uvmst (kalloced k p f) root X L l vs /\ memstep [p] k (kalloced k p f).
Proof.
  intros [[Hh Hl Hf] U Hnd] Hsame. destruct (kmem_inv_kalloc k p l Hf) as ([Hr Hnl] & Hp & Hpl). ksimpl in Hr.
  destruct (page_ok_range p Hp) as [Rp _]. change ((p :: l) ++ nodes L) with (p :: l ++ nodes L) in Hnd. rewrite <- Permutation_middle in Hnd. apply NoDup_cons in Hnd as [Hn Hnd].
  assert (memstep [p] k (kalloced k p f)) as M.
  { split; [done|]. intros a Ha. unfold kalloced. ksimpl. specialize (Ha p ltac:(by left)). rewrite Hsame by done. by apply same_but_page_memset. }
  split; [by apply (kalloc_cons k p l)|]. split; [lia|]. split; [done|]. split; [done|]. split; [|exact M]. split; [split; try done|..|done].
  - split; [|done]. unfold kalloced. ksimpl. by eapply free_rep_frame.
  - eapply uvm_frame; [exact U|]. eapply (memstep_same _ _ _ _ _ M); [by apply Forall_singleton|eapply nodes_pages, U| |done].
    intros q ->%list_elem_of_singleton Hq. apply Hn. rewrite !elem_of_app. tauto.
Qed.

Lemma uvmst_kfree k root X L l vs p : uvmst k root X L l vs -> page_ok p -> p ∉ (PTE2PA <$> vs) ++ l ++ nodes L ->
  exists k', kfree p k = Ret tt k' /\ uvmst k' root X L (p :: l) vs /\ memstep [p] k k'.
Proof.
  intros [A U Hnd] Hp Hn. destruct (kfree_step k l p A Hp) as (E & A' & M).
  { rewrite !elem_of_app in Hn. tauto. }
  exists (kfreed k p). split; [exact E|]. split; [|exact M]. split; [exact A'|..].
  - eapply uvm_frame; [exact U|]. eapply (memstep_same _ _ _ _ _ M); [by apply Forall_singleton|eapply nodes_pages, U| |done].
    intros q ->%list_elem_of_singleton Hq. apply Hn. rewrite !elem_of_app. tauto.
  - change ((p :: l) ++ nodes L) with (p :: l ++ nodes L). rewrite <- Permutation_middle. by apply NoDup_cons.
Qed.

(** What is done to the table leaves other pages alone. *)
Lemma memstep_keep k root X L l vs k' m p : uvmst k root X L l vs -> memstep (l ++ nodes L) k k' -> page_ok p -> p ∉ l ++ nodes L ->
  same_pages [p] m (k_mem k) -> same_pages [p] m (k_mem k').
Proof.
  intros U M Pp Hn. eapply (memstep_same _ _ _ _ _ M); [|by apply Forall_singleton|].
  - pose proof (uvmst_pages _ _ _ _ _ _ U) as HP. by apply Forall_app in HP as [_ HP].
  - by intros q Hq ->%list_elem_of_singleton.
Qed.

(** One more page: allocate it, fill it, map it; undone when there is no memory for
    the page table. *)
Lemma grow_one k root X L l vs p f perm : uvmst k root X L (p :: l) vs -> (forall m, same_but_page p m (f m)) ->
  0 <= perm < 1024 -> Z.lor perm PTE_V <> PTE_V -> X !! Z.of_nat (length vs) = None -> (Z.of_nat (length vs) + 1) * PGSIZE <= MAXVA ->
  exists r k' L' l', mappages root (Z.of_nat (length vs) * PGSIZE) PGSIZE p perm (kalloced k p f) = Ret r k' /\ (length l <= length l' + 2)%nat /\
    ((r = 0 /\ uvmst k' root X L' l' (vs ++ [leaf_pte p perm]) /\ l ++ nodes L ≡ₚ l' ++ nodes L' /\
        same_pages [p] (k_mem (kalloced k p f)) (k_mem k') /\ memstep ((p :: l) ++ nodes L) k k') \/
     (r = -1 /\ (length l < 2)%nat /\ exists k'', kfree p k' = Ret tt k'' /\ uvmst k'' root X L' [p] vs /\
        [p] ++ nodes L' ≡ₚ (p :: l) ++ nodes L /\ memstep ((p :: l) ++ nodes L) k k'')).
Proof.
  intros U Hf Hp Hp' HX Hmax. destruct (kalloc_step k root X L l vs p f U Hf) as (_ & _ & Pp & Hn & U1 & M1). destruct (page_ok_range p Pp) as [Rp _].
  destruct (mappages_one (kalloced k p f) root L l (Z.of_nat (length vs) * PGSIZE) p perm) as (r & k' & L' & l' & E & St & Hlen & H); try lia.
  { by eapply uvmst_vmst. }
  { by rewrite Z.mod_mul. }
  { rewrite (uv_map _ _ _ _ _ (ut_uvm _ _ _ _ _ _ U1)) by lia. unfold vpn. rewrite Z.div_mul, decide_False by lia. done. }
  pose proof (vmstep_memstep _ _ _ _ _ _ _ St) as M2. pose proof (memstep_trans _ _ _ _ _ M1 M2) as M.
  exists r, k', L', l'. split; [exact E|]. split; [exact Hlen|]. destruct H as [[-> Hmaps]|(-> & -> & Hl & Hmaps)]; [left|right].
  - split; [done|]. split; [by eapply uvmst_snoc|]. split; [apply St|]. split; [|exact M].
    eapply (memstep_keep _ _ _ _ _ _ _ _ _ U1 M2); [done| |done]. rewrite elem_of_app in Hn. tauto.
  - split; [done|]. split; [done|]. pose proof (uvmst_same _ _ _ _ _ _ _ _ _ _ _ _ U1 St Hmaps) as U2.
    destruct (uvmst_kfree k' root X L' [] vs p U2 Pp) as (k'' & E3 & U3 & M3).
    { by rewrite <- (vs_pages _ _ _ _ _ _ _ St). }
    exists k''. split; [exact E3|]. split; [exact U3|]. split.
    + cbn [app]. by rewrite (vs_pages _ _ _ _ _ _ _ St).
    + eapply memstep_weaken; [exact (memstep_trans _ _ _ _ _ M M3)|]. intros q. rewrite !elem_of_app, !elem_of_cons, elem_of_nil. tauto.
Qed.

(** ** Growing *)

(** [n0] of the pages are kept. *)
Lemma uvmdealloc_pages k root X L l vs n0 : uvmst k root X L l vs -> (n0 <= length vs)%nat ->
  exists r k', uvmdealloc root (Z.of_nat (length vs) * PGSIZE) (Z.of_nat n0 * PGSIZE) k = Ret r k' /\
    uvmst k' root X L (rev (PTE2PA <$> drop n0 vs) ++ l) (take n0 vs) /\ memstep ((PTE2PA <$> drop n0 vs) ++ l ++ nodes L) k k'.
Proof.
  intros U Hn. pose proof (uv_max _ _ _ _ _ (ut_uvm _ _ _ _ _ _ U)). assert (forall n, Z.of_nat n * PGSIZE <= MAXVA -> npages (Z.of_nat n * PGSIZE) = n) as En.
  { intros n Hm. unfold npages. rewrite PGROUNDUP_eq by lia. dlia. }
  destruct (decide (n0 = length vs)) as [->|Hne].
  - rewrite drop_all, take_ge by lia. exists (Z.of_nat (length vs) * PGSIZE), k. unfold uvmdealloc. rewrite Z.leb_refl.
    split; [done|]. split; [done|]. apply memstep_refl.
  - destruct (uvmdealloc_ok k root X L l vs (Z.of_nat (length vs) * PGSIZE) (Z.of_nat n0 * PGSIZE) U) as (k' & E & U' & M); try lia.
    { by rewrite En. }
    rewrite En in U', M by lia. by eexists _, k'.
Qed.

Definition zero_page (m : bmem) (p : Z) : Prop := forall a, p <= a < p + PGSIZE -> ld8 m a = 0.

Lemma held_tail vs n0 l L : (PTE2PA <$> take n0 vs) ++ (rev (PTE2PA <$> drop n0 vs) ++ l) ++ nodes L ≡ₚ (PTE2PA <$> vs) ++ l ++ nodes L.
Proof. rewrite <- Permutation_rev. rewrite <- (take_drop n0 vs) at 3. by rewrite fmap_app, <- !app_assoc. Qed.

Lemma uvmalloc_loop_ok root X n0 newsz : 0 <= newsz <= MAXVA -> forall j fuel k L l vs,
  uvmst k root X L l vs -> (n0 <= length vs)%nat -> npages newsz = (length vs + j)%nat -> (j < fuel)%nat ->
  (forall i, Z.of_nat (length vs) <= i < Z.of_nat (npages newsz) -> X !! i = None) ->
  exists r k' L' l', uvmalloc_loop fuel root (Z.of_nat (length vs) * PGSIZE) (Z.of_nat n0 * PGSIZE) newsz k = Ret r k' /\
    ((r = newsz /\ memstep (l ++ nodes L) k k' /\ exists ps, length ps = j /\ uvmst k' root X L' l' (vs ++ ((fun p => leaf_pte p PTE_WXRU) <$> ps)) /\
        l ++ nodes L ≡ₚ ps ++ l' ++ nodes L' /\ (length l <= length l' + 3 * j)%nat /\ Forall (zero_page (k_mem k')) ps) \/
     (r = 0 /\ (length l < 3 * j)%nat /\ memstep ((PTE2PA <$> drop n0 vs) ++ l ++ nodes L) k k' /\
        uvmst k' root X L' l' (take n0 vs) /\ l' ++ nodes L' ≡ₚ (PTE2PA <$> drop n0 vs) ++ l ++ nodes L)).
Proof.
  intros Hnew. destruct (npages_eq newsz Hnew) as (En & Bn & Cn).
  induction j as [|j IH]; intros [|fuel] k L l vs U Hn0 Hj Hf HX; try lia; cbn [uvmalloc_loop].
  { exists newsz, k, L, l. destruct (_ <? newsz) eqn:Lt; [lia|]. cbn [negb]. split; [done|]. left. split; [done|].
    split; [apply memstep_refl|]. exists []. rewrite app_nil_r. split_and!; (done || lia). }
  destruct (_ <? newsz) eqn:Lt; [|lia]. cbn [negb]. destruct l as [|p l].
  { destruct (ut_alloc _ _ _ _ _ _ U) as [Hh Hl Hfr]. mcall (kalloc_empty k Hh Hl Hfr). cbn [Z.eqb].
    destruct (uvmdealloc_pages k root X L [] vs n0 U Hn0) as (r & k' & E & U' & M). mcall E.
    exists 0, k', L, (rev (PTE2PA <$> drop n0 vs) ++ []). split; [done|]. right. split; [done|]. split; [simpl; lia|]. split; [exact M|]. split; [exact U'|].
    by rewrite app_nil_r, <- Permutation_rev. }
  set (f := fun m => memset m p 0 (Z.to_nat PGSIZE)).
  destruct (kalloc_step k root X L l vs p f U (same_but_page_memset p 0)) as (E & Hp0 & Pp & Hn & U1 & M1).
  mcall E. rewrite (proj2 (Z.eqb_neq p 0)) by done. unfold fill_page. mstep. change (set_k_mem _ (kalloced k p id)) with (kalloced k p f).
  destruct (grow_one k root X L l vs p f PTE_WXRU U (same_but_page_memset p 0)) as (r & k1 & L1 & l1 & E1 & Hlen & H); try done.
  { apply HX. lia. }
  { lia. }
  mcall E1. destruct H as [(-> & U2 & HP & Hs & M2)|(-> & Hl & k2 & E2 & U2 & HP & M2)]; cbn [Z.eqb negb].
  - rewrite u64_small by lia. replace (Z.of_nat (length vs) * PGSIZE + PGSIZE) with (Z.of_nat (length (vs ++ [leaf_pte p PTE_WXRU])) * PGSIZE) by (rewrite length_app; simpl; lia).
    destruct (IH fuel k1 L1 l1 (vs ++ [leaf_pte p PTE_WXRU]) U2) as (r & k' & L' & l' & E3 & H); try (rewrite length_app; cbn [length]; lia); try lia.
    { intros i Hi. rewrite length_app in Hi. cbn [length] in Hi. apply HX. lia. }
    exists r, k', L', l'. split; [exact E3|]. destruct H as [(-> & M3 & ps & Hps & U3 & HP3 & Hc3 & Hz)|(-> & Hl3 & M3 & U3 & HP3)]; [left|right].
    + split; [done|]. split.
      { eapply memstep_weaken; [exact (memstep_trans _ _ _ _ _ M2 M3)|]. intros q. rewrite <- HP, !elem_of_app, elem_of_cons. tauto. }
      exists (p :: ps). split; [simpl; lia|]. split; [cbn [fmap list_fmap]; by rewrite <- app_assoc in U3|].
      split; [cbn [app]; by rewrite HP, HP3|]. split; [simpl; lia|]. constructor; [|done]. intros a Ha.
      assert (same_pages [p] (k_mem (kalloced k p f)) (k_mem k')) as Hs3.
      { eapply (memstep_keep _ _ _ _ _ _ _ _ _ U2 M3); [done| |done]. rewrite <- HP. rewrite elem_of_app in Hn. tauto. }
      rewrite (Hs3 p a) by (by left || done). unfold kalloced, f. ksimpl. rewrite ld8_memset, decide_True by lia. done.
    + rewrite drop_app_le, take_app_le in * by lia. rewrite fmap_app in M3, HP3. destruct (leaf_pte_flags p PTE_WXRU Pp ltac:(by vm_compute)) as [Ep _].
      cbn [fmap list_fmap] in M3, HP3. rewrite Ep in M3, HP3. split; [done|]. split; [simpl; lia|]. split; [|split; [exact U3|]].
      * eapply memstep_weaken; [exact (memstep_trans _ _ _ _ _ M2 M3)|]. intros q. rewrite !elem_of_app, !elem_of_cons, !elem_of_nil.
        assert (q ∈ l1 \/ q ∈ nodes L1 <-> q ∈ l \/ q ∈ nodes L) as Hq by (by rewrite <- !elem_of_app, HP). clear -Hq. tauto.
      * rewrite HP3, <- app_assoc. cbn [app]. by rewrite HP.
  - mcall E2. destruct (uvmdealloc_pages k2 root X L1 [p] vs n0 U2 Hn0) as (r & k' & E3 & U3 & M3). mcall E3.
    exists 0, k', L1, (rev (PTE2PA <$> drop n0 vs) ++ [p]). split; [done|]. right. split; [done|]. split; [simpl; lia|]. split; [|split; [exact U3|]].
    + eapply memstep_weaken; [exact (memstep_trans _ _ _ _ _ M2 M3)|]. intros q.
      assert (q ∈ [p] ++ nodes L1 <-> q ∈ (p :: l) ++ nodes L) as Hq by (by rewrite HP). clear -Hq. by elems.
    + by rewrite <- Permutation_rev, <- app_assoc, HP.
Qed.

Lemma uvmalloc_ok k root X L l vs oldsz newsz : uvmst k root X L l vs -> 0 <= oldsz <= newsz -> newsz <= MAXVA -> length vs = npages oldsz ->
  (forall i, Z.of_nat (npages oldsz) <= i < Z.of_nat (npages newsz) -> X !! i = None) ->
  exists r k' L' l', uvmalloc root oldsz newsz k = Ret r k' /\ memstep (l ++ nodes L) k k' /\
    let j := (npages newsz - npages oldsz)%nat in
    ((r = newsz /\ exists ps, length ps = j /\ uvmst k' root X L' l' (vs ++ ((fun p => leaf_pte p PTE_WXRU) <$> ps)) /\
        l ++ nodes L ≡ₚ ps ++ l' ++ nodes L' /\ (length l <= length l' + 3 * j)%nat /\ Forall (zero_page (k_mem k')) ps) \/
     (r = 0 /\ (length l < 3 * j)%nat /\ uvmst k' root X L' l' vs /\ l ++ nodes L ≡ₚ l' ++ nodes L')).
Proof.
  intros U Ho Hn Hlen HX. destruct (npages_eq oldsz ltac:(lia)) as (Eo & Bo & Co), (npages_eq newsz ltac:(lia)) as (En & Bn & Cn).
  assert (npages oldsz <= npages newsz)%nat as Hle by dlia. unfold uvmalloc. rewrite (proj2 (Z.ltb_ge newsz oldsz)) by lia.
  rewrite <- Eo, <- Hlen.
  destruct (uvmalloc_loop_ok root X (length vs) newsz ltac:(lia) (npages newsz - npages oldsz)
    (S (Z.to_nat ((newsz - Z.of_nat (length vs) * PGSIZE + PGSIZE) / PGSIZE))) k L l vs U) as (r & k' & L' & l' & E & H); try lia.
  { dlia. }
  { rewrite Hlen. exact HX. }
  exists r, k', L', l'. split; [exact E|]. rewrite drop_all, take_ge in H by lia. cbv zeta.
  destruct H as [(-> & M & H)|(-> & Hl & M & U' & HP)]; (split; [exact M|]); rewrite Hlen; [by left|right]. split_and!; [done|exact Hl|exact U'|symmetry; exact HP].
Qed.

(** ** Copying *)

(** Page [p] holds in [m'] what the page of PTE [v] holds in [m]. *)
Definition copied (m m' : bmem) (v p : Z) : Prop := forall o, 0 <= o < PGSIZE -> ld8 m' (p + o) = ld8 m (PTE2PA v + o).

(** The PTE uvmcopy() makes for the copy [p] of the page of [v]. *)
Definition copy_pte (v p : Z) : Z := leaf_pte p (PTE_FLAGS v).

Lemma pteof_valid m root va v : pteof m root va = Some v -> has v PTE_V = true.
Proof.
  unfold pteof. destruct (ptwalk m root va); [|done]. cbn [mbind option_bind]. destruct (has (ld64 m z) PTE_V) eqn:E; [|done]. by intros [= <-].
Qed.

Lemma PTE_FLAGS_range v : 0 <= PTE_FLAGS v < 1024.
Proof. unfold PTE_FLAGS. change 1023 with (Z.ones 10). rewrite Z.land_ones by lia. change (2 ^ 10) with 1024. dlia. Qed.

Lemma valid_flags v : has v PTE_V = true -> 0 <= PTE_FLAGS v < 1024 /\ Z.lor (PTE_FLAGS v) PTE_V = PTE_FLAGS v.
Proof.
  intros H. split; [apply PTE_FLAGS_range|]. unfold PTE_FLAGS.
  unfold has, truth in H. change PTE_V with (2 ^ 0) in *. apply Z.bits_inj'. intros i Hi. rewrite Z.lor_spec, Z.land_spec.
  destruct (decide (i = 0)) as [->|]; [|rewrite Z.pow2_bits_false by done; by rewrite orb_false_r].
  assert (Z.testbit v 0 = true) as ->; [|done]. destruct (Z.testbit v 0) eqn:E; [done|]. exfalso. revert H.
  assert (Z.land v (2 ^ 0) = 0) as ->; [|done]. apply Z.bits_inj'. intros n Hn. rewrite Z.land_spec, Z.bits_0.
  destruct (decide (n = 0)) as [->|]; [by rewrite E|]. rewrite Z.pow2_bits_false by done. apply andb_false_r.
Qed.

(** The pages and the flags of copied PTEs. *)
Lemma copy_ptes vso ps : (length ps <= length vso)%nat -> Forall page_ok ps -> PTE2PA <$> zip_with copy_pte vso ps = ps.
Proof.
  revert vso. induction ps as [|p ps IH]; intros [|v vso] Hl Hp; simpl in Hl; try done; try lia. apply Forall_cons in Hp as [Hp Hps].
  cbn [zip_with fmap list_fmap]. f_equal; [apply leaf_pte_flags; [done|apply PTE_FLAGS_range]|apply IH; [lia|done]].
Qed.

Lemma copy_flags vso ps : length ps = length vso -> Forall page_ok ps -> Forall (fun v => has v PTE_V = true) vso ->
  PTE_FLAGS <$> zip_with copy_pte vso ps = PTE_FLAGS <$> vso.
Proof.
  revert vso. induction ps as [|p ps IH]; intros [|v vso] Hl Hp Hv; simpl in Hl; try done. apply Forall_cons in Hp as [Hp Hps], Hv as [Hv Hvs].
  cbn [zip_with fmap list_fmap]. f_equal; [|apply IH; [lia|done..]]. destruct (valid_flags v Hv) as [Hf E]. unfold copy_pte.
  by destruct (leaf_pte_flags p (PTE_FLAGS v) Hp Hf) as [_ ->].
Qed.

(** walk() and read of the PTE of user page [i]. *)
Lemma uvm_walk k root X L vs i v : uvm (k_mem k) root X L vs -> vs !! i = Some v ->
  exists pte, walk root (Z.of_nat i * PGSIZE) false k = Ret pte k /\ pte <> 0 /\ ld64 (k_mem k) pte = v /\ has v PTE_V = true.
Proof.
  intros [WF Hm _ Hx _ _] Hi. pose proof (lookup_lt_Some _ _ _ Hi). specialize (Hm (Z.of_nat i * PGSIZE) ltac:(lia)).
  unfold vpn in Hm. rewrite Z.div_mul, decide_True, Nat2Z.id, Hi in Hm by lia. pose proof (pteof_valid _ _ _ _ Hm) as V.
  unfold pteof in Hm. destruct (ptwalk (k_mem k) root (Z.of_nat i * PGSIZE)) as [a|] eqn:W; [|done]. cbn [mbind option_bind] in Hm.
  exists a. rewrite walk_find, W by lia. pose proof (ptwalk_nonzero _ _ _ _ _ WF W). split; [done|]. split; [lia|]. split; [|done].
  destruct (has (ld64 (k_mem k) a) PTE_V); [|done]. by injection Hm.
Qed.

Definition page_bytes (m : bmem) (pa : Z) : list Z := ldn m pa (Z.to_nat PGSIZE).

(** One iteration of uvmcopy(). *)
Lemma uvmcopy_iter k old Xo Lo vso new X L l ws v sz : uvm (k_mem k) old Xo Lo vso -> uvmst k new X L l ws -> vso !! length ws = Some v ->
  (forall q, q ∈ (PTE2PA <$> vso) ++ nodes Lo -> q ∉ l ++ nodes L) -> X !! Z.of_nat (length ws) = None -> Z.of_nat (length ws) * PGSIZE < sz ->
  (exists k' L' l', memstep (l ++ nodes L) k k' /\ uvmst k' new X L' l' ws /\ l ++ nodes L ≡ₚ l' ++ nodes L' /\ (length l < 3)%nat /\
     forall fuel, uvmcopy_loop (S fuel) old new (Z.of_nat (length ws) * PGSIZE) sz k = Ret (Some (Z.of_nat (length ws) * PGSIZE)) k') \/
  (exists p k' L' l', memstep (l ++ nodes L) k k' /\ uvmst k' new X L' l' (ws ++ [copy_pte v p]) /\ l ++ nodes L ≡ₚ p :: l' ++ nodes L' /\
     copied (k_mem k) (k_mem k') v p /\ (length l <= length l' + 3)%nat /\
     forall fuel, uvmcopy_loop (S fuel) old new (Z.of_nat (length ws) * PGSIZE) sz k =
       uvmcopy_loop fuel old new (Z.of_nat (S (length ws)) * PGSIZE) sz k').
Proof.
  intros Uo U Hv Hdisj HX Hsz. destruct (uvm_walk _ _ _ _ _ _ _ Uo Hv) as (pte & W & Hp0 & Hpte & V). destruct (valid_flags v V) as [Hfl Hflv].
  assert (PTE_FLAGS v <> PTE_V) as Hleaf by exact (Forall_lookup_1 _ _ _ _ (uv_leaf _ _ _ _ _ Uo) Hv).
  assert (page_ok (PTE2PA v)) as Pv.
  { eapply (Forall_lookup_1 _ (PTE2PA <$> vso) (length ws)); [apply Uo|]. by rewrite list_lookup_fmap, Hv. }
  pose proof (lookup_lt_Some _ _ _ Hv) as Hlt. pose proof (uv_max _ _ _ _ _ Uo) as Hmax.
  assert (Z.of_nat (length ws) * PGSIZE <? sz = true) as Hb by lia.
  destruct l as [|p l].
  { left. exists k, L, []. split; [apply memstep_refl|]. split; [done|]. split; [done|]. split; [simpl; lia|]. intros fuel. cbn [uvmcopy_loop].
    rewrite Hb. cbn [negb]. mcall W. rewrite (proj2 (Z.eqb_neq pte 0)) by done. unfold read64. mstep. rewrite Hpte, V. cbn [negb].
    destruct (ut_alloc _ _ _ _ _ _ U) as [Hh Hl Hfr]. by mcall (kalloc_empty k Hh Hl Hfr). }
  set (bs := page_bytes (k_mem (kalloced k p id)) (PTE2PA v)). set (f := fun m => stn m p bs).
  assert (forall m, same_but_page p m (f m)) as Hf.
  { intros m a Ha. unfold f. rewrite ld8_stn, decide_False; [done|]. unfold bs, page_bytes. rewrite length_ldn. lia. }
  destruct (kalloc_step k new X L l ws p f U Hf) as (E & Hpz & Pp & Hn & U1 & M1).
  destruct (grow_one k new X L l ws p f (PTE_FLAGS v) U Hf Hfl ltac:(by rewrite Hflv) HX ltac:(lia)) as (r & k1 & L1 & l1 & E1 & Hlen & H).
  assert (forall fuel, uvmcopy_loop (S fuel) old new (Z.of_nat (length ws) * PGSIZE) sz k =
    (if negb (r =? 0) then kfree p;; mret (Some (Z.of_nat (length ws) * PGSIZE))
     else uvmcopy_loop fuel old new (Z.of_nat (S (length ws)) * PGSIZE) sz) k1) as Eloop.
  { intros fuel. cbn [uvmcopy_loop]. rewrite Hb. cbn [negb]. mcall W. rewrite (proj2 (Z.eqb_neq pte 0)) by done. unfold read64. mstep. rewrite Hpte, V. cbn [negb].
    mcall E. rewrite (proj2 (Z.eqb_neq p 0)) by done. unfold read_bytes, write_bytes. mstep. change (set_k_mem _ (kalloced k p id)) with (kalloced k p f).
    mcall E1. rewrite u64_small by lia. replace (Z.of_nat (length ws) * PGSIZE + PGSIZE) with (Z.of_nat (S (length ws)) * PGSIZE) by lia. done. }
  destruct H as [(-> & U2 & HP & Hs & M2)|(-> & Hl & k2 & E2 & U2 & HP & M2)]; [right|left].
  - exists p, k1, L1, l1. split; [exact M2|]. split; [exact U2|]. split; [cbn [app]; by rewrite HP|]. split; [|split; [simpl; lia|exact Eloop]].
    intros o Ho. rewrite (Hs p) by (by left || lia). unfold kalloced, f. ksimpl. rewrite ld8_stn. unfold bs, page_bytes. rewrite length_ldn, decide_True by lia.
    rewrite lookup_total_ldn by lia. rewrite u8_small by apply ld8_range.
    replace (PTE2PA v + Z.of_nat (Z.to_nat (p + o - p))) with (PTE2PA v + o) by lia. unfold kalloced. ksimpl. apply same_but_page_memset.
    assert (PTE2PA v <> p) as Hne.
    { intros He. apply (Hdisj p); [|elems]. apply elem_of_app. left. rewrite <- He. apply list_elem_of_fmap_2. by eapply list_elem_of_lookup_2. }
    destruct (page_disjoint _ _ Pv Pp Hne); lia.
  - exists k2, L1, [p]. split; [exact M2|]. split; [exact U2|]. split; [by rewrite HP|]. split; [simpl; lia|]. intros fuel. rewrite Eloop. cbn [Z.eqb negb]. by mcall E2.
Qed.

Lemma uvmcopy_loop_ok old Xo Lo vso new X sz m0 : 0 <= sz <= MAXVA -> length vso = npages sz ->
  (forall i, i < Z.of_nat (length vso) -> X !! i = None) -> forall j fuel k L l ws,
  uvm (k_mem k) old Xo Lo vso -> same_pages (PTE2PA <$> vso) m0 (k_mem k) -> uvmst k new X L l ws -> (length ws + j = length vso)%nat -> (j < fuel)%nat ->
  (forall q, q ∈ (PTE2PA <$> vso) ++ nodes Lo -> q ∉ l ++ nodes L) ->
  exists r k' L' l' ps, uvmcopy_loop fuel old new (Z.of_nat (length ws) * PGSIZE) sz k = Ret r k' /\ memstep (l ++ nodes L) k k' /\
    uvmst k' new X L' l' (ws ++ zip_with copy_pte (drop (length ws) vso) ps) /\ l ++ nodes L ≡ₚ ps ++ l' ++ nodes L' /\
    ((r = None /\ Forall2 (copied m0 (k_mem k')) (drop (length ws) vso) ps) \/
     (r = Some (Z.of_nat (length ws + length ps) * PGSIZE) /\ (length ps < j)%nat /\ (length l < 3 * j)%nat)).
Proof.
  intros Hsz Hlen HX. destruct (npages_eq sz Hsz) as (En & Bn & Cn).
  induction j as [|j IH]; intros [|fuel] k L l ws Uo Hm0 U Hj Hf Hdisj; try lia.
  { exists None, k, L, l, []. cbn [uvmcopy_loop]. destruct (_ <? sz) eqn:Lt; [lia|]. cbn [negb]. split; [done|]. split; [apply memstep_refl|].
    rewrite drop_ge by lia. rewrite app_nil_r. split; [done|]. split; [done|]. by left. }
  destruct (lookup_lt_is_Some_2 vso (length ws) ltac:(lia)) as [v Hv].
  destruct (uvmcopy_iter k old Xo Lo vso new X L l ws v sz Uo U Hv Hdisj ltac:(apply HX; lia) ltac:(lia))
    as [(k' & L' & l' & M & U' & HP & Hl & E)|(p & k1 & L1 & l1 & M & U1 & HP & Hc & Hl & E)].
  - rewrite E. eexists _, k', L', l', []. split; [done|]. split; [exact M|]. split; [by rewrite zip_with_nil_r, app_nil_r|]. split; [exact HP|].
    right. split; [f_equal; simpl; lia|]. split; simpl; lia.
  - assert (Forall page_ok (l ++ nodes L)) as Pl by (pose proof (uvmst_pages _ _ _ _ _ _ U) as Hpg; by apply Forall_app in Hpg as [_ Hpg]).
    assert (Forall page_ok ((PTE2PA <$> vso) ++ nodes Lo)) as Po by (apply Forall_app; split; [apply Uo|eapply nodes_pages, Uo]).
    assert (forall q, q ∈ l ++ nodes L -> q ∉ (PTE2PA <$> vso) ++ nodes Lo) as Hd' by (intros q H1 H2; by apply (Hdisj q)).
    apply Forall_app in Po as [Po1 Po2].
    destruct (IH fuel k1 L1 l1 (ws ++ [copy_pte v p])) as (r & k' & L' & l' & ps & E' & M' & U' & HP' & Hr); try done.
    { eapply uvm_frame; [exact Uo|]. eapply (memstep_same _ _ _ _ _ M); try done. intros q Hq Hq'. apply (Hd' q Hq). elems. }
    { eapply (memstep_same _ _ _ _ _ M); try done. intros q Hq Hq'. apply (Hd' q Hq). elems. }
    { rewrite length_app. simpl. lia. }
    { lia. }
    { intros q Hq Hq'. apply (Hdisj q Hq). rewrite HP. by right. }
    rewrite length_app in *. cbn [length] in *. replace (length ws + 1)%nat with (S (length ws)) in * by lia.
    exists r, k', L', l', (p :: ps). rewrite E. rewrite (drop_S _ _ _ Hv). split; [exact E'|].
    split; [eapply memstep_weaken; [exact (memstep_trans _ _ _ _ _ M M')|]; intros q; rewrite HP; elems|].
    split; [by rewrite <- app_assoc in U'|]. split; [cbn [app]; by rewrite HP, HP'|].
    destruct Hr as [[-> HF]|(-> & H1 & H2)]; [left|right; split; [f_equal; simpl; lia|split; simpl; lia]]. split; [done|]. constructor; [|done].
    assert (same_pages [p] (k_mem k1) (k_mem k')) as Hs.
    { eapply (memstep_keep _ _ _ _ _ _ _ _ _ U1 M'); [| |done].
      - rewrite HP in Pl. by apply Forall_cons in Pl as [? _].
      - pose proof (ut_nodup _ _ _ _ _ _ U) as Hnd. apply NoDup_app in Hnd as (_ & _ & Hnd). rewrite HP in Hnd. by apply NoDup_cons in Hnd as [? _]. }
    intros o Ho. rewrite (Hs p) by (by left || lia). rewrite (Hc o Ho). apply (Hm0 (PTE2PA v)); [|lia].
    apply list_elem_of_fmap_2. by eapply list_elem_of_lookup_2.
Qed.

Lemma uvmcopy_ok k old Xo Lo vso new X L l sz : 0 <= sz <= MAXVA -> length vso = npages sz ->
  (forall i, i < Z.of_nat (length vso) -> X !! i = None) -> uvm (k_mem k) old Xo Lo vso -> uvmst k new X L l [] ->
  (forall q, q ∈ (PTE2PA <$> vso) ++ nodes Lo -> q ∉ l ++ nodes L) ->
  exists r k' L' l', uvmcopy old new sz k = Ret r k' /\ memstep (l ++ nodes L) k k' /\
    ((r = 0 /\ exists ps, Forall2 (copied (k_mem k) (k_mem k')) vso ps /\ uvmst k' new X L' l' (zip_with copy_pte vso ps) /\
        l ++ nodes L ≡ₚ ps ++ l' ++ nodes L') \/
     (r = -1 /\ (length l < 3 * length vso)%nat /\ uvmst k' new X L' l' [] /\ l ++ nodes L ≡ₚ l' ++ nodes L')).
Proof.
  intros Hsz Hlen HX Uo U Hd. destruct (npages_eq sz Hsz) as (En & Bn & Cn).
  destruct (uvmcopy_loop_ok old Xo Lo vso new X sz (k_mem k) Hsz Hlen HX (length vso) (S (Z.to_nat ((sz + PGSIZE - 1) / PGSIZE))) k L l []) as (r & k' & L' & l' & ps & E & M & U' & HP & Hr); try done.
  { dlia. }
  cbn [length Nat.add app] in E, U', Hr. rewrite drop_0 in U', Hr. change (Z.of_nat 0 * PGSIZE) with 0 in E. unfold uvmcopy. mcall E.
  destruct Hr as [[-> HF]|(-> & Hp & Hl)].
  { exists 0, k', L', l'. split; [done|]. split; [exact M|]. left. split; [done|]. by exists ps. }
  assert (length (zip_with copy_pte vso ps) = length ps) as Ez by (rewrite length_zip_with; lia).
  destruct (uvmunmap_tail k' new X L' l' _ O U' ltac:(lia)) as (k2 & E2 & U2 & M2). rewrite Nat.sub_0_r, Ez in E2. rewrite Z.div_mul by lia. mcall E2.
  assert (PTE2PA <$> zip_with copy_pte vso ps = ps) as Eps.
  { apply copy_ptes; [lia|]. pose proof (uvmst_pages _ _ _ _ _ _ U) as Pl. cbn [fmap list_fmap app] in Pl. rewrite HP, Forall_app in Pl. tauto. }
  rewrite drop_0, Eps in U2, M2. exists (-1), k2, L', (rev ps ++ l'). split; [done|]. split.
  { eapply memstep_weaken; [exact (memstep_trans _ _ _ _ _ M M2)|]. intros q. rewrite HP. elems. }
  right. split; [done|]. split; [done|]. split; [exact U2|]. by rewrite HP, <- Permutation_rev, <- app_assoc.
Qed.

(** ** User memory *)

Lemma has_flags v : has v PTE_U = has (PTE_FLAGS v) PTE_U.
Proof. unfold has, PTE_FLAGS. by rewrite <- Z.land_assoc. Qed.

Lemma uvm_upage m root X L vs va v : uvm m root X L vs -> 0 <= va -> vs !! Z.to_nat (vpn va) = Some v ->
  upage m root va = if has v PTE_U then Some (PTE2PA v) else None.
Proof.
  intros [_ Hm _ Hx _ Hp] Hva Hv. pose proof (lookup_lt_Some _ _ _ Hv) as Hlt. assert (0 <= vpn va) as H0 by (unfold vpn; dlia).
  assert (va < MAXVA) as Hmax by (unfold vpn in *; dlia). unfold upage. rewrite (proj2 (Z.leb_gt MAXVA va)), Hm, decide_True, Hv by lia.
  cbn [mbind option_bind]. destruct (has v PTE_U); [|done]. cbn [negb].
  assert (page_ok (PTE2PA v)) as Pv by (eapply (Forall_lookup_1 _ (PTE2PA <$> vs)); [done|]; by rewrite list_lookup_fmap, Hv).
  pose proof (page_ok_pos _ Pv). rewrite (proj2 (Z.eqb_neq (PTE2PA v) 0)) by lia. done.
Qed.

Lemma uvm_ubyte m root X L vs va v : uvm m root X L vs -> 0 <= va -> vs !! Z.to_nat (vpn va) = Some v ->
  ubyte m root va = if has v PTE_U then Some (ld8 m (PTE2PA v + va `mod` PGSIZE)) else None.
Proof. intros U Hva Hv. unfold ubyte, uaddr. rewrite (uvm_upage m root X L vs va v U Hva Hv). by destruct (has v PTE_U). Qed.

Lemma copy_pte_ok v p : page_ok p -> has v PTE_V = true -> PTE2PA (copy_pte v p) = p /\ PTE_FLAGS (copy_pte v p) = PTE_FLAGS v.
Proof.
  intros Hp V. destruct (valid_flags v V) as [Hf E]. unfold copy_pte. destruct (leaf_pte_flags p (PTE_FLAGS v) Hp Hf) as [-> ->]. by rewrite E.
Qed.

Lemma uvm_valid m root X L vs i v : uvm m root X L vs -> vs !! i = Some v -> has v PTE_V = true.
Proof.
  intros [_ Hm _ Hx _ _] Hi. pose proof (lookup_lt_Some _ _ _ Hi). apply (pteof_valid m root (Z.of_nat i * PGSIZE)).
  rewrite Hm by lia. unfold vpn. by rewrite Z.div_mul, decide_True, Nat2Z.id by lia.
Qed.

(** A page-by-page copy is the same user memory. *)
Lemma copied_ubyte m m' old Xo Lo vso new X L ps va : uvm m old Xo Lo vso -> uvm m' new X L (zip_with copy_pte vso ps) ->
  Forall page_ok ps -> Forall2 (copied m m') vso ps -> 0 <= va -> vpn va < Z.of_nat (length vso) -> ubyte m' new va = ubyte m old va.
Proof.
  intros Uo Un Pp HF Hva Hlt. destruct (lookup_lt_is_Some_2 vso (Z.to_nat (vpn va))) as [v Hv]; [unfold vpn in *; dlia|].
  destruct (Forall2_lookup_l _ _ _ _ _ HF Hv) as (p & Hpi & Hc). pose proof (uvm_valid _ _ _ _ _ _ _ Uo Hv) as V.
  destruct (copy_pte_ok v p (Forall_lookup_1 _ _ _ _ Pp Hpi) V) as [Ep Ef].
  rewrite (uvm_ubyte _ _ _ _ _ va v Uo Hva Hv), (uvm_ubyte _ _ _ _ _ va (copy_pte v p) Un Hva) by (by rewrite lookup_zip_with, Hv; cbn; rewrite Hpi).
  rewrite has_flags, Ef, <- has_flags, Ep. destruct (has v PTE_U); [|done]. by rewrite Hc by dlia.
Qed.

(** uvmcopy() gives the child the parent's memory: on success (0) every address
    of the parent's [sz] bytes reads the same through the new page table as through
    the old one, in pages that were free, and the parent's memory is untouched; for
    lack of memory it returns -1 and has given every page it took back, to the free
    list or as page-table pages of the new table.  With three free pages per page to
    copy it succeeds. *)
Theorem uvmcopy_correct (k : kst) (old : Z) (Xo Lo : gmap Z Z) (vso : list Z) (new : Z) (X L : gmap Z Z) (l : list Z) (sz : Z)
    (Hsz : 0 <= sz <= MAXVA) (Hlen : length vso = npages sz) (HX : forall i, i < Z.of_nat (length vso) -> X !! i = None)
    (Uo : uvm (k_mem k) old Xo Lo vso) (Un : uvmst k new X L l [])
    (Hd : forall q, q ∈ (PTE2PA <$> vso) ++ nodes Lo -> q ∉ l ++ nodes L) :
  exists r k' L' l' vs', uvmcopy old new sz k = Ret r k' /\
    uvm (k_mem k') old Xo Lo vso /\ same_pages (PTE2PA <$> vso) (k_mem k) (k_mem k') /\
    uvmst k' new X L' l' vs' /\ l ++ nodes L ≡ₚ (PTE2PA <$> vs') ++ l' ++ nodes L' /\
    ((r = 0 /\ PTE_FLAGS <$> vs' = PTE_FLAGS <$> vso /\
        forall va, 0 <= va -> vpn va < Z.of_nat (length vso) -> ubyte (k_mem k') new va = ubyte (k_mem k) old va) \/
     (r = -1 /\ vs' = [] /\ (length l < 3 * length vso)%nat)).
Proof.
  destruct (uvmcopy_ok k old Xo Lo vso new X L l sz Hsz Hlen HX Uo Un Hd) as (r & k' & L' & l' & E & M & H).
  assert (Forall page_ok (l ++ nodes L)) as Pl by (pose proof (uvmst_pages _ _ _ _ _ _ Un) as Hpg; by apply Forall_app in Hpg as [_ Hpg]).
  assert (uvm (k_mem k') old Xo Lo vso) as Uo'.
  { eapply uvm_frame; [exact Uo|]. eapply (memstep_same _ _ _ _ _ M); [done|eapply nodes_pages, Uo| |done]. intros q Hq Hq'. apply (Hd q); [elems|done]. }
  assert (same_pages (PTE2PA <$> vso) (k_mem k) (k_mem k')) as Hs.
  { eapply (memstep_same _ _ _ _ _ M); [done|apply Uo| |done]. intros q Hq Hq'. apply (Hd q); [elems|done]. }
  destruct H as [(-> & ps & HF & U' & HP)|(-> & Hl & U' & HP)].
  2: { exists (-1), k', L', l', []. split_and!; try done. by right. }
  rewrite HP, Forall_app in Pl. destruct Pl as [Pps _]. pose proof (Forall2_length _ _ _ HF) as El.
  exists 0, k', L', l', (zip_with copy_pte vso ps). split; [exact E|]. split; [exact Uo'|]. split; [exact Hs|]. split; [exact U'|].
  split; [by rewrite copy_ptes by (done || lia)|]. left. split; [done|]. split.
  - apply copy_flags; [done..|]. apply Forall_lookup. intros i v Hv. by eapply uvm_valid.
  - intros va Hva Hlt. by apply (copied_ubyte (k_mem k) (k_mem k') old Xo Lo vso new X L' ps va Uo (ut_uvm _ _ _ _ _ _ U')).
Qed.

(** ** Pages above the user memory *)

Lemma leaf_flags pa perm : 0 <= pa < 2 ^ 56 -> pa `mod` PGSIZE = 0 -> 0 <= perm < 1024 -> PTE_FLAGS (leaf_pte pa perm) = Z.lor perm PTE_V.
Proof.
  intros Hr Ha Hf. unfold leaf_pte. rewrite <- Z.lor_assoc. apply PTE2PA_PA2PTE; [lia|done|]. by apply lor_flags.
Qed.

(** mappages() of a page above the user memory. *)
Lemma map_top k root X L l vs n pa perm : uvmst k root X L l vs -> Z.of_nat (length vs) <= n -> (n + 1) * PGSIZE <= MAXVA -> X !! n = None ->
  0 <= pa < 2 ^ 56 -> 0 <= perm < 1024 ->
  exists r k' L' l', mappages root (n * PGSIZE) PGSIZE pa perm k = Ret r k' /\ memstep (l ++ nodes L) k k' /\ l ++ nodes L ≡ₚ l' ++ nodes L' /\
    (length l <= length l' + 2)%nat /\
    ((r = 0 /\ uvmst k' root (<[n := leaf_pte pa perm]> X) L' l' vs) \/ (r = -1 /\ (length l < 2)%nat /\ uvmst k' root X L' l' vs)).
Proof.
  intros U Hn Hmax HX Hpa Hperm. pose proof U as [A [WF Hm Ht Hx Hl Hp] Hnd].
  destruct (mappages_one k root L l (n * PGSIZE) pa perm) as (r & k' & L' & l' & E & St & Hlen & H); try lia.
  { by eapply uvmst_vmst. }
  { by rewrite Z.mod_mul. }
  { rewrite Hm by lia. unfold vpn. rewrite Z.div_mul, decide_False by lia. done. }
  exists r, k', L', l'. split; [exact E|]. split; [by eapply vmstep_memstep|]. split; [apply St|]. split; [exact Hlen|].
  destruct H as [[-> M]|(-> & -> & Hll & M)]; [left|right; split; [done|]; split; [done|by eapply uvmst_same]]. split; [done|].
  split; [eapply vmst_alloc, St|constructor; try done|by rewrite <- (vs_pages _ _ _ _ _ _ _ St)].
  - apply St.
  - intros va Hva. rewrite (M va Hva), Hm by done. unfold vpn. rewrite Z.div_mul by lia.
    destruct (decide (va / PGSIZE = n)) as [->|Hne].
    + rewrite decide_True, decide_False, lookup_insert_eq by lia. do 2 f_equal. lia.
    + rewrite decide_False, lookup_insert_ne by lia. done.
  - intros i Hi. rewrite lookup_insert_ne by lia. by apply Ht.
Qed.

(** uvmunmap() of such a page, which is not freed. *)
Lemma unmap_top k root X L l vs n v : uvmst k root X L l vs -> Z.of_nat (length vs) <= n -> (n + 1) * PGSIZE <= MAXVA -> X !! n = Some v ->
  PTE_FLAGS v <> PTE_V ->
  exists k', uvmunmap root (n * PGSIZE) 1 false k = Ret tt k' /\ memstep (l ++ nodes L) k k' /\ uvmst k' root (delete n X) L l vs.
Proof.
  intros U Hn Hmax HX Hfl. pose proof U as [A [WF Hm Ht Hx Hl Hp] Hnd].
  unfold uvmunmap. rewrite Z.mod_mul by lia. cbn [Z.eqb negb]. rewrite u64_small by lia.
  destruct (uvmunmap_loop_ok [v] 2 k root L l (n * PGSIZE) false) as (k' & E & S' & UM & Ek & F); cbn [length]; try lia.
  { by eapply uvmst_vmst. }
  { by rewrite Z.mod_mul. }
  { intros [|i] w Hw; [|done]. injection Hw as <-. split; [|done]. rewrite Hm by lia. unfold vpn.
    replace (n * PGSIZE + Z.of_nat 0 * PGSIZE) with (n * PGSIZE) by lia. rewrite Z.div_mul, decide_False by lia. done. }
  { apply NoDup_singleton. }
  exists k'. split; [exact E|]. cbn [after_unmap] in *. split; [split; [exact Ek|]|split; [by eapply vmst_alloc|constructor; try done|done]].
  - intros a Ha. apply F. intros (q & Hq & Hr). apply (Ha q); [|done]. rewrite elem_of_app, elem_of_nodes. tauto.
  - apply S'.
  - intros va Hva. rewrite (UM va Hva), Hm by done. unfold vpn. rewrite Z.div_mul by lia. cbn [length].
    destruct (decide (va / PGSIZE = n)) as [->|Hne].
    + rewrite decide_True, decide_False, lookup_delete_eq by lia. done.
    + rewrite decide_False, lookup_delete_ne by lia. done.
  - intros i Hi. rewrite lookup_delete_ne by lia. by apply Ht.
Qed.

(** ** uvmcreate() *)

Lemma pt_wf_zero m p : page_ok p -> zero_page m p -> pt_wf m p {[p := 2]} /\ forall va, pteof m p va = None.
Proof.
  intros Pp Hz. assert (forall i, 0 <= i < 512 -> ld64 m (p + 8 * i) = 0) as Z0.
  { intros i Hi. apply ld64_zero. intros b Hb. apply Hz. lia. }
  split; [constructor|].
  - apply lookup_singleton_eq.
  - intros q l [<- <-]%lookup_singleton_Some. split; [done|lia].
  - intros q l i [<- <-]%lookup_singleton_Some _ Hi. by rewrite Z0.
  - intros q l i q' l' i' r [<- <-]%lookup_singleton_Some _ _ _ Hi _ E _ [<- _]%lookup_singleton_Some.
    rewrite Z0 in E by done. symmetry in E. by destruct (node_nonzero p).
  - intros q l [<- _]%lookup_singleton_Some. done.
  - intros i Hi. by rewrite Z0 by lia.
  - intros va. unfold pteof, ptwalk, pte_at. pose proof (PX_range 2 va ltac:(lia)). by rewrite Z0.
Qed.

Lemma uvmcreate_ok k l : alloc_ok k l ->
  match l with
  | [] => uvmcreate k = Ret 0 k
  | p :: l => exists k', uvmcreate k = Ret p k' /\ p <> 0 /\ uvmst k' p ∅ {[p := 2]} l [] /\ memstep [p] k k'
  end.
Proof.
  intros [Hh Hl Hf]. unfold uvmcreate. destruct l as [|p l]; [by mcall (kalloc_empty k Hh Hl Hf)|].
  mcall (kalloc_cons k p l Hh Hl Hf). destruct (kmem_inv_kalloc k p l Hf) as ([Hr Hnl] & Hp & Hpl). ksimpl in Hr.
  destruct (page_ok_range p Hp) as [Rp _]. rewrite (proj2 (Z.eqb_neq p 0)) by lia. unfold fill_page. mstep. ksimpl.
  eexists. split; [done|]. split; [lia|].
  assert (same_but_page p (k_mem k) (memset (memset (k_mem k) p 5 (Z.to_nat PGSIZE)) p 0 (Z.to_nat PGSIZE))) as Hs.
  { intros a Ha. rewrite !ld8_memset, !decide_False by lia. done. }
  destruct (pt_wf_zero (memset (memset (k_mem k) p 5 (Z.to_nat PGSIZE)) p 0 (Z.to_nat PGSIZE)) p Hp) as [WF Hn].
  { intros a Ha. rewrite ld8_memset, decide_True by lia. done. }
  split; [split; [split; [exact Hh|exact Hl|]|constructor; [exact WF| |intros i _; apply lookup_empty|simpl; lia|constructor|constructor]|]|split; [done|]].
  - split; [|done]. ksimpl. eapply free_rep_frame; [exact Hp|exact Hpl| |exact Hr]. apply same_but_page_memset.
  - intros va Hva. ksimpl. rewrite Hn. by destruct (decide _).
  - cbn [fmap list_fmap app length]. unfold nodes. rewrite map_to_list_singleton. cbn. apply NoDup_app. split; [done|]. split; [|apply NoDup_singleton].
    by intros q Hq ->%list_elem_of_singleton.
  - intros a Ha. ksimpl. apply Hs, Ha. by left.
Qed.

End addrspace.

(** ** Two concrete address spaces *)

Lemma length_range_pages n p : length (range_pages n p) = n.
Proof. revert p. induction n as [|n IH]; intros p; cbn [range_pages]; [done|]. rewrite length_app, IH. simpl. lia. Qed.

(** [n] free pages in a state that had none. *)
Lemma some_free n k : (0 < n < 1000)%nat -> hart_ok (k_hart k) -> k_locks k !! LKmem = None -> k_freelist k = 0 ->
  exists m h l, alloc_ok (set_k_mem m (set_k_freelist h k)) l /\ length l = n.
Proof.
  intros Hn Hh Hl Hf. destruct (freerange_loop_ok n (S n) (page_no 0) (page_no (Z.of_nat n)) k [] Hh Hl) as (m & h & _ & Hk); try done.
  { split; [done|constructor]. }
  { unfold page_no. lia. }
  { unfold page_no. dlia. }
  { lia. }
  rewrite app_nil_r in Hk. exists m, h, (range_pages n (page_no 0)). split; [by split|apply length_range_pages].
Qed.

(** One with a page of memory, one empty. *)
Lemma two_spaces : exists k old Lo vso new L l, uvm (k_mem k) old ∅ Lo vso /\ uvmst k new ∅ L l [] /\ length vso = 1%nat /\
  (forall q, q ∈ (PTE2PA <$> vso) ++ nodes Lo -> q ∉ l ++ nodes L) /\ (3 <= length l)%nat.
Proof.
  destruct (some_free 20 boot_state ltac:(lia) hart_ok_boot eq_refl eq_refl) as (m & h & l0 & A0 & Hl0). set (k0 := set_k_mem m _) in *. clearbody k0.
  pose proof (uvmcreate_ok k0 l0 A0) as C. destruct l0 as [|old l1]; [done|]. destruct C as (k1 & _ & _ & U1 & _).
  destruct (uvmalloc_ok k1 old ∅ _ l1 [] 0 PGSIZE U1) as (r & k2 & Lo & l2 & _ & _ & H); [lia|lia|done|done|].
  change (npages PGSIZE - npages 0)%nat with 1%nat in H. simpl in Hl0. destruct H as [(_ & ps & Hps & U2 & _ & Hc & _)|(_ & Hc & _)]; [|lia].
  cbn [app] in U2. set (vso := _ <$> ps) in U2. assert (length vso = 1%nat) as Hvs by (unfold vso; by rewrite length_fmap). clearbody vso.
  pose proof (uvmcreate_ok k2 l2 (ut_alloc _ _ _ _ _ _ U2)) as C. destruct l2 as [|new l3]; [simpl in Hc; lia|]. destruct C as (k3 & _ & _ & U3 & M3).
  assert (nodes {[new := 2]} = [new]) as En by (unfold nodes; by rewrite map_to_list_singleton).
  assert (forall q, q ∈ (PTE2PA <$> vso) ++ nodes Lo -> q ∉ new :: l3) as Hd.
  { intros q Hq Hl. pose proof (ut_nodup _ _ _ _ _ _ U2) as Hnd. rewrite (Permutation_app_comm (new :: l3)), app_assoc in Hnd. apply NoDup_app in Hnd as (_ & Hd & _). by apply (Hd q). }
  exists k3, old, Lo, vso, new, {[new := 2]}, l3. split; [|split; [exact U3|split; [done|split; [|simpl in Hc; lia]]]].
  - pose proof (ut_uvm _ _ _ _ _ _ U2) as Uo. eapply uvm_frame; [exact Uo|]. eapply (memstep_same _ _ _ _ _ M3); [|eapply nodes_pages, Uo| |done].
    + apply Forall_singleton. pose proof (alloc_pages _ _ (ut_alloc _ _ _ _ _ _ U2)) as Pl. by apply Forall_cons in Pl as [? _].
    + intros q ->%list_elem_of_singleton Hq. apply (Hd new); [elems|by left].
  - intros q Hq. rewrite En. specialize (Hd q Hq). elems.
Qed.

Lemma uvmcopy_correct_witness : exists k old new k', uvmcopy old new PGSIZE k = Ret 0 k' /\ forall va, 0 <= va < PGSIZE -> ubyte (k_mem k') new va = ubyte (k_mem k) old va.
Proof.
  destruct two_spaces as (k & old & Lo & vso & new & L & l & Uo & Un & Hvs & Hd & Hl).
  destruct (uvmcopy_correct k old ∅ Lo vso new ∅ L l PGSIZE ltac:(lia) Hvs ltac:(done) Uo Un Hd) as (r & k' & L' & l' & vs' & E & _ & _ & _ & _ & [(-> & _ & Hb)|(_ & _ & Hc)]); [|lia].
  exists k, old, new, k'. split; [exact E|]. intros va Hva. apply Hb; [lia|]. rewrite Hvs. unfold vpn. dlia.
Defined.
