(* ===== verification/Asm.v ===== *)
(** The assembly code of the kernel: swtch.S, trampoline.S, kernelvec.S and entry.S,
    instruction by instruction on a RISC-V machine: the general registers, the
    control registers the code uses, and physical memory behind the Sv39 page table
    in satp.

    Fetching the instructions themselves is left out: the code is mapped where it
    runs, and the TLB holds nothing but the page table in use after sfence.vma. *)

From Stdlib Require Import ZArith Lia.
From stdpp Require Import base gmap strings list numbers functions.
From S2P Require Import Prelude Params State Spinlock Sched CString Kalloc Vm PageTable.

Open Scope Z_scope.

Module Asm.

(** ** The machine *)

Inductive reg :=
  RA | SP | GP | TP | T0 | T1 | T2 | T3 | T4 | T5 | T6 | A0 | A1 | A2 | A3 | A4 | A5 | A6 | A7 |
  S0 | S1 | S2 | S3 | S4 | S5 | S6 | S7 | S8 | S9 | S10 | S11.
#[export] Instance reg_eq_dec : EqDecision reg.
Proof. solve_decision. Defined.

Definition all_regs : list reg :=
  [RA; SP; GP; TP; T0; T1; T2; T3; T4; T5; T6; A0; A1; A2; A3; A4; A5; A6; A7; S0; S1; S2; S3; S4; S5; S6; S7; S8; S9; S10; S11].

Inductive csr := Satp | Sscratch | Mscratch | Mhartid | Sip.
#[export] Instance csr_eq_dec : EqDecision csr.
Proof. solve_decision. Defined.

Record mach := Mach { m_x : reg -> Z; m_csr : csr -> Z; m_mem : bmem }.

(** Machine mode addresses memory directly, supervisor mode through satp. *)
Inductive priv := PrivM | PrivS.

(** The page table that satp points to. *)
Definition satp_root (satp : Z) : Z := Z.land satp (2 ^ 44 - 1) * PGSIZE.

(** The physical address of an access in supervisor mode, if the page table allows
    it: a page of the kernel's, readable or writable.  xv6 leaves the addresses
    from MAXVA on unmapped. *)
Definition sv39 (satp : Z) (m : bmem) (store : bool) (va : Z) : option Z :=
  if satp =? 0 then Some va else
  if (va <? 0) || (MAXVA <=? va) then None else
  v ← pteof m (satp_root satp) va;
  if has v (if store then PTE_W else PTE_R) && negb (has v PTE_U) then Some (PTE2PA v + va `mod` PGSIZE) else None.

(** Double words are accessed at multiples of 8. *)
Definition translate (p : priv) (satp : Z) (m : bmem) (store : bool) (va : Z) : option Z :=
  if negb (va `mod` 8 =? 0) then None else
  match p with
  | PrivM => Some va
  | PrivS => sv39 satp m store va
  end.

(** What a write of [v] leaves in a register: of sip, only the bit of the software
    interrupt can be written. *)
Definition csr_write (c : csr) (old v : Z) : Z :=
  match c with
  | Sip => Z.lor (Z.ldiff old 2) (Z.land v 2)
  | Satp | Sscratch | Mscratch | Mhartid => v
  end.

(** The instructions the code uses, named as in the assembler. *)
Inductive instr :=
| Sd (r : reg) (off : Z) (b : reg)
| Ld (r : reg) (off : Z) (b : reg)
| Li (d : reg) (n : Z)
| Addi (d s : reg) (n : Z)
| Add (d s t : reg)
| Mul (d s t : reg)
| Csrrw (d : reg) (c : csr) (s : reg)
| Csrr (d : reg) (c : csr)
| Csrw (c : csr) (s : reg)
| Sfence_vma.

Definition set_x (r : reg) (v : Z) (s : mach) : mach := Mach (<[r := v]> (m_x s)) (m_csr s) (m_mem s).
Definition set_csr (c : csr) (v : Z) (s : mach) : mach := Mach (m_x s) (<[c := csr_write c (m_csr s c) v]> (m_csr s)) (m_mem s).
Definition set_mem (m : bmem) (s : mach) : mach := Mach (m_x s) (m_csr s) m.

(** A step; [None] is a fault. *)
Definition step (p : priv) (i : instr) (s : mach) : option mach :=
  match i with
  | Sd r off b =>
      a ← translate p (m_csr s Satp) (m_mem s) true (u64 (m_x s b + off));
      Some (set_mem (st64 (m_mem s) a (m_x s r)) s)
  | Ld r off b =>
      a ← translate p (m_csr s Satp) (m_mem s) false (u64 (m_x s b + off));
      Some (set_x r (ld64 (m_mem s) a) s)
  | Li d n => Some (set_x d (u64 n) s)
  | Addi d r n => Some (set_x d (u64 (m_x s r + n)) s)
  | Add d r t => Some (set_x d (u64 (m_x s r + m_x s t)) s)
  | Mul d r t => Some (set_x d (u64 (m_x s r * m_x s t)) s)
  | Csrrw d c r => Some (set_x d (m_csr s c) (set_csr c (m_x s r) s))
  | Csrr d c => Some (set_x d (m_csr s c) s)
  | Csrw c r => Some (set_csr c (m_x s r) s)
  | Sfence_vma => Some s
  end.

Fixpoint run (p : priv) (code : list instr) (s : mach) : option mach :=
  match code with
  | [] => Some s
  | i :: code => s ← step p i s; run p code s
  end.

(** ** swtch.S *)

(** swtch, up to its ret, which jumps to ra. *)
Definition swtch : list instr :=
  [Sd RA 0 A0; Sd SP 8 A0; Sd S0 16 A0; Sd S1 24 A0; Sd S2 32 A0; Sd S3 40 A0; Sd S4 48 A0;
   Sd S5 56 A0; Sd S6 64 A0; Sd S7 72 A0; Sd S8 80 A0; Sd S9 88 A0; Sd S10 96 A0; Sd S11 104 A0;
   Ld RA 0 A1; Ld SP 8 A1; Ld S0 16 A1; Ld S1 24 A1; Ld S2 32 A1; Ld S3 40 A1; Ld S4 48 A1;
   Ld S5 56 A1; Ld S6 64 A1; Ld S7 72 A1; Ld S8 80 A1; Ld S9 88 A1; Ld S10 96 A1; Ld S11 104 A1].

(** ** trampoline.S *)

(** uservec, up to its jr t0. *)
Definition uservec : list instr :=
  [Csrrw A0 Sscratch A0;
   Sd RA 40 A0; Sd SP 48 A0; Sd GP 56 A0; Sd TP 64 A0; Sd T0 72 A0; Sd T1 80 A0; Sd T2 88 A0;
   Sd S0 96 A0; Sd S1 104 A0; Sd A1 120 A0; Sd A2 128 A0; Sd A3 136 A0; Sd A4 144 A0; Sd A5 152 A0;
   Sd A6 160 A0; Sd A7 168 A0; Sd S2 176 A0; Sd S3 184 A0; Sd S4 192 A0; Sd S5 200 A0; Sd S6 208 A0;
   Sd S7 216 A0; Sd S8 224 A0; Sd S9 232 A0; Sd S10 240 A0; Sd S11 248 A0; Sd T3 256 A0; Sd T4 264 A0;
   Sd T5 272 A0; Sd T6 280 A0;
   Csrr T0 Sscratch; Sd T0 112 A0;
   Ld SP 8 A0; Ld TP 32 A0; Ld T0 16 A0; Ld T1 0 A0;
   Csrw Satp T1; Sfence_vma].

(** userret, up to its sret. *)
Definition userret : list instr :=
  [Csrw Satp A1; Sfence_vma;
   Ld T0 112 A0; Csrw Sscratch T0;
   Ld RA 40 A0; Ld SP 48 A0; Ld GP 56 A0; Ld TP 64 A0; Ld T0 72 A0; Ld T1 80 A0; Ld T2 88 A0;
   Ld S0 96 A0; Ld S1 104 A0; Ld A1 120 A0; Ld A2 128 A0; Ld A3 136 A0; Ld A4 144 A0; Ld A5 152 A0;
   Ld A6 160 A0; Ld A7 168 A0; Ld S2 176 A0; Ld S3 184 A0; Ld S4 192 A0; Ld S5 200 A0; Ld S6 208 A0;
   Ld S7 216 A0; Ld S8 224 A0; Ld S9 232 A0; Ld S10 240 A0; Ld S11 248 A0; Ld T3 256 A0; Ld T4 264 A0;
   Ld T5 272 A0; Ld T6 280 A0;
   Csrrw A0 Sscratch A0].

(** ** kernelvec.S *)

(** kernelvec before and after the call of kerneltrap(), up to its sret. *)
Definition kernelvec_save : list instr :=
  [Addi SP SP (-256);
   Sd RA 0 SP; Sd SP 8 SP; Sd GP 16 SP; Sd TP 24 SP; Sd T0 32 SP; Sd T1 40 SP; Sd T2 48 SP; Sd S0 56 SP;
   Sd S1 64 SP; Sd A0 72 SP; Sd A1 80 SP; Sd A2 88 SP; Sd A3 96 SP; Sd A4 104 SP; Sd A5 112 SP; Sd A6 120 SP;
   Sd A7 128 SP; Sd S2 136 SP; Sd S3 144 SP; Sd S4 152 SP; Sd S5 160 SP; Sd S6 168 SP; Sd S7 176 SP;
   Sd S8 184 SP; Sd S9 192 SP; Sd S10 200 SP; Sd S11 208 SP; Sd T3 216 SP; Sd T4 224 SP; Sd T5 232 SP; Sd T6 240 SP].

Definition kernelvec_restore : list instr :=
  [Ld RA 0 SP; Ld SP 8 SP; Ld GP 16 SP; Ld T0 32 SP; Ld T1 40 SP; Ld T2 48 SP; Ld S0 56 SP;
   Ld S1 64 SP; Ld A0 72 SP; Ld A1 80 SP; Ld A2 88 SP; Ld A3 96 SP; Ld A4 104 SP; Ld A5 112 SP; Ld A6 120 SP;
   Ld A7 128 SP; Ld S2 136 SP; Ld S3 144 SP; Ld S4 152 SP; Ld S5 160 SP; Ld S6 168 SP; Ld S7 176 SP;
   Ld S8 184 SP; Ld S9 192 SP; Ld S10 200 SP; Ld S11 208 SP; Ld T3 216 SP; Ld T4 224 SP; Ld T5 232 SP; Ld T6 240 SP;
   Addi SP SP 256].

(** timervec, up to its mret; it runs in machine mode. *)
Definition timervec : list instr :=
  [Csrrw A0 Mscratch A0; Sd A1 0 A0; Sd A2 8 A0; Sd A3 16 A0;
   Ld A1 24 A0; Ld A2 32 A0; Ld A3 0 A1; Add A3 A3 A2; Sd A3 0 A1;
   Li A1 2; Csrw Sip A1;
   Ld A3 16 A0; Ld A2 8 A0; Ld A1 0 A0; Csrrw A0 Mscratch A0].

(** ** entry.S *)

(** _entry, up to the call of start(); [stack0] is the address of the stacks. *)
Definition entry (stack0 : Z) : list instr :=
  [Li SP stack0; Li A0 (1024 * 4); Csrr A1 Mhartid; Addi A1 A1 1; Mul A0 A0 A1; Add SP SP A0].

End Asm.
