(* ===== verification/AsmSpec.v ===== *)
(** What the assembly code of the kernel keeps: a trap saves and restores all
    registers of the user program (trampoline.S) or of the interrupted kernel code
    (kernelvec.S), swtch() those a called function keeps (swtch.S). *)

From Stdlib Require Import ZArith Lia.
From stdpp Require Import base gmap strings list numbers functions.
From S2P Require Import Prelude Params State Spinlock Sched CString Kalloc Vm PageTable Asm.
Import Asm.

Open Scope Z_scope.

(** ** Windows: virtual addresses that memory accesses reach *)

(** The addresses [va], ..., [va + n - 1] are those of [pa], ..., and stay so while
    only addresses in [free] change. *)
Record window (p : priv) (satp : Z) (m : bmem) (free : Z -> Prop) (va pa n : Z) : Prop := Window {
  w_va : 0 <= va /\ va + n <= 2 ^ 64;
  w_free : forall a, pa <= a < pa + n -> free a;
  w_tr : forall m' store o, (forall a, ~ free a -> ld8 m' a = ld8 m a) -> 0 <= o -> o + 8 <= n -> o `mod` 8 = 0 ->
    translate p satp m' store (va + o) = Some (pa + o) }.

Lemma window_same p satp m m' free va pa n : window p satp m free va pa n -> (forall a, ~ free a -> ld8 m' a = ld8 m a) ->
  window p satp m' free va pa n.
Proof.
  intros [Hv Hf Ht] Hm. split; [done..|]. intros m'' store o Hm''. apply Ht. intros a Ha. by rewrite Hm'', Hm.
Qed.

(** Machine mode. *)
Lemma window_direct satp m va n : 0 <= va -> va + n <= 2 ^ 64 -> va `mod` 8 = 0 -> window PrivM satp m (fun _ => True) va va n.
Proof.
  intros H0 Hn Ha. split; [lia|done|]. intros m' store o _ Ho Hon Ho8. unfold translate. replace ((va + o) `mod` 8 =? 0) with true; [done|].
  symmetry. apply Z.eqb_eq. dlia.
Qed.

Section paged.
Context `{KI : KernelImage}.

(** The page table at [root] with the nodes [L] maps [va], ... to [pa], ... for the
    kernel, outside its own pages. *)
Record mapped (m : bmem) (root : Z) (L : gmap Z Z) (va pa n : Z) : Prop := Mapped {
  mp_wf : pt_wf m root L;
  mp_va : 0 <= va /\ va + n <= MAXVA /\ va `mod` 8 = 0;
  mp_pte : forall o, 0 <= o < n -> exists v, pteof m root (va + o) = Some v /\ has v PTE_R = true /\ has v PTE_W = true /\
    has v PTE_U = false /\ PTE2PA v + (va + o) `mod` PGSIZE = pa + o;
  mp_out : forall a q lq, pa <= a < pa + n -> L !! q = Some lq -> ~ (q <= a < q + PGSIZE) }.

(** Outside the page table. *)
Definition off_table (L : gmap Z Z) (a : Z) : Prop := forall q lq, L !! q = Some lq -> ~ (q <= a < q + PGSIZE).

Lemma satp_root_make root : page_ok root -> satp_root (MAKE_SATP root) = root /\ MAKE_SATP root <> 0.
Proof.
  intros [Hal Hr]. assert (0 <= root < 2 ^ 56) as Hb by (pose proof (page_ok_pos root (conj Hal Hr)); lia).
  unfold satp_root, MAKE_SATP. rewrite Z.shiftr_div_pow2 by lia. assert (0 <= root / 2 ^ 12 < 2 ^ 44) as Hq by dlia. split.
  - rewrite Z.land_lor_distr_l. change (Z.land (Z.shiftl 8 60) (2 ^ 44 - 1)) with 0. rewrite Z.lor_0_l.
    change (2 ^ 44 - 1) with (Z.ones 44). rewrite Z.land_ones, Z.mod_small by lia. dlia.
  - intros [E _]%Z.lor_eq_0_iff. done.
Qed.

Lemma mapped_window m root L va pa n : mapped m root L va pa n -> window PrivS (MAKE_SATP root) m (off_table L) va pa n.
Proof.
  intros [WF (H0 & Hn & Ha) Hp Hout]. split; [lia|intros a Hr q lq; by apply Hout|]. intros m' store o Hm' Ho Hon Ho8.
  destruct (wf_page _ _ _ WF root 2 (wf_root _ _ _ WF)) as [Hok _]. destruct (satp_root_make root Hok) as [Er Hnz].
  unfold translate. replace ((va + o) `mod` 8 =? 0) with true by (symmetry; apply Z.eqb_eq; dlia). cbn [negb].
  unfold sv39. rewrite (proj2 (Z.eqb_neq _ 0) Hnz), Er.
  replace ((va + o <? 0) || (MAXVA <=? va + o)) with false by (symmetry; apply orb_false_iff; split; [apply Z.ltb_ge|apply Z.leb_gt]; lia).
  destruct (outside_wf m m' root L WF) as (_ & _ & Hsame).
  { intros a q lq Hq Hr. apply Hm'. intros Hf. by apply (Hf q lq Hq). }
  destruct (Hp o ltac:(lia)) as (v & Ev & HR & HW & HU & Epa). rewrite Hsame, Ev. cbn [mbind option_bind].
  rewrite HU, <- Epa. by destruct store; rewrite ?HR, ?HW.
Qed.
End paged.

(** ** Saving and loading registers *)

Definition saves (b : reg) (tab : list (reg * Z)) : list instr := (fun p => Sd p.1 p.2 b) <$> tab.
Definition loads (b : reg) (tab : list (reg * Z)) : list instr := (fun p => Ld p.1 p.2 b) <$> tab.

(** Different slots of [n] bytes. *)
Definition tab_ok (n : Z) (tab : list (reg * Z)) : Prop :=
  Forall (fun p => 0 <= p.2 /\ p.2 + 8 <= n /\ p.2 `mod` 8 = 0) tab /\ NoDup tab.*2.
#[export] Instance tab_ok_dec n tab : Decision (tab_ok n tab).
Proof. unfold tab_ok. apply _. Defined.

(** [a] is in a slot of the table. *)
Definition in_slots (tab : list (reg * Z)) (pa a : Z) : Prop := exists r o, (r, o) ∈ tab /\ pa + o <= a < pa + o + 8.

Lemma run_app p c1 c2 s : run p (c1 ++ c2) s = run p c1 s ≫= run p c2.
Proof. revert s. induction c1 as [|i c1 IH]; intros s; [done|]. cbn [app run]. destruct (step p i s); [apply IH|done]. Qed.

Lemma run_saves p b tab va pa n free : tab_ok n tab -> forall s, window p (m_csr s Satp) (m_mem s) free va pa n -> m_x s b = va ->
  exists m', run p (saves b tab) s = Some (set_mem m' s) /\ (forall r o, (r, o) ∈ tab -> ld64 m' (pa + o) = u64 (m_x s r)) /\
    (forall a, ~ in_slots tab pa a -> ld8 m' a = ld8 (m_mem s) a).
Proof.
  induction tab as [|[r o] tab IH]; intros [Hr Hn] s Hw Hb.
  { exists (m_mem s). split; [by destruct s|]. split; [intros ? ? ?%elem_of_nil; done|done]. }
  apply Forall_cons in Hr as [(Ho & Hon & Ho8) Hr]. cbn [fmap list_fmap] in Hn. apply NoDup_cons in Hn as [Hno Hn]. cbn [snd] in *.
  cbn [saves fmap list_fmap run step fst snd]. pose proof (w_va _ _ _ _ _ _ _ Hw). rewrite Hb, u64_small by lia.
  rewrite (w_tr _ _ _ _ _ _ _ Hw) by done. cbn [mbind option_bind]. set (m1 := st64 (m_mem s) (pa + o) (m_x s r)).
  assert (forall a, ~ (pa + o <= a < pa + o + 8) -> ld8 m1 a = ld8 (m_mem s) a) as Hm1 by (intros a Ha; by apply ld8_st64_out).
  destruct (IH (conj Hr Hn) (set_mem m1 s)) as (m' & Hrun & Hin & Hout).
  - eapply window_same; [exact Hw|]. intros a Ha. apply Hm1. intros Hr'. apply Ha, (w_free _ _ _ _ _ _ _ Hw). lia.
  - done.
  - exists m'. split; [exact Hrun|]. split.
    + intros r' o' [[= -> ->]|Hel]%elem_of_cons; [|by apply Hin].
      rewrite (ld64_ext m' m1); [apply ld64_st64_same|]. intros a Ha. apply Hout. intros (r2 & o2 & Hel & Ha2).
      assert (o2 <> o) by (intros ->; apply Hno, list_elem_of_fmap; by exists (r2, o)).
      rewrite Forall_forall in Hr. destruct (Hr _ Hel) as (? & ? & ?). cbn [snd] in *. dlia.
    + intros a Ha. rewrite Hout; [apply Hm1|]; intros H'; apply Ha; [exists r, o; split; [by left|done]|].
      destruct H' as (r2 & o2 & Hel & ?). exists r2, o2. split; [by right|done].
Qed.

Lemma run_loads p b tab va pa n free : tab_ok n tab -> NoDup tab.*1 -> forall s, window p (m_csr s Satp) (m_mem s) free va pa n ->
  m_x s b = va -> (forall o, (b, o) ∈ tab -> ld64 (m_mem s) (pa + o) = va) ->
  exists x', run p (loads b tab) s = Some (Mach x' (m_csr s) (m_mem s)) /\ (forall r o, (r, o) ∈ tab -> x' r = ld64 (m_mem s) (pa + o)) /\
    (forall r, r ∉ tab.*1 -> x' r = m_x s r).
Proof.
  induction tab as [|[r o] tab IH]; intros [Hr Hn] Hd s Hw Hb Hself.
  { exists (m_x s). split; [by destruct s|]. split; [intros ? ? ?%elem_of_nil; done|done]. }
  apply Forall_cons in Hr as [(Ho & Hon & Ho8) Hr]. cbn [fmap list_fmap] in Hn, Hd. apply NoDup_cons in Hn as [Hno Hn].
  apply NoDup_cons in Hd as [Hnr Hd]. cbn [fst snd] in *.
  cbn [loads fmap list_fmap run step fst snd]. pose proof (w_va _ _ _ _ _ _ _ Hw). rewrite Hb, u64_small by lia.
  rewrite (w_tr _ _ _ _ _ _ _ Hw) by done. cbn [mbind option_bind]. set (s1 := set_x r _ s).
  destruct (IH (conj Hr Hn) Hd s1) as (x' & Hrun & Hin & Hout).
  - exact Hw.
  - unfold s1. cbn [m_x set_x]. destruct (decide (r = b)) as [->|Hne]; [rewrite fn_lookup_insert; apply Hself; by left|by rewrite fn_lookup_insert_ne].
  - intros o' Hel. apply Hself. by right.
  - exists x'. split; [exact Hrun|]. split.
    + intros r' o' [[= -> ->]|Hel]%elem_of_cons; [|by apply Hin]. rewrite Hout by done. unfold s1. cbn [m_x set_x]. by rewrite fn_lookup_insert.
    + intros r' Hr'. cbn [fmap list_fmap fst] in Hr'. apply not_elem_of_cons in Hr' as [Hne Hr']. rewrite Hout by done.
      unfold s1. cbn [m_x set_x]. by rewrite fn_lookup_insert_ne.
Qed.

(** Registers of the machine are 64 bits wide. *)
Definition regs_ok (s : mach) : Prop := forall r, 0 <= m_x s r < 2 ^ 64.

Lemma elem_of_all_regs r : r ∈ all_regs.
Proof. apply (bool_decide_unpack _). by destruct r. Qed.

(** ** Traps from user space *)

(** The offsets in struct trapframe (kernel/proc.h). *)
Definition slot (r : reg) : Z :=
  match r with
  | RA => 40 | SP => 48 | GP => 56 | TP => 64 | T0 => 72 | T1 => 80 | T2 => 88 | S0 => 96 | S1 => 104 | A0 => 112
  | A1 => 120 | A2 => 128 | A3 => 136 | A4 => 144 | A5 => 152 | A6 => 160 | A7 => 168 | S2 => 176 | S3 => 184 | S4 => 192
  | S5 => 200 | S6 => 208 | S7 => 216 | S8 => 224 | S9 => 232 | S10 => 240 | S11 => 248 | T3 => 256 | T4 => 264 | T5 => 272
  | T6 => 280
  end.

(** All but a0, in the order of the code. *)
Definition trap_regs : list reg :=
  [RA; SP; GP; TP; T0; T1; T2; S0; S1; A1; A2; A3; A4; A5; A6; A7; S2; S3; S4; S5; S6; S7; S8; S9; S10; S11; T3; T4; T5; T6].
Definition trap_tab : list (reg * Z) := (fun r => (r, slot r)) <$> trap_regs.

Lemma trap_tab_slot r o : (r, o) ∈ trap_tab -> o = slot r.
Proof. unfold trap_tab. intros (r' & [= -> ->] & _)%list_elem_of_fmap. done. Qed.

Lemma elem_of_trap_tab r : r <> A0 -> (r, slot r) ∈ trap_tab.
Proof. intros Hr. apply list_elem_of_fmap. exists r. split; [done|]. apply (bool_decide_unpack _). by destruct r. Qed.

Lemma not_trap_tab o : (A0, o) ∉ trap_tab.
Proof. intros (r & [= <- _] & Hel)%list_elem_of_fmap. revert Hel. by apply (bool_decide_unpack _). Qed.

Lemma slot_range r : 40 <= slot r /\ slot r + 8 <= 288.
Proof. destruct r; simpl; lia. Qed.

Lemma in_trap_tab pa a : in_slots trap_tab pa a -> pa + 40 <= a < pa + 288.
Proof. intros (r & o & ->%trap_tab_slot & Ha). pose proof (slot_range r). lia. Qed.

Section user_trap.
Context `{KI : KernelImage} (root tf : Z).

Lemma uservec_ok s L : m_csr s Satp = MAKE_SATP root -> m_csr s Sscratch = TRAPFRAME -> mapped (m_mem s) root L TRAPFRAME tf 288 -> regs_ok s ->
  exists s1, run PrivS uservec s = Some s1 /\
    m_x s1 SP = ld64 (m_mem s) (tf + 8) /\ m_x s1 TP = ld64 (m_mem s) (tf + 32) /\ m_x s1 T0 = ld64 (m_mem s) (tf + 16) /\
    m_csr s1 Satp = ld64 (m_mem s) tf /\
    (forall r, ld64 (m_mem s1) (tf + slot r) = m_x s r) /\
    (forall a, ~ (tf + 40 <= a < tf + 288) -> ld8 (m_mem s1) a = ld8 (m_mem s) a).
Proof.
  intros Hsatp Hscr HM Hx. pose proof (mapped_window _ _ _ _ _ _ HM) as Hw. rewrite <- Hsatp in Hw.
  set (s0 := set_x A0 TRAPFRAME (set_csr Sscratch (m_x s A0) s)).
  change uservec with (Csrrw A0 Sscratch A0 :: saves A0 trap_tab ++ Csrr T0 Sscratch :: saves A0 [(T0, 112)] ++
    loads A0 [(SP, 8); (TP, 32); (T0, 16); (T1, 0)] ++ [Csrw Satp T1; Sfence_vma]).
  cbn [run step mbind option_bind]. rewrite Hscr. fold s0.
  rewrite run_app. destruct (run_saves PrivS A0 trap_tab TRAPFRAME tf 288 (off_table L)) with (s := s0) as (m1 & -> & Hin1 & Hout1);
    [by apply (bool_decide_unpack _)|exact Hw|done|].
  cbn [run step mbind option_bind]. set (s2 := set_x T0 (m_x s A0) (set_mem m1 s0)).
  change (set_x T0 _ (set_mem m1 s0)) with s2. change (m_mem s0) with (m_mem s) in Hout1.
  assert (forall a, ~ off_table L a -> ld8 m1 a = ld8 (m_mem s) a) as Hoff1.
  { intros a Ha. apply Hout1. intros Hi%in_trap_tab. apply Ha, (w_free _ _ _ _ _ _ _ Hw). lia. }
  pose proof (window_same _ _ _ m1 _ _ _ _ Hw Hoff1) as Hw1.
  rewrite run_app. destruct (run_saves PrivS A0 [(T0, 112)] TRAPFRAME tf 288 (off_table L)) with (s := s2) as (m2 & -> & Hin2 & Hout2);
    [by apply (bool_decide_unpack _)|exact Hw1|done|].
  cbn [mbind option_bind]. change (m_mem s2) with m1 in Hout2.
  assert (forall a, ~ (tf + 112 <= a < tf + 120) -> ld8 m2 a = ld8 m1 a) as Hm2.
  { intros a Ha. apply Hout2. intros (r & o & [= -> ->]%list_elem_of_singleton & ?). lia. }
  rewrite run_app. destruct (run_loads PrivS A0 [(SP, 8); (TP, 32); (T0, 16); (T1, 0)] TRAPFRAME tf 288 (off_table L)) with (s := set_mem m2 s2)
    as (x3 & -> & Hin3 & Hout3); [by apply (bool_decide_unpack _)|by apply (bool_decide_unpack _)| |done|intros o Ho; set_solver|].
  { cbn [m_mem set_mem]. eapply window_same; [exact Hw1|]. intros a Ha. apply Hm2. intros Hr. apply Ha, (w_free _ _ _ _ _ _ _ Hw). lia. }
  cbn [mbind option_bind run step]. eexists. split; [reflexivity|]. cbn [m_x m_csr m_mem set_csr csr_write set_mem] in *.
  assert (forall a, ~ (tf + 40 <= a < tf + 288) -> ld8 m2 a = ld8 (m_mem s) a) as Hm.
  { intros a Ha. rewrite Hm2 by lia. apply Hout1. by intros Hi%in_trap_tab. }
  assert (forall o, 0 <= o <= 32 -> ld64 m2 (tf + o) = ld64 (m_mem s) (tf + o)) as Hk by (intros o Ho; apply ld64_ext; intros b Hb; apply Hm; lia).
  split_and!.
  - rewrite (Hin3 SP 8) by set_solver. apply Hk. lia.
  - rewrite (Hin3 TP 32) by set_solver. apply Hk. lia.
  - rewrite (Hin3 T0 16) by set_solver. apply Hk. lia.
  - rewrite fn_lookup_insert, (Hin3 T1 0) by set_solver. rewrite Hk by lia. f_equal. lia.
  - intros r. destruct (decide (r = A0)) as [->|Hr].
    + cbn [slot]. rewrite (Hin2 T0 112) by set_solver. by apply u64_small.
    + rewrite (ld64_ext m2 m1), (Hin1 r (slot r)) by (by apply elem_of_trap_tab || (intros b Hb; apply Hm2; destruct r; cbn [slot] in Hb; lia || done)).
      unfold s0. cbn [m_x set_x set_csr]. rewrite fn_lookup_insert_ne by done. by apply u64_small.
  - exact Hm.
Qed.

Lemma userret_ok s L : mapped (m_mem s) root L TRAPFRAME tf 288 -> m_x s A0 = TRAPFRAME -> m_x s A1 = MAKE_SATP root ->
  exists s3, run PrivS userret s = Some s3 /\ m_csr s3 Satp = MAKE_SATP root /\ m_csr s3 Sscratch = TRAPFRAME /\ m_mem s3 = m_mem s /\
    forall r, m_x s3 r = ld64 (m_mem s) (tf + slot r).
Proof.
  intros HM Ha0 Ha1. pose proof (mapped_window _ _ _ _ _ _ HM) as Hw.
  set (s0 := set_csr Satp (MAKE_SATP root) s).
  change userret with (Csrw Satp A1 :: Sfence_vma :: loads A0 [(T0, 112)] ++ Csrw Sscratch T0 :: loads A0 trap_tab ++ [Csrrw A0 Sscratch A0]).
  cbn [run step mbind option_bind]. rewrite Ha1. fold s0. rewrite run_app.
  destruct (run_loads PrivS A0 [(T0, 112)] TRAPFRAME tf 288 (off_table L)) with (s := s0) as (x1 & -> & Hin1 & Hout1);
    [by apply (bool_decide_unpack _)|by apply (bool_decide_unpack _)|exact Hw|exact Ha0|intros o Ho; set_solver|].
  cbn [run step mbind option_bind]. set (s1 := set_csr Sscratch _ _). rewrite run_app.
  destruct (run_loads PrivS A0 trap_tab TRAPFRAME tf 288 (off_table L)) with (s := s1) as (x2 & -> & Hin2 & Hout2);
    [by apply (bool_decide_unpack _)|by apply (bool_decide_unpack _)|exact Hw| |intros o Ho; by apply not_trap_tab in Ho|].
  { cbn [s1 m_x set_csr]. rewrite Hout1 by set_solver. exact Ha0. }
  cbn [run step mbind option_bind]. eexists. split; [reflexivity|]. cbn [m_x m_csr m_mem set_x set_csr csr_write s1 s0] in *. split_and!; try done.
  - rewrite fn_lookup_insert. rewrite Hout2 by by apply (bool_decide_unpack _). rewrite Hout1 by set_solver. exact Ha0.
  - intros r. destruct (decide (r = A0)) as [->|Hr].
    + rewrite fn_lookup_insert, fn_lookup_insert, (Hin1 T0 112) by set_solver. done.
    + rewrite fn_lookup_insert_ne by done. apply Hin2. by apply elem_of_trap_tab.
Qed.

(** C20: a trap from user space keeps the user's registers.  With TRAPFRAME mapped to
    the process's trapframe, uservec saves every register of the program there,
    takes the kernel's stack, hart id and page table out of it and jumps to the
    handler it names, and changes no other memory.  When userret later runs with the
    same page table, it gives every register what the trapframe then holds: exactly
    the value at the trap, unless the kernel has stored another one; and the next
    trap finds TRAPFRAME in sscratch again. *)
Theorem user_trap_roundtrip (s : mach) (L : gmap Z Z) (Hsatp : m_csr s Satp = MAKE_SATP root) (Hscr : m_csr s Sscratch = TRAPFRAME)
    (HM : mapped (m_mem s) root L TRAPFRAME tf 288) (Hx : regs_ok s) :
  exists s1, run PrivS uservec s = Some s1 /\
    m_x s1 SP = ld64 (m_mem s) (tf + 8) /\ m_x s1 TP = ld64 (m_mem s) (tf + 32) /\ m_x s1 T0 = ld64 (m_mem s) (tf + 16) /\
    m_csr s1 Satp = ld64 (m_mem s) tf /\
    (forall a, ~ (tf + 40 <= a < tf + 288) -> ld8 (m_mem s1) a = ld8 (m_mem s) a) /\
    forall s2 L2, mapped (m_mem s2) root L2 TRAPFRAME tf 288 -> m_x s2 A0 = TRAPFRAME -> m_x s2 A1 = MAKE_SATP root ->
      exists s3, run PrivS userret s2 = Some s3 /\ m_csr s3 Satp = MAKE_SATP root /\ m_csr s3 Sscratch = TRAPFRAME /\ m_mem s3 = m_mem s2 /\
        forall r, m_x s3 r = ld64 (m_mem s2) (tf + slot r) /\
          (ld64 (m_mem s2) (tf + slot r) = ld64 (m_mem s1) (tf + slot r) -> m_x s3 r = m_x s r).
Proof.
  destruct (uservec_ok s L Hsatp Hscr HM Hx) as (s1 & E1 & H1 & H2 & H3 & H4 & Hsaved & Hother). exists s1. split_and!; try done.
  intros s2 L2 HM2 Ha0 Ha1. destruct (userret_ok s2 L2 HM2 Ha0 Ha1) as (s3 & E3 & Hs & Hc & Hm & Hr). exists s3. split_and!; try done.
  intros r. split; [done|]. intros E. by rewrite Hr, E.
Qed.
End user_trap.

(** ** Context switches *)

(** The offsets in struct context (kernel/proc.h). *)
Definition ctx_tab : list (reg * Z) :=
  [(RA, 0); (SP, 8); (S0, 16); (S1, 24); (S2, 32); (S3, 40); (S4, 48); (S5, 56); (S6, 64); (S7, 72); (S8, 80); (S9, 88); (S10, 96); (S11, 104)].

Lemma in_ctx_tab pa a : in_slots ctx_tab pa a -> pa <= a < pa + 112.
Proof.
  assert (Forall (fun p => 0 <= p.2 <= 104) ctx_tab) as H by by apply (bool_decide_unpack _). rewrite Forall_forall in H.
  intros (r & o & Hel & Ha). specialize (H _ Hel). cbn [snd] in H. lia.
Qed.

(** The two contexts of a call swtch(old, new), at the physical addresses [po] and
    [pn]. *)
Record contexts `{KernelImage} (s : mach) (root : Z) (L : gmap Z Z) (old po new pn : Z) : Prop := Contexts {
  cx_satp : m_csr s Satp = MAKE_SATP root;
  cx_a0 : m_x s A0 = old;
  cx_a1 : m_x s A1 = new;
  cx_old : mapped (m_mem s) root L old po 112;
  cx_new : mapped (m_mem s) root L new pn 112;
  cx_disj : po + 112 <= pn \/ pn + 112 <= po;
  cx_regs : regs_ok s }.

Section swtch.
Context `{KI : KernelImage}.

Lemma swtch_ok s root L old po new pn : contexts s root L old po new pn ->
  exists s1, run PrivS swtch s = Some s1 /\ m_csr s1 = m_csr s /\
    (forall r o, (r, o) ∈ ctx_tab -> m_x s1 r = ld64 (m_mem s) (pn + o) /\ ld64 (m_mem s1) (po + o) = m_x s r) /\
    (forall r, r ∉ ctx_tab.*1 -> m_x s1 r = m_x s r) /\
    (forall a, ~ (po <= a < po + 112) -> ld8 (m_mem s1) a = ld8 (m_mem s) a).
Proof.
  intros [Hsatp Ha0 Ha1 Hold Hnew Hdisj Hx]. change swtch with (saves A0 ctx_tab ++ loads A1 ctx_tab). rewrite run_app.
  pose proof (mapped_window _ _ _ _ _ _ Hold) as Hwo. pose proof (mapped_window _ _ _ _ _ _ Hnew) as Hwn. rewrite <- Hsatp in Hwo, Hwn.
  destruct (run_saves PrivS A0 ctx_tab old po 112 (off_table L)) with (s := s) as (m1 & -> & Hin1 & Hout1);
    [by apply (bool_decide_unpack _)|done|done|].
  assert (forall a, ~ (po <= a < po + 112) -> ld8 m1 a = ld8 (m_mem s) a) as Hm1 by (intros a Ha; apply Hout1; by intros ?%in_ctx_tab).
  cbn [mbind option_bind]. destruct (run_loads PrivS A1 ctx_tab new pn 112 (off_table L)) with (s := set_mem m1 s) as (x2 & -> & Hin2 & Hout2);
    [by apply (bool_decide_unpack _)|by apply (bool_decide_unpack _)| |done|intros o Ho; set_solver|].
  { eapply window_same; [exact Hwn|]. intros a Ha. apply Hm1. intros Hr. by apply Ha, (w_free _ _ _ _ _ _ _ Hwo). }
  eexists. split; [reflexivity|]. split; [done|]. cbn [m_x m_mem set_mem] in *. split_and!; [|done..].
  intros r o Hel. split; [|rewrite (Hin1 r o Hel); by apply u64_small]. rewrite (Hin2 r o Hel). apply ld64_ext. intros a Ha. apply Hm1.
  assert (in_slots ctx_tab pn a) as ?%in_ctx_tab by (exists r, o; done). lia.
Qed.

(** C21: swtch(old, new) switches contexts and back.  It stores ra, sp and the
    registers a called function keeps into [old], and nothing else into memory, and
    goes on with those of [new] at the address in its ra.  When a later swtch(), on
    whatever CPU, switches to [old] as it was saved, the caller of the first one goes
    on: all these registers are what they were. *)
Theorem swtch_roundtrip (s : mach) (root : Z) (L : gmap Z Z) (old po new pn : Z) (HC : contexts s root L old po new pn) :
  exists s1, run PrivS swtch s = Some s1 /\
    (forall r o, (r, o) ∈ ctx_tab -> m_x s1 r = ld64 (m_mem s) (pn + o)) /\
    (forall r, r ∉ ctx_tab.*1 -> m_x s1 r = m_x s r) /\
    (forall a, ~ (po <= a < po + 112) -> ld8 (m_mem s1) a = ld8 (m_mem s) a) /\
    forall s2 root2 L2 other pother, contexts s2 root2 L2 other pother old po ->
      (forall a, po <= a < po + 112 -> ld8 (m_mem s2) a = ld8 (m_mem s1) a) ->
      exists s3, run PrivS swtch s2 = Some s3 /\ forall r, r ∈ ctx_tab.*1 -> m_x s3 r = m_x s r.
Proof.
  destruct (swtch_ok _ _ _ _ _ _ _ HC) as (s1 & E1 & _ & Hin1 & Hout1 & Hm1). exists s1. split; [done|].
  split; [intros r o Hel; by apply Hin1|]. split; [done|]. split; [done|]. intros s2 root2 L2 other pother HC2 Hkeep.
  destruct (swtch_ok _ _ _ _ _ _ _ HC2) as (s3 & E3 & _ & Hin3 & _). exists s3. split; [done|].
  intros r ([r' o] & -> & Hel)%list_elem_of_fmap. cbn [fst]. destruct (Hin3 r' o Hel) as [-> _], (Hin1 r' o Hel) as [_ <-].
  apply ld64_ext. intros a Ha. apply Hkeep. assert (in_slots ctx_tab po a) as ?%in_ctx_tab by (exists r', o; done). lia.
Qed.
End swtch.

(** ** Traps from the kernel *)

(** The frame of kernelvec on the stack. *)
Definition kv_off (r : reg) : Z :=
  match r with
  | RA => 0 | SP => 8 | GP => 16 | TP => 24 | T0 => 32 | T1 => 40 | T2 => 48 | S0 => 56 | S1 => 64 | A0 => 72
  | A1 => 80 | A2 => 88 | A3 => 96 | A4 => 104 | A5 => 112 | A6 => 120 | A7 => 128 | S2 => 136 | S3 => 144 | S4 => 152
  | S5 => 160 | S6 => 168 | S7 => 176 | S8 => 184 | S9 => 192 | S10 => 200 | S11 => 208 | T3 => 216 | T4 => 224 | T5 => 232
  | T6 => 240
  end.
Definition kv_tail : list reg :=
  [T0; T1; T2; S0; S1; A0; A1; A2; A3; A4; A5; A6; A7; S2; S3; S4; S5; S6; S7; S8; S9; S10; S11; T3; T4; T5; T6].
Definition kv_tab (rs : list reg) : list (reg * Z) := (fun r => (r, kv_off r)) <$> rs.

Lemma elem_of_kv_tab r o rs : (r, o) ∈ kv_tab rs <-> o = kv_off r /\ r ∈ rs.
Proof.
  unfold kv_tab. rewrite list_elem_of_fmap. split; [by intros (r' & [= -> ->] & ?)|]. intros [-> ?]. by exists r.
Qed.

Lemma in_kv_tab rs pa a : in_slots (kv_tab rs) pa a -> pa <= a < pa + 248.
Proof. intros (r & o & [-> _]%elem_of_kv_tab & Ha). assert (0 <= kv_off r <= 240) by (destruct r; simpl; lia). lia. Qed.

Lemma kv_tab_fst rs : (kv_tab rs).*1 = rs.
Proof. unfold kv_tab. rewrite <- list_fmap_compose. apply list_fmap_id. Qed.

Section kernelvec.
Context `{KI : KernelImage}.

Lemma kernelvec_save_ok s root L pf : m_csr s Satp = MAKE_SATP root -> regs_ok s -> mapped (m_mem s) root L (m_x s SP - 256) pf 256 ->
  exists m1, run PrivS kernelvec_save s = Some (set_mem m1 (set_x SP (m_x s SP - 256) s)) /\
    (forall r, ld64 m1 (pf + kv_off r) = if decide (r = SP) then m_x s SP - 256 else m_x s r) /\
    (forall a, ~ (pf <= a < pf + 248) -> ld8 m1 a = ld8 (m_mem s) a).
Proof.
  intros Hsatp Hx HM. pose proof (mapped_window _ _ _ _ _ _ HM) as Hw. rewrite <- Hsatp in Hw. pose proof (w_va _ _ _ _ _ _ _ Hw) as Hva.
  change kernelvec_save with (Addi SP SP (-256) :: saves SP (kv_tab (RA :: SP :: GP :: TP :: kv_tail))). cbn [run step mbind option_bind].
  pose proof (Hx SP). rewrite u64_small by lia. set (s0 := set_x SP _ s).
  destruct (run_saves PrivS SP (kv_tab (RA :: SP :: GP :: TP :: kv_tail)) (m_x s SP - 256) pf 256 (off_table L)) with (s := s0) as (m1 & -> & Hin & Hout);
    [by apply (bool_decide_unpack _)|exact Hw|done|].
  exists m1. split; [done|]. split; [|intros a Ha; apply Hout; by intros ?%in_kv_tab].
  intros r. rewrite (Hin r); [|apply elem_of_kv_tab; split; [done|]; apply (bool_decide_unpack _); by destruct r].
  unfold s0. cbn [m_x set_x]. case_decide as E.
  - subst r. rewrite fn_lookup_insert. apply u64_small. lia.
  - rewrite fn_lookup_insert_ne by done. by apply u64_small.
Qed.

Lemma kernelvec_restore_ok s root L sp pf : m_csr s Satp = MAKE_SATP root -> 0 <= sp < 2 ^ 64 - 256 -> m_x s SP = sp ->
  mapped (m_mem s) root L sp pf 256 -> ld64 (m_mem s) (pf + 8) = sp ->
  exists x, run PrivS kernelvec_restore s = Some (Mach x (m_csr s) (m_mem s)) /\ x SP = sp + 256 /\ x TP = m_x s TP /\
    forall r, r <> SP -> r <> TP -> x r = ld64 (m_mem s) (pf + kv_off r).
Proof.
  intros Hsatp Hb Hsp HM Hslot. pose proof (mapped_window _ _ _ _ _ _ HM) as Hw. rewrite <- Hsatp in Hw.
  change kernelvec_restore with (loads SP (kv_tab (RA :: SP :: GP :: kv_tail)) ++ [Addi SP SP 256]). rewrite run_app.
  destruct (run_loads PrivS SP (kv_tab (RA :: SP :: GP :: kv_tail)) sp pf 256 (off_table L)) with (s := s) as (x & -> & Hin & Hout);
    [by apply (bool_decide_unpack _)|by apply (bool_decide_unpack _)|done|done|by intros o [-> _]%elem_of_kv_tab|].
  cbn [run step mbind option_bind]. eexists. split; [reflexivity|]. cbn [m_x set_x]. rewrite kv_tab_fst in Hout. split_and!.
  - rewrite fn_lookup_insert, (Hin SP 8) by (apply elem_of_kv_tab; split; [done|]; by apply (bool_decide_unpack _)). rewrite Hslot. apply u64_small. lia.
  - rewrite fn_lookup_insert_ne by done. apply Hout. by apply (bool_decide_unpack _).
  - intros r Hr1 Hr2. rewrite fn_lookup_insert_ne by done. apply Hin, elem_of_kv_tab. split; [done|].
    apply (bool_decide_unpack _). by destruct r.
Qed.

(** C33: an interrupt in the kernel is transparent.  kernelvec saves all registers in
    a frame of 256 bytes below the stack pointer, and changes no other memory.  If
    kerneltrap() returns with the stack pointer it was called with and the frame
    untouched, the interrupted code finds every register as it was, except tp, which
    is that of the CPU it then runs on. *)
Theorem kernelvec_transparent (s : mach) (root : Z) (L : gmap Z Z) (pf : Z) (Hsatp : m_csr s Satp = MAKE_SATP root) (Hx : regs_ok s)
    (HM : mapped (m_mem s) root L (m_x s SP - 256) pf 256) :
  exists s1, run PrivS kernelvec_save s = Some s1 /\ m_x s1 SP = m_x s SP - 256 /\
    (forall a, ~ (pf <= a < pf + 256) -> ld8 (m_mem s1) a = ld8 (m_mem s) a) /\
    forall s2 root2 L2, m_csr s2 Satp = MAKE_SATP root2 -> m_x s2 SP = m_x s1 SP -> mapped (m_mem s2) root2 L2 (m_x s1 SP) pf 256 ->
      (forall a, pf <= a < pf + 256 -> ld8 (m_mem s2) a = ld8 (m_mem s1) a) ->
      exists s3, run PrivS kernelvec_restore s2 = Some s3 /\ m_mem s3 = m_mem s2 /\ m_csr s3 = m_csr s2 /\
        m_x s3 TP = m_x s2 TP /\ forall r, r <> TP -> m_x s3 r = m_x s r.
Proof.
  destruct (kernelvec_save_ok s root L pf Hsatp Hx HM) as (m1 & E1 & Hin & Hout). eexists. split; [exact E1|].
  cbn [m_x m_mem set_mem set_x]. rewrite fn_lookup_insert. split; [done|]. split; [intros a Ha; apply Hout; lia|].
  intros s2 root2 L2 Hsatp2 Hsp2 HM2 Hkeep. pose proof (mp_va _ _ _ _ _ _ HM) as (Hva & _). pose proof (Hx SP).
  assert (forall r, ld64 (m_mem s2) (pf + kv_off r) = ld64 m1 (pf + kv_off r)) as Hfr.
  { intros r. apply ld64_ext. intros a Ha. apply Hkeep. destruct r; cbn [kv_off] in Ha; lia. }
  destruct (kernelvec_restore_ok s2 root2 L2 (m_x s SP - 256) pf Hsatp2) as (x & E3 & Hsp3 & Htp3 & Hx3); [lia|done|done| |].
  { change 8 with (kv_off SP). by rewrite Hfr, Hin. }
  eexists. split; [exact E3|]. cbn [m_x m_mem m_csr]. split_and!; [done..|]. intros r Hr. destruct (decide (r = SP)) as [->|Hne].
  - rewrite Hsp3. lia.
  - rewrite Hx3, Hfr, Hin by done. by rewrite decide_False.
Qed.
End kernelvec.

(** ** The timer interrupt and the entry *)

Lemma raise_ssip v : Z.lor (Z.ldiff v 2) 2 = Z.lor v 2.
Proof. apply Z.bits_inj'. intros n Hn. rewrite !Z.lor_spec, Z.ldiff_spec. destruct (Z.testbit v n), (Z.testbit 2 n); done. Qed.

(** C34: timervec advances the timer and leaves no trace.  With the scratch area of
    start.c in mscratch, the interval is added to the MTIMECMP register of the CPU,
    the bit of the supervisor software interrupt is raised in sip, every register and mscratch are
    restored, and no memory but the first three words of the area and MTIMECMP has
    changed. *)
Theorem timervec_transparent (s : mach) (sc c : Z) (Hx : regs_ok s) (Hsc : m_csr s Mscratch = sc)
    (Hb : 0 <= sc /\ sc + 40 <= 2 ^ 64 /\ sc `mod` 8 = 0) (Hc : ld64 (m_mem s) (sc + 24) = c)
    (Hcb : 0 <= c /\ c + 8 <= 2 ^ 64 /\ c `mod` 8 = 0) (Hd : c + 8 <= sc \/ sc + 40 <= c) :
  exists s', run PrivM timervec s = Some s' /\ (forall r, m_x s' r = m_x s r) /\
    (forall i, m_csr s' i = if decide (i = Sip) then Z.lor (m_csr s Sip) 2 else m_csr s i) /\
    ld64 (m_mem s') c = u64 (ld64 (m_mem s) c + ld64 (m_mem s) (sc + 32)) /\
    (forall a, ~ (sc <= a < sc + 24) -> ~ (c <= a < c + 8) -> ld8 (m_mem s') a = ld8 (m_mem s) a).
Proof.
  pose proof (fun satp m => window_direct satp m sc 40 ltac:(lia) ltac:(lia) ltac:(lia)) as Ws.
  pose proof (fun satp m => window_direct satp m c 8 ltac:(lia) ltac:(lia) ltac:(lia)) as Wc.
  change timervec with (Csrrw A0 Mscratch A0 :: saves A0 [(A1, 0); (A2, 8); (A3, 16)] ++ loads A0 [(A1, 24); (A2, 32)] ++
    loads A1 [(A3, 0)] ++ Add A3 A3 A2 :: saves A1 [(A3, 0)] ++ Li A1 2 :: Csrw Sip A1 ::
    loads A0 [(A3, 16); (A2, 8); (A1, 0)] ++ [Csrrw A0 Mscratch A0]).
  cbn [run step mbind option_bind]. rewrite Hsc, run_app. set (s0 := set_x A0 sc (set_csr Mscratch (m_x s A0) s)).
  destruct (run_saves PrivM A0 [(A1, 0); (A2, 8); (A3, 16)] sc sc 40 (fun _ => True)) with (s := s0) as (m1 & -> & Hin1 & Hout1);
    [by apply (bool_decide_unpack _)|apply Ws|done|].
  cbn [mbind option_bind]. rewrite run_app. change (m_mem s0) with (m_mem s) in Hout1.
  destruct (run_loads PrivM A0 [(A1, 24); (A2, 32)] sc sc 40 (fun _ => True)) with (s := set_mem m1 s0) as (x2 & -> & Hin2 & Hout2);
    [by apply (bool_decide_unpack _)|by apply (bool_decide_unpack _)|apply Ws|done|intros o Ho; set_solver|].
  cbn [mbind option_bind m_mem set_mem m_csr] in *. rewrite run_app.
  assert (forall a, ~ (sc <= a < sc + 24) -> ld8 m1 a = ld8 (m_mem s) a) as Hm1.
  { intros a Ha. apply Hout1. intros (r & o & Hel & Hr). apply Ha. set_solver by lia. }
  assert (x2 A1 = c) as Ec.
  { rewrite (Hin2 A1 24), <- Hc by set_solver. apply ld64_ext. intros a Ha. apply Hm1. lia. }
  destruct (run_loads PrivM A1 [(A3, 0)] c c 8 (fun _ => True)) with (s := Mach x2 (m_csr s0) m1) as (x3 & -> & Hin3 & Hout3);
    [by apply (bool_decide_unpack _)|by apply (bool_decide_unpack _)|apply Wc|done|intros o Ho; set_solver|].
  cbn [mbind option_bind run step m_x m_mem m_csr] in *. rewrite run_app. set (v := u64 (x3 A3 + x3 A2)). set (s4 := set_x A3 v _).
  destruct (run_saves PrivM A1 [(A3, 0)] c c 8 (fun _ => True)) with (s := s4) as (m4 & -> & Hin4 & Hout4);
    [by apply (bool_decide_unpack _)|apply Wc|cbn [s4 set_x m_x]; rewrite fn_lookup_insert_ne, Hout3 by (done || set_solver); done|].
  cbn [mbind option_bind run step]. set (s5 := set_csr Sip _ _). rewrite run_app. change (m_mem s4) with m1 in Hout4.
  assert (forall a, ~ (c <= a < c + 8) -> ld8 m4 a = ld8 m1 a) as Hm4.
  { intros a Ha. apply Hout4. intros (r & o & Hel & Hr). apply Ha. set_solver by lia. }
  destruct (run_loads PrivM A0 [(A3, 16); (A2, 8); (A1, 0)] sc sc 40 (fun _ => True)) with (s := s5) as (x6 & -> & Hin6 & Hout6);
    [by apply (bool_decide_unpack _)|by apply (bool_decide_unpack _)|apply Ws| |intros o Ho; set_solver|].
  { cbn. rewrite fn_lookup_insert_ne, fn_lookup_insert_ne, Hout3, Hout2 by (done || set_solver). done. }
  cbn [mbind option_bind run step]. eexists. split; [reflexivity|]. change (m_mem s5) with m4 in *. cbn [m_x m_csr m_mem set_x set_csr csr_write].
  assert (forall r, r ∉ [A0; A1; A2; A3] -> m_x s5 r = m_x s r) as Hrest.
  { intros r Hr. cbn. rewrite !fn_lookup_insert_ne, Hout3, Hout2 by set_solver. cbn. by rewrite fn_lookup_insert_ne by set_solver. }
  assert (x6 A0 = sc) as E6.
  { rewrite Hout6 by set_solver. cbn. rewrite !fn_lookup_insert_ne, Hout3, Hout2 by (done || set_solver). done. }
  assert (forall r o, (r, o) ∈ [(A3, 16); (A2, 8); (A1, 0)] -> x6 r = m_x s r) as Hsave.
  { intros r o Hel. assert (0 <= o <= 16) as Ho by (apply (proj1 (Forall_forall (fun p => 0 <= p.2 <= 16) _)) in Hel; [done|by apply (bool_decide_unpack _)]).
    rewrite (Hin6 r o Hel), (ld64_ext m4 m1) by (intros a Ha; apply Hm4; lia). rewrite (Hin1 r o) by set_solver.
    unfold s0. cbn. rewrite fn_lookup_insert_ne by set_solver. by apply u64_small. }
  split_and!.
  - intros r. destruct (decide (r = A0)) as [->|H0]; [by rewrite fn_lookup_insert|]. rewrite fn_lookup_insert_ne by done.
    destruct (decide (r ∈ [A1; A2; A3])) as [Hel|Hn]; [|rewrite Hout6 by set_solver; apply Hrest; set_solver].
    destruct (list_elem_of_fmap_1 fst [(A3, 16); (A2, 8); (A1, 0)] r) as ([r' o] & -> & Hel'); [set_solver|]. by eapply Hsave.
  - intros i. destruct i; try done; [by rewrite fn_lookup_insert, E6|]. apply raise_ssip.
  - replace c with (c + 0) at 1 by lia. rewrite (Hin4 A3 0) by set_solver. cbn [s4 m_x set_x]. rewrite fn_lookup_insert. unfold v.
    rewrite (u64_small (u64 _)) by apply u64_range. f_equal. f_equal.
    + rewrite (Hin3 A3 0) by set_solver. rewrite Z.add_0_r. apply ld64_ext. intros a Ha. apply Hm1. lia.
    + rewrite Hout3, (Hin2 A2 32) by set_solver. apply ld64_ext. intros a Ha. apply Hm1. lia.
  - intros a H1 H2. by rewrite Hm4, Hm1.
Qed.

(** The stack of CPU [hart] ends [hart + 1] pages above stack0. *)
Lemma entry_stack s stack0 hart : m_csr s Mhartid = hart -> 0 <= hart < NCPU -> 0 <= stack0 < 2 ^ 56 ->
  exists s', run PrivM (entry stack0) s = Some s' /\ m_x s' SP = stack0 + 4096 * (hart + 1).
Proof.
  intros Hh Hr Hs. eexists. split; [reflexivity|].
  change (u64 (u64 stack0 + u64 (u64 (1024 * 4) * u64 (m_csr s Mhartid + 1))) = stack0 + 4096 * (hart + 1)).
  rewrite Hh, (u64_small stack0), (u64_small (hart + 1)), (u64_small (1024 * 4)) by lia. rewrite (u64_small (1024 * 4 * _)), u64_small by lia. lia.
Qed.

(** ** A concrete address space *)

Section mapped.
Context `{KI : KernelImage}.

Lemma mapped_sub m root L va pa N d n : mapped m root L va pa N -> 0 <= d -> d `mod` 8 = 0 -> d + n <= N ->
  mapped m root L (va + d) (pa + d) n.
Proof.
  intros [WF (H0 & Hn & Ha) Hp Hout] Hd Hd8 Hdn. split; [done|split_and!; dlia| |].
  - intros o Ho. destruct (Hp (d + o) ltac:(lia)) as (v & ? & ? & ? & ? & ?). exists v. rewrite <- !Z.add_assoc. done.
  - intros a q lq Hr. apply Hout. lia.
Qed.

Lemma mapped_same m m' root L va pa n : mapped m root L va pa n -> (forall a, ~ off_table L a -> ld8 m' a = ld8 m a) ->
  mapped m' root L va pa n.
Proof.
  intros [WF Hva Hp Hout] Hm. destruct (outside_wf m m' root L WF) as (WF' & _ & Hpte).
  { intros a q lq Hq Hr. apply Hm. intros Hf. by apply (Hf q lq Hq). }
  split; [done..| |done]. intros o Ho. rewrite Hpte. by apply Hp.
Qed.
End mapped.

(** Page 3 mapped at [va], readable and writable for the kernel. *)
Lemma page_mapped va : 0 <= va < MAXVA -> va `mod` PGSIZE = 0 ->
  exists m L, mapped m (page_no 0) L va (page_no 3) PGSIZE.
Proof.
  intros Hva Hal. destruct (mappages_iter pt_empty (page_no 0) _ _ va (page_no 3) 6 pt_empty_vmst)
    as (k1 & L1 & l1 & St & _ & [(_ & Hl & _)|[M _]]); try (unfold page_no; lia).
  { apply pt_empty_pteof. }
  { simpl in Hl. lia. }
  exists (k_mem k1), L1. split.
  - apply (vm_pt _ _ _ _ (vs_st _ _ _ _ _ _ _ St)).
  - split_and!; dlia.
  - intros o Ho. exists (leaf_pte (page_no 3) 6). rewrite (M (va + o)), decide_True by (unfold vpn; dlia).
    replace (vpn (va + o) - vpn va) with 0 by (unfold vpn; dlia). split; [by rewrite Z.add_0_r|].
    split_and!; [done..|]. change (PTE2PA (leaf_pte (page_no 3) 6)) with (page_no 3). dlia.
  - intros a q lq Ha Hq. destruct (wf_page _ _ _ (vm_pt _ _ _ _ (vs_st _ _ _ _ _ _ _ St)) q lq Hq) as [Pq _].
    assert (q <> page_no 3) as Hne.
    { intros ->. destruct (vs_new _ _ _ _ _ _ _ St (page_no 3)) as [H%lookup_singleton_is_Some|H]; [eauto|unfold page_no in H; lia|].
      rewrite elem_of_cons, list_elem_of_singleton in H. unfold page_no in H. lia. }
    pose proof (page_disjoint q (page_no 3) Pq (page_no_ok 3 ltac:(lia)) Hne). lia.
Qed.

(** Distinct values in all registers. *)
Definition demo_regs (r : reg) : Z := slot r.

Lemma user_trap_roundtrip_witness : exists s s1 s2 s3, m_x s = demo_regs /\ run PrivS uservec s = Some s1 /\ m_mem s2 = m_mem s1 /\
  run PrivS userret s2 = Some s3 /\ forall r, m_x s3 r = demo_regs r.
Proof.
  destruct (page_mapped TRAPFRAME) as (m & L & HM0); [by vm_compute|done|].
  pose proof (mapped_sub _ _ _ _ _ _ 0 288 HM0 ltac:(lia) eq_refl ltac:(lia)) as HM. rewrite !Z.add_0_r in HM.
  set (s := Mach demo_regs (fun c => match c with Satp => MAKE_SATP (page_no 0) | Sscratch => TRAPFRAME | _ => 0 end) m).
  destruct (user_trap_roundtrip (page_no 0) (page_no 3) s L eq_refl eq_refl HM) as (s1 & E1 & _ & _ & _ & _ & Hm & Hret).
  { intros r. unfold s, demo_regs. cbn [m_x]. pose proof (slot_range r). lia. }
  set (s2 := set_x A0 TRAPFRAME (set_x A1 (MAKE_SATP (page_no 0)) s1)).
  destruct (Hret s2 L) as (s3 & E3 & _ & _ & _ & Hr); [|done|done|].
  { apply (mapped_same m); [done|]. intros a Ha. apply Hm. intros Hin. apply Ha. intros q lq. apply (mp_out _ _ _ _ _ _ HM). lia. }
  exists s, s1, s2, s3. split_and!; try done. intros r. by apply Hr.
Defined.

Lemma swtch_roundtrip_witness : exists s s1 s2 s3, m_x s RA = 1000 /\ m_x s S11 = 111 /\ run PrivS swtch s = Some s1 /\ m_mem s2 = m_mem s1 /\
  run PrivS swtch s2 = Some s3 /\ m_x s3 RA = 1000 /\ m_x s3 S11 = 111.
Proof.
  destruct (page_mapped (page_no 3)) as (m & L & HM); [by vm_compute|done|].
  pose proof (mapped_sub _ _ _ _ _ _ 0 112 HM ltac:(lia) eq_refl ltac:(lia)) as Ho. pose proof (mapped_sub _ _ _ _ _ _ 112 112 HM ltac:(lia) eq_refl ltac:(lia)) as Hn.
  rewrite !Z.add_0_r in Ho. set (regs (a b : Z) (r : reg) := match r with RA => 1000 | S11 => 111 | A0 => a | A1 => b | _ => 0 end).
  set (cs (c : csr) := match c with Satp => MAKE_SATP (page_no 0) | _ => 0 end). set (po := page_no 3) in *. set (pn := po + 112).
  assert (forall m' a b pa pb, mapped m' (page_no 0) L a pa 112 -> mapped m' (page_no 0) L b pb 112 -> pa + 112 <= pb \/ pb + 112 <= pa ->
    contexts (Mach (regs a b) cs m') (page_no 0) L a pa b pb) as HC.
  { intros m' a b pa pb Ha Hb Hd. split; try done. intros r. pose proof (mp_va _ _ _ _ _ _ Ha). pose proof (mp_va _ _ _ _ _ _ Hb).
    destruct r; cbn; lia. }
  destruct (swtch_roundtrip (Mach (regs po pn) cs m) (page_no 0) L po po pn pn) as (s1 & E1 & _ & _ & Hm & Hback); [apply HC; [done..|unfold pn; lia]|].
  assert (forall a, ~ off_table L a -> ld8 (m_mem s1) a = ld8 m a) as Hoff.
  { intros a Ha. apply Hm. intros Hin. apply Ha. intros q lq. apply (mp_out _ _ _ _ _ _ Ho). lia. }
  destruct (Hback (Mach (regs pn po) cs (m_mem s1)) (page_no 0) L pn pn) as (s3 & E3 & Hr); [|done|].
  { apply HC; [by apply (mapped_same m)..|unfold pn; lia]. }
  exists (Mach (regs po pn) cs m), s1, (Mach (regs pn po) cs (m_mem s1)), s3. split_and!; try done; by apply Hr; apply (bool_decide_unpack _).
Defined.

Lemma kernelvec_transparent_witness : exists s s1 s3, run PrivS kernelvec_save s = Some s1 /\ run PrivS kernelvec_restore s1 = Some s3 /\
  forall r, m_x s3 r = m_x s r.
Proof.
  destruct (page_mapped (page_no 3)) as (m & L & HM); [by vm_compute|done|].
  pose proof (mapped_sub _ _ _ _ _ _ 0 256 HM ltac:(lia) eq_refl ltac:(lia)) as Hf. rewrite !Z.add_0_r in Hf.
  set (s := Mach (fun r => match r with SP => page_no 3 + 256 | TP => 7 | _ => slot r end) (fun c => match c with Satp => MAKE_SATP (page_no 0) | _ => 0 end) m).
  assert (regs_ok s) as Hx by (intros r; unfold s, page_no; cbn [m_x]; pose proof (slot_range r); destruct r; lia).
  destruct (kernelvec_transparent s (page_no 0) L (page_no 3) eq_refl Hx Hf) as (s1 & E1 & Hsp & Hm & Hret).
  assert (m_csr s1 = m_csr s /\ m_x s1 TP = 7) as [Hc Ht].
  { destruct (kernelvec_save_ok s (page_no 0) L (page_no 3) eq_refl Hx Hf) as (m1 & E & _).
    rewrite E in E1. by injection E1 as <-. }
  destruct (Hret s1 (page_no 0) L) as (s3 & E3 & _ & _ & Htp & Hr); [by rewrite Hc|done| |done|].
  { rewrite Hsp. apply (mapped_same m); [exact Hf|]. intros a Ha. apply Hm. intros Hin. apply Ha. intros q lq. by apply (mp_out _ _ _ _ _ _ Hf). }
  exists s, s1, s3. split_and!; [done..|]. intros r. destruct (decide (r = TP)) as [->|Hne]; [by rewrite Htp, Ht|by apply Hr].
Defined.

(** The timer of CPU 0: the scratch area at 0x80010000, MTIMECMP at 0x2004000. *)
Lemma timervec_transparent_witness : exists s s', run PrivM timervec s = Some s' /\ (forall r, m_x s' r = m_x s r) /\
  ld64 (m_mem s) (CLINT_MTIMECMP 0) = 5 /\ ld64 (m_mem s') (CLINT_MTIMECMP 0) = 1000005.
Proof.
  set (sc := 0x80010000). set (c := CLINT_MTIMECMP 0). set (m := st64 (st64 (st64 ∅ c 5) (sc + 24) c) (sc + 32) 1000000).
  set (s := Mach demo_regs (fun i => match i with Mscratch => sc | _ => 0 end) m).
  destruct (timervec_transparent s sc c) as (s' & E & Hr & _ & Ht & _).
  - intros r. unfold s, demo_regs. cbn [m_x]. pose proof (slot_range r). lia.
  - done.
  - by vm_compute.
  - by vm_compute.
  - by vm_compute.
  - left. by vm_compute.
  - exists s, s'. split; [exact E|]. split; [exact Hr|]. split; [by vm_compute|]. rewrite Ht. by vm_compute.
Defined.
