(* ===== verification/Pipe.v ===== *)
(** Pipes: kernel/pipe.c, except pipealloc(), which is in File.

    The struct pipe in the page at address [pi] is the entry [pi] of [k_pipes]. *)

From Stdlib Require Import ZArith Lia.
From stdpp Require Import base gmap strings list numbers.
From S2P Require Import Prelude Params State Spinlock Sched CString Kalloc Vm.

Open Scope Z_scope.

Abbreviation PIPESIZE := 512.

Definition getpipe (pi : Z) : M pipe := fun k =>
  match k_pipes k !! pi with Some p => Ret p k | None => Panic "pipe" end.
Definition modpipe (pi : Z) (f : pipe -> pipe) : M unit :=
  modify (fun k => set_k_pipes (alter f pi (k_pipes k)) k).

Section pipe.
Context `{KI : KernelImage}.

(** Freeing the page of a pipe. *)
Definition free_pipe (pi : Z) : M unit :=
  modify (fun k => set_k_pipes (delete pi (k_pipes k)) k);;
  kfree pi.

Definition pipeclose (pi : Z) (writable : bool) : M unit :=
  acquire (LPipe pi);;
  (if writable then
     modpipe pi (set_p_writeopen false);;
     wakeup (ChPipeRead pi)
   else
     modpipe pi (set_p_readopen false);;
     wakeup (ChPipeWrite pi));;
  p ← getpipe pi;
  if negb (p_readopen p) && negb (p_writeopen p) then
    release (LPipe pi);;
    free_pipe pi
  else release (LPipe pi).

(** pi->data[pi->nwrite++ % PIPESIZE] = ch. *)
Definition pipe_put (ch : Z) (p : pipe) : pipe :=
  set_p_nwrite (u32 (p_nwrite p + 1))
    (set_p_data (<[Z.to_nat (p_nwrite p `mod` PIPESIZE) := ch]> (p_data p)) p).
(** ch = pi->data[pi->nread++ % PIPESIZE]. *)
Definition pipe_get (p : pipe) : Z := p_data p !!! Z.to_nat (p_nread p `mod` PIPESIZE).
Definition pipe_advance (p : pipe) : pipe := set_p_nread (u32 (p_nread p + 1)) p.

(** The loop of pipewrite() from index [i], with pi->lock held; a writer that
    sleeps continues here with its [i]. *)
Fixpoint pipewrite_loop (fuel : nat) (me : nat) (pi addr n i : Z) : M Z :=
  match fuel with
  | O => nofuel
  | S fuel =>
      if negb (i <? n) then
        wakeup (ChPipeRead pi);;
        release (LPipe pi);;
        mret i
      else
      p ← getpipe pi;
      pr ← getproc me;
      if negb (p_readopen p) || truth (pr_killed pr) then
        release (LPipe pi);;
        mret (-1)
      else if p_nwrite p =? u32 (p_nread p + PIPESIZE) then
        wakeup (ChPipeRead pi);;
        sleep (ChPipeWrite pi) (LPipe pi) i
      else
        '(r, bs) ← copyin (pr_pagetable pr) (u64 (addr + i)) 1;
        if r =? -1 then
          wakeup (ChPipeRead pi);;
          release (LPipe pi);;
          mret i
        else
          modpipe pi (pipe_put (bs !!! 0%nat));;
          pipewrite_loop fuel me pi addr n (i + 1)
  end.

Definition pipewrite (pi addr n : Z) : M Z :=
  me ← curproc;
  acquire (LPipe pi);;
  pipewrite_loop (S (Z.to_nat n)) me pi addr n 0.

(** The copy loop of piperead(); the result is [i] at its end. *)
Fixpoint piperead_loop (fuel : nat) (me : nat) (pi addr n i : Z) : M Z :=
  match fuel with
  | O => nofuel
  | S fuel =>
      if negb (i <? n) then mret i else
      p ← getpipe pi;
      if p_nread p =? p_nwrite p then mret i else
      let ch := pipe_get p in
      modpipe pi pipe_advance;;
      pr ← getproc me;
      r ← copyout (pr_pagetable pr) (u64 (addr + i)) [ch];
      if r =? -1 then mret i else
      piperead_loop fuel me pi addr n (i + 1)
  end.

(** A reader that sleeps tests the pipe again. *)
Definition piperead (pi addr n : Z) : M Z :=
  me ← curproc;
  acquire (LPipe pi);;
  p ← getpipe pi;
  pr ← getproc me;
  if (p_nread p =? p_nwrite p) && p_writeopen p then
    if truth (pr_killed pr) then
      release (LPipe pi);;
      mret (-1)
    else sleep (ChPipeRead pi) (LPipe pi) 0
  else
    i ← piperead_loop (S (Z.to_nat n)) me pi addr n 0;
    wakeup (ChPipeWrite pi);;
    release (LPipe pi);;
    mret i.

End pipe.
