(* ===== verification/Copy.v ===== *)
(** Copying between kernel and user memory: either_copyout() and either_copyin()
    of kernel/proc.c.

    The [user_dst] flag and the address become one argument: a user virtual
    address, a physical page the kernel addresses directly, or a local variable
    of the caller, whose bytes the caller receives as a result. *)

From Stdlib Require Import ZArith Lia.
From stdpp Require Import base gmap strings list numbers.
From S2P Require Import Prelude Params State Spinlock Sched CString Kalloc Vm.

Open Scope Z_scope.

Inductive dst := DUser (va : Z) | DKern (pa : Z) | DLocal.
Inductive src := SUser (va : Z) | SBytes (bs : list Z).

(** dst + n and src + n. *)
Definition dst_add (d : dst) (n : Z) : dst :=
  match d with
  | DUser va => DUser (u64 (va + n))
  | DKern pa => DKern (u64 (pa + n))
  | DLocal => DLocal
  end.
Definition src_add (s : src) (n : Z) : src :=
  match s with
  | SUser va => SUser (u64 (va + n))
  | SBytes bs => SBytes (drop (Z.to_nat n) bs)
  end.

Section copy.
Context `{KI : KernelImage}.

(** Copy to either a user address, or kernel address: 0, or -1 on error. *)
Definition either_copyout (d : dst) (bytes : list Z) : M Z :=
  p ← myproc;
  match d with
  | DUser va =>
      match p with
      | Some i => pr ← getproc i; copyout (pr_pagetable pr) va bytes
      | None => panic "kerneltrap"
      end
  | DKern pa => write_bytes pa bytes;; mret 0
  | DLocal => mret 0
  end.

(** Copy from either a user address, or kernel address: the status and the bytes
    that were stored. *)
Definition either_copyin (s : src) (len : nat) : M (Z * list Z) :=
  p ← myproc;
  match s with
  | SUser va =>
      match p with
      | Some i => pr ← getproc i; copyin (pr_pagetable pr) va len
      | None => panic "kerneltrap"
      end
  | SBytes bs => mret (0, take len bs)
  end.

End copy.
