(* ===== verification/Uart.v ===== *)
(** The UART driver: kernel/uart.c, except uartintr(), which is in Console.

    The device answers the successive reads of LSR and RHR from the lists [u_lsr]
    and [u_rhr] of the state; a list that is too short ends the run in
    [OutOfFuel].  Register writes are logged in [u_wr]. *)

From Stdlib Require Import ZArith Lia.
From stdpp Require Import base gmap strings list numbers.
From S2P Require Import Prelude Params State Spinlock Sched.

Open Scope Z_scope.

Abbreviation RHR := 0.
Abbreviation THR := 0.
Abbreviation IER := 1.
Abbreviation FCR := 2.
Abbreviation LCR := 3.
Abbreviation LSR := 5.
Abbreviation LSR_TX_IDLE := 32.
Abbreviation UART_TX_BUF_SIZE := 32.

Definition moduart (f : uart -> uart) : M unit := modify (fun k => set_k_uart (f (k_uart k)) k).

Definition WriteReg (reg v : Z) : M unit := moduart (fun u => set_u_wr ((reg, u8 v) :: u_wr u) u).
Definition ReadLSR : M Z :=
  u ← gets k_uart;
  match u_lsr u with
  | [] => nofuel
  | x :: l => moduart (set_u_lsr l);; mret x
  end.
Definition ReadRHR : M Z :=
  u ← gets k_uart;
  match u_rhr u with
  | [] => nofuel
  | x :: l => moduart (set_u_rhr l);; mret x
  end.

Definition uartinit : M unit :=
  WriteReg IER 0x00;;
  WriteReg LCR 128;;
  WriteReg 0 0x03;;
  WriteReg 1 0x00;;
  WriteReg LCR 3;;
  WriteReg FCR (Z.lor 1 6);;
  WriteReg IER (Z.lor 2 1);;
  initlock LUart.

(** if the UART is idle, and a character is waiting in the transmit buffer, send
    it; every iteration consumes a character. *)
Fixpoint uartstart_loop (fuel : nat) : M unit :=
  match fuel with
  | O => nofuel
  | S fuel =>
      u ← gets k_uart;
      if u_tx_w u =? u_tx_r u then mret tt else
      lsr ← ReadLSR;
      if Z.land lsr LSR_TX_IDLE =? 0 then mret tt else
      let c := u_tx_buf u !!! Z.to_nat (u_tx_r u `mod` UART_TX_BUF_SIZE) in
      moduart (fun u => set_u_tx_r (u64 (u_tx_r u + 1)) u);;
      wakeup ChUartTx;;
      WriteReg THR c;;
      uartstart_loop fuel
  end.
Definition uartstart : M unit :=
  u ← gets k_uart;
  uartstart_loop (S (Z.to_nat (u64 (u_tx_w u - u_tx_r u)))).

(** The body of the while loop of uartputc(), which tests again after a sleep. *)
Definition uartputc_body (c : Z) : M unit :=
  u ← gets k_uart;
  if u_tx_w u =? u64 (u_tx_r u + UART_TX_BUF_SIZE) then sleep ChUartTx LUart c
  else
    moduart (fun u => set_u_tx_buf (<[Z.to_nat (u_tx_w u `mod` UART_TX_BUF_SIZE) := u8 c]> (u_tx_buf u)) u);;
    moduart (fun u => set_u_tx_w (u64 (u_tx_w u + 1)) u);;
    uartstart;;
    release LUart.

(** add a character to the output buffer and tell the UART to start sending. *)
Definition uartputc (c : Z) : M unit :=
  acquire LUart;;
  p ← gets k_panicked;
  if p : bool then blocked WForever else
  uartputc_body c.

(** wait for Transmit Holding Empty to be set in LSR; [n] bounds the reads. *)
Fixpoint lsr_wait (n : nat) : M unit :=
  match n with
  | O => nofuel
  | S n => lsr ← ReadLSR; if Z.land lsr LSR_TX_IDLE =? 0 then lsr_wait n else mret tt
  end.

(** alternate version of uartputc() that spins instead of using interrupts. *)
Definition uartputc_sync (c : Z) : M unit :=
  push_off;;
  p ← gets k_panicked;
  if p : bool then blocked WForever else
  u ← gets k_uart;
  lsr_wait (length (u_lsr u));;
  WriteReg THR c;;
  pop_off.

(** read one input character from the UART, -1 if none is waiting. *)
Definition uartgetc : M Z :=
  lsr ← ReadLSR;
  if truth (Z.land lsr 1) then ReadRHR else mret (-1).
