(* ===== verification/Printf.v ===== *)
(** Formatted console output: kernel/printf.c, and consputc() of kernel/console.c.

    A variadic argument list is a list of [arg]s; a string is a byte list. *)

From Stdlib Require Import ZArith Lia Ascii.
From stdpp Require Import base gmap strings list numbers.
From S2P Require Import Prelude Params State Spinlock Sched Uart.

Open Scope Z_scope.

Abbreviation BACKSPACE := 256.

(** send one character to the uart. *)
Definition consputc (c : Z) : M unit :=
  if c =? BACKSPACE then
    uartputc_sync 8;; uartputc_sync 32;; uartputc_sync 8
  else uartputc_sync c.

Definition digit (n : Z) : Z := str "0123456789abcdef" !!! Z.to_nat n.

(** The do-while loop of printint(): buf, least significant digit first.  A
    32-bit value has at most 32 digits in any base. *)
Fixpoint int_digits (fuel : nat) (x base : Z) : list Z :=
  match fuel with
  | O => []
  | S fuel => digit (x `mod` base) :: if x / base =? 0 then [] else int_digits fuel (x / base) base
  end.

(** The characters printint() sends. *)
Definition int_chars (xx base : Z) (sign : bool) : list Z :=
  let neg := sign && (xx <? 0) in
  let x := u32 (if neg then - xx else xx) in
  (if neg then [45] else []) ++ rev (int_digits 32 x base).

Definition printint (xx base : Z) (sign : bool) : M unit := forM (int_chars xx base sign) consputc.

(** The loop of printptr(): the top four bits, then shift. *)
Fixpoint ptr_digits (n : nat) (x : Z) : list Z :=
  match n with
  | O => []
  | S n => digit (Z.shiftr x 60) :: ptr_digits n (u64 (Z.shiftl x 4))
  end.
Definition printptr (x : Z) : M unit := forM ([48; 120] ++ ptr_digits 16 x) consputc.

(** A variadic argument. *)
Inductive arg := AInt (x : Z) | APtr (x : Z) | AStr (s : option (list Z)).

(** The loop of printf() over the format; it ends at a nul or after the last byte. *)
Fixpoint printf_loop (fmt : list Z) (ap : list arg) : M unit :=
  match fmt with
  | [] => mret tt
  | c :: fmt =>
      if c =? 0 then mret tt else
      if negb (c =? 37) then consputc c;; printf_loop fmt ap else
      match fmt with
      | [] => mret tt
      | c :: fmt =>
          if c =? 0 then mret tt else
          if c =? 100 then
            match ap with
            | AInt x :: ap => printint x 10 true;; printf_loop fmt ap
            | _ => panic "va_arg"
            end
          else if c =? 120 then
            match ap with
            | AInt x :: ap => printint x 16 true;; printf_loop fmt ap
            | _ => panic "va_arg"
            end
          else if c =? 112 then
            match ap with
            | APtr x :: ap => printptr x;; printf_loop fmt ap
            | _ => panic "va_arg"
            end
          else if c =? 115 then
            match ap with
            | AStr s :: ap => forM (default (str "(null)") s) consputc;; printf_loop fmt ap
            | _ => panic "va_arg"
            end
          else if c =? 37 then consputc 37;; printf_loop fmt ap
          else consputc 37;; consputc c;; printf_loop fmt ap
      end
  end.

(** Print to the console. *)
Definition printf (fmt : string) (ap : list arg) : M unit :=
  locking ← gets k_locking;
  when locking (acquire LPr);;
  printf_loop (str fmt) ap;;
  when locking (release LPr).

(** panic() as the code runs it; elsewhere a call of panic() is the outcome
    [Panic]. *)
Definition panic_run (s : string) : M unit :=
  modify (set_k_locking false);;
  printf "panic: " [];;
  printf s [];;
  printf newline [];;
  modify (set_k_panicked true);;
  blocked WForever.

Definition printfinit : M unit :=
  initlock LPr;;
  modify (set_k_locking true).
