(* ===== verification/Console.v ===== *)
(** The console: kernel/console.c, uartintr() of kernel/uart.c and procdump() of
    kernel/proc.c. *)

From Stdlib Require Import ZArith Lia.
From stdpp Require Import base gmap strings list numbers.
From S2P Require Import Prelude Params State Spinlock Sched CString Kalloc Vm Copy Uart Printf.

Open Scope Z_scope.

Abbreviation INPUT_BUF := 128.

Definition modcons (f : cons -> cons) : M unit := modify (fun k => set_k_cons (f (k_cons k)) k).

(** cons.buf[i % INPUT_BUF]. *)
Definition cons_at (c : cons) (i : Z) : Z := c_buf c !!! Z.to_nat (i `mod` INPUT_BUF).

(** The states[] table of procdump(); USED has no entry. *)
Definition state_name (s : procstate) : string :=
  match s with
  | UNUSED => "unused" | SLEEPING => "sleep " | RUNNABLE => "runble" | RUNNING => "run   "
  | ZOMBIE => "zombie" | USED => "???"
  end.


(** Print a process listing to console. *)
Definition procdump1 (i : nat) : M unit :=
  p ← getproc i;
  if bool_decide (pr_state p = UNUSED) then mret tt else
  printf "%d %s %s" [AInt (pr_pid p); AStr (Some (str (state_name (pr_state p))));
                     AStr (Some (cstr (pr_name p)))];;
  printf newline [].
Definition procdump : M unit :=
  printf newline [];;
  forM (seq 0 NPROC) procdump1.

Section console.
Context `{KI : KernelImage}.

(** The loop of consolewrite() from index [i]. *)
Fixpoint consolewrite_loop (fuel : nat) (s : src) (n i : Z) : M Z :=
  match fuel with
  | O => nofuel
  | S fuel =>
      if negb (i <? n) then mret i else
      '(r, bs) ← either_copyin (src_add s i) 1;
      if r =? -1 then mret i else
      uartputc (bs !!! 0%nat);;
      consolewrite_loop fuel s n (i + 1)
  end.

(** user write()s to the console go here. *)
Definition consolewrite (s : src) (n : Z) : M Z := consolewrite_loop (S (Z.to_nat n)) s n 0.

(** The loop of consoleread(), with cons.lock held; [n] bytes are still wanted. *)
Fixpoint consoleread_loop (fuel : nat) (d : dst) (n target : Z) : M Z :=
  match fuel with
  | O => nofuel
  | S fuel =>
      if negb (0 <? n) then release LCons;; mret (i32 (target - n)) else
      cs ← gets k_cons;
      if c_r cs =? c_w cs then
        p ← curproc;
        pr ← getproc p;
        if truth (pr_killed pr) then release LCons;; mret (-1)
        else sleep ChCons LCons n
      else
      let c := cons_at cs (c_r cs) in
      modcons (fun cs => set_c_r (u32 (c_r cs + 1)) cs);;
      if c =? 4 then
        when (n <? target) (modcons (fun cs => set_c_r (u32 (c_r cs - 1)) cs));;
        release LCons;;
        mret (i32 (target - n))
      else
      r ← either_copyout d [c];
      if r =? -1 then release LCons;; mret (i32 (target - n)) else
      if c =? 10 then release LCons;; mret (i32 (target - (n - 1)))
      else consoleread_loop fuel (dst_add d 1) (n - 1) target
  end.

(** user read()s from the console go here: copy (up to) a whole input line. *)
Definition consoleread (d : dst) (n : Z) : M Z :=
  acquire LCons;;
  consoleread_loop (S (Z.to_nat n)) d n (u32 n).

End console.

(** Kill line. *)
Fixpoint kill_line (fuel : nat) : M unit :=
  match fuel with
  | O => nofuel
  | S fuel =>
      cs ← gets k_cons;
      if negb (c_e cs =? c_w cs) && negb (cons_at cs (u32 (c_e cs - 1)) =? 10) then
        modcons (fun cs => set_c_e (u32 (c_e cs - 1)) cs);;
        consputc BACKSPACE;;
        kill_line fuel
      else mret tt
  end.

(** The default case of consoleintr(): store an ordinary character. *)
Definition cons_store (c : Z) : M unit :=
  cs ← gets k_cons;
  when (negb (c =? 0) && (u32 (c_e cs - c_r cs) <? INPUT_BUF)) (
    let c := if c =? 13 then 10 else c in
    consputc c;;
    modcons (fun cs => set_c_buf (<[Z.to_nat (c_e cs `mod` INPUT_BUF) := u8 c]> (c_buf cs)) cs);;
    modcons (fun cs => set_c_e (u32 (c_e cs + 1)) cs);;
    cs ← gets k_cons;
    when ((c =? 10) || (c =? 4) || (c_e cs =? u32 (c_r cs + INPUT_BUF))) (
      modcons (fun cs => set_c_w (c_e cs) cs);;
      wakeup ChCons)).

(** the console input interrupt handler: erase/kill processing, append to cons.buf,
    wake up consoleread() if a whole line has arrived. *)
Definition consoleintr (c : Z) : M unit :=
  acquire LCons;;
  (if c =? 16 then procdump
   else if c =? 21 then
     cs ← gets k_cons;
     kill_line (S (Z.to_nat (u32 (c_e cs - c_w cs))))
   else if (c =? 8) || (c =? 127) then
     cs ← gets k_cons;
     when (negb (c_e cs =? c_w cs)) (
       modcons (fun cs => set_c_e (u32 (c_e cs - 1)) cs);;
       consputc BACKSPACE)
   else cons_store c);;
  release LCons.

Definition consoleinit : M unit :=
  initlock LCons;;
  uartinit;;
  modify (fun k => set_k_devsw (<[Z.to_nat CONSOLE := Some DevConsole]> (k_devsw k)) k).

(** The loop of uartintr() that processes incoming characters; every iteration
    reads LSR. *)
Fixpoint uartintr_loop (fuel : nat) : M unit :=
  match fuel with
  | O => nofuel
  | S fuel =>
      c ← uartgetc;
      if c =? -1 then mret tt else consoleintr c;; uartintr_loop fuel
  end.

(** handle a uart interrupt. *)
Definition uartintr : M unit :=
  u ← gets k_uart;
  uartintr_loop (length (u_lsr u));;
  acquire LUart;;
  uartstart;;
  release LUart.
