(* ===== verification/Frame.v ===== *)
(** What a kernel function leaves alone.

    [frame] relates the states before and after a file-system call: everything
    outside the buffer cache, the disk, the log and the inode table is unchanged,
    except that sleeping processes may have been made runnable. *)

From Stdlib Require Import ZArith Lia.
From stdpp Require Import base gmap strings list numbers.
From S2P Require Import Prelude Params State Spinlock Sched.

Open Scope Z_scope.

(** Process records before and after any number of wakeup() calls. *)
Definition woken1 (p p' : proc) : Prop :=
  p' = p \/ (pr_state p = SLEEPING /\ p' = set_pr_state RUNNABLE p).
Definition woken : list proc -> list proc -> Prop := Forall2 woken1.

#[export] Instance woken1_preorder : PreOrder woken1.
Proof.
  split; [by left|]. intros p q r [->|[H1 ->]] [->|[H2 ->]]; unfold woken1; auto.
Qed.

#[export] Instance woken_preorder : PreOrder woken.
Proof. unfold woken. split; apply _. Qed.

Lemma woken_wakeall ch k : woken (k_procs k) (k_procs (wakeall ch k)).
Proof.
  unfold wakeall, woken. ksimpl. apply Forall2_same_length_lookup_2.
  { by rewrite length_imap. }
  intros i x y Hx. rewrite list_lookup_imap, Hx. intros [= <-].
  unfold wake, woken1. case_bool_decide; [by left|].
  destruct (bool_decide (pr_state x = SLEEPING)) eqn:E; simpl; [|by left].
  apply bool_decide_eq_true in E. case_bool_decide; auto.
Qed.

Lemma woken_lookup ps ps' i p :
  woken ps ps' -> ps !! i = Some p -> pr_state p <> SLEEPING -> ps' !! i = Some p.
Proof.
  intros H Hi Hs. destruct (Forall2_lookup_l _ _ _ _ _ H Hi) as (p' & Hp' & [->|[? _]]); done.
Qed.

(** Fields that no file-system function below the inode layer touches. *)
Record frame (k k' : kst) : Prop := Frame {
  fr_hart : k_hart k' = k_hart k;
  fr_locks : k_locks k' = k_locks k;
  fr_mem : k_mem k' = k_mem k;
  fr_freelist : k_freelist k' = k_freelist k;
  fr_procs : woken (k_procs k) (k_procs k');
  fr_nextpid : k_nextpid k' = k_nextpid k;
  fr_initproc : k_initproc k' = k_initproc k;
  fr_ticks : k_ticks k' = k_ticks k;
  fr_sb : k_sb k' = k_sb k;
  fr_files : k_files k' = k_files k;
  fr_pipes : k_pipes k' = k_pipes k;
  fr_cons : k_cons k' = k_cons k;
  fr_uart : k_uart k' = k_uart k;
  fr_panicked : k_panicked k' = k_panicked k;
  fr_csr : k_csr k' = k_csr k;
  fr_plic : k_plic k' = k_plic k;
  fr_devsw : k_devsw k' = k_devsw k;
  fr_kpt : k_kpt k' = k_kpt k;
  fr_locking : k_locking k' = k_locking k;
  fr_first : k_first k' = k_first k }.

#[export] Instance frame_preorder : PreOrder frame.
Proof.
  split.
  - intros k. by constructor.
  - intros x y z [] []. constructor; etrans; eauto.
Qed.

(** [frame_tac] proves [frame k k'] for an explicit update [k'] of [k]. *)
Ltac frame_tac := constructor; ksimpl; try reflexivity.

(** Process [me], with record [p], runs on this CPU and holds no spin lock. *)
Record quiet (k : kst) (me : nat) (p : proc) : Prop := Quiet {
  q_run : running k me p;
  q_state : pr_state p = RUNNING;
  q_chan : pr_chan p = None;
  q_locks : k_locks k = ∅;
  q_noff : h_noff (k_hart k) = 0;
  q_nproc : length (k_procs k) = NPROC }.

Lemma quiet_frame k k' me p : frame k k' -> quiet k me p -> quiet k' me p.
Proof.
  intros [] [(Hok & Hc & Hp) Hs Hch Hl Hn Hlen]. constructor; try congruence.
  - unfold running. rewrite fr_hart0. split_and!; auto.
    eapply woken_lookup; eauto. by rewrite Hs.
  - by rewrite <- (Forall2_length _ _ _ fr_procs0).
Qed.

Lemma quiet_lock k me p l : quiet k me p -> k_locks k !! l = None.
Proof. intros []. by rewrite q_locks0. Qed.

Lemma quiet_plocks k me p : quiet k me p -> plocks_free k.
Proof. intros H i. by eapply quiet_lock. Qed.

Lemma quiet_hart k me p : quiet k me p -> hart_ok (k_hart k).
Proof. by intros [[]]. Qed.

#[export] Hint Resolve quiet_frame quiet_lock quiet_plocks quiet_hart q_run q_nproc : xv6.

(** wakeup() makes every process sleeping on [ch] runnable. *)
Lemma wakeup_woken ch k :
  hart_ok (k_hart k) -> plocks_free k -> length (k_procs k) = NPROC ->
  exists ps, wakeup ch k = Ret tt (set_k_procs ps k) /\ woken (k_procs k) ps /\
    length ps = NPROC /\
    (forall i p, h_proc (k_hart k) <> Some i -> k_procs k !! i = Some p ->
       pr_state p = SLEEPING -> pr_chan p = Some ch -> ps !! i = Some (set_pr_state RUNNABLE p)).
Proof.
  intros Hok Hl Hn. rewrite wakeup_eq by done. eexists. split; [done|].
  split; [apply (woken_wakeall ch k)|]. split; [by rewrite length_imap|].
  intros i p Hne Hp Hs Hc. rewrite list_lookup_imap, Hp. simpl. unfold wake.
  by rewrite bool_decide_false, !bool_decide_true.
Qed.

