(* ===== verification/CopySpec.v ===== *)
(** What either_copyout() and either_copyin() (kernel/proc.c) do, for every kind of
    destination and source. *)

From Stdlib Require Import ZArith Lia.
From stdpp Require Import base gmap strings list numbers.
From S2P Require Import Prelude Params State Spinlock Sched CString Kalloc Vm PageTable UserMem Copy Frame.

Open Scope Z_scope.

Section copy_spec.
Context `{KI : KernelImage}.

(** [n] bytes can be stored at [d]. *)
Definition dst_ready (m : bmem) (pt : Z) (L : gmap Z Z) (d : dst) (n : nat) : Prop :=
  match d with
  | DLocal => True
  | DKern pa => 0 <= pa /\ pa + Z.of_nat n < 2 ^ 64
  | DUser va => 0 <= va /\ va + Z.of_nat n <= MAXVA /\ uspace m pt L /\ accessible m pt va n
  end.

(** Memory [m'] is [m] with [bs] stored at [d]. *)
Definition dst_put (m m' : bmem) (pt : Z) (L : gmap Z Z) (d : dst) (bs : list Z) : Prop :=
  match d with
  | DLocal => m' = m
  | DKern pa => m' = stn m pa bs
  | DUser va => only_user m m' pt L va (length bs) /\ written m m' pt va bs
  end.

Lemma stn_app m a bs cs : stn m a (bs ++ cs) = stn (stn m a bs) (a + Z.of_nat (length bs)) cs.
Proof.
  revert m a. induction bs as [|b bs IH]; intros m a; simpl; [by rewrite Z.add_0_r|].
  change (stn (st8 m a b) (a + 1) (bs ++ cs) = stn (stn (st8 m a b) (a + 1) bs) (a + Z.of_nat (S (length bs))) cs).
  rewrite IH. f_equal. lia.
Qed.

Lemma dst_put_nil m pt L d n : dst_ready m pt L d n -> dst_put m m pt L d [].
Proof.
  destruct d; simpl; try done. intros (_ & _ & U & _). split; [by apply only_user_refl|].
  intros v Hv. rewrite decide_False by (simpl; lia). done.
Qed.

Lemma dst_put_app m m1 m2 pt L d n bs cs :
  dst_ready m pt L d n -> (length bs + length cs <= n)%nat -> dst_put m m1 pt L d bs ->
  dst_put m1 m2 pt L (dst_add d (Z.of_nat (length bs))) cs -> dst_put m m2 pt L d (bs ++ cs).
Proof.
  destruct d as [va|pa|]; simpl.
  - intros (H0 & HM & U & _) Hn [O1 W1] [O2 W2]. rewrite u64_small in * by lia. split.
    + apply (only_user_trans m m1 m2 pt L va (length (bs ++ cs)) (va + Z.of_nat (length bs)) (length cs));
        [|done|lia|rewrite length_app; lia]. destruct O1. constructor; auto.
      intros v Hv Hout. apply ou_byte; [done|]. rewrite length_app in Hout. lia.
    + apply (written_app _ m1 _ _ _ _ (length bs)); [rewrite length_app; lia|..].
      * by rewrite take_app_length.
      * by rewrite drop_app_length.
  - intros (H0 & HM) Hn -> ->. rewrite u64_small by lia. by rewrite stn_app.
  - by intros _ _ -> ->.
Qed.

Lemma either_copyout_run k me p L d bs n :
  running k me p -> dst_ready (k_mem k) (pr_pagetable p) L d n -> (length bs <= n)%nat -> Forall byte_ok bs ->
  exists m', either_copyout d bs k = Ret 0 (set_k_mem m' k) /\
    dst_put (k_mem k) m' (pr_pagetable p) L d bs /\
    dst_ready m' (pr_pagetable p) L (dst_add d (Z.of_nat (length bs))) (n - length bs).
Proof.
  intros (Hok & Hc & Hp) Hd Hn Hb. unfold either_copyout.
  rewrite (bind_ret _ _ _ _ _ (myproc_eq k Hok)). destruct d as [va|pa|]; simpl in *.
  - rewrite Hc. mcall (getproc_eq k me p Hp). destruct Hd as (H0 & HM & U & A).
    destruct (copyout_loop_ok (pr_pagetable p) L (S (length bs)) k va bs U H0 ltac:(lia) Hb)
      as (r & m' & E & O & [(-> & _ & W)|[_ Hno]]); [|destruct Hno; intros i Hi; apply A; lia].
    exists m'. split; [exact E|]. split; [done|]. rewrite u64_small by lia. split; [lia|]. split; [lia|].
    split; [apply O|]. intros i Hi. rewrite (ou_page _ _ _ _ _ _ O), <- Z.add_assoc. apply A. lia.
  - exists (stn (k_mem k) pa bs). split; [done|]. split; [done|]. rewrite u64_small; lia.
  - exists (k_mem k). split; [|done]. by destruct k.
Qed.

Lemma either_copyout_ok k me p L d bs n :
  quiet k me p -> dst_ready (k_mem k) (pr_pagetable p) L d n -> (length bs <= n)%nat -> Forall byte_ok bs ->
  exists m', either_copyout d bs k = Ret 0 (set_k_mem m' k) /\
    dst_put (k_mem k) m' (pr_pagetable p) L d bs /\
    dst_ready m' (pr_pagetable p) L (dst_add d (Z.of_nat (length bs))) (n - length bs).
Proof. intros Q. apply (either_copyout_run k me p), Q. Qed.

(** The [n] bytes at source [s]. *)
Definition src_bytes (m : bmem) (pt : Z) (s : src) (n : nat) : option (list Z) :=
  match s with
  | SUser va => uread m pt va n
  | SBytes bs => if decide (n <= length bs)%nat then Some (take n bs) else None
  end.

Lemma length_uread m root va n bs : uread m root va n = Some bs -> length bs = n.
Proof.
  revert va bs. induction n as [|n IH]; intros va bs; cbn [uread]; [by intros [= <-]|].
  destruct (ubyte m root va); [|done]. cbn [mbind option_bind].
  destruct (uread m root (va + 1) n) as [bs'|] eqn:E; [|done]. cbn [mbind option_bind]. intros [= <-].
  simpl. f_equal. by eapply IH.
Qed.

Lemma length_src_bytes m pt s n bs : src_bytes m pt s n = Some bs -> length bs = n.
Proof.
  destruct s as [va|cs]; simpl; [apply length_uread|]. case_decide; [|done]. intros [= <-].
  rewrite length_take. lia.
Qed.

(** A process has a well-formed page table if it copies from user memory. *)
Definition src_ready (m : bmem) (pt : Z) (L : gmap Z Z) (s : src) (n : nat) : Prop :=
  match s with
  | SUser va => 0 <= va /\ va + Z.of_nat n < 2 ^ 64 /\ pt_wf m pt L
  | SBytes _ => True
  end.

Lemma either_copyin_ok k me p L s n bs c :
  quiet k me p -> src_ready (k_mem k) (pr_pagetable p) L s n -> src_bytes (k_mem k) (pr_pagetable p) s n = Some bs ->
  (c <= n)%nat ->
  either_copyin s c k = Ret (0, take c bs) k /\
  src_ready (k_mem k) (pr_pagetable p) L (src_add s (Z.of_nat c)) (n - c) /\
  src_bytes (k_mem k) (pr_pagetable p) (src_add s (Z.of_nat c)) (n - c) = Some (drop c bs).
Proof.
  intros Q Hr Hs Hc. pose proof (q_run _ _ _ Q) as (Hok & Hcp & Hp). unfold either_copyin.
  rewrite (bind_ret _ _ _ _ _ (myproc_eq k Hok)). destruct s as [va|cs]; simpl in *.
  - destruct Hr as (H0 & H64 & WF). rewrite Hcp, u64_small by lia.
    rewrite (bind_ret _ _ _ _ _ (getproc_eq k me p Hp)).
    rewrite (uread_split _ _ _ c n Hc) in Hs.
    pose proof (copyin_loop_ok (pr_pagetable p) L k WF (S c) [] va c H0 ltac:(lia)) as E.
    destruct (uread (k_mem k) (pr_pagetable p) va c) as [b1|] eqn:E1; [|done]. cbn [mbind option_bind] in Hs.
    destruct (uread (k_mem k) (pr_pagetable p) (va + Z.of_nat c) (n - c)) as [b2|]; [|done].
    cbn [mbind option_bind] in Hs. injection Hs as <-. apply length_uread in E1 as <-.
    rewrite take_app_length, drop_app_length. split; [exact E|]. split; [|done]. split; [lia|]. split; [lia|done].
  - destruct (decide (n <= length cs)%nat) as [Hn|]; [|done]. injection Hs as <-.
    rewrite take_take, Nat.min_l, Nat2Z.id by lia. split; [done|]. split; [done|].
    rewrite length_drop, decide_True by lia. by rewrite skipn_firstn_comm.
Qed.

End copy_spec.
