(* ===== verification/PipeSpec.v ===== *)
(** Pipes as bounded queues: what pipewrite() and piperead() of kernel/pipe.c do
    to the bytes in transit. *)

From Stdlib Require Import ZArith Lia.
From stdpp Require Import base gmap strings list numbers.
From S2P Require Import Prelude Params Ring State Spinlock Sched CString Kalloc Vm PageTable UserMem Frame Pipe.

Open Scope Z_scope.

(** ** The queue a struct pipe represents *)

Definition pipe_list (p : pipe) : list Z := ring_list (2 ^ 32) PIPESIZE (p_data p) (p_nread p) (p_nwrite p).

Record pipe_ok (p : pipe) : Prop := PipeOk {
  pp_data : length (p_data p) = Z.to_nat PIPESIZE;
  pp_bytes : Forall byte_ok (p_data p);
  pp_nread : 0 <= p_nread p < 2 ^ 32;
  pp_nwrite : 0 <= p_nwrite p < 2 ^ 32;
  pp_len : Z.of_nat (length (pipe_list p)) <= PIPESIZE }.

Lemma pipe_ring : 0 < PIPESIZE /\ (PIPESIZE | 2 ^ 32) /\ PIPESIZE < 2 ^ 32.
Proof. split; [lia|]. split; [by exists 8388608|lia]. Qed.

Lemma pipe_len p : pipe_ok p -> Z.of_nat (length (pipe_list p)) = ring_len (2 ^ 32) (p_nread p) (p_nwrite p).
Proof.
  intros []. unfold pipe_list. rewrite length_ring_list. pose proof (ring_len_range (2 ^ 32) PIPESIZE
    ltac:(lia) ltac:(lia) (p_nread p) (p_nwrite p)). lia.
Qed.

(** The test for a full pipe. *)
Lemma pipe_full p : pipe_ok p ->
  (p_nwrite p =? u32 (p_nread p + PIPESIZE)) = bool_decide (Z.of_nat (length (pipe_list p)) = PIPESIZE).
Proof.
  intros H. rewrite (pipe_len p H). destruct pipe_ring as (H1 & H2 & H3). destruct H.
  pose proof (ring_full (2 ^ 32) PIPESIZE ltac:(lia) (p_nread p) (p_nwrite p) ltac:(lia) H3) as E.
  unfold u32. case_bool_decide; lia.
Qed.

(** The test for an empty pipe. *)
Lemma pipe_empty p : pipe_ok p -> (p_nread p =? p_nwrite p) = bool_decide (pipe_list p = []).
Proof.
  intros []. pose proof (ring_list_empty (2 ^ 32) PIPESIZE ltac:(lia) ltac:(lia) (p_data p)
    (p_nread p) (p_nwrite p) ltac:(lia) ltac:(lia)) as E. unfold pipe_list.
  case_bool_decide as D; [apply Z.eqb_eq; tauto|apply Z.eqb_neq; tauto].
Qed.

Lemma pipe_put_ok p c :
  pipe_ok p -> byte_ok c -> Z.of_nat (length (pipe_list p)) < PIPESIZE ->
  pipe_ok (pipe_put c p) /\ pipe_list (pipe_put c p) = pipe_list p ++ [c].
Proof.
  intros H Hc Hl. pose proof (pipe_len p H) as El. destruct pipe_ring as (H1 & H2 & H3).
  assert (pipe_list (pipe_put c p) = pipe_list p ++ [c]) as E.
  { unfold pipe_list, pipe_put. ksimpl. unfold u32. destruct H.
    apply ring_push; [lia|done|lia|lia|lia|lia|lia]. }
  split; [|done]. destruct H. constructor; [..|rewrite E, length_app; simpl; lia];
    unfold pipe_put; ksimpl; try done.
  - by rewrite length_insert.
  - by apply Forall_insert.
  - apply Z.mod_pos_bound. lia.
Qed.

Lemma pipe_advance_ok p c q :
  pipe_ok p -> pipe_list p = c :: q ->
  pipe_get p = c /\ pipe_ok (pipe_advance p) /\ pipe_list (pipe_advance p) = q.
Proof.
  intros H Hq. pose proof (pipe_len p H) as El. rewrite Hq in El. simpl in El.
  destruct pipe_ring as (H1 & H2 & H3).
  pose proof (ring_pop (2 ^ 32) PIPESIZE ltac:(lia) H2 ltac:(lia) (p_data p) (p_nread p) (p_nwrite p) ltac:(lia)) as E.
  fold (pipe_list p) in E. rewrite Hq in E. injection E as E1 E2.
  split; [done|]. assert (pipe_list (pipe_advance p) = q) as Eq by (by rewrite E2).
  split; [|done]. destruct H. constructor; [..|rewrite Eq, Hq in *; simpl in *; lia];
    unfold pipe_advance; ksimpl; try done. apply Z.mod_pos_bound. lia.
Qed.

(** ** Critical sections of a pipe *)

Lemma alter_insert_map (m : gmap Z pipe) pi p f :
  m !! pi = Some p -> alter f pi m = <[pi := f p]> m.
Proof.
  intros H. apply map_eq. intros j. destruct (decide (pi = j)) as [<-|].
  - by rewrite lookup_alter_eq, lookup_insert_eq, H.
  - by rewrite lookup_alter_ne, lookup_insert_ne.
Qed.

Lemma getpipe_eq pi k p : k_pipes k !! pi = Some p -> getpipe pi k = Ret p k.
Proof. intros H. unfold getpipe. by rewrite H. Qed.

Definition set_pipe (pi : Z) (p : pipe) (k : kst) : kst := set_k_pipes (<[pi := p]> (k_pipes k)) k.

Lemma modpipe_eq pi f k p : k_pipes k !! pi = Some p -> modpipe pi f k = Ret tt (set_pipe pi (f p) k).
Proof. intros H. unfold modpipe, modify, set_pipe. by rewrite (alter_insert_map _ _ p). Qed.

Lemma set_pipe_twice pi p p' k : set_pipe pi p (set_pipe pi p' k) = set_pipe pi p k.
Proof. unfold set_pipe. ksimpl. by rewrite insert_insert_eq. Qed.

Lemma set_pipe_same pi p k : k_pipes k !! pi = Some p -> set_pipe pi p k = k.
Proof. intros H. unfold set_pipe. rewrite insert_id by done. by destruct k. Qed.

Lemma set_pipe_at pi p k : k_pipes (set_pipe pi p k) !! pi = Some p.
Proof. unfold set_pipe. ksimpl. apply lookup_insert_eq. Qed.

(** wakeup() by a process inside the critical section of a pipe it entered from a
    quiet state. *)
Lemma wakeup_in ch l k me p kc :
  quiet k me p -> (forall i, l <> LProc i) -> k_hart kc = push_hart (k_hart k) ->
  k_locks kc = <[l := h_id (k_hart k)]> (k_locks k) -> k_procs kc = k_procs k ->
  wakeup ch kc = Ret tt (wakeall ch kc).
Proof.
  intros Q Hl Hh Hk Hp. apply wakeup_eq.
  - rewrite Hh. apply hart_ok_push. by eapply quiet_hart.
  - intros i. rewrite Hk, lookup_insert_ne by done. by eapply quiet_lock.
  - rewrite Hp. apply Q.
Qed.

(** Waking and leaving the critical section. *)
Lemma wake_release ch l k me p kc :
  quiet k me p -> (forall i, l <> LProc i) -> k_hart kc = push_hart (k_hart k) ->
  k_locks kc = <[l := h_id (k_hart k)]> (k_locks k) -> k_procs kc = k_procs k ->
  (wakeup ch;; release l) kc = Ret tt (wakeall ch (set_k_locks (k_locks k) (set_k_hart (k_hart k) kc))).
Proof.
  intros Q Hl Hh Hk Hp. mcall (wakeup_in ch l k me p kc Q Hl Hh Hk Hp).
  rewrite (release_after l k); [|by eapply quiet_hart|by eapply quiet_lock|done|done].
  f_equal. unfold wakeall. kst_eq. by rewrite Hh.
Qed.

Section pipe_spec.
Context `{KI : KernelImage}.

(** The writing part of the loop of pipewrite(): as long as there is room, every
    iteration appends one byte. *)
Lemma pipewrite_loop_put bs : forall fuel me pi addr n i kc pr L P,
  pt_wf (k_mem kc) (pr_pagetable pr) L -> k_procs kc !! me = Some pr -> pr_killed pr = 0 ->
  k_pipes kc !! pi = Some P -> pipe_ok P -> p_readopen P = true ->
  Z.of_nat (length (pipe_list P) + length bs) <= PIPESIZE -> i + Z.of_nat (length bs) <= n ->
  0 <= addr -> 0 <= i -> uread (k_mem kc) (pr_pagetable pr) (addr + i) (length bs) = Some bs ->
  Forall byte_ok bs ->
  exists P', pipe_ok P' /\ pipe_list P' = pipe_list P ++ bs /\
    p_readopen P' = true /\ p_writeopen P' = p_writeopen P /\
    pipewrite_loop (length bs + fuel) me pi addr n i kc =
    pipewrite_loop fuel me pi addr n (i + Z.of_nat (length bs)) (set_pipe pi P' kc).
Proof.
  induction bs as [|b bs IH]; intros fuel me pi addr n i kc pr L P WF Hpr Hk HP OK Ho Hl Hn Ha Hi Hu Hb.
  { exists P. rewrite app_nil_r. simpl. rewrite Z.add_0_r, set_pipe_same by done. done. }
  apply Forall_cons in Hb as [Hb Hbs]. cbn [length] in *. cbn [uread] in Hu.
  destruct (ubyte (k_mem kc) (pr_pagetable pr) (addr + i)) as [b'|] eqn:Eb; [|done]. cbn [mbind option_bind] in Hu.
  destruct (uread (k_mem kc) (pr_pagetable pr) (addr + i + 1) (length bs)) as [bs'|] eqn:Ebs; [|done].
  cbn [mbind option_bind] in Hu. injection Hu as -> ->.
  destruct (pipe_put_ok P b OK Hb ltac:(lia)) as [OK1 E1].
  assert (uread (k_mem kc) (pr_pagetable pr) (addr + i) 1 = Some [b]) as U1 by (cbn [uread]; by rewrite Eb).
  assert (addr + i < 2 ^ 64) as Hmax.
  { unfold ubyte, uaddr in Eb. destruct (upage (k_mem kc) (pr_pagetable pr) (addr + i)) eqn:Ep; [|done].
    apply upage_some in Ep. lia. }
  destruct (IH fuel me pi addr n (i + 1) (set_pipe pi (pipe_put b P) kc) pr L (pipe_put b P)) as (P' & OK' & E' & R' & W' & Eq);
    try done; try lia; [apply set_pipe_at|rewrite E1, length_app; simpl; lia| |].
  { by rewrite Z.add_assoc. }
  exists P'. split; [done|]. split; [by rewrite E', E1, <- app_assoc|]. split; [done|]. split; [done|].
  cbn [Nat.add pipewrite_loop]. assert (i <? n = true) as -> by lia. cbn [negb].
  mcall (getpipe_eq pi kc P HP). mcall (getproc_eq kc me pr Hpr).
  rewrite Ho, Hk. change (truth 0) with false. cbn [negb orb].
  rewrite pipe_full, bool_decide_false by (done || lia). rewrite u64_small by lia.
  pose proof (copyin_loop_ok (pr_pagetable pr) L kc WF 2 [] (addr + i) 1 ltac:(lia) ltac:(lia)) as C.
  rewrite U1 in C. mcall C. cbn [app]. change (0 =? -1) with false. cbv iota.
  mcall (modpipe_eq pi (pipe_put ([b] !!! 0%nat)) kc P HP). change ([b] !!! 0%nat) with b.
  rewrite Eq, set_pipe_twice. f_equal. lia.
Qed.

Lemma uread_take m root va bs r :
  uread m root va (length bs) = Some bs -> uread m root va (length (take r bs)) = Some (take r bs).
Proof.
  revert va r. induction bs as [|b bs IH]; intros va [|r] H; cbn [take length uread] in *; try done.
  destruct (ubyte m root va); [|done]. cbn [mbind option_bind] in *.
  destruct (uread m root (va + 1) (length bs)) as [bs'|] eqn:E; [|done]. cbn [mbind option_bind] in H.
  injection H as -> ->. by rewrite (IH _ r E).
Qed.

(** The state in the critical section of a pipe with the pipe replaced. *)
Definition in_pipe (pi : Z) (P : pipe) (k : kst) : kst := set_pipe pi P (acq (LPipe pi) k).

(** C12: pipewrite() by a live process, on a pipe with a reader, of bytes that are
    all mapped: the pipe is a queue of at most PIPESIZE bytes.  If the bytes fit
    they are appended, sleeping readers are woken and the count is returned.  If
    not, exactly the bytes that fit are appended, the readers are woken, and the
    writer sleeps on the pipe with its progress kept; no byte is lost, reordered
    or overwritten, also when the 32-bit counters wrap. *)
Theorem pipewrite_fifo (k : kst) (me : nat) (p : proc) (L : gmap Z Z) (pi : Z) (P : pipe) (addr : Z) (bs : list Z)
    (Q : quiet k me p) (Hk : pr_killed p = 0) (WF : pt_wf (k_mem k) (pr_pagetable p) L)
    (Hb : Forall byte_ok bs) (HP : k_pipes k !! pi = Some P) (OK : pipe_ok P)
    (Ho : p_readopen P = true) (Ha : 0 <= addr)
    (Hu : uread (k_mem k) (pr_pagetable p) addr (length bs) = Some bs) :
  let room := (Z.to_nat PIPESIZE - length (pipe_list P))%nat in
  exists P', pipe_ok P' /\ pipe_list P' = pipe_list P ++ take room bs /\
    p_readopen P' = true /\ p_writeopen P' = p_writeopen P /\
    pipewrite pi addr (Z.of_nat (length bs)) k =
      if decide (length bs <= room)%nat
      then Ret (Z.of_nat (length bs)) (wakeall (ChPipeRead pi) (set_pipe pi P' k))
      else Blocked (WSleep (ChPipeWrite pi) (Z.of_nat room))
             (asleep (ChPipeWrite pi) (LPipe pi) me (wakeall (ChPipeRead pi) (in_pipe pi P' k))).
Proof.
  intros room.
  pose proof (uread_take _ _ _ _ room Hu) as Hw. rewrite <- (Z.add_0_r addr) in Hw.
  assert (length (take room bs) = Nat.min room (length bs)) as Lw by apply length_take.
  pose proof (pp_len _ OK) as PL. pose proof (q_run _ _ _ Q) as (Hok & Hc & Hp).
  destruct (pipewrite_loop_put (take room bs) (S (length bs) - length (take room bs)) me pi addr (Z.of_nat (length bs)) 0
    (acq (LPipe pi) k) p L P) as (P' & OK' & E' & R' & W' & Eq);
    try done; try lia; [by apply Forall_take|].
  exists P'. split; [done|]. split; [done|]. split; [done|]. split; [done|].
  unfold pipewrite. mcall (curproc_eq k me p (q_run _ _ _ Q)). mcall (acquire_eq _ _ (quiet_lock _ _ _ (LPipe pi) Q)).
  rewrite Nat2Z.id. replace (S (length bs)) with (length (take room bs) + (S (length bs) - length (take room bs)))%nat by lia.
  rewrite Eq, Z.add_0_l. fold (in_pipe pi P' k).
  destruct (S (length bs) - length (take room bs))%nat as [|fuel] eqn:Ef; [lia|]. cbn [pipewrite_loop].
  destruct (decide (length bs <= room)%nat) as [D|D].
  - assert (Z.of_nat (length (take room bs)) <? Z.of_nat (length bs) = false) as -> by lia. cbn [negb].
    rewrite <- bind_bind. mcall (wake_release (ChPipeRead pi) (LPipe pi) k me p (in_pipe pi P' k)) by done.
    rewrite Lw, Nat.min_r by lia. done.
  - assert (Z.of_nat (length (take room bs)) <? Z.of_nat (length bs) = true) as -> by lia. cbn [negb].
    mcall (getpipe_eq pi (in_pipe pi P' k) P' (set_pipe_at _ _ _)).
    mcall (getproc_eq (in_pipe pi P' k) me p Hp). rewrite R', Hk. change (truth 0) with false. cbn [negb orb].
    rewrite pipe_full, E', length_app, bool_decide_true by (done || lia).
    mcall (wakeup_in (ChPipeRead pi) (LPipe pi) k me p (in_pipe pi P' k)) by done.
    rewrite Lw, Nat.min_l by lia. apply (sleep_eq _ _ _ _ me p).
    + split; [by apply hart_ok_push|]. split; [done|]. unfold wakeall, in_pipe, set_pipe, acq. ksimpl.
      rewrite list_lookup_imap, Hp. unfold wake. rewrite bool_decide_true by done. done.
    + unfold wakeall, in_pipe, set_pipe, acq, push_hart. ksimpl. rewrite (q_noff _ _ _ Q). done.
    + done.
    + apply lookup_insert_eq.
    + unfold wakeall, in_pipe, set_pipe, acq. ksimpl. rewrite lookup_insert_ne by done. by eapply quiet_lock.
Qed.

Lemma accessible_head m root va n : (0 < n)%nat -> accessible m root va n -> accessible m root va 1.
Proof. intros Hn H i Hi. apply H. lia. Qed.

Lemma accessible_max m root va n : (0 < n)%nat -> accessible m root va n -> va < MAXVA.
Proof.
  intros Hn H. destruct (H 0 ltac:(lia)) as [pa Hp]. rewrite Z.add_0_r in Hp.
  by destruct (upage_some _ _ _ _ Hp).
Qed.

(** The copy loop of piperead(): every iteration moves the oldest byte to user
    memory. *)
Lemma piperead_loop_get cs : forall fuel me pi addr n i kc pr L P q,
  uspace (k_mem kc) (pr_pagetable pr) L -> k_procs kc !! me = Some pr ->
  k_pipes kc !! pi = Some P -> pipe_ok P -> pipe_list P = cs ++ q -> i + Z.of_nat (length cs) <= n ->
  0 <= addr -> 0 <= i -> accessible (k_mem kc) (pr_pagetable pr) (addr + i) (length cs) ->
  Forall byte_ok cs ->
  exists P' m', pipe_ok P' /\ pipe_list P' = q /\
    p_readopen P' = p_readopen P /\ p_writeopen P' = p_writeopen P /\
    only_user (k_mem kc) m' (pr_pagetable pr) L (addr + i) (length cs) /\
    written (k_mem kc) m' (pr_pagetable pr) (addr + i) cs /\
    piperead_loop (length cs + fuel) me pi addr n i kc =
    piperead_loop fuel me pi addr n (i + Z.of_nat (length cs)) (set_k_mem m' (set_pipe pi P' kc)).
Proof.
  induction cs as [|c cs IH]; intros fuel me pi addr n i kc pr L P q U Hpr HP OK Hq Hn Ha Hi Hacc Hb.
  { exists P, (k_mem kc). split; [done|]. split; [done|]. split; [done|]. split; [done|].
    split; [by apply only_user_refl|]. split; [intros v Hv; by rewrite decide_False by (simpl; lia)|].
    simpl. rewrite Z.add_0_r, set_pipe_same by done. by destruct kc. }
  apply Forall_cons in Hb as [Hb Hbs]. cbn [length app] in *.
  destruct (pipe_advance_ok P c (cs ++ q) OK Hq) as (Hg & OK1 & Hq1).
  pose proof (accessible_max _ _ _ (S (length cs)) ltac:(lia) Hacc) as Hmax.
  destruct (copyout_loop_ok (pr_pagetable pr) L 2 (set_pipe pi (pipe_advance P) kc) (addr + i) [c] U
    ltac:(lia) ltac:(simpl; lia) (proj2 (Forall_singleton byte_ok c) Hb)) as (r & m1 & W1 & O1 & [(-> & _ & Hw1)|[_ Hn1]]);
    [|by destruct Hn1; apply (accessible_head _ _ _ (S (length cs))); [lia|]].
  ksimpl in O1. ksimpl in Hw1.
  destruct (IH fuel me pi addr n (i + 1) (set_k_mem m1 (set_pipe pi (pipe_advance P) kc)) pr L (pipe_advance P) q)
    as (P' & m' & OK' & Hq' & R' & W' & O' & Hw' & Eq); try done; try lia; [apply O1|apply set_pipe_at| |].
  { intros j Hj. ksimpl. rewrite (ou_page _ _ _ _ _ _ O1). replace (addr + (i + 1) + j) with (addr + i + (1 + j)) by lia.
    apply Hacc. lia. }
  rewrite Z.add_assoc in O', Hw'. exists P', m'. split; [done|]. split; [done|]. split; [done|]. split; [done|].
  split; [eapply (only_user_trans _ m1); [|exact O'|lia..]; destruct O1; constructor; auto; intros; apply ou_byte; simpl; lia|].
  split; [by apply (written_app _ m1 _ _ _ _ 1); [simpl; lia|..]|].
  cbn [Nat.add piperead_loop]. assert (i <? n = true) as -> by lia. cbn [negb].
  mcall (getpipe_eq pi kc P HP). rewrite pipe_empty, Hq, bool_decide_false by done.
  mcall (modpipe_eq pi pipe_advance kc P HP).
  mcall (getproc_eq (set_pipe pi (pipe_advance P) kc) me pr Hpr). rewrite Hg, u64_small by lia.
  mcall W1. change (0 =? -1) with false. cbv iota. rewrite Eq.
  replace (i + 1 + Z.of_nat (length cs)) with (i + Z.of_nat (S (length cs))) by lia.
  f_equal. unfold set_pipe. kst_eq. by rewrite insert_insert_eq.
Qed.

Lemma pipe_list_bytes P : pipe_ok P -> Forall byte_ok (pipe_list P).
Proof.
  intros H. destruct pipe_ring as (H1 & _). unfold pipe_list, ring_list. apply Forall_fmap, Forall_true.
  intros i. cbn. pose proof (Z.mod_pos_bound (p_nread P + i) PIPESIZE ltac:(lia)).
  destruct (lookup_lt_is_Some_2 (p_data P) (Z.to_nat ((p_nread P + i) `mod` PIPESIZE))) as [x Hx].
  { rewrite (pp_data _ H). lia. }
  rewrite (list_lookup_total_correct _ _ _ Hx). eapply Forall_lookup_1; [apply H|done].
Qed.

(** C13: piperead() of at most n bytes into mapped user memory takes the oldest
    min(n, length) bytes out of the pipe's queue in order, stores exactly them at
    the user address, returns their number and wakes the writers.  On an empty
    pipe it returns 0 once the write end is closed, sleeps while it is open, and
    returns -1 if the process has been killed. *)
Theorem piperead_fifo (k : kst) (me : nat) (p : proc) (L : gmap Z Z) (pi : Z) (P : pipe) (addr : Z) (n : nat)
    (Q : quiet k me p) (U : uspace (k_mem k) (pr_pagetable p) L) (HP : k_pipes k !! pi = Some P)
    (OK : pipe_ok P) (Ha : 0 <= addr) (Hacc : accessible (k_mem k) (pr_pagetable p) addr n) :
  if bool_decide (pipe_list P = []) && p_writeopen P then
    piperead pi addr (Z.of_nat n) k =
      if truth (pr_killed p) then Ret (-1) k
      else Blocked (WSleep (ChPipeRead pi) 0) (asleep (ChPipeRead pi) (LPipe pi) me (acq (LPipe pi) k))
  else
    exists P' m', pipe_ok P' /\ pipe_list P' = drop n (pipe_list P) /\
      only_user (k_mem k) m' (pr_pagetable p) L addr (length (take n (pipe_list P))) /\
      written (k_mem k) m' (pr_pagetable p) addr (take n (pipe_list P)) /\
      piperead pi addr (Z.of_nat n) k =
        Ret (Z.of_nat (length (take n (pipe_list P))))
            (wakeall (ChPipeWrite pi) (set_k_mem m' (set_pipe pi P' k))).
Proof.
  pose proof (q_run _ _ _ Q) as (Hok & Hc & Hp). unfold piperead.
  rewrite (bind_ret _ _ _ _ _ (curproc_eq k me p (q_run _ _ _ Q))).
  rewrite (bind_ret _ _ _ _ _ (acquire_eq _ _ (quiet_lock _ _ _ (LPipe pi) Q))).
  rewrite (bind_ret _ _ _ _ _ (getpipe_eq pi (acq (LPipe pi) k) P HP)).
  rewrite (bind_ret _ _ _ _ _ (getproc_eq (acq (LPipe pi) k) me p Hp)). rewrite (pipe_empty P OK).
  destruct (bool_decide (pipe_list P = []) && p_writeopen P) eqn:E.
  { destruct (truth (pr_killed p)).
    - mcall (release_after (LPipe pi) k (acq (LPipe pi) k)) by (done || by eapply quiet_lock).
      by destruct k.
    - apply (sleep_eq _ _ _ _ me p); [by apply running_acq, Q| |done|apply lookup_insert_eq|].
      + unfold acq, push_hart. ksimpl. rewrite (q_noff _ _ _ Q). done.
      + unfold acq. ksimpl. rewrite lookup_insert_ne by done. by eapply quiet_lock. }
  set (cs := take n (pipe_list P)). pose proof (length_take (pipe_list P) n) as Lc. fold cs in Lc.
  destruct (piperead_loop_get cs (S n - length cs) me pi addr (Z.of_nat n) 0 (acq (LPipe pi) k) p L P
    (drop n (pipe_list P))) as (P' & m' & OK' & Hq' & _ & _ & O' & Hw' & Eq); try done; try lia.
  { unfold cs. by rewrite take_drop. }
  { intros i Hi. rewrite Z.add_0_r. apply Hacc. lia. }
  { apply Forall_take, pipe_list_bytes, OK. }
  rewrite Z.add_0_r in O', Hw'. exists P', m'. split; [done|]. split; [done|]. split; [done|]. split; [done|].
  rewrite Nat2Z.id, Z.add_0_l in *.
  set (kc := set_k_mem m' (set_pipe pi P' (acq (LPipe pi) k))) in *.
  assert (piperead_loop (S n) me pi addr (Z.of_nat n) 0 (acq (LPipe pi) k) = Ret (Z.of_nat (length cs)) kc) as ER.
  { replace (S n) with (length cs + (S n - length cs))%nat by lia. rewrite Eq.
    destruct (S n - length cs)%nat as [|fuel] eqn:Ef; [lia|]. cbn [piperead_loop].
    destruct (Z.of_nat (length cs) <? Z.of_nat n) eqn:El; [|done]. cbn [negb].
    mcall (getpipe_eq pi kc P' (set_pipe_at _ _ _)). rewrite pipe_empty, bool_decide_true by done || (rewrite Hq'; apply drop_ge; lia).
    done. }
  mcall ER. rewrite <- bind_bind. by mcall (wake_release (ChPipeWrite pi) (LPipe pi) k me p kc) by done.
Qed.

(** pipewrite() of at least one byte to a pipe whose read end is closed, or by
    a killed process, returns -1 and changes nothing. *)
Theorem pipewrite_broken (k : kst) (me : nat) (p : proc) (pi : Z) (P : pipe) (addr n : Z)
    (Q : quiet k me p) (HP : k_pipes k !! pi = Some P) (Hn : 0 < n)
    (Hbad : p_readopen P = false \/ pr_killed p <> 0) :
  pipewrite pi addr n k = Ret (-1) k.
Proof.
  pose proof (q_run _ _ _ Q) as (Hok & Hc & Hp). unfold pipewrite.
  mcall (curproc_eq k me p (q_run _ _ _ Q)). mcall (acquire_eq _ _ (quiet_lock _ _ _ (LPipe pi) Q)).
  cbn [pipewrite_loop]. assert (0 <? n = true) as -> by lia. cbn [negb].
  mcall (getpipe_eq pi (acq (LPipe pi) k) P HP). mcall (getproc_eq (acq (LPipe pi) k) me p Hp).
  assert (negb (p_readopen P) || truth (pr_killed p) = true) as ->.
  { destruct Hbad as [->|Hne]; [done|]. unfold truth. rewrite (proj2 (Z.eqb_neq _ _) Hne). apply orb_true_r. }
  mcall (release_after (LPipe pi) k (acq (LPipe pi) k)) by (done || by eapply quiet_lock).
  by destruct k.
Qed.

End pipe_spec.

(** ** A process with one page of memory and a pipe *)

Definition one_page_proc : proc := set_pr_pagetable (page_no 0) (set_pr_pid 1 (set_pr_state RUNNING proc0)).
Definition demo_pipe (nr nw : Z) (ro : bool) : pipe := Pipe (replicate (Z.to_nat PIPESIZE) 65) nr nw ro true.
Definition pipe_state (m : bmem) (P : pipe) : kst :=
  set_k_mem m (set_k_pipes {[page_no 5 := P]}
    (set_k_procs (<[0%nat := one_page_proc]> (k_procs run_state)) run_state)).

Lemma pipe_state_quiet m P : quiet (pipe_state m P) 0 one_page_proc.
Proof.
  constructor; [split; [|split; reflexivity]|reflexivity..].
  unfold hart_ok. split_and!; simpl; intros; lia || done.
Qed.

(** Three bytes in transit, with counters about to wrap around. *)
Lemma demo_pipe_ok : pipe_ok (demo_pipe (2 ^ 32 - 2) 1 true) /\ pipe_list (demo_pipe (2 ^ 32 - 2) 1 true) = [65; 65; 65].
Proof.
  split; [|reflexivity]. constructor; [reflexivity| |simpl; lia..|by vm_compute].
  apply Forall_replicate. split; lia.
Qed.

(** Memory in which the bytes 1 2 3 are at user address 0. *)
Lemma one_page_bytes : exists m L,
  uspace m (page_no 0) L /\ uread m (page_no 0) 0 3 = Some [1; 2; 3] /\ accessible m (page_no 0) 0 3.
Proof.
  destruct pt_one_ok as (L & l & S & U & _). pose proof (pt_one_uspace L l S U) as US.
  destruct (copyout_loop_ok (page_no 0) L 4 pt_one 0 [1; 2; 3] US ltac:(lia) ltac:(simpl; lia))
    as (r & m' & W & O & [(-> & _ & Hw)|[_ Hn]]).
  - repeat constructor; unfold byte_ok; lia.
  - exists m', L. split; [apply O|]. split; [by apply (uread_written (k_mem pt_one) m' (page_no 0) 0 [1; 2; 3])|].
    intros i Hi. rewrite (ou_page _ _ _ _ _ _ O). by apply (pt_one_accessible 3); [vm_compute|].
  - destruct Hn. by apply pt_one_accessible; vm_compute.
Qed.

Lemma pipewrite_fifo_witness :
  exists k P', pipe_list P' = [65; 65; 65; 1; 2; 3] /\
    pipewrite (page_no 5) 0 3 k = Ret 3 (wakeall (ChPipeRead (page_no 5)) (set_pipe (page_no 5) P' k)).
Proof.
  destruct one_page_bytes as (m & L & US & Hu & _). destruct demo_pipe_ok as [OK E].
  destruct (pipewrite_fifo (pipe_state m (demo_pipe (2 ^ 32 - 2) 1 true)) 0 one_page_proc L (page_no 5)
    (demo_pipe (2 ^ 32 - 2) 1 true) 0 [1; 2; 3] (pipe_state_quiet _ _) eq_refl (us_wf _ _ _ US))
    as (P' & _ & E' & _ & _ & W); [..|exists (pipe_state m (demo_pipe (2 ^ 32 - 2) 1 true)), P'].
  - repeat constructor; unfold byte_ok; lia.
  - apply lookup_singleton_eq.
  - exact OK.
  - reflexivity.
  - lia.
  - exact Hu.
  - rewrite E in E', W. split; [exact E'|]. exact W.
Defined.

Lemma piperead_fifo_witness :
  exists k P' m', pipe_list P' = [65] /\ written (k_mem k) m' (page_no 0) 0 [65; 65] /\
    piperead (page_no 5) 0 2 k =
      Ret 2 (wakeall (ChPipeWrite (page_no 5)) (set_k_mem m' (set_pipe (page_no 5) P' k))).
Proof.
  destruct one_page_bytes as (m & L & US & _ & Hacc). destruct demo_pipe_ok as [OK E].
  pose proof (piperead_fifo (pipe_state m (demo_pipe (2 ^ 32 - 2) 1 true)) 0 one_page_proc L (page_no 5)
    (demo_pipe (2 ^ 32 - 2) 1 true) 0 2 (pipe_state_quiet _ _) US (lookup_singleton_eq _ _) OK ltac:(lia)
    ltac:(intros i Hi; apply Hacc; lia)) as H.
  rewrite E in H. destruct H as (P' & m' & _ & E' & _ & Hw & W).
  exists (pipe_state m (demo_pipe (2 ^ 32 - 2) 1 true)), P', m'. split; [exact E'|]. split; [exact Hw|exact W].
Defined.

Lemma pipewrite_broken_witness :
  pipewrite (page_no 5) 0 3 (pipe_state ∅ (demo_pipe 0 0 false)) = Ret (-1) (pipe_state ∅ (demo_pipe 0 0 false)).
Proof.
  apply (pipewrite_broken _ 0 one_page_proc (page_no 5) (demo_pipe 0 0 false) 0 3 (pipe_state_quiet _ _)
    (lookup_singleton_eq _ _)); [lia|]. left. reflexivity.
Defined.
