(* ===== verification/UartSpec.v ===== *)
(** The UART as a transmit queue, and polled output (kernel/uart.c). *)

From Stdlib Require Import ZArith Lia.
From stdpp Require Import base gmap strings list numbers.
From S2P Require Import Prelude Params Ring State Spinlock Sched Uart Printf Frame PipeSpec.

Open Scope Z_scope.

(** The answers to reads of LSR that find the transmitter idle. *)
Definition idle (x : Z) : Prop := Z.land x LSR_TX_IDLE <> 0.
#[export] Instance idle_dec x : Decision (idle x).
Proof. unfold idle. apply _. Defined.
Definition idles (l : list Z) : nat := length (filter idle l).

(** Device state [u'] after [cs] has been sent: the registers written are logged
    newest first. *)
Definition wrote (cs : list Z) (u : uart) : list (Z * Z) := reverse ((fun c => (THR, u8 c)) <$> cs) ++ u_wr u.

(** ** Polled output *)

Lemma lsr_wait_ok l : forall n k,
  u_lsr (k_uart k) = l -> (length l <= n)%nat -> (0 < idles l)%nat ->
  exists l', lsr_wait n k = Ret tt (set_k_uart (set_u_lsr l' (k_uart k)) k) /\ S (idles l') = idles l.
Proof.
  induction l as [|x l IH]; intros n k Hl Hn Hi; [unfold idles in Hi; simpl in Hi; lia|].
  destruct n as [|n]; [simpl in Hn; lia|]. cbn [lsr_wait]. unfold ReadLSR. mstep. rewrite Hl. unfold moduart. mstep.
  unfold idles in *. rewrite filter_cons in Hi |- *. simpl in Hn. destruct (Z.land x LSR_TX_IDLE =? 0) eqn:E.
  - apply Z.eqb_eq in E. rewrite decide_False in Hi |- * by (intros H; done).
    destruct (IH n (set_k_uart (set_u_lsr l (k_uart k)) k)) as (l' & E' & Hl'); [done|lia|done|].
    exists l'. split; [|done]. etrans; [exact E'|done].
  - apply Z.eqb_neq in E. rewrite decide_True by done. by exists l.
Qed.

(** Polled output sends the characters in order, whatever the number of reads
    that find the transmitter busy. *)
Definition sent (cs : list Z) (u u' : uart) : Prop :=
  exists l, u' = set_u_wr (wrote cs u) (set_u_lsr l u) /\ (idles l + length cs)%nat = idles (u_lsr u).

Lemma sent_nil u : sent [] u u.
Proof. exists (u_lsr u). split; [by destruct u|]. simpl. lia. Qed.

Lemma sent_app cs ds u u1 u2 : sent cs u u1 -> sent ds u1 u2 -> sent (cs ++ ds) u u2.
Proof.
  intros (l1 & -> & H1) (l2 & -> & H2). exists l2. split.
  - unfold wrote. simpl. rewrite fmap_app, reverse_app, <- app_assoc. by destruct u.
  - simpl in H2. rewrite length_app. lia.
Qed.

Lemma uartputc_sync_ok k c :
  hart_ok (k_hart k) -> k_panicked k = false -> (0 < idles (u_lsr (k_uart k)))%nat ->
  exists u', uartputc_sync c k = Ret tt (set_k_uart u' k) /\ sent [c] (k_uart k) u'.
Proof.
  intros Hok Hp Hi. unfold uartputc_sync. mcall (push_off_eq k). mstep. ksimpl. rewrite Hp. mstep.
  destruct (lsr_wait_ok (u_lsr (k_uart k)) (length (u_lsr (k_uart k))) (set_k_hart (push_hart (k_hart k)) k))
    as (l & E & Hl); [done|done|done|]. ksimpl in E.
  mcall E. unfold WriteReg, moduart. mstep. ksimpl. rewrite pop_off_eq; ksimpl.
  - rewrite pop_push_hart by done. eexists. split; [apply f_equal; by destruct k|]. exists l.
    split; [reflexivity|]. simpl. lia.
  - done.
  - destruct Hok as (H0 & _). unfold push_hart. simpl. lia.
Qed.

(** consputc() of a character, and of BACKSPACE. *)
Definition echo (c : Z) : list Z := if c =? BACKSPACE then [8; 32; 8] else [c].

Lemma consputc_ok k c :
  hart_ok (k_hart k) -> k_panicked k = false -> (length (echo c) <= idles (u_lsr (k_uart k)))%nat ->
  exists u', consputc c k = Ret tt (set_k_uart u' k) /\ sent (echo c) (k_uart k) u'.
Proof.
  intros Hok Hp. unfold consputc, echo. destruct (c =? BACKSPACE); simpl; intros Hi; [|by apply uartputc_sync_ok].
  destruct (uartputc_sync_ok k 8 Hok Hp ltac:(lia)) as (u1 & E1 & S1). mcall E1.
  assert (forall cs u, sent cs (k_uart k) u -> (idles (u_lsr u) + length cs)%nat = idles (u_lsr (k_uart k))) as Hc.
  { intros cs u (l & -> & H). done. }
  destruct (uartputc_sync_ok (set_k_uart u1 k) 32) as (u2 & E2 & S2); [done|done|ksimpl; pose proof (Hc _ _ S1); simpl in *; lia|].
  mcall E2. ksimpl in S2. pose proof (sent_app _ _ _ _ _ S1 S2) as S12.
  destruct (uartputc_sync_ok (set_k_uart u2 (set_k_uart u1 k)) 8) as (u3 & E3 & S3);
    [done|done|ksimpl; pose proof (Hc _ _ S12); simpl in *; lia|]. ksimpl in S3.
  rewrite E3. exists u3. split; [done|]. exact (sent_app _ _ _ _ _ S12 S3).
Qed.

(** ** The transmit queue *)

Abbreviation uring := (ring_list (2 ^ 64) 32).

Record uart_rep (u : uart) (q : list Z) : Prop := UartRep {
  ur_buf : length (u_tx_buf u) = 32%nat;
  ur_r : 0 <= u_tx_r u < 2 ^ 64;
  ur_w : 0 <= u_tx_w u < 2 ^ 64;
  ur_q : uring (u_tx_buf u) (u_tx_r u) (u_tx_w u) = q;
  ur_len : (length q <= 32)%nat }.

Lemma uart_div : (32 | 2 ^ 64).
Proof. by exists 576460752303423488. Qed.

Lemma uart_len u q : uart_rep u q -> ring_len (2 ^ 64) (u_tx_r u) (u_tx_w u) = Z.of_nat (length q).
Proof.
  intros [_ _ _ <- _]. rewrite length_ring_list.
  pose proof (ring_len_range (2 ^ 64) 32 ltac:(lia) ltac:(lia) (u_tx_r u) (u_tx_w u)). lia.
Qed.

Lemma uart_empty u q : uart_rep u q -> (u_tx_w u =? u_tx_r u) = bool_decide (q = []).
Proof.
  intros [? ? ? <- _].
  pose proof (ring_list_empty (2 ^ 64) 32 ltac:(lia) ltac:(lia) (u_tx_buf u) (u_tx_r u) (u_tx_w u) ltac:(lia) ltac:(lia)) as E.
  case_bool_decide as D; [apply Z.eqb_eq; symmetry; tauto|apply Z.eqb_neq]. intros H. apply D, E. by rewrite H.
Qed.

Lemma uart_full u q : uart_rep u q -> (u_tx_w u =? u64 (u_tx_r u + UART_TX_BUF_SIZE)) = bool_decide (length q = 32%nat).
Proof.
  intros R. pose proof (uart_len u q R) as L. destruct R.
  pose proof (ring_full (2 ^ 64) 32 ltac:(lia) (u_tx_r u) (u_tx_w u) ltac:(lia) ltac:(lia)) as E. unfold u64.
  case_bool_decide; lia.
Qed.

Definition uart_push (c : Z) (u : uart) : uart :=
  set_u_tx_w (u64 (u_tx_w u + 1)) (set_u_tx_buf (<[Z.to_nat (u_tx_w u `mod` UART_TX_BUF_SIZE) := c]> (u_tx_buf u)) u).

Lemma uart_push_ok u q c : uart_rep u q -> (length q < 32)%nat -> uart_rep (uart_push c u) (q ++ [c]).
Proof.
  intros R Hl. pose proof (uart_len u q R) as L. destruct R as [? ? ? E ?]. unfold uart_push.
  constructor; ksimpl; [by rewrite length_insert|done|apply Z.mod_pos_bound; lia| |rewrite length_app; simpl; lia].
  rewrite <- E. unfold u64. apply (ring_push (2 ^ 64) 32 ltac:(lia) uart_div); lia.
Qed.

Lemma uart_pop_ok u q c : uart_rep u (c :: q) ->
  u_tx_buf u !!! Z.to_nat (u_tx_r u `mod` UART_TX_BUF_SIZE) = c /\ uart_rep (set_u_tx_r (u64 (u_tx_r u + 1)) u) q.
Proof.
  intros R. pose proof (uart_len u _ R) as L. simpl in L. destruct R as [? ? ? E ?].
  rewrite (ring_pop (2 ^ 64) 32 ltac:(lia) uart_div ltac:(lia)) in E by lia. injection E as E1 E2.
  split; [done|]. constructor; ksimpl; try done; [apply Z.mod_pos_bound; lia|]. simpl in *. lia.
Qed.

Lemma wakeall_idem ch k : wakeall ch (wakeall ch k) = wakeall ch k.
Proof.
  unfold wakeall. kst_eq. apply list_eq. intros i. rewrite !list_lookup_imap.
  destruct (k_procs k !! i) as [p|]; [|done]. cbn [fmap option_fmap option_map]. f_equal. unfold wake.
  case_bool_decide; [done|]. destruct (bool_decide (pr_state p = SLEEPING) && bool_decide (pr_chan p = Some ch)) eqn:E;
    [|by rewrite E]. reflexivity.
Qed.

(** The number of reads of LSR that find the transmitter idle before it is busy. *)
Fixpoint lead (l : list Z) : nat :=
  match l with
  | x :: l => if Z.land x LSR_TX_IDLE =? 0 then 0 else S (lead l)
  | [] => 0
  end.

(** Writers waiting for room are woken when something was sent. *)
Definition waken (m : nat) (k : kst) : kst := match m with O => k | _ => wakeall ChUartTx k end.

(** Where uartstart() may call wakeup(). *)
Definition can_wake (k : kst) : Prop := hart_ok (k_hart k) /\ plocks_free k /\ length (k_procs k) = NPROC.

Lemma uartstart_loop_ok q : forall fuel k,
  uart_rep (k_uart k) q -> can_wake k -> (length q <= length (u_lsr (k_uart k)))%nat -> (length q < fuel)%nat ->
  let m := Nat.min (length q) (lead (u_lsr (k_uart k))) in
  exists u', uartstart_loop fuel k = Ret tt (waken m (set_k_uart u' k)) /\
    uart_rep u' (drop m q) /\ u_wr u' = wrote (take m q) (k_uart k).
Proof.
  induction q as [|c q IH]; intros [|fuel] k R W Hl Hf m; try (simpl in Hf; lia); cbn [uartstart_loop]; mstep;
    rewrite (uart_empty _ _ R).
  { rewrite bool_decide_true by done. exists (k_uart k). split; [by destruct k|done]. }
  rewrite bool_decide_false by done. unfold ReadLSR. mstep. simpl in Hl.
  destruct (u_lsr (k_uart k)) as [|x l] eqn:El; [simpl in Hl; lia|]. unfold moduart. mstep. ksimpl.
  cbn [lead] in m. destruct (Z.land x LSR_TX_IDLE =? 0).
  { exists (set_u_lsr l (k_uart k)). split; [done|]. split; [|done]. simpl. by destruct R. }
  destruct (uart_pop_ok _ _ _ R) as [-> R1]. mstep. ksimpl. destruct W as (W1 & W2 & W3).
  match goal with |- context [(wakeup ChUartTx ≫= _) ?k0] =>
    rewrite (bind_ret _ _ _ _ _ (wakeup_eq ChUartTx k0 W1 W2 W3)) end. unfold WriteReg, moduart. mstep.
  match goal with |- context [uartstart_loop fuel ?k1] => set (k1' := k1) end.
  destruct (IH fuel k1') as (u' & E & R' & Hw).
  - destruct R1. constructor; done.
  - split; [done|]. split; [done|]. unfold k1', wakeall. ksimpl. by rewrite length_imap.
  - change (length q <= length l)%nat. simpl in Hl. lia.
  - simpl in Hf. lia.
  - exists u'. change (lead (u_lsr (k_uart k1'))) with (lead l) in *. fold m in E |- *.
    replace m with (S (Nat.min (length q) (lead l))) by done. cbn [drop take]. split; [|split; [done|]].
    + rewrite E. f_equal. destruct (Nat.min (length q) (lead l)) as [|m']; cbn [waken].
      * unfold k1', wakeall. by kst_eq.
      * rewrite <- (wakeall_idem _ (set_k_uart u' k)). unfold k1', wakeall. by kst_eq.
    + rewrite Hw. unfold wrote, k1', wakeall. ksimpl. rewrite fmap_cons, reverse_cons, <- app_assoc. done.
Qed.

(** C37: uartputc() queues characters without loss.  When the 32-character
    transmit buffer is full the caller sleeps.  Otherwise the character joins
    the queue, and as many characters as the transmitter accepts leave it from
    the front, in order: what was sent and what stays queued is the old queue
    and the new character. *)
Theorem uartputc_fifo (k : kst) (me : nat) (p : proc) (q : list Z) (c : Z)
    (Q : quiet k me p) (Hp : k_panicked k = false) (R : uart_rep (k_uart k) q)
    (Hl : (length q < length (u_lsr (k_uart k)))%nat) :
  if decide (length q = 32%nat) then
    uartputc c k = Blocked (WSleep ChUartTx c) (asleep ChUartTx LUart me (acq LUart k))
  else
    let q' := q ++ [u8 c] in
    let m := Nat.min (length q') (lead (u_lsr (k_uart k))) in
    exists u', uartputc c k = Ret tt (waken m (set_k_uart u' k)) /\
      uart_rep u' (drop m q') /\ u_wr u' = wrote (take m q') (k_uart k).
Proof.
  pose proof (quiet_hart _ _ _ Q) as Hok. unfold uartputc.
  rewrite (bind_ret _ _ _ _ _ (acquire_eq _ _ (quiet_lock _ _ _ LUart Q))). mstep.
  change (k_panicked (acq LUart k)) with (k_panicked k). rewrite Hp.
  unfold uartputc_body. mstep. change (k_uart (acq LUart k)) with (k_uart k). rewrite (uart_full _ _ R).
  destruct (decide (length q = 32%nat)) as [H32|H32].
  { rewrite bool_decide_true by done. apply (sleep_eq _ _ _ _ me p); [by apply running_acq, Q| |done|apply lookup_insert_eq|].
    - unfold acq, push_hart. ksimpl. by rewrite (q_noff _ _ _ Q).
    - unfold acq. ksimpl. rewrite lookup_insert_ne by done. by eapply quiet_lock. }
  rewrite bool_decide_false by done. cbv zeta. unfold moduart. mstep. ksimpl.
  change (k_uart (acq LUart k)) with (k_uart k). change (set_u_tx_w (u64 (u_tx_w (k_uart k) + 1)) _) with (uart_push (u8 c) (k_uart k)).
  pose proof (ur_len _ _ R) as HL. pose proof (uart_push_ok _ _ (u8 c) R ltac:(lia)) as R1.
  set (kc := set_k_uart (uart_push (u8 c) (k_uart k)) (acq LUart k)).
  unfold uartstart. mstep. change (k_uart kc) with (uart_push (u8 c) (k_uart k)).
  destruct (uartstart_loop_ok (q ++ [u8 c]) (S (Z.to_nat (u64 (u_tx_w (uart_push (u8 c) (k_uart k)) - u_tx_r (uart_push (u8 c) (k_uart k)))))) kc)
    as (u' & E & R' & Hw).
  - done.
  - split; [by apply hart_ok_push|]. split; [|apply Q]. intros i. unfold kc, acq. ksimpl.
    rewrite lookup_insert_ne by done. by eapply quiet_lock.
  - unfold kc. simpl. rewrite length_app. simpl. lia.
  - pose proof (uart_len _ _ R1) as L. unfold ring_len, u64 in *. rewrite L. lia.
  - mcall E. exists u'. split; [|split; [done|exact Hw]].
    set (m := Nat.min _ _) in *. rewrite (release_after LUart k); [|done|by eapply quiet_lock|by destruct m|by destruct m].
    f_equal. destruct m; unfold waken, wakeall, kc, acq; by kst_eq.
Qed.

(** Two characters queued, counters about to wrap, a transmitter that accepts two. *)
Lemma uartputc_fifo_witness :
  exists k u', k_uart k = Uart (replicate 31 0 ++ [104]) (2 ^ 64 - 1 + 1 - 2 ^ 64) (2 ^ 64 - 1) [32; 32; 0] [] [] /\
    uartputc 105 k = Ret tt (wakeall ChUartTx (set_k_uart u' k)) /\ u_wr u' = [(THR, 105); (THR, 104)].
Proof.
  set (u := Uart (replicate 31 0 ++ [104]) (2 ^ 64 - 1 + 1 - 2 ^ 64) (2 ^ 64 - 1) [32; 32; 0] [] []).
  set (k := set_k_uart u run_state).
  assert (quiet k 0 (set_pr_pid 1 (set_pr_state RUNNING proc0))) as Q.
  { constructor; [split; [|split; reflexivity]|reflexivity..].
    unfold hart_ok. split_and!; simpl; intros; lia || done. }
  pose proof (uartputc_fifo k 0 _ [104] 105 Q) as H.
  destruct H as (u' & E & _ & Hw).
  - reflexivity.
  - constructor; [reflexivity|vm_compute; split; congruence|vm_compute; split; congruence|vm_compute; reflexivity|simpl; lia].
  - simpl. lia.
  - exists k, u'. split; [reflexivity|]. split; [exact E|exact Hw].
Defined.
