(* ===== verification/ConsoleSpec.v ===== *)
(** The console input as a line editor: what consoleintr() and consoleread() of
    kernel/console.c do to the typed characters. *)

From Stdlib Require Import ZArith Lia.
From stdpp Require Import base gmap strings list numbers.
From S2P Require Import Prelude Params Ring State Spinlock Sched CString Kalloc Vm PageTable UserMem Copy Uart Printf Console.
From S2P Require Import Frame CopySpec PipeSpec UartSpec.

Open Scope Z_scope.

(** ** Two adjacent parts of a ring *)

Section ring_app.
Context (N sz : Z) (Hsz : 0 < sz) (Hdiv : (sz | N)) (HN : sz <= N).

Lemma ring_len_app r w e : ring_len N r w + ring_len N w e < N -> ring_len N r e = ring_len N r w + ring_len N w e.
Proof.
  intros H. pose proof (ring_len_range N sz Hsz HN r w). pose proof (ring_len_range N sz Hsz HN w e).
  unfold ring_len in *. replace (e - r) with ((w - r) + (e - w)) by lia. rewrite Z.add_mod by lia.
  apply Z.mod_small. lia.
Qed.

Lemma ring_list_app data r w e : ring_len N r w + ring_len N w e < N ->
  ring_list N sz data r e = ring_list N sz data r w ++ ring_list N sz data w e.
Proof.
  intros H. unfold ring_list. rewrite (ring_len_app r w e) by done.
  pose proof (ring_len_range N sz Hsz HN r w). pose proof (ring_len_range N sz Hsz HN w e).
  rewrite Z2Nat.inj_add by lia. unfold seqz. rewrite seq_app, !fmap_app. f_equal.
  rewrite Nat.add_0_l. rewrite <- (Nat.add_0_r (Z.to_nat (ring_len N r w))) at 1.
  rewrite <- fmap_add_seq, <- !list_fmap_compose. apply list_fmap_ext. intros _ i _. cbn. do 2 f_equal.
  rewrite Nat2Z.inj_add, Z2Nat.id by lia. unfold ring_len.
  replace (r + (0 + ((w - r) `mod` N + Z.of_nat i))) with ((w - r) `mod` N + (r + Z.of_nat i)) by lia.
  rewrite <- Zplus_mod_idemp_l, (Z.mod_mod_divide _ _ _ Hdiv), Zplus_mod_idemp_l. f_equal. lia.
Qed.
End ring_app.

(** ** The two lines a struct cons represents

    [rd]: complete input that a reader may take; [ln]: the line being edited. *)

Abbreviation cring := (ring_list (2 ^ 32) 128).
Abbreviation clen := (ring_len (2 ^ 32)).

Record cons_rep (cs : cons) (rd ln : list Z) : Prop := ConsRep {
  cr_buf : length (c_buf cs) = 128%nat;
  cr_r : 0 <= c_r cs < 2 ^ 32;
  cr_w : 0 <= c_w cs < 2 ^ 32;
  cr_e : 0 <= c_e cs < 2 ^ 32;
  cr_rd : cring (c_buf cs) (c_r cs) (c_w cs) = rd;
  cr_ln : cring (c_buf cs) (c_w cs) (c_e cs) = ln;
  cr_room : (length rd + length ln <= 128)%nat;
  cr_line : 10 ∉ ln }.

Lemma cons_div : (128 | 2 ^ 32).
Proof. by exists 33554432. Qed.

Lemma cring_len buf a b : Z.of_nat (length (cring buf a b)) = clen a b.
Proof.
  rewrite length_ring_list. pose proof (ring_len_range (2 ^ 32) 128 ltac:(lia) ltac:(lia) a b). lia.
Qed.

Section rep.
Context (cs : cons) (rd ln : list Z) (R : cons_rep cs rd ln).

Lemma rep_lens : clen (c_r cs) (c_w cs) = Z.of_nat (length rd) /\ clen (c_w cs) (c_e cs) = Z.of_nat (length ln).
Proof. destruct R as [_ _ _ _ <- <- _ _]. by rewrite !cring_len. Qed.

Lemma rep_all : cring (c_buf cs) (c_r cs) (c_e cs) = rd ++ ln /\ clen (c_r cs) (c_e cs) = Z.of_nat (length rd + length ln).
Proof.
  destruct rep_lens as [L1 L2]. pose proof (cr_room _ _ _ R). split.
  - rewrite (ring_list_app (2 ^ 32) 128 ltac:(lia) cons_div ltac:(lia) _ _ (c_w cs)) by lia.
    by rewrite (cr_rd _ _ _ R), (cr_ln _ _ _ R).
  - rewrite (ring_len_app (2 ^ 32) 128 ltac:(lia) ltac:(lia) _ (c_w cs)) by lia. lia.
Qed.

(** The test for an empty line. *)
Lemma rep_empty : (c_e cs =? c_w cs) = bool_decide (ln = []).
Proof.
  destruct R as [? ? ? ? _ <- _ _].
  pose proof (ring_list_empty (2 ^ 32) 128 ltac:(lia) ltac:(lia) (c_buf cs) (c_w cs) (c_e cs) ltac:(lia) ltac:(lia)) as E.
  case_bool_decide as D; [apply Z.eqb_eq; symmetry; tauto|apply Z.eqb_neq]. intros H. apply D, E. by rewrite H.
Qed.

(** Erasing the last character of the line. *)
Lemma rep_erase : ln <> [] -> exists ln' c, ln = ln' ++ [c] /\ cons_at cs (u32 (c_e cs - 1)) = c /\
  cons_rep (set_c_e (u32 (c_e cs - 1)) cs) rd ln'.
Proof.
  intros Hne. destruct rep_lens as [L1 L2]. assert (0 < length ln)%nat by (destruct ln; [done|simpl; lia]).
  destruct (ring_drop (2 ^ 32) 128 ltac:(lia) cons_div ltac:(lia) (c_buf cs) (c_w cs) (c_e cs)) as (c & E & Ec); [lia|].
  rewrite (cr_ln _ _ _ R) in E. eexists _, c. split; [exact E|]. split.
  - unfold cons_at. rewrite Ec. do 2 f_equal. unfold u32. apply (Z.mod_mod_divide _ _ _ cons_div).
  - destruct R. constructor; ksimpl; try done.
    + unfold u32. apply Z.mod_pos_bound. lia.
    + rewrite E in cr_room0. rewrite length_app in cr_room0. simpl in *. unfold u32. lia.
    + rewrite E in cr_line0. unfold u32. set_solver.
Qed.

(** Appending a character to the line. *)
Lemma rep_store c : (length rd + length ln < 128)%nat ->
  let cs' := set_c_e (u32 (c_e cs + 1)) (set_c_buf (<[Z.to_nat (c_e cs `mod` 128) := c]> (c_buf cs)) cs) in
  cring (c_buf cs') (c_r cs) (c_w cs) = rd /\ cring (c_buf cs') (c_w cs) (c_e cs') = ln ++ [c] /\
  cring (c_buf cs') (c_r cs) (c_e cs') = rd ++ ln ++ [c].
Proof.
  intros Hroom cs'. destruct rep_lens as [L1 L2], rep_all as [A1 A2]. destruct R as [? ? ? ? E1 E2 _ _].
  unfold cs'. ksimpl. unfold u32.
  pose proof (ring_push (2 ^ 32) 128 ltac:(lia) cons_div ltac:(lia) (c_buf cs) (c_w cs) (c_e cs) c) as P1.
  rewrite E2 in P1. specialize (P1 ltac:(lia) ltac:(lia) ltac:(lia) ltac:(lia)).
  pose proof (ring_push (2 ^ 32) 128 ltac:(lia) cons_div ltac:(lia) (c_buf cs) (c_r cs) (c_e cs) c) as P2.
  rewrite A1 in P2. specialize (P2 ltac:(lia) ltac:(lia) ltac:(lia) ltac:(lia)).
  split; [|split; [done|by rewrite P2, app_assoc]].
  rewrite (ring_list_app (2 ^ 32) 128 ltac:(lia) cons_div ltac:(lia) _ _ (c_w cs)) in P2.
  - rewrite P1, <- app_assoc in P2. apply app_inj_1 in P2 as [? _]; [done|].
    apply Nat2Z.inj. by rewrite cring_len.
  - rewrite (ring_len_push (2 ^ 32) 128) by lia. lia.
Qed.
End rep.

(** ** The line editor *)

(** What is echoed to erase [n] characters. *)
Definition rubout (n : nat) : list Z := concat (replicate n [8; 32; 8]).

(** Key [c] typed: the new input and line, the echo, and whether readers are woken. *)
Definition edit (c : Z) (rd ln : list Z) : list Z * list Z * list Z * bool :=
  if c =? 21 then (rd, [], rubout (length ln), false)
  else if (c =? 8) || (c =? 127) then (rd, removelast ln, rubout (Nat.min 1 (length ln)), false)
  else if (c =? 0) || (128 <=? length rd + length ln)%nat then (rd, ln, [], false)
  else
    let c := if c =? 13 then 10 else c in
    let ln' := ln ++ [c] in
    if (c =? 10) || (c =? 4) || (length rd + length ln' =? 128)%nat then (rd ++ ln', [], [c], true)
    else (rd, ln', [c], false).

(** The conditions under which the interrupt handler runs. *)
Record irq_ok (k : kst) : Prop := IrqOk {
  iq_wake : can_wake k;
  iq_cons : k_locks k !! LCons = None;
  iq_panicked : k_panicked k = false }.

(** The state inside the critical section of the console. *)
Definition in_cons (cs : cons) (u : uart) (k : kst) : kst := set_k_cons cs (set_k_uart u (acq LCons k)).

Section keys.
Context (k : kst) (IQ : irq_ok k).

Lemma in_cons_put cs u c : (length (echo c) <= idles (u_lsr u))%nat ->
  exists u', consputc c (in_cons cs u k) = Ret tt (in_cons cs u' k) /\ sent (echo c) u u'.
Proof.
  intros Hi. destruct IQ as [(Hok & _) _ Hp].
  destruct (consputc_ok (in_cons cs u k) c) as (u' & E & S'); [by apply hart_ok_push|done|done|].
  exists u'. split; [|done]. rewrite E. f_equal.
Qed.

Lemma modcons_in f cs u : modcons f (in_cons cs u k) = Ret tt (in_cons (f cs) u k).
Proof. unfold modcons, modify, in_cons. done. Qed.

Lemma gets_in cs u : gets k_cons (in_cons cs u k) = Ret cs (in_cons cs u k).
Proof. done. Qed.

Lemma sent_idles cs u u' n : sent cs u u' -> (length cs + n <= idles (u_lsr u))%nat -> (n <= idles (u_lsr u'))%nat.
Proof. intros (l & -> & H) Hn. simpl. lia. Qed.

(** ^U erases the whole line. *)
Lemma kill_line_ok fuel : forall cs rd ln u,
  cons_rep cs rd ln -> (length ln < fuel)%nat -> (length (rubout (length ln)) <= idles (u_lsr u))%nat ->
  exists cs' u', kill_line fuel (in_cons cs u k) = Ret tt (in_cons cs' u' k) /\
    cons_rep cs' rd [] /\ sent (rubout (length ln)) u u'.
Proof.
  induction fuel as [|fuel IH]; intros cs rd ln u R Hf Hi; [lia|]. cbn [kill_line].
  rewrite (bind_ret _ _ _ _ _ (gets_in cs u)). rewrite (rep_empty _ _ _ R).
  destruct (decide (ln = [])) as [->|Hne].
  { rewrite bool_decide_true by done. exists cs, u. split; [done|]. split; [done|apply sent_nil]. }
  rewrite bool_decide_false by done. destruct (rep_erase _ _ _ R Hne) as (ln' & c & -> & Hc & R').
  assert (c =? 10 = false) as Ec by (apply Z.eqb_neq; intros ->; apply (cr_line _ _ _ R); set_solver).
  rewrite Hc, Ec. cbn [negb andb]. rewrite (bind_ret _ _ _ _ _ (modcons_in _ cs u)).
  rewrite length_app in *. simpl in Hf, Hi. rewrite Nat.add_1_r in *. cbn [replicate concat rubout] in *.
  unfold rubout in Hi. cbn [replicate concat] in Hi. rewrite length_app in Hi. fold (rubout (length ln')) in Hi.
  destruct (in_cons_put (set_c_e (u32 (c_e cs - 1)) cs) u BACKSPACE) as (u1 & E1 & S1); [simpl in *; lia|].
  mcall E1. destruct (IH _ rd ln' u1 R') as (cs' & u' & E & R2 & S2); [lia|by eapply sent_idles; [exact S1|]|].
  exists cs', u'. split; [exact E|]. split; [done|].
  change (rubout (S (length ln'))) with (echo BACKSPACE ++ rubout (length ln')). by eapply sent_app.
Qed.

Definition woke (wk : bool) (k : kst) : kst := if wk then wakeall ChCons k else k.

Lemma in_cons_wakeup cs u : wakeup ChCons (in_cons cs u k) = Ret tt (wakeall ChCons (in_cons cs u k)).
Proof.
  destruct IQ as [(H1 & H2 & H3) _ _]. apply wakeup_eq; [by apply hart_ok_push| |done].
  intros i. unfold in_cons, acq. ksimpl. by rewrite lookup_insert_ne.
Qed.

(** Backspace erases the last character of the line, if there is one. *)
Lemma backspace_ok cs rd ln u :
  cons_rep cs rd ln -> (length (rubout (Nat.min 1 (length ln))) <= idles (u_lsr u))%nat ->
  exists cs' u', (when (negb (c_e cs =? c_w cs)) (
       modcons (fun cs => set_c_e (u32 (c_e cs - 1)) cs);; consputc BACKSPACE)) (in_cons cs u k) = Ret tt (in_cons cs' u' k) /\
    cons_rep cs' rd (removelast ln) /\ sent (rubout (Nat.min 1 (length ln))) u u'.
Proof.
  intros R Hi. rewrite (rep_empty _ _ _ R). destruct (decide (ln = [])) as [->|Hne].
  { rewrite bool_decide_true by done. exists cs, u. split; [done|]. split; [done|apply sent_nil]. }
  rewrite bool_decide_false by done. destruct (rep_erase _ _ _ R Hne) as (ln' & c & -> & Hc & R').
  cbn [negb when]. rewrite (bind_ret _ _ _ _ _ (modcons_in _ cs u)).
  rewrite removelast_last. assert (Nat.min 1 (length (ln' ++ [c])) = 1%nat) as Em by (rewrite length_app; cbn [length]; lia).
  rewrite Em in *.
  destruct (in_cons_put (set_c_e (u32 (c_e cs - 1)) cs) u BACKSPACE Hi) as (u1 & E1 & S1). eauto.
Qed.

(** An ordinary character is stored; a line end, ^D or a full buffer hands the
    line to the readers. *)
Lemma cons_store_ok cs rd ln u c :
  cons_rep cs rd ln -> 0 <= c < 256 -> (length (edit c rd ln).1.2 <= idles (u_lsr u))%nat -> c <> 21 -> c <> 8 -> c <> 127 ->
  let '(rd', ln', ec, wk) := edit c rd ln in
  exists cs' u', cons_store c (in_cons cs u k) = Ret tt (woke wk (in_cons cs' u' k)) /\ cons_rep cs' rd' ln' /\ sent ec u u'.
Proof.
  intros R Hc Hi N1 N2 N3. destruct (rep_all _ _ _ R) as [A1 A2]. pose proof (cr_room _ _ _ R) as Hroom. unfold edit in *.
  rewrite (proj2 (Z.eqb_neq c 21)), (proj2 (Z.eqb_neq c 8)), (proj2 (Z.eqb_neq c 127)) in * by done. cbn [orb] in *.
  unfold cons_store. rewrite (bind_ret _ _ _ _ _ (gets_in cs u)).
  assert (u32 (c_e cs - c_r cs) = Z.of_nat (length rd + length ln)) as -> by (rewrite <- A2; done).
  destruct (c =? 0) eqn:E0; cbn [negb andb orb when].
  { exists cs, u. split; [done|]. split; [done|apply sent_nil]. }
  destruct (128 <=? length rd + length ln)%nat eqn:Efull.
  { apply Nat.leb_le in Efull. assert (Z.of_nat (length rd + length ln) <? INPUT_BUF = false) as -> by (apply Z.ltb_ge; lia).
    exists cs, u. split; [done|]. split; [done|apply sent_nil]. }
  assert (1 <= idles (u_lsr u))%nat as H1 by (cbv zeta in Hi; destruct (orb (orb _ _) _) in Hi; exact Hi). clear Hi.
  apply Nat.leb_gt in Efull. assert (Z.of_nat (length rd + length ln) <? INPUT_BUF = true) as -> by (apply Z.ltb_lt; lia). cbn [when].
  set (c' := if c =? 13 then 10 else c). assert (0 <= c' < 256) as Hc' by (unfold c'; destruct (c =? 13); lia).
  assert (echo c' = [c']) as Ee by (unfold echo; assert (c' =? BACKSPACE = false) as -> by lia; done).
  destruct (in_cons_put cs u c') as (u1 & E1 & S1); [rewrite Ee; simpl; lia|]. mcall E1. rewrite Ee in S1.
  rewrite !(bind_ret _ _ _ _ _ (modcons_in _ _ _)). rewrite (bind_ret _ _ _ _ _ (gets_in _ _)).
  assert (u8 c' = c') as -> by (unfold u8; apply Z.mod_small; lia).
  pose proof (rep_store _ _ _ R c' ltac:(lia)) as (B1 & B2 & B3).
  set (cs1 := set_c_e _ _) in *. change (c_r cs1) with (c_r cs).
  assert (Z.of_nat (length rd + length (ln ++ [c'])) = clen (c_r cs) (c_e cs1)) as Hlen.
  { rewrite <- cring_len with (buf := c_buf cs1), B3, <- length_app. done. }
  assert (0 <= c_e cs1 < 2 ^ 32) as He by (unfold cs1; ksimpl; apply Z.mod_pos_bound; lia).
  assert ((c_e cs1 =? u32 (c_r cs + INPUT_BUF)) = (length rd + length (ln ++ [c']) =? 128)%nat) as ->.
  { pose proof (ring_full (2 ^ 32) 128 ltac:(lia) (c_r cs) (c_e cs1) He ltac:(lia)) as Hfull. unfold u32.
    destruct (Nat.eqb_spec (length rd + length (ln ++ [c'])) 128); [apply Z.eqb_eq|apply Z.eqb_neq]; lia. }
  assert (length (c_buf cs1) = 128%nat) as Hb by (unfold cs1; ksimpl; rewrite length_insert; apply R).
  destruct R. destruct ((c' =? 10) || (c' =? 4) || (length rd + length (ln ++ [c']) =? 128)%nat) eqn:Ecom; cbn [when].
  - rewrite (bind_ret _ _ _ _ _ (modcons_in _ _ _)), in_cons_wakeup. eexists _, u1. split; [reflexivity|]. split; [|done].
    constructor; ksimpl; try done.
    + unfold ring_list, ring_len. by rewrite Z.sub_diag.
    + rewrite !length_app. simpl. lia.
    + apply not_elem_of_nil.
  - exists cs1, u1. split; [done|]. split; [|done]. constructor; try done.
    + rewrite length_app. simpl. lia.
    + assert (c' <> 10) by (destruct (c' =? 10) eqn:E10; [done|by apply Z.eqb_neq]). set_solver.
Qed.

End keys.

(** C23: keyboard input goes through the line editor.  For every key but ^P, and
    with characters [rd] ready for readers and [ln] on the line being edited,
    consoleintr() makes them the result of [edit]: backspace removes the last
    character, ^U the whole line, other characters are appended while there is
    room for 128, and a line end, ^D or the last free place hands the line to the
    readers and wakes them.  What is echoed is exactly the editor's echo, and
    nothing else of the kernel changes. *)
Theorem consoleintr_edits (k : kst) (c : Z) (rd ln : list Z)
    (IQ : irq_ok k) (R : cons_rep (k_cons k) rd ln) (Hc : 0 <= c < 256) (Hp : c <> 16)
    (Hi : (length (edit c rd ln).1.2 <= idles (u_lsr (k_uart k)))%nat) :
  let '(rd', ln', ec, wk) := edit c rd ln in
  exists cs' u', consoleintr c k = Ret tt (woke wk (set_k_cons cs' (set_k_uart u' k))) /\
    cons_rep cs' rd' ln' /\ sent ec (k_uart k) u'.
Proof.
  assert (let '(rd', ln', ec, wk) := edit c rd ln in
    exists cs' u', (if c =? 16 then procdump
       else if c =? 21 then
         cs ← gets k_cons; kill_line (S (Z.to_nat (u32 (c_e cs - c_w cs))))
       else if (c =? 8) || (c =? 127) then
         cs ← gets k_cons;
         when (negb (c_e cs =? c_w cs)) (modcons (fun cs => set_c_e (u32 (c_e cs - 1)) cs);; consputc BACKSPACE)
       else cons_store c) (in_cons (k_cons k) (k_uart k) k) = Ret tt (woke wk (in_cons cs' u' k)) /\
      cons_rep cs' rd' ln' /\ sent ec (k_uart k) u') as H.
  { rewrite (proj2 (Z.eqb_neq c 16)) by done. destruct (c =? 21) eqn:E21.
    { unfold edit in *. rewrite E21 in *. rewrite (bind_ret _ _ _ _ _ (gets_in k _ _)).
      apply (kill_line_ok k IQ); [done| |done]. destruct (rep_lens _ _ _ R) as [_ L].
      unfold ring_len, u32 in *. rewrite L. lia. }
    destruct ((c =? 8) || (c =? 127)) eqn:Ebs.
    { unfold edit in *. rewrite E21, Ebs in *. rewrite (bind_ret _ _ _ _ _ (gets_in k _ _)). by apply (backspace_ok k IQ). }
    apply orb_false_iff in Ebs as [E8 E127]. apply (cons_store_ok k IQ); try done; by apply Z.eqb_neq. }
  destruct (edit c rd ln) as [[[rd' ln'] ec] wk]. destruct H as (cs' & u' & E & R' & S'). exists cs', u'. split; [|done].
  pose proof IQ as [(H1 & H2 & H3) Hl _]. unfold consoleintr. mcall (acquire_eq LCons k Hl).
  change (acq LCons k) with (in_cons (k_cons k) (k_uart k) k). mcall E.
  rewrite (release_after LCons k); [|done|done|by destruct wk|by destruct wk].
  f_equal. destruct wk; unfold woke, wakeall, in_cons, acq; by kst_eq.
Qed.

(** ** Reading *)

(** What a read of [n] characters takes from the input: the characters, and the
    input that is left, [None] if the reader has to wait.  ^D ends the read; it
    is used up only if it comes first. *)
Fixpoint take_line (first : bool) (n : nat) (rd : list Z) : list Z * option (list Z) :=
  match n with
  | O => ([], Some rd)
  | S n =>
      match rd with
      | [] => ([], None)
      | c :: rd' =>
          if c =? 4 then ([], Some (if first then rd' else rd))
          else if c =? 10 then ([c], Some rd')
          else let '(out, r) := take_line false n rd' in (c :: out, r)
      end
  end.

Lemma rep_read_empty cs rd ln : cons_rep cs rd ln -> (c_r cs =? c_w cs) = bool_decide (rd = []).
Proof.
  intros [? ? ? ? <- _ _ _].
  pose proof (ring_list_empty (2 ^ 32) 128 ltac:(lia) ltac:(lia) (c_buf cs) (c_r cs) (c_w cs) ltac:(lia) ltac:(lia)) as E.
  case_bool_decide as D; [apply Z.eqb_eq; tauto|apply Z.eqb_neq; tauto].
Qed.

(** Taking the oldest character. *)
Lemma rep_pop cs c rd ln : cons_rep cs (c :: rd) ln ->
  cons_at cs (c_r cs) = c /\ cons_rep (set_c_r (u32 (c_r cs + 1)) cs) rd ln.
Proof.
  intros R. destruct (rep_lens _ _ _ R) as [L1 L2]. simpl in L1. destruct R as [? ? ? ? E1 E2 Hroom ?].
  rewrite (ring_pop (2 ^ 32) 128 ltac:(lia) cons_div ltac:(lia)) in E1 by lia. injection E1 as E3 E4.
  split; [exact E3|]. constructor; ksimpl; try done; [apply Z.mod_pos_bound; lia|]. simpl in Hroom. lia.
Qed.

Section reader.
Context `{KI : KernelImage} (k : kst) (me : nat) (p : proc) (L : gmap Z Z) (Q : quiet k me p) (Hk : pr_killed p = 0).

(** The state inside the critical section of a reader. *)
Definition in_read (m : bmem) (cs : cons) : kst := set_k_mem m (set_k_cons cs (acq LCons k)).

Lemma in_read_running m cs : running (in_read m cs) me p.
Proof. destruct (running_acq LCons k me p (q_run _ _ _ Q)) as (? & ? & ?). done. Qed.

Lemma in_read_release m cs : release LCons (in_read m cs) = Ret tt (set_k_mem m (set_k_cons cs k)).
Proof.
  rewrite (release_after LCons k); [|by eapply quiet_hart|by eapply quiet_lock|done|done].
  done.
Qed.

Definition read_result (n target : Z) (out : list Z) (r : option (list Z)) (m' : bmem) (cs' : cons) : outcome Z :=
  match r with
  | Some _ => Ret (target - (n - Z.of_nat (length out))) (set_k_mem m' (set_k_cons cs' k))
  | None => Blocked (WSleep ChCons (n - Z.of_nat (length out))) (asleep ChCons LCons me (in_read m' cs'))
  end.

Lemma consoleread_loop_ok n : forall fuel m cs rd ln d target,
  cons_rep cs rd ln -> Forall byte_ok rd -> dst_ready m (pr_pagetable p) L d n -> (n < fuel)%nat ->
  Z.of_nat n <= target < 2 ^ 31 ->
  let '(out, r) := take_line (Z.of_nat n =? target) n rd in
  exists m' cs', consoleread_loop fuel d (Z.of_nat n) target (in_read m cs) = read_result (Z.of_nat n) target out r m' cs' /\
    cons_rep cs' (default [] r) ln /\ dst_put m m' (pr_pagetable p) L d out.
Proof.
  induction n as [|n IH]; intros [|fuel] m cs rd ln d target R Hb Hd Hf Ht; try lia; cbn [consoleread_loop take_line].
  { exists m, cs. split; [|split; [done|by eapply dst_put_nil]]. change (0 <? Z.of_nat 0) with false. cbn [negb].
    rewrite (bind_ret _ _ _ _ _ (in_read_release m cs)). unfold read_result. simpl. f_equal. unfold i32, u32. dlia. }
  assert (0 <? Z.of_nat (S n) = true) as -> by (apply Z.ltb_lt; lia). cbn [negb].
  rewrite (bind_ret _ _ _ _ _ (eq_refl : gets k_cons (in_read m cs) = Ret cs (in_read m cs))).
  rewrite (rep_read_empty _ _ _ R). destruct rd as [|c rd].
  { rewrite bool_decide_true by done. exists m, cs. split; [|split; [done|by eapply dst_put_nil]].
    pose proof (in_read_running m cs) as HR. mcall (curproc_eq _ me p HR). mcall (getproc_eq (in_read m cs) me p (proj2 (proj2 HR))).
    rewrite Hk. change (truth 0) with false. cbv iota. unfold read_result. rewrite Z.sub_0_r.
    apply (sleep_eq _ _ _ _ me p HR); [|done|apply lookup_insert_eq|].
    - unfold in_read, acq, push_hart. ksimpl. by rewrite (q_noff _ _ _ Q).
    - unfold in_read, acq. ksimpl. rewrite lookup_insert_ne by done. by eapply quiet_lock. }
  rewrite bool_decide_false by done. destruct (rep_pop _ _ _ _ R) as [-> R1]. apply Forall_cons in Hb as [Hc Hb].
  set (cs1 := set_c_r (u32 (c_r cs + 1)) cs) in *.
  rewrite (bind_ret _ _ _ _ _ (eq_refl : modcons (fun cs => set_c_r (u32 (c_r cs + 1)) cs) (in_read m cs) = Ret tt (in_read m cs1))).
  destruct (c =? 4) eqn:E4.
  { exists m, (if Z.of_nat (S n) =? target then cs1 else cs). split; [|split; [by destruct (_ =? target)|by eapply dst_put_nil]].
    assert (set_c_r (u32 (c_r cs1 - 1)) cs1 = cs) as Eback.
    { unfold cs1. destruct cs as [bf r w e]. unfold set_c_r. simpl. f_equal. destruct R. simpl in *. unfold u32. dlia. }
    assert ((when (Z.of_nat (S n) <? target) (modcons (fun cs => set_c_r (u32 (c_r cs - 1)) cs))) (in_read m cs1) =
      Ret tt (in_read m (if Z.of_nat (S n) =? target then cs1 else cs))) as Eu.
    { destruct (Z.of_nat (S n) =? target) eqn:Et.
      - apply Z.eqb_eq in Et. assert (Z.of_nat (S n) <? target = false) as -> by (apply Z.ltb_ge; lia). done.
      - apply Z.eqb_neq in Et. assert (Z.of_nat (S n) <? target = true) as -> by (apply Z.ltb_lt; lia). cbn [when].
        trans (Ret tt (in_read m (set_c_r (u32 (c_r cs1 - 1)) cs1))); [done|by rewrite Eback]. }
    mcall Eu. rewrite (bind_ret _ _ _ _ _ (in_read_release _ _)). unfold read_result. simpl length.
    rewrite i32_small by lia. by rewrite Z.sub_0_r. }
  destruct (either_copyout_run (in_read m cs1) me p L d [c] (S n)) as (m1 & E1 & P1 & D1);
    [apply in_read_running|done|simpl; lia|by apply Forall_singleton|].
  rewrite (bind_ret _ _ _ _ _ E1). change (0 =? -1) with false. cbv iota.
  change (set_k_mem m1 (in_read m cs1)) with (in_read m1 cs1). change (k_mem (in_read m cs1)) with m in P1.
  destruct (c =? 10) eqn:E10.
  { exists m1, cs1. split; [|done]. rewrite (bind_ret _ _ _ _ _ (in_read_release _ _)). unfold read_result. simpl length.
    rewrite i32_small by lia. done. }
  specialize (IH fuel m1 cs1 rd ln (dst_add d 1) target R1 Hb). replace (S n - length [c])%nat with n in D1 by (simpl; lia).
  specialize (IH D1 ltac:(lia) ltac:(lia)). assert (Z.of_nat n =? target = false) as Et by (apply Z.eqb_neq; lia). rewrite Et in IH.
  destruct (take_line false n rd) as [out r] eqn:El. destruct IH as (m' & cs' & E & R' & P'). exists m', cs'.
  split; [|split; [done|]].
  - replace (Z.of_nat (S n) - 1) with (Z.of_nat n) by lia. rewrite E. unfold read_result. cbn [length].
    destruct r; f_equal; [lia|f_equal; lia].
  - change (c :: out) with ([c] ++ out). assert (length out <= n)%nat as Hlo.
    { clear -El. revert rd out r El. generalize false. induction n as [|n IH]; intros b rd out r El; cbn [take_line] in El.
      - by injection El as <- _.
      - destruct rd as [|x rd]; [by injection El as <- _; simpl; lia|]. destruct (x =? 4); [injection El as <- _; simpl; lia|].
        destruct (x =? 10); [injection El as <- _; simpl; lia|]. destruct (take_line false n rd) as [o r'] eqn:E.
        injection El as <- _. apply IH in E. simpl. lia. }
    eapply (dst_put_app _ m1 _ _ _ _ (S n)); [done|simpl; lia|done|done].
Qed.
End reader.

(** C38: consoleread() delivers the input line by line.  It copies characters in
    order up to the count asked for, a line end, or ^D, which ends the input and
    is left for the next read unless it comes first.  If the input ready runs out
    before, the reader sleeps with the rest of its count, what it has read kept.
    The line being edited is not touched. *)
Theorem consoleread_line `{KI : KernelImage} (k : kst) (me : nat) (p : proc) (L : gmap Z Z) (d : dst) (n : nat) (rd ln : list Z)
    (Q : quiet k me p) (Hk : pr_killed p = 0) (R : cons_rep (k_cons k) rd ln) (Hb : Forall byte_ok rd)
    (Hd : dst_ready (k_mem k) (pr_pagetable p) L d n) (Hn : Z.of_nat n < 2 ^ 31) :
  let '(out, r) := take_line true n rd in
  exists m' cs', consoleread d (Z.of_nat n) k =
      match r with
      | Some _ => Ret (Z.of_nat (length out)) (set_k_mem m' (set_k_cons cs' k))
      | None => Blocked (WSleep ChCons (Z.of_nat n - Z.of_nat (length out)))
                  (asleep ChCons LCons me (set_k_mem m' (set_k_cons cs' (acq LCons k))))
      end /\
    cons_rep cs' (default [] r) ln /\ dst_put (k_mem k) m' (pr_pagetable p) L d out.
Proof.
  pose proof (consoleread_loop_ok k me p L Q Hk n (S n) (k_mem k) (k_cons k) rd ln d (Z.of_nat n) R Hb Hd) as H.
  rewrite Z.eqb_refl in H. destruct (take_line true n rd) as [out r].
  destruct H as (m' & cs' & E & R' & P'); [lia|lia|]. exists m', cs'. split; [|done].
  unfold consoleread. mcall (acquire_eq LCons k (quiet_lock _ _ _ LCons Q)). rewrite Nat2Z.id.
  assert (u32 (Z.of_nat n) = Z.of_nat n) as -> by (apply u32_small; lia).
  change (acq LCons k) with (in_read k (k_mem k) (k_cons k)) at 1. rewrite E. unfold read_result. destruct r; [|done].
  f_equal. lia.
Qed.

(** "hi" and a newline are ready, "x" is being edited. *)
Definition demo_cons : cons := Cons ([104; 105; 10; 120] ++ replicate 124 0) 0 3 4.
Lemma demo_cons_rep : cons_rep demo_cons [104; 105; 10] [120].
Proof. constructor; try (vm_compute; done); [simpl; lia|]. set_solver. Qed.

Definition cons_state : kst := set_k_cons demo_cons (set_k_uart (Uart [] 0 0 (replicate 8 32) [] []) run_state).
Lemma cons_state_quiet : quiet cons_state 0 (set_pr_pid 1 (set_pr_state RUNNING proc0)).
Proof.
  constructor; [split; [|split; reflexivity]|reflexivity..].
  unfold hart_ok. split_and!; simpl; intros; lia || done.
Qed.

Lemma consoleintr_edits_witness :
  exists cs' u', consoleintr 13 cons_state = Ret tt (woke true (set_k_cons cs' (set_k_uart u' cons_state))) /\
    cons_rep cs' [104; 105; 10; 120; 10] [].
Proof.
  pose proof cons_state_quiet as Q.
  destruct (consoleintr_edits cons_state 13 [104; 105; 10] [120]) as (cs' & u' & E & R & _).
  - split; [|reflexivity|reflexivity]. split; [by eapply quiet_hart|]. split; [by eapply quiet_plocks|apply Q].
  - exact demo_cons_rep.
  - lia.
  - lia.
  - vm_compute. lia.
  - exists cs', u'. split; [exact E|exact R].
Defined.

Lemma consoleread_line_witness :
  exists m' cs', consoleread (DKern 4096) 10 cons_state = Ret 3 (set_k_mem m' (set_k_cons cs' cons_state)) /\
    m' = stn (k_mem cons_state) 4096 [104; 105; 10].
Proof.
  destruct (consoleread_line cons_state 0 _ ∅ (DKern 4096) 10 [104; 105; 10] [120] cons_state_quiet) as (m' & cs' & E & _ & P).
  - reflexivity.
  - exact demo_cons_rep.
  - repeat constructor; unfold byte_ok; lia.
  - simpl. lia.
  - lia.
  - exists m', cs'. split; [exact E|exact P].
Defined.
