(* ===== verification/Bio.v ===== *)
(** The buffer cache: kernel/bio.c.

    [k_bufs] holds bcache.buf and, at index [NBUF], bcache.head; the LRU list is
    the doubly linked list of the source, through [b_prev] and [b_next].  The
    disk driver is used through the class [DiskDriver], which Virtio discharges. *)

From Stdlib Require Import ZArith Lia.
From stdpp Require Import base gmap strings list numbers.
From S2P Require Import Prelude Params State Spinlock Sched Frame.

Open Scope Z_scope.

(** The driver entry point bio.c calls: read ([false]) or write ([true]) the
    block of a locked buffer. *)
Class DiskDriver := { disk_rw : nat -> bool -> M unit }.

Definition getbuf (i : nat) : M buf := deref "buf" k_bufs i.
Definition modbuf (i : nat) (f : buf -> buf) : M unit :=
  modify (fun k => set_k_bufs (alter f i (k_bufs k)) k).

(** Unlinking [b] from the LRU list, and linking it after the head. *)
Definition buf_unlink (i : nat) : M unit :=
  b ← getbuf i;
  modbuf (b_next b) (set_b_prev (b_prev b));;
  b ← getbuf i;
  modbuf (b_prev b) (set_b_next (b_next b)).

Definition buf_link (i : nat) : M unit :=
  h ← getbuf NBUF;
  modbuf i (set_b_next (b_next h));;
  modbuf i (set_b_prev NBUF);;
  h ← getbuf NBUF;
  modbuf (b_next h) (set_b_prev i);;
  modbuf NBUF (set_b_next i).

(** The loop body of binit(). *)
Definition binit1 (i : nat) : M unit :=
  h ← getbuf NBUF;
  modbuf i (set_b_next (b_next h));;
  modbuf i (set_b_prev NBUF);;
  initsleeplock (SlBuf i);;
  h ← getbuf NBUF;
  modbuf (b_next h) (set_b_prev i);;
  modbuf NBUF (set_b_next i).

Definition binit : M unit :=
  initlock LBcache;;
  modbuf NBUF (set_b_prev NBUF);;
  modbuf NBUF (set_b_next NBUF);;
  forM (seq 0 NBUF) binit1.

(** Is the block already cached?  From [b] along the next links. *)
Fixpoint bget_cached (fuel : nat) (b : nat) (dev blockno : Z) : M (option nat) :=
  match fuel with
  | O => nofuel
  | S fuel =>
      if (b =? NBUF)%nat then mret None else
      x ← getbuf b;
      if (b_dev x =? dev) && (b_blockno x =? blockno) then mret (Some b)
      else bget_cached fuel (b_next x) dev blockno
  end.

(** The least recently used buffer with no reference, along the prev links. *)
Fixpoint bget_lru (fuel : nat) (b : nat) : M (option nat) :=
  match fuel with
  | O => nofuel
  | S fuel =>
      if (b =? NBUF)%nat then mret None else
      x ← getbuf b;
      if b_refcnt x =? 0 then mret (Some b) else bget_lru fuel (b_prev x)
  end.

(** Both scans visit at most the [NBUF] buffers and the head. *)
Definition bget (dev blockno : Z) : M nat :=
  acquire LBcache;;
  h ← getbuf NBUF;
  c ← bget_cached (S NBUF) (b_next h) dev blockno;
  match c with
  | Some i =>
      modbuf i (fun b => set_b_refcnt (u32 (b_refcnt b + 1)) b);;
      release LBcache;;
      acquiresleep (SlBuf i);;
      mret i
  | None =>
      h ← getbuf NBUF;
      c ← bget_lru (S NBUF) (b_prev h);
      match c with
      | Some i =>
          modbuf i (set_b_dev dev);;
          modbuf i (set_b_blockno blockno);;
          modbuf i (set_b_valid 0);;
          modbuf i (set_b_refcnt 1);;
          release LBcache;;
          acquiresleep (SlBuf i);;
          mret i
      | None => panic "bget: no buffers"
      end
  end.

Section bio.
Context `{DD : DiskDriver}.

(** Return a locked buf with the contents of the indicated block. *)
Definition bread (dev blockno : Z) : M nat :=
  i ← bget dev blockno;
  b ← getbuf i;
  when (negb (truth (b_valid b))) (
    disk_rw i false;;
    modbuf i (set_b_valid 1));;
  mret i.

(** Write b's contents to disk.  Must be locked. *)
Definition bwrite (i : nat) : M unit :=
  h ← holdingsleep (SlBuf i);
  if negb h then panic "bwrite" else
  disk_rw i true.

End bio.

(** Release a locked buffer.  Move to the head of the most-recently-used list. *)
Definition brelse (i : nat) : M unit :=
  h ← holdingsleep (SlBuf i);
  if negb h then panic "brelse" else
  releasesleep (SlBuf i);;
  acquire LBcache;;
  modbuf i (fun b => set_b_refcnt (u32 (b_refcnt b - 1)) b);;
  b ← getbuf i;
  when (b_refcnt b =? 0) (buf_unlink i;; buf_link i);;
  release LBcache.

Definition bpin (i : nat) : M unit :=
  acquire LBcache;;
  modbuf i (fun b => set_b_refcnt (u32 (b_refcnt b + 1)) b);;
  release LBcache.

Definition bunpin (i : nat) : M unit :=
  acquire LBcache;;
  modbuf i (fun b => set_b_refcnt (u32 (b_refcnt b - 1)) b);;
  release LBcache.

(** ** The LRU list *)

(** [chain B a l z]: the links lead from [a] through [l] to [z], both ways. *)
Definition link (B : list buf) (a b : nat) : Prop :=
  b_next <$> B !! a = Some b /\ b_prev <$> B !! b = Some a.

Fixpoint chain (B : list buf) (a : nat) (l : list nat) (z : nat) : Prop :=
  match l with
  | [] => link B a z
  | b :: l => link B a b /\ chain B b l z
  end.

(** [lru B l]: the list from bcache.head visits the buffers [l], most recently
    used first, each exactly once, and returns to the head. *)
Definition lru (B : list buf) (l : list nat) : Prop :=
  length B = S NBUF /\ l ≡ₚ seq 0 NBUF /\ chain B NBUF l NBUF.

Lemma chain_app B a l1 b l2 z :
  chain B a (l1 ++ b :: l2) z <-> chain B a l1 b /\ chain B b l2 z.
Proof. revert a. induction l1 as [|x l1 IH]; intros a; simpl; [done|]. rewrite IH. tauto. Qed.

Lemma chain_frame B B' a l z :
  (forall x, x ∈ a :: l -> b_next <$> B' !! x = b_next <$> B !! x) ->
  (forall x, x ∈ l ++ [z] -> b_prev <$> B' !! x = b_prev <$> B !! x) ->
  chain B a l z -> chain B' a l z.
Proof.
  revert a. induction l as [|b l IH]; intros a Hn Hp; simpl.
  - unfold link. rewrite Hn, Hp by set_solver. done.
  - intros [Hl Hc]. split.
    + unfold link. rewrite Hn, Hp by set_solver. done.
    + apply IH; [| |done]; intros x Hx; [apply Hn|apply Hp]; set_solver.
Qed.

Lemma lru_elem B l i : lru B l -> i ∈ l <-> (i < NBUF)%nat.
Proof. intros (_ & Hl & _). rewrite Hl, elem_of_seq. lia. Qed.

Lemma lru_nodup B l : lru B l -> NoDup (NBUF :: l).
Proof.
  intros H. pose proof H as (_ & Hl & _). apply NoDup_cons. split.
  - rewrite lru_elem by done. lia.
  - rewrite Hl. apply NoDup_seq.
Qed.

(** Two buffer arrays that differ in their links only. *)
Definition nolinks (b : buf) : buf := set_b_prev 0 (set_b_next 0 b).
Definition relinked (B B' : list buf) : Prop :=
  forall i, nolinks <$> B' !! i = nolinks <$> B !! i.

#[export] Instance relinked_preorder : PreOrder relinked.
Proof. split; [done|]. intros x y z H1 H2 i. by rewrite H2, H1. Qed.

Lemma relinked_alter B f i :
  (forall b, nolinks (f b) = nolinks b) -> relinked B (alter f i B).
Proof.
  intros Hf j. rewrite list_lookup_alter. case_decide; [|done].
  subst. rewrite <- option_fmap_compose. apply option_fmap_ext. intros b. apply Hf.
Qed.

Lemma relinked_length B B' : relinked B B' -> length B' = length B.
Proof.
  intros H. assert (forall i, (i < length B')%nat <-> (i < length B)%nat) as Hs.
  { intros i. rewrite <- !lookup_lt_is_Some, <- (fmap_is_Some nolinks (B' !! i)),
      <- (fmap_is_Some nolinks (B !! i)). by rewrite (H i). }
  pose proof (Hs (length B)). pose proof (Hs (length B')). lia.
Qed.

(** Setting one link changes one end of one link. *)
Ltac alter_tac :=
  rewrite list_lookup_alter; repeat case_decide; subst; try tauto; try done;
  match goal with |- context [?B !! ?x] => destruct (lookup_lt_is_Some B x);
    destruct (B !! x) eqn:?; naive_solver eauto using lookup_lt_Some end.
Lemma next_alter_next (B : list buf) i v x :
  b_next <$> alter (set_b_next v) i B !! x =
    if decide (i = x /\ (x < length B)%nat) then Some v else b_next <$> B !! x.
Proof. alter_tac. Qed.
Lemma next_alter_prev (B : list buf) i v x : b_next <$> alter (set_b_prev v) i B !! x = b_next <$> B !! x.
Proof. alter_tac. Qed.
Lemma prev_alter_prev (B : list buf) i v x :
  b_prev <$> alter (set_b_prev v) i B !! x =
    if decide (i = x /\ (x < length B)%nat) then Some v else b_prev <$> B !! x.
Proof. alter_tac. Qed.
Lemma prev_alter_next (B : list buf) i v x : b_prev <$> alter (set_b_next v) i B !! x = b_prev <$> B !! x.
Proof. alter_tac. Qed.

Create HintDb links.
#[export] Hint Rewrite next_alter_next next_alter_prev prev_alter_prev prev_alter_next @length_alter : links.

(** [a -> b] is made adjacent by writing both link fields. *)
Definition join (a b : nat) (B : list buf) : list buf :=
  alter (set_b_next b) a (alter (set_b_prev a) b B).

Lemma join_link a b B : (a < length B)%nat -> (b < length B)%nat -> link (join a b B) a b.
Proof.
  intros Ha Hb. unfold link, join.
  autorewrite with links. by rewrite !decide_True by done.
Qed.

Lemma join_chain a b B c l z :
  a ∉ c :: l -> b ∉ l ++ [z] -> chain B c l z -> chain (join a b B) c l z.
Proof.
  intros Ha Hb. apply chain_frame; intros x Hx; unfold join; autorewrite with links;
    rewrite decide_False by set_solver; done.
Qed.

Lemma join_relinked a b B : relinked B (join a b B).
Proof. unfold join. etrans; [|apply relinked_alter; done]. by apply relinked_alter. Qed.

Lemma length_join a b B : length (join a b B) = length B.
Proof. unfold join. by rewrite !length_alter. Qed.

(** The links around an element: its neighbours, and the chains on both sides. *)
Lemma chain_before B a l i :
  chain B a l i -> exists c, link B c i /\
    ((l = [] /\ c = a) \/ exists l', l = l' ++ [c] /\ chain B a l' c).
Proof.
  destruct l as [|x l' _] using rev_ind; simpl; [eauto|].
  rewrite chain_app. simpl. intros [H1 H2]. eauto 10.
Qed.

Lemma chain_after B i l z :
  chain B i l z -> exists c, link B i c /\
    ((l = [] /\ c = z) \/ exists l', l = c :: l' /\ chain B c l' z).
Proof. destruct l as [|x l]; simpl; [eauto|]. intros [H1 H2]. eauto 10. Qed.

Lemma link_lookup B a b :
  link B a b -> exists x y, B !! a = Some x /\ B !! b = Some y /\ b_next x = b /\ b_prev y = a.
Proof.
  intros [H1 H2]. apply fmap_Some in H1 as (x & ? & ->), H2 as (y & ? & ->). eauto 10.
Qed.

Lemma chain_unlink B h l1 i l2 :
  NoDup (h :: l1 ++ i :: l2) -> chain B h (l1 ++ i :: l2) h ->
  exists a b, link B a i /\ link B i b /\ chain (join a b B) h (l1 ++ l2) h.
Proof.
  intros Hnd [H1 H2]%chain_app. apply chain_before in H1 as (a & Ha & H1).
  apply chain_after in H2 as (b & Hb & H2). exists a, b. split_and!; [done..|].
  assert (link (join a b B) a b) as Hl.
  { apply link_lookup in Ha as (x & _ & Hx & _), Hb as (_ & y & _ & Hy & _).
    apply join_link; eauto using lookup_lt_Some. }
  destruct H1 as [[-> ->]|(l1' & -> & H1)], H2 as [[-> ->]|(l2' & -> & H2)]; simpl.
  - done.
  - split; [done|]. apply join_chain; [| |done]; clear -Hnd; simpl in Hnd;
      rewrite !NoDup_cons in Hnd; set_solver.
  - rewrite app_nil_r. apply chain_app. split; [|done].
    rewrite !NoDup_cons, !NoDup_app in Hnd. apply join_chain; set_solver.
  - rewrite <- app_assoc. apply chain_app. simpl. split_and!; [|done|].
    + rewrite !NoDup_cons, !NoDup_app in Hnd. apply join_chain; set_solver.
    + rewrite !NoDup_cons, !NoDup_app, !NoDup_cons in Hnd. apply join_chain; set_solver.
Qed.

Lemma buf_unlink_eq k a i b :
  link (k_bufs k) a i -> link (k_bufs k) i b -> b <> i ->
  buf_unlink i k = Ret tt (set_k_bufs (join a b (k_bufs k)) k).
Proof.
  intros (xa & xi & Ha & Hi & _ & Hp)%link_lookup (xi' & xb & Hi' & Hb & Hn & _)%link_lookup Hne.
  simplify_eq. unfold buf_unlink, getbuf. rewrite (bind_deref _ _ _ _ _ _ Hi).
  unfold modbuf. mstep. erewrite bind_deref.
  2: { ksimpl. rewrite list_lookup_alter_ne by done. exact Hi. }
  unfold modify. apply f_equal. kst_eq.
Qed.

Definition linkB (i b h : nat) (B : list buf) : list buf :=
  alter (set_b_next i) h (alter (set_b_prev i) b
    (alter (set_b_prev h) i (alter (set_b_next b) i B))).

Lemma linkB_relinked i b h B : relinked B (linkB i b h B).
Proof. unfold linkB. repeat (etrans; [|apply relinked_alter; done]). done. Qed.

Lemma chain_link B h l i b :
  b_next <$> B !! h = Some b -> i ∉ h :: l -> (i < length B)%nat -> NoDup (h :: l) ->
  chain B h l h -> chain (linkB i b h B) h (i :: l) h.
Proof.
  intros Hb Hi Hlt Hnd Hc.
  pose proof Hlt as [y Hy]%lookup_lt_is_Some.
  apply chain_after in Hc as (b' & Hl & Hc).
  apply link_lookup in Hl as (x & y' & Hx & Hy' & Hn & Hp).
  rewrite Hx in Hb. simpl in Hb. assert (b' = b) as -> by congruence.
  assert (i <> h) by set_solver.
  assert (b <> i) by (destruct Hc as [[]|(?&?&?)]; set_solver).
  pose proof (lookup_lt_Some _ _ _ Hx) as Hhl. pose proof (lookup_lt_Some _ _ _ Hy') as Hbl.
  assert (link (linkB i b h B) h i) as H1.
  { unfold link, linkB. autorewrite with links.
    repeat destruct (decide _) as [[]|]; subst; tauto. }
  assert (link (linkB i b h B) i b) as H2.
  { unfold link, linkB. autorewrite with links.
    repeat destruct (decide _) as [[]|]; subst; tauto. }
  split; [done|]. destruct Hc as [[-> ->]|(l' & -> & Hc)]; [done|]. split; [done|].
  rewrite !NoDup_cons in Hnd.
  eapply chain_frame, Hc; intros z Hz; unfold linkB; autorewrite with links;
    repeat destruct (decide _) as [[]|]; subst; set_solver.
Qed.

Lemma buf_link_eq k i b :
  b_next <$> k_bufs k !! NBUF = Some b -> (i < length (k_bufs k))%nat -> i <> NBUF ->
  buf_link i k = Ret tt (set_k_bufs (linkB i b NBUF (k_bufs k)) k).
Proof.
  intros (h & Hh & ->)%fmap_Some Hi Hne. unfold buf_link, getbuf.
  rewrite (bind_deref _ _ _ _ _ _ Hh). unfold modbuf. mstep. erewrite bind_deref.
  2: { ksimpl. rewrite !list_lookup_alter_ne by done. exact Hh. }
  mstep. unfold modify. apply f_equal. kst_eq.
Qed.

(** ** The two scans of bget() *)

(** The first buffer of [l] that satisfies [f]. *)
Fixpoint first_buf (f : buf -> bool) (B : list buf) (l : list nat) : option nat :=
  match l with
  | [] => None
  | j :: l =>
      match B !! j with
      | Some b => if f b then Some j else first_buf f B l
      | None => None
      end
  end.

Definition is_block (dev blockno : Z) (b : buf) : bool :=
  (b_dev b =? dev) && (b_blockno b =? blockno).
Definition unreferenced (b : buf) : bool := b_refcnt b =? 0.

Lemma first_buf_Some f B l j :
  first_buf f B l = Some j ->
  exists l1 l2 b, l = l1 ++ j :: l2 /\ B !! j = Some b /\ f b = true /\
    (forall i c, i ∈ l1 -> B !! i = Some c -> f c = false).
Proof.
  induction l as [|i l IH]; simpl; [done|]. destruct (B !! i) as [b|] eqn:Hi; [|done].
  destruct (f b) eqn:Hf.
  - intros [= ->]. exists [], l, b. split_and!; try done. set_solver.
  - intros (l1 & l2 & c & -> & Hc & Hfc & Hl)%IH. exists (i :: l1), l2, c.
    split_and!; try done. intros i' c' [->|Hi']%elem_of_cons; [congruence|eauto].
Qed.

Lemma first_buf_None f B l :
  (forall j, j ∈ l -> is_Some (B !! j)) -> first_buf f B l = None ->
  forall j b, j ∈ l -> B !! j = Some b -> f b = false.
Proof.
  induction l as [|i l IH]; simpl; intros Hl; [set_solver|].
  destruct (Hl i) as [b Hb]; [set_solver|]. rewrite Hb. destruct (f b) eqn:Hf; [done|].
  intros H j c [->|Hj]%elem_of_cons Hc; [congruence|]. eapply IH; eauto. set_solver.
Qed.

Lemma bget_cached_eq k dev bn fuel a l :
  chain (k_bufs k) a l NBUF -> NBUF ∉ l -> (length l < fuel)%nat ->
  bget_cached fuel (hd NBUF l) dev bn k = Ret (first_buf (is_block dev bn) (k_bufs k) l) k.
Proof.
  revert a fuel. induction l as [|j l IH]; intros a [|fuel] Hc Hn Hf; simpl in Hf; [lia| |lia|].
  - done.
  - cbn [hd bget_cached first_buf]. destruct Hc as [Hl Hc].
    assert (j =? NBUF = false)%nat as -> by (apply Nat.eqb_neq; set_solver).
    apply chain_after in Hc as Hc'. destruct Hc' as (c & Hlc & Hc').
    apply link_lookup in Hlc as (x & _ & Hx & _ & Hnx & _).
    unfold getbuf. rewrite (bind_deref _ _ _ _ _ _ Hx), Hx.
    unfold is_block at 1. destruct ((b_dev x =? dev) && (b_blockno x =? bn)); [done|].
    assert (b_next x = hd NBUF l) as ->
      by (destruct Hc' as [[-> ->]|(? & -> & _)]; simpl; congruence).
    apply (IH j); [done|set_solver|lia].
Qed.

Lemma bget_lru_eq k fuel l z :
  chain (k_bufs k) NBUF l z -> NBUF ∉ l -> (length l < fuel)%nat ->
  bget_lru fuel (List.last l NBUF) k = Ret (first_buf unreferenced (k_bufs k) (rev l)) k.
Proof.
  revert z fuel. induction l as [|j l IH] using rev_ind;
    intros z [|fuel] Hc Hn Hf; rewrite ?length_app in Hf; simpl in Hf; [lia| |lia|].
  - done.
  - rewrite last_last, rev_app_distr. cbn [rev bget_lru first_buf app].
    assert (j =? NBUF = false)%nat as -> by (apply Nat.eqb_neq; set_solver).
    apply chain_app in Hc as [Hc _].
    apply chain_before in Hc as Hc'. destruct Hc' as (c & Hlc & Hc').
    apply link_lookup in Hlc as (_ & x & _ & Hx & _ & Hpx).
    unfold getbuf. rewrite (bind_deref _ _ _ _ _ _ Hx), Hx.
    unfold unreferenced at 1. destruct (b_refcnt x =? 0); [done|].
    assert (b_prev x = List.last l NBUF) as ->
      by (destruct Hc' as [[-> ->]|(? & -> & _)]; rewrite ?last_last; simpl; congruence).
    apply (IH j); [done|set_solver|lia].
Qed.

(** bget() on a cached block takes a reference and the buffer's sleep lock. *)
Definition take_hit (pid : Z) (b : buf) : buf :=
  set_b_lock (Sleeplock true pid) (set_b_refcnt (u32 (b_refcnt b + 1)) b).
(** bget() on a block that is not cached recycles a buffer for it. *)
Definition take_miss (dev bn pid : Z) (b : buf) : buf :=
  set_b_lock (Sleeplock true pid)
    (set_b_refcnt 1 (set_b_valid 0 (set_b_blockno bn (set_b_dev dev b)))).

Lemma lru_length B l : lru B l -> length l = NBUF.
Proof. intros (_ & Hl & _). rewrite Hl. apply length_seq. Qed.

Lemma lru_ends B l :
  lru B l -> exists h, B !! NBUF = Some h /\ b_next h = hd NBUF l /\ b_prev h = List.last l NBUF.
Proof.
  intros (_ & _ & Hc). apply chain_after in Hc as Ha. destruct Ha as (c & Hlc & Ha).
  apply chain_before in Hc as Hb. destruct Hb as (d & Hld & Hb).
  apply link_lookup in Hlc as (x & _ & Hx & _ & Hnx & _).
  apply link_lookup in Hld as (_ & y & _ & Hy & _ & Hpy). assert (x = y) as -> by congruence.
  exists y. split_and!; [done| |].
  - destruct Ha as [[-> ->]|(? & -> & _)]; done.
  - destruct Hb as [[-> ->]|(? & -> & _)]; rewrite ?last_last; done.
Qed.

Lemma lru_lookup B l i : lru B l -> i ∈ l -> is_Some (B !! i).
Proof. intros Hl Hi. apply lookup_lt_is_Some. rewrite (lru_elem B) in Hi by done. destruct Hl. lia. Qed.

Lemma getbuf_eq k i b : k_bufs k !! i = Some b -> getbuf i k = Ret b k.
Proof. intros H. unfold getbuf, deref. by rewrite H. Qed.

(** Releasing bcache.lock and taking the sleep lock of the chosen buffer. *)
Lemma bget_finish k me p i b B :
  quiet k me p -> B !! i = Some b -> sl_locked (b_lock b) = false ->
  (release LBcache;; acquiresleep (SlBuf i);; mret i) (set_k_bufs B (acq LBcache k)) =
    Ret i (set_k_bufs (alter (set_b_lock (Sleeplock true (pr_pid p))) i B) k).
Proof.
  intros Hq Hb Hl.
  assert (release LBcache (set_k_bufs B (acq LBcache k)) = Ret tt (set_k_bufs B k)) as E.
  { rewrite (release_after _ k) by (done || eauto with xv6). apply f_equal. unfold acq. kst_eq. }
  mcall E.
  assert (quiet (set_k_bufs B k) me p) as Hq' by by destruct Hq.
  assert (acquiresleep (SlBuf i) (set_k_bufs B k) =
    Ret tt (put_sl (SlBuf i) (Sleeplock true (pr_pid p)) (set_k_bufs B k))) as E2.
  { eapply (acquiresleep_eq _ _ me p (b_lock b)); eauto with xv6. simpl. by rewrite Hb. }
  mcall E2. unfold mret, M_ret. apply f_equal. unfold put_sl. kst_eq.
Qed.

Lemma bget_hit k me p l dev bn i b :
  quiet k me p -> lru (k_bufs k) l ->
  first_buf (is_block dev bn) (k_bufs k) l = Some i ->
  k_bufs k !! i = Some b -> sl_locked (b_lock b) = false ->
  bget dev bn k = Ret i (set_k_bufs (alter (take_hit (pr_pid p)) i (k_bufs k)) k).
Proof.
  intros Hq Hl Hf Hb Hsl. unfold bget. mcall (acquire_eq _ _ (quiet_lock _ _ _ _ Hq)).
  destruct (lru_ends _ _ Hl) as (h & Hh & Hn & _).
  mcall (getbuf_eq (acq LBcache k) NBUF h Hh). rewrite Hn.
  pose proof (lru_nodup _ _ Hl) as [Hnb _]%NoDup_cons.
  mcall (bget_cached_eq (acq LBcache k) dev bn (S NBUF) NBUF l) by
    first [apply Hl | done | rewrite (lru_length _ _ Hl); lia].
  unfold acq at 1. ksimpl. rewrite Hf. unfold modbuf. mstep.
  etrans; [eapply (bget_finish k me p i)|]; [done| | |].
  - unfold acq. ksimpl. rewrite list_lookup_alter_eq, Hb. reflexivity.
  - exact Hsl.
  - apply f_equal. unfold acq. kst_eq. by rewrite list_alter_alter_eq.
Qed.

Lemma bget_miss k me p l dev bn i b :
  quiet k me p -> lru (k_bufs k) l ->
  first_buf (is_block dev bn) (k_bufs k) l = None ->
  first_buf unreferenced (k_bufs k) (rev l) = Some i ->
  k_bufs k !! i = Some b -> sl_locked (b_lock b) = false ->
  bget dev bn k = Ret i (set_k_bufs (alter (take_miss dev bn (pr_pid p)) i (k_bufs k)) k).
Proof.
  intros Hq Hl Hf Hu Hb Hsl. unfold bget. mcall (acquire_eq _ _ (quiet_lock _ _ _ _ Hq)).
  destruct (lru_ends _ _ Hl) as (h & Hh & Hn & Hp).
  mcall (getbuf_eq (acq LBcache k) NBUF h Hh). rewrite Hn.
  pose proof (lru_nodup _ _ Hl) as [Hnb _]%NoDup_cons.
  mcall (bget_cached_eq (acq LBcache k) dev bn (S NBUF) NBUF l) by
    first [apply Hl | done | rewrite (lru_length _ _ Hl); lia].
  unfold acq at 1. ksimpl. rewrite Hf.
  mcall (getbuf_eq (acq LBcache k) NBUF h Hh). rewrite Hp.
  mcall (bget_lru_eq (acq LBcache k) (S NBUF) l NBUF) by
    first [apply Hl | done | rewrite (lru_length _ _ Hl); lia].
  unfold acq at 1. ksimpl. rewrite Hu. unfold modbuf. mstep.
  etrans; [eapply (bget_finish k me p i)|]; [done| | |].
  - unfold acq. ksimpl. rewrite !list_lookup_alter_eq, Hb. reflexivity.
  - exact Hsl.
  - apply f_equal. unfold acq. kst_eq. by rewrite !list_alter_alter_eq.
Qed.

Lemma bget_full k me p l dev bn :
  quiet k me p -> lru (k_bufs k) l ->
  first_buf (is_block dev bn) (k_bufs k) l = None ->
  first_buf unreferenced (k_bufs k) (rev l) = None ->
  bget dev bn k = Panic "bget: no buffers".
Proof.
  intros Hq Hl Hf Hu. unfold bget. mcall (acquire_eq _ _ (quiet_lock _ _ _ _ Hq)).
  destruct (lru_ends _ _ Hl) as (h & Hh & Hn & Hp).
  mcall (getbuf_eq (acq LBcache k) NBUF h Hh). rewrite Hn.
  pose proof (lru_nodup _ _ Hl) as [Hnb _]%NoDup_cons.
  mcall (bget_cached_eq (acq LBcache k) dev bn (S NBUF) NBUF l) by
    first [apply Hl | done | rewrite (lru_length _ _ Hl); lia].
  unfold acq at 1. ksimpl. rewrite Hf.
  mcall (getbuf_eq (acq LBcache k) NBUF h Hh). rewrite Hp.
  mcall (bget_lru_eq (acq LBcache k) (S NBUF) l NBUF) by
    first [apply Hl | done | rewrite (lru_length _ _ Hl); lia].
  unfold acq at 1. ksimpl. by rewrite Hu.
Qed.
