(* ===== verification/Cache.v ===== *)
(** The contract of the buffer cache (kernel/bio.c, modelled in Bio).

    A client holds some blocks ([H]: block number to buffer index) and has pinned
    others ([P], the blocks of the current log transaction).  [cache] is the
    invariant of bcache under those; [view] is the contents of the file system's
    blocks as bread() shows them.  The disk driver is used through [DiskLaws]. *)

From Stdlib Require Import ZArith Lia.
From stdpp Require Import base gmap strings list numbers.
From S2P Require Import Prelude Params State Spinlock Sched Frame Bio.

Open Scope Z_scope.

(** A block: BSIZE bytes. *)
Definition block_ok (d : list Z) : Prop := length d = BSIZE /\ Forall byte_ok d.

(** The blocks of the disk.  A sector number is a 32-bit product of the block
    number, so the disk has fewer than 2^31 blocks. *)
Definition img_ok (img : gmap Z (list Z)) : Prop :=
  forall bn d, img !! bn = Some d -> 0 <= bn < 2 ^ 31 /\ block_ok d.

(** What bio.c relies on: virtio_disk_rw() transfers the block of buffer [i]
    between the buffer and the disk, and touches nothing else but the driver's
    own structures; processes sleeping in the driver may wake. *)
Class DiskLaws `{DD : DiskDriver} := {
  disk_ready : vdisk -> Prop;
  disk_read k me p i b d :
    quiet k me p -> disk_ready (k_vdisk k) -> (i < NBUF)%nat ->
    k_bufs k !! i = Some b -> b_disk b = 0 ->
    d_img (k_disk k) !! b_blockno b = Some d -> 0 <= b_blockno b < 2 ^ 31 -> length d = BSIZE ->
    exists ps v, disk_rw i false k =
        Ret tt (set_k_vdisk v (set_k_procs ps (set_k_bufs (alter (set_b_data d) i (k_bufs k)) k))) /\
      woken (k_procs k) ps /\ disk_ready v;
  disk_write k me p i b :
    quiet k me p -> disk_ready (k_vdisk k) -> (i < NBUF)%nat ->
    k_bufs k !! i = Some b -> b_disk b = 0 ->
    is_Some (d_img (k_disk k) !! b_blockno b) -> 0 <= b_blockno b < 2 ^ 31 ->
    length (b_data b) = BSIZE ->
    exists ps v, disk_rw i true k =
        Ret tt (set_k_vdisk v (set_k_procs ps (set_k_disk
          (Disk (<[b_blockno b := b_data b]> (d_img (k_disk k)))
                ((b_blockno b, b_data b) :: d_hist (k_disk k))) k))) /\
      woken (k_procs k) ps /\ disk_ready v }.

(** ** The invariant *)

(** Buffer [i] is the cached copy of block [bn]. *)
Definition cached (B : list buf) (bn : Z) (i : nat) (b : buf) : Prop :=
  (i < NBUF)%nat /\ B !! i = Some b /\ b_dev b = ROOTDEV /\ b_blockno b = bn.

Definition refs (H : gmap Z nat) (P : gset Z) (bn : Z) : Z :=
  b2z (bool_decide (is_Some (H !! bn))) + b2z (bool_decide (bn ∈ P)).

(** A buffer that has been in use: its reference count is one per holder and one
    per pin, its sleep lock is held by the holder, and once it is neither held
    nor pinned its contents are those on disk. *)
Record used_ok (pid : Z) (H : gmap Z nat) (P : gset Z) (img : gmap Z (list Z)) (i : nat) (b : buf)
  : Prop := Used {
  us_dev : b_dev b = ROOTDEV;
  us_refcnt : b_refcnt b = refs H P (b_blockno b);
  us_held : forall j, H !! b_blockno b = Some j -> j = i /\ b_lock b = Sleeplock true pid;
  us_free : H !! b_blockno b = None -> sl_locked (b_lock b) = false;
  us_valid : b_valid b = 1 \/ (b_valid b = 0 /\ refs H P (b_blockno b) = 0);
  us_img : is_Some (img !! b_blockno b);
  us_clean : b_valid b = 1 -> refs H P (b_blockno b) = 0 ->
             img !! b_blockno b = Some (b_data b) }.

Definition fresh_ok (b : buf) : Prop :=
  b_dev b = 0 /\ b_valid b = 0 /\ b_refcnt b = 0 /\ sl_locked (b_lock b) = false.

Definition buf_ok pid H P img i (b : buf) : Prop :=
  block_ok (b_data b) /\ b_disk b = 0 /\ (fresh_ok b \/ used_ok pid H P img i b).

Record cache (pid : Z) (H : gmap Z nat) (P : gset Z) (img : gmap Z (list Z)) (B : list buf)
  : Prop := Cache {
  ca_lru : exists l, lru B l;
  ca_buf : forall i b, (i < NBUF)%nat -> B !! i = Some b -> buf_ok pid H P img i b;
  ca_uniq : forall bn i j b c, cached B bn i b -> cached B bn j c -> i = j;
  ca_held : forall bn i, H !! bn = Some i -> exists b, cached B bn i b;
  ca_pin : forall bn, bn ∈ P -> exists i b, cached B bn i b }.

(** The contents of block [bn]: the valid cached copy, else the disk's. *)
Definition view (B : list buf) (img : gmap Z (list Z)) (bn : Z) : list Z :=
  match first_buf (fun b => is_block ROOTDEV bn b && truth (b_valid b)) B (seq 0 NBUF) with
  | Some i => match B !! i with Some b => b_data b | None => [] end
  | None => default [] (img !! bn)
  end.

(** ** Lemmas *)

Lemma block_ok_zero : block_ok (replicate BSIZE 0).
Proof. split; [apply length_replicate|]. apply Forall_replicate. split; lia. Qed.

Lemma refs_0 H P bn : refs H P bn = 0 <-> H !! bn = None /\ bn ∉ P.
Proof.
  unfold refs. rewrite eq_None_not_Some. repeat case_bool_decide; simpl; split; try tauto; lia.
Qed.

Lemma is_block_spec dev bn b : is_block dev bn b = true <-> b_dev b = dev /\ b_blockno b = bn.
Proof. unfold is_block. rewrite andb_true_iff, !Z.eqb_eq. done. Qed.

Section cache.
Context {pid : Z} {H : gmap Z nat} {P : gset Z} {img : gmap Z (list Z)} {B : list buf}.
Hypothesis HC : cache pid H P img B.

Lemma cache_length : length B = S NBUF.
Proof. destruct HC as [[l Hl] _ _ _ _]. apply Hl. Qed.

Lemma cache_lookup i : (i < NBUF)%nat -> exists b, B !! i = Some b.
Proof. intros Hi. apply lookup_lt_is_Some. rewrite cache_length. lia. Qed.

Lemma cached_used bn i b : cached B bn i b -> used_ok pid H P img i b.
Proof.
  intros (Hi & Hb & Hd & Hbn). destruct (ca_buf _ _ _ _ _ HC i b Hi Hb) as (_ & _ & [(H0 & _)|]).
  - rewrite Hd in H0. lia.
  - done.
Qed.

(** Where the contents of a block come from. *)
Lemma view_cases bn :
  (exists i b, cached B bn i b /\ b_valid b <> 0 /\ view B img bn = b_data b) \/
  ((forall i b, cached B bn i b -> b_valid b = 0) /\ view B img bn = default [] (img !! bn)).
Proof.
  unfold view. destruct (first_buf _ _ _) as [j|] eqn:E.
  - left. apply first_buf_Some in E as (l1 & l2 & c & Hs & Hj & Hc & _).
    apply andb_true_iff in Hc as [[? ?]%is_block_spec Hv].
    assert (j ∈ seq 0 NBUF) as Hin by (rewrite Hs; set_solver). apply elem_of_seq in Hin.
    exists j, c. rewrite Hj. split; [split_and!; done || lia|]. split; [|done].
    intros E. by rewrite E in Hv.
  - right. split; [|done]. intros i b (Hi & Hb & Hd & Hbn).
    eapply (first_buf_None _ _ _) in E; [|..|exact Hb].
    + rewrite (proj2 (is_block_spec _ _ _)) in E by done. simpl in E.
      unfold truth in E. lia.
    + intros j Hj%elem_of_seq. apply cache_lookup. lia.
    + apply elem_of_seq. lia.
Qed.

Lemma view_valid bn i b : cached B bn i b -> b_valid b = 1 -> view B img bn = b_data b.
Proof.
  intros Hc Hv. destruct (view_cases bn) as [(j & c & Hcj & _ & ->)|[Hz _]].
  - pose proof (ca_uniq _ _ _ _ _ HC _ _ _ _ _ Hc Hcj) as <-.
    destruct Hc as (_ & Hb & _), Hcj as (_ & Hb' & _). by simplify_eq.
  - by rewrite (Hz i b Hc) in Hv.
Qed.

(** A block that is neither held nor pinned reads as it is on disk. *)
Lemma view_clean bn : refs H P bn = 0 -> view B img bn = default [] (img !! bn).
Proof.
  intros Hr. destruct (view_cases bn) as [(j & c & Hc & Hv & ->)|[_ ->]]; [|done].
  pose proof (cached_used _ _ _ Hc) as []. destruct Hc as (_ & _ & _ & <-).
  destruct us_valid0 as [?|[? _]]; [|done]. by rewrite us_clean0.
Qed.

Lemma view_block_ok bn : img_ok img -> is_Some (img !! bn) -> block_ok (view B img bn).
Proof.
  intros Himg [d Hd]. destruct (view_cases bn) as [(j & c & Hc & _ & ->)|[_ ->]].
  - destruct Hc as (Hj & Hc & _). by apply (ca_buf _ _ _ _ _ HC j c).
  - rewrite Hd. by apply (Himg bn).
Qed.

(** A block in use is cached and valid. *)
Lemma refs_cached bn :
  refs H P bn <> 0 -> exists i b, cached B bn i b /\ b_valid b = 1 /\ b_refcnt b <> 0.
Proof.
  intros Hr. assert (exists i b, cached B bn i b) as (i & b & Hc).
  { destruct (H !! bn) as [i|] eqn:E.
    - apply (ca_held _ _ _ _ _ HC) in E as [b Hb]. eauto.
    - destruct (decide (bn ∈ P)) as [Hp|Hp]; [by apply (ca_pin _ _ _ _ _ HC)|].
      destruct Hr. by apply refs_0. }
  exists i, b. split; [done|]. pose proof (cached_used _ _ _ Hc) as [].
  destruct Hc as (_ & _ & _ & <-). split; [|congruence]. by destruct us_valid0 as [|[]].
Qed.

End cache.

Lemma lru_insert B l i b b' :
  lru B l -> B !! i = Some b -> b_next b' = b_next b -> b_prev b' = b_prev b ->
  lru (<[i := b']> B) l.
Proof.
  intros (Hlen & Hl & Hc) Hi Hn Hp. split_and!; [by rewrite length_insert|done|].
  eapply chain_frame, Hc; intros x _; destruct (decide (i = x)) as [<-|];
    rewrite ?list_lookup_insert_eq, ?list_lookup_insert_ne by eauto using lookup_lt_Some;
    rewrite ?Hi; simpl; congruence.
Qed.

Lemma cached_insert B i b b' x j c :
  B !! i = Some b -> cached (<[i := b']> B) x j c ->
  (j = i /\ c = b' /\ b_dev b' = ROOTDEV /\ b_blockno b' = x) \/ (j <> i /\ cached B x j c).
Proof.
  intros Hi (Hj & Hc & Hd & Hx). destruct (decide (i = j)) as [<-|].
  - rewrite list_lookup_insert_eq in Hc by eauto using lookup_lt_Some. left. by simplify_eq.
  - rewrite list_lookup_insert_ne in Hc by done. right. done.
Qed.

Lemma cached_insert_ne B i b' x j c :
  cached B x j c -> j <> i -> cached (<[i := b']> B) x j c.
Proof. intros (? & ? & ? & ?) ?. split_and!; try done. by rewrite list_lookup_insert_ne. Qed.

Lemma cached_insert_eq B i b b' :
  (i < NBUF)%nat -> B !! i = Some b -> b_dev b' = ROOTDEV ->
  cached (<[i := b']> B) (b_blockno b') i b'.
Proof.
  intros. split_and!; try done. by rewrite list_lookup_insert_eq by eauto using lookup_lt_Some.
Qed.

(** [agree x ..]: the client's holds and pins and the disk are the same at [x]. *)
Definition agree (x : Z) (H H' : gmap Z nat) (P P' : gset Z) (img img' : gmap Z (list Z)) : Prop :=
  H' !! x = H !! x /\ (x ∈ P' <-> x ∈ P) /\ img' !! x = img !! x.

Lemma agree_refl x H P img : agree x H H P P img img.
Proof. by split_and!. Qed.
#[export] Hint Resolve agree_refl : xv6.

Lemma agree_refs x H H' P P' img img' :
  agree x H H' P P' img img' -> refs H' P' x = refs H P x.
Proof. intros (E1 & E2 & _). unfold refs. rewrite E1. by rewrite (bool_decide_ext _ _ E2). Qed.

Lemma used_ok_agree pid H H' P P' img img' i b :
  agree (b_blockno b) H H' P P' img img' ->
  used_ok pid H P img i b -> used_ok pid H' P' img' i b.
Proof.
  intros Ha []. pose proof (agree_refs _ _ _ _ _ _ _ Ha) as Hr. destruct Ha as (E1 & E2 & E3).
  constructor; rewrite ?E1, ?E3, ?Hr; done.
Qed.

Lemma buf_ok_agree pid H H' P P' img img' i b :
  (b_dev b = ROOTDEV -> agree (b_blockno b) H H' P P' img img') ->
  buf_ok pid H P img i b -> buf_ok pid H' P' img' i b.
Proof.
  intros Ha (? & ? & [?|Hu]); split_and!; auto. right.
  eapply used_ok_agree; eauto. apply Ha, Hu.
Qed.

(** Changing one buffer: it becomes (or stays) the copy of block [b_blockno b'],
    and only that block's holds, pins and disk contents change. *)
Lemma cache_update pid H H' P P' img img' B i b b' :
  cache pid H P img B -> (i < NBUF)%nat -> B !! i = Some b ->
  b_next b' = b_next b -> b_prev b' = b_prev b -> b_dev b' = ROOTDEV ->
  buf_ok pid H' P' img' i b' ->
  (forall j c, cached B (b_blockno b') j c -> j = i) ->
  (forall x, x <> b_blockno b' -> agree x H H' P P' img img') ->
  (b_blockno b' = b_blockno b \/ b_refcnt b = 0) ->
  cache pid H' P' img' (<[i := b']> B).
Proof.
  intros HC Hi Hb Hn Hp Hd Hok Hsole Hag Hold.
  assert (forall x j c, x <> b_blockno b' -> refs H P x <> 0 -> cached B x j c -> j <> i) as Hne.
  { intros x j c Hx Hr Hc ->. pose proof (cached_used HC _ _ _ Hc) as [].
    destruct Hc as (_ & Hc & _ & <-). simplify_eq. destruct Hold; congruence. }
  constructor.
  - destruct HC as [[l Hl] _ _ _ _]. exists l. by eapply lru_insert.
  - intros j c Hj Hc. destruct (decide (i = j)) as [<-|Hji].
    + rewrite list_lookup_insert_eq in Hc by eauto using lookup_lt_Some. by simplify_eq.
    + rewrite list_lookup_insert_ne in Hc by done.
      eapply buf_ok_agree, (ca_buf _ _ _ _ _ HC); try done. intros Hdc. apply Hag.
      intros Hx. apply Hji. symmetry. apply (Hsole j c). by split_and!.
  - intros x j1 j2 c1 c2 [(-> & -> & _ & <-)|[? H1]]%(cached_insert B i b);
      [..|done]; (intros [(-> & -> & _ & Hx)|[? H2]]%(cached_insert B i b); [..|done]).
    + done.
    + symmetry. by eapply Hsole.
    + subst. by eapply Hsole.
    + by eapply (ca_uniq _ _ _ _ _ HC).
  - intros x j Hj. destruct (decide (x = b_blockno b')) as [->|Hx].
    + destruct Hok as (_ & _ & [[]|[]]); [congruence|].
      destruct (us_held0 j Hj) as [-> _]. eauto using cached_insert_eq.
    + pose proof (Hag x Hx) as (E & _). rewrite E in Hj.
      destruct (ca_held _ _ _ _ _ HC x j Hj) as [c Hc]. exists c.
      apply cached_insert_ne; [done|]. eapply Hne; eauto. rewrite refs_0. intros []. congruence.
  - intros x Hxp. destruct (decide (x = b_blockno b')) as [->|Hx]; [eauto using cached_insert_eq|].
    pose proof (Hag x Hx) as (_ & E & _). rewrite E in Hxp.
    destruct (ca_pin _ _ _ _ _ HC x Hxp) as (j & c & Hc). exists j, c.
    apply cached_insert_ne; [done|]. eapply Hne; eauto. rewrite refs_0. intros []. done.
Qed.

(** ... and every other block reads as before. *)
Lemma view_update pid H H' P P' img img' B i b b' x :
  cache pid H P img B -> cache pid H' P' img' (<[i := b']> B) -> B !! i = Some b ->
  x <> b_blockno b' -> agree x H H' P P' img img' ->
  (b_blockno b' = b_blockno b \/ b_refcnt b = 0) ->
  view (<[i := b']> B) img' x = view B img x.
Proof.
  intros HC HC' Hb Hx Ha Hold. pose proof (agree_refs _ _ _ _ _ _ _ Ha) as Hr.
  destruct (decide (refs H P x = 0)) as [H0|H0].
  - rewrite (view_clean HC), (view_clean HC') by congruence. by destruct Ha as (_ & _ & ->).
  - destruct (refs_cached HC x H0) as (j & c & Hc & Hv & Hrc).
    rewrite (view_valid HC x j c), (view_valid HC' x j c); try done.
    apply cached_insert_ne; [done|]. intros ->. destruct Hc as (_ & Hc & _ & <-). simplify_eq.
    by destruct Hold.
Qed.

Lemma relinked_lookup B B' i b' :
  relinked B B' -> B' !! i = Some b' -> exists b, B !! i = Some b /\ nolinks b' = nolinks b.
Proof.
  intros Hr Hb. specialize (Hr i). rewrite Hb in Hr. symmetry in Hr.
  apply fmap_Some in Hr as (b & Hb' & E). eauto.
Qed.

#[export] Instance relinked_sym : Symmetric relinked.
Proof. intros B B' H i. by rewrite H. Qed.

Lemma nolinks_ok pid H P img i b b' :
  nolinks b' = nolinks b -> buf_ok pid H P img i b -> buf_ok pid H P img i b'.
Proof. destruct b, b'. intros [=]; subst. intros (? & ? & [?|[]]); split_and!; try done;
  [by left | right; by constructor]. Qed.

Lemma cached_relinked B B' x i b :
  relinked B B' -> cached B x i b -> exists b', cached B' x i b' /\ nolinks b' = nolinks b.
Proof.
  intros Hr (Hi & Hb & Hd & Hx). symmetry in Hr.
  destruct (relinked_lookup _ _ _ _ Hr Hb) as (b' & Hb' & E). exists b'. split; [|done].
  destruct b, b'; injection E; intros; subst; by split_and!.
Qed.

Lemma cache_relinked pid H P img B B' l :
  cache pid H P img B -> relinked B B' -> lru B' l -> cache pid H P img B'.
Proof.
  intros HC Hr Hl. constructor; [by exists l| | | |].
  - intros i b' Hi Hb'. destruct (relinked_lookup _ _ _ _ Hr Hb') as (b & Hb & E).
    eapply nolinks_ok; [done|]. by apply (ca_buf _ _ _ _ _ HC).
  - intros x i j b c Hb Hc. symmetry in Hr.
    destruct (cached_relinked _ _ _ _ _ Hr Hb) as (? & ? & _).
    destruct (cached_relinked _ _ _ _ _ Hr Hc) as (? & ? & _).
    by eapply (ca_uniq _ _ _ _ _ HC).
  - intros x i [b Hb]%(ca_held _ _ _ _ _ HC).
    destruct (cached_relinked _ _ _ _ _ Hr Hb) as (? & ? & _). eauto.
  - intros x (i & b & Hb)%(ca_pin _ _ _ _ _ HC).
    destruct (cached_relinked _ _ _ _ _ Hr Hb) as (? & ? & _). eauto.
Qed.

Lemma view_relinked pid H P img B B' l x :
  cache pid H P img B -> relinked B B' -> lru B' l -> view B' img x = view B img x.
Proof.
  intros HC Hr Hl. pose proof (cache_relinked _ _ _ _ _ _ _ HC Hr Hl) as HC'.
  destruct (decide (refs H P x = 0)) as [H0|H0].
  - by rewrite (view_clean HC), (view_clean HC').
  - destruct (refs_cached HC x H0) as (j & c & Hc & Hv & _).
    destruct (cached_relinked _ _ _ _ _ Hr Hc) as (c' & Hc' & E).
    rewrite (view_valid HC x j c), (view_valid HC' x j c') by
      (done || destruct c, c'; injection E; intros; by subst).
    destruct c, c'; injection E; intros; by subst.
Qed.

(** ** The contracts of bread(), bwrite(), brelse(), bpin() and bunpin() *)

Definition bframe (k k' : kst) : Prop :=
  frame k k' /\ k_log k' = k_log k /\ k_inodes k' = k_inodes k.

#[export] Instance bframe_preorder : PreOrder bframe.
Proof.
  split; [intros k; by repeat split|]. intros x y z (? & ? & ?) (? & ? & ?). split_and!; etrans; eauto.
Qed.

Definition kview (k : kst) : Z -> list Z := view (k_bufs k) (d_img (k_disk k)).

Section contracts.
Context `{DL : DiskLaws}.

(** Process [me] runs with no spin lock, holds the blocks [H] and has pinned [P]. *)
Record bst (k : kst) (me : nat) (p : proc) (H : gmap Z nat) (P : gset Z) : Prop := Bst {
  bs_quiet : quiet k me p;
  bs_cache : cache (pr_pid p) H P (d_img (k_disk k)) (k_bufs k);
  bs_img : img_ok (d_img (k_disk k));
  bs_ready : disk_ready (k_vdisk k) }.

(** The part of bread() after bget(): the buffer is filled unless it is valid. *)
Lemma bread_tail k me p i b d :
  quiet k me p -> disk_ready (k_vdisk k) -> img_ok (d_img (k_disk k)) ->
  (i < NBUF)%nat -> k_bufs k !! i = Some b -> b_disk b = 0 ->
  (b_valid b = 1 /\ b_data b = d) \/ (b_valid b = 0 /\ d_img (k_disk k) !! b_blockno b = Some d) ->
  exists k', (b ← getbuf i;
      when (negb (truth (b_valid b))) (disk_rw i false;; modbuf i (set_b_valid 1));;
      mret i) k = Ret i k' /\
    bframe k k' /\ k_disk k' = k_disk k /\ disk_ready (k_vdisk k') /\
    k_bufs k' = <[i := set_b_valid 1 (set_b_data d b)]> (k_bufs k).
Proof.
  intros Hq Hr Himg Hi Hb Hd [[Hv <-]|[Hv Hdi]]; mcall (getbuf_eq k i b Hb); rewrite Hv; simpl.
  - exists k. split; [done|]. split_and!; try done.
    symmetry. rewrite list_insert_id; [done|]. rewrite Hb. f_equal. by destruct b; simpl in *; subst.
  - destruct (Himg _ _ Hdi) as [Hlt [Hlen _]].
    destruct (disk_read k me p i b d) as (ps & v & E & Hw & Hr'); try done.
    mstep. mcall E. unfold modbuf. mstep. eexists. split; [done|]. split_and!; ksimpl; try done.
    rewrite list_alter_alter_eq. by rewrite (alter_insert_at _ _ _ _ Hb).
Qed.

Lemma refs_insert H P bn i : H !! bn = None -> refs (<[bn := i]> H) P bn = refs H P bn + 1.
Proof.
  intros E. unfold refs. rewrite E, lookup_insert_eq.
  rewrite (bool_decide_true (is_Some (Some i))), (bool_decide_false (is_Some None)); simpl; try lia.
  - by intros [].
  - eauto.
Qed.

Lemma refs_range H P bn : 0 <= refs H P bn <= 2.
Proof. unfold refs. repeat case_bool_decide; simpl; lia. Qed.

(** The cache after [bn] has been read into buffer [i]. *)
Lemma cache_read k me p H P bn i b b' :
  bst k me p H P -> H !! bn = None -> is_Some (d_img (k_disk k) !! bn) ->
  (i < NBUF)%nat -> k_bufs k !! i = Some b ->
  (forall j c, cached (k_bufs k) bn j c -> j = i) ->
  (bn = b_blockno b \/ b_refcnt b = 0) ->
  b' = Buf 1 0 ROOTDEV bn (Sleeplock true (pr_pid p)) (refs H P bn + 1) (b_prev b) (b_next b)
           (kview k bn) ->
  block_ok (kview k bn) ->
  cache (pr_pid p) (<[bn := i]> H) P (d_img (k_disk k)) (<[i := b']> (k_bufs k)) /\
  forall x, view (<[i := b']> (k_bufs k)) (d_img (k_disk k)) x = kview k x.
Proof.
  intros [Hq HC Himg Hr] Hn Hs Hi Hb Hsole Hold -> Hok.
  set (b' := Buf _ _ _ _ _ _ _ _ _).
  assert (forall x, x <> bn -> agree x H (<[bn := i]> H) P P (d_img (k_disk k)) (d_img (k_disk k))) as Hag.
  { intros x Hx. split_and!; try done. by rewrite lookup_insert_ne. }
  assert (cache (pr_pid p) (<[bn := i]> H) P (d_img (k_disk k)) (<[i := b']> (k_bufs k))) as HC'.
  { eapply cache_update; eauto. split_and!; [done..|]. right.
    constructor; simpl; rewrite ?lookup_insert_eq, ?refs_insert by done; try done; auto.
    - intros j [= ->]. done.
    - pose proof (refs_range H P bn). intros. lia. }
  split; [done|]. intros x. destruct (decide (x = bn)) as [->|Hx].
  - rewrite (view_valid HC' bn i b'); [done| |done]. by apply (cached_insert_eq _ _ b).
  - eapply view_update; eauto.
Qed.

(** With fewer than NBUF blocks held or pinned, some buffer can be recycled. *)
Lemma cache_has_free pid H P img B l :
  cache pid H P img B -> lru B l -> (size H + size P < NBUF)%nat ->
  exists i, first_buf unreferenced B (rev l) = Some i.
Proof.
  intros HC Hl Hsz. destruct (first_buf unreferenced B (rev l)) as [i|] eqn:E; [eauto|]. exfalso.
  pose (f j := match B !! j with Some b => b_blockno b | None => 0 end).
  assert (forall j, (j < NBUF)%nat ->
    exists b, cached B (f j) j b /\ refs H P (f j) <> 0) as Hall.
  { intros j Hj. destruct (cache_lookup HC j Hj) as [b Hb]. exists b.
    assert (f j = b_blockno b) as -> by (unfold f; by rewrite Hb).
    assert (b_refcnt b <> 0) as Hrc.
    { eapply first_buf_None in E; [|..|exact Hb].
      - unfold unreferenced in E. lia.
      - intros x. rewrite elem_of_rev. eauto using lru_lookup.
      - rewrite elem_of_rev. by eapply lru_elem. }
    destruct (ca_buf _ _ _ _ _ HC j b Hj Hb) as (_ & _ & [(_ & _ & H0 & _)|[]]); [done|].
    split; [by split_and!|congruence]. }
  assert (NoDup (f <$> seq 0 NBUF)) as Hnd.
  { apply NoDup_fmap_2_strong; [|apply NoDup_seq].
    intros x y [_ Hx]%elem_of_seq [_ Hy]%elem_of_seq Hxy.
    destruct (Hall x Hx) as (b & Hb & _), (Hall y Hy) as (c & Hc & _).
    rewrite Hxy in Hb. by eapply (ca_uniq _ _ _ _ _ HC). }
  assert ((list_to_set (f <$> seq 0 NBUF) : gset Z) ⊆ dom H ∪ P) as Hsub.
  { intros x. rewrite elem_of_list_to_set, list_elem_of_fmap.
    intros (j & -> & [_ Hj]%elem_of_seq). destruct (Hall j Hj) as (b & _ & Hr).
    rewrite elem_of_union, elem_of_dom. rewrite refs_0, eq_None_not_Some in Hr.
    destruct (decide (is_Some (H !! f j))); [by left|]. right. apply dec_stable. tauto. }
  apply subseteq_size in Hsub. rewrite size_list_to_set, length_fmap, length_seq in Hsub by done.
  pose proof (size_union_alt (dom H) P). rewrite size_dom in *.
  assert (size (P ∖ dom H) <= size P)%nat by (apply subseteq_size; set_solver). lia.
Qed.

(** The buffer bget() chooses, and what it has done to it. *)
Lemma bget_ok k me p H P bn :
  bst k me p H P -> H !! bn = None -> is_Some (d_img (k_disk k) !! bn) ->
  (bn ∈ P \/ size H + size P < NBUF)%nat ->
  exists i b b1, (i < NBUF)%nat /\ k_bufs k !! i = Some b /\
    bget ROOTDEV bn k = Ret i (set_k_bufs (<[i := b1]> (k_bufs k)) k) /\
    (forall j c, cached (k_bufs k) bn j c -> j = i) /\
    (bn = b_blockno b \/ b_refcnt b = 0) /\
    b1 = Buf (b_valid b1) 0 ROOTDEV bn (Sleeplock true (pr_pid p)) (refs H P bn + 1)
             (b_prev b) (b_next b) (b_data b1) /\
    ((b_valid b1 = 1 /\ b_data b1 = kview k bn) \/ (b_valid b1 = 0 /\ d_img (k_disk k) !! bn = Some (kview k bn))).
Proof.
  intros [Hq HC Himg Hr] Hn [d0 Hd0] Hsz. destruct (ca_lru _ _ _ _ _ HC) as [l Hl].
  destruct (first_buf (is_block ROOTDEV bn) (k_bufs k) l) as [i|] eqn:Ef.
  - pose proof Ef as (l1 & l2 & b & -> & Hb & [Hd Hbn]%is_block_spec & _)%first_buf_Some.
    assert (i < NBUF)%nat as Hi by (eapply (lru_elem (k_bufs k)); [done|set_solver]).
    assert (cached (k_bufs k) bn i b) as Hc by by split_and!.
    pose proof (cached_used HC _ _ _ Hc) as [].
    destruct (ca_buf _ _ _ _ _ HC i b Hi Hb) as (_ & Hdk & _).
    exists i, b, (take_hit (pr_pid p) b). rewrite Hbn in *. split_and!; auto.
    + erewrite bget_hit by eauto. by rewrite (alter_insert_at _ _ _ _ Hb).
    + intros j c Hc'. by eapply (ca_uniq _ _ _ _ _ HC).
    + unfold take_hit. pose proof (refs_range H P bn). apply buf_ext; simpl; try done.
      rewrite us_refcnt0. unfold u32. rewrite Z.mod_small by lia. done.
    + unfold kview. destruct us_valid0 as [Hv|[Hv Hr0]].
      * left. rewrite (view_valid HC bn i b) by done. done.
      * right. rewrite (view_clean HC) by done. by rewrite Hd0.
  - assert (forall j c, ~ cached (k_bufs k) bn j c) as Hno.
    { intros j c (Hj & Hc & Hd & Hx). eapply (first_buf_None _ _ _) in Ef; [| |
        by eapply (lru_elem (k_bufs k))|exact Hc]; [|eauto using lru_lookup].
      by rewrite (proj2 (is_block_spec _ _ _)) in Ef. }
    assert (size H + size P < NBUF)%nat as Hroom.
    { destruct Hsz as [HP|]; [|done]. destruct (ca_pin _ _ _ _ _ HC bn HP) as (j & c & Hc).
      by destruct (Hno j c). }
    destruct (cache_has_free _ _ _ _ _ _ HC Hl Hroom) as [i Eu].
    pose proof Eu as (l1 & l2 & b & Hrev & Hb & Hrc%Z.eqb_eq & _)%first_buf_Some.
    assert (i < NBUF)%nat as Hi.
    { eapply (lru_elem (k_bufs k)); [done|]. apply elem_of_rev. rewrite Hrev. set_solver. }
    destruct (ca_buf _ _ _ _ _ HC i b Hi Hb) as (_ & Hdk & Hu).
    exists i, b, (take_miss ROOTDEV bn (pr_pid p) b). split_and!; auto.
    + erewrite bget_miss; [|done..|].
      * by rewrite (alter_insert_at _ _ _ _ Hb).
      * destruct Hu as [(_ & _ & _ & ?)|[]]; [done|]. apply us_free0.
        rewrite us_refcnt0, refs_0 in Hrc. tauto.
    + intros j c Hc. by destruct (Hno j c).
    + unfold take_miss. apply buf_ext; simpl; try done.
      assert (refs H P bn = 0) as ->; [|done]. destruct (decide (refs H P bn = 0)) as [|Hne]; [done|].
      destruct (refs_cached HC bn Hne) as (j & c & Hc & _). by destruct (Hno j c).
    + right. split; [done|]. unfold kview.
      destruct (view_cases (img := d_img (k_disk k)) HC bn) as [(j & c & Hc & _)|[_ ->]].
      * by destruct (Hno j c).
      * by rewrite Hd0.
Qed.

(** bread() returns a buffer it has locked for the caller, with the block's
    current contents. *)
Lemma bread_ok k me p H P bn :
  bst k me p H P -> H !! bn = None -> is_Some (d_img (k_disk k) !! bn) ->
  (bn ∈ P \/ size H + size P < NBUF)%nat ->
  exists i k', bread ROOTDEV bn k = Ret i k' /\
    bst k' me p (<[bn := i]> H) P /\ bframe k k' /\ k_disk k' = k_disk k /\
    (forall x, kview k' x = kview k x).
Proof.
  intros Hbst Hn Hs Hsz. pose proof Hbst as [Hq HC Himg Hr].
  destruct (bget_ok k me p H P bn) as (i & b & b1 & Hi & Hb & Eg & Hsole & Hold & Hb1 & Hv); auto.
  unfold bread. mcall Eg.
  set (k1 := set_k_bufs _ k).
  assert (k_bufs k1 !! i = Some b1) as Hk1.
  { simpl. by rewrite list_lookup_insert_eq by eauto using lookup_lt_Some. }
  destruct (bread_tail k1 me p i b1 (kview k bn)) as (k' & E & Hf & Hdk & Hr' & HB); auto.
  { by destruct Hq. }
  { by rewrite Hb1. }
  { by rewrite Hb1. }
  pose proof (view_block_ok HC bn Himg Hs) as Hok.
  subst k1. ksimpl in HB. rewrite list_insert_insert_eq in HB.
  destruct (cache_read k me p H P bn i b (set_b_valid 1 (set_b_data (kview k bn) b1)))
    as [HC' Hview]; auto.
  { rewrite Hb1. done. }
  exists i, k'.
  assert (bframe k k') as Hf' by (etrans; [|exact Hf]; split; [frame_tac|done]).
  ksimpl in Hdk. split_and!; try done.
  - constructor; [eapply quiet_frame; [apply Hf'|done]|by rewrite Hdk, HB|by rewrite Hdk|done].
  - intros x. unfold kview at 1. by rewrite HB, Hdk.
Qed.

(** A held block is cached, valid and locked by its holder. *)
Lemma held_buf k me p H P bn i :
  bst k me p H P -> H !! bn = Some i ->
  exists b, cached (k_bufs k) bn i b /\ b_valid b = 1 /\ b_data b = kview k bn /\
    b_lock b = Sleeplock true (pr_pid p) /\ b_disk b = 0 /\ b_refcnt b = refs H P bn.
Proof.
  intros [Hq HC Himg Hr] Hi. destruct (ca_held _ _ _ _ _ HC bn i Hi) as [b Hc].
  exists b. pose proof Hc as (Hlt & Hb & _ & <-).
  pose proof (cached_used HC _ _ _ Hc) as []. destruct (us_held0 i Hi) as [_ Hlk].
  destruct (ca_buf _ _ _ _ _ HC i b Hlt Hb) as (_ & Hdk & _).
  assert (b_valid b = 1) as Hv.
  { destruct us_valid0 as [|[_ H0]]; [done|]. apply refs_0 in H0 as [? _]. congruence. }
  split_and!; try done. symmetry. by apply (view_valid HC _ i).
Qed.

Lemma bst_frame k k' me p H P :
  bst k me p H P -> frame k k' -> k_bufs k' = k_bufs k -> k_disk k' = k_disk k ->
  k_vdisk k' = k_vdisk k -> bst k' me p H P.
Proof. intros [] Hf Hb Hd Hv. constructor; rewrite ?Hb, ?Hd, ?Hv; eauto with xv6. Qed.

Lemma holdingsleep_held k me p H P bn i :
  bst k me p H P -> H !! bn = Some i -> holdingsleep (SlBuf i) k = Ret true k.
Proof.
  intros Hb Hi. destruct (held_buf _ _ _ _ _ _ _ Hb Hi) as (b & (Hlt & Hbi & _) & _ & _ & Hlk & _).
  rewrite (holdingsleep_eq _ _ me p (b_lock b)); [|eapply q_run, Hb|eapply quiet_lock, Hb|].
  - rewrite Hlk. simpl. by rewrite Z.eqb_refl.
  - simpl. by rewrite Hbi.
Qed.

(** bwrite() puts the held block on disk and keeps everything else. *)
Lemma bwrite_ok k me p H P bn i :
  bst k me p H P -> H !! bn = Some i ->
  exists k', bwrite i k = Ret tt k' /\ bst k' me p H P /\ bframe k k' /\
    k_disk k' = Disk (<[bn := kview k bn]> (d_img (k_disk k)))
                     ((bn, kview k bn) :: d_hist (k_disk k)) /\
    (forall x, kview k' x = kview k x).
Proof.
  intros Hbst Hi. pose proof Hbst as [Hq HC Himg Hr].
  destruct (held_buf _ _ _ _ _ _ _ Hbst Hi) as (b & Hc & Hv & Hdat & Hlk & Hdk & Hrc).
  unfold bwrite. mcall (holdingsleep_held _ _ _ _ _ _ _ Hbst Hi). cbn [negb].
  pose proof (cached_used HC _ _ _ Hc) as [].
  pose proof Hc as (Hlt & Hbi & Hd & Hbn).
  pose proof (ca_buf _ _ _ _ _ HC i b Hlt Hbi) as (Hok & _ & _).
  assert (0 <= b_blockno b < 2 ^ 31) as Hrange.
  { destruct us_img0 as [d Hd0]. by apply (Himg _ _ Hd0). }
  destruct (disk_write k me p i b) as (ps & v & E & Hw & Hr'); auto.
  { apply Hok. }
  rewrite E. rewrite Hbn, Hdat in *. eexists. split; [done|].
  assert (cache (pr_pid p) H P (<[bn:=kview k bn]> (d_img (k_disk k))) (<[i := b]> (k_bufs k))) as HC'.
  { eapply (cache_update _ _ H _ P _ _ _ i b b); eauto.
    - split_and!; try done; [by rewrite Hdat|]. right. constructor; rewrite ?Hbn; auto.
      + rewrite lookup_insert_eq. eauto.
      + rewrite lookup_insert_eq. congruence.
    - intros j c Hcj. rewrite Hbn in Hcj. by eapply (ca_uniq _ _ _ _ _ HC).
    - intros x Hx. rewrite Hbn in Hx. split_and!; try done. by rewrite lookup_insert_ne. }
  assert (<[i:=b]> (k_bufs k) = k_bufs k) as EB by by apply list_insert_id.
  rewrite EB in HC'.
  assert (bframe k (set_k_vdisk v (set_k_procs ps (set_k_disk
     {| d_img := <[bn:=kview k bn]> (d_img (k_disk k)); d_hist := (bn, kview k bn) :: d_hist (k_disk k) |} k)))).
  { split; [by frame_tac|done]. }
  split_and!; try done.
  - constructor; ksimpl; try done; [eapply quiet_frame; [|done]; by frame_tac|].
    intros x d [[<- <-]|[_ Hx]]%lookup_insert_Some; [|by apply Himg].
    split; [done|]. by apply (view_block_ok HC).
  - intros x. change (view (k_bufs k) (<[bn := kview k bn]> (d_img (k_disk k))) x =
      view (k_bufs k) (d_img (k_disk k)) x). destruct (decide (x = bn)) as [->|Hx].
    + rewrite (view_valid HC' bn i b), (view_valid HC bn i b) by done. done.
    + rewrite <- EB at 1. eapply (view_update _ H H P P _ _ _ i b b); eauto;
        [by rewrite EB|by rewrite Hbn|].
      split_and!; try done. by rewrite lookup_insert_ne.
Qed.

(** Writing the data of a held buffer. *)
Definition bupdate (i : nat) (f : list Z -> list Z) : M unit :=
  modbuf i (fun b => set_b_data (f (b_data b)) b).

Lemma bupdate_ok k me p H P bn i f :
  bst k me p H P -> H !! bn = Some i -> block_ok (f (kview k bn)) ->
  exists k', bupdate i f k = Ret tt k' /\ bst k' me p H P /\ bframe k k' /\
    k_disk k' = k_disk k /\ kview k' bn = f (kview k bn) /\
    (forall x, x <> bn -> kview k' x = kview k x).
Proof.
  intros Hbst Hi Hok. pose proof Hbst as [Hq HC Himg Hr].
  destruct (held_buf _ _ _ _ _ _ _ Hbst Hi) as (b & Hc & Hv & Hdat & Hlk & Hdk & Hrc).
  pose proof (cached_used HC _ _ _ Hc) as []. pose proof Hc as (Hlt & Hbi & Hd & Hbn).
  unfold bupdate, modbuf, modify. rewrite (alter_insert_at _ _ _ b) by done.
  set (b' := set_b_data (f (b_data b)) b).
  assert (refs H P bn <> 0) as Hne by (rewrite refs_0, Hi; naive_solver).
  assert (cache (pr_pid p) H P (d_img (k_disk k)) (<[i := b']> (k_bufs k))) as HC'.
  { eapply (cache_update _ _ H _ P _ _ _ i b b'); eauto with xv6.
    - split_and!; try done; [by simpl; rewrite Hdat|]. right. constructor; simpl; rewrite ?Hbn in *; auto.
      done.
    - intros j c Hcj. simpl in Hcj. rewrite Hbn in Hcj. by eapply (ca_uniq _ _ _ _ _ HC). }
  eexists. split; [done|]. split_and!; try done.
  - constructor; ksimpl; try done. by destruct Hq.
  - unfold kview at 1. ksimpl. rewrite <- Hdat. rewrite (view_valid HC' bn i b'); try done.
    subst bn. exact (cached_insert_eq (k_bufs k) i b b' Hlt Hbi Hd).
  - intros x Hx. unfold kview. ksimpl. eapply (view_update _ H H P P); eauto with xv6.
    simpl. congruence.
Qed.

Lemma modbuf_locked k f i :
  hart_ok (k_hart k) -> k_locks k !! LBcache = None ->
  (acquire LBcache;; modbuf i f;; release LBcache) k = Ret tt (set_k_bufs (alter f i (k_bufs k)) k).
Proof.
  intros Hok Hl. mcall (acquire_eq _ _ Hl). unfold modbuf. mstep.
  rewrite (release_after _ k) by done. apply f_equal. unfold acq. kst_eq.
Qed.

(** Changing the pins of a held block along with its reference count. *)
Lemma cache_repin pid H P P' img B bn i b n :
  cache pid H P img B -> H !! bn = Some i -> cached B bn i b ->
  (forall x, x <> bn -> x ∈ P' <-> x ∈ P) -> n = refs H P' bn ->
  cache pid H P' img (<[i := set_b_refcnt n b]> B) /\
  forall x, view (<[i := set_b_refcnt n b]> B) img x = view B img x.
Proof.
  intros HC Hi Hc Hp ->. pose proof (cached_used HC _ _ _ Hc) as [].
  pose proof Hc as (Hlt & Hb & Hd & Hbn). set (b' := set_b_refcnt _ b).
  assert (forall Q, refs H Q bn <> 0) as Hne by (intros Q; rewrite refs_0, Hi; naive_solver).
  assert (b_valid b = 1) as Hv by (destruct us_valid0 as [|[_ ?]]; [done|];
    exfalso; eapply Hne; rewrite <- Hbn; eauto).
  assert (forall x, x <> bn -> agree x H H P P' img img) as Hag.
  { intros x Hx. split_and!; try done. by apply Hp. }
  assert (cache pid H P' img (<[i := b']> B)) as HC'.
  { eapply (cache_update _ _ H _ P' _ _ _ i b b'); eauto.
    - destruct (ca_buf _ _ _ _ _ HC i b Hlt Hb) as (Ho1 & Ho2 & _). split_and!; try done. right.
      constructor; simpl; rewrite ?Hbn in *; auto. intros _ Hz. by destruct (Hne P').
    - intros j c Hcj. simpl in Hcj. rewrite Hbn in Hcj. by eapply (ca_uniq _ _ _ _ _ HC).
    - intros x Hx. apply Hag. simpl in Hx. congruence. }
  split; [done|]. intros x. destruct (decide (x = bn)) as [->|Hx].
  - rewrite (view_valid HC bn i b), (view_valid HC' bn i b'); try done.
    rewrite <- Hbn. exact (cached_insert_eq B i b b' Hlt Hb Hd).
  - eapply (view_update _ H H P P'); eauto. simpl. congruence.
Qed.

Lemma refs_pin H P bn : bn ∉ P -> refs H ({[bn]} ∪ P) bn = refs H P bn + 1.
Proof.
  intros Hn. unfold refs. rewrite (bool_decide_true (bn ∈ {[bn]} ∪ P)) by set_solver.
  rewrite (bool_decide_false (bn ∈ P)) by done. simpl. lia.
Qed.

Lemma refs_unpin H P bn : bn ∈ P -> refs H (P ∖ {[bn]}) bn = refs H P bn - 1.
Proof.
  intros Hn. unfold refs. rewrite (bool_decide_false (bn ∈ P ∖ {[bn]})) by set_solver.
  rewrite (bool_decide_true (bn ∈ P)) by done. simpl. lia.
Qed.

(** bpin(), also called with log.lock held, keeps the block in the cache. *)
Lemma bpin_eq k i b n :
  hart_ok (k_hart k) -> k_locks k !! LBcache = None -> k_bufs k !! i = Some b ->
  b_refcnt b = n -> 0 <= n <= 2 ->
  bpin i k = Ret tt (set_k_bufs (<[i := set_b_refcnt (n + 1) b]> (k_bufs k)) k).
Proof.
  intros Hok Hl Hb <- Hn. unfold bpin. rewrite modbuf_locked by done.
  rewrite (alter_insert_at _ _ _ b) by done. unfold u32. by rewrite Z.mod_small by lia.
Qed.

Lemma bunpin_ok k me p H P bn i :
  bst k me p H P -> H !! bn = Some i -> bn ∈ P ->
  exists k', bunpin i k = Ret tt k' /\ bst k' me p H (P ∖ {[bn]}) /\ bframe k k' /\
    k_disk k' = k_disk k /\ (forall x, kview k' x = kview k x).
Proof.
  intros Hbst Hi HP. pose proof Hbst as [Hq HC Himg Hr].
  destruct (held_buf _ _ _ _ _ _ _ Hbst Hi) as (b & Hc & _ & _ & _ & _ & Hrc).
  pose proof Hc as (_ & Hb & _).
  unfold bunpin. rewrite modbuf_locked by eauto with xv6.
  rewrite (alter_insert_at _ _ _ b) by done.
  destruct (cache_repin _ H P (P ∖ {[bn]}) _ _ bn i b (u32 (b_refcnt b - 1)) HC) as [HC' Hview]; auto.
  { set_solver. }
  { pose proof (refs_unpin H P bn HP). pose proof (refs_range H P bn).
    pose proof (refs_range H (P ∖ {[bn]}) bn). unfold u32. rewrite Z.mod_small by lia. lia. }
  eexists. split; [done|]. split_and!; try done.
  - constructor; ksimpl; try done. by destruct Hq.
Qed.

Lemma refs_delete H P bn i : H !! bn = Some i -> refs (delete bn H) P bn = refs H P bn - 1.
Proof.
  intros E. unfold refs. rewrite E, lookup_delete_eq.
  rewrite (bool_decide_true (is_Some (Some i))), (bool_decide_false (is_Some None)); simpl; try lia.
  - by intros [].
  - eauto.
Qed.

(** The move to the front that brelse() does when the last reference is gone. *)
Lemma move_to_front k i l :
  lru (k_bufs k) l -> i ∈ l ->
  exists B l', (buf_unlink i;; buf_link i) k = Ret tt (set_k_bufs B k) /\
    relinked (k_bufs k) B /\ lru B l' /\ head l' = Some i.
Proof.
  intros Hl Hi. pose proof (lru_nodup _ _ Hl) as Hnd.
  apply list_elem_of_split in Hi as (l1 & l2 & ->). pose proof Hl as (Hlen & Hp & Hc).
  destruct (chain_unlink _ _ _ _ _ Hnd Hc) as (a & b & Ha & Hb & Hc').
  assert (i < length (k_bufs k))%nat as Hlt.
  { apply link_lookup in Ha as (_ & y & _ & Hy & _). by eapply lookup_lt_Some. }
  assert (b <> i) as Hne.
  { apply chain_app in Hc as [_ Hc]. apply chain_after in Hc as (c & Hl2 & Hc).
    assert (c = b) as <- by (destruct Hb as [E1 _], Hl2 as [E2 _]; congruence).
    rewrite NoDup_cons, NoDup_app, NoDup_cons in Hnd.
    destruct Hc as [[-> ->]|(? & -> & _)]; set_solver. }
  rewrite NoDup_cons, NoDup_app, NoDup_cons in Hnd.
  mcall (buf_unlink_eq k a i b Ha Hb Hne).
  set (B1 := join a b (k_bufs k)) in *. apply chain_after in Hc' as Hh.
  destruct Hh as (c & Hlc & _).
  rewrite (buf_link_eq _ i c); ksimpl; [|apply Hlc|unfold B1; by rewrite length_join|set_solver].
  exists (linkB i c NBUF B1), (i :: l1 ++ l2). split_and!.
  - done.
  - etrans; [apply join_relinked|apply linkB_relinked].
  - assert (length (linkB i c NBUF B1) = length (k_bufs k)) as E.
    { apply relinked_length. etrans; [apply join_relinked|apply linkB_relinked]. }
    split_and!; [congruence|rewrite <- Hp; solve_Permutation|].
    apply chain_link; [apply Hlc|set_solver|unfold B1; by rewrite length_join| |done].
    rewrite NoDup_cons, NoDup_app. set_solver.
  - done.
Qed.

(** The buffer that brelse() leaves, apart from its links. *)
Lemma cache_release pid H P img B bn i b n lk :
  cache pid H P img B -> H !! bn = Some i -> cached B bn i b ->
  (bn ∈ P \/ img !! bn = Some (view B img bn)) ->
  n = refs (delete bn H) P bn -> sl_locked lk = false ->
  cache pid (delete bn H) P img (<[i := set_b_refcnt n (set_b_lock lk b)]> B) /\
  forall x, view (<[i := set_b_refcnt n (set_b_lock lk b)]> B) img x = view B img x.
Proof.
  intros HC Hi Hc Hcl -> Hlk. pose proof (cached_used HC _ _ _ Hc) as [].
  pose proof Hc as (Hlt & Hb & Hd & Hbn). set (b' := set_b_refcnt _ _).
  assert (refs H P bn <> 0) as Hne by (rewrite refs_0, Hi; naive_solver).
  assert (b_valid b = 1) as Hv by (destruct us_valid0 as [|[_ ?]]; [done|congruence]).
  rewrite (view_valid HC bn i b) in Hcl by done.
  assert (forall x, x <> bn -> agree x H (delete bn H) P P img img) as Hag.
  { intros x Hx. split_and!; try done. by rewrite lookup_delete_ne. }
  assert (cache pid (delete bn H) P img (<[i := b']> B)) as HC'.
  { eapply (cache_update _ H _ P P _ _ _ i b b'); eauto.
    - destruct (ca_buf _ _ _ _ _ HC i b Hlt Hb) as (Ho1 & Ho2 & _). split_and!; try done. right.
      constructor; simpl; rewrite ?Hbn in *; rewrite ?lookup_delete_eq; auto; try done.
      intros _ [_ Hz]%refs_0. destruct Hcl; done.
    - intros j c Hcj. simpl in Hcj. rewrite Hbn in Hcj. by eapply (ca_uniq _ _ _ _ _ HC).
    - intros x Hx. apply Hag. simpl in Hx. congruence. }
  split; [done|]. intros x. destruct (decide (x = bn)) as [->|Hx].
  - rewrite (view_valid HC bn i b), (view_valid HC' bn i b'); try done.
    rewrite <- Hbn. exact (cached_insert_eq B i b b' Hlt Hb Hd).
  - eapply (view_update _ H (delete bn H) P P); eauto. simpl. congruence.
Qed.

(** brelse() gives up a held block that is pinned or as it is on disk. *)
Lemma brelse_ok k me p H P bn i :
  bst k me p H P -> H !! bn = Some i ->
  (bn ∈ P \/ d_img (k_disk k) !! bn = Some (kview k bn)) ->
  exists k', brelse i k = Ret tt k' /\ bst k' me p (delete bn H) P /\ bframe k k' /\
    k_disk k' = k_disk k /\ (forall x, kview k' x = kview k x).
Proof.
  intros Hbst Hi Hcl. pose proof Hbst as [Hq HC Himg Hr].
  destruct (held_buf _ _ _ _ _ _ _ Hbst Hi) as (b & Hc & _ & _ & Hlk & _ & Hrc).
  pose proof Hc as (Hlt & Hb & _).
  unfold brelse. mcall (holdingsleep_held _ _ _ _ _ _ _ Hbst Hi). cbn [negb].
  mcall (releasesleep_eq (SlBuf i) k) by eauto with xv6.
  set (k1 := wakeall _ _).
  assert (bframe k k1) as Hf1.
  { split; [|done]. frame_tac. apply (woken_wakeall _ (put_sl (SlBuf i) (Sleeplock false 0) k)). }
  assert (quiet k1 me p) as Hq1 by (eapply quiet_frame; [apply Hf1|done]).
  mcall (acquire_eq LBcache k1) by eauto with xv6.
  unfold modbuf. mstep.
  set (n := refs (delete bn H) P bn).
  set (b' := set_b_refcnt n (set_b_lock (Sleeplock false 0) b)).
  assert (n = refs H P bn - 1) as Hn by by eapply refs_delete.
  pose proof (refs_range H P bn). pose proof (refs_range (delete bn H) P bn).
  assert (alter (λ b0 : buf, set_b_refcnt (u32 (b_refcnt b0 - 1)) b0) i (k_bufs (acq LBcache k1)) =
    <[i := b']> (k_bufs k)) as EB.
  { unfold k1, acq, wakeall, put_sl. ksimpl. rewrite list_alter_alter_eq.
    rewrite (alter_insert_at _ _ _ b) by done. unfold compose, b'. ksimpl.
    rewrite Hrc, Hn. unfold u32. rewrite Z.mod_small by lia. done. }
  rewrite EB.
  destruct (cache_release _ _ _ _ _ bn i b n (Sleeplock false 0) HC Hi Hc Hcl) as [HC1 Hv1]; auto.
  fold b' in HC1, Hv1.
  mcall (getbuf_eq (set_k_bufs (<[i:=b']> (k_bufs k)) (acq LBcache k1)) i b') by
    (simpl; by rewrite list_lookup_insert_eq by eauto using lookup_lt_Some).
  assert (exists B, when (b_refcnt b' =? 0) (buf_unlink i;; buf_link i)
      (set_k_bufs (<[i:=b']> (k_bufs k)) (acq LBcache k1)) = Ret tt (set_k_bufs B (acq LBcache k1)) /\
     cache (pr_pid p) (delete bn H) P (d_img (k_disk k)) B /\
     forall x, view B (d_img (k_disk k)) x = kview k x) as (B & E & HCB & HvB).
  { unfold when. destruct (b_refcnt b' =? 0); [|by eexists].
    destruct (ca_lru _ _ _ _ _ HC1) as [l Hl].
    destruct (move_to_front (set_k_bufs (<[i:=b']> (k_bufs k)) (acq LBcache k1)) i l)
      as (B & l' & E & Hre & Hl' & _); [done|by eapply lru_elem|]. ksimpl in Hre.
    exists B. split_and!.
    - etrans; [exact E|]. apply f_equal. kst_eq.
    - by eapply cache_relinked.
    - intros x. erewrite view_relinked by eauto. apply Hv1. }
  mcall E. rewrite (release_after _ k1) by (done || eauto with xv6).
  eexists. split; [done|].
  assert (frame k (set_k_locks (k_locks k1) (set_k_hart (k_hart k1) (set_k_bufs B (acq LBcache k1)))))
    as Hf2 by (etrans; [apply Hf1|]; frame_tac).
  split_and!; try done. constructor; ksimpl; try done. by eapply quiet_frame.
Qed.

End contracts.

(** ** binit() establishes the invariant *)

(** A buffer as the zeroed memory at boot has it, apart from its links. *)
Definition boot_buf (b : buf) : Prop := block_ok (b_data b) /\ b_disk b = 0 /\ fresh_ok b.

Lemma boot_buf_alter (f : buf -> buf) i B :
  (forall b, boot_buf b -> boot_buf (f b)) -> Forall boot_buf B -> Forall boot_buf (alter f i B).
Proof. intros Hf HB. apply Forall_alter; [done|]. intros x Hx Hb. auto. Qed.

Lemma binit1_eq k i b :
  b_next <$> k_bufs k !! NBUF = Some b -> (i < NBUF)%nat -> b <> i ->
  exists L, binit1 i k = Ret tt (set_k_bufs
    (alter (set_b_lock (Sleeplock false 0)) i (linkB i b NBUF (k_bufs k))) (set_k_locks L k)) /\
    (forall l, k_locks k !! l = None -> L !! l = None).
Proof.
  intros (h & Hh & ->)%fmap_Some Hi Hne. unfold binit1, getbuf.
  rewrite (bind_deref _ _ _ _ _ _ Hh). unfold modbuf, initsleeplock, initlock. mstep.
  unfold put_sleeplock. mstep. erewrite bind_deref.
  2: { ksimpl. rewrite !list_lookup_alter_ne by lia. exact Hh. }
  mstep. exists (delete (LSleep (SlBuf i)) (k_locks k)). split.
  - unfold modify. apply f_equal. kst_eq. unfold linkB.
    rewrite (list_alter_alter_ne (set_b_lock _) (set_b_next _) _ i NBUF) by lia.
    by rewrite (list_alter_alter_ne (set_b_lock _) (set_b_prev _) _ i (b_next h)) by done.
  - intros l Hl. rewrite lookup_delete. by case_decide.
Qed.

Lemma binit_loop k n m :
  length (k_bufs k) = S NBUF -> (n + m = NBUF)%nat ->
  chain (k_bufs k) NBUF (rev (seq 0 n)) NBUF -> Forall boot_buf (k_bufs k) ->
  exists B L, forM (seq n m) binit1 k = Ret tt (set_k_bufs B (set_k_locks L k)) /\
    length B = S NBUF /\ chain B NBUF (rev (seq 0 (n + m))) NBUF /\ Forall boot_buf B /\
    (forall l, k_locks k !! l = None -> L !! l = None).
Proof.
  revert n k. induction m as [|m IH]; intros n k Hlen Hnm Hc Hb; simpl.
  - exists (k_bufs k), (k_locks k). rewrite Nat.add_0_r. split_and!; try done.
    unfold mret, M_ret. apply f_equal. kst_eq.
  - assert (forall x, x ∈ NBUF :: rev (seq 0 n) -> x <> n) as Hx.
    { intros x. rewrite elem_of_cons, elem_of_rev, elem_of_seq. lia. }
    pose proof Hc as (b & Hl & Hb')%chain_after.
    destruct (binit1_eq k n b) as (L & E & HL); [apply Hl|lia| |].
    { apply Hx. destruct Hb' as [[_ ->]|(? & -> & _)]; set_solver. }
    mcall E. set (B1 := alter _ _ _).
    destruct (IH (S n) (set_k_bufs B1 (set_k_locks L k))) as (B & L' & E' & Hlen' & Hc' & HB & HL').
    + unfold B1, linkB. ksimpl. by rewrite !length_alter.
    + lia.
    + change (seq 0 (S n)) with (seq 0 (1 + n)). rewrite (Nat.add_comm 1 n), seq_app, rev_app_distr.
      eapply (chain_frame (linkB n b NBUF (k_bufs k))).
      * intros x _. unfold B1. ksimpl. rewrite list_lookup_alter. case_decide; [|done]. subst.
        by destruct (linkB _ _ _ _ !! x).
      * intros x _. unfold B1. ksimpl. rewrite list_lookup_alter. case_decide; [|done]. subst.
        by destruct (linkB _ _ _ _ !! x).
      * apply chain_link; [apply Hl| |lia| |done].
        -- intros Hin. by apply (Hx n).
        -- apply NoDup_cons. split; [rewrite elem_of_rev, elem_of_seq; lia|].
           rewrite <- Permutation_rev. apply NoDup_seq.
    + unfold B1, linkB. repeat (apply boot_buf_alter; [by intros ? (? & ? & ? & ? & ? & ?)|]). done.
    + exists B, L'. replace (n + S m)%nat with (S n + m)%nat by lia. split_and!; auto.
Qed.

Lemma binit_ok k pid img :
  length (k_bufs k) = S NBUF -> Forall boot_buf (k_bufs k) ->
  exists B L, binit k = Ret tt (set_k_bufs B (set_k_locks L k)) /\ cache pid ∅ ∅ img B /\
    (forall l, k_locks k !! l = None -> L !! l = None) /\
    (forall bn, view B img bn = default [] (img !! bn)).
Proof.
  intros Hlen Hb. unfold binit, initlock, modbuf. mstep.
  match goal with |- context [forM _ _ ?k1] => destruct (binit_loop k1 0 NBUF)
    as (B & L & E & HlB & Hc & HB & HL) end.
  - ksimpl. by rewrite !length_alter.
  - done.
  - ksimpl. destruct (lookup_lt_is_Some_2 (k_bufs k) NBUF) as [h Hh]; [lia|].
    split; by rewrite !list_lookup_alter_eq, Hh.
  - ksimpl. repeat (apply boot_buf_alter; [by intros ? (? & ? & ? & ? & ? & ?)|]). done.
  - exists B, L. rewrite E.
    assert (cache pid ∅ ∅ img B) as HC.
    { assert (forall i b, B !! i = Some b -> boot_buf b) as Hall by (intros; by eapply Forall_lookup_1).
      assert (forall bn i b, ~ cached B bn i b) as Hno.
      { intros bn i b (_ & Hbi & Hd & _). destruct (Hall _ _ Hbi) as (_ & _ & Hz & _).
        rewrite Hd in Hz. lia. }
      constructor.
      - eexists. split_and!; [done| |exact Hc]. by rewrite <- Permutation_rev.
      - intros i b Hi Hbi. destruct (Hall _ _ Hbi) as (? & ? & ?). split_and!; auto.
      - intros bn i j b c Hcb. by destruct (Hno bn i b).
      - intros bn i. by rewrite lookup_empty.
      - set_solver. }
    split; [done|]. split; [done|]. split.
    + intros l Hl. apply HL. ksimpl. rewrite lookup_delete. by case_decide.
    + intros bn. apply (view_clean HC). apply refs_0. split; [apply lookup_empty|set_solver].
Qed.
