(* ===== verification/Virtio.v ===== *)
(** The disk driver: kernel/virtio_disk.c.

    The device reads the descriptor chains and the avail ring and fills the used
    ring; it is the parameter [device_run], described by [BlockDeviceLaws].
    virtio_disk_rw() sleeps until virtio_disk_intr() has seen the completion:
    [sleep_io] runs that schedule through the scheduler's own functions.  The
    file ends with the proof that the driver keeps the promise [DiskLaws] makes
    to the buffer cache. *)

From Stdlib Require Import ZArith Lia.
From stdpp Require Import base gmap strings list numbers.
From S2P Require Import Prelude Params State Spinlock Sched Frame Bio Cache.

Open Scope Z_scope.

(** ** Constants of kernel/virtio.h *)

Abbreviation NUM := 8.
Abbreviation VRING_DESC_F_NEXT := 1.
Abbreviation VRING_DESC_F_WRITE := 2.
Abbreviation VIRTIO_BLK_T_IN := 0.
Abbreviation VIRTIO_BLK_T_OUT := 1.

Abbreviation VIRTIO_MMIO_MAGIC_VALUE := 0.
Abbreviation VIRTIO_MMIO_VERSION := 4.
Abbreviation VIRTIO_MMIO_DEVICE_ID := 8.
Abbreviation VIRTIO_MMIO_VENDOR_ID := 12.
Abbreviation VIRTIO_MMIO_DEVICE_FEATURES := 16.
Abbreviation VIRTIO_MMIO_DRIVER_FEATURES := 32.
Abbreviation VIRTIO_MMIO_GUEST_PAGE_SIZE := 40.
Abbreviation VIRTIO_MMIO_QUEUE_SEL := 48.
Abbreviation VIRTIO_MMIO_QUEUE_NUM_MAX := 52.
Abbreviation VIRTIO_MMIO_QUEUE_NUM := 56.
Abbreviation VIRTIO_MMIO_QUEUE_PFN := 64.
Abbreviation VIRTIO_MMIO_QUEUE_NOTIFY := 80.
Abbreviation VIRTIO_MMIO_INTERRUPT_STATUS := 96.
Abbreviation VIRTIO_MMIO_INTERRUPT_ACK := 100.
Abbreviation VIRTIO_MMIO_STATUS := 112.

Abbreviation VIRTIO_CONFIG_S_ACKNOWLEDGE := 1.
Abbreviation VIRTIO_CONFIG_S_DRIVER := 2.
Abbreviation VIRTIO_CONFIG_S_DRIVER_OK := 4.
Abbreviation VIRTIO_CONFIG_S_FEATURES_OK := 8.

Abbreviation VIRTIO_BLK_F_RO := 5.
Abbreviation VIRTIO_BLK_F_SCSI := 7.
Abbreviation VIRTIO_BLK_F_CONFIG_WCE := 11.
Abbreviation VIRTIO_BLK_F_MQ := 12.
Abbreviation VIRTIO_F_ANY_LAYOUT := 27.
Abbreviation VIRTIO_RING_F_INDIRECT_DESC := 28.
Abbreviation VIRTIO_RING_F_EVENT_IDX := 29.

(** ** The device *)

(** The device: what it makes of its queue, the disk and the buffers it
    transfers, and the registers the driver reads. *)
Class BlockDevice := {
  device_run : vdisk -> disk -> list buf -> vdisk * disk * list buf;
  mmio_reg : Z -> Z }.

(** Request [h] is completed: status 0, and an entry in the used ring. *)
Definition complete (h : Z) (v : vdisk) : vdisk :=
  set_v_info (alter (fun x => (fst x, 0)) (Z.to_nat h) (v_info v))
    (set_v_used_ring (<[Z.to_nat (v_dev_idx v mod NUM) := h]> (v_used_ring v))
      (set_v_dev_idx (u16 (v_dev_idx v + 1)) v)).

(** A chain of the three descriptors of a legacy block request (section 5.2 of
    the virtio specification), for buffer [i] and sector [s]. *)
Record request (v : vdisk) (h : Z) (type : Z) (s : Z) (i : nat) : Prop := Request {
  rq_head : exists d, v_desc v !! Z.to_nat h = Some (Vdesc (DOp (Z.to_nat h)) 16 VRING_DESC_F_NEXT d) /\
    exists st, v_desc v !! Z.to_nat d = Some (Vdesc (DData i) (Z.of_nat BSIZE)
        (Z.lor (if type =? VIRTIO_BLK_T_IN then VRING_DESC_F_WRITE else 0) VRING_DESC_F_NEXT) st) /\
      v_desc v !! Z.to_nat st = Some (Vdesc (DStatus (Z.to_nat h)) 1 VRING_DESC_F_WRITE 0);
  rq_op : v_ops v !! Z.to_nat h = Some (type, s) }.

(** The device's side of the protocol, for one outstanding request. *)
Class BlockDeviceLaws `{BD : BlockDevice} := {
  device_read v dk B h i bn d :
    v_avail_idx v = u16 (v_dev_idx v + 1) ->
    v_avail_ring v !! Z.to_nat (v_dev_idx v mod NUM) = Some h ->
    request v h VIRTIO_BLK_T_IN (bn * 2) i -> d_img dk !! bn = Some d ->
    device_run v dk B = (complete h v, dk, alter (set_b_data d) i B);
  device_write v dk B h i b bn :
    v_avail_idx v = u16 (v_dev_idx v + 1) ->
    v_avail_ring v !! Z.to_nat (v_dev_idx v mod NUM) = Some h ->
    request v h VIRTIO_BLK_T_OUT (bn * 2) i -> B !! i = Some b -> is_Some (d_img dk !! bn) ->
    device_run v dk B =
      (complete h v, Disk (<[bn := b_data b]> (d_img dk)) ((bn, b_data b) :: d_hist dk), B) }.

(** ** The driver *)

Definition modv (f : vdisk -> vdisk) : M unit := modify (fun k => set_k_vdisk (f (k_vdisk k)) k).
Definition mmio_write (r x : Z) : M unit := modv (fun v => set_v_mmio ((r, x) :: v_mmio v) v).

(** find a free descriptor, mark it non-free, return its index. *)
Fixpoint alloc_desc_from (l : list nat) : M Z :=
  match l with
  | [] => mret (-1)
  | i :: l =>
      f ← deref "disk.free" (fun k => v_free (k_vdisk k)) i;
      if f : bool then
        modv (fun v => set_v_free (<[i := false]> (v_free v)) v);;
        mret (Z.of_nat i)
      else alloc_desc_from l
  end.
Definition alloc_desc : M Z := alloc_desc_from (seq 0 8).

(** mark a descriptor as free. *)
Definition free_desc (i : Z) : M unit :=
  if NUM <=? i then panic "free_desc 1" else
  f ← deref "disk.free" (fun k => v_free (k_vdisk k)) (Z.to_nat i);
  if f : bool then panic "free_desc 2" else
  modv (fun v => set_v_desc (<[Z.to_nat i := Vdesc DNull 0 0 0]> (v_desc v)) v);;
  modv (fun v => set_v_free (<[Z.to_nat i := true]> (v_free v)) v);;
  wakeup ChDiskFree.

(** free a chain of descriptors; a chain has at most NUM. *)
Fixpoint free_chain (fuel : nat) (i : Z) : M unit :=
  match fuel with
  | O => nofuel
  | S fuel =>
      d ← deref "disk.desc" (fun k => v_desc (k_vdisk k)) (Z.to_nat i);
      free_desc i;;
      if truth (Z.land (vd_flags d) VRING_DESC_F_NEXT) then free_chain fuel (vd_next d)
      else mret tt
  end.

(** allocate three descriptors: [got] are those allocated so far, and are freed
    again when the next allocation fails. *)
Fixpoint alloc3_desc_from (n : nat) (got : list Z) : M (option (list Z)) :=
  match n with
  | O => mret (Some got)
  | S n =>
      d ← alloc_desc;
      if d <? 0 then
        forM got free_desc;;
        mret None
      else alloc3_desc_from n (got ++ [d])
  end.
Definition alloc3_desc : M (option (list Z)) := alloc3_desc_from 3 [].

(** The loop of virtio_disk_intr() over the used ring; the driver lags the
    device by at most NUM entries, and the count below is that lag. *)
Fixpoint virtio_disk_intr_loop (fuel : nat) : M unit :=
  v ← gets k_vdisk;
  if v_used_idx v =? v_dev_idx v then mret tt else
  match fuel with
  | O => nofuel
  | S fuel =>
      id ← deref "disk.used" (fun k => v_used_ring (k_vdisk k)) (Z.to_nat (v_used_idx v mod NUM));
      inf ← deref "disk.info" (fun k => v_info (k_vdisk k)) (Z.to_nat id);
      if truth (snd inf) then panic "virtio_disk_intr status" else
      match fst inf with
      | None => panic "kerneltrap"
      | Some b =>
          modbuf b (set_b_disk 0);;
          wakeup (ChBuf b);;
          modv (fun v => set_v_used_idx (u16 (v_used_idx v + 1)) v);;
          virtio_disk_intr_loop fuel
      end
  end.

Section driver.
Context `{BD : BlockDevice}.

Definition virtio_disk_intr : M unit :=
  acquire LVdisk;;
  mmio_write VIRTIO_MMIO_INTERRUPT_ACK (Z.land (mmio_reg VIRTIO_MMIO_INTERRUPT_STATUS) 3);;
  v ← gets k_vdisk;
  virtio_disk_intr_loop (Z.to_nat (u16 (v_dev_idx v - v_used_idx v)));;
  release LVdisk.

Definition device_step : M unit := modify (fun k =>
  let '(v, dk, B) := device_run (k_vdisk k) (k_disk k) (k_bufs k) in
  set_k_vdisk v (set_k_disk dk (set_k_bufs B k))).

(** sleep() with the lock of the driver, and what happens until it returns: the
    scheduler takes the CPU back, the device finishes its queue and interrupts,
    and the scheduler finds the process runnable again. *)
Definition sleep_io (ch : channel) : M unit := fun k =>
  match sleep (A := unit) ch LVdisk 0 k with
  | Blocked (WSleep _ _) k1 =>
      match h_proc (k_hart k1) with
      | None => Panic "kerneltrap"
      | Some me =>
          (scheduler_back me;;
           device_step;;
           virtio_disk_intr;;
           r ← scheduler_visit me;
           if r : bool then sched_return (h_intena (k_hart k1));; sleep_return LVdisk
           else blocked WSched) k1
      end
  | o => o
  end.

(** while(b->disk == 1) sleep(b, &disk.vdisk_lock); every sleep lets the device
    complete what it was given, so the second test is the last. *)
Fixpoint wait_disk (fuel : nat) (i : nat) : M unit :=
  match fuel with
  | O => nofuel
  | S fuel =>
      b ← getbuf i;
      if b_disk b =? 1 then sleep_io (ChBuf i);; wait_disk fuel i else mret tt
  end.

Definition virtio_disk_rw (i : nat) (write : bool) : M unit :=
  b ← getbuf i;
  let sector := u32 (b_blockno b * 2) in
  acquire LVdisk;;
  a ← alloc3_desc;
  match a with
  | Some [i0; i1; i2] =>
      modv (fun v => set_v_ops (<[Z.to_nat i0 :=
        ((if write then VIRTIO_BLK_T_OUT else VIRTIO_BLK_T_IN), sector)]> (v_ops v)) v);;
      modv (fun v => set_v_desc (<[Z.to_nat i0 :=
        Vdesc (DOp (Z.to_nat i0)) 16 VRING_DESC_F_NEXT i1]> (v_desc v)) v);;
      modv (fun v => set_v_desc (<[Z.to_nat i1 :=
        Vdesc (DData i) (Z.of_nat BSIZE)
          (Z.lor (if write then 0 else VRING_DESC_F_WRITE) VRING_DESC_F_NEXT) i2]> (v_desc v)) v);;
      modv (fun v => set_v_info (alter (fun x => (fst x, 255)) (Z.to_nat i0) (v_info v)) v);;
      modv (fun v => set_v_desc (<[Z.to_nat i2 :=
        Vdesc (DStatus (Z.to_nat i0)) 1 VRING_DESC_F_WRITE 0]> (v_desc v)) v);;
      modbuf i (set_b_disk 1);;
      modv (fun v => set_v_info (alter (fun x => (Some i, snd x)) (Z.to_nat i0) (v_info v)) v);;
      modv (fun v => set_v_avail_ring (<[Z.to_nat (v_avail_idx v mod NUM) := i0]> (v_avail_ring v)) v);;
      modv (fun v => set_v_avail_idx (u16 (v_avail_idx v + 1)) v);;
      mmio_write VIRTIO_MMIO_QUEUE_NOTIFY 0;;
      wait_disk 2 i;;
      modv (fun v => set_v_info (alter (fun x => (None, snd x)) (Z.to_nat i0) (v_info v)) v);;
      free_chain 8 i0;;
      release LVdisk
  | _ => sleep ChDiskFree LVdisk 0
  end.

(** features &= ~(1 << f), on a uint64; 1 << f is an int. *)
Definition clear_feature (features f : Z) : Z :=
  Z.land features (u64 (Z.lnot (Z.shiftl 1 f))).

(** [pages] is the address of disk.pages. *)
Definition virtio_disk_init (pages : Z) : M unit :=
  initlock LVdisk;;
  if negb (mmio_reg VIRTIO_MMIO_MAGIC_VALUE =? 1953655158)
     || negb (mmio_reg VIRTIO_MMIO_VERSION =? 1)
     || negb (mmio_reg VIRTIO_MMIO_DEVICE_ID =? 2)
     || negb (mmio_reg VIRTIO_MMIO_VENDOR_ID =? 1431127377)
  then panic "could not find virtio disk" else
  mmio_write VIRTIO_MMIO_STATUS 1;;
  mmio_write VIRTIO_MMIO_STATUS (Z.lor 1 VIRTIO_CONFIG_S_DRIVER);;
  let features := foldl clear_feature (mmio_reg VIRTIO_MMIO_DEVICE_FEATURES)
    [VIRTIO_BLK_F_RO; VIRTIO_BLK_F_SCSI; VIRTIO_BLK_F_CONFIG_WCE; VIRTIO_BLK_F_MQ;
     VIRTIO_F_ANY_LAYOUT; VIRTIO_RING_F_EVENT_IDX; VIRTIO_RING_F_INDIRECT_DESC] in
  mmio_write VIRTIO_MMIO_DRIVER_FEATURES (u32 features);;
  mmio_write VIRTIO_MMIO_STATUS (Z.lor 3 VIRTIO_CONFIG_S_FEATURES_OK);;
  mmio_write VIRTIO_MMIO_STATUS (Z.lor 11 VIRTIO_CONFIG_S_DRIVER_OK);;
  mmio_write VIRTIO_MMIO_GUEST_PAGE_SIZE PGSIZE;;
  mmio_write VIRTIO_MMIO_QUEUE_SEL 0;;
  let max := mmio_reg VIRTIO_MMIO_QUEUE_NUM_MAX in
  if max =? 0 then panic "virtio disk has no queue 0" else
  if max <? NUM then panic "virtio disk max queue too short" else
  mmio_write VIRTIO_MMIO_QUEUE_NUM NUM;;
  modv (set_v_desc (replicate 8 (Vdesc DNull 0 0 0)));;
  modv (set_v_avail_idx 0);;
  modv (set_v_avail_ring (replicate 8 0));;
  modv (set_v_dev_idx 0);;
  modv (set_v_used_ring (replicate 8 0));;
  mmio_write VIRTIO_MMIO_QUEUE_PFN (u32 (Z.shiftr pages 12));;
  forM (seq 0 8) (fun i => modv (fun v => set_v_free (<[i := true]> (v_free v)) v)).

End driver.

(** ** The driver keeps its promise *)

(** Between requests: every descriptor is free and the driver, the device and
    the avail ring agree on the number of requests so far. *)
Record ready (v : vdisk) : Prop := Ready {
  rd_free : v_free v = replicate 8 true;
  rd_desc : length (v_desc v) = 8%nat;
  rd_avail : length (v_avail_ring v) = 8%nat;
  rd_used : length (v_used_ring v) = 8%nat;
  rd_info : length (v_info v) = 8%nat;
  rd_ops : length (v_ops v) = 8%nat;
  rd_dev : v_dev_idx v = v_avail_idx v;
  rd_idx : v_used_idx v = v_avail_idx v;
  rd_range : 0 <= v_avail_idx v < 2 ^ 16 }.

Lemma alloc_desc_at k l1 i l2 :
  (forall j, j ∈ l1 -> v_free (k_vdisk k) !! j = Some false) ->
  v_free (k_vdisk k) !! i = Some true ->
  alloc_desc_from (l1 ++ i :: l2) k =
    Ret (Z.of_nat i) (set_k_vdisk (set_v_free (<[i := false]> (v_free (k_vdisk k))) (k_vdisk k)) k).
Proof.
  intros Hl Hi. induction l1 as [|j l1 IH]; simpl.
  - by rewrite (bind_deref _ _ _ _ _ _ Hi).
  - rewrite (bind_deref _ _ _ _ _ _ (Hl j ltac:(set_solver))). apply IH. set_solver.
Qed.

Definition busy3 : list bool := [false; false; false; true; true; true; true; true].

Lemma alloc3_desc_eq k :
  v_free (k_vdisk k) = replicate 8 true ->
  alloc3_desc k = Ret (Some [0; 1; 2]) (set_k_vdisk (set_v_free busy3 (k_vdisk k)) k).
Proof.
  intros Hf. unfold alloc3_desc. cbn [alloc3_desc_from]. unfold alloc_desc.
  assert (forall n k, v_free (k_vdisk k) = replicate n false ++ replicate (8 - n) true -> (n < 8)%nat ->
    alloc_desc_from (seq 0 8) k = Ret (Z.of_nat n) (set_k_vdisk (set_v_free
      (replicate (S n) false ++ replicate (8 - S n) true) (k_vdisk k)) k)) as E.
  { clear. intros n k Hf Hn.
    replace (seq 0 8) with (seq 0 n ++ n :: seq (S n) (7 - n))
      by (do 8 (destruct n as [|n]; [done|]); lia).
    rewrite alloc_desc_at; rewrite Hf.
    - apply f_equal. do 8 (destruct n as [|n]; [done|]). lia.
    - intros j [_ Hj]%elem_of_seq. rewrite lookup_app_l by (rewrite length_replicate; lia).
      apply lookup_replicate_2. lia.
    - rewrite lookup_app_r by (rewrite length_replicate; lia).
      rewrite length_replicate, Nat.sub_diag. apply lookup_replicate_2. lia. }
  mcall (E 0%nat k) by (done || lia). change (Z.of_nat 0 <? 0) with false. cbv iota.
  mcall (E 1%nat) by (done || lia). change (Z.of_nat 1 <? 0) with false. cbv iota.
  mcall (E 2%nat) by (done || lia). change (Z.of_nat 2 <? 0) with false. cbv iota.
  unfold mret, M_ret. apply f_equal. kst_eq.
Qed.

(** [free_desc] on an allocated descriptor. *)
Definition freed (i : nat) (v : vdisk) : vdisk :=
  set_v_free (<[i := true]> (v_free v)) (set_v_desc (<[i := Vdesc DNull 0 0 0]> (v_desc v)) v).

Lemma free_desc_eq k i :
  hart_ok (k_hart k) -> plocks_free k -> length (k_procs k) = NPROC -> (i < 8)%nat ->
  v_free (k_vdisk k) !! i = Some false ->
  exists ps, free_desc (Z.of_nat i) k = Ret tt (set_k_procs ps (set_k_vdisk (freed i (k_vdisk k)) k)) /\
    woken (k_procs k) ps /\ length ps = NPROC.
Proof.
  intros Hok Hl Hn Hi Hf. unfold free_desc.
  assert (NUM <=? Z.of_nat i = false) as -> by lia. rewrite Nat2Z.id.
  rewrite (bind_deref _ _ _ _ _ _ Hf). unfold modv. mstep.
  destruct (wakeup_woken ChDiskFree (set_k_vdisk (freed i (k_vdisk k)) k))
    as (ps & E & Hw & Hlen & _); try done.
  exists ps. split; [|done]. etrans; [|exact E]. apply f_equal. kst_eq.
Qed.

Section proofs.
Context `{BL : BlockDeviceLaws}.

Lemma u16_next a : 0 <= a < 2 ^ 16 -> u16 (a + 1) <> a /\ u16 (u16 (a + 1) - a) = 1.
Proof. unfold u16. intros. dlia. Qed.

(** One completion in the used ring: its buffer is marked done and its process
    made runnable. *)
Lemma virtio_disk_intr_eq k i a :
  hart_ok (k_hart k) -> k_locks k = ∅ -> length (k_procs k) = NPROC ->
  0 <= a < 2 ^ 16 -> v_used_idx (k_vdisk k) = a -> v_dev_idx (k_vdisk k) = u16 (a + 1) ->
  v_used_ring (k_vdisk k) !! Z.to_nat (a mod NUM) = Some 0 ->
  v_info (k_vdisk k) !! 0%nat = Some (Some i, 0) ->
  exists ps mm, virtio_disk_intr k = Ret tt (set_k_procs ps
      (set_k_vdisk (set_v_used_idx (u16 (a + 1)) (set_v_mmio mm (k_vdisk k)))
        (set_k_bufs (alter (set_b_disk 0) i (k_bufs k)) k))) /\
    woken (k_procs k) ps /\ length ps = NPROC /\
    (forall j p, h_proc (k_hart k) <> Some j -> k_procs k !! j = Some p ->
       pr_state p = SLEEPING -> pr_chan p = Some (ChBuf i) ->
       ps !! j = Some (set_pr_state RUNNABLE p)).
Proof.
  intros Hok Hl Hn Ha Hu Hd Hr Hi. unfold virtio_disk_intr.
  mcall (acquire_eq LVdisk k) by (by rewrite Hl). unfold mmio_write, modv. mstep. ksimpl.
  change (k_vdisk (acq LVdisk k)) with (k_vdisk k). rewrite Hu, Hd.
  destruct (u16_next a Ha) as [Hne ->].
  set (mm := _ :: v_mmio (k_vdisk k)).
  set (k1 := set_k_bufs (alter (set_b_disk 0) i (k_bufs k))
    (set_k_vdisk (set_v_mmio mm (k_vdisk k)) (acq LVdisk k))).
  destruct (wakeup_woken (ChBuf i) k1) as (ps & E & Hw & Hlen & Hrun).
  { unfold k1, acq. ksimpl. auto with xv6. }
  { intros j. unfold k1, acq. ksimpl. rewrite Hl, lookup_insert_ne by done. done. }
  { done. }
  exists ps, mm.
  assert (virtio_disk_intr_loop (Z.to_nat 1) (set_k_vdisk (set_v_mmio mm (k_vdisk k)) (acq LVdisk k)) =
    Ret tt (set_k_procs ps (set_k_vdisk (set_v_used_idx (u16 (a + 1)) (set_v_mmio mm (k_vdisk k)))
        (set_k_bufs (alter (set_b_disk 0) i (k_bufs k)) (acq LVdisk k))))) as Eloop.
  { change (Z.to_nat 1) with 1%nat. cbn [virtio_disk_intr_loop]. mstep. ksimpl. rewrite Hu, Hd.
    assert (a =? u16 (a + 1) = false) as -> by lia.
    erewrite bind_deref by (ksimpl; exact Hr). erewrite bind_deref by (ksimpl; exact Hi).
    cbn [fst snd truth Z.eqb negb]. unfold modbuf, modv. mstep.
    assert (set_k_bufs (alter (set_b_disk 0) i (k_bufs (set_k_vdisk (set_v_mmio mm (k_vdisk k)) (acq LVdisk k))))
      (set_k_vdisk (set_v_mmio mm (k_vdisk k)) (acq LVdisk k)) = k1) as -> by done.
    mcall E. mstep. unfold k1. ksimpl.
    change (k_vdisk (acq LVdisk k)) with (k_vdisk k). rewrite Hu, Hd.
    assert (u16 (a + 1) =? u16 (a + 1) = true) as -> by lia. unfold mret, M_ret. apply f_equal.
    unfold k1. kst_eq. }
  mcall Eloop. split; [|done].
  rewrite (release_after _ k) by (done || by rewrite Hl). apply f_equal. unfold acq. kst_eq.
Qed.

(** The wait of virtio_disk_rw(), from the state [kw] in which the request has
    been handed to the device. *)
Lemma wait_disk_eq k0 kw me p i b a v1 dk B d :
  quiet k0 me p -> k_hart kw = push_hart (k_hart k0) ->
  k_locks kw = {[LVdisk := h_id (k_hart k0)]} -> k_procs kw = k_procs k0 ->
  k_bufs kw !! i = Some b -> b_disk b = 1 -> B !! i = Some (set_b_data d b) ->
  device_run (k_vdisk kw) (k_disk kw) (k_bufs kw) = (v1, dk, B) ->
  0 <= a < 2 ^ 16 -> v_used_idx v1 = a -> v_dev_idx v1 = u16 (a + 1) ->
  v_used_ring v1 !! Z.to_nat (a mod NUM) = Some 0 -> v_info v1 !! 0%nat = Some (Some i, 0) ->
  exists ps mm, wait_disk 2 i kw = Ret tt (set_k_procs ps
      (set_k_vdisk (set_v_used_idx (u16 (a + 1)) (set_v_mmio mm v1))
        (set_k_disk dk (set_k_bufs (alter (set_b_disk 0) i B) kw)))) /\
    woken (k_procs k0) ps /\ length ps = NPROC /\ ps !! me = Some p.
Proof.
  intros [Hrun Hst Hch Hlk Hn Hlen] Hh Hl Hps Hb Hdk HB Hdev Ha Hu Hd Hr Hi.
  cbn [wait_disk]. mcall (getbuf_eq kw i b Hb). rewrite Hdk. cbn [Z.eqb Pos.eqb].
  assert (k_procs kw !! me = Some p) as Hp by (rewrite Hps; apply Hrun).
  destruct (sleep_out (A := unit) (ChBuf i) LVdisk 0 k0 kw me p) as (ka & Es & Hha & Eb); auto.
  set (kb := set_k_hart (set_h_proc None (k_hart k0)) _) in Eb.
  set (kc := set_k_vdisk v1 (set_k_disk dk (set_k_bufs B kb))).
  assert (device_step kb = Ret tt kc) as Ed.
  { unfold device_step, modify. apply f_equal. unfold kb at 1 2 3. ksimpl. by rewrite Hdev. }
  destruct (virtio_disk_intr_eq kc i a) as (ps & mm & Ei & Hw & Hlps & Hrn); auto.
  { destruct Hrun as (Hok & _). destruct Hok as (? & ? & ?). split_and!; unfold kc, kb; ksimpl; auto. }
  { unfold kc, kb. ksimpl. rewrite length_insert. congruence. }
  set (kd := set_k_procs ps _) in Ei.
  assert (ps !! me = Some (set_pr_state RUNNABLE (set_pr_chan (Some (ChBuf i)) p))) as Hme.
  { apply (Hrn me (set_pr_state SLEEPING (set_pr_chan (Some (ChBuf i)) p))); try done.
    unfold kc, kb. ksimpl. rewrite list_lookup_insert_eq by eauto using lookup_lt_Some. done. }
  pose proof (sleep_in (ChBuf i) LVdisk k0 kd me p) as Ein.
  assert (sleep_io (ChBuf i) kw = Ret tt (set_k_hart (push_hart (k_hart k0)) (set_k_locks
    {[LVdisk := h_id (k_hart k0)]} (set_k_procs (<[me := p]> ps) kd)))) as Eio.
  { unfold sleep_io. rewrite Es, Hha. destruct Hrun as (Hok & Hcur & Hpk).
    cbn [h_proc push_hart]. rewrite Hcur. mcall Eb. mcall Ed. mcall Ei.
    change ({| h_id := _; h_proc := _; h_noff := _; h_intena := _; h_sie := _ |})
      with (push_hart (k_hart k0)). by apply Ein. }
  mcall Eio. cbn [wait_disk].
  exists (<[me := p]> ps), mm. split_and!.
  - erewrite bind_ret; [|apply getbuf_eq; unfold kd, kc; ksimpl; rewrite list_lookup_alter_eq, HB; reflexivity].
    cbn [b_disk set_b_disk Z.eqb]. unfold mret, M_ret. apply f_equal. unfold kd, kc, kb. kst_eq.
  - unfold kc, kb in Hw. ksimpl in Hw. rewrite Hps in Hw.
    apply Forall2_same_length_lookup_2; [rewrite length_insert; congruence|].
    intros j x y Hx Hy. destruct (decide (me = j)) as [<-|Hne].
    + rewrite list_lookup_insert_eq in Hy by eauto using lookup_lt_Some. left. congruence.
    + rewrite list_lookup_insert_ne in Hy by done.
      eapply (Forall2_lookup_lr _ _ _ j); [exact Hw| |exact Hy]. by rewrite list_lookup_insert_ne.
  - by rewrite length_insert.
  - rewrite list_lookup_insert_eq by eauto using lookup_lt_Some. done.
Qed.

(** The driver's structures once the request is in the avail ring. *)
Definition submitted (i : nat) (write : bool) (sector : Z) (v : vdisk) : vdisk :=
  Vdisk (<[2%nat := Vdesc (DStatus 0) 1 VRING_DESC_F_WRITE 0]>
          (<[1%nat := Vdesc (DData i) (Z.of_nat BSIZE)
               (Z.lor (if write then 0 else VRING_DESC_F_WRITE) VRING_DESC_F_NEXT) 2]>
            (<[0%nat := Vdesc (DOp 0) 16 VRING_DESC_F_NEXT 1]> (v_desc v))))
        (u16 (v_avail_idx v + 1))
        (<[Z.to_nat (v_avail_idx v mod NUM) := 0]> (v_avail_ring v))
        (v_dev_idx v) (v_used_ring v) busy3 (v_used_idx v)
        (alter (fun x => (Some i, snd x)) 0%nat (alter (fun x => (fst x, 255)) 0%nat (v_info v)))
        (<[0%nat := (if write then VIRTIO_BLK_T_OUT else VIRTIO_BLK_T_IN, sector)]> (v_ops v))
        ((VIRTIO_MMIO_QUEUE_NOTIFY, 0) :: v_mmio v).

Lemma submitted_request i (write : bool) sector v :
  ready v ->
  request (submitted i write sector v) 0 (if write then VIRTIO_BLK_T_OUT else VIRTIO_BLK_T_IN) sector i.
Proof.
  intros []. constructor.
  - exists 1. simpl. split; [by rewrite !list_lookup_insert_ne, list_lookup_insert_eq by (done || lia)|].
    exists 2. simpl. split.
    + rewrite list_lookup_insert_ne, list_lookup_insert_eq by (rewrite ?length_insert; done || lia).
      by destruct write.
    + by rewrite list_lookup_insert_eq by (rewrite !length_insert; lia).
  - simpl. by rewrite list_lookup_insert_eq by lia.
Qed.

(** Freeing the three descriptors of a request. *)
Lemma free_chain_eq k d0 d1 d2 :
  hart_ok (k_hart k) -> plocks_free k -> length (k_procs k) = NPROC ->
  v_free (k_vdisk k) = busy3 -> length (v_desc (k_vdisk k)) = 8%nat ->
  v_desc (k_vdisk k) !! 0%nat = Some d0 -> vd_flags d0 = 1 -> vd_next d0 = 1 ->
  v_desc (k_vdisk k) !! 1%nat = Some d1 -> Z.land (vd_flags d1) 1 = 1 -> vd_next d1 = 2 ->
  v_desc (k_vdisk k) !! 2%nat = Some d2 -> vd_flags d2 = 2 ->
  exists ps, free_chain 8 0 k =
      Ret tt (set_k_procs ps (set_k_vdisk (freed 2 (freed 1 (freed 0 (k_vdisk k)))) k)) /\
    woken (k_procs k) ps.
Proof.
  intros Hok Hl Hn Hf Hlen H0 Hf0 Hn0 H1 Hf1 Hn1 H2 Hf2. cbn [free_chain].
  rewrite (bind_deref _ _ _ _ _ _ H0).
  destruct (free_desc_eq k 0) as (ps0 & E0 & Hw0 & Hl0); auto; [lia|by rewrite Hf|].
  mcall E0. rewrite Hf0, Hn0. change (truth (Z.land 1 1)) with true. cbv iota.
  set (k1 := set_k_procs ps0 _).
  rewrite (bind_deref _ _ _ _ _ d1) by (unfold k1, freed; ksimpl; by rewrite list_lookup_insert_ne).
  destruct (free_desc_eq k1 1) as (ps1 & E1 & Hw1 & Hl1); auto; [lia|unfold k1, freed; ksimpl; by rewrite Hf|].
  mcall E1. rewrite Hf1, Hn1. change (truth 1) with true. cbv iota.
  set (k2 := set_k_procs ps1 _).
  rewrite (bind_deref _ _ _ _ _ d2) by (unfold k2, k1, freed; ksimpl; by rewrite !list_lookup_insert_ne).
  destruct (free_desc_eq k2 2) as (ps2 & E2 & Hw2 & Hl2); auto; [lia|unfold k2, k1, freed; ksimpl; by rewrite Hf|].
  mcall E2. rewrite Hf2. change (truth (Z.land 2 1)) with false. cbv iota.
  exists ps2. split; [unfold mret, M_ret; apply f_equal; unfold k2, k1; kst_eq|].
  etrans; [exact Hw0|]. etrans; [exact Hw1|exact Hw2].
Qed.

Lemma bind_modv {A} f (g : unit -> M A) v k :
  (modv f ≫= g) (set_k_vdisk v k) = g tt (set_k_vdisk (f v) k).
Proof. done. Qed.

Lemma bind_modbuf {A} i f (g : unit -> M A) v B k :
  (modbuf i f ≫= g) (set_k_vdisk v (set_k_bufs B k)) =
    g tt (set_k_vdisk v (set_k_bufs (alter f i B) k)).
Proof. done. Qed.

(** Updates of the driver's structures, one at a time. *)
Ltac vsteps :=
  repeat (first [rewrite bind_modv | rewrite bind_modbuf];
    cbv [set_v_desc set_v_avail_idx set_v_avail_ring set_v_info set_v_ops set_v_mmio set_v_free
         v_desc v_avail_idx v_avail_ring v_dev_idx v_used_ring v_free v_used_idx v_info v_ops v_mmio]).

Lemma virtio_disk_rw_eq k me p i b (write : bool) dk B d :
  quiet k me p -> ready (k_vdisk k) -> k_bufs k !! i = Some b ->
  0 <= b_blockno b < 2 ^ 31 ->
  (forall v, v_avail_idx v = u16 (v_dev_idx v + 1) ->
     v_avail_ring v !! Z.to_nat (v_dev_idx v mod NUM) = Some 0 ->
     request v 0 (if write then VIRTIO_BLK_T_OUT else VIRTIO_BLK_T_IN) (b_blockno b * 2) i ->
     device_run v (k_disk k) (alter (set_b_disk 1) i (k_bufs k)) = (complete 0 v, dk, B)) ->
  B !! i = Some (set_b_data d (set_b_disk 1 b)) ->
  exists ps v, virtio_disk_rw i write k = Ret tt (set_k_vdisk v (set_k_procs ps (set_k_disk dk
      (set_k_bufs (alter (set_b_disk 0) i B) k)))) /\ woken (k_procs k) ps /\ ready v.
Proof.
  intros Hq Hrd Hb Hbn Hdev HB. pose proof Hrd as []. pose proof Hq as [(Hok & _) _ _ Hlk _ Hlen].
  unfold virtio_disk_rw. mcall (getbuf_eq k i b Hb).
  assert (u32 (b_blockno b * 2) = b_blockno b * 2) as -> by (unfold u32; apply Z.mod_small; lia).
  mcall (acquire_eq LVdisk k) by (by rewrite Hlk). mcall (alloc3_desc_eq (acq LVdisk k)) by done.
  set (v := k_vdisk k) in *. set (v1 := submitted i write (b_blockno b * 2) v).
  set (kw := set_k_vdisk v1 (set_k_bufs (alter (set_b_disk 1) i (k_bufs k)) (acq LVdisk k))).
  replace (set_k_vdisk (set_v_free busy3 (k_vdisk (acq LVdisk k))) (acq LVdisk k)) with
    (set_k_vdisk (set_v_free busy3 v) (set_k_bufs (k_bufs k) (acq LVdisk k))) by kst_eq.
  unfold mmio_write. cbv [Z.to_nat]. vsteps.
  match goal with |- context [(wait_disk 2 i ≫= _) ?k1] => change k1 with kw end.
  pose proof (submitted_request i write (b_blockno b * 2) v Hrd) as Hreq. fold v1 in Hreq.
  assert (Z.to_nat (v_avail_idx v mod NUM) < 8)%nat as Hm by dlia.
  destruct (wait_disk_eq k kw me p i (set_b_disk 1 b) (v_avail_idx v) (complete 0 v1) dk B d)
    as (ps & mm & E & Hw & Hl & Hme); auto.
  { unfold kw, acq. ksimpl. by rewrite Hlk. }
  { unfold kw. ksimpl. by rewrite list_lookup_alter_eq, Hb. }
  { apply Hdev; [| |exact Hreq]; unfold v1, submitted; ksimpl; rewrite ?rd_dev0; [done|].
    by rewrite list_lookup_insert_eq by lia. }
  { unfold complete, v1, submitted. ksimpl. by rewrite rd_dev0. }
  { unfold complete, v1, submitted. ksimpl. rewrite rd_dev0, list_lookup_insert_eq by lia. done. }
  { unfold complete, v1, submitted. ksimpl. rewrite !list_lookup_alter_eq.
    destruct (v_info v) as [|x ?]; [done|]. done. }
  mcall E. unfold modv at 1. mstep. ksimpl. clear E.
  match goal with |- context [(free_chain 8 0 ≫= _) ?k1] => set (kx := k1) end.
  destruct (free_chain_eq kx (Vdesc (DOp 0) 16 1 1) (Vdesc (DData i) (Z.of_nat BSIZE)
      (Z.lor (if write then 0 else 2) 1) 2) (Vdesc (DStatus 0) 1 2 0)) as (ps' & E & Hw'); try done.
  { unfold kx, kw, acq. ksimpl. auto with xv6. }
  { intros j. unfold kx, kw, acq. ksimpl. rewrite Hlk, lookup_insert_ne by done. done. }
  { unfold kx, complete, v1, submitted. ksimpl. by rewrite !length_insert. }
  { unfold kx, complete, v1, submitted. ksimpl.
    by rewrite !list_lookup_insert_ne, list_lookup_insert_eq by (done || lia). }
  { unfold kx, complete, v1, submitted. ksimpl.
    by rewrite list_lookup_insert_ne, list_lookup_insert_eq by (rewrite ?length_insert; done || lia). }
  { by destruct write. }
  { unfold kx, complete, v1, submitted. ksimpl.
    by rewrite list_lookup_insert_eq by (rewrite ?length_insert; done || lia). }
  mcall E. rewrite (release_after _ k) by (done || by rewrite Hlk).
  eexists ps', _. split_and!; [apply f_equal; unfold kx, kw, acq; kst_eq|by etrans|].
  unfold kx. constructor; unfold freed, complete, v1, submitted; ksimpl;
    rewrite ?length_insert, ?length_alter; try done.
  - by rewrite rd_dev0.
  - unfold u16. dlia.
Qed.

(** The driver over the device, as the buffer cache sees it. *)
#[export] Instance virtio_driver : DiskDriver := {| disk_rw := virtio_disk_rw |}.

#[export] Instance virtio_laws : DiskLaws.
Proof.
  refine {| disk_ready := ready |}.
  - intros k me p i b d Hq Hrd Hi Hb Hdk Hd Hbn Hlen.
    destruct (virtio_disk_rw_eq k me p i b false (k_disk k)
      (alter (set_b_data d) i (alter (set_b_disk 1) i (k_bufs k))) d) as (ps & v & E & Hw & Hv); auto.
    + intros v H1 H2 H3. by eapply device_read.
    + by rewrite !list_lookup_alter_eq, Hb.
    + exists ps, v. split; [|done]. etrans; [exact E|]. apply f_equal. kst_eq.
      rewrite !list_alter_alter_eq. apply (alter_ext_at _ _ _ _ b Hb).
      unfold compose. by destruct b; simpl in *; subst.
  - intros k me p i b Hq Hrd Hi Hb Hdk Hd Hbn Hlen.
    destruct (virtio_disk_rw_eq k me p i b true
      (Disk (<[b_blockno b := b_data b]> (d_img (k_disk k))) ((b_blockno b, b_data b) :: d_hist (k_disk k)))
      (alter (set_b_disk 1) i (k_bufs k)) (b_data b)) as (ps & v & E & Hw & Hv); auto.
    + intros v H1 H2 H3. eapply (device_write v _ _ 0 i (set_b_disk 1 b)); eauto.
      by rewrite list_lookup_alter_eq, Hb.
    + rewrite list_lookup_alter_eq, Hb. simpl. f_equal.
    + exists ps, v. split; [|done]. etrans; [exact E|]. apply f_equal. kst_eq.
      rewrite list_alter_alter_eq. apply (alter_id_at _ _ _ b Hb).
      unfold compose. by destruct b; simpl in *; subst.
Defined.
End proofs.
