(* ===== verification/Demo.v ===== *)
(** A concrete machine: a block device that follows the virtio protocol, a disk
    of a dozen zeroed blocks, and the kernel state in which one process runs
    after binit().  The hypotheses of the file-system theorems hold of it. *)

From Stdlib Require Import ZArith Lia.
From stdpp Require Import base gmap strings list numbers.
From S2P Require Import Prelude Params State Spinlock Sched Frame Bio Cache Virtio.

Open Scope Z_scope.

(** ** A device *)

(** Run the request at the head of the avail ring, if there is one. *)
Definition sim_run (v : vdisk) (dk : disk) (B : list buf) : vdisk * disk * list buf :=
  match v_avail_ring v !! Z.to_nat (v_dev_idx v mod NUM) with
  | Some h =>
      match v_desc v !! Z.to_nat h, v_ops v !! Z.to_nat h with
      | Some d0, Some (type, sector) =>
          match v_desc v !! Z.to_nat (vd_next d0) with
          | Some (Vdesc (DData i) _ _ _) =>
              if type =? VIRTIO_BLK_T_IN then
                match d_img dk !! (sector / 2) with
                | Some d => (complete h v, dk, alter (set_b_data d) i B)
                | None => (v, dk, B)
                end
              else
                match B !! i with
                | Some b => (complete h v, Disk (<[sector / 2 := b_data b]> (d_img dk))
                                             ((sector / 2, b_data b) :: d_hist dk), B)
                | None => (v, dk, B)
                end
          | _ => (v, dk, B)
          end
      | _, _ => (v, dk, B)
      end
  | None => (v, dk, B)
  end.

(** Identification registers as QEMU gives them. *)
Definition sim_reg (r : Z) : Z :=
  if r =? VIRTIO_MMIO_MAGIC_VALUE then 1953655158 else
  if r =? VIRTIO_MMIO_VERSION then 1 else
  if r =? VIRTIO_MMIO_DEVICE_ID then 2 else
  if r =? VIRTIO_MMIO_VENDOR_ID then 1431127377 else
  if r =? VIRTIO_MMIO_QUEUE_NUM_MAX then 1024 else 0.

#[export] Instance sim_device : BlockDevice := {| device_run := sim_run; mmio_reg := sim_reg |}.

#[export] Instance sim_laws : BlockDeviceLaws.
Proof.
  constructor.
  - intros v dk B h i bn d _ Hr [(nx & Hd0 & st & Hd1 & _) Hop] Hd. simpl. unfold sim_run.
    rewrite Hr, Hd0, Hop. simpl. rewrite Hd1. simpl. by rewrite Z.div_mul, Hd by lia.
  - intros v dk B h i b bn _ Hr [(nx & Hd0 & st & Hd1 & _) Hop] Hb Hd. simpl. unfold sim_run.
    rewrite Hr, Hd0, Hop. simpl. rewrite Hd1. simpl. by rewrite Hb, Z.div_mul by lia.
Defined.

(** ** A disk and a process *)

Definition zero_block : list Z := replicate BSIZE 0.
Definition demo_img : gmap Z (list Z) :=
  list_to_map ((fun bn => (bn, zero_block)) <$> seqz 0 12).

(** The log is blocks 2 to 7. *)
Definition demo_log : log := Log 2 6 0 0 ROOTDEV 0 (replicate 30 0).
Definition demo_vdisk : vdisk := set_v_free (replicate 8 true) vdisk0.
Definition demo_state : kst :=
  set_k_log demo_log (set_k_vdisk demo_vdisk (set_k_disk (Disk demo_img []) run_state)).
Definition demo_proc : proc := set_pr_pid 1 (set_pr_state RUNNING proc0).

Lemma zero_block_ok : block_ok zero_block.
Proof. apply block_ok_zero. Qed.

Lemma demo_img_lookup bn : 0 <= bn < 12 -> demo_img !! bn = Some zero_block.
Proof.
  intros Hbn. unfold demo_img. apply elem_of_list_to_map_1.
  - unfold seqz. rewrite <- !list_fmap_compose. apply NoDup_fmap_2; [|apply NoDup_seq].
    intros x y. simpl. lia.
  - apply list_elem_of_fmap. exists bn. split; [done|]. unfold seqz. apply list_elem_of_fmap.
    exists (Z.to_nat bn). rewrite elem_of_seq. lia.
Qed.

Lemma demo_img_ok : img_ok demo_img.
Proof.
  intros bn d H. apply elem_of_list_to_map_2 in H.
  apply list_elem_of_fmap in H as (x & [= -> ->] & Hx). unfold seqz in Hx.
  apply list_elem_of_fmap in Hx as (j & -> & Hj%elem_of_seq). split; [lia|apply zero_block_ok].
Qed.

Lemma demo_ready : ready demo_vdisk.
Proof. constructor; done. Qed.

(** After binit() the buffer cache is empty and nothing is held or pinned. *)
Lemma demo_bst :
  exists k, binit demo_state = Ret tt k /\ bst k 0 demo_proc ∅ ∅ /\
    k_log k = demo_log /\ d_img (k_disk k) = demo_img /\ k_sb k = k_sb run_state /\
    forall bn, kview k bn = default [] (demo_img !! bn).
Proof.
  destruct (binit_ok demo_state (pr_pid demo_proc) demo_img) as (B & L & E & HC & HL & HV).
  - done.
  - apply Forall_replicate. split_and!; try done. apply zero_block_ok.
  - exists (set_k_bufs B (set_k_locks L demo_state)). split; [exact E|]. split.
    + constructor; [|exact HC|apply demo_img_ok|apply demo_ready].
      constructor; [split; [|split; reflexivity]|reflexivity..| | |]; ksimpl.
      * unfold hart_ok. split_and!; simpl; intros; lia || done.
      * apply map_eq. intros l. rewrite lookup_empty. apply HL. reflexivity.
      * reflexivity.
      * reflexivity.
    + split_and!; try reflexivity. exact HV.
Qed.

(** A block of sevens, to be written to block 10. *)
Definition sevens : list Z := replicate BSIZE 7.
Lemma sevens_ok : block_ok sevens.
Proof. split; [apply length_replicate|]. apply Forall_replicate. split; lia. Qed.

Lemma get32_zero_block : get32 0 zero_block = 0.
Proof. reflexivity. Qed.

#[global] Opaque demo_img zero_block sevens demo_state.
