(* ===== verification/DiskSpec.v ===== *)
(** The disk driver over a virtio block device, and the buffer cache over the
    driver (kernel/virtio_disk.c, kernel/bio.c). *)

From Stdlib Require Import ZArith Lia.
From stdpp Require Import base gmap strings list numbers.
From S2P Require Import Prelude Params State Spinlock Sched Frame Bio Cache Virtio Demo.

Open Scope Z_scope.

(** C22: over a device that follows the virtio protocol, virtio_disk_rw()
    transfers exactly the block of the buffer, to the disk or from it.  It
    returns with every descriptor free again, the three ring indices equal and
    the interrupt handled; of the rest of the kernel, it may only have made
    processes sleeping in the driver runnable. *)
Theorem virtio_disk_rw_correct `{BL : BlockDeviceLaws} (k : kst) (me : nat) (p : proc) (i : nat) (b : buf) (write : bool)
    (d : list Z) (Q : quiet k me p) (Hv : ready (k_vdisk k)) (Hi : (i < NBUF)%nat) (Hb : k_bufs k !! i = Some b)
    (Hd : b_disk b = 0) (Hbn : 0 <= b_blockno b < 2 ^ 31) (Himg : d_img (k_disk k) !! b_blockno b = Some d)
    (Hl : length d = BSIZE) (Hlb : length (b_data b) = BSIZE) :
  exists ps v, virtio_disk_rw i write k = Ret tt (set_k_vdisk v (set_k_procs ps
      (if write then
         set_k_disk (Disk (<[b_blockno b := b_data b]> (d_img (k_disk k))) ((b_blockno b, b_data b) :: d_hist (k_disk k))) k
       else set_k_bufs (alter (set_b_data d) i (k_bufs k)) k))) /\
    woken (k_procs k) ps /\ ready v.
Proof.
  destruct write.
  - apply (disk_write (DiskLaws := virtio_laws) k me p i b); eauto.
  - apply (disk_read (DiskLaws := virtio_laws) k me p i b d); eauto.
Qed.

(** Through the buffer cache, a block read, modified, written and released
    is read back with the new contents, in a buffer locked by the reader and
    whether or not it is still cached.  The disk has seen exactly one write, of
    that block, and no other block changes. *)
Theorem bwrite_bread_roundtrip `{DL : DiskLaws} (k : kst) (me : nat) (p : proc) (H : gmap Z nat) (P : gset Z) (bn : Z)
    (d : list Z) (HB : bst k me p H P) (Hn : H !! bn = None) (Hs : is_Some (d_img (k_disk k) !! bn))
    (Hsz : (size H + size P < NBUF)%nat) (Hd : block_ok d) :
  exists j b k', (i ← bread ROOTDEV bn; bupdate i (fun _ => d);; bwrite i;; brelse i;; bread ROOTDEV bn) k = Ret j k' /\
    bst k' me p (<[bn := j]> H) P /\ k_bufs k' !! j = Some b /\ b_data b = d /\ b_lock b = Sleeplock true (pr_pid p) /\
    k_disk k' = Disk (<[bn := d]> (d_img (k_disk k))) ((bn, d) :: d_hist (k_disk k)) /\
    forall x, x <> bn -> kview k' x = kview k x.
Proof.
  destruct (bread_ok k me p H P bn HB Hn Hs (or_intror Hsz)) as (i & k1 & E1 & B1 & _ & D1 & V1). mcall E1.
  assert (<[bn := i]> H !! bn = Some i) as Hi by apply lookup_insert_eq.
  destruct (bupdate_ok k1 me p _ P bn i (fun _ => d) B1 Hi Hd) as (k2 & E2 & B2 & _ & D2 & V2 & W2). mcall E2.
  destruct (bwrite_ok k2 me p _ P bn i B2 Hi) as (k3 & E3 & B3 & _ & D3 & V3). mcall E3. rewrite V2 in D3.
  destruct (brelse_ok k3 me p _ P bn i B3 Hi) as (k4 & E4 & B4 & _ & D4 & V4).
  { right. rewrite D3. simpl. by rewrite lookup_insert_eq, V3, V2. }
  mcall E4. rewrite delete_insert_id in B4 by done.
  destruct (bread_ok k4 me p H P bn B4 Hn) as (j & k5 & E5 & B5 & _ & D5 & V5); [|by right|].
  { rewrite D4, D3. simpl. rewrite lookup_insert_eq. eauto. }
  destruct (held_buf k5 me p _ P bn j B5 (lookup_insert_eq _ _ _)) as (b & (_ & Hb & _) & _ & Hdat & Hlk & _).
  exists j, b, k5. split; [exact E5|]. split_and!; auto.
  - by rewrite Hdat, V5, V4, V3.
  - by rewrite D5, D4, D3, D2, D1.
  - intros x Hx. by rewrite V5, V4, V3, W2, V1.
Qed.

(** A write of sevens to block 10 of the demo disk. *)
Lemma virtio_disk_rw_correct_witness :
  exists k ps v, virtio_disk_rw 3 true k = Ret tt (set_k_vdisk v (set_k_procs ps
     (set_k_disk (Disk (<[10 := sevens]> demo_img) [(10, sevens)]) k))) /\ ready v.
Proof.
  set (b := set_b_data sevens (set_b_blockno 10 buf0)).
  set (k := set_k_bufs (replicate NBUF b) (set_k_vdisk demo_vdisk (set_k_disk (Disk demo_img []) run_state))).
  assert (quiet k 0 demo_proc) as Q.
  { constructor; [split; [|split; reflexivity]|reflexivity..].
    unfold hart_ok. split_and!; simpl; intros; lia || done. }
  destruct (virtio_disk_rw_correct k 0 demo_proc 3 b true zero_block Q demo_ready) as (ps & v & E & _ & Hv).
  - lia.
  - reflexivity.
  - reflexivity.
  - simpl. lia.
  - apply demo_img_lookup. simpl. lia.
  - apply zero_block_ok.
  - apply sevens_ok.
  - exists k, ps, v. split; [exact E|exact Hv].
Defined.

Lemma bwrite_bread_roundtrip_witness :
  exists k j b k', binit demo_state = Ret tt k /\
    (i ← bread ROOTDEV 10; bupdate i (fun _ => sevens);; bwrite i;; brelse i;; bread ROOTDEV 10) k = Ret j k' /\
    k_bufs k' !! j = Some b /\ b_data b = sevens.
Proof.
  destruct demo_bst as (k & E & B & _ & D & _).
  destruct (bwrite_bread_roundtrip k 0 demo_proc ∅ ∅ 10 sevens B) as (j & b & k' & Eb & _ & Hb & Hd & _).
  - reflexivity.
  - rewrite D, demo_img_lookup by lia. eauto.
  - vm_compute. lia.
  - exact sevens_ok.
  - exists k, j, b, k'. split; [exact E|]. split; [exact Eb|]. split; [exact Hb|exact Hd].
Defined.
