(* ===== verification/Log.v ===== *)
(** The log: kernel/log.c.

    The functions of log.c over the buffer cache, and the invariants that link
    the in-memory log header, the pinned buffers and the log on disk. *)

From Stdlib Require Import ZArith Lia.
From stdpp Require Import base gmap strings list numbers.
From S2P Require Import Prelude Params State Spinlock Sched Frame Bio Cache.

Open Scope Z_scope.

(** ** The header block: struct logheader *)

(** for(i = ...) hb->block[i] = bl[i]; *)
Fixpoint put_blocks (i : nat) (bl : list Z) (d : list Z) : list Z :=
  match bl with
  | [] => d
  | b :: bl => put_blocks (S i) bl (put32 (4 + 4 * i) b d)
  end.
(** [hb->n = n] and the loop that follows it in write_head(). *)
Definition put_head (n : Z) (bl : list Z) (d : list Z) : list Z :=
  put_blocks 0 (take (Z.to_nat n) bl) (put32 0 n d).

(** lh->n and lh->block[i]. *)
Definition head_n (d : list Z) : Z := i32 (get32 0 d).
Definition head_block (d : list Z) (i : nat) : Z := i32 (get32 (4 + 4 * i) d).

(** ** log.c *)

Definition modlog (f : log -> log) : M unit := modify (fun k => set_k_log (f (k_log k)) k).

Section log.
Context `{DD : DiskDriver}.

(** One iteration of install_trans(); block numbers are passed to bread() as
    unsigned. *)
Definition install_trans1 (recovering : Z) (tail : nat) : M unit :=
  lg ← gets k_log;
  lbuf ← bread (l_dev lg) (u32 (l_start lg + Z.of_nat tail + 1));
  blk ← deref "log.lh.block" (fun k => l_block (k_log k)) tail;
  dbuf ← bread (l_dev lg) (u32 blk);
  lb ← getbuf lbuf;
  bupdate dbuf (fun _ => b_data lb);;
  bwrite dbuf;;
  when (recovering =? 0) (bunpin dbuf);;
  brelse lbuf;;
  brelse dbuf.

(** Copy committed blocks from log to their home location. *)
Definition install_trans (recovering : Z) : M unit :=
  lg ← gets k_log;
  forM (seq 0 (Z.to_nat (l_n lg))) (install_trans1 recovering).

(** Read the log header from disk into the in-memory log header; a count beyond
    the array would overrun it. *)
Definition read_head : M unit :=
  lg ← gets k_log;
  i ← bread (l_dev lg) (u32 (l_start lg));
  b ← getbuf i;
  let n := head_n (b_data b) in
  modlog (set_l_n n);;
  if LOGSIZE <? n then panic "log.lh.block" else
  modlog (fun lg => set_l_block ((head_block (b_data b) <$> seq 0 (Z.to_nat n))
                                  ++ drop (Z.to_nat n) (l_block lg)) lg);;
  brelse i.

(** Write in-memory log header to disk: the commit point. *)
Definition write_head : M unit :=
  lg ← gets k_log;
  i ← bread (l_dev lg) (u32 (l_start lg));
  bupdate i (put_head (l_n lg) (l_block lg));;
  bwrite i;;
  brelse i.

Definition recover_from_log : M unit :=
  read_head;;
  install_trans 1;;
  modlog (set_l_n 0);;
  write_head.

(** sizeof(struct logheader) is 124, less than BSIZE. *)
Definition initlog (dev : Z) (sb : superblock) : M unit :=
  if 1024 <=? 4 + 4 * LOGSIZE then panic "initlog: too big logheader" else
  initlock LLog;;
  modlog (set_l_start (i32 (sb_logstart sb)));;
  modlog (set_l_size (i32 (sb_nlog sb)));;
  modlog (set_l_dev dev);;
  recover_from_log.

(** called at the start of each FS system call; a caller that has to wait tests
    again after the sleep. *)
Definition begin_op : M unit :=
  acquire LLog;;
  lg ← gets k_log;
  if truth (l_committing lg) then sleep ChLog LLog 0
  else if LOGSIZE <? l_n lg + (l_outstanding lg + 1) * MAXOPBLOCKS then sleep ChLog LLog 0
  else
    modlog (fun lg => set_l_outstanding (l_outstanding lg + 1) lg);;
    release LLog.

(** Copy modified blocks from cache to log. *)
Definition write_log1 (tail : nat) : M unit :=
  lg ← gets k_log;
  to ← bread (l_dev lg) (u32 (l_start lg + Z.of_nat tail + 1));
  blk ← deref "log.lh.block" (fun k => l_block (k_log k)) tail;
  from ← bread (l_dev lg) (u32 blk);
  fb ← getbuf from;
  bupdate to (fun _ => b_data fb);;
  bwrite to;;
  brelse from;;
  brelse to.

Definition write_log : M unit :=
  lg ← gets k_log;
  forM (seq 0 (Z.to_nat (l_n lg))) write_log1.

Definition commit : M unit :=
  lg ← gets k_log;
  when (0 <? l_n lg) (
    write_log;;
    write_head;;
    install_trans 0;;
    modlog (set_l_n 0);;
    write_head).

(** called at the end of each FS system call: commits if this was the last
    outstanding operation. *)
Definition end_op : M unit :=
  acquire LLog;;
  modlog (fun lg => set_l_outstanding (l_outstanding lg - 1) lg);;
  lg ← gets k_log;
  if truth (l_committing lg) then panic "log.committing" else
  (if l_outstanding lg =? 0 then modlog (set_l_committing 1) else wakeup ChLog);;
  release LLog;;
  when (l_outstanding lg =? 0) (
    commit;;
    acquire LLog;;
    modlog (set_l_committing 0);;
    wakeup ChLog;;
    release LLog).

End log.

(** The position of block [bn] in the log, or [n] when it is not there. *)
Fixpoint log_position (bl : list Z) (bn : Z) : nat :=
  match bl with
  | [] => 0
  | b :: bl => if u32 b =? bn then 0 else S (log_position bl bn)
  end.

(** Caller has modified b->data and is done with the buffer. *)
Definition log_write (b : nat) : M unit :=
  acquire LLog;;
  lg ← gets k_log;
  if (LOGSIZE <=? l_n lg) || (l_size lg - 1 <=? l_n lg) then panic "too big a transaction" else
  if l_outstanding lg <? 1 then panic "log_write outside of trans" else
  x ← getbuf b;
  let i := log_position (take (Z.to_nat (l_n lg)) (l_block lg)) (b_blockno x) in
  modlog (fun lg => set_l_block (<[i := i32 (b_blockno x)]> (l_block lg)) lg);;
  when (Z.of_nat i =? l_n lg) (
    bpin b;;
    modlog (fun lg => set_l_n (l_n lg + 1) lg));;
  release LLog.

(** ** The header block *)

Lemma length_put_blocks i bl d :
  (4 + 4 * (i + length bl) <= length d)%nat -> length (put_blocks i bl d) = length d.
Proof.
  revert i d. induction bl as [|b bl IH]; intros i d Hl; simpl in *; [done|].
  rewrite IH; rewrite length_put32; lia.
Qed.

Lemma put_blocks_bytes i bl d : Forall byte_ok d -> Forall byte_ok (put_blocks i bl d).
Proof.
  revert i d. induction bl as [|b bl IH]; intros i d Hd; simpl; [done|]. apply IH.
  unfold put32. apply putb_bytes_ok; [apply bytes_of_ok|done].
Qed.

Lemma get32_put_blocks_low i bl d off :
  (4 + 4 * (i + length bl) <= length d)%nat -> (off + 4 <= 4 + 4 * i)%nat ->
  get32 off (put_blocks i bl d) = get32 off d.
Proof.
  revert i d. induction bl as [|b bl IH]; intros i d Hl Ho; simpl in *; [done|].
  rewrite IH by (rewrite ?length_put32; lia). apply get32_put32_disj; lia.
Qed.

Lemma get32_put_blocks i bl d j b :
  (4 + 4 * (i + length bl) <= length d)%nat -> bl !! j = Some b ->
  get32 (4 + 4 * (i + j)) (put_blocks i bl d) = u32 b.
Proof.
  revert i d j. induction bl as [|c bl IH]; intros i d j Hl Hj; cbn [length put_blocks] in *.
  { by rewrite lookup_nil in Hj. }
  destruct j as [|j]; simpl in Hj.
  - simplify_eq. rewrite Nat.add_0_r, get32_put_blocks_low by (rewrite ?length_put32; lia).
    apply get32_put32_same. lia.
  - replace (i + S j)%nat with (S i + j)%nat by lia. apply IH; [rewrite length_put32; lia|done].
Qed.

Section head.
Context (n : Z) (bl d : list Z).
Hypothesis Hd : block_ok d.
Hypothesis Hn : 0 <= n <= LOGSIZE.

Lemma put_head_len : (4 + 4 * (0 + length (take (Z.to_nat n) bl)) <= length (put32 0 n d))%nat.
Proof. destruct Hd as [Hl _]. rewrite length_put32, length_take, Hl by lia. lia. Qed.

Lemma put_head_ok : block_ok (put_head n bl d).
Proof.
  pose proof put_head_len. destruct Hd as [Hl Hb]. unfold put_head. split.
  - rewrite length_put_blocks, length_put32 by lia. done.
  - apply put_blocks_bytes. unfold put32. apply putb_bytes_ok; [apply bytes_of_ok|done].
Qed.

Lemma head_n_put_head : head_n (put_head n bl d) = n.
Proof.
  pose proof put_head_len. destruct Hd as [Hl Hb]. unfold head_n, put_head.
  rewrite get32_put_blocks_low by lia. rewrite get32_put32_same by lia.
  rewrite u32_small, i32_small by lia. done.
Qed.

Lemma head_block_put_head j b :
  take (Z.to_nat n) bl !! j = Some b -> 0 <= b < 2 ^ 31 -> head_block (put_head n bl d) j = b.
Proof.
  intros Hj Hb. pose proof put_head_len. unfold head_block, put_head.
  change (4 + 4 * j)%nat with (4 + 4 * (0 + j))%nat.
  rewrite (get32_put_blocks 0 _ _ j b) by done. rewrite u32_small, i32_small by lia. done.
Qed.
End head.

(** ** One block of the log *)

Section steps.
Context `{DL : DiskLaws}.

Lemma install_trans1_ok k me p P recovering tail blk lb :
  bst k me p ∅ P -> l_dev (k_log k) = ROOTDEV -> l_block (k_log k) !! tail = Some blk ->
  0 <= blk < 2 ^ 31 -> lb = l_start (k_log k) + Z.of_nat tail + 1 -> 0 <= lb < 2 ^ 31 ->
  lb ∉ P -> lb <> blk ->
  is_Some (d_img (k_disk k) !! lb) -> is_Some (d_img (k_disk k) !! blk) ->
  (recovering = 0 /\ blk ∈ P) \/ (recovering <> 0 /\ P = ∅) -> (size P < NBUF)%nat ->
  exists k', install_trans1 recovering tail k = Ret tt k' /\
    bst k' me p ∅ (P ∖ {[blk]}) /\ bframe k k' /\
    k_disk k' = Disk (<[blk := kview k lb]> (d_img (k_disk k)))
                     ((blk, kview k lb) :: d_hist (k_disk k)) /\
    kview k' blk = kview k lb /\ (forall x, x <> blk -> kview k' x = kview k x).
Proof.
  intros B0 Hdev Hblk Hb Hlb Hlr HlP Hne Hil Hib Hrec Hsz.
  unfold install_trans1. mstep. rewrite <- Hlb, Hdev, u32_small by lia.
  destruct (bread_ok k me p ∅ P lb) as (il & k1 & E1 & B1 & F1 & D1 & V1); auto.
  mcall E1. pose proof F1 as (_ & Hlog1 & _).
  erewrite bind_deref by (rewrite Hlog1; exact Hblk). rewrite u32_small by lia.
  destruct (bread_ok k1 me p (<[lb:=il]> ∅) P blk) as (ib & k2 & E2 & B2 & F2 & D2 & V2); auto.
  { by rewrite lookup_insert_ne, lookup_empty. }
  { by rewrite D1. }
  { destruct Hrec as [[_ ?]|[_ ->]]; [by left|right].
    rewrite insert_empty, map_size_singleton, size_empty. lia. }
  mcall E2. set (H2 := <[blk:=ib]> (<[lb:=il]> ∅)) in *.
  assert (H2 !! lb = Some il) as Hl2 by (unfold H2; by rewrite lookup_insert_ne, lookup_insert_eq by done).
  assert (H2 !! blk = Some ib) as Hb2 by apply lookup_insert_eq.
  destruct (held_buf _ _ _ _ _ _ _ B2 Hl2) as (xl & (_ & Hxl & _) & _ & Hdl & _).
  mcall (getbuf_eq k2 il xl Hxl). rewrite V2, V1 in Hdl.
  assert (block_ok (kview k lb)) as Hok by (eapply view_block_ok; [apply B0|apply B0|done]).
  destruct (bupdate_ok k2 me p H2 P blk ib (fun _ => b_data xl)) as (k3 & E3 & B3 & F3 & D3 & V3 & W3);
    auto; [by rewrite Hdl|]. mcall E3. rewrite Hdl in V3.
  destruct (bwrite_ok k3 me p H2 P blk ib) as (k4 & E4 & B4 & F4 & D4 & V4); auto. mcall E4.
  assert (exists k5, when (recovering =? 0) (bunpin ib) k4 = Ret tt k5 /\
    bst k5 me p H2 (P ∖ {[blk]}) /\ bframe k4 k5 /\ k_disk k5 = k_disk k4 /\
    (forall x, kview k5 x = kview k4 x)) as (k5 & E5 & B5 & F5 & D5 & V5).
  { destruct Hrec as [[-> HP]|[Hr ->]]; simpl.
    - by apply bunpin_ok.
    - assert (recovering =? 0 = false) as -> by lia. exists k4.
      assert (∅ ∖ {[blk]} = (∅ : gset Z)) as -> by set_solver. done. }
  mcall E5. rewrite V3, D3, D2, D1 in D4.
  destruct (brelse_ok k5 me p H2 (P ∖ {[blk]}) lb il) as (k6 & E6 & B6 & F6 & D6 & V6); auto.
  { right. rewrite D5, D4, V5, V4, W3, V2, V1 by done. simpl. rewrite lookup_insert_ne by done.
    destruct Hil as [dl Hdl']. unfold kview.
    rewrite (view_clean (bs_cache _ _ _ _ _ B0)), Hdl'; [done|]. apply refs_0. split; [done|set_solver]. }
  mcall E6.
  destruct (brelse_ok k6 me p (delete lb H2) (P ∖ {[blk]}) blk ib) as (k7 & E7 & B7 & F7 & D7 & V7); auto.
  { by rewrite lookup_delete_ne. }
  { right. rewrite D6, D5, D4, V6, V5, V4, V3. simpl. apply lookup_insert_eq. }
  exists k7. split; [exact E7|]. split_and!.
  - assert (delete blk (delete lb H2) = ∅) as Hem; [|by rewrite Hem in B7].
    unfold H2. rewrite delete_insert_ne, !delete_insert_eq, ?delete_empty by done. done.
  - etrans; [exact F1|]. etrans; [exact F2|]. etrans; [exact F3|]. etrans; [exact F4|].
    etrans; [exact F5|]. etrans; [exact F6|exact F7].
  - by rewrite D7, D6, D5, D4.
  - by rewrite V7, V6, V5, V4, V3.
  - intros x Hx. by rewrite V7, V6, V5, V4, W3, V2, V1.
Qed.

Lemma write_log1_ok k me p P tail blk lb :
  bst k me p ∅ P -> l_dev (k_log k) = ROOTDEV -> l_block (k_log k) !! tail = Some blk ->
  0 <= blk < 2 ^ 31 -> lb = l_start (k_log k) + Z.of_nat tail + 1 -> 0 <= lb < 2 ^ 31 ->
  lb <> blk -> blk ∈ P ->
  is_Some (d_img (k_disk k) !! lb) -> is_Some (d_img (k_disk k) !! blk) -> (size P < NBUF)%nat ->
  exists k', write_log1 tail k = Ret tt k' /\ bst k' me p ∅ P /\ bframe k k' /\
    k_disk k' = Disk (<[lb := kview k blk]> (d_img (k_disk k)))
                     ((lb, kview k blk) :: d_hist (k_disk k)) /\
    (forall x, x <> lb -> kview k' x = kview k x).
Proof.
  intros B0 Hdev Hblk Hb Hlb Hlr Hne HbP Hil Hib Hsz.
  unfold write_log1. mstep. rewrite <- Hlb, Hdev, u32_small by lia.
  destruct (bread_ok k me p ∅ P lb) as (il & k1 & E1 & B1 & F1 & D1 & V1); auto.
  mcall E1. pose proof F1 as (_ & Hlog1 & _).
  erewrite bind_deref by (rewrite Hlog1; exact Hblk). rewrite u32_small by lia.
  destruct (bread_ok k1 me p (<[lb:=il]> ∅) P blk) as (ib & k2 & E2 & B2 & F2 & D2 & V2); auto.
  { by rewrite lookup_insert_ne, lookup_empty. }
  { by rewrite D1. }
  mcall E2. set (H2 := <[blk:=ib]> (<[lb:=il]> ∅)) in *.
  assert (H2 !! lb = Some il) as Hl2 by (unfold H2; by rewrite lookup_insert_ne, lookup_insert_eq by done).
  assert (H2 !! blk = Some ib) as Hb2 by apply lookup_insert_eq.
  destruct (held_buf _ _ _ _ _ _ _ B2 Hb2) as (xb & (_ & Hxb & _) & _ & Hdb & _).
  mcall (getbuf_eq k2 ib xb Hxb). rewrite V2, V1 in Hdb.
  assert (block_ok (kview k blk)) as Hok by (eapply view_block_ok; [apply B0|apply B0|done]).
  destruct (bupdate_ok k2 me p H2 P lb il (fun _ => b_data xb)) as (k3 & E3 & B3 & F3 & D3 & V3 & W3);
    auto; [by rewrite Hdb|]. mcall E3. rewrite Hdb in V3.
  destruct (bwrite_ok k3 me p H2 P lb il) as (k4 & E4 & B4 & F4 & D4 & V4); auto. mcall E4.
  rewrite V3, D3, D2, D1 in D4.
  destruct (brelse_ok k4 me p H2 P blk ib) as (k5 & E5 & B5 & F5 & D5 & V5); auto. mcall E5.
  destruct (brelse_ok k5 me p (delete blk H2) P lb il) as (k6 & E6 & B6 & F6 & D6 & V6); auto.
  { by rewrite lookup_delete_ne. }
  { right. rewrite D5, D4, V5, V4, V3. simpl. apply lookup_insert_eq. }
  exists k6. split; [exact E6|]. split_and!.
  - assert (delete lb (delete blk H2) = ∅) as Hem; [|by rewrite Hem in B6].
    unfold H2. rewrite delete_insert_eq, delete_insert_ne, delete_insert_eq, !delete_empty by done. done.
  - etrans; [exact F1|]. etrans; [exact F2|]. etrans; [exact F3|]. etrans; [exact F4|].
    etrans; [exact F5|exact F6].
  - by rewrite D6, D5, D4.
  - intros x Hx. by rewrite V6, V5, V4, W3, V2, V1.
Qed.

(** A block that is not pinned, when nothing is held, reads as on disk. *)
Lemma kview_disk k me p P x d :
  bst k me p ∅ P -> x ∉ P -> d_img (k_disk k) !! x = Some d -> kview k x = d.
Proof.
  intros HB Hx Hd. unfold kview. rewrite (view_clean (bs_cache _ _ _ _ _ HB)), Hd; [done|].
  by apply refs_0.
Qed.

Lemma write_head_ok k me p P ls h n :
  bst k me p ∅ P -> l_dev (k_log k) = ROOTDEV -> ls = l_start (k_log k) -> 0 <= ls < 2 ^ 31 ->
  ls ∉ P -> d_img (k_disk k) !! ls = Some h -> (size P < NBUF)%nat ->
  n = l_n (k_log k) -> 0 <= n <= LOGSIZE ->
  exists k', write_head k = Ret tt k' /\ bst k' me p ∅ P /\ bframe k k' /\
    k_disk k' = Disk (<[ls := put_head n (l_block (k_log k)) h]> (d_img (k_disk k)))
                     ((ls, put_head n (l_block (k_log k)) h) :: d_hist (k_disk k)) /\
    (forall x, x <> ls -> kview k' x = kview k x).
Proof.
  intros B0 Hdev Hls Hlr HlP Hh Hsz Hn Hnr. unfold write_head. mstep.
  rewrite <- Hls, Hdev, u32_small, <- Hn by lia.
  destruct (bread_ok k me p ∅ P ls) as (i & k1 & E1 & B1 & F1 & D1 & V1); eauto. mcall E1.
  assert (kview k ls = h) as Hv by by eapply kview_disk.
  destruct (bupdate_ok k1 me p (<[ls:=i]> ∅) P ls i (put_head n (l_block (k_log k))))
    as (k2 & E2 & B2 & F2 & D2 & V2 & W2); auto; [apply lookup_insert_eq| |].
  { rewrite V1, Hv. apply put_head_ok; [|done]. by apply (bs_img _ _ _ _ _ B0 ls). }
  mcall E2. rewrite V1, Hv in V2.
  destruct (bwrite_ok k2 me p (<[ls:=i]> ∅) P ls i) as (k3 & E3 & B3 & F3 & D3 & V3); auto;
    [apply lookup_insert_eq|]. mcall E3. rewrite V2, D2, D1 in D3.
  destruct (brelse_ok k3 me p (<[ls:=i]> ∅) P ls i) as (k4 & E4 & B4 & F4 & D4 & V4); auto;
    [apply lookup_insert_eq| |].
  { right. rewrite D3, V3, V2. simpl. apply lookup_insert_eq. }
  exists k4. split; [exact E4|]. split_and!.
  - by rewrite delete_insert_eq, delete_empty in B4.
  - etrans; [exact F1|]. etrans; [exact F2|]. etrans; [exact F3|exact F4].
  - by rewrite D4, D3.
  - intros x Hx. by rewrite V4, V3, W2, V1.
Qed.

Lemma read_head_ok k me p P ls h n :
  bst k me p ∅ P -> l_dev (k_log k) = ROOTDEV -> ls = l_start (k_log k) -> 0 <= ls < 2 ^ 31 ->
  ls ∉ P -> d_img (k_disk k) !! ls = Some h -> (size P < NBUF)%nat ->
  n = head_n h -> 0 <= n <= LOGSIZE ->
  exists k', read_head k = Ret tt k' /\ bst k' me p ∅ P /\ frame k k' /\
    k_inodes k' = k_inodes k /\ k_disk k' = k_disk k /\
    k_log k' = set_l_block ((head_block h <$> seq 0 (Z.to_nat n)) ++ drop (Z.to_nat n) (l_block (k_log k)))
                 (set_l_n n (k_log k)) /\
    (forall x, kview k' x = kview k x).
Proof.
  intros B0 Hdev Hls Hlr HlP Hh Hsz Hn Hnr. unfold read_head. mstep.
  rewrite <- Hls, Hdev, u32_small by lia.
  destruct (bread_ok k me p ∅ P ls) as (i & k1 & E1 & B1 & F1 & D1 & V1); eauto. mcall E1.
  assert (kview k ls = h) as Hv by by eapply kview_disk.
  destruct (held_buf k1 me p (<[ls:=i]> ∅) P ls i) as (b & (_ & Hb & _) & _ & Hdat & _); auto;
    [apply lookup_insert_eq|].
  mcall (getbuf_eq k1 i b Hb). rewrite Hdat, V1, Hv, <- Hn. unfold modlog. mstep.
  assert (LOGSIZE <? n = false) as -> by lia. mstep.
  match goal with |- context [brelse i ?kk] => set (k2 := kk) end.
  assert (frame k1 k2) as F2 by frame_tac.
  destruct (brelse_ok k2 me p (<[ls:=i]> ∅) P ls i) as (k3 & E3 & B3 & F3 & D3 & V3).
  - by eapply bst_frame.
  - apply lookup_insert_eq.
  - right. change (kview k2 ls) with (kview k1 ls). rewrite V1, Hv. unfold k2. ksimpl. by rewrite D1.
  - exists k3. split; [exact E3|]. destruct F1 as (F1 & L1 & I1), F3 as (F3 & L3 & I3). split_and!.
    + by rewrite delete_insert_eq, delete_empty in B3.
    + etrans; [exact F1|]. etrans; [exact F2|exact F3].
    + rewrite I3. unfold k2. ksimpl. done.
    + rewrite D3. unfold k2. ksimpl. done.
    + rewrite L3. unfold k2. ksimpl. by rewrite L1.
    + intros x. rewrite V3. change (kview k2 x) with (kview k1 x). by rewrite V1.
Qed.
End steps.
