(* ===== verification/Fs.v ===== *)
(** The file system: kernel/fs.c.

    Blocks, inodes, directories and path names over the log and the buffer
    cache.  Pointers into itable are indices into [k_inodes]; the null pointer is
    [None].  A struct dinode is 64 bytes and a struct dirent 16 bytes of a block,
    read and written at their C offsets.  Strings are byte lists without the
    terminating nul; a [char name\[DIRSIZ\]] is a list of 14 bytes. *)

From Stdlib Require Import ZArith Lia.
From stdpp Require Import base gmap strings list numbers.
From S2P Require Import Prelude Params State Spinlock Sched CString Kalloc Vm Copy Frame Bio Cache Log.

Open Scope Z_scope.

Definition getinode (i : nat) : M inode := deref "inode" k_inodes i.
Definition modinode (i : nat) (f : inode -> inode) : M unit :=
  modify (fun k => set_k_inodes (alter f i (k_inodes k)) k).
Definition getsb : M superblock := gets k_sb.

(** IBLOCK and BBLOCK, converted to the unsigned block number of bread(). *)
Definition IBLOCK (i : Z) (sb : superblock) : Z := u32 (i / IPB + sb_inodestart sb).
Definition BBLOCK (b : Z) (sb : superblock) : Z := u32 (b / BPB + sb_bmapstart sb).

(** ** struct superblock and struct dinode in a block *)

Definition decode_sb (d : list Z) : superblock :=
  Superblock (get32 0 d) (get32 4 d) (get32 8 d) (get32 12 d)
             (get32 16 d) (get32 20 d) (get32 24 d) (get32 28 d).

(** The fields ilock() copies out of the dinode at byte [off]. *)
Definition load_dinode (off : nat) (d : list Z) (ip : inode) : inode :=
  set_i_type (i16 (get16 off d))
    (set_i_major (i16 (get16 (off + 2) d))
      (set_i_minor (i16 (get16 (off + 4) d))
        (set_i_nlink (i16 (get16 (off + 6) d))
          (set_i_size (get32 (off + 8) d)
            (set_i_addrs ((fun j => get32 (off + 12 + 4 * j) d) <$> seq 0 (NDIRECT + 1)) ip))))).

(** memmove(dip->addrs, ip->addrs, ...). *)
Fixpoint put_addrs (off : nat) (addrs : list Z) (d : list Z) : list Z :=
  match addrs with
  | [] => d
  | a :: addrs => put_addrs (off + 4) addrs (put32 off a d)
  end.

(** The stores of iupdate(). *)
Definition store_dinode (off : nat) (ip : inode) (d : list Z) : list Z :=
  put_addrs (off + 12) (i_addrs ip)
    (put32 (off + 8) (i_size ip)
      (put16 (off + 6) (i_nlink ip)
        (put16 (off + 4) (i_minor ip)
          (put16 (off + 2) (i_major ip)
            (put16 off (i_type ip) d))))).

(** Byte offset of inode [inum] in its block. *)
Definition dinode_off (inum : Z) : nat := Z.to_nat (inum `mod` IPB) * SIZEOF_DINODE.

(** ** The free bitmap *)

Definition bit_mask (bi : Z) : Z := Z.shiftl 1 (bi `mod` 8).
Definition bitmap_byte (d : list Z) (bi : Z) : Z := d !!! Z.to_nat (bi / 8).
Definition bitmap_free (d : list Z) (bi : Z) : bool := Z.land (bitmap_byte d bi) (bit_mask bi) =? 0.
(** bp->data[bi/8] |= m and bp->data[bi/8] &= ~m, stored into a uchar. *)
Definition bitmap_set (bi : Z) (d : list Z) : list Z :=
  <[Z.to_nat (bi / 8) := u8 (Z.lor (bitmap_byte d bi) (bit_mask bi))]> d.
Definition bitmap_clear (bi : Z) (d : list Z) : list Z :=
  <[Z.to_nat (bi / 8) := u8 (Z.land (bitmap_byte d bi) (Z.lnot (bit_mask bi)))]> d.

(** The inner loop of balloc(): the first free bit below [size]. *)
Fixpoint bitmap_find (fuel : nat) (bi b size : Z) (d : list Z) : option Z :=
  match fuel with
  | O => None
  | S fuel =>
      if (bi <? BPB) && (b + bi <? size) then
        if bitmap_free d bi then Some bi else bitmap_find fuel (bi + 1) b size d
      else None
  end.

Section fs.
Context `{DD : DiskDriver} `{KI : KernelImage}.

(** Read the super block. *)
Definition readsb (dev : Z) : M unit :=
  bp ← bread dev 1;
  b ← getbuf bp;
  modify (set_k_sb (decode_sb (b_data b)));;
  brelse bp.

Definition fsinit (dev : Z) : M unit :=
  readsb dev;;
  sb ← getsb;
  if negb (sb_magic sb =? FSMAGIC) then panic "invalid file system" else
  initlog dev sb.

(** Zero a block. *)
Definition bzero (dev bno : Z) : M unit :=
  bp ← bread dev (u32 bno);
  bupdate bp (fun _ => replicate BSIZE 0);;
  log_write bp;;
  brelse bp.

(** The outer loop of balloc(), over the first block numbers [bs] of the bitmap
    blocks. *)
Fixpoint balloc_from (dev : Z) (bs : list Z) : M Z :=
  match bs with
  | [] => panic "balloc: out of blocks"
  | b :: bs =>
      sb ← getsb;
      bp ← bread dev (BBLOCK b sb);
      x ← getbuf bp;
      match bitmap_find (Z.to_nat BPB) 0 b (sb_size sb) (b_data x) with
      | Some bi =>
          bupdate bp (bitmap_set bi);;
          log_write bp;;
          brelse bp;;
          bzero dev (b + bi);;
          mret (u32 (b + bi))
      | None =>
          brelse bp;;
          balloc_from dev bs
      end
  end.

(** Allocate a zeroed disk block. *)
Definition balloc (dev : Z) : M Z :=
  sb ← getsb;
  balloc_from dev ((fun n => n * BPB) <$> seqz 0 (Z.to_nat ((sb_size sb + BPB - 1) / BPB))).

(** Free a disk block. *)
Definition bfree (dev b : Z) : M unit :=
  sb ← getsb;
  bp ← bread dev (BBLOCK b sb);
  x ← getbuf bp;
  let bi := b `mod` BPB in
  if bitmap_free (b_data x) bi then panic "freeing free block" else
  bupdate bp (bitmap_clear bi);;
  log_write bp;;
  brelse bp.

(** ** Inodes *)

Definition iinit : M unit :=
  initlock LItable;;
  forM (seq 0 NINODE) (fun i => initsleeplock (SlInode i)).

(** The loop of iget(): the entry of (dev, inum), else the first empty slot. *)
Fixpoint iget_scan (dev inum : Z) (i : nat) (l : list inode) (empty : option nat)
  : option nat * option nat :=
  match l with
  | [] => (None, empty)
  | ip :: l =>
      if (0 <? i_ref ip) && (i_dev ip =? dev) && (i_inum ip =? inum) then (Some i, empty)
      else iget_scan dev inum (S i) l
             (match empty with
              | Some _ => empty
              | None => if i_ref ip =? 0 then Some i else None
              end)
  end.

(** Find the inode with number inum on device dev and return the in-memory copy. *)
Definition iget (dev inum : Z) : M nat :=
  acquire LItable;;
  tab ← gets k_inodes;
  match iget_scan dev inum 0 tab None with
  | (Some i, _) =>
      modinode i (fun ip => set_i_ref (i32 (i_ref ip + 1)) ip);;
      release LItable;;
      mret i
  | (None, None) => panic "iget: no inodes"
  | (None, Some i) =>
      modinode i (fun ip => set_i_valid 0 (set_i_ref 1 (set_i_inum inum (set_i_dev dev ip))));;
      release LItable;;
      mret i
  end.

(** Increment reference count for ip. *)
Definition idup (i : nat) : M nat :=
  acquire LItable;;
  modinode i (fun ip => set_i_ref (i32 (i_ref ip + 1)) ip);;
  release LItable;;
  mret i.

(** The loop of ialloc() over the inode numbers [inums]. *)
Fixpoint ialloc_from (dev type : Z) (inums : list Z) : M nat :=
  match inums with
  | [] => panic "ialloc: no inodes"
  | inum :: inums =>
      sb ← getsb;
      bp ← bread dev (IBLOCK inum sb);
      x ← getbuf bp;
      let off := dinode_off inum in
      if get16 off (b_data x) =? 0 then
        bupdate bp (fun d => put16 off type (putb off (replicate SIZEOF_DINODE 0) d));;
        log_write bp;;
        brelse bp;;
        iget dev inum
      else
        brelse bp;;
        ialloc_from dev type inums
  end.

(** Allocate an inode on device dev, of type [type]. *)
Definition ialloc (dev type : Z) : M nat :=
  sb ← getsb;
  ialloc_from dev type (seqz 1 (Z.to_nat (sb_ninodes sb - 1))).

(** Copy a modified in-memory inode to disk. *)
Definition iupdate (i : nat) : M unit :=
  ip ← getinode i;
  sb ← getsb;
  bp ← bread (i_dev ip) (IBLOCK (i_inum ip) sb);
  bupdate bp (store_dinode (dinode_off (i_inum ip)) ip);;
  log_write bp;;
  brelse bp.

(** Lock the given inode.  Reads the inode from disk if necessary. *)
Definition ilock (i : nat) : M unit :=
  ip ← getinode i;
  if i_ref ip <? 1 then panic "ilock" else
  acquiresleep (SlInode i);;
  ip ← getinode i;
  when (i_valid ip =? 0) (
    sb ← getsb;
    bp ← bread (i_dev ip) (IBLOCK (i_inum ip) sb);
    x ← getbuf bp;
    modinode i (load_dinode (dinode_off (i_inum ip)) (b_data x));;
    brelse bp;;
    modinode i (set_i_valid 1);;
    ip ← getinode i;
    if i_type ip =? 0 then panic "ilock: no type" else mret tt).

(** Unlock the given inode. *)
Definition iunlock (i : nat) : M unit :=
  h ← holdingsleep (SlInode i);
  ip ← getinode i;
  if negb h || (i_ref ip <? 1) then panic "iunlock" else
  releasesleep (SlInode i).

(** The second half of bmap(): entry [n] of the indirect block [ind]. *)
Definition bmap_entry (dev ind : Z) (n : nat) : M Z :=
  bp ← bread dev ind;
  x ← getbuf bp;
  let addr := get32 (4 * n) (b_data x) in
  addr ← (if addr =? 0 then
            addr ← balloc dev;
            bupdate bp (put32 (4 * n) addr);;
            log_write bp;;
            mret addr
          else mret addr);
  brelse bp;;
  mret addr.

(** Return the disk block address of the nth block in inode ip, allocating it if
    there is none. *)
Definition bmap (i : nat) (bn : Z) : M Z :=
  ip ← getinode i;
  if bn <? Z.of_nat NDIRECT then
    let addr := i_addrs ip !!! Z.to_nat bn in
    if addr =? 0 then
      addr ← balloc (i_dev ip);
      modinode i (fun ip => set_i_addrs (<[Z.to_nat bn := addr]> (i_addrs ip)) ip);;
      mret addr
    else mret addr
  else
    let bn := bn - Z.of_nat NDIRECT in
    if bn <? Z.of_nat NINDIRECT then
      let addr := i_addrs ip !!! NDIRECT in
      addr ← (if addr =? 0 then
                addr ← balloc (i_dev ip);
                modinode i (fun ip => set_i_addrs (<[NDIRECT := addr]> (i_addrs ip)) ip);;
                mret addr
              else mret addr);
      bmap_entry (i_dev ip) addr (Z.to_nat bn)
    else panic "bmap: out of range".

(** The two loops of itrunc(). *)
Definition itrunc_direct (i : nat) (j : nat) : M unit :=
  ip ← getinode i;
  let a := i_addrs ip !!! j in
  when (truth a) (
    bfree (i_dev ip) a;;
    modinode i (fun ip => set_i_addrs (<[j := 0]> (i_addrs ip)) ip)).
Definition itrunc_indirect (dev : Z) (bp : nat) (j : nat) : M unit :=
  x ← getbuf bp;
  let a := get32 (4 * j) (b_data x) in
  when (truth a) (bfree dev a).

(** Truncate inode (discard contents). *)
Definition itrunc (i : nat) : M unit :=
  forM (seq 0 NDIRECT) (itrunc_direct i);;
  ip ← getinode i;
  let a := i_addrs ip !!! NDIRECT in
  when (truth a) (
    bp ← bread (i_dev ip) a;
    forM (seq 0 NINDIRECT) (itrunc_indirect (i_dev ip) bp);;
    brelse bp;;
    bfree (i_dev ip) a;;
    modinode i (fun ip => set_i_addrs (<[NDIRECT := 0]> (i_addrs ip)) ip));;
  modinode i (set_i_size 0);;
  iupdate i.

(** Drop a reference to an in-memory inode; free the inode on disk with its last
    reference when it has no links. *)
Definition iput (i : nat) : M unit :=
  acquire LItable;;
  ip ← getinode i;
  when ((i_ref ip =? 1) && truth (i_valid ip) && (i_nlink ip =? 0)) (
    acquiresleep (SlInode i);;
    release LItable;;
    itrunc i;;
    modinode i (set_i_type 0);;
    iupdate i;;
    modinode i (set_i_valid 0);;
    releasesleep (SlInode i);;
    acquire LItable);;
  modinode i (fun ip => set_i_ref (i32 (i_ref ip - 1)) ip);;
  release LItable.

Definition iunlockput (i : nat) : M unit :=
  iunlock i;;
  iput i.

End fs.
