(* ===== verification/Dir.v ===== *)
(** Inode contents, directories and path names: the second half of kernel/fs.c. *)

From Stdlib Require Import ZArith Lia.
From stdpp Require Import base gmap strings list numbers.
From S2P Require Import Prelude Params State Spinlock Sched CString Kalloc Vm Copy Frame Bio Cache Log Fs.

Open Scope Z_scope.

(** ** Path elements *)

Definition slash : Z := 47.

(** The loop over leading slashes. *)
Fixpoint skip_slashes (path : list Z) : list Z :=
  match path with
  | c :: path' => if c =? slash then skip_slashes path' else path
  | [] => []
  end.
(** The loop to the end of the element: the element and what follows it. *)
Fixpoint take_elem (path : list Z) : list Z * list Z :=
  match path with
  | c :: path' =>
      if c =? slash then ([], path)
      else let '(s, rest) := take_elem path' in (c :: s, rest)
  | [] => ([], [])
  end.

(** Copy the next path element from path into name; [None] for the null pointer. *)
Definition skipelem (path name : list Z) : option (list Z * list Z) :=
  match skip_slashes path with
  | [] => None
  | path =>
      let '(s, rest) := take_elem path in
      let name := if (DIRSIZ <=? length s)%nat then putb 0 (take DIRSIZ s) name
                  else putb 0 (s ++ [0]) name in
      Some (skip_slashes rest, name)
  end.

(** ** struct dirent *)

Definition de_inum (de : list Z) : Z := get16 0 de.
Definition de_name (de : list Z) : list Z := getb 2 DIRSIZ de.
Definition mk_dirent (inum : Z) (name : list Z) : list Z := bytes_of 2 inum ++ strncpy (aptr name) DIRSIZ.

Definition namecmp (s t : list Z) : Z := strncmp (aptr s) (aptr t) DIRSIZ.

Section dir.
Context `{DD : DiskDriver} `{KI : KernelImage}.

(** Copy stat information from inode. *)
Definition stati (i : nat) : M stat :=
  ip ← getinode i;
  mret (Stat (i_dev ip) (i_inum ip) (i_type ip) (i_nlink ip) (i_size ip)).

(** ** readi() and writei() *)

(** Bytes of one iteration: min(n - tot, BSIZE - off%BSIZE). *)
Definition chunk (n tot off : Z) : Z := Z.min (n - tot) (1024 - off `mod` 1024).

(** The loop of readi(); the bytes copied so far are [got]. *)
Fixpoint readi_loop (fuel : nat) (i : nat) (d : dst) (off n tot : Z) (got : list Z) : M (Z * list Z) :=
  match fuel with
  | O => nofuel
  | S fuel =>
      if negb (tot <? n) then mret (i32 tot, got) else
      addr ← bmap i (off / 1024);
      ip ← getinode i;
      bp ← bread (i_dev ip) addr;
      x ← getbuf bp;
      let m := chunk n tot off in
      let bytes := getb (Z.to_nat (off `mod` 1024)) (Z.to_nat m) (b_data x) in
      r ← either_copyout d bytes;
      if r =? -1 then
        brelse bp;;
        mret (-1, got)
      else
        brelse bp;;
        readi_loop fuel i (dst_add d m) (u32 (off + m)) n (tot + m) (got ++ bytes)
  end.

(** Read data from inode: the result, and the bytes read. *)
Definition readi (i : nat) (d : dst) (off n : Z) : M (Z * list Z) :=
  ip ← getinode i;
  if (i_size ip <? off) || (u32 (off + n) <? off) then mret (0, []) else
  let n := if i_size ip <? u32 (off + n) then u32 (i_size ip - off) else n in
  readi_loop (Z.to_nat (n / 1024) + 3) i d off n 0 [].

(** The loop of writei(); the result is [off] and [tot] at its end. *)
Fixpoint writei_loop (fuel : nat) (i : nat) (s : src) (off n tot : Z) : M (Z * Z) :=
  match fuel with
  | O => nofuel
  | S fuel =>
      if negb (tot <? n) then mret (off, tot) else
      addr ← bmap i (off / 1024);
      ip ← getinode i;
      bp ← bread (i_dev ip) addr;
      let m := chunk n tot off in
      '(r, bytes) ← either_copyin s (Z.to_nat m);
      bupdate bp (putb (Z.to_nat (off `mod` 1024)) bytes);;
      if r =? -1 then
        brelse bp;;
        mret (off, tot)
      else
        log_write bp;;
        brelse bp;;
        writei_loop fuel i (src_add s m) (u32 (off + m)) n (tot + m)
  end.

(** Write data to inode; the number of bytes written, or -1. *)
Definition writei (i : nat) (s : src) (off n : Z) : M Z :=
  ip ← getinode i;
  if (i_size ip <? off) || (u32 (off + n) <? off) then mret (-1) else
  if MAXFILE * 1024 <? u32 (off + n) then mret (-1) else
  '(off, tot) ← writei_loop (Z.to_nat (n / 1024) + 3) i s off n 0;
  ip ← getinode i;
  when (i_size ip <? off) (modinode i (set_i_size off));;
  iupdate i;;
  mret (i32 tot).

(** ** Directories *)

Fixpoint dirlookup_loop (fuel : nat) (dp : nat) (name : list Z) (off : Z) : M (option (nat * Z)) :=
  match fuel with
  | O => nofuel
  | S fuel =>
      ip ← getinode dp;
      if negb (off <? i_size ip) then mret None else
      '(r, de) ← readi dp DLocal off (Z.of_nat SIZEOF_DIRENT);
      if negb (r =? Z.of_nat SIZEOF_DIRENT) then panic "dirlookup read" else
      if de_inum de =? 0 then dirlookup_loop fuel dp name (u32 (off + 16))
      else if namecmp name (de_name de) =? 0 then
        ip ← getinode dp;
        i ← iget (i_dev ip) (de_inum de);
        mret (Some (i, off))
      else dirlookup_loop fuel dp name (u32 (off + 16))
  end.

(** Look for a directory entry in a directory: the inode and the entry's offset. *)
Definition dirlookup (dp : nat) (name : list Z) : M (option (nat * Z)) :=
  ip ← getinode dp;
  if negb (i_type ip =? T_DIR) then panic "dirlookup not DIR" else
  dirlookup_loop (Z.to_nat (i_size ip / 16) + 2) dp name 0.

(** The search for an empty dirent in dirlink(). *)
Fixpoint dirlink_loop (fuel : nat) (dp : nat) (off : Z) : M Z :=
  match fuel with
  | O => nofuel
  | S fuel =>
      ip ← getinode dp;
      if negb (off <? i_size ip) then mret off else
      '(r, de) ← readi dp DLocal off (Z.of_nat SIZEOF_DIRENT);
      if negb (r =? Z.of_nat SIZEOF_DIRENT) then panic "dirlink read" else
      if de_inum de =? 0 then mret off else dirlink_loop fuel dp (off + 16)
  end.

(** Write a new directory entry (name, inum) into the directory dp. *)
Definition dirlink (dp : nat) (name : list Z) (inum : Z) : M Z :=
  r ← dirlookup dp name;
  match r with
  | Some (i, _) => iput i;; mret (-1)
  | None =>
      ip ← getinode dp;
      off ← dirlink_loop (Z.to_nat (i_size ip / 16) + 2) dp 0;
      r ← writei dp (SBytes (mk_dirent inum name)) off (Z.of_nat SIZEOF_DIRENT);
      if negb (r =? Z.of_nat SIZEOF_DIRENT) then panic "dirlink" else
      mret 0
  end.

(** ** Path names *)

Fixpoint namex_loop (fuel : nat) (ip : nat) (path : list Z) (nameiparent : bool) (name : list Z)
  : M (option nat * list Z) :=
  match fuel with
  | O => nofuel
  | S fuel =>
      match skipelem path name with
      | None =>
          if nameiparent then iput ip;; mret (None, name) else mret (Some ip, name)
      | Some (path, name) =>
          ilock ip;;
          x ← getinode ip;
          if negb (i_type x =? T_DIR) then
            iunlockput ip;;
            mret (None, name)
          else if nameiparent && bool_decide (path = []) then
            iunlock ip;;
            mret (Some ip, name)
          else
            next ← dirlookup ip name;
            match next with
            | None => iunlockput ip;; mret (None, name)
            | Some (next, _) =>
                iunlockput ip;;
                namex_loop fuel next path nameiparent name
            end
      end
  end.

(** idup(myproc()->cwd). *)
Definition idup_cwd : M nat :=
  p ← curproc;
  pr ← getproc p;
  match pr_cwd pr with Some c => idup c | None => panic "kerneltrap" end.

(** Look up and return the inode for a path name; with [nameiparent], the parent's
    inode and the final path element. *)
Definition namex (path : list Z) (nameiparent : bool) (name : list Z) : M (option nat * list Z) :=
  ip ← (if bool_decide (head path = Some slash) then iget ROOTDEV ROOTINO else idup_cwd);
  namex_loop (S (length path)) ip path nameiparent name.

(** namei() has a local name buffer. *)
Definition namei (path : list Z) : M (option nat) :=
  '(r, _) ← namex path false (replicate DIRSIZ 0);
  mret r.

Definition nameiparent (path name : list Z) : M (option nat * list Z) := namex path true name.

End dir.
