(* ===== verification/Path.v ===== *)
(** Path names: skipelem() and namecmp() (kernel/fs.c) against a reference
    definition of the elements of a path. *)

From Stdlib Require Import ZArith Lia.
From stdpp Require Import base gmap strings list numbers.
From S2P Require Import Prelude Params State CString Dir.

Open Scope Z_scope.

(** ** Names *)

Lemma strncmp_at_cstr p q n : forall i,
  strncmp_at p q i n = 0 <-> cstr (p <$> seqz i n) = cstr (q <$> seqz i n).
Proof.
  induction n as [|n IH]; intros i; cbn [strncmp_at]; [done|]. rewrite seqz_S, !fmap_cons. cbn [cstr]. unfold truth.
  destruct (p i =? 0) eqn:Ep; cbn [negb andb].
  - apply Z.eqb_eq in Ep. rewrite Ep. destruct (q i =? 0) eqn:Eq; [apply Z.eqb_eq in Eq; split; [done|lia]|].
    apply Z.eqb_neq in Eq. split; [lia|done].
  - apply Z.eqb_neq in Ep. destruct (p i =? q i) eqn:E.
    + apply Z.eqb_eq in E. rewrite <- E, (proj2 (Z.eqb_neq _ _) Ep), IH. split; congruence.
    + apply Z.eqb_neq in E. split; [lia|]. destruct (q i =? 0); [done|]. intros [= Hpq _]. done.
Qed.

Lemma cstr_aptr l n : forall a : nat, cstr (aptr l <$> seqz (Z.of_nat a) n) = cstr (take n (drop a l)).
Proof.
  induction n as [|n IH]; intros a; [by rewrite take_0|]. rewrite seqz_S, fmap_cons. cbn [cstr].
  assert (aptr l (Z.of_nat a) = default 0 (l !! a)) as -> by (unfold aptr; by rewrite Nat2Z.id). replace (Z.of_nat a + 1) with (Z.of_nat (S a)) by lia.
  destruct (l !! a) as [c|] eqn:E.
  - rewrite (drop_S _ _ _ E). cbn [take cstr]. change (default 0 (Some c)) with c. by rewrite IH.
  - rewrite drop_ge, take_nil by (by apply lookup_ge_None). done.
Qed.

(** Names are equal when their first DIRSIZ chars are the same string. *)
Lemma namecmp_eq s t : namecmp s t = 0 <-> cstr (take DIRSIZ s) = cstr (take DIRSIZ t).
Proof.
  unfold namecmp, strncmp. rewrite strncmp_at_cstr.
  pose proof (cstr_aptr s DIRSIZ 0) as Es. pose proof (cstr_aptr t DIRSIZ 0) as Et. rewrite !drop_0 in *.
  change (Z.of_nat 0) with 0 in *. by rewrite Es, Et.
Qed.

Lemma cstr_app_nul l l' : Forall (fun c => c <> 0) l -> cstr (l ++ 0 :: l') = l.
Proof.
  induction l as [|c l IH]; intros Hl; [done|]. apply Forall_cons in Hl as [Hc Hl]. simpl.
  rewrite (proj2 (Z.eqb_neq _ _) Hc). by rewrite IH.
Qed.

Lemma cstr_nonul l : Forall (fun c => c <> 0) l -> cstr l = l.
Proof.
  induction l as [|c l IH]; intros Hl; [done|]. apply Forall_cons in Hl as [Hc Hl]. simpl.
  rewrite (proj2 (Z.eqb_neq _ _) Hc). by rewrite IH.
Qed.

(** ** Reference: the elements of a path *)

(** The pieces between slashes. *)
Fixpoint pieces (path : list Z) : list (list Z) :=
  match path with
  | [] => [[]]
  | c :: path =>
      if c =? slash then [] :: pieces path
      else match pieces path with
           | w :: ws => (c :: w) :: ws
           | [] => [[c]]
           end
  end.
(** Empty pieces, from repeated, leading or trailing slashes, do not count. *)
Definition elems (path : list Z) : list (list Z) := filter (fun w => w <> []) (pieces path).

Lemma pieces_cons path : exists w ws, pieces path = w :: ws.
Proof. induction path as [|c path (w & ws & E)]; simpl; [eauto|]. destruct (c =? slash); [eauto|]. rewrite E. eauto. Qed.

Lemma elems_slash path : elems (slash :: path) = elems path.
Proof. unfold elems. cbn [pieces]. rewrite Z.eqb_refl. by rewrite filter_cons, decide_False by auto. Qed.

Lemma elems_skip path : elems (skip_slashes path) = elems path.
Proof.
  induction path as [|c path IH]; [done|]. cbn [skip_slashes]. destruct (c =? slash) eqn:E; [|done].
  apply Z.eqb_eq in E as ->. by rewrite elems_slash.
Qed.

Lemma skip_slashes_head path c rest : skip_slashes path = c :: rest -> c <> slash.
Proof.
  induction path as [|x path IH]; [done|]. cbn [skip_slashes]. destruct (x =? slash) eqn:E; [done|].
  intros [= -> _]. by apply Z.eqb_neq.
Qed.

Lemma skip_slashes_length path : (length (skip_slashes path) <= length path)%nat.
Proof. induction path as [|x path IH]; [done|]. cbn [skip_slashes]. destruct (x =? slash); simpl; lia. Qed.

Lemma take_elem_spec path : forall s rest, take_elem path = (s, rest) ->
  path = s ++ rest /\ Forall (fun c => c <> slash) s /\ (rest = [] \/ exists r, rest = slash :: r) /\
  exists ws, pieces path = s :: ws /\ filter (fun w => w <> []) ws = elems rest.
Proof.
  induction path as [|c path IH]; intros s rest; cbn [take_elem].
  { intros [= <- <-]. split_and!; auto. exists []. done. }
  destruct (c =? slash) eqn:E.
  - apply Z.eqb_eq in E as ->. intros [= <- <-]. split; [done|]. split; [constructor|]. split; [eauto|].
    cbn [pieces]. rewrite Z.eqb_refl. exists (pieces path). split; [done|]. by rewrite elems_slash.
  - destruct (take_elem path) as [s' rest'] eqn:Et. intros [= <- <-].
    destruct (IH s' rest' eq_refl) as (-> & Hs & Hr & ws & Hp & Hf). split; [done|].
    split; [constructor; [by apply Z.eqb_neq|done]|]. split; [done|]. exists ws. cbn [pieces]. rewrite E, Hp. done.
Qed.

(** skipelem() splits off the first element of the path.  It returns null
    exactly when the path has no element; otherwise the elements of the path it
    returns are the remaining ones, that path is shorter, so the loop of namex()
    ends, it is empty exactly when no element remains, and the name buffer holds
    the element as directory entries store it: cut to DIRSIZ chars. *)
Theorem skipelem_correct (path name : list Z) (Hname : length name = DIRSIZ)
    (Hpath : Forall (fun c => c <> 0) path) :
  match skipelem path name with
  | None => elems path = []
  | Some (rest, name') =>
      exists e, elems path = e :: elems rest /\ (length rest < length path)%nat /\
        (rest = [] <-> elems rest = []) /\ length name' = DIRSIZ /\ cstr name' = take DIRSIZ e
  end.
Proof.
  unfold skipelem. pose proof (elems_skip path) as Hel. pose proof (skip_slashes_length path) as Hlen.
  assert (Forall (fun c => c <> 0) (skip_slashes path)) as Hnz.
  { clear -Hpath. induction path as [|c path IH]; [done|]. cbn [skip_slashes]. pose proof Hpath as [_ Hp]%Forall_cons.
    destruct (c =? slash); [by apply IH|done]. }
  destruct (skip_slashes path) as [|c p] eqn:Es; [done|].
  pose proof (skip_slashes_head _ _ _ Es) as Hc.
  destruct (take_elem (c :: p)) as [s rest] eqn:Et.
  destruct (take_elem_spec _ _ _ Et) as (Ep & Hs & Hr & ws & Hp & Hf).
  assert (s <> []) as Hne.
  { intros ->. cbn [take_elem] in Et. rewrite (proj2 (Z.eqb_neq _ _) Hc) in Et. by destruct (take_elem p). }
  assert (Forall (fun c => c <> 0) s) as Hsz by (rewrite Ep in Hnz; by apply Forall_app in Hnz as [? _]).
  exists s. split.
  { rewrite <- Hel. unfold elems at 1. rewrite Hp, filter_cons, decide_True by done. by rewrite Hf, elems_skip. }
  assert (length (skip_slashes rest) < length path)%nat as Hlt.
  { pose proof (skip_slashes_length rest). rewrite Ep, length_app in Hlen. destruct s; [done|]. simpl in Hlen. lia. }
  split; [done|]. split.
  { split; [by intros ->|]. intros He. destruct (skip_slashes rest) as [|c' r] eqn:Er; [done|]. exfalso.
    pose proof (skip_slashes_head _ _ _ Er) as Hc'. unfold elems in He. cbn [pieces] in He.
    rewrite (proj2 (Z.eqb_neq _ _) Hc') in He. destruct (pieces_cons r) as (w & ws' & E'). rewrite E' in He.
    by rewrite filter_cons, decide_True in He by done. }
  destruct (DIRSIZ <=? length s)%nat eqn:El; [apply Nat.leb_le in El|apply Nat.leb_gt in El].
  - rewrite length_putb by (rewrite length_take; lia). split; [done|]. unfold putb.
    rewrite drop_ge, app_nil_r, take_0 by (rewrite length_take; lia). simpl. apply cstr_nonul. by apply Forall_take.
  - rewrite length_putb by (rewrite length_app; simpl; lia). split; [done|].
    rewrite take_ge by lia. unfold putb. rewrite take_0. cbn [app]. rewrite <- app_assoc. by apply cstr_app_nul.
Qed.

Lemma skipelem_correct_witness :
  match skipelem [47; 97; 47; 47; 98; 98; 47; 99] (replicate DIRSIZ 0) with
  | None => False
  | Some (rest, name') => rest = [98; 98; 47; 99] /\ cstr name' = [97]
  end.
Proof.
  pose proof (skipelem_correct [47; 97; 47; 47; 98; 98; 47; 99] (replicate DIRSIZ 0) eq_refl ltac:(repeat constructor; discriminate)) as H.
  destruct H as (e & He & _ & _ & _ & Hn). split; [reflexivity|]. rewrite Hn. injection He as <- . reflexivity.
Defined.
