(* ===== verification/File.v ===== *)
(** File descriptors: kernel/file.c, and pipealloc() of kernel/pipe.c. *)

From Stdlib Require Import ZArith Lia.
From stdpp Require Import base gmap strings list numbers.
From S2P Require Import Prelude Params State Spinlock Sched CString Kalloc Vm Copy Uart Printf Console.
From S2P Require Import Frame Bio Cache Log Fs Dir Pipe.

Open Scope Z_scope.

Definition getfile (f : nat) : M file := deref "file" k_files f.
Definition modfile (f : nat) (g : file -> file) : M unit :=
  modify (fun k => set_k_files (alter g f (k_files k)) k).

Definition fileinit : M unit := initlock LFtable.

(** The index of the first free entry of ftable. *)
Fixpoint file_scan (i : nat) (l : list file) : option nat :=
  match l with
  | [] => None
  | f :: l => if f_ref f =? 0 then Some i else file_scan (S i) l
  end.

(** Allocate a file structure. *)
Definition filealloc : M (option nat) :=
  acquire LFtable;;
  tab ← gets k_files;
  match file_scan 0 tab with
  | Some f => modfile f (set_f_ref 1);; release LFtable;; mret (Some f)
  | None => release LFtable;; mret None
  end.

(** Increment ref count for file f. *)
Definition filedup (f : nat) : M nat :=
  acquire LFtable;;
  x ← getfile f;
  if f_ref x <? 1 then panic "filedup" else
  modfile f (set_f_ref (i32 (f_ref x + 1)));;
  release LFtable;;
  mret f.

(** The bytes of a struct stat, with 4 bytes of padding before the size. *)
Definition stat_bytes (st : stat) : list Z :=
  bytes_of 4 (st_dev st) ++ bytes_of 4 (st_ino st) ++ bytes_of 2 (st_type st) ++
  bytes_of 2 (st_nlink st) ++ replicate 4 0 ++ bytes_of 8 (st_size st).

(** A call through devsw[major]. *)
Definition devsw_at (devsw : list (option devfn)) (major : Z) : option devfn :=
  if (major <? 0) || (NDEV <=? major) then None else default None (devsw !! Z.to_nat major).

Section file.
Context `{DD : DiskDriver} `{KI : KernelImage}.

(** f->ip of an open inode file. *)
Definition file_ip (f : file) : M nat :=
  match f_ip f with Some i => mret i | None => panic "kerneltrap" end.

(** Close file f.  (Decrement ref count, close when reaches 0.) *)
Definition fileclose (f : nat) : M unit :=
  acquire LFtable;;
  x ← getfile f;
  if f_ref x <? 1 then panic "fileclose" else
  modfile f (set_f_ref (f_ref x - 1));;
  if 0 <? f_ref x - 1 then release LFtable
  else
    modfile f (fun x => set_f_type FD_NONE (set_f_ref 0 x));;
    release LFtable;;
    match f_type x with
    | FD_PIPE => pipeclose (f_pipe x) (f_writable x)
    | FD_INODE | FD_DEVICE => begin_op;; ip ← file_ip x; iput ip;; end_op
    | FD_NONE => mret tt
    end.

(** Get metadata about file f. *)
Definition filestat (f : nat) (addr : Z) : M Z :=
  p ← curproc;
  x ← getfile f;
  match f_type x with
  | FD_INODE | FD_DEVICE =>
      ip ← file_ip x;
      ilock ip;;
      st ← stati ip;
      iunlock ip;;
      pr ← getproc p;
      r ← copyout (pr_pagetable pr) addr (stat_bytes st);
      if r <? 0 then mret (-1) else mret 0
  | _ => mret (-1)
  end.

(** Read from file f; addr is a user virtual address. *)
Definition fileread (f : nat) (addr n : Z) : M Z :=
  x ← getfile f;
  if negb (f_readable x) then mret (-1) else
  match f_type x with
  | FD_PIPE => piperead (f_pipe x) addr n
  | FD_DEVICE =>
      devsw ← gets k_devsw;
      match devsw_at devsw (f_major x) with
      | None => mret (-1)
      | Some DevConsole => consoleread (DUser addr) n
      end
  | FD_INODE =>
      ip ← file_ip x;
      ilock ip;;
      '(r, _) ← readi ip (DUser addr) (f_off x) (u32 n);
      when (0 <? r) (modfile f (fun x => set_f_off (u32 (f_off x + r)) x));;
      iunlock ip;;
      mret r
  | FD_NONE => panic "fileread"
  end.

(** max in filewrite(): the bytes one transaction may write. *)
Definition filewrite_max : Z := (MAXOPBLOCKS - 1 - 1 - 2) / 2 * 1024.

(** The loop of filewrite(): [i] bytes are written. *)
Fixpoint filewrite_loop (fuel : nat) (f : nat) (ip : nat) (addr n i : Z) : M Z :=
  match fuel with
  | O => nofuel
  | S fuel =>
      if negb (i <? n) then mret i else
      let n1 := Z.min (n - i) filewrite_max in
      begin_op;;
      ilock ip;;
      x ← getfile f;
      r ← writei ip (SUser (u64 (addr + i))) (f_off x) n1;
      when (0 <? r) (modfile f (fun x => set_f_off (u32 (f_off x + r)) x));;
      iunlock ip;;
      end_op;;
      if negb (r =? n1) then mret i else filewrite_loop fuel f ip addr n (i + r)
  end.

(** Write to file f; addr is a user virtual address. *)
Definition filewrite (f : nat) (addr n : Z) : M Z :=
  x ← getfile f;
  if negb (f_writable x) then mret (-1) else
  match f_type x with
  | FD_PIPE => pipewrite (f_pipe x) addr n
  | FD_DEVICE =>
      devsw ← gets k_devsw;
      match devsw_at devsw (f_major x) with
      | None => mret (-1)
      | Some DevConsole => consolewrite (SUser addr) n
      end
  | FD_INODE =>
      ip ← file_ip x;
      i ← filewrite_loop (Z.to_nat (n / filewrite_max) + 2) f ip addr n 0;
      mret (if i =? n then n else -1)
  | FD_NONE => panic "filewrite"
  end.

(** The bad: label of pipealloc(). *)
Definition pipealloc_bad (pi : Z) (f0 f1 : option nat) : M (option (nat * nat)) :=
  when (truth pi) (kfree pi);;
  (match f0 with Some f => fileclose f | None => mret tt end);;
  (match f1 with Some f => fileclose f | None => mret tt end);;
  mret None.

(** Both ends of a new pipe; [None] is the result -1. *)
Definition pipealloc : M (option (nat * nat)) :=
  f0 ← filealloc;
  match f0 with
  | None => pipealloc_bad 0 None None
  | Some f0 =>
      f1 ← filealloc;
      match f1 with
      | None => pipealloc_bad 0 (Some f0) None
      | Some f1 =>
          pi ← kalloc;
          if pi =? 0 then pipealloc_bad 0 (Some f0) (Some f1) else
          data ← read_bytes pi (Z.to_nat PIPESIZE);
          modify (fun k => set_k_pipes (<[pi := Pipe data 0 0 true true]> (k_pipes k)) k);;
          initlock (LPipe pi);;
          modfile f0 (fun f => set_f_pipe pi (set_f_writable false (set_f_readable true (set_f_type FD_PIPE f))));;
          modfile f1 (fun f => set_f_pipe pi (set_f_writable true (set_f_readable false (set_f_type FD_PIPE f))));;
          mret (Some (f0, f1))
      end
  end.

End file.
