(* ===== verification/Proc.v ===== *)
(** Processes: kernel/proc.c, except scheduling (Sched), procdump() (Console) and
    either_copyin/out (Copy).

    A trapframe is the 288 bytes at the physical address [pr_trapframe]. *)

From Stdlib Require Import ZArith Lia.
From stdpp Require Import base gmap strings list numbers.
From S2P Require Import Prelude Params State Spinlock Sched CString Kalloc Vm Copy Uart Printf Console.
From S2P Require Import Frame Bio Cache Log Fs Dir Pipe File.

Open Scope Z_scope.

(** Addresses of code the linker places: entry points of C functions whose
    addresses the kernel stores, and the assembly of trampoline.S, kernelvec.S. *)
Class CodeAddrs := {
  forkret_pc : Z;
  usertrap_pc : Z;
  kernelvec_pc : Z;
  uservec_off : Z;  (* uservec - trampoline *)
  userret_off : Z   (* userret - trampoline *)
}.

(** Offsets of the trapframe's fields. *)
Abbreviation TF_SIZE := 288%nat.
Abbreviation TF_KERNEL_SATP := 0.
Abbreviation TF_KERNEL_SP := 8.
Abbreviation TF_KERNEL_TRAP := 16.
Abbreviation TF_EPC := 24.
Abbreviation TF_KERNEL_HARTID := 32.
Abbreviation TF_SP := 48.
Abbreviation TF_A0 := 112.
Abbreviation TF_A1 := 120.
Abbreviation TF_A7 := 168.

(** p->trapframe->field. *)
Definition tf_read (i : nat) (off : Z) : M Z := p ← getproc i; read64 (pr_trapframe p + off).
Definition tf_write (i : nat) (off v : Z) : M unit := p ← getproc i; write64 (pr_trapframe p + off) (u64 v).

(** wakeup(0): nobody sleeps on the null channel. *)
Definition wakeup_null : M unit :=
  forM (seq 0 NPROC) (fun i =>
    me ← myproc;
    if bool_decide (me = Some i) then mret tt else
    acquire (LProc i);;
    p ← getproc i;
    when (bool_decide (pr_state p = SLEEPING) && bool_decide (pr_chan p = None))
      (modproc i (set_pr_state RUNNABLE));;
    release (LProc i)).
(** wakeup(p) for a struct proc pointer. *)
Definition wakeup_proc (p : option nat) : M unit :=
  match p with Some i => wakeup (ChProc i) | None => wakeup_null end.

(** initialize the proc table at boot time. *)
Definition procinit : M unit :=
  initlock LPid;;
  initlock LWait;;
  forM (seq 0 NPROC) (fun i =>
    initlock (LProc i);;
    modproc i (set_pr_kstack (KSTACK (Z.of_nat i)))).

Definition allocpid : M Z :=
  acquire LPid;;
  pid ← gets k_nextpid;
  modify (set_k_nextpid (i32 (pid + 1)));;
  release LPid;;
  mret pid.

(** uchar initcode[]: a user program that calls exec("/init"). *)
Definition initcode : list Z :=
  [0x17; 0x05; 0x00; 0x00; 0x13; 0x05; 0x45; 0x02; 0x97; 0x05; 0x00; 0x00; 0x93; 0x85; 0x35; 0x02;
   0x93; 0x08; 0x70; 0x00; 0x73; 0x00; 0x00; 0x00; 0x93; 0x08; 0x20; 0x00; 0x73; 0x00; 0x00; 0x00;
   0xef; 0xf0; 0x9f; 0xff; 0x2f; 0x69; 0x6e; 0x69; 0x74; 0x00; 0x00; 0x24; 0x00; 0x00; 0x00; 0x00;
   0x00; 0x00; 0x00; 0x00].

(** p->name after safestrcpy(p->name, s, sizeof(p->name)). *)
Definition set_name (s : list Z) (p : proc) : proc :=
  set_pr_name (putb 0 (safestrcpy (aptr s) 16) (pr_name p)) p.

Section proc.
Context `{DD : DiskDriver} `{KI : KernelImage} `{CA : CodeAddrs}.

(** Create a user page table for a given process, with no user memory, but with
    trampoline pages. *)
Definition proc_pagetable (i : nat) : M Z :=
  pagetable ← uvmcreate;
  if pagetable =? 0 then mret 0 else
  r ← mappages pagetable TRAMPOLINE PGSIZE trampoline (Z.lor PTE_R PTE_X);
  if r <? 0 then uvmfree pagetable 0;; mret 0 else
  p ← getproc i;
  r ← mappages pagetable TRAPFRAME PGSIZE (pr_trapframe p) (Z.lor PTE_R PTE_W);
  if r <? 0 then
    uvmunmap pagetable TRAMPOLINE 1 false;;
    uvmfree pagetable 0;;
    mret 0
  else mret pagetable.

(** Free a process's page table, and free the physical memory it refers to. *)
Definition proc_freepagetable (pagetable sz : Z) : M unit :=
  uvmunmap pagetable TRAMPOLINE 1 false;;
  uvmunmap pagetable TRAPFRAME 1 false;;
  uvmfree pagetable sz.

(** free a proc structure and the data hanging from it, including user pages. *)
Definition freeproc (i : nat) : M unit :=
  p ← getproc i;
  when (truth (pr_trapframe p)) (kfree (pr_trapframe p));;
  modproc i (set_pr_trapframe 0);;
  when (truth (pr_pagetable p)) (proc_freepagetable (pr_pagetable p) (pr_sz p));;
  modproc i (fun p =>
    set_pr_state UNUSED (set_pr_xstate 0 (set_pr_killed 0 (set_pr_chan None
      (set_pr_name (<[0%nat := 0]> (pr_name p)) (set_pr_parent None (set_pr_pid 0
        (set_pr_sz 0 (set_pr_pagetable 0 p))))))))).

(** The search loop of allocproc(): an UNUSED proc, its lock held. *)
Fixpoint allocproc_find (l : list nat) : M (option nat) :=
  match l with
  | [] => mret None
  | i :: l =>
      acquire (LProc i);;
      p ← getproc i;
      if bool_decide (pr_state p = UNUSED) then mret (Some i)
      else release (LProc i);; allocproc_find l
  end.

(** Look in the process table for an UNUSED proc, initialize state required to run
    in the kernel, and return with p->lock held. *)
Definition allocproc : M (option nat) :=
  r ← allocproc_find (seq 0 NPROC);
  match r with
  | None => mret None
  | Some i =>
      pid ← allocpid;
      modproc i (fun p => set_pr_state USED (set_pr_pid pid p));;
      tf ← kalloc;
      modproc i (set_pr_trapframe tf);;
      if tf =? 0 then freeproc i;; release (LProc i);; mret None else
      pagetable ← proc_pagetable i;
      modproc i (set_pr_pagetable pagetable);;
      if pagetable =? 0 then freeproc i;; release (LProc i);; mret None else
      modproc i (fun p => set_pr_ctx (forkret_pc, u64 (pr_kstack p + PGSIZE)) p);;
      mret (Some i)
  end.

(** Set up first user process. *)
Definition userinit : M unit :=
  r ← allocproc;
  modify (set_k_initproc r);;
  match r with
  | None => panic "kerneltrap"
  | Some i =>
      p ← getproc i;
      uvminit (pr_pagetable p) initcode;;
      modproc i (set_pr_sz PGSIZE);;
      tf_write i TF_EPC 0;;
      tf_write i TF_SP PGSIZE;;
      modproc i (set_name (str "initcode"));;
      cwd ← namei [slash];
      modproc i (set_pr_cwd cwd);;
      modproc i (set_pr_state RUNNABLE);;
      release (LProc i)
  end.

(** Grow or shrink user memory by n bytes: 0 on success, -1 on failure; sz is a
    32-bit unsigned variable. *)
Definition growproc (n : Z) : M Z :=
  i ← curproc;
  p ← getproc i;
  let sz := u32 (pr_sz p) in
  if 0 <? n then
    sz ← uvmalloc (pr_pagetable p) sz (u32 (sz + n));
    if u32 sz =? 0 then mret (-1) else
    modproc i (set_pr_sz (u32 sz));;
    mret 0
  else if n <? 0 then
    sz ← uvmdealloc (pr_pagetable p) sz (u32 (sz + n));
    modproc i (set_pr_sz (u32 sz));;
    mret 0
  else
    modproc i (set_pr_sz sz);;
    mret 0.

(** np->ofile[fd] = filedup(p->ofile[fd]). *)
Definition fork_file (i np fd : nat) : M unit :=
  p ← getproc i;
  match pr_ofile p !!! fd with
  | None => mret tt
  | Some f =>
      f ← filedup f;
      modproc np (fun q => set_pr_ofile (<[fd := Some f]> (pr_ofile q)) q)
  end.

(** Create a new process, copying the parent. *)
Definition fork : M Z :=
  i ← curproc;
  r ← allocproc;
  match r with
  | None => mret (-1)
  | Some np =>
      p ← getproc i;
      q ← getproc np;
      r ← uvmcopy (pr_pagetable p) (pr_pagetable q) (pr_sz p);
      if r <? 0 then freeproc np;; release (LProc np);; mret (-1) else
      modproc np (set_pr_sz (pr_sz p));;
      regs ← read_bytes (pr_trapframe p) TF_SIZE;
      write_bytes (pr_trapframe q) regs;;
      tf_write np TF_A0 0;;
      forM (seq 0 NOFILE) (fork_file i np);;
      cwd ← (match pr_cwd p with Some c => idup c | None => panic "kerneltrap" end);
      modproc np (set_pr_cwd (Some cwd));;
      modproc np (set_name (pr_name p));;
      q ← getproc np;
      release (LProc np);;
      acquire LWait;;
      modproc np (set_pr_parent (Some i));;
      release LWait;;
      acquire (LProc np);;
      modproc np (set_pr_state RUNNABLE);;
      release (LProc np);;
      mret (pr_pid q)
  end.

(** Pass p's abandoned children to init. *)
Definition reparent1 (i pp : nat) : M unit :=
  q ← getproc pp;
  when (bool_decide (pr_parent q = Some i)) (
    init ← gets k_initproc;
    modproc pp (set_pr_parent init);;
    wakeup_proc init).
Definition reparent (i : nat) : M unit := forM (seq 0 NPROC) (reparent1 i).

(** The loop of exit() over the open files. *)
Definition exit_file (i fd : nat) : M unit :=
  p ← getproc i;
  match pr_ofile p !!! fd with
  | None => mret tt
  | Some f =>
      fileclose f;;
      modproc i (fun p => set_pr_ofile (<[fd := None]> (pr_ofile p)) p)
  end.

(** Exit the current process.  Does not return. *)
Definition exit {A} (status : Z) : M A :=
  i ← curproc;
  init ← gets k_initproc;
  if bool_decide (init = Some i) then panic "init exiting" else
  forM (seq 0 NOFILE) (exit_file i);;
  begin_op;;
  p ← getproc i;
  (match pr_cwd p with Some c => iput c | None => panic "kerneltrap" end);;
  end_op;;
  modproc i (set_pr_cwd None);;
  acquire LWait;;
  reparent i;;
  p ← getproc i;
  wakeup_proc (pr_parent p);;
  acquire (LProc i);;
  modproc i (set_pr_xstate status);;
  modproc i (set_pr_state ZOMBIE);;
  release LWait;;
  sched WSched.

(** One pass of wait() over the table: [inl] is wait()'s result, [inr] is
    havekids. *)
Fixpoint wait_scan (l : list nat) (i : nat) (addr : Z) (havekids : bool) : M (Z + bool) :=
  match l with
  | [] => mret (inr havekids)
  | np :: l =>
      q ← getproc np;
      if bool_decide (pr_parent q = Some i) then
        acquire (LProc np);;
        q ← getproc np;
        if bool_decide (pr_state q = ZOMBIE) then
          p ← getproc i;
          r ← (if addr =? 0 then mret 0
               else copyout (pr_pagetable p) addr (bytes_of 4 (pr_xstate q)));
          if r <? 0 then
            release (LProc np);;
            release LWait;;
            mret (inl (-1))
          else
            freeproc np;;
            release (LProc np);;
            release LWait;;
            mret (inl (pr_pid q))
        else
          release (LProc np);;
          wait_scan l i addr true
      else wait_scan l i addr havekids
  end.

(** Wait for a child process to exit and return its pid; -1 without children.  A
    process that sleeps scans again. *)
Definition wait (addr : Z) : M Z :=
  i ← curproc;
  acquire LWait;;
  r ← wait_scan (seq 0 NPROC) i addr false;
  match r with
  | inl r => mret r
  | inr havekids =>
      p ← getproc i;
      if negb havekids || truth (pr_killed p) then release LWait;; mret (-1)
      else sleep (ChProc i) LWait 0
  end.

End proc.
