(* ===== verification/ProcSpec.v ===== *)
(** Processes: allocproc(), freeproc(), fork(), wait() and growproc() of
    kernel/proc.c, with the memory of parent and child and an account of every
    physical page. *)

From Stdlib Require Import ZArith Lia.
From stdpp Require Import base gmap strings list numbers.
From S2P Require Import Prelude Params State Spinlock Sched CString Kalloc Vm PageTable UserMem AddrSpace.
From S2P Require Import Frame Bio Log Fs File Proc.

Open Scope Z_scope.

#[local] Opaque memset st64 ld64 stn seqz kfreed.

Section procspec.
Context `{KI : KernelImage} `{CA : CodeAddrs}.

(** ** The page table of a process *)

Abbreviation VPN_TRAMPOLINE := 67108863.
Abbreviation VPN_TRAPFRAME := 67108862.

Lemma TRAMPOLINE_page : TRAMPOLINE = VPN_TRAMPOLINE * PGSIZE.
Proof. done. Qed.
Lemma TRAPFRAME_page : TRAPFRAME = VPN_TRAPFRAME * PGSIZE.
Proof. done. Qed.

(** The two pages every process has above its memory. *)
Definition top_map (tf : Z) : gmap Z Z :=
  <[VPN_TRAPFRAME := leaf_pte tf (Z.lor PTE_R PTE_W)]> {[VPN_TRAMPOLINE := leaf_pte trampoline (Z.lor PTE_R PTE_X)]}.

Lemma top_map_none tf i : i < VPN_TRAPFRAME -> top_map tf !! i = None.
Proof. intros Hi. unfold top_map. rewrite lookup_insert_ne, lookup_singleton_ne by lia. done. Qed.

Lemma trampoline_range : 0 <= trampoline < 2 ^ 56.
Proof. pose proof trampoline_ge. pose proof etext_gt. pose proof kend_ge. pose proof kend_le. lia. Qed.

Lemma proc_freepagetable_ok k root tf L l vs sz : uvmst k root (top_map tf) L l vs -> page_ok tf -> 0 <= sz <= TRAPFRAME -> length vs = npages sz ->
  exists k' l', proc_freepagetable root sz k = Ret tt k' /\ alloc_ok k' l' /\ l' ≡ₚ (PTE2PA <$> vs) ++ l ++ nodes L /\
    memstep ((PTE2PA <$> vs) ++ l ++ nodes L) k k'.
Proof.
  intros U Ptf Hsz Hlen. destruct (page_ok_range tf Ptf) as [Rtf Atf]. pose proof trampoline_range. pose proof trampoline_aligned.
  assert (Z.of_nat (length vs) <= VPN_TRAPFRAME) as Hn.
  { destruct (npages_eq sz ltac:(unfold TRAPFRAME, TRAMPOLINE in *; lia)) as (En & _ & Cn). unfold TRAPFRAME, TRAMPOLINE in *. rewrite Hlen. dlia. }
  unfold proc_freepagetable. rewrite TRAMPOLINE_page, TRAPFRAME_page.
  destruct (unmap_top k root _ L l vs VPN_TRAMPOLINE (leaf_pte trampoline (Z.lor PTE_R PTE_X)) U) as (k1 & E1 & M1 & U1); try lia.
  { unfold top_map. by rewrite lookup_insert_ne, lookup_singleton_eq by lia. }
  { rewrite leaf_flags by (done || lia). done. }
  mcall E1.
  destruct (unmap_top k1 root _ L l vs VPN_TRAPFRAME (leaf_pte tf (Z.lor PTE_R PTE_W)) U1) as (k2 & E2 & M2 & U2); try lia.
  { unfold top_map. by rewrite lookup_delete_ne, lookup_insert_eq by lia. }
  { rewrite leaf_flags by (done || lia). done. }
  mcall E2. assert (delete VPN_TRAPFRAME (delete VPN_TRAMPOLINE (top_map tf)) = ∅) as EX.
  { unfold top_map. apply map_eq. intros i. rewrite lookup_empty. destruct (decide (i = VPN_TRAPFRAME)) as [->|]; [apply lookup_delete_eq|].
    rewrite lookup_delete_ne by done. destruct (decide (i = VPN_TRAMPOLINE)) as [->|]; [apply lookup_delete_eq|].
    by rewrite lookup_delete_ne, lookup_insert_ne, lookup_singleton_ne by done. }
  rewrite EX in U2. destruct (uvmfree_ok k2 root L l vs sz U2 ltac:(unfold TRAPFRAME, TRAMPOLINE in *; lia) Hlen) as (k3 & l' & E3 & A3 & HP & M3).
  exists k3, l'. split; [exact E3|]. split; [exact A3|]. split; [exact HP|].
  eapply memstep_weaken; [exact (memstep_trans _ _ _ _ _ (memstep_trans _ _ _ _ _ M1 M2) M3)|]. intros q. elems.
Qed.

Lemma proc_pagetable_ok k i p l : k_procs k !! i = Some p -> alloc_ok k l -> page_ok (pr_trapframe p) -> pr_trapframe p ∉ l ->
  exists r k' l', proc_pagetable i k = Ret r k' /\ memstep l k k' /\
    ((r <> 0 /\ exists L, uvmst k' r (top_map (pr_trapframe p)) L l' [] /\ l ≡ₚ l' ++ nodes L /\ (length l <= length l' + 5)%nat) \/
     (r = 0 /\ alloc_ok k' l' /\ l ≡ₚ l' /\ (length l < 5)%nat)).
Proof.
  intros Hi A Ptf Hn. destruct (page_ok_range _ Ptf) as [Rtf Atf]. pose proof trampoline_range as Rt. pose proof trampoline_aligned.
  unfold proc_pagetable. rewrite TRAMPOLINE_page, TRAPFRAME_page. pose proof (uvmcreate_ok k l A) as C. destruct l as [|root l].
  { mcall C. exists 0, k, []. split; [done|]. split; [apply memstep_refl|]. right. split; [done|]. split; [done|]. split; [done|simpl; lia]. }
  destruct C as (k1 & E1 & Hr0 & U1 & M1). mcall E1. rewrite (proj2 (Z.eqb_neq root 0)) by done.
  assert (nodes {[root := 2]} = [root]) as En by (unfold nodes; by rewrite map_to_list_singleton).
  destruct (map_top k1 root ∅ _ l [] VPN_TRAMPOLINE trampoline (Z.lor PTE_R PTE_X) U1) as (r & k2 & L2 & l2 & E2 & M2 & HP2 & Hl2 & H2); try done; try (simpl; lia).
  rewrite En in M2, HP2. mcall E2. destruct H2 as [[-> U2]|(-> & Hc & U2)]; cbn [Z.ltb Z.compare].
  2: { destruct (uvmfree_ok k2 root L2 l2 [] 0 U2 ltac:(lia) eq_refl) as (k3 & l3 & E3 & A3 & HP3 & M3). cbn [fmap list_fmap app] in HP3, M3.
       mcall E3. exists 0, k3, l3. split; [done|]. split; [|right; split; [done|]; split; [done|]; split; [|simpl; lia]].
       - eapply memstep_weaken; [exact (memstep_trans _ _ _ _ _ (memstep_trans _ _ _ _ _ M1 M2) M3)|]. intros q. rewrite <- HP2. elems.
       - rewrite HP3, <- HP2. by rewrite (Permutation_app_comm l). }
  assert (k_procs k2 !! i = Some p) as Hi2.
  { rewrite (ms_k _ _ _ M2), (ms_k _ _ _ M1). ksimpl. done. }
  mcall (getproc_eq k2 i p Hi2).
  destruct (map_top k2 root _ L2 l2 [] VPN_TRAPFRAME (pr_trapframe p) (Z.lor PTE_R PTE_W) U2) as (r & k3 & L3 & l3 & E3 & M3 & HP3 & Hl3 & H3); try done; try (simpl; lia).
  mcall E3. pose proof (memstep_trans _ _ _ _ _ (memstep_trans _ _ _ _ _ M1 M2) M3) as M. destruct H3 as [[-> U3]|(-> & Hc & U3)]; cbn [Z.ltb Z.compare].
  { exists root, k3, l3. split; [done|]. split; [eapply memstep_weaken; [exact M|]; intros q; rewrite <- HP2; elems|].
    left. split; [done|]. exists L3. split; [exact U3|]. split; [|simpl; lia]. rewrite <- HP3, <- HP2. by rewrite (Permutation_app_comm l). }
  destruct (unmap_top k3 root _ L3 l3 [] VPN_TRAMPOLINE (leaf_pte trampoline (Z.lor PTE_R PTE_X)) U3) as (k4 & E4 & M4 & U4); try (simpl; lia).
  { apply lookup_insert_eq. }
  { rewrite leaf_flags by (done || lia). done. }
  mcall E4. rewrite delete_insert_id in U4 by apply lookup_empty.
  destruct (uvmfree_ok k4 root L3 l3 [] 0 U4 ltac:(lia) eq_refl) as (k5 & l5 & E5 & A5 & HP5 & M5). cbn [fmap list_fmap app] in HP5, M5. mcall E5.
  exists 0, k5, l5. split; [done|]. split; [|right; split; [done|]; split; [done|]; split; [|simpl; lia]].
  - eapply memstep_weaken; [exact (memstep_trans _ _ _ _ _ M (memstep_trans _ _ _ _ _ M4 M5))|]. intros q. rewrite <- HP3, <- HP2. elems.
  - rewrite HP5, <- HP3, <- HP2. by rewrite (Permutation_app_comm l).
Qed.

(** ** Memory steps and the process table *)

Lemma ms_hart ps k k' : memstep ps k k' -> k_hart k' = k_hart k.
Proof. intros M. by rewrite (ms_k _ _ _ M). Qed.
Lemma ms_locks ps k k' : memstep ps k k' -> k_locks k' = k_locks k.
Proof. intros M. by rewrite (ms_k _ _ _ M). Qed.
Lemma ms_procs ps k k' : memstep ps k k' -> k_procs k' = k_procs k.
Proof. intros M. by rewrite (ms_k _ _ _ M). Qed.

Lemma modproc_eq i f k : modproc i f k = Ret tt (set_k_procs (alter f i (k_procs k)) k).
Proof. done. Qed.

(** Changes of other variables commute with memory steps. *)
Lemma memstep_upd ps k k' (f : kst -> kst) : (forall m h k, f (set_k_mem m (set_k_freelist h k)) = set_k_mem m (set_k_freelist h (f k))) ->
  (forall k, k_mem (f k) = k_mem k /\ k_freelist (f k) = k_freelist k) -> memstep ps k k' -> memstep ps (f k) (f k').
Proof.
  intros Hc Hm M. pose proof M as [K Hs]. destruct (Hm k) as [Em _], (Hm k') as [Em' Ef']. split.
  - rewrite Em', Ef'. rewrite K at 1. apply Hc.
  - intros a Ha. rewrite Em, Em'. by apply Hs.
Qed.

Lemma memstep_procs ps k k' qs : memstep ps k k' -> memstep ps (set_k_procs qs k) (set_k_procs qs k').
Proof. by apply (memstep_upd ps k k' (set_k_procs qs)). Qed.

Lemma memstep_unlock ps k k' h ls : memstep ps k k' -> memstep ps (set_k_locks ls (set_k_hart h k)) (set_k_locks ls (set_k_hart h k')).
Proof. by apply (memstep_upd ps k k' (fun k => set_k_locks ls (set_k_hart h k))). Qed.

Lemma alloc_ok_ext k k' l : alloc_ok k l -> hart_ok (k_hart k') -> k_locks k' !! LKmem = None -> k_mem k' = k_mem k -> k_freelist k' = k_freelist k -> alloc_ok k' l.
Proof. intros [_ _ [Hf Hnd]] Hh Hl Hm Hfl. split; [done..|]. split; [|done]. by rewrite Hm, Hfl. Qed.

Lemma alloc_ok_procs k l ps : alloc_ok k l -> alloc_ok (set_k_procs ps k) l.
Proof. intros A. by eapply alloc_ok_ext; [exact A|apply A..| |]. Qed.

Lemma uvmst_ext k k' root X L l vs : uvmst k root X L l vs -> alloc_ok k' l -> k_mem k' = k_mem k -> uvmst k' root X L l vs.
Proof. intros [_ U Hnd] A Hm. split; [done| |done]. by rewrite Hm. Qed.

(** ** freeproc() *)

(** The physical pages of a process: those of a slot being set up or torn down, or
    its trapframe, its memory and its page table. *)
Inductive pmem (m : bmem) (p : proc) : list Z -> Prop :=
| pmem_none : pr_trapframe p = 0 -> pr_pagetable p = 0 -> pmem m p []
| pmem_tf : page_ok (pr_trapframe p) -> pr_pagetable p = 0 -> pmem m p [pr_trapframe p]
| pmem_full L vs : page_ok (pr_trapframe p) -> uvm m (pr_pagetable p) (top_map (pr_trapframe p)) L vs ->
    0 <= pr_sz p <= TRAPFRAME -> length vs = npages (pr_sz p) ->
    pmem m p (pr_trapframe p :: (PTE2PA <$> vs) ++ nodes L).

(** A slot after freeproc(). *)
Definition freed (p : proc) : proc :=
  set_pr_state UNUSED (set_pr_xstate 0 (set_pr_killed 0 (set_pr_chan None
    (set_pr_name (<[0%nat := 0]> (pr_name p)) (set_pr_parent None (set_pr_pid 0 (set_pr_sz 0 (set_pr_pagetable 0 (set_pr_trapframe 0 p))))))))).

Lemma freeproc_procs k i p k1 ps pages : k_procs k !! i = Some p -> memstep pages (set_k_procs (alter (set_pr_trapframe 0) i (k_procs k)) k) k1 ->
  ps = alter (fun p => set_pr_state UNUSED (set_pr_xstate 0 (set_pr_killed 0 (set_pr_chan None
      (set_pr_name (<[0%nat := 0]> (pr_name p)) (set_pr_parent None (set_pr_pid 0 (set_pr_sz 0 (set_pr_pagetable 0 p))))))))) i (k_procs k1) ->
  memstep pages (set_k_procs (<[i := freed p]> (k_procs k)) k) (set_k_procs ps k1).
Proof.
  intros Hi M ->. rewrite (ms_procs _ _ _ M). ksimpl. rewrite list_alter_alter_eq.
  rewrite (alter_insert_at _ (k_procs k) i p Hi). by apply (memstep_procs _ _ _ (<[i := freed p]> (k_procs k))) in M.
Qed.

Lemma freeproc_ok k i p l pages : k_procs k !! i = Some p -> alloc_ok k l -> pmem (k_mem k) p pages -> NoDup (pages ++ l) ->
  exists k' l', freeproc i k = Ret tt k' /\ alloc_ok k' l' /\ l' ≡ₚ pages ++ l /\
    memstep (pages ++ l) (set_k_procs (<[i := freed p]> (k_procs k)) k) k'.
Proof.
  intros Hi A Hm Hnd. unfold freeproc. mcall (getproc_eq k i p Hi).
  destruct Hm as [Ht0 Hp0|Ptf Hp0|L vs Ptf U Hsz Hlen].
  - rewrite Ht0, Hp0. cbn [truth Z.eqb negb when]. unfold modproc. mstep. eexists _, l. split; [done|].
    split; [by do 2 apply alloc_ok_procs|]. split; [done|]. eapply freeproc_procs; [done|apply memstep_refl|done].
  - rewrite Hp0. cbn [app] in *. apply NoDup_cons in Hnd as [Hn Hnd]. destruct (kfree_step k l _ A Ptf Hn) as (E & A' & M).
    destruct (page_ok_range _ Ptf) as [Rtf _]. unfold truth. rewrite (proj2 (Z.eqb_neq (pr_trapframe p) 0)) by lia. cbn [Z.eqb negb when]. mcall E. unfold modproc. mstep.
    eexists _, (pr_trapframe p :: l). split; [done|]. split; [by do 2 apply alloc_ok_procs|]. split; [done|].
    eapply freeproc_procs; [done| |done]. rewrite (ms_procs _ _ _ M). apply memstep_procs. eapply memstep_weaken; [exact M|]. intros q. elems.
  - cbn [app] in *. apply NoDup_cons in Hnd as [Hn Hnd]. rewrite <- app_assoc in Hn, Hnd |- *.
    destruct (kfree_step k l _ A Ptf) as (E & A' & M); [intros ?; apply Hn; elems|]. revert E A' M. generalize (kfreed k (pr_trapframe p)). intros kf E A' M.
    assert (page_ok (pr_pagetable p)) as Ppt by (by apply (wf_page _ _ _ (uv_wf _ _ _ _ _ U) _ 2), U).
    destruct (page_ok_range _ Ptf) as [Rtf _], (page_ok_range _ Ppt) as [Rpt _].
    unfold truth. rewrite (proj2 (Z.eqb_neq (pr_trapframe p) 0)), (proj2 (Z.eqb_neq (pr_pagetable p) 0)) by lia. cbn [negb when]. mcall E. unfold modproc. mstep.
    set (k1 := set_k_procs _ kf).
    destruct (proc_freepagetable_ok k1 (pr_pagetable p) (pr_trapframe p) L (pr_trapframe p :: l) vs (pr_sz p)) as (k2 & l' & E2 & A2 & HP & M2); [|exact Ptf|exact Hsz|exact Hlen|].
    { split; [by apply alloc_ok_procs| |].
      - eapply uvm_frame; [exact U|]. eapply (memstep_same _ _ _ _ _ M); [by apply Forall_singleton|eapply nodes_pages, U| |done].
        intros q ->%list_elem_of_singleton Hq. apply Hn. elems.
      - cbn [app]. rewrite <- Permutation_middle. apply NoDup_cons. split; [intros ?; apply Hn; elems|]. by rewrite (Permutation_app_comm l). }
    mcall E2. eexists _, l'. split; [done|]. split; [by apply alloc_ok_procs|]. split.
    { rewrite HP. cbn [app]. by rewrite <- Permutation_middle, (Permutation_app_comm l). }
    eapply freeproc_procs; [done| |done]. pose proof (memstep_procs _ _ _ (alter (set_pr_trapframe 0) i (k_procs k)) M) as M1.
    unfold k1 in M2. rewrite (ms_procs _ _ _ M) in M2.
    eapply memstep_weaken; [exact (memstep_trans _ _ _ _ _ M1 M2)|]. intros q. elems.
Qed.

(** ** allocproc() *)

Lemma allocpid_eq k : hart_ok (k_hart k) -> k_locks k !! LPid = None ->
  allocpid k = Ret (k_nextpid k) (set_k_nextpid (i32 (k_nextpid k + 1)) k).
Proof.
  intros Hh Hl. unfold allocpid. mcall (acquire_eq _ _ Hl). mstep. mcall (release_after _ k) by done.
  unfold mret, M_ret. apply f_equal; unfold acq; kst_eq.
Qed.

(** The state after releasing the lock of process [i], which was taken in [k]. *)
Lemma release_proc k i k1 : hart_ok (k_hart k) -> k_locks k !! LProc i = None -> k_hart k1 = push_hart (k_hart k) ->
  k_locks k1 = <[LProc i := h_id (k_hart k)]> (k_locks k) -> release (LProc i) k1 = Ret tt (set_k_locks (k_locks k) (set_k_hart (k_hart k) k1)).
Proof. intros. by apply release_after. Qed.

Lemma allocproc_find_ok l : forall k, hart_ok (k_hart k) -> plocks_free k -> Forall (fun i => i < length (k_procs k))%nat l ->
  (exists i p, i ∈ l /\ k_procs k !! i = Some p /\ pr_state p = UNUSED /\ allocproc_find l k = Ret (Some i) (acq (LProc i) k)) \/
  ((forall i p, i ∈ l -> k_procs k !! i = Some p -> pr_state p <> UNUSED) /\ allocproc_find l k = Ret None k).
Proof.
  induction l as [|i l IH]; intros k Hh Hl Hlt; [right; split; [by intros i p ?%not_elem_of_nil|done]|].
  apply Forall_cons_1 in Hlt as [Hi Hlt]. apply lookup_lt_is_Some in Hi as [p Hp]. cbn [allocproc_find].
  mcall (acquire_eq _ _ (Hl i)). mcall (getproc_eq (acq (LProc i) k) i p Hp). case_bool_decide as Hs.
  { left. exists i, p. split; [by left|done]. }
  mcall (release_proc k i (acq (LProc i) k)) by done. assert (set_k_locks (k_locks k) (set_k_hart (k_hart k) (acq (LProc i) k)) = k) as -> by (by destruct k).
  destruct (IH k Hh Hl Hlt) as [(j & q & Hj & H)|[Hn H]]; [left; exists j, q; split; [by right|done]|right].
  split; [|done]. intros j q [->|Hj]%elem_of_cons; [|by apply Hn]. rewrite Hp. by intros [= <-].
Qed.

(** A slot that allocproc() has set up. *)
Definition newborn (pid tf root : Z) (p : proc) : proc :=
  set_pr_ctx (forkret_pc, u64 (pr_kstack p + PGSIZE))
    (set_pr_pagetable root (set_pr_trapframe tf (set_pr_state USED (set_pr_pid pid p)))).

(** The lock of process [i] is held, a pid is taken, and [ps] is the table. *)
Definition alloc_base (k : kst) (i : nat) (ps : list proc) : kst :=
  set_k_procs ps (set_k_nextpid (i32 (k_nextpid k + 1)) (acq (LProc i) k)).

(** What allocproc() can do: no free slot; no memory, everything undone but the
    pid; a slot with its lock held, a trapframe page and a page table. *)
Inductive allocproc_res (k : kst) (l : list Z) : option nat -> kst -> Prop :=
| AllocFull : (forall i p, k_procs k !! i = Some p -> pr_state p <> UNUSED) -> allocproc_res k l None k
| AllocNoMem i p k' l' : k_procs k !! i = Some p -> pr_state p = UNUSED -> (length l < 6)%nat -> alloc_ok k' l' -> l' ≡ₚ l ->
    memstep l (set_k_procs (<[i := freed p]> (k_procs k)) (set_k_nextpid (i32 (k_nextpid k + 1)) k)) k' -> allocproc_res k l None k'
| AllocOk i p tf root L k' l' : k_procs k !! i = Some p -> pr_state p = UNUSED -> page_ok tf ->
    uvmst k' root (top_map tf) L l' [] -> l ≡ₚ tf :: l' ++ nodes L -> (length l <= length l' + 6)%nat ->
    memstep l (alloc_base k i (<[i := newborn (k_nextpid k) tf root p]> (k_procs k))) k' -> allocproc_res k l (Some i) k'.

(** The slots that are UNUSED hold no pages and no files. *)
Definition slots_clean (k : kst) : Prop := forall i p, k_procs k !! i = Some p -> pr_state p = UNUSED ->
  pr_trapframe p = 0 /\ pr_pagetable p = 0 /\ pr_sz p = 0 /\ pr_ofile p = replicate NOFILE None.

Section allocproc.
Context (k : kst) (l : list Z) (i : nat) (p : proc).
Hypothesis Hl : plocks_free k.
Hypothesis A : alloc_ok k l.
Hypothesis Hi : k_procs k !! i = Some p.
Hypothesis Hs : pr_state p = UNUSED.

Abbreviation B := (alloc_base k i).

Lemma B_alloc ps : alloc_ok (B ps) l.
Proof. destruct A as [Hh Hk Hf]. split; [by apply hart_ok_push|by unfold alloc_base, acq; ksimpl; rewrite lookup_insert_ne|exact Hf]. Qed.

Lemma B_alter ps q f k1 pages : ps !! i = Some q -> memstep pages (B ps) k1 -> memstep pages (B (<[i := f q]> ps)) (set_k_procs (alter f i (k_procs k1)) k1).
Proof.
  intros Hq M. rewrite (ms_procs _ _ _ M). unfold alloc_base. ksimpl. rewrite (alter_insert_at f ps i q Hq). by apply (memstep_procs _ _ _ (<[i := f q]> ps)) in M.
Qed.

(** The slot is given back. *)
Lemma allocproc_undo ps q k1 l1 pages : ps !! i = Some q -> memstep l (B ps) k1 -> alloc_ok k1 l1 -> pmem (k_mem k1) q pages -> l ≡ₚ pages ++ l1 ->
  exists k' l', (forall R (r : R), (freeproc i;; release (LProc i);; mret r) k1 = Ret r k') /\ alloc_ok k' l' /\ l' ≡ₚ l /\
    memstep l (set_k_procs (<[i := freed q]> ps) (set_k_nextpid (i32 (k_nextpid k + 1)) k)) k'.
Proof.
  intros Hq M A1 Hm HP. assert (NoDup l) as Hnd by (destruct A as [_ _ [_ ?]]; done).
  assert (k_procs k1 = ps) as Eps by (by rewrite (ms_procs _ _ _ M)).
  destruct (freeproc_ok k1 i q l1 pages) as (k2 & l2 & E2 & A2 & HP2 & M2); [by rewrite Eps|done|done|by rewrite <- HP|].
  rewrite Eps in M2. assert (k_hart k2 = push_hart (k_hart k)) as Eh by (rewrite (ms_hart _ _ _ M2); ksimpl; by rewrite (ms_hart _ _ _ M)).
  assert (k_locks k2 = <[LProc i := h_id (k_hart k)]> (k_locks k)) as El by (rewrite (ms_locks _ _ _ M2); ksimpl; by rewrite (ms_locks _ _ _ M)).
  eexists _, l2. split; [intros R r; mcall E2; by mcall (release_proc k i k2) by (done || apply A)|]. split; [by eapply alloc_ok_ext; [exact A2|apply A|apply A| |]|].
  split; [by rewrite HP2, HP|]. pose proof (memstep_procs _ _ _ (<[i := freed q]> ps) M) as M3. pose proof (memstep_trans _ _ _ _ _ M3 M2) as M4.
  pose proof (memstep_unlock _ _ _ (k_hart k) (k_locks k) M4) as M5. unfold alloc_base, acq in M5.
  replace (set_k_procs (<[i:=freed q]> ps) (set_k_nextpid (i32 (k_nextpid k + 1)) k)) with (set_k_locks (k_locks k) (set_k_hart (k_hart k)
    (set_k_procs (<[i:=freed q]> ps) (set_k_procs ps (set_k_nextpid (i32 (k_nextpid k + 1)) (set_k_locks (<[LProc i:=h_id (k_hart k)]> (k_locks k)) (set_k_hart (push_hart (k_hart k)) k))))))) by (by destruct k).
  eapply memstep_weaken; [exact M5|]. intros x. rewrite <- HP. elems.
Qed.

Lemma allocproc_slot : pr_trapframe p = 0 -> pr_pagetable p = 0 -> k_locks k !! LPid = None ->
  exists r k', (pid ← allocpid;
      modproc i (fun p => set_pr_state USED (set_pr_pid pid p));;
      tf ← kalloc;
      modproc i (set_pr_trapframe tf);;
      if tf =? 0 then freeproc i;; release (LProc i);; mret None else
      pagetable ← proc_pagetable i;
      modproc i (set_pr_pagetable pagetable);;
      if pagetable =? 0 then freeproc i;; release (LProc i);; mret None else
      modproc i (fun p => set_pr_ctx (forkret_pc, u64 (pr_kstack p + PGSIZE)) p);;
      mret (Some i)) (acq (LProc i) k) = Ret r k' /\ allocproc_res k l r k'.
Proof.
  intros Ht0 Hp0 Hpid. pose proof A as [Hh Hk Hf]. pose proof (lookup_lt_Some _ _ _ Hi) as Hlt.
  mcall (allocpid_eq (acq (LProc i) k)) by (first [apply hart_ok_push, Hh|unfold acq; ksimpl; by rewrite lookup_insert_ne]).
  change (k_nextpid (acq (LProc i) k)) with (k_nextpid k). mcall (modproc_eq _ _ _).
  set (p1 := set_pr_state USED (set_pr_pid (k_nextpid k) p)). set (ps1 := <[i := p1]> (k_procs k)).
  assert (set_k_procs (alter (fun p => set_pr_state USED (set_pr_pid (k_nextpid k) p)) i (k_procs (set_k_nextpid (i32 (k_nextpid k + 1)) (acq (LProc i) k))))
    (set_k_nextpid (i32 (k_nextpid k + 1)) (acq (LProc i) k)) = B ps1) as ->.
  { unfold alloc_base, ps1. f_equal. exact (alter_insert_at (fun p => set_pr_state USED (set_pr_pid (k_nextpid k) p)) (k_procs k) i p Hi). }
  assert (forall q, <[i := q]> ps1 = <[i := q]> (k_procs k)) as Eps by (intros q; apply list_insert_insert_eq).
  assert (forall q, <[i := q]> (k_procs k) !! i = Some q) as Lps by (intros q; by apply list_lookup_insert_eq).
  pose proof (B_alloc ps1) as A1. assert (l = [] \/ exists tf l1, l = tf :: l1) as [El|(tf & l1 & El)] by (clear; destruct l; eauto).
  - rewrite El in A1. mcall (kalloc_empty (B ps1)) by apply A1. mcall (modproc_eq _ _ _). cbn [Z.eqb].
    destruct (allocproc_undo (<[i := set_pr_trapframe 0 p1]> ps1) (set_pr_trapframe 0 p1) (set_k_procs (alter (set_pr_trapframe 0) i (k_procs (B ps1))) (B ps1)) [] [])
      as (k' & l' & E & A' & HP & M).
    { rewrite Eps. apply Lps. }
    { apply (B_alter ps1 p1); [apply Lps|apply memstep_refl]. }
    { by apply alloc_ok_procs. }
    { by apply pmem_none. }
    { by rewrite El. }
    rewrite E. exists None, k'. split; [done|]. rewrite Eps, list_insert_insert_eq in M. apply (AllocNoMem k l i p k' l'); try done. rewrite El. simpl. lia.
  - rewrite El in A1. destruct (kalloc_alloc _ _ _ A1) as (k2 & E2 & Ptf & Hn & A2 & M2). mcall E2. destruct (page_ok_range tf Ptf) as [Rtf _].
    mcall (modproc_eq _ _ _). rewrite (proj2 (Z.eqb_neq tf 0)) by lia. set (k3 := set_k_procs _ k2).
    pose proof (B_alter ps1 p1 (set_pr_trapframe tf) k2 _ (Lps p1) M2) as M3. fold k3 in M3. rewrite Eps in M3. set (p2 := set_pr_trapframe tf p1) in *.
    destruct (proc_pagetable_ok k3 i p2 l1) as (r & k4 & l4 & E4 & M4 & Hr); [rewrite (ms_procs _ _ _ M3); apply Lps|by apply alloc_ok_procs|done|done|].
    mcall E4. mcall (modproc_eq _ _ _). pose proof (memstep_trans _ _ _ _ _ M3 M4) as M. change ([tf] ++ l1) with (tf :: l1) in M. rewrite <- El in M. set (k5 := set_k_procs _ k4).
    pose proof (B_alter _ p2 (set_pr_pagetable r) k4 _ (Lps p2) M) as M5. fold k5 in M5. rewrite list_insert_insert_eq in M5. set (p3 := set_pr_pagetable r p2) in *.
    destruct Hr as [(Hr0 & L & U & HP & Hc)|(-> & A4 & HP & Hc)].
    + rewrite (proj2 (Z.eqb_neq r 0)) by done. mcall (modproc_eq _ _ _). eexists _, _. split; [done|].
      pose proof (B_alter _ p3 (fun p => set_pr_ctx (forkret_pc, u64 (pr_kstack p + PGSIZE)) p) k5 _ (Lps p3) M5) as M6. rewrite list_insert_insert_eq in M6.
      apply (AllocOk k l i p tf r L _ l4); try done; [|by rewrite El, HP|rewrite El; simpl; lia].
      apply (uvmst_ext k4); [done| |done]. do 2 apply alloc_ok_procs. apply U.
    + cbn [Z.eqb]. destruct (allocproc_undo (<[i := p3]> (k_procs k)) p3 k5 l4 [tf] (Lps p3) M5) as (k' & l' & E & A' & HP' & M').
      { by apply alloc_ok_procs. }
      { by apply pmem_tf. }
      { rewrite El. by rewrite HP. }
      rewrite E. exists None, k'. split; [done|]. rewrite list_insert_insert_eq in M'.
      apply (AllocNoMem k l i p k' l'); try done. rewrite El. simpl. lia.
Qed.
End allocproc.

Lemma allocproc_ok k l : hart_ok (k_hart k) -> plocks_free k -> k_locks k !! LPid = None -> alloc_ok k l -> slots_clean k ->
  length (k_procs k) = NPROC -> exists r k', allocproc k = Ret r k' /\ allocproc_res k l r k'.
Proof.
  intros Hh Hl Hpid A Hc Hn. unfold allocproc.
  destruct (allocproc_find_ok (seq 0 NPROC) k Hh Hl) as [(i & p & Hi & Hp & Hs & E)|[Hno E]].
  { apply Forall_forall. intros i. rewrite elem_of_seq. lia. }
  - mcall E. destruct (Hc i p Hp Hs) as (Ht0 & Hp0 & _). by apply (allocproc_slot k l i p).
  - mcall E. exists None, k. split; [done|]. apply AllocFull. intros i p Hp. apply (Hno i p); [|done]. apply elem_of_seq.
    pose proof (lookup_lt_Some _ _ _ Hp). lia.
Qed.

(** ** fork() *)

(** Files and inodes gain a reference. *)
Lemma filedup_eq k f x : hart_ok (k_hart k) -> k_locks k !! LFtable = None -> k_files k !! f = Some x -> 1 <= f_ref x < 2 ^ 31 - 1 ->
  filedup f k = Ret f (set_k_files (<[f := set_f_ref (f_ref x + 1) x]> (k_files k)) k).
Proof.
  intros Hh Hl Hf Hr. unfold filedup. mcall (acquire_eq _ _ Hl). unfold getfile, deref. unfold mbind at 1, M_bind at 1. unfold acq at 1. ksimpl.
  rewrite Hf. rewrite (proj2 (Z.ltb_ge (f_ref x) 1)) by lia. unfold modfile. mstep. mcall (release_after _ k) by done.
  unfold mret, M_ret. rewrite i32_small by lia. apply f_equal. unfold acq. kst_eq. by apply (alter_insert_at _ _ _ x).
Qed.

Lemma idup_eq k i ip : hart_ok (k_hart k) -> k_locks k !! LItable = None -> k_inodes k !! i = Some ip -> 0 < i_ref ip < 2 ^ 31 - 1 ->
  idup i k = Ret i (set_k_inodes (<[i := set_i_ref (i_ref ip + 1) ip]> (k_inodes k)) k).
Proof.
  intros Hh Hl Hi Hr. unfold idup. mcall (acquire_eq _ _ Hl). unfold modinode. mstep. mcall (release_after _ k) by done.
  unfold mret, M_ret. apply f_equal. unfold acq. kst_eq. rewrite (alter_insert_at _ _ _ ip) by done. by rewrite i32_small by lia.
Qed.

(** How many of the descriptors [fds] of [ofile] are file [f]. *)
Definition nrefs (ofile : list (option nat)) (fds : list nat) (f : nat) : Z :=
  Z.of_nat (length (filter (fun fd => ofile !!! fd = Some f) fds)).

Lemma nrefs_cons ofile fd fds f : nrefs ofile (fd :: fds) f = (if decide (ofile !!! fd = Some f) then 1 else 0) + nrefs ofile fds f.
Proof. unfold nrefs. rewrite filter_cons. destruct (decide _); cbn [length]; lia. Qed.

Lemma nrefs_nonneg ofile fds f : 0 <= nrefs ofile fds f.
Proof. unfold nrefs. lia. Qed.

(** [fs'] is [fs] with a reference per open descriptor. *)
Definition duped (ofile : list (option nat)) (fds : list nat) (fs fs' : list file) : Prop :=
  forall f, fs' !! f = (fun x => set_f_ref (f_ref x + nrefs ofile fds f) x) <$> fs !! f.

Lemma set_f_ref_id x : set_f_ref (f_ref x) x = x.
Proof. by destruct x. Qed.

Lemma fork_file_eq i np p q fd k : hart_ok (k_hart k) -> k_locks k !! LFtable = None -> k_procs k !! i = Some p -> k_procs k !! np = Some q ->
  match pr_ofile p !!! fd with
  | None => fork_file i np fd k = Ret tt k
  | Some f => forall x, k_files k !! f = Some x -> 1 <= f_ref x < 2 ^ 31 - 1 ->
      fork_file i np fd k = Ret tt (set_k_files (<[f := set_f_ref (f_ref x + 1) x]> (k_files k))
        (set_k_procs (<[np := set_pr_ofile (<[fd := Some f]> (pr_ofile q)) q]> (k_procs k)) k))
  end.
Proof.
  intros Hh Hl Hp Hq. unfold fork_file. destruct (pr_ofile p !!! fd) as [f|] eqn:Ef.
  - intros x Hx Hr. mcall (getproc_eq k i p Hp). rewrite Ef. mcall (filedup_eq k f x Hh Hl Hx Hr). rewrite modproc_eq. ksimpl. f_equal.
    rewrite (alter_insert_at _ _ _ q Hq). done.
  - mcall (getproc_eq k i p Hp). by rewrite Ef.
Qed.

Lemma fork_files_ok i np p fds : forall k q, hart_ok (k_hart k) -> k_locks k !! LFtable = None -> i <> np -> k_procs k !! i = Some p -> k_procs k !! np = Some q ->
  length (pr_ofile q) = length (pr_ofile p) -> Forall (fun fd => fd < length (pr_ofile p))%nat fds ->
  (forall fd f, fd ∈ fds -> pr_ofile p !!! fd = Some f -> exists x, k_files k !! f = Some x /\ 1 <= f_ref x /\ f_ref x + nrefs (pr_ofile p) fds f < 2 ^ 31) ->
  exists fs ofile, forM fds (fork_file i np) k = Ret tt (set_k_files fs (set_k_procs (<[np := set_pr_ofile ofile q]> (k_procs k)) k)) /\
    duped (pr_ofile p) fds (k_files k) fs /\ length ofile = length (pr_ofile p) /\
    forall fd, ofile !! fd = if decide (fd ∈ fds /\ pr_ofile p !!! fd <> None) then pr_ofile p !! fd else pr_ofile q !! fd.
Proof.
  induction fds as [|fd fds IH]; intros k q Hh Hl Hne Hp Hq Hlen Hlt Hf.
  { exists (k_files k), (pr_ofile q). split; [|split; [|split; [done|]]].
    - cbn [forM]. unfold mret, M_ret. f_equal. rewrite list_insert_id by (rewrite Hq; f_equal; by destruct q). by destruct k.
    - intros f. cbn. destruct (k_files k !! f) as [x|]; [|done]. cbn. by rewrite Z.add_0_r, set_f_ref_id.
    - intros fd. rewrite decide_False; [done|]. intros [?%not_elem_of_nil _]. done. }
  apply Forall_cons_1 in Hlt as [Hfd Hlt]. cbn [forM]. pose proof (fork_file_eq i np p q fd k Hh Hl Hp Hq) as E1.
  destruct (pr_ofile p !!! fd) as [f|] eqn:Ef.
  - destruct (Hf fd f ltac:(by left) Ef) as (x & Hx & Hr1 & Hr2). rewrite nrefs_cons, decide_True in Hr2 by done. pose proof (nrefs_nonneg (pr_ofile p) fds f).
    specialize (E1 x Hx ltac:(lia)). mcall E1. set (k1 := set_k_files _ _).
    assert (k_procs k1 = <[np := set_pr_ofile (<[fd := Some f]> (pr_ofile q)) q]> (k_procs k)) as Ep by done.
    assert (k_files k1 = <[f := set_f_ref (f_ref x + 1) x]> (k_files k)) as Efs by done.
    destruct (IH k1 (set_pr_ofile (<[fd := Some f]> (pr_ofile q)) q)) as (fs & ofile & E & Hd & Hl' & Ho); try done.
    { by rewrite Ep, list_lookup_insert_ne by done. }
    { rewrite Ep. apply list_lookup_insert_eq. by eapply lookup_lt_Some. }
    { ksimpl. by rewrite length_insert. }
    { intros fd' f' Hin Ef'. destruct (Hf fd' f' ltac:(by right) Ef') as (y & Hy & Hy1 & Hy2). rewrite nrefs_cons in Hy2. rewrite Efs.
      destruct (decide (f' = f)) as [->|Hnf].
      - exists (set_f_ref (f_ref x + 1) x). rewrite list_lookup_insert_eq by (by eapply lookup_lt_Some). split; [done|]. assert (y = x) as -> by congruence. ksimpl. rewrite decide_True in Hy2 by done. lia.
      - exists y. rewrite list_lookup_insert_ne by done. split; [done|]. rewrite decide_False in Hy2 by congruence. lia. }
    exists fs, ofile. split; [rewrite E; f_equal; rewrite Ep; rewrite list_insert_insert_eq; unfold k1; kst_eq|]. split; [|split; [done|]].
    + intros g. rewrite (Hd g), Efs, nrefs_cons. destruct (decide (g = f)) as [->|Hg].
      * rewrite list_lookup_insert_eq by (by eapply lookup_lt_Some). rewrite Hx, decide_True by done. cbn. f_equal. unfold set_f_ref. ksimpl. f_equal. lia.
      * rewrite list_lookup_insert_ne by done. rewrite decide_False by congruence. done.
    + intros j. rewrite Ho. ksimpl. destruct (decide (j = fd)) as [->|Hj].
      * rewrite (decide_True (P := fd ∈ fd :: fds /\ _)) by (split; [by left|by rewrite Ef]).
        assert (pr_ofile p !! fd = Some (Some f)) as Efd by (rewrite <- Ef; by apply list_lookup_lookup_total_lt).
        rewrite list_lookup_insert_eq by lia. by destruct (decide _).
      * rewrite list_lookup_insert_ne by done. apply decide_ext. rewrite elem_of_cons. naive_solver.
  - mcall E1. destruct (IH k q) as (fs & ofile & E & Hd & Hl' & Ho); try done.
    { intros fd' f' Hin Ef'. destruct (Hf fd' f' ltac:(by right) Ef') as (y & Hy & Hy1 & Hy2). rewrite nrefs_cons in Hy2. exists y. split; [done|]. case_decide; lia. }
    exists fs, ofile. split; [exact E|]. split; [|split; [done|]].
    + intros g. by rewrite (Hd g), nrefs_cons, decide_False, Z.add_0_l by congruence.
    + intros j. rewrite Ho. apply decide_ext. rewrite elem_of_cons. split; [tauto|]. intros [[->|] Hj]; [by rewrite Ef in Hj|done].
Qed.

(** A page outside the table and the free list is written. *)
Lemma uvmst_page k root X L l vs p m' : uvmst k root X L l vs -> page_ok p -> p ∉ l ++ nodes L -> same_but_page p (k_mem k) m' ->
  uvmst (set_k_mem m' k) root X L l vs /\ memstep [p] k (set_k_mem m' k).
Proof.
  intros [[Hh Hl [Hf Hn]] U Hnd] Pp Hp Hs. assert (memstep [p] k (set_k_mem m' k)) as M.
  { split; [by destruct k|]. intros a Ha. ksimpl. apply Hs, Ha. by left. }
  split; [|exact M]. split; [split; [done..|split; [|done]]| |done].
  - ksimpl. apply (free_rep_frame (k_mem k) _ p); [done| |done|done]. intros ?. apply Hp. elems.
  - eapply uvm_frame; [exact U|]. eapply (memstep_same _ _ _ _ _ M); [by apply Forall_singleton|eapply nodes_pages, U| |done].
    intros q ->%list_elem_of_singleton Hq. apply Hp. elems.
Qed.

(** The trapframe of the child: the parent's registers, but a0 is 0. *)
Definition child_regs (m m' : bmem) (tf tf' : Z) : Prop := forall o, 0 <= o < Z.of_nat TF_SIZE ->
  ld8 m' (tf' + o) = if decide (TF_A0 <= o < TF_A0 + 8) then 0 else ld8 m (tf + o).

Lemma child_regs_ok m tf tf' : child_regs m (st64 (stn m tf' (ldn m tf TF_SIZE)) (tf' + TF_A0) (u64 0)) tf tf' /\
  (forall m', m' = st64 (stn m tf' (ldn m tf TF_SIZE)) (tf' + TF_A0) (u64 0) -> same_but_page tf' m m').
Proof.
  split.
  - intros o Ho. destruct (decide _) as [D|D].
    + change (u64 0) with 0. apply (ld8_st64_zero _ (tf' + TF_A0) (tf' + o)). lia.
    + rewrite ld8_st64_out, ld8_stn, length_ldn, decide_True, lookup_total_ldn by lia. rewrite u8_small by apply ld8_range. f_equal. lia.
  - intros m' -> a Ha. rewrite ld8_st64_out, ld8_stn, length_ldn, decide_False by lia. done.
Qed.

(** The record of the child. *)
Definition fork_child (i : nat) (p : proc) (c : nat) (pid tf root : Z) (q : proc) : proc :=
  set_pr_state RUNNABLE (set_pr_parent (Some i) (set_name (pr_name p) (set_pr_cwd (Some c)
    (set_pr_ofile (pr_ofile p) (set_pr_sz (pr_sz p) (newborn pid tf root q)))))).

(** A locked update of one process record. *)
Lemma locked_modproc {A} lk j f k (C : M A) : hart_ok (k_hart k) -> k_locks k !! lk = None ->
  (acquire lk;; modproc j f;; release lk;; C) k = C (set_k_procs (alter f j (k_procs k)) k).
Proof.
  intros Hh Hl. mcall (acquire_eq _ _ Hl). mcall (modproc_eq _ _ _). mcall (release_after _ k) by done. f_equal.
Qed.

(** What fork() needs of the state. *)
Record fork_pre (k : kst) (i : nat) (p : proc) (l : list Z) (L : gmap Z Z) (vs : list Z) (c : nat) (ip : inode) : Prop := ForkPre {
  fp_quiet : quiet k i p;
  fp_free : kmem_inv k l;
  fp_clean : slots_clean k;
  fp_tf : page_ok (pr_trapframe p);
  fp_uvm : uvm (k_mem k) (pr_pagetable p) (top_map (pr_trapframe p)) L vs;
  fp_sz : 0 <= pr_sz p <= TRAPFRAME;
  fp_len : length vs = npages (pr_sz p);
  fp_nodup : NoDup ((pr_trapframe p :: (PTE2PA <$> vs) ++ nodes L) ++ l);
  fp_ofile : length (pr_ofile p) = NOFILE;
  fp_files : forall fd f, pr_ofile p !! fd = Some (Some f) -> exists x, k_files k !! f = Some x /\ 1 <= f_ref x < 2 ^ 31 - Z.of_nat NOFILE;
  fp_cwd : pr_cwd p = Some c /\ k_inodes k !! c = Some ip /\ 0 < i_ref ip < 2 ^ 31 - 1 }.

Lemma nrefs_le ofile fds f : nrefs ofile fds f <= Z.of_nat (length fds).
Proof. unfold nrefs. pose proof (length_filter (fun fd => ofile !!! fd = Some f) fds). lia. Qed.

Lemma alter_insert_same {A} (f : A -> A) (l : list A) i x : (i < length l)%nat -> alter f i (<[i := x]> l) = <[i := f x]> l.
Proof. intros Hi. rewrite (alter_insert_at f _ i x) by (by apply list_lookup_insert_eq). apply list_insert_insert_eq. Qed.

Section fork.
Context (k : kst) (i : nat) (p : proc) (l : list Z) (L : gmap Z Z) (vs : list Z) (c : nat) (ip : inode).
Hypothesis P : fork_pre k i p l L vs c ip.

(** The parent's file table, dup'ed into an empty one. *)
Lemma fork_ofile np q2 k4 : i <> np -> hart_ok (k_hart k4) -> k_locks k4 !! LFtable = None -> k_procs k4 !! i = Some p -> k_procs k4 !! np = Some q2 ->
  pr_ofile q2 = replicate NOFILE None -> k_files k4 = k_files k ->
  exists fs, forM (seq 0 NOFILE) (fork_file i np) k4 = Ret tt (set_k_files fs (set_k_procs (<[np := set_pr_ofile (pr_ofile p) q2]> (k_procs k4)) k4)) /\
    duped (pr_ofile p) (seq 0 NOFILE) (k_files k) fs.
Proof.
  intros Hne Hh Hl Hi Hnp Ho Hf. pose proof (fp_ofile _ _ _ _ _ _ _ _ P) as Hlen.
  destruct (fork_files_ok i np p (seq 0 NOFILE) k4 q2) as (fs & ofile & E & Hd & Hl' & Hof); try done.
  { by rewrite Ho, length_replicate. }
  { apply Forall_forall. intros fd. rewrite elem_of_seq. lia. }
  { intros fd f [_ Hfd]%elem_of_seq Ef. rewrite Hf. destruct (fp_files _ _ _ _ _ _ _ _ P fd f) as (x & Hx & Hr).
    - rewrite <- Ef. apply list_lookup_lookup_total_lt. lia.
    - exists x. split; [done|]. pose proof (nrefs_le (pr_ofile p) (seq 0 NOFILE) f) as Hn. rewrite length_seq in Hn. lia. }
  exists fs. assert (ofile = pr_ofile p) as ->.
  { apply list_eq. intros fd. rewrite Hof. destruct (decide (fd < NOFILE)%nat) as [Hfd|Hfd].
    - rewrite Ho, lookup_replicate_2 by done. assert (pr_ofile p !! fd = Some (pr_ofile p !!! fd)) as Efd by (apply list_lookup_lookup_total_lt; lia).
      destruct (decide _) as [|D]; [done|]. rewrite Efd. destruct (pr_ofile p !!! fd) eqn:En; [|done]. destruct D. rewrite elem_of_seq. split; [lia|done].
    - rewrite decide_False by (rewrite elem_of_seq; lia). rewrite !lookup_ge_None_2; [done|lia|rewrite Ho, length_replicate; lia]. }
  rewrite <- Hf. done.
Qed.

(** fork() once the child's memory is made. *)
Lemma fork_tail np q tf root k2 L' l2 vs' : k_procs k !! np = Some q -> pr_state q = UNUSED -> i <> np -> page_ok tf -> tf ∉ l2 ++ nodes L' -> tf ∈ l ->
  uvmst k2 root (top_map tf) L' l2 vs' -> memstep l (alloc_base k np (<[np := newborn (k_nextpid k) tf root q]> (k_procs k))) k2 ->
  exists k' fs, (modproc np (set_pr_sz (pr_sz p));;
      regs ← read_bytes (pr_trapframe p) TF_SIZE;
      write_bytes tf regs;;
      tf_write np TF_A0 0;;
      forM (seq 0 NOFILE) (fork_file i np);;
      cwd ← (match pr_cwd p with Some c => idup c | None => panic "kerneltrap" end);
      modproc np (set_pr_cwd (Some cwd));;
      modproc np (set_name (pr_name p));;
      q ← getproc np;
      release (LProc np);;
      acquire LWait;;
      modproc np (set_pr_parent (Some i));;
      release LWait;;
      acquire (LProc np);;
      modproc np (set_pr_state RUNNABLE);;
      release (LProc np);;
      mret (pr_pid q)) k2 = Ret (k_nextpid k) k' /\
    duped (pr_ofile p) (seq 0 NOFILE) (k_files k) fs /\ uvmst k' root (top_map tf) L' l2 vs' /\
    child_regs (k_mem k2) (k_mem k') (pr_trapframe p) tf /\ memstep [tf] (set_k_mem (k_mem k2) k') k' /\
    memstep l (set_k_files fs (set_k_inodes (<[c := set_i_ref (i_ref ip + 1) ip]> (k_inodes k))
      (set_k_procs (<[np := fork_child i p c (k_nextpid k) tf root q]> (k_procs k)) (set_k_nextpid (i32 (k_nextpid k + 1)) k)))) k'.
Proof.
  intros Hnp Hs Hne Ptf Htf Htl U M. pose proof (fp_quiet _ _ _ _ _ _ _ _ P) as Q. pose proof (lookup_lt_Some _ _ _ Hnp) as Hlt.
  set (q1 := newborn (k_nextpid k) tf root q) in *. mcall (modproc_eq _ _ _). rewrite (ms_procs _ _ _ M). unfold alloc_base at 1. ksimpl. rewrite alter_insert_same by done.
  set (q2 := set_pr_sz (pr_sz p) q1). set (ps2 := <[np := q2]> (k_procs k)). set (k3 := set_k_procs ps2 k2).
  unfold read_bytes, write_bytes. mstep. change (k_mem k3) with (k_mem k2).
  assert (k_procs (set_k_mem (stn (k_mem k2) tf (ldn (k_mem k2) (pr_trapframe p) TF_SIZE)) k3) !! np = Some q2) as Hq2 by (by apply list_lookup_insert_eq).
  unfold tf_write at 1. rewrite bind_bind. mcall (getproc_eq _ _ _ Hq2). unfold write64. mstep. ksimpl. change (pr_trapframe q2) with tf.
  set (m4 := st64 _ _ _). destruct (child_regs_ok (k_mem k2) (pr_trapframe p) tf) as [Hregs Hsame]. specialize (Hsame m4 eq_refl). fold m4 in Hregs.
  destruct (uvmst_page k2 root _ L' l2 vs' tf m4 U Ptf Htf Hsame) as [U4 Mtf].
  set (k4 := set_k_mem m4 (set_k_mem _ k3)).
  assert (memstep l (alloc_base k np ps2) k4) as M4.
  { pose proof (memstep_procs _ _ _ ps2 M) as M1. pose proof (memstep_procs _ _ _ ps2 Mtf) as M2. eapply memstep_weaken; [exact (memstep_trans _ _ _ _ _ M1 M2)|].
    intros x. rewrite elem_of_app, list_elem_of_singleton. by intros [| ->]. }
  assert (k_mem k4 = m4 /\ k_freelist k4 = k_freelist k2) as [Em4 Efl] by done. clearbody k4 m4.
  assert (k_hart k4 = push_hart (k_hart k)) as Eh by (by rewrite (ms_hart _ _ _ M4)).
  assert (k_locks k4 = <[LProc np := h_id (k_hart k)]> (k_locks k)) as El by (by rewrite (ms_locks _ _ _ M4)).
  assert (hart_ok (k_hart k)) as Hh by (eapply quiet_hart, Q). assert (forall lk, k_locks k !! lk = None) as Hlk by (intros lk; eapply quiet_lock, Q).
  destruct (fork_ofile np q2 k4) as (fs & Ef & Hd); try done.
  { rewrite Eh. by apply hart_ok_push. }
  { by rewrite El, lookup_insert_ne. }
  { rewrite (ms_procs _ _ _ M4). unfold alloc_base, ps2. ksimpl. rewrite list_lookup_insert_ne by done. apply Q. }
  { rewrite (ms_procs _ _ _ M4). by apply list_lookup_insert_eq. }
  { by destruct (fp_clean _ _ _ _ _ _ _ _ P np q Hnp Hs) as (_ & _ & _ & ?). }
  { by rewrite (ms_k _ _ _ M4). }
  mcall Ef. destruct (fp_cwd _ _ _ _ _ _ _ _ P) as (Ec & Hip & Hir). rewrite Ec. set (k5 := set_k_files fs _).
  assert (k_inodes k4 = k_inodes k) as Ei by (by rewrite (ms_k _ _ _ M4)).
  mcall (idup_eq k5 c ip ltac:(change (k_hart k5) with (k_hart k4); rewrite Eh; by apply hart_ok_push)
    ltac:(change (k_locks k5) with (k_locks k4); by rewrite El, lookup_insert_ne) ltac:(change (k_inodes k5) with (k_inodes k4); by rewrite Ei) Hir).
  mcall (modproc_eq _ _ _). mcall (modproc_eq _ _ _). set (k6 := set_k_procs _ (set_k_procs _ _)).
  assert (k_procs k6 = <[np := set_name (pr_name p) (set_pr_cwd (Some c) (set_pr_ofile (pr_ofile p) q2))]> (k_procs k)) as Ep6.
  { unfold k6, k5. ksimpl. rewrite (ms_procs _ _ _ M4). unfold alloc_base, ps2. ksimpl. rewrite list_insert_insert_eq, !alter_insert_same by (by rewrite ?length_insert). done. }
  mcall (getproc_eq k6 np _ ltac:(rewrite Ep6; by apply list_lookup_insert_eq)).
  mcall (release_proc k np k6) by (done || apply Hlk). rewrite locked_modproc by (done || apply Hlk). rewrite locked_modproc by (done || apply Hlk).
  eexists _, fs. split; [done|]. split; [exact Hd|].
  set (psF := <[np := fork_child i p c (k_nextpid k) tf root q]> (k_procs k)).
  match goal with |- uvmst ?x _ _ _ _ _ /\ _ => set (k' := x) end.
  assert (k_procs k' = psF) as Epf.
  { unfold k'. ksimpl. rewrite Ep6, !alter_insert_same by (by rewrite ?length_insert). unfold psF, fork_child, q2, q1. reflexivity. }
  assert (k' = set_k_files fs (set_k_inodes (<[c := set_i_ref (i_ref ip + 1) ip]> (k_inodes k)) (set_k_procs psF (set_k_locks (k_locks k) (set_k_hart (k_hart k) k4))))) as Ek'.
  { rewrite <- Epf, <- Ei. reflexivity. }
  clearbody k'. subst k'. split; [|split; [ksimpl; by rewrite Em4|split]].
  - apply (uvmst_ext (set_k_mem m4 k2)); [exact U4| |exact Em4]. eapply alloc_ok_ext; [apply U4|done|apply Hlk|exact Em4|exact Efl].
  - split; [by destruct k4|]. intros a Ha. ksimpl. rewrite Em4. apply Hsame, Ha. by left.
  - pose proof (memstep_upd l _ _ (fun k' => set_k_files fs (set_k_inodes (<[c := set_i_ref (i_ref ip + 1) ip]> (k_inodes k)) (set_k_procs psF
      (set_k_locks (k_locks k) (set_k_hart (k_hart k) k'))))) (fun _ _ _ => eq_refl) (fun _ => conj eq_refl eq_refl) M4) as MF. cbv beta in MF.
    match goal with |- memstep _ ?x _ => match type of MF with memstep _ ?y _ => replace x with y by (unfold alloc_base, acq; by destruct k) end end. exact MF.
Qed.

(** What fork() returns and leaves behind.  On failure (-1) there is no free slot or
    not enough memory, every page is back on the free list, and at most a free slot
    has been reset.  On success a free slot is a runnable copy of the parent. *)
Inductive fork_res : Z -> kst -> Prop :=
| ForkFail ps pid k' l' :
    (forall j q, k_procs k !! j = Some q -> pr_state q <> UNUSED) \/ (length l < 6 + 3 * length vs)%nat ->
    ps = k_procs k \/ (exists np q ctx, k_procs k !! np = Some q /\ pr_state q = UNUSED /\ ps = <[np := freed (set_pr_ctx ctx q)]> (k_procs k)) ->
    alloc_ok k' l' -> l' ≡ₚ l -> memstep l (set_k_procs ps (set_k_nextpid pid k)) k' -> fork_res (-1) k'
| ForkOk np q tf root L' vs' l' fs k' :
    k_procs k !! np = Some q -> pr_state q = UNUSED ->
    alloc_ok k' l' -> l ≡ₚ (tf :: (PTE2PA <$> vs') ++ nodes L') ++ l' ->
    uvm (k_mem k') root (top_map tf) L' vs' -> page_ok tf -> PTE_FLAGS <$> vs' = PTE_FLAGS <$> vs ->
    (forall va, 0 <= va -> vpn va < Z.of_nat (length vs) -> ubyte (k_mem k') root va = ubyte (k_mem k) (pr_pagetable p) va) ->
    child_regs (k_mem k) (k_mem k') (pr_trapframe p) tf ->
    duped (pr_ofile p) (seq 0 NOFILE) (k_files k) fs ->
    memstep l (set_k_files fs (set_k_inodes (<[c := set_i_ref (i_ref ip + 1) ip]> (k_inodes k))
      (set_k_procs (<[np := fork_child i p c (k_nextpid k) tf root q]> (k_procs k)) (set_k_nextpid (i32 (k_nextpid k + 1)) k)))) k' ->
    fork_res (k_nextpid k) k'.

(** Nothing of the parent is on the free list. *)
Lemma parent_disjoint q : q ∈ pr_trapframe p :: (PTE2PA <$> vs) ++ nodes L -> q ∉ l.
Proof. intros Hq. pose proof (fp_nodup _ _ _ _ _ _ _ _ P) as Hnd. apply NoDup_app in Hnd as (_ & Hd & _). by apply Hd. Qed.

Lemma parent_pages : Forall page_ok (pr_trapframe p :: (PTE2PA <$> vs) ++ nodes L).
Proof. constructor; [apply P|]. apply Forall_app. split; [apply (fp_uvm _ _ _ _ _ _ _ _ P)|eapply nodes_pages, (fp_uvm _ _ _ _ _ _ _ _ P)]. Qed.

(** The parent's pages are as they were after any step on free pages. *)
Lemma parent_same k0 k1 : k_mem k0 = k_mem k -> memstep l k0 k1 -> Forall page_ok l -> same_pages (pr_trapframe p :: (PTE2PA <$> vs) ++ nodes L) (k_mem k) (k_mem k1).
Proof.
  intros E M Pl. eapply (memstep_same _ _ _ _ _ M Pl parent_pages); [|by rewrite E]. intros q Hq Hq'. by apply (parent_disjoint q).
Qed.

Lemma fork_ok : exists r k', fork k = Ret r k' /\ fork_res r k'.
Proof.
  pose proof P as [Q Hf Hclean Ptf U Hsz Hlen Hnd _ _ _]. pose proof (q_run _ _ _ Q) as HR. assert (alloc_ok k l) as A.
  { split; [eapply quiet_hart, Q|eapply quiet_lock, Q|exact Hf]. }
  pose proof (alloc_pages _ _ A) as Pl. unfold fork. mcall (curproc_eq k i p HR).
  destruct (allocproc_ok k l) as (r & k1 & E & Hres); [eapply quiet_hart, Q|eapply quiet_plocks, Q|eapply quiet_lock, Q|done|done|apply Q|].
  mcall E. destruct Hres as [Hno|np q k' l' Hnp Hs Hc A' HP M|np q tf root Lc k' l' Hnp Hs Ptf' U' HP Hle M].
  { exists (-1), k. split; [done|]. apply (ForkFail (k_procs k) (k_nextpid k) k l); [by left|by left|done|done|].
    replace (set_k_procs _ _) with k by (by destruct k). apply memstep_refl. }
  { exists (-1), k'. split; [done|]. eapply ForkFail; [right; lia| |done|done|exact M]. right. exists np, q, (pr_ctx q). split_and!; try done. }
  assert (i <> np) as Hne.
  { intros <-. destruct HR as (_ & _ & Hi). rewrite Hi in Hnp. injection Hnp as ->. rewrite (q_state _ _ _ Q) in Hs. done. }
  set (q1 := newborn (k_nextpid k) tf root q) in *. pose proof (lookup_lt_Some _ _ _ Hnp) as Hlt.
  mcall (getproc_eq k' i p ltac:(rewrite (ms_procs _ _ _ M); unfold alloc_base; ksimpl; rewrite list_lookup_insert_ne by done; apply HR)).
  mcall (getproc_eq k' np q1 ltac:(rewrite (ms_procs _ _ _ M); unfold alloc_base; ksimpl; by apply list_lookup_insert_eq)).
  pose proof (parent_same (alloc_base k np (<[np := q1]> (k_procs k))) k' eq_refl M Pl) as Hsame.
  destruct (uvmcopy_ok k' (pr_pagetable p) (top_map (pr_trapframe p)) L vs root (top_map tf) Lc l' (pr_sz p)) as (r & k2 & L2 & l2 & E2 & M2 & Hr).
  { unfold TRAPFRAME, TRAMPOLINE in Hsz. lia. }
  { done. }
  { intros j Hj. apply top_map_none. destruct (npages_eq (pr_sz p)) as (En & _ & Cn); [unfold TRAPFRAME, TRAMPOLINE in Hsz; lia|]. rewrite Hlen in Hj.
    unfold TRAPFRAME, TRAMPOLINE in Hsz. unfold npages in *. rewrite PGROUNDUP_eq in * by lia. dlia. }
  { eapply uvm_frame; [exact U|]. intros x a Hx. apply Hsame. elems. }
  { exact U'. }
  { intros x Hx Hx'. apply (parent_disjoint x); [elems|]. rewrite HP. elems. }
  change (pr_pagetable q1) with root. mcall E2. change (pr_trapframe q1) with tf.
  assert (memstep l (alloc_base k np (<[np := q1]> (k_procs k))) k2) as M12.
  { eapply memstep_weaken; [exact (memstep_trans _ _ _ _ _ M M2)|]. intros x. rewrite HP. elems. }
  assert (tf ∉ l' ++ nodes Lc) as Htf by (destruct A as [_ _ [_ Hn]]; rewrite HP in Hn; by apply NoDup_cons in Hn as [? _]).
  destruct Hr as [(-> & ps & HF & U2 & HP2)|(-> & Hc & U2 & HP2)]; cbn [Z.ltb Z.compare].
  - assert (Forall page_ok ps) as Pps by (rewrite HP, HP2 in Pl; apply Forall_cons in Pl as [_ Pl]; by apply Forall_app in Pl as [? _]).
    assert (length ps = length vs) as Elen by (symmetry; by eapply Forall2_length).
    destruct (fork_tail np q tf root k2 L2 l2 (zip_with copy_pte vs ps)) as (k3 & fs & E3 & Hd & U3 & Hregs & Mtf & M3); try done.
    { intros Hx. apply Htf. rewrite HP2. elems. }
    { rewrite HP. by left. }
    rewrite E3. exists (k_nextpid k), k3. split; [done|].
    eapply (ForkOk np q tf root L2 (zip_with copy_pte vs ps) l2 fs k3); try done; [apply U3|rewrite HP, HP2, copy_ptes by (done || lia); cbn [app]; by rewrite <- app_assoc, (Permutation_app_comm l2)|apply U3|..].
    + apply copy_flags; [done..|]. apply Forall_lookup. intros j v Hv. by eapply uvm_valid.
    + intros va Hva Hlt'. apply (copied_ubyte (k_mem k) (k_mem k3) (pr_pagetable p) (top_map (pr_trapframe p)) L vs root (top_map tf) L2 ps va U); try done; [apply U3|].
      apply Forall2_same_length_lookup_2; [done|]. intros j v pg Hv Hpg o Ho. pose proof (Forall2_lookup_lr _ _ _ _ _ _ HF Hv Hpg) as Hcp.
      assert (pg ∈ ps) as Hin by (by eapply list_elem_of_lookup_2). rewrite (ms_mem _ _ _ Mtf).
      * ksimpl. rewrite (Hcp o Ho). apply (Hsame (PTE2PA v)); [|lia]. right. apply elem_of_app. left. apply list_elem_of_fmap_2. by eapply list_elem_of_lookup_2.
      * intros x ->%list_elem_of_singleton Hr. rewrite Forall_forall in Pps. destruct (page_disjoint _ _ (Pps _ Hin) Ptf'); [|lia..].
        intros ->. apply Htf. rewrite HP2. elems.
    + intros o Ho. rewrite (Hregs o Ho). destruct (decide _); [done|]. pose proof (parent_same (alloc_base k np (<[np := q1]> (k_procs k))) k2 eq_refl M12 Pl) as Hs2.
      apply (Hs2 (pr_trapframe p)); [by left|lia].
  - destruct (fp_clean _ _ _ _ _ _ _ _ P np q Hnp Hs) as (_ & _ & Hsz0 & _).
    destruct (allocproc_undo k l np q (quiet_plocks _ _ _ Q) A Hnp (<[np := q1]> (k_procs k)) q1 k2 l2 (tf :: (PTE2PA <$> []) ++ nodes L2)) as (k3 & l3 & E3 & A3 & HP3 & M3); try done.
    { by apply list_lookup_insert_eq. }
    { apply U2. }
    { apply (pmem_full _ q1); [done|apply U2|change (pr_sz q1) with (pr_sz q); rewrite Hsz0; done..]. }
    { cbn [fmap list_fmap app]. by rewrite HP, HP2, (Permutation_app_comm l2). }
    rewrite E3. exists (-1), k3. split; [done|]. rewrite list_insert_insert_eq in M3. eapply ForkFail; [right; lia|right; by exists np, q, (pr_ctx q1)|exact A3|exact HP3|exact M3].
Qed.

(** C9: fork() from a running process with no spinlock held, whose page table is
    well-formed and shares no page with the free list, whose files and current
    directory are open with reference counts below the limit of an int, and with
    free slots that own no memory, either returns -1, only when no slot is free or
    fewer than 6 + 3 * n pages are, for a process of n pages, with every physical
    page back on the free list, or makes a free slot a runnable copy of the caller and returns its new pid: the
    child reads the same byte as the parent at every user address, in pages that were
    free and with the same permissions; its registers are the parent's but for a0,
    which is 0; it shares the open files and the current directory, each descriptor
    with one more reference; and nothing else, the parent's memory included, has
    changed, but nextpid. *)
Theorem fork_correct : exists r k', fork k = Ret r k' /\ fork_res r k'.
Proof. exact fork_ok. Qed.

End fork.

(** ** wait() *)

Lemma alloc_ok_same k l m' : alloc_ok k l -> same_pages l (k_mem k) m' -> alloc_ok (set_k_mem m' k) l.
Proof.
  intros [Hh Hl [Hf Hnd]] Hs. split; [done..|]. split; [|done]. ksimpl. clear -Hf Hs. revert Hf Hs. generalize (k_freelist k).
  induction l as [|p l IH]; intros h; cbn [free_rep]; [done|]. intros (-> & Hp & Hf) Hs. split; [done|]. split; [done|].
  replace (ld64 m' p) with (ld64 (k_mem k) p).
  - apply IH; [done|]. intros q a Hq. apply Hs. by right.
  - symmetry. apply ld64_ext. intros b Hb. apply (Hs p); [by left|lia].
Qed.

Lemma pmem_frame m m' p pages : pmem m p pages -> same_pages pages m m' -> pmem m' p pages.
Proof.
  intros H Hs. destruct H as [?|?|L vs ? U]; [by apply pmem_none|by apply pmem_tf|]. apply (pmem_full m' p L vs); try done.
  eapply uvm_frame; [exact U|]. intros q a Hq. apply Hs. elems.
Qed.

(** The pages of a process are determined by the memory. *)
Lemma pmem_inj m p pages pages' : pmem m p pages -> pmem m p pages' -> pages = pages'.
Proof.
  assert (forall q, page_ok q -> q <> 0) as Hnz by (intros q Hq; pose proof (page_ok_range q Hq); lia).
  assert (forall L vs, uvm m (pr_pagetable p) (top_map (pr_trapframe p)) L vs -> pr_pagetable p <> 0) as Hroot.
  { intros L vs U. apply Hnz. by apply (wf_page _ _ _ (uv_wf _ _ _ _ _ U) _ 2), U. }
  intros H H'. destruct H as [Ht Hp|Ptf Hp|L vs Ptf U Hsz Hlen], H' as [Ht' Hp'|Ptf' Hp'|L' vs' Ptf' U' Hsz' Hlen']; try done;
    try (by destruct (Hnz _ Ptf)); try (by destruct (Hnz _ Ptf')); try (by destruct (Hroot _ _ U)); try (by destruct (Hroot _ _ U')).
  destruct (uvm_inj m _ _ L L' vs vs' U U') as [-> ->]; [congruence|done].
Qed.

Lemma pmem_pages m p pages : pmem m p pages -> Forall page_ok pages.
Proof.
  intros H. destruct H as [?|Ptf ?|L vs Ptf U]; [constructor|by apply Forall_singleton|]. constructor; [done|].
  apply Forall_app. split; [apply U|eapply nodes_pages, U].
Qed.

(** The leaves above the user memory are not accessible to the user. *)
Lemma top_map_user tf i v : page_ok tf -> top_map tf !! i = Some v -> has v PTE_U = false.
Proof.
  intros Ptf. destruct (page_ok_range tf Ptf) as [Rtf Atf]. pose proof trampoline_range. pose proof trampoline_aligned.
  unfold top_map. intros [[_ <-]|[_ [_ <-]%lookup_singleton_Some]]%lookup_insert_Some; by rewrite has_flags, leaf_flags by (done || lia).
Qed.

Lemma uvm_upage_inv m root tf L vs va pa : uvm m root (top_map tf) L vs -> page_ok tf -> 0 <= va -> upage m root va = Some pa ->
  exists v, vs !! Z.to_nat (vpn va) = Some v /\ pa = PTE2PA v.
Proof.
  intros U Ptf Hva. unfold upage. destruct (MAXVA <=? va) eqn:E; [done|]. rewrite (uv_map _ _ _ _ _ U) by lia.
  destruct (decide _) as [D|D].
  - destruct (vs !! Z.to_nat (vpn va)) as [v|]; [|done]. cbn [mbind option_bind]. destruct (has v PTE_U); [|done]. cbn [negb].
    destruct (PTE2PA v =? 0); [done|]. intros [= <-]. by exists v.
  - destruct (top_map tf !! vpn va) as [v|] eqn:Ev; [|done]. cbn [mbind option_bind]. by rewrite (top_map_user tf _ v Ptf Ev).
Qed.

Lemma uvm_uspace m root tf L vs : uvm m root (top_map tf) L vs -> page_ok tf -> NoDup ((PTE2PA <$> vs) ++ nodes L) -> uspace m root L.
Proof.
  intros U Ptf Hnd. apply NoDup_app in Hnd as (Hnd & Hd & _). pose proof (uv_page _ _ _ _ _ U) as Hp. rewrite Forall_forall in Hp.
  assert (forall va pa, 0 <= va -> upage m root va = Some pa -> pa ∈ PTE2PA <$> vs) as Hin.
  { intros va pa Hva (v & Hv & ->)%(uvm_upage_inv _ _ tf L vs); try done. apply list_elem_of_fmap_2. by eapply list_elem_of_lookup_2. }
  constructor; [apply U|..].
  - intros va pa Hva Hpa. apply (Hp pa). by apply (Hin va).
  - intros va pa q lq Hva Hpa Hq. destruct (wf_page _ _ _ (uv_wf _ _ _ _ _ U) q lq Hq) as [Pq _].
    apply page_disjoint; [by apply Hp, (Hin va)|done|]. intros ->. apply (Hd q); [by apply (Hin va)|]. apply elem_of_nodes. by exists lq.
  - intros va va' pa Hva Hva' (v & Hv & ->)%(uvm_upage_inv _ _ tf L vs) (v' & Hv' & E)%(uvm_upage_inv _ _ tf L vs); try done.
    assert (Z.to_nat (vpn va) = Z.to_nat (vpn va')) as En; [|unfold vpn in *; dlia].
    eapply (NoDup_lookup (PTE2PA <$> vs)); [done|by rewrite list_lookup_fmap, Hv|]. rewrite list_lookup_fmap, Hv'. cbn. by rewrite E.
Qed.

(** Pages that are not the caller's memory are not changed by a copyout() to it. *)
Lemma only_user_same m m' root tf L vs va n qs : uvm m root (top_map tf) L vs -> page_ok tf -> only_user m m' root L va n ->
  Forall page_ok qs -> (forall q, q ∈ qs -> q ∉ PTE2PA <$> vs) -> same_pages qs m m'.
Proof.
  intros U Ptf O Pq Hd q a Hq Ha. apply (ou_other _ _ _ _ _ _ O). intros v Hv. unfold uaddr.
  destruct (upage m root v) as [pa|] eqn:Hp; [|done]. cbn [mbind option_bind]. intros [= E].
  destruct (uvm_upage_inv _ _ tf L vs v pa U Ptf Hv Hp) as (w & Hw & ->).
  assert (PTE2PA w ∈ PTE2PA <$> vs) as Hin by (apply list_elem_of_fmap_2; by eapply list_elem_of_lookup_2).
  pose proof (uv_page _ _ _ _ _ U) as Hpg. rewrite Forall_forall in Hpg, Pq.
  destruct (page_disjoint _ _ (Hpg _ Hin) (Pq _ Hq)) as [|]; [intros He; apply (Hd q Hq); by rewrite <- He|..]; dlia.
Qed.

(** Is [q] a child of [i], and one that has exited? *)
Definition is_child (i : nat) (q : proc) : bool := bool_decide (pr_parent q = Some i).
Definition is_dead (i : nat) (q : proc) : bool := is_child i q && bool_decide (pr_state q = ZOMBIE).

Definition child_at (i : nat) (k : kst) (j : nat) : bool := if k_procs k !! j is Some q then is_child i q else false.

(** wait() passes over slots that are not dead children. *)
Lemma wait_scan_skip ls : forall rest i addr hk k, hart_ok (k_hart k) -> plocks_free k ->
  (forall j, j ∈ ls -> exists q, k_procs k !! j = Some q /\ is_dead i q = false) ->
  wait_scan (ls ++ rest) i addr hk k = wait_scan rest i addr (hk || existsb (child_at i k) ls) k.
Proof.
  induction ls as [|j ls IH]; intros rest i addr hk k Hh Hl Hq; [by rewrite orb_false_r|].
  destruct (Hq j ltac:(by left)) as (q & Hj & Hd). cbn [app wait_scan existsb]. mcall (getproc_eq k j q Hj).
  unfold child_at at 1. rewrite Hj. unfold is_dead, is_child in *.
  assert (forall x, x ∈ ls -> exists q, k_procs k !! x = Some q /\ is_dead i q = false) as Hq' by (intros x Hx; apply Hq; by right).
  destruct (bool_decide (pr_parent q = Some i)); [|by rewrite IH; [destruct hk|..]].
  cbn [andb] in Hd. mcall (acquire_eq _ _ (Hl j)). mcall (getproc_eq (acq (LProc j) k) j q Hj). rewrite Hd.
  mcall (release_proc k j (acq (LProc j) k)) by done. assert (set_k_locks (k_locks k) (set_k_hart (k_hart k) (acq (LProc j) k)) = k) as -> by (by destruct k).
  rewrite IH by done. by destruct hk.
Qed.

(** What wait() needs of the state; [own] are the caller's pages. *)
Record wait_pre (k : kst) (i : nat) (p : proc) (l : list Z) (L : gmap Z Z) (vs : list Z) : Prop := WaitPre {
  wp_quiet : quiet k i p;
  wp_free : kmem_inv k l;
  wp_tf : page_ok (pr_trapframe p);
  wp_uvm : uvm (k_mem k) (pr_pagetable p) (top_map (pr_trapframe p)) L vs;
  wp_nodup : NoDup (((PTE2PA <$> vs) ++ nodes L) ++ l);
  wp_child : forall j q, k_procs k !! j = Some q -> is_dead i q = true -> exists pages, pmem (k_mem k) q pages /\ NoDup (pages ++ ((PTE2PA <$> vs) ++ nodes L) ++ l) }.

(** The ways wait(addr) ends: a dead child is reaped, with its exit status stored
    and all its pages freed; the status cannot be stored; there is nothing to wait
    for; the caller sleeps. *)
Inductive wait_res (k : kst) (i : nat) (p : proc) (l : list Z) (L : gmap Z Z) (addr : Z) : outcome Z -> Prop :=
| WaitReap j q pages m1 l' k' : k_procs k !! j = Some q -> is_dead i q = true -> pmem (k_mem k) q pages ->
    (addr = 0 /\ m1 = k_mem k) \/
      (only_user (k_mem k) m1 (pr_pagetable p) L addr 4 /\ written (k_mem k) m1 (pr_pagetable p) addr (bytes_of 4 (pr_xstate q))) ->
    alloc_ok k' l' -> l' ≡ₚ pages ++ l ->
    memstep (pages ++ l) (set_k_mem m1 (set_k_procs (<[j := freed q]> (k_procs k)) k)) k' -> wait_res k i p l L addr (Ret (pr_pid q) k')
| WaitFault m1 : addr <> 0 -> ~ accessible (k_mem k) (pr_pagetable p) addr 4 -> only_user (k_mem k) m1 (pr_pagetable p) L addr 4 ->
    (exists j q, k_procs k !! j = Some q /\ is_dead i q = true) -> wait_res k i p l L addr (Ret (-1) (set_k_mem m1 k))
| WaitNone : (forall j q, k_procs k !! j = Some q -> is_dead i q = false) ->
    (forall j q, k_procs k !! j = Some q -> is_child i q = false) \/ pr_killed p <> 0 -> wait_res k i p l L addr (Ret (-1) k)
| WaitSleep : (forall j q, k_procs k !! j = Some q -> is_dead i q = false) -> pr_killed p = 0 ->
    (exists j q, k_procs k !! j = Some q /\ is_child i q = true) ->
    wait_res k i p l L addr (Blocked (WSleep (ChProc i) 0) (asleep (ChProc i) LWait i (acq LWait k))).

Lemma split_dead i k ls : (forall j, j ∈ ls -> exists q, k_procs k !! j = Some q) ->
  (forall j, j ∈ ls -> exists q, k_procs k !! j = Some q /\ is_dead i q = false) \/
  (exists pre j rest q, ls = pre ++ j :: rest /\ (forall j, j ∈ pre -> exists q, k_procs k !! j = Some q /\ is_dead i q = false) /\ k_procs k !! j = Some q /\ is_dead i q = true).
Proof.
  induction ls as [|j ls IH]; intros Hl; [left; by intros j ?%not_elem_of_nil|].
  destruct (Hl j ltac:(by left)) as [q Hj]. destruct (is_dead i q) eqn:Hd.
  { right. exists [], j, ls, q. split; [done|]. split; [by intros x ?%not_elem_of_nil|done]. }
  destruct IH as [IH|(pre & x & rest & qx & -> & Hp & Hx)]; [intros x Hx; apply Hl; by right|left|right].
  - intros x [->|Hx]%elem_of_cons; [by exists q|by apply IH].
  - exists (j :: pre), x, rest, qx. split; [done|]. split; [|done]. intros y [->|Hy]%elem_of_cons; [by exists q|by apply Hp].
Qed.

Section wait.
Context (k : kst) (i : nat) (p : proc) (l : list Z) (L : gmap Z Z) (vs : list Z) (addr : Z).
Hypothesis W : wait_pre k i p l L vs.
Hypothesis Haddr : 0 <= addr.

Lemma wait_alloc : alloc_ok k l.
Proof. pose proof (wp_quiet _ _ _ _ _ _ W) as Q. split; [eapply quiet_hart, Q|eapply quiet_lock, Q|apply W]. Qed.

(** The exit status goes to user memory and nothing of the child or the free list changes. *)
Lemma wait_copyout q pages kp : pmem (k_mem k) q pages -> NoDup (pages ++ ((PTE2PA <$> vs) ++ nodes L) ++ l) -> k_mem kp = k_mem k ->
  exists r m1, (if addr =? 0 then mret 0 else copyout (pr_pagetable p) addr (bytes_of 4 (pr_xstate q))) kp = Ret r (set_k_mem m1 kp) /\
    same_pages (pages ++ l) (k_mem k) m1 /\
    ((r = 0 /\ ((addr = 0 /\ m1 = k_mem k) \/
      (only_user (k_mem k) m1 (pr_pagetable p) L addr 4 /\ written (k_mem k) m1 (pr_pagetable p) addr (bytes_of 4 (pr_xstate q))))) \/
     (r = -1 /\ addr <> 0 /\ ~ accessible (k_mem k) (pr_pagetable p) addr 4 /\ only_user (k_mem k) m1 (pr_pagetable p) L addr 4)).
Proof.
  intros Hm Hnd Ek. pose proof W as [_ _ Ptf U Hnd' _]. destruct (addr =? 0) eqn:E0.
  { exists 0, (k_mem k). split; [|split; [done|left; split; [done|left; split; [lia|done]]]]. rewrite <- Ek. unfold mret, M_ret. f_equal. by destruct kp. }
  apply NoDup_app in Hnd' as (Hown & _ & _). pose proof (uvm_uspace _ _ _ _ _ U Ptf Hown) as US. rewrite <- Ek in US.
  destruct (copyout_loop_ok (pr_pagetable p) L (S (length (bytes_of 4 (pr_xstate q)))) kp addr (bytes_of 4 (pr_xstate q)) US Haddr) as (r & m1 & E & O & H).
  { lia. }
  { apply bytes_of_ok. }
  rewrite length_bytes_of in O, H. change (Z.to_nat 4) with 4%nat in *. rewrite Ek in O, H.
  exists r, m1. split; [exact E|]. split; [|destruct H as [(-> & _ & H)|[-> H]]; [left; split; [done|by right]|right; split; [done|]; split; [lia|done]]].
  eapply only_user_same; [exact U|done|exact O|..].
  - apply Forall_app. split; [by eapply pmem_pages|eapply alloc_pages, wait_alloc].
  - intros x Hx Hv. apply NoDup_app in Hnd as (_ & Hd & Hnd). apply NoDup_app in Hnd as (_ & Hd' & _).
    apply elem_of_app in Hx as [Hx|Hx]; [apply (Hd x Hx); elems|apply (Hd' x); [elems|done]].
Qed.

(** The scan at a dead child. *)
Lemma wait_scan_dead j q rest hk : k_procs k !! j = Some q -> is_dead i q = true ->
  exists r k', wait_scan (j :: rest) i addr hk (acq LWait k) = Ret (inl r) k' /\ wait_res k i p l L addr (Ret r k').
Proof.
  intros Hj Hdead. pose proof W as [Q Hf Ptf U Hnd Hch]. pose proof (q_run _ _ _ Q) as HR. pose proof (quiet_hart _ _ _ Q) as Hh.
  assert (forall lk, k_locks k !! lk = None) as Hlk by (intros lk; eapply quiet_lock, Q).
  destruct (Hch j q Hj Hdead) as (pages & Hm & Hndp). set (kw := acq LWait k).
  assert (hart_ok (k_hart kw)) as Hhw by (by apply hart_ok_push).
  assert (k_locks kw !! LProc j = None) as Hlj by (unfold kw, acq; ksimpl; by rewrite lookup_insert_ne).
  unfold is_dead, is_child in Hdead. apply andb_true_iff in Hdead as [Hc Hz]. cbn [wait_scan]. mcall (getproc_eq kw j q Hj). rewrite Hc.
  mcall (acquire_eq _ _ Hlj). set (kp := acq (LProc j) kw). mcall (getproc_eq kp j q Hj). rewrite Hz. mcall (getproc_eq kp i p ltac:(apply HR)).
  destruct (wait_copyout q pages kp Hm Hndp eq_refl) as (r & m1 & E & Hs & Hr). mcall E.
  assert (set_k_locks (k_locks k) (set_k_hart (k_hart k) (set_k_locks (k_locks kw) (set_k_hart (k_hart kw) (set_k_mem m1 kp)))) = set_k_mem m1 k) as Eback by (by destruct k).
  destruct Hr as [(-> & Hr)|(-> & Ha0 & Hacc & O)]; cbn [Z.ltb Z.compare].
  2: { mcall (release_proc kw j (set_k_mem m1 kp)) by done. mcall (release_after LWait k) by (done || apply Hlk). rewrite Eback.
       eexists _, _. split; [done|]. apply WaitFault; [done..|]. exists j, q. split; [done|]. unfold is_dead, is_child. by rewrite Hc, Hz. }
  assert (alloc_ok (set_k_mem m1 kp) l) as A1.
  { apply alloc_ok_same; [|intros x a Hx; apply Hs; elems]. eapply alloc_ok_ext; [apply wait_alloc|by apply hart_ok_push|unfold kp, kw, acq; ksimpl; by rewrite !lookup_insert_ne|done|done]. }
  assert (pmem (k_mem (set_k_mem m1 kp)) q pages) as Hm1 by (eapply pmem_frame; [exact Hm|]; intros x a Hx; apply Hs; elems).
  assert (NoDup (pages ++ l)) as Hndl.
  { apply NoDup_app in Hndp as (N1 & D & N2). apply NoDup_app in N2 as (_ & _ & N2). apply NoDup_app. split; [done|]. split; [|done]. intros x Hx Hx'. apply (D x Hx). elems. }
  destruct (freeproc_ok (set_k_mem m1 kp) j q l pages Hj A1 Hm1 Hndl) as (k2 & l' & E2 & A2 & HP & M2). mcall E2.
  mcall (release_proc kw j k2) by (first [done|by rewrite (ms_hart _ _ _ M2)|by rewrite (ms_locks _ _ _ M2)]).
  mcall (release_after LWait k) by (done || apply Hlk). eexists _, _. split; [done|].
  eapply (WaitReap k i p l L addr j q pages m1 l'); try done.
  - unfold is_dead, is_child. by rewrite Hc, Hz.
  - eapply alloc_ok_ext; [exact A2|done|apply Hlk|done|done].
  - pose proof (memstep_unlock _ _ _ (k_hart k) (k_locks k) (memstep_unlock _ _ _ (k_hart kw) (k_locks kw) M2)) as MF.
    match goal with |- memstep _ ?x _ => match type of MF with memstep _ ?y _ => replace x with y by (by destruct k) end end. exact MF.
Qed.

(** C11: wait(addr) of a running process with no spinlock held, addr not negative,
    where the pages of the caller, of each dead child and of the free list are
    disjoint.  With a dead child it stores the child's exit status at addr, unless
    that is 0, frees the slot, the trapframe, the memory and the page table of the
    child, all of whose pages go to the free list, and returns its pid; when the four
    bytes at addr are not all mapped for the user it returns -1 and the child stays,
    and a part of the status may have been stored.  With no dead child, and no child
    at all or the caller killed, it returns -1 and changes nothing; otherwise the
    caller sleeps on its own process, which exit() of a child wakes. *)
Theorem wait_correct : wait_res k i p l L addr (wait addr k).
Proof.
  pose proof W as [Q Hf Ptf U Hnd Hch]. pose proof (q_run _ _ _ Q) as HR. pose proof (quiet_hart _ _ _ Q) as Hh.
  assert (forall lk, k_locks k !! lk = None) as Hlk by (intros lk; eapply quiet_lock, Q).
  unfold wait. mcall (curproc_eq k i p HR). mcall (acquire_eq _ _ (Hlk LWait)). set (kw := acq LWait k).
  assert (hart_ok (k_hart kw)) as Hhw by (by apply hart_ok_push).
  assert (plocks_free kw) as Hlw by (intros j; unfold kw, acq; ksimpl; by rewrite lookup_insert_ne).
  assert (forall j, j ∈ seq 0 NPROC -> exists q, k_procs kw !! j = Some q) as Hall.
  { intros j Hj%elem_of_seq. apply lookup_lt_is_Some_2. change (k_procs kw) with (k_procs k). rewrite (q_nproc _ _ _ Q). lia. }
  assert (forall j q, k_procs k !! j = Some q -> j ∈ seq 0 NPROC) as Hin.
  { intros j q Hj%lookup_lt_Some. rewrite (q_nproc _ _ _ Q) in Hj. apply elem_of_seq. lia. }
  destruct (split_dead i kw (seq 0 NPROC) Hall) as [Hno|(pre & j & rest & q & Es & Hpre & Hj & Hdead)].
  - rewrite <- (app_nil_r (seq 0 NPROC)). rewrite (bind_ret _ _ _ _ _ (wait_scan_skip (seq 0 NPROC) [] i addr false kw Hhw Hlw Hno)).
    assert (forall j q, k_procs k !! j = Some q -> is_dead i q = false) as Hno'.
    { intros j q Hj. destruct (Hno j) as (q' & Hq' & Hd); [by eapply Hin|]. change (k_procs kw) with (k_procs k) in Hq'. by simplify_eq. }
    cbn [orb]. mcall (getproc_eq kw i p ltac:(apply HR)). destruct (existsb (child_at i kw) (seq 0 NPROC)) eqn:Ex.
    + apply existsb_exists in Ex as (j & _ & Hc). unfold child_at in Hc. destruct (k_procs kw !! j) as [q|] eqn:Hj; [|done].
      unfold truth. destruct (pr_killed p =? 0) eqn:Ek; cbn [negb orb].
      * rewrite (sleep_eq (ChProc i) LWait 0 kw i p); [|by apply running_acq|unfold kw, acq, push_hart; ksimpl; rewrite (q_noff _ _ _ Q); lia|done|unfold kw, acq; ksimpl; by rewrite lookup_insert_eq|apply Hlw].
        apply WaitSleep; [done|lia|by exists j, q].
      * mcall (release_after LWait k) by (done || apply Hlk).
        replace (set_k_locks _ _) with k by (by destruct k). apply WaitNone; [done|right; lia].
    + cbn [negb orb]. mcall (release_after LWait k) by (done || apply Hlk).
      replace (set_k_locks _ _) with k by (by destruct k). apply WaitNone; [done|left]. intros j q Hj. destruct (is_child i q) eqn:Hc; [|done].
      assert (existsb (child_at i kw) (seq 0 NPROC) = true) as Ex'; [|congruence]. apply existsb_exists. exists j. split; [by apply list_elem_of_In, (Hin j q)|].
      unfold child_at. change (k_procs kw) with (k_procs k). by rewrite Hj.
  - destruct (wait_scan_dead j q rest (false || existsb (child_at i kw) pre) Hj Hdead) as (r & k' & E & H). fold kw in E.
    rewrite <- (wait_scan_skip pre (j :: rest) i addr false kw Hhw Hlw Hpre) in E. rewrite <- Es in E. mcall E. exact H.
Qed.

End wait.

(** ** growproc() *)

(** User bytes of pages that a step does not touch. *)
Lemma ubyte_kept m m' root X X' L L' vs vs' va : uvm m root X L vs -> uvm m' root X' L' vs' -> 0 <= va ->
  (exists v, vs !! Z.to_nat (vpn va) = Some v /\ vs' !! Z.to_nat (vpn va) = Some v /\ same_pages [PTE2PA v] m m') -> ubyte m' root va = ubyte m root va.
Proof.
  intros U U' Hva (v & Hv & Hv' & Hs). rewrite (uvm_ubyte _ _ _ _ _ va v U Hva Hv), (uvm_ubyte _ _ _ _ _ va v U' Hva Hv').
  destruct (has v PTE_U); [|done]. f_equal. apply (Hs (PTE2PA v)); [by left|dlia].
Qed.

Lemma vpn_lookup {A} (vs : list A) va : 0 <= va -> vpn va < Z.of_nat (length vs) -> exists v, vs !! Z.to_nat (vpn va) = Some v.
Proof. intros Hva Hlt. apply lookup_lt_is_Some_2. assert (0 <= vpn va) by (unfold vpn; dlia). lia. Qed.

(** The first pages of [vs], none of them among the pages [ps] that change. *)
Lemma kept_page k root X L l vs ps k' n v : uvmst k root X L l vs -> memstep ps k k' -> ps ≡ₚ (PTE2PA <$> drop n vs) ++ l ++ nodes L ->
  forall j, (j < n)%nat -> vs !! j = Some v -> same_pages [PTE2PA v] (k_mem k) (k_mem k').
Proof.
  intros U M HP j Hj Hv. pose proof (uvmst_pages _ _ _ _ _ _ U) as Pg. pose proof (ut_nodup _ _ _ _ _ _ U) as Hnd. rewrite <- (take_drop n vs), fmap_app, <- app_assoc, <- HP in Hnd, Pg.
  apply NoDup_app in Hnd as (_ & Hd & _). apply Forall_app in Pg as [Pt Pp].
  assert (PTE2PA v ∈ PTE2PA <$> take n vs) as Hin.
  { apply list_elem_of_fmap_2. apply (list_elem_of_lookup_2 _ j). by rewrite lookup_take_lt. }
  rewrite Forall_forall in Pt. eapply (memstep_same _ _ _ _ _ M); [done|apply Forall_singleton, Pt, Hin| |done].
  intros q Hq ->%list_elem_of_singleton. by apply (Hd (PTE2PA v)).
Qed.

Lemma wxru_user p : page_ok p -> has (leaf_pte p PTE_WXRU) PTE_U = true /\ PTE2PA (leaf_pte p PTE_WXRU) = p.
Proof. intros Hp. destruct (leaf_pte_flags p PTE_WXRU Hp ltac:(by vm_compute)) as [-> Hf]. by rewrite has_flags, Hf. Qed.

(** C14: growproc(n) grows or shrinks the memory of the running process, whose page
    table is well-formed and maps exactly the pages of its size, to a new size from 0
    to 2^32 - 1.  Growing
    returns 0 with the size [n] larger, the old bytes unchanged and every new page
    zero, or, only when fewer than three pages per new page are free, -1 with size
    and memory unchanged; shrinking returns 0, keeps the bytes that remain and gives
    the other pages back.  Every page is accounted for: it is free, a page of the
    table or a page of the memory. *)
Theorem growproc_correct (k : kst) (i : nat) (p : proc) (L : gmap Z Z) (l vs : list Z) (n : Z)
    (HR : running k i p) (U : uvmst k (pr_pagetable p) (top_map (pr_trapframe p)) L l vs) (Hlen : length vs = npages (pr_sz p))
    (Hsz : 0 <= pr_sz p) (Hn : 0 <= pr_sz p + n < 2 ^ 32) (Hs32 : pr_sz p < 2 ^ 32) :
  exists r k' L' l' vs', growproc n k = Ret r k' /\
    uvmst k' (pr_pagetable p) (top_map (pr_trapframe p)) L' l' vs' /\
    (PTE2PA <$> vs) ++ l ++ nodes L ≡ₚ (PTE2PA <$> vs') ++ l' ++ nodes L' /\
    ((r = 0 /\ k_procs k' = <[i := set_pr_sz (pr_sz p + n) p]> (k_procs k) /\ length vs' = npages (pr_sz p + n) /\
        forall va, 0 <= va -> vpn va < Z.of_nat (length vs') -> ubyte (k_mem k') (pr_pagetable p) va =
          if decide (vpn va < Z.of_nat (length vs)) then ubyte (k_mem k) (pr_pagetable p) va else Some 0) \/
     (r = -1 /\ 0 < n /\ (length l < 3 * (npages (pr_sz p + n) - npages (pr_sz p)))%nat /\ k_procs k' = k_procs k /\ vs' = vs /\
        forall va, 0 <= va -> vpn va < Z.of_nat (length vs) -> ubyte (k_mem k') (pr_pagetable p) va = ubyte (k_mem k) (pr_pagetable p) va)).
Proof.
  set (root := pr_pagetable p) in *. set (X := top_map (pr_trapframe p)) in *. unfold growproc. mcall (curproc_eq k i p HR). destruct HR as (Hh & Hcur & Hi).
  mcall (getproc_eq k i p Hi). fold root. rewrite (u32_small (pr_sz p)), (u32_small (pr_sz p + n)) by lia.
  assert (forall ps k', memstep ps k k' -> set_k_procs (alter (set_pr_sz (pr_sz p + n)) i (k_procs k')) k' = set_k_procs (<[i := set_pr_sz (pr_sz p + n) p]> (k_procs k)) k') as Eset.
  { intros ps k' M. rewrite (ms_procs _ _ _ M). by rewrite (alter_insert_at _ _ _ p Hi). }
  destruct (npages_eq (pr_sz p) ltac:(lia)) as (Eo & Bo & Co), (npages_eq (pr_sz p + n) ltac:(lia)) as (En & Bn & Cn).
  destruct (0 <? n) eqn:Hpos.
  - assert (forall j, Z.of_nat (npages (pr_sz p)) <= j < Z.of_nat (npages (pr_sz p + n)) -> X !! j = None) as HX.
    { intros j Hj. apply top_map_none. dlia. }
    destruct (uvmalloc_ok k root X L l vs (pr_sz p) (pr_sz p + n) U ltac:(lia) ltac:(lia) Hlen HX) as (r & k' & L' & l' & E & M & Hr). mcall E.
    assert (forall j v, vs !! j = Some v -> same_pages [PTE2PA v] (k_mem k) (k_mem k')) as Hkeep.
    { intros j v Hv. eapply (kept_page k root X L l vs _ k' (length vs) v U M); [by rewrite drop_all|by eapply lookup_lt_Some|exact Hv]. }
    destruct Hr as [(-> & ps & Hps & U' & HP & _ & Hz)|(-> & Hl & U' & HP)].
    + rewrite (u32_small (pr_sz p + n)), (proj2 (Z.eqb_neq (pr_sz p + n) 0)) by lia. mcall (modproc_eq _ _ _). rewrite (Eset _ _ M).
      assert (Forall page_ok ps) as Pps.
      { pose proof (uvmst_pages _ _ _ _ _ _ U) as Pg. apply Forall_app in Pg as [_ Pg]. rewrite HP in Pg. by apply Forall_app in Pg as [? _]. }
      assert (PTE2PA <$> ((fun p => leaf_pte p PTE_WXRU) <$> ps) = ps) as Eps.
      { rewrite <- list_fmap_compose. rewrite <- (list_fmap_id ps) at 2. apply list_fmap_ext. intros j x Hj. cbn. apply wxru_user. by eapply Forall_lookup_1. }
      eexists 0, _, L', l', _. split; [done|]. split; [apply (uvmst_ext k'); [exact U'|apply alloc_ok_procs, U'|done]|]. split.
      { rewrite fmap_app, Eps, <- app_assoc. by rewrite HP. }
      left. split; [done|]. split; [done|]. assert (length (vs ++ ((fun p => leaf_pte p PTE_WXRU) <$> ps)) = npages (pr_sz p + n)) as El.
      { rewrite length_app, length_fmap, Hps. apply Nat2Z.inj. dlia. }
      split; [exact El|]. intros va Hva Hlt. ksimpl. destruct (decide _) as [D|D].
      * destruct (vpn_lookup vs va Hva D) as [v Hv]. eapply ubyte_kept; [apply U|apply U'|done|]. exists v. split; [done|]. split; [by apply lookup_app_l_Some|by eapply Hkeep].
      * destruct (vpn_lookup _ va Hva Hlt) as [v Hv]. assert (0 <= vpn va) by (unfold vpn; dlia). pose proof Hv as Hv'. rewrite lookup_app_r in Hv' by lia.
        rewrite list_lookup_fmap in Hv'. destruct (ps !! (Z.to_nat (vpn va) - length vs)%nat) as [pg|] eqn:Hpg; [|done]. cbn in Hv'. injection Hv' as <-.
        rewrite (uvm_ubyte _ _ _ _ _ va _ (ut_uvm _ _ _ _ _ _ U') Hva Hv). destruct (wxru_user pg (Forall_lookup_1 _ _ _ _ Pps Hpg)) as [-> ->].
        f_equal. apply (Forall_lookup_1 _ _ _ _ Hz Hpg). dlia.
    + cbn. exists (-1), k', L', l', vs. split; [done|]. split; [exact U'|]. split; [by rewrite HP|]. right. split; [done|]. split; [lia|]. split; [exact Hl|]. split; [by eapply ms_procs|].
      split; [done|]. intros va Hva Hlt. destruct (vpn_lookup vs va Hva Hlt) as [v Hv]. eapply ubyte_kept; [apply U|apply U'|done|]. exists v. split; [done|]. split; [done|by eapply Hkeep].
  - destruct (n <? 0) eqn:Hneg.
    + destruct (uvmdealloc_ok k root X L l vs (pr_sz p) (pr_sz p + n) U ltac:(lia) ltac:(lia) Hlen ltac:(lia)) as (k' & E & U' & M). mcall E.
      rewrite (u32_small (pr_sz p + n)) by lia. mcall (modproc_eq _ _ _). rewrite (Eset _ _ M).
      assert (npages (pr_sz p + n) <= npages (pr_sz p))%nat as Hle by dlia. pose proof (length_take vs (npages (pr_sz p + n))) as Elt.
      eexists 0, _, L, _, _. split; [done|]. split; [apply (uvmst_ext k'); [exact U'|apply alloc_ok_procs, U'|done]|]. split; [by rewrite held_tail|].
      left. split; [done|]. split; [done|]. split; [lia|]. intros va Hva Hlt. ksimpl. rewrite Elt in Hlt. rewrite decide_True by lia.
      destruct (vpn_lookup vs va Hva ltac:(lia)) as [v Hv]. assert (0 <= vpn va) by (unfold vpn; dlia).
      eapply ubyte_kept; [apply U|apply U'|done|]. exists v. split; [done|]. split; [by rewrite lookup_take_lt by lia|].
      eapply (kept_page k root X L l vs _ k' (npages (pr_sz p + n)) v U M); [done| |exact Hv]. lia.
    + assert (n = 0) as -> by lia. mcall (modproc_eq _ _ _). rewrite Z.add_0_r in *. rewrite (Eset [] k (memstep_refl _ _)).
      eexists 0, _, L, l, vs. split; [done|]. split; [apply (uvmst_ext k); [exact U|apply alloc_ok_procs, U|done]|]. split; [done|].
      left. split; [done|]. split; [done|]. split; [done|]. intros va Hva Hlt. by rewrite decide_True.
Qed.

End procspec.

(** ** A concrete process *)


#[export] Instance demo_code : CodeAddrs :=
  {| forkret_pc := KERNBASE + 0x1000; usertrap_pc := KERNBASE + 0x1100; kernelvec_pc := KERNBASE + 0x1200; uservec_off := 0; userret_off := 0x90 |}.

(** Process 0 runs, with file 0 open and inode 0 as its current directory. *)
Definition first_proc : proc :=
  set_pr_cwd (Some 0%nat) (set_pr_ofile (<[0%nat := Some 0%nat]> (replicate NOFILE None)) (set_pr_pid 1 (set_pr_state RUNNING proc0))).
Definition first_state : kst :=
  set_k_files (<[0%nat := set_f_ref 1 file0]> (k_files run_state))
    (set_k_inodes (<[0%nat := set_i_ref 1 inode0]> (k_inodes run_state))
      (set_k_procs (<[0%nat := first_proc]> (k_procs run_state)) run_state)).

Lemma first_hart : hart_ok (k_hart first_state).
Proof. split_and!; simpl; intros; lia || done. Qed.

(** The process with a trapframe, a page table and a page of memory. *)
Definition first_with (tf root : Z) : proc := set_pr_sz PGSIZE (set_pr_pagetable root (set_pr_trapframe tf first_proc)).

(** A memory in which it has them, and what is free besides. *)
Lemma first_memory : exists tf root m h L l vs, let k := set_k_mem m (set_k_freelist h (set_k_procs (<[0%nat := first_with tf root]> (k_procs first_state)) first_state)) in
  uvmst k root (top_map tf) L l vs /\ page_ok tf /\ length vs = 1%nat /\ NoDup ((tf :: (PTE2PA <$> vs) ++ nodes L) ++ l) /\ (21 <= length l)%nat.
Proof.
  destruct (some_free 30 first_state ltac:(lia) first_hart eq_refl eq_refl) as (m0 & h0 & l0 & A0 & Hl0). set (k0 := set_k_mem m0 (set_k_freelist h0 first_state)) in *.
  destruct l0 as [|tf l1]; [done|]. destruct (kalloc_alloc k0 tf l1 A0) as (k1 & _ & Ptf & Hn & A1 & M1).
  assert (NoDup (tf :: l1)) as Hnd by (by destruct A0 as [_ _ [_ ?]]).
  set (p1 := set_pr_trapframe tf first_proc). set (ps1 := <[0%nat := p1]> (k_procs first_state)).
  destruct (proc_pagetable_ok (set_k_procs ps1 k1) 0 p1 l1) as (root & k2 & l2 & _ & M2 & [(_ & L2 & U2 & HP2 & Hc2)|(_ & _ & _ & Hc2)]); [done|by apply alloc_ok_procs|done|done| |simpl in Hl0; lia].
  destruct (uvmalloc_ok k2 root (top_map tf) L2 l2 [] 0 PGSIZE U2) as (r & k3 & L3 & l3 & _ & M3 & H3); [lia|lia|done|intros i Hi; apply top_map_none; change (npages PGSIZE) with 1%nat in Hi; lia|].
  destruct H3 as [(_ & ps & Hps & U3 & HP3 & Hc3 & _)|(_ & Hc3 & _)]; change (npages PGSIZE - npages 0)%nat with 1%nat in Hc3; [|simpl in Hl0; lia].
  change (npages PGSIZE - npages 0)%nat with 1%nat in Hps. cbn [app] in U3. set (vs := (fun p => leaf_pte p PTE_WXRU) <$> ps) in *.
  assert (Forall page_ok ps) as Pps.
  { pose proof (alloc_pages _ _ A1) as Pl. rewrite HP2, HP3 in Pl. by apply Forall_app in Pl as [? _]. }
  assert (PTE2PA <$> vs = ps) as Evs.
  { unfold vs. rewrite <- list_fmap_compose. rewrite <- (list_fmap_id ps) at 2. apply list_fmap_ext. intros j x Hj. cbn. apply wxru_user. by eapply Forall_lookup_1. }
  pose proof (memstep_procs _ _ _ (<[0%nat := first_with tf root]> (k_procs first_state)) (memstep_trans _ _ _ _ _ (memstep_procs _ _ _ ps1 M1) (memstep_trans _ _ _ _ _ M2 M3))) as M.
  exists tf, root, (k_mem k3), (k_freelist k3), L3, l3, vs. cbv zeta. split; [|split; [done|split; [unfold vs; by rewrite length_fmap|]]].
  - apply (uvmst_ext k3); [exact U3| |done]. eapply alloc_ok_ext; [apply U3|exact first_hart|done|done|done].
  - rewrite Evs. split.
    + cbn [app]. rewrite HP2, HP3 in Hnd. by rewrite <- app_assoc, (Permutation_app_comm (nodes L3)).
    + simpl in Hl0. lia.
Qed.

Lemma first_fork_pre : exists k p l L vs ip, fork_pre k 0 p l L vs 0 ip /\ length vs = 1%nat /\ (21 <= length l)%nat /\
  (exists q, k_procs k !! 1%nat = Some q /\ pr_state q = UNUSED) /\ pr_killed p = 0 /\ pr_sz p = PGSIZE /\
  (forall j q, k_procs k !! j = Some q -> pr_parent q = None).
Proof.
  destruct first_memory as (tf & root & m & h & L & l & vs & U & Ptf & Hvs & Hnd & Hl). cbv zeta in U.
  set (p := first_with tf root) in *. set (k := set_k_mem m _) in *.
  assert (forall j q, k_procs k !! j = Some q -> (j = 0%nat /\ q = p) \/ q = proc0) as Hps.
  { intros j q. change (k_procs k) with (<[0%nat := p]> (<[0%nat := first_proc]> (<[0%nat := set_pr_pid 1 (set_pr_state RUNNING proc0)]> (replicate NPROC proc0)))).
    rewrite !list_insert_insert_eq. intros [(<- & <- & _)|[_ Hj]]%list_lookup_insert_Some; [by left|right]. by apply lookup_replicate_1 in Hj as [-> _]. }
  exists k, p, l, L, vs, (set_i_ref 1 inode0). split; [constructor|].
  - constructor; try done.
  - apply (ut_alloc _ _ _ _ _ _ U).
  - intros j q Hj Hs. destruct (Hps j q Hj) as [[_ ->]| ->]; [done|done].
  - done.
  - apply (ut_uvm _ _ _ _ _ _ U).
  - unfold TRAPFRAME, TRAMPOLINE. simpl. lia.
  - rewrite Hvs. done.
  - exact Hnd.
  - done.
  - intros fd f Hfd. exists (set_f_ref 1 file0). change (pr_ofile p) with (<[0%nat := Some 0%nat]> (replicate NOFILE None)) in Hfd.
    apply list_lookup_insert_Some in Hfd as [(<- & [= <-] & _)|[_ Hfd]]; [split; [done|simpl; lia]|]. by apply lookup_replicate_1 in Hfd as [? _].
  - split; [done|]. split; [done|]. simpl. lia.
  - split; [done|]. split; [done|]. split; [by exists proc0|]. split; [done|]. split; [done|]. intros j q Hj. by destruct (Hps j q Hj) as [[_ ->]| ->].
Qed.

Lemma fork_correct_witness : exists k i p l L vs c ip k', fork_pre k i p l L vs c ip /\ fork k = Ret (k_nextpid k) k' /\
  exists np q, k_procs k' !! np = Some q /\ pr_state q = RUNNABLE /\ pr_parent q = Some i.
Proof.
  destruct first_fork_pre as (k & p & l & L & vs & ip & P & Hvs & Hl & (q1 & Hq1 & Hs1) & _).
  destruct (fork_correct k 0 p l L vs 0 ip P) as (r & k' & E & R). exists k, 0%nat, p, l, L, vs, 0%nat, ip, k'. split; [exact P|].
  destruct R as [ps pid k' l' [Hno|Hc] _ _ _ _|np q tf root L' vs' l' fs k' Hnp _ _ _ _ _ _ _ _ _ M].
  - by destruct (Hno 1%nat q1 Hq1).
  - lia.
  - split; [exact E|]. exists np, (fork_child 0 p 0 (k_nextpid k) tf root q). split; [|split; reflexivity]. rewrite (ms_procs _ _ _ M). apply list_lookup_insert_eq. by eapply lookup_lt_Some.
Defined.

(** The same process after its child, made by fork(), has exited: nothing is lost. *)
Lemma wait_correct_witness : exists k pid k1 np q kz l k2 l2, fork k = Ret pid k1 /\ k_procs k1 !! np = Some q /\
  kz = set_k_procs (<[np := set_pr_xstate 7 (set_pr_state ZOMBIE q)]> (k_procs k1)) k1 /\
  wait 0 kz = Ret pid k2 /\ alloc_ok k l /\ alloc_ok k2 l2 /\ l2 ≡ₚ l.
Proof.
  destruct first_fork_pre as (k & p & l & L & vs & ip & P & Hvs & Hl & (q1 & Hq1 & Hs1) & Hkill & Hsz & Hpar).
  destruct (fork_ok k 0 p l L vs 0 ip P) as (r & k1 & E & R). pose proof P as [Q Hf _ Ptf U _ _ Hnd _ _ _].
  assert (alloc_ok k l) as A by (split; [eapply quiet_hart, Q|eapply quiet_lock, Q|exact Hf]).
  destruct R as [ps pid k1 l1 [Hno|Hc] _ _ _ _|np q tf root L' vs' l1 fs k1 Hnp Hs A1 HP U1 Ptf' Hfl _ _ _ M]; [by destruct (Hno 1%nat q1 Hq1)|lia|].
  set (qc := fork_child 0 p 0 (k_nextpid k) tf root q) in *. set (qz := set_pr_xstate 7 (set_pr_state ZOMBIE qc)).
  assert (k_procs k1 = <[np := qc]> (k_procs k)) as Eps by (by rewrite (ms_procs _ _ _ M)). pose proof (lookup_lt_Some _ _ _ Hnp) as Hlt.
  set (kz := set_k_procs (<[np := qz]> (k_procs k1)) k1).
  assert (k_procs kz = <[np := qz]> (k_procs k)) as Ezs.
  { transitivity (<[np := qz]> (k_procs k1)); [reflexivity|]. rewrite Eps. apply list_insert_insert_eq. }
  assert (0%nat <> np) as Hne.
  { intros <-. destruct (q_run _ _ _ Q) as (_ & _ & Hi). rewrite Hi in Hnp. injection Hnp as ->. rewrite (q_state _ _ _ Q) in Hs. done. }
  assert (k_hart kz = k_hart k /\ k_locks kz = k_locks k) as [Eh El] by (unfold kz; ksimpl; by rewrite (ms_hart _ _ _ M), (ms_locks _ _ _ M)).
  assert (pmem (k_mem kz) qz (tf :: (PTE2PA <$> vs') ++ nodes L')) as Hmz.
  { apply (pmem_full _ qz L' vs'); [done|done|..]; change (pr_sz qz) with (pr_sz p); rewrite Hsz.
    - unfold TRAPFRAME, TRAMPOLINE. lia.
    - transitivity (length vs); [|by rewrite Hvs]. rewrite <- (length_fmap PTE_FLAGS vs'), Hfl. by rewrite length_fmap. }
  assert (wait_pre kz 0 p l1 L vs) as W.
  { set (own := (PTE2PA <$> vs) ++ nodes L) in *. set (C := tf :: (PTE2PA <$> vs') ++ nodes L') in *.
    assert (NoDup (C ++ own ++ l1)) as Hndc.
    { rewrite HP in Hnd. cbn [app] in Hnd. apply NoDup_cons in Hnd as [_ Hnd]. by rewrite (app_assoc C own l1), (Permutation_app_comm C own), <- app_assoc. }
    constructor; fold own.
    - destruct Q as [(Hh & Hcur & Hi) Hst Hch Hlk Hno Hlen]. constructor; try done; [|by rewrite El|by rewrite Eh|by rewrite Ezs, length_insert].
      split_and!; [by rewrite Eh|by rewrite Eh|by rewrite Ezs, list_lookup_insert_ne].
    - apply A1.
    - done.
    - eapply uvm_frame; [exact U|]. intros x a Hx. eapply (parent_same k 0 p l L vs 0 ip P _ k1); [|exact M|by eapply alloc_pages|elems]. done.
    - by apply NoDup_app in Hndc as (_ & _ & ?).
    - intros j qj. rewrite Ezs. intros [(<- & <- & _)|[Hj Hqj]]%list_lookup_insert_Some.
      + intros _. by exists C.
      + unfold is_dead, is_child. rewrite (Hpar j qj Hqj). done. }
  pose proof (wait_correct kz 0 p l1 L vs 0 W ltac:(lia)) as Hr. remember (wait 0 kz) as o eqn:Eo.
  assert (k_procs kz !! np = Some qz) as Hz by (rewrite Ezs; by apply list_lookup_insert_eq).
  assert (is_dead 0 qz = true) as Hdz by done.
  destruct Hr as [j qj pages m1 l2 k2 Hj Hdj Hm _ A2 HP2 _|m1 Ha _ _ _|Hno _|Hno _ _]; [|lia|by rewrite (Hno np qz Hz) in Hdz..].
  assert (j = np /\ qj = qz) as [-> ->].
  { rewrite Ezs in Hj. apply list_lookup_insert_Some in Hj as [(<- & <- & _)|[_ Hj]]; [done|]. unfold is_dead, is_child in Hdj. rewrite (Hpar j qj Hj) in Hdj. done. }
  rewrite (pmem_inj _ _ _ _ Hm Hmz) in HP2.
  exists k, (k_nextpid k), k1, np, qc, kz, l, k2, l2. split; [exact E|]. split; [rewrite Eps; by apply list_lookup_insert_eq|].
  split; [done|]. split; [by rewrite <- Eo|]. split; [exact A|]. split; [exact A2|]. by rewrite HP2, HP.
Defined.

Lemma growproc_correct_witness : exists k k' p, k_procs k !! 0%nat = Some p /\ growproc PGSIZE k = Ret 0 k' /\
  forall va, PGSIZE <= va < 2 * PGSIZE -> ubyte (k_mem k') (pr_pagetable p) va = Some 0.
Proof.
  destruct first_fork_pre as (k & p & l & L & vs & ip & P & Hvs & Hl & _ & _ & Hsz & _). pose proof P as [Q Hf _ Ptf U _ Hlen Hnd _ _ _].
  assert (uvmst k (pr_pagetable p) (top_map (pr_trapframe p)) L l vs) as US.
  { split; [split; [eapply quiet_hart, Q|eapply quiet_lock, Q|exact Hf]|exact U|]. cbn [app] in Hnd. apply NoDup_cons in Hnd as [_ Hnd].
    by rewrite <- app_assoc, (Permutation_app_comm (nodes L)) in Hnd. }
  destruct (growproc_correct k 0 p L l vs PGSIZE (q_run _ _ _ Q) US Hlen) as (r & k' & L' & l' & vs' & E & _ & _ & [(-> & _ & Hl' & Hb)|(_ & _ & Hc & _)]);
    rewrite ?Hsz; [lia..| |].
  - exists k, k', p. split; [apply Q|]. split; [exact E|]. intros va Hva. rewrite Hb; [|lia|rewrite Hl', Hsz; change (npages (PGSIZE + PGSIZE)) with 2%nat; unfold vpn; dlia].
    rewrite Hvs, decide_False; [done|]. unfold vpn. dlia.
  - rewrite Hsz in Hc. change (npages (PGSIZE + PGSIZE) - npages PGSIZE)%nat with 1%nat in Hc. lia.
Defined.
