(* ===== verification/Exec.v ===== *)
(** Program loading: kernel/exec.c.

    argv is a list of strings.  The jumps to [bad] become the [None] results of
    the parts below; exec() then releases what is held at that point. *)

From Stdlib Require Import ZArith Lia.
From stdpp Require Import base gmap strings list numbers.
From S2P Require Import Prelude Params State Spinlock Sched CString Kalloc Vm Copy Uart Printf Console.
From S2P Require Import Frame Bio Cache Log Fs Dir Pipe File Proc.

Open Scope Z_scope.

(** elf.h: struct elfhdr is 64 bytes, struct proghdr 56. *)
Abbreviation ELF_MAGIC := 1179403647. (* 0x464C457F *)
Abbreviation SIZEOF_ELFHDR := 64.
Abbreviation SIZEOF_PROGHDR := 56.
Abbreviation ELF_PROG_LOAD := 1.

Definition get64 (off : nat) (bs : list Z) : Z := of_bytes (getb off 8 bs).

Record elfhdr := Elfhdr { elf_magic : Z; elf_entry : Z; elf_phoff : Z; elf_phnum : Z }.
Definition decode_elfhdr (b : list Z) : elfhdr :=
  Elfhdr (get32 0 b) (get64 24 b) (get64 32 b) (get16 56 b).

Record proghdr := Proghdr { ph_type : Z; ph_off : Z; ph_vaddr : Z; ph_filesz : Z; ph_memsz : Z }.
Definition decode_proghdr (b : list Z) : proghdr :=
  Proghdr (get32 0 b) (get64 8 b) (get64 16 b) (get64 32 b) (get64 40 b).

(** The part of the path after the last slash. *)
Fixpoint last_elem (s last : list Z) : list Z :=
  match s with
  | [] => last
  | c :: s => last_elem s (if c =? slash then s else last)
  end.

Section exec.
Context `{DD : DiskDriver} `{KI : KernelImage} `{CA : CodeAddrs}.

Fixpoint loadseg_loop (fuel : nat) (pagetable va : Z) (ip : nat) (offset sz i : Z) : M Z :=
  match fuel with
  | O => nofuel
  | S fuel =>
      if negb (i <? sz) then mret 0 else
      pa ← walkaddr pagetable (u64 (va + i));
      if pa =? 0 then panic "loadseg: address should exist" else
      let n := if sz - i <? PGSIZE then sz - i else PGSIZE in
      '(r, _) ← readi ip (DKern pa) (u32 (offset + i)) n;
      if negb (r =? n) then mret (-1)
      else loadseg_loop fuel pagetable va ip offset sz (u32 (i + PGSIZE))
  end.

(** Load a program segment into pagetable at virtual address va. *)
Definition loadseg (pagetable va : Z) (ip : nat) (offset sz : Z) : M Z :=
  loadseg_loop (Z.to_nat (sz / PGSIZE) + 2) pagetable va ip offset sz 0.

(** Load program into memory: [true] when every segment was loaded, and sz. *)
Fixpoint load_segments (n : nat) (pagetable : Z) (ip : nat) (off sz : Z) : M (bool * Z) :=
  match n with
  | O => mret (true, sz)
  | S n =>
      '(r, b) ← readi ip DLocal (u32 off) SIZEOF_PROGHDR;
      if negb (r =? SIZEOF_PROGHDR) then mret (false, sz) else
      let ph := decode_proghdr b in
      if negb (ph_type ph =? ELF_PROG_LOAD) then
        load_segments n pagetable ip (i32 (off + SIZEOF_PROGHDR)) sz
      else if ph_memsz ph <? ph_filesz ph then mret (false, sz)
      else if u64 (ph_vaddr ph + ph_memsz ph) <? ph_vaddr ph then mret (false, sz)
      else
        sz1 ← uvmalloc pagetable sz (u64 (ph_vaddr ph + ph_memsz ph));
        if sz1 =? 0 then mret (false, sz)
        else if negb (ph_vaddr ph `mod` PGSIZE =? 0) then mret (false, sz1)
        else
          r ← loadseg pagetable (ph_vaddr ph) ip (u32 (ph_off ph)) (u32 (ph_filesz ph));
          if r <? 0 then mret (false, sz1)
          else load_segments n pagetable ip (i32 (off + SIZEOF_PROGHDR)) sz1
  end.

(** Push argument strings; [ustack] is filled in order. *)
Fixpoint push_args (argv : list (list Z)) (argc : nat) (pagetable sp stackbase : Z) (ustack : list Z)
  : M (option (Z * list Z)) :=
  match argv with
  | [] => mret (Some (sp, ustack))
  | s :: argv =>
      if (MAXARG <=? argc)%nat then mret None else
      let sp := u64 (sp - (Z.of_nat (length s) + 1)) in
      let sp := sp - sp `mod` 16 in
      if sp <? stackbase then mret None else
      r ← copyout pagetable sp (s ++ [0]);
      if r <? 0 then mret None
      else push_args argv (S argc) pagetable sp stackbase (ustack ++ [sp])
  end.

(** The user stack: two pages at the next page boundary, the second with the
    argument strings and the array of their addresses.  The result is sz, and sp
    unless something failed. *)
Definition exec_stack (pagetable sz : Z) (argv : list (list Z)) : M (Z * option Z) :=
  let sz := PGROUNDUP sz in
  sz1 ← uvmalloc pagetable sz (u64 (sz + 2 * PGSIZE));
  if sz1 =? 0 then mret (sz, None) else
  uvmclear pagetable (u64 (sz1 - 2 * PGSIZE));;
  r ← push_args argv 0 pagetable sz1 (u64 (sz1 - PGSIZE)) [];
  match r with
  | None => mret (sz1, None)
  | Some (sp, ustack) =>
      let sp := u64 (sp - (Z.of_nat (length argv) + 1) * 8) in
      let sp := sp - sp `mod` 16 in
      if sp <? u64 (sz1 - PGSIZE) then mret (sz1, None) else
      r ← copyout pagetable sp (concat (bytes_of 8 <$> (ustack ++ [0])));
      if r <? 0 then mret (sz1, None) else mret (sz1, Some sp)
  end.

(** The part of exec() up to the end of the transaction: the ELF header, the new
    page table and its size, or [None] after the cleanup of [bad]. *)
Definition exec_image (i ip : nat) : M (option (elfhdr * Z * Z)) :=
  '(r, b) ← readi ip DLocal 0 SIZEOF_ELFHDR;
  let elf := decode_elfhdr b in
  if negb (r =? SIZEOF_ELFHDR) || negb (elf_magic elf =? ELF_MAGIC) then
    iunlockput ip;; end_op;; mret None
  else
  pagetable ← proc_pagetable i;
  if pagetable =? 0 then iunlockput ip;; end_op;; mret None else
  '(ok, sz) ← load_segments (Z.to_nat (elf_phnum elf)) pagetable ip (i32 (elf_phoff elf)) 0;
  if negb ok then
    proc_freepagetable pagetable sz;;
    iunlockput ip;; end_op;; mret None
  else
    iunlockput ip;; end_op;; mret (Some (elf, pagetable, sz)).

Definition exec (path : list Z) (argv : list (list Z)) : M Z :=
  i ← curproc;
  begin_op;;
  ip ← namei path;
  match ip with
  | None => end_op;; mret (-1)
  | Some ip =>
      ilock ip;;
      r ← exec_image i ip;
      match r with
      | None => mret (-1)
      | Some (elf, pagetable, sz) =>
          i ← curproc;
          p ← getproc i;
          let oldsz := pr_sz p in
          '(sz, r) ← exec_stack pagetable sz argv;
          match r with
          | None => proc_freepagetable pagetable sz;; mret (-1)
          | Some sp =>
              tf_write i TF_A1 sp;;
              modproc i (set_name (last_elem path path));;
              p ← getproc i;
              let oldpagetable := pr_pagetable p in
              modproc i (fun p => set_pr_sz sz (set_pr_pagetable pagetable p));;
              tf_write i TF_EPC (elf_entry elf);;
              tf_write i TF_SP sp;;
              proc_freepagetable oldpagetable oldsz;;
              mret (Z.of_nat (length argv))
          end
      end
  end.

End exec.
