(* ===== verification/Sysfile.v ===== *)
(** System call arguments (kernel/syscall.c) and the file-system calls
    (kernel/sysfile.c).

    A sys_ function returns its uint64 result as an integer; -1 is stored into a0
    as 2^64 - 1. *)

From Stdlib Require Import ZArith Lia.
From stdpp Require Import base gmap strings list numbers.
From S2P Require Import Prelude Params State Spinlock Sched CString Kalloc Vm Copy Uart Printf Console.
From S2P Require Import Frame Bio Cache Log Fs Dir Pipe File Proc Exec.

Open Scope Z_scope.

Section sysfile.
Context `{DD : DiskDriver} `{KI : KernelImage} `{CA : CodeAddrs}.

(** Fetch the uint64 at addr from the current process; [None] is -1. *)
Definition fetchaddr (addr : Z) : M (option Z) :=
  i ← curproc;
  p ← getproc i;
  if (pr_sz p <=? addr) || (pr_sz p <? u64 (addr + 8)) then mret None else
  '(r, bs) ← copyin (pr_pagetable p) addr 8;
  if negb (r =? 0) then mret None else mret (Some (of_bytes bs)).

(** Fetch the nul-terminated string at addr: the string's length or -1, and the
    bytes stored into buf. *)
Definition fetchstr (addr : Z) (max : nat) : M (Z * list Z) :=
  i ← curproc;
  p ← getproc i;
  '(err, bs) ← copyinstr (pr_pagetable p) addr max;
  if err <? 0 then mret (err, bs) else mret (Z.of_nat (length (cstr bs)), bs).

Definition argraw (n : Z) : M Z :=
  i ← curproc;
  if (0 <=? n) && (n <=? 5) then tf_read i (TF_A0 + 8 * n) else panic "argraw".

Definition argint (n : Z) : M Z := x ← argraw n; mret (i32 x).
Definition argaddr (n : Z) : M Z := argraw n.

(** Fetch the nth argument as a string: its length or -1, and the string. *)
Definition argstr (n : Z) (max : nat) : M (Z * list Z) :=
  addr ← argaddr n;
  '(r, bs) ← fetchstr addr max;
  mret (r, cstr bs).

Definition argpath (n : Z) : M (Z * list Z) := argstr n (Z.to_nat MAXPATH).

(** Fetch the nth argument as a file descriptor: the descriptor and its file. *)
Definition argfd (n : Z) : M (option (Z * nat)) :=
  fd ← argint n;
  if (fd <? 0) || (Z.of_nat NOFILE <=? fd) then mret None else
  i ← curproc;
  p ← getproc i;
  match pr_ofile p !!! Z.to_nat fd with
  | None => mret None
  | Some f => mret (Some (fd, f))
  end.

(** The first free slot of ofile. *)
Fixpoint fd_scan (fd : nat) (l : list (option nat)) : option nat :=
  match l with
  | [] => None
  | None :: _ => Some fd
  | Some _ :: l => fd_scan (S fd) l
  end.

(** p->ofile[fd] = f. *)
Definition set_fd (i : nat) (fd : nat) (f : option nat) : M unit :=
  modproc i (fun p => set_pr_ofile (<[fd := f]> (pr_ofile p)) p).

(** Allocate a file descriptor for the given file. *)
Definition fdalloc (f : nat) : M Z :=
  i ← curproc;
  p ← getproc i;
  match fd_scan 0 (pr_ofile p) with
  | Some fd => set_fd i fd (Some f);; mret (Z.of_nat fd)
  | None => mret (-1)
  end.

Definition sys_dup : M Z :=
  r ← argfd 0;
  match r with
  | None => mret (-1)
  | Some (_, f) =>
      fd ← fdalloc f;
      if fd <? 0 then mret (-1) else
      filedup f;;
      mret fd
  end.

Definition sys_read : M Z :=
  r ← argfd 0;
  match r with
  | None => mret (-1)
  | Some (_, f) => n ← argint 2; p ← argaddr 1; fileread f p n
  end.

Definition sys_write : M Z :=
  r ← argfd 0;
  match r with
  | None => mret (-1)
  | Some (_, f) => n ← argint 2; p ← argaddr 1; filewrite f p n
  end.

Definition sys_close : M Z :=
  r ← argfd 0;
  match r with
  | None => mret (-1)
  | Some (fd, f) =>
      i ← curproc;
      set_fd i (Z.to_nat fd) None;;
      fileclose f;;
      mret 0
  end.

Definition sys_fstat : M Z :=
  r ← argfd 0;
  match r with
  | None => mret (-1)
  | Some (_, f) => st ← argaddr 1; filestat f st
  end.

(** The bad: label of sys_link(). *)
Definition link_bad (ip : nat) : M Z :=
  ilock ip;;
  modinode ip (fun x => set_i_nlink (i16 (i_nlink x - 1)) x);;
  iupdate ip;;
  iunlockput ip;;
  end_op;;
  mret (-1).

(** Create the path new as a link to the same inode as old. *)
Definition sys_link : M Z :=
  '(r, old) ← argpath 0;
  if r <? 0 then mret (-1) else
  '(r, new) ← argpath 1;
  if r <? 0 then mret (-1) else
  begin_op;;
  ip ← namei old;
  match ip with
  | None => end_op;; mret (-1)
  | Some ip =>
      ilock ip;;
      x ← getinode ip;
      if i_type x =? T_DIR then iunlockput ip;; end_op;; mret (-1) else
      modinode ip (fun x => set_i_nlink (i16 (i_nlink x + 1)) x);;
      iupdate ip;;
      iunlock ip;;
      '(dp, name) ← nameiparent new (replicate DIRSIZ 0);
      match dp with
      | None => link_bad ip
      | Some dp =>
          ilock dp;;
          d ← getinode dp;
          x ← getinode ip;
          r ← (if negb (i_dev d =? i_dev x) then mret (-1) else dirlink dp name (i_inum x));
          if r <? 0 then iunlockput dp;; link_bad ip else
          iunlockput dp;;
          iput ip;;
          end_op;;
          mret 0
      end
  end.

(** Is the directory dp empty except for . and .. ? *)
Fixpoint isdirempty_loop (fuel : nat) (dp : nat) (off : Z) : M bool :=
  match fuel with
  | O => nofuel
  | S fuel =>
      x ← getinode dp;
      if negb (off <? i_size x) then mret true else
      '(r, de) ← readi dp DLocal off (Z.of_nat SIZEOF_DIRENT);
      if negb (r =? Z.of_nat SIZEOF_DIRENT) then panic "isdirempty: readi" else
      if negb (de_inum de =? 0) then mret false else isdirempty_loop fuel dp (off + 16)
  end.
Definition isdirempty (dp : nat) : M bool :=
  x ← getinode dp;
  isdirempty_loop (Z.to_nat (i_size x / 16) + 2) dp 32.

(** The bad: label of sys_unlink(). *)
Definition unlink_bad (dp : nat) : M Z := iunlockput dp;; end_op;; mret (-1).

Definition dot : list Z := [46].
Definition dotdot : list Z := [46; 46].

Definition sys_unlink : M Z :=
  '(r, path) ← argpath 0;
  if r <? 0 then mret (-1) else
  begin_op;;
  '(dp, name) ← nameiparent path (replicate DIRSIZ 0);
  match dp with
  | None => end_op;; mret (-1)
  | Some dp =>
      ilock dp;;
      if (namecmp name dot =? 0) || (namecmp name dotdot =? 0) then unlink_bad dp else
      r ← dirlookup dp name;
      match r with
      | None => unlink_bad dp
      | Some (ip, off) =>
          ilock ip;;
          x ← getinode ip;
          if i_nlink x <? 1 then panic "unlink: nlink < 1" else
          empty ← (if i_type x =? T_DIR then isdirempty ip else mret true);
          if negb empty then iunlockput ip;; unlink_bad dp else
          r ← writei dp (SBytes (replicate SIZEOF_DIRENT 0)) off (Z.of_nat SIZEOF_DIRENT);
          if negb (r =? Z.of_nat SIZEOF_DIRENT) then panic "unlink: writei" else
          x ← getinode ip;
          when (i_type x =? T_DIR) (
            modinode dp (fun d => set_i_nlink (i16 (i_nlink d - 1)) d);;
            iupdate dp);;
          iunlockput dp;;
          modinode ip (fun x => set_i_nlink (i16 (i_nlink x - 1)) x);;
          iupdate ip;;
          iunlockput ip;;
          end_op;;
          mret 0
      end
  end.

(** create(): a new inode for path, locked, or an existing file. *)
Definition create (path : list Z) (type major minor : Z) : M (option nat) :=
  '(dp, name) ← nameiparent path (replicate DIRSIZ 0);
  match dp with
  | None => mret None
  | Some dp =>
      ilock dp;;
      r ← dirlookup dp name;
      match r with
      | Some (ip, _) =>
          iunlockput dp;;
          ilock ip;;
          x ← getinode ip;
          if (type =? T_FILE) && ((i_type x =? T_FILE) || (i_type x =? T_DEVICE)) then mret (Some ip)
          else iunlockput ip;; mret None
      | None =>
          d ← getinode dp;
          ip ← ialloc (i_dev d) type;
          ilock ip;;
          modinode ip (fun x => set_i_nlink 1 (set_i_minor minor (set_i_major major x)));;
          iupdate ip;;
          when (type =? T_DIR) (
            modinode dp (fun d => set_i_nlink (i16 (i_nlink d + 1)) d);;
            iupdate dp;;
            x ← getinode ip;
            r ← dirlink ip dot (i_inum x);
            r ← (if r <? 0 then mret r else d ← getinode dp; dirlink ip dotdot (i_inum d));
            if r <? 0 then panic "create dots" else mret tt);;
          x ← getinode ip;
          r ← dirlink dp name (i_inum x);
          if r <? 0 then panic "create: dirlink" else
          iunlockput dp;;
          mret (Some ip)
      end
  end.

(** The first part of sys_open(): the locked inode, or [None] after end_op(). *)
Definition open_inode (path : list Z) (omode : Z) : M (option nat) :=
  if has omode O_CREATE then
    ip ← create path T_FILE 0 0;
    match ip with
    | None => end_op;; mret None
    | Some ip => mret (Some ip)
    end
  else
    ip ← namei path;
    match ip with
    | None => end_op;; mret None
    | Some ip =>
        ilock ip;;
        x ← getinode ip;
        if (i_type x =? T_DIR) && negb (omode =? O_RDONLY) then
          iunlockput ip;; end_op;; mret None
        else mret (Some ip)
    end.

Definition sys_open : M Z :=
  '(n, path) ← argpath 0;
  if n <? 0 then mret (-1) else
  omode ← argint 1;
  begin_op;;
  r ← open_inode path omode;
  match r with
  | None => mret (-1)
  | Some ip =>
      x ← getinode ip;
      if (i_type x =? T_DEVICE) && ((i_major x <? 0) || (NDEV <=? i_major x)) then
        iunlockput ip;; end_op;; mret (-1)
      else
      f ← filealloc;
      match f with
      | None => iunlockput ip;; end_op;; mret (-1)
      | Some f =>
          fd ← fdalloc f;
          if fd <? 0 then fileclose f;; iunlockput ip;; end_op;; mret (-1) else
          (if i_type x =? T_DEVICE then
             modfile f (fun y => set_f_major (i_major x) (set_f_type FD_DEVICE y))
           else modfile f (fun y => set_f_off 0 (set_f_type FD_INODE y)));;
          modfile f (fun y =>
            set_f_writable (has omode O_WRONLY || has omode O_RDWR)
              (set_f_readable (negb (has omode O_WRONLY)) (set_f_ip (Some ip) y)));;
          when (has omode O_TRUNC && (i_type x =? T_FILE)) (itrunc ip);;
          iunlock ip;;
          end_op;;
          mret fd
      end
  end.

Definition sys_mkdir : M Z :=
  begin_op;;
  '(r, path) ← argpath 0;
  ip ← (if r <? 0 then mret None else create path T_DIR 0 0);
  match ip with
  | None => end_op;; mret (-1)
  | Some ip => iunlockput ip;; end_op;; mret 0
  end.

Definition sys_mknod : M Z :=
  begin_op;;
  '(r, path) ← argpath 0;
  ip ← (if r <? 0 then mret None else
        major ← argint 1;
        minor ← argint 2;
        create path T_DEVICE (i16 major) (i16 minor));
  match ip with
  | None => end_op;; mret (-1)
  | Some ip => iunlockput ip;; end_op;; mret 0
  end.

Definition sys_chdir : M Z :=
  i ← curproc;
  begin_op;;
  '(r, path) ← argpath 0;
  ip ← (if r <? 0 then mret None else namei path);
  match ip with
  | None => end_op;; mret (-1)
  | Some ip =>
      ilock ip;;
      x ← getinode ip;
      if negb (i_type x =? T_DIR) then iunlockput ip;; end_op;; mret (-1) else
      iunlock ip;;
      p ← getproc i;
      (match pr_cwd p with Some c => iput c | None => panic "kerneltrap" end);;
      end_op;;
      modproc i (set_pr_cwd (Some ip));;
      mret 0
  end.

(** The loop of sys_exec() that fetches the argument strings into fresh pages:
    the pages and strings so far, and [true] when the null pointer was reached. *)
Fixpoint exec_args (n : nat) (uargv : Z) (i : Z) (got : list (Z * list Z)) : M (bool * list (Z * list Z)) :=
  match n with
  | O => mret (false, got)
  | S n =>
      uarg ← fetchaddr (u64 (uargv + 8 * i));
      match uarg with
      | None => mret (false, got)
      | Some uarg =>
          if uarg =? 0 then mret (true, got) else
          page ← kalloc;
          if page =? 0 then mret (false, got) else
          '(r, bs) ← fetchstr uarg (Z.to_nat PGSIZE);
          write_bytes page bs;;
          let got := got ++ [(page, cstr bs)] in
          if r <? 0 then mret (false, got) else exec_args n uargv (i + 1) got
      end
  end.

Definition sys_exec : M Z :=
  '(r, path) ← argpath 0;
  if r <? 0 then mret (-1) else
  uargv ← argaddr 1;
  '(ok, args) ← exec_args MAXARG uargv 0 [];
  ret ← (if ok : bool then exec path (snd <$> args) else mret (-1));
  forM (fst <$> args) kfree;;
  mret ret.

(** fileclose(rf); fileclose(wf); return -1. *)
Definition pipe_bad (rf wf : nat) : M Z := fileclose rf;; fileclose wf;; mret (-1).

Definition sys_pipe : M Z :=
  i ← curproc;
  fdarray ← argaddr 0;
  r ← pipealloc;
  match r with
  | None => mret (-1)
  | Some (rf, wf) =>
      fd0 ← fdalloc rf;
      if fd0 <? 0 then pipe_bad rf wf else
      fd1 ← fdalloc wf;
      if fd1 <? 0 then set_fd i (Z.to_nat fd0) None;; pipe_bad rf wf else
      p ← getproc i;
      r ← copyout (pr_pagetable p) fdarray (bytes_of 4 fd0);
      r ← (if r <? 0 then mret r else copyout (pr_pagetable p) (u64 (fdarray + 4)) (bytes_of 4 fd1));
      if r <? 0 then
        set_fd i (Z.to_nat fd0) None;;
        set_fd i (Z.to_nat fd1) None;;
        pipe_bad rf wf
      else mret 0
  end.

End sysfile.
