(* ===== verification/Trap.v ===== *)
(** Traps and system calls: kernel/trap.c, kernel/plic.c, kernel/sysproc.c and
    syscall() of kernel/syscall.c.

    The bits SPP and SPIE of sstatus are fields of [k_csr], SIE is [h_sie].  A trap
    enters with sepc, scause and stval set by the hardware. *)

From Stdlib Require Import ZArith Lia.
From stdpp Require Import base gmap strings list numbers.
From S2P Require Import Prelude Params State Spinlock Sched CString Kalloc Vm Copy Uart Printf Console.
From S2P Require Import Frame Bio Cache Virtio Log Fs Dir Pipe File Proc Exec Sysfile.

Open Scope Z_scope.

(** ** Supervisor CSRs: riscv.h *)

Definition modcsr (f : csr -> csr) : M unit := modify (fun k => set_k_csr (f (k_csr k)) k).

Definition r_sepc : M Z := gets (fun k => s_sepc (k_csr k)).
Definition w_sepc (x : Z) : M unit := modcsr (set_s_sepc x).
Definition r_scause : M Z := gets (fun k => s_scause (k_csr k)).
Definition r_stval : M Z := gets (fun k => s_stval (k_csr k)).
Definition w_stvec (x : Z) : M unit := modcsr (set_s_stvec x).
Definition r_satp : M Z := gets (fun k => s_satp (k_csr k)).
Definition r_sip : M Z := gets (fun k => s_sip (k_csr k)).
Definition w_sip (x : Z) : M unit := modcsr (set_s_sip x).
Definition r_tp : M Z := gets (fun k => h_id (k_hart k)).
(** sstatus as its bits (SPP, SPIE, SIE). *)
Definition r_sstatus : M (bool * bool * bool) :=
  gets (fun k => (s_spp (k_csr k), s_spie (k_csr k), h_sie (k_hart k))).
Definition w_sstatus (x : bool * bool * bool) : M unit :=
  let '(spp, spie, sie) := x in
  modify (fun k => set_k_csr (set_s_spie spie (set_s_spp spp (k_csr k)))
                     (set_k_hart (set_h_sie sie (k_hart k)) k)).

(** ** The interrupt controller: plic.c *)

Definition plic_write (a v : Z) : M unit :=
  modify (fun k => set_k_plic (set_pl_wr ((a, v) :: pl_wr (k_plic k)) (k_plic k)) k).

Definition plicinit : M unit :=
  plic_write (PLIC + UART0_IRQ * 4) 1;;
  plic_write (PLIC + VIRTIO0_IRQ * 4) 1.

Definition plicinithart : M unit :=
  hart ← cpuid;
  plic_write (PLIC_SENABLE hart) (Z.lor (Z.shiftl 1 UART0_IRQ) (Z.shiftl 1 VIRTIO0_IRQ));;
  plic_write (PLIC_SPRIORITY hart) 0.

(** ask the PLIC what interrupt we should serve. *)
Definition plic_claim : M Z :=
  p ← gets k_plic;
  match pl_claims p with
  | [] => nofuel
  | irq :: l => modify (fun k => set_k_plic (set_pl_claims l (k_plic k)) k);; mret irq
  end.

(** tell the PLIC we've served this IRQ. *)
Definition plic_complete (irq : Z) : M unit :=
  hart ← cpuid;
  plic_write (PLIC_SCLAIM hart) irq.

Section trap.
Context `{BD : BlockDevice} `{KI : KernelImage} `{CA : CodeAddrs}.

(** ** sysproc.c *)

Definition sys_exit : M Z := n ← argint 0; exit n.
Definition sys_getpid : M Z := i ← curproc; p ← getproc i; mret (pr_pid p).
Definition sys_fork : M Z := fork.
Definition sys_wait : M Z := p ← argaddr 0; wait p.

Definition sys_sbrk : M Z :=
  n ← argint 0;
  i ← curproc;
  p ← getproc i;
  let addr := i32 (pr_sz p) in
  r ← growproc n;
  if r <? 0 then mret (-1) else mret addr.

(** The loop of sys_sleep(); the test compares unsigned, and is made again after
    every sleep. *)
Definition sleep_loop (n ticks0 : Z) : M Z :=
  ticks ← gets k_ticks;
  if u32 (ticks - ticks0) <? u32 n then
    i ← curproc;
    p ← getproc i;
    if truth (pr_killed p) then release LTicks;; mret (-1)
    else sleep ChTicks LTicks ticks0
  else release LTicks;; mret 0.
Definition sys_sleep : M Z :=
  n ← argint 0;
  acquire LTicks;;
  ticks0 ← gets k_ticks;
  sleep_loop n ticks0.

Definition sys_kill : M Z := pid ← argint 0; kill pid.

(** return how many clock tick interrupts have occurred since start. *)
Definition sys_uptime : M Z :=
  acquire LTicks;;
  xticks ← gets k_ticks;
  release LTicks;;
  mret xticks.

(** The table syscalls[]. *)
Definition syscalls (num : Z) : option (M Z) :=
  match num with
  | 1 => Some sys_fork | 2 => Some sys_exit | 3 => Some sys_wait | 4 => Some sys_pipe
  | 5 => Some sys_read | 6 => Some sys_kill | 7 => Some sys_exec | 8 => Some sys_fstat
  | 9 => Some sys_chdir | 10 => Some sys_dup | 11 => Some sys_getpid | 12 => Some sys_sbrk
  | 13 => Some sys_sleep | 14 => Some sys_uptime | 15 => Some sys_open | 16 => Some sys_write
  | 17 => Some sys_mknod | 18 => Some sys_unlink | 19 => Some sys_link | 20 => Some sys_mkdir
  | 21 => Some sys_close
  | _ => None
  end.

Definition syscall : M unit :=
  i ← curproc;
  a7 ← tf_read i TF_A7;
  let num := i32 a7 in
  match syscalls num with
  | Some f => r ← f; tf_write i TF_A0 r
  | None =>
      p ← getproc i;
      printf (line "%d %s: unknown sys call %d")
        [AInt (pr_pid p); AStr (Some (cstr (pr_name p))); AInt num];;
      tf_write i TF_A0 (-1)
  end.

(** ** trap.c *)

Definition trapinit : M unit := initlock LTicks.

(** set up to take exceptions and traps while in the kernel. *)
Definition trapinithart : M unit := w_stvec kernelvec_pc.

Definition clockintr : M unit :=
  acquire LTicks;;
  modify (fun k => set_k_ticks (u32 (k_ticks k + 1)) k);;
  wakeup ChTicks;;
  release LTicks.

(** check if it's an external interrupt or software interrupt, and handle it: 2 if
    timer interrupt, 1 if other device, 0 if not recognized. *)
Definition devintr : M Z :=
  scause ← r_scause;
  if has scause (2 ^ 63) && (Z.land scause 255 =? 9) then
    irq ← plic_claim;
    (if irq =? UART0_IRQ then uartintr
     else if irq =? VIRTIO0_IRQ then virtio_disk_intr
     else when (truth irq) (printf (line "unexpected interrupt irq=%d") [AInt irq]));;
    when (truth irq) (plic_complete irq);;
    mret 1
  else if scause =? 2 ^ 63 + 1 then
    id ← cpuid;
    when (id =? 0) clockintr;;
    sip ← r_sip;
    w_sip (Z.land sip (Z.lnot 2));;
    mret 2
  else mret 0.

(** return to user space: the address jumped to and its two arguments. *)
Definition usertrapret : M (Z * Z * Z) :=
  i ← curproc;
  intr_off;;
  w_stvec (TRAMPOLINE + uservec_off);;
  satp ← r_satp;
  tf_write i TF_KERNEL_SATP satp;;
  p ← getproc i;
  tf_write i TF_KERNEL_SP (pr_kstack p + PGSIZE);;
  tf_write i TF_KERNEL_TRAP usertrap_pc;;
  tp ← r_tp;
  tf_write i TF_KERNEL_HARTID tp;;
  '(_, _, sie) ← r_sstatus;
  w_sstatus (false, true, sie);;
  epc ← tf_read i TF_EPC;
  w_sepc epc;;
  p ← getproc i;
  mret (TRAMPOLINE + userret_off, TRAPFRAME, MAKE_SATP (pr_pagetable p)).

(** The report of an unexpected trap from user space. *)
Definition usertrap_unexpected (i : nat) : M unit :=
  scause ← r_scause;
  p ← getproc i;
  printf (line "usertrap(): unexpected scause %p pid=%d") [APtr scause; AInt (pr_pid p)];;
  sepc ← r_sepc;
  stval ← r_stval;
  printf (line "            sepc=%p stval=%p") [APtr sepc; APtr stval];;
  modproc i (set_pr_killed 1).

(** if(p->killed) exit(-1). *)
Definition exit_if_killed (i : nat) : M unit :=
  p ← getproc i;
  if truth (pr_killed p) then exit (-1) else mret tt.

(** handle an interrupt, exception, or system call from user space. *)
Definition usertrap : M (Z * Z * Z) :=
  '(spp, _, _) ← r_sstatus;
  if spp : bool then panic "usertrap: not from user mode" else
  w_stvec kernelvec_pc;;
  i ← curproc;
  sepc ← r_sepc;
  tf_write i TF_EPC sepc;;
  scause ← r_scause;
  which_dev ← (if scause =? 8 then
      exit_if_killed i;;
      epc ← tf_read i TF_EPC;
      tf_write i TF_EPC (epc + 4);;
      intr_on;;
      syscall;;
      mret 0
    else
      d ← devintr;
      when (d =? 0) (usertrap_unexpected i);;
      mret d);
  exit_if_killed i;;
  if which_dev =? 2 then yield else usertrapret.

(** The condition of kerneltrap() for giving up the CPU. *)
Definition proc_running : M bool :=
  p ← myproc;
  match p with
  | None => mret false
  | Some i => p ← getproc i; mret (bool_decide (pr_state p = RUNNING))
  end.

(** interrupts and exceptions from kernel code go here via kernelvec. *)
Definition kerneltrap : M unit :=
  sepc ← r_sepc;
  sstatus ← r_sstatus;
  scause ← r_scause;
  if negb (fst (fst sstatus)) then panic "kerneltrap: not from supervisor mode" else
  on ← intr_get;
  if on : bool then panic "kerneltrap: interrupts enabled" else
  d ← devintr;
  if d =? 0 then
    printf (line "scause %p") [APtr scause];;
    sepc ← r_sepc;
    stval ← r_stval;
    printf (line "sepc=%p stval=%p") [APtr sepc; APtr stval];;
    panic "kerneltrap"
  else
  run ← (if d =? 2 then proc_running else mret false);
  if run : bool then yield else
  w_sepc sepc;;
  w_sstatus sstatus.

(** A fork child's very first scheduling by scheduler() will swtch to forkret. *)
Definition forkret : M (Z * Z * Z) :=
  i ← curproc;
  release (LProc i);;
  first ← gets k_first;
  when first (
    modify (set_k_first false);;
    fsinit ROOTDEV);;
  usertrapret.

End trap.
