(* ===== verification/Main.v ===== *)
(** Booting: kernel/start.c and kernel/main.c.

    start() runs in machine mode on its own registers, the record [mst]; main()
    runs in the kernel monad. *)

From Stdlib Require Import ZArith Lia.
From stdpp Require Import base gmap strings list numbers.
From S2P Require Import Prelude Params State Spinlock Sched CString Kalloc Vm Copy Uart Printf Console.
From S2P Require Import Frame Bio Cache Virtio Log Fs Dir Pipe File Proc Exec Sysfile Trap.

Open Scope Z_scope.

(** Machine-mode registers, the CLINT's registers of this hart and the hart's row
    of timer_scratch[][]. *)
Record mst := Mst {
  m_mhartid : Z; m_mstatus : Z; m_mepc : Z; m_satp : Z; m_medeleg : Z; m_mideleg : Z;
  m_sie : Z; m_pmpaddr0 : Z; m_pmpcfg0 : Z; m_mscratch : Z; m_mtvec : Z; m_mie : Z;
  m_tp : Z; m_mtime : Z; m_mtimecmp : Z; m_scratch : list Z;
  m_super : bool  (* mret has switched to supervisor mode at mepc *) }.

Abbreviation MSTATUS_MPP_MASK := 6144.  (* 3L << 11 *)
Abbreviation MSTATUS_MPP_S := 2048.     (* 1L << 11 *)
Abbreviation MSTATUS_MIE := 8.
Abbreviation SIE_SEIE := 512.
Abbreviation SIE_STIE := 32.
Abbreviation SIE_SSIE := 2.
Abbreviation MIE_MTIE := 128.

Definition w_mstatus (x : Z) (s : mst) : mst :=
  let (h, _, mepc, satp, ed, id, sie, pa, pc, sc, tv, mie, tp, mt, mc, sr, su) := s in
  Mst h x mepc satp ed id sie pa pc sc tv mie tp mt mc sr su.
Definition w_mepc (x : Z) (s : mst) : mst :=
  let (h, ms, _, satp, ed, id, sie, pa, pc, sc, tv, mie, tp, mt, mc, sr, su) := s in
  Mst h ms x satp ed id sie pa pc sc tv mie tp mt mc sr su.
Definition w_satp (x : Z) (s : mst) : mst :=
  let (h, ms, mepc, _, ed, id, sie, pa, pc, sc, tv, mie, tp, mt, mc, sr, su) := s in
  Mst h ms mepc x ed id sie pa pc sc tv mie tp mt mc sr su.
Definition w_medeleg (x : Z) (s : mst) : mst :=
  let (h, ms, mepc, satp, _, id, sie, pa, pc, sc, tv, mie, tp, mt, mc, sr, su) := s in
  Mst h ms mepc satp x id sie pa pc sc tv mie tp mt mc sr su.
Definition w_mideleg (x : Z) (s : mst) : mst :=
  let (h, ms, mepc, satp, ed, _, sie, pa, pc, sc, tv, mie, tp, mt, mc, sr, su) := s in
  Mst h ms mepc satp ed x sie pa pc sc tv mie tp mt mc sr su.
Definition w_sie (x : Z) (s : mst) : mst :=
  let (h, ms, mepc, satp, ed, id, _, pa, pc, sc, tv, mie, tp, mt, mc, sr, su) := s in
  Mst h ms mepc satp ed id x pa pc sc tv mie tp mt mc sr su.
Definition w_pmpaddr0 (x : Z) (s : mst) : mst :=
  let (h, ms, mepc, satp, ed, id, sie, _, pc, sc, tv, mie, tp, mt, mc, sr, su) := s in
  Mst h ms mepc satp ed id sie x pc sc tv mie tp mt mc sr su.
Definition w_pmpcfg0 (x : Z) (s : mst) : mst :=
  let (h, ms, mepc, satp, ed, id, sie, pa, _, sc, tv, mie, tp, mt, mc, sr, su) := s in
  Mst h ms mepc satp ed id sie pa x sc tv mie tp mt mc sr su.
Definition w_mscratch (x : Z) (s : mst) : mst :=
  let (h, ms, mepc, satp, ed, id, sie, pa, pc, _, tv, mie, tp, mt, mc, sr, su) := s in
  Mst h ms mepc satp ed id sie pa pc x tv mie tp mt mc sr su.
Definition w_mtvec (x : Z) (s : mst) : mst :=
  let (h, ms, mepc, satp, ed, id, sie, pa, pc, sc, _, mie, tp, mt, mc, sr, su) := s in
  Mst h ms mepc satp ed id sie pa pc sc x mie tp mt mc sr su.
Definition w_mie (x : Z) (s : mst) : mst :=
  let (h, ms, mepc, satp, ed, id, sie, pa, pc, sc, tv, _, tp, mt, mc, sr, su) := s in
  Mst h ms mepc satp ed id sie pa pc sc tv x tp mt mc sr su.
Definition w_tp (x : Z) (s : mst) : mst :=
  let (h, ms, mepc, satp, ed, id, sie, pa, pc, sc, tv, mie, _, mt, mc, sr, su) := s in
  Mst h ms mepc satp ed id sie pa pc sc tv mie x mt mc sr su.
Definition w_mtimecmp (x : Z) (s : mst) : mst :=
  let (h, ms, mepc, satp, ed, id, sie, pa, pc, sc, tv, mie, tp, mt, _, sr, su) := s in
  Mst h ms mepc satp ed id sie pa pc sc tv mie tp mt x sr su.
Definition w_scratch (x : list Z) (s : mst) : mst :=
  let (h, ms, mepc, satp, ed, id, sie, pa, pc, sc, tv, mie, tp, mt, mc, _, su) := s in
  Mst h ms mepc satp ed id sie pa pc sc tv mie tp mt mc x su.
(** The mret instruction with MPP = S. *)
Definition mret_instr (s : mst) : mst :=
  let (h, ms, mepc, satp, ed, id, sie, pa, pc, sc, tv, mie, tp, mt, mc, sr, _) := s in
  Mst h ms mepc satp ed id sie pa pc sc tv mie tp mt mc sr (Z.land ms MSTATUS_MPP_MASK =? MSTATUS_MPP_S).

Section start.
(** Addresses of main, timervec and timer_scratch. *)
Context (main_pc timervec_pc timer_scratch : Z).

(** set up to receive timer interrupts in machine mode. *)
Definition timerinit (s : mst) : mst :=
  let id := m_mhartid s in
  let interval := 1000000 in
  let s := w_mtimecmp (u64 (m_mtime s + interval)) s in
  let s := w_scratch (<[4%nat := interval]> (<[3%nat := CLINT_MTIMECMP id]> (m_scratch s))) s in
  let s := w_mscratch (timer_scratch + 40 * id) s in
  let s := w_mtvec timervec_pc s in
  let s := w_mstatus (Z.lor (m_mstatus s) MSTATUS_MIE) s in
  w_mie (Z.lor (m_mie s) MIE_MTIE) s.

(** entry.S jumps here in machine mode. *)
Definition start (s : mst) : mst :=
  let x := Z.land (m_mstatus s) (Z.lnot MSTATUS_MPP_MASK) in
  let s := w_mstatus (Z.lor x MSTATUS_MPP_S) s in
  let s := w_mepc main_pc s in
  let s := w_satp 0 s in
  let s := w_medeleg 0xffff s in
  let s := w_mideleg 0xffff s in
  let s := w_sie (Z.lor (Z.lor (Z.lor (m_sie s) SIE_SEIE) SIE_STIE) SIE_SSIE) s in
  let s := w_pmpaddr0 0x3fffffffffffff s in
  let s := w_pmpcfg0 0xf s in
  let s := timerinit s in
  let s := w_tp (m_mhartid s) s in
  mret_instr s.

End start.

Section main.
Context `{BD : BlockDevice} `{KI : KernelImage} `{CA : CodeAddrs}.
(** The address of disk.pages. *)
Context (disk_pages : Z).

(** main() up to scheduler(); [started] is the variable of that name, and the
    result its value when the hart is ready.  The other harts spin on it. *)
Definition main (started : bool) : M bool :=
  id ← cpuid;
  if id =? 0 then
    consoleinit;;
    printfinit;;
    printf newline [];;
    printf (line "xv6 kernel is booting") [];;
    printf newline [];;
    kinit;;
    kvminit;;
    kvminithart;;
    procinit;;
    trapinit;;
    trapinithart;;
    plicinit;;
    plicinithart;;
    binit;;
    iinit;;
    fileinit;;
    virtio_disk_init disk_pages;;
    userinit;;
    mret true
  else if negb started then blocked WForever
  else
    printf (line "hart %d starting") [AInt id];;
    kvminithart;;
    trapinithart;;
    plicinithart;;
    mret started.

End main.
