(* ===== verification/Commit.v ===== *)
(** Crash safety of the log (kernel/log.c, modelled in Log).

    The disk writes of a commit and of recovery are computed as lists; a crash
    keeps a prefix of them.  Block writes are atomic, as log.c assumes of its
    header block. *)

From Stdlib Require Import ZArith Lia.
From stdpp Require Import base gmap strings list numbers.
From S2P Require Import Prelude Params State Spinlock Sched Frame Bio Cache Log.

Open Scope Z_scope.

(** ** Sequences of block writes *)

Abbreviation write := (Z * list Z)%type.

Definition apply (ws : list write) (img : gmap Z (list Z)) : gmap Z (list Z) :=
  foldl (fun m w => <[fst w := snd w]> m) img ws.

Definition dwrite (ws : list write) (dk : disk) : disk :=
  Disk (apply ws (d_img dk)) (rev ws ++ d_hist dk).

Lemma apply_app w1 w2 img : apply (w1 ++ w2) img = apply w2 (apply w1 img).
Proof. apply foldl_app. Qed.

Lemma dwrite_nil dk : dwrite [] dk = dk.
Proof. by destruct dk. Qed.

Lemma dwrite_app w1 w2 dk : dwrite (w1 ++ w2) dk = dwrite w2 (dwrite w1 dk).
Proof. unfold dwrite. simpl. by rewrite apply_app, rev_app_distr, app_assoc. Qed.

Lemma apply_notin ws img x : x ∉ ws.*1 -> apply ws img !! x = img !! x.
Proof.
  revert img. induction ws as [|[b d] ws IH]; intros img Hx; simpl in *; [done|].
  apply not_elem_of_cons in Hx as [Hb Hx]. rewrite IH by done. by rewrite lookup_insert_ne.
Qed.

Lemma apply_is_Some ws img x : is_Some (img !! x) -> is_Some (apply ws img !! x).
Proof.
  revert img. induction ws as [|[b d] ws IH]; intros img Hx; simpl; [done|]. apply IH.
  destruct (decide (b = x)) as [->|]; [rewrite lookup_insert_eq; eauto|by rewrite lookup_insert_ne].
Qed.

(** The last write to a block decides its contents, whatever was there. *)
Lemma apply_in ws img img' x : x ∈ ws.*1 -> apply ws img !! x = apply ws img' !! x.
Proof.
  induction ws as [|[b d] ws IH] using rev_ind; [set_solver|]. intros Hx. rewrite !apply_app. simpl.
  destruct (decide (b = x)) as [->|Hne]; [by rewrite !lookup_insert_eq|].
  rewrite !lookup_insert_ne by done. apply IH. rewrite fmap_app in Hx. set_solver.
Qed.

Lemma apply_elem ws img x d : NoDup (ws.*1) -> (x, d) ∈ ws -> apply ws img !! x = Some d.
Proof.
  induction ws as [|[b e] ws IH] using rev_ind; [set_solver|]. rewrite fmap_app, NoDup_app.
  intros (Hnd & Hdis & _) [Hin|Hin]%elem_of_app; rewrite apply_app; simpl.
  - rewrite lookup_insert_ne; [by apply IH|]. intros ->. apply (Hdis x); [|set_solver].
    apply list_elem_of_fmap. exists (x, d). done.
  - apply list_elem_of_singleton in Hin as [= -> ->]. apply lookup_insert_eq.
Qed.

(** ** The log on disk *)

(** Where the log is: [l_size] blocks from [l_start], all on the disk. *)
Record layout (lg : log) (img : gmap Z (list Z)) : Prop := Layout {
  ly_dev : l_dev lg = ROOTDEV;
  ly_start : 0 <= l_start lg;
  ly_size : 2 <= l_size lg <= LOGSIZE;
  ly_end : l_start lg + l_size lg < 2 ^ 31;
  ly_region : forall x, l_start lg <= x < l_start lg + l_size lg -> is_Some (img !! x);
  ly_blocks : length (l_block lg) = 30%nat }.

(** A home block: outside the log. *)
Definition home (lg : log) (x : Z) : Prop := x < l_start lg \/ l_start lg + l_size lg <= x.

(** The blocks of a transaction, as many as the log can hold. *)
Record blocks_ok (lg : log) (img : gmap Z (list Z)) (blks : list Z) : Prop := Blocks {
  bl_len : Z.of_nat (length blks) <= l_size lg - 1;
  bl_prefix : take (length blks) (l_block lg) = blks;
  bl_home : forall b, b ∈ blks -> home lg b /\ 0 <= b < 2 ^ 31 /\ is_Some (img !! b) }.

Lemma layout_apply lg img ws : layout lg img -> layout lg (apply ws img).
Proof. intros []. constructor; auto using apply_is_Some. Qed.

Lemma blocks_apply lg img ws blks : blocks_ok lg img blks -> blocks_ok lg (apply ws img) blks.
Proof.
  intros []. constructor; auto. intros b Hb. destruct (bl_home0 b Hb) as (? & ? & ?).
  auto using apply_is_Some.
Qed.

Lemma blocks_lookup lg img blks t b :
  blocks_ok lg img blks -> blks !! t = Some b -> l_block lg !! t = Some b.
Proof.
  intros [_ Hp _] Hb. rewrite <- Hp in Hb. apply lookup_take_Some in Hb as [? _]. done.
Qed.

(** write_log() copies the blocks of [bds] to the log blocks from number [t] on. *)
Fixpoint log_writes (ls : Z) (t : nat) (bds : list write) : list write :=
  match bds with
  | [] => []
  | (_, d) :: bds => (ls + Z.of_nat t + 1, d) :: log_writes ls (S t) bds
  end.

Section commit.
Context `{DL : DiskLaws}.

Lemma write_log_loop k me p P lg pre bds :
  bst k me p ∅ P -> k_log k = lg -> layout lg (d_img (k_disk k)) ->
  blocks_ok lg (d_img (k_disk k)) (pre ++ bds.*1) -> (size P < NBUF)%nat ->
  (forall x, x ∈ P -> home lg x) -> (forall b d, (b, d) ∈ bds -> b ∈ P /\ kview k b = d) ->
  exists k', forM (seq (length pre) (length bds)) write_log1 k = Ret tt k' /\
    bst k' me p ∅ P /\ bframe k k' /\
    k_disk k' = dwrite (log_writes (l_start lg) (length pre) bds) (k_disk k) /\
    (forall x, home lg x -> kview k' x = kview k x).
Proof.
  revert k pre. induction bds as [|[b d] bds IH]; intros k pre HB Hlg Hly Hbl Hsz HP Hd; simpl.
  - exists k. by rewrite dwrite_nil.
  - destruct (Hd b d) as [HbP Hbd]; [set_solver|].
    destruct (bl_home _ _ _ Hbl b) as (Hhome & Hrange & Hsome); [set_solver|].
    pose proof Hly as [Hdev Hst Hsize Hend Hreg Hlen].
    pose proof (bl_len _ _ _ Hbl) as Hcap. rewrite length_app, length_fmap in Hcap. simpl in Hcap.
    set (lb := l_start lg + Z.of_nat (length pre) + 1).
    destruct (write_log1_ok k me p P (length pre) b lb) as (k1 & E1 & B1 & F1 & D1 & V1);
      rewrite ?Hlg; auto; try (unfold lb; lia).
    { eapply blocks_lookup; [done|]. rewrite lookup_app_r, Nat.sub_diag by lia. done. }
    { unfold home in Hhome. unfold lb. lia. }
    { apply Hreg. unfold lb. lia. }
    rewrite Hbd in D1. change (k_disk k1 = dwrite [(lb, d)] (k_disk k)) in D1.
    mcall E1. pose proof F1 as (_ & L1 & _).
    replace (S (length pre)) with (length (pre ++ [b])) by (rewrite length_app; simpl; lia).
    destruct (IH k1 (pre ++ [b])) as (k2 & E2 & B2 & F2 & D2 & V2); auto.
    + congruence.
    + rewrite D1. by apply (layout_apply _ _ [_]).
    + rewrite D1. apply (blocks_apply _ _ [_]). by rewrite <- app_assoc.
    + intros b' d' Hin. destruct (Hd b' d') as [Hb' <-]; [set_solver|]. split; [done|].
      apply V1. pose proof (HP b' Hb') as Hh. unfold home in Hh. unfold lb. lia.
    + exists k2. split_and!; [done|done|by etrans| |].
      * by rewrite D2, D1, <- dwrite_app.
      * intros x Hx. rewrite V2, V1; [done| |done]. unfold home in Hx. unfold lb. lia.
Qed.

(** install_trans(): [bds] pairs each block with the contents of its log block. *)
Lemma install_trans_loop k me p P lg recovering pre bds :
  bst k me p ∅ P -> k_log k = lg -> layout lg (d_img (k_disk k)) ->
  blocks_ok lg (d_img (k_disk k)) (pre ++ bds.*1) -> (size P < NBUF)%nat ->
  (forall x, x ∈ P -> home lg x) ->
  (forall t b d, bds !! t = Some (b, d) ->
     d_img (k_disk k) !! (l_start lg + Z.of_nat (length pre + t) + 1) = Some d) ->
  (recovering = 0 /\ NoDup (bds.*1) /\ (forall b, b ∈ bds.*1 -> b ∈ P)) \/
    (recovering <> 0 /\ P = ∅) ->
  exists k', forM (seq (length pre) (length bds)) (install_trans1 recovering) k = Ret tt k' /\
    bst k' me p ∅ (P ∖ list_to_set (bds.*1)) /\ bframe k k' /\ k_disk k' = dwrite bds (k_disk k).
Proof.
  revert k P pre. induction bds as [|[b d] bds IH];
    intros k P pre HB Hlg Hly Hbl Hsz HP Hd Hrec; simpl.
  - exists k. rewrite dwrite_nil. assert (P ∖ ∅ = P) as -> by set_solver. done.
  - destruct (bl_home _ _ _ Hbl b) as (Hhome & Hrange & Hsome); [set_solver|].
    pose proof Hly as [Hdev Hst Hsize Hend Hreg Hlen].
    pose proof (bl_len _ _ _ Hbl) as Hcap. rewrite length_app, length_fmap in Hcap. simpl in Hcap.
    set (lb := l_start lg + Z.of_nat (length pre) + 1).
    assert (lb ∉ P) as HlP by (intros Hin%HP; unfold home, lb in *; lia).
    assert (d_img (k_disk k) !! lb = Some d) as Hlb.
    { rewrite <- (Hd 0%nat b d) by done. unfold lb. do 2 f_equal. lia. }
    assert (kview k lb = d) as Hv by by eapply kview_disk.
    destruct (install_trans1_ok k me p P recovering (length pre) b lb)
      as (k1 & E1 & B1 & F1 & D1 & V1 & W1); rewrite ?Hlg; auto; try (unfold lb; lia).
    { eapply blocks_lookup; [done|]. rewrite lookup_app_r, Nat.sub_diag by lia. done. }
    { unfold home in Hhome. unfold lb. lia. }
    { destruct Hrec as [(-> & _ & Hin)|[? ->]]; [left|by right]. split; [done|]. apply Hin. set_solver. }
    rewrite Hv in D1. change (k_disk k1 = dwrite [(b, d)] (k_disk k)) in D1.
    mcall E1. pose proof F1 as (_ & L1 & _).
    replace (S (length pre)) with (length (pre ++ [b])) by (rewrite length_app; simpl; lia).
    destruct (IH k1 (P ∖ {[b]}) (pre ++ [b])) as (k2 & E2 & B2 & F2 & D2); auto.
    + congruence.
    + rewrite D1. by apply (layout_apply _ _ [_]).
    + rewrite D1. apply (blocks_apply _ _ [_]). by rewrite <- app_assoc.
    + apply Nat.le_lt_trans with (size P); [apply subseteq_size; set_solver|done].
    + set_solver.
    + intros t b' d' Ht. pose proof (Hd (S t) b' d' Ht) as E.
      assert (t < length bds)%nat.
      { by apply lookup_lt_Some in Ht. }
      rewrite D1. simpl. rewrite lookup_insert_ne; [|unfold home in Hhome; rewrite length_app; simpl; lia].
      rewrite <- E. f_equal. rewrite length_app. simpl. lia.
    + destruct Hrec as [(-> & Hnd & Hin)|[? ->]]; [left|right; split; [done|set_solver]].
      apply NoDup_cons in Hnd as [Hb Hnd]. set_solver.
    + exists k2. split; [done|]. split_and!; [|by etrans|by rewrite D2, D1, <- dwrite_app].
      assert (P ∖ ({[b]} ∪ list_to_set bds.*1) = P ∖ {[b]} ∖ list_to_set bds.*1) as E by set_solver.
      change (bst k2 me p ∅ (P ∖ ({[b]} ∪ list_to_set bds.*1))). by rewrite E.
Qed.

(** The writes of commit(): the log blocks, the header that commits, the home
    blocks, and the header that erases the transaction. *)
Definition commit_writes (ls : Z) (bl : list Z) (h : list Z) (bds : list write) : list write :=
  let n := Z.of_nat (length bds) in
  match bds with
  | [] => []
  | _ => log_writes ls 0 bds ++ [(ls, put_head n bl h)] ++ bds
           ++ [(ls, put_head 0 bl (put_head n bl h))]
  end.

(** The in-memory log describes a transaction that writes [bds]: its blocks are
    pinned in the cache, with [bds] their contents, and the log on disk is empty. *)
Record tx (k : kst) (P : gset Z) (h : list Z) (bds : list write) : Prop := Tx {
  tx_layout : layout (k_log k) (d_img (k_disk k));
  tx_blocks : blocks_ok (k_log k) (d_img (k_disk k)) (bds.*1);
  tx_nodup : NoDup (bds.*1);
  tx_n : l_n (k_log k) = Z.of_nat (length bds);
  tx_pins : P = list_to_set (bds.*1);
  tx_view : forall b d, (b, d) ∈ bds -> kview k b = d;
  tx_head : d_img (k_disk k) !! l_start (k_log k) = Some h;
  tx_empty : head_n h = 0 }.

Lemma tx_small k P h bds : tx k P h bds -> (size P < NBUF)%nat /\ (length bds < 30)%nat.
Proof.
  intros [[] [] Hnd Hn -> _ _ _]. rewrite length_fmap in bl_len0.
  rewrite size_list_to_set, length_fmap by done. lia.
Qed.

Lemma tx_home k P h bds x : tx k P h bds -> x ∈ P -> home (k_log k) x.
Proof.
  intros [_ [_ _ Hh] _ _ -> _ _ _] Hx. apply elem_of_list_to_set in Hx. by apply Hh.
Qed.

Lemma lookup_log_writes ls t bds j b d img :
  bds !! j = Some (b, d) -> apply (log_writes ls t bds) img !! (ls + Z.of_nat (t + j) + 1) = Some d.
Proof.
  revert t j img. induction bds as [|[b' d'] bds IH]; intros t j img Hj; [done|]. simpl.
  destruct j as [|j]; simpl in Hj.
  - simplify_eq. rewrite Nat.add_0_r, apply_notin; [apply lookup_insert_eq|].
    assert (forall x, x ∈ (log_writes ls (S t) bds).*1 -> ls + Z.of_nat t + 1 < x) as Hlt.
    { clear. generalize (S t) as s, (Nat.lt_succ_diag_r t).
      induction bds as [|[b d] bds IH]; intros s Hs x; simpl; [set_solver|].
      intros [->|Hx]%elem_of_cons; [lia|]. eapply IH in Hx; lia. }
    intros Hx%Hlt. lia.
  - replace (t + S j)%nat with (S t + j)%nat by lia. by apply IH.
Qed.

Lemma log_writes_region ls t bds x :
  x ∈ (log_writes ls t bds).*1 -> ls + Z.of_nat t < x <= ls + Z.of_nat (t + length bds).
Proof.
  revert t. induction bds as [|[b d] bds IH]; intros t; simpl; [set_solver|].
  intros [->|Hx]%elem_of_cons; [lia|]. apply IH in Hx. lia.
Qed.

(** commit() succeeds and makes exactly these writes. *)
Lemma commit_ok k me p P h bds :
  bst k me p ∅ P -> tx k P h bds ->
  exists k', commit k = Ret tt k' /\ bst k' me p ∅ ∅ /\ frame k k' /\ k_inodes k' = k_inodes k /\
    k_log k' = set_l_n 0 (k_log k) /\
    k_disk k' = dwrite (commit_writes (l_start (k_log k)) (l_block (k_log k)) h bds) (k_disk k).
Proof.
  intros HB Htx. destruct (tx_small _ _ _ _ Htx) as [Hsz Hlen].
  pose proof (fun x => tx_home k P h bds x Htx) as HPh.
  destruct Htx as [Hly Hbl Hnd Hn HP Hv Hh He]. unfold commit. mstep. rewrite Hn.
  remember (l_start (k_log k)) as ls eqn:Els. set (bl := l_block (k_log k)) in *.
  pose proof Hly as [Hdev Hst Hsize Hend Hreg _].
  destruct (decide (bds = [])) as [->|Hne].
  { exists k. simpl in *. rewrite dwrite_nil. subst P. split_and!; try done.
    change 0 with (Z.of_nat 0). rewrite <- Hn. by destruct (k_log k). }
  assert (ls ∉ P) as HlP by (intros Hx%HPh; unfold home in Hx; lia).
  assert (0 <? Z.of_nat (length bds) = true) as -> by (destruct bds; done).
  cbn [when]. unfold write_log. mstep. rewrite Hn, Nat2Z.id.
  destruct (write_log_loop k me p P (k_log k) [] bds) as (k1 & E1 & B1 & F1 & D1 & V1); auto.
  { intros b d Hin. split; [|by apply Hv]. rewrite HP, elem_of_list_to_set, list_elem_of_fmap. by exists (b, d). }
  simpl in E1. mcall E1. pose proof F1 as (Fr1 & L1 & I1). simpl length in D1.  rewrite <- Els in D1.
  set (n := Z.of_nat (length bds)) in *.
  destruct (write_head_ok k1 me p P ls h n) as (k2 & E2 & B2 & F2 & D2 & V2); rewrite ?L1; auto; try lia.
  { rewrite D1. simpl. rewrite apply_notin; [done|]. intros Hx%log_writes_region. lia. }
  mcall E2. pose proof F2 as (Fr2 & L2 & I2). rewrite L1 in D2. fold bl in D2.
  change (k_disk k2 = dwrite [(ls, put_head n bl h)] (k_disk k1)) in D2.
  rewrite D1, <- dwrite_app in D2.
  unfold install_trans. mstep. rewrite L2, L1, Hn. unfold n at 1. rewrite Nat2Z.id.
  destruct (install_trans_loop k2 me p P (k_log k) 0 [] bds) as (k3 & E3 & B3 & F3 & D3); auto.
  { congruence. }
  { rewrite D2. by apply layout_apply. }
  { rewrite D2. by apply blocks_apply. }
  { intros t b d Ht. rewrite D2. simpl. rewrite apply_app. simpl.
    rewrite <- Els, lookup_insert_ne; [by eapply (lookup_log_writes _ 0)|]. lia. }
  { left. split_and!; try done. intros b Hb. by rewrite HP, elem_of_list_to_set. }
  simpl in E3. mcall E3. pose proof F3 as (Fr3 & L3 & I3). rewrite D2, <- dwrite_app in D3.
  assert (P ∖ list_to_set bds.*1 = ∅) as EP by (rewrite HP; set_solver). rewrite EP in B3.
  unfold modlog. mstep. set (k4 := set_k_log _ k3).
  assert (frame k3 k4) as F4 by frame_tac.
  assert (bst k4 me p ∅ ∅) as B4 by by eapply bst_frame.
  assert (k_log k4 = set_l_n 0 (k_log k)) as L4 by (unfold k4; ksimpl; congruence).
  destruct (write_head_ok k4 me p ∅ ls (put_head n bl h) 0) as (k5 & E5 & B5 & F5 & D5 & V5);
    rewrite ?L4; auto; try lia; try apply not_elem_of_empty; try (rewrite size_empty; lia).
  { change (k_disk k4) with (k_disk k3). rewrite D3. simpl. rewrite apply_app, apply_notin.
    - rewrite apply_app. apply lookup_insert_eq.
    - intros Hx. apply (bl_home _ _ _ Hbl) in Hx as (Hx & _). unfold home in Hx. lia. }
  exists k5. pose proof F5 as (Fr5 & L5 & I5). split; [exact E5|]. split_and!.
  - done.
  - etrans; [exact Fr1|]. etrans; [exact Fr2|]. etrans; [exact Fr3|]. etrans; [exact F4|exact Fr5].
  - rewrite I5. unfold k4. ksimpl. congruence.
  - congruence.
  - rewrite L4 in D5. cbn [l_block set_l_n] in D5. fold bl in D5. unfold commit_writes. destruct bds; [done|].
    change (k_disk k5 = dwrite [(ls, put_head 0 bl (put_head n bl h))] (k_disk k3)) in D5.
    rewrite D5, D3, <- dwrite_app. f_equal. by rewrite <- !app_assoc.
Qed.

(** The writes of recover_from_log() on the disk [img]. *)
Definition recover_writes (ls : Z) (img : gmap Z (list Z)) : list write :=
  match img !! ls with
  | Some h =>
      ((fun t => (head_block h t, default [] (img !! (ls + Z.of_nat t + 1))))
         <$> seq 0 (Z.to_nat (head_n h))) ++ [(ls, put32 0 0 h)]
  | None => []
  end.

(** A header that recovery can follow: its blocks are home blocks on the disk. *)
Definition head_ok (lg : log) (img : gmap Z (list Z)) (h : list Z) : Prop :=
  0 <= head_n h <= l_size lg - 1 /\
  forall t, (t < Z.to_nat (head_n h))%nat ->
    home lg (head_block h t) /\ 0 <= head_block h t < 2 ^ 31 /\ is_Some (img !! head_block h t).

Lemma recover_from_log_ok k me p h :
  bst k me p ∅ ∅ -> layout (k_log k) (d_img (k_disk k)) ->
  d_img (k_disk k) !! l_start (k_log k) = Some h -> head_ok (k_log k) (d_img (k_disk k)) h ->
  exists k', recover_from_log k = Ret tt k' /\ bst k' me p ∅ ∅ /\ frame k k' /\
    k_inodes k' = k_inodes k /\ l_n (k_log k') = 0 /\ layout (k_log k') (d_img (k_disk k')) /\
    l_start (k_log k') = l_start (k_log k) /\ l_size (k_log k') = l_size (k_log k) /\
    l_outstanding (k_log k') = l_outstanding (k_log k) /\
    l_committing (k_log k') = l_committing (k_log k) /\
    k_disk k' = dwrite (recover_writes (l_start (k_log k)) (d_img (k_disk k))) (k_disk k).
Proof.
  intros HB Hly Hh [Hn Hblk]. pose proof Hly as [Hdev Hst Hsize Hend Hreg Hlen].
  remember (l_start (k_log k)) as ls eqn:Els. unfold recover_from_log.
  destruct (read_head_ok k me p ∅ ls h (head_n h)) as (k1 & E1 & B1 & F1 & I1 & D1 & L1 & V1);
    auto; try lia; try apply not_elem_of_empty; try (rewrite size_empty; lia).
  mcall E1. set (n := Z.to_nat (head_n h)) in *.
  set (bds := (fun t => (head_block h t, default [] (d_img (k_disk k) !! (ls + Z.of_nat t + 1)))) <$> seq 0 n).
  assert (length bds = n) as Hlb by (unfold bds; by rewrite length_fmap, length_seq).
  assert (bds.*1 = head_block h <$> seq 0 n) as Hfst.
  { unfold bds. by rewrite <- list_fmap_compose. }
  assert (layout (k_log k1) (d_img (k_disk k1))) as Hly1.
  { rewrite L1, D1. constructor; ksimpl; rewrite <- ?Els; auto; try lia.
    rewrite length_app, length_fmap, length_seq, length_drop. lia. }
  unfold install_trans. mstep.
  assert (Z.to_nat (l_n (k_log k1)) = length bds) as -> by (rewrite L1; ksimpl; fold n; lia).
  destruct (install_trans_loop k1 me p ∅ (k_log k1) 1 [] bds) as (k2 & E2 & B2 & F2 & D2);
    auto; try lia; try (rewrite size_empty; lia).
  { simpl. rewrite D1, Hfst. constructor.
    - rewrite length_fmap, length_seq, L1. ksimpl. lia.
    - rewrite length_fmap, length_seq, L1. ksimpl. fold n.
      rewrite take_app_length'; [done|]. by rewrite length_fmap, length_seq.
    - intros b Hb. apply list_elem_of_fmap in Hb as (t & -> & [_ Ht]%elem_of_seq).
      rewrite L1. destruct (Hblk t) as (Hx & ? & ?); [lia|]. split; [exact Hx|done]. }
  { set_solver. }
  { intros t b d Ht. rewrite L1, D1. ksimpl. rewrite <- Els. unfold bds in Ht.
    apply list_lookup_fmap_Some in Ht as (t' & [= -> ->] & [-> Ht']%lookup_seq). simpl.
    destruct (Hreg (ls + Z.of_nat t + 1)) as [d Hd]; [lia|]. by rewrite Hd. }
  simpl in E2. mcall E2. pose proof F2 as (Fr2 & L2 & I2). rewrite D1 in D2.
  assert (∅ ∖ list_to_set bds.*1 = (∅ : gset Z)) as EP by set_solver. rewrite EP in B2.
  unfold modlog. mstep. set (k3 := set_k_log _ k2).
  assert (frame k2 k3) as F3 by frame_tac.
  assert (bst k3 me p ∅ ∅) as B3 by by eapply bst_frame.
  assert (k_log k3 = set_l_n 0 (k_log k1)) as L3 by (unfold k3; ksimpl; congruence).
  destruct (write_head_ok k3 me p ∅ ls h 0) as (k4 & E4 & B4 & F4 & D4 & V4);
    rewrite ?L3; auto; try lia; try apply not_elem_of_empty; try (rewrite size_empty; lia).
  { by rewrite L1. }
  { by rewrite L1. }
  { change (k_disk k3) with (k_disk k2). rewrite D2. simpl. rewrite apply_notin; [done|].
    rewrite Hfst. intros (t & Ht & [_ Hlt]%elem_of_seq)%list_elem_of_fmap.
    destruct (Hblk t) as (Hx & _); [lia|]. unfold home in Hx. lia. }
  pose proof F4 as (Fr4 & L4 & I4). exists k4. split; [exact E4|].
  assert (k_disk k4 = dwrite (recover_writes ls (d_img (k_disk k))) (k_disk k)) as D5.
  { unfold recover_writes. rewrite Hh. fold n. fold bds.
    change (k_disk k4 = dwrite [(ls, put32 0 0 h)] (k_disk k2)) in D4.
    by rewrite D4, D2, <- dwrite_app. }
  rewrite L4, L3. cbn [l_n l_start l_size l_outstanding l_committing set_l_n].
  rewrite L1. ksimpl. rewrite <- Els. split_and!; try done.
  - etrans; [exact F1|]. etrans; [exact Fr2|]. etrans; [exact F3|exact Fr4].
  - rewrite I4. unfold k3. ksimpl. congruence.
  - rewrite D5. rewrite D1 in Hly1. rewrite L1 in Hly1.
    destruct (layout_apply _ _ (recover_writes ls (d_img (k_disk k))) Hly1). by constructor.
Qed.
End commit.

(** ** What a crash leaves *)

Definition recovered (ls : Z) (img : gmap Z (list Z)) : gmap Z (list Z) :=
  apply (recover_writes ls img) img.

Lemma head_n_clear h : block_ok h -> head_n (put32 0 0 h) = 0.
Proof. intros [Hl _]. unfold head_n. by rewrite get32_put32_same by lia. Qed.

(** With an empty log, recovery leaves every home block alone. *)
Lemma recovered_empty lg m h x :
  m !! l_start lg = Some h -> head_n h = 0 -> 0 < l_size lg -> home lg x ->
  recovered (l_start lg) m !! x = m !! x.
Proof.
  intros Hh Hn Hs Hx. unfold recovered, recover_writes. rewrite Hh, Hn. simpl.
  rewrite lookup_insert_ne; [done|]. unfold home in Hx. lia.
Qed.

Lemma head_ok_empty lg m h : head_n h = 0 -> 2 <= l_size lg -> head_ok lg m h.
Proof. intros Hn Hs. split; rewrite Hn; [lia|]. simpl. lia. Qed.

Lemma head_ok_apply lg m q h : head_ok lg m h -> head_ok lg (apply q m) h.
Proof.
  intros [Hn Hb]. split; [done|]. intros t Ht. destruct (Hb t Ht) as (? & ? & ?).
  split; [done|]. split; [done|]. by apply apply_is_Some.
Qed.

(** Recovery from a header that names [bds], whose data is in the log. *)
Lemma recover_writes_full ls m h bds :
  m !! ls = Some h -> head_n h = Z.of_nat (length bds) ->
  (forall t b d, bds !! t = Some (b, d) -> head_block h t = b /\ m !! (ls + Z.of_nat t + 1) = Some d) ->
  recover_writes ls m = bds ++ [(ls, put32 0 0 h)].
Proof.
  intros Hh Hn Hb. unfold recover_writes. rewrite Hh, Hn, Nat2Z.id. f_equal.
  apply list_eq. intros t. rewrite list_lookup_fmap. destruct (bds !! t) as [[b d]|] eqn:E.
  - rewrite lookup_seq_lt by eauto using lookup_lt_Some. simpl.
    destruct (Hb t b d E) as [-> ->]. done.
  - apply lookup_ge_None in E. by rewrite lookup_seq_ge.
Qed.

Lemma recovered_full lg m img h bds x :
  (forall b, b ∈ bds.*1 -> home lg b) -> home lg x -> 0 < l_size lg ->
  recover_writes (l_start lg) m = bds ++ [(l_start lg, h)] ->
  (x ∉ bds.*1 -> m !! x = img !! x) ->
  recovered (l_start lg) m !! x = apply bds img !! x.
Proof.
  intros Hb Hx Hs Hw Hm. unfold recovered. rewrite Hw, apply_app. simpl.
  rewrite lookup_insert_ne by (unfold home in Hx; lia).
  destruct (decide (x ∈ bds.*1)) as [Hin|Hn]; [by apply apply_in|].
  rewrite !apply_notin by done. by apply Hm.
Qed.

(** Whatever prefix of a commit's writes reached the disk, recovery sees either
    an empty log and the old home blocks, or the whole transaction. *)
Lemma commit_crash lg img bds h pre suf :
  layout lg img -> blocks_ok lg img (bds.*1) -> NoDup (bds.*1) ->
  img !! l_start lg = Some h -> block_ok h -> head_n h = 0 ->
  commit_writes (l_start lg) (l_block lg) h bds = pre ++ suf ->
  exists h', apply pre img !! l_start lg = Some h' /\ block_ok h' /\ head_ok lg (apply pre img) h' /\
    ((forall x, home lg x -> recovered (l_start lg) (apply pre img) !! x = img !! x) \/
     (forall x, home lg x -> recovered (l_start lg) (apply pre img) !! x = apply bds img !! x)).
Proof.
  intros Hly Hbl Hnd Hh Hok He Hw. pose proof Hly as [Hdev Hst Hsize Hend Hreg Hlen].
  remember (l_start lg) as ls eqn:Els.
  assert (forall b, b ∈ bds.*1 -> home lg b) as Hhome by (intros b Hb; by apply (bl_home _ _ _ Hbl)).
  assert (ls ∉ bds.*1) as HlsB by (intros Hx%Hhome; unfold home in Hx; lia).
  pose proof (bl_len _ _ _ Hbl) as Hcap. rewrite length_fmap in Hcap.
  destruct (decide (bds = [])) as [->|Hne].
  { symmetry in Hw. apply app_nil in Hw as [-> ->]. exists h. simpl.
    split_and!; auto using head_ok_empty with lia. left. intros x Hx. rewrite Els.
    eapply recovered_empty; eauto; [congruence|lia]. }
  assert (commit_writes ls (l_block lg) h bds =
    log_writes ls 0 bds ++ [(ls, put_head (Z.of_nat (length bds)) (l_block lg) h)] ++ bds
      ++ [(ls, put32 0 0 (put_head (Z.of_nat (length bds)) (l_block lg) h))]) as Ew by by destruct bds.
  rewrite Ew in Hw. clear Ew. remember (Z.of_nat (length bds)) as n eqn:En.
  set (A := log_writes ls 0 bds) in *. set (hd := put_head n (l_block lg) h) in *.
  assert (forall m x, home lg x -> apply A m !! x = m !! x) as HA.
  { intros m x Hx. apply apply_notin. intros Hin%log_writes_region.
    unfold home in Hx. lia. }
  assert (block_ok hd) as Hhd by (apply put_head_ok; [done|lia]).
  assert (head_n hd = n) as Hhn by (apply head_n_put_head; [done|lia]).
  assert (forall t b d, bds !! t = Some (b, d) -> head_block hd t = b) as Hhb.
  { intros t b d Ht. apply head_block_put_head; [done|lia| |].
    - rewrite En, Nat2Z.id. pose proof (bl_prefix _ _ _ Hbl) as Hp. rewrite length_fmap in Hp.
      by rewrite Hp, list_lookup_fmap, Ht.
    - apply (bl_home _ _ _ Hbl). apply list_elem_of_fmap. exists (b, d).
      eauto using list_elem_of_lookup_2. }
  assert (forall t b d m, bds !! t = Some (b, d) -> apply A m !! (ls + Z.of_nat t + 1) = Some d) as HAl.
  { intros t b d m Ht. by apply (lookup_log_writes ls 0 bds t b d). }
  assert (forall x, home lg x -> x <> ls) as Hhls by (unfold home; intros; lia).
  assert (forall q, ls ∉ q.*1 -> (forall x, home lg x -> x ∉ q.*1) ->
    exists h', apply q img !! ls = Some h' /\ block_ok h' /\ head_ok lg (apply q img) h' /\
      forall x, home lg x -> recovered ls (apply q img) !! x = img !! x) as Hold.
  { intros q Hq Hq'. exists h. rewrite apply_notin by done. split_and!; auto using head_ok_empty with lia.
    intros x Hx. rewrite Els. erewrite recovered_empty; rewrite <- ?Els; try done; [|by rewrite apply_notin|lia].
    by rewrite apply_notin by auto. }
  assert (forall q, (exists r, A = q ++ r) -> ls ∉ q.*1 /\ forall x, home lg x -> x ∉ q.*1) as HAq.
  { intros q [r Hq]. assert (forall x, x ∈ q.*1 -> ls < x <= ls + n) as Hr.
    { intros x Hx. assert (x ∈ A.*1) as Hin%log_writes_region by (rewrite Hq, fmap_app; set_solver). lia. }
    split; [intros Hx%Hr; lia|]. intros x Hx Hin%Hr. unfold home in Hx. lia. }
  assert (forall q r, bds = q ++ r -> let m := apply (A ++ (ls, hd) :: q) img in
    m !! ls = Some hd /\ head_ok lg m hd /\
    forall x, home lg x -> recovered ls m !! x = apply bds img !! x) as Hnew.
  { intros q r Hq m. assert (forall x, x ∈ q.*1 -> x ∈ bds.*1) as Hsub by (rewrite Hq, fmap_app; set_solver).
    assert (m !! ls = Some hd) as Hm.
    { unfold m. rewrite apply_app. simpl. rewrite apply_notin by auto. apply lookup_insert_eq. }
    assert (forall t b d, bds !! t = Some (b, d) ->
      head_block hd t = b /\ m !! (ls + Z.of_nat t + 1) = Some d) as Hmb.
    { intros t b d Ht. split; [by eapply Hhb|]. unfold m. rewrite apply_app. simpl.
      rewrite apply_notin, lookup_insert_ne by
        (lia || intros Hx%Hsub%Hhome; apply lookup_lt_Some in Ht; unfold home in Hx; lia). eauto. }
    split_and!; [done| |].
    - split; [lia|]. rewrite Hhn, En, Nat2Z.id. intros t [[b d] Ht]%lookup_lt_is_Some.
      destruct (Hmb t b d Ht) as [-> _]. assert (b ∈ bds.*1) as Hb.
      { apply list_elem_of_fmap. exists (b, d). eauto using list_elem_of_lookup_2. }
      destruct (bl_home _ _ _ Hbl b Hb) as (? & ? & ?). split; [done|]. split; [done|].
      by apply apply_is_Some.
    - intros x Hx. rewrite Els. eapply (recovered_full lg m img (put32 0 0 hd)); eauto; [lia| |].
      + rewrite <- Els. apply recover_writes_full; [done|lia|done].
      + intros Hn. unfold m. rewrite apply_app. simpl. rewrite apply_notin by auto.
        rewrite lookup_insert_ne by (symmetry; auto). auto. }
  apply app_eq_app in Hw as (q & [[Hq Hs]|[-> Hs]]).
  { destruct (HAq pre) as [H1 H2]; [eauto|]. destruct (Hold pre H1 H2) as (h' & ? & ? & ? & ?). eauto 10. }
  destruct q as [|w q].
  { rewrite app_nil_r. destruct (HAq A) as [H1 H2]; [exists []; by rewrite app_nil_r|].
    destruct (Hold A H1 H2) as (h' & ? & ? & ? & ?). eauto 10. }
  injection Hs as <- Hs. apply app_eq_app in Hs as (r & [[Hr _]|[-> Hr]]).
  { destruct (Hnew q r Hr) as (? & ? & ?). eauto 10. }
  destruct r as [|w r].
  { rewrite app_nil_r. destruct (Hnew bds []) as (? & ? & ?); [by rewrite app_nil_r|]. eauto 10. }
  injection Hr as <- [-> ->]%eq_sym%app_nil. exists (put32 0 0 hd).
  assert (apply (A ++ (ls, hd) :: bds ++ [(ls, put32 0 0 hd)]) img !! ls = Some (put32 0 0 hd)) as Hm.
  { rewrite apply_app. simpl. rewrite apply_app. apply lookup_insert_eq. }
  split_and!; auto using head_ok_empty, head_n_clear with lia.
  - apply (put_head_ok 0 []); [done|lia].
  - right. intros x Hx. rewrite Els. erewrite recovered_empty; rewrite <- ?Els;
      [|exact Hm|by apply head_n_clear|lia|done].
    rewrite apply_app. simpl. rewrite apply_app. simpl. rewrite lookup_insert_ne by (symmetry; auto).
    destruct (decide (x ∈ bds.*1)) as [Hin|Hn]; [by apply apply_in|].
    rewrite !apply_notin, lookup_insert_ne by (done || symmetry; auto). auto.
Qed.

(** Recovery may itself be cut short: recovering again from any prefix of its
    writes gives the same home blocks. *)
Lemma recover_crash lg m h pre suf :
  layout lg m -> m !! l_start lg = Some h -> block_ok h -> head_ok lg m h ->
  recover_writes (l_start lg) m = pre ++ suf ->
  exists h', apply pre m !! l_start lg = Some h' /\ block_ok h' /\ head_ok lg (apply pre m) h' /\
    forall x, home lg x ->
      recovered (l_start lg) (apply pre m) !! x = recovered (l_start lg) m !! x.
Proof.
  intros Hly Hh Hok Hhk Hw. pose proof Hhk as [Hn Hb]. pose proof Hly as [Hdev Hst Hsize Hend Hreg Hlen].
  remember (l_start lg) as ls eqn:Els.
  set (bds := (fun t => (head_block h t, default [] (m !! (ls + Z.of_nat t + 1))))
                <$> seq 0 (Z.to_nat (head_n h))).
  assert (recover_writes ls m = bds ++ [(ls, put32 0 0 h)]) as Em.
  { unfold recover_writes. by rewrite Hh. }
  assert (forall b, b ∈ bds.*1 -> home lg b /\ 0 <= b < 2 ^ 31 /\ is_Some (m !! b)) as Hbb.
  { intros b. unfold bds. rewrite <- list_fmap_compose.
    intros (t & -> & [_ Ht]%elem_of_seq)%list_elem_of_fmap. apply Hb. lia. }
  assert (forall x, home lg x -> recovered ls m !! x = apply bds m !! x) as Hrm.
  { intros x Hx. rewrite Els. eapply recovered_full; eauto; [intros; by apply Hbb|lia|by rewrite <- Els]. }
  assert (forall q, (exists r, bds = q ++ r) -> recover_writes ls (apply q m) = bds ++ [(ls, put32 0 0 h)]
      /\ apply q m !! ls = Some h /\ forall x, x ∉ bds.*1 -> apply q m !! x = m !! x) as Hq.
  { intros q [r Hr]. assert (forall x, x ∈ q.*1 -> x ∈ bds.*1) as Hs by (rewrite Hr, fmap_app; set_solver).
    assert (forall x, ls <= x < ls + l_size lg -> apply q m !! x = m !! x) as Hlog.
    { intros x Hx. apply apply_notin. intros (Hx' & _)%Hs%Hbb. unfold home in Hx'. lia. }
    split_and!.
    - unfold recover_writes. rewrite Hlog, Hh by lia. f_equal. apply list_fmap_ext.
      intros i t [-> Ht]%lookup_seq. rewrite Hlog by lia. done.
    - by rewrite Hlog by lia.
    - intros x Hx. apply apply_notin. auto. }
  rewrite Em in Hw. apply app_eq_app in Hw as (q & [[Hr _]|[-> Hr]]).
  - destruct (Hq pre) as (E1 & E2 & E3); [eauto|]. exists h.
    split_and!; try done; [by apply head_ok_apply|].
    intros x Hx. rewrite Hrm by done. rewrite Els.
    eapply recovered_full; eauto; [intros; by apply Hbb|lia|by rewrite <- Els].
  - destruct q as [|w q].
    + rewrite app_nil_r. destruct (Hq bds) as (E1 & E2 & E3); [exists []; by rewrite app_nil_r|].
      exists h. split_and!; try done; [by apply head_ok_apply|].
      intros x Hx. rewrite Hrm by done. rewrite Els.
      eapply recovered_full; eauto; [intros; by apply Hbb|lia|by rewrite <- Els].
    + injection Hr as <- [-> ->]%eq_sym%app_nil. exists (put32 0 0 h).
      assert (apply (bds ++ [(ls, put32 0 0 h)]) m !! ls = Some (put32 0 0 h)) as Hm.
      { rewrite apply_app. apply lookup_insert_eq. }
      split_and!; auto using head_ok_empty, head_n_clear with lia.
      * apply (put_head_ok 0 []); [done|lia].
      * intros x Hx. rewrite Els. erewrite recovered_empty; rewrite <- ?Els;
          [|exact Hm|by apply head_n_clear|lia|done].
        rewrite Hrm, apply_app by done. simpl. rewrite lookup_insert_ne; [done|]. unfold home in Hx. lia.
Qed.
