(* ===== verification/Transaction.v ===== *)
(** Transactions: begin_op(), log_write() and end_op() (kernel/log.c) as the file
    system uses them, and the crash-safety theorem. *)

From Stdlib Require Import ZArith Lia.
From stdpp Require Import base gmap strings list numbers.
From S2P Require Import Prelude Params State Spinlock Sched Frame Bio Cache Virtio Demo Log Commit.

Open Scope Z_scope.

(** Between begin_op() and the commit, [blks] are the blocks logged so far. *)
Record intx (k : kst) (P : gset Z) (blks : list Z) : Prop := Intx {
  ix_layout : layout (k_log k) (d_img (k_disk k));
  ix_blocks : blocks_ok (k_log k) (d_img (k_disk k)) blks;
  ix_nodup : NoDup blks;
  ix_n : l_n (k_log k) = Z.of_nat (length blks);
  ix_pins : P = list_to_set blks;
  ix_head : exists h, d_img (k_disk k) !! l_start (k_log k) = Some h /\ head_n h = 0 }.

Lemma intx_frame k k' P blks :
  intx k P blks -> k_log k' = k_log k -> k_disk k' = k_disk k -> intx k' P blks.
Proof. intros [] Hl Hd. constructor; rewrite ?Hl, ?Hd; done. Qed.

(** The log fields that do not describe the transaction. *)
Lemma intx_fields k k' P blks :
  intx k P blks -> k_disk k' = k_disk k ->
  l_dev (k_log k') = l_dev (k_log k) -> l_start (k_log k') = l_start (k_log k) ->
  l_size (k_log k') = l_size (k_log k) -> l_n (k_log k') = l_n (k_log k) ->
  l_block (k_log k') = l_block (k_log k) -> intx k' P blks.
Proof.
  intros [[] [] ? ? ? ?] Hd E1 E2 E3 E4 E5.
  constructor; [constructor|constructor|..]; rewrite ?Hd, ?E1, ?E2, ?E3, ?E4, ?E5; auto.
  intros b Hb. unfold home. rewrite E2, E3. by apply bl_home.
Qed.

Definition contents (k : kst) (blks : list Z) : list write := (fun b => (b, kview k b)) <$> blks.

Lemma contents_fst k blks : (contents k blks).*1 = blks.
Proof. unfold contents. rewrite <- list_fmap_compose. apply list_fmap_id. Qed.

Lemma tx_of_intx k P blks h :
  intx k P blks -> d_img (k_disk k) !! l_start (k_log k) = Some h -> head_n h = 0 ->
  tx k P h (contents k blks).
Proof.
  intros [] Hh He. constructor; rewrite ?contents_fst; try done.
  - unfold contents. by rewrite length_fmap.
  - intros b d (b' & [= -> ->] & _)%list_elem_of_fmap. done.
Qed.

Lemma log_position_spec bl bn :
  Forall (fun b => 0 <= b < 2 ^ 31) bl ->
  (bn ∈ bl /\ bl !! log_position bl bn = Some bn) \/ (bn ∉ bl /\ log_position bl bn = length bl).
Proof.
  induction bl as [|b bl IH]; intros Hf; simpl; [right; split; [set_solver|done]|].
  apply Forall_cons_1 in Hf as [Hb Hf]. rewrite u32_small by lia.
  destruct (b =? bn) eqn:E.
  - apply Z.eqb_eq in E as ->. left. split; [set_solver|done].
  - assert (b <> bn) by lia. destruct (IH Hf) as [[Hin Hp]|[Hn Hp]].
    + left. split; [set_solver|done].
    + right. split; [set_solver|]. by rewrite Hp.
Qed.

Section tx.
Context `{DL : DiskLaws}.

(** begin_op() with room in the log. *)
Lemma begin_op_ok k me p H P :
  bst k me p H P -> l_committing (k_log k) = 0 ->
  l_n (k_log k) + (l_outstanding (k_log k) + 1) * MAXOPBLOCKS <= LOGSIZE ->
  begin_op k = Ret tt (set_k_log (set_l_outstanding (l_outstanding (k_log k) + 1) (k_log k)) k).
Proof.
  intros HB Hc Hr. pose proof (bs_quiet _ _ _ _ _ HB) as Hq. unfold begin_op.
  mcall (acquire_eq _ _ (quiet_lock _ _ _ _ Hq)). mstep.
  change (k_log (acq LLog k)) with (k_log k). rewrite Hc. change (truth 0) with false. cbv iota.
  assert (LOGSIZE <? l_n (k_log k) + (l_outstanding (k_log k) + 1) * MAXOPBLOCKS = false) as -> by lia.
  unfold modlog. mstep. rewrite (release_after _ k) by (done || eauto with xv6).
  apply f_equal. unfold acq. kst_eq.
Qed.

(** begin_op() sleeps while a commit is in progress or the log might overflow. *)
Lemma begin_op_waits k me p H P :
  bst k me p H P ->
  l_committing (k_log k) <> 0 \/
    LOGSIZE < l_n (k_log k) + (l_outstanding (k_log k) + 1) * MAXOPBLOCKS ->
  begin_op k = Blocked (WSleep ChLog 0) (asleep ChLog LLog me (acq LLog k)).
Proof.
  intros HB Hw. pose proof (bs_quiet _ _ _ _ _ HB) as Hq. unfold begin_op.
  mcall (acquire_eq _ _ (quiet_lock _ _ _ _ Hq)). mstep.
  change (k_log (acq LLog k)) with (k_log k).
  assert (sleep (A := unit) ChLog LLog 0 (acq LLog k) =
    Blocked (WSleep ChLog 0) (asleep ChLog LLog me (acq LLog k))) as E.
  { destruct Hq. apply (sleep_eq _ _ _ _ me p); auto using running_acq; unfold acq, push_hart; ksimpl.
    - lia.
    - apply lookup_insert_eq.
    - by rewrite q_locks, lookup_insert_ne. }
  destruct (truth (l_committing (k_log k))) eqn:Et; [done|].
  assert (LOGSIZE <? l_n (k_log k) + (l_outstanding (k_log k) + 1) * MAXOPBLOCKS = true) as ->; [|done].
  unfold truth in Et. destruct Hw; lia.
Qed.

(** log_write() of a held block. *)
Lemma log_write_ok k me p H P blks bn i :
  bst k me p H P -> intx k P blks -> H !! bn = Some i -> home (k_log k) bn ->
  1 <= l_outstanding (k_log k) -> Z.of_nat (length blks) < l_size (k_log k) - 1 ->
  exists k' blks', log_write i k = Ret tt k' /\
    bst k' me p H ({[bn]} ∪ P) /\ intx k' ({[bn]} ∪ P) blks' /\ frame k k' /\
    blks' = (if decide (bn ∈ blks) then blks else blks ++ [bn]) /\
    k_disk k' = k_disk k /\ k_inodes k' = k_inodes k /\
    l_outstanding (k_log k') = l_outstanding (k_log k) /\
    l_committing (k_log k') = l_committing (k_log k) /\
    l_start (k_log k') = l_start (k_log k) /\ l_size (k_log k') = l_size (k_log k) /\
    (forall x, kview k' x = kview k x).
Proof.
  intros HB Hix Hi Hh Ho Hroom. pose proof HB as [Hq HC Himg Hrd].
  destruct (held_buf _ _ _ _ _ _ _ HB Hi) as (b & Hc & _ & _ & _ & _ & Hrc).
  pose proof Hc as (Hlt & Hb & _ & Hbn). pose proof (cached_used HC _ _ _ Hc) as [].
  rewrite Hbn in us_img.
  assert (0 <= bn < 2 ^ 31) as Hbr by (destruct us_img as [d Hd]; by apply (Himg bn d)).
  pose proof Hix as [Hly [Hbl Hpre Hbh] Hnd Hn HP Hhd]. pose proof Hly as [? ? ? ? ? Hlen].
  unfold log_write. mcall (acquire_eq _ _ (quiet_lock _ _ _ _ Hq)). mstep.
  change (k_log (acq LLog k)) with (k_log k). rewrite Hn.
  assert ((LOGSIZE <=? Z.of_nat (length blks)) || (l_size (k_log k) - 1 <=? Z.of_nat (length blks)) = false)
    as -> by lia.
  assert (l_outstanding (k_log k) <? 1 = false) as -> by lia.
  mcall (getbuf_eq (acq LLog k) i b Hb). rewrite Hbn, Nat2Z.id, Hpre, i32_small by lia.
  assert (Forall (fun b => 0 <= b < 2 ^ 31) blks) as Hr.
  { apply Forall_forall. intros x Hx. by apply Hbh. }
  unfold modlog. mstep.
  destruct (log_position_spec blks bn Hr) as [[Hin Hp]|[Hnin Hp]].
  - rewrite decide_True by done. set (j := log_position blks bn) in *.
    assert (Z.of_nat j =? Z.of_nat (length blks) = false) as -> by (apply lookup_lt_Some in Hp; lia).
    assert (<[j := bn]> (l_block (k_log k)) = l_block (k_log k)) as EB.
    { apply list_insert_id. by eapply blocks_lookup. }
    cbn [when]. mstep. change (k_log (acq LLog k)) with (k_log k). rewrite EB.
    assert (set_l_block (l_block (k_log k)) (k_log k) = k_log k) as -> by by destruct (k_log k).
    rewrite (release_after _ k) by (done || eauto with xv6).
    assert ({[bn]} ∪ P = P) as -> by (rewrite HP; set_solver).
    exists k, blks. split; [apply f_equal; unfold acq; kst_eq|]. by split_and!.
  - rewrite decide_False by done. rewrite Hp.
    assert (Z.of_nat (length blks) =? Z.of_nat (length blks) = true) as -> by lia.
    cbn [when]. change (k_log (acq LLog k)) with (k_log k).
    set (lg1 := set_l_block (<[length blks := bn]> (l_block (k_log k))) (k_log k)).
    set (k1 := set_k_log lg1 (acq LLog k)).
    assert (bn ∉ P) as HbP by (rewrite HP; set_solver).
    assert (bpin i k1 = Ret tt (set_k_bufs (<[i := set_b_refcnt (refs H P bn + 1) b]> (k_bufs k1)) k1)) as Ep.
    { apply bpin_eq; auto using refs_range.
      - unfold k1, acq. ksimpl. apply hart_ok_push. eauto with xv6.
      - unfold k1, acq. ksimpl. rewrite lookup_insert_ne by done. eauto with xv6. }
    mstep. mcall Ep. mstep. rewrite (release_after _ k) by (done || eauto with xv6).
    destruct (cache_repin (pr_pid p) H P ({[bn]} ∪ P) _ _ bn i b (refs H P bn + 1) HC Hi Hc) as [HC' Hv'].
    { set_solver. }
    { by rewrite refs_pin. }
    eexists _, (blks ++ [bn]). split; [reflexivity|]. split.
    { constructor; ksimpl; try done. by destruct Hq. }
    split.
    { constructor; ksimpl; unfold k1, lg1; ksimpl; try done.
      - constructor; ksimpl; try done. by rewrite length_insert.
      - constructor; ksimpl.
        + rewrite length_app. simpl. lia.
        + rewrite length_app. simpl.
          assert (length blks < length (l_block (k_log k)))%nat as Hl2 by lia.
          rewrite Nat.add_1_r, (take_S_r _ _ bn), take_insert_ge, Hpre; [done|done|].
          by rewrite list_lookup_insert_eq.
        + intros x [Hx|Hx]%elem_of_app; [by apply Hbh|]. by apply list_elem_of_singleton in Hx as ->.
      - apply NoDup_app. split_and!; [done|set_solver|apply NoDup_singleton].
      - rewrite length_app, Hn. simpl. lia.
      - rewrite HP. set_solver. }
    split; [by frame_tac|]. split_and!; try done.
Qed.

(** end_op() while other operations are outstanding only wakes waiting ones. *)
Lemma end_op_shared k me p H P :
  bst k me p H P -> l_committing (k_log k) = 0 -> l_outstanding (k_log k) <> 1 ->
  exists ps, end_op k = Ret tt (set_k_procs ps
      (set_k_log (set_l_outstanding (l_outstanding (k_log k) - 1) (k_log k)) k)) /\
    woken (k_procs k) ps.
Proof.
  intros HB Hc Ho. pose proof (bs_quiet _ _ _ _ _ HB) as Hq. unfold end_op.
  mcall (acquire_eq _ _ (quiet_lock _ _ _ _ Hq)). unfold modlog. mstep. ksimpl.
  change (k_log (acq LLog k)) with (k_log k). rewrite Hc. change (truth 0) with false. cbv iota.
  assert (l_outstanding (k_log k) - 1 =? 0 = false) as -> by lia. cbn [when].
  set (k1 := set_k_log _ (acq LLog k)).
  destruct (wakeup_woken ChLog k1) as (ps & E & Hw & _).
  { unfold k1, acq. ksimpl. apply hart_ok_push. eauto with xv6. }
  { intros i. unfold k1, acq. ksimpl. rewrite lookup_insert_ne by done. eauto with xv6. }
  { by destruct Hq. }
  exists ps. split; [|done]. mcall E.
  assert (release LLog (set_k_procs ps k1) = Ret tt (set_k_procs ps
      (set_k_log (set_l_outstanding (l_outstanding (k_log k) - 1) (k_log k)) k))) as Er.
  { rewrite (release_after _ k) by (done || eauto with xv6). apply f_equal. unfold k1, acq. kst_eq. }
  mcall Er. done.
Qed.

(** The last end_op() commits: the logged blocks reach the disk and the log is
    empty again. *)
Lemma end_op_commits k me p P h bds :
  bst k me p ∅ P -> tx k P h bds -> l_outstanding (k_log k) = 1 -> l_committing (k_log k) = 0 ->
  exists k', end_op k = Ret tt k' /\ bst k' me p ∅ ∅ /\ frame k k' /\ k_inodes k' = k_inodes k /\
    l_n (k_log k') = 0 /\ l_outstanding (k_log k') = 0 /\ l_committing (k_log k') = 0 /\
    l_start (k_log k') = l_start (k_log k) /\ l_size (k_log k') = l_size (k_log k) /\
    l_dev (k_log k') = l_dev (k_log k) /\ l_block (k_log k') = l_block (k_log k) /\
    k_disk k' = dwrite (commit_writes (l_start (k_log k)) (l_block (k_log k)) h bds) (k_disk k).
Proof.
  intros HB Htx Ho Hc. pose proof (bs_quiet _ _ _ _ _ HB) as Hq. unfold end_op.
  mcall (acquire_eq _ _ (quiet_lock _ _ _ _ Hq)). unfold modlog. mstep. ksimpl.
  change (k_log (acq LLog k)) with (k_log k). rewrite Hc. change (truth 0) with false. cbv iota.
  rewrite Ho. change (1 - 1 =? 0) with true. cbv iota. mstep. ksimpl.
  set (lg1 := set_l_committing 1 (set_l_outstanding 0 (k_log k))).
  set (k1 := set_k_log lg1 k).
  match goal with |- context [(release LLog ≫= _) ?kk] => assert (release LLog kk = Ret tt k1) as Er end.
  { rewrite (release_after _ k) by (done || eauto with xv6). apply f_equal. unfold k1, acq. kst_eq. }
  mcall Er. cbn [when]. clear Er.
  assert (frame k k1) as F1 by frame_tac.
  assert (bst k1 me p ∅ P) as B1 by by eapply bst_frame.
  assert (tx k1 P h bds) as T1.
  { destruct Htx as [[] [] ? ? ? ? ? ?]. constructor; try done; constructor; auto. }
  destruct (commit_ok k1 me p P h bds B1 T1) as (k2 & E2 & B2 & F2 & I2 & L2 & D2).
  mcall E2. pose proof (bs_quiet _ _ _ _ _ B2) as Hq2.
  mcall (acquire_eq _ _ (quiet_lock _ _ _ _ Hq2)). mstep.
  set (k3 := set_k_log _ (acq LLog k2)).
  destruct (wakeup_woken ChLog k3) as (ps & E3 & Hw & _).
  { unfold k3, acq. ksimpl. apply hart_ok_push. eauto with xv6. }
  { intros i. unfold k3, acq. ksimpl. rewrite lookup_insert_ne by done. eauto with xv6. }
  { by destruct Hq2. }
  mcall E3. rewrite (release_after _ k2) by (done || eauto with xv6).
  eexists. split; [reflexivity|]. cbn [k_log set_k_locks set_k_hart set_k_procs k_inodes k_disk k3 set_k_log].
  change (k_log (acq LLog k2)) with (k_log k2). rewrite L2. unfold k1, lg1. ksimpl.
  assert (frame k2 (set_k_locks (k_locks k2) (set_k_hart (k_hart k2) (set_k_procs ps k3)))) as F3.
  { frame_tac. exact Hw. }
  split; [by eapply bst_frame|]. split; [etrans; [exact F1|]; etrans; [exact F2|exact F3]|].
  split_and!; try done.
Qed.

(** initlog() at boot recovers from the log. *)
Lemma initlog_ok k me p sb lg h :
  bst k me p ∅ ∅ -> layout lg (d_img (k_disk k)) -> length (l_block (k_log k)) = 30%nat ->
  sb_logstart sb = l_start lg -> sb_nlog sb = l_size lg ->
  d_img (k_disk k) !! l_start lg = Some h -> head_ok lg (d_img (k_disk k)) h ->
  exists k', initlog ROOTDEV sb k = Ret tt k' /\ bst k' me p ∅ ∅ /\ frame k k' /\
    k_inodes k' = k_inodes k /\ l_n (k_log k') = 0 /\ layout (k_log k') (d_img (k_disk k')) /\
    l_start (k_log k') = l_start lg /\ l_size (k_log k') = l_size lg /\
    l_outstanding (k_log k') = l_outstanding (k_log k) /\
    l_committing (k_log k') = l_committing (k_log k) /\
    k_disk k' = dwrite (recover_writes (l_start lg) (d_img (k_disk k))) (k_disk k).
Proof.
  intros HB Hly Hlen Hs1 Hs2 Hh [Hn Hhk]. pose proof Hly as [? ? ? ? ? ?].
  unfold initlog, initlock, modlog. change (1024 <=? 4 + 4 * LOGSIZE) with false. cbv iota. mstep.
  rewrite Hs1, Hs2, !i32_small by lia.
  match goal with |- context [recover_from_log ?kk] => set (k1 := kk) end.
  assert (k_locks k1 = k_locks k) as El.
  { unfold k1. ksimpl. rewrite (q_locks _ _ _ (bs_quiet _ _ _ _ _ HB)). apply delete_empty. }
  assert (frame k k1) as F1 by (frame_tac; exact El).
  assert (bst k1 me p ∅ ∅) as B1 by by eapply bst_frame.
  destruct (recover_from_log_ok k1 me p h) as (k2 & E & B2 & F2 & I2 & Hn2 & Hly2 & S2 & Z2 & O2 & C2 & D2).
  - done.
  - constructor; try done.
  - done.
  - split; [done|]. intros t Ht. destruct (Hhk t Ht) as (Hx & Hy). split; [exact Hx|exact Hy].
  - exists k2. split; [exact E|]. split; [done|]. split; [etrans; [exact F1|exact F2]|].
    split_and!; try done.
Qed.

(** The disks a sequence of interrupted recoveries can leave: each boot runs
    initlog() from a fresh cache, and the next crash keeps a prefix of its writes. *)
Inductive reboots (sb : superblock) : gmap Z (list Z) -> gmap Z (list Z) -> Prop :=
| reboots_none m : reboots sb m m
| reboots_crash m m' kb me p kr ws pre suf :
    bst kb me p ∅ ∅ -> d_img (k_disk kb) = m -> length (l_block (k_log kb)) = 30%nat ->
    initlog ROOTDEV sb kb = Ret tt kr ->
    d_hist (k_disk kr) = rev ws ++ d_hist (k_disk kb) -> ws = pre ++ suf ->
    reboots sb (apply pre m) m' -> reboots sb m m'.

Lemma reboots_recover sb lg m m' h :
  reboots sb m m' -> layout lg m -> sb_logstart sb = l_start lg -> sb_nlog sb = l_size lg ->
  m !! l_start lg = Some h -> block_ok h -> head_ok lg m h ->
  exists h', m' !! l_start lg = Some h' /\ block_ok h' /\ head_ok lg m' h' /\ layout lg m' /\
    forall x, home lg x -> recovered (l_start lg) m' !! x = recovered (l_start lg) m !! x.
Proof.
  intros Hr. revert h. induction Hr as [m|m m' kb me p kr ws pre suf HB Hm Hlen Hi Hhist Hws Hr IH];
    intros h Hly Hs1 Hs2 Hh Hok Hhk; [eauto 10|].
  subst m. destruct (initlog_ok kb me p sb lg h HB Hly Hlen Hs1 Hs2 Hh Hhk)
    as (kr' & E & _ & _ & _ & _ & _ & _ & _ & _ & _ & D).
  rewrite Hi in E. injection E as <-. rewrite D in Hhist. simpl in Hhist.
  apply app_inv_tail in Hhist. apply (f_equal (@rev _)) in Hhist. rewrite !rev_involutive in Hhist.
  rewrite Hws in Hhist.
  destruct (recover_crash lg _ h pre suf Hly Hh Hok Hhk Hhist) as (h' & Hh' & Hok' & Hhk' & Hx).
  destruct (IH h') as (h2 & ? & ? & ? & ? & Hx2); auto using layout_apply.
  exists h2. split_and!; auto. intros x Hxh. by rewrite Hx2, Hx.
Qed.
End tx.

Lemma commit_writes_home lg img bds h x :
  layout lg img -> blocks_ok lg img (bds.*1) -> home lg x ->
  apply (commit_writes (l_start lg) (l_block lg) h bds) img !! x = apply bds img !! x.
Proof.
  intros Hly Hbl Hx. pose proof (bl_len _ _ _ Hbl) as Hcap. rewrite length_fmap in Hcap.
  destruct (decide (bds = [])) as [->|Hne]; [done|].
  assert (exists w1 w2, commit_writes (l_start lg) (l_block lg) h bds =
    log_writes (l_start lg) 0 bds ++ [(l_start lg, w1)] ++ bds ++ [(l_start lg, w2)])
    as (w1 & w2 & ->) by (destruct bds; [done|by eexists _, _]).
  assert (l_start lg <> x) as Hls by (destruct Hly; unfold home in Hx; lia).
  rewrite !apply_app. simpl. rewrite lookup_insert_ne by done.
  destruct (decide (x ∈ bds.*1)) as [Hin|Hn]; [by apply apply_in|].
  rewrite !(apply_notin bds) by done. rewrite lookup_insert_ne by done.
  apply apply_notin. intros Hin%log_writes_region. unfold home in Hx. lia.
Qed.

Lemma apply_contents k blks img x :
  NoDup blks ->
  apply (contents k blks) img !! x = if decide (x ∈ blks) then Some (kview k x) else img !! x.
Proof.
  intros Hnd. case_decide as Hx.
  - apply apply_elem; [by rewrite contents_fst|]. apply list_elem_of_fmap. eauto.
  - apply apply_notin. by rewrite contents_fst.
Qed.

(** ** Properties *)

Section properties.
Context `{DL : DiskLaws}.

(** The last end_op() of a transaction, and recovery after a crash in it. *)
Lemma end_op_atomic k me p P blks sb :
  bst k me p ∅ P -> intx k P blks ->
  l_outstanding (k_log k) = 1 -> l_committing (k_log k) = 0 ->
  sb_logstart sb = l_start (k_log k) -> sb_nlog sb = l_size (k_log k) ->
  exists k' ws, end_op k = Ret tt k' /\ k_disk k' = dwrite ws (k_disk k) /\
    (forall x, home (k_log k) x -> d_img (k_disk k') !! x =
       if decide (x ∈ blks) then Some (kview k x) else d_img (k_disk k) !! x) /\
    forall pre suf m kb me' p',
      ws = pre ++ suf -> reboots sb (apply pre (d_img (k_disk k))) m ->
      bst kb me' p' ∅ ∅ -> d_img (k_disk kb) = m -> length (l_block (k_log kb)) = 30%nat ->
      exists kr, initlog ROOTDEV sb kb = Ret tt kr /\ bst kr me' p' ∅ ∅ /\
        ((forall x, home (k_log k) x -> d_img (k_disk kr) !! x = d_img (k_disk k) !! x) \/
         (forall x, home (k_log k) x -> d_img (k_disk kr) !! x = d_img (k_disk k') !! x)).
Proof.
  intros HB Hix Ho Hc Hs1 Hs2. pose proof (ix_head _ _ _ Hix) as (h & Hh & He).
  pose proof (tx_of_intx k P blks h Hix Hh He) as Htx.
  destruct (end_op_commits k me p P h _ HB Htx Ho Hc) as (k' & E & _ & _ & _ & _ & _ & _ & _ & _ & _ & _ & D).
  set (lg := k_log k) in *. set (bds := contents k blks) in *.
  set (ws := commit_writes (l_start lg) (l_block lg) h bds) in *.
  destruct Htx as [Hly Hbl Hnd _ _ _ _ _].
  assert (block_ok h) as Hok by by apply (bs_img _ _ _ _ _ HB (l_start lg)).
  assert (forall x, home lg x -> d_img (k_disk k') !! x = apply bds (d_img (k_disk k)) !! x) as Hnew.
  { intros x Hx. rewrite D. by apply commit_writes_home. }
  exists k', ws. split_and!; [done..| |].
  { intros x Hx. rewrite Hnew by done. apply apply_contents, Hix. }
  intros pre suf m kb me' p' Hws Hr HBb Hm Hlen.
  destruct (commit_crash lg _ bds h pre suf Hly Hbl Hnd Hh Hok He Hws) as (h1 & Hh1 & Hok1 & Hhk1 & Hcase).
  destruct (reboots_recover sb lg _ m h1 Hr (layout_apply _ _ _ Hly) Hs1 Hs2 Hh1 Hok1 Hhk1)
    as (h2 & Hh2 & Hok2 & Hhk2 & Hly2 & Hsame). subst m.
  destruct (initlog_ok kb me' p' sb lg h2 HBb Hly2 Hlen Hs1 Hs2 Hh2 Hhk2)
    as (kr & Ei & Br & _ & _ & _ & _ & _ & _ & _ & _ & Dr).
  exists kr. split; [done|]. split; [done|].
  assert (forall x, home lg x -> d_img (k_disk kr) !! x =
    recovered (l_start lg) (apply pre (d_img (k_disk k))) !! x) as Hrec.
  { intros x Hx. rewrite <- Hsame by done. by rewrite Dr. }
  destruct Hcase as [Hold|Hfull]; [left|right]; intros x Hx; rewrite Hrec by done.
  - by apply Hold.
  - rewrite Hnew by done. by apply Hfull.
Qed.

(** C2: crash atomicity of the log.  When the last file-system call of a
    transaction calls end_op(), it commits without panicking and every logged
    block reaches its home location.  If the machine crashes after any prefix of
    the disk writes end_op() makes, and then any number of further crashes
    interrupt recovery, the next complete initlog() leaves all home blocks as
    they were before the transaction, or all of them as the transaction made
    them. *)
Theorem end_op_crash_atomic k me p P blks sb :
  bst k me p ∅ P -> intx k P blks ->
  l_outstanding (k_log k) = 1 -> l_committing (k_log k) = 0 ->
  sb_logstart sb = l_start (k_log k) -> sb_nlog sb = l_size (k_log k) ->
  exists k' ws, end_op k = Ret tt k' /\ k_disk k' = dwrite ws (k_disk k) /\
    (forall x, home (k_log k) x -> d_img (k_disk k') !! x =
       if decide (x ∈ blks) then Some (kview k x) else d_img (k_disk k) !! x) /\
    forall pre suf m kb me' p',
      ws = pre ++ suf -> reboots sb (apply pre (d_img (k_disk k))) m ->
      bst kb me' p' ∅ ∅ -> d_img (k_disk kb) = m -> length (l_block (k_log kb)) = 30%nat ->
      exists kr, initlog ROOTDEV sb kb = Ret tt kr /\
        ((forall x, home (k_log k) x -> d_img (k_disk kr) !! x = d_img (k_disk k) !! x) \/
         (forall x, home (k_log k) x -> d_img (k_disk kr) !! x = d_img (k_disk k') !! x)).
Proof.
  intros HB Hix Ho Hc Hs1 Hs2.
  destruct (end_op_atomic k me p P blks sb HB Hix Ho Hc Hs1 Hs2) as (k' & ws & E & D & Hh & Hcr).
  exists k', ws. split_and!; [done..|]. intros pre suf m kb me' p' Hws Hr HBb Hm Hlen.
  destruct (Hcr pre suf m kb me' p' Hws Hr HBb Hm Hlen) as (kr & Ei & _ & Hcase). eauto.
Qed.
End properties.

(** ** A transaction on the demo machine: block 10 is filled with sevens *)

Definition demo_op : M unit :=
  begin_op;;
  i ← bread ROOTDEV 10;
  bupdate i (fun _ => sevens);;
  log_write i;;
  brelse i.

Lemma demo_transaction :
  exists k, (binit;; demo_op) demo_state = Ret tt k /\
    bst k 0 demo_proc ∅ {[10]} /\ intx k {[10]} [10] /\
    l_outstanding (k_log k) = 1 /\ l_committing (k_log k) = 0 /\
    l_start (k_log k) = 2 /\ l_size (k_log k) = 6 /\ kview k 10 = sevens.
Proof.
  destruct demo_bst as (k0 & E0 & B0 & L0 & D0 & _ & V0). mcall E0. unfold demo_op.
  mcall (begin_op_ok k0 0 demo_proc ∅ ∅ B0) by (rewrite L0; done). rewrite L0.
  match goal with |- context [(bread _ _ ≫= _) ?kk] => set (k1 := kk) end.
  assert (bst k1 0 demo_proc ∅ ∅) as B1 by (eapply bst_frame; [exact B0|by frame_tac|reflexivity..]).
  assert (d_img (k_disk k1) = demo_img) as D1 by exact D0.
  assert (intx k1 ∅ []) as X1.
  { constructor; rewrite ?D1; [| |apply NoDup_nil_2|reflexivity|reflexivity|].
    - constructor; simpl; try lia. intros x Hx. rewrite demo_img_lookup by lia. eauto.
    - constructor; simpl; [lia|reflexivity|]. intros b Hb. by apply elem_of_nil in Hb.
    - exists zero_block. split; [apply demo_img_lookup; simpl; lia|].
      unfold head_n. by rewrite get32_zero_block. }
  assert (is_Some (d_img (k_disk k1) !! 10)) as I10 by (rewrite D1, demo_img_lookup by lia; eauto).
  destruct (bread_ok k1 0 demo_proc ∅ ∅ 10 B1 (lookup_empty _) I10) as (i & k2 & E2 & B2 & F2 & D2 & V2).
  { right. rewrite map_size_empty, size_empty. lia. }
  mcall E2. set (H := <[10 := i]> ∅) in *.
  assert (H !! 10 = Some i) as Hi by apply lookup_insert_eq.
  destruct (bupdate_ok k2 0 demo_proc H ∅ 10 i (fun _ => sevens) B2 Hi sevens_ok)
    as (k3 & E3 & B3 & F3 & D3 & V3 & _).
  mcall E3. destruct F2 as (F2 & L2 & I2), F3 as (F3 & L3 & I3).
  assert (k_log k3 = k_log k1) as L13 by exact (eq_trans L3 L2).
  assert (intx k3 ∅ []) as X3 by (eapply intx_frame; [exact X1|exact L13|exact (eq_trans D3 D2)]).
  destruct (log_write_ok k3 0 demo_proc H ∅ [] 10 i B3 X3 Hi)
    as (k4 & blks & E4 & B4 & X4 & F4 & Hb & D4 & I4 & O4 & C4 & S4 & Z4 & V4);
    [rewrite L13; (right; simpl; lia) || (simpl; lia)..|].
  mcall E4. rewrite decide_False in Hb by apply not_elem_of_nil. simpl in Hb. subst blks.
  assert ({[10]} ∪ ∅ = ({[10]} : gset Z)) as EP by apply union_empty_r_L. rewrite EP in *.
  destruct (brelse_ok k4 0 demo_proc H {[10]} 10 i B4 Hi) as (k5 & E5 & B5 & F5 & D5 & V5);
    [left; by apply elem_of_singleton|].
  exists k5. split; [exact E5|]. destruct F5 as (F5 & L5 & I5). rewrite L5.
  split; [unfold H in B5; by rewrite delete_insert_eq, delete_empty in B5|].
  split; [eapply intx_frame; [exact X4|exact L5|exact D5]|].
  rewrite O4, C4, S4, Z4, L13. split_and!; [reflexivity..|]. by rewrite V5, V4, V3.
Qed.

Definition demo_sb : superblock := Superblock FSMAGIC 12 0 0 6 2 0 0.

Lemma end_op_crash_atomic_witness :
  exists k k', (binit;; demo_op) demo_state = Ret tt k /\ end_op k = Ret tt k' /\
    d_img (k_disk k') !! 10 = Some sevens.
Proof.
  destruct demo_transaction as (k & E & HB & HX & Ho & Hc & Hs & Hz & Hv).
  destruct (end_op_crash_atomic k 0 demo_proc {[10]} [10] demo_sb) as (k' & ws & E' & _ & Hh & _);
    [exact HB|exact HX|exact Ho|exact Hc|symmetry; exact Hs|symmetry; exact Hz|].
  exists k, k'. split; [exact E|]. split; [exact E'|].
  rewrite Hh by (right; rewrite Hs, Hz; lia). rewrite decide_True by by apply list_elem_of_singleton. by rewrite Hv.
Defined.
