(* ===== verification/DemoFs.v ===== *)
(** A small file system on the demo machine: the root directory with one entry,
    a file of five bytes, and a transaction about to begin. *)

From Stdlib Require Import ZArith Lia.
From stdpp Require Import base gmap strings list numbers.
From S2P Require Import Prelude Params State Spinlock Sched Frame Bio Cache Virtio Demo Log Commit Transaction Fs.

Open Scope Z_scope.

(** Sixteen blocks: the log is 2 to 7, the inodes are in block 8, the bitmap is
    block 9; blocks 12 to 15 are free. *)
Definition fs_sb : superblock := Superblock FSMAGIC 16 6 16 6 2 8 9.

Definition root_dinode : inode := Inode ROOTDEV 1 1 (Sleeplock false 0) 1 T_DIR 0 0 1 32 (10 :: replicate 12 0).
Definition file_dinode : inode := Inode ROOTDEV 2 1 (Sleeplock false 0) 1 T_FILE 0 0 1 5 (11 :: replicate 12 0).

Definition fs_inode_block : list Z :=
  store_dinode (dinode_off 2) file_dinode (store_dinode (dinode_off 1) root_dinode zero_block).
Definition fs_bitmap : list Z := putb 0 [255; 15] zero_block.
(** The entries "." and "a". *)
Definition fs_root_block : list Z := putb 16 [2; 0; 97] (putb 0 [1; 0; 46] zero_block).
(** "hello" *)
Definition fs_file_block : list Z := putb 0 [104; 101; 108; 108; 111] zero_block.

Definition fs_block (bn : Z) : list Z :=
  if bn =? 8 then fs_inode_block else if bn =? 9 then fs_bitmap
  else if bn =? 10 then fs_root_block else if bn =? 11 then fs_file_block else zero_block.
Definition fs_img : gmap Z (list Z) := list_to_map ((fun bn => (bn, fs_block bn)) <$> seqz 0 16).

(** Both inodes are in use and valid in the inode table. *)
Definition fs_inodes : list inode := root_dinode :: file_dinode :: replicate 48 inode0.

Definition fs_state : kst :=
  set_k_inodes fs_inodes (set_k_sb fs_sb
    (set_k_log demo_log (set_k_vdisk demo_vdisk (set_k_disk (Disk fs_img []) run_state)))).

#[local] Transparent zero_block.
Lemma fs_block_ok bn : block_ok (fs_block bn).
Proof.
  assert (forall d, bool_decide (length d = BSIZE) && forallb (fun b => (0 <=? b) && (b <? 256)) d = true -> block_ok d) as Hd.
  { intros d [Hl%bool_decide_eq_true Hb]%andb_true_iff. split; [done|]. apply Forall_forall. intros x Hx.
    rewrite forallb_forall in Hb. specialize (Hb x (proj1 (list_elem_of_In _ _) Hx)). unfold byte_ok. lia. }
  unfold fs_block. repeat case_match; apply Hd; vm_compute; reflexivity.
Qed.

Lemma fs_img_lookup bn : 0 <= bn < 16 -> fs_img !! bn = Some (fs_block bn).
Proof.
  intros Hbn. unfold fs_img. apply elem_of_list_to_map_1.
  - unfold seqz. rewrite <- !list_fmap_compose. apply NoDup_fmap_2; [|apply NoDup_seq]. intros x y. simpl. lia.
  - apply list_elem_of_fmap. exists bn. split; [done|]. unfold seqz. apply list_elem_of_fmap.
    exists (Z.to_nat bn). rewrite elem_of_seq. lia.
Qed.

Lemma fs_img_ok : img_ok fs_img.
Proof.
  intros bn d H. apply elem_of_list_to_map_2 in H.
  apply list_elem_of_fmap in H as (x & [= -> ->] & Hx). unfold seqz in Hx.
  apply list_elem_of_fmap in Hx as (j & -> & Hj%elem_of_seq). split; [lia|apply fs_block_ok].
Qed.
Lemma fs_block_8 : fs_block 8 = fs_inode_block.
Proof. reflexivity. Qed.
Lemma fs_head : head_n (fs_block 2) = 0.
Proof. vm_compute. reflexivity. Qed.
#[global] Opaque fs_img fs_block zero_block.

Lemma fs_binit :
  exists k, binit fs_state = Ret tt k /\ bst k 0 demo_proc ∅ ∅ /\
    k_log k = demo_log /\ d_img (k_disk k) = fs_img /\ k_sb k = fs_sb /\
    k_inodes k = fs_inodes /\ forall bn, 0 <= bn < 16 -> kview k bn = fs_block bn.
Proof.
  destruct (binit_ok fs_state (pr_pid demo_proc) fs_img) as (B & L & E & HC & HL & HV).
  { done. }
  { apply Forall_replicate. split_and!; try done. apply block_ok_zero. }
  set (k0 := set_k_bufs B (set_k_locks L fs_state)).
  assert (bst k0 0 demo_proc ∅ ∅) as B0.
  { constructor; [|exact HC|apply fs_img_ok|apply demo_ready].
    constructor; [split; [|split; reflexivity]|reflexivity..| | |]; ksimpl.
    - unfold hart_ok. split_and!; simpl; intros; lia || done.
    - apply map_eq. intros l. rewrite lookup_empty. apply HL. reflexivity.
    - reflexivity.
    - reflexivity. }
  assert (k_log k0 = demo_log) as L0 by reflexivity.
  assert (d_img (k_disk k0) = fs_img) as D0 by reflexivity.
  assert (k_sb k0 = fs_sb /\ k_inodes k0 = fs_inodes) as [S0 I0] by (split; reflexivity).
  assert (forall bn, 0 <= bn < 16 -> kview k0 bn = fs_block bn) as V0.
  { intros bn Hbn. change (view B fs_img bn = fs_block bn). by rewrite HV, fs_img_lookup. }
  exists k0. split_and!; done.
Qed.

Lemma fs_boot :
  exists k, (binit;; begin_op) fs_state = Ret tt k /\ bst k 0 demo_proc ∅ ∅ /\ intx k ∅ [] /\
    k_log k = set_l_outstanding 1 demo_log /\ d_img (k_disk k) = fs_img /\ k_sb k = fs_sb /\
    k_inodes k = fs_inodes /\ forall bn, 0 <= bn < 16 -> kview k bn = fs_block bn.
Proof.
  destruct fs_binit as (k0 & E & B0 & L0 & D0 & S0 & I0 & V0). mcall E.
  rewrite (begin_op_ok k0 0 demo_proc ∅ ∅ B0) by (rewrite L0; done). rewrite L0.
  eexists. split; [reflexivity|].
  split; [eapply bst_frame; [exact B0|by frame_tac|reflexivity..]|].
  split; [|ksimpl; split_and!; try done].
  constructor; ksimpl; rewrite ?D0; [| |apply NoDup_nil_2|reflexivity|reflexivity|].
  - constructor; simpl; try lia. intros x Hx. rewrite fs_img_lookup by lia. eauto.
  - constructor; simpl; [lia|reflexivity|]. intros b Hb. destruct (not_elem_of_nil _ Hb).
  - exists (fs_block 2). split; [|exact fs_head]. apply fs_img_lookup. simpl. lia.
Qed.
