(* ===== verification/Blocks.v ===== *)
(** Blocks under a transaction: what the file system sees between begin_op() and
    end_op(), and the free bitmap (balloc() and bfree() of kernel/fs.c). *)

From Stdlib Require Import ZArith Lia.
From stdpp Require Import base gmap strings list numbers.
From S2P Require Import Prelude Params State Spinlock Sched Frame Bio Cache Virtio Demo Log Commit Transaction Fs DemoFs.

Open Scope Z_scope.

(** ** Steps inside a transaction *)

(** What every file-system operation keeps while a transaction is open: the disk
    is not written, the log stays where it is, and nothing outside the file
    system changes but processes that wake. *)
Record fstep (k k' : kst) : Prop := Fstep {
  fs_frame : frame k k';
  fs_disk : k_disk k' = k_disk k;
  fs_start : l_start (k_log k') = l_start (k_log k);
  fs_size : l_size (k_log k') = l_size (k_log k);
  fs_out : l_outstanding (k_log k') = l_outstanding (k_log k);
  fs_committing : l_committing (k_log k') = l_committing (k_log k) }.

#[export] Instance fstep_preorder : PreOrder fstep.
Proof. split; [intros k; by constructor|]. intros x y z [] []. constructor; etrans; eauto. Qed.

Lemma fstep_bframe k k' : bframe k k' -> k_disk k' = k_disk k -> fstep k k'.
Proof. intros (F & L & I) D. by constructor; rewrite ?L. Qed.

Lemma step_sb k k' : fstep k k' -> k_sb k' = k_sb k.
Proof. intros [F _ _ _ _ _]. apply F. Qed.

Lemma fs_home k k' x : fstep k k' -> home (k_log k') x <-> home (k_log k) x.
Proof. intros []. unfold home. by rewrite fs_start0, fs_size0. Qed.

(** The step changes the contents of no block. *)
Record same_blocks (k k' : kst) : Prop := SameBlocks {
  sa_step : fstep k k';
  sa_inodes : k_inodes k' = k_inodes k;
  sa_view : forall x, kview k' x = kview k x }.

(** The step gives block [bn] the contents [d], and changes no other. *)
Record set_block (bn : Z) (d : list Z) (k k' : kst) : Prop := SetBlock {
  st_step : fstep k k';
  st_inodes : k_inodes k' = k_inodes k;
  st_view : kview k' bn = d;
  st_other : forall x, x <> bn -> kview k' x = kview k x }.

#[export] Instance same_blocks_preorder : PreOrder same_blocks.
Proof.
  split; [intros k; by constructor|]. intros x y z [] []. constructor; [by etrans|congruence|].
  intros b. congruence.
Qed.

Lemma same_set k1 k2 k3 bn d : same_blocks k1 k2 -> set_block bn d k2 k3 -> set_block bn d k1 k3.
Proof. intros [] []. constructor; [by etrans|congruence|done|]. intros. rewrite st_other0 by done. auto. Qed.

Lemma set_same k1 k2 k3 bn d : set_block bn d k1 k2 -> same_blocks k2 k3 -> set_block bn d k1 k3.
Proof. intros [] []. constructor; [by etrans|congruence|congruence|]. intros. rewrite sa_view0. auto. Qed.

(** ** Transactions with a footprint *)

Section tx.
Context `{DL : DiskLaws}.

(** A transaction is open; process [me] holds the blocks [H] and logs no blocks
    but those of [S], which fit in the log.  A held block has been logged or is
    as on disk. *)
Record ftx (k : kst) (me : nat) (p : proc) (H : gmap Z nat) (S : gset Z) : Prop := Ftx {
  ft_blks : exists blks, bst k me p H (list_to_set blks) /\ intx k (list_to_set blks) blks /\
    (forall x, x ∈ blks -> x ∈ S) /\
    (forall bn i, H !! bn = Some i -> bn ∈ blks \/ d_img (k_disk k) !! bn = Some (kview k bn));
  ft_out : 1 <= l_outstanding (k_log k);
  ft_room : Z.of_nat (size S) < l_size (k_log k) - 1;
  ft_home : forall x, x ∈ S -> home (k_log k) x }.

Lemma blks_small k me p H S blks : ftx k me p H S -> NoDup blks -> (forall x, x ∈ blks -> x ∈ S) ->
  (length blks <= size S)%nat /\ (size (list_to_set blks : gset Z) <= size S)%nat.
Proof.
  intros HF Hnd Hs. assert (size (list_to_set blks : gset Z) <= size S)%nat as Hle.
  { apply subseteq_size. intros x. rewrite elem_of_list_to_set. apply Hs. }
  split; [|done]. by rewrite size_list_to_set in Hle.
Qed.

Lemma ftx_size k me p H S : ftx k me p H S -> (size S + 1 < NBUF)%nat.
Proof. intros [(blks & _ & [[] _ _ _ _ _] & _) _ Hr _]. lia. Qed.

Lemma ftx_bst k me p H S : ftx k me p H S -> exists P, bst k me p H P.
Proof. intros [(blks & HB & _) _ _ _]. eauto. Qed.

Lemma ftx_img k me p H S : ftx k me p H S -> img_ok (d_img (k_disk k)).
Proof. intros [P HB]%ftx_bst. apply HB. Qed.

Lemma ftx_quiet k me p H S : ftx k me p H S -> quiet k me p.
Proof. intros [P HB]%ftx_bst. apply HB. Qed.

Lemma ftx_block_ok k me p H S bn : ftx k me p H S -> is_Some (d_img (k_disk k) !! bn) -> block_ok (kview k bn).
Proof. intros [P HB]%ftx_bst Hs. eapply view_block_ok; [apply HB|apply HB|done]. Qed.

Lemma ftx_bread k me p H S bn :
  ftx k me p H S -> (size H <= 1)%nat -> H !! bn = None -> is_Some (d_img (k_disk k) !! bn) ->
  exists i k' x, bread ROOTDEV bn k = Ret i k' /\ getbuf i k' = Ret x k' /\ b_data x = kview k bn /\
    ftx k' me p (<[bn := i]> H) S /\ same_blocks k k'.
Proof.
  intros HF Hs Hn Hi. pose proof (ftx_size _ _ _ _ _ HF) as HN. pose proof HF as [(blks & HB & HX & Hsub & Hcl) Ho Hr Hh].
  destruct (blks_small _ _ _ _ _ blks HF (ix_nodup _ _ _ HX) Hsub) as [_ Hsz].
  destruct (bread_ok k me p H (list_to_set blks) bn HB Hn Hi) as (i & k' & E & HB' & F & D & V); [right; lia|].
  destruct (held_buf _ _ _ _ _ bn i HB' (lookup_insert_eq _ _ _)) as (x & (_ & Hx & _) & _ & Hd & _).
  exists i, k', x. split; [done|]. split; [by apply getbuf_eq|]. split; [by rewrite Hd, V|].
  pose proof (fstep_bframe _ _ F D) as FS. pose proof F as (_ & L & I). split; [|by constructor].
  constructor; [|rewrite ?L; done..]. exists blks. split; [done|]. split; [by eapply intx_frame|]. split; [done|].
  intros b j. rewrite D, V. destruct (decide (bn = b)) as [<-|Hne].
  - intros _. destruct (decide (bn ∈ blks)); [by left|right]. destruct Hi as [d Hd'].
    unfold kview. rewrite (view_clean (bs_cache _ _ _ _ _ HB)), Hd'; [done|].
    apply refs_0. split; [done|]. by rewrite elem_of_list_to_set.
  - rewrite lookup_insert_ne by done. apply Hcl.
Qed.

Lemma ftx_brelse k me p H S bn i :
  ftx k me p H S -> H !! bn = Some i ->
  exists k', brelse i k = Ret tt k' /\ ftx k' me p (delete bn H) S /\ same_blocks k k'.
Proof.
  intros [(blks & HB & HX & Hsub & Hcl) Ho Hr Hh] Hi.
  destruct (brelse_ok k me p H (list_to_set blks) bn i HB Hi) as (k' & E & HB' & F & D & V).
  { rewrite elem_of_list_to_set. by apply (Hcl bn i). }
  exists k'. split; [done|]. pose proof (fstep_bframe _ _ F D) as FS. pose proof F as (_ & L & I).
  split; [|by constructor]. constructor; [|rewrite ?L; done..]. exists blks.
  split; [done|]. split; [by eapply intx_frame|]. split; [done|].
  intros b j [_ Hj]%lookup_delete_Some. rewrite D, V. by apply (Hcl b j).
Qed.

(** A change to a held block, followed by log_write(). *)
Lemma ftx_update k me p H S bn i f :
  ftx k me p H S -> H !! bn = Some i -> bn ∈ S -> block_ok (f (kview k bn)) ->
  exists k1 k', bupdate i f k = Ret tt k1 /\ log_write i k1 = Ret tt k' /\ ftx k' me p H S /\
    set_block bn (f (kview k bn)) k k'.
Proof.
  intros HF Hi HS Hok. pose proof HF as [(blks & HB & HX & Hsub & Hcl) Ho Hr Hh].
  destruct (blks_small _ _ _ _ _ blks HF (ix_nodup _ _ _ HX) Hsub) as [Hlen _].
  destruct (bupdate_ok k me p H (list_to_set blks) bn i f HB Hi Hok) as (k1 & E1 & B1 & F1 & D1 & V1 & W1).
  pose proof (fstep_bframe _ _ F1 D1) as S1. pose proof F1 as (_ & L1 & I1).
  destruct (log_write_ok k1 me p H (list_to_set blks) blks bn i)
    as (k' & blks' & E2 & B2 & X2 & F2 & Hb' & D2 & I2 & O2 & C2 & T2 & Z2 & V2);
    [done|by eapply intx_frame|done|rewrite L1; auto|by rewrite L1|rewrite L1; lia|].
  assert (({[bn]} ∪ list_to_set blks : gset Z) = list_to_set blks') as EP.
  { rewrite Hb'. destruct (decide (bn ∈ blks)); [|rewrite list_to_set_app_L]; set_solver. }
  exists k1, k'. split; [done|]. split; [done|]. split.
  - constructor; [|rewrite ?O2, ?Z2, ?L1; done..|intros x Hx; unfold home; rewrite T2, Z2, L1; by apply Hh].
    exists blks'. rewrite <- EP. split; [done|]. split; [by rewrite EP in *|].
    assert (forall x, x ∈ blks' <-> x = bn \/ x ∈ blks) as Hel.
    { intros x. rewrite <- (elem_of_list_to_set (C := gset Z)), <- EP. set_solver. }
    split; [intros x [->|]%Hel; auto|]. intros b j Hj. rewrite Hel, D2, D1, V2.
    destruct (decide (b = bn)) as [->|Hne]; [by left; left|]. rewrite W1 by done.
    destruct (Hcl b j Hj); auto.
  - constructor.
    + etrans; [exact S1|]. by constructor.
    + congruence.
    + by rewrite V2.
    + intros x Hx. by rewrite V2, W1.
Qed.

(** Read, change, log and release a block. *)
Lemma ftx_modify k me p H S bn f :
  ftx k me p H S -> (size H <= 1)%nat -> H !! bn = None -> bn ∈ S -> is_Some (d_img (k_disk k) !! bn) ->
  block_ok (f (kview k bn)) ->
  exists k', (bp ← bread ROOTDEV bn; bupdate bp f;; log_write bp;; brelse bp) k = Ret tt k' /\
    ftx k' me p H S /\ set_block bn (f (kview k bn)) k k'.
Proof.
  intros HF Hs Hn HS Hi Hok.
  destruct (ftx_bread k me p H S bn HF Hs Hn Hi) as (i & k1 & x & E1 & _ & _ & F1 & A1). mcall E1.
  pose proof (lookup_insert_eq H bn i) as Hl. pose proof (sa_view _ _ A1 bn) as V1.
  destruct (ftx_update k1 me p (<[bn := i]> H) S bn i f F1 Hl HS) as (k2 & k3 & E2 & E3 & F3 & A3); [by rewrite V1|].
  mcall E2. mcall E3. destruct (ftx_brelse k3 me p (<[bn := i]> H) S bn i F3 Hl) as (k4 & E4 & F4 & A4).
  exists k4. split; [exact E4|]. rewrite delete_insert_id in F4 by done. split; [done|].
  rewrite V1 in A3. eapply set_same; [|exact A4]. by eapply same_set.
Qed.

End tx.

(** ** Bits *)

Lemma land_bit x n : 0 <= n -> (Z.land x (Z.shiftl 1 n) =? 0) = negb (Z.testbit x n).
Proof.
  intros Hn. destruct (Z.testbit x n) eqn:E; cbn [negb].
  - apply Z.eqb_neq. intros H0. assert (Z.testbit (Z.land x (Z.shiftl 1 n)) n = true) as H1.
    { rewrite Z.land_spec, E, Z.shiftl_spec, Z.sub_diag by done. done. }
    by rewrite H0, Z.testbit_0_l in H1.
  - apply Z.eqb_eq. apply Z.bits_inj'. intros m Hm. rewrite Z.land_spec, Z.testbit_0_l, Z.shiftl_spec by done.
    destruct (decide (m = n)) as [->|Hne]; [by rewrite E|].
    assert (Z.testbit 1 (m - n) = false) as ->; [|apply andb_false_r].
    destruct (decide (m < n)); [by rewrite Z.testbit_neg_r by lia|].
    apply (Z.bits_above_log2 1); simpl; lia.
Qed.

Lemma testbit_mask n m : 0 <= n -> 0 <= m -> Z.testbit (Z.shiftl 1 n) m = bool_decide (m = n).
Proof.
  intros Hn Hm. rewrite Z.shiftl_1_l, Z.pow2_bits_eqb by done. case_bool_decide; lia.
Qed.

Lemma testbit_u8 x n : 0 <= n < 8 -> Z.testbit (u8 x) n = Z.testbit x n.
Proof. intros. unfold u8. apply Z.mod_pow2_bits_low; lia. Qed.

Lemma bitmap_byte_insert i v d bj :
  0 <= bj < BPB -> length d = BSIZE ->
  bitmap_byte (<[Z.to_nat i := v]> d) bj = if decide (Z.to_nat i = Z.to_nat (bj / 8)) then v else bitmap_byte d bj.
Proof.
  intros Hj Hd. unfold bitmap_byte. case_decide as E.
  - rewrite E. apply list_lookup_total_insert_eq. rewrite Hd. dlia.
  - by rewrite list_lookup_total_insert_ne.
Qed.

Lemma same_bit bi bj : 0 <= bi -> 0 <= bj -> Z.to_nat (bi / 8) = Z.to_nat (bj / 8) ->
  bool_decide (bj `mod` 8 = bi `mod` 8) = bool_decide (bi = bj).
Proof. intros. repeat case_bool_decide; try done; dlia. Qed.

Lemma bitmap_free_set bi bj d :
  0 <= bi < BPB -> 0 <= bj < BPB -> length d = BSIZE ->
  bitmap_free (bitmap_set bi d) bj = bitmap_free d bj && negb (bool_decide (bi = bj)).
Proof.
  intros Hi Hj Hd. unfold bitmap_free, bitmap_set, bit_mask. rewrite bitmap_byte_insert by done.
  rewrite !land_bit by dlia. case_decide as E.
  - rewrite testbit_u8, Z.lor_spec, testbit_mask, same_bit by (done || dlia).
    replace (bitmap_byte d bi) with (bitmap_byte d bj) by (unfold bitmap_byte; by rewrite E).
    by destruct (Z.testbit _ _), (bool_decide (bi = bj)).
  - rewrite bool_decide_false by congruence. by rewrite andb_true_r.
Qed.

Lemma bitmap_free_clear bi bj d :
  0 <= bi < BPB -> 0 <= bj < BPB -> length d = BSIZE ->
  bitmap_free (bitmap_clear bi d) bj = bitmap_free d bj || bool_decide (bi = bj).
Proof.
  intros Hi Hj Hd. unfold bitmap_free, bitmap_clear, bit_mask. rewrite bitmap_byte_insert by done.
  rewrite !land_bit by dlia. case_decide as E.
  - rewrite testbit_u8, Z.land_spec, Z.lnot_spec, testbit_mask, same_bit by (done || dlia).
    replace (bitmap_byte d bi) with (bitmap_byte d bj) by (unfold bitmap_byte; by rewrite E).
    by destruct (Z.testbit _ _), (bool_decide (bi = bj)).
  - rewrite bool_decide_false by congruence. by rewrite orb_false_r.
Qed.

Lemma bitmap_set_ok bi d : block_ok d -> block_ok (bitmap_set bi d).
Proof.
  intros [Hl Hb]. split; [unfold bitmap_set; by rewrite length_insert|]. apply Forall_insert; [done|apply u8_range].
Qed.

Lemma bitmap_clear_ok bi d : block_ok d -> block_ok (bitmap_clear bi d).
Proof.
  intros [Hl Hb]. split; [unfold bitmap_clear; by rewrite length_insert|]. apply Forall_insert; [done|apply u8_range].
Qed.

(** Clearing a bit that was clear before it was set restores the block. *)
Lemma bitmap_clear_set bi d :
  0 <= bi < BPB -> block_ok d -> bitmap_free d bi = true -> bitmap_clear bi (bitmap_set bi d) = d.
Proof.
  intros Hi [Hl Hb] Hf. unfold bitmap_clear. trans (<[Z.to_nat (bi / 8) := bitmap_byte d bi]> d).
  2: { apply list_insert_id, list_lookup_lookup_total_lt. rewrite Hl. dlia. }
  unfold bitmap_set. rewrite list_insert_insert_eq. f_equal.
  assert (bitmap_byte (<[Z.to_nat (bi / 8):=u8 (Z.lor (bitmap_byte d bi) (bit_mask bi))]> d) bi =
    u8 (Z.lor (bitmap_byte d bi) (bit_mask bi))) as -> by (rewrite bitmap_byte_insert, decide_True by done; done).
  assert (byte_ok (bitmap_byte d bi)) as Hbb.
  { eapply Forall_lookup_1; [exact Hb|]. apply list_lookup_lookup_total_lt. rewrite Hl. dlia. }
  unfold bitmap_free, bit_mask in *. rewrite land_bit in Hf by dlia. apply negb_true_iff in Hf.
  trans (u8 (bitmap_byte d bi)); [|by apply u8_small]. unfold u8. apply Z.bits_inj'. intros n Hn.
  destruct (decide (n < 8)) as [Hn8|Hn8]; [|by rewrite !Z.mod_pow2_bits_high by lia].
  rewrite !Z.mod_pow2_bits_low, Z.land_spec, Z.lnot_spec, Z.mod_pow2_bits_low, Z.lor_spec, testbit_mask by dlia.
  case_bool_decide as E; [subst n; rewrite Hf|]; [done|]. by rewrite orb_false_r, andb_true_r.
Qed.

(** ** The layout of the disk and the free bitmap *)

(** The first data block, after the bitmap. *)
Definition data_start (sb : superblock) : Z := sb_bmapstart sb + (sb_size sb - 1) / BPB + 1.

(** boot block, super block, log, inode blocks, bitmap, data: as mkfs lays them
    out, all on the disk. *)
Record fs_layout (k : kst) : Prop := FsLayout {
  fl_size : 0 < sb_size (k_sb k) <= 2 ^ 31;
  fl_disk : forall b, 0 <= b < sb_size (k_sb k) -> is_Some (d_img (k_disk k) !! b);
  fl_log : 0 <= l_start (k_log k) /\ l_start (k_log k) + l_size (k_log k) <= sb_inodestart (k_sb k);
  fl_inodes : 0 <= sb_ninodes (k_sb k) < 2 ^ 31 /\ 0 <= l_size (k_log k) /\
    sb_inodestart (k_sb k) + (sb_ninodes (k_sb k) + IPB - 1) / IPB <= sb_bmapstart (k_sb k);
  fl_data : data_start (k_sb k) <= sb_size (k_sb k) }.

Lemma fs_layout_step k k' : fstep k k' -> fs_layout k -> fs_layout k'.
Proof.
  intros F []. pose proof (step_sb _ _ F) as Es. destruct F. constructor; rewrite ?Es, ?fs_disk0, ?fs_start0, ?fs_size0; done.
Qed.

(** The bit of block [b] is set. *)
Definition bit_used (k : kst) (b : Z) : bool :=
  negb (bitmap_free (kview k (BBLOCK b (k_sb k))) (b `mod` BPB)).

(** [b] is the first block whose bit is clear. *)
Definition first_free (k : kst) (b : Z) : Prop :=
  0 <= b < sb_size (k_sb k) /\ bit_used k b = false /\ forall x, 0 <= x < b -> bit_used k x = true.

(** The metadata blocks are marked used. *)
Definition meta_used (k : kst) : Prop := forall b, 0 <= b < data_start (k_sb k) -> bit_used k b = true.

Lemma bit_used_same k k' b : same_blocks k k' -> bit_used k' b = bit_used k b.
Proof. intros [F _ V]. unfold bit_used. by rewrite (step_sb _ _ F), V. Qed.

Section layout.
Context (k : kst) (FL : fs_layout k).

Lemma BBLOCK_eq b : 0 <= b < sb_size (k_sb k) ->
  BBLOCK b (k_sb k) = sb_bmapstart (k_sb k) + b / BPB /\
  sb_bmapstart (k_sb k) <= BBLOCK b (k_sb k) < data_start (k_sb k).
Proof.
  intros Hb. destruct FL as [? _ ? ? Hd]. unfold data_start in *.
  assert (BBLOCK b (k_sb k) = sb_bmapstart (k_sb k) + b / BPB) as E.
  { unfold BBLOCK. rewrite u32_small by dlia. lia. }
  rewrite E. split; [done|]. dlia.
Qed.

Lemma BBLOCK_disk b : 0 <= b < sb_size (k_sb k) -> is_Some (d_img (k_disk k) !! BBLOCK b (k_sb k)).
Proof.
  intros Hb. pose proof (BBLOCK_eq b Hb) as [_ Hr]. apply (fl_disk _ FL). destruct FL. dlia.
Qed.

(** Two blocks share a bitmap block when their numbers agree up to the bit. *)
Lemma BBLOCK_same b x : 0 <= b < sb_size (k_sb k) -> 0 <= x < sb_size (k_sb k) ->
  BBLOCK x (k_sb k) = BBLOCK b (k_sb k) -> bool_decide (b `mod` BPB = x `mod` BPB) = bool_decide (b = x).
Proof.
  intros Hb Hx. destruct (BBLOCK_eq b Hb) as [-> _], (BBLOCK_eq x Hx) as [-> _]. intros.
  repeat case_bool_decide; try done; dlia.
Qed.
End layout.

Lemma bitmap_find_spec fuel bi b size d : BPB - bi <= Z.of_nat fuel ->
  match bitmap_find fuel bi b size d with
  | Some r => bi <= r < BPB /\ b + r < size /\ bitmap_free d r = true /\
              forall x, bi <= x < r -> bitmap_free d x = false
  | None => forall x, bi <= x < BPB -> b + x < size -> bitmap_free d x = false
  end.
Proof.
  revert bi. induction fuel as [|fuel IH]; intros bi Hf; cbn [bitmap_find]; [intros; lia|].
  destruct ((bi <? BPB) && (b + bi <? size)) eqn:E; [|intros; lia].
  destruct (bitmap_free d bi) eqn:Ef; [split_and!; lia || done|].
  specialize (IH (bi + 1) ltac:(lia)). destruct (bitmap_find fuel (bi + 1) b size d) as [r|].
  - destruct IH as (? & ? & ? & Hx). split_and!; try done; try lia.
    intros x Hx'. destruct (decide (x = bi)) as [->|]; [done|]. apply Hx. lia.
  - intros x Hx1 Hx2. destruct (decide (x = bi)) as [->|]; [done|]. apply IH; lia.
Qed.

(** The step of balloc(): block [b] is marked used and zeroed. *)
Record allocated (b : Z) (k k' : kst) : Prop := Allocated {
  al_step : fstep k k';
  al_inodes : k_inodes k' = k_inodes k;
  al_zero : kview k' b = replicate BSIZE 0;
  al_bit : forall x, 0 <= x < sb_size (k_sb k) -> bit_used k' x = bit_used k x || bool_decide (x = b);
  al_bitmap : kview k' (BBLOCK b (k_sb k)) = bitmap_set (b `mod` BPB) (kview k (BBLOCK b (k_sb k)));
  al_other : forall x, x <> b -> x <> BBLOCK b (k_sb k) -> kview k' x = kview k x }.

(** A step that changes one bit of the bitmap block of [b]. *)
Lemma bit_used_set k k' b f (g : bool -> bool -> bool) :
  fs_layout k -> 0 <= b < sb_size (k_sb k) ->
  set_block (BBLOCK b (k_sb k)) (f (kview k (BBLOCK b (k_sb k)))) k k' ->
  (forall bj, 0 <= bj < BPB -> bitmap_free (f (kview k (BBLOCK b (k_sb k)))) bj =
     g (bitmap_free (kview k (BBLOCK b (k_sb k))) bj) (bool_decide (b `mod` BPB = bj))) ->
  (forall u, g u false = u) ->
  forall x, 0 <= x < sb_size (k_sb k) -> bit_used k' x = negb (g (negb (bit_used k x)) (bool_decide (b = x))).
Proof.
  intros FL Hb [F _ V O] Hf Hg x Hx. unfold bit_used. rewrite (step_sb _ _ F), negb_involutive. f_equal.
  destruct (decide (BBLOCK x (k_sb k) = BBLOCK b (k_sb k))) as [E|E].
  - rewrite E, V, Hf by dlia. f_equal. by apply (BBLOCK_same k).
  - rewrite (O _ E), bool_decide_false by congruence. by rewrite Hg.
Qed.

Section balloc.
Context `{DL : DiskLaws}.

(** Process [me] holds no bitmap block. *)
Definition no_bitmap (k : kst) (H : gmap Z nat) : Prop :=
  forall b, sb_bmapstart (k_sb k) <= b < data_start (k_sb k) -> H !! b = None.

Lemma bzero_ok k me p H S b :
  ftx k me p H S -> (size H <= 1)%nat -> H !! b = None -> b ∈ S -> is_Some (d_img (k_disk k) !! b) ->
  exists k', bzero ROOTDEV b k = Ret tt k' /\ ftx k' me p H S /\ set_block b (replicate BSIZE 0) k k'.
Proof.
  intros HF Hs Hn HS Hi. pose proof Hi as [d Hd]. destruct (ftx_img _ _ _ _ _ HF b d Hd) as [Hr _].
  unfold bzero. rewrite u32_small by lia. apply ftx_modify; auto using block_ok_zero.
Qed.

(** The visit of balloc() to the bitmap block that has the first clear bit. *)
Lemma balloc_hit k me p H S n bs b :
  ftx k me p H S -> fs_layout k -> (size H <= 1)%nat -> no_bitmap k H -> first_free k b ->
  meta_used k -> H !! b = None -> b ∈ S -> BBLOCK b (k_sb k) ∈ S -> n = b / BPB ->
  exists k', balloc_from ROOTDEV (n * BPB :: bs) k = Ret b k' /\ ftx k' me p H S /\ allocated b k k'.
Proof.
  intros HF FL Hs HN (Hb & Hf & Hleast) HM Hnb HbS HBS ->. pose proof (fl_size _ FL) as Hsz.
  destruct (BBLOCK_eq k FL b Hb) as [_ HBr]. pose proof (BBLOCK_disk k FL b Hb) as HBd.
  assert (BBLOCK (b / BPB * BPB) (k_sb k) = BBLOCK b (k_sb k)) as EB.
  { unfold BBLOCK. by rewrite Z.div_mul by lia. }
  assert (b <> BBLOCK b (k_sb k)) as Hne.
  { intros E. rewrite HM in Hf by (destruct FL; lia). done. }
  cbn [balloc_from]. unfold getsb. mstep. rewrite EB.
  destruct (ftx_bread k me p H S _ HF Hs (HN _ HBr) HBd) as (i & k1 & x & E1 & E1' & Hx & F1 & A1).
  mcall E1. mcall E1'. rewrite Hx. set (bb := BBLOCK b (k_sb k)) in *.
  assert (bitmap_find (Z.to_nat BPB) 0 (b / BPB * BPB) (sb_size (k_sb k)) (kview k bb) = Some (b `mod` BPB)) as ->.
  { pose proof (bitmap_find_spec (Z.to_nat BPB) 0 (b / BPB * BPB) (sb_size (k_sb k)) (kview k bb) ltac:(lia)) as HFi.
    unfold bit_used in Hf. fold bb in Hf. apply negb_false_iff in Hf.
    destruct (bitmap_find _ _ _ _ _) as [r|].
    - destruct HFi as (Hr & Hrs & Hrf & Hrl). f_equal. destruct (decide (r = b `mod` BPB)) as [|Hnr]; [done|].
      destruct (decide (r < b `mod` BPB)); [|rewrite Hrl in Hf by dlia; done].
      specialize (Hleast (b / BPB * BPB + r) ltac:(dlia)). unfold bit_used in Hleast.
      replace (BBLOCK (b / BPB * BPB + r) (k_sb k)) with bb in Hleast by (unfold bb, BBLOCK; do 2 f_equal; dlia).
      replace ((b / BPB * BPB + r) `mod` BPB) with r in Hleast by dlia. by rewrite Hrf in Hleast.
    - rewrite HFi in Hf by dlia. done. }
  pose proof (lookup_insert_eq H bb i) as Hl. pose proof (sa_view _ _ A1) as V1.
  destruct (ftx_update k1 me p (<[bb := i]> H) S bb i (bitmap_set (b `mod` BPB)) F1 Hl HBS)
    as (k2 & k3 & E2 & E3 & F3 & A3).
  { rewrite V1. apply bitmap_set_ok. by eapply ftx_block_ok. }
  mcall E2. mcall E3. rewrite V1 in A3.
  destruct (ftx_brelse k3 me p (<[bb := i]> H) S bb i F3 Hl) as (k4 & E4 & F4 & A4). mcall E4.
  rewrite delete_insert_id in F4 by auto.
  pose proof (set_same _ _ _ _ _ (same_set _ _ _ _ _ A1 A3) A4) as A14. pose proof (st_step _ _ _ _ A14) as S14.
  replace (b / BPB * BPB + b `mod` BPB) with b by dlia.
  destruct (bzero_ok k4 me p H S b F4 Hs Hnb HbS) as (k5 & E5 & F5 & A5).
  { rewrite (fs_disk _ _ S14). by apply FL. }
  mcall E5. exists k5. split; [rewrite u32_small by lia; done|]. split; [done|].
  pose proof (st_other _ _ _ _ A5) as O5. constructor.
  - etrans; [exact S14|apply A5].
  - rewrite (st_inodes _ _ _ _ A5). apply A14.
  - apply A5.
  - intros y Hy. assert (bit_used k5 y = bit_used k4 y) as ->.
    { unfold bit_used. rewrite (step_sb _ _ (st_step _ _ _ _ A5)), (O5 (BBLOCK y (k_sb k4))); [done|].
      rewrite (step_sb _ _ S14). intros Hyb. destruct (BBLOCK_eq k FL y Hy) as [_ Hyr].
      rewrite HM in Hf by (destruct FL; lia). done. }
    rewrite (bit_used_set k k4 b (bitmap_set (b `mod` BPB)) (fun u e => u && negb e) FL Hb A14).
    + rewrite negb_andb, !negb_involutive. by rewrite (bool_decide_ext (b = y) (y = b)) by done.
    + intros bj Hj. apply bitmap_free_set; [dlia|done|]. by eapply ftx_block_ok.
    + intros u. apply andb_true_r.
    + done.
  - rewrite O5 by done. apply A14.
  - intros y Hy1 Hy2. rewrite O5 by done. by apply A14.
Qed.

(** A bitmap block without a clear bit is read and released. *)
Lemma balloc_miss k me p H S n bs :
  ftx k me p H S -> fs_layout k -> (size H <= 1)%nat -> no_bitmap k H ->
  0 <= n -> n * BPB < sb_size (k_sb k) ->
  (forall x, n * BPB <= x < (n + 1) * BPB -> x < sb_size (k_sb k) -> bit_used k x = true) ->
  exists k', balloc_from ROOTDEV (n * BPB :: bs) k = balloc_from ROOTDEV bs k' /\ ftx k' me p H S /\ same_blocks k k'.
Proof.
  intros HF FL Hs HN Hn Hns Hall. cbn [balloc_from]. unfold getsb. mstep.
  destruct (BBLOCK_eq k FL (n * BPB) ltac:(lia)) as [_ HBr].
  pose proof (BBLOCK_disk k FL (n * BPB) ltac:(lia)) as HBd.
  destruct (ftx_bread k me p H S _ HF Hs (HN _ HBr) HBd) as (i & k1 & x & E1 & E1' & Hx & F1 & A1).
  mcall E1. mcall E1'. rewrite Hx. set (bb := BBLOCK (n * BPB) (k_sb k)) in *.
  pose proof (bitmap_find_spec (Z.to_nat BPB) 0 (n * BPB) (sb_size (k_sb k)) (kview k bb) ltac:(lia)) as HFi.
  destruct (bitmap_find _ _ _ _ _) as [r|].
  { destruct HFi as (Hr & Hrs & Hrf & _). specialize (Hall (n * BPB + r) ltac:(lia) Hrs). unfold bit_used in Hall.
    replace (BBLOCK (n * BPB + r) (k_sb k)) with bb in Hall by (unfold bb, BBLOCK; do 2 f_equal; dlia).
    replace ((n * BPB + r) `mod` BPB) with r in Hall by dlia. by rewrite Hrf in Hall. }
  destruct (ftx_brelse k1 me p (<[bb := i]> H) S bb i F1 (lookup_insert_eq _ _ _)) as (k2 & E2 & F2 & A2).
  mcall E2. exists k2. split; [done|]. rewrite delete_insert_id in F2 by auto. split; [done|]. by etrans.
Qed.

Lemma first_free_same k k' b : same_blocks k k' -> first_free k b -> first_free k' b.
Proof.
  intros A (Hb & Hf & Hl). pose proof (step_sb _ _ (sa_step _ _ A)) as Es. unfold first_free. rewrite Es.
  split; [done|]. split; [by rewrite (bit_used_same k)|]. intros x Hx. rewrite (bit_used_same k) by done. auto.
Qed.

Lemma allocated_same k1 k2 k3 b : fs_layout k1 -> same_blocks k1 k2 -> allocated b k2 k3 -> allocated b k1 k3.
Proof.
  intros FL A [F I Z B M O]. pose proof (step_sb _ _ (sa_step _ _ A)) as Es. rewrite Es in *. constructor.
  - etrans; [apply A|done].
  - rewrite I. apply A.
  - done.
  - intros x Hx. rewrite B by done. f_equal. by apply bit_used_same.
  - rewrite M. f_equal. apply A.
  - intros x H1 H2. rewrite O by done. apply A.
Qed.

Lemma balloc_from_ok m : forall a k me p H S b,
  ftx k me p H S -> fs_layout k -> (size H <= 1)%nat -> no_bitmap k H -> first_free k b ->
  meta_used k -> H !! b = None -> b ∈ S -> BBLOCK b (k_sb k) ∈ S -> 0 <= a <= b / BPB ->
  b / BPB < a + Z.of_nat m ->
  exists k', balloc_from ROOTDEV ((fun n => n * BPB) <$> seqz a m) k = Ret b k' /\ ftx k' me p H S /\ allocated b k k'.
Proof.
  induction m as [|m IH]; intros a k me p H S b HF FL Hs HN Hfree HM Hb HbS HBS Ha Hm; [lia|].
  rewrite seqz_S, fmap_cons. destruct (decide (a = b / BPB)) as [->|Hne].
  { by apply balloc_hit. }
  pose proof Hfree as (Hbr & _ & Hleast).
  destruct (balloc_miss k me p H S a ((fun n => n * BPB) <$> seqz (a + 1) m) HF FL Hs HN ltac:(lia))
    as (k1 & E1 & F1 & A1); [dlia|intros x Hx _; apply Hleast; dlia|].
  rewrite E1. pose proof (step_sb _ _ (sa_step _ _ A1)) as Es.
  destruct (IH (a + 1) k1 me p H S b F1) as (k2 & E2 & F2 & A2); auto; try lia.
  - eapply fs_layout_step; [apply A1|done].
  - unfold no_bitmap. by rewrite Es.
  - by eapply first_free_same.
  - intros x. rewrite Es. intros Hx. rewrite (bit_used_same k) by done. auto.
  - by rewrite Es.
  - exists k2. split; [done|]. split; [done|]. by eapply allocated_same.
Qed.

(** balloc() takes the first free block. *)
Lemma balloc_ok k me p H S b :
  ftx k me p H S -> fs_layout k -> (size H <= 1)%nat -> no_bitmap k H -> first_free k b ->
  meta_used k -> H !! b = None -> b ∈ S -> BBLOCK b (k_sb k) ∈ S ->
  exists k', balloc ROOTDEV k = Ret b k' /\ ftx k' me p H S /\ allocated b k k'.
Proof.
  intros HF FL Hs HN Hfree HM Hb HbS HBS. unfold balloc, getsb. mstep. pose proof Hfree as (Hbr & _ & _).
  apply balloc_from_ok; auto; dlia.
Qed.

(** balloc() panics on a full disk. *)
Lemma balloc_full m : forall a k me p H S,
  ftx k me p H S -> fs_layout k -> (size H <= 1)%nat -> no_bitmap k H ->
  (forall x, 0 <= x < sb_size (k_sb k) -> bit_used k x = true) -> 0 <= a ->
  (a + Z.of_nat m - 1) * BPB < sb_size (k_sb k) ->
  balloc_from ROOTDEV ((fun n => n * BPB) <$> seqz a m) k = Panic "balloc: out of blocks".
Proof.
  induction m as [|m IH]; intros a k me p H S HF FL Hs HN Hall Ha Hm; [done|]. rewrite seqz_S, fmap_cons.
  destruct (balloc_miss k me p H S a ((fun n => n * BPB) <$> seqz (a + 1) m) HF FL Hs HN Ha)
    as (k1 & E1 & F1 & A1); [lia|intros x Hx Hx'; apply Hall; lia|].
  pose proof (step_sb _ _ (sa_step _ _ A1)) as Es. rewrite E1. apply (IH (a + 1) k1 me p H S); auto; try lia.
  - eapply fs_layout_step; [apply A1|done].
  - unfold no_bitmap. by rewrite Es.
  - intros x. rewrite Es. intros Hx. rewrite (bit_used_same k) by done. auto.
  - rewrite Es. lia.
Qed.

(** Some block is free, or none is. *)
Lemma first_free_dec k :
  (exists b, first_free k b) \/ (forall x, 0 <= x < sb_size (k_sb k) -> bit_used k x = true).
Proof.
  assert (forall n : nat, (exists b, first_free k b) \/
    (forall x, 0 <= x < Z.min (Z.of_nat n) (sb_size (k_sb k)) -> bit_used k x = true)) as Hn.
  { induction n as [|n [IH|IH]]; [right; lia|by left|].
    destruct (decide (Z.of_nat n < sb_size (k_sb k))) as [Hlt|]; [|right; intros; apply IH; lia].
    destruct (bit_used k (Z.of_nat n)) eqn:E.
    - right. intros x Hx. destruct (decide (x = Z.of_nat n)) as [->|]; [done|]. apply IH. lia.
    - left. exists (Z.of_nat n). split; [lia|]. split; [done|]. intros x Hx. apply IH. lia. }
  destruct (Hn (Z.to_nat (sb_size (k_sb k)))) as [|Hall]; [by left|right]. intros x Hx. apply Hall. lia.
Qed.

(** C36: balloc() in a transaction returns the first block whose bitmap bit is
    clear, which is a data block; it sets this one bit, zeroes the block, logs
    both, and changes no other block.  When no bit is clear it panics. *)
Theorem balloc_correct (k : kst) (me : nat) (p : proc) (H : gmap Z nat) (S : gset Z)
    (HF : ftx k me p H S) (FL : fs_layout k) (HM : meta_used k) (Hs : (size H <= 1)%nat) (HN : no_bitmap k H)
    (HS : forall b, first_free k b -> b ∈ S /\ BBLOCK b (k_sb k) ∈ S /\ H !! b = None) :
  (exists b k', first_free k b /\ data_start (k_sb k) <= b /\ balloc ROOTDEV k = Ret b k' /\
     ftx k' me p H S /\ allocated b k k') \/
  ((forall x, 0 <= x < sb_size (k_sb k) -> bit_used k x = true) /\
     balloc ROOTDEV k = Panic "balloc: out of blocks").
Proof.
  destruct (first_free_dec k) as [[b Hb]|Hall]; [left|right].
  - destruct (HS b Hb) as (H1 & H2 & H3).
    destruct (balloc_ok k me p H S b HF FL Hs HN Hb HM H3 H1 H2) as (k' & E & F & A).
    exists b, k'. split_and!; try done. destruct Hb as (Hr & Hu & _).
    destruct (decide (data_start (k_sb k) <= b)); [done|]. by rewrite HM in Hu by lia.
  - split; [done|]. unfold balloc, getsb. mstep. pose proof (fl_size _ FL).
    apply (balloc_full _ 0 k me p H S); auto; dlia.
Qed.

Lemma bfree_ok k me p H S b :
  ftx k me p H S -> fs_layout k -> (size H <= 1)%nat -> no_bitmap k H -> 0 <= b < sb_size (k_sb k) ->
  bit_used k b = true -> BBLOCK b (k_sb k) ∈ S ->
  exists k', bfree ROOTDEV b k = Ret tt k' /\ ftx k' me p H S /\
    set_block (BBLOCK b (k_sb k)) (bitmap_clear (b `mod` BPB) (kview k (BBLOCK b (k_sb k)))) k k' /\
    forall x, 0 <= x < sb_size (k_sb k) -> bit_used k' x = bit_used k x && negb (bool_decide (x = b)).
Proof.
  intros HF FL Hs HN Hb Hu HBS. destruct (BBLOCK_eq k FL b Hb) as [_ HBr].
  pose proof (BBLOCK_disk k FL b Hb) as HBd. unfold bfree, getsb. mstep.
  destruct (ftx_bread k me p H S _ HF Hs (HN _ HBr) HBd) as (i & k1 & x & E1 & E1' & Hx & F1 & A1).
  mcall E1. mcall E1'. rewrite Hx. unfold bit_used in Hu. apply negb_true_iff in Hu as Hf. rewrite Hf.
  set (bb := BBLOCK b (k_sb k)) in *. pose proof (lookup_insert_eq H bb i) as Hl. pose proof (sa_view _ _ A1) as V1.
  destruct (ftx_update k1 me p (<[bb := i]> H) S bb i (bitmap_clear (b `mod` BPB)) F1 Hl HBS)
    as (k2 & k3 & E2 & E3 & F3 & A3).
  { rewrite V1. apply bitmap_clear_ok. by eapply ftx_block_ok. }
  mcall E2. mcall E3. rewrite V1 in A3.
  destruct (ftx_brelse k3 me p (<[bb := i]> H) S bb i F3 Hl) as (k4 & E4 & F4 & A4).
  rewrite delete_insert_id in F4 by auto.
  pose proof (set_same _ _ _ _ _ (same_set _ _ _ _ _ A1 A3) A4) as A14.
  exists k4. split; [done|]. split; [done|]. split; [done|]. intros y Hy.
  rewrite (bit_used_set k k4 b (bitmap_clear (b `mod` BPB)) orb FL Hb A14).
  - rewrite negb_orb, negb_involutive. by rewrite (bool_decide_ext (b = y) (y = b)) by done.
  - intros bj Hj. apply bitmap_free_clear; [dlia|done|]. by eapply ftx_block_ok.
  - intros u. apply orb_false_r.
  - done.
Qed.

(** Freeing a block that balloc() has just returned undoes the allocation:
    every bitmap bit and every block but the freed one is as before.  bfree() of a
    block whose bit is already clear panics. *)
Theorem balloc_bfree_roundtrip (k : kst) (me : nat) (p : proc) (H : gmap Z nat) (S : gset Z) (b : Z)
    (HF : ftx k me p H S) (FL : fs_layout k) (HM : meta_used k) (Hs : (size H <= 1)%nat) (HN : no_bitmap k H)
    (Hfree : first_free k b) (Hb : H !! b = None) (HbS : b ∈ S) (HBS : BBLOCK b (k_sb k) ∈ S) :
  bfree ROOTDEV b k = Panic "freeing free block" /\
  exists k', (b ← balloc ROOTDEV; bfree ROOTDEV b) k = Ret tt k' /\ ftx k' me p H S /\ fstep k k' /\
    (forall x, 0 <= x < sb_size (k_sb k) -> bit_used k' x = bit_used k x) /\
    (forall x, x <> b -> kview k' x = kview k x).
Proof.
  pose proof Hfree as (Hbr & Hu & _). destruct (BBLOCK_eq k FL b Hbr) as [_ HBr].
  pose proof (BBLOCK_disk k FL b Hbr) as HBd. unfold bit_used in Hu. apply negb_false_iff in Hu. split.
  { unfold bfree, getsb. mstep.
    destruct (ftx_bread k me p H S _ HF Hs (HN _ HBr) HBd) as (i & k1 & x & E1 & E1' & Hx & _ & _).
    mcall E1. mcall E1'. by rewrite Hx, Hu. }
  destruct (balloc_ok k me p H S b HF FL Hs HN Hfree HM Hb HbS HBS) as (k1 & E1 & F1 & A1). mcall E1.
  pose proof (step_sb _ _ (al_step _ _ _ A1)) as Es. pose proof (al_bit _ _ _ A1) as B1.
  destruct (bfree_ok k1 me p H S b F1 (fs_layout_step _ _ (al_step _ _ _ A1) FL) Hs) as (k2 & E2 & F2 & A2 & B2);
    rewrite ?Es; auto.
  { unfold no_bitmap. by rewrite Es. }
  { rewrite B1, bool_decide_true by done. apply orb_true_r. }
  rewrite Es in *. exists k2. split; [exact E2|]. split; [done|].
  split; [etrans; [apply A1|apply A2]|]. split.
  - intros x Hx. rewrite B2, B1 by done. case_bool_decide as Ex; [subst x|by rewrite orb_false_r, andb_true_r].
    unfold bit_used. by rewrite Hu.
  - intros x Hx. destruct (decide (x = BBLOCK b (k_sb k))) as [->|Hne].
    + rewrite (st_view _ _ _ _ A2), (al_bitmap _ _ _ A1). apply bitmap_clear_set; [dlia| |done].
      by eapply ftx_block_ok.
    + rewrite (st_other _ _ _ _ A2) by done. by apply A1.
Qed.

End balloc.

(** ** The demo file system *)

Lemma fs_bits b : 0 <= b < 16 -> negb (bitmap_free (fs_block (BBLOCK b fs_sb)) (b `mod` BPB)) = (b <? 12).
Proof.
  intros Hb. assert (forallb (fun b => eqb (negb (bitmap_free (fs_block (BBLOCK b fs_sb)) (b `mod` BPB))) (b <? 12))
    (seqz 0 16) = true) as H by (vm_compute; reflexivity).
  rewrite forallb_forall in H. apply eqb_prop, H, list_elem_of_In, list_elem_of_fmap.
  exists (Z.to_nat b). rewrite elem_of_seq. lia.
Qed.

Lemma fs_boot_ftx (S : gset Z) : (size S <= 4)%nat -> (forall x, x ∈ S -> 8 <= x) ->
  exists k, (binit;; begin_op) fs_state = Ret tt k /\ ftx k 0 demo_proc ∅ S /\ fs_layout k /\
    (forall b, 0 <= b < 16 -> bit_used k b = (b <? 12)) /\ k_sb k = fs_sb /\ k_inodes k = fs_inodes /\
    d_img (k_disk k) = fs_img /\ forall bn, 0 <= bn < 16 -> kview k bn = fs_block bn.
Proof.
  intros Hsz HS. destruct fs_boot as (k & E & B & X & L & D & Sb & I & V).
  exists k. split; [exact E|]. split; [|split; [|split]].
  - constructor; rewrite ?L; simpl; [|lia|lia|].
    + exists []. split; [exact B|]. split; [exact X|]. split.
      * intros x Hx. destruct (not_elem_of_nil _ Hx).
      * intros ? ? Hx. rewrite lookup_empty in Hx. discriminate Hx.
    + intros x Hx%HS. right. simpl. lia.
  - constructor; rewrite ?Sb, ?L, ?D; simpl; try lia.
    + intros b Hb. rewrite fs_img_lookup by lia. eauto.
    + unfold data_start. simpl. dlia.
    + unfold data_start. simpl. dlia.
  - intros b Hb. unfold bit_used. rewrite Sb, V; [by apply fs_bits|]. unfold BBLOCK. simpl.
    rewrite u32_small; dlia.
  - split_and!; assumption.
Qed.

Lemma fs_first_free k b : k_sb k = fs_sb -> (forall b, 0 <= b < 16 -> bit_used k b = (b <? 12)) ->
  first_free k b <-> b = 12.
Proof.
  intros Es Hu. unfold first_free. rewrite Es. simpl. split.
  - intros (Hb & Hf & Hl). rewrite Hu in Hf by lia. destruct (decide (b = 12)); [done|].
    specialize (Hl 12 ltac:(lia)). rewrite Hu in Hl by lia. done.
  - intros ->. split; [lia|]. split; [by rewrite Hu|]. intros x Hx. rewrite Hu by lia. lia.
Qed.

Lemma balloc_correct_witness :
  exists k k', (binit;; begin_op) fs_state = Ret tt k /\ balloc ROOTDEV k = Ret 12 k' /\
    bit_used k' 12 = true /\ kview k' 12 = replicate BSIZE 0.
Proof.
  destruct (fs_boot_ftx {[9; 12]}) as (k & E & F & FL & U & Sb & _).
  { vm_compute. lia. }
  { intros x. rewrite elem_of_union, !elem_of_singleton. lia. }
  assert (first_free k 12) as H12 by by apply fs_first_free.
  destruct (balloc_correct k 0 demo_proc ∅ {[9; 12]} F FL) as [(b & k' & Hb & _ & Eb & _ & A)|[Hall _]].
  - intros b. rewrite Sb. unfold data_start. simpl. intros Hb. rewrite U by dlia. dlia.
  - rewrite map_size_empty. lia.
  - intros b _. apply lookup_empty.
  - intros b ->%(fs_first_free k b Sb U). rewrite Sb. split; [set_solver|]. split; [|apply lookup_empty].
    change (BBLOCK 12 fs_sb) with 9. set_solver.
  - apply (fs_first_free k b Sb U) in Hb as ->. exists k, k'. split; [exact E|]. split; [exact Eb|].
    split; [|apply A]. rewrite (al_bit _ _ _ A), bool_decide_true by (rewrite ?Sb; simpl; lia || done). apply orb_true_r.
  - specialize (Hall 12). rewrite Sb, U in Hall by lia. simpl in Hall. discriminate Hall. lia.
Defined.

Lemma balloc_bfree_roundtrip_witness :
  exists k k', (binit;; begin_op) fs_state = Ret tt k /\
    (b ← balloc ROOTDEV; bfree ROOTDEV b) k = Ret tt k' /\ bit_used k' 12 = bit_used k 12.
Proof.
  destruct (fs_boot_ftx {[9; 12]}) as (k & E & F & FL & U & Sb & _).
  { vm_compute. lia. }
  { intros x. rewrite elem_of_union, !elem_of_singleton. lia. }
  destruct (balloc_bfree_roundtrip k 0 demo_proc ∅ {[9; 12]} 12 F FL) as (_ & k' & E' & _ & _ & B' & _).
  - intros b. rewrite Sb. unfold data_start. simpl. intros Hb. rewrite U by dlia. dlia.
  - rewrite map_size_empty. lia.
  - intros b _. apply lookup_empty.
  - by apply fs_first_free.
  - apply lookup_empty.
  - set_solver.
  - rewrite Sb. change (BBLOCK 12 fs_sb) with 9. set_solver.
  - exists k, k'. split; [exact E|]. split; [exact E'|]. apply B'. rewrite Sb. simpl. lia.
Defined.
