(* ===== verification/Content.v ===== *)
(** The contents of an inode as a sequence of bytes, and readi() (kernel/fs.c). *)

From Stdlib Require Import ZArith Lia.
From stdpp Require Import base gmap strings list numbers.
From S2P Require Import Prelude Params State Spinlock Sched CString Kalloc Vm PageTable UserMem Copy Frame CopySpec.
From S2P Require Import Bio Cache Virtio Demo Log Commit Transaction Fs Dir DemoFs Blocks.

Open Scope Z_scope.

(** ** Steps that only read *)

Record rstep (k k' : kst) : Prop := Rstep {
  rs_frame : bframe k k';
  rs_disk : k_disk k' = k_disk k;
  rs_view : forall x, kview k' x = kview k x }.

#[export] Instance rstep_preorder : PreOrder rstep.
Proof.
  split; [intros k; by constructor|]. intros x y z [] []. constructor; [by etrans|congruence|].
  intros b. congruence.
Qed.

Lemma rstep_mem m k k' : rstep k k' -> rstep (set_k_mem m k) (set_k_mem m k').
Proof.
  intros [(F & L & I) D V]. constructor; [|done|done]. split; [|done]. destruct F.
  constructor; ksimpl; done.
Qed.

Lemma rstep_sb k k' : rstep k k' -> k_sb k' = k_sb k.
Proof. intros [(F & _) _ _]. apply F. Qed.
Lemma rstep_inodes k k' : rstep k k' -> k_inodes k' = k_inodes k.
Proof. intros [(_ & _ & I) _ _]. done. Qed.
Lemma rstep_same k k' : rstep k k' -> same_blocks k k'.
Proof. intros [F D V]. constructor; [by apply fstep_bframe|apply F|done]. Qed.

Lemma rstep_trans_mem k k1 k2 m : rstep k k1 -> rstep (set_k_mem m k1) k2 -> rstep (set_k_mem m k) k2.
Proof. intros R1 R2. etrans; [|exact R2]. by apply rstep_mem. Qed.

(** ** The block map of an inode *)

Definition iind (ip : inode) : Z := i_addrs ip !!! NDIRECT.

(** The address bmap() finds for block [bn] of the file, 0 if there is none. *)
Definition iblock (k : kst) (ip : inode) (bn : Z) : Z :=
  if bn <? Z.of_nat NDIRECT then i_addrs ip !!! Z.to_nat bn
  else if iind ip =? 0 then 0 else get32 (4 * Z.to_nat (bn - Z.of_nat NDIRECT)) (kview k (iind ip)).

(** An allocated data block. *)
Definition data_block (k : kst) (b : Z) : Prop :=
  data_start (k_sb k) <= b < sb_size (k_sb k) /\ bit_used k b = true.

(** An inode of the root device whose blocks are distinct allocated data blocks,
    with no holes below its size. *)
Record inode_ok (k : kst) (ip : inode) : Prop := InodeOk {
  io_dev : i_dev ip = ROOTDEV;
  io_len : length (i_addrs ip) = (NDIRECT + 1)%nat;
  io_size : 0 <= i_size ip <= MAXFILE * 1024;
  io_ind : iind ip <> 0 -> data_block k (iind ip);
  io_blk : forall bn, 0 <= bn < MAXFILE -> iblock k ip bn <> 0 -> data_block k (iblock k ip bn);
  io_inj : forall bn bn', 0 <= bn < MAXFILE -> 0 <= bn' < MAXFILE -> iblock k ip bn <> 0 ->
    iblock k ip bn = iblock k ip bn' -> bn = bn';
  io_ind_inj : forall bn, 0 <= bn < MAXFILE -> iblock k ip bn <> 0 -> iblock k ip bn <> iind ip;
  io_holes : forall bn, 0 <= bn -> bn * 1024 < i_size ip -> iblock k ip bn <> 0 }.

(** The bytes of the file. *)
Definition fbyte (k : kst) (ip : inode) (o : Z) : Z :=
  kview k (iblock k ip (o / 1024)) !!! Z.to_nat (o `mod` 1024).
Definition content (k : kst) (ip : inode) : list Z := fbyte k ip <$> seqz 0 (Z.to_nat (i_size ip)).

Section same.
Context (k k' : kst) (A : same_blocks k k').

Lemma iblock_same ip bn : iblock k' ip bn = iblock k ip bn.
Proof. unfold iblock. by rewrite (sa_view _ _ A). Qed.

Lemma data_block_same b : data_block k b <-> data_block k' b.
Proof. unfold data_block. by rewrite (step_sb _ _ (sa_step _ _ A)), (bit_used_same k k' b A). Qed.

Lemma inode_ok_same ip : inode_ok k ip -> inode_ok k' ip.
Proof.
  intros []. constructor; try done; intros; rewrite ?iblock_same in *; auto.
  - apply data_block_same. auto.
  - apply data_block_same. auto.
Qed.

Lemma fbyte_same ip o : fbyte k' ip o = fbyte k ip o.
Proof. unfold fbyte. by rewrite iblock_same, (sa_view _ _ A). Qed.

Lemma content_same ip : content k' ip = content k ip.
Proof. apply list_fmap_ext. intros ? ? _. apply fbyte_same. Qed.
End same.

Lemma length_content k ip : length (content k ip) = Z.to_nat (i_size ip).
Proof. unfold content. by rewrite length_fmap, length_seqz. Qed.

Lemma lookup_content k ip (o : nat) : (o < Z.to_nat (i_size ip))%nat ->
  content k ip !! o = Some (fbyte k ip (Z.of_nat o)).
Proof. intros Ho. unfold content, seqz. rewrite !list_lookup_fmap, lookup_seq_lt by done. done. Qed.

(** A piece of one block is a piece of the file. *)
Lemma content_chunk k ip off m :
  0 <= off -> 0 <= m -> off `mod` 1024 + m <= 1024 -> off + m <= i_size ip ->
  length (kview k (iblock k ip (off / 1024))) = BSIZE ->
  getb (Z.to_nat (off `mod` 1024)) (Z.to_nat m) (kview k (iblock k ip (off / 1024))) =
  getb (Z.to_nat off) (Z.to_nat m) (content k ip).
Proof.
  intros Ho Hm Hc Hs Hl. apply list_eq. intros j. rewrite !lookup_getb. case_decide as Hj; [|done].
  rewrite lookup_content by lia. unfold fbyte.
  replace (Z.of_nat (Z.to_nat off + j) / 1024) with (off / 1024) by dlia.
  replace (Z.to_nat (Z.of_nat (Z.to_nat off + j) `mod` 1024)) with (Z.to_nat (off `mod` 1024) + j)%nat by dlia.
  apply list_lookup_lookup_total_lt. rewrite Hl. dlia.
Qed.

Section readers.
Context `{DL : DiskLaws}.

Lemma bst_mem k me p H P m : bst k me p H P -> bst (set_k_mem m k) me p H P.
Proof. intros [[] ? ? ?]. constructor; [constructor|..]; done. Qed.

Lemma fs_layout_mem k m : fs_layout k -> fs_layout (set_k_mem m k).
Proof. intros []. by constructor. Qed.
Lemma inode_ok_mem k m ip : inode_ok k ip -> inode_ok (set_k_mem m k) ip.
Proof. intros []. by constructor. Qed.

(** Reading a block that is not held: it can be released again. *)
Lemma bst_bread k me p H P bn :
  bst k me p H P -> H !! bn = None -> is_Some (d_img (k_disk k) !! bn) -> (size H + size P < NBUF)%nat ->
  exists i k' x, bread ROOTDEV bn k = Ret i k' /\ getbuf i k' = Ret x k' /\ b_data x = kview k bn /\
    bst k' me p (<[bn := i]> H) P /\ rstep k k' /\
    (bn ∈ P \/ d_img (k_disk k') !! bn = Some (kview k' bn)).
Proof.
  intros HB Hn Hi Hs. destruct (bread_ok k me p H P bn HB Hn Hi (or_intror Hs)) as (i & k' & E & HB' & F & D & V).
  destruct (held_buf _ _ _ _ _ bn i HB' (lookup_insert_eq _ _ _)) as (x & (_ & Hx & _) & _ & Hd & _).
  exists i, k', x. split; [done|]. split; [by apply getbuf_eq|]. split; [by rewrite Hd, V|].
  split; [done|]. split; [by constructor|]. destruct (decide (bn ∈ P)); [by left|right].
  destruct Hi as [d Hd']. rewrite D, V, Hd'. unfold kview. rewrite (view_clean (bs_cache _ _ _ _ _ HB)), Hd'; [done|].
  by apply refs_0.
Qed.

Lemma bst_brelse k me p H P bn i :
  bst k me p (<[bn := i]> H) P -> H !! bn = None -> (bn ∈ P \/ d_img (k_disk k) !! bn = Some (kview k bn)) ->
  exists k', brelse i k = Ret tt k' /\ bst k' me p H P /\ rstep k k'.
Proof.
  intros HB Hn Hc. destruct (brelse_ok k me p (<[bn := i]> H) P bn i HB (lookup_insert_eq _ _ _) Hc)
    as (k' & E & HB' & F & D & V).
  exists k'. split; [done|]. rewrite delete_insert_id in HB' by done. split; [done|]. by constructor.
Qed.

Lemma data_disk k b : fs_layout k -> data_block k b -> is_Some (d_img (k_disk k) !! b).
Proof. intros FL [Hr _]. apply (fl_disk _ FL). destruct FL. unfold data_start in Hr. dlia. Qed.

Lemma getinode_eq k i ip : k_inodes k !! i = Some ip -> getinode i k = Ret ip k.
Proof. intros H. unfold getinode, deref. by rewrite H. Qed.

(** bmap() of a block the file has. *)
Lemma bmap_found k me p P i ip bn :
  bst k me p ∅ P -> (size P < NBUF)%nat -> fs_layout k -> k_inodes k !! i = Some ip -> inode_ok k ip ->
  0 <= bn < MAXFILE -> iblock k ip bn <> 0 ->
  exists k', bmap i bn k = Ret (iblock k ip bn) k' /\ bst k' me p ∅ P /\ rstep k k'.
Proof.
  intros HB HP FL Hi IO Hbn Hne. unfold bmap. mcall (getinode_eq k i ip Hi). unfold iblock in *.
  destruct (bn <? Z.of_nat NDIRECT) eqn:Ed.
  { rewrite (proj2 (Z.eqb_neq _ _) Hne). exists k. done. }
  assert (bn - Z.of_nat NDIRECT <? Z.of_nat NINDIRECT = true) as ->.
  { apply Z.ltb_lt. apply Z.ltb_ge in Ed. change (Z.of_nat NDIRECT) with 12 in *. change (Z.of_nat NINDIRECT) with 256. lia. }
  change (i_addrs ip !!! NDIRECT) with (iind ip). destruct (iind ip =? 0) eqn:E0; [done|]. mstep. unfold bmap_entry.
  rewrite (io_dev _ _ IO). pose proof (io_ind _ _ IO ltac:(lia)) as Hind.
  destruct (bst_bread k me p ∅ P (iind ip) HB (lookup_empty _) (data_disk _ _ FL Hind))
    as (b & k1 & x & E1 & E1' & Hx & B1 & R1 & C1); [rewrite map_size_empty; lia|].
  mcall E1. mcall E1'. rewrite Hx, (proj2 (Z.eqb_neq _ _) Hne). mstep.
  destruct (bst_brelse k1 me p ∅ P (iind ip) b B1 (lookup_empty _) C1) as (k2 & E2 & B2 & R2). mcall E2.
  exists k2. split; [done|]. split; [done|]. by etrans.
Qed.

Context `{KI : KernelImage}.

(** The loop of readi() terminates and copies the rest of the range. *)
Lemma readi_loop_ok fuel : forall k me p P L i ip d off n tot got,
  bst k me p ∅ P -> (size P < NBUF)%nat -> fs_layout k -> k_inodes k !! i = Some ip -> inode_ok k ip ->
  0 <= off -> 0 <= tot <= n -> n < 2 ^ 31 -> off + (n - tot) <= i_size ip ->
  dst_ready (k_mem k) (pr_pagetable p) L d (Z.to_nat (n - tot)) ->
  1 <= Z.of_nat fuel -> (tot < n -> (off `mod` 1024 + (n - tot) + 1023) / 1024 < Z.of_nat fuel) ->
  exists m' k', readi_loop fuel i d off n tot got k =
      Ret (n, got ++ getb (Z.to_nat off) (Z.to_nat (n - tot)) (content k ip)) k' /\
    bst k' me p ∅ P /\ rstep (set_k_mem m' k) k' /\
    dst_put (k_mem k) m' (pr_pagetable p) L d (getb (Z.to_nat off) (Z.to_nat (n - tot)) (content k ip)).
Proof.
  induction fuel as [|fuel IH]; intros k me p P L i ip d off n tot got HB HP FL Hi IO Ho Ht Hn Hs Hd Hf1 Hf; [lia|].
  cbn [readi_loop]. destruct (tot <? n) eqn:Etn; cbn [negb].
  2: { assert (tot = n) as -> by lia. rewrite Z.sub_diag in *. change (Z.to_nat 0) with O in *.
       exists (k_mem k), k. unfold getb. rewrite take_0, app_nil_r, i32_small by lia. split; [done|].
       split; [done|]. split; [by destruct k|]. by eapply dst_put_nil. }
  specialize (Hf ltac:(lia)). pose proof (io_size _ _ IO) as Hsz.
  assert (iblock k ip (off / 1024) <> 0) as Hne by (apply (io_holes _ _ IO); dlia).
  assert (0 <= off / 1024 < MAXFILE) as Hbn by dlia.
  destruct (bmap_found k me p P i ip (off / 1024) HB HP FL Hi IO Hbn Hne) as (k1 & E1 & B1 & R1). mcall E1.
  rewrite <- (rstep_inodes _ _ R1) in Hi. mcall (getinode_eq k1 i ip Hi). rewrite (io_dev _ _ IO).
  set (b := iblock k ip (off / 1024)) in *. pose proof (io_blk _ _ IO _ Hbn Hne) as Hdb. fold b in Hdb.
  destruct (bst_bread k1 me p ∅ P b B1 (lookup_empty _)) as (j & k2 & x & E2 & E2' & Hx & B2 & R2 & C2);
    [rewrite (rs_disk _ _ R1); by apply data_disk|rewrite map_size_empty; lia|].
  mcall E2. mcall E2'. rewrite Hx, (rs_view _ _ R1).
  assert (block_ok (kview k b)) as [Hlb Hbb] by (eapply view_block_ok; [apply HB|apply HB|by apply data_disk]).
  set (m := chunk n tot off). assert (0 < m <= n - tot /\ off `mod` 1024 + m <= 1024) as [Hm1 Hm2] by (unfold m, chunk; dlia).
  unfold b. rewrite content_chunk by (lia || done). set (bs := getb (Z.to_nat off) (Z.to_nat m) (content k ip)).
  assert (length bs = Z.to_nat m) as Lbs by (unfold bs, getb; rewrite length_take, length_drop, length_content; lia).
  assert (Forall byte_ok bs) as Hbs.
  { unfold bs. rewrite <- content_chunk by (lia || done). by apply Forall_take, Forall_drop. }
  assert (k_mem k2 = k_mem k) as Em.
  { destruct R1 as [[[] _] _ _], R2 as [[[] _] _ _]. congruence. }
  destruct (either_copyout_ok k2 me p L d bs (Z.to_nat (n - tot)) (bs_quiet _ _ _ _ _ B2)) as (m1 & E3 & P3 & D3);
    [by rewrite Em|lia|done|]. mcall E3. change (0 =? -1) with false. cbv iota. rewrite Em in P3.
  destruct (bst_brelse (set_k_mem m1 k2) me p ∅ P b j) as (k4 & E4 & B4 & R4);
    [by apply bst_mem|apply lookup_empty|done|]. mcall E4.
  assert (rstep (set_k_mem m1 k) k4) as R04.
  { eapply rstep_trans_mem; [exact R1|]. eapply rstep_trans_mem; [exact R2|exact R4]. }
  pose proof (rstep_same _ _ R04) as A04.
  assert (k_mem k4 = m1) as Em4 by (destruct R04 as [[[] _] _ _]; done). subst m1.
  rewrite u32_small by lia.
  destruct (IH k4 me p P L i ip (dst_add d m) (off + m) n (tot + m) (got ++ bs) B4 HP) as (m' & k' & E & B' & R' & P').
  - eapply fs_layout_step; [apply A04|by apply fs_layout_mem].
  - rewrite (rstep_inodes _ _ R04). ksimpl. by rewrite <- (rstep_inodes _ _ R1).
  - eapply inode_ok_same; [exact A04|by apply inode_ok_mem].
  - lia.
  - lia.
  - done.
  - lia.
  - rewrite Lbs, Z2Nat.id in D3 by lia. replace (Z.to_nat (n - (tot + m))) with (Z.to_nat (n - tot) - Z.to_nat m)%nat by lia. done.
  - dlia.
  - intros Hlt. assert (m = 1024 - off `mod` 1024) as Em' by (unfold m, chunk in *; lia).
    replace ((off + m) `mod` 1024) with 0 by dlia. dlia.
  - exists m', k'. rewrite E. rewrite !(content_same _ _ A04).
    change (content (set_k_mem (k_mem k4) k) ip) with (content k ip) in *.
    assert (getb (Z.to_nat off) (Z.to_nat (n - tot)) (content k ip) =
      bs ++ getb (Z.to_nat (off + m)) (Z.to_nat (n - (tot + m))) (content k ip)) as Eg.
    { unfold bs. replace (Z.to_nat (off + m)) with (Z.to_nat off + Z.to_nat m)%nat by lia.
      rewrite <- getb_app. f_equal. lia. }
    rewrite Eg, <- app_assoc. split; [done|]. split; [done|]. split.
    + etrans; [|exact R']. pose proof (rstep_mem m' _ _ R04) as R0. by ksimpl in R0.
    + eapply dst_put_app; [exact Hd| |exact P3|].
      * rewrite Lbs. unfold getb. rewrite length_take. lia.
      * rewrite Lbs, Z2Nat.id by lia. rewrite (content_same _ _ A04) in P'. exact P'.
Qed.

(** readi() of a range that starts inside the file. *)
Lemma readi_ok k me p P L i ip d off n :
  bst k me p ∅ P -> (size P < NBUF)%nat -> fs_layout k -> k_inodes k !! i = Some ip -> inode_ok k ip ->
  0 <= off <= i_size ip -> 0 <= n -> off + n < 2 ^ 32 ->
  dst_ready (k_mem k) (pr_pagetable p) L d (Z.to_nat n) ->
  let bs := getb (Z.to_nat off) (Z.to_nat n) (content k ip) in
  exists m' k', readi i d off n k = Ret (Z.of_nat (length bs), bs) k' /\
    bst k' me p ∅ P /\ rstep (set_k_mem m' k) k' /\ dst_put (k_mem k) m' (pr_pagetable p) L d bs.
Proof.
  intros HB HP FL Hi IO Ho Hn Hov Hd bs. unfold readi. mcall (getinode_eq k i ip Hi).
  pose proof (io_size _ _ IO) as Hsz. rewrite !u32_small by lia.
  assert ((i_size ip <? off) || (off + n <? off) = false) as -> by lia.
  set (n' := if i_size ip <? off + n then i_size ip - off else n).
  assert (n' = Z.min n (i_size ip - off)) as En by (unfold n'; destruct (_ <? _) eqn:E; lia).
  assert (getb (Z.to_nat off) (Z.to_nat n') (content k ip) = bs) as Eb.
  { unfold bs, getb. rewrite En, !take_drop_commute, Z2Nat.inj_min, <- Nat.add_min_distr_l.
    destruct (decide (n <= i_size ip - off)); [rewrite Nat.min_l by lia; done|].
    rewrite Nat.min_r, !take_ge by (rewrite ?length_content; lia). done. }
  assert (Z.of_nat (length bs) = n') as Lb by (rewrite <- Eb; unfold getb; rewrite length_take, length_drop, length_content; lia).
  destruct (readi_loop_ok (Z.to_nat (n' / 1024) + 3) k me p P L i ip d off n' 0 [] HB HP FL Hi IO)
    as (m' & k' & E & B' & R' & P'); try lia.
  - rewrite Z.sub_0_r. destruct d; simpl in *; [|lia|done].
    destruct Hd as (? & ? & ? & HA). split_and!; [done|lia|done|]. intros j Hj. apply HA. lia.
  - dlia.
  - rewrite Z.sub_0_r, Eb in *. exists m', k'. rewrite Lb. done.
Qed.

(** C6: readi() reads the file's bytes.  For an offset beyond the end of the file,
    or a range that overflows 32 bits, it returns 0.  Otherwise it terminates,
    returns the number of bytes from the offset to the end of the range or of the
    file, whichever comes first, and stores exactly those bytes of the contents
    at the destination, be it user memory, a kernel page or a local buffer; no
    block and no inode changes. *)
Theorem readi_correct (k : kst) (me : nat) (p : proc) (P : gset Z) (L : gmap Z Z) (i : nat) (ip : inode) (d : dst) (off n : Z)
    (HB : bst k me p ∅ P) (HP : (size P < NBUF)%nat) (FL : fs_layout k) (Hi : k_inodes k !! i = Some ip)
    (IO : inode_ok k ip) (Ho : 0 <= off < 2 ^ 32) (Hn : 0 <= n < 2 ^ 32)
    (Hd : dst_ready (k_mem k) (pr_pagetable p) L d (Z.to_nat n)) :
  if (i_size ip <? off) || (2 ^ 32 <=? off + n) then readi i d off n k = Ret (0, []) k
  else
    let bs := getb (Z.to_nat off) (Z.to_nat n) (content k ip) in
    exists m' k', readi i d off n k = Ret (Z.of_nat (length bs), bs) k' /\
      bst k' me p ∅ P /\ rstep (set_k_mem m' k) k' /\ dst_put (k_mem k) m' (pr_pagetable p) L d bs.
Proof.
  destruct ((i_size ip <? off) || (2 ^ 32 <=? off + n)) eqn:E.
  - unfold readi. mcall (getinode_eq k i ip Hi).
    assert ((i_size ip <? off) || (u32 (off + n) <? off) = true) as ->; [|done].
    destruct (i_size ip <? off); [done|]. cbn [orb] in *. unfold u32. dlia.
  - apply readi_ok; auto; lia.
Qed.

End readers.

(** An inode with one block. *)
Section one_block.
Context (k : kst) (ip : inode) (b : Z) (Ha : i_addrs ip = b :: replicate 12 0).

Lemma iblock_one bn : 0 <= bn < MAXFILE -> iblock k ip bn = if bn =? 0 then b else 0.
Proof.
  intros Hbn. unfold iblock, iind. rewrite Ha. change ((b :: replicate 12 0) !!! NDIRECT =? 0) with true.
  change (Z.of_nat NDIRECT) with 12. cbv iota.
  destruct (bn <? 12) eqn:E; [|destruct (bn =? 0) eqn:E0; [lia|done]].
  destruct (bn =? 0) eqn:E0; [by assert (bn = 0) as -> by lia|].
  destruct (Z.to_nat bn) as [|j] eqn:Ej; [lia|]. change ((b :: replicate 12 0) !!! S j) with (replicate 12 0 !!! j).
  apply lookup_total_replicate_2. lia.
Qed.

Lemma one_block_ok : i_dev ip = ROOTDEV -> 0 <= i_size ip <= 1024 -> b <> 0 -> data_block k b -> inode_ok k ip.
Proof.
  intros Hd Hs Hb Hdb. constructor; try done.
  - rewrite Ha. done.
  - lia.
  - unfold iind. by rewrite Ha.
  - intros bn Hbn. rewrite iblock_one by done. destruct (bn =? 0); done.
  - intros bn bn' Hbn Hbn'. rewrite !iblock_one by done. destruct (bn =? 0) eqn:E0, (bn' =? 0) eqn:E1; lia || done.
  - intros bn Hbn. unfold iind. by rewrite Ha.
  - intros bn Hbn Hlt. assert (bn = 0) as -> by lia. by rewrite iblock_one by lia.
Qed.

Lemma one_block_content : 0 <= i_size ip <= 1024 ->
  content k ip = (fun j => kview k b !!! Z.to_nat j) <$> seqz 0 (Z.to_nat (i_size ip)).
Proof.
  intros Hs. unfold content. apply list_fmap_ext. intros j o Ho. unfold seqz in Ho. rewrite list_lookup_fmap in Ho.
  apply fmap_Some in Ho as (x & Hx & ->). apply lookup_seq in Hx as [-> Hj]. unfold fbyte.
  replace ((0 + Z.of_nat (0 + j)) / 1024) with 0 by dlia. rewrite iblock_one by lia. change (0 =? 0) with true. cbv iota.
  f_equal. dlia.
Qed.

End one_block.

(** The file of the demo file system. *)
Lemma fs_data_block k b :
  k_sb k = fs_sb -> (forall b, 0 <= b < 16 -> bit_used k b = (b <? 12)) -> 10 <= b < 12 -> data_block k b.
Proof. intros Sb U Hb. split; [rewrite Sb; unfold data_start; simpl; dlia|]. rewrite U by lia. lia. Qed.

Lemma fs_file_ok k :
  k_sb k = fs_sb -> (forall b, 0 <= b < 16 -> bit_used k b = (b <? 12)) -> inode_ok k file_dinode.
Proof. intros Sb U. apply (one_block_ok k file_dinode 11); try done. by apply fs_data_block. Qed.

Lemma fs_file_content k : (forall bn, 0 <= bn < 16 -> kview k bn = fs_block bn) ->
  content k file_dinode = [104; 101; 108; 108; 111].
Proof.
  intros V. rewrite (one_block_content k file_dinode 11) by done. rewrite V by lia. vm_compute. reflexivity.
Qed.

Lemma readi_correct_witness :
  exists k k', (binit;; begin_op) fs_state = Ret tt k /\ readi 1 DLocal 1 3 k = Ret (3, [101; 108; 108]) k'.
Proof.
  destruct fs_boot as (k & E & B & _). destruct (fs_boot_ftx ∅) as (k0 & E0 & _ & FL & U & Sb & I & _ & V);
    [vm_compute; lia|intros x Hx; destruct (not_elem_of_empty x Hx)|].
  rewrite E0 in E. injection E as ->.
  pose proof (fs_file_ok k Sb U) as IO.
  pose proof (readi_correct k 0 demo_proc ∅ ∅ 1 file_dinode DLocal 1 3 B) as H. cbv zeta in H.
  destruct H as (m' & k' & Er & _).
  - rewrite size_empty. lia.
  - exact FL.
  - rewrite I. reflexivity.
  - exact IO.
  - lia.
  - lia.
  - exact Logic.I.
  - exists k, k'. split; [exact E0|]. rewrite Er.
    by rewrite (fs_file_content k V).
Defined.
