(* ===== verification/Alloc.v ===== *)
(** bmap() (kernel/fs.c): finding and allocating the blocks of a file inside a
    transaction. *)

From Stdlib Require Import ZArith Lia.
From stdpp Require Import base gmap strings list numbers.
From S2P Require Import Prelude Params State Spinlock Sched CString Kalloc Vm PageTable UserMem Copy Frame CopySpec.
From S2P Require Import Bio Cache Virtio Demo Log Commit Transaction Fs Dir DemoFs Blocks Content.

Open Scope Z_scope.

(** ** The free blocks in the order balloc() takes them *)

Definition free_blocks (k : kst) : list Z :=
  filter (fun b => bit_used k b = false) (seqz 0 (Z.to_nat (sb_size (k_sb k)))).

Lemma filter_cons_split {A} (Q : A -> Prop) `{!forall x, Decision (Q x)} (l : list A) b l' :
  filter Q l = b :: l' -> exists l1 l2, l = l1 ++ b :: l2 /\ Q b /\ Forall (fun x => ~ Q x) l1 /\ filter Q l2 = l'.
Proof.
  induction l as [|a l IH]; [done|]. rewrite filter_cons. destruct (decide (Q a)) as [Ha|Ha].
  - intros [= <- <-]. exists [], l. done.
  - intros E. destruct (IH E) as (l1 & l2 & -> & Hb & Hl & E'). exists (a :: l1), l2. split; [done|].
    split; [done|]. split; [by constructor|done].
Qed.

Lemma filter_ext_in {A} (Q Q' : A -> Prop) `{!forall x, Decision (Q x), !forall x, Decision (Q' x)} (l : list A) :
  (forall x, x ∈ l -> Q x <-> Q' x) -> filter Q l = filter Q' l.
Proof.
  induction l as [|a l IH]; intros HQ; [done|]. rewrite !filter_cons.
  rewrite (decide_ext (Q a) (Q' a)) by (apply HQ; set_solver). by rewrite IH by (intros; apply HQ; set_solver).
Qed.

Lemma filter_none {A} (Q : A -> Prop) `{!forall x, Decision (Q x)} (l : list A) : (forall x, x ∈ l -> ~ Q x) -> filter Q l = [].
Proof.
  induction l as [|a l IH]; intros HQ; [done|]. rewrite filter_cons, decide_False by (apply HQ; set_solver).
  apply IH. intros. apply HQ. set_solver.
Qed.

Lemma seqz_lookup a n i : (i < n)%nat -> seqz a n !! i = Some (a + Z.of_nat i).
Proof. intros. unfold seqz. by rewrite list_lookup_fmap, lookup_seq_lt. Qed.

Lemma seqz_split n l1 b l2 : seqz 0 n = l1 ++ b :: l2 ->
  b = Z.of_nat (length l1) /\ (forall x, 0 <= x < b -> x ∈ l1) /\ (forall x, x ∈ l2 -> b < x < Z.of_nat n).
Proof.
  intros E. assert (length l1 + S (length l2) = n)%nat as Hlen.
  { pose proof (length_seqz 0 n) as Hl. rewrite E, length_app in Hl. simpl in Hl. lia. }
  assert (forall i x, (l1 ++ b :: l2) !! i = Some x -> x = Z.of_nat i) as Hx.
  { intros i x Hi. pose proof (lookup_lt_Some _ _ _ Hi) as Hlt. rewrite <- E in Hi. rewrite <- E, length_seqz in Hlt.
    rewrite seqz_lookup in Hi by done. by injection Hi as <-. }
  assert (b = Z.of_nat (length l1)) as Hb by (apply Hx; by rewrite list_lookup_middle).
  split; [done|]. split.
  - intros x Hr. destruct (lookup_lt_is_Some_2 l1 (Z.to_nat x)) as [y Hy]; [lia|].
    assert (y = x) as ->; [|by eapply list_elem_of_lookup_2]. rewrite (Hx (Z.to_nat x) y); [lia|].
    by rewrite lookup_app_l_Some with (x := y).
  - intros x [i Hi]%list_elem_of_lookup_1. pose proof (lookup_lt_Some _ _ _ Hi) as Hlt.
    rewrite (Hx (length l1 + S i)%nat x); [lia|]. rewrite lookup_app_r by lia.
    by replace (length l1 + S i - length l1)%nat with (S i) by lia.
Qed.

Lemma free_blocks_head k b l : free_blocks k = b :: l -> first_free k b.
Proof.
  intros (l1 & l2 & E & Hb & Hl & _)%filter_cons_split. destruct (seqz_split _ _ _ _ E) as (Eb & H1 & _).
  assert (b ∈ seqz 0 (Z.to_nat (sb_size (k_sb k)))) as Hin%elem_of_seqz by (rewrite E; set_solver).
  split; [lia|]. split; [done|]. intros x Hx. rewrite Forall_forall in Hl. specialize (Hl x (H1 x Hx)).
  by destruct (bit_used k x).
Qed.

Lemma free_blocks_ext k k' :
  k_sb k' = k_sb k -> (forall x, 0 <= x < sb_size (k_sb k) -> bit_used k' x = bit_used k x) ->
  free_blocks k' = free_blocks k.
Proof.
  intros Es Hb. unfold free_blocks. rewrite Es. apply filter_ext_in.
  intros x Hx%elem_of_seqz. rewrite Hb by lia. done.
Qed.

Lemma free_blocks_allocated k k' b l :
  free_blocks k = b :: l -> allocated b k k' -> free_blocks k' = l.
Proof.
  intros (l1 & l2 & E & Hb & Hl & Ef)%filter_cons_split A. destruct (seqz_split _ _ _ _ E) as (Eb & _ & H2).
  pose proof (step_sb _ _ (al_step _ _ _ A)) as Es. unfold free_blocks. rewrite Es, E, list_basics.list.filter_app, filter_cons.
  assert (forall x, x ∈ seqz 0 (Z.to_nat (sb_size (k_sb k))) -> bit_used k' x = bit_used k x || bool_decide (x = b)) as Hu.
  { intros x Hx%elem_of_seqz. apply (al_bit _ _ _ A). lia. }
  rewrite E in Hu. rewrite decide_False.
  2: { rewrite Hu by set_solver. rewrite bool_decide_true, orb_true_r by done. done. }
  rewrite <- Ef. assert (filter (fun b => bit_used k' b = false) l1 = []) as ->.
  { apply filter_none. intros x Hx. rewrite Forall_forall in Hl.
    rewrite Hu by set_solver. specialize (Hl x Hx). by destruct (bit_used k x). }
  simpl. apply filter_ext_in. intros x Hx. rewrite Hu by set_solver.
  rewrite bool_decide_false, orb_false_r; [done|]. specialize (H2 x Hx). lia.
Qed.

(** ** One allocation *)

(** Block [b] becomes an allocated, zeroed data block; metadata before the bitmap
    and allocated data blocks keep their contents. *)
Record alloc_step (b : Z) (k k' : kst) : Prop := AllocStep {
  as_step : fstep k k';
  as_inodes : k_inodes k' = k_inodes k;
  as_meta : meta_used k';
  as_free : free_blocks k = b :: free_blocks k';
  as_fresh : ~ data_block k b;
  as_new : data_block k' b;
  as_zero : kview k' b = replicate BSIZE 0;
  as_data : forall x, data_block k x -> data_block k' x;
  as_keep : forall x, x < sb_bmapstart (k_sb k) \/ data_block k x -> kview k' x = kview k x }.

Lemma get32_zeros n off : (off + 4 <= n)%nat -> get32 off (replicate n 0) = 0.
Proof.
  intros H. unfold get32, getb. rewrite drop_replicate, take_replicate, Nat.min_l by lia. reflexivity.
Qed.

Section alloc.
Context `{DL : DiskLaws}.

Lemma data_not_bitmap k b x : fs_layout k -> 0 <= b < sb_size (k_sb k) -> data_start (k_sb k) <= x -> x <> BBLOCK b (k_sb k).
Proof. intros FL Hb Hx. destruct (BBLOCK_eq k FL b Hb) as [_ Hr]. lia. Qed.

Lemma alloc_ok k me p H S b l :
  ftx k me p H S -> fs_layout k -> (size H <= 1)%nat -> no_bitmap k H -> meta_used k ->
  free_blocks k = b :: l -> H !! b = None -> b ∈ S -> BBLOCK b (k_sb k) ∈ S ->
  exists k', balloc ROOTDEV k = Ret b k' /\ ftx k' me p H S /\ alloc_step b k k'.
Proof.
  intros HF FL Hs HN HM Hl Hb HbS HBS. pose proof (free_blocks_head _ _ _ Hl) as Hfree.
  destruct (balloc_ok k me p H S b HF FL Hs HN Hfree HM Hb HbS HBS) as (k' & E & F & A).
  exists k'. split; [done|]. split; [done|]. destruct Hfree as (Hr & Hu & _). pose proof A as [A1 A2 A3 A4 A5 A6].
  pose proof (step_sb _ _ A1) as Es. pose proof FL as [? _ ? ? ?]. unfold data_start in *.
  assert (data_start (k_sb k) <= b) as Hd.
  { destruct (decide (data_start (k_sb k) <= b)); [done|]. by rewrite HM in Hu by lia. }
  assert (forall x, data_block k x -> x <> b) as Hne by (intros x [_ Hx] ->; congruence).
  constructor; try done.
  - intros x. rewrite Es. intros Hx. rewrite A4 by dlia. by rewrite HM.
  - rewrite Hl. f_equal. symmetry. by eapply free_blocks_allocated.
  - intros [_ Hx]. congruence.
  - unfold data_block. rewrite Es. split; [lia|]. rewrite A4, bool_decide_true by done. apply orb_true_r.
  - intros x [Hx Hx']. unfold data_block. rewrite Es. split; [done|]. rewrite A4 by (unfold data_start in Hx; dlia).
    by rewrite Hx'.
  - intros x Hx. apply A6.
    + destruct Hx as [Hx|Hx]; [|by apply Hne]. unfold data_start in Hd. dlia.
    + destruct (BBLOCK_eq k FL b Hr) as [_ HB]. destruct Hx as [Hx|[Hx _]]; lia.
Qed.

Lemma ftx_inodes k me p H S l : ftx k me p H S -> ftx (set_k_inodes l k) me p H S.
Proof.
  intros [(blks & HB & HX & Hs & Hc) Ho Hr Hh]. constructor; try done. exists blks.
  split; [|split; [|done]].
  - by eapply bst_frame; [exact HB|by frame_tac|..].
  - by eapply intx_frame.
Qed.

Lemma fs_layout_inodes k l : fs_layout k -> fs_layout (set_k_inodes l k).
Proof. intros []. by constructor. Qed.
Lemma fstep_inodes k l : fstep k (set_k_inodes l k).
Proof. constructor; done || by frame_tac. Qed.

Lemma modinode_eq k i ip f : k_inodes k !! i = Some ip ->
  modinode i f k = Ret tt (set_k_inodes (<[i := f ip]> (k_inodes k)) k).
Proof. intros H. unfold modinode, modify. by rewrite (alter_insert_at _ _ _ ip). Qed.

(** ** The inode with one more block *)

(** [ip'] in [k'] has the blocks of [ip] in [k] and the fresh block [b]: as block
    [bn], or as the indirect block. *)
Lemma inode_ok_grow k k' ip ip' b :
  inode_ok k ip -> k_sb k' = k_sb k -> ~ data_block k b -> data_block k' b ->
  (forall x, data_block k x -> data_block k' x) ->
  i_dev ip' = i_dev ip -> i_size ip' = i_size ip -> length (i_addrs ip') = length (i_addrs ip) -> b <> 0 ->
  (iind ip' = iind ip /\ exists bn, iblock k ip bn = 0 /\
     forall x, 0 <= x < MAXFILE -> iblock k' ip' x = if decide (x = bn) then b else iblock k ip x) \/
  (iind ip = 0 /\ iind ip' = b /\ forall x, 0 <= x < MAXFILE -> iblock k' ip' x = iblock k ip x) ->
  inode_ok k' ip'.
Proof.
  intros [Idev Ilen Isize Iind Iblk Iinj Iii Ihol] Es Hnb Hb Hkeep E1 E2 E3 Hb0 Hcase.
  assert (forall x, 0 <= x < MAXFILE -> iblock k ip x <> 0 -> iblock k ip x <> b) as Hfresh.
  { intros x Hx Hne E. apply Hnb. rewrite <- E. by apply Iblk. }
  assert (forall bn, 0 <= bn -> bn * 1024 < i_size ip -> 0 <= bn < MAXFILE) as Hrange by (intros; lia).
  destruct Hcase as [(Ei & bn & H0 & Hx)|(Ei & Ei' & Hx)]; constructor; rewrite ?E1, ?E2, ?E3, ?Ei; try done; auto.
  - intros x Hr. rewrite Hx by done. case_decide; auto.
  - intros x y Hr Hr'. rewrite !Hx by done. repeat case_decide; subst; try done; intros.
    + exfalso. apply (Hfresh y Hr'); congruence.
    + exfalso. by apply (Hfresh x Hr).
    + by apply Iinj.
  - intros x Hr. rewrite Hx by done. case_decide; [|by apply Iii]. intros _ Hbi. apply Hnb.
    rewrite Hbi. apply Iind. congruence.
  - intros x Hr Hs. rewrite Hx by auto. case_decide; [done|auto].
  - by rewrite Ei'.
  - intros x Hr Hne. rewrite Hx in * by done. auto.
  - intros x y Hr Hr'. rewrite !Hx by done. by apply Iinj.
  - intros x Hr. rewrite Hx, Ei' by done. auto.
  - intros x Hr Hs. rewrite Hx by auto. auto.
Qed.

Lemma addrs_insert_ind k ip bn b : 0 <= bn < Z.of_nat NDIRECT -> length (i_addrs ip) = (NDIRECT + 1)%nat ->
  iind (set_i_addrs (<[Z.to_nat bn := b]> (i_addrs ip)) ip) = iind ip /\
  forall x, 0 <= x < MAXFILE -> iblock k (set_i_addrs (<[Z.to_nat bn := b]> (i_addrs ip)) ip) x =
    if decide (x = bn) then b else iblock k ip x.
Proof.
  intros Hbn Hl. assert (iind (set_i_addrs (<[Z.to_nat bn := b]> (i_addrs ip)) ip) = iind ip) as E.
  { unfold iind. simpl. rewrite list_lookup_total_insert_ne by lia. done. }
  split; [done|]. intros x Hx. unfold iblock. rewrite E. simpl. case_decide as D.
  - subst x. assert (bn <? Z.of_nat NDIRECT = true) as -> by (apply Z.ltb_lt; lia). apply list_lookup_total_insert_eq. rewrite Hl. lia.
  - destruct (x <? Z.of_nat NDIRECT) eqn:Ex; [|done]. rewrite list_lookup_total_insert_ne by lia. done.
Qed.

(** ** bmap() *)

(** Inode [i] has grown by [c] blocks, taken from the head of the free blocks.
    Metadata before the bitmap and all allocated data blocks but the inode's
    indirect block keep their contents. *)
Record grown (i : nat) (c : nat) (k : kst) (ip : inode) (k' : kst) (ip' : inode) : Prop := Grown {
  gr_step : fstep k k';
  gr_inodes : k_inodes k' = <[i := ip']> (k_inodes k);
  gr_meta : meta_used k';
  gr_ok : inode_ok k' ip';
  gr_like : ip' = set_i_addrs (i_addrs ip') ip;
  gr_data : forall x, data_block k x -> data_block k' x;
  gr_ind : iind ip' = iind ip \/ ~ data_block k (iind ip');
  gr_free : free_blocks k' = drop c (free_blocks k);
  gr_keep : forall x, x < sb_bmapstart (k_sb k) \/ (data_block k x /\ x <> iind ip) -> kview k' x = kview k x }.

Lemma grown_refl i k ip : k_inodes k !! i = Some ip -> meta_used k -> inode_ok k ip -> grown i 0 k ip k ip.
Proof.
  intros Hi HM IO. constructor; try done; auto.
  - by rewrite list_insert_id.
  - by destruct ip.
Qed.

Lemma grown_trans i c1 c2 k ip k1 ip1 k2 ip2 :
  grown i c1 k ip k1 ip1 -> grown i c2 k1 ip1 k2 ip2 -> grown i (c1 + c2) k ip k2 ip2.
Proof.
  intros [S1 I1 M1 O1 L1 D1 N1 F1 K1] [S2 I2 M2 O2 L2 D2 N2 F2 K2]. pose proof (step_sb _ _ S1) as Es.
  constructor; try done; auto.
  - by etrans.
  - rewrite I2, I1. apply list_insert_insert_eq.
  - rewrite L2, L1. by destruct ip.
  - destruct N1 as [E1|E1], N2 as [E2|E2]; [left; congruence|right; auto|right; congruence|right; auto].
  - rewrite F2, F1. apply drop_drop.
  - intros x Hx. rewrite K2; [by apply K1|]. rewrite Es. destruct Hx as [Hx|[Hx Hne]]; [by left|right].
    split; [auto|]. destruct N1 as [->|E1]; [done|]. intros ->. done.
Qed.

Lemma iblock_keep k k' ip x :
  (iind ip <> 0 -> kview k' (iind ip) = kview k (iind ip)) -> iblock k' ip x = iblock k ip x.
Proof.
  intros H. unfold iblock. destruct (x <? _); [done|]. destruct (iind ip =? 0) eqn:E; [done|].
  by rewrite H by lia.
Qed.

(** The blocks the transaction may allocate. *)
Definition may_alloc (k : kst) (S : gset Z) (c : nat) : Prop :=
  (c <= length (free_blocks k))%nat /\
  forall b, b ∈ take c (free_blocks k) -> b ∈ S /\ BBLOCK b (k_sb k) ∈ S.

Lemma may_alloc_head k S c : may_alloc k S (Datatypes.S c) -> exists b l, free_blocks k = b :: l /\ b ∈ S /\ BBLOCK b (k_sb k) ∈ S.
Proof.
  intros [Hc HS]. destruct (free_blocks k) as [|b l]; [simpl in Hc; lia|]. exists b, l. split; [done|].
  apply HS. simpl. set_solver.
Qed.

Lemma no_bitmap_empty k : no_bitmap k ∅.
Proof. intros b _. apply lookup_empty. Qed.

(** Allocate a block and store its number in the inode's address array. *)
Lemma addr_alloc k me p S i ip j :
  ftx k me p ∅ S -> fs_layout k -> meta_used k -> k_inodes k !! i = Some ip -> inode_ok k ip ->
  may_alloc k S 1 -> (j <= NDIRECT)%nat -> i_addrs ip !!! j = 0 ->
  exists b k', (addr ← balloc (i_dev ip); modinode i (fun ip => set_i_addrs (<[j := addr]> (i_addrs ip)) ip);; mret addr) k
      = Ret b k' /\ b ∈ S /\ (b <> 0 /\ ~ data_block k b) /\ ftx k' me p ∅ S /\ kview k' b = replicate BSIZE 0 /\
    let ip' := set_i_addrs (<[j := b]> (i_addrs ip)) ip in
    grown i 1 k ip k' ip' /\ iind ip' = (if decide (j = NDIRECT) then b else iind ip) /\
    forall x, 0 <= x < MAXFILE ->
      iblock k' ip' x = if decide (j <> NDIRECT /\ x = Z.of_nat j) then b else iblock k ip x.
Proof.
  intros HF FL HM Hi IO HA Hj H0. destruct (may_alloc_head k S 0 HA) as (b & l & Hl & HbS & HBS).
  pose proof (io_len _ _ IO) as Hlen. rewrite (io_dev _ _ IO).
  destruct (alloc_ok k me p ∅ S b l HF FL) as (k1 & E1 & F1 & [A1 A2 A3 A4 A5 A6 A7 A8 A9]); auto using no_bitmap_empty.
  mcall E1. assert (k_inodes k1 !! i = Some ip) as Hi1 by by rewrite A2.
  mcall (modinode_eq k1 i ip (fun ip => set_i_addrs (<[j := b]> (i_addrs ip)) ip) Hi1).
  set (ip' := set_i_addrs (<[j := b]> (i_addrs ip)) ip). set (k' := set_k_inodes _ k1).
  exists b, k'. split; [done|]. split; [done|].
  assert (b <> 0) as Hb0.
  { destruct A6 as [Hd _]. rewrite (step_sb _ _ A1) in Hd. destruct FL. unfold data_start in Hd. dlia. }
  assert (iind ip <> 0 -> kview k1 (iind ip) = kview k (iind ip)) as Hkeep by (intros; apply A9; right; by apply IO).
  assert (iind ip' = if decide (j = NDIRECT) then b else iind ip) as Ei.
  { unfold iind, ip'. simpl. case_decide; [subst j; apply list_lookup_total_insert_eq; rewrite Hlen; lia|].
    by rewrite list_lookup_total_insert_ne. }
  assert (forall x, 0 <= x < MAXFILE ->
    iblock k1 ip' x = if decide (j <> NDIRECT /\ x = Z.of_nat j) then b else iblock k ip x) as Ex.
  { destruct (decide (j = NDIRECT)) as [->|Hne]; intros x Hx.
    - rewrite decide_False by tauto. unfold iblock. rewrite Ei, (proj2 (Z.eqb_neq _ _) Hb0), A7.
      destruct (x <? Z.of_nat NDIRECT) eqn:Ex.
      + unfold ip'. ksimpl. rewrite list_lookup_total_insert_ne; [done|]. apply Z.ltb_lt in Ex. lia.
      + change (iind ip) with (i_addrs ip !!! NDIRECT). rewrite H0. apply get32_zeros. apply Z.ltb_ge in Ex. lia.
    - destruct (addrs_insert_ind k1 ip (Z.of_nat j) b) as [_ Ex]; [lia|done|]. rewrite Nat2Z.id in *.
      unfold ip'. rewrite Ex by done. rewrite (iblock_keep k k1 ip x Hkeep). apply decide_ext. tauto. }
  split; [done|]. split; [by apply ftx_inodes|]. split; [done|]. split; [|done].
  constructor; try done.
  - etrans; [exact A1|]. apply fstep_inodes.
  - unfold k'. ksimpl. by rewrite A2.
  - assert (inode_ok k1 ip') as []; [|by constructor].
    apply (inode_ok_grow k k1 ip ip' b IO (step_sb _ _ A1) A5 A6 A8); try done; [by simpl; rewrite length_insert|].
    destruct (decide (j = NDIRECT)) as [->|Hne].
    + right. split; [done|]. split; [done|]. intros x Hx. rewrite Ex by done. apply decide_False. tauto.
    + left. split; [done|]. exists (Z.of_nat j). split.
      * unfold iblock. assert (Z.of_nat j <? Z.of_nat NDIRECT = true) as -> by (apply Z.ltb_lt; lia). by rewrite Nat2Z.id.
      * intros x Hx. rewrite Ex by done. apply decide_ext. tauto.
  - fold ip'. rewrite Ei. case_decide; [by right|by left].
  - by rewrite A4.
  - intros x Hx. apply A9. tauto.
Qed.

(** A change of a data block leaves the bitmap alone. *)
Lemma set_data_bits k k' b d x :
  fs_layout k -> set_block b d k k' -> data_start (k_sb k) <= b -> 0 <= x < sb_size (k_sb k) ->
  bit_used k' x = bit_used k x.
Proof.
  intros FL [F _ _ O] Hb Hx. unfold bit_used. rewrite (step_sb _ _ F), O; [done|].
  intros E. by apply (data_not_bitmap k x b FL Hx Hb).
Qed.

Lemma set_data_block k k' b d x :
  fs_layout k -> set_block b d k k' -> data_start (k_sb k) <= b -> data_block k x <-> data_block k' x.
Proof.
  intros FL A Hb. unfold data_block. rewrite (step_sb _ _ (st_step _ _ _ _ A)).
  assert (0 <= data_start (k_sb k)) by (destruct FL; unfold data_start; dlia).
  split; intros [Hx Hu]; (split; [done|]); [rewrite (set_data_bits k k' b d x)|rewrite <- (set_data_bits k k' b d x)]; auto; lia.
Qed.

Lemma set_data_meta k k' b d :
  fs_layout k -> set_block b d k k' -> data_start (k_sb k) <= b -> meta_used k -> meta_used k'.
Proof.
  intros FL A Hb HM x. rewrite (step_sb _ _ (st_step _ _ _ _ A)). intros Hx.
  rewrite (set_data_bits k k' b d x) by (done || destruct FL; lia). auto.
Qed.

Lemma set_data_free k k' b d :
  fs_layout k -> set_block b d k k' -> data_start (k_sb k) <= b -> free_blocks k' = free_blocks k.
Proof.
  intros FL A Hb. apply free_blocks_ext; [apply (step_sb _ _ (st_step _ _ _ _ A))|].
  intros x Hx. by eapply set_data_bits.
Qed.

Lemma bmap_entry_alloc k me p S i ip bn :
  ftx k me p ∅ S -> fs_layout k -> meta_used k -> k_inodes k !! i = Some ip -> inode_ok k ip ->
  may_alloc k S 1 -> Z.of_nat NDIRECT <= bn < MAXFILE -> iind ip <> 0 -> iind ip ∈ S -> iblock k ip bn = 0 ->
  exists b k', bmap_entry ROOTDEV (iind ip) (Z.to_nat (bn - Z.of_nat NDIRECT)) k = Ret b k' /\
    b ∈ S /\ (b <> 0 /\ ~ data_block k b) /\ ftx k' me p ∅ S /\ kview k' b = replicate BSIZE 0 /\ grown i 1 k ip k' ip /\
    forall x, 0 <= x < MAXFILE -> iblock k' ip x = if decide (x = bn) then b else iblock k ip x.
Proof.
  intros HF FL HM Hi IO HA Hbn Hind HindS H0. destruct (may_alloc_head k S 0 HA) as (b & l & Hl & HbS & HBS).
  pose proof (io_ind _ _ IO Hind) as Hdi. pose proof (data_disk _ _ FL Hdi) as Hii. pose proof Hdi as [Hdr _].
  unfold bmap_entry. set (n := Z.to_nat (bn - Z.of_nat NDIRECT)). set (ind := iind ip) in *.
  assert (iblock k ip bn = get32 (4 * n) (kview k ind)) as Eib.
  { unfold iblock. fold ind. assert (bn <? Z.of_nat NDIRECT = false) as -> by (apply Z.ltb_ge; lia).
    by rewrite (proj2 (Z.eqb_neq _ _) Hind). }
  destruct (ftx_bread k me p ∅ S ind HF) as (bp & k1 & x & E1 & E1' & Hx & F1 & A1);
    [rewrite map_size_empty; lia|apply lookup_empty|done|].
  mcall E1. mcall E1'. rewrite Hx, <- Eib, H0. change (0 =? 0) with true. cbv iota.
  pose proof (step_sb _ _ (sa_step _ _ A1)) as Es1. set (H := <[ind := bp]> (∅ : gmap Z nat)) in *.
  assert (free_blocks k1 = b :: l) as Hl1.
  { rewrite <- Hl. apply free_blocks_ext; [done|]. intros y _. by apply bit_used_same. }
  assert (~ data_block k b) as Hnd.
  { intros [_ Hu]. apply free_blocks_head in Hl as (_ & Hf & _). congruence. }
  assert (ind <> b) as Hne by congruence.
  destruct (alloc_ok k1 me p H S b l F1) as (k2 & E2 & F2 & [B1 B2 B3 B4 B5 B6 B7 B8 B9]); auto.
  { eapply fs_layout_step; [apply A1|done]. }
  { unfold H. rewrite insert_empty, map_size_singleton. lia. }
  { intros y. rewrite Es1. intros Hy. unfold H. rewrite lookup_insert_ne by lia. apply lookup_empty. }
  { intros y. rewrite Es1. intros Hy. rewrite (bit_used_same k) by done. auto. }
  { unfold H. by rewrite lookup_insert_ne. }
  { by rewrite Es1. }
  rewrite bind_bind. mcall E2.
  assert (kview k2 ind = kview k ind) as V2.
  { rewrite B9; [apply A1|]. right. by apply (data_block_same k k1 A1). }
  assert (block_ok (kview k ind)) as [Hlk Hbk] by (by eapply ftx_block_ok).
  assert (4 * n + 4 <= BSIZE)%nat as Hn by (unfold n; lia).
  assert (block_ok (put32 (4 * n) b (kview k ind))) as Hok.
  { split; [by rewrite length_put32 by (rewrite Hlk; lia)|]. apply putb_bytes_ok; [apply bytes_of_ok|done]. }
  pose proof (lookup_insert_eq ∅ ind bp : H !! ind = Some bp) as HHi.
  destruct (ftx_update k2 me p H S ind bp (put32 (4 * n) b) F2 HHi HindS) as (k3 & k4 & E3 & E4 & F4 & A4);
    [by rewrite V2|]. rewrite bind_bind. mcall E3. rewrite bind_bind. mcall E4. mstep. rewrite V2 in A4.
  destruct (ftx_brelse k4 me p H S ind bp F4 HHi) as (k5 & E5 & F5 & A5). mcall E5.
  assert (delete ind H = ∅) as EH by (unfold H; by rewrite delete_insert_eq, delete_empty). rewrite EH in F5.
  pose proof (set_same _ _ _ _ _ A4 A5) as A25. pose proof (step_sb _ _ B1) as Es2. rewrite Es1 in Es2.
  assert (fs_layout k2) as FL2 by (eapply fs_layout_step; [exact B1|eapply fs_layout_step; [apply A1|done]]).
  assert (data_start (k_sb k2) <= ind) as Hds by (rewrite Es2; lia).
  assert (b <> 0) as Hb0.
  { destruct B6 as [Hd _]. rewrite Es2 in Hd. destruct FL. unfold data_start in Hd. dlia. }
  assert (0 <= b < 2 ^ 31) as Hb32.
  { apply free_blocks_head in Hl as (Hbr & _). destruct FL. lia. }
  assert (forall y, 0 <= y < MAXFILE -> iblock k5 ip y = if decide (y = bn) then b else iblock k ip y) as Hbl.
  { intros y Hy. unfold iblock. fold ind. rewrite (proj2 (Z.eqb_neq _ _) Hind), (st_view _ _ _ _ A25).
    destruct (y <? Z.of_nat NDIRECT) eqn:Ey.
    - apply Z.ltb_lt in Ey. by rewrite decide_False by lia.
    - apply Z.ltb_ge in Ey. case_decide as D.
      + subst y. rewrite get32_put32_same by (rewrite Hlk; lia). apply u32_small. lia.
      + apply get32_put32_disj; [rewrite Hlk; lia|]. unfold n. lia. }
  exists b, k5. split; [done|]. split; [done|]. split; [done|]. split; [done|].
  split; [by rewrite (st_other _ _ _ _ A25)|]. split; [|done].
  assert (forall y, data_block k y -> data_block k5 y) as Hkeep.
  { intros y Hy. apply (set_data_block k2 k5 ind _ y FL2 A25 Hds), B8. by apply (data_block_same k k1 A1). }
  constructor; auto.
  - etrans; [apply A1|]. etrans; [exact B1|apply A25].
  - rewrite (st_inodes _ _ _ _ A25), B2, (sa_inodes _ _ A1). by rewrite list_insert_id.
  - by eapply set_data_meta.
  - apply (inode_ok_grow k k5 ip ip b IO); auto.
    + rewrite (step_sb _ _ (st_step _ _ _ _ A25)). done.
    + by apply (set_data_block k2 k5 ind _ b FL2 A25 Hds).
    + left. split; [done|]. exists bn. done.
  - by destruct ip.
  - rewrite (set_data_free k2 k5 ind _ FL2 A25 Hds), Hl. by rewrite Hl1 in B4; injection B4 as <-.
  - intros y Hy. rewrite (st_other _ _ _ _ A25).
    + rewrite B9; [apply A1|]. rewrite Es1. destruct Hy as [Hy|[Hy _]]; [by left|right]. by apply (data_block_same k k1 A1).
    + destruct Hy as [Hy|[_ Hy]]; [|done]. destruct FL. unfold data_start in Hdr. dlia.
Qed.

(** Reading in a transaction. *)
Lemma ftx_read k me p H S : ftx k me p H S -> exists P, bst k me p H P /\ (size P < NBUF)%nat /\
  forall k', bst k' me p H P -> rstep k k' -> ftx k' me p H S.
Proof.
  intros HF. pose proof (ftx_size _ _ _ _ _ HF) as HN. pose proof HF as [(blks & HB & HX & Hsub & Hc) Ho Hr Hh].
  destruct (blks_small _ _ _ _ _ blks HF (ix_nodup _ _ _ HX) Hsub) as [_ Hsz].
  exists (list_to_set blks). split; [done|]. split; [lia|]. intros k' HB' [(F & L & I) D V].
  constructor; rewrite ?L; try done. exists blks. split; [done|]. split; [by eapply intx_frame|]. split; [done|].
  intros bn i Hbn. rewrite D, V. by apply (Hc bn i).
Qed.

Lemma rstep_grown i k ip k' :
  rstep k k' -> k_inodes k !! i = Some ip -> meta_used k -> inode_ok k ip -> grown i 0 k ip k' ip.
Proof.
  intros R Hi HM IO. pose proof (rstep_same _ _ R) as A. pose proof (step_sb _ _ (sa_step _ _ A)) as Es.
  constructor; auto.
  - apply A.
  - rewrite (rstep_inodes _ _ R). by rewrite list_insert_id.
  - intros x. rewrite Es. intros Hx. rewrite (bit_used_same k) by done. auto.
  - by eapply inode_ok_same.
  - by destruct ip.
  - intros x. apply (data_block_same k k' A).
  - rewrite drop_0. apply free_blocks_ext; [done|]. intros x _. by apply bit_used_same.
  - intros x _. apply A.
Qed.

(** The blocks bmap() has to allocate for block [bn]. *)
Definition need (k : kst) (ip : inode) (bn : Z) : nat :=
  (if (Z.of_nat NDIRECT <=? bn) && (iind ip =? 0) then 1 else 0) + (if iblock k ip bn =? 0 then 1 else 0).

(** What bmap() did: block [bn] of the file is [a]. *)
Record bmapped (i : nat) (S : gset Z) (bn a : Z) (k : kst) (ip : inode) (k' : kst) (ip' : inode) : Prop := Bmapped {
  bm_grown : grown i (need k ip bn) k ip k' ip';
  bm_addr : iblock k' ip' bn = a;
  bm_ne : a <> 0;
  bm_S : a ∈ S;
  bm_indS : iind ip' <> 0 -> iind ip' ∈ S;
  bm_other : forall x, 0 <= x < MAXFILE -> x <> bn -> iblock k' ip' x = iblock k ip x;
  bm_same : iblock k ip bn <> 0 -> a = iblock k ip bn;
  bm_fresh : iblock k ip bn = 0 -> ~ data_block k a;
  bm_ind : (Z.of_nat NDIRECT <= bn -> iind ip' <> 0) /\ (bn < Z.of_nat NDIRECT -> iind ip' = iind ip) }.

Section bmap.
Context (k : kst) (me : nat) (p : proc) (S : gset Z) (i : nat) (ip : inode) (bn : Z).
Context (HF : ftx k me p ∅ S) (FL : fs_layout k) (HM : meta_used k).
Context (Hi : k_inodes k !! i = Some ip) (IO : inode_ok k ip) (Hbn : 0 <= bn < MAXFILE).
Context (HA : may_alloc k S (need k ip bn)).
Context (HbS : iblock k ip bn <> 0 -> iblock k ip bn ∈ S) (HiS : iind ip <> 0 -> iind ip ∈ S).

Lemma bmap_hit : iblock k ip bn <> 0 ->
  exists k', bmap i bn k = Ret (iblock k ip bn) k' /\ ftx k' me p ∅ S /\ bmapped i S bn (iblock k ip bn) k ip k' ip.
Proof.
  intros Hne. destruct (ftx_read _ _ _ _ _ HF) as (P & HB & HP & Hback).
  destruct (bmap_found k me p P i ip bn HB HP FL Hi IO Hbn Hne) as (k' & E & B' & R').
  exists k'. split; [done|]. split; [auto|]. pose proof (rstep_same _ _ R') as A.
  assert (Z.of_nat NDIRECT <= bn -> iind ip <> 0) as Hin.
  { intros Hge H0. apply Hne. unfold iblock. assert (bn <? Z.of_nat NDIRECT = false) as -> by (apply Z.ltb_ge; lia).
    by rewrite H0. }
  constructor; auto.
  - assert (need k ip bn = 0%nat) as ->; [|by apply rstep_grown]. unfold need.
    rewrite (proj2 (Z.eqb_neq _ _) Hne). destruct (Z.of_nat NDIRECT <=? bn) eqn:E12; [|done].
    apply Z.leb_le in E12. by rewrite (proj2 (Z.eqb_neq _ _) (Hin E12)).
  - by apply iblock_same.
  - intros x _ _. by apply iblock_same.
Qed.

Lemma bmap_direct : iblock k ip bn = 0 -> bn < Z.of_nat NDIRECT ->
  exists a k' ip', bmap i bn k = Ret a k' /\ ftx k' me p ∅ S /\ bmapped i S bn a k ip k' ip' /\ kview k' a = replicate BSIZE 0.
Proof.
  intros H0 Hlt. assert (need k ip bn = 1%nat) as En.
  { unfold need. rewrite H0. assert (Z.of_nat NDIRECT <=? bn = false) as -> by (apply Z.leb_gt; lia). done. }
  unfold iblock in H0. assert (bn <? Z.of_nat NDIRECT = true) as E12 by (apply Z.ltb_lt; lia). rewrite E12 in H0.
  rewrite En in HA. destruct (addr_alloc k me p S i ip (Z.to_nat bn) HF FL HM Hi IO HA) as (b & k' & E & HbS' & [Hb0 Hbf] & F' & V' & G');
    [lia|done|].
  exists b, k', (set_i_addrs (<[Z.to_nat bn := b]> (i_addrs ip)) ip).
  split; [unfold bmap; mcall (getinode_eq k i ip Hi); rewrite E12, H0; exact E|]. split; [done|]. split; [|done].
  destruct G' as (G' & Ei & Ex). rewrite decide_False in Ei by lia. rewrite Z2Nat.id in Ex by lia.
  constructor; auto; rewrite ?En, ?Ei; auto.
  - rewrite Ex by done. apply decide_True. split; [lia|done].
  - intros x Hx Hne. rewrite Ex by done. apply decide_False. tauto.
  - unfold iblock. rewrite E12. done.
  - split; [lia|done].
Qed.

Lemma bmap_indirect : iblock k ip bn = 0 -> Z.of_nat NDIRECT <= bn ->
  exists a k' ip', bmap i bn k = Ret a k' /\ ftx k' me p ∅ S /\ bmapped i S bn a k ip k' ip' /\ kview k' a = replicate BSIZE 0.
Proof.
  intros H0 Hge. assert (bn <? Z.of_nat NDIRECT = false) as E12 by (apply Z.ltb_ge; lia).
  assert (need k ip bn = ((if (iind ip =? 0)%Z then 1 else 0) + 1)%nat) as En.
  { unfold need. rewrite H0. assert (Z.of_nat NDIRECT <=? bn = true) as -> by (apply Z.leb_le; lia). done. }
  unfold bmap. mcall (getinode_eq k i ip Hi). rewrite E12.
  assert (bn - Z.of_nat NDIRECT <? Z.of_nat NINDIRECT = true) as -> by (apply Z.ltb_lt; lia).
  change (i_addrs ip !!! NDIRECT) with (iind ip).
  assert (exists k1 ip1, (if iind ip =? 0 then addr ← balloc (i_dev ip);
      modinode i (fun ip => set_i_addrs (<[NDIRECT := addr]> (i_addrs ip)) ip);; mret addr else mret (iind ip)) k
      = Ret (iind ip1) k1 /\ iind ip1 <> 0 /\ iind ip1 ∈ S /\ ftx k1 me p ∅ S /\
      grown i (if iind ip =? 0 then 1 else 0) k ip k1 ip1 /\
      forall x, 0 <= x < MAXFILE -> iblock k1 ip1 x = iblock k ip x) as (k1 & ip1 & E1 & Hn1 & HS1 & F1 & G1 & Ex1).
  { destruct (iind ip =? 0) eqn:E0.
    - destruct (addr_alloc k me p S i ip NDIRECT HF FL HM Hi IO) as (b & k1 & E & HbS' & [Hb0 Hbf] & F' & _ & G & Ei & Ex).
      + rewrite En in HA. destruct HA as [Hl Ht]. split; [lia|]. intros b Hb. apply Ht.
        rewrite <- (take_drop 1 (take _ _)), take_take. apply elem_of_app. left. done.
      + lia.
      + change (iind ip = 0). lia.
      + rewrite decide_True in Ei by done. eexists k1, _. rewrite Ei. split; [exact E|].
        do 4 (split; [done|]). intros x Hx. rewrite Ex by done. apply decide_False. tauto.
    - assert (iind ip <> 0) by lia. exists k, ip. split_and!; auto. by apply grown_refl. }
  mcall E1. rewrite (io_dev _ _ IO). destruct G1 as [S1 I1 M1 O1 L1 D1 N1 Fr1 K1] eqn:EG. clear EG.
  assert (grown i (if iind ip =? 0 then 1 else 0) k ip k1 ip1) as G1' by by constructor.
  destruct (bmap_entry_alloc k1 me p S i ip1 bn F1) as (b & k2 & E2 & Hb2 & [Hb20 Hb2f] & F2 & V2 & G2 & Ex2); auto.
  { by eapply fs_layout_step. }
  { rewrite I1, list_lookup_insert_eq; [done|]. by eapply lookup_lt_Some. }
  { rewrite En in HA. destruct HA as [Hl Ht]. split.
    - rewrite Fr1, length_drop. lia.
    - intros x (j & Hj & Hlt)%elem_of_take. rewrite (step_sb _ _ S1). apply Ht, elem_of_take.
      rewrite Fr1, lookup_drop in Hj. eexists. split; [exact Hj|lia]. }
  { lia. }
  { by rewrite Ex1. }
  exists b, k2, ip1. split; [exact E2|]. split; [done|]. split; [|done].
  constructor; auto.
  - rewrite En. by eapply grown_trans.
  - rewrite Ex2 by done. by apply decide_True.
  - intros x Hx Hne. rewrite Ex2, decide_False by done. auto.
  - done.
  - split; [done|lia].
Qed.

(** bmap() finds the block or allocates what is missing. *)
Lemma bmap_ok :
  exists a k' ip', bmap i bn k = Ret a k' /\ ftx k' me p ∅ S /\ bmapped i S bn a k ip k' ip'.
Proof.
  destruct (decide (iblock k ip bn = 0)) as [H0|Hne].
  - destruct (decide (bn < Z.of_nat NDIRECT)).
    + destruct bmap_direct as (a & k' & ip' & ? & ? & ? & _); eauto 10.
    + destruct bmap_indirect as (a & k' & ip' & ? & ? & ? & _); [done|lia|]. eauto 10.
  - destruct (bmap_hit Hne) as (k' & ? & ? & ?). eauto 10.
Qed.

End bmap.
End alloc.
