(* ===== verification/Itable.v ===== *)
(** The inode table: iget(), idup() and iput() (kernel/fs.c) as reference counting
    on a table with at most one entry per inode. *)

From Stdlib Require Import ZArith Lia.
From stdpp Require Import base gmap strings list numbers.
From S2P Require Import Prelude Params State Spinlock Sched Kalloc Frame Bio Cache Virtio Demo Log Commit Transaction Fs.
From S2P Require Import DemoFs Blocks CString Vm PageTable UserMem Copy CopySpec Dir Content Alloc.

Open Scope Z_scope.

(** ** The invariant *)

(** Entry [ip] is the in-memory copy of inode (dev, inum). *)
Definition is_inode (dev inum : Z) (ip : inode) : Prop := 0 < i_ref ip /\ i_dev ip = dev /\ i_inum ip = inum.

#[export] Instance is_inode_dec dev inum ip : Decision (is_inode dev inum ip).
Proof. unfold is_inode. apply _. Defined.

(** Reference counts are small and no inode has two entries. *)
Record itable_ok (tab : list inode) : Prop := ItableOk {
  it_ref : forall i ip, tab !! i = Some ip -> 0 <= i_ref ip < 2 ^ 31 - 1;
  it_uniq : forall i j ip jp dev inum, tab !! i = Some ip -> tab !! j = Some jp ->
    is_inode dev inum ip -> is_inode dev inum jp -> i = j }.

(** The number of references to inode (dev, inum). *)
Definition iref1 (dev inum : Z) (ip : inode) : Z := if decide (is_inode dev inum ip) then i_ref ip else 0.
Definition irefs (dev inum : Z) (tab : list inode) : Z := foldr Z.add 0 (iref1 dev inum <$> tab).

Lemma iget_match dev inum ip :
  (0 <? i_ref ip) && (i_dev ip =? dev) && (i_inum ip =? inum) = bool_decide (is_inode dev inum ip).
Proof.
  unfold is_inode. case_bool_decide as H; [|lia].
  destruct H as (? & ? & ?). rewrite !andb_true_iff. lia.
Qed.

(** The scan finds the entry if there is one, else the first free slot. *)
Lemma iget_scan_spec dev inum l : forall i e,
  match iget_scan dev inum i l e with
  | (Some j, _) => exists n ip, j = (i + n)%nat /\ l !! n = Some ip /\ is_inode dev inum ip
  | (None, e') => (forall ip, ip ∈ l -> ~ is_inode dev inum ip) /\
      match e with
      | Some j => e' = Some j
      | None => match e' with
                | Some j => exists n ip, j = (i + n)%nat /\ l !! n = Some ip /\ i_ref ip = 0
                | None => forall ip, ip ∈ l -> i_ref ip <> 0
                end
      end
  end.
Proof.
  induction l as [|ip l IH]; intros i e; cbn [iget_scan].
  { split; [intros ip Hip; destruct (not_elem_of_nil _ Hip)|]. destruct e; [done|].
    intros ip Hip. destruct (not_elem_of_nil _ Hip). }
  rewrite iget_match. case_bool_decide as Hm; [exists 0%nat, ip; split; [lia|done]|].
  set (e1 := match e with Some _ => e | None => if i_ref ip =? 0 then Some i else None end).
  specialize (IH (S i) e1). destruct (iget_scan dev inum (S i) l e1) as [[j|] e'].
  - destruct IH as (n & jp & -> & Hn & Hj). exists (S n), jp. split; [lia|done].
  - destruct IH as [Hno He]. split; [intros x [->|Hx]%elem_of_cons; [done|auto]|].
    unfold e1 in He. destruct e as [j|]; [done|]. destruct (i_ref ip =? 0) eqn:E0.
    + subst e'. exists 0%nat, ip. split; [lia|]. split; [done|lia].
    + destruct e' as [j|].
      * destruct He as (n & jp & -> & Hn & Hj). exists (S n), jp. split; [lia|done].
      * intros x [->|Hx]%elem_of_cons; [lia|auto].
Qed.

(** ** Reference counts under updates of one entry *)

Lemma irefs_insert dev inum tab i ip ip' : tab !! i = Some ip ->
  irefs dev inum (<[i := ip']> tab) = irefs dev inum tab
    - iref1 dev inum ip + iref1 dev inum ip'.
Proof.
  unfold irefs. revert i. induction tab as [|x tab IH]; intros i Hi; [done|].
  destruct i as [|i]; cbn [fmap list_fmap foldr insert list_insert] in *; [injection Hi as ->; lia|].
  change (iref1 dev inum x + foldr Z.add 0 (iref1 dev inum <$> <[i := ip']> tab) =
    iref1 dev inum x + foldr Z.add 0 (iref1 dev inum <$> tab) - iref1 dev inum ip + iref1 dev inum ip').
  rewrite (IH i Hi). lia.
Qed.

Lemma irefs_zero dev inum tab : (forall ip, ip ∈ tab -> ~ is_inode dev inum ip) -> irefs dev inum tab = 0.
Proof.
  unfold irefs. induction tab as [|x tab IH]; intros H; [done|]. rewrite fmap_cons. cbn [foldr].
  unfold iref1 at 1. rewrite decide_False by (apply H; set_solver). rewrite IH; [done|]. intros. apply H. set_solver.
Qed.

Lemma irefs_entry dev inum tab i ip :
  itable_ok tab -> tab !! i = Some ip -> is_inode dev inum ip -> irefs dev inum tab = i_ref ip.
Proof.
  intros [_ Hu] Hi Hm. pose proof (irefs_insert dev inum tab i ip (set_i_ref 0 ip) Hi) as E.
  rewrite irefs_zero in E.
  - unfold iref1 in E. rewrite decide_True, decide_False in E by (done || unfold is_inode; simpl; lia). lia.
  - intros jp [j Hj]%list_elem_of_lookup_1 Hjm. destruct (decide (i = j)) as [<-|Hne].
    + rewrite list_lookup_insert_eq in Hj by (by eapply lookup_lt_Some). injection Hj as <-.
      destruct Hjm as [H _]. simpl in H. lia.
    + rewrite list_lookup_insert_ne in Hj by done. apply Hne. by eapply (Hu i j ip jp dev inum).
Qed.

Lemma itable_ok_insert tab i ip' :
  itable_ok tab -> 0 <= i_ref ip' < 2 ^ 31 - 1 ->
  (forall j jp dev inum, tab !! j = Some jp -> is_inode dev inum jp -> is_inode dev inum ip' -> j = i) ->
  itable_ok (<[i := ip']> tab).
Proof.
  intros [Hr Hu] Hr' Hne. constructor.
  - intros j jp Hj. apply list_lookup_insert_Some in Hj as [(-> & <- & _)|[_ Hj]]; eauto.
  - intros j1 j2 p1 p2 dev inum H1 H2 M1 M2.
    apply list_lookup_insert_Some in H1 as [(-> & <- & _)|[N1 H1]];
    apply list_lookup_insert_Some in H2 as [(-> & <- & _)|[N2 H2]]; eauto.
    symmetry. eauto.
Qed.

(** Table lock and unlock around an update. *)
Lemma itable_locked k me p l' :
  quiet k me p ->
  release LItable (set_k_inodes l' (acq LItable k)) = Ret tt (set_k_inodes l' k).
Proof.
  intros Q. rewrite (release_after LItable k) by (done || eauto with xv6). apply f_equal. unfold acq. kst_eq.
Qed.

Lemma modinode_locked k i ip f l' :
  k_inodes k !! i = Some ip -> l' = <[i := f ip]> (k_inodes k) ->
  modinode i f (acq LItable k) = Ret tt (set_k_inodes l' (acq LItable k)).
Proof. intros Hi ->. by rewrite (modinode_eq (acq LItable k) i ip f Hi). Qed.

(** ** iget() *)

Lemma iget_hit k me p dev inum i ip :
  quiet k me p -> itable_ok (k_inodes k) -> k_inodes k !! i = Some ip -> is_inode dev inum ip ->
  iget dev inum k = Ret i (set_k_inodes (<[i := set_i_ref (i_ref ip + 1) ip]> (k_inodes k)) k).
Proof.
  intros Q IT Hi Hm. unfold iget. mcall (acquire_eq _ _ (quiet_lock _ _ _ LItable Q)). mstep.
  change (k_inodes (acq LItable k)) with (k_inodes k).
  pose proof (iget_scan_spec dev inum (k_inodes k) 0 None) as Hs.
  destruct (iget_scan dev inum 0 (k_inodes k) None) as [[j|] e].
  - destruct Hs as (n & jp & -> & Hj & Hjm). cbn [Nat.add].
    assert (i = n) as <- by by eapply (it_uniq _ IT). simplify_eq.
    mcall (modinode_locked k i ip (fun ip => set_i_ref (i32 (i_ref ip + 1)) ip)) by done.
    mcall (itable_locked k me p) by done. pose proof (it_ref _ IT i ip Hi). by rewrite i32_small by lia.
  - destruct Hs as [Hno _]. destruct (Hno ip); [by eapply list_elem_of_lookup_2|done].
Qed.

Lemma iget_miss k me p dev inum :
  quiet k me p -> (forall ip, ip ∈ k_inodes k -> ~ is_inode dev inum ip) ->
  (exists ip, ip ∈ k_inodes k /\ i_ref ip = 0) ->
  exists i ip, k_inodes k !! i = Some ip /\ i_ref ip = 0 /\
    iget dev inum k = Ret i (set_k_inodes
      (<[i := set_i_valid 0 (set_i_ref 1 (set_i_inum inum (set_i_dev dev ip)))]> (k_inodes k)) k).
Proof.
  intros Q Hno (ip0 & Hin0 & H0). unfold iget. pose proof (iget_scan_spec dev inum (k_inodes k) 0 None) as Hs.
  destruct (iget_scan dev inum 0 (k_inodes k) None) as [[j|] e] eqn:Es.
  - destruct Hs as (n & jp & -> & Hj & Hjm). destruct (Hno jp); [by eapply list_elem_of_lookup_2|done].
  - destruct Hs as [_ He]. destruct e as [j|]; [|by destruct (He ip0)].
    destruct He as (n & ip & -> & Hi & Hr). cbn [Nat.add] in *. exists n, ip. split; [done|]. split; [done|].
    mcall (acquire_eq _ _ (quiet_lock _ _ _ LItable Q)). mstep. change (k_inodes (acq LItable k)) with (k_inodes k).
    rewrite Es. mcall (modinode_locked k n ip (fun ip => set_i_valid 0 (set_i_ref 1 (set_i_inum inum (set_i_dev dev ip))))) by done.
    by mcall (itable_locked k me p) by done.
Qed.

Lemma iget_none k me p dev inum :
  quiet k me p -> (forall ip, ip ∈ k_inodes k -> ~ is_inode dev inum ip) ->
  (forall ip, ip ∈ k_inodes k -> i_ref ip <> 0) -> iget dev inum k = Panic "iget: no inodes".
Proof.
  intros Q Hno Hfull. unfold iget. pose proof (iget_scan_spec dev inum (k_inodes k) 0 None) as Hs.
  mcall (acquire_eq _ _ (quiet_lock _ _ _ LItable Q)). mstep. change (k_inodes (acq LItable k)) with (k_inodes k).
  destruct (iget_scan dev inum 0 (k_inodes k) None) as [[j|] e].
  - destruct Hs as (n & jp & -> & Hj & Hjm). destruct (Hno jp); [by eapply list_elem_of_lookup_2|done].
  - destruct Hs as [_ He]. destruct e as [j|]; [|done]. destruct He as (n & ip & _ & Hi & Hr).
    destruct (Hfull ip); [by eapply list_elem_of_lookup_2|done].
Qed.

(** iget() when the inode has an entry or a slot is free. *)
Lemma iget_some k me p dev inum :
  quiet k me p -> itable_ok (k_inodes k) -> irefs dev inum (k_inodes k) < 2 ^ 31 - 2 ->
  (exists ip, ip ∈ k_inodes k /\ (is_inode dev inum ip \/ i_ref ip = 0)) ->
  exists i ip tab, iget dev inum k = Ret i (set_k_inodes tab k) /\ tab !! i = Some ip /\ is_inode dev inum ip /\
     (1 < i_ref ip \/ i_valid ip = 0) /\ itable_ok tab /\ irefs dev inum tab = irefs dev inum (k_inodes k) + 1 /\
     forall d n, (d, n) <> (dev, inum) -> irefs d n tab = irefs d n (k_inodes k).
Proof.
  intros Q IT Hmax Hroom.
  destruct (decide (Exists (is_inode dev inum) (k_inodes k))) as [He|Hno].
  - apply Exists_exists in He as (ip & [i Hi]%list_elem_of_lookup_1 & Hm).
    pose proof (irefs_entry dev inum _ i ip IT Hi Hm) as Er. set (ip' := set_i_ref (i_ref ip + 1) ip).
    assert (is_inode dev inum ip') as Hm' by (destruct Hm as (? & ? & ?); split_and!; simpl; auto; lia).
    exists i, ip', (<[i := ip']> (k_inodes k)). split; [by eapply iget_hit|].
    split; [apply list_lookup_insert_eq; by eapply lookup_lt_Some|]. split; [done|].
    split; [left; simpl; destruct Hm; lia|]. split.
    + apply itable_ok_insert; [done|pose proof (it_ref _ IT i ip Hi); simpl; lia|].
      intros j jp d n Hj Hjm (_ & <- & <-). eapply (it_uniq _ IT); [done|done|done|].
      destruct Hm. done.
    + split.
      * rewrite (irefs_insert _ _ _ i ip), Er by done. unfold iref1. rewrite !decide_True by done. simpl. lia.
      * intros d n Hne. rewrite (irefs_insert _ _ _ i ip) by done. unfold iref1.
        rewrite !decide_False; [lia|unfold is_inode in *; simpl; intros (? & ? & ?); destruct Hne; f_equal; naive_solver..].
  - assert (forall ip, ip ∈ k_inodes k -> ~ is_inode dev inum ip) as Hn.
    { intros ip Hin Hm. apply Hno, Exists_exists. eauto. }
    destruct (iget_miss k me p dev inum Q Hn) as (i & ip & Hi & Hr & E).
    { destruct Hroom as (ip & Hin & [?|?]); [by destruct (Hn ip)|eauto]. }
    set (ip' := set_i_valid 0 (set_i_ref 1 (set_i_inum inum (set_i_dev dev ip)))) in *.
    assert (is_inode dev inum ip') as Hm' by (split_and!; simpl; auto; lia).
    exists i, ip', (<[i := ip']> (k_inodes k)). split; [done|].
    split; [apply list_lookup_insert_eq; by eapply lookup_lt_Some|]. split; [done|]. split; [by right|]. split.
    + apply itable_ok_insert; [done|simpl; lia|]. intros j jp d n Hj Hjm (_ & <- & <-).
      destruct (Hn jp); [by eapply list_elem_of_lookup_2|done].
    + assert (forall d n, iref1 d n ip = 0) as Hz.
      { intros d n. unfold iref1. case_decide as D; [destruct D; lia|done]. }
      split.
      * rewrite (irefs_insert _ _ _ i ip), Hz by done. unfold iref1. rewrite decide_True by done. simpl. lia.
      * intros d n Hne. rewrite (irefs_insert _ _ _ i ip), Hz by done. unfold iref1.
        rewrite decide_False; [lia|]. unfold is_inode. simpl. intros (_ & <- & <-). done.
Qed.

(** C35: iget() returns the entry of inode (dev, inum), adding one to its reference
    count, or else claims a free slot for it with count one; it panics only when
    the inode has no entry and no slot is free.  In either case the table keeps
    at most one entry per inode, the number of references to this inode grows by
    one and that of every other inode stays the same. *)
Theorem iget_correct (k : kst) (me : nat) (p : proc) (dev inum : Z)
    (Q : quiet k me p) (IT : itable_ok (k_inodes k)) (Hmax : irefs dev inum (k_inodes k) < 2 ^ 31 - 2) :
  (exists i ip tab, iget dev inum k = Ret i (set_k_inodes tab k) /\ tab !! i = Some ip /\ is_inode dev inum ip /\
     itable_ok tab /\ irefs dev inum tab = irefs dev inum (k_inodes k) + 1 /\
     forall d n, (d, n) <> (dev, inum) -> irefs d n tab = irefs d n (k_inodes k)) \/
  (irefs dev inum (k_inodes k) = 0 /\ (forall ip, ip ∈ k_inodes k -> i_ref ip <> 0) /\
     iget dev inum k = Panic "iget: no inodes").
Proof.
  destruct (decide (Exists (fun ip => is_inode dev inum ip \/ i_ref ip = 0) (k_inodes k))) as [He|Hno].
  - left. apply Exists_exists in He. destruct (iget_some k me p dev inum Q IT Hmax He) as (i & ip & tab & ? & ? & ? & _ & ? & ? & ?).
    by exists i, ip, tab.
  - right. assert (forall ip, ip ∈ k_inodes k -> ~ is_inode dev inum ip /\ i_ref ip <> 0) as Hn.
    { intros ip Hin. split; intros Hm; apply Hno, Exists_exists; eauto. }
    split; [apply irefs_zero; naive_solver|]. split; [naive_solver|]. eapply iget_none; naive_solver.
Qed.

(** ** iput() *)

(** iput() that does not free the inode. *)
Lemma iput_drop k me p i ip :
  quiet k me p -> k_inodes k !! i = Some ip -> 0 < i_ref ip < 2 ^ 31 ->
  1 < i_ref ip \/ i_valid ip = 0 \/ i_nlink ip <> 0 ->
  forall `{DD : DiskDriver}, iput i k = Ret tt (set_k_inodes (<[i := set_i_ref (i_ref ip - 1) ip]> (k_inodes k)) k).
Proof.
  intros Q Hi Hr Hc DD. unfold iput. mcall (acquire_eq _ _ (quiet_lock _ _ _ LItable Q)).
  mcall (getinode_eq (acq LItable k) i ip Hi).
  assert ((i_ref ip =? 1) && truth (i_valid ip) && (i_nlink ip =? 0) = false) as ->.
  { unfold truth. destruct Hc as [H|[->|H]]; [|by rewrite andb_false_r|rewrite (proj2 (Z.eqb_neq _ _) H); apply andb_false_r].
    assert (i_ref ip =? 1 = false) as -> by lia. done. }
  cbn [when]. mstep. mcall (modinode_locked k i ip (fun ip => set_i_ref (i32 (i_ref ip - 1)) ip)) by done.
  rewrite i32_small by lia. by apply (itable_locked k me p).
Qed.

Lemma idup_ok k me p i ip :
  quiet k me p -> k_inodes k !! i = Some ip -> 0 < i_ref ip < 2 ^ 31 - 1 ->
  idup i k = Ret i (set_k_inodes (<[i := set_i_ref (i_ref ip + 1) ip]> (k_inodes k)) k).
Proof.
  intros Q Hi Hr. unfold idup. mcall (acquire_eq _ _ (quiet_lock _ _ _ LItable Q)).
  mcall (modinode_locked k i ip (fun ip => set_i_ref (i32 (i_ref ip + 1)) ip)) by done.
  rewrite i32_small by lia. by mcall (itable_locked k me p) by done.
Qed.

(** iput() of the entry iget() returned restores every reference count. *)
Lemma irefs_drop dev inum tab i ip d n : tab !! i = Some ip -> is_inode dev inum ip ->
  irefs d n (<[i := set_i_ref (i_ref ip - 1) ip]> tab) = irefs d n tab - (if decide ((d, n) = (dev, inum)) then 1 else 0).
Proof.
  intros Hi Hm. rewrite (irefs_insert _ _ _ i ip) by done. unfold iref1. pose proof Hm as (Hr & Hd & Hn).
  destruct (decide ((d, n) = (dev, inum))) as [[= -> ->]|Hne].
  - rewrite (decide_True (P := is_inode dev inum ip)) by done. case_decide as D; [simpl; lia|].
    assert (~ 0 < i_ref ip - 1) by (intros ?; by apply D). lia.
  - rewrite !decide_False; [lia|intros (_ & Ed & En); simpl in *; congruence..].
Qed.

Lemma iget_iput_ok k me p dev inum :
  quiet k me p -> itable_ok (k_inodes k) -> irefs dev inum (k_inodes k) < 2 ^ 31 - 2 ->
  (exists ip, ip ∈ k_inodes k /\ (is_inode dev inum ip \/ i_ref ip = 0)) ->
  forall `{DD : DiskDriver}, exists tab, (i ← iget dev inum; iput i) k = Ret tt (set_k_inodes tab k) /\
    forall d n, irefs d n tab = irefs d n (k_inodes k).
Proof.
  intros Q IT Hmax Hroom DD.
  destruct (iget_some k me p dev inum Q IT Hmax Hroom) as (i & ip & tab & E & Hi & Hm & Hc & IT' & Hr & Ho).
  exists (<[i := set_i_ref (i_ref ip - 1) ip]> tab). split.
  - mcall E. rewrite (iput_drop _ me p i ip); [reflexivity|by destruct Q|exact Hi| |naive_solver].
    pose proof (it_ref _ IT' i ip Hi). destruct Hm. lia.
  - intros d n. rewrite (irefs_drop dev inum _ _ _ _ _ Hi Hm). case_decide as D; [injection D as -> ->; lia|].
    rewrite Ho by done. lia.
Qed.

(** A reference taken with iget() or idup() and dropped with iput() leaves the
    reference count of every inode as it was, as long as the inode is linked or
    referenced elsewhere, so that iput() does not have to free it. *)
Theorem iget_iput_roundtrip (k : kst) (me : nat) (p : proc) (dev inum : Z)
    (Q : quiet k me p) (IT : itable_ok (k_inodes k)) (Hmax : irefs dev inum (k_inodes k) < 2 ^ 31 - 2)
    (Hroom : exists ip, ip ∈ k_inodes k /\ (is_inode dev inum ip \/ i_ref ip = 0)) :
  forall `{DD : DiskDriver}, exists k', (i ← iget dev inum; iput i) k = Ret tt k' /\
    forall d n, irefs d n (k_inodes k') = irefs d n (k_inodes k).
Proof.
  intros DD. destruct (iget_iput_ok k me p dev inum Q IT Hmax Hroom) as (tab & E & H). eauto.
Qed.

(** The table of the demo file system. *)
Lemma fs_inodes_ok : itable_ok fs_inodes.
Proof.
  assert (forall i ip, fs_inodes !! i = Some ip -> (i = 0%nat /\ ip = root_dinode) \/ (i = 1%nat /\ ip = file_dinode) \/ i_ref ip = 0) as H.
  { intros [|[|i]] ip Hi; [left; by injection Hi as <-|right; left; by injection Hi as <-|].
    change (replicate 48 inode0 !! i = Some ip) in Hi. apply lookup_replicate in Hi as [-> _]. by right; right. }
  constructor.
  - intros i ip Hi. destruct (H i ip Hi) as [[_ ->]|[[_ ->]|E]]; simpl; lia.
  - intros i j ip jp dev inum Hi Hj (R1 & D1 & N1) (R2 & D2 & N2).
    destruct (H i ip Hi) as [[-> ->]|[[-> ->]|E]]; destruct (H j jp Hj) as [[-> ->]|[[-> ->]|E']]; simpl in *; lia || congruence.
Qed.

Lemma iget_correct_witness :
  exists k, (binit;; begin_op) fs_state = Ret tt k /\
    exists i tab, iget ROOTDEV 2 k = Ret i (set_k_inodes tab k) /\ irefs ROOTDEV 2 tab = 2.
Proof.
  destruct fs_boot as (k & E & B & _ & _ & _ & _ & I & _). exists k. split; [exact E|].
  destruct (iget_correct k 0 demo_proc ROOTDEV 2 (bs_quiet _ _ _ _ _ B)) as [(i & ip & tab & Eg & _ & _ & _ & Hr & _)|[Hz _]].
  - rewrite I. exact fs_inodes_ok.
  - rewrite I. vm_compute. reflexivity.
  - exists i, tab. split; [exact Eg|]. rewrite Hr, I. reflexivity.
  - rewrite I in Hz. vm_compute in Hz. discriminate Hz.
Defined.

Lemma iget_iput_roundtrip_witness :
  exists k k', (binit;; begin_op) fs_state = Ret tt k /\ (i ← iget ROOTDEV 2; iput i) k = Ret tt k' /\
    irefs ROOTDEV 2 (k_inodes k') = 1.
Proof.
  destruct fs_boot as (k & E & B & _ & _ & _ & _ & I & _).
  destruct (iget_iput_roundtrip k 0 demo_proc ROOTDEV 2 (bs_quiet _ _ _ _ _ B)) with (DD := virtio_driver) as (k' & E' & Hr).
  - rewrite I. exact fs_inodes_ok.
  - rewrite I. vm_compute. reflexivity.
  - exists file_dinode. rewrite I. split; [apply list_elem_of_lookup_2 with 1%nat; reflexivity|].
    left. unfold is_inode. simpl. lia.
  - exists k, k'. split; [exact E|]. split; [exact E'|]. rewrite Hr, I. reflexivity.
Defined.
