(* ===== verification/ExitSpec.v ===== *)
(** exit() of kernel/proc.c: what a process leaves behind, and who is woken. *)

From Stdlib Require Import ZArith Lia.
From stdpp Require Import base gmap strings list numbers.
From S2P Require Import Prelude Params State Spinlock Sched CString Kalloc Vm PageTable UserMem AddrSpace.
From S2P Require Import Frame Bio Cache Virtio Demo Log Fs Pipe File Proc Itable ProcSpec.

Open Scope Z_scope.

(** ** Operations of the log that write nothing *)

Lemma begin_op_quiet k me p : quiet k me p -> l_committing (k_log k) = 0 ->
  l_n (k_log k) + (l_outstanding (k_log k) + 1) * MAXOPBLOCKS <= LOGSIZE ->
  begin_op k = Ret tt (set_k_log (set_l_outstanding (l_outstanding (k_log k) + 1) (k_log k)) k).
Proof.
  intros Hq Hc Hr. unfold begin_op. mcall (acquire_eq _ _ (quiet_lock _ _ _ _ Hq)). mstep.
  change (k_log (acq LLog k)) with (k_log k). rewrite Hc. change (truth 0) with false. cbv iota.
  rewrite (proj2 (Z.ltb_ge LOGSIZE (l_n (k_log k) + (l_outstanding (k_log k) + 1) * MAXOPBLOCKS))) by lia.
  unfold modlog. mstep. rewrite (release_after _ k) by (done || eauto with xv6). apply f_equal. unfold acq. kst_eq.
Qed.

Section exit.
Context `{DD : DiskDriver} `{KI : KernelImage}.

Lemma end_op_quiet k me p : quiet k me p -> l_committing (k_log k) = 0 -> (l_outstanding (k_log k) = 1 -> l_n (k_log k) = 0) ->
  exists ps, end_op k = Ret tt (set_k_procs ps (set_k_log (set_l_outstanding (l_outstanding (k_log k) - 1) (k_log k)) k)) /\ woken (k_procs k) ps.
Proof.
  intros Hq Hc Hn. unfold end_op. mcall (acquire_eq _ _ (quiet_lock _ _ _ _ Hq)). unfold modlog. mstep. ksimpl.
  change (k_log (acq LLog k)) with (k_log k). rewrite Hc. change (truth 0) with false. cbv iota.
  set (lg := set_l_outstanding (l_outstanding (k_log k) - 1) (k_log k)).
  assert (forall lg', exists ps, wakeup ChLog (set_k_log lg' (acq LLog k)) = Ret tt (set_k_procs ps (set_k_log lg' (acq LLog k))) /\ woken (k_procs k) ps) as Hw.
  { intros lg'. destruct (wakeup_woken ChLog (set_k_log lg' (acq LLog k))) as (ps & E & Hw & _); [..|by exists ps].
    - apply hart_ok_push. eauto with xv6.
    - intros i. unfold acq. ksimpl. rewrite lookup_insert_ne by done. eauto with xv6.
    - by destruct Hq. }
  destruct (l_outstanding (k_log k) - 1 =? 0) eqn:Ho.
  - mstep. ksimpl. mcall (release_after LLog k) by (done || eauto with xv6). cbn [when]. unfold commit. mstep. ksimpl. fold lg.
    change (l_n lg) with (l_n (k_log k)). rewrite Hn by lia. change (0 <? 0) with false. cbn [when]. mstep.
    match goal with |- context [(acquire LLog ≫= _) ?kk] => set (k1 := kk) end.
    assert (quiet k1 me p) as Q1 by (eapply quiet_frame; [|exact Hq]; frame_tac). mcall (acquire_eq _ _ (quiet_lock _ _ _ LLog Q1)).
    destruct (Hw lg) as (ps & E & Hwk). exists ps. split; [|done]. mstep.
    match goal with |- (wakeup ChLog ≫= _) ?kk = _ => assert (kk = set_k_log lg (acq LLog k)) as Ek end.
    { assert (lg = set_l_committing 0 lg) as Elg by (rewrite <- Hc at 1; unfold lg; by destruct (k_log k)).
      rewrite Elg at 1. unfold k1, acq. kst_eq. }
    rewrite Ek. mcall E. rewrite (release_after _ k) by (done || eauto with xv6). apply f_equal. unfold acq. kst_eq.
  - destruct (Hw lg) as (ps & E & Hwk). exists ps. split; [|done]. mcall E. cbn [when].
    mcall (release_after LLog k) by (done || eauto with xv6). unfold mret, M_ret. apply f_equal. unfold acq. kst_eq.
Qed.

(** ** The open files *)

Lemma fileclose_drop k f x : hart_ok (k_hart k) -> k_locks k !! LFtable = None -> k_files k !! f = Some x -> 1 < f_ref x ->
  fileclose f k = Ret tt (set_k_files (<[f := set_f_ref (f_ref x - 1) x]> (k_files k)) k).
Proof.
  intros Hh Hl Hf Hr. unfold fileclose. mcall (acquire_eq _ _ Hl). unfold getfile, deref. unfold mbind at 1, M_bind at 1. unfold acq at 1. ksimpl.
  rewrite Hf. rewrite (proj2 (Z.ltb_ge (f_ref x) 1)) by lia. rewrite (proj2 (Z.ltb_lt 0 (f_ref x - 1))) by lia.
  unfold modfile. mstep.  rewrite (release_after _ k) by done. apply f_equal. unfold acq. kst_eq. by apply (alter_insert_at _ _ _ x).
Qed.

Lemma nrefs_ext o o' fds f : (forall fd, fd ∈ fds -> o !!! fd = o' !!! fd) -> nrefs o fds f = nrefs o' fds f.
Proof.
  induction fds as [|fd fds IH]; intros H; [done|]. rewrite !nrefs_cons, IH by (intros; apply H; by right).
  by rewrite (H fd) by (by left).
Qed.

(** [fs'] is [fs] with a reference less per open descriptor. *)
Definition undup (ofile : list (option nat)) (fds : list nat) (fs fs' : list file) : Prop :=
  forall f, fs' !! f = (fun x => set_f_ref (f_ref x - nrefs ofile fds f) x) <$> fs !! f.

Lemma exit_file_eq i fd k p : hart_ok (k_hart k) -> k_locks k !! LFtable = None -> k_procs k !! i = Some p ->
  match pr_ofile p !!! fd with
  | None => exit_file i fd k = Ret tt k
  | Some f => forall x, k_files k !! f = Some x -> 1 < f_ref x ->
      exit_file i fd k = Ret tt (set_k_procs (<[i := set_pr_ofile (<[fd := None]> (pr_ofile p)) p]> (k_procs k))
        (set_k_files (<[f := set_f_ref (f_ref x - 1) x]> (k_files k)) k))
  end.
Proof.
  intros Hh Hl Hp. unfold exit_file. destruct (pr_ofile p !!! fd) as [f|] eqn:Ef; [intros x Hx Hr|]; mcall (getproc_eq _ _ _ Hp); rewrite Ef; [|done].
  mcall (fileclose_drop k f x Hh Hl Hx Hr). rewrite modproc_eq. ksimpl. by rewrite (alter_insert_at _ _ _ p) by done.
Qed.

Lemma exit_files_loop i fds : NoDup fds -> forall k p, hart_ok (k_hart k) -> k_locks k !! LFtable = None -> k_procs k !! i = Some p ->
  Forall (fun fd => fd < length (pr_ofile p))%nat fds ->
  (forall fd f, fd ∈ fds -> pr_ofile p !!! fd = Some f -> exists x, k_files k !! f = Some x /\ nrefs (pr_ofile p) fds f < f_ref x) ->
  exists fs ofile, forM fds (exit_file i) k = Ret tt (set_k_files fs (set_k_procs (<[i := set_pr_ofile ofile p]> (k_procs k)) k)) /\
    undup (pr_ofile p) fds (k_files k) fs /\ length ofile = length (pr_ofile p) /\
    forall fd, ofile !! fd = if decide (fd ∈ fds) then (fun _ => None) <$> pr_ofile p !! fd else pr_ofile p !! fd.
Proof.
  induction 1 as [|fd fds Hnin ND IH]; intros k p Hh Hl Hp Hlt Hf.
  { exists (k_files k), (pr_ofile p). split; [|split; [|done]].
    - cbn [forM]. unfold mret, M_ret. f_equal. rewrite list_insert_id by (rewrite Hp; f_equal; by destruct p). by destruct k.
    - intros f. cbn. destruct (k_files k !! f) as [x|]; [|done]. cbn. by rewrite Z.sub_0_r, set_f_ref_id. }
  apply Forall_cons in Hlt as [Hfd Hlt]. cbn [forM]. pose proof (exit_file_eq i fd k p Hh Hl Hp) as E1.
  destruct (pr_ofile p !!! fd) as [f|] eqn:Ef.
  - destruct (Hf fd f ltac:(by left) Ef) as (x & Hx & Hr). rewrite nrefs_cons, decide_True in Hr by done. pose proof (nrefs_nonneg (pr_ofile p) fds f).
    specialize (E1 x Hx ltac:(lia)). mcall E1.
    set (p1 := set_pr_ofile (<[fd := None]> (pr_ofile p)) p). set (k1 := set_k_procs _ _).
    assert (forall fd', fd' ∈ fds -> pr_ofile p1 !!! fd' = pr_ofile p !!! fd') as Ho1.
    { intros fd' Hin. apply list_lookup_total_insert_ne. by intros ->. }
    destruct (IH k1 p1) as (fs & ofile & E & Hd & Hl' & Ho); try done.
    { apply list_lookup_insert_eq. by eapply lookup_lt_Some. }
    { eapply Forall_impl; [exact Hlt|]. intros y Hy. unfold p1. ksimpl. by rewrite length_insert. }
    { intros fd' f' Hin Ef'. rewrite Ho1 in Ef' by done. destruct (Hf fd' f' ltac:(by right) Ef') as (y & Hy & Hy1). rewrite nrefs_cons in Hy1.
      rewrite (nrefs_ext _ _ _ f' Ho1). change (k_files k1) with (<[f := set_f_ref (f_ref x - 1) x]> (k_files k)).
      destruct (decide (f' = f)) as [->|Hnf].
      - exists (set_f_ref (f_ref x - 1) x). rewrite list_lookup_insert_eq by (by eapply lookup_lt_Some). split; [done|]. ksimpl. lia.
      - exists y. rewrite list_lookup_insert_ne by done. split; [done|]. rewrite decide_False in Hy1 by congruence. lia. }
    exists fs, ofile. split; [rewrite E; apply f_equal; unfold k1; kst_eq; by rewrite list_insert_insert_eq|]. split; [|split].
    + intros g. rewrite (Hd g), (nrefs_ext _ _ _ g Ho1), nrefs_cons. unfold k1. ksimpl. destruct (decide (g = f)) as [->|Hg].
      * rewrite list_lookup_insert_eq by (by eapply lookup_lt_Some). rewrite Hx, decide_True by done. cbn. f_equal. unfold set_f_ref. ksimpl. f_equal. lia.
      * rewrite list_lookup_insert_ne by done. by rewrite decide_False by congruence.
    + rewrite Hl'. apply length_insert.
    + intros j. rewrite Ho. unfold p1. ksimpl. destruct (decide (j = fd)) as [->|Hj].
      * rewrite decide_False, (decide_True (P := fd ∈ fd :: fds)) by (done || by left). rewrite list_lookup_insert_eq by done.
        by destruct (lookup_lt_is_Some_2 _ _ Hfd) as [? ->].
      * rewrite list_lookup_insert_ne by done. apply decide_ext. rewrite elem_of_cons. naive_solver.
  - mcall E1. destruct (IH k p) as (fs & ofile & E & Hd & Hl' & Ho); try done.
    { intros fd' f' Hin Ef'. destruct (Hf fd' f' ltac:(by right) Ef') as (y & Hy & Hy1). exists y. split; [done|].
      by rewrite nrefs_cons, decide_False, Z.add_0_l in Hy1 by congruence. }
    exists fs, ofile. split; [exact E|]. split; [|split; [done|]].
    + intros g. by rewrite (Hd g), nrefs_cons, decide_False, Z.add_0_l by congruence.
    + intros j. rewrite Ho. destruct (decide (j = fd)) as [->|Hj].
      * rewrite decide_False, decide_True by (done || by left). rewrite (list_lookup_lookup_total_lt _ _ Hfd). by rewrite Ef.
      * apply decide_ext. rewrite elem_of_cons. naive_solver.
Qed.

End exit.

(** ** The children *)

(** A child of [i] after reparent(). *)
Definition heir (i ini : nat) (q : proc) : proc := if bool_decide (pr_parent q = Some i) then set_pr_parent (Some ini) q else q.

Definition asleep_on (ch : channel) (q : proc) : Prop := pr_state q = SLEEPING /\ pr_chan q = Some ch.

Lemma heir_woken i ini q q' : woken1 q q' -> woken1 (heir i ini q) (heir i ini q').
Proof. intros [->|[Hs ->]]; [by left|]. unfold heir. ksimpl. case_bool_decide; right; by split. Qed.

Lemma heir_state i ini q : pr_state (heir i ini q) = pr_state q.
Proof. unfold heir. by case_bool_decide. Qed.

Lemma woken1_state q q' : woken1 q q' -> pr_state q <> SLEEPING -> q' = q.
Proof. by intros [->|[Hs _]]. Qed.

(** The table [ps'] after the processes of [l] among those of [ps] were given
    to [ini] and some sleepers woken. *)
Definition passed (i ini : nat) (l : list nat) (ps ps' : list proc) : Prop := length ps' = length ps /\
  forall j q, ps !! j = Some q -> exists q', ps' !! j = Some q' /\ woken1 (if decide (j ∈ l) then heir i ini q else q) q'.

Lemma reparent1_eq i ini pp q k : hart_ok (k_hart k) -> plocks_free k -> length (k_procs k) = NPROC -> k_initproc k = Some ini ->
  h_proc (k_hart k) <> Some ini -> k_procs k !! pp = Some q ->
  if bool_decide (pr_parent q = Some i) then
    exists ps, reparent1 i pp k = Ret tt (set_k_procs ps k) /\ woken (<[pp := set_pr_parent (Some ini) q]> (k_procs k)) ps /\
      forall qi, k_procs k !! ini = Some qi -> asleep_on (ChProc ini) qi -> exists qi', ps !! ini = Some qi' /\ pr_state qi' = RUNNABLE
  else reparent1 i pp k = Ret tt k.
Proof.
  intros Hh Hl Hn Hi Hme Hq. unfold reparent1. mcall (getproc_eq _ _ _ Hq). case_bool_decide as Hp; [|done]. cbn [when]. mstep. rewrite Hi.
  mcall (modproc_eq _ _ _). rewrite (alter_insert_at _ _ _ q) by done. cbn [wakeup_proc].
  set (k1 := set_k_procs _ k). destruct (wakeup_woken (ChProc ini) k1) as (ps & E & Hw & _ & Ha); [done..|unfold k1; ksimpl; by rewrite length_insert|].
  exists ps. split; [rewrite E; done|]. split; [done|]. intros qi Hqi [Hs Hc].
  destruct (decide (pp = ini)) as [->|Hne].
  - exists (set_pr_state RUNNABLE (set_pr_parent (Some ini) q)). split; [|done]. assert (qi = q) as -> by congruence. apply Ha; try done.
    unfold k1. ksimpl. apply list_lookup_insert_eq. by eapply lookup_lt_Some.
  - exists (set_pr_state RUNNABLE qi). split; [|done]. apply Ha; try done. unfold k1. ksimpl. by rewrite list_lookup_insert_ne.
Qed.

Lemma reparent_loop i ini l : NoDup l -> forall k, hart_ok (k_hart k) -> plocks_free k -> length (k_procs k) = NPROC -> k_initproc k = Some ini ->
  h_proc (k_hart k) <> Some ini -> Forall (fun pp => pp < NPROC)%nat l ->
  exists ps, forM l (reparent1 i) k = Ret tt (set_k_procs ps k) /\ passed i ini l (k_procs k) ps /\
    forall j q qi, j ∈ l -> k_procs k !! j = Some q -> pr_parent q = Some i -> k_procs k !! ini = Some qi -> asleep_on (ChProc ini) qi ->
      exists qi', ps !! ini = Some qi' /\ pr_state qi' = RUNNABLE.
Proof.
  induction 1 as [|pp l Hnin ND IH]; intros k Hh Hl Hn Hi Hme Hlt.
  { exists (k_procs k). split; [cbn; unfold mret, M_ret; f_equal; by destruct k|]. split; [|by intros j q qi ?%not_elem_of_nil].
    split; [done|]. intros j q Hj. exists q. split; [done|]. by left. }
  apply Forall_cons in Hlt as [Hpp Hlt]. destruct (lookup_lt_is_Some_2 (k_procs k) pp) as [q Hq]; [lia|].
  pose proof (reparent1_eq i ini pp q k Hh Hl Hn Hi Hme Hq) as E1. cbn [forM]. case_bool_decide as Hp.
  - destruct E1 as (ps1 & E1 & Hw & Ha). mcall E1. set (k1 := set_k_procs ps1 k).
    assert (length ps1 = NPROC) as Hn1 by (by rewrite <- (Forall2_length _ _ _ Hw), length_insert).
    destruct (IH k1) as (ps & E & [Hlen HP] & HA); [done..|]. exists ps. split; [rewrite E; done|]. split; [split|].
    + rewrite Hlen. unfold k1. ksimpl. congruence.
    + intros j qj Hj. destruct (decide (j = pp)) as [->|Hjp].
      * assert (qj = q) as -> by congruence. destruct (Forall2_lookup_l _ _ _ pp (set_pr_parent (Some ini) q) Hw) as (q1 & Hq1 & W1).
        { apply list_lookup_insert_eq. by eapply lookup_lt_Some. }
        destruct (HP pp q1 Hq1) as (q' & Hq' & W2). exists q'. split; [done|]. rewrite decide_False in W2 by done. rewrite decide_True by (by left).
        unfold heir. rewrite bool_decide_true by done. by etrans.
      * destruct (Forall2_lookup_l _ _ _ j qj Hw) as (q1 & Hq1 & W1); [by rewrite list_lookup_insert_ne|].
        destruct (HP j q1 Hq1) as (q' & Hq' & W2). exists q'. split; [done|]. destruct (decide (j ∈ l)) as [Hjl|Hjl].
        -- rewrite decide_True by (by right). etrans; [by apply heir_woken|done].
        -- rewrite decide_False by (intros [->|?]%elem_of_cons; done). by etrans.
    + intros j qj qi _ _ _ Hqi Hsl. destruct (Ha qi Hqi Hsl) as (q1 & Hq1 & Hs1). destruct (HP ini q1 Hq1) as (q' & Hq' & W).
      exists q'. split; [done|]. apply woken1_state in W as ->; destruct (decide _); rewrite ?heir_state; by rewrite Hs1.
  - mcall E1. destruct (IH k) as (ps & E & [Hlen HP] & HA); [done..|]. exists ps. split; [done|]. split; [split; [done|]|].
    + intros j qj Hj. destruct (HP j qj Hj) as (q' & Hq' & W). exists q'. split; [done|]. destruct (decide (j = pp)) as [->|Hjp].
      * rewrite decide_False in W by done. assert (qj = q) as -> by congruence. unfold heir. rewrite bool_decide_false by done. by case_decide.
      * erewrite decide_ext; [exact W|]. rewrite elem_of_cons. naive_solver.
    + intros j qj qi [->|Hjl]%elem_of_cons Hj Hpj; [congruence|]. by apply (HA j qj qi).
Qed.

Lemma reparent_ok i ini k : hart_ok (k_hart k) -> plocks_free k -> length (k_procs k) = NPROC -> k_initproc k = Some ini -> h_proc (k_hart k) <> Some ini ->
  exists ps, reparent i k = Ret tt (set_k_procs ps k) /\ length ps = NPROC /\
    (forall j q, k_procs k !! j = Some q -> exists q', ps !! j = Some q' /\ woken1 (heir i ini q) q') /\
    (forall j q qi, k_procs k !! j = Some q -> pr_parent q = Some i -> k_procs k !! ini = Some qi -> asleep_on (ChProc ini) qi ->
      exists qi', ps !! ini = Some qi' /\ pr_state qi' = RUNNABLE).
Proof.
  intros Hh Hl Hn Hi Hme. destruct (reparent_loop i ini (seq 0 NPROC) (NoDup_seq _ _) k) as (ps & E & [Hlen HP] & HA); try done.
  { apply Forall_forall. intros j. rewrite elem_of_seq. lia. }
  assert (forall j q, k_procs k !! j = Some q -> j ∈ seq 0 NPROC) as Hin.
  { intros j q ?%lookup_lt_Some. apply elem_of_seq. lia. }
  exists ps. split; [exact E|]. split; [congruence|]. split.
  - intros j q Hj. destruct (HP j q Hj) as (q' & Hq' & W). rewrite decide_True in W by eauto. eauto.
  - intros j q qi Hj. eauto.
Qed.

(** ** Leaving the CPU *)

(** sched() of a process that holds its own lock only and is no longer running. *)
Lemma sched_leaves {A} w k i p : hart_ok (k_hart k) -> h_noff (k_hart k) = 0 -> h_proc (k_hart k) = Some i -> k_procs k !! i = Some p -> pr_state p <> RUNNING ->
  k_locks k !! LProc i = None -> sched (A := A) w (acq (LProc i) k) = Blocked w (acq (LProc i) k).
Proof.
  intros Hh Hn Hc Hp Hs Hl. assert (running (acq (LProc i) k) i p) as Hr by (split; [by apply hart_ok_push|done]).
  unfold sched. mcall (curproc_eq _ _ _ Hr). unfold holding. mstep. unfold acq at 1 2. ksimpl.
  rewrite lookup_insert_eq, Z.eqb_refl. cbn [negb]. unfold mycpu. mstep. replace (h_noff (k_hart (acq (LProc i) k))) with 1 by (unfold acq, push_hart; ksimpl; lia). cbn [negb Z.eqb Pos.eqb].
  mcall (getproc_eq _ _ _ (proj2 (proj2 Hr))). by rewrite bool_decide_false by done.
Qed.

(** What exit() does to the record of the process. *)
Definition zombie (status : Z) (p : proc) : proc := set_pr_state ZOMBIE (set_pr_xstate status p).

(** The process table [ps] that exit() leaves: [i] is a zombie, its children are
    init's, and its parent and their new parent have been woken. *)
Record left_behind (i ini par : nat) (z : proc) (k : kst) (ps : list proc) : Prop := LeftBehind {
  lb_len : length ps = NPROC;
  lb_self : ps !! i = Some z;
  lb_other j q : j <> i -> k_procs k !! j = Some q -> exists q', ps !! j = Some q' /\ woken1 (heir i ini q) q';
  lb_parent q : k_procs k !! par = Some q -> asleep_on (ChProc par) q -> exists q', ps !! par = Some q' /\ pr_state q' = RUNNABLE;
  lb_init j q qi : k_procs k !! j = Some q -> pr_parent q = Some i -> k_procs k !! ini = Some qi -> asleep_on (ChProc ini) qi ->
    exists qi', ps !! ini = Some qi' /\ pr_state qi' = RUNNABLE }.

Lemma woken_awake ps ps' j q : woken ps ps' -> ps !! j = Some q -> pr_state q = RUNNABLE -> ps' !! j = Some q.
Proof. intros W Hj Hs. eapply woken_lookup; [done..|]. by rewrite Hs. Qed.

(** The wakeups of exit(), with wait_lock held. *)
Lemma exit_wakes {A} (C : M A) k i ini p par : running k i p -> pr_state p = RUNNING -> plocks_free k -> length (k_procs k) = NPROC ->
  k_initproc k = Some ini -> ini <> i -> pr_parent p = Some par -> par <> i ->
  exists ps, (reparent i;; p ← getproc i; wakeup_proc (pr_parent p);; C) k = C (set_k_procs ps k) /\ left_behind i ini par p k ps.
Proof.
  intros (Hh & Hc & Hp) Hs Pl Hn Hini Hne Hpar Hpne. destruct (reparent_ok i ini k) as (ps1 & E1 & Hl1 & HP & HA); [done..|congruence|].
  assert (ps1 !! i = Some p) as Hp1.
  { destruct (HP i p Hp) as (q' & Hq' & W). rewrite Hq'. unfold heir in W. rewrite bool_decide_false in W by congruence.
    apply woken1_state in W as ->; [done|]. by rewrite Hs. }
  destruct (wakeup_woken (ChProc par) (set_k_procs ps1 k)) as (ps & E2 & W2 & Hl2 & HB); [done..|]. exists ps. split.
  - mcall E1. mcall (getproc_eq (set_k_procs ps1 k) i p Hp1). rewrite Hpar. cbn [wakeup_proc]. mcall E2. done.
  - constructor; [done|..].
    + apply (woken_lookup ps1 ps i p W2 Hp1). by rewrite Hs.
    + intros j q Hj Hq. destruct (HP j q Hq) as (q1 & Hq1 & Wq). destruct (Forall2_lookup_l _ _ _ j q1 W2 Hq1) as (q' & Hq' & W').
      exists q'. split; [done|]. by etrans.
    + intros q Hq [Sq Cq]. destruct (HP par q Hq) as (q1 & Hq1 & [->|[_ ->]]).
      * exists (set_pr_state RUNNABLE (heir i ini q)). split; [|done]. apply HB; ksimpl; [congruence|done|by rewrite heir_state|].
        unfold heir. by case_bool_decide.
      * eexists. split; [by apply (woken_awake ps1 ps par _ W2 Hq1)|done].
    + intros j q qi Hq Hpq Hqi Hsl. destruct (HA j q qi Hq Hpq Hqi Hsl) as (q' & Hq' & Hs'). exists q'. split; [|done]. by apply (woken_awake ps1 ps).
Qed.

Lemma left_behind_self i ini par z z' k ps : ini <> i -> par <> i -> left_behind i ini par z k ps -> left_behind i ini par z' k (<[i := z']> ps).
Proof.
  intros Hne Hpne []. constructor.
  - by rewrite length_insert.
  - apply list_lookup_insert_eq. by eapply lookup_lt_Some.
  - intros j q Hj. rewrite list_lookup_insert_ne by done. by apply lb_other0.
  - rewrite list_lookup_insert_ne by done. done.
  - rewrite list_lookup_insert_ne by done. done.
Qed.

Lemma exit_tail {A} status k i ini p par : quiet k i p -> k_initproc k = Some ini -> ini <> i -> pr_parent p = Some par -> par <> i ->
  exists ps, (acquire LWait;; reparent i;; p ← getproc i; wakeup_proc (pr_parent p);; acquire (LProc i);;
     modproc i (set_pr_xstate status);; modproc i (set_pr_state ZOMBIE);; release LWait;; sched (A := A) WSched) k =
    Blocked WSched (acq (LProc i) (set_k_procs ps k)) /\ left_behind i ini par (zombie status p) k ps.
Proof.
  intros Q Hini Hne Hpar Hpne. pose proof (q_run _ _ _ Q) as (Hh & Hc & Hp). mcall (acquire_eq _ _ (quiet_lock _ _ _ LWait Q)).
  assert (plocks_free (acq LWait k)) as Pl by (intros j; unfold acq; ksimpl; rewrite lookup_insert_ne by done; by eapply quiet_lock).
  match goal with |- context [acquire (LProc i) ≫= ?C] => destruct (exit_wakes (acquire (LProc i) ≫= C) (acq LWait k) i ini p par) as (ps & E & B) end; try done.
  { split; [by apply hart_ok_push|done]. }
  { by destruct Q. }
  { by destruct Q. }
  exists (<[i := zombie status p]> ps). split.
  - rewrite E. mcall (acquire_eq (LProc i) (set_k_procs ps (acq LWait k)) (Pl i)). mcall (modproc_eq _ _ _). mcall (modproc_eq _ _ _).
    match goal with |- (release LWait ≫= _) ?kk = _ => assert (release LWait kk = Ret tt (acq (LProc i) (set_k_procs (<[i := zombie status p]> ps) k))) as Er end.
    { rewrite (release_after LWait (acq (LProc i) k)); unfold acq; ksimpl; [|by apply hart_ok_push| |done|by rewrite insert_insert_ne].
      - apply f_equal. kst_eq. rewrite list_alter_alter_eq. apply (alter_insert_at _ _ _ p). by destruct B.
      - rewrite lookup_insert_ne by done. by eapply quiet_lock. }
    mcall Er. apply (sched_leaves _ _ i (zombie status p)); try done; [by destruct Q| |apply (quiet_lock _ _ _ _ Q)].
    apply list_lookup_insert_eq. destruct B as [_ B _ _ _]. by eapply lookup_lt_Some.
  - apply (left_behind_self i ini par p); [done..|]. by destruct B.
Qed.

Section exit_correct.
Context `{DD : DiskDriver} `{KI : KernelImage}.

(** What exit() needs of the state: the process is not init, its parent and
    init are other processes, its open files and its current directory are
    shared with other processes or still linked, and the log has room for
    another operation. *)
Record exit_pre (k : kst) (i : nat) (p : proc) (ini par c : nat) (ip : inode) : Prop := ExitPre {
  xp_quiet : quiet k i p;
  xp_init : k_initproc k = Some ini /\ ini <> i;
  xp_parent : pr_parent p = Some par /\ par <> i;
  xp_ofile : length (pr_ofile p) = NOFILE;
  xp_files fd f : pr_ofile p !!! fd = Some f -> exists x, k_files k !! f = Some x /\ nrefs (pr_ofile p) (seq 0 NOFILE) f < f_ref x;
  xp_cwd : pr_cwd p = Some c;
  xp_inode : k_inodes k !! c = Some ip /\ 0 < i_ref ip < 2 ^ 31 /\ (1 < i_ref ip \/ i_valid ip = 0 \/ i_nlink ip <> 0);
  xp_log : l_committing (k_log k) = 0 /\ l_n (k_log k) + (l_outstanding (k_log k) + 1) * MAXOPBLOCKS <= LOGSIZE;
  xp_idle : l_outstanding (k_log k) = 0 -> l_n (k_log k) = 0 }.

Lemma exit_files_ok k i p ini par c ip : exit_pre k i p ini par c ip ->
  exists fs, forM (seq 0 NOFILE) (exit_file i) k = Ret tt (set_k_files fs (set_k_procs (<[i := set_pr_ofile (replicate NOFILE None) p]> (k_procs k)) k)) /\
    undup (pr_ofile p) (seq 0 NOFILE) (k_files k) fs.
Proof.
  intros P. pose proof (xp_ofile _ _ _ _ _ _ _ P) as Hlen. pose proof (q_run _ _ _ (xp_quiet _ _ _ _ _ _ _ P)) as (Hh & Hc & Hp).
  destruct (exit_files_loop i (seq 0 NOFILE) (NoDup_seq _ _) k p) as (fs & ofile & E & Hd & Hl & Ho); try done.
  { eapply quiet_lock, P. }
  { apply Forall_forall. intros fd. rewrite elem_of_seq. lia. }
  { intros fd f _. apply P. }
  exists fs. split; [|done]. rewrite E. do 5 f_equal. apply list_eq. intros fd. rewrite Ho. destruct (decide (fd < NOFILE)%nat) as [Hfd|Hfd].
  - rewrite decide_True by (apply elem_of_seq; lia). rewrite lookup_replicate_2 by done.
    by destruct (lookup_lt_is_Some_2 (pr_ofile p) fd) as [? ->]; [lia|].
  - rewrite decide_False by (rewrite elem_of_seq; lia). rewrite !lookup_ge_None_2; [done|rewrite length_replicate; lia|lia].
Qed.

(** The record of the process when it is done with its files. *)
Definition closed (p : proc) : proc := set_pr_cwd None (set_pr_ofile (replicate NOFILE None) p).

(** exit() gives up the current directory. *)
Lemma exit_cwd {A} (C : M A) k i p c ip : quiet k i p -> pr_cwd p = Some c ->
  k_inodes k !! c = Some ip /\ 0 < i_ref ip < 2 ^ 31 /\ (1 < i_ref ip \/ i_valid ip = 0 \/ i_nlink ip <> 0) ->
  l_committing (k_log k) = 0 /\ l_n (k_log k) + (l_outstanding (k_log k) + 1) * MAXOPBLOCKS <= LOGSIZE ->
  (l_outstanding (k_log k) = 0 -> l_n (k_log k) = 0) ->
  exists ps, (begin_op;; p ← getproc i; (match pr_cwd p with Some c => iput c | None => panic "kerneltrap" end);; end_op;; modproc i (set_pr_cwd None);; C) k =
      C (set_k_procs (<[i := set_pr_cwd None p]> ps) (set_k_inodes (<[c := set_i_ref (i_ref ip - 1) ip]> (k_inodes k)) k)) /\
    woken (k_procs k) ps.
Proof.
  intros Q Hcw (Hip & Hr & Hl) [Hc Hroom] Hidle. pose proof (q_run _ _ _ Q) as (_ & _ & Hp). mcall (begin_op_quiet k i p Q Hc Hroom).
  set (k1 := set_k_log _ k). assert (quiet k1 i p) as Q1 by (eapply quiet_frame; [|exact Q]; frame_tac).
  mcall (getproc_eq k1 i p Hp). rewrite Hcw. mcall (iput_drop k1 i p c ip Q1 Hip Hr Hl). set (k2 := set_k_inodes _ k1).
  assert (quiet k2 i p) as Q2 by (eapply quiet_frame; [|exact Q1]; frame_tac).
  destruct (end_op_quiet k2 i p Q2 Hc) as (ps & E & W).
  { unfold k2, k1. ksimpl. intros. apply Hidle. lia. }
  exists ps. split; [|exact W]. mcall E. mcall (modproc_eq _ _ _). f_equal. unfold k2, k1. kst_eq.
  - apply (alter_insert_at _ _ _ p). eapply woken_lookup; [exact W|exact Hp|]. by rewrite (q_state _ _ _ Q).
  - rewrite Z.add_simpl_r. by destruct (k_log k).
Qed.

Lemma woken_asleep ch q q' : woken1 q q' -> asleep_on ch q -> asleep_on ch q' \/ pr_state q' = RUNNABLE.
Proof. intros [->|[_ ->]]; [by left|by right]. Qed.

(** Wakeups before reparent() do not change what exit() leaves. *)
Lemma left_behind_woken i ini par p z k k' ps : ini <> i -> par <> i -> k_procs k !! i = Some p -> pr_parent p <> Some i ->
  (forall j q, j <> i -> k_procs k !! j = Some q -> exists q', k_procs k' !! j = Some q' /\ woken1 q q') ->
  left_behind i ini par z k' ps -> left_behind i ini par z k ps.
Proof.
  intros Hne Hpne Hp Hpp HW [Hlen Hz Ho Hpar Hini].
  assert (forall ch j q, j <> i -> k_procs k !! j = Some q -> asleep_on ch q ->
    (forall q1, k_procs k' !! j = Some q1 -> asleep_on ch q1 -> exists q', ps !! j = Some q' /\ pr_state q' = RUNNABLE) ->
    exists q', ps !! j = Some q' /\ pr_state q' = RUNNABLE) as Haw.
  { intros ch j q Hj Hq Hsl HK. destruct (HW j q Hj Hq) as (q1 & Hq1 & W). destruct (woken_asleep ch _ _ W Hsl) as [Hs1|Hs1]; [by eapply HK|].
    destruct (Ho j q1 Hj Hq1) as (q' & Hq' & W'). exists q'. split; [done|]. apply woken1_state in W' as ->; by rewrite heir_state, Hs1. }
  constructor; [done|done|..].
  - intros j q Hj Hq. destruct (HW j q Hj Hq) as (q1 & Hq1 & W). destruct (Ho j q1 Hj Hq1) as (q' & Hq' & W').
    exists q'. split; [done|]. etrans; [by apply heir_woken|done].
  - intros q Hq Hsl. eapply Haw; eauto.
  - intros j q qi Hq Hpq Hqi Hsl. assert (j <> i) as Hj by congruence. eapply Haw; eauto. intros q1 Hq1 Hs1.
    destruct (HW j q Hj Hq) as (q2 & Hq2 & W). apply (Hini j q2 q1); try done. destruct W as [->|[_ ->]]; done.
Qed.

(** C10: exit() of a process other than init gives back one reference of every
    open descriptor and the one of the current directory, clears both, gives its
    children to init, wakes init if there were any, wakes a parent that waits,
    records the status, becomes a zombie and leaves the CPU for good with only
    its own lock held; nothing else of the kernel state changes, but that other
    sleeping processes may be woken.  It is about a process, not init nor its own
    parent, that holds no spinlock, with every open file held by another
    descriptor elsewhere, with a current directory that is open elsewhere or
    still linked, while no commit is running and the log has room for another
    operation: the cases in which exit() does not write to the disk. *)
Theorem exit_correct {A} (k : kst) (i : nat) (p : proc) (ini par c : nat) (ip : inode) (status : Z) (P : exit_pre k i p ini par c ip) :
  exists fs ps, exit (A := A) status k = Blocked WSched (acq (LProc i) (set_k_procs ps (set_k_files fs
      (set_k_inodes (<[c := set_i_ref (i_ref ip - 1) ip]> (k_inodes k)) k)))) /\
    undup (pr_ofile p) (seq 0 NOFILE) (k_files k) fs /\
    left_behind i ini par (zombie status (closed p)) k ps.
Proof.
  pose proof P as [Q [Hini Hne] [Hpar Hpne] Hof Hf Hcw (Hip & Hr & Hl) [Hc Hroom] Hidle]. pose proof (q_run _ _ _ Q) as R. pose proof R as (Hh & Hcp & Hp).
  destruct (exit_files_ok _ _ _ _ _ _ _ P) as (fs & E1 & Hd). exists fs. set (p1 := set_pr_ofile (replicate NOFILE None) p) in *.
  set (k1 := set_k_files _ _) in E1. assert (k_procs k1 !! i = Some p1) as Hp1 by (apply list_lookup_insert_eq; by eapply lookup_lt_Some).
  assert (quiet k1 i p1) as Q1.
  { destruct Q. constructor; try done. unfold k1. ksimpl. by rewrite length_insert. }
  unfold exit. mcall (curproc_eq _ _ _ R). mstep. rewrite Hini, bool_decide_false by congruence. mcall E1.
  match goal with |- context [modproc i (set_pr_cwd None) ≫= fun _ => ?C] => destruct (exit_cwd C k1 i p1 c ip) as (ps0 & E2 & W); [done..|] end. rewrite E2.
  set (k2 := set_k_procs _ (set_k_inodes _ k1)). assert (length ps0 = NPROC) as Hn0.
  { rewrite <- (Forall2_length _ _ _ W). by destruct Q1. }
  assert (quiet k2 i (closed p)) as Q2.
  { destruct Q. constructor; try done; [|unfold k2; ksimpl; by rewrite length_insert]. split_and!; try done. apply list_lookup_insert_eq.
    rewrite Hn0. apply lookup_lt_Some in Hp. lia. }
  destruct (exit_tail (A := A) status k2 i ini (closed p) par Q2 Hini Hne Hpar Hpne) as (ps & E3 & B). rewrite E3. exists ps. split; [done|]. split; [done|].
  apply (left_behind_woken i ini par p _ k k2); try done; [congruence|]. intros j q Hj Hq.
  destruct (Forall2_lookup_l _ _ _ j q W) as (q' & Hq' & Wq).
  { unfold k1. ksimpl. by rewrite list_lookup_insert_ne. }
  exists q'. split; [|done]. unfold k2. ksimpl. by rewrite list_lookup_insert_ne.
Qed.

End exit_correct.

(** ** A concrete exit *)

(** Init and the shell wait for their children, process 2 of the shell runs
    and has a child of its own. *)
Definition leaving : proc := set_pr_parent (Some 1%nat) first_proc.
Definition waiter (j : nat) : proc := set_pr_chan (Some (ChProc j)) (set_pr_state SLEEPING proc0).
Definition orphan : proc := set_pr_parent (Some 2%nat) (set_pr_state RUNNABLE proc0).
Definition family : list proc :=
  <[3%nat := orphan]> (<[2%nat := leaving]> (<[1%nat := set_pr_parent (Some 0%nat) (waiter 1)]> (<[0%nat := waiter 0]> (replicate NPROC proc0)))).
Definition leaving_state : kst :=
  set_k_initproc (Some 0%nat) (set_k_hart (set_h_proc (Some 2%nat) (k_hart run_state))
    (set_k_files (<[0%nat := set_f_ref 3 file0]> (k_files run_state))
      (set_k_inodes (<[0%nat := set_i_ref 3 inode0]> (k_inodes run_state)) (set_k_procs family run_state)))).

Lemma leaving_pre : exit_pre leaving_state 2 leaving 0 1 0 (set_i_ref 3 inode0).
Proof.
  constructor; try done.
  - intros fd f Hfd. exists (set_f_ref 3 file0). destruct fd as [|fd].
    + injection Hfd as <-. split; [done|]. vm_compute. reflexivity.
    + exfalso. change (replicate 15 (@None nat) !!! fd = Some f) in Hfd. do 15 (destruct fd as [|fd]; [done|]). done.
  - split; [done|]. split; [simpl; lia|]. left. simpl. lia.
Qed.

Lemma exit_correct_witness : exists fs ps, let k' := acq (LProc 2) (set_k_procs ps (set_k_files fs (set_k_inodes (<[0%nat := set_i_ref 2 inode0]> (k_inodes leaving_state)) leaving_state))) in
  exit (A := unit) 7 leaving_state = Blocked WSched k' /\
  fs !! 0%nat = Some (set_f_ref 2 file0) /\
  ps !! 2%nat = Some (zombie 7 (closed leaving)) /\ ps !! 3%nat = Some (set_pr_parent (Some 0%nat) orphan) /\
  (exists q, ps !! 1%nat = Some q /\ pr_state q = RUNNABLE) /\ (exists q, ps !! 0%nat = Some q /\ pr_state q = RUNNABLE).
Proof.
  destruct (exit_correct (A := unit) leaving_state 2 leaving 0 1 0 (set_i_ref 3 inode0) 7 leaving_pre) as (fs & ps & E & D & B).
  exists fs, ps. split; [exact E|]. split; [by rewrite (D 0%nat)|]. split; [exact (lb_self _ _ _ _ _ _ B)|]. split.
  - destruct (lb_other _ _ _ _ _ _ B 3%nat orphan ltac:(lia) eq_refl) as (q' & Hq' & W). rewrite Hq'. f_equal. by apply woken1_state in W.
  - split.
    + exact (lb_parent _ _ _ _ _ _ B (set_pr_parent (Some 0%nat) (waiter 1)) eq_refl (conj eq_refl eq_refl)).
    + exact (lb_init _ _ _ _ _ _ B 3%nat orphan (waiter 0) eq_refl eq_refl eq_refl (conj eq_refl eq_refl)).
Defined.
