(* ===== verification/Dinode.v ===== *)
(** Inodes on disk: struct dinode in its block, iupdate() and ilock()
    (kernel/fs.c). *)

From Stdlib Require Import ZArith Lia.
From stdpp Require Import base gmap strings list numbers.
From S2P Require Import Prelude Params State Spinlock Sched Kalloc Frame Bio Cache Virtio Demo Log Commit Transaction Fs.
From S2P Require Import DemoFs Blocks CString Vm PageTable UserMem Copy CopySpec Dir Content Alloc.

Open Scope Z_scope.

(** ** The bytes of a dinode *)

(** The fields of [ip] fit in those of a struct dinode. *)
Record inode_fits (ip : inode) : Prop := InodeFits {
  if_type : - 2 ^ 15 <= i_type ip < 2 ^ 15;
  if_major : - 2 ^ 15 <= i_major ip < 2 ^ 15;
  if_minor : - 2 ^ 15 <= i_minor ip < 2 ^ 15;
  if_nlink : - 2 ^ 15 <= i_nlink ip < 2 ^ 15;
  if_size : 0 <= i_size ip < 2 ^ 32;
  if_len : length (i_addrs ip) = (NDIRECT + 1)%nat;
  if_addrs : Forall (fun a => 0 <= a < 2 ^ 32) (i_addrs ip) }.

Lemma i16_u16 x : - 2 ^ 15 <= x < 2 ^ 15 -> i16 (u16 x) = x.
Proof. intros H. unfold i16, u16. dlia. Qed.

Lemma length_put_addrs addrs : forall off d,
  (off + 4 * length addrs <= length d)%nat -> length (put_addrs off addrs d) = length d.
Proof.
  induction addrs as [|a addrs IH]; intros off d Hl; cbn [put_addrs length] in *; [done|].
  rewrite IH; rewrite length_put32; lia.
Qed.

Lemma getb_put_addrs_out addrs : forall off d off' n,
  (off + 4 * length addrs <= length d)%nat -> (off' + n <= off \/ off + 4 * length addrs <= off')%nat ->
  getb off' n (put_addrs off addrs d) = getb off' n d.
Proof.
  induction addrs as [|a addrs IH]; intros off d off' n Hl Ho; cbn [put_addrs length] in *; [done|].
  rewrite IH by (rewrite ?length_put32; lia). unfold put32. rewrite getb_putb_disj; rewrite ?length_bytes_of; try done; lia.
Qed.

Lemma get32_put_addrs addrs : forall off d j a,
  (off + 4 * length addrs <= length d)%nat -> addrs !! j = Some a ->
  get32 (off + 4 * j) (put_addrs off addrs d) = u32 a.
Proof.
  induction addrs as [|b addrs IH]; intros off d j a Hl Hj; cbn [put_addrs length] in *; [done|].
  destruct j as [|j]; simpl in Hj.
  - injection Hj as ->. rewrite Nat.mul_0_r, Nat.add_0_r. unfold get32 at 1.
    rewrite getb_put_addrs_out by (rewrite ?length_put32; lia). apply get32_put32_same. lia.
  - replace (off + 4 * S j)%nat with (off + 4 + 4 * j)%nat by lia. apply IH; [rewrite length_put32; lia|done].
Qed.

Lemma put_addrs_bytes addrs : forall off d, Forall byte_ok d -> Forall byte_ok (put_addrs off addrs d).
Proof.
  induction addrs as [|a addrs IH]; intros off d Hd; simpl; [done|]. apply IH, putb_bytes_ok; [apply bytes_of_ok|done].
Qed.

Lemma get16_put16_disj off v bs off' :
  (off + 2 <= length bs)%nat -> (off' + 2 <= off \/ off + 2 <= off')%nat -> get16 off' (put16 off v bs) = get16 off' bs.
Proof. intros. unfold get16, put16. rewrite getb_putb_disj; rewrite ?length_bytes_of; auto. Qed.

(** Lengths of updated blocks. *)
Ltac plen :=
  repeat first [rewrite length_put_addrs by plen | rewrite length_put32 by plen | rewrite length_put16 by plen]; lia.

Section dinode.
Context (off : nat) (ip : inode) (d : list Z).
Hypothesis Hl : (off + SIZEOF_DINODE <= length d)%nat.
Hypothesis Ha : length (i_addrs ip) = (NDIRECT + 1)%nat.

Lemma length_store_dinode : length (store_dinode off ip d) = length d.
Proof. unfold store_dinode. plen. Qed.

(** The other slots of the block are not touched. *)
Lemma store_dinode_out off' n : (off' + n <= off \/ off + SIZEOF_DINODE <= off')%nat ->
  getb off' n (store_dinode off ip d) = getb off' n d.
Proof.
  intros Ho. unfold store_dinode.
  rewrite getb_put_addrs_out, getb_put32_disj, !getb_put16_disj by plen. done.
Qed.

Lemma store_dinode_bytes : Forall byte_ok d -> Forall byte_ok (store_dinode off ip d).
Proof.
  intros Hd. unfold store_dinode. apply put_addrs_bytes.
  repeat (apply putb_bytes_ok; [apply bytes_of_ok|]). done.
Qed.
End dinode.

(** [ip0] with the fields ilock() reads from disk taken from [ip]. *)
Definition with_dinode (ip ip0 : inode) : inode :=
  set_i_type (i_type ip) (set_i_major (i_major ip) (set_i_minor (i_minor ip) (set_i_nlink (i_nlink ip)
    (set_i_size (i_size ip) (set_i_addrs (i_addrs ip) ip0))))).

Lemma get32_put_addrs_out off addrs d off' :
  (off + 4 * length addrs <= length d)%nat -> (off' + 4 <= off)%nat -> get32 off' (put_addrs off addrs d) = get32 off' d.
Proof. intros. unfold get32. rewrite getb_put_addrs_out; auto. Qed.

Lemma get16_put_addrs_out off addrs d off' :
  (off + 4 * length addrs <= length d)%nat -> (off' + 2 <= off)%nat -> get16 off' (put_addrs off addrs d) = get16 off' d.
Proof. intros. unfold get16. rewrite getb_put_addrs_out; auto. Qed.

Lemma get16_put32_disj off v bs off' :
  (off + 4 <= length bs)%nat -> (off' + 2 <= off)%nat -> get16 off' (put32 off v bs) = get16 off' bs.
Proof. intros. unfold get16. rewrite getb_put32_disj; auto. Qed.

Lemma load_store_dinode off ip ip0 d :
  inode_fits ip -> (off + SIZEOF_DINODE <= length d)%nat ->
  load_dinode off (store_dinode off ip d) ip0 = with_dinode ip ip0.
Proof.
  intros [H1 H2 H3 H4 H5 H6 H7] Hl. unfold load_dinode, with_dinode.
  assert ((fun j => get32 (off + 12 + 4 * j) (store_dinode off ip d)) <$> seq 0 (NDIRECT + 1) = i_addrs ip) as ->.
  { apply list_eq_same_length with (NDIRECT + 1)%nat; [done|by rewrite length_fmap, length_seq|].
    intros j x y Hj Hx Hy. rewrite list_lookup_fmap, lookup_seq_lt in Hx by done. injection Hx as <-.
    unfold store_dinode. rewrite (get32_put_addrs _ _ _ j y) by (done || plen).
    apply u32_small. rewrite Forall_lookup in H7. by apply (H7 j). }
  unfold store_dinode.
  rewrite get32_put_addrs_out, get32_put32_same, u32_small by (done || plen).
  rewrite !get16_put_addrs_out, !get16_put32_disj by plen.
  rewrite (get16_put16_same (off + 6)) by plen.
  rewrite (get16_put16_disj (off + 6)), (get16_put16_disj (off + 6)), (get16_put16_disj (off + 6)) by plen.
  rewrite (get16_put16_same (off + 4)), (get16_put16_disj (off + 4)), (get16_put16_disj (off + 4)) by plen.
  rewrite (get16_put16_same (off + 2)), (get16_put16_disj (off + 2)), (get16_put16_same off) by plen.
  by rewrite !i16_u16.
Qed.

(** ** Inodes in their blocks *)

Section inode_block.
Context (k : kst) (FL : fs_layout k).

Lemma IBLOCK_eq n : 0 <= n < sb_ninodes (k_sb k) ->
  IBLOCK n (k_sb k) = sb_inodestart (k_sb k) + n / IPB /\
  sb_inodestart (k_sb k) <= IBLOCK n (k_sb k) < sb_bmapstart (k_sb k).
Proof.
  intros Hn. destruct FL as [? _ ? ? Hd]. unfold data_start in *.
  assert (IBLOCK n (k_sb k) = sb_inodestart (k_sb k) + n / IPB) as E.
  { unfold IBLOCK. rewrite u32_small by dlia. lia. }
  rewrite E. split; [done|]. dlia.
Qed.

Lemma IBLOCK_disk n : 0 <= n < sb_ninodes (k_sb k) -> is_Some (d_img (k_disk k) !! IBLOCK n (k_sb k)).
Proof.
  intros Hn. pose proof (IBLOCK_eq n Hn) as [_ Hr]. apply (fl_disk _ FL). destruct FL. unfold data_start in *. dlia.
Qed.

Lemma dinode_off_range n : (dinode_off n + SIZEOF_DINODE <= BSIZE)%nat.
Proof. unfold dinode_off. dlia. Qed.

(** Different inodes have different slots. *)
Lemma dinode_slots n x : 0 <= n < sb_ninodes (k_sb k) -> 0 <= x < sb_ninodes (k_sb k) -> x <> n ->
  IBLOCK x (k_sb k) = IBLOCK n (k_sb k) ->
  (dinode_off x + SIZEOF_DINODE <= dinode_off n \/ dinode_off n + SIZEOF_DINODE <= dinode_off x)%nat.
Proof.
  intros Hn Hx Hne. destruct (IBLOCK_eq n Hn) as [-> _], (IBLOCK_eq x Hx) as [-> _]. intros. unfold dinode_off. dlia.
Qed.
End inode_block.

(** The bytes of inode [n] on disk. *)
Definition dinode_bytes (k : kst) (n : Z) : list Z :=
  getb (dinode_off n) SIZEOF_DINODE (kview k (IBLOCK n (k_sb k))).

Section ops.
Context `{DL : DiskLaws}.

Lemma iupdate_ok k me p H S i ip :
  ftx k me p H S -> fs_layout k -> (size H <= 1)%nat -> k_inodes k !! i = Some ip -> i_dev ip = ROOTDEV ->
  length (i_addrs ip) = (NDIRECT + 1)%nat -> 0 <= i_inum ip < sb_ninodes (k_sb k) ->
  H !! IBLOCK (i_inum ip) (k_sb k) = None -> IBLOCK (i_inum ip) (k_sb k) ∈ S ->
  exists k', iupdate i k = Ret tt k' /\ ftx k' me p H S /\
    set_block (IBLOCK (i_inum ip) (k_sb k))
      (store_dinode (dinode_off (i_inum ip)) ip (kview k (IBLOCK (i_inum ip) (k_sb k)))) k k'.
Proof.
  intros HF FL Hs Hi Hdev Hlen Hn Hh HS. unfold iupdate. mcall (getinode_eq k i ip Hi). unfold getsb. mstep.
  rewrite Hdev. pose proof (IBLOCK_disk k FL _ Hn) as Hd. apply ftx_modify; auto.
  destruct (ftx_block_ok _ _ _ _ _ _ HF Hd) as [Hlk Hbk]. pose proof (dinode_off_range (i_inum ip)).
  split; [by rewrite length_store_dinode by (rewrite ?Hlk; done)|by apply store_dinode_bytes].
Qed.

Lemma get16_ext off d d' : getb off 2 d = getb off 2 d' -> get16 off d = get16 off d'.
Proof. unfold get16. by intros ->. Qed.

Lemma bst_inodes k me p H P l : bst k me p H P -> bst (set_k_inodes l k) me p H P.
Proof. intros HB. eapply bst_frame; [exact HB|by frame_tac|done..]. Qed.

Lemma rstep_set_inodes l k k' : rstep k k' -> rstep (set_k_inodes l k) (set_k_inodes l k').
Proof.
  intros [(F & L & I) D V]. constructor; [|done|done]. split; [|done]. destruct F. constructor; ksimpl; done.
Qed.

(** ilock() of an inode that is not in memory reads its dinode. *)
Lemma ilock_load k me p P i ip :
  bst k me p ∅ P -> (size P < NBUF)%nat -> fs_layout k -> k_inodes k !! i = Some ip -> i_dev ip = ROOTDEV ->
  1 <= i_ref ip -> sl_locked (i_lock ip) = false -> i_valid ip = 0 -> 0 <= i_inum ip < sb_ninodes (k_sb k) ->
  let d := kview k (IBLOCK (i_inum ip) (k_sb k)) in
  let ip' := set_i_valid 1 (load_dinode (dinode_off (i_inum ip)) d (set_i_lock (Sleeplock true (pr_pid p)) ip)) in
  i_type ip' <> 0 ->
  exists k', ilock i k = Ret tt k' /\ bst k' me p ∅ P /\
    k_inodes k' = <[i := ip']> (k_inodes k) /\ rstep (set_k_inodes (<[i := ip']> (k_inodes k)) k) k'.
Proof.
  intros HB HP FL Hi Hdev Href Hlk Hv Hn d ip' Hty. unfold ilock. mcall (getinode_eq k i ip Hi).
  assert (i_ref ip <? 1 = false) as -> by lia. pose proof (bs_quiet _ _ _ _ _ HB) as Q.
  set (ip1 := set_i_lock (Sleeplock true (pr_pid p)) ip) in *. pose proof (lookup_lt_Some _ _ _ Hi) as Hlt.
  assert (acquiresleep (SlInode i) k = Ret tt (set_k_inodes (<[i := ip1]> (k_inodes k)) k)) as E1.
  { rewrite (acquiresleep_eq (SlInode i) k me p (i_lock ip)); [|apply Q|by eapply quiet_lock|simpl; by rewrite Hi|done].
    simpl. by rewrite (alter_insert_at _ _ _ ip). }
  mcall E1. set (k1 := set_k_inodes _ k).
  assert (k_inodes k1 !! i = Some ip1) as Hi1 by by apply list_lookup_insert_eq.
  mcall (getinode_eq k1 i ip1 Hi1). change (i_valid ip1) with (i_valid ip). rewrite Hv. cbn [when Z.eqb].
  unfold getsb. mstep. change (k_sb k1) with (k_sb k). change (i_dev ip1) with (i_dev ip). rewrite Hdev.
  change (i_inum ip1) with (i_inum ip).
  destruct (bst_bread k1 me p ∅ P (IBLOCK (i_inum ip) (k_sb k))) as (b & k2 & x & E2 & E2' & Hx & B2 & R2 & C2);
    [by apply bst_inodes|apply lookup_empty|by apply (IBLOCK_disk k FL)|rewrite map_size_empty; lia|].
  mcall E2. mcall E2'. rewrite Hx. change (kview k1 (IBLOCK (i_inum ip) (k_sb k))) with d.
  pose proof (rstep_inodes _ _ R2) as I2. rewrite <- I2 in Hi1.
  mcall (modinode_eq k2 i ip1 (load_dinode (dinode_off (i_inum ip)) d) Hi1). set (k3 := set_k_inodes _ k2).
  destruct (bst_brelse k3 me p ∅ P (IBLOCK (i_inum ip) (k_sb k)) b) as (k4 & E4 & B4 & R4);
    [by apply bst_inodes|apply lookup_empty|done|]. mcall E4.
  set (ip3 := load_dinode (dinode_off (i_inum ip)) d ip1) in *.
  assert (k_inodes k4 = <[i := ip3]> (k_inodes k)) as I4.
  { rewrite (rstep_inodes _ _ R4). unfold k3. ksimpl. rewrite I2. unfold k1. ksimpl. apply list_insert_insert_eq. }
  assert (k_inodes k4 !! i = Some ip3) as Hi4 by (rewrite I4; by apply list_lookup_insert_eq).
  mcall (modinode_eq k4 i ip3 (set_i_valid 1) Hi4). rewrite I4, list_insert_insert_eq. fold ip'.
  set (k5 := set_k_inodes _ k4).
  mcall (getinode_eq k5 i ip' (list_lookup_insert_eq _ _ _ Hlt)). rewrite (proj2 (Z.eqb_neq _ _) Hty).
  exists k5. split; [done|]. split; [by apply bst_inodes|]. split; [done|].
  pose proof (rstep_set_inodes (<[i := ip']> (k_inodes k)) _ _ R2) as R2'.
  pose proof (rstep_set_inodes (<[i := ip']> (k_inodes k)) _ _ R4) as R4'.
  exact (transitivity R2' R4').
Qed.

(** C40: iupdate() stores the inode so that ilock() reads it back: it changes the
    64 bytes of this inode and of no other, and whenever the inode is later read
    into a table slot, by ilock() on an entry that is not valid, the slot gets
    exactly the fields that were stored. *)
Theorem iupdate_ilock_roundtrip (k : kst) (me : nat) (p : proc) (S : gset Z) (i : nat) (ip : inode)
    (HF : ftx k me p ∅ S) (FL : fs_layout k) (Hi : k_inodes k !! i = Some ip) (Hdev : i_dev ip = ROOTDEV)
    (Hfit : inode_fits ip) (Hn : 0 <= i_inum ip < sb_ninodes (k_sb k)) (HS : IBLOCK (i_inum ip) (k_sb k) ∈ S) :
  exists k', iupdate i k = Ret tt k' /\ ftx k' me p ∅ S /\
    (forall n, 0 <= n < sb_ninodes (k_sb k) -> n <> i_inum ip -> dinode_bytes k' n = dinode_bytes k n) /\
    forall k2 me2 p2 P2 j ip2,
      bst k2 me2 p2 ∅ P2 -> (size P2 < NBUF)%nat -> fs_layout k2 -> k_sb k2 = k_sb k ->
      kview k2 (IBLOCK (i_inum ip) (k_sb k)) = kview k' (IBLOCK (i_inum ip) (k_sb k)) ->
      k_inodes k2 !! j = Some ip2 -> i_dev ip2 = ROOTDEV -> i_inum ip2 = i_inum ip -> 1 <= i_ref ip2 ->
      sl_locked (i_lock ip2) = false -> i_valid ip2 = 0 -> i_type ip <> 0 ->
      exists k3, ilock j k2 = Ret tt k3 /\
        k_inodes k3 !! j = Some (set_i_valid 1 (with_dinode ip (set_i_lock (Sleeplock true (pr_pid p2)) ip2))).
Proof.
  assert (size (∅ : gmap Z nat) <= 1)%nat as Hs by (rewrite map_size_empty; lia).
  destruct (iupdate_ok k me p ∅ S i ip HF FL Hs Hi Hdev (if_len _ Hfit) Hn (lookup_empty _) HS) as (k' & E & F & A).
  exists k'. split; [done|]. split; [done|]. set (bn := IBLOCK (i_inum ip) (k_sb k)) in *.
  pose proof (IBLOCK_disk k FL _ Hn) as Hd. destruct (ftx_block_ok _ _ _ _ _ _ HF Hd) as [Hlk _]. fold bn in Hlk.
  pose proof (dinode_off_range (i_inum ip)) as Hoff. split.
  - intros n Hnr Hne. unfold dinode_bytes. rewrite (step_sb _ _ (st_step _ _ _ _ A)).
    destruct (decide (IBLOCK n (k_sb k) = bn)) as [Eb|Eb]; [|by rewrite (st_other _ _ _ _ A _ Eb)].
    rewrite Eb, (st_view _ _ _ _ A). apply store_dinode_out; [by rewrite Hlk|apply Hfit|].
    by apply (dinode_slots k FL).
  - intros k2 me2 p2 P2 j ip2 HB2 HP2 FL2 Es2 V2 Hj Hd2 Hin2 Href Hlk2 Hv2 Hty.
    pose proof (load_store_dinode (dinode_off (i_inum ip)) ip (set_i_lock (Sleeplock true (pr_pid p2)) ip2)
      (kview k bn) Hfit ltac:(by rewrite Hlk)) as El. rewrite <- (st_view _ _ _ _ A), <- V2 in El.
    pose proof (ilock_load k2 me2 p2 P2 j ip2 HB2 HP2 FL2 Hj Hd2 Href Hlk2 Hv2) as HI.
    cbv zeta in HI. rewrite Es2, Hin2 in HI. fold bn in HI. rewrite El in HI.
    destruct (HI Hn Hty) as (k3 & E3 & _ & I3 & _). exists k3. split; [done|]. rewrite I3.
    apply list_lookup_insert_eq. by eapply lookup_lt_Some.
Qed.

End ops.

Lemma iupdate_ilock_roundtrip_witness :
  exists k k', (binit;; begin_op) fs_state = Ret tt k /\ iupdate 1 k = Ret tt k' /\
    dinode_bytes k' 1 = dinode_bytes k 1.
Proof.
  destruct (fs_boot_ftx {[8]}) as (k & E & F & FL & _ & Sb & I & _).
  { vm_compute. lia. }
  { intros x. rewrite elem_of_singleton. lia. }
  destruct (iupdate_ilock_roundtrip k 0 demo_proc {[8]} 1 file_dinode F FL) as (k' & E' & _ & B' & _).
  - rewrite I. reflexivity.
  - reflexivity.
  - constructor; simpl; try lia. repeat constructor; lia.
  - rewrite Sb. simpl. lia.
  - rewrite Sb. change (IBLOCK (i_inum file_dinode) fs_sb) with 8. set_solver.
  - exists k, k'. split; [exact E|]. split; [exact E'|]. apply B'; [rewrite Sb; simpl; lia|discriminate].
Defined.
