(* ===== verification/Write.v ===== *)
(** writei() (kernel/fs.c): writing the bytes of a file inside a transaction. *)

From Stdlib Require Import ZArith Lia.
From stdpp Require Import base gmap strings list numbers.
From S2P Require Import Prelude Params State Spinlock Sched CString Kalloc Vm PageTable UserMem Copy Frame CopySpec.
From S2P Require Import Bio Cache Virtio Demo Log Commit Transaction Fs Dir DemoFs Blocks Content Alloc Dinode.

Open Scope Z_scope.

(** ** Storing bytes in a list *)

Lemma putb_putb off bs cs l : (off <= length l)%nat ->
  putb (off + length bs) cs (putb off bs l) = putb off (bs ++ cs) l.
Proof.
  intros Hl. unfold putb. rewrite length_app. pose proof (length_take_le l off Hl) as Ht.
  rewrite (take_app_ge (take off l)) by lia. rewrite Ht.
  replace (off + length bs - off)%nat with (length bs) by lia. rewrite take_app_length.
  rewrite (drop_app_ge (take off l)) by lia. rewrite Ht.
  replace (off + length bs + length cs - off)%nat with (length bs + length cs)%nat by lia.
  rewrite (drop_app_ge bs) by lia. rewrite drop_drop, <- !app_assoc. do 4 f_equal. lia.
Qed.

Lemma putb_nil off l : (off <= length l)%nat -> putb off [] l = l.
Proof. intros H. unfold putb. simpl. rewrite Nat.add_0_r. apply take_drop. Qed.

Lemma lookup_putb_ext off v bs i :
  (off <= length bs)%nat ->
  putb off v bs !! i = if decide (off <= i < off + length v)%nat then v !! (i - off)%nat else bs !! i.
Proof.
  intros Hl. unfold putb. pose proof (length_take_le bs off Hl) as Ht. case_decide as Hi.
  - rewrite lookup_app_r by lia. rewrite Ht. by rewrite lookup_app_l by lia.
  - destruct (decide (i < off)%nat).
    + rewrite lookup_app_l by lia. by rewrite lookup_take_lt.
    + rewrite lookup_app_r by lia. rewrite Ht, lookup_app_r by lia. rewrite lookup_drop. f_equal. lia.
Qed.

Lemma length_putb_ext off v bs : (off <= length bs)%nat ->
  length (putb off v bs) = Nat.max (length bs) (off + length v).
Proof. intros H. unfold putb. rewrite !length_app, length_take, length_drop. lia. Qed.

(** ** The inode with another size *)

Lemma inode_ok_size k ip s :
  inode_ok k ip -> 0 <= s <= MAXFILE * 1024 -> (forall bn, 0 <= bn -> bn * 1024 < s -> iblock k ip bn <> 0) ->
  inode_ok k (set_i_size s ip).
Proof. intros [] Hs Hh. by constructor. Qed.

Lemma inode_ok_shrink k ip s s' :
  inode_ok k (set_i_size s ip) -> 0 <= s' <= s -> inode_ok k (set_i_size s' ip).
Proof.
  intros [I1 I2 I3 I4 I5 I6 I7 I8] Hs. constructor; try done; simpl in *; [lia|]. intros bn Hb Hlt. apply I8; [done|].
  simpl. lia.
Qed.

Lemma set_i_size_id ip : set_i_size (i_size ip) ip = ip.
Proof. by destruct ip. Qed.

(** A block of the file is overwritten. *)
Lemma inode_ok_set k k' ip a d :
  fs_layout k -> set_block a d k k' -> data_start (k_sb k) <= a -> a <> iind ip -> inode_ok k ip ->
  inode_ok k' ip /\ forall x, iblock k' ip x = iblock k ip x.
Proof.
  intros FL A Ha Hne IO. assert (forall x, iblock k' ip x = iblock k ip x) as Hb.
  { intros x. apply iblock_keep. intros _. by apply A. }
  split; [|done]. destruct IO. constructor; try done; intros; rewrite ?Hb in *; auto;
    apply (set_data_block k k' a d); auto.
Qed.

(** [m] bytes from offset [off], inside one block of the file, are replaced: the
    contents of the file, extended to the end of the write, change accordingly. *)
Lemma content_write k k' ip ip' a bs off s :
  0 <= off <= s -> Z.of_nat (length bs) + off `mod` 1024 <= 1024 -> length (kview k' a) = BSIZE ->
  (forall x, 0 <= x < MAXFILE -> x <> off / 1024 -> iblock k' ip' x = iblock k ip x) ->
  (forall x, 0 <= x < MAXFILE -> x <> off / 1024 -> x * 1024 < s -> kview k' (iblock k ip x) = kview k (iblock k ip x)) ->
  iblock k' ip' (off / 1024) = a -> s <= MAXFILE * 1024 ->
  (off / 1024 * 1024 < s -> forall j, (j < Z.to_nat (off `mod` 1024) \/ Z.to_nat (off `mod` 1024) + length bs <= j)%nat ->
     kview k' a !! j = kview k (iblock k ip (off / 1024)) !! j) ->
  getb (Z.to_nat (off `mod` 1024)) (length bs) (kview k' a) = bs ->
  content k' (set_i_size (Z.max s (off + Z.of_nat (length bs))) ip') = putb (Z.to_nat off) bs (content k (set_i_size s ip)).
Proof.
  intros Ho Hm Hla Hbl Hvi Ha HM Hold Hnew.
  assert (length (content k (set_i_size s ip)) = Z.to_nat s) as Hlc by apply length_content.
  apply list_eq. intros j. rewrite lookup_putb_ext by lia.
  destruct (decide (j < Z.to_nat (Z.max s (off + Z.of_nat (length bs))))%nat) as [Hj|Hj].
  2: { rewrite lookup_ge_None_2 by (rewrite length_content; simpl; lia). rewrite decide_False by lia.
       symmetry. apply lookup_ge_None_2. lia. }
  rewrite lookup_content by done. unfold fbyte.
  change (iblock k' (set_i_size _ ip') (Z.of_nat j / 1024)) with (iblock k' ip' (Z.of_nat j / 1024)).
  case_decide as Hin.
  - assert (Z.of_nat j / 1024 = off / 1024) as -> by dlia. rewrite Ha.
    rewrite <- Hnew. rewrite lookup_getb, decide_True by lia.
    replace (Z.to_nat (Z.of_nat j `mod` 1024)) with (Z.to_nat (off `mod` 1024) + (j - Z.to_nat off))%nat by dlia.
    symmetry. apply list_lookup_lookup_total_lt. rewrite Hla. dlia.
  - rewrite lookup_content by (simpl; lia). f_equal. unfold fbyte.
    change (iblock k (set_i_size s ip) (Z.of_nat j / 1024)) with (iblock k ip (Z.of_nat j / 1024)).
    destruct (decide (Z.of_nat j / 1024 = off / 1024)) as [E|E].
    + rewrite E, Ha. rewrite !list_lookup_total_alt. f_equal. apply Hold; dlia.
    + rewrite Hbl, Hvi by (done || dlia). done.
Qed.

(** ** What a write does *)

(** The blocks of the inode. *)
Definition owned (k : kst) (ip : inode) (x : Z) : Prop :=
  x = iind ip \/ exists bn, 0 <= bn < MAXFILE /\ iblock k ip bn = x.

(** The bytes [bs] have been written at [off] to inode [i], whose contents were
    regarded as [s] bytes long; [c] blocks were allocated.  No inode block and no
    block of another file has changed. *)
Record wrote (i : nat) (S : gset Z) (c : nat) (off : Z) (bs : list Z) (s : Z) (k : kst) (ip : inode) (k' : kst) (ip' : inode)
  : Prop := Wrote {
  wr_step : fstep k k';
  wr_inodes : k_inodes k' = <[i := ip']> (k_inodes k);
  wr_meta : meta_used k';
  wr_like : ip' = set_i_addrs (i_addrs ip') ip;
  wr_data : forall x, data_block k x -> data_block k' x;
  wr_free : free_blocks k' = drop c (free_blocks k);
  wr_ok : inode_ok k' (set_i_size (Z.max s (off + Z.of_nat (length bs))) ip');
  wr_content : content k' (set_i_size (Z.max s (off + Z.of_nat (length bs))) ip') =
    putb (Z.to_nat off) bs (content k (set_i_size s ip));
  wr_indS : iind ip' <> 0 -> iind ip' ∈ S;
  wr_own : forall x, owned k' ip' x -> owned k ip x \/ ~ data_block k x;
  wr_keep : forall x, x < sb_bmapstart (k_sb k) \/ (data_block k x /\ ~ owned k ip x) -> kview k' x = kview k x }.

Lemma wrote_nil i S off s k ip :
  k_inodes k !! i = Some ip -> meta_used k -> inode_ok k (set_i_size s ip) -> 0 <= off <= s ->
  (iind ip <> 0 -> iind ip ∈ S) -> wrote i S 0 off [] s k ip k ip.
Proof.
  intros Hi HM IO Ho HS. assert (Z.max s (off + Z.of_nat (length ([] : list Z))) = s) as E by (simpl; lia).
  constructor; rewrite ?E; auto.
  - done.
  - by rewrite list_insert_id.
  - by destruct ip.
  - rewrite putb_nil; [done|]. rewrite length_content. simpl. lia.
Qed.

Lemma wrote_app i S c1 c2 off bs cs s k ip k1 ip1 k2 ip2 :
  0 <= off <= s ->
  wrote i S c1 off bs s k ip k1 ip1 ->
  wrote i S c2 (off + Z.of_nat (length bs)) cs (Z.max s (off + Z.of_nat (length bs))) k1 ip1 k2 ip2 ->
  wrote i S (c1 + c2) off (bs ++ cs) s k ip k2 ip2.
Proof.
  intros Ho [S1 I1 M1 L1 D1 F1 O1 C1 N1 W1 K1] [S2 I2 M2 L2 D2 F2 O2 C2 N2 W2 K2]. pose proof (step_sb _ _ S1) as Es.
  assert (Z.max s (off + Z.of_nat (length (bs ++ cs))) =
    Z.max (Z.max s (off + Z.of_nat (length bs))) (off + Z.of_nat (length bs) + Z.of_nat (length cs))) as E.
  { rewrite length_app. lia. }
  constructor; rewrite ?E; auto.
  - by etrans.
  - rewrite I2, I1. apply list_insert_insert_eq.
  - rewrite L2, L1. by destruct ip.
  - rewrite F2, F1. apply drop_drop.
  - rewrite C2, C1. replace (Z.to_nat (off + Z.of_nat (length bs))) with (Z.to_nat off + length bs)%nat by lia.
    apply putb_putb. rewrite length_content. simpl. lia.
  - intros x [Hx|Hx]%W2; [auto|]. right. auto.
  - intros x Hx. rewrite K2; [by apply K1|]. rewrite Es. destruct Hx as [Hx|[Hx Hno]]; [by left|right].
    split; [auto|]. intros [?|?]%W1; done.
Qed.

Section write.
Context `{DL : DiskLaws} `{KI : KernelImage}.

(** One iteration of the loop of writei(), apart from the copy. *)
Lemma write_block k me p S i ip off bs s :
  ftx k me p ∅ S -> fs_layout k -> meta_used k -> k_inodes k !! i = Some ip ->
  inode_ok k (set_i_size s ip) -> 0 <= i_size ip <= s -> 0 <= off <= s -> s <= MAXFILE * 1024 ->
  off + Z.of_nat (length bs) <= MAXFILE * 1024 -> (0 < length bs)%nat ->
  Z.of_nat (length bs) + off `mod` 1024 <= 1024 -> Forall byte_ok bs ->
  let bn := off / 1024 in
  may_alloc k S (need k ip bn) -> (iblock k ip bn <> 0 -> iblock k ip bn ∈ S) -> (iind ip <> 0 -> iind ip ∈ S) ->
  exists a k1 ip1 bp k2 k3 k4 k5,
    bmap i bn k = Ret a k1 /\ getinode i k1 = Ret ip1 k1 /\ i_dev ip1 = ROOTDEV /\ bread ROOTDEV a k1 = Ret bp k2 /\
    quiet k2 me p /\ k_mem k2 = k_mem k /\
    bupdate bp (putb (Z.to_nat (off `mod` 1024)) bs) k2 = Ret tt k3 /\ log_write bp k3 = Ret tt k4 /\
    brelse bp k4 = Ret tt k5 /\ ftx k5 me p ∅ S /\ wrote i S (need k ip bn) off bs s k ip k5 ip1 /\
    ((Z.of_nat NDIRECT <= bn -> iind ip1 <> 0) /\ (bn < Z.of_nat NDIRECT -> iind ip1 = iind ip)) /\
    forall x, 0 <= x < MAXFILE -> x <> bn -> iblock k5 ip1 x = iblock k ip x.
Proof.
  intros HF FL HM Hi IO Hsz Ho HsM HoM Hpos Hm Hb bn HA HbS HiS.
  assert (inode_ok k ip) as IO0 by (rewrite <- (set_i_size_id ip); by eapply inode_ok_shrink).
  assert (0 <= bn < MAXFILE) as Hbn by (unfold bn; dlia).
  destruct (bmap_ok k me p S i ip bn HF FL HM Hi IO0 Hbn HA HbS HiS) as (a & k1 & ip1 & E1 & F1 & BM).
  destruct BM as [[G1 G2 G3 G4 G5 G6 G7 G8 G9] Ha Hane HaS HindS Hoth Hsame Hfresh Hind].
  assert (k_inodes k1 !! i = Some ip1) as Hi1 by (rewrite G2; apply list_lookup_insert_eq; by eapply lookup_lt_Some).
  pose proof (fs_layout_step _ _ G1 FL) as FL1. pose proof (step_sb _ _ G1) as Es1.
  assert (data_block k1 a) as Hda by (rewrite <- Ha; apply G4; [done|by rewrite Ha]).
  pose proof (data_disk _ _ FL1 Hda) as Hdd. assert (size (∅ : gmap Z nat) <= 1)%nat as Hs0 by (rewrite map_size_empty; lia).
  destruct (ftx_bread k1 me p ∅ S a F1 Hs0 (lookup_empty _) Hdd) as (bp & k2 & x & E2 & _ & _ & F2 & A2).
  pose proof (lookup_insert_eq (∅ : gmap Z nat) a bp) as Hl.
  destruct (ftx_block_ok _ _ _ _ _ _ F1 Hdd) as [Hla Hba].
  assert (length (putb (Z.to_nat (off `mod` 1024)) bs (kview k1 a)) = BSIZE) as Hlp.
  { rewrite length_putb; [done|]. rewrite Hla. dlia. }
  destruct (ftx_update k2 me p (<[a := bp]> ∅) S a bp (putb (Z.to_nat (off `mod` 1024)) bs) F2 Hl HaS)
    as (k3 & k4 & E3 & E4 & F4 & A4).
  { rewrite (sa_view _ _ A2). split; [done|by apply putb_bytes_ok]. }
  rewrite (sa_view _ _ A2) in A4.
  destruct (ftx_brelse k4 me p (<[a := bp]> ∅) S a bp F4 Hl) as (k5 & E5 & F5 & A5).
  rewrite delete_insert_id in F5 by apply lookup_empty.
  pose proof (set_same _ _ _ _ _ (same_set _ _ _ _ _ A2 A4) A5) as A15.
  exists a, k1, ip1, bp, k2, k3, k4, k5. split; [done|]. split; [by apply getinode_eq|]. split; [apply G4|].
  split; [done|]. split; [by eapply ftx_quiet|]. split.
  { rewrite (fr_mem _ _ (fs_frame _ _ (sa_step _ _ A2))). apply (fr_mem _ _ (fs_frame _ _ G1)). }
  split; [done|]. split; [done|]. split; [done|]. split; [done|].
  assert (a <> iind ip1) as Hai by (rewrite <- Ha; apply G4; [done|by rewrite Ha]).
  assert (data_start (k_sb k1) <= a) as Hds by apply Hda.
  destruct (inode_ok_set k1 k5 ip1 a _ FL1 A15 Hds Hai G4) as [G4' Hb5].
  assert (forall y, 0 <= y < MAXFILE -> y <> bn -> iblock k5 ip1 y = iblock k ip y) as Hoth5.
  { intros y Hy Hne. rewrite Hb5. auto. }
  assert (forall y, data_block k y -> y <> a -> y <> iind ip -> kview k5 y = kview k y) as Hkeep.
  { intros y Hy Hya Hyi. rewrite (st_other _ _ _ _ A15) by done. apply G9. by right. }
  assert (forall y, 0 <= y < MAXFILE -> iblock k ip y <> 0 -> y <> bn -> iblock k ip y <> a) as Hnea.
  { intros y Hy Hy0 Hyb Eya. apply Hyb, (io_inj _ _ G4' y bn Hy Hbn); rewrite ?Hoth5, ?Hb5, ?Ha by done; congruence. }
  split; [|split; [exact Hind|exact Hoth5]].
  constructor; auto.
  - etrans; [exact G1|apply A15].
  - by rewrite (st_inodes _ _ _ _ A15).
  - by eapply set_data_meta.
  - intros y Hy. by apply (set_data_block k1 k5 a _ y FL1 A15 Hds), G6.
  - by rewrite (set_data_free k1 k5 a _ FL1 A15 Hds).
  - apply inode_ok_size; [done|lia|]. intros y Hy Hlt. destruct (decide (y = bn)) as [->|Hne]; [by rewrite Hb5, Ha|].
    rewrite Hoth5 by lia. apply (io_holes _ _ IO); [done|]. simpl. unfold bn in *. dlia.
  - apply (content_write k k5 ip ip1 a bs off s Ho ltac:(lia)); auto; fold bn.
    + by rewrite (st_view _ _ _ _ A15).
    + intros y Hy Hne Hlt. pose proof (io_holes _ _ IO y ltac:(lia) ltac:(simpl; lia)) as Hy0.
      change (iblock k ip y <> 0) in Hy0. apply Hkeep; [by apply IO0|auto|by apply IO0].
    + by rewrite Hb5.
    + intros Hlt j Hj. pose proof (io_holes _ _ IO bn ltac:(lia) ltac:(simpl; unfold bn in *; lia)) as Hb0.
      change (iblock k ip bn <> 0) in Hb0. rewrite <- (Hsame Hb0), (st_view _ _ _ _ A15), lookup_putb by (rewrite Hla; dlia).
      rewrite decide_False by lia. rewrite G9; [done|]. rewrite (Hsame Hb0). right. split; by apply IO0.
    + rewrite (st_view _ _ _ _ A15). apply getb_putb_same. rewrite Hla. dlia.
  - intros y [->|(z & Hz & <-)].
    + destruct G7 as [->|Hn]; [left; by left|by right].
    + rewrite Hb5. destruct (decide (z = bn)) as [->|Hne]; [|left; right; exists z; by rewrite Hoth].
      rewrite Ha. destruct (decide (iblock k ip bn = 0)) as [H0|H0]; [right; auto|left; right]. exists bn. by rewrite (Hsame H0).
  - intros y [Hy|[Hy Hno]].
    + rewrite (st_other _ _ _ _ A15); [apply G9; by left|]. intros ->. rewrite Es1 in Hds. unfold data_start in Hds.
      destruct FL. dlia.
    + apply Hkeep; [done|..].
      * intros ->. destruct (decide (iblock k ip bn = 0)) as [H0|H0]; [by apply (Hfresh H0)|]. apply Hno. right. exists bn.
        by rewrite (Hsame H0).
      * intros ->. apply Hno. by left.
Qed.

(** The blocks that have to be allocated for [n] blocks of the file from [lo]. *)
Definition needs (k : kst) (ip : inode) (lo : Z) (n : nat) : nat :=
  (if (Z.of_nat NDIRECT <? lo + Z.of_nat n) && (iind ip =? 0) then 1 else 0) +
  length (filter (fun x => iblock k ip x = 0) (seqz lo n)).

Lemma needs_step k ip k' ip' lo n :
  0 <= lo -> lo + Z.of_nat (S n) <= MAXFILE ->
  (Z.of_nat NDIRECT <= lo -> iind ip' <> 0) /\ (lo < Z.of_nat NDIRECT -> iind ip' = iind ip) ->
  (forall x, 0 <= x < MAXFILE -> x <> lo -> iblock k' ip' x = iblock k ip x) ->
  (need k ip lo + needs k' ip' (lo + 1) n <= needs k ip lo (S n))%nat.
Proof.
  intros Hlo HM [Hge Hlt] Hoth. unfold need, needs. rewrite seqz_S, filter_cons.
  assert (filter (fun x => iblock k' ip' x = 0) (seqz (lo + 1) n) = filter (fun x => iblock k ip x = 0) (seqz (lo + 1) n)) as ->.
  { apply filter_ext_in. intros x Hx%elem_of_seqz. by rewrite Hoth by lia. }
  replace (lo + 1 + Z.of_nat n) with (lo + Z.of_nat (S n)) by lia.
  destruct (decide (iblock k ip lo = 0)) as [->|Hne].
  - change (0 =? 0) with true. cbv iota. cbn [length].
    destruct (Z.of_nat NDIRECT <=? lo) eqn:E; [apply Z.leb_le in E|apply Z.leb_gt in E].
    + rewrite (proj2 (Z.eqb_neq _ _) (Hge E)), andb_false_r.
      assert (Z.of_nat NDIRECT <? lo + Z.of_nat (S n) = true) as -> by (apply Z.ltb_lt; lia). cbn [andb]. lia.
    + rewrite (Hlt E). cbn [andb]. lia.
  - rewrite (proj2 (Z.eqb_neq _ _) Hne).
    destruct (Z.of_nat NDIRECT <=? lo) eqn:E; [apply Z.leb_le in E|apply Z.leb_gt in E].
    + rewrite (proj2 (Z.eqb_neq _ _) (Hge E)), andb_false_r.
      assert (Z.of_nat NDIRECT <? lo + Z.of_nat (S n) = true) as -> by (apply Z.ltb_lt; lia). cbn [andb]. lia.
    + rewrite (Hlt E). cbn [andb]. lia.
Qed.

Lemma may_alloc_le k S c c' : may_alloc k S c -> (c' <= c)%nat -> may_alloc k S c'.
Proof.
  intros [H1 H2] Hle. split; [lia|]. intros b (j & Hj & Hlt)%elem_of_take. apply H2, elem_of_take. exists j. split; [done|lia].
Qed.

Lemma may_alloc_drop k k' S c c' :
  may_alloc k S (c + c') -> k_sb k' = k_sb k -> free_blocks k' = drop c (free_blocks k) -> may_alloc k' S c'.
Proof.
  intros [H1 H2] Es Ef. split; [rewrite Ef, length_drop; lia|]. rewrite Ef, Es. intros b (j & Hj & Hlt)%elem_of_take.
  rewrite lookup_drop in Hj. apply H2, elem_of_take. exists (c + j)%nat. split; [done|lia].
Qed.

(** The number of blocks that [r] bytes from [off] touch. *)
Definition nblocks (off r : Z) : Z := (off `mod` 1024 + r + 1023) / 1024.

(** The loop of writei() terminates having written everything. *)
Lemma writei_loop_ok fuel : forall k me p S L i ip s src off n tot bs,
  ftx k me p ∅ S -> fs_layout k -> meta_used k -> k_inodes k !! i = Some ip ->
  inode_ok k (set_i_size s ip) -> 0 <= i_size ip <= s -> 0 <= off <= s -> s <= MAXFILE * 1024 ->
  0 <= tot <= n -> n < 2 ^ 31 -> off + (n - tot) <= MAXFILE * 1024 ->
  src_ready (k_mem k) (pr_pagetable p) L src (Z.to_nat (n - tot)) ->
  src_bytes (k_mem k) (pr_pagetable p) src (Z.to_nat (n - tot)) = Some bs -> Forall byte_ok bs ->
  (tot < n -> may_alloc k S (needs k ip (off / 1024) (Z.to_nat (nblocks off (n - tot)))) /\
     nblocks off (n - tot) < Z.of_nat fuel /\
     forall x, off / 1024 <= x < off / 1024 + nblocks off (n - tot) -> iblock k ip x <> 0 -> iblock k ip x ∈ S) ->
  (iind ip <> 0 -> iind ip ∈ S) -> 1 <= Z.of_nat fuel ->
  exists k' ip' c, writei_loop fuel i src off n tot k = Ret (off + (n - tot), n) k' /\ ftx k' me p ∅ S /\
    wrote i S c off bs s k ip k' ip'.
Proof.
  induction fuel as [|fuel IH];
    intros k me p S L i ip s src off n tot bs HF FL HM Hi IO Hsz Ho HsM Ht Hn HoM Hr Hs Hb HA HiS Hf; [lia|].
  pose proof (length_src_bytes _ _ _ _ _ Hs) as Hlb. cbn [writei_loop]. destruct (tot <? n) eqn:Etn; cbn [negb].
  2: { assert (tot = n) as -> by lia. rewrite Z.sub_diag in *. change (Z.to_nat 0) with O in *.
       destruct bs; [|done]. exists k, ip, 0%nat. rewrite Z.add_0_r. split; [done|]. split; [done|]. by apply wrote_nil. }
  destruct (HA ltac:(lia)) as (HAn & Hfu & HxS). clear HA.
  set (m := chunk n tot off). assert (0 < m <= n - tot /\ off `mod` 1024 + m <= 1024) as [Hm1 Hm2] by (unfold m, chunk; dlia).
  set (b1 := take (Z.to_nat m) bs). assert (length b1 = Z.to_nat m) as L1 by (unfold b1; rewrite length_take; lia).
  assert (0 < nblocks off (n - tot)) as Hnb by (unfold nblocks; dlia).
  destruct (Z.to_nat (nblocks off (n - tot))) as [|nb] eqn:Enb; [lia|].
  assert (off / 1024 + Z.of_nat (Datatypes.S nb) <= MAXFILE) as HnbM by (rewrite <- Enb, Z2Nat.id by lia; unfold nblocks; dlia).
  destruct (write_block k me p S i ip off b1 s HF FL HM Hi IO Hsz Ho HsM)
    as (a & k1 & ip1 & bp & k2 & k3 & k4 & k5 & E1 & E1' & Hdev & E2 & Q2 & M2 & E3 & E4 & E5 & F5 & W & Hind & Hoth).
  { lia. }
  { lia. }
  { lia. }
  { by apply Forall_take. }
  { eapply may_alloc_le; [exact HAn|]. unfold need, needs. rewrite seqz_S, filter_cons.
    assert ((Z.of_nat NDIRECT <=? off / 1024) = true -> (Z.of_nat NDIRECT <? off / 1024 + Z.of_nat (Datatypes.S nb)) = true) as Himp.
    { intros H%Z.leb_le. apply Z.ltb_lt. lia. }
    destruct (Z.of_nat NDIRECT <=? off / 1024); [rewrite Himp by done|];
      destruct (iind ip =? 0), (iblock k ip (off / 1024) =? 0) eqn:E0, (decide (iblock k ip (off / 1024) = 0));
      cbn [andb length]; lia. }
  { apply HxS. lia. }
  { done. }
  mcall E1. mcall E1'. rewrite Hdev. mcall E2.
  destruct (either_copyin_ok k2 me p L src (Z.to_nat (n - tot)) bs (Z.to_nat m) Q2) as (Ec & Hr' & Hs');
    [by rewrite M2|by rewrite M2|lia|]. fold m. mcall Ec. fold b1. mcall E3. change (0 =? -1) with false. cbv iota.
  mcall E4. mcall E5. rewrite u32_small by lia. rewrite Z2Nat.id in Hr', Hs' by lia.
  assert (k_mem k5 = k_mem k) as M5 by apply (fr_mem _ _ (fs_frame _ _ (wr_step _ _ _ _ _ _ _ _ _ _ W))).
  assert (bs = b1 ++ drop (Z.to_nat m) bs) as Ebs by (symmetry; apply take_drop).
  assert (Z.of_nat (length b1) = m) as L1' by lia.
  destruct (IH k5 me p S L i ip1 (Z.max s (off + m)) (src_add src m) (off + m) n (tot + m) (drop (Z.to_nat m) bs))
    as (k' & ip' & c & E' & F' & W').
  - done.
  - eapply fs_layout_step; [apply W|done].
  - apply W.
  - rewrite (wr_inodes _ _ _ _ _ _ _ _ _ _ W). apply list_lookup_insert_eq. by eapply lookup_lt_Some.
  - rewrite <- L1'. apply W.
  - rewrite (wr_like _ _ _ _ _ _ _ _ _ _ W). simpl. lia.
  - lia.
  - lia.
  - lia.
  - done.
  - lia.
  - rewrite M5. rewrite M2 in Hr'. by replace (Z.to_nat (n - (tot + m))) with (Z.to_nat (n - tot) - Z.to_nat m)%nat by lia.
  - rewrite M5. rewrite M2 in Hs'. by replace (Z.to_nat (n - (tot + m))) with (Z.to_nat (n - tot) - Z.to_nat m)%nat by lia.
  - by apply Forall_drop.
  - intros Hlt. assert (m = 1024 - off `mod` 1024) as Em by (unfold m, chunk in *; lia).
    assert ((off + m) / 1024 = off / 1024 + 1 /\ nblocks (off + m) (n - (tot + m)) = nblocks off (n - tot) - 1) as [-> En].
    { unfold nblocks. split; [dlia|]. replace ((off + m) `mod` 1024) with 0 by dlia. dlia. }
    rewrite En. split; [|split; [lia|]].
    + replace (Z.to_nat (nblocks off (n - tot) - 1)) with nb by lia.
      eapply may_alloc_drop; [|apply (step_sb _ _ (wr_step _ _ _ _ _ _ _ _ _ _ W))|apply W].
      eapply may_alloc_le; [exact HAn|]. apply needs_step; [dlia|done|exact Hind|exact Hoth].
    + intros x Hx. pose proof (Z.div_pos off 1024 ltac:(lia) ltac:(lia)). rewrite Hoth by lia. apply HxS. lia.
  - apply W.
  - dlia.
  - exists k', ip', (need k ip (off / 1024) + c)%nat. rewrite E'.
    replace (off + m + (n - (tot + m))) with (off + (n - tot)) by lia. split; [done|]. split; [done|].
    rewrite Ebs. eapply wrote_app; [done|exact W|]. by rewrite L1'.
Qed.

(** A change of an inode block leaves the files alone. *)
Lemma set_inode_block k k' b d ip :
  fs_layout k -> set_block b d k k' -> b < sb_bmapstart (k_sb k) -> inode_ok k ip ->
  (forall x, data_block k x -> data_block k' x) /\ inode_ok k' ip /\ content k' ip = content k ip.
Proof.
  intros FL [F _ _ O] Hb IO. pose proof (step_sb _ _ F) as Es.
  assert (0 <= sb_bmapstart (k_sb k) <= data_start (k_sb k)) as Hds by (destruct FL; unfold data_start; dlia).
  assert (forall x, data_block k x -> kview k' x = kview k x) as Hv by (intros x [Hx _]; apply O; lia).
  assert (forall x, data_block k x -> data_block k' x) as Hd.
  { intros x [Hx Hu]. unfold data_block, bit_used in *. rewrite Es. split; [done|].
    destruct (BBLOCK_eq k FL x ltac:(lia)) as [_ Hr]. by rewrite O by lia. }
  assert (forall x, iblock k' ip x = iblock k ip x) as Hib.
  { intros x. apply iblock_keep. intros Hne. apply Hv. by apply IO. }
  split; [done|]. split.
  - destruct IO. constructor; try done; intros; rewrite ?Hib in *; auto.
  - unfold content. apply list_fmap_ext. intros j o Ho. apply list_elem_of_lookup_2, elem_of_seqz in Ho.
    unfold fbyte. rewrite Hib. destruct (decide (iblock k ip (o / 1024) = 0)) as [E|E].
    + destruct (io_holes _ _ IO (o / 1024)); [dlia|dlia|done].
    + rewrite Hv; [done|]. pose proof (io_size _ _ IO). apply (io_blk _ _ IO); [dlia|done].
Qed.

(** What the caller of writei() needs: the transaction may log the inode block,
    the blocks of the range the file has, its indirect block and the free blocks
    that will be allocated. *)
Record footprint (k : kst) (S : gset Z) (ip : inode) (off n : Z) : Prop := Footprint {
  fp_inode : IBLOCK (i_inum ip) (k_sb k) ∈ S;
  fp_ind : iind ip <> 0 -> iind ip ∈ S;
  fp_blocks : forall x, off / 1024 <= x < off / 1024 + nblocks off n -> iblock k ip x <> 0 -> iblock k ip x ∈ S;
  fp_alloc : 0 < n -> may_alloc k S (needs k ip (off / 1024) (Z.to_nat (nblocks off n))) }.

Lemma writei_ok k me p S L i ip src off n bs :
  ftx k me p ∅ S -> fs_layout k -> meta_used k -> k_inodes k !! i = Some ip -> inode_ok k ip ->
  0 <= i_inum ip < sb_ninodes (k_sb k) -> 0 <= off <= i_size ip -> 0 <= n -> off + n <= MAXFILE * 1024 ->
  src_ready (k_mem k) (pr_pagetable p) L src (Z.to_nat n) ->
  src_bytes (k_mem k) (pr_pagetable p) src (Z.to_nat n) = Some bs -> Forall byte_ok bs -> footprint k S ip off n ->
  exists k' ip', writei i src off n k = Ret n k' /\ ftx k' me p ∅ S /\ fstep k k' /\ meta_used k' /\
    k_inodes k' = <[i := ip']> (k_inodes k) /\
    ip' = set_i_size (Z.max (i_size ip) (off + n)) (set_i_addrs (i_addrs ip') ip) /\
    inode_ok k' ip' /\ content k' ip' = putb (Z.to_nat off) bs (content k ip) /\
    (forall x, data_block k x -> data_block k' x) /\
    (forall x, data_block k x -> ~ owned k ip x -> kview k' x = kview k x) /\
    (forall x, x < sb_bmapstart (k_sb k) -> kview k' x =
       if decide (x = IBLOCK (i_inum ip) (k_sb k)) then store_dinode (dinode_off (i_inum ip)) ip' (kview k x) else kview k x).
Proof.
  intros HF FL HM Hi IO Hinum Ho Hn HoM Hr Hs Hb [FP1 FP2 FP3 FP4]. pose proof (io_size _ _ IO) as Hsz.
  pose proof (length_src_bytes _ _ _ _ _ Hs) as Hlb.
  unfold writei. mcall (getinode_eq k i ip Hi). rewrite !u32_small by lia.
  assert ((i_size ip <? off) || (off + n <? off) = false) as -> by lia.
  assert (MAXFILE * 1024 <? off + n = false) as -> by lia.
  destruct (writei_loop_ok (Z.to_nat (n / 1024) + 3) k me p S L i ip (i_size ip) src off n 0 bs)
    as (k1 & ip1 & c & E1 & F1 & W); rewrite ?Z.sub_0_r, ?set_i_size_id; auto; try lia.
  { intros H0. split; [auto|]. split; [unfold nblocks; dlia|done]. }
  mcall E1. rewrite Z.sub_0_r. destruct W as [W1 W2 W3 W4 W5 W6 W7 W8 W9 W10 W11].
  pose proof (step_sb _ _ W1) as Es1. pose proof (fs_layout_step _ _ W1 FL) as FL1.
  assert (Z.of_nat (length bs) = n) as Hlb' by lia. rewrite Hlb', ?set_i_size_id in *.
  assert (k_inodes k1 !! i = Some ip1) as Hi1 by (rewrite W2; apply list_lookup_insert_eq; by eapply lookup_lt_Some).
  mcall (getinode_eq k1 i ip1 Hi1). set (ip' := set_i_size (Z.max (i_size ip) (off + n)) ip1) in *.
  assert (i_size ip1 = i_size ip /\ i_inum ip1 = i_inum ip) as [Ez En] by (rewrite W4; done).
  set (k2 := set_k_inodes (<[i := ip']> (k_inodes k)) k1).
  assert (when (i_size ip1 <? off + n) (modinode i (set_i_size (off + n))) k1 = Ret tt k2) as E2.
  { destruct (i_size ip1 <? off + n) eqn:Elt; cbn [when].
    - rewrite (modinode_eq k1 i ip1 _ Hi1), W2, list_insert_insert_eq. unfold k2, ip'. do 3 f_equal. f_equal. lia.
    - assert (ip' = ip1) as E by (unfold ip'; rewrite Z.max_l, <- Ez by lia; apply set_i_size_id).
      unfold k2. rewrite E, <- W2. by destruct k1. }
  mcall E2. assert (k_inodes k2 !! i = Some ip') as Hi2 by (apply list_lookup_insert_eq; by eapply lookup_lt_Some).
  assert (inode_ok k2 ip') as IO2 by (by destruct W7).
  destruct (iupdate_ok k2 me p ∅ S i ip') as (k3 & E3 & F3 & A3); try done.
  { by apply ftx_inodes. }
  { by apply fs_layout_inodes. }
  { by rewrite map_size_empty; lia. }
  { apply IO2. }
  { apply IO2. }
  { change (0 <= i_inum ip1 < sb_ninodes (k_sb k1)). by rewrite En, Es1. }
  { change (IBLOCK (i_inum ip1) (k_sb k1) ∈ S). by rewrite En, Es1. }
  change (k_sb k2) with (k_sb k1) in A3. change (i_inum ip') with (i_inum ip1) in A3. rewrite En, Es1 in A3.
  destruct (IBLOCK_eq k FL _ Hinum) as [_ HIr].
  assert (fs_layout k2) as FL2 by by apply fs_layout_inodes.
  destruct (set_inode_block k2 k3 _ _ ip' FL2 A3) as (Hdata & IO3 & Hc3); [by change (k_sb k2) with (k_sb k1); rewrite Es1; lia|done|].
  mcall E3. exists k3, ip'. rewrite i32_small by lia. split; [done|]. split; [done|].
  split; [etrans; [exact W1|]; etrans; [apply fstep_inodes|apply A3]|].
  assert (sb_bmapstart (k_sb k) <= data_start (k_sb k) /\ data_start (k_sb k) <= sb_size (k_sb k)) as [Hds1 Hds2].
  { destruct FL. unfold data_start in *. split; [dlia|done]. }
  split.
  { intros x. rewrite (step_sb _ _ (st_step _ _ _ _ A3)). change (k_sb k2) with (k_sb k1). rewrite Es1. intros Hx.
    unfold bit_used. rewrite (step_sb _ _ (st_step _ _ _ _ A3)). change (k_sb k2) with (k_sb k1). rewrite Es1.
    destruct (BBLOCK_eq k FL x ltac:(lia)) as [_ Hbr]. rewrite (st_other _ _ _ _ A3) by lia.
    specialize (W3 x). rewrite Es1 in W3. specialize (W3 Hx). unfold bit_used in W3. by rewrite Es1 in W3. }
  split; [by rewrite (st_inodes _ _ _ _ A3)|]. split; [unfold ip'; simpl; rewrite W4; by destruct ip|].
  split; [done|]. split; [by rewrite Hc3|]. split; [intros x Hx; apply Hdata, (W5 x Hx)|]. split.
  - intros x Hx Hno. rewrite (st_other _ _ _ _ A3); [apply W11; by right|]. destruct Hx as [Hx _]. lia.
  - intros x Hx. case_decide as D.
    + subst x. rewrite (st_view _ _ _ _ A3). f_equal. apply W11. left. lia.
    + rewrite (st_other _ _ _ _ A3) by done. apply W11. by left.
Qed.

(** C5: writei() of bytes that can be read, at an offset inside the file and within
    the largest file size, in a transaction whose footprint has room, terminates
    and returns the byte count: the contents of the file are the old ones with the
    bytes stored at the offset, extended if the write goes past the end; the
    missing blocks were allocated, the inode is stored on disk with its new size,
    and no block of another file and no other inode has changed.  An offset past
    the end, an overflowing range or a range past the largest file is refused
    with -1. *)
Theorem writei_correct (k : kst) (me : nat) (p : proc) (S : gset Z) (L : gmap Z Z) (i : nat) (ip : inode) (s : src)
    (off n : Z) (bs : list Z)
    (HF : ftx k me p ∅ S) (FL : fs_layout k) (HM : meta_used k) (Hi : k_inodes k !! i = Some ip) (IO : inode_ok k ip)
    (Hinum : 0 <= i_inum ip < sb_ninodes (k_sb k)) (Ho : 0 <= off < 2 ^ 32) (Hn : 0 <= n < 2 ^ 32)
    (Hr : src_ready (k_mem k) (pr_pagetable p) L s (Z.to_nat n))
    (Hs : src_bytes (k_mem k) (pr_pagetable p) s (Z.to_nat n) = Some bs) (Hb : Forall byte_ok bs)
    (HS : footprint k S ip off n) :
  if (i_size ip <? off) || (MAXFILE * 1024 <? off + n) then writei i s off n k = Ret (-1) k
  else
    exists k' ip', writei i s off n k = Ret n k' /\ ftx k' me p ∅ S /\ fs_layout k' /\ meta_used k' /\
      k_inodes k' = <[i := ip']> (k_inodes k) /\ i_size ip' = Z.max (i_size ip) (off + n) /\ inode_ok k' ip' /\
      content k' ip' = putb (Z.to_nat off) bs (content k ip) /\
      (forall x, data_block k x -> ~ owned k ip x -> kview k' x = kview k x) /\
      (forall x, 0 <= x < sb_ninodes (k_sb k) -> x <> i_inum ip -> dinode_bytes k' x = dinode_bytes k x) /\
      (inode_fits ip' -> forall ip0,
        load_dinode (dinode_off (i_inum ip)) (kview k' (IBLOCK (i_inum ip) (k_sb k))) ip0 = with_dinode ip' ip0).
Proof.
  destruct ((i_size ip <? off) || (MAXFILE * 1024 <? off + n)) eqn:E.
  { unfold writei. mcall (getinode_eq k i ip Hi). destruct (i_size ip <? off) eqn:E1; [done|]. cbn [orb] in *.
    destruct (u32 (off + n) <? off) eqn:E2; [done|]. assert (u32 (off + n) = off + n) as -> by (unfold u32 in *; dlia).
    by rewrite E. }
  destruct (writei_ok k me p S L i ip s off n bs) as (k' & ip' & Ew & F' & FS & M' & I' & Eip & IO' & C' & D' & K' & X');
    auto; try lia.
  exists k', ip'. pose proof (step_sb _ _ FS) as Es. split; [done|]. split; [done|]. split; [by eapply fs_layout_step|].
  split; [done|]. split; [done|]. split; [by rewrite Eip|]. split; [done|]. split; [done|]. split; [done|].
  pose proof (IBLOCK_disk k FL _ Hinum) as Hd. destruct (ftx_block_ok _ _ _ _ _ _ HF Hd) as [Hlk _].
  pose proof (dinode_off_range (i_inum ip)) as Hoff. destruct (IBLOCK_eq k FL _ Hinum) as [_ Hir]. split.
  - intros x Hx Hne. unfold dinode_bytes. rewrite Es. destruct (IBLOCK_eq k FL _ Hx) as [_ Hxr].
    rewrite X' by lia. case_decide as D; [|done]. rewrite D.
    apply store_dinode_out; [by rewrite Hlk|apply IO'|]. by apply (dinode_slots k FL).
  - intros Hfit ip0. rewrite X', decide_True by (done || lia). apply load_store_dinode; [done|by rewrite Hlk].
Qed.

(** Bytes written by writei() are read back by readi(), whatever the rest of
    the file holds. *)
Theorem writei_readi_roundtrip (k : kst) (me : nat) (p : proc) (S : gset Z) (L : gmap Z Z) (i : nat) (ip : inode) (s : src)
    (off n : Z) (bs : list Z)
    (HF : ftx k me p ∅ S) (FL : fs_layout k) (HM : meta_used k) (Hi : k_inodes k !! i = Some ip) (IO : inode_ok k ip)
    (Hinum : 0 <= i_inum ip < sb_ninodes (k_sb k)) (Ho : 0 <= off <= i_size ip) (Hn : 0 <= n)
    (HoM : off + n <= MAXFILE * 1024)
    (Hr : src_ready (k_mem k) (pr_pagetable p) L s (Z.to_nat n))
    (Hs : src_bytes (k_mem k) (pr_pagetable p) s (Z.to_nat n) = Some bs) (Hb : Forall byte_ok bs)
    (HS : footprint k S ip off n) :
  exists k', (writei i s off n;; readi i DLocal off n) k = Ret (n, bs) k'.
Proof.
  pose proof (length_src_bytes _ _ _ _ _ Hs) as Hlb. pose proof (io_size _ _ IO) as Hsz.
  destruct (writei_ok k me p S L i ip s off n bs) as (k1 & ip' & Ew & F' & FS & _ & I' & Eip & IO' & C' & _); auto.
  mcall Ew. destruct (ftx_read _ _ _ _ _ F') as (P & HB & HP & _).
  assert (k_inodes k1 !! i = Some ip') as Hi' by (rewrite I'; apply list_lookup_insert_eq; by eapply lookup_lt_Some).
  destruct (readi_ok k1 me p P L i ip' DLocal off n HB HP (fs_layout_step _ _ FS FL) Hi' IO') as (m' & k' & Er & _);
    [rewrite Eip; simpl; lia|done|lia|done|].
  exists k'. rewrite Er, C'. assert (getb (Z.to_nat off) (Z.to_nat n) (putb (Z.to_nat off) bs (content k ip)) = bs) as ->.
  { rewrite <- Hlb. apply getb_putb_same. rewrite length_content. lia. }
  do 2 f_equal. lia.
Qed.

End write.

(** The file "hello" of the demo file system is extended to "hel[1][2][3][4]". *)
Lemma fs_footprint k :
  k_sb k = fs_sb -> footprint k {[8; 11]} file_dinode 3 4.
Proof.
  intros Sb. constructor.
  - rewrite Sb. change (IBLOCK (i_inum file_dinode) fs_sb) with 8. set_solver.
  - intros H. destruct H. reflexivity.
  - intros x Hx _. assert (x = 0) as -> by (unfold nblocks in Hx; dlia). change (iblock k file_dinode 0) with 11. set_solver.
  - intros _. assert (needs k file_dinode (3 / 1024) (Z.to_nat (nblocks 3 4)) = 0%nat) as -> by reflexivity.
    split; [lia|]. rewrite take_0. intros b Hb. destruct (not_elem_of_nil _ Hb).
Qed.

Lemma writei_correct_witness :
  exists k k' ip', (binit;; begin_op) fs_state = Ret tt k /\ writei 1 (SBytes [1; 2; 3; 4]) 3 4 k = Ret 4 k' /\
    i_size ip' = 7 /\ content k' ip' = [104; 101; 108; 1; 2; 3; 4].
Proof.
  destruct (fs_boot_ftx {[8; 11]}) as (k & E & F & FL & U & Sb & I & _ & V); [vm_compute; lia|set_solver by lia|].
  pose proof (writei_correct k 0 demo_proc {[8; 11]} ∅ 1 file_dinode (SBytes [1; 2; 3; 4]) 3 4 [1; 2; 3; 4] F FL) as H.
  destruct H as (k' & ip' & Ew & _ & _ & _ & _ & Hz & _ & Hc & _).
  - intros b. rewrite Sb. unfold data_start. simpl. intros Hb. rewrite U by dlia. dlia.
  - rewrite I. reflexivity.
  - by apply fs_file_ok.
  - rewrite Sb. simpl. lia.
  - lia.
  - lia.
  - exact Logic.I.
  - reflexivity.
  - repeat constructor; unfold byte_ok; lia.
  - by apply fs_footprint.
  - exists k, k', ip'. split; [exact E|]. split; [exact Ew|]. split; [exact Hz|]. rewrite Hc, (fs_file_content k V). reflexivity.
Defined.

Lemma writei_readi_roundtrip_witness :
  exists k k', (binit;; begin_op) fs_state = Ret tt k /\
    (writei 1 (SBytes [1; 2; 3; 4]) 3 4;; readi 1 DLocal 3 4) k = Ret (4, [1; 2; 3; 4]) k'.
Proof.
  destruct (fs_boot_ftx {[8; 11]}) as (k & E & F & FL & U & Sb & I & _ & V); [vm_compute; lia|set_solver by lia|].
  destruct (writei_readi_roundtrip k 0 demo_proc {[8; 11]} ∅ 1 file_dinode (SBytes [1; 2; 3; 4]) 3 4 [1; 2; 3; 4] F FL)
    as (k' & Ew).
  - intros b. rewrite Sb. unfold data_start. simpl. intros Hb. rewrite U by dlia. dlia.
  - rewrite I. reflexivity.
  - by apply fs_file_ok.
  - rewrite Sb. simpl. lia.
  - simpl. lia.
  - lia.
  - lia.
  - exact Logic.I.
  - reflexivity.
  - repeat constructor; unfold byte_ok; lia.
  - by apply fs_footprint.
  - exists k, k'. split; [exact E|exact Ew].
Defined.
