(* ===== verification/Crash.v ===== *)
(** Crash safety of a file write: writei() inside a transaction, through the log,
    the disk and recovery. *)

From Stdlib Require Import ZArith Lia.
From stdpp Require Import base gmap strings list numbers.
From S2P Require Import Prelude Params State Spinlock Sched CString Kalloc Vm PageTable UserMem Copy Frame CopySpec.
From S2P Require Import Bio Cache Virtio Demo Log Commit Transaction Fs Dir DemoFs Blocks Content Alloc Dinode Write.

Open Scope Z_scope.

(** The contents depend on the addresses, the size and the file's blocks only. *)
Lemma content_ext k k' ip ip' :
  inode_ok k ip -> i_addrs ip' = i_addrs ip -> i_size ip' = i_size ip ->
  (forall x, data_block k x -> kview k' x = kview k x) -> content k' ip' = content k ip.
Proof.
  intros IO Ea Ez Hv. pose proof (io_size _ _ IO) as Hsz.
  assert (forall x, iblock k' ip' x = iblock k ip x) as Hb.
  { intros x. trans (iblock k' ip x); [unfold iblock, iind; by rewrite Ea|].
    apply iblock_keep. intros Hne. apply Hv. by apply IO. }
  unfold content. rewrite Ez. apply list_fmap_ext. intros j o Ho. apply list_elem_of_lookup_2, elem_of_seqz in Ho.
  unfold fbyte. rewrite Hb, Hv; [done|]. apply (io_blk _ _ IO); [dlia|]. apply (io_holes _ _ IO); dlia.
Qed.

Lemma inode_ok_fits k ip ip' :
  fs_layout k -> inode_ok k ip' -> inode_fits ip -> i_type ip' = i_type ip -> i_major ip' = i_major ip ->
  i_minor ip' = i_minor ip -> i_nlink ip' = i_nlink ip -> inode_fits ip'.
Proof.
  intros FL IO [H1 H2 H3 H4 _ _ _] E1 E2 E3 E4. pose proof (io_size _ _ IO). pose proof (io_len _ _ IO) as Hlen.
  assert (forall a, data_block k a -> 0 <= a < 2 ^ 32) as Hd.
  { intros a [Ha _]. destruct FL. unfold data_start in Ha. dlia. }
  constructor; rewrite ?E1, ?E2, ?E3, ?E4; auto; [lia|]. apply Forall_lookup. intros j a Hj.
  pose proof (lookup_lt_Some _ _ _ Hj) as Hlt. destruct (decide (a = 0)) as [->|Hne]; [lia|]. apply Hd.
  destruct (decide (j = NDIRECT)) as [->|Hn].
  - assert (iind ip' = a) as <- by (unfold iind; by rewrite (list_lookup_total_correct _ _ _ Hj)). by apply IO.
  - assert (iblock k ip' (Z.of_nat j) = a) as <-; [|apply IO; [lia|]].
    + unfold iblock. assert (Z.of_nat j <? Z.of_nat NDIRECT = true) as -> by (apply Z.ltb_lt; lia).
      rewrite Nat2Z.id. by rewrite (list_lookup_total_correct _ _ _ Hj).
    + unfold iblock. assert (Z.of_nat j <? Z.of_nat NDIRECT = true) as -> by (apply Z.ltb_lt; lia).
      rewrite Nat2Z.id. by rewrite (list_lookup_total_correct _ _ _ Hj).
Qed.

Section crash.
Context `{DL : DiskLaws} `{KI : KernelImage}.

(** C1: a file write is atomic across crashes.  A process that has opened a
    transaction writes bytes to a file with writei() and commits with end_op().
    If the machine crashes after any prefix of the disk writes of the commit, and
    any number of further crashes interrupt recovery, the next complete initlog()
    leaves on disk the inode and the contents of the file as they were before the
    write, or exactly those after it: never a mixture, never a part. *)
Theorem write_crash_atomic (k : kst) (me : nat) (p : proc) (S : gset Z) (L : gmap Z Z) (i : nat) (ip : inode) (s : src)
    (off n : Z) (bs : list Z)
    (HF : ftx k me p ∅ S) (FL : fs_layout k) (HM : meta_used k) (Hi : k_inodes k !! i = Some ip) (IO : inode_ok k ip)
    (Hinum : 0 <= i_inum ip < sb_ninodes (k_sb k)) (Ho : 0 <= off <= i_size ip) (Hn : 0 <= n)
    (HoM : off + n <= MAXFILE * 1024)
    (Hr : src_ready (k_mem k) (pr_pagetable p) L s (Z.to_nat n))
    (Hs : src_bytes (k_mem k) (pr_pagetable p) s (Z.to_nat n) = Some bs) (Hb : Forall byte_ok bs)
    (HS : footprint k S ip off n) (Hfit : inode_fits ip)
    (Hsync : forall ip0, load_dinode (dinode_off (i_inum ip)) (kview k (IBLOCK (i_inum ip) (k_sb k))) ip0 = with_dinode ip ip0)
    (Hclean : forall x, 0 <= x < sb_size (k_sb k) -> d_img (k_disk k) !! x = Some (kview k x))
    (Hout : l_outstanding (k_log k) = 1) (Hcom : l_committing (k_log k) = 0)
    (Hsb : sb_logstart (k_sb k) = l_start (k_log k) /\ sb_nlog (k_sb k) = l_size (k_log k)) :
  exists k1 k2 ip' ws, writei i s off n k = Ret n k1 /\ end_op k1 = Ret tt k2 /\ k_disk k2 = dwrite ws (k_disk k) /\
    i_size ip' = Z.max (i_size ip) (off + n) /\
    forall pre suf m kb me' p',
      ws = pre ++ suf -> reboots (k_sb k) (apply pre (d_img (k_disk k))) m ->
      bst kb me' p' ∅ ∅ -> d_img (k_disk kb) = m -> length (l_block (k_log kb)) = 30%nat ->
      exists kr, initlog ROOTDEV (k_sb k) kb = Ret tt kr /\
        let disk_inode ip0 := load_dinode (dinode_off (i_inum ip)) (kview kr (IBLOCK (i_inum ip) (k_sb k))) ip0 in
        (forall ip0, disk_inode ip0 = with_dinode ip ip0 /\ content kr (disk_inode ip0) = content k ip) \/
        (forall ip0, disk_inode ip0 = with_dinode ip' ip0 /\
           content kr (disk_inode ip0) = putb (Z.to_nat off) bs (content k ip)).
Proof.
  destruct (writei_ok k me p S L i ip s off n bs)
    as (k1 & ip' & Ew & F' & FS & M' & I' & Eip & IO' & C' & D' & K' & X'); auto.
  pose proof F' as [(blks & HB1 & HX1 & _ & _) _ _ _]. pose proof (step_sb _ _ FS) as Es. pose proof (fs_disk _ _ FS) as Ed.
  destruct (end_op_atomic k1 me p (list_to_set blks) blks (k_sb k) HB1 HX1) as (k2 & ws & Ee & D2 & Hh2 & Hcr);
    rewrite ?(fs_out _ _ FS), ?(fs_committing _ _ FS), ?(fs_start _ _ FS), ?(fs_size _ _ FS); try tauto.
  exists k1, k2, ip', ws. split; [done|]. split; [done|]. split; [by rewrite <- Ed|]. split; [by rewrite Eip|].
  intros pre suf m kb me' p' Hws Hreb HBb Hm Hlen. rewrite Ed in Hcr.
  destruct (Hcr pre suf m kb me' p' Hws Hreb HBb Hm Hlen) as (kr & Ei & HBr & Hcase).
  exists kr. split; [done|]. intros disk_inode.
  assert (forall x, sb_inodestart (k_sb k) <= x < sb_size (k_sb k) -> home (k_log k1) x) as Hhome.
  { intros x Hx. right. rewrite (fs_start _ _ FS), (fs_size _ _ FS). destruct FL. lia. }
  assert (forall x d, d_img (k_disk kr) !! x = Some d -> kview kr x = d) as Hvr.
  { intros x d Hd. by eapply (kview_disk kr me' p' ∅). }
  destruct (IBLOCK_eq k FL _ Hinum) as [_ Hir].
  assert (sb_inodestart (k_sb k) <= sb_bmapstart (k_sb k) <= data_start (k_sb k) /\ data_start (k_sb k) <= sb_size (k_sb k) /\
    0 <= sb_inodestart (k_sb k)) as (Hd1 & Hd2 & Hd3) by (destruct FL; unfold data_start in *; dlia).
  destruct (ftx_block_ok _ _ _ _ _ _ HF (IBLOCK_disk k FL _ Hinum)) as [Hlk _].
  destruct Hcase as [Hold|Hnew]; [left|right]; intros ip0.
  - assert (forall x, sb_inodestart (k_sb k) <= x < sb_size (k_sb k) -> kview kr x = kview k x) as Hv.
    { intros x Hx. apply Hvr. rewrite Hold by auto. apply Hclean. lia. }
    unfold disk_inode. rewrite Hv, Hsync by lia. split; [done|].
    apply (content_ext k kr ip); try done. intros x [Hx _]. apply Hv. lia.
  - assert (forall x, sb_inodestart (k_sb k) <= x < sb_size (k_sb k) -> kview kr x = kview k1 x) as Hv.
    { intros x Hx. apply Hvr. rewrite Hnew, Hh2 by auto. case_decide as Dx; [done|]. rewrite Ed.
      rewrite (Hclean x) by lia. f_equal. symmetry. eapply (kview_disk k1 me p (list_to_set blks)); [done|set_solver|].
      rewrite Ed. apply Hclean. lia. }
    assert (inode_fits ip') as Hfit' by (eapply (inode_ok_fits k1 ip ip'); eauto using fs_layout_step; by rewrite Eip).
    unfold disk_inode. rewrite Hv, X', decide_True by (done || lia).
    rewrite load_store_dinode by (done || rewrite Hlk; apply dinode_off_range). split; [done|].
    rewrite <- C'. apply (content_ext k1 kr ip'); try done. intros x [Hx _]. apply Hv. rewrite Es in Hx. lia.
Qed.

End crash.

Lemma write_crash_atomic_witness :
  exists k k1 k2, (binit;; begin_op) fs_state = Ret tt k /\ writei 1 (SBytes [1; 2; 3; 4]) 3 4 k = Ret 4 k1 /\
    end_op k1 = Ret tt k2.
Proof.
  destruct (fs_boot_ftx {[8; 11]}) as (k0 & E0 & F & FL & U & Sb & I & Im & V); [vm_compute; lia|set_solver by lia|].
  destruct fs_boot as (k & E & B & X & Lg & _). rewrite E0 in E. injection E as ->.
  assert (inode_fits file_dinode) as Hfit by (constructor; simpl; try lia; repeat constructor; lia).
  destruct (write_crash_atomic k 0 demo_proc {[8; 11]} ∅ 1 file_dinode (SBytes [1; 2; 3; 4]) 3 4 [1; 2; 3; 4] F FL)
    as (k1 & k2 & ip' & ws & Ew & Ee & _).
  - intros b. rewrite Sb. unfold data_start. simpl. intros Hb. rewrite U by dlia. dlia.
  - rewrite I. reflexivity.
  - by apply fs_file_ok.
  - rewrite Sb. simpl. lia.
  - simpl. lia.
  - lia.
  - lia.
  - exact Logic.I.
  - reflexivity.
  - repeat constructor; unfold byte_ok; lia.
  - by apply fs_footprint.
  - exact Hfit.
  - intros ip0. rewrite Sb. change (IBLOCK (i_inum file_dinode) fs_sb) with 8. rewrite V by lia.
    rewrite fs_block_8. apply load_store_dinode; [exact Hfit|]. rewrite length_store_dinode; [vm_compute; lia|vm_compute; lia|reflexivity].
  - rewrite Sb, Im. simpl. intros x Hx. rewrite V by lia. apply fs_img_lookup. lia.
  - rewrite Lg. reflexivity.
  - rewrite Lg. reflexivity.
  - rewrite Lg, Sb. split; reflexivity.
  - exists k, k1, k2. split; [exact E0|]. split; [exact Ew|exact Ee].
Defined.
