(* ===== verification/DirSpec.v ===== *)
(** Directories as lists of entries: dirlookup() and dirlink() (kernel/fs.c). *)

From Stdlib Require Import ZArith Lia.
From stdpp Require Import base gmap strings list numbers.
From S2P Require Import Prelude Params State Spinlock Sched CString Kalloc Vm PageTable UserMem Copy Frame CopySpec.
From S2P Require Import Bio Cache Virtio Demo Log Commit Transaction Fs Dir Path DemoFs Blocks Content Alloc Itable Dinode Write.

Open Scope Z_scope.

(** ** The entries of a directory *)

Definition dirents (k : kst) (ip : inode) : list (list Z) :=
  (fun j => getb (SIZEOF_DIRENT * j) SIZEOF_DIRENT (content k ip)) <$> seq 0 (Z.to_nat (i_size ip / 16)).

(** A used entry for [name]. *)
Definition de_match (name de : list Z) : Prop := de_inum de <> 0 /\ cstr (take DIRSIZ name) = cstr (de_name de).
#[export] Instance de_match_dec name de : Decision (de_match name de).
Proof. unfold de_match. apply _. Defined.

(** A directory: its size is a whole number of entries. *)
Record dir_ok (k : kst) (ip : inode) : Prop := DirOk {
  do_inode : inode_ok k ip;
  do_type : i_type ip = T_DIR;
  do_size : i_size ip `mod` 16 = 0 }.

Lemma length_dirents k ip : length (dirents k ip) = Z.to_nat (i_size ip / 16).
Proof. unfold dirents. by rewrite length_fmap, length_seq. Qed.

Lemma lookup_dirents k ip j : (j < Z.to_nat (i_size ip / 16))%nat ->
  dirents k ip !! j = Some (getb (16 * j) 16 (content k ip)).
Proof. intros Hj. unfold dirents. rewrite list_lookup_fmap, lookup_seq_lt by done. done. Qed.

Lemma dirents_same k k' ip : same_blocks k k' -> dirents k' ip = dirents k ip.
Proof. intros A. unfold dirents. by rewrite (content_same k k' A). Qed.

Lemma dir_ok_same k k' ip : same_blocks k k' -> dir_ok k ip -> dir_ok k' ip.
Proof. intros A []. constructor; try done. by eapply inode_ok_same. Qed.

Lemma namecmp_match name de : length de = SIZEOF_DIRENT ->
  (namecmp name (de_name de) = 0) <-> cstr (take DIRSIZ name) = cstr (de_name de).
Proof.
  intros Hl. rewrite namecmp_eq. rewrite (take_ge (de_name de)); [done|].
  unfold de_name, getb. rewrite length_take. lia.
Qed.

(** The index of the first unused entry, or the end of the directory. *)
Fixpoint free_slot (ents : list (list Z)) : nat :=
  match ents with
  | [] => 0
  | de :: ents => if de_inum de =? 0 then 0 else S (free_slot ents)
  end.

Lemma free_slot_le ents : (free_slot ents <= length ents)%nat.
Proof. induction ents as [|de ents IH]; simpl; [lia|]. destruct (_ =? 0); lia. Qed.

Lemma length_mk_dirent inum name : length (mk_dirent inum name) = SIZEOF_DIRENT.
Proof. unfold mk_dirent. by rewrite length_app, length_bytes_of, length_strncpy. Qed.

Lemma mk_dirent_bytes inum name : Forall byte_ok name -> Forall byte_ok (mk_dirent inum name).
Proof.
  intros Hb. apply Forall_app. split; [apply bytes_of_ok|]. unfold strncpy. generalize DIRSIZ 0.
  induction n as [|n IH]; intros z; cbn [strncpy_at]; [done|]. constructor.
  - unfold aptr. destruct (name !! Z.to_nat z) as [c|] eqn:E; [by eapply Forall_lookup_1 in E|]. simpl. unfold byte_ok. lia.
  - destruct (_ =? 0); [|done]. apply Forall_replicate. unfold byte_ok. lia.
Qed.

Lemma de_inum_mk inum name : de_inum (mk_dirent inum name) = inum `mod` 2 ^ 16.
Proof.
  unfold de_inum, get16, getb, mk_dirent. rewrite drop_0, take_app_le by (by rewrite length_bytes_of).
  rewrite take_ge by (by rewrite length_bytes_of). apply (of_bytes_of 2).
Qed.

(** strncpy() keeps the string. *)
Lemma cstr_strncpy_at p n : forall i, cstr (strncpy_at p i n) = cstr (p <$> seqz i n).
Proof.
  induction n as [|n IH]; intros i; [done|]. rewrite seqz_S, fmap_cons. cbn [strncpy_at cstr].
  destruct (p i =? 0); [done|]. by rewrite IH.
Qed.

Lemma de_name_mk inum name : cstr (de_name (mk_dirent inum name)) = cstr (take DIRSIZ name).
Proof.
  unfold de_name, getb, mk_dirent. rewrite drop_app_length' by (by rewrite length_bytes_of).
  rewrite take_ge by (by rewrite length_strncpy). unfold strncpy. rewrite cstr_strncpy_at.
  apply (cstr_aptr name DIRSIZ 0).
Qed.

(** Storing an entry, at the end of the directory or before it. *)
Lemma dirents_put k ip k' ip' n de :
  length de = SIZEOF_DIRENT -> 0 <= i_size ip -> i_size ip `mod` 16 = 0 -> (n <= Z.to_nat (i_size ip / 16))%nat ->
  i_size ip' = Z.max (i_size ip) (16 * Z.of_nat n + 16) ->
  content k' ip' = putb (16 * n) de (content k ip) ->
  dirents k' ip' = take n (dirents k ip) ++ de :: drop (S n) (dirents k ip).
Proof.
  intros Hl H0 Hm Hn Hs Hc. apply list_eq. intros j.
  assert (16 * n <= length (content k ip))%nat as Hle by (rewrite length_content; dlia).
  destruct (decide (j < Z.to_nat (i_size ip' / 16))%nat) as [Hj|Hj].
  2: { rewrite !lookup_ge_None_2; [done| |rewrite length_dirents; lia].
       rewrite length_app, length_take, length_cons, length_drop, length_dirents. dlia. }
  rewrite lookup_dirents by done. rewrite Hc.
  destruct (decide (j = n)) as [->|Hne].
  - rewrite list_lookup_middle by (rewrite length_take, length_dirents; lia).
    f_equal. pose proof (getb_putb_same (16 * n) de (content k ip) Hle) as G. by rewrite Hl in G.
  - assert (j < Z.to_nat (i_size ip / 16))%nat as Hj' by dlia.
    trans (dirents k ip !! j).
    + rewrite lookup_dirents by done. f_equal. apply list_eq. intros x. rewrite !lookup_getb. case_decide; [|done].
      rewrite lookup_putb_ext by done. rewrite decide_False by lia. done.
    + assert (length (take n (dirents k ip)) = n) as Ht by (rewrite length_take, length_dirents; lia).
      destruct (decide (j < n)%nat).
      * rewrite lookup_app_l, lookup_take_lt by lia. done.
      * rewrite lookup_app_r by lia. rewrite Ht. destruct (j - n)%nat as [|x] eqn:Ex; [lia|].
        change ((de :: drop (S n) (dirents k ip)) !! S x) with (drop (S n) (dirents k ip) !! x). rewrite lookup_drop. f_equal. lia.
Qed.

Lemma meta_used_same k k' : same_blocks k k' -> meta_used k -> meta_used k'.
Proof. intros A HM b Hb. rewrite (bit_used_same _ _ _ A). apply HM. destruct A as [F _ _]. by rewrite <- (step_sb _ _ F). Qed.

Lemma footprint_same k k' S ip off n : same_blocks k k' -> footprint k S ip off n -> footprint k' S ip off n.
Proof.
  intros A [F1 F2 F3 F4]. pose proof A as [F _ _]. pose proof (step_sb _ _ F) as Sb.
  assert (free_blocks k' = free_blocks k) as Ef.
  { unfold free_blocks. rewrite Sb. apply list_filter_iff. intros b. by rewrite (bit_used_same _ _ _ A). }
  assert (forall lo m, needs k' ip lo m = needs k ip lo m) as En.
  { intros lo m. unfold needs. f_equal. f_equal. apply list_filter_iff. intros x. by rewrite (iblock_same _ _ A). }
  constructor; rewrite ?Sb; auto.
  - intros x Hx. rewrite (iblock_same _ _ A). auto.
  - unfold may_alloc. by rewrite En, Ef, Sb.
Qed.

Section dirs.
Context `{DL : DiskLaws} `{KI : KernelImage}.

(** Reading entry [j]. *)
Lemma read_dirent k me p P i ip j de :
  bst k me p ∅ P -> (size P < NBUF)%nat -> fs_layout k -> k_inodes k !! i = Some ip -> dir_ok k ip ->
  dirents k ip !! j = Some de ->
  exists k', readi i DLocal (16 * Z.of_nat j) 16 k = Ret (16, de) k' /\ bst k' me p ∅ P /\ rstep k k' /\
    length de = SIZEOF_DIRENT.
Proof.
  intros HB HP FL Hi [IO _ Hm] Hj. pose proof (lookup_lt_Some _ _ _ Hj) as Hlt. rewrite length_dirents in Hlt.
  rewrite lookup_dirents in Hj by done. injection Hj as <-. pose proof (io_size _ _ IO) as Hsz.
  destruct (readi_ok k me p P ∅ i ip DLocal (16 * Z.of_nat j) 16 HB HP FL Hi IO) as (m' & k' & E & B' & R' & Hp);
    [dlia|lia|dlia|done|]. simpl in Hp. subst m'.
  assert (set_k_mem (k_mem k) k = k) as Ek by by destruct k. rewrite Ek in R'.
  replace (Z.to_nat (16 * Z.of_nat j)) with (16 * j)%nat in E by lia. change (Z.to_nat 16) with 16%nat in E.
  assert (length (getb (16 * j) 16 (content k ip)) = 16%nat) as Hl.
  { unfold getb. rewrite length_take, length_drop, length_content. dlia. }
  rewrite Hl in E. exists k'. done.
Qed.

(** The loop of dirlookup() from entry [j]. *)
Lemma dirlookup_loop_ok fuel : forall k me p P i ip name j,
  bst k me p ∅ P -> (size P < NBUF)%nat -> fs_layout k -> k_inodes k !! i = Some ip -> dir_ok k ip ->
  (j <= Z.to_nat (i_size ip / 16))%nat -> (Z.to_nat (i_size ip / 16) - j < fuel)%nat ->
  exists k', bst k' me p ∅ P /\ rstep k k' /\
    dirlookup_loop fuel i name (16 * Z.of_nat j) k =
      match list_find (de_match name) (drop j (dirents k ip)) with
      | None => Ret None k'
      | Some (n, de) => (x ← iget ROOTDEV (de_inum de); mret (Some (x, 16 * Z.of_nat (j + n)))) k'
      end.
Proof.
  induction fuel as [|fuel IH]; intros k me p P i ip name j HB HP FL Hi DK Hj Hf; [lia|].
  pose proof DK as [IO Hty Hm]. pose proof (io_size _ _ IO) as Hsz. cbn [dirlookup_loop].
  rewrite (bind_ret _ _ _ _ _ (getinode_eq k i ip Hi)).
  destruct (16 * Z.of_nat j <? i_size ip) eqn:Elt; cbn [negb].
  2: { exists k. split; [done|]. split; [done|]. rewrite drop_ge by (rewrite length_dirents; dlia). done. }
  assert (j < Z.to_nat (i_size ip / 16))%nat as Hlt by dlia.
  destruct (lookup_lt_is_Some_2 (dirents k ip) j) as [de Hde]; [by rewrite length_dirents|].
  destruct (read_dirent k me p P i ip j de HB HP FL Hi DK Hde) as (k1 & E1 & B1 & R1 & Hl).
  change (Z.of_nat SIZEOF_DIRENT) with 16. rewrite (bind_ret _ _ _ _ _ E1). change (16 =? 16) with true. cbn [negb].
  rewrite (drop_S _ _ _ Hde). cbn [list_find]. pose proof (rstep_same _ _ R1) as A1.
  assert (~ de_match name de -> exists k', bst k' me p ∅ P /\ rstep k k' /\
    dirlookup_loop fuel i name (u32 (16 * Z.of_nat j + 16)) k1 =
      match prod_map S id <$> list_find (de_match name) (drop (S j) (dirents k ip)) with
      | None => Ret None k'
      | Some (n, de) => (x ← iget ROOTDEV (de_inum de); mret (Some (x, 16 * Z.of_nat (j + n)))) k'
      end) as Hnext.
  { intros _. rewrite u32_small by dlia. replace (16 * Z.of_nat j + 16) with (16 * Z.of_nat (S j)) by lia.
    destruct (IH k1 me p P i ip name (S j) B1 HP) as (k' & B' & R' & E'); [| | |lia|lia|].
    - eapply fs_layout_step; [apply A1|done].
    - by rewrite (rstep_inodes _ _ R1).
    - by eapply dir_ok_same.
    - exists k'. split; [done|]. split; [by etrans|]. rewrite (dirents_same _ _ _ A1) in E'.
      rewrite E'. clear. destruct (list_find (de_match name) (drop (S j) (dirents k ip))) as [[n de']|]; [|reflexivity]. cbn. by rewrite Nat.add_succ_r. }
  destruct (de_inum de =? 0) eqn:E0.
  { apply Z.eqb_eq in E0. assert (~ de_match name de) as Hn by (intros [? _]; done).
    rewrite decide_False by done. auto. }
  apply Z.eqb_neq in E0. pose proof (namecmp_match name de Hl) as Hnm. destruct (namecmp name (de_name de) =? 0) eqn:En.
  - apply Z.eqb_eq in En. rewrite decide_True by (split; tauto). rewrite <- (rstep_inodes _ _ R1) in Hi.
    rewrite (bind_ret _ _ _ _ _ (getinode_eq k1 i ip Hi)), (io_dev _ _ IO), Nat.add_0_r. eauto.
  - apply Z.eqb_neq in En. assert (~ de_match name de) as Hn by (intros [_ ?]; tauto). rewrite decide_False by done. auto.
Qed.

Lemma dirlookup_ok k me p P i ip name :
  bst k me p ∅ P -> (size P < NBUF)%nat -> fs_layout k -> k_inodes k !! i = Some ip -> dir_ok k ip ->
  exists k', bst k' me p ∅ P /\ rstep k k' /\
    dirlookup i name k =
      match list_find (de_match name) (dirents k ip) with
      | None => Ret None k'
      | Some (n, de) => (x ← iget ROOTDEV (de_inum de); mret (Some (x, 16 * Z.of_nat n))) k'
      end.
Proof.
  intros HB HP FL Hi DK. unfold dirlookup. rewrite (bind_ret _ _ _ _ _ (getinode_eq k i ip Hi)), (do_type _ _ DK).
  cbn [negb Z.eqb]. change (negb (T_DIR =? T_DIR)) with false. cbv iota.
  destruct (dirlookup_loop_ok (Z.to_nat (i_size ip / 16) + 2) k me p P i ip name 0 HB HP FL Hi DK)
    as (k' & B' & R' & E); [lia|lia|]. rewrite drop_0 in E. eauto.
Qed.

(** C30: dirlookup() on a directory returns null exactly when no used entry has
    the name.  Otherwise it finds the first such entry: it returns that entry's
    offset and an inode-table entry for its inode number, with one more
    reference.  No block changes. *)
Theorem dirlookup_correct (k : kst) (me : nat) (p : proc) (P : gset Z) (i : nat) (ip : inode) (name : list Z)
    (HB : bst k me p ∅ P) (HP : (size P < NBUF)%nat) (FL : fs_layout k) (Hi : k_inodes k !! i = Some ip)
    (DK : dir_ok k ip) (IT : itable_ok (k_inodes k)) (Hroom : exists jp, jp ∈ k_inodes k /\ i_ref jp = 0)
    (Hmax : forall n, irefs ROOTDEV n (k_inodes k) < 2 ^ 31 - 2) :
  match list_find (de_match name) (dirents k ip) with
  | None => exists k', dirlookup i name k = Ret None k' /\ bst k' me p ∅ P /\ rstep k k'
  | Some (n, de) => exists x xp tab k',
      dirlookup i name k = Ret (Some (x, 16 * Z.of_nat n)) k' /\ k_inodes k' = tab /\ tab !! x = Some xp /\
      is_inode ROOTDEV (de_inum de) xp /\ itable_ok tab /\
      irefs ROOTDEV (de_inum de) tab = irefs ROOTDEV (de_inum de) (k_inodes k) + 1 /\
      rstep (set_k_inodes tab k) k'
  end.
Proof.
  destruct (dirlookup_ok k me p P i ip name HB HP FL Hi DK) as (k1 & B1 & R1 & E). rewrite E.
  destruct (list_find (de_match name) (dirents k ip)) as [[n de]|]; [|eauto].
  rewrite <- (rstep_inodes _ _ R1) in *. destruct Hroom as (jp & Hj & H0).
  destruct (iget_some k1 me p ROOTDEV (de_inum de) (bs_quiet _ _ _ _ _ B1) IT (Hmax _))
    as (x & xp & tab & Eg & Hx & Hm & _ & IT' & Hr & _); [eauto|].
  mcall Eg. exists x, xp, tab, (set_k_inodes tab k1). split_and!; auto. by apply rstep_set_inodes.
Qed.

(** The search of dirlink() for an unused entry, from entry [j]. *)
Lemma dirlink_loop_ok fuel : forall k me p P i ip j,
  bst k me p ∅ P -> (size P < NBUF)%nat -> fs_layout k -> k_inodes k !! i = Some ip -> dir_ok k ip ->
  (j <= Z.to_nat (i_size ip / 16))%nat -> (Z.to_nat (i_size ip / 16) - j < fuel)%nat ->
  exists k', bst k' me p ∅ P /\ rstep k k' /\
    dirlink_loop fuel i (16 * Z.of_nat j) k = Ret (16 * Z.of_nat (j + free_slot (drop j (dirents k ip)))) k'.
Proof.
  induction fuel as [|fuel IH]; intros k me p P i ip j HB HP FL Hi DK Hj Hf; [lia|].
  pose proof DK as [IO Hty Hm]. pose proof (io_size _ _ IO) as Hsz. cbn [dirlink_loop].
  rewrite (bind_ret _ _ _ _ _ (getinode_eq k i ip Hi)).
  destruct (16 * Z.of_nat j <? i_size ip) eqn:Elt; cbn [negb].
  2: { exists k. split; [done|]. split; [reflexivity|]. rewrite drop_ge by (rewrite length_dirents; dlia).
       simpl. by rewrite Nat.add_0_r. }
  assert (j < Z.to_nat (i_size ip / 16))%nat as Hlt by dlia.
  destruct (lookup_lt_is_Some_2 (dirents k ip) j) as [de Hde]; [by rewrite length_dirents|].
  destruct (read_dirent k me p P i ip j de HB HP FL Hi DK Hde) as (k1 & E1 & B1 & R1 & Hl).
  change (Z.of_nat SIZEOF_DIRENT) with 16. rewrite (bind_ret _ _ _ _ _ E1). change (16 =? 16) with true. cbn [negb].
  rewrite (drop_S _ _ _ Hde). cbn [free_slot]. pose proof (rstep_same _ _ R1) as A1.
  destruct (de_inum de =? 0); [exists k1; split; [done|]; split; [done|]; by rewrite Nat.add_0_r|].
  replace (16 * Z.of_nat j + 16) with (16 * Z.of_nat (S j)) by lia.
  destruct (IH k1 me p P i ip (S j) B1 HP) as (k' & B' & R' & E'); [| | |lia|lia|].
  - eapply fs_layout_step; [apply A1|done].
  - by rewrite (rstep_inodes _ _ R1).
  - by eapply dir_ok_same.
  - exists k'. split; [done|]. split; [by etrans|]. rewrite E', (dirents_same _ _ _ A1). do 3 f_equal. lia.
Qed.

(** dirlink() of a new name. *)
Lemma dirlink_ok k me p S i ip name inum :
  ftx k me p ∅ S -> fs_layout k -> meta_used k -> k_inodes k !! i = Some ip -> dir_ok k ip ->
  0 <= i_inum ip < sb_ninodes (k_sb k) -> Forall byte_ok name ->
  list_find (de_match name) (dirents k ip) = None ->
  let n := free_slot (dirents k ip) in
  16 * Z.of_nat n + 16 <= MAXFILE * 1024 -> footprint k S ip (16 * Z.of_nat n) 16 ->
  exists k' ip', dirlink i name inum k = Ret 0 k' /\ ftx k' me p ∅ S /\ fstep k k' /\ meta_used k' /\
    k_inodes k' = <[i := ip']> (k_inodes k) /\ dir_ok k' ip' /\
    dirents k' ip' = take n (dirents k ip) ++ mk_dirent inum name :: drop (Datatypes.S n) (dirents k ip).
Proof.
  intros HF FL HM Hi DK Hinum Hnm Hfind n Hmax FP. pose proof DK as [IO Hty Hm]. pose proof (io_size _ _ IO) as Hsz.
  destruct (ftx_read _ _ _ _ _ HF) as (P & HB & HP & Hback).
  destruct (dirlookup_ok k me p P i ip name HB HP FL Hi DK) as (k1 & B1 & R1 & E1). rewrite Hfind in E1.
  unfold dirlink. mcall E1. pose proof (rstep_same _ _ R1) as A1. rewrite <- (rstep_inodes _ _ R1) in Hi.
  mcall (getinode_eq k1 i ip Hi).
  destruct (dirlink_loop_ok (Z.to_nat (i_size ip / 16) + 2) k1 me p P i ip 0 B1 HP) as (k2 & B2 & R2 & E2);
    [eapply fs_layout_step; [apply A1|done]|done|by eapply dir_ok_same|lia|lia|].
  rewrite drop_0, (dirents_same _ _ _ A1) in E2. fold n in E2. change (16 * Z.of_nat 0) with 0 in E2. mcall E2.
  assert (rstep k k2) as R02 by (by etrans). pose proof (rstep_same _ _ R02) as A2. pose proof (Hback _ B2 R02) as F2.
  rewrite (rstep_inodes _ _ R1), <- (rstep_inodes _ _ R02) in Hi.
  pose proof (free_slot_le (dirents k ip)) as Hn. rewrite length_dirents in Hn. fold n in Hn.
  destruct (writei_ok k2 me p S ∅ i ip (SBytes (mk_dirent inum name)) (16 * Z.of_nat n) 16 (mk_dirent inum name))
    as (k3 & ip' & E3 & F3 & FS & M3 & I3 & Eip & IO3 & C3 & _); auto.
  - eapply fs_layout_step; [apply A2|done].
  - by eapply meta_used_same.
  - by eapply inode_ok_same.
  - by rewrite (rstep_sb _ _ R02).
  - dlia.
  - lia.
  - exact I.
  - pose proof (length_mk_dirent inum name) as Hl. cbn [src_bytes]. rewrite decide_True by (rewrite Hl; done).
    by rewrite take_ge by (rewrite Hl; done).
  - by apply mk_dirent_bytes.
  - by eapply footprint_same.
  - change (Z.of_nat SIZEOF_DIRENT) with 16. mcall E3. exists k3, ip'. split; [reflexivity|]. split; [done|].
    split; [etrans; [apply A2|exact FS]|]. split; [done|]. split; [by rewrite I3, (rstep_inodes _ _ R02)|].
    assert (i_size ip' = Z.max (i_size ip) (16 * Z.of_nat n + 16)) as Es by (by rewrite Eip).
    split; [constructor; [done|by rewrite Eip|rewrite Es; dlia]|].
    rewrite (content_same _ _ A2) in C3. apply dirents_put; auto; [apply length_mk_dirent|lia|].
    by replace (16 * n)%nat with (Z.to_nat (16 * Z.of_nat n)) by lia.
Qed.

(** dirlink() of a name the directory has. *)
Lemma dirlink_exists k me p P i ip name inum n de :
  bst k me p ∅ P -> (size P < NBUF)%nat -> fs_layout k -> k_inodes k !! i = Some ip -> dir_ok k ip ->
  itable_ok (k_inodes k) -> (exists jp, jp ∈ k_inodes k /\ i_ref jp = 0) ->
  (forall n, irefs ROOTDEV n (k_inodes k) < 2 ^ 31 - 2) ->
  list_find (de_match name) (dirents k ip) = Some (n, de) ->
  exists tab k', dirlink i name inum k = Ret (-1) (set_k_inodes tab k') /\ rstep k k' /\
    forall d x, irefs d x tab = irefs d x (k_inodes k).
Proof.
  intros HB HP FL Hi DK IT (jp & Hj & H0) Hmax Hfind.
  destruct (dirlookup_ok k me p P i ip name HB HP FL Hi DK) as (k1 & B1 & R1 & E1). rewrite Hfind in E1.
  rewrite <- (rstep_inodes _ _ R1) in IT, Hj, Hmax |- *.
  assert (exists jp, jp ∈ k_inodes k1 /\ (is_inode ROOTDEV (de_inum de) jp \/ i_ref jp = 0)) as Hroom by eauto.
  destruct (iget_iput_ok k1 me p ROOTDEV (de_inum de) (bs_quiet _ _ _ _ _ B1) IT (Hmax _) Hroom) as (tab & E2 & Ht).
  exists tab, k1. split; [|done]. unfold dirlink. unfold mbind, M_bind in *. rewrite E1.
  destruct (iget ROOTDEV (de_inum de) k1) as [x k2| | |]; try done. simpl. by rewrite E2.
Qed.

(** C29: dirlink() refuses a name the directory already has: it returns -1, and
    no block and no inode reference count changes.  Otherwise it stores the new
    entry in the first unused slot, or at the end of the directory, and keeps
    every other entry in its place. *)
Theorem dirlink_correct (k : kst) (me : nat) (p : proc) (S : gset Z) (i : nat) (ip : inode) (name : list Z) (inum : Z)
    (HF : ftx k me p ∅ S) (FL : fs_layout k) (HM : meta_used k) (Hi : k_inodes k !! i = Some ip) (DK : dir_ok k ip)
    (Hinum : 0 <= i_inum ip < sb_ninodes (k_sb k)) (Hnm : Forall byte_ok name)
    (IT : itable_ok (k_inodes k)) (Hroom : exists jp, jp ∈ k_inodes k /\ i_ref jp = 0)
    (Hmax : forall n, irefs ROOTDEV n (k_inodes k) < 2 ^ 31 - 2)
    (Hsize : 16 * Z.of_nat (free_slot (dirents k ip)) + 16 <= MAXFILE * 1024)
    (FP : footprint k S ip (16 * Z.of_nat (free_slot (dirents k ip))) 16) :
  match list_find (de_match name) (dirents k ip) with
  | Some _ => exists tab k', dirlink i name inum k = Ret (-1) (set_k_inodes tab k') /\ rstep k k' /\
      forall d x, irefs d x tab = irefs d x (k_inodes k)
  | None => exists k' ip', dirlink i name inum k = Ret 0 k' /\ ftx k' me p ∅ S /\ fs_layout k' /\ meta_used k' /\
      k_inodes k' = <[i := ip']> (k_inodes k) /\ dir_ok k' ip' /\
      let n := free_slot (dirents k ip) in
      dirents k' ip' = take n (dirents k ip) ++ mk_dirent inum name :: drop (Datatypes.S n) (dirents k ip)
  end.
Proof.
  destruct (list_find (de_match name) (dirents k ip)) as [[n de]|] eqn:Ef.
  - destruct (ftx_read _ _ _ _ _ HF) as (P & HB & HP & _). by eapply dirlink_exists.
  - destruct (dirlink_ok k me p S i ip name inum HF FL HM Hi DK Hinum Hnm Ef Hsize FP)
      as (k' & ip' & E & F' & FS & M' & I' & D' & Ed). exists k', ip'. split_and!; auto. by eapply fs_layout_step.
Qed.

End dirs.

(** ** The root directory of the demo file system *)

Lemma fs_root_ok k :
  k_sb k = fs_sb -> (forall b, 0 <= b < 16 -> bit_used k b = (b <? 12)) -> dir_ok k root_dinode.
Proof.
  intros Sb U. constructor; [|done|done]. apply (one_block_ok k root_dinode 10); try done. by apply fs_data_block.
Qed.

Lemma fs_root_dirents k : (forall bn, 0 <= bn < 16 -> kview k bn = fs_block bn) ->
  dirents k root_dinode = [1 :: 0 :: 46 :: replicate 13 0; 2 :: 0 :: 97 :: replicate 13 0].
Proof.
  intros V. unfold dirents. rewrite (one_block_content k root_dinode 10) by done. rewrite V by lia. vm_compute. reflexivity.
Qed.

Lemma fs_room : (exists jp, jp ∈ fs_inodes /\ i_ref jp = 0) /\ forall n, irefs ROOTDEV n fs_inodes < 2 ^ 31 - 2.
Proof.
  split; [exists inode0; split; [|done]; unfold fs_inodes; apply list_elem_of_further, list_elem_of_further, list_elem_of_here|].
  intros n. unfold irefs, fs_inodes. cbn [fmap list_fmap foldr].
  change (iref1 ROOTDEV n root_dinode + (iref1 ROOTDEV n file_dinode + irefs ROOTDEV n (replicate 48 inode0)) < 2 ^ 31 - 2).
  rewrite irefs_zero; [|intros ip ->%elem_of_replicate_inv (H & _); simpl in H; lia].
  unfold iref1. repeat case_decide; simpl; lia.
Qed.

(** The root directory's inode and first block, to add an entry. *)
Lemma fs_root_footprint k : k_sb k = fs_sb -> footprint k {[8; 10]} root_dinode 32 16.
Proof.
  intros Sb. constructor.
  - rewrite Sb. change (IBLOCK (i_inum root_dinode) fs_sb) with 8. set_solver.
  - intros H. destruct H. reflexivity.
  - intros x Hx _. assert (x = 0) as -> by (unfold nblocks in Hx; dlia). change (iblock k root_dinode 0) with 10. set_solver.
  - intros _. assert (needs k root_dinode (32 / 1024) (Z.to_nat (nblocks 32 16)) = 0%nat) as -> by reflexivity.
    split; [lia|]. rewrite take_0. intros b Hb. destruct (not_elem_of_nil _ Hb).
Qed.

(** "a" is the second entry. *)
Lemma dirlookup_correct_witness :
  exists k k' x, (binit;; begin_op) fs_state = Ret tt k /\ dirlookup 0 [97] k = Ret (Some (x, 16)) k'.
Proof.
  destruct (fs_boot_ftx ∅) as (k & E & F & FL & U & Sb & I & _ & V);
    [vm_compute; lia|intros x Hx; destruct (not_elem_of_empty x Hx)|].
  destruct (ftx_read _ _ _ _ _ F) as (P & HB & HP & _). pose proof fs_room as [Hr Hm]. rewrite <- I in Hr, Hm.
  pose proof (dirlookup_correct k 0 demo_proc P 0 root_dinode [97] HB HP FL) as H.
  rewrite (fs_root_dirents k V) in H.
  destruct H as (x & xp & tab & k' & Ed & _).
  - rewrite I. reflexivity.
  - exact (fs_root_ok k Sb U).
  - rewrite I. exact fs_inodes_ok.
  - exact Hr.
  - exact Hm.
  - exists k, k', x. split; [exact E|exact Ed].
Defined.

(** A new name "b" is the third entry. *)
Lemma dirlink_correct_witness :
  exists k k' ip', (binit;; begin_op) fs_state = Ret tt k /\ dirlink 0 [98] 2 k = Ret 0 k' /\
    dirents k' ip' = dirents k root_dinode ++ [2 :: 0 :: 98 :: replicate 13 0].
Proof.
  destruct (fs_boot_ftx {[8; 10]}) as (k & E & F & FL & U & Sb & I & _ & V); [vm_compute; lia|set_solver by lia|].
  pose proof fs_room as [Hr Hm]. rewrite <- I in Hr, Hm.
  pose proof (dirlink_correct k 0 demo_proc {[8; 10]} 0 root_dinode [98] 2 F FL) as H. rewrite (fs_root_dirents k V) in *.
  destruct H as (k' & ip' & Ed & _ & _ & _ & _ & _ & He).
  - intros b. rewrite Sb. unfold data_start. simpl. intros Hb. rewrite U by dlia. dlia.
  - rewrite I. reflexivity.
  - exact (fs_root_ok k Sb U).
  - rewrite Sb. simpl. lia.
  - repeat constructor; unfold byte_ok; lia.
  - rewrite I. exact fs_inodes_ok.
  - exact Hr.
  - exact Hm.
  - change (free_slot _) with 2%nat. lia.
  - exact (fs_root_footprint k Sb).
  - exists k, k', ip'. split; [exact E|]. split; [exact Ed|]. rewrite (fs_root_dirents k V), He.
    vm_compute. reflexivity.
Defined.
