(* ===== verification/Mkfs.v ===== *)
(** mkfs/mkfs.c: the program that makes the initial file system image.  It runs on
    a little-endian host, where xshort() and xint() keep their argument; the image
    file is a list of blocks.  Messages to the terminal are left out. *)

From Stdlib Require Import ZArith Lia.
From stdpp Require Import base gmap strings list numbers.
From S2P Require Import Prelude Params State CString Fs.

Open Scope Z_scope.

Module Mkfs.

Abbreviation NINODES := 200.

(** The image file and the globals freeinode and freeblock. *)
Record mkst := Mkst { m_img : list (list Z); m_freeinode : Z; m_freeblock : Z }.

(** A result, die() with a message, or a failed assert(). *)
Inductive fres (A : Type) := FOk (a : A) (s : mkst) | FDie (msg : list Z) | FAssert.
Arguments FOk {A} a s.
Arguments FDie {A} msg.
Arguments FAssert {A}.

Definition F (A : Type) : Type := mkst -> fres A.
#[export] Instance F_ret : MRet F := fun A a s => FOk a s.
#[export] Instance F_bind : MBind F := fun A B f m s =>
  match m s with
  | FOk a s => f a s
  | FDie msg => FDie msg
  | FAssert => FAssert
  end.

Definition die {A} (msg : list Z) : F A := fun _ => FDie msg.
Definition assert (b : bool) : F unit := fun s => if b then FOk tt s else FAssert.

(** ** Layout *)

Definition nbitmap : Z := FSSIZE / (1024 * 8) + 1.
Definition ninodeblocks : Z := NINODES / IPB + 1.
Definition nlog : Z := LOGSIZE.
Definition nmeta : Z := 2 + nlog + ninodeblocks + nbitmap.
Definition nblocks : Z := FSSIZE - nmeta.

Definition zeroes : list Z := replicate BSIZE 0.

(** sb, and its bytes as memmove() puts them into a block. *)
Definition sb : superblock :=
  Superblock FSMAGIC FSSIZE nblocks NINODES nlog 2 (2 + nlog) (2 + nlog + ninodeblocks).
Definition sb_bytes : list Z :=
  concat (map (bytes_of 4) [sb_magic sb; sb_size sb; sb_nblocks sb; sb_ninodes sb; sb_nlog sb; sb_logstart sb; sb_inodestart sb; sb_bmapstart sb]).

(** ** Sectors *)

(** lseek() and write(): a write beyond the end leaves zeroes in between. *)
Definition wsect (sec : Z) (buf : list Z) : F unit := fun s =>
  let n := Z.to_nat sec in
  let img := m_img s in
  FOk tt (Mkst (if (n <? length img)%nat then <[n := buf]> img else img ++ replicate (n - length img) zeroes ++ [buf])
    (m_freeinode s) (m_freeblock s)).

(** read() answers with less than a block only at the end of the file. *)
Definition rsect (sec : Z) : F (list Z) := fun s =>
  match m_img s !! Z.to_nat sec with
  | Some b => FOk b s
  | None => FDie (str "read")
  end.

(** ** Inodes *)

(** struct dinode is its 64 bytes: type, major, minor, nlink, size, addrs. *)
Definition din_size (din : list Z) : Z := get32 8 din.
Definition din_addr (din : list Z) (i : nat) : Z := get32 (12 + 4 * i) din.
Definition set_size (n : Z) (din : list Z) : list Z := put32 8 n din.
Definition set_addr (i : nat) (x : Z) (din : list Z) : list Z := put32 (12 + 4 * i) x din.

Definition winode (inum : Z) (ip : list Z) : F unit :=
  buf ← rsect (IBLOCK inum sb);
  wsect (IBLOCK inum sb) (putb (dinode_off inum) ip buf).

Definition rinode (inum : Z) : F (list Z) :=
  buf ← rsect (IBLOCK inum sb);
  mret (getb (dinode_off inum) SIZEOF_DINODE buf).

Definition next_inode : F Z := fun s => FOk (m_freeinode s) (Mkst (m_img s) (u32 (m_freeinode s + 1)) (m_freeblock s)).
Definition next_block : F Z := fun s => FOk (m_freeblock s) (Mkst (m_img s) (m_freeinode s) (u32 (m_freeblock s + 1))).

Definition get_freeblock : F Z := fun s => FOk (m_freeblock s) s.

Definition new_dinode (type : Z) : list Z := put32 8 0 (put16 6 1 (put16 0 type (replicate SIZEOF_DINODE 0))).

Definition ialloc (type : Z) : F Z :=
  inum ← next_inode;
  winode inum (new_dinode type);;
  mret inum.

(** ** The free bitmap *)

(** buf[i/8] |= 1 << (i%8), for i from 0 on. *)
Fixpoint set_bits (n : nat) (buf : list Z) : list Z :=
  match n with
  | O => buf
  | S n => let buf := set_bits n buf in
           let i := Z.of_nat n in
           <[Z.to_nat (i / 8) := u8 (Z.lor (buf !!! Z.to_nat (i / 8)) (Z.shiftl 1 (i `mod` 8)))]> buf
  end.

Definition balloc (used : Z) : F unit :=
  assert (used <? 1024 * 8);;
  wsect (sb_bmapstart sb) (set_bits (Z.to_nat used) zeroes).

(** ** Appending to a file *)

(** The block for block [fbn] of the file, made if there is none; the inode is
    changed in memory. *)
Definition block_for (din : list Z) (fbn : nat) : F (Z * list Z) :=
  if (fbn <? NDIRECT)%nat then
    if din_addr din fbn =? 0 then
      x ← next_block;
      mret (x, set_addr fbn x din)
    else mret (din_addr din fbn, din)
  else
    din ← (if din_addr din NDIRECT =? 0 then x ← next_block; mret (set_addr NDIRECT x din) else mret din);
    indirect ← rsect (din_addr din NDIRECT);
    if get32 (4 * (fbn - NDIRECT)) indirect =? 0 then
      x ← next_block;
      wsect (din_addr din NDIRECT) (put32 (4 * (fbn - NDIRECT)) x indirect);;
      mret (x, din)
    else mret (get32 (4 * (fbn - NDIRECT)) indirect, din).

(** The while loop; [fuel] counts the bytes. *)
Fixpoint append_loop (fuel : nat) (din : list Z) (off : nat) (p : list Z) : F (list Z * nat) :=
  match fuel with
  | O => mret (din, off)
  | S fuel =>
      match p with
      | [] => mret (din, off)
      | _ =>
          let fbn := (off / 1024)%nat in
          assert (Z.of_nat fbn <? MAXFILE);;
          '(x, din) ← block_for din fbn;
          let n1 := Nat.min (length p) ((fbn + 1) * 1024 - off) in
          buf ← rsect x;
          wsect x (putb (off - fbn * 1024) (take n1 p) buf);;
          append_loop fuel din (off + n1) (drop n1 p)
      end
  end.

Definition iappend (inum : Z) (p : list Z) : F unit :=
  din ← rinode inum;
  '(din, off) ← append_loop (length p) din (Z.to_nat (din_size din)) p;
  winode inum (set_size (Z.of_nat off) din).

(** ** main() *)

(** struct dirent with strncpy(de.name, name, DIRSIZ). *)
Definition dirent (inum : Z) (name : list Z) : list Z := bytes_of 2 inum ++ take DIRSIZ (name ++ replicate DIRSIZ 0).

(** for(i = 0; i < FSSIZE; i++) wsect(i, zeroes); *)
Fixpoint zero_blocks (n : nat) : F unit :=
  match n with
  | O => mret tt
  | S n => zero_blocks n;; wsect (Z.of_nat n) zeroes
  end.

(** An argument: its name and, if it can be opened, the bytes of each answer of
    read() before the one that ends the loop. *)
Record input := Input { in_name : list Z; in_chunks : option (list (list Z)) }.

Definition shortname (arg : list Z) : list Z :=
  if bool_decide (take 5 arg = str "user/") then drop 5 arg else arg.
Definition skip_underscore (name : list Z) : list Z :=
  match name with
  | c :: name' => if c =? 95 then name' else name
  | [] => []
  end.

Fixpoint append_chunks (inum : Z) (chunks : list (list Z)) : F unit :=
  match chunks with
  | [] => mret tt
  | c :: chunks => iappend inum c;; append_chunks inum chunks
  end.

Definition add_file (rootino : Z) (arg : input) : F unit :=
  let name := shortname (in_name arg) in
  assert (negb (bool_decide (47 ∈ name)));;
  match in_chunks arg with
  | None => die (in_name arg)
  | Some chunks =>
      let name := skip_underscore name in
      inum ← ialloc T_FILE;
      iappend rootino (dirent inum name);;
      append_chunks inum chunks
  end.

Fixpoint add_files (rootino : Z) (args : list input) : F unit :=
  match args with
  | [] => mret tt
  | a :: args => add_file rootino a;; add_files rootino args
  end.

(** fix size of root inode dir. *)
Definition fix_root (rootino : Z) : F unit :=
  din ← rinode rootino;
  let off := u32 ((din_size din / 1024 + 1) * 1024) in
  winode rootino (set_size off din).

(** main() from the creation of the image on, with argv[2], argv[3], ... *)
Definition make (args : list input) : F unit :=
  zero_blocks (Z.to_nat FSSIZE);;
  wsect 1 (putb 0 sb_bytes zeroes);;
  rootino ← ialloc T_DIR;
  assert (rootino =? ROOTINO);;
  iappend rootino (dirent rootino (str "."));;
  iappend rootino (dirent rootino (str ".."));;
  add_files rootino args;;
  fix_root rootino;;
  fb ← get_freeblock;
  balloc fb.

Definition main (args : list input) : fres unit := make args (Mkst [] 1 nmeta).

End Mkfs.
