(* ===== verification/MkfsSpec.v ===== *)
(** mkfs at work: the invariant of the image while mkfs/mkfs.c makes it, block by
    block, and what every function of it does to the files in the image. *)

From Stdlib Require Import ZArith Lia.
From stdpp Require Import base gmap strings list numbers.
From S2P Require Import Prelude Params State CString Cache Fs Mkfs.
Import Mkfs.

Open Scope Z_scope.

(** ** Blocks of the image *)

Definition block_at (img : list (list Z)) (x : Z) : list Z := img !!! Z.to_nat x.

(** The block of the image for block [bn] of a file; 0 if there is none. *)
Definition blk (img : list (list Z)) (din : list Z) (bn : nat) : Z :=
  if (bn <? NDIRECT)%nat then din_addr din bn
  else if din_addr din NDIRECT =? 0 then 0 else get32 (4 * (bn - NDIRECT)) (block_at img (din_addr din NDIRECT)).

(** What a block is used for: the indirect block or block [bn] of a file.  The
    blocks from [nmeta] on are given out in order; [own] lists their use. *)
Inductive slot := Ind | Blk (bn : nat).

Abbreviation base := 46.
Lemma nmeta_base : nmeta = base.
Proof. reflexivity. Qed.

(** File [j] has inode [din], [nb] blocks and the contents [c]; its last block ends
    in zeroes. *)
Record file_ok (img : list (list Z)) (own : list (nat * slot)) (j : nat) (din : list Z) (nb : nat) (c : list Z) : Prop := FileOk {
  f_din : length din = SIZEOF_DINODE;
  f_bytes : Forall byte_ok din;
  f_nb : (nb <= 268)%nat;
  f_len : (length c <= nb * 1024)%nat;
  f_blk : forall bn, (bn < 268)%nat -> blk img din bn <> 0 <-> (bn < nb)%nat;
  f_ind : (NDIRECT < nb)%nat -> din_addr din NDIRECT <> 0;
  f_own : forall bn, (bn < nb)%nat -> exists i, blk img din bn = base + Z.of_nat i /\ own !! i = Some (j, Blk bn);
  f_oind : din_addr din NDIRECT <> 0 -> exists i, din_addr din NDIRECT = base + Z.of_nat i /\ own !! i = Some (j, Ind);
  f_data : forall o, (o < nb * 1024)%nat -> blk img din (o / 1024) < 1000 ->
    block_at img (blk img din (o / 1024)) !! (o mod 1024)%nat = Some (nth o c 0) }.

(** The image: all blocks are there, and those not given out yet are zero. *)
Record img_fine (img : list (list Z)) (own : list (nat * slot)) : Prop := ImgFine {
  im_len : length img = 1000%nat;
  im_ok : Forall block_ok img;
  im_zero : forall x, base + Z.of_nat (length own) <= x < 1000 -> block_at img x = zeroes }.

Lemma block_at_ok img own x : img_fine img own -> 0 <= x < 1000 -> img !! Z.to_nat x = Some (block_at img x) /\ block_ok (block_at img x).
Proof.
  intros [Hl Hok _] Hx. destruct (lookup_lt_is_Some_2 img (Z.to_nat x)) as [b Hb]; [lia|].
  unfold block_at. rewrite (list_lookup_total_correct _ _ _ Hb). split; [done|]. rewrite Forall_forall in Hok.
  by eapply Hok, list_elem_of_lookup_2.
Qed.

Lemma block_at_insert img own x b y : img_fine img own -> 0 <= x < 1000 -> 0 <= y ->
  block_at (<[Z.to_nat x := b]> img) y = if decide (y = x) then b else block_at img y.
Proof.
  intros [Hl _ _] Hx Hy. unfold block_at. case_decide as E.
  - subst y. rewrite list_lookup_total_insert_eq; [done|lia].
  - rewrite list_lookup_total_insert_ne; [done|lia].
Qed.

(** Only the indirect block matters for the block map. *)
Lemma blk_ext img img' din bn : (din_addr din NDIRECT <> 0 -> block_at img' (din_addr din NDIRECT) = block_at img (din_addr din NDIRECT)) ->
  blk img' din bn = blk img din bn.
Proof.
  intros H. unfold blk. case_match; [done|]. destruct (din_addr din NDIRECT =? 0) eqn:E; [done|]. apply Z.eqb_neq in E. by rewrite H.
Qed.

Lemma file_frame img img' own l j din nb c : file_ok img own j din nb c ->
  (forall i sl, own !! i = Some (j, sl) -> block_at img' (base + Z.of_nat i) = block_at img (base + Z.of_nat i)) ->
  file_ok img' (own ++ l) j din nb c.
Proof.
  intros [Hd Hby Hn Hl Hb Hi Ho Hoi Hdat] Hf.
  assert (forall bn, blk img' din bn = blk img din bn) as Eb.
  { intros bn. apply blk_ext. intros H. destruct (Hoi H) as (i & -> & Hw). by eapply Hf. }
  split; try done.
  - intros bn Hbn. rewrite Eb. auto.
  - intros bn Hbn. rewrite Eb. destruct (Ho bn Hbn) as (i & ? & Hw). exists i. split; [done|]. by apply lookup_app_l_Some.
  - intros H. destruct (Hoi H) as (i & ? & Hw). exists i. split; [done|]. by apply lookup_app_l_Some.
  - intros o Hlt. rewrite Eb. intros Hx. rewrite <- Hdat by done. destruct (Ho (o / 1024)%nat) as (i & -> & Hw).
    + apply Nat.Div0.div_lt_upper_bound. lia.
    + by erewrite Hf.
Qed.

(** ** Results *)

(** If it is to fit, the program returns; if it returns, [Q] holds. *)
Definition runs {A} (r : fres A) (fits : Prop) (Q : A -> mkst -> Prop) : Prop :=
  match r with
  | FOk a s => Q a s
  | _ => ~ fits
  end.

Lemma runs_bind {A B} (m : F A) (f : A -> F B) s (fits fits' : Prop) Q R : runs (m s) fits Q -> (fits' -> fits) ->
  (forall a s', Q a s' -> runs (f a s') fits' R) -> runs ((m ≫= f) s) fits' R.
Proof.
  intros Hm Hf HR. change ((m ≫= f) s) with (match m s with FOk a s => f a s | FDie msg => FDie msg | FAssert => FAssert end).
  destruct (m s) as [a s'|msg|]; cbn [runs] in *; [by apply HR|tauto..].
Qed.

Lemma runs_impl {A} (r : fres A) (fits fits' : Prop) Q R : runs r fits Q -> (fits' -> fits) -> (forall a s, Q a s -> R a s) -> runs r fits' R.
Proof. destruct r; cbn [runs]; intuition auto. Qed.

(** ** The inode in memory *)

Lemma length_set_addr i x din : length din = SIZEOF_DINODE -> (i <= NDIRECT)%nat -> length (set_addr i x din) = SIZEOF_DINODE.
Proof. intros Hl Hi. unfold set_addr. rewrite length_put32; lia. Qed.

Lemma set_addr_bytes i x din : Forall byte_ok din -> Forall byte_ok (set_addr i x din).
Proof. intros H. apply putb_bytes_ok; [apply bytes_of_ok|done]. Qed.

Lemma din_addr_set i k x din : length din = SIZEOF_DINODE -> (i <= NDIRECT)%nat -> (k <= NDIRECT)%nat ->
  din_addr (set_addr i x din) k = if decide (k = i) then u32 x else din_addr din k.
Proof.
  intros Hl Hi Hk. unfold din_addr, set_addr. case_decide as E.
  - subst k. apply get32_put32_same. lia.
  - apply get32_put32_disj; lia.
Qed.

(** ** Allocation of a block of a file *)

(** Blocks in use by a file with [nb] data blocks. *)
Definition use (nb : nat) : nat := if (NDIRECT <? nb)%nat then S nb else nb.

Lemma use_mono a b : (a <= b)%nat -> (use a <= use b)%nat.
Proof. intros H. unfold use. repeat case_match; rewrite ?Nat.ltb_lt, ?Nat.ltb_ge in *; lia. Qed.

(** The effect of a step on the blocks: file [j] took more blocks, and only its
    blocks changed. *)
Record took (j : nat) (img : list (list Z)) (own : list (nat * slot)) (img' : list (list Z)) (own' : list (nat * slot)) : Prop := Took {
  tk_own : exists l, own' = own ++ l /\ Forall (fun p => p.1 = j) l;
  tk_low : forall x, 0 <= x < base -> block_at img' x = block_at img x;
  tk_other : forall i j' sl, own !! i = Some (j', sl) -> j' <> j -> block_at img' (base + Z.of_nat i) = block_at img (base + Z.of_nat i) }.

Lemma took_refl j img own : took j img own img own.
Proof. split; [exists []; by rewrite app_nil_r|done..]. Qed.

Lemma took_trans j img own img1 own1 img2 own2 : took j img own img1 own1 -> took j img1 own1 img2 own2 -> took j img own img2 own2.
Proof.
  intros [(l1 & -> & H1) L1 O1] [(l2 & -> & H2) L2 O2]. split.
  - exists (l1 ++ l2). rewrite app_assoc. split; [done|]. by apply Forall_app.
  - intros x Hx. by rewrite L2, L1.
  - intros i j' sl Hi Hne. erewrite O2; [by eapply O1|by apply lookup_app_l_Some|done].
Qed.

(** A block of file [j] that exists is written. *)
Lemma took_write j img own i sl b : img_fine img own -> own !! i = Some (j, sl) -> base + Z.of_nat i < 1000 ->
  took j img own (<[Z.to_nat (base + Z.of_nat i) := b]> img) own.
Proof.
  intros Hf Hi Hlt. split.
  - exists []. by rewrite app_nil_r.
  - intros x Hx. rewrite (block_at_insert img own) by (done || lia). case_decide; [lia|done].
  - intros i' j' sl' Hi' Hne. rewrite (block_at_insert img own) by (done || lia). case_decide as E; [|done].
    assert (i' = i) as -> by lia. congruence.
Qed.

Lemma img_fine_write img own x b : img_fine img own -> 0 <= x < base + Z.of_nat (length own) -> x < 1000 -> block_ok b ->
  img_fine (<[Z.to_nat x := b]> img) own.
Proof.
  intros Hf Hx Hlt Hb. pose proof Hf as [Hl Hok Hz]. split.
  - by rewrite length_insert.
  - by apply Forall_insert.
  - intros y Hy. rewrite (block_at_insert img own) by (done || lia). case_decide; [lia|]. apply Hz. lia.
Qed.

Lemma img_fine_more img own l : img_fine img own -> img_fine img (own ++ l).
Proof. intros [Hl Hok Hz]. split; [done..|]. intros x Hx. apply Hz. rewrite length_app in Hx. lia. Qed.

(** The state with [own] given out. *)
Definition st (img : list (list Z)) (fi : Z) (own : list (nat * slot)) : mkst := Mkst img fi (base + Z.of_nat (length own)).

Lemma next_block_eq img fi own : (length own <= 956)%nat ->
  next_block (st img fi own) = FOk (base + Z.of_nat (length own)) (Mkst img fi (base + Z.of_nat (S (length own)))).
Proof. intros H. unfold next_block, st. cbn [m_img m_freeinode m_freeblock]. rewrite u32_small by lia. do 2 f_equal. lia. Qed.

Lemma st_snoc img fi own a : Mkst img fi (base + Z.of_nat (S (length own))) = st img fi (own ++ [a]).
Proof. unfold st. rewrite length_app. cbn [length]. do 3 f_equal. lia. Qed.

Lemma rsect_eq img fi own x : img_fine img own -> 0 <= x ->
  rsect x (st img fi own) = if x <? 1000 then FOk (block_at img x) (st img fi own) else FDie (str "read").
Proof.
  intros Hf Hx. unfold rsect, st. cbn [m_img]. destruct (x <? 1000) eqn:E.
  - apply Z.ltb_lt in E. by destruct (block_at_ok img own x Hf ltac:(lia)) as [-> _].
  - apply Z.ltb_ge in E. rewrite lookup_ge_None_2; [done|]. destruct Hf. lia.
Qed.

Lemma wsect_eq img fi own x b : img_fine img own -> 0 <= x < 1000 ->
  wsect x b (st img fi own) = FOk tt (st (<[Z.to_nat x := b]> img) fi own).
Proof.
  intros [Hl _ _] Hx. unfold wsect, st. cbn [m_img m_freeinode m_freeblock].
  rewrite (proj2 (Nat.ltb_lt _ _)) by lia. done.
Qed.

Lemma div_mod_nat n : (n = n / 1024 * 1024 + n mod 1024 /\ n mod 1024 < 1024)%nat.
Proof. pose proof (Nat.div_mod_eq n 1024). pose proof (Nat.mod_upper_bound n 1024 ltac:(lia)). lia. Qed.

(** Files as they grow by a block. *)
Section grow.
Context (j : nat) (img : list (list Z)) (own : list (nat * slot)) (din c : list Z) (nb : nat).
Context (Hfine : img_fine img own) (Hfile : file_ok img own j din nb c).
Let x : Z := base + Z.of_nat (length own).

Lemma own_new (a : nat * slot) : (own ++ [a]) !! length own = Some a.
Proof. by rewrite lookup_app_r, Nat.sub_diag by lia. Qed.

Lemma new_block_zero o : x < 1000 -> (length c <= o)%nat -> block_at img x !! (o mod 1024)%nat = Some (nth o c 0).
Proof.
  intros Hx Ho. rewrite (im_zero _ _ Hfine) by (unfold x in *; lia). rewrite nth_overflow by done. pose proof (div_mod_nat o).
  apply lookup_replicate_2. lia.
Qed.

Lemma grow_direct : (nb < NDIRECT)%nat -> x < 2 ^ 32 -> file_ok img (own ++ [(j, Blk nb)]) j (set_addr nb x din) (S nb) c.
Proof.
  intros Hnb Hx. destruct Hfile as [Hd Hby Hn Hl Hb Hi Ho Hoi Hdat]. set (din' := set_addr nb x din).
  assert (forall k, (k <= NDIRECT)%nat -> din_addr din' k = if decide (k = nb) then x else din_addr din k) as Ea.
  { intros k Hk. unfold din'. rewrite din_addr_set by lia. case_decide; [apply u32_small; unfold x; lia|done]. }
  assert (forall bn, bn <> nb -> blk img din' bn = blk img din bn) as Eb.
  { intros bn Hne. unfold blk. rewrite !(Ea NDIRECT), decide_False by lia. case_match eqn:E; [|done]. apply Nat.ltb_lt in E.
    by rewrite Ea, decide_False by lia. }
  assert (blk img din' nb = x) as En. { unfold blk. rewrite (proj2 (Nat.ltb_lt _ _)) by lia. by rewrite Ea, decide_True by lia. }
  split.
  - by apply length_set_addr; [|lia].
  - by apply set_addr_bytes.
  - lia.
  - lia.
  - intros bn Hbn. destruct (decide (bn = nb)) as [->|Hne]; [rewrite En; unfold x; lia|]. rewrite Eb, Hb by done. lia.
  - lia.
  - intros bn Hbn. destruct (decide (bn = nb)) as [->|Hne].
    + exists (length own). rewrite En. split; [done|apply own_new].
    + rewrite Eb by done. destruct (Ho bn ltac:(lia)) as (i & ? & ?). exists i. split; [done|by apply lookup_app_l_Some].
  - rewrite Ea, decide_False by lia. intros H. destruct (Hoi H) as (i & ? & ?). exists i. split; [done|by apply lookup_app_l_Some].
  - intros o Hlt. destruct (decide (o / 1024 = nb)%nat) as [E|E].
    + rewrite E, En. intros Hx'. apply new_block_zero; [done|]. pose proof (div_mod_nat o). lia.
    + rewrite Eb by done. apply Hdat. pose proof (div_mod_nat o). nia.
Qed.

Lemma of_bytes_zeros n : of_bytes (replicate n 0) = 0.
Proof. induction n as [|n IH]; [done|]. unfold of_bytes in *. cbn [replicate little_endian_to_Z]. by rewrite IH. Qed.

Lemma get32_zeroes k : get32 k zeroes = 0.
Proof. unfold get32, getb, zeroes. rewrite drop_replicate, take_replicate. apply of_bytes_zeros. Qed.

Lemma grow_ind : din_addr din NDIRECT = 0 -> x < 1000 -> file_ok img (own ++ [(j, Ind)]) j (set_addr NDIRECT x din) nb c.
Proof.
  intros Hz Hx. destruct Hfile as [Hd Hby Hn Hl Hb Hi Ho Hoi Hdat]. set (din' := set_addr NDIRECT x din).
  assert (forall k, (k <= NDIRECT)%nat -> din_addr din' k = if decide (k = NDIRECT) then x else din_addr din k) as Ea.
  { intros k Hk. unfold din'. rewrite din_addr_set by lia. case_decide; [apply u32_small; unfold x; lia|done]. }
  assert (forall bn, blk img din' bn = blk img din bn) as Eb.
  { intros bn. unfold blk. rewrite !(Ea NDIRECT), decide_True, Hz by lia. case_match eqn:E.
    - apply Nat.ltb_lt in E. by rewrite Ea, decide_False by lia.
    - rewrite (proj2 (Z.eqb_neq x 0)) by (unfold x; lia). cbn [Z.eqb].
      replace (block_at img x) with zeroes by (symmetry; apply (im_zero _ _ Hfine); unfold x; lia). apply get32_zeroes. }
  split; try done.
  - by apply length_set_addr; [|lia].
  - by apply set_addr_bytes.
  - intros bn Hbn. rewrite Eb. auto.
  - intros H. rewrite Ea, decide_True by lia. unfold x. lia.
  - intros bn Hbn. rewrite Eb. destruct (Ho bn Hbn) as (i & ? & ?). exists i. split; [done|by apply lookup_app_l_Some].
  - intros _. rewrite Ea, decide_True by lia. exists (length own). split; [done|apply own_new].
  - intros o Hlt. rewrite Eb. by apply Hdat.
Qed.

Lemma grow_entry : (NDIRECT <= nb < 268)%nat -> din_addr din NDIRECT <> 0 -> din_addr din NDIRECT < 1000 -> x < 2 ^ 32 ->
  let ind := din_addr din NDIRECT in
  file_ok (<[Z.to_nat ind := put32 (4 * (nb - NDIRECT)) x (block_at img ind)]> img) (own ++ [(j, Blk nb)]) j din (S nb) c.
Proof.
  intros Hnb Hnz Hlt Hx ind. pose proof Hfile as [Hd Hby Hn Hl Hb Hi Ho Hoi Hdat].
  destruct (Hoi Hnz) as (ii & Eind & Hown). fold ind in Eind, Hnz, Hlt. set (img' := <[_ := _]> img).
  pose proof (block_at_ok img own ind Hfine ltac:(lia)) as [_ [Hlen _]].
  assert (forall y, 0 <= y -> block_at img' y = if decide (y = ind) then put32 (4 * (nb - NDIRECT)) x (block_at img ind) else block_at img y) as Eg
    by (intros y Hy; apply (block_at_insert img own); [done|lia|done]).
  assert (forall bn, (bn < 268)%nat -> blk img' din bn = if decide (bn = nb) then x else blk img din bn) as Eb.
  { intros bn Hbn. unfold blk. fold ind. destruct (bn <? NDIRECT)%nat eqn:E; [apply Nat.ltb_lt in E; by rewrite decide_False by lia|].
    apply Nat.ltb_ge in E. rewrite (proj2 (Z.eqb_neq ind 0)), Eg, decide_True by (done || lia). case_decide as Ebn.
    - subst bn. rewrite get32_put32_same by lia. apply u32_small. unfold x. lia.
    - apply get32_put32_disj; lia. }
  assert (forall bn, (bn < nb)%nat -> blk img din bn <> ind) as Hne.
  { intros bn Hbn E. destruct (Ho bn Hbn) as (i & Ei & Hw). rewrite E, Eind in Ei. assert (i = ii) as -> by lia. congruence. }
  split; try done; try lia.
  - intros bn Hbn. rewrite Eb by done. case_decide; [unfold x; lia|]. rewrite Hb by done. lia.
  - intros bn Hbn. rewrite Eb by lia. case_decide as E.
    + subst bn. exists (length own). split; [done|apply own_new].
    + destruct (Ho bn ltac:(lia)) as (i & ? & ?). exists i. split; [done|by apply lookup_app_l_Some].
  - intros _. exists ii. split; [done|by apply lookup_app_l_Some].
  - intros o Ho'. assert (o / 1024 < S nb)%nat as Hq by (apply Nat.Div0.div_lt_upper_bound; lia). pose proof (div_mod_nat o).
    rewrite Eb by lia. case_decide as E.
    + intros Hx'. pose proof (lookup_lt_Some _ _ _ Hown). rewrite Eg, decide_False by (unfold x; lia). apply new_block_zero; [done|lia].
    + assert (0 <= blk img din (o / 1024)) by (destruct (Ho (o / 1024)%nat) as (? & -> & _); lia).
      pose proof (Hne (o / 1024)%nat ltac:(lia)). rewrite Eg, decide_False by done. apply Hdat. nia.
Qed.
End grow.

(** There is an indirect block only if it is needed. *)
Definition tidy (din : list Z) (nb : nat) : Prop := din_addr din NDIRECT <> 0 -> (NDIRECT < nb)%nat.

(** type, major, minor, nlink and size. *)
Definition fields (din : list Z) : list Z := getb 0 12 din.

Lemma fields_set_addr i x din : length din = SIZEOF_DINODE -> (i <= NDIRECT)%nat -> fields (set_addr i x din) = fields din.
Proof. intros Hl Hi. unfold fields, set_addr, put32. apply getb_putb_disj; rewrite length_bytes_of; lia. Qed.

Lemma block_ok_put32 off v b : block_ok b -> (off + 4 <= BSIZE)%nat -> block_ok (put32 off v b).
Proof.
  intros [Hl Hb] Hoff. split; [rewrite length_put32; lia|]. apply putb_bytes_ok; [apply bytes_of_ok|done].
Qed.

(** What block_for() returns and leaves: [nb'] blocks, of which block [fbn] is at
    [x]. *)
Definition block_made (j : nat) (img : list (list Z)) (fi : Z) (own : list (nat * slot)) (din c : list Z) (nb fbn : nat)
    (r : Z * list Z) (s : mkst) : Prop :=
  let '(x, din') := r in
  let nb' := Nat.max nb (S fbn) in
  exists img' own', s = st img' fi own' /\ img_fine img' own' /\ file_ok img' own' j din' nb' c /\ tidy din' nb' /\
    took j img own img' own' /\ x = blk img' din' fbn /\ fields din' = fields din /\
    (length own' + use nb = length own + use nb')%nat /\
    (length own' = length own \/ x = base + Z.of_nat (length own') - 1).

Section block_for.
Context (j : nat) (img : list (list Z)) (fi : Z) (own : list (nat * slot)) (din c : list Z) (nb fbn : nat).
Context (Hfine : img_fine img own) (Hfile : file_ok img own j din nb c) (Htidy : tidy din nb).
Context (Hfbn : (fbn <= nb)%nat) (Hmax : (fbn < 268)%nat) (Hown : (length own <= 954)%nat).
Notation fits := (length own + use (Nat.max nb (S fbn)) <= 954 + use nb)%nat.

(** The block exists. *)
Lemma block_for_old : (fbn < nb)%nat -> block_made j img fi own din c nb fbn (blk img din fbn, din) (st img fi own).
Proof.
  intros Hlt. cbn [block_made]. replace (Nat.max nb (S fbn)) with nb by lia. exists img, own. split_and!; try done; [apply took_refl|by left].
Qed.

Lemma block_for_direct : (fbn < NDIRECT)%nat ->
  runs (block_for din fbn (st img fi own)) fits (block_made j img fi own din c nb fbn).
Proof.
  intros Hd. unfold block_for. rewrite (proj2 (Nat.ltb_lt fbn NDIRECT)) by done. pose proof Hfile as [Hlen _ _ _ Hb _ _ _ _].
  assert (blk img din fbn = din_addr din fbn) as E by (unfold blk; by rewrite (proj2 (Nat.ltb_lt fbn NDIRECT))).
  destruct (din_addr din fbn =? 0) eqn:E0.
  - apply Z.eqb_eq in E0. assert (fbn = nb) as ->. { specialize (Hb fbn Hmax). rewrite E, E0 in Hb. lia. }
    unfold mbind, F_bind. rewrite next_block_eq by lia. rewrite (st_snoc _ _ _ (j, Blk nb)). cbn [runs mret F_ret block_made].
    replace (Nat.max nb (S nb)) with (S nb) by lia. exists img, (own ++ [(j, Blk nb)]). split_and!; try done.
    + by apply img_fine_more.
    + apply grow_direct; [done..|]. lia.
    + unfold tidy. rewrite din_addr_set, decide_False by lia. intros H%Htidy. lia.
    + split; [exists [(j, Blk nb)]; split; [done|by constructor]|done..].
    + unfold blk. rewrite (proj2 (Nat.ltb_lt nb NDIRECT)) by done. rewrite din_addr_set, decide_True by lia. rewrite u32_small; lia.
    + apply fields_set_addr; lia.
    + unfold use. rewrite length_app. cbn [length]. rewrite !(proj2 (Nat.ltb_ge _ _)) by lia. lia.
    + right. rewrite length_app. cbn [length]. lia.
  - apply Z.eqb_neq in E0. cbn [runs mret F_ret]. rewrite <- E. apply block_for_old. apply Hb; [done|]. by rewrite E.
Qed.

(** The indirect block is there, maybe new. *)
Lemma block_for_entry img' own' din' : (NDIRECT <= fbn)%nat -> img' = img -> img_fine img' own' -> file_ok img' own' j din' nb c -> took j img own img' own' ->
  din_addr din' NDIRECT <> 0 -> fields din' = fields din -> (length own' + use nb = length own + (if decide (nb = NDIRECT) then S (use nb) else use nb))%nat ->
  runs ((indirect ← rsect (din_addr din' NDIRECT);
    if get32 (4 * (fbn - NDIRECT)) indirect =? 0 then
      x ← next_block;
      wsect (din_addr din' NDIRECT) (put32 (4 * (fbn - NDIRECT)) x indirect);;
      mret (x, din')
    else mret (get32 (4 * (fbn - NDIRECT)) indirect, din')) (st img' fi own')) fits (block_made j img fi own din c nb fbn).
Proof.
  intros Hge -> Hf' Hfl' Htk Hnz Hfd Hlen. pose proof Hfl' as [Hd' _ _ _ Hb' _ Ho' Hoi' _]. destruct (Hoi' Hnz) as (ii & Eii & Hii).
  pose proof (lookup_lt_Some _ _ _ Hii) as Hlt. unfold mbind, F_bind. rewrite rsect_eq by (done || lia).
  assert (blk img din' fbn = get32 (4 * (fbn - NDIRECT)) (block_at img (din_addr din' NDIRECT))) as E.
  { unfold blk. rewrite (proj2 (Nat.ltb_ge fbn NDIRECT)) by done. by rewrite (proj2 (Z.eqb_neq _ 0)). }
  destruct (din_addr din' NDIRECT <? 1000) eqn:E1000.
  2: { apply Z.ltb_ge in E1000. cbn [runs]. destruct (decide (nb = NDIRECT)) as [->|]; [|lia].
       replace (Nat.max NDIRECT (S fbn)) with 13%nat by lia. change (use 13) with 14%nat. change (use NDIRECT) with 12%nat in *. lia. }
  apply Z.ltb_lt in E1000. rewrite <- E. destruct (blk img din' fbn =? 0) eqn:E0.
  - apply Z.eqb_eq in E0. assert (fbn = nb) as ->. { specialize (Hb' fbn Hmax). rewrite E0 in Hb'. lia. }
    assert (length own' <= 955)%nat by (destruct (decide (nb = NDIRECT)); lia).
    rewrite next_block_eq, (st_snoc _ _ _ (j, Blk nb)) by lia. rewrite wsect_eq by (by apply img_fine_more || lia).
    cbn [runs mret F_ret block_made]. replace (Nat.max nb (S nb)) with (S nb) by lia.
    eexists _, (own' ++ [(j, Blk nb)]). split; [done|]. split_and!; try done.
    + apply img_fine_write; [by apply img_fine_more|rewrite length_app; cbn [length]; lia|done|].
      apply block_ok_put32; [|lia]. apply (block_at_ok img own'); [done|lia].
    + apply (grow_entry j img own' din' c nb); [done..|lia].
    + intros _. lia.
    + eapply took_trans; [exact Htk|]. eapply took_trans; [|rewrite Eii; eapply took_write; [by apply img_fine_more|by apply lookup_app_l_Some|lia]].
      split; [exists [(j, Blk nb)]; split; [done|by constructor]|done..].
    + unfold blk. rewrite (proj2 (Nat.ltb_ge nb NDIRECT)), (proj2 (Z.eqb_neq _ 0)) by done.
      destruct (block_at_ok img own' (din_addr din' NDIRECT) Hf') as [_ [Hl _]]; [lia|].
      rewrite (block_at_insert img own'), decide_True, get32_put32_same, u32_small by (done || lia). done.
    + rewrite length_app. cbn [length]. unfold use in *. destruct (decide (nb = NDIRECT)) as [->|]; [simpl in *; lia|].
      rewrite !(proj2 (Nat.ltb_lt NDIRECT _)) in * by lia. lia.
    + right. rewrite length_app. cbn [length]. lia.
  - apply Z.eqb_neq in E0. apply Hb' in E0; [|done]. cbn [runs mret F_ret block_made]. replace (Nat.max nb (S fbn)) with nb by lia.
    exists img, own'. rewrite decide_False in Hlen by lia. split_and!; try done; [intros _; lia|left; lia].
Qed.

Lemma block_for_ok : runs (block_for din fbn (st img fi own)) fits (block_made j img fi own din c nb fbn).
Proof.
  destruct (le_lt_dec NDIRECT fbn) as [Hge|]; [|by apply block_for_direct]. unfold block_for.
  rewrite (proj2 (Nat.ltb_ge fbn NDIRECT)) by done. pose proof Hfile as [Hlen _ _ _ _ Hi _ _ _].
  destruct (din_addr din NDIRECT =? 0) eqn:E0.
  - apply Z.eqb_eq in E0. assert (nb = NDIRECT) as Enb by (destruct (decide (nb = NDIRECT)); [done|]; exfalso; apply Hi; [lia|done]).
    unfold mbind, F_bind. rewrite next_block_eq, (st_snoc _ _ _ (j, Ind)) by lia. cbn [mret F_ret].
    set (x := base + Z.of_nat (length own)). destruct (Z_lt_le_dec x 1000) as [Hx|Hx].
    + apply (block_for_entry img (own ++ [(j, Ind)]) (set_addr NDIRECT x din)); try done.
      * by apply img_fine_more.
      * by apply grow_ind.
      * split; [exists [(j, Ind)]; split; [done|by constructor]|done..].
      * rewrite din_addr_set, decide_True, u32_small by (unfold x in *; lia). unfold x. lia.
      * by apply fields_set_addr; [|lia].
      * rewrite decide_True, length_app by done. cbn [length]. lia.
    + rewrite din_addr_set, decide_True, u32_small by (unfold x in *; lia). rewrite rsect_eq by (by apply img_fine_more || lia).
      rewrite (proj2 (Z.ltb_ge x 1000)) by done. cbn [runs]. subst nb. replace (Nat.max NDIRECT (S fbn)) with 13%nat by lia.
      change (use 13) with 14%nat. change (use NDIRECT) with 12%nat. unfold x in Hx. lia.
  - apply Z.eqb_neq in E0. unfold mbind, F_bind. cbn [mret F_ret]. apply (block_for_entry img own din); try done.
    + apply took_refl.
    + rewrite decide_False; [done|]. apply Htidy in E0. lia.
Qed.
End block_for.

(** ** Appending bytes *)

Definition nblk (n : nat) : nat := ((n + 1023) / 1024)%nat.

Lemma nblk_eq n fbn : (fbn * 1024 < n <= (fbn + 1) * 1024)%nat -> nblk n = S fbn.
Proof. intros H. unfold nblk. symmetry. apply (Nat.div_unique _ 1024 _ (n + 1023 - 1024 * S fbn)); lia. Qed.

Lemma nblk_mono a b : (a <= b)%nat -> (nblk a <= nblk b)%nat.
Proof. intros H. unfold nblk. apply Nat.Div0.div_le_mono. lia. Qed.

Lemma nblk_div n : (n / 1024 <= nblk n <= S (n / 1024))%nat.
Proof.
  unfold nblk. split; [apply Nat.Div0.div_le_mono; lia|].
  replace (S (n / 1024)) with ((n + 1 * 1024) / 1024)%nat by (rewrite Nat.div_add by lia; lia). apply Nat.Div0.div_le_mono. lia.
Qed.

(** Bytes are stored behind the last ones, into the last block. *)
Lemma file_write img own j din c fbn i q : img_fine img own -> file_ok img own j din (S fbn) c -> (fbn = length c / 1024)%nat ->
  (length c + length q <= (fbn + 1) * 1024)%nat -> blk img din fbn = base + Z.of_nat i -> own !! i = Some (j, Blk fbn) ->
  base + Z.of_nat i < 1000 ->
  let x := base + Z.of_nat i in
  file_ok (<[Z.to_nat x := putb (length c - fbn * 1024) q (block_at img x)]> img) own j din (S fbn) (c ++ q).
Proof.
  intros Hf Hfile Efbn Hq Ex Hown Hlt x. pose proof Hfile as [Hd Hby Hn Hl Hb Hi Ho Hoi Hdat]. set (img' := <[_ := _]> img).
  destruct (block_at_ok img own x Hf ltac:(lia)) as [_ [Hlen _]]. pose proof (div_mod_nat (length c)) as [Hdm Hm]. rewrite <- Efbn in Hdm.
  assert (forall y, 0 <= y -> block_at img' y = if decide (y = x) then putb (length c - fbn * 1024) q (block_at img x) else block_at img y) as Eg
    by (intros y Hy; apply (block_at_insert img own); [done|lia|done]).
  assert (forall bn, blk img' din bn = blk img din bn) as Eb.
  { intros bn. apply blk_ext. intros H. destruct (Hoi H) as (ii & E & Hii). rewrite Eg, decide_False by lia || (intros E'; rewrite E in E'; assert (ii = i) as -> by (unfold x in E'; lia); congruence). done. }
  split; try done.
  - rewrite length_app. lia.
  - intros bn Hbn. rewrite Eb. auto.
  - intros bn Hbn. rewrite Eb. auto.
  - intros o Ho'. rewrite Eb. intros Hx. pose proof (div_mod_nat o) as [Hod Hom]. specialize (Hdat o Ho' Hx).
    assert (o / 1024 <= fbn)%nat as Hle by nia. destruct (decide (o / 1024 = fbn)%nat) as [E|E].
    + rewrite E, Ex in *. fold x in Hdat |- *. rewrite Eg, decide_True by (done || lia). rewrite lookup_putb by lia. case_decide as Ein.
      * rewrite app_nth2 by lia. replace (o - length c)%nat with (o mod 1024 - (length c - fbn * 1024))%nat by lia.
        destruct (nth_lookup_or_length q (o mod 1024 - (length c - fbn * 1024)) 0); [done|lia].
      * rewrite Hdat. f_equal. destruct (decide (o < length c)%nat); [by rewrite app_nth1|].
        rewrite !nth_overflow by (rewrite ?length_app; lia). done.
    + assert (o < length c)%nat as Hc by nia. destruct (Ho (o / 1024)%nat ltac:(lia)) as (i' & Ei' & Hi').
      rewrite Eg, decide_False by (lia || (rewrite Ei'; intros E'; assert (i' = i) as -> by (unfold x in E'; lia); congruence)).
      rewrite app_nth1 by done. done.
Qed.

(** The state behind the loop. *)
Definition appended (j : nat) (img : list (list Z)) (fi : Z) (own : list (nat * slot)) (din c p : list Z) (r : list Z * nat) (s : mkst) : Prop :=
  let '(din', off) := r in
  exists img' own', s = st img' fi own' /\ off = length (c ++ p) /\ img_fine img' own' /\
    file_ok img' own' j din' (nblk (length (c ++ p))) (c ++ p) /\ tidy din' (nblk (length (c ++ p))) /\
    took j img own img' own' /\ fields din' = fields din /\ (length own' <= 954)%nat /\
    (length own' + use (nblk (length c)) = length own + use (nblk (length (c ++ p))))%nat.

Definition append_fits (own : list (nat * slot)) (c p : list Z) : Prop :=
  (length (c ++ p) <= 268 * 1024 /\ length own + use (nblk (length (c ++ p))) <= 954 + use (nblk (length c)))%nat.

(** One round of the loop, with what follows it. *)
Definition round (din : list Z) (off : nat) (p : list Z) (k : list Z -> nat -> list Z -> F (list Z * nat)) : F (list Z * nat) :=
  let fbn := (off / 1024)%nat in
  assert (Z.of_nat fbn <? MAXFILE);;
  '(x, din) ← block_for din fbn;
  let n1 := Nat.min (length p) ((fbn + 1) * 1024 - off) in
  buf ← rsect x;
  wsect x (putb (off - fbn * 1024) (take n1 p) buf);;
  k din (off + n1)%nat (drop n1 p).

Lemma append_loop_round fuel din off p : p <> [] -> append_loop (S fuel) din off p = round din off p (append_loop fuel).
Proof. by destruct p. Qed.

Lemma appended_nil j img fi own din c : img_fine img own -> file_ok img own j din (nblk (length c)) c -> tidy din (nblk (length c)) ->
  (length own <= 954)%nat -> appended j img fi own din c [] (din, length c) (st img fi own).
Proof. intros. cbn [appended]. rewrite app_nil_r. exists img, own. split_and!; try done. apply took_refl. Qed.

Lemma appended_app j img fi own din c p q img1 own1 din1 r s : (length own1 + use (nblk (length c)) = length own + use (nblk (length (c ++ p))))%nat ->
  took j img own img1 own1 -> fields din1 = fields din ->
  appended j img1 fi own1 din1 (c ++ p) q r s -> appended j img fi own din c (p ++ q) r s.
Proof.
  intros Hl Htk Hfd. destruct r as [din' off]. cbn [appended]. rewrite app_assoc. intros (img' & own' & -> & -> & Hf & Hfl & Ht & Htk' & Hfd' & Hb & Hl').
  exists img', own'. split_and!; try done; [by eapply took_trans|congruence|lia].
Qed.

Lemma append_fits_app own own1 c p q : (length own1 + use (nblk (length c)) = length own + use (nblk (length (c ++ p))))%nat ->
  append_fits own c (p ++ q) -> append_fits own1 (c ++ p) q.
Proof. unfold append_fits. rewrite app_assoc. lia. Qed.

Section round.
Context (j : nat) (img : list (list Z)) (fi : Z) (own : list (nat * slot)) (din c p : list Z).
Context (Hf : img_fine img own) (Hfile : file_ok img own j din (nblk (length c)) c) (Ht : tidy din (nblk (length c))).
Context (Hown : (length own <= 954)%nat) (Hp : Forall byte_ok p) (Hne : p <> []).
Let fbn := (length c / 1024)%nat.
Let n1 := Nat.min (length p) ((fbn + 1) * 1024 - length c).

Lemma round_ok k :
  (forall img1 own1 din1, img_fine img1 own1 -> file_ok img1 own1 j din1 (nblk (length (c ++ take n1 p))) (c ++ take n1 p) ->
    tidy din1 (nblk (length (c ++ take n1 p))) -> (length own1 <= 954)%nat ->
    runs (k din1 (length (c ++ take n1 p)) (drop n1 p) (st img1 fi own1)) (append_fits own1 (c ++ take n1 p) (drop n1 p))
      (appended j img1 fi own1 din1 (c ++ take n1 p) (drop n1 p))) ->
  runs (round din (length c) p k (st img fi own)) (append_fits own c p) (appended j img fi own din c p).
Proof.
  intros Hk. unfold round. fold fbn. fold n1. pose proof (div_mod_nat (length c)) as [Hdm Hm]. fold fbn in Hdm.
  assert (0 < length p)%nat as Hp0 by (destruct p; [done|simpl; lia]).
  unfold mbind at 1, F_bind at 1. unfold assert. destruct (Z.of_nat fbn <? MAXFILE) eqn:Emax.
  2: { apply Z.ltb_ge in Emax. cbn [runs]. unfold append_fits. rewrite length_app. lia. }
  apply Z.ltb_lt in Emax. assert (nblk (length (c ++ take n1 p)) = S fbn) as En1 by (apply nblk_eq; rewrite length_app, length_take; lia).
  pose proof (nblk_div (length c)) as Hnd. fold fbn in Hnd.
  assert (S fbn <= nblk (length (c ++ p)))%nat as Hmono%use_mono by (rewrite <- En1; apply nblk_mono; rewrite !length_app, length_take; lia).
  assert (Nat.max (nblk (length c)) (S fbn) = S fbn) as Emx by lia.
  eapply runs_bind; [apply (block_for_ok j img fi own din c (nblk (length c)) fbn); try done; lia|unfold append_fits; rewrite Emx; lia|].
  intros [x din'] s' Hmade. cbn [block_made] in Hmade. rewrite Emx in Hmade.
  destruct Hmade as (img1 & own1 & -> & Hf1 & Hfile1 & Ht1 & Htk1 & -> & Hfd1 & Hlen1 & Hlast).
  destruct (f_own _ _ _ _ _ _ Hfile1 fbn ltac:(lia)) as (i & Ei & Hi). pose proof (lookup_lt_Some _ _ _ Hi).
  unfold mbind at 1, F_bind at 1. rewrite rsect_eq by (done || lia). rewrite Ei. destruct (base + Z.of_nat i <? 1000) eqn:E1000.
  2: { apply Z.ltb_ge in E1000. cbn [runs]. unfold append_fits. lia. }
  apply Z.ltb_lt in E1000. assert (length own1 <= 954)%nat by (rewrite Ei in Hlast; destruct Hlast; lia).
  unfold mbind at 1, F_bind at 1. rewrite wsect_eq by (done || lia). set (img2 := <[_ := _]> img1).
  replace (length c + n1)%nat with (length (c ++ take n1 p)) by (rewrite length_app, length_take; lia).
  assert (took j img own img2 own1) as Htk2 by (eapply took_trans; [exact Htk1|]; by eapply took_write).
  assert (length (take n1 p) = n1) as Hn1 by (rewrite length_take; lia).
  destruct (block_at_ok img1 own1 (base + Z.of_nat i) Hf1 ltac:(lia)) as [_ [Hbl Hbo]].
  rewrite <- En1 in Hlen1. pose proof (take_drop n1 p) as Etd. eapply runs_impl; [apply (Hk img2 own1 din')|..].
  - apply img_fine_write; [done|lia|done|]. split; [rewrite length_putb; [done|lia]|]. apply putb_bytes_ok; [by apply Forall_take|done].
  - rewrite En1. apply (file_write img1 own1 j din' c fbn i (take n1 p)); try done; lia.
  - by rewrite En1.
  - done.
  - intros HF. apply (append_fits_app own own1 c _ _ Hlen1). by rewrite Etd.
  - intros r s HA. eapply appended_app in HA; [|done..]. by rewrite Etd in HA.
Qed.
End round.

Lemma append_loop_ok fuel : forall j img fi own din c p, img_fine img own -> file_ok img own j din (nblk (length c)) c ->
  tidy din (nblk (length c)) -> (length own <= 954)%nat -> Forall byte_ok p -> (length p <= fuel)%nat ->
  runs (append_loop fuel din (length c) p (st img fi own)) (append_fits own c p) (appended j img fi own din c p).
Proof.
  induction fuel as [|fuel IH]; intros j img fi own din c p Hf Hfile Ht Hown Hp Hlen.
  - destruct p; [|simpl in Hlen; lia]. by apply appended_nil.
  - destruct (decide (p = [])) as [->|Hne]; [by apply appended_nil|]. rewrite append_loop_round by done.
    apply round_ok; [done..|]. intros img1 own1 din1 Hf1 Hfile1 Ht1 Hown1. apply IH; try done; [by apply Forall_drop|].
    rewrite length_drop. pose proof (div_mod_nat (length c)). destruct p; [done|]. cbn [length] in *. lia.
Qed.

(** ** Inodes on the disk *)

(** The bytes of inode [j + 1]. *)
Definition inum_of (j : nat) : Z := Z.of_nat (S j).
Definition dget (img : list (list Z)) (j : nat) : list Z := getb (dinode_off (inum_of j)) SIZEOF_DINODE (block_at img (IBLOCK (inum_of j) sb)).

Lemma inode_block j : (j < 207)%nat -> IBLOCK (inum_of j) sb = 32 + inum_of j / 16 /\ 32 <= IBLOCK (inum_of j) sb < 45 /\
  (dinode_off (inum_of j) + 64 <= BSIZE)%nat.
Proof.
  intros Hj. unfold inum_of. assert (IBLOCK (Z.of_nat (S j)) sb = 32 + Z.of_nat (S j) / 16) as E.
  { unfold IBLOCK. change (sb_inodestart sb) with 32. rewrite u32_small by dlia. lia. }
  rewrite E. split; [done|]. split; [dlia|]. unfold dinode_off. dlia.
Qed.

Lemma inum_apart j j' : (j < 207)%nat -> (j' < 207)%nat -> j <> j' -> IBLOCK (inum_of j) sb = IBLOCK (inum_of j') sb ->
  (dinode_off (inum_of j) + 64 <= dinode_off (inum_of j') \/ dinode_off (inum_of j') + 64 <= dinode_off (inum_of j))%nat.
Proof.
  intros Hj Hj' Hne. destruct (inode_block j Hj) as [-> _], (inode_block j' Hj') as [-> _]. unfold inum_of, dinode_off. intros E. dlia.
Qed.

Definition wrote_inode (img : list (list Z)) (j : nat) (ip : list Z) : list (list Z) :=
  let x := IBLOCK (inum_of j) sb in <[Z.to_nat x := putb (dinode_off (inum_of j)) ip (block_at img x)]> img.

Section winode.
Context (img : list (list Z)) (own : list (nat * slot)) (Hf : img_fine img own) (j : nat) (Hj : (j < 207)%nat).

Lemma winode_eq fi ip : winode (inum_of j) ip (st img fi own) = FOk tt (st (wrote_inode img j ip) fi own).
Proof.
  destruct (inode_block j Hj) as (_ & Hx & _). unfold winode. unfold mbind, F_bind. rewrite rsect_eq by (done || lia).
  rewrite (proj2 (Z.ltb_lt _ 1000)) by lia. rewrite wsect_eq by (done || lia). done.
Qed.

Lemma rinode_eq fi : rinode (inum_of j) (st img fi own) = FOk (dget img j) (st img fi own).
Proof.
  destruct (inode_block j Hj) as (_ & Hx & _). unfold rinode. unfold mbind, F_bind. rewrite rsect_eq by (done || lia).
  by rewrite (proj2 (Z.ltb_lt _ 1000)) by lia.
Qed.

Lemma wrote_inode_at ip x : 0 <= x -> x < 32 \/ 45 <= x -> block_at (wrote_inode img j ip) x = block_at img x.
Proof.
  intros H0 Hx. destruct (inode_block j Hj) as (_ & Hb & _). unfold wrote_inode. rewrite (block_at_insert img own) by (done || lia).
  by rewrite decide_False by lia.
Qed.

Lemma wrote_inode_dget ip j' : length ip = SIZEOF_DINODE -> (j' < 207)%nat ->
  dget (wrote_inode img j ip) j' = if decide (j' = j) then ip else dget img j'.
Proof.
  intros Hl Hj'. destruct (inode_block j Hj) as (_ & Hb & Ho), (inode_block j' Hj') as (_ & Hb' & Ho').
  destruct (block_at_ok img own (IBLOCK (inum_of j) sb) Hf ltac:(lia)) as [_ [Hlen _]].
  unfold dget, wrote_inode. rewrite (block_at_insert img own) by (done || lia). case_decide as E.
  - rewrite E. case_decide as Ej.
    + subst j'. rewrite <- Hl at 1. apply getb_putb_same. lia.
    + apply getb_putb_disj; rewrite Hl; [lia|]. apply inum_apart; [done..|]. by rewrite E.
  - case_decide as Ej; [by subst j'|done].
Qed.

Lemma wrote_inode_fine ip : length ip = SIZEOF_DINODE -> Forall byte_ok ip -> img_fine (wrote_inode img j ip) own.
Proof.
  intros Hl Hok. destruct (inode_block j Hj) as (_ & Hb & Ho). destruct (block_at_ok img own (IBLOCK (inum_of j) sb) Hf ltac:(lia)) as [_ [Hlen Hbo]].
  apply img_fine_write; [done|lia|lia|]. split; [rewrite length_putb; lia|by apply putb_bytes_ok].
Qed.

Lemma wrote_inode_file ip j' din nb c : file_ok img own j' din nb c -> file_ok (wrote_inode img j ip) own j' din nb c.
Proof. intros H. rewrite <- (app_nil_r own). eapply file_frame; [done|]. intros i sl _. apply wrote_inode_at; lia. Qed.
End winode.

Lemma file_ok_ext img own j din din' nb c : file_ok img own j din nb c -> length din' = SIZEOF_DINODE -> Forall byte_ok din' ->
  (forall k, (k <= NDIRECT)%nat -> din_addr din' k = din_addr din k) -> file_ok img own j din' nb c.
Proof.
  intros [Hd Hby Hn Hl Hb Hi Ho Hoi Hdat] Hl' Hby' Ha. assert (forall bn, blk img din' bn = blk img din bn) as Eb.
  { intros bn. unfold blk. rewrite !(Ha NDIRECT) by lia. case_match eqn:E; [|done]. apply Nat.ltb_lt in E. apply Ha. lia. }
  split; try done.
  - intros bn. rewrite Eb. auto.
  - rewrite Ha by lia. done.
  - intros bn. rewrite Eb. auto.
  - rewrite Ha by lia. done.
  - intros o. rewrite Eb. auto.
Qed.

(** ** The whole image while it is made *)

(** The fields of an inode before its block addresses. *)
Definition inode_fields (t : Z) (n : nat) : list Z := take 8 (fields (new_dinode t)) ++ bytes_of 4 (Z.of_nat n).

Lemma fields_set_size t n m din : length din = SIZEOF_DINODE -> fields din = inode_fields t m -> fields (set_size (Z.of_nat n) din) = inode_fields t n.
Proof.
  intros Hl Hf. unfold set_size, put32. assert (getb 0 8 din = take 8 (fields (new_dinode t))) as E.
  { replace (getb 0 8 din) with (take 8 (fields din)) by (unfold fields, getb; rewrite drop_0, take_take; done).
    rewrite Hf. unfold inode_fields. by rewrite take_app_le, take_take. }
  unfold inode_fields. rewrite <- E. unfold fields, getb, putb. rewrite !drop_0, length_bytes_of, !take_app.
  rewrite take_take, !length_take, length_bytes_of, Hl.
  change (12 - Nat.min 8 64)%nat with 4%nat. change (4 - 4)%nat with 0%nat. rewrite take_0, app_nil_r. by rewrite (take_ge (bytes_of _ _)) by (by rewrite length_bytes_of).
Qed.

Lemma size_of_fields t n din : length din = SIZEOF_DINODE -> fields din = inode_fields t n -> Z.of_nat n < 2 ^ 32 -> din_size din = Z.of_nat n.
Proof.
  intros Hl Hf Hn. unfold din_size, get32. assert (getb 8 4 din = bytes_of 4 (Z.of_nat n)) as ->.
  { transitivity (drop 8 (fields din)).
    - unfold fields, getb. rewrite drop_0. by rewrite skipn_firstn_comm.
    - rewrite Hf. unfold inode_fields. rewrite drop_app_ge by (by vm_compute). done. }
  rewrite of_bytes_of. apply Z.mod_small. lia.
Qed.

(** The blocks before the inodes: the super block and an empty log. *)
Definition boot_block (x : Z) : list Z := if x =? 1 then putb 0 sb_bytes zeroes else zeroes.

Definition blocks_used (fs : list (Z * list Z)) : nat := list_sum (map (fun f => use (nblk (length f.2))) fs).

(** Inode [j + 1] is a file of type and contents [fs !! j]; the other inodes are
    free. *)
Record inv (img : list (list Z)) (own : list (nat * slot)) (fs : list (Z * list Z)) : Prop := Inv {
  v_fine : img_fine img own;
  v_own : (length own <= 954)%nat;
  v_used : length own = blocks_used fs;
  v_num : (length fs <= 199)%nat;
  v_low : forall x, 0 <= x < 32 -> block_at img x = boot_block x;
  v_file : forall j t c, fs !! j = Some (t, c) ->
    file_ok img own j (dget img j) (nblk (length c)) c /\ tidy (dget img j) (nblk (length c)) /\ fields (dget img j) = inode_fields t (length c);
  v_free : forall j, (length fs <= j < 207)%nat -> dget img j = replicate SIZEOF_DINODE 0 }.

Definition mst (img : list (list Z)) (own : list (nat * slot)) (fs : list (Z * list Z)) : mkst := st img (Z.of_nat (S (length fs))) own.

Lemma blocks_used_cons t c fs : blocks_used ((t, c) :: fs) = (use (nblk (length c)) + blocks_used fs)%nat.
Proof. done. Qed.

Lemma blocks_used_insert fs j t c c' : fs !! j = Some (t, c) ->
  (blocks_used (<[j := (t, c')]> fs) + use (nblk (length c)) = blocks_used fs + use (nblk (length c')))%nat.
Proof.
  revert j. induction fs as [|[t0 c0] fs IH]; intros [|j] H; cbn in H; [done..| |].
  - injection H as -> ->. change (<[0%nat := (t, c')]> ((t, c) :: fs)) with ((t, c') :: fs). rewrite !blocks_used_cons. lia.
  - specialize (IH j H). change (<[S j := (t, c')]> ((t0, c0) :: fs)) with ((t0, c0) :: <[j := (t, c')]> fs). rewrite !blocks_used_cons. lia.
Qed.

Lemma set_size_addr n din k : length din = SIZEOF_DINODE -> (k <= NDIRECT)%nat -> din_addr (set_size n din) k = din_addr din k.
Proof. intros Hl Hk. unfold din_addr, set_size. apply get32_put32_disj; lia. Qed.

(** The sum of all blocks, with the new contents of a file, fits on the disk. *)
Definition fs_fits (fs : list (Z * list Z)) : Prop := (blocks_used fs <= 954)%nat /\ Forall (fun f => (length f.2 <= 268 * 1024)%nat) fs.

Lemma iappend_ok img own fs j t c p : inv img own fs -> fs !! j = Some (t, c) -> Forall byte_ok p ->
  let fs' := <[j := (t, c ++ p)]> fs in
  runs (iappend (inum_of j) p (mst img own fs)) (fs_fits fs') (fun _ s => exists img' own', s = mst img' own' fs' /\ inv img' own' fs').
Proof.
  intros [Hf Ho Hu Hn Hlow Hfiles Hfree] Hj Hp fs'. pose proof (lookup_lt_Some _ _ _ Hj) as Hjl. destruct (Hfiles j t c Hj) as (Hfile & Ht & Hfd).
  pose proof (blocks_used_insert fs j t c (c ++ p) Hj) as Hbu. fold fs' in Hbu.
  unfold iappend, mst. unfold mbind at 1, F_bind at 1. rewrite rinode_eq by (done || lia).
  pose proof (f_len _ _ _ _ _ _ Hfile). pose proof (f_nb _ _ _ _ _ _ Hfile).
  rewrite (size_of_fields t (length c)), Nat2Z.id by (apply Hfile || done || lia).
  eapply runs_bind; [by apply append_loop_ok|..].
  { intros [Hs Hc]. unfold append_fits. split; [|lia]. rewrite Forall_forall in Hc. apply (Hc (t, c ++ p)). apply list_elem_of_lookup_2 with j.
    unfold fs'. by apply list_lookup_insert_eq. }
  intros [din' off] s'. cbn [appended]. intros (img1 & own1 & -> & -> & Hf1 & Hfile1 & Ht1 & Htk & Hfd1 & Ho1 & Hl1).
  rewrite winode_eq by (done || lia). cbn [runs]. set (ip := set_size _ din'). set (img2 := wrote_inode img1 j ip).
  pose proof (f_din _ _ _ _ _ _ Hfile1) as Hd1. pose proof (f_bytes _ _ _ _ _ _ Hfile1) as Hb1.
  assert (length ip = SIZEOF_DINODE) as Hip by (unfold ip, set_size; rewrite length_put32; lia).
  assert (Forall byte_ok ip) as Hipb by (apply putb_bytes_ok; [apply bytes_of_ok|done]).
  exists img2, own1. unfold fs', mst. rewrite length_insert. split; [done|]. destruct Htk as [(l & -> & Hl) Hlow1 Hoth].
  assert (forall j', (j' < 207)%nat -> dget img1 j' = dget img j') as Edg
    by (intros j' Hj'; unfold dget; destruct (inode_block j' Hj') as (_ & ? & _); by rewrite Hlow1 by lia).
  split.
  - by apply wrote_inode_fine; [|lia|..].
  - done.
  - unfold fs' in Hbu. lia.
  - rewrite length_insert. done.
  - intros x Hx. unfold img2. rewrite (wrote_inode_at _ _ Hf1) by lia. rewrite Hlow1 by lia. by apply Hlow.
  - intros j' t' c' Hj'. pose proof (lookup_lt_Some _ _ _ Hj') as Hjl'. rewrite length_insert in Hjl'.
    unfold img2. rewrite (wrote_inode_dget _ _ Hf1) by (done || lia). apply list_lookup_insert_Some in Hj' as [(-> & [= <- <-] & _)|[Hne Hj']].
    + rewrite decide_True by done. split_and!.
      * apply (wrote_inode_file _ _ Hf1); [lia|]. eapply file_ok_ext; [done..|]. intros k Hk. by apply set_size_addr.
      * unfold tidy, ip. rewrite set_size_addr by (done || lia). done.
      * by eapply fields_set_size; [|rewrite Hfd1].
    + rewrite decide_False by done. destruct (Hfiles j' t' c' Hj') as (Hfile' & Ht' & Hfd').
      rewrite Edg by lia.
      split_and!; [|done..]. apply (wrote_inode_file _ _ Hf1); [lia|]. eapply file_frame; [done|]. intros i sl Hi. by eapply Hoth.
  - rewrite length_insert. intros j' Hj'. unfold img2. rewrite (wrote_inode_dget _ _ Hf1), decide_False, Edg by (done || lia). by apply Hfree.
Qed.

Section new_dinode.
Context (t : Z).
Let d0 : list Z := put16 6 1 (put16 0 t (replicate SIZEOF_DINODE 0)).
Let Hd0 : length d0 = SIZEOF_DINODE.
Proof. unfold d0. by rewrite !length_put16 by (rewrite ?length_put16; rewrite ?length_replicate; lia). Qed.

Lemma length_new_dinode : length (new_dinode t) = SIZEOF_DINODE.
Proof. unfold new_dinode. fold d0. rewrite length_put32; lia. Qed.

Lemma new_dinode_bytes : Forall byte_ok (new_dinode t).
Proof. repeat (apply putb_bytes_ok; [apply bytes_of_ok|]). apply Forall_replicate. split; lia. Qed.

Lemma new_dinode_addr k : (k <= NDIRECT)%nat -> din_addr (new_dinode t) k = 0.
Proof.
  intros Hk. unfold din_addr, new_dinode, get32. fold d0. rewrite getb_put32_disj by lia. unfold d0.
  rewrite !getb_put16_disj by (rewrite ?length_put16; rewrite ?length_replicate; lia).
  unfold getb. rewrite drop_replicate, take_replicate. apply of_bytes_zeros.
Qed.

Lemma new_dinode_fields : fields (new_dinode t) = inode_fields t 0.
Proof.
  unfold inode_fields, fields. rewrite (getb_app 0 8 4), take_app_le, take_ge.
  - by f_equal.
  - unfold getb. rewrite length_take. lia.
  - unfold getb. rewrite length_take, length_drop, length_new_dinode. lia.
Qed.
End new_dinode.

Lemma new_file_ok img own j t : file_ok img own j (new_dinode t) 0 [].
Proof.
  assert (forall bn, blk img (new_dinode t) bn = 0) as Eb.
  { intros bn. unfold blk. case_match eqn:E; [apply Nat.ltb_lt in E; apply new_dinode_addr; lia|]. by rewrite new_dinode_addr. }
  split.
  - apply length_new_dinode.
  - apply new_dinode_bytes.
  - lia.
  - simpl. lia.
  - intros bn Hbn. rewrite Eb. lia.
  - lia.
  - intros bn Hbn. lia.
  - by rewrite new_dinode_addr.
  - intros o Ho. simpl in Ho. lia.
Qed.

Lemma ialloc_ok img own fs t : inv img own fs -> (length fs < 199)%nat ->
  exists img', ialloc t (mst img own fs) = FOk (inum_of (length fs)) (mst img' own (fs ++ [(t, [])])) /\ inv img' own (fs ++ [(t, [])]).
Proof.
  intros [Hf Ho Hu Hn Hlow Hfiles Hfree] Hlt. unfold ialloc, mst, mbind, F_bind, next_inode. cbn [st m_img m_freeinode m_freeblock].
  rewrite u32_small by lia. replace (Z.of_nat (S (length fs)) + 1) with (Z.of_nat (S (length (fs ++ [(t, [])])))) by (rewrite length_app; simpl; lia).
  change (Mkst img ?fi ?fb) with (st img fi own). change (Z.of_nat (S (length fs))) with (inum_of (length fs)).
  rewrite winode_eq by (done || lia). cbn [mret F_ret]. eexists. split; [done|].
  pose proof (length_new_dinode t). pose proof (new_dinode_bytes t). split.
  - apply wrote_inode_fine; [done|lia|done..].
  - done.
  - rewrite Hu. unfold blocks_used. rewrite map_app, list_sum_app. simpl. lia.
  - rewrite length_app. simpl. lia.
  - intros x Hx. rewrite (wrote_inode_at _ _ Hf) by lia. by apply Hlow.
  - intros j t' c Hj. pose proof (lookup_lt_Some _ _ _ Hj) as Hjl. rewrite length_app in Hjl. simpl in Hjl.
    rewrite (wrote_inode_dget _ _ Hf) by (done || lia). apply lookup_app_Some in Hj as [Hj|[Hge Hj]].
    + pose proof (lookup_lt_Some _ _ _ Hj). rewrite decide_False by lia. destruct (Hfiles j t' c Hj) as (? & ? & ?).
      split_and!; [|done..]. apply (wrote_inode_file _ _ Hf); [lia|done].
    + assert (j = length fs) as -> by lia. rewrite Nat.sub_diag in Hj. cbn in Hj. injection Hj as <- <-. rewrite decide_True by done.
      split_and!.
      * apply (wrote_inode_file _ _ Hf); [lia|]. apply new_file_ok.
      * unfold tidy. by rewrite new_dinode_addr.
      * apply new_dinode_fields.
  - rewrite length_app. simpl. intros j Hj. rewrite (wrote_inode_dget _ _ Hf), decide_False by (done || lia). apply Hfree. lia.
Qed.

(** ** The files *)

(** [fs] is contained in [fs']: files only grow and new ones come at the end. *)
Definition fs_le (fs fs' : list (Z * list Z)) : Prop :=
  exists l1 l2, fs' = l1 ++ l2 /\ Forall2 (fun f f' => length f.2 <= length f'.2)%nat fs l1.

Lemma fs_fits_le fs fs' : fs_le fs fs' -> fs_fits fs' -> fs_fits fs.
Proof.
  intros (l1 & l2 & -> & H) [Hu Hs]. apply Forall_app in Hs as [Hs _]. unfold blocks_used in Hu. rewrite map_app, list_sum_app in Hu.
  assert (blocks_used l1 <= 954)%nat as Hu' by (unfold blocks_used; lia). clear Hu. unfold fs_fits.
  enough (blocks_used fs <= blocks_used l1 /\ Forall (fun f => (length f.2 <= 268 * 1024)%nat) fs)%nat as [? ?] by (split; [lia|done]).
  clear Hu'. induction H as [|[t c] [t' c'] fs l1 Hle _ IH]; [by split; [lia|]|]. apply Forall_cons in Hs as [Hc Hs]. destruct (IH Hs) as [IH1 IH2].
  cbn [snd] in *. rewrite !blocks_used_cons. pose proof (use_mono _ _ (nblk_mono _ _ Hle)). split; [lia|]. constructor; [cbn [snd]; lia|done].
Qed.

Lemma append_chunks_ok chunks : forall img own fs j t c, inv img own fs -> fs !! j = Some (t, c) -> Forall (Forall byte_ok) chunks ->
  let fs' := <[j := (t, c ++ concat chunks)]> fs in
  runs (append_chunks (inum_of j) chunks (mst img own fs)) (fs_fits fs') (fun _ s => exists img' own', s = mst img' own' fs' /\ inv img' own' fs').
Proof.
  induction chunks as [|p chunks IH]; intros img own fs j t c Hi Hj Hch.
  - cbn [append_chunks concat runs mret F_ret]. rewrite app_nil_r, list_insert_id by done. eauto.
  - apply Forall_cons in Hch as [Hp Hch]. cbn [append_chunks concat]. pose proof (lookup_lt_Some _ _ _ Hj). eapply runs_bind; [by apply iappend_ok|..].
    + apply fs_fits_le. exists (<[j := (t, c ++ p ++ concat chunks)]> fs), []. rewrite app_nil_r. split; [done|].
      apply Forall2_insert; [by apply Forall_Forall2_diag, Forall_true|]. cbn [snd]. rewrite !length_app. lia.
    + intros _ s (img' & own' & -> & Hi'). specialize (IH img' own' _ j t (c ++ p) Hi').
      rewrite list_lookup_insert_eq, list_insert_insert_eq, <- app_assoc in IH by done. by apply IH.
Qed.

Definition name_of (a : input) : list Z := skip_underscore (shortname (in_name a)).
Definition bytes_of_input (a : input) : list Z := concat (default [] (in_chunks a)).
Definition input_bytes (a : input) : Prop := Forall byte_ok (in_name a) /\ Forall (Forall byte_ok) (default [] (in_chunks a)).
Definition input_fits (a : input) : Prop := 47 ∉ shortname (in_name a) /\ is_Some (in_chunks a).

(** The directory entries for the arguments, from inode [n] on. *)
Fixpoint entries (n : nat) (args : list input) : list (list Z) :=
  match args with
  | [] => []
  | a :: args => dirent (Z.of_nat n) (name_of a) :: entries (S n) args
  end.

Definition files (args : list input) : list (Z * list Z) := (fun a => (T_FILE, bytes_of_input a)) <$> args.

Lemma name_of_bytes a : input_bytes a -> Forall byte_ok (name_of a).
Proof.
  intros [H _]. unfold name_of, shortname. assert (Forall byte_ok (drop 5 (in_name a))) by by apply Forall_drop.
  assert (forall l, Forall byte_ok l -> Forall byte_ok (skip_underscore l)) as Hs.
  { intros [|c l] Hl; [done|]. cbn. case_match; [by apply Forall_cons in Hl as [_ ?]|done]. }
  apply Hs. by case_match.
Qed.

Lemma dirent_bytes n name : Forall byte_ok name -> Forall byte_ok (dirent n name).
Proof.
  intros H. apply Forall_app. split; [apply bytes_of_ok|]. apply Forall_take, Forall_app. split; [done|]. apply Forall_replicate. split; lia.
Qed.

Lemma length_dirent n name : length (dirent n name) = 16%nat.
Proof. unfold dirent. rewrite length_app, length_bytes_of, length_take, length_app, length_replicate. lia. Qed.

Lemma insert_last {A} (l : list A) r f g : <[S (length l) := f]> (r :: l ++ [g]) = r :: l ++ [f].
Proof.
  change (<[S (length l) := f]> (r :: l ++ [g])) with (r :: <[length l := f]> (l ++ [g])). by rewrite insert_app_r_alt, Nat.sub_diag by done.
Qed.

Lemma add_file_ok img own r fl a : inv img own ((T_DIR, r) :: fl) -> (length fl < 198)%nat -> input_bytes a ->
  let fs' := (T_DIR, r ++ dirent (inum_of (S (length fl))) (name_of a)) :: fl ++ [(T_FILE, bytes_of_input a)] in
  runs (add_file 1 a (mst img own ((T_DIR, r) :: fl))) (input_fits a /\ fs_fits fs')
    (fun _ s => input_fits a /\ exists img' own', s = mst img' own' fs' /\ inv img' own' fs').
Proof.
  intros Hi Hlen Ha fs'. unfold add_file. unfold mbind at 1, F_bind at 1. unfold assert.
  destruct (bool_decide _) eqn:Hs; cbn [negb].
  { apply bool_decide_eq_true in Hs. cbn [runs]. intros [[? _] _]. done. }
  apply bool_decide_eq_false in Hs. destruct (in_chunks a) as [chunks|] eqn:Hc.
  2: { cbn [runs die]. intros [[_ [? E]] _]. congruence. }
  fold (name_of a). assert (input_fits a) as Hfit by (split; [done|by eexists]).
  destruct (ialloc_ok img own ((T_DIR, r) :: fl) T_FILE Hi) as (img1 & E1 & Hi1); [simpl; lia|].
  unfold mbind at 1, F_bind at 1. rewrite E1. pose proof (name_of_bytes a Ha).
  assert (bytes_of_input a = concat chunks) as Eb by (unfold bytes_of_input; by rewrite Hc).
  destruct Ha as [_ Ha]. rewrite Hc in Ha. cbn [default] in Ha.
  eapply runs_bind; [apply (iappend_ok img1 own _ 0 T_DIR r); [done|done|by apply dirent_bytes]|..].
  - intros [_ HF]. revert HF. apply fs_fits_le. exists fs', []. rewrite app_nil_r. split; [done|]. cbn. constructor; [done|].
    apply Forall2_app; [by apply Forall_Forall2_diag, Forall_true|]. constructor; [cbn [snd length]; lia|done].
  - cbn beta. intros _ s (img2 & own2 & -> & Hi2). cbn [list_insert insert app length] in Hi2 |- *.
    change (inum_of (length ((T_DIR, r) :: fl))) with (inum_of (S (length fl))) in *.
    eapply runs_impl; [eapply (append_chunks_ok chunks _ _ _ (S (length fl))); [done| |done]|..].
    + rewrite lookup_cons. by rewrite lookup_app_r, Nat.sub_diag by done.
    + intros [_ HF]. unfold fs' in HF. rewrite Eb in HF. by rewrite insert_last.
    + intros _ s (img3 & own3 & -> & Hi3). split; [done|]. exists img3, own3. rewrite insert_last in *. unfold fs'. by rewrite Eb.
Qed.

Lemma add_files_ok args : forall img own r fl, inv img own ((T_DIR, r) :: fl) -> (length fl + length args <= 198)%nat -> Forall input_bytes args ->
  let fs' := (T_DIR, r ++ concat (entries (length fl + 2) args)) :: fl ++ files args in
  runs (add_files 1 args (mst img own ((T_DIR, r) :: fl))) (Forall input_fits args /\ fs_fits fs')
    (fun _ s => Forall input_fits args /\ exists img' own', s = mst img' own' fs' /\ inv img' own' fs').
Proof.
  induction args as [|a args IH]; intros img own r fl Hi Hlen Ha fs'.
  - cbn [add_files runs mret F_ret]. split; [done|]. exists img, own. unfold fs'. cbn [entries concat files fmap list_fmap]. by rewrite !app_nil_r.
  - apply Forall_cons in Ha as [Ha Has]. cbn [add_files]. cbn [length] in Hlen.
    set (r1 := r ++ dirent (inum_of (S (length fl))) (name_of a)). set (fl1 := fl ++ [(T_FILE, bytes_of_input a)]).
    assert (fs' = (T_DIR, r1 ++ concat (entries (length fl1 + 2) args)) :: fl1 ++ files args) as E.
    { unfold fs', r1, fl1. rewrite length_app. cbn [entries concat files fmap list_fmap length]. rewrite <- !app_assoc. cbn [app].
      replace (length fl + 1 + 2)%nat with (S (length fl + 2)) by lia. unfold inum_of. by replace (S (S (length fl))) with (length fl + 2)%nat by lia. }
    eapply runs_bind; [apply add_file_ok; [done|lia|done]|..].
    + intros [Hf HF]. apply Forall_cons in Hf as [Hf _]. split; [done|]. revert HF. apply fs_fits_le. rewrite E.
      eexists (_ :: fl1), (files args). split; [done|]. constructor; [unfold r1; cbn [snd]; rewrite !length_app; lia|].
      by apply Forall_Forall2_diag, Forall_true.
    + cbn beta. intros _ s (Hf & img1 & own1 & -> & Hi1). fold r1 fl1 in Hi1 |- *. rewrite E.
      eapply runs_impl; [apply IH; [done| |done]|..].
      * unfold fl1. rewrite length_app. cbn [length]. lia.
      * intros [Hfs HF]. by apply Forall_cons in Hfs as [_ ?].
      * cbn beta. intros _ s (Hfs & H). split; [by constructor|done].
Qed.

(** ** The empty image *)

Lemma zero_blocks_eq n fi fb : zero_blocks n (Mkst [] fi fb) = FOk tt (Mkst (replicate n zeroes) fi fb).
Proof.
  induction n as [|n IH]; [done|]. cbn [zero_blocks]. unfold mbind, F_bind. rewrite IH. unfold wsect. cbn [m_img m_freeinode m_freeblock].
  rewrite Nat2Z.id, length_replicate, (proj2 (Nat.ltb_ge n n)), Nat.sub_diag by lia. cbn [replicate app].
  by rewrite <- replicate_cons_app.
Qed.

Lemma zeroes_ok : block_ok zeroes.
Proof. split; [apply length_replicate|]. apply Forall_replicate. split; lia. Qed.

Lemma block_at_replicate x : 0 <= x < 1000 -> block_at (replicate 1000 zeroes) x = zeroes.
Proof. intros Hx. unfold block_at. apply lookup_total_replicate_2. lia. Qed.

Definition first_img : list (list Z) := <[1%nat := putb 0 sb_bytes zeroes]> (replicate 1000 zeroes).

Lemma first_img_fine : img_fine (replicate 1000 zeroes) [].
Proof.
  split; [apply length_replicate|apply Forall_replicate, zeroes_ok|]. intros x Hx. apply block_at_replicate. simpl in Hx. lia.
Qed.

Lemma first_inv : inv first_img [] [].
Proof.
  assert (forall x, 0 <= x < 1000 -> block_at first_img x = if decide (x = 1) then putb 0 sb_bytes zeroes else zeroes) as Eg.
  { intros x Hx. unfold first_img. change 1%nat with (Z.to_nat 1). rewrite (block_at_insert _ [] 1) by (apply first_img_fine || lia).
    case_decide; [done|by apply block_at_replicate]. }
  split.
  - apply (img_fine_write (replicate 1000 zeroes) [] 1); [apply first_img_fine|simpl; lia|lia|]. split; [done|].
    apply putb_bytes_ok; [|apply zeroes_ok]. by apply (bool_decide_unpack _).
  - simpl. lia.
  - done.
  - simpl. lia.
  - intros x Hx. rewrite Eg by lia. unfold boot_block. case_decide; [by subst x|]. by rewrite (proj2 (Z.eqb_neq x 1)).
  - done.
  - intros j Hj. destruct (inode_block j ltac:(lia)) as (_ & Hb & Ho). unfold dget. rewrite Eg, decide_False by lia.
    unfold getb, zeroes. rewrite drop_replicate, take_replicate. f_equal. lia.
Qed.
