(* ===== verification/MkfsImage.v ===== *)
(** The finished image of mkfs, as the kernel finds it when it mounts the disk:
    what the theorems about kernel/fs.c assume of a file system holds at first. *)

From Stdlib Require Import ZArith Lia.
From stdpp Require Import base gmap strings list numbers.
From S2P Require Import Prelude Params State Spinlock Sched CString Frame Bio Cache Virtio Demo Log Commit Transaction Fs Dir Blocks Content DirSpec Mkfs MkfsSpec.
Import Mkfs.

Open Scope Z_scope.

(** ** The bitmap *)

Lemma set_bits_ok n buf : block_ok buf -> block_ok (set_bits n buf).
Proof. intros H. induction n as [|n IH]; [done|]. by apply (bitmap_set_ok (Z.of_nat n)). Qed.

Lemma zeroes_free bi : 0 <= bi < BPB -> bitmap_free zeroes bi = true.
Proof.
  intros Hb. unfold bitmap_free, bitmap_byte, zeroes. rewrite lookup_total_replicate_2 by dlia. by rewrite Z.land_0_l.
Qed.

Lemma set_bits_free n bi : 0 <= bi < BPB -> Z.of_nat n <= BPB -> bitmap_free (set_bits n zeroes) bi = (Z.of_nat n <=? bi).
Proof.
  intros Hb. induction n as [|n IH]; intros Hn.
  - rewrite zeroes_free by done. symmetry. apply Z.leb_le. lia.
  - change (set_bits (S n) zeroes) with (bitmap_set (Z.of_nat n) (set_bits n zeroes)).
    rewrite bitmap_free_set by (lia || apply set_bits_ok, zeroes_ok). rewrite IH by lia.
    destruct (Z.leb_spec (Z.of_nat n) bi), (Z.leb_spec (Z.of_nat (S n)) bi); case_bool_decide; lia || done.
Qed.

(** ** The finished image *)

(** The size main() gives to the root directory. *)
Definition root_size (r : list Z) : nat := ((length r / 1024 + 1) * 1024)%nat.

(** Inode 1 is the root directory with the bytes [r], inode [j + 2] the file
    [fl !! j]; [own] are the blocks in use behind the metadata. *)
Record image (img : list (list Z)) (own : list (nat * slot)) (r : list Z) (fl : list (Z * list Z)) : Prop := Image {
  im_fine : img_fine img own;
  im_own : (length own <= 954)%nat;
  im_num : (length fl <= 198)%nat;
  im_low : forall x, 0 <= x < 32 -> block_at img x = boot_block x;
  im_root : file_ok img own 0 (dget img 0) (nblk (length r)) r /\ tidy (dget img 0) (nblk (length r)) /\
    fields (dget img 0) = inode_fields T_DIR (root_size r);
  im_file : forall j t c, fl !! j = Some (t, c) -> file_ok img own (S j) (dget img (S j)) (nblk (length c)) c /\
    tidy (dget img (S j)) (nblk (length c)) /\ fields (dget img (S j)) = inode_fields t (length c);
  im_free : forall j, (S (length fl) <= j < 207)%nat -> dget img j = replicate SIZEOF_DINODE 0;
  im_bits : block_at img 45 = set_bits (46 + length own) zeroes }.

Definition finish : F unit := fix_root 1;; fb ← get_freeblock; balloc fb.

Section finish.
Context (img : list (list Z)) (own : list (nat * slot)) (r : list Z) (fl : list (Z * list Z)).
Context (Hinv : inv img own ((T_DIR, r) :: fl)).
Let ip : list Z := set_size (Z.of_nat (root_size r)) (dget img 0).
Let img1 : list (list Z) := wrote_inode img 0 ip.
Let img2 : list (list Z) := <[45%nat := set_bits (46 + length own) zeroes]> img1.

Let Hroot := v_file _ _ _ Hinv 0%nat T_DIR r eq_refl.
Let Hfine := v_fine _ _ _ Hinv.

Lemma ip_ok : length ip = SIZEOF_DINODE /\ Forall byte_ok ip.
Proof.
  destruct Hroot as ([Hl Hb _ _ _ _ _ _ _] & _). unfold ip, set_size. split; [rewrite length_put32; lia|].
  apply putb_bytes_ok; [apply bytes_of_ok|done].
Qed.

Lemma img1_fine : img_fine img1 own.
Proof. destruct ip_ok. by apply wrote_inode_fine; [|lia|..]. Qed.

Lemma root_bound : (length r <= 268 * 1024)%nat.
Proof. destruct Hroot as ([_ _ Hn Hl _ _ _ _ _] & _). lia. Qed.

Lemma finish_eq : finish (mst img own ((T_DIR, r) :: fl)) = FOk tt (st img2 (Z.of_nat (S (S (length fl)))) own).
Proof.
  pose proof img1_fine as Hf1. pose proof (v_own _ _ _ Hinv). pose proof root_bound as Hb.
  unfold finish, fix_root, mst. unfold mbind, F_bind. change (rinode 1) with (rinode (inum_of 0)). change (winode 1) with (winode (inum_of 0)). rewrite rinode_eq by (done || lia).
  destruct Hroot as (Hfile & _ & Hfd). rewrite (size_of_fields T_DIR (length r)) by (apply Hfile || done || lia).
  replace (u32 ((Z.of_nat (length r) / 1024 + 1) * 1024)) with (Z.of_nat (root_size r)).
  2: { unfold root_size. rewrite u32_small by dlia. rewrite Nat2Z.inj_mul, Nat2Z.inj_add, Nat2Z.inj_div. lia. }
  rewrite winode_eq by (done || lia). fold ip img1. cbn [get_freeblock st m_freeblock]. unfold balloc. unfold mbind, F_bind, assert.
  rewrite (proj2 (Z.ltb_lt _ _)) by lia. change (sb_bmapstart sb) with 45. change (Mkst img1 ?a ?b) with (st img1 a own).
  rewrite wsect_eq by (done || lia). unfold img2. by replace (Z.to_nat (46 + Z.of_nat (length own))) with (46 + length own)%nat by lia.
Qed.

Lemma img2_at x : 0 <= x < 1000 -> x <> 45 -> block_at img2 x = block_at img1 x.
Proof.
  intros Hx Hne. unfold img2. change 45%nat with (Z.to_nat 45). rewrite (block_at_insert img1 own) by (apply img1_fine || lia). by rewrite decide_False.
Qed.

Lemma img2_dget j : (j < 207)%nat -> dget img2 j = if decide (j = 0%nat) then ip else dget img j.
Proof.
  intros Hj. destruct (inode_block j Hj) as (_ & ? & _), ip_ok. transitivity (dget img1 j); [unfold dget; by rewrite img2_at by lia|].
  by apply (wrote_inode_dget img own); [|lia|..].
Qed.

Lemma img2_file j din nb c : file_ok img own j din nb c -> file_ok img2 own j din nb c.
Proof.
  intros H. apply (wrote_inode_file img own Hfine 0 ltac:(lia) ip) in H. fold img1 in H. rewrite <- (app_nil_r own).
  eapply file_frame; [done|]. intros i sl Hi. apply lookup_lt_Some in Hi. pose proof (v_own _ _ _ Hinv). apply img2_at; lia.
Qed.

Lemma finish_image : image img2 own r fl.
Proof.
  pose proof Hinv as [_ Ho _ Hn Hlow Hfiles Hfree]. simpl in Hn. destruct ip_ok as [Hl Hb]. split.
  - unfold img2. change 45%nat with (Z.to_nat 45). apply img_fine_write; [apply img1_fine|lia|lia|]. apply set_bits_ok, zeroes_ok.
  - done.
  - lia.
  - intros x Hx. rewrite img2_at by lia. unfold img1. rewrite (wrote_inode_at img own) by (done || lia). by apply Hlow.
  - rewrite img2_dget, decide_True by (done || lia). destruct Hroot as (Hfile & Ht & Hfd). pose proof (f_din _ _ _ _ _ _ Hfile). split_and!.
    + apply img2_file. eapply file_ok_ext; [done..|]. intros k Hk. by apply set_size_addr.
    + unfold tidy, ip. by rewrite set_size_addr by (done || lia).
    + by eapply fields_set_size.
  - intros j t c Hj. pose proof (lookup_lt_Some _ _ _ Hj). rewrite img2_dget, decide_False by lia. destruct (Hfiles (S j) t c Hj) as (? & ? & ?).
    split_and!; [by apply img2_file|done..].
  - intros j Hj. rewrite img2_dget, decide_False by lia. apply Hfree. simpl. lia.
  - unfold img2. change 45%nat with (Z.to_nat 45). rewrite (block_at_insert img1 own) by (apply img1_fine || lia). by rewrite decide_True.
Qed.
End finish.

(** ** main() *)

Definition listing (args : list input) : list Z := dirent 1 (str ".") ++ dirent 1 (str "..") ++ concat (entries 2 args).

(** Every argument is the name of a file in the directory, and all of them fit. *)
Definition args_fit (args : list input) : Prop := Forall input_fits args /\ fs_fits ((T_DIR, listing args) :: files args).

Lemma make_finish args s : make args s =
  (zero_blocks 1000;; wsect 1 (putb 0 sb_bytes zeroes);; rootino ← ialloc T_DIR; assert (rootino =? ROOTINO);;
   iappend rootino (dirent rootino (str "."));; iappend rootino (dirent rootino (str ".."));; add_files rootino args;;
   fix_root rootino;; fb ← get_freeblock; balloc fb) s.
Proof. done. Qed.

Lemma main_ok args : Forall input_bytes args -> (length args <= 198)%nat ->
  runs (main args) (args_fit args) (fun _ s => Forall input_fits args /\ exists own,
    m_freeblock s = base + Z.of_nat (length own) /\ image (m_img s) own (listing args) (files args)).
Proof.
  intros Hb Hn. unfold main. rewrite make_finish. unfold mbind at 1, F_bind at 1. rewrite zero_blocks_eq.
  unfold mbind at 1, F_bind at 1. rewrite nmeta_base. change (Mkst ?i 1 base) with (st i 1 []). rewrite wsect_eq by (apply first_img_fine || lia).
  change (st _ 1 []) with (mst first_img [] []).
  destruct (ialloc_ok first_img [] [] T_DIR first_inv) as (img0 & E0 & Hi0); [simpl; lia|]. unfold mbind at 1, F_bind at 1. rewrite E0.
  change (inum_of (length [])) with 1. unfold mbind at 1, F_bind at 1. change (assert (1 =? ROOTINO) ?s) with (FOk tt s). cbv beta iota.
  assert (Hsub : forall r, (length r <= length (listing args))%nat -> args_fit args -> fs_fits [(T_DIR, r)]).
  { intros r Hr [_ HF]. revert HF. apply fs_fits_le. eexists [_], _. split; [done|]. by constructor. }
  eapply runs_bind; [apply (iappend_ok img0 [] _ 0 T_DIR []); [done|done|by apply dirent_bytes, (bool_decide_unpack _)]|..].
  { apply Hsub. unfold listing. rewrite !length_app. simpl. lia. }
  cbv beta. intros _ s (img1 & own1 & -> & Hi1). change (<[0%nat := ?x]> ?l) with [x] in *.
  eapply runs_bind; [apply (iappend_ok img1 own1 _ 0 T_DIR (dirent 1 (str "."))); [done|done|by apply dirent_bytes, (bool_decide_unpack _)]|..].
  { apply Hsub. unfold listing. rewrite !length_app. lia. }
  cbv beta. intros _ s (img2 & own2 & -> & Hi2). change (<[0%nat := ?x]> ?l) with [x] in *.
  eapply runs_bind; [by apply (add_files_ok args img2 own2 (dirent 1 (str ".") ++ dirent 1 (str "..")) [])|..].
  { rewrite <- app_assoc. by intros [? ?]. }
  cbv beta. intros _ s (Hf & img3 & own3 & -> & Hi3). rewrite <- app_assoc in *. change (length [] + 2)%nat with 2%nat in *. fold (listing args) in *.
  change ([] ++ files args) with (files args) in *. fold finish. rewrite (finish_eq _ _ _ _ Hi3). cbn [runs st m_img m_freeblock]. split; [done|].
  eexists. split; [done|]. by apply finish_image.
Qed.

(** ** The kernel's view *)

(** The inode that ilock() reads for [n]. *)
Definition disk_inode (k : kst) (n : Z) (ip : inode) : inode := load_dinode (dinode_off n) (kview k (IBLOCK n (k_sb k))) ip.

(** [k] has mounted the disk [img]. *)
Record mounted (k : kst) (img : list (list Z)) : Prop := Mounted {
  mo_view : forall x, 0 <= x < 1000 -> kview k x = block_at img x;
  mo_disk : forall x, 0 <= x < 1000 -> is_Some (d_img (k_disk k) !! x);
  mo_sb : k_sb k = sb;
  mo_start : l_start (k_log k) = 2;
  mo_size : l_size (k_log k) = 30 }.

Lemma getb_getb o n off m d : (o + n <= m)%nat -> getb o n (getb off m d) = getb (off + o) n d.
Proof. intros H. unfold getb. rewrite skipn_firstn_comm, take_take, drop_drop. f_equal. lia. Qed.

Section view.
Context (k : kst) (img : list (list Z)) (own : list (nat * slot)) (r : list Z) (fl : list (Z * list Z)).
Context (HM : mounted k img) (HI : image img own r fl).

Lemma mounted_layout : fs_layout k.
Proof.
  destruct HM as [_ Hd Hsb Hs Hz]. constructor; rewrite ?Hsb, ?Hs, ?Hz; try exact Hd; vm_compute; intuition congruence.
Qed.

Lemma mounted_bit b : 0 <= b < 1000 -> bit_used k b = (b <? base + Z.of_nat (length own)).
Proof.
  intros Hb. unfold bit_used. assert (BBLOCK b (k_sb k) = 45) as E.
  { rewrite (mo_sb _ _ HM). unfold BBLOCK. change (sb_bmapstart sb) with 45. rewrite u32_small; dlia. }
  pose proof (im_own _ _ _ _ HI). rewrite E, (mo_view _ _ HM), (im_bits _ _ _ _ HI), Z.mod_small, set_bits_free by lia.
  rewrite Z.leb_antisym, negb_involutive. f_equal. lia.
Qed.

Lemma mounted_data i sl : own !! i = Some sl -> data_block k (base + Z.of_nat i).
Proof.
  intros Hi%lookup_lt_Some. pose proof (im_own _ _ _ _ HI). unfold data_block. rewrite mounted_bit by lia. rewrite (mo_sb _ _ HM).
  change (data_start sb) with 46. change (sb_size sb) with 1000. split; [lia|]. apply Z.ltb_lt. lia.
Qed.

Lemma mounted_meta : meta_used k.
Proof. intros b. rewrite (mo_sb _ _ HM). change (data_start sb) with 46. intros Hb. rewrite mounted_bit by lia. apply Z.ltb_lt. lia. Qed.

(** The inode in memory and its bytes on disk. *)
Section inode.
Context (j : nat) (Hj : (j < 207)%nat) (ip0 : inode) (Hdev : i_dev ip0 = ROOTDEV).
Let ip : inode := disk_inode k (inum_of j) ip0.
Let din : list Z := dget img j.

Lemma disk_din : kview k (IBLOCK (inum_of j) (k_sb k)) = block_at img (IBLOCK (inum_of j) sb).
Proof. destruct (inode_block j Hj) as (_ & ? & _). rewrite (mo_sb _ _ HM). apply (mo_view _ _ HM). lia. Qed.

Lemma disk_get32 o : (o + 4 <= 64)%nat -> get32 (dinode_off (inum_of j) + o) (kview k (IBLOCK (inum_of j) (k_sb k))) = get32 o din.
Proof. intros Ho. rewrite disk_din. unfold din, dget, get32. by rewrite getb_getb by lia. Qed.

Lemma disk_get16 o : (o + 2 <= 64)%nat -> get16 (dinode_off (inum_of j) + o) (kview k (IBLOCK (inum_of j) (k_sb k))) = get16 o din.
Proof. intros Ho. rewrite disk_din. unfold din, dget, get16. by rewrite getb_getb by lia. Qed.

Lemma disk_addr i : (i <= NDIRECT)%nat -> i_addrs ip !!! i = din_addr din i.
Proof.
  intros Hi. unfold ip, disk_inode, load_dinode. cbn [i_addrs set_i_type set_i_major set_i_minor set_i_nlink set_i_size set_i_addrs].
  apply list_lookup_total_correct. rewrite list_lookup_fmap, lookup_seq_lt by lia. cbn [fmap option_fmap option_map]. f_equal.
  rewrite Nat.add_0_l, <- Nat.add_assoc. apply disk_get32. lia.
Qed.

Context (nb : nat) (c : list Z) (Hfile : file_ok img own j din nb c).

Lemma own_disk i sl : own !! i = Some sl -> 0 <= base + Z.of_nat i < 1000.
Proof. intros Hi%lookup_lt_Some. pose proof (im_own _ _ _ _ HI). lia. Qed.

Lemma disk_blk bn : (bn < 268)%nat -> iblock k ip (Z.of_nat bn) = blk img din bn.
Proof.
  intros Hbn. unfold iblock, blk, iind. rewrite (disk_addr NDIRECT) by lia. destruct (Nat.ltb_spec bn NDIRECT).
  - rewrite (proj2 (Z.ltb_lt (Z.of_nat bn) (Z.of_nat NDIRECT))), Nat2Z.id by lia. apply disk_addr. lia.
  - rewrite (proj2 (Z.ltb_ge (Z.of_nat bn) (Z.of_nat NDIRECT))) by lia. destruct (din_addr din NDIRECT =? 0) eqn:E; [done|]. apply Z.eqb_neq in E.
    destruct (f_oind _ _ _ _ _ _ Hfile E) as (i & Ei & Hi). pose proof (own_disk _ _ Hi). rewrite (mo_view _ _ HM) by lia. do 2 f_equal. lia.
Qed.

Lemma disk_blk_own bn : (bn < 268)%nat -> iblock k ip (Z.of_nat bn) <> 0 ->
  exists i, iblock k ip (Z.of_nat bn) = base + Z.of_nat i /\ own !! i = Some (j, Blk bn).
Proof. intros Hbn. rewrite disk_blk by done. intros H%(f_blk _ _ _ _ _ _ Hfile); [|done]. by apply (f_own _ _ _ _ _ _ Hfile). Qed.

Lemma disk_inode_ok sz : i_size ip = Z.of_nat sz -> (sz <= nb * 1024)%nat -> inode_ok k ip.
Proof.
  intros Hsz Hle. pose proof (f_nb _ _ _ _ _ _ Hfile). constructor.
  - done.
  - unfold ip, disk_inode, load_dinode. cbn [i_addrs set_i_type set_i_major set_i_minor set_i_nlink set_i_size set_i_addrs]. by rewrite length_fmap, length_seq.
  - rewrite Hsz. lia.
  - unfold iind. rewrite disk_addr by lia. intros H'. destruct (f_oind _ _ _ _ _ _ Hfile H') as (i & -> & Hi). by eapply mounted_data.
  - intros bn Hbn. rewrite <- (Z2Nat.id bn) by lia. intros H'. destruct (disk_blk_own (Z.to_nat bn) ltac:(lia) H') as (i & -> & Hi). by eapply mounted_data.
  - intros bn bn' Hbn Hbn'. rewrite <- (Z2Nat.id bn), <- (Z2Nat.id bn') by lia. intros H1 E. pose proof H1 as H2. rewrite E in H2.
    destruct (disk_blk_own (Z.to_nat bn) ltac:(lia) H1) as (i & Ei & Hi), (disk_blk_own (Z.to_nat bn') ltac:(lia) H2) as (i' & Ei' & Hi').
    assert (i = i') as -> by lia. congruence.
  - intros bn Hbn. rewrite <- (Z2Nat.id bn) by lia. unfold iind. rewrite disk_addr by lia. intros H1 E.
    destruct (disk_blk_own (Z.to_nat bn) ltac:(lia) H1) as (i & Ei & Hi), (f_oind _ _ _ _ _ _ Hfile) as (i' & Ei' & Hi'); [congruence|].
    assert (i = i') as -> by lia. congruence.
  - intros bn Hbn. rewrite Hsz, <- (Z2Nat.id bn) by lia. intros Hlt. rewrite disk_blk by lia. apply (f_blk _ _ _ _ _ _ Hfile); lia.
Qed.

Lemma disk_fbyte o : (o < nb * 1024)%nat -> fbyte k ip (Z.of_nat o) = nth o c 0.
Proof.
  intros Ho. pose proof (f_nb _ _ _ _ _ _ Hfile). assert (o / 1024 < nb)%nat as Hq by (apply Nat.Div0.div_lt_upper_bound; lia).
  unfold fbyte. change 1024 with (Z.of_nat 1024). rewrite <- Nat2Z.inj_div, <- Nat2Z.inj_mod, disk_blk, Nat2Z.id by lia.
  destruct (f_own _ _ _ _ _ _ Hfile _ Hq) as (i & Ei & Hi). pose proof (own_disk _ _ Hi). rewrite (mo_view _ _ HM) by lia.
  apply list_lookup_total_correct, (f_data _ _ _ _ _ _ Hfile); [done|lia].
Qed.

Lemma disk_content sz : i_size ip = Z.of_nat sz -> (length c <= sz <= nb * 1024)%nat -> content k ip = c ++ replicate (sz - length c) 0.
Proof.
  intros Hsz Hle. apply list_eq. intros o. destruct (decide (o < sz)%nat) as [Ho|Ho].
  - rewrite lookup_content by (rewrite Hsz; lia). rewrite disk_fbyte by lia. destruct (decide (o < length c)%nat) as [Hc|Hc].
    + rewrite lookup_app_l by done. destruct (nth_lookup_or_length c o 0); [done|lia].
    + rewrite lookup_app_r, nth_overflow by lia. symmetry. apply lookup_replicate_2. lia.
  - rewrite !lookup_ge_None_2; [done|rewrite length_app, length_replicate; lia|]. rewrite length_content, Hsz. lia.
Qed.

Lemma disk_fields t sz : fields din = inode_fields t sz -> Z.of_nat sz < 2 ^ 32 -> i_size ip = Z.of_nat sz /\
  i_type ip = i16 (get16 0 (new_dinode t)) /\ i_nlink ip = i16 (get16 6 (new_dinode t)).
Proof.
  intros Hf Hs. unfold ip, disk_inode, load_dinode. cbn [i_type i_nlink i_size set_i_type set_i_major set_i_minor set_i_nlink set_i_size set_i_addrs].
  rewrite disk_get32, disk_get16 by lia. replace (dinode_off (inum_of j)) with (dinode_off (inum_of j) + 0)%nat at 1 by lia. rewrite disk_get16 by lia.
  split; [by apply (size_of_fields t); [apply Hfile|..]|].
  assert (forall o, (o + 2 <= 8)%nat -> get16 o din = get16 o (new_dinode t)) as E; [|by rewrite !E by lia].
  intros o Ho. unfold get16. transitivity (of_bytes (getb o 2 (take 8 (fields din)))).
  - unfold fields. f_equal. change (take 8 (getb 0 12 din)) with (getb 0 8 (getb 0 12 din)). by rewrite !getb_getb by lia.
  - rewrite Hf. unfold inode_fields. rewrite take_app_le by by vm_compute. rewrite take_take. unfold fields.
    change (take (8 `min` 8) (getb 0 12 (new_dinode t))) with (getb 0 8 (getb 0 12 (new_dinode t))). by rewrite !getb_getb by lia.
Qed.
End inode.
End view.

(** ** What the kernel finds *)

(** The entries of the root directory. *)
Definition root_entries (args : list input) : list (list Z) := dirent 1 (str ".") :: dirent 1 (str "..") :: entries 2 args.

(** The root directory has its entries and then zeroes, if they do not end with a
    block; the arguments are its files, and no block belongs to two inodes. *)
Record initial_fs (k : kst) (used : Z) (args : list input) : Prop := InitialFs {
  if_layout : fs_layout k;
  if_meta : meta_used k;
  if_bits : forall b, 0 <= b < sb_size (k_sb k) -> bit_used k b = (b <? used);
  if_root : forall ip0, i_dev ip0 = ROOTDEV -> let ip := disk_inode k ROOTINO ip0 in
    i_type ip = T_DIR /\ i_nlink ip = 1 /\
    (((length args + 2) mod 64 <> 0)%nat -> dir_ok k ip /\
      exists n, dirents k ip = root_entries args ++ replicate n (replicate SIZEOF_DIRENT 0));
  if_files : forall j a ip0, args !! j = Some a -> i_dev ip0 = ROOTDEV -> let ip := disk_inode k (inum_of (S j)) ip0 in
    inode_ok k ip /\ i_type ip = T_FILE /\ i_nlink ip = 1 /\ content k ip = bytes_of_input a;
  if_free : forall n, Z.of_nat (length args) + 2 <= n < sb_ninodes (k_sb k) -> get16 (dinode_off n) (kview k (IBLOCK n (k_sb k))) = 0;
  if_disjoint : forall j j' bn bn' ip0 ip0', (j <= length args)%nat -> (j' <= length args)%nat -> 0 <= bn < MAXFILE -> 0 <= bn' < MAXFILE ->
    iblock k (disk_inode k (inum_of j) ip0) bn <> 0 ->
    iblock k (disk_inode k (inum_of j) ip0) bn = iblock k (disk_inode k (inum_of j') ip0') bn' -> j = j' }.

Lemma chunks_concat (n : nat) (es : list (list Z)) : Forall (fun e => length e = n) es ->
  (fun j => getb (n * j) n (concat es)) <$> seq 0 (length es) = es.
Proof.
  induction 1 as [|e es He _ IH]; [done|]. cbn [length seq fmap list_fmap concat]. f_equal.
  - rewrite Nat.mul_0_r. unfold getb. by rewrite drop_0, take_app_le, take_ge by lia.
  - rewrite <- IH at 2. rewrite <- fmap_S_seq, <- list_fmap_compose. apply list_fmap_ext. intros i j _. cbn [compose].
    unfold getb. rewrite drop_app_ge by lia. do 2 f_equal. lia.
Qed.

Lemma concat_zeros a b : concat (replicate a (replicate b 0)) = replicate (a * b) 0.
Proof. induction a as [|a IH]; [done|]. cbn [replicate concat Nat.mul]. by rewrite IH, replicate_add. Qed.

Lemma entries_len args : forall n, Forall (fun e => length e = 16%nat) (entries n args) /\ length (entries n args) = length args.
Proof.
  induction args as [|a args IH]; intros n; [done|]. destruct (IH (S n)). cbn [entries length]. split; [|lia]. constructor; [apply length_dirent|done].
Qed.

Lemma root_entries_len args : Forall (fun e => length e = 16%nat) (root_entries args) /\ length (root_entries args) = (length args + 2)%nat.
Proof.
  destruct (entries_len args 2) as [H1 H2]. unfold root_entries. cbn [length]. split; [|lia]. by repeat (constructor; [apply length_dirent|]).
Qed.

Lemma concat_len (n : nat) (es : list (list Z)) : Forall (fun e => length e = n) es -> length (concat es) = (n * length es)%nat.
Proof. induction 1 as [|e es He _ IH]; cbn [concat length]; [lia|]. rewrite length_app, IH. lia. Qed.

Lemma dirents_root k ip args sz : i_size ip = Z.of_nat sz -> (sz mod 16 = 0)%nat -> (length (listing args) <= sz)%nat ->
  content k ip = listing args ++ replicate (sz - length (listing args)) 0 ->
  exists n, dirents k ip = root_entries args ++ replicate n (replicate SIZEOF_DIRENT 0).
Proof.
  intros Hs Hm Hl Hc. destruct (root_entries_len args) as [H1 H2]. change (listing args) with (concat (root_entries args)) in *.
  rewrite (concat_len 16) in * by done. set (n := (sz / 16 - length (root_entries args))%nat). exists n.
  pose proof (Nat.div_mod_eq sz 16) as Hd. assert (sz = 16 * (length (root_entries args) + n))%nat as Esz by lia.
  set (es := root_entries args ++ replicate n (replicate SIZEOF_DIRENT 0)).
  assert (Forall (fun e => length e = 16%nat) es) as Hes by (apply Forall_app; split; [done|]; by apply Forall_replicate).
  assert (content k ip = concat es) as E.
  { rewrite Hc. unfold es. rewrite concat_app, concat_zeros. do 2 f_equal. lia. }
  rewrite <- (chunks_concat 16 es Hes). unfold dirents. rewrite E, Hs. f_equal. f_equal. unfold es. rewrite length_app, length_replicate.
  change 16 with (Z.of_nat 16). rewrite <- Nat2Z.inj_div, Nat2Z.id. lia.
Qed.

Section mounted.
Context (k : kst) (img : list (list Z)) (own : list (nat * slot)) (args : list input).
Context (HM : mounted k img) (HI : image img own (listing args) (files args)).

Lemma lookup_files j a : args !! j = Some a -> files args !! j = Some (T_FILE, bytes_of_input a).
Proof. intros H. unfold files. by rewrite list_lookup_fmap, H. Qed.

Lemma length_files : length (files args) = length args.
Proof. apply length_fmap. Qed.

(** Every inode is a file of the image. *)
Lemma inode_file j : (j <= length args)%nat -> exists nb c, file_ok img own j (dget img j) nb c.
Proof.
  intros Hj. destruct j as [|j].
  - eexists _, _. apply (im_root _ _ _ _ HI).
  - destruct (lookup_lt_is_Some_2 args j) as [a Ha]; [lia|]. eexists _, _. eapply (im_file _ _ _ _ HI). by apply lookup_files.
Qed.

Lemma listing_len : length (listing args) = (16 * (length args + 2))%nat.
Proof. destruct (root_entries_len args) as [H1 H2]. change (listing args) with (concat (root_entries args)). by rewrite (concat_len 16), H2. Qed.

Lemma mounted_root ip0 : i_dev ip0 = ROOTDEV -> let ip := disk_inode k ROOTINO ip0 in
  i_type ip = T_DIR /\ i_nlink ip = 1 /\
  (((length args + 2) mod 64 <> 0)%nat -> dir_ok k ip /\
    exists n, dirents k ip = root_entries args ++ replicate n (replicate SIZEOF_DIRENT 0)).
Proof.
  intros Hdev ip. pose proof HI as [_ _ Hn _ (Hfile & Ht & Hfd) _ _ _]. pose proof listing_len as Hl. rewrite length_files in Hn.
  pose proof (f_nb _ _ _ _ _ _ Hfile). pose proof (f_len _ _ _ _ _ _ Hfile). pose proof (div_mod_nat (length (listing args))) as [Hdm Hm].
  destruct (disk_fields k img own HM 0 ltac:(lia) ip0 _ _ Hfile T_DIR (root_size (listing args)) Hfd) as (Hs & Hty & Hnl); [unfold root_size; lia|].
  change (disk_inode k (inum_of 0) ip0) with ip in *. split; [done|]. split; [done|]. intros Hne.
  assert (length (listing args) mod 1024 <> 0)%nat as Hne'. { rewrite Hl. intros E. apply Hne. apply Nat.Lcm0.mod_divide in E as [q Hq]. apply Nat.Lcm0.mod_divide. exists q. lia. }
  assert (nblk (length (listing args)) = S (length (listing args) / 1024)) as Enb by (apply nblk_eq; lia).
  assert (root_size (listing args) = nblk (length (listing args)) * 1024)%nat as Er by (unfold root_size; lia).
  split.
  - constructor; [|done|rewrite Hs, Er; dlia].
    eapply (disk_inode_ok k img own _ _ HM HI 0); [lia|done|exact Hfile|exact Hs|lia].
  - apply (dirents_root k ip args (root_size (listing args))); [done| |lia|].
    + rewrite Er. replace 1024%nat with (64 * 16)%nat by lia. by rewrite Nat.mul_assoc, Nat.Div0.mod_mul.
    + eapply (disk_content k img own _ _ HM HI 0); [lia|exact Hfile|done|lia].
Qed.

Lemma mounted_file j a ip0 : args !! j = Some a -> i_dev ip0 = ROOTDEV -> let ip := disk_inode k (inum_of (S j)) ip0 in
  inode_ok k ip /\ i_type ip = T_FILE /\ i_nlink ip = 1 /\ content k ip = bytes_of_input a.
Proof.
  intros Ha Hdev ip. pose proof HI as [_ _ Hn _ _ Hfiles _ _]. rewrite length_files in Hn. pose proof (lookup_lt_Some _ _ _ Ha).
  destruct (Hfiles j _ _ (lookup_files _ _ Ha)) as (Hfile & _ & Hfd). pose proof (f_nb _ _ _ _ _ _ Hfile). pose proof (f_len _ _ _ _ _ _ Hfile).
  destruct (disk_fields k img own HM (S j) ltac:(lia) ip0 _ _ Hfile _ _ Hfd) as (Hs & Hty & Hnl); [lia|]. fold ip in Hs, Hty, Hnl.
  split_and!; [|done..|].
  - eapply (disk_inode_ok k img own _ _ HM HI (S j)); [lia|done|exact Hfile|exact Hs|lia].
  - unfold ip. rewrite (disk_content k img own _ _ HM HI (S j) ltac:(lia) ip0 _ _ Hfile _ Hs ltac:(lia)), Nat.sub_diag. by rewrite app_nil_r.
Qed.

Lemma mounted_initial : initial_fs k (base + Z.of_nat (length own)) args.
Proof.
  pose proof HI as [_ _ Hn _ _ _ Hfree _]. rewrite length_files in *. constructor.
  - by eapply mounted_layout.
  - by eapply mounted_meta.
  - rewrite (mo_sb _ _ HM). by eapply mounted_bit.
  - apply mounted_root.
  - apply mounted_file.
  - intros n. rewrite (mo_sb k img HM) at 1. change (sb_ninodes sb) with 200. intros Hr.
    assert (n = inum_of (Z.to_nat (n - 1))) as -> by (unfold inum_of; lia). set (j := Z.to_nat (n - 1)).
    replace (dinode_off (inum_of j)) with (dinode_off (inum_of j) + 0)%nat by lia.
    rewrite (disk_get16 k img HM) by lia. by rewrite Hfree by lia.
  - intros j j' bn bn' ip0 ip0' Hj Hj' Hbn Hbn' Hne E. pose proof Hne as Hne'. rewrite E in Hne'.
    destruct (inode_file j Hj) as (nb & c & Hf), (inode_file j' Hj') as (nb' & c' & Hf').
    rewrite <- (Z2Nat.id bn), <- (Z2Nat.id bn') in * by lia.
    destruct (disk_blk_own k img own _ _ HM HI j ltac:(lia) ip0 _ _ Hf (Z.to_nat bn) ltac:(lia) Hne) as (i & Ei & Hi).
    destruct (disk_blk_own k img own _ _ HM HI j' ltac:(lia) ip0' _ _ Hf' (Z.to_nat bn') ltac:(lia) Hne') as (i' & Ei' & Hi').
    assert (i = i') as -> by lia. congruence.
Qed.
End mounted.

(** ** Booting from the image *)

Lemma bst_sb `{DL : DiskLaws} k me p H P x : bst k me p H P -> bst (set_k_sb x k) me p H P.
Proof. intros [[? ? ? ? ? ?] ? ? ?]. by constructor. Qed.

Lemma decode_boot : decode_sb (boot_block 1) = sb.
Proof. by vm_compute. Qed.

Lemma put_zeroes : put32 0 0 zeroes = zeroes.
Proof. by vm_compute. Qed.

Section boot.
Context `{DL : DiskLaws} `{KI : KernelImage}.

(** The disk holds the image. *)
Definition disk_is (k : kst) (img : list (list Z)) : Prop := forall x, 0 <= x < 1000 -> d_img (k_disk k) !! x = Some (block_at img x).

Lemma readsb_ok k me p img : bst k me p ∅ ∅ -> disk_is k img -> block_at img 1 = boot_block 1 ->
  exists k', readsb ROOTDEV k = Ret tt k' /\ bst k' me p ∅ ∅ /\ k_sb k' = sb /\ k_disk k' = k_disk k /\ k_log k' = k_log k.
Proof.
  intros HB Hd Hb. destruct (bread_ok k me p ∅ ∅ 1 HB) as (i & k1 & E1 & B1 & F1 & D1 & V1); [done|rewrite Hd by lia; eauto|vm_compute; lia|].
  assert (kview k 1 = boot_block 1) as Hv by (rewrite <- Hb; eapply kview_disk; [done|set_solver|by apply Hd]).
  destruct (held_buf k1 me p (<[1 := i]> ∅) ∅ 1 i B1) as (b & (_ & Hbi & _) & _ & Hdat & _); [by rewrite lookup_insert_eq|].
  unfold readsb. mcall E1. mcall (getbuf_eq _ _ _ Hbi). mstep.
  rewrite Hdat, V1, Hv, decode_boot. set (k2 := set_k_sb sb k1).
  destruct (brelse_ok k2 me p (<[1 := i]> ∅) ∅ 1 i) as (k3 & E3 & B3 & F3 & D3 & V3).
  - by apply bst_sb.
  - by rewrite lookup_insert_eq.
  - right. change (d_img (k_disk k1) !! 1 = Some (kview k1 1)). by rewrite D1, V1, Hv, Hd, Hb.
  - exists k3. rewrite delete_insert_eq, delete_empty in B3. split; [exact E3|]. split; [done|].
    destruct F1 as (_ & L1 & _), F3 as (G3 & L3 & _). split_and!.
    + by rewrite (fr_sb _ _ G3).
    + rewrite D3. exact D1.
    + rewrite L3. exact L1.
Qed.

Lemma fsinit_ok k me p img own r fl : bst k me p ∅ ∅ -> disk_is k img -> length (l_block (k_log k)) = 30%nat -> image img own r fl ->
  exists k', fsinit ROOTDEV k = Ret tt k' /\ bst k' me p ∅ ∅ /\ mounted k' img /\ intx k' ∅ [] /\
    l_outstanding (k_log k') = l_outstanding (k_log k) /\ l_committing (k_log k') = l_committing (k_log k).
Proof.
  intros HB Hd Hlen [_ _ _ Hlow _ _ _ _]. destruct (readsb_ok k me p img HB Hd (Hlow 1 ltac:(lia))) as (k1 & E1 & B1 & S1 & D1 & L1).
  set (lg := Log 2 30 0 0 ROOTDEV 0 (l_block (k_log k))).
  assert (d_img (k_disk k1) !! 2 = Some zeroes) as H2 by (rewrite D1, Hd, (Hlow 2) by lia; done).
  destruct (initlog_ok k1 me p sb lg zeroes B1) as (k2 & E2 & B2 & F2 & _ & N2 & Ly2 & St2 & Sz2 & O2 & C2 & D2); try done.
  - rewrite D1. constructor; simpl; try lia. intros x Hx. rewrite Hd by lia. eauto.
  - by rewrite L1.
  - split; [vm_compute; split; congruence|]. change (Z.to_nat (head_n zeroes)) with 0%nat. intros t Ht. lia.
  - exists k2. unfold fsinit. mcall E1. unfold getsb. mstep. rewrite S1. change (negb (sb_magic sb =? FSMAGIC)) with false. cbv iota.
    split; [exact E2|]. split; [done|]. rewrite L1 in O2, C2.
    assert (disk_is k2 img) as Hd2.
    { intros x Hx. rewrite D2. unfold recover_writes. change (l_start lg) with 2. rewrite H2. change (Z.to_nat (head_n zeroes)) with 0%nat.
      cbn [seq fmap list_fmap app dwrite d_img apply foldl fst snd]. rewrite put_zeroes, D1.
      destruct (decide (x = 2)) as [->|Hne]; [rewrite lookup_insert_eq, (Hlow 2) by lia; done|]. rewrite lookup_insert_ne by done. by apply Hd. }
    split; [|split; [|done]].
    + constructor; [|intros x Hx; rewrite Hd2 by lia; eauto|by rewrite (fr_sb _ _ F2)|done..].
      intros x Hx. eapply kview_disk; [done|set_solver|by apply Hd2].
    + constructor; [done| |apply NoDup_nil_2|done|done|].
      * constructor; [rewrite Sz2; simpl; lia|done|]. by intros b ?%not_elem_of_nil.
      * exists zeroes. rewrite St2. change (l_start lg) with 2. rewrite Hd2, (Hlow 2) by lia. done.
Qed.

(** C24: the image that mkfs makes is a file system that the kernel mounts.  If the
    names and files given to mkfs, at most 198 of them, fit, main() returns; if it
    returns, no name has a slash and every file was opened, and a kernel that boots
    from the image runs fsinit() and finds: an empty log ready for a transaction;
    the layout that the file system code relies on; exactly the blocks that were
    given out marked used, all metadata among them; the inode of a root directory,
    which has ".", ".." and an entry for each file, in order, unless the entries end
    exactly with a block, that is, unless the number of files and 2 is a multiple
    of 64; for each file an inode with exactly the bytes read for it; all other
    inodes free; and no block in two inodes. *)
Theorem mkfs_image (args : list input) (Hb : Forall input_bytes args) (Hn : (length args <= 198)%nat) :
  (args_fit args -> exists s, main args = FOk tt s) /\
  forall s, main args = FOk tt s -> Forall input_fits args /\
    forall k me p, bst k me p ∅ ∅ -> disk_is k (m_img s) -> length (l_block (k_log k)) = 30%nat ->
      exists k', fsinit ROOTDEV k = Ret tt k' /\ bst k' me p ∅ ∅ /\ intx k' ∅ [] /\ initial_fs k' (m_freeblock s) args.
Proof.
  pose proof (main_ok args Hb Hn) as H. split.
  - intros Hf. destruct (main args) as [[] s|?|]; [eauto|by destruct (H Hf)..].
  - intros s Es. rewrite Es in H. cbn [runs] in H. destruct H as (Hf & own & Hfb & HI). split; [done|]. intros k me p HB Hd Hl.
    destruct (fsinit_ok k me p _ own _ _ HB Hd Hl HI) as (k' & E & B & HM & N & _). exists k'. rewrite Hfb. eauto using mounted_initial.
Qed.
End boot.

(** A machine whose disk is the image. *)
Definition img_map (img : list (list Z)) : gmap Z (list Z) := list_to_map ((fun bn => (bn, block_at img bn)) <$> seqz 0 1000).
Definition img_state (img : list (list Z)) : kst :=
  set_k_log demo_log (set_k_vdisk demo_vdisk (set_k_disk (Disk (img_map img) []) run_state)).

Lemma img_map_lookup img x : 0 <= x < 1000 -> img_map img !! x = Some (block_at img x).
Proof.
  intros Hx. unfold img_map. apply elem_of_list_to_map_1.
  - unfold seqz. rewrite <- !list_fmap_compose. apply NoDup_fmap_2; [|apply NoDup_seq]. intros a b. simpl. lia.
  - apply list_elem_of_fmap. exists x. split; [done|]. apply elem_of_seqz. lia.
Qed.

Lemma img_boot img own : img_fine img own ->
  exists k, binit (img_state img) = Ret tt k /\ bst k 0 demo_proc ∅ ∅ /\ k_log k = demo_log /\ disk_is k img.
Proof.
  intros Hf. destruct (binit_ok (img_state img) (pr_pid demo_proc) (img_map img)) as (B & L & E & HC & HL & HV).
  { done. }
  { apply Forall_replicate. split_and!; try done. apply block_ok_zero. }
  exists (set_k_bufs B (set_k_locks L (img_state img))). split; [exact E|]. split_and!.
  - constructor; [|exact HC| |apply demo_ready].
    + constructor; [split; [|split; reflexivity]|reflexivity..| | |]; ksimpl.
      * unfold hart_ok. split_and!; simpl; intros; lia || done.
      * apply map_eq. intros l. rewrite lookup_empty. apply HL. reflexivity.
      * reflexivity.
      * reflexivity.
    + intros bn d H. apply elem_of_list_to_map_2, list_elem_of_fmap in H as (x & [= -> ->] & Hx%elem_of_seqz).
      split; [lia|]. apply (block_at_ok img own); [done|lia].
  - reflexivity.
  - intros x Hx. by apply img_map_lookup.
Qed.

Definition demo_args : list input :=
  [Input (str "user/_cat") (Some [[1; 2; 3]; [4]]); Input (str "README") (Some [replicate 1024 7; replicate 500 8])].

Lemma mkfs_image_witness : exists s k k', main demo_args = FOk tt s /\ binit (img_state (m_img s)) = Ret tt k /\
  fsinit ROOTDEV k = Ret tt k' /\ initial_fs k' (m_freeblock s) demo_args.
Proof.
  assert (Forall input_bytes demo_args) as Hb.
  { unfold input_bytes. apply (bool_decide_unpack _). by vm_compute. }
  assert (length demo_args <= 198)%nat as Hn by (simpl; lia).
  destruct (mkfs_image demo_args Hb Hn) as [Hret Hall]. destruct Hret as [s Hs].
  { unfold args_fit, input_fits, fs_fits. apply (bool_decide_unpack _). by vm_compute. }
  destruct (Hall s Hs) as [_ Hk]. pose proof (main_ok demo_args Hb Hn) as Hm. rewrite Hs in Hm. destruct Hm as (_ & own & _ & HI).
  destruct (img_boot (m_img s) own (im_fine _ _ _ _ HI)) as (k & E & B & L & D).
  destruct (Hk k 0%nat demo_proc B D) as (k' & E' & _ & _ & HF); [by rewrite L|]. eauto 8.
Defined.
