(* ===== verification/Reserve.v ===== *)
(** The space a write reserves in the log: a piece of a file write, as
    filewrite() (kernel/file.c) cuts it, fits the MAXOPBLOCKS blocks that
    begin_op() (kernel/log.c) sets aside. *)

From Stdlib Require Import ZArith Lia.
From stdpp Require Import base gmap strings list numbers.
From S2P Require Import Prelude Params State Spinlock Sched CString Kalloc Vm PageTable UserMem Copy Frame CopySpec.
From S2P Require Import Bio Cache Virtio Demo Log Commit Transaction Fs Dir File Blocks Content Alloc Dinode Write Mkfs MkfsSpec MkfsImage.

Open Scope Z_scope.

Lemma size_list_to_set_le (l : list Z) : (size (list_to_set l : gset Z) <= length l)%nat.
Proof.
  induction l as [|x l IH]; [done|]. rewrite list_to_set_cons, size_union_alt, size_singleton, length_cons.
  pose proof (subseteq_size (list_to_set l ∖ {[x]} : gset Z) (list_to_set l) ltac:(set_solver)). lia.
Qed.

Lemma filter_split (Q : Z -> Prop) `{!forall x, Decision (Q x)} (l : list Z) :
  (length (filter Q l) + length (filter (fun x => ~ Q x) l) = length l)%nat.
Proof.
  induction l as [|x l IH]; [done|]. rewrite !filter_cons. destruct (decide (Q x)) as [Hx|Hx].
  - rewrite decide_False by naive_solver. simpl. lia.
  - rewrite decide_True by done. simpl. lia.
Qed.

(** The blocks of the write, one list for each kind. *)
Section touched.
Context (k : kst) (ip : inode) (off n : Z).

Definition lo : Z := off / 1024.
Definition range : list Z := seqz lo (Z.to_nat (nblocks off n)).
Definition present : list Z := filter (fun x => ~ iblock k ip x = 0) range.
Definition new : list Z := take (needs k ip lo (Z.to_nat (nblocks off n))) (free_blocks k).
Definition indirect : list Z := if iind ip =? 0 then [] else [iind ip].

Definition touched : list Z :=
  [IBLOCK (i_inum ip) (k_sb k)] ++ indirect ++ (iblock k ip <$> present) ++ new ++ ((fun b => BBLOCK b (k_sb k)) <$> new).

Lemma touched_footprint :
  (needs k ip lo (Z.to_nat (nblocks off n)) <= length (free_blocks k))%nat -> 0 <= nblocks off n ->
  footprint k (list_to_set touched) ip off n.
Proof.
  intros Hfree H0. unfold touched. rewrite !list_to_set_app_L. constructor.
  - set_solver.
  - intros Hne. unfold indirect. rewrite (proj2 (Z.eqb_neq _ _) Hne). set_solver.
  - intros x Hx Hne. apply elem_of_union_r, elem_of_union_r, elem_of_union_l, elem_of_list_to_set.
    apply list_elem_of_fmap. exists x. split; [done|]. apply list_elem_of_filter. split; [done|].
    apply elem_of_seqz. unfold lo. lia.
  - intros _. split; [done|]. intros b Hb. fold lo new in Hb. split.
    + apply elem_of_union_r, elem_of_union_r, elem_of_union_r, elem_of_union_l. by apply elem_of_list_to_set.
    + apply elem_of_union_r, elem_of_union_r, elem_of_union_r, elem_of_union_r, elem_of_list_to_set.
      apply list_elem_of_fmap. eauto.
Qed.

(** At most three blocks, or four of which the first is present already. *)
Lemma touched_size :
  inode_ok k ip -> 0 <= off <= i_size ip -> 0 <= n <= filewrite_max ->
  Z.of_nat (length touched) <= MAXOPBLOCKS.
Proof.
  intros IO Ho Hn. change filewrite_max with 3072 in Hn.
  assert (length new <= needs k ip lo (Z.to_nat (nblocks off n)))%nat as Hnew by (unfold new; rewrite length_take; lia).
  assert (0 <= nblocks off n <= 4) as Hnb by (unfold nblocks; dlia).
  pose proof (filter_split (fun x => iblock k ip x = 0) range) as Hs.
  change (filter (fun x => ~ _) range) with present in Hs.
  assert (length range = Z.to_nat (nblocks off n)) as Hr by (unfold range, seqz; by rewrite length_fmap, length_seq).
  assert (nblocks off n = 4 -> 1 <= Z.of_nat (length present)) as Hp.
  { intros H4. assert (0 < off `mod` 1024) by (unfold nblocks in H4; dlia).
    assert (lo ∈ present) as Hin.
    { apply list_elem_of_filter. split; [apply (io_holes _ _ IO); unfold lo; dlia|]. apply elem_of_seqz. lia. }
    destruct present; [by apply elem_of_nil in Hin|]. simpl. lia. }
  unfold touched, indirect. rewrite !length_app, !length_fmap. unfold needs in Hnew. fold range in Hnew.
  destruct (iind ip =? 0); rewrite ?andb_false_r in Hnew; simpl length;
    [destruct (_ && _)|]; lia.
Qed.

Lemma touched_home :
  fs_layout k -> meta_used k -> inode_ok k ip -> 0 <= i_inum ip < sb_ninodes (k_sb k) -> 0 <= off ->
  0 <= n -> off + n <= MAXFILE * 1024 -> forall x, x ∈ touched -> home (k_log k) x.
Proof.
  intros FL HM IO Hi Ho Hn HoM.
  assert (forall x, sb_inodestart (k_sb k) <= x -> home (k_log k) x) as Hh.
  { intros x Hx. right. pose proof (fl_log _ FL). lia. }
  assert (sb_inodestart (k_sb k) <= sb_bmapstart (k_sb k) <= data_start (k_sb k)) as Hd.
  { destruct FL. unfold data_start in *. dlia. }
  assert (forall x, data_block k x -> home (k_log k) x) as Hdb by (intros x [Hx _]; apply Hh; lia).
  assert (forall x, x ∈ new -> data_start (k_sb k) <= x < sb_size (k_sb k)) as Hnew.
  { intros x (j & Hx%list_elem_of_lookup_2 & _)%elem_of_take.
    unfold free_blocks in Hx. apply list_elem_of_filter in Hx as [Hu Hr%elem_of_seqz].
    destruct (decide (x < data_start (k_sb k))); [|lia]. rewrite HM in Hu by lia. done. }
  intros x Hx. unfold touched in Hx. rewrite !elem_of_app in Hx. destruct Hx as [Hx|[Hx|[Hx|[Hx|Hx]]]].
  - apply list_elem_of_singleton in Hx as ->. apply Hh. destruct (IBLOCK_eq k FL _ Hi). lia.
  - unfold indirect in Hx. destruct (iind ip =? 0) eqn:E; [by apply elem_of_nil in Hx|].
    apply list_elem_of_singleton in Hx as ->. apply Hdb, (io_ind _ _ IO). by apply Z.eqb_neq.
  - apply list_elem_of_fmap in Hx as (y & -> & Hy). apply list_elem_of_filter in Hy as [Hne Hy%elem_of_seqz].
    apply Hdb, (io_blk _ _ IO); [|done]. unfold lo, nblocks in Hy. dlia.
  - apply Hh. specialize (Hnew x Hx). lia.
  - apply list_elem_of_fmap in Hx as (b & -> & Hb%Hnew). apply Hh.
    destruct (BBLOCK_eq k FL b) as [_ Hr]; [destruct FL; unfold data_start in *; dlia|]. lia.
Qed.

End touched.

Lemma size_union_le (X Y : gset Z) : (size (X ∪ Y) <= size X + size Y)%nat.
Proof. rewrite size_union_alt. pose proof (subseteq_size (Y ∖ X) Y ltac:(set_solver)). lia. Qed.

Section reserve.
Context `{DL : DiskLaws} `{KI : KernelImage}.

(** An open transaction with the blocks [blks] and room for MAXOPBLOCKS more, as
    [ftx] wants it for a write. *)
Lemma ftx_write k me p blks ip off n : bst k me p ∅ (list_to_set blks) -> intx k (list_to_set blks) blks -> 1 <= l_outstanding (k_log k) ->
  Z.of_nat (length blks) + MAXOPBLOCKS < l_size (k_log k) - 1 -> fs_layout k -> meta_used k -> inode_ok k ip ->
  0 <= i_inum ip < sb_ninodes (k_sb k) -> 0 <= off <= i_size ip -> 0 <= n <= filewrite_max -> off + n <= MAXFILE * 1024 ->
  (needs k ip (off / 1024) (Z.to_nat (nblocks off n)) <= length (free_blocks k))%nat ->
  exists S : gset Z, ftx k me p ∅ S /\ footprint k S ip off n /\ Z.of_nat (size S) <= Z.of_nat (length blks) + MAXOPBLOCKS.
Proof.
  intros HB HX Ho Hroom FL HM IO Hi Hoff Hn HoM Hfree. exists (list_to_set blks ∪ list_to_set (touched k ip off n)).
  assert (Z.of_nat (size (list_to_set blks ∪ list_to_set (touched k ip off n) : gset Z)) <= Z.of_nat (length blks) + MAXOPBLOCKS) as Hsz.
  { pose proof (size_union_le (list_to_set blks) (list_to_set (touched k ip off n))). pose proof (size_list_to_set_le blks).
    pose proof (size_list_to_set_le (touched k ip off n)). pose proof (touched_size k ip off n IO Hoff Hn). lia. }
  split; [|split; [|done]].
  - constructor; [|done|lia|].
    + exists blks. split; [done|]. split; [done|]. split; [set_solver|]. intros bn i. by rewrite lookup_empty.
    + intros x [Hx%elem_of_list_to_set|Hx%elem_of_list_to_set]%elem_of_union.
      * apply (bl_home _ _ _ (ix_blocks _ _ _ HX) x Hx).
      * apply (touched_home k ip off n FL HM IO); try done; lia.
  - destruct (touched_footprint k ip off n Hfree) as [F1 F2 F3 F4]; [unfold nblocks; dlia|].
    constructor; [by apply elem_of_union_r|intros; by apply elem_of_union_r, F2|intros; by apply elem_of_union_r, F3|].
    intros H0. destruct (F4 H0) as [Hc Hb]. split; [done|]. intros b Hb'. destruct (Hb b Hb'). split; by apply elem_of_union_r.
Qed.

(** C17: a piece of a file write fits the space that begin_op() sets aside for it.
    When begin_op() admits the operation and the log has room for MAXOPBLOCKS blocks
    beyond those that are logged already, then begin_op() and writei() of at most the
    max bytes of filewrite(), at an offset inside a file and within the largest file
    size, with enough free blocks on the disk, return the byte count, without the
    panic of log_write(), and the log has at most MAXOPBLOCKS blocks more: the inode,
    the indirect block, the data blocks and the bitmap blocks of what is allocated. *)
Theorem filewrite_fits_transaction (k : kst) (me : nat) (p : proc) (blks : list Z) (L : gmap Z Z) (i : nat) (ip : inode) (s : src)
    (off n : Z) (bs : list Z)
    (HB : bst k me p ∅ (list_to_set blks)) (HX : intx k (list_to_set blks) blks)
    (Hc : l_committing (k_log k) = 0) (Hout : 0 <= l_outstanding (k_log k))
    (Hop : l_n (k_log k) + (l_outstanding (k_log k) + 1) * MAXOPBLOCKS <= LOGSIZE)
    (Hroom : l_n (k_log k) + MAXOPBLOCKS < l_size (k_log k) - 1)
    (FL : fs_layout k) (HM : meta_used k) (Hi : k_inodes k !! i = Some ip) (IO : inode_ok k ip)
    (Hinum : 0 <= i_inum ip < sb_ninodes (k_sb k)) (Ho : 0 <= off <= i_size ip) (Hn : 0 <= n <= filewrite_max)
    (HoM : off + n <= MAXFILE * 1024)
    (Hfree : (needs k ip (off / 1024) (Z.to_nat (nblocks off n)) <= length (free_blocks k))%nat)
    (Hr : src_ready (k_mem k) (pr_pagetable p) L s (Z.to_nat n))
    (Hs : src_bytes (k_mem k) (pr_pagetable p) s (Z.to_nat n) = Some bs) (Hb : Forall byte_ok bs) :
  exists k', (begin_op;; writei i s off n) k = Ret n k' /\ l_n (k_log k') <= l_n (k_log k) + MAXOPBLOCKS /\
    l_outstanding (k_log k') = l_outstanding (k_log k) + 1.
Proof.
  mcall (begin_op_ok k me p ∅ _ HB Hc Hop). set (k1 := set_k_log _ k).
  assert (bst k1 me p ∅ (list_to_set blks)) as B1 by (eapply bst_frame; [exact HB|by frame_tac|done..]).
  assert (intx k1 (list_to_set blks) blks) as X1 by (by eapply intx_fields).
  pose proof (ix_n _ _ _ HX) as En. destruct (ftx_write k1 me p blks ip off n) as (S & F & FP & Hsz); try done.
  { unfold k1. ksimpl. lia. }
  { unfold k1. ksimpl. lia. }
  { by destruct FL. }
  { by destruct IO. }
  destruct (writei_ok k1 me p S L i ip s off n bs) as (k' & ip' & E & F' & St & _); try done; [by destruct FL|by destruct IO|lia|].
  exists k'. split; [exact E|]. pose proof F' as [(blks' & _ & X' & Hin & _) _ _ _].
  destruct (blks_small k' me p ∅ S blks' F' (ix_nodup _ _ _ X') Hin) as [Hle _]. split; [rewrite (ix_n _ _ _ X'); lia|].
  by rewrite (fs_out _ _ St).
Qed.

End reserve.

(** The inode table with the first file of the image. *)
Definition open_file (k : kst) : inode := disk_inode k 2 (Inode ROOTDEV 2 1 (Sleeplock false 0) 1 0 0 0 0 0 []).

Lemma demo_args_free s k : Mkfs.main demo_args = Mkfs.FOk tt s -> k_sb k = Mkfs.sb -> (forall b, 0 <= b < 1000 -> bit_used k b = (b <? Mkfs.m_freeblock s)) ->
  length (free_blocks k) = 950%nat.
Proof.
  intros Hs Sb U. assert (match Mkfs.main demo_args with Mkfs.FOk _ s => Mkfs.m_freeblock s | _ => 0 end = 50) as E by (vm_compute; reflexivity).
  rewrite Hs in E. unfold free_blocks. rewrite Sb. change (Z.to_nat (sb_size Mkfs.sb)) with 1000%nat.
  trans (length (filter (fun b => (b <? 50) = false) (seqz 0 1000))); [|vm_compute; reflexivity].
  f_equal. apply filter_ext_in. intros b Hb%elem_of_seqz. by rewrite U, E by lia.
Qed.

(** The file system does not depend on the inode table. *)
Lemma fs_inodes_irrelevant k l : (fs_layout k -> fs_layout (set_k_inodes l k)) /\ (meta_used k -> meta_used (set_k_inodes l k)) /\
  (forall ip, inode_ok k ip -> inode_ok (set_k_inodes l k) ip) /\ free_blocks (set_k_inodes l k) = free_blocks k.
Proof. split; [apply (fs_layout_step k), fstep_inodes|]. split; [done|]. split; [|done]. intros ip []. by constructor. Qed.

(** Three kilobytes into the first file of an image of mkfs. *)
Lemma filewrite_fits_transaction_witness :
  exists k k', (begin_op;; writei 0 (SBytes (replicate 3072 7)) 0 3072) k = Ret 3072 k' /\ l_n (k_log k) = 0 /\ l_n (k_log k') <= MAXOPBLOCKS.
Proof.
  assert (Forall input_bytes demo_args) as Hb by (unfold input_bytes; apply (bool_decide_unpack _); by vm_compute).
  pose proof (main_ok demo_args Hb ltac:(simpl; lia)) as Hm. destruct (Mkfs.main demo_args) as [[] s|?|] eqn:Hs; cbn [runs] in Hm.
  2-3: destruct Hm; unfold args_fit, input_fits, fs_fits; apply (bool_decide_unpack _); by vm_compute.
  destruct Hm as (_ & own & Hfb & HI). destruct (img_boot (Mkfs.m_img s) own (im_fine _ _ _ _ HI)) as (k0 & _ & B0 & L0 & D0).
  destruct (fsinit_ok k0 0 demo_proc _ own _ _ B0 D0 ltac:(by rewrite L0) HI) as (k1 & _ & B1 & M1 & X1 & O1 & C1). rewrite L0 in O1, C1.
  change (l_outstanding demo_log) with 0 in O1. change (l_committing demo_log) with 0 in C1.
  destruct (mounted_initial k1 _ own demo_args M1 HI) as [FL HM U _ HF _ _]. rewrite <- Hfb in U.
  destruct (HF 0%nat _ (Inode ROOTDEV 2 1 (Sleeplock false 0) 1 0 0 0 0 0 []) eq_refl eq_refl) as (IO & _). cbv zeta in IO. change (disk_inode k1 _ _) with (open_file k1) in IO.
  assert (length (free_blocks k1) = 950%nat) as Hfree.
  { apply (demo_args_free s); [exact Hs|apply (mo_sb _ _ M1)|]. intros b Hb'. apply U. rewrite (mo_sb _ _ M1). exact Hb'. }
  clear Hs Hb HI Hfb U. set (k := set_k_inodes [open_file k1] k1). pose proof (ix_n _ _ _ X1) as N1.
  destruct (fs_inodes_irrelevant k1 [open_file k1]) as (HI1 & HI2 & HI3 & HI4). change (Z.of_nat (length (@nil Z))) with 0 in N1.
  destruct (filewrite_fits_transaction k 0 demo_proc [] ∅ 0 (open_file k1) (SBytes (replicate 3072 7)) 0 3072 (replicate 3072 7)) as (k' & E & Hn & _).
  - eapply bst_frame; [exact B1|by frame_tac|done..].
  - by eapply intx_frame.
  - exact C1.
  - change (0 <= l_outstanding (k_log k1)). by rewrite O1.
  - change (l_n (k_log k1) + (l_outstanding (k_log k1) + 1) * MAXOPBLOCKS <= LOGSIZE). by rewrite N1, O1.
  - change (l_n (k_log k1) + MAXOPBLOCKS < l_size (k_log k1) - 1). by rewrite N1, (mo_size _ _ M1).
  - by apply HI1.
  - by apply HI2.
  - done.
  - by apply HI3.
  - change (0 <= 2 < sb_ninodes (k_sb k1)). by rewrite (mo_sb _ _ M1).
  - pose proof (io_size _ _ IO) as Hsz. clear -Hsz. lia.
  - vm_compute. split; discriminate.
  - by vm_compute.
  - unfold k. rewrite HI4, Hfree. unfold needs. change (nblocks 0 3072) with 3.
    match goal with |- context [length (filter ?P ?l)] => pose proof (length_filter P l) as Hl end.
    change (length (seqz (0 / 1024) (Z.to_nat 3))) with 3%nat in Hl. clear -Hl. destruct (_ && _); lia.
  - done.
  - vm_compute. reflexivity.
  - apply Forall_replicate. by split.
  - exists k, k'. split; [exact E|]. change (l_n (k_log k)) with (l_n (k_log k1)) in *. rewrite N1 in *. split; [done|exact Hn].
Defined.
