(* ===== verification/User.v ===== *)
(** User programs: the system calls of user/user.h, the library user/ulib.c and
    the formatted output of user/printf.c.

    A program is a tree of system calls: what it does next depends on the
    answers.  A C string is the list of its bytes before the NUL and a pointer
    into it is a suffix; the buffer of read() is part of the answer, the buffer of
    write() part of the call.  Programs that pass or use a pointer of their own
    making do so by its address. *)

From Stdlib Require Import ZArith Lia.
From stdpp Require Import base gmap strings list numbers.
From S2P Require Import Prelude Params CString.

Open Scope Z_scope.

(** ** System calls *)

(** user/user.h, by the type of the answer; read() answers with the bytes it
    stored, pipe(), fstat() and wait() with an address with what they stored.
    [SRaw] is a call by its number and its argument registers, [SLoad] and
    [SStore] are accesses to a byte of the program's own memory. *)
Inductive sys : Type -> Type :=
| SFork : sys Z
| SWait : sys Z
| SPipe : sys (Z * (Z * Z))
| SWrite (fd : Z) (bs : list Z) : sys Z
| SRead (fd n : Z) : sys (Z * list Z)
| SClose (fd : Z) : sys Z
| SKill (pid : Z) : sys Z
| SExec (path : list Z) (argv : list (list Z)) : sys Z
| SOpen (path : list Z) (mode : Z) : sys Z
| SMknod (path : list Z) (major minor : Z) : sys Z
| SUnlink (path : list Z) : sys Z
| SFstat (fd : Z) : sys (Z * stat)
| SLink (old new : list Z) : sys Z
| SMkdir (path : list Z) : sys Z
| SChdir (path : list Z) : sys Z
| SDup (fd : Z) : sys Z
| SGetpid : sys Z
| SSbrk (n : Z) : sys Z
| SSleep (n : Z) : sys Z
| SUptime : sys Z
| SWaitStatus : sys (Z * Z)
| SRaw (num : Z) (args : list Z) : sys Z
| SLoad (a : Z) : sys Z
| SStore (a v : Z) : sys Z.

(** Programs: a result, exit(), a system call and what follows it, or a loop that
    was given too few iterations. *)
Inductive U (A : Type) : Type :=
| URet (a : A)
| UExit (n : Z)
| UCall (X : Type) (e : sys X) (k : X -> U A)
| UFuel.
Arguments URet {A} a.
Arguments UExit {A} n.
Arguments UCall {A} X e k.
Arguments UFuel {A}.

Fixpoint ubind {A B} (f : A -> U B) (m : U A) : U B :=
  match m with
  | URet a => f a
  | UExit n => UExit n
  | UCall X e k => UCall X e (fun x => ubind f (k x))
  | UFuel => UFuel
  end.
#[export] Instance U_ret : MRet U := @URet.
#[export] Instance U_bind : MBind U := @ubind.

Definition call {X} (e : sys X) : U X := UCall X e URet.
Definition uexit {A} (n : Z) : U A := UExit n.

(** for each element of a list, in order. *)
Fixpoint uforM {A} (l : list A) (f : A -> U unit) : U unit :=
  match l with
  | [] => mret tt
  | x :: l => f x;; uforM l f
  end.

(** ** Running a program against an operating system *)

Inductive ures (A : Type) := Done (a : A) | Exited (n : Z) | NoFuel.
Arguments Done {A} a.
Arguments Exited {A} n.
Arguments NoFuel {A}.

Section run.
Context {W : Type} (h : forall X, sys X -> W -> X * W).

Fixpoint urun {A} (p : U A) (w : W) : ures A * W :=
  match p with
  | URet a => (Done a, w)
  | UExit n => (Exited n, w)
  | UFuel => (NoFuel, w)
  | UCall X e k => let '(x, w) := h X e w in urun (k x) w
  end.

Lemma urun_bind {A B} (m : U A) (f : A -> U B) w :
  urun (m ≫= f) w =
    match urun m w with
    | (Done a, w) => urun (f a) w
    | (Exited n, w) => (Exited n, w)
    | (NoFuel, w) => (NoFuel, w)
    end.
Proof.
  revert w. induction m as [a|n|X e k IH|]; intros w; try done.
  change (urun (UCall X e k ≫= f) w) with (let '(x, w) := h X e w in urun (k x ≫= f) w).
  cbn [urun]. destruct (h X e w) as [x w1]. apply IH.
Qed.

Lemma urun_call {X} (e : sys X) w : urun (call e) w = let '(x, w) := h X e w in (Done x, w).
Proof. reflexivity. Qed.
End run.

(** ** user/ulib.c *)

Module Ulib.

(** strcpy(): the string that is stored. *)
Fixpoint strcpy (t : list Z) : list Z :=
  match t with
  | c :: t => c :: strcpy t
  | [] => []
  end.

Fixpoint strcmp (p q : list Z) : Z :=
  match p, q with
  | [], [] => 0
  | [], d :: _ => 0 - u8 d
  | c :: _, [] => u8 c - 0
  | c :: p, d :: q => if c =? d then strcmp p q else u8 c - u8 d
  end.

Fixpoint strlen (s : list Z) : Z :=
  match s with
  | [] => 0
  | _ :: s => 1 + strlen s
  end.

(** for(i = 0; i < n; i++) cdst[i] = c; *)
Definition memset (m : bmem) (dst c : Z) (n : nat) : bmem := CString.memset m dst (u8 c) n.

(** The rest of the string from the character found; [None] for the null pointer. *)
Fixpoint strchr (s : list Z) (c : Z) : option (list Z) :=
  match s with
  | [] => None
  | x :: s' => if x =? c then Some s else strchr s' c
  end.

(** gets(): the loop with [i] characters read, then the string stored in buf. *)
Fixpoint gets_loop (fuel : nat) (max : Z) (buf : list Z) : U (list Z) :=
  match fuel with
  | O => UFuel
  | S fuel =>
      if Z.of_nat (length buf) + 1 <? max then
        '(cc, bs) ← call (SRead 0 1);
        if cc <? 1 then mret buf else
        let c := bs !!! 0%nat in
        if (c =? 10) || (c =? 13) then mret (buf ++ [c])
        else gets_loop fuel max (buf ++ [c])
      else mret buf
  end.
Definition gets (max : Z) : U (list Z) := gets_loop (S (Z.to_nat max)) max [].

Definition stat (n : list Z) : U (Z * Params.stat) :=
  fd ← call (SOpen n O_RDONLY);
  if fd <? 0 then mret (-1, Stat 0 0 0 0 0) else
  '(r, st) ← call (SFstat fd);
  call (SClose fd);;
  mret (r, st).

(** The loop of atoi(), on an int. *)
Fixpoint atoi_from (n : Z) (s : list Z) : Z :=
  match s with
  | c :: s => if (48 <=? c) && (c <=? 57) then atoi_from (i32 (n * 10 + c - 48)) s else n
  | [] => n
  end.
Definition atoi (s : list Z) : Z := atoi_from 0 s.

(** copy upwards if the source is above, downwards otherwise. *)
Definition memmove (m : bmem) (vdst vsrc : Z) (n : nat) : bmem :=
  if vdst <? vsrc then copy_up m vdst vsrc n else copy_down m (vdst + Z.of_nat n) (vsrc + Z.of_nat n) n.

Fixpoint memcmp (s1 s2 : list Z) (n : nat) : Z :=
  match n with
  | O => 0
  | S n =>
      let c := default 0 (head s1) in
      let d := default 0 (head s2) in
      if c =? d then memcmp (tail s1) (tail s2) n else c - d
  end.

Definition memcpy (m : bmem) (dst src : Z) (n : nat) : bmem := memmove m dst src n.

End Ulib.

(** ** user/printf.c *)

Module Uprintf.

Definition putc (fd c : Z) : U unit := call (SWrite fd [u8 c]);; mret tt.

Definition digit (n : Z) : Z := str "0123456789ABCDEF" !!! Z.to_nat n.

(** The do-while loop of printint(): buf, least significant digit first. *)
Fixpoint int_digits (fuel : nat) (x base : Z) : list Z :=
  match fuel with
  | O => []
  | S fuel => digit (x `mod` base) :: if x / base =? 0 then [] else int_digits fuel (x / base) base
  end.

(** buf at the end of printint(), in the order it is printed; 32 digits hold a
    uint in any base. *)
Definition int_chars (xx base : Z) (sgn : bool) : list Z :=
  let neg := sgn && (xx <? 0) in
  let x := u32 (if neg then - xx else xx) in
  rev (int_digits 32 x base ++ (if neg then [45] else [])).

Definition printint (fd xx base : Z) (sgn : bool) : U unit := uforM (int_chars xx base sgn) (putc fd).

Fixpoint ptr_digits (n : nat) (x : Z) : list Z :=
  match n with
  | O => []
  | S n => digit (Z.shiftr x 60) :: ptr_digits n (u64 (Z.shiftl x 4))
  end.
Definition printptr (fd x : Z) : U unit := uforM ([48; 120] ++ ptr_digits 16 x) (putc fd).

(** A variadic argument: an int, a uint64, or a string or null pointer. *)
Inductive arg := AInt (x : Z) | ALong (x : Z) | AStr (s : option (list Z)).

(** The conversions that take an argument, and what they print of it.  An
    argument of another type is undefined. *)
Definition takes_arg (c : Z) : bool := (c =? 100) || (c =? 108) || (c =? 120) || (c =? 112) || (c =? 115) || (c =? 99).
Definition convert (fd c : Z) (a : arg) : U unit :=
  match a with
  | AInt x =>
      if c =? 100 then printint fd x 10 true
      else if c =? 120 then printint fd x 16 false
      else if c =? 99 then putc fd x
      else UFuel
  | ALong x =>
      if c =? 108 then printint fd (i32 x) 10 false
      else if c =? 112 then printptr fd x
      else UFuel
  | AStr s => if c =? 115 then uforM (default (str "(null)") s) (putc fd) else UFuel
  end.

(** The loop of vprintf(); [pct] is state == '%'.  A missing argument is
    undefined: [UFuel]. *)
Fixpoint vprintf (fd : Z) (pct : bool) (fmt : list Z) (ap : list arg) : U unit :=
  match fmt with
  | [] => mret tt
  | c :: fmt =>
      if pct then
        if takes_arg c then
          match ap with
          | a :: ap => convert fd c a;; vprintf fd false fmt ap
          | [] => UFuel
          end
        else if c =? 37 then putc fd c;; vprintf fd false fmt ap
        else putc fd 37;; putc fd c;; vprintf fd false fmt ap
      else if c =? 37 then vprintf fd true fmt ap
      else putc fd c;; vprintf fd false fmt ap
  end.

Definition fprintf (fd : Z) (fmt : string) (ap : list arg) : U unit := vprintf fd false (str fmt) ap.
Definition printf (fmt : string) (ap : list arg) : U unit := vprintf 1 false (str fmt) ap.

End Uprintf.

(** ** Numbers in decimal *)

Definition is_digit (c : Z) : Prop := 48 <= c <= 57.

(** The value of digits, least significant first. *)
Fixpoint dec (ds : list Z) : Z :=
  match ds with
  | [] => 0
  | d :: ds => d - 48 + 10 * dec ds
  end.

Lemma digit_dec n : 0 <= n < 10 -> Uprintf.digit n = 48 + n.
Proof.
  intros Hn. rewrite <- (Z2Nat.id n) by lia. assert (Z.to_nat n < 10)%nat as Hm by lia. revert Hm. generalize (Z.to_nat n) as m.
  intros m Hm. do 10 (destruct m as [|m]; [reflexivity|]). lia.
Qed.

Lemma int_digits_dec fuel : forall x, 0 <= x < 10 ^ Z.of_nat fuel -> (0 < fuel)%nat ->
  dec (Uprintf.int_digits fuel x 10) = x /\ Forall is_digit (Uprintf.int_digits fuel x 10).
Proof.
  induction fuel as [|fuel IH]; intros x Hx Hf; [lia|]. cbn [Uprintf.int_digits dec].
  pose proof (Z.mod_pos_bound x 10 ltac:(lia)) as Hm. rewrite digit_dec by done.
  assert (is_digit (48 + x `mod` 10)) as Hd by (unfold is_digit; lia).
  destruct (x / 10 =? 0) eqn:E.
  - split; [cbn [dec]; dlia|]. by constructor.
  - rewrite Nat2Z.inj_succ, Z.pow_succ_r in Hx by lia.
    destruct fuel as [|fuel]; [change (10 ^ Z.of_nat 0) with 1 in Hx; dlia|].
    destruct (IH (x / 10)) as [-> Hds]; [split; [dlia|]; apply Z.div_lt_upper_bound; lia|lia|].
    split; [dlia|]. by constructor.
Qed.

Lemma atoi_from_app l l' : forall n, Forall is_digit l -> Ulib.atoi_from n (l ++ l') = Ulib.atoi_from (Ulib.atoi_from n l) l'.
Proof.
  induction l as [|c l IH]; intros n Hl; [done|]. apply Forall_cons in Hl as [Hc Hl]. unfold is_digit in Hc.
  cbn [app Ulib.atoi_from]. assert ((48 <=? c) && (c <=? 57) = true) as -> by lia. by apply IH.
Qed.

Lemma dec_nonneg ds : Forall is_digit ds -> 0 <= dec ds.
Proof. induction 1 as [|d ds Hd _ IH]; cbn [dec]; unfold is_digit in *; lia. Qed.

Lemma atoi_rev ds : Forall is_digit ds -> dec ds < 2 ^ 31 -> Ulib.atoi (rev ds) = dec ds.
Proof.
  unfold Ulib.atoi. induction 1 as [|d ds Hd Hds IH]; intros Hv; [done|]. cbn [rev dec] in *.
  pose proof (dec_nonneg ds Hds). unfold is_digit in Hd.
  rewrite atoi_from_app by (apply Forall_rev; done). rewrite IH by lia. cbn [Ulib.atoi_from].
  assert ((48 <=? d) && (d <=? 57) = true) as -> by lia. rewrite i32_small; lia.
Qed.

(** printint() in base 10 and atoi() agree: the characters %d prints for a
    non-negative int are read back as the same int.  They are at most ten, so the
    16-byte buffer of printint() is never overrun. *)
Theorem printint_atoi_roundtrip (x : Z) (Hx : 0 <= x < 2 ^ 31) :
  Ulib.atoi (Uprintf.int_chars x 10 true) = x /\ (length (Uprintf.int_chars x 10 true) <= 10)%nat.
Proof.
  unfold Uprintf.int_chars. assert (x <? 0 = false) as -> by lia. cbn [andb]. rewrite app_nil_r, u32_small by lia.
  destruct (int_digits_dec 32 x) as [Hd Hf]; [split; [lia|]; change (10 ^ Z.of_nat 32) with (10 ^ 32); lia|lia|]. split.
  - rewrite atoi_rev; [done|done|lia].
  - rewrite length_rev. assert (forall f y, 0 <= y < 10 ^ Z.of_nat 10 -> (length (Uprintf.int_digits f y 10) <= 10)%nat) as H;
      [|apply H; change (10 ^ Z.of_nat 10) with (10 ^ 10); lia].
    assert (forall n f y, (0 < n)%nat -> 0 <= y < 10 ^ Z.of_nat n -> (length (Uprintf.int_digits f y 10) <= n)%nat) as H;
      [|intros f y; apply H; lia].
    induction n as [|n IH]; intros f y Hn Hy; [lia|]. destruct f as [|f]; cbn [Uprintf.int_digits length]; [lia|].
    destruct (y / 10 =? 0) eqn:E; [simpl; lia|]. rewrite Nat2Z.inj_succ, Z.pow_succ_r in Hy by lia.
    destruct n as [|n]; [change (10 ^ Z.of_nat 0) with 1 in Hy; dlia|].
    apply le_n_S, IH; [lia|]. split; [dlia|]. apply Z.div_lt_upper_bound; lia.
Qed.

Lemma printint_atoi_roundtrip_witness :
  Uprintf.int_chars 2147483647 10 true = str "2147483647" /\ Ulib.atoi (str "2147483647") = 2147483647.
Proof.
  split; [vm_compute; reflexivity|]. change (str "2147483647") with (Uprintf.int_chars 2147483647 10 true).
  apply (printint_atoi_roundtrip 2147483647). lia.
Defined.
