(* ===== verification/UserIo.v ===== *)
(** What user programs see of files: an operating system in which descriptors
    have unread bytes, read() may answer with fewer bytes than asked, and the
    bytes written are recorded.  The theorems about programs hold for every way
    of cutting the input into answers.  Ends with what printf() writes. *)

From Stdlib Require Import ZArith Lia.
From stdpp Require Import base gmap strings list numbers.
From S2P Require Import Prelude Params CString User.

Open Scope Z_scope.

(** Open descriptors with their unread bytes, files by path name, the writes so
    far, descriptors that refuse writes, and the sizes of the next answers of
    read() (all that is asked for when the list runs out). *)
Record io := Io {
  io_fds : gmap Z (list Z);
  io_files : gmap (list Z) (list Z);
  io_log : list (Z * list Z);
  io_full : gset Z;
  io_chunks : list nat
}.

(** The bytes written to a descriptor. *)
Definition sent (fd : Z) (w : io) : list Z :=
  concat (map snd (filter (fun p => p.1 = fd) (io_log w))).

(** The size of an answer to read() of [n] bytes with [have] left: at least one
    byte if there is one and room for it. *)
Definition answer_size (ck : list nat) (n have : nat) : nat :=
  match ck with
  | [] => Nat.min n have
  | c :: _ => Nat.min (Nat.max 1 c) (Nat.min n have)
  end.

(** fdalloc(): the lowest unused descriptor. *)
Definition free_fd (w : io) : option Z :=
  head (filter (fun fd => io_fds w !! fd = None) (seqZ 0 (Z.of_nat NOFILE))).

Definition io_read (fd n : Z) (w : io) : (Z * list Z) * io :=
  match io_fds w !! fd with
  | None => ((-1, []), w)
  | Some bs =>
      let k := answer_size (io_chunks w) (Z.to_nat n) (length bs) in
      ((Z.of_nat k, take k bs),
       Io (<[fd := drop k bs]> (io_fds w)) (io_files w) (io_log w) (io_full w) (tail (io_chunks w)))
  end.

Definition io_write (fd : Z) (bs : list Z) (w : io) : Z * io :=
  match io_fds w !! fd with
  | None => (-1, w)
  | Some _ =>
      if decide (fd ∈ io_full w) then (-1, w)
      else (Z.of_nat (length bs), Io (io_fds w) (io_files w) (io_log w ++ [(fd, bs)]) (io_full w) (io_chunks w))
  end.

Definition io_open (path : list Z) (w : io) : Z * io :=
  match io_files w !! path, free_fd w with
  | Some bs, Some fd => (fd, Io (<[fd := bs]> (io_fds w)) (io_files w) (io_log w) (io_full w) (io_chunks w))
  | _, _ => (-1, w)
  end.

Definition io_close (fd : Z) (w : io) : Z * io :=
  match io_fds w !! fd with
  | None => (-1, w)
  | Some _ => (0, Io (delete fd (io_fds w)) (io_files w) (io_log w) (io_full w) (io_chunks w))
  end.

(** The other calls fail. *)
Definition io_h (X : Type) (e : sys X) : io -> X * io :=
  match e in sys X return io -> X * io with
  | SRead fd n => io_read fd n
  | SWrite fd bs => io_write fd bs
  | SOpen path _ => io_open path
  | SClose fd => io_close fd
  | SPipe => fun w => ((-1, (0, 0)), w)
  | SFstat _ => fun w => ((-1, Stat 0 0 0 0 0), w)
  | SWaitStatus => fun w => ((-1, 0), w)
  | SFork | SWait | SKill _ | SExec _ _ | SMknod _ _ _ | SUnlink _ | SLink _ _ | SMkdir _ | SChdir _ | SDup _
  | SGetpid | SSbrk _ | SSleep _ | SUptime | SRaw _ _ | SLoad _ | SStore _ _ => fun w => (-1, w)
  end.

Notation iorun := (urun io_h).

(** ** Reading and writing *)

(** [w] after bytes were written to [fd] one call at a time. *)
Definition emitted (fd : Z) (bss : list (list Z)) (w : io) : io :=
  Io (io_fds w) (io_files w) (io_log w ++ map (pair fd) bss) (io_full w) (io_chunks w).

(** A descriptor that takes what is written to it. *)
Definition writable (fd : Z) (w : io) : Prop := is_Some (io_fds w !! fd) /\ fd ∉ io_full w.

Lemma emitted_nil fd w : emitted fd [] w = w.
Proof. destruct w. unfold emitted. simpl. by rewrite app_nil_r. Qed.

Lemma emitted_app fd a b w : emitted fd b (emitted fd a w) = emitted fd (a ++ b) w.
Proof. unfold emitted. simpl. by rewrite map_app, app_assoc. Qed.

Lemma sent_emitted fd bss w : sent fd (emitted fd bss w) = sent fd w ++ concat bss.
Proof.
  unfold sent, emitted. simpl. rewrite list.filter_app, map_app, concat_app. do 2 f_equal.
  induction bss as [|b bss IH]; [done|]. cbn [map]. rewrite filter_cons_True by done. simpl. by rewrite IH.
Qed.

Lemma sent_other fd fd' bss w : fd <> fd' -> sent fd' (emitted fd bss w) = sent fd' w.
Proof.
  intros Hne. unfold sent, emitted. simpl. rewrite list.filter_app, map_app, concat_app.
  assert (filter (fun p : Z * list Z => p.1 = fd') (map (pair fd) bss) = []) as ->; [|simpl; by rewrite app_nil_r].
  induction bss as [|b bss IH]; [done|]. cbn [map]. by rewrite filter_cons_False.
Qed.

Lemma io_write_ok fd bs w : writable fd w -> io_h _ (SWrite fd bs) w = (Z.of_nat (length bs), emitted fd [bs] w).
Proof.
  intros [[x Hx] Hn]. cbn [io_h]. unfold io_write. rewrite Hx. by destruct (decide (fd ∈ io_full w)).
Qed.

Lemma writable_emitted fd fd' bss w : writable fd (emitted fd' bss w) <-> writable fd w.
Proof. done. Qed.

(** What a read loop relies on: a non-empty answer while bytes are left, an empty
    one at the end. *)
Lemma io_read_ok fd n w bs : io_fds w !! fd = Some bs -> 0 < n ->
  exists a r ck, bs = a ++ r /\ (length a <= Z.to_nat n)%nat /\ (a = [] <-> bs = []) /\
    io_h _ (SRead fd n) w = ((Z.of_nat (length a), a),
      Io (<[fd := r]> (io_fds w)) (io_files w) (io_log w) (io_full w) ck).
Proof.
  intros Hfd Hn. set (k := answer_size (io_chunks w) (Z.to_nat n) (length bs)).
  assert (k <= length bs /\ k <= Z.to_nat n /\ (k = 0 -> bs = []))%nat as (Hk1 & Hk2 & Hk3).
  { unfold k, answer_size. split_and!; [destruct (io_chunks w); lia..|]. intros H. apply nil_length_inv. destruct (io_chunks w); lia. }
  exists (take k bs), (drop k bs), (tail (io_chunks w)). split; [by rewrite take_drop|].
  rewrite length_take_le by done. split; [done|]. split.
  - split; [|intros ->; apply take_nil]. intros H. apply (f_equal length) in H. rewrite length_take_le in H by done. auto.
  - cbn [io_h]. unfold io_read. by rewrite Hfd.
Qed.

(** ** printf() *)

Section output.
Context (fd : Z).

(** A program that only writes single bytes to [fd]. *)
Definition emits (p : U unit) (bs : list Z) : Prop :=
  forall w, writable fd w -> iorun p w = (Done tt, emitted fd (map (fun c => [c]) bs) w).

Lemma emits_ret : emits (mret tt) [].
Proof. intros w _. simpl. by rewrite emitted_nil. Qed.

Lemma emits_bind p q a b : emits p a -> emits q b -> emits (p;; q) (a ++ b).
Proof.
  intros Hp Hq w Hw. rewrite urun_bind, Hp by done. rewrite Hq by done. by rewrite emitted_app, map_app.
Qed.

Lemma emits_putc c : emits (Uprintf.putc fd c) [u8 c].
Proof.
  intros w Hw. unfold Uprintf.putc. rewrite urun_bind, urun_call, io_write_ok by done. done.
Qed.

Lemma emits_chars l : emits (uforM l (Uprintf.putc fd)) (map u8 l).
Proof. induction l as [|c l IH]; [apply emits_ret|]. apply (emits_bind _ _ [u8 c]); [apply emits_putc|done]. Qed.
End output.

(** What a conversion prints of an argument of its type. *)
Definition shown (c : Z) (a : Uprintf.arg) : option (list Z) :=
  match a with
  | Uprintf.AInt x =>
      if c =? 100 then Some (Uprintf.int_chars x 10 true)
      else if c =? 120 then Some (Uprintf.int_chars x 16 false)
      else if c =? 99 then Some [x]
      else None
  | Uprintf.ALong x =>
      if c =? 108 then Some (Uprintf.int_chars (i32 x) 10 false)
      else if c =? 112 then Some ([48; 120] ++ Uprintf.ptr_digits 16 x)
      else None
  | Uprintf.AStr s => if c =? 115 then Some (default (str "(null)") s) else None
  end.

(** The pieces of a format: literal characters and conversions. *)
Inductive piece := Lit (c : Z) | Conv (c : Z).

Fixpoint pieces (fmt : list Z) : list piece :=
  match fmt with
  | [] => []
  | c :: fmt =>
      if c =? 37 then
        match fmt with
        | [] => []
        | d :: fmt' =>
            if Uprintf.takes_arg d then Conv d :: pieces fmt'
            else if d =? 37 then Lit 37 :: pieces fmt'
            else Lit 37 :: Lit d :: pieces fmt'
        end
      else Lit c :: pieces fmt
  end.

(** The text of a format with its arguments; extra arguments are not used. *)
Fixpoint render (ps : list piece) (ap : list Uprintf.arg) : option (list Z) :=
  match ps with
  | [] => Some []
  | Lit c :: ps => cons c <$> render ps ap
  | Conv c :: ps =>
      match ap with
      | [] => None
      | a :: ap => t ← shown c a; r ← render ps ap; Some (t ++ r)
      end
  end.

Lemma emits_convert fd c a t : shown c a = Some t -> emits fd (Uprintf.convert fd c a) (map u8 t).
Proof.
  destruct a as [x|x|s]; cbn [shown Uprintf.convert]; repeat case_match; intros [= <-];
    solve [apply emits_chars | apply emits_putc].
Qed.

Lemma emits_vprintf fd fmt ap t : render (pieces fmt) ap = Some t -> emits fd (Uprintf.vprintf fd false fmt ap) (map u8 t).
Proof.
  revert ap t. remember (length fmt) as n eqn:Hn. assert (length fmt <= n)%nat as Hle by lia. clear Hn. revert fmt Hle.
  induction n as [|n IH]; intros [|c fmt] Hle ap t; cbn [length] in Hle; try lia; cbn [pieces Uprintf.vprintf].
  1, 2: intros [= <-]; apply emits_ret.
  destruct (c =? 37) eqn:Ec.
  - destruct fmt as [|d fmt]; [intros [= <-]; apply emits_ret|]. cbn [Uprintf.vprintf length] in *. destruct (Uprintf.takes_arg d).
    + destruct ap as [|a ap]; [done|]. cbn [render]. intros (x & Hx & (r & Hr & [= <-])%bind_Some)%bind_Some.
      rewrite map_app. apply emits_bind; [by apply emits_convert|]. apply IH; [lia|done].
    + destruct (d =? 37) eqn:Ed; cbn [render].
      * apply Z.eqb_eq in Ed as ->. intros (r & Hr & ->)%fmap_Some. apply (emits_bind _ _ _ [37]); [apply emits_putc|]. apply IH; [lia|done].
      * intros (r0 & (r & Hr & ->)%fmap_Some & ->)%fmap_Some. apply (emits_bind _ _ _ [37]); [apply emits_putc|].
        apply (emits_bind _ _ _ [u8 d]); [apply emits_putc|]. apply IH; [lia|done].
  - cbn [render]. intros (r & Hr & ->)%fmap_Some. apply (emits_bind _ _ _ [u8 c]); [apply emits_putc|]. apply IH; [lia|done].
Qed.

(** fprintf() writes the text of its format. *)
Lemma fprintf_ok fd fmt ap t w : writable fd w -> render (pieces (str fmt)) ap = Some t ->
  iorun (Uprintf.fprintf fd fmt ap) w = (Done tt, emitted fd (map (fun c => [c]) (map u8 t)) w).
Proof. intros Hw Ht. by apply emits_vprintf. Qed.
