(* ===== verification/Tools.v ===== *)
(** The small user programs: cat, echo, wc, kill, ln, rm, mkdir, sleep, zombie,
    pingpong, init and ls, one module each, as trees of system calls.  [argv]
    lists argv[0], argv[1], ... up to argv[argc-1].  A loop that ends only when
    read() or wait() says so has fuel; the theorems say how much is enough. *)

From Stdlib Require Import ZArith Lia.
From stdpp Require Import base gmap strings list numbers.
From S2P Require Import Prelude Params CString User UserIo.
Import Uprintf.

Open Scope Z_scope.

Module Cat.

Fixpoint cat (fuel : nat) (fd : Z) : U unit :=
  match fuel with
  | O => UFuel
  | S fuel =>
      '(n, buf) ← call (SRead fd 512);
      if 0 <? n then
        r ← call (SWrite 1 (take (Z.to_nat n) buf));
        if negb (r =? n) then fprintf 2 (line "cat: write error") [];; uexit 1
        else cat fuel fd
      else if n <? 0 then fprintf 2 (line "cat: read error") [];; uexit 1
      else mret tt
  end.

Definition cat_file (fuel : nat) (arg : list Z) : U unit :=
  fd ← call (SOpen arg 0);
  if fd <? 0 then fprintf 2 (line "cat: cannot open %s") [AStr (Some arg)];; uexit 1 else
  cat fuel fd;;
  call (SClose fd);;
  mret tt.

Definition main (fuel : nat) (argv : list (list Z)) : U unit :=
  if (length argv <=? 1)%nat then cat fuel 0;; uexit 0 else
  uforM (tail argv) (cat_file fuel);;
  uexit 0.

End Cat.

Module Echo.

(** The loop from argv[i] on. *)
Fixpoint echo_from (args : list (list Z)) : U unit :=
  match args with
  | [] => mret tt
  | a :: args =>
      call (SWrite 1 (take (Z.to_nat (Ulib.strlen a)) a));;
      (match args with
       | _ :: _ => call (SWrite 1 [32])
       | [] => call (SWrite 1 [10])
       end);;
      echo_from args
  end.
Definition main (argv : list (list Z)) : U unit := echo_from (tail argv);; uexit 0.

End Echo.

Module Wc.

(** l, w, c and inword. *)
Record counts := Counts { wl : Z; ww : Z; wn : Z; inword : bool }.

Definition space : list Z := [32; 13; 9; 10; 11].

(** The body of the for loop. *)
Definition count1 (b : Z) (s : counts) : counts :=
  let c := i32 (wn s + 1) in
  let l := if b =? 10 then i32 (wl s + 1) else wl s in
  match Ulib.strchr space b with
  | Some _ => Counts l (ww s) c false
  | None => if inword s then Counts l (ww s) c true else Counts l (i32 (ww s + 1)) c true
  end.
Fixpoint count (bs : list Z) (s : counts) : counts :=
  match bs with
  | [] => s
  | b :: bs => count bs (count1 b s)
  end.

Fixpoint wc_loop (fuel : nat) (fd : Z) (s : counts) : U (Z * counts) :=
  match fuel with
  | O => UFuel
  | S fuel =>
      '(n, buf) ← call (SRead fd 512);
      if 0 <? n then wc_loop fuel fd (count (take (Z.to_nat n) buf) s)
      else mret (n, s)
  end.

Definition wc (fuel : nat) (fd : Z) (name : list Z) : U unit :=
  '(n, s) ← wc_loop fuel fd (Counts 0 0 0 false);
  if n <? 0 then printf (line "wc: read error") [];; uexit 1 else
  printf (line "%d %d %d %s") [AInt (wl s); AInt (ww s); AInt (wn s); AStr (Some name)].

Definition wc_file (fuel : nat) (arg : list Z) : U unit :=
  fd ← call (SOpen arg 0);
  if fd <? 0 then printf (line "wc: cannot open %s") [AStr (Some arg)];; uexit 1 else
  wc fuel fd arg;;
  call (SClose fd);;
  mret tt.

Definition main (fuel : nat) (argv : list (list Z)) : U unit :=
  if (length argv <=? 1)%nat then wc fuel 0 [];; uexit 0 else
  uforM (tail argv) (wc_file fuel);;
  uexit 0.

End Wc.

Module Kill.

Definition main (argv : list (list Z)) : U unit :=
  if (length argv <? 2)%nat then fprintf 2 (line "usage: kill pid...") [];; uexit 1 else
  uforM (tail argv) (fun a => call (SKill (Ulib.atoi a));; mret tt);;
  uexit 0.

End Kill.

Module Ln.

Definition main (argv : list (list Z)) : U unit :=
  match argv with
  | [_; old; new] =>
      r ← call (SLink old new);
      (if r <? 0 then fprintf 2 (line "link %s %s: failed") [AStr (Some old); AStr (Some new)] else mret tt);;
      uexit 0
  | _ => fprintf 2 (line "Usage: ln old new") [];; uexit 1
  end.

End Ln.

Module Rm.

(** The loop from argv[i] on; it stops at the first failure. *)
Fixpoint rm_from (args : list (list Z)) : U unit :=
  match args with
  | [] => mret tt
  | a :: args =>
      r ← call (SUnlink a);
      if r <? 0 then fprintf 2 (line "rm: %s failed to delete") [AStr (Some a)] else rm_from args
  end.
Definition main (argv : list (list Z)) : U unit :=
  if (length argv <? 2)%nat then fprintf 2 (line "Usage: rm files...") [];; uexit 1 else
  rm_from (tail argv);;
  uexit 0.

End Rm.

Module Mkdir.

Fixpoint mkdir_from (args : list (list Z)) : U unit :=
  match args with
  | [] => mret tt
  | a :: args =>
      r ← call (SMkdir a);
      if r <? 0 then fprintf 2 (line "mkdir: %s failed to create") [AStr (Some a)] else mkdir_from args
  end.
Definition main (argv : list (list Z)) : U unit :=
  if (length argv <? 2)%nat then fprintf 2 (line "Usage: mkdir files...") [];; uexit 1 else
  mkdir_from (tail argv);;
  uexit 0.

End Mkdir.

Module Sleep.

(** argv[2] of a program with two arguments is the null pointer; [at0] is the
    string at address 0, where the text of the program starts. *)
Definition main (at0 : list Z) (argv : list (list Z)) : U unit :=
  if negb (length argv =? 2)%nat then fprintf 2 (line "usage:sleep ticks") [];; uexit 1 else
  let ticks := Ulib.atoi (default at0 (argv !! 2%nat)) in
  r ← call (SSleep ticks);
  if r <? 0 then fprintf 2 (line "sleep failed") [];; uexit 1 else
  uexit 0.

End Sleep.

Module Zombie.

Definition main : U unit :=
  pid ← call SFork;
  (if 0 <? pid then call (SSleep 5);; mret tt else mret tt);;
  uexit 0.

End Zombie.

Module Pingpong.

(** pipe() answers with what the array of descriptors holds, also when it fails. *)
Definition main : U unit :=
  let byte := 97 in
  '(_, (p2c0, p2c1)) ← call SPipe;
  '(_, (c2p0, c2p1)) ← call SPipe;
  pid ← call SFork;
  if pid <? 0 then fprintf 2 (line "fork failed") [];; uexit 1 else
  if pid =? 0 then
    call (SClose p2c1);;
    call (SClose c2p0);;
    '(n, bs) ← call (SRead p2c0 1);
    let byte := default byte (head (take (Z.to_nat n) bs)) in
    me ← call SGetpid;
    printf (line "%d: received ping") [AInt me];;
    call (SWrite c2p1 [byte]);;
    call (SClose c2p1);;
    call (SClose p2c0);;
    uexit 0
  else
    call (SClose p2c0);;
    call (SClose c2p1);;
    call (SWrite p2c1 [byte]);;
    call (SRead c2p0 1);;
    me ← call SGetpid;
    printf (line "%d: received pong") [AInt me];;
    call (SClose p2c1);;
    call (SClose c2p0);;
    call SWait;;
    uexit 0.

End Pingpong.

Module Init.

(** The inner loop: until the shell [pid] exits. *)
Fixpoint wait_shell (fuel : nat) (pid : Z) : U unit :=
  match fuel with
  | O => UFuel
  | S fuel =>
      wpid ← call SWait;
      if wpid =? pid then mret tt
      else if wpid <? 0 then printf (line "init: wait returned an error") [];; uexit 1
      else wait_shell fuel pid
  end.

(** [n] rounds of the outer loop, which never ends. *)
Fixpoint rounds (fuel n : nat) : U unit :=
  match n with
  | O => UFuel
  | S n =>
      printf (line "init: starting sh") [];;
      pid ← call SFork;
      if pid <? 0 then printf (line "init: fork failed") [];; uexit 1 else
      if pid =? 0 then
        call (SExec (str "sh") [str "sh"]);;
        printf (line "init: exec sh failed") [];;
        uexit 1
      else
        wait_shell fuel pid;;
        rounds fuel n
  end.

Definition main (fuel n : nat) : U unit :=
  fd ← call (SOpen (str "console") O_RDWR);
  (if fd <? 0 then
     call (SMknod (str "console") CONSOLE 0);;
     call (SOpen (str "console") O_RDWR);;
     mret tt
   else mret tt);;
  call (SDup 0);;
  call (SDup 0);;
  rounds fuel n.

End Init.

Module Ls.

(** The loop that walks back from the end of the path: [rpath] is the part before
    p, reversed, and [p] the string after the position looked at. *)
Fixpoint after_slash (rpath p : list Z) : list Z :=
  match rpath with
  | c :: rpath => if c =? 47 then p else after_slash rpath (c :: p)
  | [] => p
  end.

Definition fmtname (path : list Z) : list Z :=
  let p := after_slash (rev path) [] in
  if (DIRSIZ <=? Z.to_nat (Ulib.strlen p))%nat then p
  else p ++ replicate (DIRSIZ - Z.to_nat (Ulib.strlen p)) 32.

(** struct dirent: de.inum and de.name. *)
Definition de_inum (de : list Z) : Z := nth 0 de 0 + 256 * nth 1 de 0.
Definition de_name (de : list Z) : list Z := take DIRSIZ (drop 2 de).

(** while(read(fd, &de, sizeof(de)) == sizeof(de)) *)
Fixpoint entries (fuel : nat) (fd : Z) (path : list Z) : U unit :=
  match fuel with
  | O => UFuel
  | S fuel =>
      '(n, de) ← call (SRead fd 16);
      if negb (n =? 16) then mret tt else
      if de_inum de =? 0 then entries fuel fd path else
      let buf := path ++ [47] ++ cstr (de_name de) in
      '(r, st) ← Ulib.stat buf;
      if r <? 0 then printf (line "ls: cannot stat %s") [AStr (Some buf)];; entries fuel fd path else
      printf (line "%s %d %d %d") [AStr (Some (fmtname buf)); AInt (st_type st); AInt (i32 (st_ino st)); AInt (i32 (st_size st))];;
      entries fuel fd path
  end.

Definition ls (fuel : nat) (path : list Z) : U unit :=
  fd ← call (SOpen path 0);
  if fd <? 0 then fprintf 2 (line "ls: cannot open %s") [AStr (Some path)] else
  '(r, st) ← call (SFstat fd);
  if r <? 0 then
    fprintf 2 (line "ls: cannot stat %s") [AStr (Some path)];;
    call (SClose fd);;
    mret tt
  else
  (if st_type st =? T_FILE then
     printf (line "%s %d %d %l") [AStr (Some (fmtname path)); AInt (st_type st); AInt (i32 (st_ino st)); ALong (st_size st)]
   else if st_type st =? T_DIR then
     if 512 <? Ulib.strlen path + 1 + Z.of_nat DIRSIZ + 1 then printf (line "ls: path too long") []
     else entries fuel fd path
   else mret tt);;
  call (SClose fd);;
  mret tt.

Definition main (fuel : nat) (argv : list (list Z)) : U unit :=
  if (length argv <? 2)%nat then ls fuel (str ".");; uexit 0 else
  uforM (tail argv) (ls fuel);;
  uexit 0.

End Ls.

(** ** cat copies *)

(** [w] with the input of [fd] read up to [r] and the writes [bss] to descriptor 1. *)
Definition io_after (fd : Z) (r : list Z) (bss : list (list Z)) (ck : list nat) (w : io) : io :=
  Io (<[fd := r]> (io_fds w)) (io_files w) (io_log w ++ map (pair 1) bss) (io_full w) ck.

Lemma io_after_after fd r r' bss bss' ck ck' w :
  io_after fd r' bss' ck' (io_after fd r bss ck w) = io_after fd r' (bss ++ bss') ck' w.
Proof. unfold io_after. simpl. by rewrite insert_insert_eq, map_app, app_assoc. Qed.

Lemma writable_after fd r bss ck w : writable 1 w -> writable 1 (io_after fd r bss ck w).
Proof.
  intros [[x Hx] Hn]. split; [|done]. cbn [io_after io_fds]. destruct (decide (fd = 1)) as [->|Hne].
  - rewrite lookup_insert_eq. eauto.
  - rewrite lookup_insert_ne by done. eauto.
Qed.

Lemma sent_after fd r bss ck w : sent 1 (io_after fd r bss ck w) = sent 1 w ++ concat bss.
Proof. apply (sent_emitted 1 bss w). Qed.

Lemma read_after fd n w bs : io_fds w !! fd = Some bs -> 0 < n ->
  exists a r ck, bs = a ++ r /\ (length a <= Z.to_nat n)%nat /\ (a = [] <-> bs = []) /\
    io_h _ (SRead fd n) w = ((Z.of_nat (length a), a), io_after fd r [] ck w).
Proof.
  intros Hfd Hn. destruct (io_read_ok fd n w bs Hfd Hn) as (a & r & ck & ? & ? & ? & ->).
  exists a, r, ck. unfold io_after. simpl. by rewrite app_nil_r.
Qed.

Lemma write_after fd r bss ck w bs : writable 1 w ->
  io_h _ (SWrite 1 bs) (io_after fd r bss ck w) = (Z.of_nat (length bs), io_after fd r (bss ++ [bs]) ck w).
Proof.
  intros Hw. rewrite io_write_ok by (by apply writable_after). unfold emitted, io_after. simpl. by rewrite map_app, app_assoc.
Qed.

Lemma cat_ok fd : forall fuel bs w, io_fds w !! fd = Some bs -> writable 1 w -> (length bs < fuel)%nat ->
  exists bss ck, iorun (Cat.cat fuel fd) w = (Done tt, io_after fd [] bss ck w) /\ concat bss = bs.
Proof.
  induction fuel as [|fuel IH]; intros bs w Hfd Hw Hf; [lia|]. cbn [Cat.cat].
  destruct (read_after fd 512 w bs Hfd ltac:(lia)) as (a & r & ck & -> & _ & Ha & E).
  rewrite urun_bind, urun_call, E. destruct a as [|c a].
  - destruct r; [|exfalso; by destruct Ha as [Ha _]; specialize (Ha eq_refl)]. by exists [], ck.
  - assert (0 <? Z.of_nat (length (c :: a)) = true) as -> by (apply Z.ltb_lt; cbn [length]; lia).
    rewrite Nat2Z.id, take_ge by done. rewrite urun_bind, urun_call, write_after by done.
    rewrite Z.eqb_refl. cbn [negb app].
    destruct (IH r (io_after fd r [c :: a] ck w)) as (bss & ck' & -> & <-).
    + apply lookup_insert_eq.
    + by apply writable_after.
    + rewrite length_app in Hf. cbn [length] in Hf. lia.
    + exists ((c :: a) :: bss), ck'. by rewrite io_after_after.
Qed.

Lemma free_fd_ok fd w : free_fd w = Some fd -> io_fds w !! fd = None /\ 0 <= fd.
Proof.
  unfold free_fd. intros H. assert (fd ∈ filter (fun fd => io_fds w !! fd = None) (seqZ 0 (Z.of_nat NOFILE))) as Hin.
  - destruct (filter _ _) as [|x l]; [done|]. injection H as ->. left.
  - apply list_elem_of_filter in Hin as [? Hin]. apply elem_of_seqZ in Hin. split; [done|lia].
Qed.

(** The contents of a file from open() to close(): the descriptors are as before. *)
Definition io_done (bss : list (list Z)) (ck : list nat) (w : io) : io :=
  Io (io_fds w) (io_files w) (io_log w ++ map (pair 1) bss) (io_full w) ck.

Lemma open_ok path c fd w : io_files w !! path = Some c -> free_fd w = Some fd ->
  io_h _ (SOpen path 0) w = (fd, io_after fd c [] (io_chunks w) w).
Proof. intros Hc Hfd. cbn [io_h]. unfold io_open, io_after. rewrite Hc, Hfd. simpl. by rewrite app_nil_r. Qed.

Lemma close_ok fd r bss ck w : io_fds w !! fd = None ->
  io_h _ (SClose fd) (io_after fd r bss ck w) = (0, io_done bss ck w).
Proof.
  intros Hn. cbn [io_h]. unfold io_close, io_after, io_done. cbn [io_fds io_files io_log io_full io_chunks].
  by rewrite lookup_insert_eq, delete_insert_id.
Qed.

(** A loop over files that opens each, runs a program that reads it and writes
    [out content] to descriptor 1, and closes it. *)
Section files.
Context (run : Z -> list Z -> U unit) (out : list Z -> list Z -> list Z) (good : list Z -> Prop).
Context (run_ok : forall fd name bs w, io_fds w !! fd = Some bs -> writable 1 w -> good bs ->
  exists r bss ck, iorun (run fd name) w = (Done tt, io_after fd r bss ck w) /\ concat bss = out name bs).
Context (failed : list Z -> U unit).

Definition each_file (arg : list Z) : U unit :=
  fd ← call (SOpen arg 0);
  if fd <? 0 then failed arg;; uexit 1 else
  run fd arg;;
  call (SClose fd);;
  mret tt.

Lemma each_file_ok arg c w : io_files w !! arg = Some c -> is_Some (free_fd w) -> writable 1 w -> good c ->
  exists bss ck, iorun (each_file arg) w = (Done tt, io_done bss ck w) /\ concat bss = out arg c.
Proof.
  intros Hc [fd Hfd] Hw Hf. destruct (free_fd_ok fd w Hfd) as [Hn H0]. unfold each_file.
  rewrite urun_bind, urun_call, (open_ok _ c fd) by done. rewrite (proj2 (Z.ltb_ge fd 0)) by lia.
  destruct (run_ok fd arg c (io_after fd c [] (io_chunks w) w)) as (r & bss & ck & E & Hb);
    [apply lookup_insert_eq|by apply writable_after|done|].
  exists bss, ck. rewrite urun_bind, E, io_after_after, urun_bind, urun_call, close_ok by done. done.
Qed.

Lemma files_ok args : forall cs w, Forall2 (fun a c => io_files w !! a = Some c) args cs -> is_Some (free_fd w) -> writable 1 w ->
  Forall good cs ->
  exists bss ck, iorun (uforM args each_file) w = (Done tt, io_done bss ck w) /\
    concat bss = concat (zip_with out args cs).
Proof.
  induction args as [|a args IH]; intros cs w Ha Hfd Hw Hf; inversion Ha as [|? c ? cs' Hc Hcs]; subst.
  - exists [], (io_chunks w). destruct w. unfold io_done. simpl. by rewrite app_nil_r.
  - apply Forall_cons in Hf as [Hf Hfs]. cbn [uforM].
    destruct (each_file_ok a c w) as (b1 & ck1 & E1 & H1); [done..|]. rewrite urun_bind, E1.
    destruct (IH cs' (io_done b1 ck1 w)) as (b2 & ck2 & E2 & H2); [done..|].
    exists (b1 ++ b2), ck2. rewrite E2. split; [unfold io_done; simpl; by rewrite map_app, app_assoc|].
    rewrite concat_app, H1, H2. done.
Qed.

Lemma files_main args cs w : Forall2 (fun a c => io_files w !! a = Some c) args cs -> is_Some (free_fd w) -> writable 1 w ->
  Forall good cs ->
  exists w', iorun (uforM args each_file;; uexit (A:=unit) 0) w = (Exited 0, w') /\
    sent 1 w' = sent 1 w ++ concat (zip_with out args cs) /\ io_fds w' = io_fds w.
Proof.
  intros Ha Hfd Hw Hg. destruct (files_ok args cs w Ha Hfd Hw Hg) as (bss & ck & E & Hb).
  exists (io_done bss ck w). rewrite urun_bind, E. split; [done|]. split; [|done].
  rewrite <- Hb. apply (sent_emitted 1 bss w).
Qed.
End files.

(** Cat writes the contents of its files one after the other to descriptor 1,
    whatever sizes read() answers with, and exits with 0; every descriptor it
    opened is closed again.  It ends: more rounds than the longest file has bytes
    are never needed. *)
Theorem cat_concatenates (fuel : nat) (argv0 : list Z) (args cs : list (list Z)) (w : io)
  (Hargs : args <> []) (Hfiles : Forall2 (fun a c => io_files w !! a = Some c) args cs)
  (Hfd : is_Some (free_fd w)) (Hw : writable 1 w) (Hfuel : Forall (fun c => (length c < fuel)%nat) cs) :
  exists w', iorun (Cat.main fuel (argv0 :: args)) w = (Exited 0, w') /\
    sent 1 w' = sent 1 w ++ concat cs /\ io_fds w' = io_fds w.
Proof.
  destruct (files_main (fun fd _ => Cat.cat fuel fd) (fun _ c => c) (fun c => (length c < fuel)%nat)) with
    (failed := fun arg => fprintf 2 (line "cat: cannot open %s") [AStr (Some arg)]) (args := args) (cs := cs) (w := w)
    as (w' & E & Hs & Hd); [|done..|].
  - intros fd _ bs w0 Hb Hw0 Hl. destruct (cat_ok fd fuel bs w0 Hb Hw0 Hl) as (bss & ck & ? & ?). by exists [], bss, ck.
  - exists w'. destruct args as [|a args]; [done|]. split; [done|]. split; [|done]. rewrite Hs. do 2 f_equal.
    clear -Hfiles. induction Hfiles; simpl; congruence.
Qed.

(** Two files and answers of one, five and three bytes. *)
Definition demo_io : io :=
  Io {[0 := []; 1 := []; 2 := []]} {[str "a" := str (line "one two"); str "b" := str (line " x")]} [] ∅ [1%nat; 5%nat; 3%nat].

Lemma cat_concatenates_witness : exists w',
  iorun (Cat.main 100 [str "cat"; str "a"; str "b"]) demo_io = (Exited 0, w') /\
  sent 1 w' = str (String.append (line "one two") (line " x")) /\ io_fds w' = io_fds demo_io.
Proof.
  apply (cat_concatenates 100 (str "cat") [str "a"; str "b"] [str (line "one two"); str (line " x")] demo_io).
  - done.
  - by repeat constructor.
  - exists 3. vm_compute. reflexivity.
  - split; [by eexists|]. apply not_elem_of_empty.
  - repeat constructor; vm_compute; lia.
Defined.

(** ** wc counts *)

(** A word begins at [i]: a character that is not a blank, at the start or after a
    blank. *)
Definition blank (b : Z) : bool := (b =? 32) || (b =? 13) || (b =? 9) || (b =? 10) || (b =? 11).
Definition begins (bs : list Z) (i : nat) : bool :=
  negb (blank (nth i bs 0)) && ((i =? 0)%nat || blank (nth (pred i) bs 0)).

Definition nlines (bs : list Z) : nat := length (List.filter (Z.eqb 10) bs).
Definition nwords (bs : list Z) : nat := length (List.filter (begins bs) (seq 0 (length bs))).

(** Whether the text so far ends inside a word. *)
Definition in_word (bs : list Z) : bool := match list.last bs with Some d => negb (blank d) | None => false end.

Lemma in_word_snoc bs b : in_word (bs ++ [b]) = negb (blank b).
Proof. unfold in_word. by rewrite last_snoc. Qed.

Lemma strchr_space b : Ulib.strchr Wc.space b = None <-> blank b = false.
Proof.
  unfold Wc.space, blank. cbn [Ulib.strchr]. rewrite !(Z.eqb_sym b). repeat case_match; simpl; split; done.
Qed.

Lemma nwords_snoc bs b : nwords (bs ++ [b]) = (nwords bs + if negb (blank b) && negb (in_word bs) then 1 else 0)%nat.
Proof.
  unfold nwords. rewrite length_app. cbn [length]. rewrite Nat.add_1_r, seq_S. rewrite List.filter_app, length_app. f_equal.
  - f_equal. apply filter_ext_in. intros i Hi%in_seq. unfold begins. rewrite !app_nth1 by lia. done.
  - simpl. assert (begins (bs ++ [b]) (length bs) = negb (blank b) && negb (in_word bs)) as ->; [|by case_match].
    unfold begins, in_word. rewrite nth_middle. f_equal. destruct bs as [|d bs _] using rev_ind; [done|].
    rewrite last_snoc, length_app, negb_involutive. cbn [length]. rewrite Nat.add_1_r. cbn [pred Nat.eqb orb].
    rewrite <- app_assoc. simpl. by rewrite nth_middle.
Qed.

Lemma nlines_snoc bs b : nlines (bs ++ [b]) = (nlines bs + if (b =? 10)%Z then 1 else 0)%nat.
Proof. unfold nlines. rewrite List.filter_app, length_app. cbn [List.filter]. rewrite (Z.eqb_sym 10 b). by destruct (b =? 10)%Z. Qed.

(** The counters after the bytes [bs]. *)
Definition counted (bs : list Z) : Wc.counts :=
  Wc.Counts (Z.of_nat (nlines bs)) (Z.of_nat (nwords bs)) (Z.of_nat (length bs)) (in_word bs).

Lemma nlines_le bs : (nlines bs <= length bs)%nat.
Proof. apply filter_length_le. Qed.
Lemma nwords_le bs : (nwords bs <= length bs)%nat.
Proof. unfold nwords. etransitivity; [apply filter_length_le|]. by rewrite length_seq. Qed.

Lemma count_ok l : forall bs, Z.of_nat (length (bs ++ l)) < 2 ^ 31 -> Wc.count l (counted bs) = counted (bs ++ l).
Proof.
  induction l as [|b l IH]; intros bs Hl; [by rewrite app_nil_r|]. cbn [Wc.count].
  assert (Wc.count1 b (counted bs) = counted (bs ++ [b])) as ->.
  - rewrite length_app in Hl. cbn [length] in Hl. pose proof (nlines_le bs). pose proof (nwords_le bs).
    unfold Wc.count1, counted. cbn [Wc.wl Wc.ww Wc.wn Wc.inword].
    rewrite nlines_snoc, nwords_snoc, length_app. cbn [length]. rewrite in_word_snoc.
    rewrite !i32_small by lia. pose proof (strchr_space b) as Hs.
    destruct (Ulib.strchr Wc.space b) as [x|] eqn:E.
    + assert (blank b = true) as -> by (destruct (blank b); [done|]; by destruct Hs as [_ Hs]; specialize (Hs eq_refl)).
      cbn [negb andb]. f_equal; [destruct (b =? 10)|..]; lia.
    + rewrite (proj1 Hs eq_refl). cbn [negb andb]. destruct (in_word bs); cbn [negb]; f_equal; try (destruct (b =? 10)); lia.
  - rewrite IH; rewrite <- app_assoc; done.
Qed.

Lemma wc_loop_ok fd : forall fuel l bs w, io_fds w !! fd = Some l -> (length l < fuel)%nat -> Z.of_nat (length (bs ++ l)) < 2 ^ 31 ->
  exists ck, iorun (Wc.wc_loop fuel fd (counted bs)) w = (Done (0, counted (bs ++ l)), io_after fd [] [] ck w).
Proof.
  induction fuel as [|fuel IH]; intros l bs w Hfd Hf Hl; [lia|]. cbn [Wc.wc_loop].
  destruct (read_after fd 512 w l Hfd ltac:(lia)) as (a & r & ck & -> & _ & Ha & E).
  rewrite urun_bind, urun_call, E. destruct a as [|c a].
  - destruct r; [|exfalso; by destruct Ha as [Ha _]; specialize (Ha eq_refl)]. exists ck. cbn [length app]. by rewrite app_nil_r.
  - assert (0 <? Z.of_nat (length (c :: a)) = true) as -> by (apply Z.ltb_lt; cbn [length]; lia).
    rewrite Nat2Z.id, take_ge by done. rewrite app_assoc in Hl |- *.
    rewrite count_ok by (rewrite length_app in Hl; lia).
    destruct (IH r (bs ++ c :: a) (io_after fd r [] ck w)) as (ck' & ->); [apply lookup_insert_eq| |done|].
    + rewrite length_app in Hf. cbn [length] in Hf. lia.
    + exists ck'. by rewrite io_after_after.
Qed.

(** A number in decimal and the line wc prints for the contents [c] of a file. *)
Definition decimal (n : nat) : list Z := int_chars (Z.of_nat n) 10 true.
Definition wc_line (name c : list Z) : list Z :=
  map u8 (decimal (nlines c) ++ [32] ++ decimal (nwords c) ++ [32] ++ decimal (length c) ++ [32] ++ name ++ [10]).

Lemma concat_singles {A} (l : list A) : concat (map (fun c => [c]) l) = l.
Proof. induction l; simpl; congruence. Qed.

Lemma wc_ok fuel fd name bs w : io_fds w !! fd = Some bs -> writable 1 w -> (length bs < fuel)%nat -> Z.of_nat (length bs) < 2 ^ 31 ->
  exists r bss ck, iorun (Wc.wc fuel fd name) w = (Done tt, io_after fd r bss ck w) /\ concat bss = wc_line name bs.
Proof.
  intros Hfd Hw Hf Hl. destruct (wc_loop_ok fd fuel bs [] w Hfd Hf Hl) as (ck & E). change (Wc.Counts 0 0 0 false) with (counted []) in *.
  exists [], (map (fun c => [c]) (wc_line name bs)), ck. split; [|apply concat_singles].
  unfold Wc.wc. change (Wc.Counts 0 0 0 false) with (counted []). rewrite urun_bind, E. cbn [app Z.ltb Z.compare].
  change (printf ?f ?a) with (fprintf 1 f a). erewrite fprintf_ok; [|by apply writable_after|].
  2: { change (pieces (str (line "%d %d %d %s"))) with
         [Conv 100; Lit 32; Conv 100; Lit 32; Conv 100; Lit 32; Conv 115; Lit 10].
       cbn [render shown Z.eqb Pos.eqb]. reflexivity. }
  unfold counted. cbn [Wc.wl Wc.ww Wc.wn app].
  unfold emitted, io_after. cbn [io_fds io_files io_log io_full io_chunks map]. rewrite app_nil_r. done.
Qed.

(** wc prints for each file the number of its newlines, of its words and of
    its bytes, with its name, whatever sizes read() answers with: a word begins at
    every character that is not a blank and is first or follows a blank, also
    where one answer of read() ends inside the word. *)
Theorem wc_counts (fuel : nat) (argv0 : list Z) (args cs : list (list Z)) (w : io)
  (Hargs : args <> []) (Hfiles : Forall2 (fun a c => io_files w !! a = Some c) args cs)
  (Hfd : is_Some (free_fd w)) (Hw : writable 1 w)
  (Hfuel : Forall (fun c => (length c < fuel)%nat /\ Z.of_nat (length c) < 2 ^ 31) cs) :
  exists w', iorun (Wc.main fuel (argv0 :: args)) w = (Exited 0, w') /\
    sent 1 w' = sent 1 w ++ concat (zip_with wc_line args cs) /\ io_fds w' = io_fds w.
Proof.
  destruct (files_main (Wc.wc fuel) wc_line (fun c => (length c < fuel)%nat /\ Z.of_nat (length c) < 2 ^ 31)) with
    (failed := fun arg => printf (line "wc: cannot open %s") [AStr (Some arg)]) (args := args) (cs := cs) (w := w)
    as (w' & E & Hs & Hd); [|done..|].
  - intros fd name bs w0 Hb Hw0 [? ?]. by apply wc_ok.
  - exists w'. by destruct args.
Qed.

Lemma wc_counts_witness : exists w',
  iorun (Wc.main 100 [str "wc"; str "a"; str "b"]) demo_io = (Exited 0, w') /\
  sent 1 w' = str (String.append (line "1 2 8 a") (line "1 1 3 b")) /\ io_fds w' = io_fds demo_io.
Proof.
  apply (wc_counts 100 (str "wc") [str "a"; str "b"] [str (line "one two"); str (line " x")] demo_io).
  - done.
  - by repeat constructor.
  - exists 3. vm_compute. reflexivity.
  - split; [by eexists|]. apply not_elem_of_empty.
  - repeat constructor; vm_compute; lia.
Defined.

(** ** echo, ls and sleep *)

(** Arguments separated by blanks, with a newline after the last. *)
Fixpoint join (args : list (list Z)) : list Z :=
  match args with
  | [] => []
  | [a] => a ++ [10]
  | a :: args => a ++ [32] ++ join args
  end.

Lemma strlen_length s : Ulib.strlen s = Z.of_nat (length s).
Proof. induction s as [|c s IH]; cbn [Ulib.strlen length]; lia. Qed.

(** echo writes its arguments on one line. *)
Lemma echo_ok argv0 args w : writable 1 w -> exists bss,
  iorun (Echo.main (argv0 :: args)) w = (Exited 0, emitted 1 bss w) /\ concat bss = join args.
Proof.
  intros Hw. unfold Echo.main. cbn [tail].
  assert (exists bss, iorun (Echo.echo_from args) w = (Done tt, emitted 1 bss w) /\ concat bss = join args) as (bss & E & Hb);
    [|exists bss; by rewrite urun_bind, E].
  revert w Hw. induction args as [|a args IH]; intros w Hw; [exists []; by rewrite emitted_nil|].
  cbn [Echo.echo_from]. rewrite urun_bind, urun_call, io_write_ok, strlen_length, Nat2Z.id, take_ge by done.
  destruct args as [|b args].
  - rewrite urun_bind, urun_call, io_write_ok by done. exists [a; [10]]. by rewrite emitted_app.
  - rewrite urun_bind, urun_call, io_write_ok by done.
    destruct (IH (emitted 1 [[32]] (emitted 1 [a] w)) Hw) as (bss & -> & Hb).
    exists (a :: [32] :: bss). rewrite !emitted_app. split; [done|]. cbn [concat]. by rewrite Hb.
Qed.

(** The argument of a first call of sleep(). *)
Definition first_sleep {A} (p : U A) : option Z :=
  match p with
  | UCall _ e _ => match e with SSleep n => Some n | _ => None end
  | _ => None
  end.

(** With one argument sleep does not look at it: it converts argv[2], the null
    pointer that ends argv, and so the string at address 0. *)
Lemma sleep_ignores_argument at0 argv0 a b :
  Sleep.main at0 [argv0; a] = Sleep.main at0 [argv0; b] /\
  first_sleep (Sleep.main at0 [argv0; a]) = Some (Ulib.atoi at0).
Proof. done. Qed.

(** fmtname() returns the part of the path after the last slash, padded with
    blanks to DIRSIZ characters unless it is that long already. *)
Theorem fmtname_correct (path : list Z) :
  exists dir base, path = dir ++ base /\ 47 ∉ base /\ (dir = [] \/ exists d, dir = d ++ [47]) /\
    Ls.fmtname path = base ++ replicate (DIRSIZ - length base) 32.
Proof.
  assert (forall r p, 47 ∉ p -> exists dir base, rev r ++ p = dir ++ base /\ 47 ∉ base /\
    (dir = [] \/ exists d, dir = d ++ [47]) /\ Ls.after_slash r p = base) as H.
  { induction r as [|c r IH]; intros p Hp; cbn [Ls.after_slash rev]; [exists [], p; auto|].
    destruct (c =? 47) eqn:E.
    - apply Z.eqb_eq in E as ->. exists (rev r ++ [47]), p. eauto 10.
    - rewrite <- app_assoc. apply IH. apply Z.eqb_neq in E. set_solver. }
  destruct (H (rev path) [] ltac:(set_solver)) as (dir & base & E & Hb & Hd & Ha). rewrite rev_involutive, app_nil_r in E.
  exists dir, base. do 3 (split; [done|]). unfold Ls.fmtname. rewrite Ha, strlen_length, Nat2Z.id.
  destruct (DIRSIZ <=? length base)%nat eqn:El; [|done]. apply Nat.leb_le in El.
  replace (DIRSIZ - length base)%nat with 0%nat by lia. simpl. by rewrite app_nil_r.
Qed.
