(* ===== verification/Grep.v ===== *)
(** user/grep.c: the pattern matcher, with a reference semantics of patterns, and
    the loop that cuts the input into lines. *)

From Stdlib Require Import ZArith Lia.
From stdpp Require Import base gmap strings list numbers.
From S2P Require Import Prelude Params CString User UserIo Tools.
Import Uprintf.

Open Scope Z_scope.

Module Grep.

(** The do-while loop of matchstar(); [mh] is matchhere() of the rest of the
    pattern. *)
Fixpoint star_loop (mh : list Z -> bool) (c : Z) (text : list Z) : bool :=
  if mh text then true else
  match text with
  | [] => false
  | t :: text => if (t =? c) || (c =? 46) then star_loop mh c text else false
  end.

(** [t0] is *text, the character after it in [text] if it is not the NUL. *)
Fixpoint matchhere (re text : list Z) {struct re} : bool :=
  match re with
  | [] => true
  | c :: re1 =>
      let plain :=
        if (c =? 36) && match re1 with [] => true | _ => false end then match text with [] => true | _ => false end
        else match text with
             | t :: text => if (c =? 46) || (c =? t) then matchhere re1 text else false
             | [] => false
             end in
      match re1 with
      | d :: re2 => if d =? 42 then star_loop (matchhere re2) c text else plain
      | [] => plain
      end
  end.

Definition matchstar (c : Z) (re text : list Z) : bool := star_loop (matchhere re) c text.

(** The do-while loop of match(): every suffix, the empty one last. *)
Fixpoint match_from (re text : list Z) : bool :=
  if matchhere re text then true else
  match text with
  | [] => false
  | _ :: text => match_from re text
  end.

Definition match_ (re text : list Z) : bool :=
  match re with
  | c :: re1 => if c =? 94 then matchhere re1 text else match_from re text
  | [] => match_from re text
  end.

(** The inner loop: [p] is the part of the buffer from p on.  strchr() stops at a
    NUL; the line is what is before the newline q. *)
Fixpoint lines (fuel : nat) (pattern p : list Z) : U (list Z) :=
  match fuel with
  | O => UFuel
  | S fuel =>
      match Ulib.strchr (cstr p) 10 with
      | None => mret p
      | Some q =>
          let n := (length (cstr p) - length q)%nat in
          let l := take n p in
          (if match_ pattern l then call (SWrite 1 (l ++ [10]));; mret tt else mret tt);;
          lines fuel pattern (drop (S n) p)
      end
  end.

(** The outer loop with the [m] bytes [held] at the start of buf. *)
Fixpoint grep_loop (fuel : nat) (pattern : list Z) (fd : Z) (held : list Z) : U unit :=
  match fuel with
  | O => UFuel
  | S fuel =>
      '(n, bs) ← call (SRead fd (1024 - Z.of_nat (length held) - 1));
      if 0 <? n then
        let buf := held ++ take (Z.to_nat n) bs in
        held ← lines (S (length buf)) pattern buf;
        grep_loop fuel pattern fd held
      else mret tt
  end.
Definition grep (fuel : nat) (pattern : list Z) (fd : Z) : U unit := grep_loop fuel pattern fd [].

Definition grep_file (fuel : nat) (pattern arg : list Z) : U unit :=
  fd ← call (SOpen arg 0);
  if fd <? 0 then printf (line "grep: cannot open %s") [AStr (Some arg)];; uexit 1 else
  grep fuel pattern fd;;
  call (SClose fd);;
  mret tt.

Definition main (fuel : nat) (argv : list (list Z)) : U unit :=
  match argv with
  | _ :: pattern :: args =>
      match args with
      | [] => grep fuel pattern 0;; uexit 0
      | _ => uforM args (grep_file fuel pattern);; uexit 0
      end
  | _ => fprintf 2 (line "usage: grep pattern [file ...]") [];; uexit 1
  end.

End Grep.
Import Grep.

(** ** The language of a pattern *)

(** A character or any character, once or repeated. *)
Inductive atom := Any | Chr (c : Z).
Inductive item := One (a : atom) | Many (a : atom).

(** A pattern: whether it is tied to the start and to the end of the line, and
    its items. *)
Record regexp := Regexp { re_start : bool; re_items : list item; re_end : bool }.

Definition atom_of (c : Z) : atom := if c =? 46 then Any else Chr c.

Fixpoint items_of (re : list Z) : list item * bool :=
  match re with
  | [] => ([], false)
  | c :: re1 =>
      match re1 with
      | [] => if c =? 36 then ([], true) else ([One (atom_of c)], false)
      | d :: re2 =>
          if d =? 42 then (Many (atom_of c) :: (items_of re2).1, (items_of re2).2)
          else (One (atom_of c) :: (items_of re1).1, (items_of re1).2)
      end
  end.

Definition regexp_of (re : list Z) : regexp :=
  match re with
  | c :: re1 => if c =? 94 then Regexp true (items_of re1).1 (items_of re1).2
                else Regexp false (items_of re).1 (items_of re).2
  | [] => Regexp false [] false
  end.

Inductive accepts : atom -> Z -> Prop :=
| accepts_any c : accepts Any c
| accepts_chr c : accepts (Chr c) c.

(** The words of a list of items. *)
Inductive lang : list item -> list Z -> Prop :=
| lang_nil : lang [] []
| lang_one a c its w : accepts a c -> lang its w -> lang (One a :: its) (c :: w)
| lang_many_none a its w : lang its w -> lang (Many a :: its) w
| lang_many_more a c its w : accepts a c -> lang (Many a :: its) w -> lang (Many a :: its) (c :: w).
#[export] Hint Constructors accepts lang : grep.

(** A line matches if some part of it is a word of the pattern, at the start or
    the end of the line where the pattern says so. *)
Definition line_matches (r : regexp) (text : list Z) : Prop :=
  exists pre w post, text = pre ++ w ++ post /\ lang (re_items r) w /\
    (re_start r = true -> pre = []) /\ (re_end r = true -> post = []).

(** A match at the start of the text. *)
Definition prefix_matches (its : list item) (e : bool) (text : list Z) : Prop :=
  exists w post, text = w ++ post /\ lang its w /\ (e = true -> post = []).

Lemma accepts_atom c t : accepts (atom_of c) t <-> (c =? 46) || (c =? t) = true.
Proof.
  unfold atom_of. destruct (c =? 46) eqn:E; simpl; split; auto with grep.
  - inversion 1; subst. apply Z.eqb_refl.
  - intros ->%Z.eqb_eq. auto with grep.
Qed.

Lemma prefix_nil e text : prefix_matches [] e text <-> (e = true -> text = []).
Proof.
  split.
  - intros (w & post & -> & Hw & He). inversion Hw; subst. done.
  - intros He. exists [], text. auto with grep.
Qed.

Lemma prefix_one c its e text : prefix_matches (One (atom_of c) :: its) e text <->
  exists t text', text = t :: text' /\ (c =? 46) || (c =? t) = true /\ prefix_matches its e text'.
Proof.
  split.
  - intros (w & post & -> & Hw & He). inversion Hw; subst. eexists _, _. split; [done|].
    split; [by apply accepts_atom|]. by eexists _, _.
  - intros (t & text' & -> & Ht & w & post & -> & Hw & He). exists (t :: w), post. split; [done|]. split; [|done].
    constructor; [by apply accepts_atom|done].
Qed.

Lemma prefix_many c its e mh : (forall text, mh text = true <-> prefix_matches its e text) ->
  forall text, star_loop mh c text = true <-> prefix_matches (Many (atom_of c) :: its) e text.
Proof.
  intros Hmh. induction text as [|t text IH]; cbn [star_loop].
  - destruct (mh []) eqn:E; split; [|done..|].
    + intros _. apply Hmh in E as (w & post & E & Hw & He). exists w, post. auto with grep.
    + intros (w & post & E' & Hw & He). symmetry in E'. apply app_nil in E' as [-> ->]. inversion Hw; subst.
      assert (mh [] = true); [|congruence]. apply Hmh. exists [], []. auto.
  - destruct (mh (t :: text)) eqn:E.
    + split; [|done]. intros _. apply Hmh in E as (w & post & -> & Hw & He). exists w, post. auto with grep.
    + assert (forall b, (if (t =? c) || (c =? 46) then b else false) = true <-> accepts (atom_of c) t /\ b = true) as ->.
      { intros b. rewrite accepts_atom, orb_comm, (Z.eqb_sym t c). destruct (_ || _); naive_solver. }
      rewrite IH. split.
      * intros [Ha (w & post & -> & Hw & He)]. exists (t :: w), post. auto with grep.
      * intros (w & post & E' & Hw & He). inversion Hw; subst.
        -- assert (mh (t :: text) = true); [|congruence]. apply Hmh. by exists w, post.
        -- simpl in E'. simplify_eq. split; [done|]. by eexists _, _.
Qed.

Lemma matchhere_ok re : forall text, matchhere re text = true <-> prefix_matches (items_of re).1 (items_of re).2 text.
Proof.
  remember (length re) as n eqn:Hn. assert (length re <= n)%nat as Hle by lia. clear Hn. revert re Hle.
  induction n as [|n IH]; intros [|c re] Hle text; cbn [length] in Hle; try lia.
  1, 2: by split; [intros _; by apply prefix_nil|].
  destruct re as [|d re]; cbn [matchhere items_of].
  - destruct (c =? 36) eqn:E; cbn [andb fst snd].
    + rewrite prefix_nil. destruct text; naive_solver.
    + rewrite prefix_one. destruct text as [|t text]; [naive_solver|].
      destruct ((c =? 46) || (c =? t)) eqn:Ec; [|naive_solver].
      split; [|done]. intros _. exists t, text. split; [done|]. split; [done|]. by apply prefix_nil.
  - destruct (d =? 42) eqn:Ed.
    + cbn [length] in Hle. apply prefix_many, IH. lia.
    + rewrite andb_false_r. change (fst (?a, ?b)) with a. change (snd (?a, ?b)) with b. rewrite prefix_one.
      destruct text as [|t text]; [naive_solver|]. specialize (IH (d :: re) ltac:(cbn [length] in *; lia) text).
      destruct ((c =? 46) || (c =? t)) eqn:Ec; naive_solver.
Qed.

Lemma match_from_ok re text : match_from re text = true <->
  exists pre suf, text = pre ++ suf /\ matchhere re suf = true.
Proof.
  induction text as [|t text IH]; cbn [match_from].
  - destruct (matchhere re []) eqn:E; split; try done.
    + by exists [], [].
    + intros (pre & suf & Ht & Hm). symmetry in Ht. apply app_nil in Ht as [-> ->]. congruence.
  - destruct (matchhere re (t :: text)) eqn:E.
    + split; [|done]. by exists [], (t :: text).
    + rewrite IH. split.
      * intros (pre & suf & -> & Hm). by exists (t :: pre), suf.
      * intros ([|p pre] & suf & Ht & Hm); simplify_eq/=; [congruence|]. by exists pre, suf.
Qed.

(** C31: match() decides the language of the pattern: it returns 1 exactly when some
    part of the line is a word of the pattern, where . stands for any character, a
    character followed by * for any number of repetitions, a leading ^ ties the
    part to the start of the line and a trailing $ to its end. *)
Theorem match_correct (re text : list Z) : match_ re text = true <-> line_matches (regexp_of re) text.
Proof.
  assert (forall its e, (exists pre suf, text = pre ++ suf /\ prefix_matches its e suf) <->
    line_matches (Regexp false its e) text) as Hfree.
  { intros its e. split.
    - intros (pre & suf & -> & w & post & -> & Hw & He). by exists pre, w, post.
    - intros (pre & w & post & -> & Hw & _ & He). exists pre, (w ++ post). split; [done|]. by exists w, post. }
  assert (forall re, match_from re text = true <-> line_matches (Regexp false (items_of re).1 (items_of re).2) text) as Hfrom.
  { intros re0. rewrite match_from_ok, <- Hfree. by setoid_rewrite matchhere_ok. }
  destruct re as [|c re]; cbn [match_ regexp_of]; [apply (Hfrom [])|].
  destruct (c =? 94); [|apply Hfrom]. rewrite matchhere_ok. split.
  - intros (w & post & -> & Hw & He). by exists [], w, post.
  - intros (pre & w & post & -> & Hw & Hs & He). rewrite (Hs eq_refl). by exists w, post.
Qed.

(** ** grep prints the lines that match *)

Definition nl (l : list Z) : list Z := l ++ [10].

Section lines.
Context (pattern : list Z).

(** What is printed of a list of lines. *)
Definition selected (ls : list (list Z)) : list (list Z) := map nl (List.filter (match_ pattern) ls).

Lemma strchr_none s c : c ∉ s -> Ulib.strchr s c = None.
Proof.
  induction s as [|x s IH]; intros H; [done|]. cbn [Ulib.strchr].
  rewrite (proj2 (Z.eqb_neq x c)) by set_solver. apply IH. set_solver.
Qed.

Lemma cstr_elem c s : c ∈ cstr s -> c ∈ s.
Proof. induction s as [|x s IH]; cbn [cstr]; [done|]. case_match; set_solver. Qed.

Lemma cstr_line l s : 0 ∉ l -> cstr (l ++ 10 :: s) = l ++ 10 :: cstr s.
Proof.
  induction l as [|x l IH]; intros H; [done|]. cbn [app cstr].
  rewrite (proj2 (Z.eqb_neq x 0)) by set_solver. rewrite IH; [done|set_solver].
Qed.

Lemma strchr_line l s : 10 ∉ l -> Ulib.strchr (l ++ 10 :: s) 10 = Some (10 :: s).
Proof.
  induction l as [|x l IH]; intros H; [done|]. cbn [app Ulib.strchr].
  rewrite (proj2 (Z.eqb_neq x 10)) by set_solver. apply IH. set_solver.
Qed.

(** A line the program can hold: no newline, no NUL. *)
Definition text_line (l : list Z) : Prop := 10 ∉ l /\ 0 ∉ l.

(** The first line of a text of which [buf] is the start. *)
Lemma first_line buf u l x : buf ++ u = (l ++ [10]) ++ x -> 10 ∉ l -> 10 ∈ buf \/ (length l < length buf)%nat ->
  exists buf', buf = l ++ 10 :: buf' /\ buf' ++ u = x.
Proof.
  intros E Hl Hb. apply app_eq_inv in E as [(k & -> & ->)|(k & E & ->)].
  - exists k. by rewrite <- app_assoc.
  - destruct k as [|d k _] using rev_ind.
    + rewrite app_nil_r in E. exists []. by rewrite E.
    + rewrite app_assoc in E. apply app_inj_tail in E as [-> ->]. destruct Hb as [Hb|Hb]; [set_solver|].
      rewrite length_app in Hb. lia.
Qed.

(** The inner loop takes the complete lines from the buffer. *)
Lemma lines_ok r : 10 ∉ r -> forall ls fuel buf u w, buf ++ u = concat (map nl ls) ++ r -> Forall text_line ls ->
  (length buf < fuel)%nat -> writable 1 w ->
  exists held ls1 ls2, iorun (lines fuel pattern buf) w = (Done held, emitted 1 (selected ls1) w) /\
    ls = ls1 ++ ls2 /\ 10 ∉ held /\ held ++ u = concat (map nl ls2) ++ r /\ (length held <= length buf)%nat.
Proof.
  intros Hr. induction ls as [|l ls IH]; intros [|fuel] buf u w Hbuf Hls Hf Hw; try lia; cbn [lines].
  - assert (10 ∉ buf) as Hb by (cbn [map concat app] in Hbuf; set_solver).
    rewrite strchr_none by (intros ?%cstr_elem; done). exists buf, [], []. cbn [selected map List.filter]. rewrite emitted_nil. done.
  - apply Forall_cons in Hls as [[Hl10 Hl0] Hls]. cbn [map concat] in Hbuf. unfold nl at 1 in Hbuf.
    destruct (decide (10 ∈ buf)) as [Hin|Hin].
    + assert (exists buf', buf = l ++ 10 :: buf' /\ buf' ++ u = concat (map nl ls) ++ r) as (buf' & -> & Hbuf').
      { rewrite <- app_assoc in Hbuf. apply first_line; auto. }
      rewrite cstr_line, strchr_line, length_app by done. replace (length l + _ - _)%nat with (length l) by lia.
      rewrite take_app_length.
      rewrite urun_bind. replace (drop (S (length l)) (l ++ 10 :: buf')) with buf'
        by (rewrite drop_app_ge, Nat.sub_succ_l, Nat.sub_diag by lia; done).
      rewrite length_app in Hf. cbn [length] in Hf.
      destruct (match_ pattern l) eqn:Em.
      * rewrite urun_bind, urun_call, io_write_ok by done. cbn [urun mret U_ret].
        destruct (IH fuel buf' u (emitted 1 [l ++ [10]] w)) as (held & ls1 & ls2 & -> & -> & Hh & Hu & Hlen); [done|done|lia|done|].
        exists held, (l :: ls1), ls2. unfold selected. cbn [List.filter]. rewrite Em, emitted_app. rewrite length_app. cbn [length].
        split_and!; try done. lia.
      * destruct (IH fuel buf' u w) as (held & ls1 & ls2 & E & -> & Hh & Hu & Hlen); [done|done|lia|done|].
        exists held, (l :: ls1), ls2. unfold selected. cbn [List.filter]. rewrite Em. rewrite length_app. cbn [length].
        split_and!; try done. lia.
    + rewrite strchr_none by (intros ?%cstr_elem; done). exists buf, [], (l :: ls). cbn [selected map List.filter]. rewrite emitted_nil. done.
Qed.

(** The outer loop; it may also stop early, in a last piece without a newline that
    does not fit into the buffer. *)
Lemma grep_loop_ok fd r : 10 ∉ r -> forall fuel ls held u w, io_fds w !! fd = Some u -> writable 1 w ->
  held ++ u = concat (map nl ls) ++ r -> 10 ∉ held -> (length held <= 1023)%nat -> (length u < fuel)%nat ->
  Forall text_line ls -> Forall (fun l => (length l <= 1022)%nat) ls ->
  exists r' bss ck, iorun (grep_loop fuel pattern fd held) w = (Done tt, io_after fd r' bss ck w) /\
    concat bss = concat (selected ls).
Proof.
  intros Hr. induction fuel as [|fuel IH]; intros ls held u w Hfd Hw Hu Hh Hlen Hf Hls Hlong; [lia|]. cbn [grep_loop].
  assert (forall l ls', ls = l :: ls' -> (length l < length held)%nat -> False) as Hno.
  { intros l ls' -> Hl. apply Forall_cons in Hls as [[Hl10 _] _]. cbn [map concat] in Hu. rewrite <- app_assoc in Hu.
    destruct (first_line held u l (concat (map nl ls') ++ r)) as (b & -> & _); [done..|auto|]. set_solver. }
  destruct (decide (length held = 1023%nat)) as [E|Hne].
  - assert (ls = []) as -> by (destruct ls as [|l ls]; [done|]; apply Forall_cons in Hlong as [? _]; exfalso; eapply Hno; [done|lia]).
    exists u, [], (tail (io_chunks w)). split; [|done]. rewrite urun_bind, urun_call, E. change (1024 - Z.of_nat 1023 - 1) with 0.
    cbn [io_h]. unfold io_read. rewrite Hfd. assert (forall ck n, answer_size ck (Z.to_nat 0) n = 0%nat) as -> by (intros [] ?; simpl; lia).
    unfold io_after. simpl. by rewrite app_nil_r.
  - destruct (read_after fd (1024 - Z.of_nat (length held) - 1) w u Hfd ltac:(lia)) as (a & u' & ck & -> & Ha1 & Ha & E).
    rewrite urun_bind, urun_call, E. destruct a as [|c a].
    + destruct u'; [|exfalso; by destruct Ha as [Ha _]; specialize (Ha eq_refl)].
      exists [], [], ck. split; [done|]. destruct ls as [|l ls]; [done|]. exfalso. apply (Hno l ls); [done|].
      cbn [app] in Hu. rewrite app_nil_r in Hu. rewrite Hu. cbn [map concat]. unfold nl at 1. rewrite !length_app. cbn [length]. lia.
    + rewrite (proj2 (Z.ltb_lt 0 (Z.of_nat (length (c :: a))))) by (cbn [length]; lia).
      rewrite Nat2Z.id, take_ge by done. rewrite urun_bind.
      destruct (lines_ok r Hr ls (S (length (held ++ c :: a))) (held ++ c :: a) u' (io_after fd u' [] ck w))
        as (held' & ls1 & ls2 & -> & -> & Hh' & Hu' & Hl'); [by rewrite <- app_assoc|done|lia|by apply writable_after|].
      rewrite length_app in Hl', Hf. cbn [length] in Hl', Hf, Ha1.
      apply Forall_app in Hls as [_ Hls2]. apply Forall_app in Hlong as [_ Hlong2].
      destruct (IH ls2 held' u' (io_after fd u' (selected ls1) ck w)) as (r' & bss & ck' & E' & Hb);
        [apply lookup_insert_eq|by apply writable_after|done|done|lia|lia|done|done|].
      exists r', (selected ls1 ++ bss), ck'.
      replace (emitted 1 (selected ls1) (io_after fd u' [] ck w)) with (io_after fd u' (selected ls1) ck w)
        by (unfold emitted, io_after; simpl; by rewrite app_nil_r).
      rewrite E', io_after_after. split; [done|]. unfold selected. rewrite List.filter_app, map_app, !concat_app. by rewrite Hb.
Qed.
End lines.

(** The complete lines of a text and what follows the last newline. *)
Fixpoint split_lines (bs : list Z) : list (list Z) * list Z :=
  match bs with
  | [] => ([], [])
  | c :: bs =>
      let '(ls, r) := split_lines bs in
      if c =? 10 then ([] :: ls, r) else
      match ls with
      | [] => ([], c :: r)
      | l :: ls => ((c :: l) :: ls, r)
      end
  end.
Definition text_lines (bs : list Z) : list (list Z) := (split_lines bs).1.

Lemma split_lines_ok bs : forall ls r, split_lines bs = (ls, r) ->
  bs = concat (map nl ls) ++ r /\ 10 ∉ r /\ Forall (fun l => 10 ∉ l) ls.
Proof.
  induction bs as [|c bs IH]; cbn [split_lines]; intros ls r; [intros [= <- <-]; set_solver|].
  destruct (split_lines bs) as [ls0 r0]. destruct (IH ls0 r0 eq_refl) as (-> & Hr & Hls).
  destruct (c =? 10) eqn:E.
  - apply Z.eqb_eq in E as ->. intros [= <- <-]. split; [done|]. split; [done|]. constructor; [set_solver|done].
  - apply Z.eqb_neq in E. destruct ls0 as [|l ls0]; intros [= <- <-]; [set_solver|].
    apply Forall_cons in Hls as [Hl Hls]. split; [done|]. split; [done|]. constructor; [set_solver|done].
Qed.

(** A file grep handles: no NUL, every complete line fits into the buffer with its
    newline, and [fuel] is more than its length. *)
Definition greppable (fuel : nat) (c : list Z) : Prop :=
  0 ∉ c /\ Forall (fun l => (length l <= 1022)%nat) (text_lines c) /\ (length c < fuel)%nat.

Lemma grep_ok fuel pattern fd bs w : io_fds w !! fd = Some bs -> writable 1 w -> greppable fuel bs ->
  exists r bss ck, iorun (grep fuel pattern fd) w = (Done tt, io_after fd r bss ck w) /\
    concat bss = concat (selected pattern (text_lines bs)).
Proof.
  intros Hfd Hw (H0 & Hlong & Hf). unfold text_lines in *. destruct (split_lines bs) as [ls r] eqn:E.
  destruct (split_lines_ok bs ls r E) as (-> & Hr & Hls). cbn [fst] in *.
  apply (grep_loop_ok pattern fd r Hr fuel ls [] (concat (map nl ls) ++ r) w); try done; [set_solver|simpl; lia|].
  apply Forall_forall. intros l Hl. split; [by eapply Forall_forall in Hls|]. intros Hin. apply H0, elem_of_app. left.
  apply list_elem_of_In, in_concat. exists (nl l). rewrite <- !list_elem_of_In. split; [|unfold nl; set_solver].
  apply list_elem_of_In, (in_map nl), list_elem_of_In, Hl.
Qed.

(** C32: grep prints exactly the lines of its files that match the pattern, in
    order and each with its newline, whatever sizes read() answers with and however
    lines fall across the buffer, for lines that fit into the buffer (1022
    characters and the newline); it ends and exits with 0.  A last line without a
    newline is never printed. *)
Theorem grep_prints_matches (fuel : nat) (argv0 pattern : list Z) (args cs : list (list Z)) (w : io)
  (Hargs : args <> []) (Hfiles : Forall2 (fun a c => io_files w !! a = Some c) args cs)
  (Hgrep : Forall (greppable fuel) cs) (Hfd : is_Some (free_fd w)) (Hw : writable 1 w) :
  exists w', iorun (main fuel (argv0 :: pattern :: args)) w = (Exited 0, w') /\
    sent 1 w' = sent 1 w ++ concat (map (fun c => concat (map nl (List.filter (match_ pattern) (text_lines c)))) cs).
Proof.
  destruct (files_main (fun fd _ => grep fuel pattern fd) (fun _ c => concat (selected pattern (text_lines c))) (greppable fuel)) with
    (failed := fun arg => printf (line "grep: cannot open %s") [AStr (Some arg)]) (args := args) (cs := cs) (w := w)
    as (w' & E & Hs & _); [|done..|].
  - intros fd _ bs w0. apply grep_ok.
  - exists w'. destruct args as [|a args]; [done|]. split; [done|]. rewrite Hs. do 2 f_equal.
    clear -Hfiles. unfold selected. induction Hfiles; cbn [zip_with map]; congruence.
Qed.

Lemma grep_prints_matches_witness : exists w',
  iorun (main 100 [str "grep"; str "^o.*o$"; str "a"; str "b"]) demo_io = (Exited 0, w') /\
  sent 1 w' = str (line "one two").
Proof.
  apply (grep_prints_matches 100 (str "grep") (str "^o.*o$") [str "a"; str "b"] [str (line "one two"); str (line " x")] demo_io).
  - done.
  - by repeat constructor.
  - repeat constructor; try (apply (bool_decide_unpack _); vm_compute; reflexivity); vm_compute; lia.
  - exists 3. vm_compute. reflexivity.
  - split; [by eexists|]. apply not_elem_of_empty.
Defined.
