(* ===== verification/Shell.v ===== *)
(** user/sh.c: the tokenizer, the recursive-descent parser, the termination of the
    argument strings in the command line, and the execution of parsed commands.

    The command line is the list of its bytes before the NUL; pointers into it are
    positions, es is its length.  A command tree holds positions, as the source
    holds pointers: the strings exist once nulterminate() has stored its NULs.
    malloc() is taken to succeed, so no command pointer is null. *)

From Stdlib Require Import ZArith Lia.
From stdpp Require Import base gmap strings list numbers.
From S2P Require Import Prelude Params CString User.
Import Uprintf.

Open Scope Z_scope.

Abbreviation MAXARGS := 10%nat.

(** struct execcmd, redircmd, pipecmd, listcmd and backcmd; an argument is a pair
    argv[i], eargv[i]. *)
Inductive cmd :=
| Exec (argv : list (nat * nat))
| Redir (c : cmd) (file efile : nat) (mode fd : Z)
| Pipe (lcmd rcmd : cmd)
| List (lcmd rcmd : cmd)
| Back (c : cmd).

Definition execcmd : cmd := Exec [].
Definition redircmd (subcmd : cmd) (file efile : nat) (mode fd : Z) : cmd := Redir subcmd file efile mode fd.
Definition pipecmd (lcmd rcmd : cmd) : cmd := Pipe lcmd rcmd.
Definition listcmd (lcmd rcmd : cmd) : cmd := List lcmd rcmd.
Definition backcmd (subcmd : cmd) : cmd := Back subcmd.

(** ** Tokens *)

Definition whitespace : list Z := [32; 9; 13; 10; 11].
Definition symbols : list Z := str "<|>&;()".

Definition isin (s : list Z) (c : Z) : bool := match Ulib.strchr s c with Some _ => true | None => false end.

(** *s, with the NUL at the end of the line. *)
Definition ch (buf : list Z) (s : nat) : Z := nth s buf 0.

(** while(s < es && p( *s )) s++; the number of rounds is at most [n]. *)
Fixpoint skip_while (p : Z -> bool) (buf : list Z) (n s : nat) : nat :=
  match n with
  | O => s
  | S n => if (s <? length buf)%nat && p (ch buf s) then skip_while p buf n (S s) else s
  end.
Definition skip (p : Z -> bool) (buf : list Z) (s : nat) : nat := skip_while p buf (length buf - s) s.

(** ret, *q, *eq and *ps. *)
Definition gettoken (buf : list Z) (ps : nat) : Z * nat * nat * nat :=
  let s := skip (isin whitespace) buf ps in
  let q := s in
  let c := ch buf s in
  let '(ret, s) :=
    if c =? 0 then (c, s)
    else if isin (str "|();&<") c then (c, S s)
    else if c =? 62 then
      if ch buf (S s) =? 62 then (43, S (S s)) else (c, S s)
    else (97, skip (fun c => negb (isin whitespace c) && negb (isin symbols c)) buf s) in
  (ret, q, s, skip (isin whitespace) buf s).

(** The answer and *ps. *)
Definition peek (buf : list Z) (ps : nat) (toks : list Z) : bool * nat :=
  let s := skip (isin whitespace) buf ps in
  (negb (ch buf s =? 0) && isin toks (ch buf s), s).

(** ** Parser *)

(** panic() prints a message and exits. *)
Inductive pres (A : Type) := POk (a : A) | PPanic (msg : string) | PFuel.
Arguments POk {A} a.
Arguments PPanic {A} msg.
Arguments PFuel {A}.
#[export] Instance pres_ret : MRet pres := @POk.
#[export] Instance pres_bind : MBind pres := fun A B f m =>
  match m with
  | POk a => f a
  | PPanic msg => PPanic msg
  | PFuel => PFuel
  end.

(** The redirection of a token '<', '>' or '+' to a file name. *)
Definition redirect (tok : Z) (c : cmd) (q eq : nat) : cmd :=
  if tok =? 60 then redircmd c q eq O_RDONLY 0
  else if tok =? 62 then redircmd c q eq (Z.lor (Z.lor O_WRONLY O_CREATE) O_TRUNC) 1
  else if tok =? 43 then redircmd c q eq (Z.lor O_WRONLY O_CREATE) 1
  else c.

Fixpoint parseredirs (fuel : nat) (buf : list Z) (c : cmd) (s : nat) : pres (cmd * nat) :=
  match fuel with
  | O => PFuel
  | S fuel =>
      let '(b, s) := peek buf s (str "<>") in
      if b then
        let '(tok, _, _, s) := gettoken buf s in
        let '(tok2, q, eq, s) := gettoken buf s in
        if negb (tok2 =? 97) then PPanic "missing file for redirection"
        else parseredirs fuel buf (redirect tok c q eq) s
      else POk (c, s)
  end.

(** cmd->argv[argc] = q; cmd->eargv[argc] = eq; argc++: the store goes to the
    execcmd inside the redirections put around it so far. *)
Fixpoint add_arg (c : cmd) (a : nat * nat) : cmd :=
  match c with
  | Exec argv => Exec (argv ++ [a])
  | Redir c q eq mode fd => Redir (add_arg c a) q eq mode fd
  | c => c
  end.

(** The while loop of parseexec(). *)
Fixpoint parseargs (fuel : nat) (buf : list Z) (argc : nat) (ret : cmd) (s : nat) : pres (cmd * nat) :=
  match fuel with
  | O => PFuel
  | S fuel =>
      let '(b, s) := peek buf s (str "|)&;") in
      if b then POk (ret, s) else
      let '(tok, q, eq, s) := gettoken buf s in
      if tok =? 0 then POk (ret, s) else
      if negb (tok =? 97) then PPanic "syntax" else
      let ret := add_arg ret (q, eq) in
      let argc := S argc in
      if (MAXARGS <=? argc)%nat then PPanic "too many args" else
      '(ret, s) ← parseredirs (S (length buf)) buf ret s;
      parseargs fuel buf argc ret s
  end.

(** while(peek(ps, es, "&")) of parseline(). *)
Fixpoint parsebacks (fuel : nat) (buf : list Z) (c : cmd) (s : nat) : pres (cmd * nat) :=
  match fuel with
  | O => PFuel
  | S fuel =>
      let '(b, s) := peek buf s (str "&") in
      if b then
        let '(_, _, _, s) := gettoken buf s in
        parsebacks fuel buf (backcmd c) s
      else POk (c, s)
  end.

Fixpoint parseline (fuel : nat) (buf : list Z) (s : nat) {struct fuel} : pres (cmd * nat) :=
  match fuel with
  | O => PFuel
  | S fuel =>
      '(c, s) ← parsepipe fuel buf s;
      '(c, s) ← parsebacks (S (length buf)) buf c s;
      let '(b, s) := peek buf s (str ";") in
      if b then
        let '(_, _, _, s) := gettoken buf s in
        '(rcmd, s) ← parseline fuel buf s;
        POk (listcmd c rcmd, s)
      else POk (c, s)
  end
with parsepipe (fuel : nat) (buf : list Z) (s : nat) {struct fuel} : pres (cmd * nat) :=
  match fuel with
  | O => PFuel
  | S fuel =>
      '(c, s) ← parseexec fuel buf s;
      let '(b, s) := peek buf s (str "|") in
      if b then
        let '(_, _, _, s) := gettoken buf s in
        '(rcmd, s) ← parsepipe fuel buf s;
        POk (pipecmd c rcmd, s)
      else POk (c, s)
  end
with parseexec (fuel : nat) (buf : list Z) (s : nat) {struct fuel} : pres (cmd * nat) :=
  match fuel with
  | O => PFuel
  | S fuel =>
      let '(b, s) := peek buf s (str "(") in
      if b then parseblock fuel buf s else
      '(ret, s) ← parseredirs (S (length buf)) buf execcmd s;
      parseargs (S (length buf)) buf 0 ret s
  end
with parseblock (fuel : nat) (buf : list Z) (s : nat) {struct fuel} : pres (cmd * nat) :=
  match fuel with
  | O => PFuel
  | S fuel =>
      let '(b, s) := peek buf s (str "(") in
      if negb b then PPanic "parseblock" else
      let '(_, _, _, s) := gettoken buf s in
      '(c, s) ← parseline fuel buf s;
      let '(b, s) := peek buf s (str ")") in
      if negb b then PPanic "syntax - missing )" else
      let '(_, _, _, s) := gettoken buf s in
      parseredirs (S (length buf)) buf c s
  end.

(** NUL-terminate all the counted strings. *)
Fixpoint nulterminate (c : cmd) (buf : list Z) : list Z :=
  match c with
  | Exec argv => foldl (fun buf a => <[a.2 := 0]> buf) buf argv
  | Redir c _ efile _ _ => <[efile := 0]> (nulterminate c buf)
  | Pipe l r | List l r => nulterminate r (nulterminate l buf)
  | Back c => nulterminate c buf
  end.

Definition panic {A} (s : string) : U A := fprintf 2 (line s) [];; uexit 1.

(** parsecmd() up to the check that the whole line was used.  Each call of the
    four functions is for a later token or the next function on the way down, so
    that [4 * es + 4] nested calls are enough. *)
Definition parse (buf : list Z) : pres (cmd * nat) :=
  '(c, s) ← parseline (4 * length buf + 4) buf 0;
  let '(_, s) := peek buf s [] in
  POk (c, s).

(** The command and the line with its NULs. *)
Definition parsecmd (buf : list Z) : U (cmd * list Z) :=
  match parse buf with
  | POk (c, s) =>
      if negb (s =? length buf)%nat then
        fprintf 2 (line "leftovers: %s") [AStr (Some (drop s buf))];;
        panic "syntax"
      else mret (c, nulterminate c buf)
  | PPanic msg => panic msg
  | PFuel => UFuel
  end.

(** ** Execution *)

Definition fork1 : U Z :=
  pid ← call SFork;
  if pid =? -1 then panic "fork" else mret pid.

(** The string at a position of the line. *)
Definition str_at (buf : list Z) (q : nat) : list Z := cstr (drop q buf).

(** Never returns; what follows a call of runcmd() is reached only by the parent. *)
Fixpoint runcmd (buf : list Z) (c : cmd) : U unit :=
  match c with
  | Exec argv =>
      match argv with
      | [] => uexit 1
      | a0 :: _ =>
          call (SExec (str_at buf a0.1) (map (fun a => str_at buf a.1) argv));;
          fprintf 2 (line "exec %s failed") [AStr (Some (str_at buf a0.1))];;
          uexit 0
      end
  | Redir c file _ mode fd =>
      call (SClose fd);;
      r ← call (SOpen (str_at buf file) mode);
      if r <? 0 then fprintf 2 (line "open %s failed") [AStr (Some (str_at buf file))];; uexit 1 else
      runcmd buf c;;
      uexit 0
  | List lcmd rcmd =>
      pid ← fork1;
      (if pid =? 0 then runcmd buf lcmd else mret tt);;
      call SWait;;
      runcmd buf rcmd;;
      uexit 0
  | Pipe lcmd rcmd =>
      '(r, (p0, p1)) ← call SPipe;
      (if r <? 0 then panic "pipe" else mret tt);;
      pid ← fork1;
      (if pid =? 0 then
         call (SClose 1);; call (SDup p1);; call (SClose p0);; call (SClose p1);;
         runcmd buf lcmd
       else mret tt);;
      pid ← fork1;
      (if pid =? 0 then
         call (SClose 0);; call (SDup p0);; call (SClose p0);; call (SClose p1);;
         runcmd buf rcmd
       else mret tt);;
      call (SClose p0);;
      call (SClose p1);;
      call SWait;;
      call SWait;;
      uexit 0
  | Back c =>
      pid ← fork1;
      (if pid =? 0 then runcmd buf c else mret tt);;
      uexit 0
  end.

(** The line read, [None] at the end of the input. *)
Definition getcmd (nbuf : Z) : U (option (list Z)) :=
  fprintf 2 "$ " [];;
  s ← Ulib.gets nbuf;
  match cstr s with
  | [] => mret None
  | buf => mret (Some buf)
  end.

(** Ensure that three file descriptors are open. *)
Fixpoint open_console (fuel : nat) : U unit :=
  match fuel with
  | O => UFuel
  | S fuel =>
      fd ← call (SOpen (str "console") O_RDWR);
      if fd <? 0 then mret tt else
      if 3 <=? fd then call (SClose fd);; mret tt
      else open_console fuel
  end.

(** Read and run input commands. *)
Fixpoint read_run (fuel : nat) : U unit :=
  match fuel with
  | O => UFuel
  | S fuel =>
      b ← getcmd 100;
      match b with
      | None => mret tt
      | Some buf =>
          if (ch buf 0 =? 99) && (ch buf 1 =? 100) && (ch buf 2 =? 32) then
            let buf := take (length buf - 1) buf in
            r ← call (SChdir (drop 3 buf));
            (if r <? 0 then fprintf 2 (line "cannot cd %s") [AStr (Some (drop 3 buf))] else mret tt);;
            read_run fuel
          else
            pid ← fork1;
            (if pid =? 0 then '(c, buf) ← parsecmd buf; runcmd buf c else mret tt);;
            call SWait;;
            read_run fuel
      end
  end.

Definition main (fuel : nat) : U unit :=
  open_console fuel;;
  read_run fuel;;
  uexit 0.
