(* ===== verification/ShellParse.v ===== *)
(** The parser of user/sh.c against a grammar on tokens: it terminates on every
    line, accepts exactly the lines of the grammar and builds their command trees,
    and after nulterminate() the strings of the tree are the words of the line. *)

From Stdlib Require Import ZArith Lia.
From stdpp Require Import base gmap strings list numbers.
From S2P Require Import Prelude Params CString User Shell.

Open Scope Z_scope.

(** ** Grammar *)

(** A token: its kind, which is its character, '+' for >> and 'a' for a word, and
    the positions of its first character and behind its last. *)
Record tok := Tok { t_kind : Z; t_q : nat; t_eq : nat }.

Definition arg_of (t : tok) : nat * nat := (t_q t, t_eq t).

(** Redirections, applied to a command from the left. *)
Inductive gredirs : list tok -> cmd -> cmd -> Prop :=
| gredirs_nil c : gredirs [] c c
| gredirs_cons t w ts c c' : In (t_kind t) [60; 62; 43] -> t_kind w = 97 ->
    gredirs ts (redirect (t_kind t) c (t_q w) (t_eq w)) c' ->
    gredirs (t :: w :: ts) c c'.

(** Words with redirections after each; fewer than MAXARGS in all. *)
Inductive gargs : nat -> list tok -> cmd -> cmd -> Prop :=
| gargs_nil argc c : gargs argc [] c c
| gargs_cons argc w rs ts c c1 c' : t_kind w = 97 -> (S argc < MAXARGS)%nat ->
    gredirs rs (add_arg c (arg_of w)) c1 -> gargs (S argc) ts c1 c' ->
    gargs argc (w :: rs ++ ts) c c'.

Inductive gbacks : list tok -> cmd -> cmd -> Prop :=
| gbacks_nil c : gbacks [] c c
| gbacks_cons t ts c c' : t_kind t = 38 -> gbacks ts (backcmd c) c' -> gbacks (t :: ts) c c'.

Inductive level := LLine | LPipe | LExec.

(** line: pipe { & } [ ; line ]
    pipe: exec [ | pipe ]
    exec: ( line ) { redir } | { redir } { word { redir } } *)
Inductive derives : level -> list tok -> cmd -> Prop :=
| g_simple ts1 ts2 c1 c2 : gredirs ts1 execcmd c1 -> gargs 0 ts2 c1 c2 -> derives LExec (ts1 ++ ts2) c2
| g_block t1 ts t2 rs c c' : t_kind t1 = 40 -> derives LLine ts c -> t_kind t2 = 41 -> gredirs rs c c' ->
    derives LExec (t1 :: ts ++ t2 :: rs) c'
| g_exec ts c : derives LExec ts c -> derives LPipe ts c
| g_pipe ts1 c1 t ts2 c2 : derives LExec ts1 c1 -> t_kind t = 124 -> derives LPipe ts2 c2 ->
    derives LPipe (ts1 ++ t :: ts2) (pipecmd c1 c2)
| g_line ts c bs c' : derives LPipe ts c -> gbacks bs c c' -> derives LLine (ts ++ bs) c'
| g_list ts c bs c' t ts2 c2 : derives LPipe ts c -> gbacks bs c c' -> t_kind t = 59 -> derives LLine ts2 c2 ->
    derives LLine (ts ++ bs ++ t :: ts2) (listcmd c' c2).
#[export] Hint Constructors gredirs gargs gbacks derives : shell.

(** The tokens of a line from a position on. *)
Fixpoint toks_from (n : nat) (buf : list Z) (s : nat) : list tok :=
  match n with
  | O => []
  | S n =>
      let '(k, q, eq, s) := gettoken buf s in
      if k =? 0 then [] else Tok k q eq :: toks_from n buf s
  end.
Definition toks (buf : list Z) (s : nat) : list tok := toks_from (S (length buf - s)) buf s.

(** ** The tokenizer *)

Section lexer.
Context (buf : list Z) (Hbuf : Forall (fun c => c <> 0) buf).

Lemma ch_zero s : ch buf s = 0 <-> (length buf <= s)%nat.
Proof.
  unfold ch. split; [|apply nth_overflow]. intros H. destruct (le_lt_dec (length buf) s) as [?|Hs]; [done|].
  assert (nth s buf 0 <> 0); [|done]. rewrite Forall_forall in Hbuf. apply Hbuf, list_elem_of_In, nth_In, Hs.
Qed.

Lemma skip_while_ok p n : forall s, (length buf - s <= n)%nat ->
  let r := skip_while p buf n s in
  (s <= r)%nat /\ (r <= s \/ r <= length buf)%nat /\ (forall i, (s <= i < r)%nat -> p (ch buf i) = true) /\
  ((r < length buf)%nat -> p (ch buf r) = false).
Proof.
  induction n as [|n IH]; intros s Hn; cbn [skip_while]; [split_and!; try lia; intros; lia|].
  destruct ((s <? length buf)%nat && p (ch buf s)) eqn:E.
  - apply andb_true_iff in E as [Es Ep]. apply Nat.ltb_lt in Es.
    destruct (IH (S s) ltac:(lia)) as (H1 & H2 & H3 & H4). cbv zeta. split_and!; [lia|lia| |done].
    intros i Hi. destruct (decide (i = s)) as [->|]; [done|]. apply H3. lia.
  - apply andb_false_iff in E. cbv zeta. split_and!; [lia|lia|intros; lia|]. intros Hs. destruct E as [E|E]; [|done].
    apply Nat.ltb_ge in E. lia.
Qed.

Lemma skip_ok p s : let r := skip p buf s in
  (s <= r)%nat /\ (r <= s \/ r <= length buf)%nat /\ (forall i, (s <= i < r)%nat -> p (ch buf i) = true) /\
  ((r < length buf)%nat -> p (ch buf r) = false).
Proof. by apply skip_while_ok. Qed.

Lemma skip_stays p s : (length buf <= s)%nat \/ p (ch buf s) = false -> skip p buf s = s.
Proof.
  intros H. unfold skip. destruct (length buf - s)%nat eqn:E; [done|]. cbn [skip_while].
  destruct (p (ch buf s)); [|by rewrite andb_false_r]. destruct H as [H|H]; [lia|done].
Qed.

Lemma skip_skip p s : skip p buf (skip p buf s) = skip p buf s.
Proof.
  destruct (skip_ok p s) as (_ & _ & _ & H). apply skip_stays.
  destruct (le_lt_dec (length buf) (skip p buf s)); auto.
Qed.

Lemma gettoken_skip s : gettoken buf (skip (isin whitespace) buf s) = gettoken buf s.
Proof. unfold gettoken. by rewrite skip_skip. Qed.

Lemma isin_In l c : isin l c = true <-> In c l.
Proof.
  unfold isin. induction l as [|x l IH]; cbn [Ulib.strchr]; [done|]. destruct (x =? c) eqn:E.
  - apply Z.eqb_eq in E. simpl. tauto.
  - apply Z.eqb_neq in E. rewrite IH. simpl. tauto.
Qed.

Lemma isin_false l c : isin l c = false <-> ~ In c l.
Proof. rewrite <- isin_In. by destruct (isin l c). Qed.

(** What gettoken() returns: 0 at the end of the line, and otherwise a token that
    starts at its first character and is not empty. *)
Definition tok_ok (t : tok) : Prop :=
  (t_q t < t_eq t <= length buf)%nat /\
  (if t_kind t =? 97 then
     (forall i, (t_q t <= i < t_eq t)%nat -> isin whitespace (ch buf i) = false /\ isin symbols (ch buf i) = false) /\
     ((t_eq t < length buf)%nat -> isin whitespace (ch buf (t_eq t)) = true \/ isin symbols (ch buf (t_eq t)) = true)
   else
     In (t_kind t) [124; 40; 41; 59; 38; 60; 62; 43] /\ ch buf (t_q t) = if t_kind t =? 43 then 62 else t_kind t).

Lemma symbol_ok k q e : (q < e <= length buf)%nat -> In k [124; 40; 41; 59; 38; 60; 62; 43] ->
  ch buf q = (if k =? 43 then 62 else k) -> tok_ok (Tok k q e).
Proof.
  intros He Hk Hc. split; [done|]. cbn [t_kind t_q t_eq]. destruct (k =? 97) eqn:E; [|done].
  apply Z.eqb_eq in E. subst k. simpl in Hk. lia.
Qed.

Lemma gettoken_ok s k q e s' : gettoken buf s = (k, q, e, s') ->
  (k = 0 /\ (length buf <= q)%nat /\ q = skip (isin whitespace) buf s) \/
  (k <> 0 /\ (s <= q)%nat /\ q = skip (isin whitespace) buf s /\ tok_ok (Tok k q e) /\ (e <= s' <= length buf)%nat).
Proof.
  unfold gettoken. change (str "|();&<") with [124; 40; 41; 59; 38; 60]. pose proof (skip_ok (isin whitespace) s) as (Hq1 & Hq2 & _ & Hq4).
  set (q0 := skip (isin whitespace) buf s) in *. destruct (ch buf q0 =? 0) eqn:E0.
  { apply Z.eqb_eq in E0. intros [= <- <- <- <-]. left. rewrite E0. split; [done|]. split; [by apply ch_zero|done]. }
  apply Z.eqb_neq in E0. assert (q0 < length buf)%nat as Hlt by (destruct (le_lt_dec (length buf) q0) as [H%ch_zero|]; done).
  intros H. right.
  assert (forall e, (q0 < e <= length buf)%nat -> (e <= skip (isin whitespace) buf e <= length buf)%nat) as Hend.
  { intros e0 He. pose proof (skip_ok (isin whitespace) e0) as (? & ? & _). lia. }
  assert (k <> 0 /\ q = q0 /\ s' = skip (isin whitespace) buf e /\ tok_ok (Tok k q e)) as (Hk & -> & -> & Ht).
  2: { split; [done|]. split; [done|]. split; [done|]. split; [done|]. apply Hend, Ht. }
  destruct (isin [124; 40; 41; 59; 38; 60] (ch buf q0)) eqn:E1; [|destruct (ch buf q0 =? 62) eqn:E2].
  - injection H as <- <- <- <-. split_and!; try done. apply isin_In in E1. apply symbol_ok; [lia|simpl in E1 |- *; lia|].
    destruct (ch buf q0 =? 43) eqn:E43; [|done]. apply Z.eqb_eq in E43. rewrite E43 in E1. simpl in E1. lia.
  - apply Z.eqb_eq in E2. destruct (ch buf (S q0) =? 62) eqn:E3; injection H as <- <- <- <-.
    + apply Z.eqb_eq in E3. assert (S q0 < length buf)%nat by (destruct (le_lt_dec (length buf) (S q0)) as [H%ch_zero|]; [congruence|done]).
      split_and!; try done. apply symbol_ok; [lia|simpl; lia|done].
    + rewrite E2. split_and!; try done. apply symbol_ok; [lia|simpl; lia|done].
  - injection H as <- <- <- <-. set (p := fun c => negb (isin whitespace c) && negb (isin symbols c)) in *.
    assert (isin symbols (ch buf q0) = false) as Hs.
    { change symbols with [60; 124; 62; 38; 59; 40; 41]. apply isin_false. apply isin_false in E1. apply Z.eqb_neq in E2. simpl in E1 |- *. lia. }
    pose proof (Hq4 Hlt) as Hw. assert (p (ch buf q0) = true) as Hp by (unfold p; by rewrite Hw, Hs).
    pose proof (skip_ok p q0) as (H1 & H2 & H3 & H4).
    assert (skip p buf q0 <> q0) by (intros Heq; rewrite Heq in H4; specialize (H4 Hlt); congruence).
    split_and!; try done. split; cbn [t_kind t_q t_eq Z.eqb Pos.eqb]; [lia|]. split.
    + intros i Hi. specialize (H3 i Hi). unfold p in H3. apply andb_true_iff in H3 as [? ?]. by rewrite <- !negb_true_iff.
    + intros Hl. specialize (H4 Hl). unfold p in H4. apply andb_false_iff in H4 as [?|?]; [left|right]; by apply negb_false_iff.
Qed.

Lemma toks_from_more : forall n m s, (length buf - s < n)%nat -> (length buf - s < m)%nat -> toks_from n buf s = toks_from m buf s.
Proof.
  induction n as [|n IH]; intros [|m] s Hn Hm; try lia. cbn [toks_from].
  destruct (gettoken buf s) as [[[k q] e] s'] eqn:E. apply gettoken_ok in E as [(-> & _)|(Hk & Hsq & _ & [Ht _] & He)]; [done|].
  rewrite (proj2 (Z.eqb_neq k 0)) by done. cbn [t_q t_eq] in Ht. f_equal. apply IH; lia.
Qed.

Lemma toks_eq s : toks buf s =
  let '(k, q, e, s') := gettoken buf s in if k =? 0 then [] else Tok k q e :: toks buf s'.
Proof.
  unfold toks at 1. cbn [toks_from]. destruct (gettoken buf s) as [[[k q] e] s'] eqn:E.
  apply gettoken_ok in E as [(-> & _)|(Hk & Hsq & _ & [Ht _] & He)]; [done|].
  rewrite (proj2 (Z.eqb_neq k 0)) by done. cbn [t_q t_eq] in Ht. f_equal. apply toks_from_more; lia.
Qed.

Lemma toks_skip s : toks buf (skip (isin whitespace) buf s) = toks buf s.
Proof. rewrite toks_eq, gettoken_skip. by rewrite toks_eq. Qed.

Lemma get_nil s : toks buf s = [] -> exists q e s', gettoken buf s = (0, q, e, s') /\ toks buf s' = [].
Proof.
  intros H. destruct (gettoken buf s) as [[[k q] e] s'] eqn:E. pose proof E as E'.
  apply gettoken_ok in E as [(-> & Hq & ->)|(Hk & _)].
  - eexists _, _, _. split; [done|]. unfold gettoken in E'. rewrite (proj2 (ch_zero _) Hq) in E'.
    cbn [Z.eqb] in E'. injection E' as _ <-. by rewrite !toks_skip.
  - rewrite toks_eq, E', (proj2 (Z.eqb_neq k 0)) in H by done. done.
Qed.

Lemma get_cons s t ts : toks buf s = t :: ts ->
  exists s', gettoken buf s = (t_kind t, t_q t, t_eq t, s') /\ toks buf s' = ts /\ tok_ok t /\
    (t_eq t <= s')%nat /\ (s <= t_q t)%nat.
Proof.
  rewrite toks_eq. destruct (gettoken buf s) as [[[k q] e] s'] eqn:E.
  apply gettoken_ok in E as [(-> & _)|(Hk & ? & _ & ? & ?)]; [done|]. rewrite (proj2 (Z.eqb_neq k 0)) by done.
  intros [= <- <-]. exists s'. split_and!; [done..|simpl; lia|done].
Qed.

Lemma toks_length s : (length (toks buf s) <= length buf)%nat.
Proof.
  enough (forall n s, (length (toks_from n buf s) <= length buf - s)%nat) as H by (etransitivity; [apply H|]; lia).
  clear s. induction n as [|n IH]; intros s; cbn [toks_from]; [simpl; lia|].
  destruct (gettoken buf s) as [[[k q] e] s'] eqn:E.
  apply gettoken_ok in E as [(-> & _)|(Hk & ? & _ & [Ht _] & ?)]; [simpl; lia|]. cbn [t_q t_eq] in Ht.
  rewrite (proj2 (Z.eqb_neq k 0)) by done. cbn [length]. specialize (IH s'). lia.
Qed.

(** Whether the first token starts with one of some symbols. *)
Definition starts (cs : list Z) (ts : list tok) : bool :=
  match ts with
  | t :: _ => negb (t_kind t =? 97) && isin cs (if t_kind t =? 43 then 62 else t_kind t)
  | [] => false
  end.

Lemma peek_ok s cs : (forall c, In c cs -> In c symbols) ->
  peek buf s cs = (starts cs (toks buf s), skip (isin whitespace) buf s).
Proof.
  intros Hcs. unfold peek. f_equal. rewrite toks_eq. destruct (gettoken buf s) as [[[k q] e] s'] eqn:E.
  apply gettoken_ok in E as [(-> & Hq & ->)|(Hk & _ & -> & [Hlt Ht] & _)].
  - by rewrite (proj2 (ch_zero _) Hq).
  - rewrite (proj2 (Z.eqb_neq k 0)) by done. cbn [starts t_kind t_q t_eq] in *. destruct (k =? 97).
    + cbn [negb andb]. apply andb_false_iff. right. apply isin_false. intros Hin%Hcs%isin_In.
      destruct Ht as [Ht _]. destruct (Ht _ (conj (Nat.le_refl _) (proj1 Hlt))) as [_ ?]. congruence.
    + destruct Ht as [Hin ->]. cbn [negb andb]. rewrite (proj2 (Z.eqb_neq _ 0)); [done|]. destruct (k =? 43); [lia|done].
Qed.

Lemma peek_run s cs : forallb (isin symbols) cs = true ->
  exists s1, peek buf s cs = (starts cs (toks buf s), s1) /\ toks buf s1 = toks buf s.
Proof.
  intros Hcs. eexists. split; [|apply toks_skip]. apply peek_ok. intros c Hc.
  rewrite forallb_forall in Hcs. by apply isin_In, Hcs.
Qed.

Lemma kind_nonzero t : tok_ok t -> (t_kind t =? 0) = false.
Proof.
  intros [_ H]. apply Z.eqb_neq. intros E. rewrite E in H. cbn [Z.eqb] in H. destruct H as [H _]. simpl in H. lia.
Qed.

(** ** The parser *)

Notation T := (toks buf).

Lemma redirs_run : forall n c s, (length (T s) < n)%nat ->
  match parseredirs n buf c s with
  | POk (c', s') => exists ts, T s = ts ++ T s' /\ gredirs ts c c'
  | PPanic _ => True
  | PFuel => False
  end.
Proof.
  induction n as [|n IH]; intros c s Hn; [lia|]. cbn [parseredirs].
  destruct (peek_run s (str "<>") eq_refl) as (s1 & -> & E1). rewrite <- E1 in *.
  destruct (starts (str "<>") (T s1)) eqn:Eb; [|exists []; auto with shell].
  destruct (T s1) as [|t ts] eqn:Et; [done|]. destruct (get_cons _ _ _ Et) as (s2 & -> & Es2 & _).
  destruct ts as [|w ts].
  - destruct (get_nil s2 Es2) as (q & e & s3 & -> & _). done.
  - destruct (get_cons _ _ _ Es2) as (s3 & -> & Es3 & _). destruct (t_kind w =? 97) eqn:Ew; [|done]. cbn [negb].
    apply Z.eqb_eq in Ew. cbn [length] in Hn. specialize (IH (redirect (t_kind t) c (t_q w) (t_eq w)) s3).
    rewrite Es3 in IH. specialize (IH ltac:(lia)). destruct (parseredirs _ _ _ s3) as [[c' s']| |]; [|done..].
    destruct IH as (ts' & -> & Hg). exists (t :: w :: ts'). split; [done|]. constructor; [|done..].
    cbn [starts] in Eb. apply andb_true_iff in Eb as [_ Eb]. apply isin_In in Eb. change (str "<>") with [60; 62] in Eb. destruct (t_kind t =? 43) eqn:E43; [|simpl in *; lia].
    apply Z.eqb_eq in E43. rewrite E43. simpl. lia.
Qed.

Lemma redirs_complete ts c c' : gredirs ts c c' -> forall n s rest, T s = ts ++ rest -> starts (str "<>") rest = false ->
  (length (T s) < n)%nat -> exists s', parseredirs n buf c s = POk (c', s') /\ T s' = rest.
Proof.
  induction 1 as [c|t w ts c c' Ht Hw Hg IH]; intros [|n] s rest Es Hr Hn; try lia; cbn [parseredirs];
    destruct (peek_run s (str "<>") eq_refl) as (s1 & -> & E1); rewrite <- E1 in *.
  - rewrite Es. cbn [app]. rewrite Hr. by exists s1.
  - cbn [app] in Es. rewrite Es. assert (starts (str "<>") (t :: w :: ts ++ rest) = true) as ->.
    { cbn [starts]. simpl in Ht. destruct Ht as [<-|[<-|[<-|[]]]]; done. }
    destruct (get_cons _ _ _ Es) as (s2 & -> & Es2 & _). destruct (get_cons _ _ _ Es2) as (s3 & -> & Es3 & _).
    rewrite Hw. cbn [negb Z.eqb Pos.eqb]. apply IH; [done..|]. rewrite Es in Hn. rewrite Es3. cbn [length] in Hn. lia.
Qed.

Lemma args_run : forall n argc c s, (length (T s) < n)%nat ->
  match parseargs n buf argc c s with
  | POk (c', s') => exists ts, T s = ts ++ T s' /\ gargs argc ts c c'
  | PPanic _ => True
  | PFuel => False
  end.
Proof.
  induction n as [|n IH]; intros argc c s Hn; [lia|]. cbn [parseargs].
  destruct (peek_run s (str "|)&;") eq_refl) as (s1 & -> & E1). rewrite <- E1 in *.
  destruct (starts (str "|)&;") (T s1)); [exists []; auto with shell|].
  destruct (T s1) as [|w ts] eqn:Et.
  - destruct (get_nil s1 Et) as (q & e & s2 & -> & Es2). exists []. rewrite Es2. auto with shell.
  - destruct (get_cons _ _ _ Et) as (s2 & -> & Es2 & Hok & _). rewrite (kind_nonzero w Hok).
    destruct (t_kind w =? 97) eqn:Ew; [|done]. apply Z.eqb_eq in Ew. cbn [negb].
    destruct (MAXARGS <=? S argc)%nat eqn:Em; [done|]. apply Nat.leb_gt in Em.
    pose proof (redirs_run (S (length buf)) (add_arg c (t_q w, t_eq w)) s2) as Hr.
    pose proof (toks_length s2) as Hl. specialize (Hr ltac:(lia)). unfold mbind, pres_bind.
    destruct (parseredirs _ _ _ s2) as [[c1 s3]| |]; [|done..]. destruct Hr as (rs & Hrs & Hg).
    rewrite Es2 in Hrs. rewrite Hrs in Hn |- *. specialize (IH (S argc) c1 s3). cbn [length] in Hn. rewrite length_app in Hn.
    specialize (IH ltac:(lia)). destruct (parseargs n buf (S argc) c1 s3) as [[c' s']| |]; [|done..].
    destruct IH as (ts' & -> & Hga). exists (w :: rs ++ ts'). split; [by cbn [app]; rewrite app_assoc|]. by econstructor.
Qed.
(** What may follow a phrase: the end of the line, or one of some symbols. *)
Definition follow (cs : list Z) (rest : list tok) : Prop := rest = [] \/ starts cs rest = true.

Lemma follow_not cs ds rest : forallb (fun c => negb (isin ds c)) cs = true -> follow cs rest -> starts ds rest = false.
Proof.
  intros Hd [->|H]; [done|]. destruct rest as [|t rest]; [done|]. cbn [starts] in *. apply andb_true_iff in H as [-> H].
  rewrite forallb_forall in Hd. apply isin_In, Hd, negb_true_iff in H. by rewrite H.
Qed.

Lemma starts_word cs w ts : t_kind w = 97 -> starts cs (w :: ts) = false.
Proof. intros H. cbn [starts]. by rewrite H. Qed.

Lemma starts_sym k cs t ts : t_kind t = k -> negb (k =? 97) && isin cs (if k =? 43 then 62 else k) = true -> starts cs (t :: ts) = true.
Proof. by intros <-. Qed.

(** One symbol determines the kind of the token. *)
Lemma starts_kind k cs t ts : cs = [k] -> k <> 62 -> starts cs (t :: ts) = true -> t_kind t = k.
Proof.
  intros -> Hk. cbn [starts]. intros [_ H]%andb_true_iff. apply isin_In in H. destruct (t_kind t =? 43); simpl in H; lia.
Qed.

Lemma args_first argc ts c c' rest cs : gargs argc ts c c' -> starts cs rest = false -> starts cs (ts ++ rest) = false.
Proof. intros [? ?|? w rs ts' ? ? ? Hw _ _ _] Hr; [done|]. by apply starts_word. Qed.

Lemma args_complete argc ts c c' : gargs argc ts c c' -> forall n s rest, T s = ts ++ rest -> follow (str "|)&;") rest ->
  (length (T s) < n)%nat -> exists s', parseargs n buf argc c s = POk (c', s') /\ T s' = rest.
Proof.
  induction 1 as [argc c|argc w rs ts c c1 c' Hw Hlt Hrs Hg IH]; intros [|n] s rest Es Hr Hn; try lia; cbn [parseargs];
    destruct (peek_run s (str "|)&;") eq_refl) as (s1 & -> & E1); rewrite <- E1 in *.
  - cbn [app] in Es. rewrite Es. destruct Hr as [->| ->]; [|by exists s1].
    destruct (get_nil s1 Es) as (q & e & s2 & -> & Es2). by exists s2.
  - cbn [app] in Es. rewrite Es, starts_word by done. destruct (get_cons _ _ _ Es) as (s2 & -> & Es2 & Hok & _).
    rewrite (kind_nonzero w Hok), Hw. cbn [negb Z.eqb Pos.eqb]. rewrite (proj2 (Nat.leb_gt _ _) Hlt).
    rewrite <- app_assoc in Es2. pose proof (toks_length s2).
    destruct (redirs_complete rs _ _ Hrs (S (length buf)) s2 (ts ++ rest)) as (s3 & E3 & Es3);
      [done|by apply (args_first (S argc) ts c1 c'), (follow_not (str "|)&;"))|lia|].
    unfold arg_of in E3. unfold mbind, pres_bind. rewrite E3. apply IH; [done..|].
    rewrite Es in Hn. rewrite Es3. cbn [length] in Hn. rewrite !length_app in Hn. rewrite length_app. lia.
Qed.

Lemma backs_run : forall n c s, (length (T s) < n)%nat ->
  match parsebacks n buf c s with
  | POk (c', s') => exists ts, T s = ts ++ T s' /\ gbacks ts c c'
  | PPanic _ => True
  | PFuel => False
  end.
Proof.
  induction n as [|n IH]; intros c s Hn; [lia|]. cbn [parsebacks].
  destruct (peek_run s (str "&") eq_refl) as (s1 & -> & E1). rewrite <- E1 in *.
  destruct (starts (str "&") (T s1)) eqn:Eb; [|exists []; auto with shell].
  destruct (T s1) as [|t ts] eqn:Et; [done|]. destruct (get_cons _ _ _ Et) as (s2 & -> & Es2 & _).
  cbn [length] in Hn. specialize (IH (backcmd c) s2). rewrite Es2 in IH. specialize (IH ltac:(lia)).
  destruct (parsebacks n buf (backcmd c) s2) as [[c' s']| |]; [|done..]. destruct IH as (ts' & -> & Hg).
  exists (t :: ts'). split; [done|]. constructor; [|done]. by apply (starts_kind 38 (str "&") t (ts' ++ T s')).
Qed.

Lemma backs_complete ts c c' : gbacks ts c c' -> forall n s rest, T s = ts ++ rest -> starts (str "&") rest = false ->
  (length (T s) < n)%nat -> exists s', parsebacks n buf c s = POk (c', s') /\ T s' = rest.
Proof.
  induction 1 as [c|t ts c c' Ht Hg IH]; intros [|n] s rest Es Hr Hn; try lia; cbn [parsebacks];
    destruct (peek_run s (str "&") eq_refl) as (s1 & -> & E1); rewrite <- E1 in *.
  - rewrite Es. cbn [app]. rewrite Hr. by exists s1.
  - cbn [app] in Es. rewrite Es. rewrite (starts_sym 38) by done. destruct (get_cons _ _ _ Es) as (s2 & -> & Es2 & _).
    apply IH; [done..|]. rewrite Es in Hn. rewrite Es2. cbn [length] in Hn. lia.
Qed.
(** A result of the parser: a phrase of the grammar was read, or panic() called. *)
Definition parsed (l : level) (s : nat) (r : pres (cmd * nat)) : Prop :=
  match r with
  | POk (c, s') => exists ts, T s = ts ++ T s' /\ derives l ts c
  | PPanic _ => True
  | PFuel => False
  end.

Definition fuel_for (k s : nat) : nat := (4 * length (T s) + k)%nat.

Lemma toks_after s t ts s' : T s = ts ++ t :: T s' -> (S (length (T s')) <= length (T s))%nat.
Proof. intros ->. rewrite length_app. cbn [length]. lia. Qed.

Section step.
Context (n : nat).
Context (line_ok : forall s, (fuel_for 4 s <= n)%nat -> parsed LLine s (parseline n buf s)).
Context (pipe_ok : forall s, (fuel_for 3 s <= n)%nat -> parsed LPipe s (parsepipe n buf s)).
Context (exec_ok : forall s, (fuel_for 2 s <= n)%nat -> parsed LExec s (parseexec n buf s)).
Context (block_ok : forall s, (fuel_for 1 s <= n)%nat -> starts (str "(") (T s) = true -> parsed LExec s (parseblock n buf s)).

Lemma line_step s : (fuel_for 4 s <= S n)%nat -> parsed LLine s (parseline (S n) buf s).
Proof.
  unfold fuel_for. intros Hn. cbn [parseline]. specialize (pipe_ok s ltac:(unfold fuel_for; lia)). unfold mbind, pres_bind.
  destruct (parsepipe n buf s) as [[c s1]| |]; [|done..]. destruct pipe_ok as (ts & E1 & Hp).
  pose proof (backs_run (S (length buf)) c s1) as Hb. pose proof (toks_length s1). specialize (Hb ltac:(lia)).
  destruct (parsebacks _ buf c s1) as [[c' s2]| |]; [|done..]. destruct Hb as (bs & E2 & Hb).
  destruct (peek_run s2 (str ";") eq_refl) as (s3 & -> & E3). rewrite <- E3 in *. destruct (starts (str ";") (T s3)) eqn:Es.
  - destruct (T s3) as [|t ts2] eqn:Et; [done|]. destruct (get_cons _ _ _ Et) as (s4 & -> & E4 & _).
    assert (T s = (ts ++ bs) ++ t :: T s4) as Eall by (rewrite E1, E2, E4; by rewrite <- app_assoc).
    pose proof (toks_after _ _ _ _ Eall). specialize (line_ok s4 ltac:(unfold fuel_for; lia)).
    destruct (parseline n buf s4) as [[c2 s5]| |]; [|done..]. destruct line_ok as (ts3 & E5 & Hl).
    exists (ts ++ bs ++ t :: ts3). split.
    + rewrite Eall, E5. rewrite <- !app_assoc. done.
    + constructor 6 with c; [done..| |done]. by apply (starts_kind 59 (str ";") t ts2).
  - exists (ts ++ bs). rewrite E1, E2, <- app_assoc. eauto with shell.
Qed.

Lemma pipe_step s : (fuel_for 3 s <= S n)%nat -> parsed LPipe s (parsepipe (S n) buf s).
Proof.
  unfold fuel_for. intros Hn. cbn [parsepipe]. specialize (exec_ok s ltac:(unfold fuel_for; lia)). unfold mbind, pres_bind.
  destruct (parseexec n buf s) as [[c s1]| |]; [|done..]. destruct exec_ok as (ts & E1 & He).
  destruct (peek_run s1 (str "|") eq_refl) as (s3 & -> & E3). rewrite <- E3 in *. destruct (starts (str "|") (T s3)) eqn:Es.
  - destruct (T s3) as [|t ts2] eqn:Et; [done|]. destruct (get_cons _ _ _ Et) as (s4 & -> & E4 & _). rewrite <- E4 in E1.
    pose proof (toks_after _ _ _ _ E1). specialize (pipe_ok s4 ltac:(unfold fuel_for; lia)).
    destruct (parsepipe n buf s4) as [[c2 s5]| |]; [|done..]. destruct pipe_ok as (ts3 & E5 & Hp).
    exists (ts ++ t :: ts3). split; [rewrite E1, E5, <- app_assoc; done|].
    constructor; [done| |done]. by apply (starts_kind 124 (str "|") t ts2).
  - exists ts. eauto with shell.
Qed.

Lemma exec_step s : (fuel_for 2 s <= S n)%nat -> parsed LExec s (parseexec (S n) buf s).
Proof.
  unfold fuel_for. intros Hn. cbn [parseexec]. destruct (peek_run s (str "(") eq_refl) as (s1 & -> & E1).
  destruct (starts (str "(") (T s)) eqn:Es.
  - specialize (block_ok s1). unfold fuel_for, parsed in *. rewrite E1 in block_ok. apply block_ok; [lia|done].
  - unfold mbind, pres_bind. pose proof (redirs_run (S (length buf)) execcmd s1) as Hr. pose proof (toks_length s1).
    specialize (Hr ltac:(lia)). destruct (parseredirs _ buf _ s1) as [[c s2]| |]; [|done..]. destruct Hr as (rs & E2 & Hr).
    pose proof (args_run (S (length buf)) 0 c s2) as Ha. pose proof (toks_length s2). specialize (Ha ltac:(lia)).
    destruct (parseargs _ buf 0 c s2) as [[c' s3]| |]; [|done..]. destruct Ha as (ts & E3 & Ha).
    exists (rs ++ ts). rewrite <- E1, E2, E3, <- app_assoc. eauto with shell.
Qed.

Lemma block_step s : (fuel_for 1 s <= S n)%nat -> starts (str "(") (T s) = true -> parsed LExec s (parseblock (S n) buf s).
Proof.
  unfold fuel_for. intros Hn Hs. cbn [parseblock]. destruct (peek_run s (str "(") eq_refl) as (s1 & -> & E1). rewrite Hs. cbn [negb].
  rewrite <- E1 in *. destruct (T s1) as [|t ts1] eqn:Et; [done|]. destruct (get_cons _ _ _ Et) as (s2 & -> & E2 & _).
  cbn [length] in Hn. specialize (line_ok s2 ltac:(unfold fuel_for; rewrite E2; lia)). unfold mbind, pres_bind.
  destruct (parseline n buf s2) as [[c s3]| |]; [|done..]. destruct line_ok as (ts & E3 & Hl).
  destruct (peek_run s3 (str ")") eq_refl) as (s4 & -> & E4). rewrite <- E4 in *.
  destruct (starts (str ")") (T s4)) eqn:Es; [|done]. cbn [negb].
  destruct (T s4) as [|t2 ts2] eqn:Et2; [done|]. destruct (get_cons _ _ _ Et2) as (s5 & -> & E5 & _).
  pose proof (redirs_run (S (length buf)) c s5) as Hr. pose proof (toks_length s5).
  specialize (Hr ltac:(lia)). destruct (parseredirs _ buf c s5) as [[c' s6]| |]; [|done..]. destruct Hr as (rs & E6 & Hr).
  exists (t :: ts ++ t2 :: rs). split.
  - rewrite <- E1. rewrite <- E2, E3, <- E5, E6. cbn [app]. by rewrite <- app_assoc.
  - apply g_block with c; [|done| |done].
    + by apply (starts_kind 40 (str "(") t ts1).
    + by apply (starts_kind 41 (str ")") t2 ts2).
Qed.
End step.

Lemma parser_run n :
  (forall s, (fuel_for 4 s <= n)%nat -> parsed LLine s (parseline n buf s)) /\
  (forall s, (fuel_for 3 s <= n)%nat -> parsed LPipe s (parsepipe n buf s)) /\
  (forall s, (fuel_for 2 s <= n)%nat -> parsed LExec s (parseexec n buf s)) /\
  (forall s, (fuel_for 1 s <= n)%nat -> starts (str "(") (T s) = true -> parsed LExec s (parseblock n buf s)).
Proof.
  induction n as [|n (IHl & IHp & IHe & IHb)]; [unfold fuel_for; split_and!; intros; lia|].
  split_and!; intros s; auto using line_step, pipe_step, exec_step, block_step.
Qed.
Definition parser (l : level) : nat -> list Z -> nat -> pres (cmd * nat) :=
  match l with LLine => parseline | LPipe => parsepipe | LExec => parseexec end.
Definition level_fuel (l : level) : nat := match l with LLine => 4 | LPipe => 3 | LExec => 2 end.
Definition follows (l : level) : list Z := str (match l with LLine => ")" | LPipe => ")&;" | LExec => "|)&;" end).

Lemma follow_mono cs ds rest : forallb (isin ds) cs = true -> follow cs rest -> follow ds rest.
Proof.
  intros Hd [->|H]; [by left|]. right. destruct rest as [|t rest]; [done|]. cbn [starts] in *. apply andb_true_iff in H as [-> H].
  rewrite forallb_forall in Hd. by apply isin_In, Hd in H.
Qed.

Lemma redirs_first ts c c' rest : gredirs ts c c' -> starts (str "(") rest = false -> starts (str "(") (ts ++ rest) = false.
Proof.
  intros [?|t w ts' ? ? Ht _ _] Hr; [done|]. cbn [app starts]. simpl in Ht. by destruct Ht as [<-|[<-|[<-|[]]]].
Qed.

Lemma backs_first bs c c' rest : gbacks bs c c' -> follow (str ");") rest -> follow (follows LPipe) (bs ++ rest).
Proof.
  intros [?|t bs' ? ? Ht _] Hr; cbn [app]; [by apply (follow_mono (str ");"))|]. right. by apply (starts_sym 38).
Qed.

(** Every phrase of the grammar that ends where it may end is parsed, and to the
    tree that the grammar gives it. *)
Definition accepted (l : level) (ts : list tok) (c : cmd) : Prop := forall n s rest,
  T s = ts ++ rest -> follow (follows l) rest -> (fuel_for (level_fuel l) s <= n)%nat ->
  exists s', parser l n buf s = POk (c, s') /\ T s' = rest.

Lemma simple_accepted ts1 ts2 c1 c2 : gredirs ts1 execcmd c1 -> gargs 0 ts2 c1 c2 -> accepted LExec (ts1 ++ ts2) c2.
Proof.
  unfold accepted, fuel_for. intros Hr Ha [|n] s rest Es Hf Hn; [simpl in Hn; lia|]. cbn [parser parseexec].
  destruct (peek_run s (str "(") eq_refl) as (s1 & -> & E1). rewrite <- E1 in *. rewrite <- app_assoc in Es. rewrite Es.
  assert (forall cs, forallb (fun c => negb (isin cs c)) (follows LExec) = true -> starts cs (ts2 ++ rest) = false) as Hs.
  { intros cs Hcs. eapply args_first; [done|]. by apply (follow_not (follows LExec)). }
  rewrite (redirs_first _ _ _ _ Hr (Hs (str "(") eq_refl)). pose proof (toks_length s1). unfold mbind, pres_bind.
  destruct (redirs_complete ts1 _ _ Hr (S (length buf)) s1 (ts2 ++ rest)) as (s2 & -> & Es2);
    [done|by apply Hs|lia|].
  pose proof (toks_length s2). by apply (args_complete 0 ts2 c1 c2); [| | |lia].
Qed.

Lemma block_accepted t1 ts t2 rs c c' : t_kind t1 = 40 -> accepted LLine ts c -> t_kind t2 = 41 -> gredirs rs c c' ->
  accepted LExec (t1 :: ts ++ t2 :: rs) c'.
Proof.
  unfold accepted, fuel_for. intros Ht1 IH Ht2 Hr n s rest Es Hf Hn. cbn [level_fuel] in *.
  destruct n as [|[|n]]; [lia|rewrite Es in Hn; simpl in Hn; lia|]. cbn [parser parseexec].
  destruct (peek_run s (str "(") eq_refl) as (s1 & -> & E1). rewrite <- E1 in *. cbn [app] in Es. rewrite <- app_assoc in Es. cbn [app] in Es.
  rewrite Es, (starts_sym 40) by done. cbn [parseblock].
  destruct (peek_run s1 (str "(") eq_refl) as (s1' & -> & E1'). rewrite <- E1' in *. rewrite Es, (starts_sym 40) by done. cbn [negb].
  destruct (get_cons _ _ _ Es) as (s2 & -> & Es2 & _). unfold mbind, pres_bind.
  destruct (IH n s2 (t2 :: rs ++ rest)) as (s3 & E3 & Es3); [done|right; by apply (starts_sym 41)|rewrite Es in Hn; rewrite Es2; simpl in *; lia|].
  cbn [parser] in E3. rewrite E3. destruct (peek_run s3 (str ")") eq_refl) as (s4 & -> & E4). rewrite <- E4 in *.
  rewrite Es3, (starts_sym 41) by done. cbn [negb]. destruct (get_cons _ _ _ Es3) as (s5 & -> & Es5 & _).
  pose proof (toks_length s5). by apply (redirs_complete rs c c'); [|done|apply (follow_not (follows LExec))|lia].
Qed.

Lemma pipe_accepted ts1 c1 t ts2 c2 : accepted LExec ts1 c1 -> t_kind t = 124 -> accepted LPipe ts2 c2 ->
  accepted LPipe (ts1 ++ t :: ts2) (pipecmd c1 c2).
Proof.
  unfold accepted, fuel_for. intros IH1 Ht IH2 [|n] s rest Es Hf Hn; cbn [level_fuel parser] in *; [lia|]. cbn [parsepipe].
  rewrite <- app_assoc in Es. cbn [app] in Es. unfold mbind, pres_bind.
  destruct (IH1 n s (t :: ts2 ++ rest)) as (s1 & -> & E1); [done|right; by apply (starts_sym 124)|lia|].
  destruct (peek_run s1 (str "|") eq_refl) as (s2 & -> & E2). rewrite <- E2 in *. rewrite E1, (starts_sym 124) by done.
  destruct (get_cons _ _ _ E1) as (s3 & -> & E3 & _). rewrite <- E3 in Es. pose proof (toks_after _ _ _ _ Es).
  destruct (IH2 n s3 rest) as (s4 & -> & E4); [done|done|lia|]. by exists s4.
Qed.

Lemma exec_accepted ts c : accepted LExec ts c -> accepted LPipe ts c.
Proof.
  unfold accepted, fuel_for. intros IH [|n] s rest Es Hf Hn; cbn [level_fuel parser] in *; [lia|]. cbn [parsepipe].
  unfold mbind, pres_bind. destruct (IH n s rest) as (s1 & -> & E1); [done|by apply (follow_mono (follows LPipe))|lia|].
  destruct (peek_run s1 (str "|") eq_refl) as (s2 & -> & E2). rewrite E1, (follow_not (follows LPipe)) by done.
  exists s2. by rewrite E2.
Qed.

Lemma line_accepted ts c bs c' : accepted LPipe ts c -> gbacks bs c c' -> accepted LLine (ts ++ bs) c'.
Proof.
  unfold accepted, fuel_for. intros IH Hb [|n] s rest Es Hf Hn; cbn [level_fuel parser] in *; [lia|]. cbn [parseline].
  rewrite <- app_assoc in Es. unfold mbind, pres_bind.
  destruct (IH n s (bs ++ rest)) as (s1 & -> & E1); [done|eapply backs_first; [done|by apply (follow_mono (follows LLine))]|lia|].
  pose proof (toks_length s1). destruct (backs_complete bs c c' Hb (S (length buf)) s1 rest) as (s2 & -> & E2);
    [done|by apply (follow_not (follows LLine))|lia|].
  destruct (peek_run s2 (str ";") eq_refl) as (s3 & -> & E3). rewrite E2, (follow_not (follows LLine)) by done.
  exists s3. by rewrite E3.
Qed.

Lemma list_accepted ts c bs c' t ts2 c2 : accepted LPipe ts c -> gbacks bs c c' -> t_kind t = 59 -> accepted LLine ts2 c2 ->
  accepted LLine (ts ++ bs ++ t :: ts2) (listcmd c' c2).
Proof.
  unfold accepted, fuel_for. intros IH Hb Ht IH2 [|n] s rest Es Hf Hn; cbn [level_fuel parser] in *; [lia|]. cbn [parseline].
  rewrite <- !app_assoc in Es. cbn [app] in Es. unfold mbind, pres_bind.
  destruct (IH n s (bs ++ t :: ts2 ++ rest)) as (s1 & -> & E1); [done|eapply backs_first; [done|right; by apply (starts_sym 59)]|lia|].
  pose proof (toks_length s1). destruct (backs_complete bs c c' Hb (S (length buf)) s1 (t :: ts2 ++ rest)) as (s2 & -> & E2);
    [done|cbn [starts]; by rewrite Ht|lia|].
  destruct (peek_run s2 (str ";") eq_refl) as (s3 & -> & E3). rewrite <- E3 in *. rewrite E2, (starts_sym 59) by done.
  destruct (get_cons _ _ _ E2) as (s4 & -> & E4 & _). rewrite <- E4, app_assoc in Es. pose proof (toks_after _ _ _ _ Es).
  destruct (IH2 n s4 rest) as (s5 & -> & E5); [done|done|lia|]. by exists s5.
Qed.

Lemma derives_accepted l ts c : derives l ts c -> accepted l ts c.
Proof.
  induction 1; eauto using simple_accepted, block_accepted, exec_accepted, pipe_accepted, line_accepted, list_accepted.
Qed.

(** *** Positions stay inside the line *)

Definition inside (r : pres (cmd * nat)) : Prop := match r with POk (_, s) => (s <= length buf)%nat | _ => True end.

Lemma skip_inside p s : (s <= length buf)%nat -> (skip p buf s <= length buf)%nat.
Proof. intros Hs. pose proof (skip_ok p s) as (_ & H & _). lia. Qed.

Lemma peek_inside s cs b s' : peek buf s cs = (b, s') -> (s <= length buf)%nat -> (s' <= length buf)%nat.
Proof. intros [= _ <-]. apply skip_inside. Qed.

Lemma gettoken_inside s k q e s' : gettoken buf s = (k, q, e, s') -> (s <= length buf)%nat -> (s' <= length buf)%nat.
Proof.
  intros E Hs. pose proof E as E'. apply gettoken_ok in E as [(-> & Hq & ->)|(_ & _ & _ & _ & ?)]; [|lia].
  unfold gettoken in E'. rewrite (proj2 (ch_zero _) Hq) in E'. cbn [Z.eqb] in E'. injection E' as _ <-. by apply skip_inside, skip_inside.
Qed.

Lemma bind_inside (m : pres (cmd * nat)) f : inside m -> (forall c s, (s <= length buf)%nat -> inside (f (c, s))) -> inside (m ≫= f).
Proof. intros Hm Hf. destruct m as [[c s]| |]; [by apply Hf|done..]. Qed.

Ltac inside_step :=
  match goal with
  | |- inside (match peek buf ?s ?cs with _ => _ end) => let E := fresh in destruct (peek buf s cs) eqn:E; apply peek_inside in E; [|done]
  | |- inside (match gettoken buf ?s with _ => _ end) =>
      let E := fresh in destruct (gettoken buf s) as [[[? ?] ?] ?] eqn:E; apply gettoken_inside in E; [|done]
  | |- inside (if ?b then _ else _) => destruct b
  | |- inside (_ ≫= _) => apply bind_inside; [|intros]
  | |- inside _ => done
  end.

Lemma redirs_inside n : forall c s, (s <= length buf)%nat -> inside (parseredirs n buf c s).
Proof. induction n as [|n IH]; intros c s Hs; cbn [parseredirs]; [done|]. repeat inside_step; eauto. Qed.

Lemma backs_inside n : forall c s, (s <= length buf)%nat -> inside (parsebacks n buf c s).
Proof. induction n as [|n IH]; intros c s Hs; cbn [parsebacks]; [done|]. repeat inside_step; eauto. Qed.

Lemma args_inside n : forall argc c s, (s <= length buf)%nat -> inside (parseargs n buf argc c s).
Proof. induction n as [|n IH]; intros argc c s Hs; cbn [parseargs]; [done|]. repeat inside_step; eauto using redirs_inside. Qed.

Lemma parser_inside n : (forall s, (s <= length buf)%nat -> inside (parseline n buf s)) /\
  (forall s, (s <= length buf)%nat -> inside (parsepipe n buf s)) /\
  (forall s, (s <= length buf)%nat -> inside (parseexec n buf s)) /\
  (forall s, (s <= length buf)%nat -> inside (parseblock n buf s)).
Proof.
  induction n as [|n (IHl & IHp & IHe & IHb)]; [done|].
  split_and!; intros s Hs; cbn [parseline parsepipe parseexec parseblock];
    repeat inside_step; eauto using redirs_inside, backs_inside, args_inside.
Qed.
End lexer.

(** ** Termination and correctness of the parser *)

(** C39: the parser terminates on every command line: parsecmd() builds a tree or
    calls panic(), whatever the line is, within nested calls in number at most four
    for each character and loop rounds at most one for each. *)
Theorem parse_terminates (buf : list Z) (Hbuf : Forall (fun c => c <> 0) buf) :
  (exists c s, parse buf = POk (c, s)) \/ (exists msg, parse buf = PPanic msg).
Proof.
  unfold parse. destruct (parser_run buf Hbuf (4 * length buf + 4)) as (H & _). specialize (H 0%nat).
  unfold fuel_for in H. pose proof (toks_length buf Hbuf 0). specialize (H ltac:(lia)).
  destruct (parseline _ buf 0) as [[c s]| |]; [left; by eexists _, _|right; by eexists|done].
Qed.

Lemma toks_end buf s : Forall (fun c => c <> 0) buf -> (s <= length buf)%nat ->
  toks buf s = [] <-> skip (isin whitespace) buf s = length buf.
Proof.
  intros Hbuf Hs. rewrite toks_eq by done. destruct (gettoken buf s) as [[[k q] e] s'] eqn:E.
  pose proof (skip_inside buf (isin whitespace) s Hs). apply gettoken_ok in E as [(-> & ? & ->)|(Hk & ? & -> & [Ht _] & _)]; [|..|done].
  - split; [intros _; lia|done].
  - rewrite (proj2 (Z.eqb_neq k 0)) by done. split; [done|]. intros E. cbn [t_q t_eq] in Ht. lia.
Qed.

Lemma parse_sound buf c : Forall (fun c => c <> 0) buf -> parse buf = POk (c, length buf) -> derives LLine (toks buf 0) c.
Proof.
  intros Hbuf. unfold parse. pose proof (toks_length buf Hbuf 0) as Hlen.
  destruct (parser_run buf Hbuf (4 * length buf + 4)) as (H & _). specialize (H 0%nat).
  unfold fuel_for in H. specialize (H ltac:(lia)). destruct (parser_inside buf Hbuf (4 * length buf + 4)) as (Hi & _).
  specialize (Hi 0%nat ltac:(lia)). destruct (parseline _ buf 0) as [[c0 s]| |]; [|done..].
  unfold mbind, pres_bind, peek. cbv beta iota zeta. intros [= -> E]. apply toks_end in E; [|done..].
  destruct H as (ts & -> & Hd). by rewrite E, app_nil_r.
Qed.

Lemma parse_complete buf c : Forall (fun c => c <> 0) buf -> derives LLine (toks buf 0) c -> parse buf = POk (c, length buf).
Proof.
  intros Hbuf Hd. unfold parse. pose proof (toks_length buf Hbuf 0) as Hlen.
  destruct (derives_accepted buf Hbuf _ _ _ Hd (4 * length buf + 4)%nat 0%nat []) as (s & E & Es);
    [by rewrite app_nil_r|by left|unfold fuel_for; simpl; lia|].
  cbn [parser] in E. destruct (parser_inside buf Hbuf (4 * length buf + 4)) as (Hi & _).
  specialize (Hi 0%nat ltac:(lia)). rewrite E in Hi |- *. unfold mbind, pres_bind, peek. cbv beta iota zeta. do 2 f_equal.
  by apply toks_end.
Qed.

(** C15: parsecmd() accepts exactly the lines of the shell's grammar and builds the
    tree the grammar gives: the whole line is parsed, to the command c, if and only
    if its tokens derive c.  In particular no line has two trees. *)
Theorem parse_correct (buf : list Z) (c : cmd) (Hbuf : Forall (fun c => c <> 0) buf) :
  parse buf = POk (c, length buf) <-> derives LLine (toks buf 0) c.
Proof. split; auto using parse_sound, parse_complete. Qed.

Definition demo_line : list Z := str "ls -l<a|(wc>>b;cat)&".

Lemma parse_terminates_witness : Forall (fun c => c <> 0) demo_line /\
  ((exists c s, parse demo_line = POk (c, s)) \/ (exists msg, parse demo_line = PPanic msg)).
Proof.
  assert (Forall (fun c => c <> 0) demo_line) as H by (apply (bool_decide_unpack _); vm_compute; reflexivity).
  split; [exact H|]. apply (parse_terminates demo_line H).
Defined.

Lemma parse_correct_witness : exists c, parse demo_line = POk (c, length demo_line) /\ derives LLine (toks demo_line 0) c.
Proof.
  assert (Forall (fun c => c <> 0) demo_line) as H by (apply (bool_decide_unpack _); vm_compute; reflexivity).
  eexists. split; [vm_compute; reflexivity|]. apply (parse_correct demo_line _ H). vm_compute. reflexivity.
Defined.

(** ** NUL termination *)

(** The words of a command, with file names, in the order nulterminate() visits. *)
Fixpoint args_in (c : cmd) : list (nat * nat) :=
  match c with
  | Exec argv => argv
  | Redir c q e _ _ => args_in c ++ [(q, e)]
  | Pipe l r | List l r => args_in l ++ args_in r
  | Back c => args_in c
  end.

Definition words (ts : list tok) : list (nat * nat) := map arg_of (List.filter (fun t => t_kind t =? 97) ts).

Lemma words_app a b : words (a ++ b) = words a ++ words b.
Proof. unfold words. by rewrite List.filter_app, map_app. Qed.

Lemma words_word w ts : t_kind w = 97 -> words (w :: ts) = arg_of w :: words ts.
Proof. intros H. unfold words. cbn [List.filter]. by rewrite H. Qed.

Lemma words_other t ts k : t_kind t = k -> k <> 97 -> words (t :: ts) = words ts.
Proof. intros H Hk. unfold words. cbn [List.filter]. by rewrite (proj2 (Z.eqb_neq (t_kind t) 97)) by congruence. Qed.

(** An execcmd inside redirections, as parseexec() has it. *)
Fixpoint simple (c : cmd) : Prop :=
  match c with
  | Exec _ => True
  | Redir c _ _ _ _ => simple c
  | _ => False
  end.

Lemma redirect_args k c q e : In k [60; 62; 43] ->
  args_in (redirect k c q e) = args_in c ++ [(q, e)] /\ (simple c -> simple (redirect k c q e)).
Proof. simpl. intros [<-|[<-|[<-|[]]]]; done. Qed.

Lemma add_arg_args c a : simple c -> args_in (add_arg c a) ≡ₚ args_in c ++ [a] /\ simple (add_arg c a).
Proof.
  induction c as [argv|c IH q e m fd| | |]; intros Hc; try done. destruct (IH Hc) as [IH1 IH2]. split; [|done].
  cbn [add_arg args_in]. rewrite IH1. solve_Permutation.
Qed.

Lemma redirs_args ts c c' : gredirs ts c c' -> args_in c' ≡ₚ args_in c ++ words ts /\ (simple c -> simple c').
Proof.
  induction 1 as [c|t w ts c c' Ht Hw Hg [IH1 IH2]]; [by rewrite app_nil_r|].
  destruct (redirect_args (t_kind t) c (t_q w) (t_eq w) Ht) as [E Hs]. split; [|auto]. rewrite IH1, E.
  rewrite (words_other t _ (t_kind t)) by (try done; simpl in Ht; lia). rewrite words_word by done. by rewrite <- app_assoc.
Qed.

Lemma args_args argc ts c c' : gargs argc ts c c' -> simple c -> args_in c' ≡ₚ args_in c ++ words ts.
Proof.
  induction 1 as [argc c|argc w rs ts c c1 c' Hw _ Hr Hg IH]; intros Hc; [by rewrite app_nil_r|].
  destruct (add_arg_args c (arg_of w) Hc) as [E1 H1]. apply redirs_args in Hr as [E2 H2].
  rewrite (IH (H2 H1)), E2, E1, words_word, words_app by done. rewrite <- !app_assoc. done.
Qed.

Lemma backs_args bs c c' : gbacks bs c c' -> args_in c' = args_in c /\ words bs = [].
Proof. induction 1 as [c|t ts c c' Ht Hg [IH1 IH2]]; [done|]. by rewrite (words_other t _ 38). Qed.

(** The tree of a line holds every word of the line once. *)
Lemma derives_args l ts c : derives l ts c -> args_in c ≡ₚ words ts.
Proof.
  induction 1 as [ts1 ts2 c1 c2 Hr Ha|t1 ts t2 rs c c' Ht1 _ IH Ht2 Hr| |ts1 c1 t ts2 c2 _ IH1 Ht _ IH2
    |ts c bs c' _ IH Hb|ts c bs c' t ts2 c2 _ IH1 Hb Ht _ IH2]; [..|done| | |].
  - apply redirs_args in Hr as [E1 H1]. apply args_args in Ha; [|by apply H1]. by rewrite Ha, E1, words_app.
  - apply redirs_args in Hr as [E1 _]. rewrite E1, IH, (words_other t1 _ 40), words_app, (words_other t2 _ 41) by done. done.
  - cbn [args_in pipecmd]. by rewrite IH1, IH2, words_app, (words_other t _ 124).
  - apply backs_args in Hb as [-> Hb]. by rewrite IH, words_app, Hb, app_nil_r.
  - apply backs_args in Hb as [E Hb]. cbn [args_in listcmd]. by rewrite E, IH1, IH2, !words_app, Hb, (words_other t _ 59).
Qed.

Definition nulls (l : list (nat * nat)) (buf : list Z) : list Z := foldl (fun buf a => <[a.2 := 0]> buf) buf l.

Lemma nulterminate_nulls c : forall buf, nulterminate c buf = nulls (args_in c) buf.
Proof.
  unfold nulls. induction c as [argv|c IH q e m fd|l IHl r IHr|l IHl r IHr|c IH]; intros buf; cbn [nulterminate args_in]; [done|..];
    rewrite ?foldl_app, ?IH, ?IHl, ?IHr; done.
Qed.

Lemma nulls_lookup l i : forall buf, nulls l buf !! i =
  if decide (i ∈ map snd l) then (fun _ => 0) <$> buf !! i else buf !! i.
Proof.
  unfold nulls. induction l as [|[q e] l IH]; intros buf; cbn [foldl map snd]; [done|]. rewrite IH, list_insert_alter.
  destruct (decide (i = e)) as [->|Hne].
  - rewrite list_lookup_alter_eq. rewrite (decide_True (P := e ∈ e :: _)) by (apply elem_of_cons; auto).
    case_decide; by destruct (buf !! e).
  - rewrite list_lookup_alter_ne by done. apply decide_ext. rewrite elem_of_cons. naive_solver.
Qed.

Section separate.
Context (buf : list Z) (Hbuf : Forall (fun c => c <> 0) buf).

Lemma toks_sorted ts : forall s, toks buf s = ts -> Forall (fun t => (s <= t_q t)%nat /\ tok_ok buf t) ts /\
  forall t t', t ∈ ts -> t' ∈ ts -> t = t' \/ (t_eq t <= t_q t')%nat \/ (t_eq t' <= t_q t)%nat.
Proof.
  induction ts as [|t ts IH]; intros s Es; [split; [done|]; intros ? ? []%elem_of_nil|].
  destruct (get_cons buf Hbuf s t ts Es) as (s' & _ & Es' & Hok & He & Hq). destruct (IH s' Es') as [IH1 IH2]. split.
  - constructor; [done|]. eapply Forall_impl; [exact IH1|]. intros t' [? ?]. destruct Hok. split; [lia|done].
  - rewrite Forall_forall in IH1. intros t1 t2 [->|H1]%elem_of_cons [->|H2]%elem_of_cons; [by left|..|by apply IH2].
    + apply IH1 in H2 as [? _]. right. left. lia.
    + apply IH1 in H1 as [? _]. right. right. lia.
Qed.

(** The end of a word is not inside a word. *)
Lemma word_end t t' : t ∈ toks buf 0 -> t' ∈ toks buf 0 -> t_kind t = 97 -> t_kind t' = 97 -> ~ (t_q t <= t_eq t' < t_eq t)%nat.
Proof.
  intros Ht Ht' Hk Hk' Hin. destruct (toks_sorted _ 0%nat eq_refl) as [H1 H2]. rewrite Forall_forall in H1.
  destruct (H1 t Ht) as [_ [Hb Hw]], (H1 t' Ht') as [_ [Hb' Hw']]. rewrite Hk in Hw. rewrite Hk' in Hw'. cbn [Z.eqb Pos.eqb] in Hw, Hw'.
  destruct (H2 t t' Ht Ht') as [->|[?|?]]; [lia|lia|]. destruct Hw as [Hw _], Hw' as [_ Hw'].
  destruct (Hw (t_eq t') Hin) as [W1 W2]. destruct (Hw' ltac:(lia)); congruence.
Qed.

Lemma cstr_take n : forall l l', (n <= length l)%nat -> (forall i, (i < n)%nat -> l' !! i = l !! i) ->
  Forall (fun c => c <> 0) (take n l) -> (l' !! n = None \/ l' !! n = Some 0) -> cstr l' = take n l.
Proof.
  induction n as [|n IH]; intros l l' Hn Hl Hz He.
  - destruct l' as [|x l']; [done|]. cbn [lookup list_lookup] in He. destruct He as [He|[= ->]]; done.
  - destruct l as [|x l]; cbn [length] in Hn; [lia|]. pose proof (Hl 0%nat ltac:(lia)) as H0. destruct l' as [|x' l']; [done|].
    cbn in H0. injection H0 as ->. cbn [take] in Hz |- *. apply Forall_cons in Hz as [Hx Hz]. cbn [cstr].
    rewrite (proj2 (Z.eqb_neq x 0)) by done. f_equal. apply IH; [lia| |done|done]. intros i Hi. apply (Hl (S i)). lia.
Qed.

(** The string of a word whose end has a NUL while no NUL is inside. *)
Lemma word_string l t : t ∈ toks buf 0 -> t_kind t = 97 -> t_eq t ∈ map snd l ->
  (forall i, (t_q t <= i < t_eq t)%nat -> i ∉ map snd l) ->
  str_at (nulls l buf) (t_q t) = take (t_eq t - t_q t) (drop (t_q t) buf).
Proof.
  intros Ht Hk Hin Hout. destruct (toks_sorted _ 0%nat eq_refl) as [H1 _]. rewrite Forall_forall in H1.
  destruct (H1 t Ht) as [_ [Hb _]]. apply cstr_take.
  - rewrite length_drop. lia.
  - intros i Hi. rewrite !lookup_drop, nulls_lookup, decide_False; [done|]. apply Hout. lia.
  - by apply Forall_take, Forall_drop.
  - rewrite lookup_drop, nulls_lookup. replace (t_q t + (t_eq t - t_q t))%nat with (t_eq t) by lia.
    rewrite decide_True by done. destruct (buf !! t_eq t); auto.
Qed.
End separate.

(** The text of a word. *)
Definition word_text (buf : list Z) (a : nat * nat) : list Z := take (a.2 - a.1) (drop a.1 buf).

Lemma words_kept buf c : Forall (fun c => c <> 0) buf -> derives LLine (toks buf 0) c ->
  args_in c ≡ₚ words (toks buf 0) /\
  Forall (fun a => str_at (nulterminate c buf) a.1 = word_text buf a) (args_in c).
Proof.
  intros Hbuf Hd. apply derives_args in Hd. split; [done|]. rewrite nulterminate_nulls.
  assert (forall a, a ∈ args_in c -> exists t, a = arg_of t /\ t ∈ toks buf 0 /\ t_kind t = 97) as Hw.
  { intros a. rewrite Hd, list_elem_of_In. unfold words. intros (t & <- & [Ht Hk]%filter_In)%in_map_iff.
    exists t. rewrite list_elem_of_In. split; [done|]. split; [done|]. by apply Z.eqb_eq. }
  apply Forall_forall. intros a Ha. destruct (Hw a Ha) as (t & -> & Ht & Hk). apply word_string; [done..| |].
  - apply list_elem_of_In, (in_map snd _ (arg_of t)), list_elem_of_In, Ha.
  - intros i Hi Hin. apply list_elem_of_In, in_map_iff in Hin as (a & <- & Hin%list_elem_of_In).
    destruct (Hw a Hin) as (t' & -> & Ht' & Hk'). by apply (word_end buf Hbuf t t').
Qed.

(** After nulterminate() every string of the parsed command is a word of the
    command line, unchanged and complete: the NULs stored behind some words never
    fall into others.  Every word of the line is in the command exactly once. *)
Theorem nulterminate_words (buf : list Z) (c : cmd) (Hbuf : Forall (fun c => c <> 0) buf)
  (Hparse : parse buf = POk (c, length buf)) :
  args_in c ≡ₚ words (toks buf 0) /\
  Forall (fun a => str_at (nulterminate c buf) a.1 = word_text buf a) (args_in c).
Proof. by apply words_kept, parse_sound. Qed.

Lemma nulterminate_words_witness : exists c,
  parse demo_line = POk (c, length demo_line) /\
  map (fun a => str_at (nulterminate c demo_line) a.1) (args_in c) = [str "ls"; str "-l"; str "a"; str "wc"; str "b"; str "cat"] /\
  args_in c ≡ₚ words (toks demo_line 0) /\
  Forall (fun a => str_at (nulterminate c demo_line) a.1 = word_text demo_line a) (args_in c).
Proof.
  assert (Forall (fun c => c <> 0) demo_line) as H by (apply (bool_decide_unpack _); vm_compute; reflexivity).
  eexists. split; [vm_compute; reflexivity|]. split; [vm_compute; reflexivity|].
  apply (nulterminate_words demo_line _ H). vm_compute. reflexivity.
Defined.
