(* ===== verification/ShellRun.v ===== *)
(** What the shell runs: runcmd() of user/sh.c against an operating system with
    fork(), pipe(), dup(), open(), close() and exec(), in which every process of the
    tree that fork() makes is followed.  The programs executed, their arguments and
    their descriptors are those of a plan read off the command. *)

From Stdlib Require Import ZArith Lia.
From stdpp Require Import base gmap strings list numbers.
From S2P Require Import Prelude Params CString User Shell ShellParse.

Open Scope Z_scope.

(** What a descriptor refers to: what it was at the start, a file opened with a
    mode, or an end of a pipe.  A pipe is named by the process that made it and its
    number there, a process by the numbers of the forks that lead to it. *)
Inductive obj :=
| Initial (fd : Z)
| File (name : list Z) (mode : Z)
| PipeR (proc : list nat) (n : nat)
| PipeW (proc : list nat) (n : nat).

Record process := Process { p_fds : gmap Z obj; p_name : list nat; p_forks : nat; p_pipes : nat }.

(** A call of exec(): the path, the arguments and the descriptors at that point. *)
Record executed := Executed { x_path : list Z; x_argv : list (list Z); x_fds : gmap Z obj }.

(** Unused descriptors, lowest first. *)
Definition unused (f : gmap Z obj) : list Z := filter (fun fd => f !! fd = None) (seqZ 0 (Z.of_nat NOFILE)).

Definition with_fds (p : process) (f : gmap Z obj) : process := Process f (p_name p) (p_forks p) (p_pipes p).
Definition forked_child (p : process) : process := Process (p_fds p) (p_name p ++ [p_forks p]) 0 0.
Definition forked_parent (p : process) : process := Process (p_fds p) (p_name p) (S (p_forks p)) (p_pipes p).

Definition os_close (fd : Z) (p : process) : Z * process :=
  match p_fds p !! fd with
  | None => (-1, p)
  | Some _ => (0, with_fds p (delete fd (p_fds p)))
  end.

Definition os_dup (fd : Z) (p : process) : Z * process :=
  match p_fds p !! fd, unused (p_fds p) with
  | Some o, n :: _ => (n, with_fds p (<[n := o]> (p_fds p)))
  | _, _ => (-1, p)
  end.

Definition os_open (path : list Z) (mode : Z) (p : process) : Z * process :=
  match unused (p_fds p) with
  | n :: _ => (n, with_fds p (<[n := File path mode]> (p_fds p)))
  | [] => (-1, p)
  end.

Definition os_pipe (p : process) : (Z * (Z * Z)) * process :=
  match unused (p_fds p) with
  | r :: w :: _ =>
      ((0, (r, w)),
       Process (<[w := PipeW (p_name p) (p_pipes p)]> (<[r := PipeR (p_name p) (p_pipes p)]> (p_fds p)))
         (p_name p) (p_forks p) (S (p_pipes p)))
  | _ => ((-1, (0, 0)), p)
  end.

(** The programs executed by a process and its descendants; [k] is what follows
    the call.  fork() is followed in the child, then in the parent; exec()
    succeeds and ends the program that called it. *)
Definition os_call {X} (e : sys X) : (X -> process -> list executed) -> process -> list executed :=
  match e in sys X return (X -> process -> list executed) -> process -> list executed with
  | SFork => fun k p => k 0 (forked_child p) ++ k (Z.of_nat (S (p_forks p))) (forked_parent p)
  | SExec path argv => fun _ p => [Executed path argv (p_fds p)]
  | SClose fd => fun k p => let '(r, p) := os_close fd p in k r p
  | SDup fd => fun k p => let '(r, p) := os_dup fd p in k r p
  | SOpen path mode => fun k p => let '(r, p) := os_open path mode p in k r p
  | SPipe => fun k p => let '(r, p) := os_pipe p in k r p
  | SWait => fun k p => k 0 p
  | SWrite _ bs => fun k p => k (Z.of_nat (length bs)) p
  | SRead _ _ => fun k p => k (0, []) p
  | SFstat _ => fun k p => k (-1, Stat 0 0 0 0 0) p
  | SWaitStatus => fun k p => k (0, 0) p
  | SKill _ | SMknod _ _ _ | SUnlink _ | SLink _ _ | SMkdir _ | SChdir _ | SGetpid | SSbrk _ | SSleep _ | SUptime
  | SRaw _ _ | SLoad _ | SStore _ _ =>
      fun k p => k (-1) p
  end.

Fixpoint execs {A} (prog : U A) (p : process) : list executed :=
  match prog with
  | URet _ | UExit _ | UFuel => []
  | UCall _ e k => os_call e (fun x p => execs (k x) p) p
  end.

(** ** The plan of a command *)

(** [txt] gives the text of a word; [name], [forks] and [pipes] are the process
    that runs the command. *)
Section plan.
Context (txt : nat * nat -> list Z).

Fixpoint plan (c : cmd) (name : list nat) (forks pipes : nat) (f : gmap Z obj) : list executed :=
  match c with
  | Exec argv =>
      match argv with
      | [] => []
      | a0 :: _ => [Executed (txt a0) (map txt argv) f]
      end
  | Redir c q e mode fd => plan c name forks pipes (<[fd := File (txt (q, e)) mode]> f)
  | Pipe l r =>
      plan l (name ++ [forks]) 0 0 (<[1 := PipeW name pipes]> f) ++
      plan r (name ++ [S forks]) 0 0 (<[0 := PipeR name pipes]> f)
  | List l r => plan l (name ++ [forks]) 0 0 f ++ plan r name (S forks) pipes f
  | Back c => plan c (name ++ [forks]) 0 0 f
  end.
End plan.

Lemma plan_ext txt txt' c : Forall (fun a => txt a = txt' a) (args_in c) ->
  forall name forks pipes f, plan txt c name forks pipes f = plan txt' c name forks pipes f.
Proof.
  induction c as [argv|c IH q e m fd|l IHl r IHr|l IHl r IHr|c IH]; cbn [args_in]; intros H name forks pipes f; cbn [plan].
  - destruct argv as [|a0 argv]; [done|]. apply Forall_cons in H as [H0 H].
    assert (map txt argv = map txt' argv) as Hm by (induction H; cbn [map]; congruence). cbn [map]. by rewrite H0, Hm.
  - apply Forall_app in H as [H Hq]. apply Forall_cons in Hq as [-> _]. by apply IH.
  - apply Forall_app in H as [Hl Hr]. by rewrite IHl, IHr.
  - apply Forall_app in H as [Hl Hr]. by rewrite IHl, IHr.
  - by apply IH.
Qed.

(** ** Programs that do not return *)

Fixpoint noret {A} (p : U A) : Prop :=
  match p with
  | URet _ => False
  | UExit _ | UFuel => True
  | UCall _ _ k => forall x, noret (k x)
  end.

Lemma noret_bind_l {A B} (m : U A) (f : A -> U B) : noret m -> noret (m ≫= f).
Proof. induction m as [a|n|X e k IH|]; intros H; [done..| |done]. intros x. apply IH, H. Qed.

Lemma noret_bind_r {A B} (m : U A) (f : A -> U B) : (forall a, noret (f a)) -> noret (m ≫= f).
Proof. intros H. induction m as [a|n|X e k IH|]; [apply H|done| |done]. intros x. apply IH. Qed.

Lemma os_call_ext {X} (e : sys X) (k k' : X -> process -> list executed) p :
  (forall x p, k x p = k' x p) -> os_call e k p = os_call e k' p.
Proof. intros H. destruct e; cbn [os_call]; rewrite ?H; repeat case_match; rewrite ?H; done. Qed.

Lemma execs_noret {A B} (m : U A) (f : A -> U B) : noret m -> forall p, execs (m ≫= f) p = execs m p.
Proof.
  induction m as [a|n|X e k IH|]; intros H p; [done..| |done].
  change (execs (UCall X e k ≫= f) p) with (os_call e (fun x p => execs (k x ≫= f) p) p). cbn [execs].
  apply os_call_ext. intros x p'. apply IH, H.
Qed.

Lemma runcmd_noret buf c : noret (runcmd buf c).
Proof. destruct c as [[|a0 argv]|c q e m fd|l r|l r|c]; repeat first [done | apply noret_bind_r; intros | case_match]. Qed.

(** ** runcmd() follows the plan *)

Lemma execs_call {X B} (e : sys X) (f : X -> U B) p : execs (call e ≫= f) p = os_call e (fun x p => execs (f x) p) p.
Proof. done. Qed.

Lemma execs_fork1 {B} (f : Z -> U B) p :
  execs (fork1 ≫= f) p = execs (f 0) (forked_child p) ++ execs (f (Z.of_nat (S (p_forks p)))) (forked_parent p).
Proof. done. Qed.

(** The descriptors a command starts with: 0 and 1 are open and two more can be. *)
Definition ready (f : gmap Z obj) : Prop :=
  is_Some (f !! 0) /\ is_Some (f !! 1) /\ exists r w l, unused f = r :: w :: l.

Lemma unused_insert f fd o : is_Some (f !! fd) -> unused (<[fd := o]> f) = unused f.
Proof.
  intros [x Hx]. apply list_filter_iff. intros i. destruct (decide (i = fd)) as [->|Hne].
  - rewrite lookup_insert_eq, Hx. done.
  - by rewrite lookup_insert_ne.
Qed.

Lemma ready_insert f fd o : ready f -> is_Some (f !! fd) -> ready (<[fd := o]> f).
Proof.
  intros (H0 & H1 & Hu) Hfd. unfold ready. rewrite unused_insert by done.
  assert (forall i, is_Some (f !! i) -> is_Some (<[fd := o]> f !! i)); [|auto]. intros i Hi.
  destruct (decide (i = fd)) as [->|Hne]; [rewrite lookup_insert_eq|rewrite lookup_insert_ne by done]; eauto.
Qed.

Lemma seqZ_start : seqZ 0 (Z.of_nat NOFILE) = 0 :: 1 :: seqZ 2 (Z.of_nat NOFILE - 2).
Proof. done. Qed.

(** After close(0) or close(1) the closed one is the lowest unused. *)
Lemma unused_delete f fd : is_Some (f !! 0) -> fd = 0 \/ fd = 1 -> exists l, unused (delete fd f) = fd :: l.
Proof.
  intros [x Hx] Hfd. unfold unused. rewrite seqZ_start. destruct Hfd as [-> | ->].
  - rewrite filter_cons_True by apply lookup_delete_eq. by eexists.
  - rewrite filter_cons_False by (by rewrite lookup_delete_ne, Hx). rewrite filter_cons_True by apply lookup_delete_eq. by eexists.
Qed.

Lemma os_close_ok fd p o : p_fds p !! fd = Some o -> os_close fd p = (0, with_fds p (delete fd (p_fds p))).
Proof. intros H. unfold os_close. by rewrite H. Qed.

Lemma unused_In f fd : fd ∈ unused f -> f !! fd = None.
Proof. unfold unused. by intros [? _]%list_elem_of_filter. Qed.

Lemma unused_NoDup f : NoDup (unused f).
Proof. apply NoDup_filter, NoDup_seqZ. Qed.

(** The end of a new pipe moved to descriptor 0 or 1, and the pipe's own
    descriptors closed. *)
Lemma wire {B} fd src o (k : U B) p f r w oR oW : p_fds p = <[w := oW]> (<[r := oR]> f) -> f !! r = None -> f !! w = None -> r <> w ->
  is_Some (f !! 0) -> is_Some (f !! 1) -> fd = 0 \/ fd = 1 -> p_fds p !! src = Some o -> src = r \/ src = w ->
  execs (call (SClose fd);; call (SDup src);; call (SClose r);; call (SClose w);; k) p = execs k (with_fds p (<[fd := o]> f)).
Proof.
  intros Hp Hr Hw Hne [x0 H0] [x1 H1] Hfd Hsrc Hrw.
  assert (fd <> r /\ fd <> w) as [Hfr Hfw] by (split; intros ->; destruct Hfd as [-> | ->]; congruence).
  assert (exists x, p_fds p !! fd = Some x) as [x Hx].
  { rewrite Hp, !lookup_insert_ne by done. destruct Hfd as [-> | ->]; eauto. }
  rewrite execs_call. cbn [os_call]. rewrite (os_close_ok fd p x) by done.
  rewrite execs_call. cbn [os_call]. unfold os_dup. cbn [with_fds p_fds].
  rewrite lookup_delete_ne, Hsrc by (destruct Hrw; congruence).
  assert (is_Some (p_fds p !! 0)) as H0'. { rewrite Hp. rewrite !lookup_insert_is_Some'. eauto. }
  destruct (unused_delete (p_fds p) fd H0' Hfd) as [l ->]. rewrite insert_delete_eq.
  rewrite execs_call. cbn [os_call]. rewrite (os_close_ok r _ oR).
  2: { cbn [with_fds p_fds]. by rewrite lookup_insert_ne, Hp, lookup_insert_ne, lookup_insert_eq by congruence. }
  rewrite execs_call. cbn [os_call]. rewrite (os_close_ok w _ oW).
  2: { cbn [with_fds p_fds]. by rewrite lookup_delete_ne, lookup_insert_ne, Hp, lookup_insert_eq by congruence. }
  cbn [with_fds p_fds p_name p_forks p_pipes]. f_equal. unfold with_fds. f_equal. cbn [p_fds]. rewrite Hp.
  apply map_eq. intros i. destruct (decide (i = w)) as [->|]; [by rewrite lookup_delete_eq, lookup_insert_ne|].
  rewrite lookup_delete_ne by done. destruct (decide (i = r)) as [->|]; [by rewrite lookup_delete_eq, lookup_insert_ne|].
  rewrite lookup_delete_ne by done. destruct (decide (i = fd)) as [->|]; [by rewrite !lookup_insert_eq|].
  by rewrite !lookup_insert_ne.
Qed.

(** Redirections are of descriptors 0 and 1. *)
Fixpoint redirs_std (c : cmd) : Prop :=
  match c with
  | Exec _ => True
  | Redir c _ _ _ fd => (fd = 0 \/ fd = 1) /\ redirs_std c
  | Pipe l r | List l r => redirs_std l /\ redirs_std r
  | Back c => redirs_std c
  end.

(** Each process of the tree follows the plan. *)
Definition follows_plan (buf : list Z) (c : cmd) : Prop := forall p, ready (p_fds p) ->
  execs (runcmd buf c) p = plan (fun a => str_at buf a.1) c (p_name p) (p_forks p) (p_pipes p) (p_fds p).

Lemma runpipe buf l r p : follows_plan buf l -> follows_plan buf r -> ready (p_fds p) ->
  execs (runcmd buf (Pipe l r)) p = plan (fun a => str_at buf a.1) (Pipe l r) (p_name p) (p_forks p) (p_pipes p) (p_fds p).
Proof.
  intros IHl IHr Hp. pose proof Hp as (H0 & H1 & p0 & p1 & u & Hu). cbn [runcmd plan].
  assert (NoDup (p0 :: p1 :: u)) as Hnd by (rewrite <- Hu; apply unused_NoDup). apply NoDup_cons in Hnd as [Hnd _].
  assert (p0 <> p1) as Hne by set_solver.
  assert (p_fds p !! p0 = None) as Hp0 by (apply unused_In; rewrite Hu; set_solver).
  assert (p_fds p !! p1 = None) as Hp1 by (apply unused_In; rewrite Hu; set_solver).
  rewrite execs_call. cbn [os_call]. unfold os_pipe. rewrite Hu.
  set (p' := Process _ (p_name p) (p_forks p) (S (p_pipes p))).
  change (execs ?q p') with (execs (fork1 ≫= (fun pid : Z =>
    (if pid =? 0 then call (SClose 1);; call (SDup p1);; call (SClose p0);; call (SClose p1);; runcmd buf l else mret tt);;
    pid ← fork1;
    (if pid =? 0 then call (SClose 0);; call (SDup p0);; call (SClose p0);; call (SClose p1);; runcmd buf r else mret tt);;
    call (SClose p0);; call (SClose p1);; call SWait;; call SWait;; uexit (A:=unit) 0)) p').
  rewrite execs_fork1. cbn [Z.eqb].
  rewrite execs_noret by (repeat (apply noret_bind_r; intros); apply runcmd_noret).
  rewrite (wire 1 p1 (PipeW (p_name p) (p_pipes p)) _ (forked_child p') (p_fds p) p0 p1
    (PipeR (p_name p) (p_pipes p)) (PipeW (p_name p) (p_pipes p))); try done; [|auto|apply lookup_insert_eq|auto].
  rewrite IHl by (by apply ready_insert). f_equal.
  change (execs ?q (forked_parent p')) with (execs (fork1 ≫= (fun pid : Z =>
    (if pid =? 0 then call (SClose 0);; call (SDup p0);; call (SClose p0);; call (SClose p1);; runcmd buf r else mret tt);;
    call (SClose p0);; call (SClose p1);; call SWait;; call SWait;; uexit (A:=unit) 0)) (forked_parent p')).
  rewrite execs_fork1. cbn [Z.eqb].
  rewrite execs_noret by (repeat (apply noret_bind_r; intros); apply runcmd_noret).
  rewrite (wire 0 p0 (PipeR (p_name p) (p_pipes p)) _ (forked_child (forked_parent p')) (p_fds p) p0 p1
    (PipeR (p_name p) (p_pipes p)) (PipeW (p_name p) (p_pipes p))); try done; [|auto|unfold p'; cbn [forked_child forked_parent p_fds]; by rewrite lookup_insert_ne, lookup_insert_eq|auto].
  rewrite IHr by (by apply ready_insert).
  assert (forall b c q, execs (call (SClose b);; call (SClose c);; call SWait;; call SWait;; uexit (A:=unit) 0) q = []) as Hend.
  { intros b c q. rewrite execs_call. cbn [os_call]. destruct (os_close b q) as [? q']. rewrite execs_call. cbn [os_call].
    by destruct (os_close c q'). }
  change (execs ?q (forked_parent (forked_parent p'))) with
    (execs (call (SClose p0);; call (SClose p1);; call SWait;; call SWait;; uexit (A:=unit) 0) (forked_parent (forked_parent p'))).
  by rewrite Hend, app_nil_r.
Qed.

Lemma runcmd_plan buf c : redirs_std c -> follows_plan buf c.
Proof.
  induction c as [argv|c IH q e m fd|l IHl r IHr|l IHl r IHr|c IH]; cbn [redirs_std]; intros Hc p Hp; cbn [runcmd plan].
  - by destruct argv as [|a0 argv].
  - destruct Hc as [Hfd Hc]. pose proof Hp as (H0 & H1 & Hu).
    assert (is_Some (p_fds p !! fd)) as [x Hx] by (destruct Hfd as [-> | ->]; done).
    rewrite execs_call. cbn [os_call]. rewrite (os_close_ok fd p x) by done. rewrite execs_call. cbn [os_call]. unfold os_open.
    cbn [with_fds p_fds]. destruct (unused_delete (p_fds p) fd H0 Hfd) as [u ->]. rewrite insert_delete_eq.
    rewrite (proj2 (Z.ltb_ge fd 0)) by (destruct Hfd; lia). rewrite execs_noret by apply runcmd_noret.
    rewrite IH; [done|done|]. by apply ready_insert.
  - destruct Hc as [Hl Hr]. exact (runpipe buf l r p (IHl Hl) (IHr Hr) Hp).
  - destruct Hc as [Hl Hr]. rewrite execs_fork1. cbn [Z.eqb]. rewrite execs_noret by apply runcmd_noret.
    rewrite IHl by done. f_equal. change (execs ?q (forked_parent p)) with (execs (runcmd buf r;; uexit (A:=unit) 0) (forked_parent p)).
    rewrite execs_noret by apply runcmd_noret. by rewrite IHr.
  - rewrite execs_fork1. cbn [Z.eqb]. rewrite execs_noret by apply runcmd_noret. rewrite IH by done. cbn. by rewrite app_nil_r.
Qed.

(** The parser makes only such redirections. *)
Lemma redirect_std k c q e : redirs_std c -> redirs_std (redirect k c q e).
Proof. intros H. unfold redirect. repeat case_match; cbn; auto. Qed.

Lemma gredirs_std ts c c' : gredirs ts c c' -> redirs_std c -> redirs_std c'.
Proof. induction 1; auto using redirect_std. Qed.

Lemma add_arg_std c a : redirs_std c -> redirs_std (add_arg c a).
Proof. induction c; cbn; naive_solver. Qed.

Lemma gargs_std argc ts c c' : gargs argc ts c c' -> redirs_std c -> redirs_std c'.
Proof. induction 1; eauto using gredirs_std, add_arg_std. Qed.

Lemma gbacks_std bs c c' : gbacks bs c c' -> redirs_std c -> redirs_std c'.
Proof. induction 1; auto. Qed.

Lemma derives_std l ts c : derives l ts c -> redirs_std c.
Proof.
  induction 1; cbn [redirs_std pipecmd listcmd]; eauto using gredirs_std, gbacks_std.
  eapply gargs_std; [done|]. by eapply gredirs_std.
Qed.

(** C16: a command line of the grammar is run as it reads: parsecmd() followed by
    runcmd() executes, over all the processes that are forked, exactly the programs
    of the plan of its tree, each with the words of the line as its arguments, with
    < and > files on descriptors 0 and 1, with the two ends of one pipe on the
    descriptors 1 and 0 of the two sides of |, and with no other descriptor of a
    pipe left open. *)
Theorem shell_runs_line (buf : list Z) (c : cmd) (p : process) (Hbuf : Forall (fun c => c <> 0) buf)
  (Hline : derives LLine (toks buf 0) c) (Hready : ready (p_fds p)) :
  execs ('(c, b) ← parsecmd buf; runcmd b c) p = plan (word_text buf) c (p_name p) (p_forks p) (p_pipes p) (p_fds p).
Proof.
  unfold parsecmd. rewrite (parse_complete buf c) by done. rewrite Nat.eqb_refl. cbn [negb].
  change (execs ?q p) with (execs (runcmd (nulterminate c buf) c) p).
  rewrite runcmd_plan by (try done; by eapply derives_std). apply plan_ext. by apply words_kept.
Qed.

Lemma shell_runs_line_witness : exists c,
  derives LLine (toks demo_line 0) c /\
  execs ('(c, b) ← parsecmd demo_line; runcmd b c) (Process {[0 := Initial 0; 1 := Initial 1; 2 := Initial 2]} [] 0 0) =
    [Executed (str "ls") [str "ls"; str "-l"] {[0 := File (str "a") O_RDONLY; 1 := PipeW [0%nat] 0; 2 := Initial 2]};
     Executed (str "wc") [str "wc"] {[0 := PipeR [0%nat] 0; 1 := File (str "b") (Z.lor O_WRONLY O_CREATE); 2 := Initial 2]};
     Executed (str "cat") [str "cat"] {[0 := PipeR [0%nat] 0; 1 := Initial 1; 2 := Initial 2]}].
Proof.
  assert (Forall (fun c => c <> 0) demo_line) as H by (apply (bool_decide_unpack _); vm_compute; reflexivity).
  eexists. assert (parse demo_line = POk (_, length demo_line)) as Hp by (vm_compute; reflexivity).
  apply parse_sound in Hp; [|exact H]. split; [exact Hp|].
  rewrite (shell_runs_line demo_line _ (Process {[0 := Initial 0; 1 := Initial 1; 2 := Initial 2]} [] 0 0) H Hp).
  - vm_compute. reflexivity.
  - split; [by eexists|]. split; [by eexists|]. eexists _, _, _. vm_compute. reflexivity.
Defined.
