(* ===== verification/Umalloc.v ===== *)
(** user/umalloc.c: the storage allocator of user programs.  The free blocks form a
    ring of headers in memory, sorted by address; the theorems relate it to the
    list of free blocks. *)

From Stdlib Require Import ZArith Lia.
From stdpp Require Import base gmap strings list numbers.
From S2P Require Import Prelude Params User.

Open Scope Z_scope.

(** union header: the address of the next header and a size in units of headers;
    memory without a header reads as 0. *)
Record heap := Heap { h_hdr : gmap Z (Z * Z); h_freep : Z }.

Abbreviation UNIT := 16.

Definition hptr (h : heap) (p : Z) : Z := (default (0, 0) (h_hdr h !! p)).1.
Definition hsize (h : heap) (p : Z) : Z := (default (0, 0) (h_hdr h !! p)).2.
Definition set_ptr (p v : Z) (h : heap) : heap := Heap (<[p := (v, hsize h p)]> (h_hdr h)) (h_freep h).
Definition set_size (p n : Z) (h : heap) : heap := Heap (<[p := (hptr h p, n)]> (h_hdr h)) (h_freep h).
Definition set_freep (p : Z) (h : heap) : heap := Heap (h_hdr h) p.

(** The for loop of free(). *)
Fixpoint free_find (fuel : nat) (h : heap) (bp p : Z) : option Z :=
  match fuel with
  | O => None
  | S fuel =>
      if (p <? bp) && (bp <? hptr h p) then Some p
      else if (hptr h p <=? p) && ((p <? bp) || (bp <? hptr h p)) then Some p
      else free_find fuel h bp (hptr h p)
  end.

(** Joining the block to its upper and to its lower neighbour. *)
Definition join_upper (h : heap) (bp p : Z) : heap :=
  if bp + UNIT * hsize h bp =? hptr h p then
    let h := set_size bp (u32 (hsize h bp + hsize h (hptr h p))) h in
    set_ptr bp (hptr h (hptr h p)) h
  else set_ptr bp (hptr h p) h.
Definition join_lower (h : heap) (bp p : Z) : heap :=
  if p + UNIT * hsize h p =? bp then
    let h := set_size p (u32 (hsize h p + hsize h bp)) h in
    set_ptr p (hptr h bp) h
  else set_ptr p bp h.

Definition free (fuel : nat) (h : heap) (ap : Z) : option heap :=
  let bp := ap - UNIT in
  p ← free_find fuel h bp (h_freep h);
  Some (set_freep p (join_lower (join_upper h bp p) bp p)).

(** morecore(): the new freep, or 0; [fuel] is for free(). *)
Definition morecore (fuel : nat) (h : heap) (nu : Z) : U (Z * heap) :=
  let nu := if nu <? 4096 then 4096 else nu in
  p ← call (SSbrk (i32 (nu * UNIT)));
  if p =? -1 then mret (0, h) else
  match free fuel (set_size p nu h) (p + UNIT) with
  | Some h => mret (h_freep h, h)
  | None => UFuel
  end.

(** A block of [nunits] from the free block [p] after [prevp]. *)
Definition take_block (h : heap) (nunits prevp p : Z) : Z * heap :=
  if hsize h p =? nunits then
    (p + UNIT, set_freep prevp (set_ptr prevp (hptr h p) h))
  else
    let rest := u32 (hsize h p - nunits) in
    let h := set_size p rest h in
    let p := p + UNIT * rest in
    (p + UNIT, set_freep prevp (set_size p nunits h)).

Fixpoint malloc_loop (fuel : nat) (h : heap) (nunits prevp p : Z) : U (Z * heap) :=
  match fuel with
  | O => UFuel
  | S fuel' =>
      if nunits <=? hsize h p then mret (take_block h nunits prevp p)
      else if p =? h_freep h then
        '(p, h) ← morecore fuel h nunits;
        if p =? 0 then mret (0, h)
        else malloc_loop fuel' h nunits p (hptr h p)
      else malloc_loop fuel' h nunits p (hptr h p)
  end.

Definition nunits_of (nbytes : Z) : Z := (nbytes + UNIT - 1) / UNIT + 1.

(** [base] is the address of the static header. *)
Definition malloc (base : Z) (fuel : nat) (h : heap) (nbytes : Z) : U (Z * heap) :=
  let h := if h_freep h =? 0 then set_size base 0 (set_ptr base base (set_freep base h)) else h in
  malloc_loop fuel h (nunits_of nbytes) (h_freep h) (hptr h (h_freep h)).

(** ** The ring as a list of blocks *)

(** The address of the first block of a list, [e] if it is empty. *)
Definition first_addr (l : list (Z * Z)) (e : Z) : Z := match l with [] => e | (a, _) :: _ => a end.

(** The blocks of [l] are in memory, each pointing to the next and the last to [e]. *)
Fixpoint seg (m : gmap Z (Z * Z)) (l : list (Z * Z)) (e : Z) : Prop :=
  match l with
  | [] => True
  | (a, n) :: l => m !! a = Some (first_addr l e, n) /\ seg m l e
  end.

(** Blocks in ascending order above [lo], with a gap before each. *)
Fixpoint ordered (lo : Z) (l : list (Z * Z)) : Prop :=
  match l with
  | [] => True
  | (a, n) :: l => lo < a /\ 0 <= n /\ ordered (a + UNIT * n) l
  end.

Fixpoint end_of (lo : Z) (l : list (Z * Z)) : Z :=
  match l with
  | [] => lo
  | (a, n) :: l => end_of (a + UNIT * n) l
  end.

(** The ring is [bl]: the static header, which has size 0, then the free blocks; and
    freep points into it. *)
Record heap_ok (base : Z) (h : heap) (bl : list (Z * Z)) : Prop := HeapOk {
  ho_seg : seg (h_hdr h) bl base;
  ho_ordered : ordered (base - 1) bl;
  ho_base : head bl = Some (base, 0);
  ho_pos : Forall (fun b => b.1 = base \/ 0 < b.2) bl;
  ho_freep : h_freep h ∈ map fst bl
}.

(** The bytes of a list of blocks. *)
Definition covers (l : list (Z * Z)) (x : Z) : Prop := exists a n, (a, n) ∈ l /\ a <= x < a + UNIT * n.

Lemma first_addr_app l l' e : first_addr (l ++ l') e = first_addr l (first_addr l' e).
Proof. by destruct l as [|[a n] l]. Qed.

Lemma seg_app m l l' e : seg m (l ++ l') e <-> seg m l (first_addr l' e) /\ seg m l' e.
Proof.
  induction l as [|[a n] l IH]; cbn [app seg]; [tauto|]. rewrite IH, first_addr_app. tauto.
Qed.

Lemma seg_lookup m l e a n : seg m l e -> (a, n) ∈ l -> exists v, m !! a = Some (v, n).
Proof.
  induction l as [|[b k] l IH]; cbn [seg]; [intros _ []%elem_of_nil|]. intros [Hb Hs] [[= -> ->]|Hin]%elem_of_cons; eauto.
Qed.

Lemma seg_insert m l e a v : a ∉ map fst l -> seg (<[a := v]> m) l e <-> seg m l e.
Proof.
  induction l as [|[b n] l IH]; cbn [map fst seg]; intros Ha; [done|]. rewrite IH by set_solver.
  by rewrite lookup_insert_ne by set_solver.
Qed.

Lemma ordered_app lo l l' : ordered lo (l ++ l') <-> ordered lo l /\ ordered (end_of lo l) l'.
Proof. revert lo. induction l as [|[a n] l IH]; intros lo; cbn [app ordered end_of]; [tauto|]. rewrite IH. tauto. Qed.

Lemma end_of_app lo l l' : end_of lo (l ++ l') = end_of (end_of lo l) l'.
Proof. revert lo. induction l as [|[a n] l IH]; intros lo; cbn [app end_of]; [done|]. apply IH. Qed.

Lemma end_of_le lo l : ordered lo l -> lo <= end_of lo l.
Proof.
  revert lo. induction l as [|[b m] l IH]; intros lo; cbn [ordered end_of]; [lia|]. intros (? & ? & Ho). specialize (IH _ Ho). lia.
Qed.

Lemma ordered_bounds lo l a n : ordered lo l -> (a, n) ∈ l -> lo < a /\ 0 <= n /\ a + UNIT * n <= end_of lo l.
Proof.
  revert lo. induction l as [|[b m] l IH]; intros lo; cbn [ordered end_of]; [intros _ []%elem_of_nil|].
  intros (Hb & Hm & Ho) [[= -> ->]|Hin]%elem_of_cons.
  - apply end_of_le in Ho. lia.
  - destruct (IH _ Ho Hin) as (? & ? & ?). lia.
Qed.

Lemma ordered_weaken lo lo' l : lo' <= lo -> ordered lo l -> ordered lo' l.
Proof. destruct l as [|[a n] l]; cbn [ordered]; [done|]. intros ? (? & ? & ?). split; [lia|done]. Qed.

Lemma elem_addr a l : a ∈ map fst l -> exists n : Z, (a : Z, n) ∈ l.
Proof. intros ([b n] & <- & Hin%list_elem_of_In)%list_elem_of_In%in_map_iff. by exists n. Qed.

Lemma addr_elem a (n : Z) l : (a : Z, n) ∈ l -> a ∈ map fst l.
Proof. intros H. apply list_elem_of_In, (in_map fst l (a, n)), list_elem_of_In, H. Qed.

(** ** free() *)

Lemma hptr_eq h a v n : h_hdr h !! a = Some (v, n) -> hptr h a = v /\ hsize h a = n.
Proof. intros H. unfold hptr, hsize. by rewrite H. Qed.

(** The search goes on over blocks below the one that precedes [bp] ... *)
Lemma find_before h bp e f : forall vs lo, seg (h_hdr h) vs e -> ordered lo vs -> (end_of lo vs < e \/ vs = []) -> e < bp ->
  free_find (length vs + f) h bp (first_addr vs e) = free_find f h bp e.
Proof.
  induction vs as [|[a n] vs IH]; intros lo Hs Ho He Hbp; [done|]. cbn [seg ordered end_of length Nat.add first_addr] in *.
  destruct Hs as [Ha Hs], Ho as (Hlo & Hn & Ho). destruct He as [He|]; [|done]. cbn [free_find]. destruct (hptr_eq _ _ _ _ Ha) as [-> _].
  pose proof (end_of_le _ _ Ho). assert (a < first_addr vs e /\ first_addr vs e <= e) as [H1 H2].
  { destruct vs as [|[b m] vs]; cbn [first_addr]; [cbn [end_of] in *; lia|]. cbn [ordered end_of] in *. destruct Ho as (? & ? & Ho).
    apply end_of_le in Ho. lia. }
  rewrite (proj2 (Z.ltb_ge bp _)), andb_false_r, (proj2 (Z.leb_gt _ a)) by lia. cbn [andb]. by apply (IH _ Hs Ho); auto.
Qed.

(** ... and over blocks above it, to the static header. *)
Lemma find_after h bp base f : forall vs lo, seg (h_hdr h) vs base -> ordered lo vs -> bp <= lo -> base < bp ->
  free_find (length vs + f) h bp (first_addr vs base) = free_find f h bp base.
Proof.
  induction vs as [|[a n] vs IH]; intros lo Hs Ho Hlo Hbp; [done|]. cbn [seg ordered length Nat.add first_addr] in *.
  destruct Hs as [Ha Hs], Ho as (Hlo' & Hn & Ho). cbn [free_find]. destruct (hptr_eq _ _ _ _ Ha) as [-> _].
  rewrite (proj2 (Z.ltb_ge a bp)) by lia. cbn [andb orb]. rewrite <- (IH _ Hs Ho) by lia.
  assert ((first_addr vs base <=? a) && (bp <? first_addr vs base) = false) as ->; [|done].
  destruct vs as [|[b m] vs]; cbn [first_addr ordered] in *; apply andb_false_iff; [right|left]; lia.
Qed.

Lemma find_here h bp p f : p < bp -> bp < hptr h p \/ hptr h p <= p -> free_find (S f) h bp p = Some p.
Proof.
  intros Hp Hn. cbn [free_find]. rewrite (proj2 (Z.ltb_lt p bp)) by done. cbn [andb orb].
  destruct (bp <? hptr h p) eqn:E; [done|]. apply Z.ltb_ge in E. by rewrite (proj2 (Z.leb_le (hptr h p) p)) by lia.
Qed.

(** The block before [bp] is found from wherever the search starts. *)
Lemma free_find_ok base h k p pn l2 bp fuel : heap_ok base h (k ++ (p, pn) :: l2) -> p < bp ->
  (forall a, a ∈ map fst l2 -> bp < a) -> base < bp -> (length (k ++ (p, pn) :: l2) <= fuel)%nat ->
  free_find fuel h bp (h_freep h) = Some p.
Proof.
  intros [Hs Ho Hb Hpos Hf] Hp Hl2 Hbase Hfuel. rewrite length_app in Hfuel. cbn [length] in Hfuel.
  destruct (ordered_bounds _ _ p pn Ho) as (Hpb & _); [set_solver|].
  assert (first_addr k p = base) as Hfirst by (destruct k as [|[? ?] ?]; cbn in Hb; by simplify_eq).
  apply seg_app in Hs as [Hk [Hp' Hl]]. cbn [first_addr] in Hk. apply ordered_app in Ho as [Hok [Hop [_ Hol]]].
  assert (forall k1 k2 f, k = k1 ++ k2 -> (length k2 < f)%nat -> free_find f h bp (first_addr k2 p) = Some p) as Hlow.
  { intros k1 k2 f -> Hlen. replace f with (length k2 + S (f - length k2 - 1))%nat by lia.
    apply seg_app in Hk as [_ Hk2]. apply ordered_app in Hok as [Hok1 Hok2]. rewrite end_of_app in Hop.
    rewrite (find_before h bp p _ k2 (end_of (base - 1) k1)) by auto. apply find_here; [done|].
    destruct (hptr_eq _ _ _ _ Hp') as [-> _]. destruct l2 as [|[b m] l2]; cbn [first_addr]; [right; lia|].
    left. apply Hl2. cbn [map fst]. set_solver. }
  rewrite map_app in Hf. cbn [map fst] in Hf. apply elem_of_app in Hf as [Hf|[->|Hf]%elem_of_cons].
  - apply elem_addr in Hf as [n Hf]. apply list_elem_of_split in Hf as (k1 & k2 & ->). rewrite length_app in Hfuel. cbn [length] in Hfuel.
    apply (Hlow k1 ((h_freep h, n) :: k2)); [done|cbn [length]; lia].
  - apply (Hlow k []); [by rewrite app_nil_r|simpl; lia].
  - apply elem_addr in Hf as [n Hf]. apply list_elem_of_split in Hf as (m1 & m2 & ->). rewrite length_app in Hfuel. cbn [length] in Hfuel.
    apply seg_app in Hl as [_ Hl]. apply ordered_app in Hol as [_ Hol].
    replace fuel with (length ((h_freep h, n) :: m2) + (fuel - length ((h_freep h, n) :: m2)))%nat by (cbn [length]; lia).
    change (h_freep h) with (first_addr ((h_freep h, n) :: m2) base) at 3.
    rewrite (find_after h bp base _ _ bp Hl); [|split; [|by destruct Hol as (_ & ? & ?)]|done..].
    + rewrite <- Hfirst. apply (Hlow []); [done|cbn [length]; lia].
    + apply Hl2. rewrite map_app. cbn [map fst]. set_solver.
Qed.

(** A new list in place of the blocks around [p]. *)
Lemma first_addr_head k l e base : head (k ++ l) = Some (base, 0) -> l <> [] -> first_addr (k ++ l) e = base.
Proof. destruct k as [|[? ?] ?]; [destruct l as [|[? ?] ?]; [done|]|]; cbn; by intros [= -> ->]. Qed.

Lemma covers_cons a n l x : covers ((a, n) :: l) x <-> a <= x < a + UNIT * n \/ covers l x.
Proof.
  unfold covers. split.
  - intros (b & m & [[= -> ->]|Hin]%elem_of_cons & Hx); [by left|right]. by exists b, m.
  - intros [Hx|(b & m & Hin & Hx)]; [exists a, n|exists b, m]; set_solver.
Qed.

Lemma covers_app l l' x : covers (l ++ l') x <-> covers l x \/ covers l' x.
Proof. unfold covers. setoid_rewrite elem_of_app. naive_solver. Qed.

(** The list behind the freed block: the block itself, grown by an adjacent
    successor, and what follows. *)
Lemma join_upper_ok base h bp x n p pn l2 : h_hdr h !! bp = Some (x, n) -> h_hdr h !! p = Some (first_addr l2 base, pn) ->
  seg (h_hdr h) l2 base -> ordered (bp + UNIT * n - 1) l2 -> 0 < n -> base < bp -> p <> bp -> end_of (bp + UNIT * n) l2 < 2 ^ 36 -> 0 <= bp ->
  exists bn tail, h_hdr (join_upper h bp p) = <[bp := (first_addr tail base, bn)]> (h_hdr h) /\
    seg (h_hdr h) tail base /\ ordered (bp + UNIT * bn) tail /\ n <= bn /\ tail `suffix_of` l2 /\
    (forall y, covers ((bp, bn) :: tail) y <-> covers ((bp, n) :: l2) y) /\
    end_of (bp + UNIT * bn) tail = end_of (bp + UNIT * n) l2.
Proof.
  intros Hbp Hp Hs Ho Hn Hbase Hne Hend Hnn. unfold join_upper. destruct (hptr_eq _ _ _ _ Hbp) as [_ ->]. destruct (hptr_eq _ _ _ _ Hp) as [-> _].
  destruct l2 as [|[c cn] l2]; cbn [first_addr seg ordered end_of] in *.
  - rewrite (proj2 (Z.eqb_neq _ base)) by lia. exists n, []. unfold set_ptr. cbn [h_hdr first_addr]. destruct (hptr_eq _ _ _ _ Hbp) as [_ ->].
    split_and!; try done; lia.
  - destruct Hs as [Hc Hs], Ho as (Hlo & Hcn & Ho). pose proof (end_of_le _ _ Ho) as Hle. destruct (bp + UNIT * n =? c) eqn:E.
    + apply Z.eqb_eq in E. subst c. destruct (hptr_eq _ _ _ _ Hc) as [_ ->]. rewrite u32_small by lia. exists (n + cn), l2.
      assert (hptr (set_size bp (n + cn) h) p = bp + UNIT * n) as ->.
      { unfold hptr, set_size. cbn [h_hdr]. by rewrite lookup_insert_ne, Hp by done. }
      assert (hptr (set_size bp (n + cn) h) (bp + UNIT * n) = first_addr l2 base) as ->.
      { unfold hptr, set_size. cbn [h_hdr]. by rewrite lookup_insert_ne, Hc by lia. }
      split.
      { unfold set_ptr, set_size. cbn [h_hdr]. unfold hsize. cbn [h_hdr]. by rewrite lookup_insert_eq, insert_insert_eq. }
      replace (bp + UNIT * (n + cn)) with (bp + UNIT * n + UNIT * cn) by lia.
      split_and!; [done|done|lia|by exists [(bp + UNIT * n, cn)]| |done]. intros y. rewrite !covers_cons.
      assert (bp <= y < bp + UNIT * (n + cn) <-> bp <= y < bp + UNIT * n \/ bp + UNIT * n <= y < bp + UNIT * n + UNIT * cn) by lia. tauto.
    + apply Z.eqb_neq in E. exists n, ((c, cn) :: l2). unfold set_ptr. cbn [h_hdr first_addr]. destruct (hptr_eq _ _ _ _ Hbp) as [_ ->].
      cbn [seg ordered end_of]. split_and!; try done; lia.
Qed.

(** The blocks that replace the predecessor and the block. *)
Definition merged (p pn bp bn : Z) : list (Z * Z) := if p + UNIT * pn =? bp then [(p, pn + bn)] else [(p, pn); (bp, bn)].

Lemma join_lower_ok base h bp p v pn bn tail : h_hdr h !! bp = Some (first_addr tail base, bn) -> h_hdr h !! p = Some (v, pn) ->
  p <> bp -> 0 <= pn -> 0 <= bn -> pn + bn < 2 ^ 32 -> seg (h_hdr h) tail base -> p ∉ map fst tail ->
  exists v', h_hdr (join_lower h bp p) = <[p := v']> (h_hdr h) /\ seg (h_hdr (join_lower h bp p)) (merged p pn bp bn ++ tail) base.
Proof.
  intros Hbp Hp Hne Hpn Hbn Hlt Hs Hnin. unfold join_lower, merged. destruct (hptr_eq _ _ _ _ Hbp) as [Hb1 Hb2]. destruct (hptr_eq _ _ _ _ Hp) as [_ ->].
  destruct (p + UNIT * pn =? bp).
  - rewrite Hb2, u32_small by lia. eexists. split.
    + unfold set_ptr, set_size. cbn [h_hdr]. by rewrite insert_insert_eq.
    + unfold set_ptr, set_size. cbn [h_hdr app seg]. rewrite insert_insert_eq, lookup_insert_eq. rewrite seg_insert by done. split; [|done].
      unfold hptr, hsize. cbn [h_hdr]. by rewrite lookup_insert_eq, lookup_insert_ne, Hbp by done.
  - eexists. split; [done|]. unfold set_ptr. cbn [h_hdr app seg first_addr]. destruct (hptr_eq _ _ _ _ Hp) as [_ ->].
    rewrite lookup_insert_eq, lookup_insert_ne by done. rewrite seg_insert by done. done.
Qed.

(** A block that is not free lies in a gap of the list. *)
Definition unfree (bl : list (Z * Z)) (bp n : Z) : Prop := forall x, bp <= x < bp + UNIT * n -> ~ covers bl x.

Lemma unfree_disjoint base bl bp n a m : unfree bl bp n -> 0 < n -> base < bp -> (a, m) ∈ bl -> a = base /\ m = 0 \/ 0 < m ->
  bp + UNIT * n <= a \/ a < bp /\ a + UNIT * m <= bp.
Proof.
  intros Hu Hn Hb Hin [[-> ->]|Hm]; [lia|]. destruct (Z_lt_le_dec a (bp + UNIT * n)); [|lia].
  destruct (Z_lt_le_dec bp (a + UNIT * m)); [|lia]. exfalso. apply (Hu (Z.max a bp)); [lia|]. exists a, m. split; [done|lia].
Qed.

Lemma split_at bp n : forall l lo, ordered lo l ->
  (forall a m, (a, m) ∈ l -> bp + UNIT * n <= a \/ a < bp /\ a + UNIT * m <= bp) -> 0 < n ->
  exists l1 l2, l = l1 ++ l2 /\ (forall a m, (a, m) ∈ l1 -> a < bp /\ a + UNIT * m <= bp) /\ ordered (bp + UNIT * n - 1) l2.
Proof.
  induction l as [|[a m] l IH]; intros lo Ho Hd Hn; [exists [], []; split_and!; [done|intros ? ? []%elem_of_nil|done]|].
  cbn [ordered] in Ho. destruct Ho as (Hlo & Hm & Ho). destruct (Hd a m) as [Ha|Ha]; [set_solver|..].
  - exists [], ((a, m) :: l). split_and!; [done|intros ? ? []%elem_of_nil|]. cbn [ordered]. split_and!; [lia|done|done].
  - destruct (IH _ Ho) as (l1 & l2 & -> & H1 & H2); [set_solver|done|]. exists ((a, m) :: l1), l2.
    split_and!; [done| |done]. intros b k [[= -> ->]|?]%elem_of_cons; auto.
Qed.

Lemma heap_ok_base base h bl a m : heap_ok base h bl -> (a, m) ∈ bl -> a = base /\ m = 0 \/ 0 < m.
Proof.
  intros [_ Ho Hb Hp _] Hin. rewrite Forall_forall in Hp. specialize (Hp _ Hin) as [Hp|Hp]; [|by right]. cbn [fst] in Hp. subst a.
  destruct bl as [|[b k] bl]; [done|]. cbn in Hb. injection Hb as -> ->. apply elem_of_cons in Hin as [[= ->]|Hin]; [by left|].
  cbn [ordered] in Ho. destruct Ho as (_ & _ & Ho). destruct (ordered_bounds _ _ _ _ Ho Hin). lia.
Qed.

Lemma gap_at base h bl bp n : heap_ok base h bl -> unfree bl bp n -> 0 < n -> base < bp ->
  exists k p pn l2, bl = k ++ (p, pn) :: l2 /\ p < bp /\ p + UNIT * pn <= bp /\ ordered (bp + UNIT * n - 1) l2.
Proof.
  intros Hh Hu Hn Hb. pose proof Hh as [_ Ho Hbase _ _].
  destruct (split_at bp n bl (base - 1) Ho) as (l1 & l2 & E & H1 & H2); [|done|].
  { intros a m Hin. eapply unfree_disjoint; try done. by eapply heap_ok_base. }
  destruct l1 as [|[p pn] k _] using rev_ind.
  - exfalso. cbn [app] in E. subst l2. destruct bl as [|[a m] bl]; [done|]. cbn in Hbase. injection Hbase as -> ->.
    cbn [ordered] in H2. lia.
  - exists k, p, pn, l2. destruct (H1 p pn); [set_solver|]. split_and!; [|done..]. by rewrite E, <- app_assoc.
Qed.

Lemma merged_ok k lo p pn bp bn tail : ordered lo (k ++ [(p, pn)]) -> p < bp -> p + UNIT * pn <= bp -> 0 < bn -> ordered (bp + UNIT * bn) tail ->
  ordered lo (k ++ merged p pn bp bn ++ tail) /\ end_of lo (k ++ merged p pn bp bn ++ tail) = end_of (bp + UNIT * bn) tail /\
  (forall x, covers (k ++ merged p pn bp bn ++ tail) x <-> covers (k ++ [(p, pn)]) x \/ covers ((bp, bn) :: tail) x).
Proof.
  intros Ho Hp Hle Hbn Ht. apply ordered_app in Ho as [Hk [Hlo [Hpn _]]]. rewrite ordered_app, end_of_app. unfold merged.
  assert (forall x l l', covers (l ++ l') x <-> covers l x \/ covers l' x) as Hca by (intros; apply covers_app).
  destruct (p + UNIT * pn =? bp) eqn:E; [apply Z.eqb_eq in E|apply Z.eqb_neq in E]; cbn [app ordered end_of].
  - replace (p + UNIT * (pn + bn)) with (bp + UNIT * bn) by lia. split_and!; try done; [lia|]. intros x.
    rewrite !Hca, !covers_cons. assert (~ covers [] x) by (intros (? & ? & []%elem_of_nil & _)).
    assert (p <= x < p + UNIT * (pn + bn) <-> p <= x < p + UNIT * pn \/ bp <= x < bp + UNIT * bn) by lia. tauto.
  - split_and!; try done; [lia..|]. intros x. rewrite !Hca, !covers_cons.
    assert (~ covers [] x) by (intros (? & ? & []%elem_of_nil & _)). tauto.
Qed.

Lemma end_of_lo lo lo' l : l <> [] -> end_of lo l = end_of lo' l.
Proof. by destruct l as [|[a n] l]. Qed.

Lemma end_of_max lo lo' l : end_of lo l <= Z.max (end_of lo' l) lo.
Proof. destruct l as [|[a n] l]; cbn [end_of]; lia. Qed.

Lemma merged_pos base p pn bp bn : p = base \/ 0 < pn -> 0 <= pn -> 0 < bn -> Forall (fun b => b.1 = base \/ 0 < b.2) (merged p pn bp bn).
Proof.
  intros Hp Hpn Hbn. unfold merged. case_match; rewrite !Forall_cons, Forall_nil; cbn [fst snd]; split_and!; auto; right; lia.
Qed.

Lemma merged_head base k p pn bp bn l l' : head (k ++ (p, pn) :: l) = Some (base, 0) -> base < bp ->
  head (k ++ merged p pn bp bn ++ l') = Some (base, 0).
Proof.
  destruct k as [|b k]; [|done]. cbn. intros [= -> ->] Hb. unfold merged. by rewrite (proj2 (Z.eqb_neq _ bp)) by lia.
Qed.

(** What free() does to the ring. *)
Definition freed (base : Z) (h : heap) (bl : list (Z * Z)) (bp n : Z) (h' : heap) : Prop :=
  exists bl', heap_ok base h' bl' /\ (forall x, covers bl' x <-> covers bl x \/ bp <= x < bp + UNIT * n) /\
    end_of (base - 1) bl' <= Z.max (end_of (base - 1) bl) (bp + UNIT * n) /\ (length bl' <= S (length bl))%nat /\
    (forall a, a ∈ map fst bl' -> a ∈ map fst bl \/ a = bp) /\
    (forall a, a ∉ map fst bl -> a <> bp -> h_hdr h' !! a = h_hdr h !! a).

(** The new headers of the predecessor and of the block. *)
Lemma relink_ok base h bp x n p pn l2 : h_hdr h !! bp = Some (x, n) -> h_hdr h !! p = Some (first_addr l2 base, pn) ->
  seg (h_hdr h) l2 base -> ordered (bp + UNIT * n - 1) l2 -> 0 < n -> base < bp -> 0 <= p < bp -> 0 <= pn -> p + UNIT * pn <= bp ->
  end_of (bp + UNIT * n) l2 < 2 ^ 36 ->
  exists bn tail v v', let h' := join_lower (join_upper h bp p) bp p in
    h_hdr h' = <[p := v']> (<[bp := v]> (h_hdr h)) /\ seg (h_hdr h') (merged p pn bp bn ++ tail) base /\
    ordered (bp + UNIT * bn) tail /\ 0 < bn /\ tail `suffix_of` l2 /\
    (forall y, covers ((bp, bn) :: tail) y <-> covers ((bp, n) :: l2) y) /\
    end_of (bp + UNIT * bn) tail = end_of (bp + UNIT * n) l2.
Proof.
  intros Hbp Hp Hs Ho Hn Hb Hlt Hpn Hle Hend.
  destruct (join_upper_ok base h bp x n p pn l2) as (bn & tail & Eh1 & Hst & Hot & Hbn' & Hsuf & Hcov & Hend3); [done..|lia|done|lia|].
  assert (forall a, a ∈ map fst tail -> bp < a) as Htail by (intros a [m Hm]%elem_addr; destruct (ordered_bounds _ _ _ _ Hot Hm); lia).
  pose proof (end_of_le _ _ Hot).
  destruct (join_lower_ok base (join_upper h bp p) bp p (first_addr l2 base) pn bn tail) as (v' & Eh2 & Hs'); try lia.
  { rewrite Eh1. apply lookup_insert_eq. }
  { rewrite Eh1. by rewrite lookup_insert_ne by lia. }
  { rewrite Eh1. rewrite seg_insert; [done|]. intros ?%Htail. lia. }
  { intros ?%Htail. lia. }
  exists bn, tail, (first_addr tail base, bn), v'. cbv zeta. rewrite Eh2, Eh1 in *. split_and!; try done. lia.
Qed.

Lemma free_ok base h bl bp x n fuel : heap_ok base h bl -> h_hdr h !! bp = Some (x, n) -> 0 < n -> 0 <= base < bp ->
  unfree bl bp n -> end_of (base - 1) bl < 2 ^ 36 -> bp + UNIT * n < 2 ^ 36 -> (length bl <= fuel)%nat ->
  exists h', free fuel h (bp + UNIT) = Some h' /\ freed base h bl bp n h'.
Proof.
  intros Hh Hbp Hn [Hb0 Hb] Hu Hend Hbn Hfuel. destruct (gap_at base h bl bp n Hh Hu Hn Hb) as (k & p & pn & l2 & -> & Hp & Hpn & Hl2).
  assert (forall a, a ∈ map fst l2 -> bp < a) as Hl2'.
  { intros a [m Hm]%elem_addr. destruct (ordered_bounds _ _ _ _ Hl2 Hm). lia. }
  pose proof Hh as [Hs Ho Hbase Hpos _]. apply seg_app in Hs as [Hsk [Hsp Hs2]]. cbn [first_addr] in Hsk.
  rewrite (cons_middle (p, pn) k l2) in Ho, Hend, Hpos |- *. rewrite app_assoc in Ho, Hend, Hpos |- *. rewrite end_of_app in Hend.
  apply ordered_app in Ho as [Hok Ho2]. apply Forall_app in Hpos as [Hpos1 Hpos2].
  destruct (ordered_bounds _ _ p pn Hok) as (Hpb & Hpn0 & _); [set_solver|].
  assert (end_of (bp + UNIT * n) l2 < 2 ^ 36) as Hend2 by (destruct l2 as [|? ?]; [done|by rewrite (end_of_lo _ (end_of (base - 1) (k ++ [(p, pn)])))]).
  destruct (relink_ok base h bp x n p pn l2) as (bn & tail & v & v' & Eh & Hs' & Hot & Hbn' & [l2' ->] & Hcov & Hend3); try done; [lia|].
  destruct (merged_ok k (base - 1) p pn bp bn tail) as (Hord & Hend' & Hcov'); [done..|].
  assert (forall a, a ∈ map fst k -> a < p) as Hk.
  { intros a [m Hm]%elem_addr. apply ordered_app in Hok as [Hok [? _]]. destruct (ordered_bounds _ _ _ _ Hok Hm) as (? & ? & ?). lia. }
  exists (set_freep p (join_lower (join_upper h bp p) bp p)). split.
  { unfold free. replace (bp + UNIT - UNIT) with bp by lia. by rewrite (free_find_ok base h k p pn (l2' ++ tail)). }
  exists (k ++ merged p pn bp bn ++ tail). split_and!.
  - split; cbn [set_freep h_hdr h_freep]; [|done|by eapply merged_head| |].
    + apply seg_app. split; [|done]. assert (first_addr (merged p pn bp bn ++ tail) base = p) as -> by (unfold merged; by case_match).
      rewrite Eh, !seg_insert; [done|intros ?%Hk; lia..].
    + apply Forall_app in Hpos1 as [Hpk Hpp], Hpos2 as [_ Hpt]. apply Forall_cons in Hpp as [Hpp _].
      rewrite !Forall_app. split_and!; [done|by apply merged_pos|done].
    + rewrite !map_app. unfold merged. case_match; cbn [map fst]; set_solver.
  - intros y. rewrite Hcov', Hcov, covers_cons, !covers_app. tauto.
  - rewrite Hend', Hend3, (end_of_app _ (k ++ _)). apply end_of_max.
  - assert (length (merged p pn bp bn) <= 2)%nat by (unfold merged; case_match; simpl; lia). rewrite !length_app. cbn [length]. lia.
  - intros a. rewrite !map_app. unfold merged. case_match; cbn [map fst]; set_solver.
  - intros a Ha Hne. cbn [set_freep h_hdr]. rewrite Eh, !lookup_insert_ne; [done|done|]. intros <-. apply Ha. rewrite !map_app. cbn [map fst]. set_solver.
Qed.

(** ** malloc() *)

(** What malloc() takes from the ring: the block at [a]. *)
Definition allocated (base : Z) (h : heap) (bl : list (Z * Z)) (nunits a : Z) (h' : heap) : Prop :=
  exists bl' v, heap_ok base h' bl' /\ h_hdr h' !! a = Some (v, nunits) /\ base < a /\
    (forall x, covers bl x <-> covers bl' x \/ a <= x < a + UNIT * nunits) /\ unfree bl' a nunits /\
    end_of (base - 1) bl' <= end_of (base - 1) bl /\ (length bl' <= length bl)%nat /\
    (forall b, b ∉ map fst bl -> ~ covers bl b -> h_hdr h' !! b = h_hdr h !! b).

(** In an ordered list the bytes of a block belong to no other. *)
Lemma ordered_unfree lo k a n l : ordered lo (k ++ (a, n) :: l) -> unfree (k ++ l) a n.
Proof.
  intros Ho x Hx (b & m & Hin & Hb). apply ordered_app in Ho as [Hk [Ha [_ Hl]]].
  apply elem_of_app in Hin as [Hin|Hin].
  - destruct (ordered_bounds _ _ _ _ Hk Hin). lia.
  - destruct (ordered_bounds _ _ _ _ Hl Hin). lia.
Qed.

Lemma ordered_notin lo k a n l : ordered lo (k ++ (a, n) :: l) -> a ∉ map fst k /\ a ∉ map fst l.
Proof.
  intros Ho. apply ordered_app in Ho as [Hk [Ha [? Hl]]]. split; intros [m Hin]%elem_addr.
  - destruct (ordered_bounds _ _ _ _ Hk Hin). lia.
  - destruct (ordered_bounds _ _ _ _ Hl Hin). lia.
Qed.

Lemma ordered_drop lo k b l : ordered lo (k ++ b :: l) -> ordered lo (k ++ l) /\ end_of lo (k ++ l) <= end_of lo (k ++ b :: l).
Proof.
  destruct b as [a n]. rewrite !ordered_app, !end_of_app. cbn [ordered end_of]. intros (Hk & Ha & Hn & Hl).
  split; [split; [done|]; eapply ordered_weaken; [|done]; lia|].
  destruct l as [|[b m] l]; cbn [end_of]; [lia|done].
Qed.

Lemma take_exact base h k q qn p nunits l2 : heap_ok base h (k ++ (q, qn) :: (p, nunits) :: l2) -> 0 < nunits ->
  allocated base h (k ++ (q, qn) :: (p, nunits) :: l2) nunits p (set_freep q (set_ptr q (hptr h p) h)).
Proof.
  intros [Hs Ho Hb Hpos Hf] Hn. exists (k ++ (q, qn) :: l2). pose proof Hs as (Hsk & Hsq & Hsp & Hs2)%seg_app. cbn [first_addr] in *.
  pose proof (ordered_notin _ _ _ _ _ Ho) as [Hqk Hqp]. pose proof (ordered_bounds _ _ p nunits Ho ltac:(set_solver)) as (Hbp & _ & _).
  assert (base <> p) as Hne.
  { intros <-. destruct k as [|[b m] k]; cbn in Hb; injection Hb as -> ->; cbn [map fst] in Hqp; [set_solver|].
    cbn [app ordered] in Ho. destruct Ho as (_ & _ & Ho). pose proof (ordered_bounds _ _ base nunits Ho ltac:(set_solver)). lia. }
  destruct (hptr_eq _ _ _ _ Hsp) as [-> _]. unfold set_freep, set_ptr. destruct (hptr_eq _ _ _ _ Hsq) as [_ ->].
  rewrite (cons_middle (q, qn)), app_assoc in Ho. pose proof (ordered_drop _ _ _ _ Ho) as [Ho' He']. exists (first_addr l2 base).
  split_and!; cbn [h_hdr h_freep].
  - split; cbn [h_hdr h_freep].
    + apply seg_app. rewrite seg_insert by done. cbn [seg first_addr]. rewrite lookup_insert_eq, seg_insert by set_solver. done.
    + by rewrite <- app_assoc in Ho'.
    + destruct k; done.
    + rewrite !Forall_app, !Forall_cons in *. tauto.
    + rewrite map_app. cbn [map fst]. set_solver.
  - rewrite lookup_insert_ne; [done|]. intros ->. cbn [map fst] in Hqp. set_solver.
  - lia.
  - intros x. rewrite !covers_app, !covers_cons. tauto.
  - rewrite (cons_middle (q, qn)), app_assoc. by eapply ordered_unfree.
  - rewrite (cons_middle (q, qn)), app_assoc. rewrite (cons_middle (q, qn) k ((p, nunits) :: l2)), app_assoc. done.
  - rewrite !length_app. cbn [length]. lia.
  - intros b Hb' _. rewrite lookup_insert_ne; [done|]. intros ->. apply Hb'. rewrite map_app. cbn [map fst]. set_solver.
Qed.

Lemma take_split base h k p pn nunits q l2 : heap_ok base h (k ++ (p, pn) :: l2) -> q ∈ map fst (k ++ (p, pn) :: l2) -> 0 < nunits < pn ->
  allocated base h (k ++ (p, pn) :: l2) nunits (p + UNIT * (pn - nunits))
    (set_freep q (set_size (p + UNIT * (pn - nunits)) nunits (set_size p (pn - nunits) h))).
Proof.
  intros [Hs Ho Hb Hpos Hf] Hq Hn. exists (k ++ (p, pn - nunits) :: l2). pose proof Hs as (Hsk & Hsp & Hs2)%seg_app. cbn [first_addr] in *.
  pose proof (ordered_notin _ _ _ _ _ Ho) as [Hpk Hpl]. pose proof (ordered_bounds _ _ p pn Ho ltac:(set_solver)) as (Hbp & _ & _).
  set (a := p + UNIT * (pn - nunits)). assert (a <> p) as Hap by (unfold a; lia).
  pose proof Ho as (Hok & Hop & _ & Hol)%ordered_app.
  assert (a ∉ map fst k) as Hak by (intros [m Hm]%elem_addr; destruct (ordered_bounds _ _ _ _ Hok Hm); unfold a in *; lia).
  assert (a ∉ map fst l2) as Hal by (intros [m Hm]%elem_addr; destruct (ordered_bounds _ _ _ _ Hol Hm); unfold a in *; lia).
  assert (ordered (base - 1) (k ++ (p, pn - nunits) :: l2)) as Ho'.
  { apply ordered_app. cbn [ordered]. split_and!; [done..|lia|]. eapply ordered_weaken; [|done]. lia. }
  unfold set_freep, set_size. cbn [h_hdr h_freep]. destruct (hptr_eq _ _ _ _ Hsp) as [-> _].
  eexists. split_and!; cbn [h_hdr h_freep].
  - split; cbn [h_hdr h_freep].
    + apply seg_app. rewrite !seg_insert by done. cbn [seg first_addr]. rewrite lookup_insert_ne, lookup_insert_eq, !seg_insert by done. done.
    + done.
    + destruct k as [|? ?]; [|done]. cbn in Hb. injection Hb as -> ->. lia.
    + rewrite !Forall_app, !Forall_cons in *. cbn [fst snd] in *. destruct Hpos as (? & ? & ?). split_and!; try done. right. lia.
    + rewrite map_app in Hq |- *. done.
  - apply lookup_insert_eq.
  - unfold a. lia.
  - intros x. rewrite !covers_app, !covers_cons. assert (p <= x < p + UNIT * pn <-> p <= x < p + UNIT * (pn - nunits) \/ a <= x < a + UNIT * nunits) by (unfold a; lia). tauto.
  - intros x Hx (b & m & Hin & Hb'). apply elem_of_app in Hin as [Hin|[[= -> ->]|Hin]%elem_of_cons].
    + destruct (ordered_bounds _ _ _ _ Hok Hin). unfold a in *. lia.
    + unfold a in *. lia.
    + destruct (ordered_bounds _ _ _ _ Hol Hin). unfold a in *. lia.
  - rewrite !end_of_app. cbn [end_of]. pose proof (end_of_max (end_of (base - 1) k) 0 l2). destruct l2 as [|[? ?] ?]; cbn [end_of]; lia.
  - rewrite !length_app. cbn [length]. lia.
  - intros b Hb' Hc. rewrite !lookup_insert_ne; [done|..].
    + intros <-. apply Hb'. rewrite map_app. cbn [map fst]. set_solver.
    + intros <-. apply Hc. exists p, pn. split; [set_solver|]. unfold a. lia.
Qed.

Lemma take_ok base h k q qn p pn l2 nunits : heap_ok base h (k ++ (q, qn) :: (p, pn) :: l2) -> 0 < nunits <= pn -> pn < 2 ^ 32 ->
  exists a h', take_block h nunits q p = (a + UNIT, h') /\ allocated base h (k ++ (q, qn) :: (p, pn) :: l2) nunits a h'.
Proof.
  intros Hh Hn Hp. pose proof Hh as [(_ & _ & Hsp & _)%seg_app _ _ _ _]. destruct (hptr_eq _ _ _ _ Hsp) as [_ E]. unfold take_block. rewrite E.
  destruct (pn =? nunits) eqn:En.
  - apply Z.eqb_eq in En. subst nunits. eexists _, _. split; [done|]. apply take_exact; [done|lia].
  - apply Z.eqb_neq in En. rewrite u32_small by lia. eexists _, _. split; [done|].
    rewrite (cons_middle (q, qn)), app_assoc in *. apply take_split; [done| |lia]. rewrite !map_app. cbn [map fst]. set_solver.
Qed.

(** *** The search *)

Definition last_addr (vs : list (Z * Z)) (q : Z) : Z := match list.last vs with Some (a, _) => a | None => q end.

Lemma last_addr_cons a n vs q : last_addr ((a, n) :: vs) q = last_addr vs a.
Proof. unfold last_addr. rewrite last_cons. by destruct (list.last vs) as [[? ?]|]. Qed.

(** Blocks that are too small and not at freep are passed over. *)
Lemma loop_walk h nunits f : forall vs e q, seg (h_hdr h) vs e -> Forall (fun b => b.2 < nunits) vs -> h_freep h ∉ map fst vs ->
  malloc_loop (length vs + f) h nunits q (first_addr vs e) = malloc_loop f h nunits (last_addr vs q) e.
Proof.
  induction vs as [|[a n] vs IH]; intros e q Hs Hn Hf; [done|]. cbn [seg length Nat.add first_addr map fst] in *.
  destruct Hs as [Ha Hs]. apply Forall_cons in Hn as [Hn Hns]. cbn [snd] in Hn. cbn [malloc_loop].
  destruct (hptr_eq _ _ _ _ Ha) as [-> ->]. rewrite (proj2 (Z.leb_gt nunits n)) by done.
  rewrite (proj2 (Z.eqb_neq a _)) by set_solver. rewrite last_addr_cons. apply IH; [done..|set_solver].
Qed.

Lemma first_fit nunits (l : list (Z * Z)) : Forall (fun b => b.2 < nunits) l \/
  exists l1 p pn l2, l = l1 ++ (p, pn) :: l2 /\ Forall (fun b => b.2 < nunits) l1 /\ nunits <= pn.
Proof.
  induction l as [|[a n] l [IH|(l1 & p & pn & l2 & -> & H1 & H2)]]; [by left|..]; destruct (Z_lt_le_dec n nunits).
  - left. by constructor.
  - right. exists [], a, n, l. by split_and!.
  - right. exists ((a, n) :: l1), p, pn, l2. split_and!; [done|by constructor|done].
  - right. exists [], a, n, (l1 ++ (p, pn) :: l2). by split_and!.
Qed.

Lemma last_addr_snoc k f (fn : Z) m : exists K qn, k ++ (f, fn) :: m = K ++ [(last_addr m f, qn)].
Proof.
  destruct m as [|[a n] m _] using rev_ind; [by exists k, fn|]. exists (k ++ (f, fn) :: m), n. unfold last_addr. rewrite last_snoc.
  by rewrite <- app_assoc.
Qed.

Lemma loop_take h nunits q p f n v : h_hdr h !! p = Some (v, n) -> nunits <= n ->
  malloc_loop (S f) h nunits q p = mret (take_block h nunits q p).
Proof. intros Hp Hn. cbn [malloc_loop]. destruct (hptr_eq _ _ _ _ Hp) as [_ ->]. by rewrite (proj2 (Z.leb_le nunits n)). Qed.

(** The search finds a block that is large enough, with its predecessor, or comes
    back to freep. *)
Lemma search_ok base h bl nunits fuel : heap_ok base h bl -> 0 < nunits -> (length bl < fuel)%nat ->
  (exists k q qn p pn l2, bl = k ++ (q, qn) :: (p, pn) :: l2 /\ nunits <= pn /\
     malloc_loop fuel h nunits (h_freep h) (hptr h (h_freep h)) = mret (take_block h nunits q p)) \/
  (Forall (fun b => b.2 < nunits) bl /\ exists q f, (fuel < f + length bl)%nat /\
     malloc_loop fuel h nunits (h_freep h) (hptr h (h_freep h)) = malloc_loop f h nunits q (h_freep h)).
Proof.
  intros [Hs Ho Hb Hpos Hf] Hn Hfuel. destruct (elem_addr _ _ Hf) as [fn Hin]. apply list_elem_of_split in Hin as (k0 & m & ->).
  pose proof (ordered_notin _ _ _ _ _ Ho) as [Hfk Hfm]. pose proof Hs as (Hsk & Hsf & Hsm)%seg_app. cbn [first_addr] in Hsk.
  destruct (hptr_eq _ _ _ _ Hsf) as [-> _]. rewrite length_app in Hfuel. cbn [length] in Hfuel.
  destruct (first_fit nunits m) as [Hm|(m1 & p & pn & m2 & -> & Hm1 & Hpn)].
  - replace fuel with (length m + (fuel - length m))%nat by lia. rewrite loop_walk by done. set (q := last_addr m _).
    assert (first_addr (k0 ++ [(h_freep h, fn)]) base = base) as Hfirst by (destruct k0 as [|[? ?] ?]; cbn in Hb |- *; congruence).
    assert (seg (h_hdr h) (k0 ++ [(h_freep h, fn)]) (first_addr m base)) as Hseg by (apply seg_app; split; [done|split; done]).
    destruct (first_fit nunits (k0 ++ [(h_freep h, fn)])) as [Hk|(k1 & p & pn & k2 & E & Hk1 & Hpn)].
    + right. apply Forall_app in Hk as [Hk Hf1]. apply Forall_cons in Hf1 as [Hf1 _]. split; [by apply Forall_app; split; [|constructor]|].
      exists (last_addr k0 q), (fuel - length m - length k0)%nat. split; [rewrite length_app; simpl; lia|].
      replace (fuel - length m)%nat with (length k0 + (fuel - length m - length k0))%nat at 1 by lia.
      rewrite <- Hfirst, first_addr_app at 1. cbn [first_addr]. by rewrite loop_walk.
    + left. assert (h_freep h ∉ map fst k1) as Hfk1.
      { destruct k2 as [|b k2 _] using rev_ind; [by apply app_inj_tail in E as [-> _]|].
        rewrite app_comm_cons, app_assoc in E. apply app_inj_tail in E as [-> _]. rewrite map_app in Hfk. set_solver. }
      rewrite E in Hseg, Hfirst. apply seg_app in Hseg as [Hs1 [Hsp _]]. rewrite first_addr_app in Hfirst. cbn [first_addr] in *.
      rewrite (cons_middle (h_freep h, fn)), app_assoc, E in Hb |- *. destruct k1 as [|[q' qn] k1 _] using rev_ind.
      { cbn in Hb. injection Hb as -> ->. lia. }
      exists k1, q', qn, p, pn, (k2 ++ m). split_and!; [by rewrite <- !app_assoc|done|].
      assert (length (k0 ++ [(h_freep h, fn)]) = length ((k1 ++ [(q', qn)]) ++ (p, pn) :: k2)) as Hlen by (by rewrite E).
      rewrite !length_app in Hlen. cbn [length] in Hlen.
      replace (fuel - length m)%nat with (length (k1 ++ [(q', qn)]) + S (fuel - length m - length (k1 ++ [(q', qn)]) - 1))%nat
        by (rewrite length_app; cbn [length]; lia).
      rewrite <- Hfirst, loop_walk by done. unfold last_addr. rewrite last_snoc. by eapply loop_take.
  - left. destruct (last_addr_snoc k0 (h_freep h) fn m1) as (K & qn & EK).
    exists K, (last_addr m1 (h_freep h)), qn, p, pn, m2. split_and!; [|done|].
    + rewrite app_comm_cons, app_assoc, EK, <- app_assoc. done.
    + rewrite first_addr_app. cbn [first_addr]. rewrite length_app in Hfuel. cbn [length] in Hfuel.
      replace fuel with (length m1 + S (fuel - length m1 - 1))%nat by lia. apply seg_app in Hsm as [Hs1 [Hsp _]].
      rewrite map_app in Hfm. rewrite loop_walk; [|done|done|set_solver]. by eapply loop_take.
Qed.

(** ** The allocator and sbrk() *)

(** An operating system that grows the process up to [lim] and shrinks it for a
    negative size, as growproc() does, which keeps the memory and reports success
    when the new end would be negative; the state is the end of the memory. *)
Definition brk_h (lim : Z) (X : Type) (e : sys X) : Z -> X * Z :=
  match e in sys X return Z -> X * Z with
  | SSbrk n => fun brk => if brk + n <=? lim then (brk, if 0 <=? brk + n then brk + n else brk) else (-1, brk)
  | SPipe => fun brk => ((-1, (0, 0)), brk)
  | SRead _ _ => fun brk => ((-1, []), brk)
  | SFstat _ => fun brk => ((-1, Stat 0 0 0 0 0), brk)
  | SWaitStatus => fun brk => ((-1, 0), brk)
  | SFork | SWait | SWrite _ _ | SClose _ | SKill _ | SExec _ _ | SOpen _ _ | SMknod _ _ _ | SUnlink _ | SLink _ _ | SMkdir _
  | SChdir _ | SDup _ | SGetpid | SSleep _ | SUptime | SRaw _ _ | SLoad _ | SStore _ _ => fun brk => (-1, brk)
  end.

(** The allocator before its first use or with the ring [bl], in the memory below
    [brk]. *)
Definition arena (base : Z) (h : heap) (bl : list (Z * Z)) (brk : Z) : Prop :=
  (h_freep h = 0 /\ bl = [(base, 0)] \/ heap_ok base h bl) /\ 0 < base < brk /\ end_of (base - 1) bl <= brk.

(** What is added to the free memory by morecore(). *)
Definition core_units (nunits : Z) : Z := if nunits <? 4096 then 4096 else nunits.

Lemma heap_ok_below base h bl brk a : heap_ok base h bl -> base < brk -> end_of (base - 1) bl <= brk -> a ∈ map fst bl -> a < brk.
Proof.
  intros Hh Hb He [n Hin]%elem_addr. destruct (heap_ok_base _ _ _ _ _ Hh Hin) as [[-> _]|Hn]; [done|].
  pose proof Hh as [_ Ho _ _ _]. destruct (ordered_bounds _ _ _ _ Ho Hin). lia.
Qed.

Lemma morecore_ok base h bl brk lim nunits fuel : heap_ok base h bl -> 0 < base < brk -> end_of (base - 1) bl <= brk ->
  0 < nunits -> core_units nunits * UNIT < 2 ^ 31 -> lim < 2 ^ 36 -> brk <= lim -> (length bl <= fuel)%nat ->
  let brk' := brk + UNIT * core_units nunits in
  if lim <? brk' then urun (brk_h lim) (morecore fuel h nunits) brk = (Done (0, h), brk)
  else exists h', urun (brk_h lim) (morecore fuel h nunits) brk = (Done (h_freep h', h'), brk') /\
    freed base (set_size brk (core_units nunits) h) bl brk (core_units nunits) h'.
Proof.
  intros Hh Hb He Hn Hi Hlim Hbrk Hfuel brk'. unfold morecore. fold (core_units nunits).
  assert (4096 <= core_units nunits) as Hcu by (unfold core_units; case_match; lia).
  rewrite urun_bind, urun_call. cbn [brk_h]. rewrite i32_small by lia. rewrite (proj2 (Z.leb_le 0 _)) by lia.
  replace (brk + core_units nunits * UNIT) with brk' by (unfold brk'; lia). destruct (lim <? brk') eqn:E.
  - apply Z.ltb_lt in E. by rewrite (proj2 (Z.leb_gt brk' lim)).
  - apply Z.ltb_ge in E. rewrite (proj2 (Z.leb_le brk' lim)) by done. rewrite (proj2 (Z.eqb_neq brk (-1))) by lia.
    assert (brk ∉ map fst bl) as Hnin by (intros ?%(heap_ok_below base h bl brk); [lia|done|lia|done]).
    destruct (free_ok base (set_size brk (core_units nunits) h) bl brk (hptr h brk) (core_units nunits) fuel) as (h' & -> & Hf);
      [|apply lookup_insert_eq|lia|lia| |lia|unfold brk' in E; lia|done|].
    + destruct Hh as [Hs Ho Hbase Hpos Hfp]. split; [|done..]. cbn [set_size h_hdr]. by rewrite seg_insert.
    + intros x Hx (a & n & Hin & Ha). pose proof Hh as [_ Ho _ _ _]. destruct (ordered_bounds _ _ _ _ Ho Hin). lia.
    + by exists h'.
Qed.

(** The ring malloc() works on: the static header alone on the first call. *)
Definition init_heap (base : Z) (h : heap) : heap :=
  if h_freep h =? 0 then set_size base 0 (set_ptr base base (set_freep base h)) else h.

Lemma init_ok base h bl brk : arena base h bl brk ->
  heap_ok base (init_heap base h) bl /\ forall b, b <> base -> h_hdr (init_heap base h) !! b = h_hdr h !! b.
Proof.
  intros ([[Hf ->]|Hh] & Hb & _); unfold init_heap.
  - rewrite Hf. cbn [Z.eqb]. unfold set_size, set_ptr, set_freep. cbn [h_hdr h_freep]. split.
    + split; cbn [h_hdr h_freep seg ordered first_addr map fst head]; try done.
      * unfold hptr. cbn [h_hdr]. by rewrite !lookup_insert_eq.
      * split_and!; lia.
      * repeat constructor.
      * set_solver.
    + intros b Hne. by rewrite !lookup_insert_ne.
  - rewrite (proj2 (Z.eqb_neq _ 0)); [done|]. pose proof Hh as [_ Ho _ _ Hfp]. apply elem_addr in Hfp as [n Hin].
    destruct (ordered_bounds _ _ _ _ Ho Hin). lia.
Qed.

(** A call that fits takes a block of the ring. *)
Lemma loop_fit base h bl nunits fuel : heap_ok base h bl -> 0 < nunits -> (length bl < fuel)%nat -> end_of (base - 1) bl < 2 ^ 36 -> 0 <= base ->
  ~ Forall (fun b => b.2 < nunits) bl ->
  exists a h', malloc_loop fuel h nunits (h_freep h) (hptr h (h_freep h)) = mret (a + UNIT, h') /\ allocated base h bl nunits a h'.
Proof.
  intros Hh Hn Hf He Hb Hnot. destruct (search_ok base h bl nunits fuel Hh Hn Hf) as [(k & q & qn & p & pn & l2 & -> & Hpn & ->)|[? _]]; [|done].
  pose proof Hh as [_ Ho _ _ _]. destruct (ordered_bounds _ _ p pn Ho ltac:(set_solver)) as (? & ? & ?).
  destruct (take_ok base h k q qn p pn l2 nunits Hh) as (a & h' & -> & Ha); [lia..|]. by exists a, h'.
Qed.

Lemma ordered_gaps lo l a m b k : ordered lo l -> (a, m) ∈ l -> (b, k) ∈ l -> (a, m) = (b, k) \/ a + UNIT * m < b \/ b + UNIT * k < a.
Proof.
  revert lo. induction l as [|[c n] l IH]; intros lo Ho; [intros []%elem_of_nil|]. cbn [ordered] in Ho. destruct Ho as (Hlo & Hn & Ho).
  intros [[= -> ->]|Ha]%elem_of_cons [[= -> ->]|Hb]%elem_of_cons; [by left|..|by apply (IH _ Ho)].
  - destruct (ordered_bounds _ _ _ _ Ho Hb). lia.
  - destruct (ordered_bounds _ _ _ _ Ho Ha). lia.
Qed.

(** Free bytes in a row are in one block. *)
Lemma covered_fits lo0 bl lo n nunits : ordered lo0 bl -> nunits <= n -> 0 < n ->
  (forall x, lo <= x < lo + UNIT * n -> covers bl x) -> ~ Forall (fun b => b.2 < nunits) bl.
Proof.
  intros Ho Hle Hn Hc Hall. rewrite Forall_forall in Hall. destruct (Hc lo ltac:(lia)) as (a & m & Hin & Ha).
  specialize (Hall _ Hin). cbn [snd] in Hall. destruct (Hc (a + UNIT * m) ltac:(lia)) as (b & k & Hin' & Hb).
  destruct (ordered_gaps _ _ _ _ _ _ Ho Hin Hin') as [[= -> ->]|?]; lia.
Qed.

(** The result of a call of malloc(): a block for [nunits] units at [a] out of the
    free blocks and of the memory between [brk] and [brk']. *)
Definition malloced (base : Z) (h : heap) (bl : list (Z * Z)) (brk nunits a : Z) (h' : heap) (brk' : Z) : Prop :=
  exists bl' v, arena base h' bl' brk' /\ h_hdr h' !! a = Some (v, nunits) /\ base < a /\ a + UNIT * nunits <= brk' /\
    unfree bl' a nunits /\
    (forall x, covers bl' x \/ a <= x < a + UNIT * nunits <-> covers bl x \/ brk <= x < brk') /\
    (forall b, b ∉ map fst bl -> ~ covers bl b -> b < brk -> h_hdr h' !! b = h_hdr h !! b).

Lemma allocated_malloced base h0 h bl bl1 brk brk' nunits a h' : allocated base h bl1 nunits a h' -> 0 < nunits ->
  0 < base < brk -> brk <= brk' -> end_of (base - 1) bl1 <= brk' -> ordered (base - 1) bl1 -> 
  (forall x, covers bl1 x <-> covers bl x \/ brk <= x < brk') ->
  (forall b, b ∉ map fst bl -> b < brk -> h_hdr h !! b = h_hdr h0 !! b /\ b ∉ map fst bl1) ->
  malloced base h0 bl brk nunits a h' brk'.
Proof.
  intros (bl' & v & Hh & Hv & Ha & Hc & Hu & He & _ & Hoth) Hn Hb Hbb He1 Ho1 Hc1 Hoth1. exists bl', v. split_and!; try done.
  - split; [by right|]. lia.
  - destruct (proj2 (Hc (a + UNIT * nunits - 1))) as (b & m & Hin & Hx); [right; lia|].
    destruct (ordered_bounds _ _ _ _ Ho1 Hin). lia.
  - intros x. by rewrite <- Hc1, Hc.
  - intros b Hb1 Hb2 Hb3. destruct (Hoth1 b Hb1 Hb3) as [<- Hnin]. apply Hoth; [done|]. rewrite Hc1. intros [?|?]; [done|lia].
Qed.

Lemma loop_ok base h bl brk lim nunits fuel : heap_ok base h bl -> 0 < base < brk -> end_of (base - 1) bl <= brk ->
  0 < nunits -> core_units nunits * UNIT < 2 ^ 31 -> lim < 2 ^ 36 -> brk <= lim -> (2 * length bl + 3 < fuel)%nat ->
  exists r h' brk', urun (brk_h lim) (malloc_loop fuel h nunits (h_freep h) (hptr h (h_freep h))) brk = (Done (r, h'), brk') /\
    brk <= brk' <= lim /\
    (r = 0 /\ h' = h /\ brk' = brk /\ Forall (fun b => b.2 < nunits) bl /\ lim < brk + UNIT * core_units nunits \/
     malloced base h bl brk nunits (r - UNIT) h' brk').
Proof.
  intros Hh Hb He Hn Hcu Hlim Hbl Hf. assert (nunits <= core_units nunits) as Hle by (unfold core_units; case_match; lia).
  pose proof Hh as [Hs Ho _ _ Hfp].
  destruct (search_ok base h bl nunits fuel Hh Hn ltac:(lia)) as [(k & q & qn & p & pn & l2 & -> & Hpn & E)|[Hsmall (q & f & Hff & ->)]].
  - destruct (ordered_bounds _ _ p pn Ho ltac:(set_solver)) as (? & ? & ?).
    destruct (take_ok base h k q qn p pn l2 nunits Hh) as (a & h' & E' & Ha); [lia..|].
    exists (a + UNIT), h', brk. rewrite E, E'. split; [done|]. split; [lia|]. right. replace (a + UNIT - UNIT) with a by lia.
    eapply allocated_malloced; try done. intros x. split; [auto|intros [?|?]; [done|lia]].
  - destruct f as [|f]; [lia|]. cbn [malloc_loop]. destruct (elem_addr _ _ Hfp) as [fn Hin].
    rewrite Forall_forall in Hsmall. pose proof (Hsmall _ Hin) as Hfn. cbn [snd] in Hfn.
    destruct (seg_lookup _ _ _ _ _ Hs Hin) as [v Hv]. destruct (hptr_eq _ _ _ _ Hv) as [_ ->].
    rewrite (proj2 (Z.leb_gt nunits fn)), Z.eqb_refl by done.
    pose proof (morecore_ok base h bl brk lim nunits (S f) Hh Hb He Hn Hcu Hlim Hbl ltac:(lia)) as Hm. cbv zeta in Hm.
    rewrite urun_bind. destruct (lim <? _) eqn:El.
    + apply Z.ltb_lt in El. rewrite Hm. cbn [Z.eqb]. exists 0, h, brk. split; [done|]. split; [lia|]. left. split_and!; try done.
      by apply Forall_forall.
    + apply Z.ltb_ge in El. destruct Hm as (h1 & -> & bl1 & Hh1 & Hc1 & He1 & Hlen1 & Hin1 & Hoth1).
      pose proof Hh1 as [_ Ho1 _ _ Hfp1]. destruct (elem_addr _ _ Hfp1) as [fn1 Hin1'].
      destruct (ordered_bounds _ _ _ _ Ho1 Hin1') as (? & ? & ?). rewrite (proj2 (Z.eqb_neq (h_freep h1) 0)) by lia.
      destruct (loop_fit base h1 bl1 nunits f Hh1) as (a & h' & -> & Ha); [lia..| |].
      { apply (covered_fits _ _ brk (core_units nunits) _ Ho1); [lia..|]. intros x Hx. apply Hc1. by right. }
      exists (a + UNIT), h', (brk + UNIT * core_units nunits). split; [done|]. split; [lia|]. right. replace (a + UNIT - UNIT) with a by lia.
      eapply allocated_malloced; try done; [lia..|]. intros b Hb1 Hb2. split; [|intros [?|?]%Hin1; [done|lia]].
      rewrite Hoth1 by (try done; lia). cbn [set_size h_hdr]. by rewrite lookup_insert_ne by lia.
Qed.

(** C18: malloc() of at most 2^31 - 32 bytes, the largest size whose units fit into
    the int that sbrk() takes, returns a block that holds the bytes asked for, in one row, taken
    from the free blocks and from memory new from sbrk() and no longer free
    afterwards; the ring of free blocks stays in order, what was free besides stays
    free, and the headers of blocks in use are unchanged.  It returns 0 only when no
    free block is large enough and sbrk() refuses, and then changes no free
    block.  The search ends: a fuel of twice the number of blocks is enough. *)
Theorem malloc_correct (base : Z) (h : heap) (bl : list (Z * Z)) (brk lim nbytes : Z) (fuel : nat)
  (Harena : arena base h bl brk) (Hbytes : 0 <= nbytes <= 2 ^ 31 - 32) (Hlim : brk <= lim < 2 ^ 36) (Hfuel : (2 * length bl + 3 < fuel)%nat) :
  exists r h' brk', urun (brk_h lim) (malloc base fuel h nbytes) brk = (Done (r, h'), brk') /\ brk <= brk' <= lim /\
    (r = 0 /\ arena base h' bl brk /\ brk' = brk /\ Forall (fun b => b.2 < nunits_of nbytes) bl /\
       lim < brk + UNIT * core_units (nunits_of nbytes) \/
     malloced base h bl brk (nunits_of nbytes) (r - UNIT) h' brk' /\ nbytes <= UNIT * (nunits_of nbytes - 1)).
Proof.
  destruct (init_ok base h bl brk Harena) as [Hh Hinit]. destruct Harena as (_ & Hb & He).
  assert (0 < nunits_of nbytes /\ nbytes <= UNIT * (nunits_of nbytes - 1) /\ nunits_of nbytes * UNIT < 2 ^ 31) as (Hn & Hu1 & Hu2)
    by (unfold nunits_of; dlia).
  destruct (loop_ok base (init_heap base h) bl brk lim (nunits_of nbytes) fuel Hh) as (r & h' & brk' & E & Hbrk & Hr); try lia.
  { unfold core_units. case_match; lia. }
  exists r, h', brk'. split; [exact E|]. split; [done|]. destruct Hr as [(-> & -> & -> & Hs & Hl)|Hm].
  - left. split; [done|]. split; [split; [by right|done]|done].
  - right. split; [|done]. destruct Hm as (bl' & v & Ha & Hv & Hlo & Hhi & Huf & Hc & Ho). exists bl', v. split_and!; try done.
    intros b Hb1 Hb2 Hb3. rewrite <- Hinit; [by apply Ho|]. intros ->. apply Hb1.
    destruct Hh as [_ _ Hbase _ _]. destruct bl as [|[a n] bl]; [done|]. cbn in Hbase. injection Hbase as -> ->. cbn [map fst]. set_solver.
Qed.

(** C19: free() gives a block back: its bytes and those that were free are the free
    bytes afterwards, joined with adjacent free blocks so that the ring is again in
    order with a gap between any two blocks; no header of another block in use
    changes.  The search for the place ends, from wherever freep points. *)
Theorem free_correct (base : Z) (h : heap) (bl : list (Z * Z)) (brk bp v n : Z) (fuel : nat)
  (Hheap : heap_ok base h bl) (Hend : end_of (base - 1) bl <= brk < 2 ^ 36) (Hblock : h_hdr h !! bp = Some (v, n)) (Hn : 0 < n)
  (Hin : 0 < base < bp /\ bp + UNIT * n <= brk) (Hused : unfree bl bp n) (Hfuel : (length bl <= fuel)%nat) :
  exists h' bl', free fuel h (bp + UNIT) = Some h' /\ heap_ok base h' bl' /\ end_of (base - 1) bl' <= brk /\
    (forall x, covers bl' x <-> covers bl x \/ bp <= x < bp + UNIT * n) /\
    (forall a, a ∉ map fst bl -> a <> bp -> h_hdr h' !! a = h_hdr h !! a).
Proof.
  destruct (free_ok base h bl bp v n fuel) as (h' & E & bl' & Hh & Hc & He & _ & _ & Ho); try done; [lia..|].
  exists h', bl'. split_and!; try done. lia.
Qed.

Lemma malloc_correct_witness : exists r h' brk',
  urun (brk_h 1048576) (malloc 4096 10 (Heap ∅ 0) 100) 8192 = (Done (r, h'), brk') /\ r = 8192 + 16 * 4088 + 16 /\
  malloced 4096 (Heap ∅ 0) [(4096, 0)] 8192 8 (r - UNIT) h' brk'.
Proof.
  assert (arena 4096 (Heap ∅ 0) [(4096, 0)] 8192) as Ha by (split; [by left|simpl; lia]).
  destruct (malloc_correct 4096 (Heap ∅ 0) [(4096, 0)] 8192 1048576 100 10 Ha) as (r & h' & brk' & E & _ & [(-> & _ & _ & _ & Hl)|[Hm _]]);
    [lia|lia|simpl; lia| |].
  - vm_compute in Hl. discriminate.
  - exists r, h', brk'. split; [exact E|]. split; [|exact Hm].
    assert (fst (urun (brk_h 1048576) (malloc 4096 10 (Heap ∅ 0) 100) 8192) = Done (r, h')) as E' by (rewrite E; reflexivity).
    vm_compute in E'. injection E' as <- _. reflexivity.
Defined.

(** A block of three units between two free blocks, above one of them directly. *)
Definition demo_heap : heap := Heap {[16 := (64, 0); 64 := (240, 4); 128 := (0, 3); 240 := (16, 1)]} 240.

Lemma free_correct_witness : exists h' bl',
  free 5 demo_heap (128 + UNIT) = Some h' /\ heap_ok 16 h' bl' /\ end_of (16 - 1) bl' <= 4096 /\
  (forall x, covers bl' x <-> covers [(16, 0); (64, 4); (240, 1)] x \/ 128 <= x < 128 + UNIT * 3) /\
  (forall a, a ∉ map fst [(16, 0); (64, 4); (240, 1)] -> a <> 128 -> h_hdr h' !! a = h_hdr demo_heap !! a).
Proof.
  apply (free_correct 16 demo_heap [(16, 0); (64, 4); (240, 1)] 4096 128 0 3 5).
  - split.
    + cbn. repeat split; reflexivity.
    + cbn. lia.
    + reflexivity.
    + repeat (constructor; [cbn; lia|]). constructor.
    + cbn. right. right. left.
  - cbn. lia.
  - reflexivity.
  - lia.
  - lia.
  - intros x Hx (a & n & Hin & Ha). repeat (apply elem_of_cons in Hin as [[= -> ->]|Hin]; [lia|]). by apply elem_of_nil in Hin.
  - cbn. lia.
Defined.

(** The argument of the first sbrk(). *)
Definition first_sbrk {A} (p : U A) : option Z :=
  match p with
  | UCall _ e _ => match e with SSbrk n => Some n | _ => None end
  | _ => None
  end.

(** The product of morecore() does not fit into the int that sbrk() takes: a large
    request asks to shrink the process. *)
Lemma malloc_huge_shrinks : first_sbrk (malloc 4096 10 (Heap ∅ 0) 4294963184) = Some (-4096).
Proof. vm_compute. reflexivity. Qed.
