(* ===== verification/Usertests.v ===== *)
(** The test program user/usertests.c: each test is a program of system calls
    that returns or exits with status 0 when the kernel passes it.

    Buffers are lists of bytes.  Tests that hand the kernel an address, or use
    memory they got from sbrk(), do so with [SRaw], [SLoad] and [SStore].  A loop
    whose length the program does not fix takes a bound. *)

From Stdlib Require Import ZArith Lia.
From stdpp Require Import base gmap strings list numbers.
From S2P Require Import Prelude Params CString User Umalloc.
Import Uprintf.

Open Scope Z_scope.

(** ** The calls, as the tests write them *)

Module Calls.
Definition open (path : string) (mode : Z) : U Z := call (SOpen (str path) mode).
Definition close (fd : Z) : U Z := call (SClose fd).
Definition write (fd : Z) (bs : list Z) : U Z := call (SWrite fd bs).
Definition read (fd n : Z) : U (Z * list Z) := call (SRead fd n).
Definition unlink (path : string) : U Z := call (SUnlink (str path)).
Definition mkdir (path : string) : U Z := call (SMkdir (str path)).
Definition chdir (path : string) : U Z := call (SChdir (str path)).
Definition link (old new : string) : U Z := call (SLink (str old) (str new)).
Definition fork : U Z := call SFork.
Definition wait0 : U Z := call SWait.
(** wait(&st): the pid and the new value of st; a variable that is not initialized
    starts as 0. *)
Definition wait (st : Z) : U (Z * Z) := '(pid, x) ← call SWaitStatus; mret (pid, if pid <? 0 then st else x).
Definition kill (pid : Z) : U Z := call (SKill pid).
Definition sbrk (n : Z) : U Z := call (SSbrk n).
Definition sleep (n : Z) : U Z := call (SSleep n).
Definition exec (path : string) (argv : list (list Z)) : U Z := call (SExec (str path) argv).
(** if(c){ printf(fmt, ap); exit(1); } *)
Definition bad (c : bool) (fmt : string) (ap : list arg) : U unit := if c then printf fmt ap;; uexit 1 else mret tt.
Definition upto (n : Z) : list Z := seqz 0 (Z.to_nat n).
(** buf with [bs] stored at its start. *)
Definition over (bs buf : list Z) : list Z := bs ++ drop (length bs) buf.
End Calls.
Import Calls.

(** System call numbers of kernel/syscall.h. *)
Abbreviation SYS_pipe := 4.
Abbreviation SYS_read := 5.
Abbreviation SYS_exec := 7.
Abbreviation SYS_open := 15.
Abbreviation SYS_write := 16.
Abbreviation SYS_unlink := 18.
Abbreviation SYS_link := 19.

Module Usertests.

Definition BUFSZ : Z := (MAXOPBLOCKS + 2) * 1024.
(** char buf[BUFSZ], as every test finds it. *)
Definition buf : list Z := replicate (Z.to_nat BUFSZ) 0.

Section tests.
Context (s : list Z).
Let name := AStr (Some s).

(** ** Pointers *)

Definition copyin : U unit :=
  uforM [0x80000000; 0xffffffffffffffff] (fun addr =>
    fd ← open "copyin1" (O_CREATE + O_WRONLY);
    bad (fd <? 0) (line "open(copyin1) failed") [];;
    n ← call (SRaw SYS_write [fd; addr; 8192]);
    bad (0 <=? n) (line "write(fd, %p, 8192) returned %d, not -1") [ALong addr; AInt n];;
    close fd;;
    unlink "copyin1";;
    n ← call (SRaw SYS_write [1; addr; 8192]);
    bad (0 <? n) (line "write(1, %p, 8192) returned %d, not -1 or 0") [ALong addr; AInt n];;
    '(r, (rfd, wfd)) ← call SPipe;
    bad (r <? 0) (line "pipe() failed") [];;
    n ← call (SRaw SYS_write [wfd; addr; 8192]);
    bad (0 <? n) (line "write(pipe, %p, 8192) returned %d, not -1 or 0") [ALong addr; AInt n];;
    close rfd;;
    close wfd;;
    mret tt).

Definition copyout : U unit :=
  uforM [0x80000000; 0xffffffffffffffff] (fun addr =>
    fd ← open "README" 0;
    bad (fd <? 0) (line "open(README) failed") [];;
    n ← call (SRaw SYS_read [fd; addr; 8192]);
    bad (0 <? n) (line "read(fd, %p, 8192) returned %d, not -1 or 0") [ALong addr; AInt n];;
    close fd;;
    '(r, (rfd, wfd)) ← call SPipe;
    bad (r <? 0) (line "pipe() failed") [];;
    n ← write wfd (str "x");
    bad (negb (n =? 1)) (line "pipe write failed") [];;
    n ← call (SRaw SYS_read [rfd; addr; 8192]);
    bad (0 <? n) (line "read(pipe, %p, 8192) returned %d, not -1 or 0") [ALong addr; AInt n];;
    close rfd;;
    close wfd;;
    mret tt).

Definition copyinstr1 : U unit :=
  uforM [0x80000000; 0xffffffffffffffff] (fun addr =>
    fd ← call (SRaw SYS_open [addr; O_CREATE + O_WRONLY]);
    bad (0 <=? fd) (line "open(%p) returned %d, not -1") [ALong addr; AInt fd]).

Definition copyinstr2 : U unit :=
  let b := replicate (Z.to_nat MAXPATH) 120 in
  ret ← call (SUnlink b);
  bad (negb (ret =? -1)) (line "unlink(%s) returned %d, not -1") [AStr (Some b); AInt ret];;
  fd ← call (SOpen b (O_CREATE + O_WRONLY));
  bad (negb (fd =? -1)) (line "open(%s) returned %d, not -1") [AStr (Some b); AInt fd];;
  ret ← call (SLink b b);
  bad (negb (ret =? -1)) (line "link(%s, %s) returned %d, not -1") [AStr (Some b); AStr (Some b); AInt ret];;
  ret ← call (SExec b [str "xx"]);
  bad (negb (ret =? -1)) (line "exec(%s) returned %d, not -1") [AStr (Some b); AInt fd];;
  pid ← fork;
  bad (pid <? 0) (line "fork failed") [];;
  (if pid =? 0 then
     let big := replicate (Z.to_nat PGSIZE) 120 in
     ret ← exec "echo" [big; big; big];
     bad (negb (ret =? -1)) (line "exec(echo, BIG) returned %d, not -1") [AInt fd];;
     uexit 747
   else mret tt);;
  '(_, st) ← wait 0;
  bad (negb (st =? 747)) (line "exec(echo, BIG) succeeded, should have failed") [].

(** The messages print the string at [b], the last byte of memory: after its 'x' the
    access to [top] is a fault.  [args] is the address of the array { "xx", 0 }. *)
Definition copyinstr3 (args : Z) : U unit :=
  sbrk 8192;;
  top ← sbrk 0;
  (if negb (top `mod` PGSIZE =? 0) then sbrk (PGSIZE - top `mod` PGSIZE);; mret tt else mret tt);;
  top ← sbrk 0;
  bad (negb (top `mod` PGSIZE =? 0)) (line "oops") [];;
  let b := top - 1 in
  let complain msg := printf msg [];; call (SLoad top);; UFuel in
  call (SStore b 120);;
  ret ← call (SRaw SYS_unlink [b]);
  if negb (ret =? -1) then complain "unlink(x" else
  fd ← call (SRaw SYS_open [b; O_CREATE + O_WRONLY]);
  if negb (fd =? -1) then complain "open(x" else
  ret ← call (SRaw SYS_link [b; b]);
  if negb (ret =? -1) then complain "link(x" else
  ret ← call (SRaw SYS_exec [b; args]);
  if negb (ret =? -1) then complain "exec(x" else mret tt.

(** See if the kernel refuses to read/write user memory that the application
    doesn't have anymore, because it returned it. *)
Definition rwsbrk : U unit :=
  a ← sbrk 8192;
  bad (a =? -1) (line "sbrk(rwsbrk) failed") [];;
  r ← sbrk (-8192);
  bad (r =? -1) (line "sbrk(rwsbrk) shrink failed") [];;
  fd ← open "rwsbrk" (O_CREATE + O_WRONLY);
  bad (fd <? 0) (line "open(rwsbrk) failed") [];;
  n ← call (SRaw SYS_write [fd; a + 4096; 1024]);
  bad (0 <=? n) (line "write(fd, %p, 1024) returned %d, not -1") [ALong (a + 4096); AInt n];;
  close fd;;
  unlink "rwsbrk";;
  fd ← open "README" O_RDONLY;
  bad (fd <? 0) (line "open(rwsbrk) failed") [];;
  n ← call (SRaw SYS_read [fd; a + 4096; 10]);
  bad (0 <=? n) (line "read(fd, %p, 10) returned %d, not -1") [ALong (a + 4096); AInt n];;
  close fd;;
  uexit 0.

(** ** Files *)

(** test O_TRUNC. *)
Definition truncate1 : U unit :=
  unlink "truncfile";;
  fd1 ← open "truncfile" (O_CREATE + O_WRONLY + O_TRUNC);
  write fd1 (str "abcd");;
  close fd1;;
  fd2 ← open "truncfile" O_RDONLY;
  '(n, _) ← read fd2 32;
  bad (negb (n =? 4)) (line "%s: read %d bytes, wanted 4") [name; AInt n];;
  fd1 ← open "truncfile" (O_WRONLY + O_TRUNC);
  fd3 ← open "truncfile" O_RDONLY;
  '(n, _) ← read fd3 32;
  (if negb (n =? 0) then
     printf (line "aaa fd3=%d") [AInt fd3];; bad true (line "%s: read %d bytes, wanted 0") [name; AInt n]
   else mret tt);;
  '(n, _) ← read fd2 32;
  (if negb (n =? 0) then
     printf (line "bbb fd2=%d") [AInt fd2];; bad true (line "%s: read %d bytes, wanted 0") [name; AInt n]
   else mret tt);;
  write fd1 (str "abcdef");;
  '(n, _) ← read fd3 32;
  bad (negb (n =? 6)) (line "%s: read %d bytes, wanted 6") [name; AInt n];;
  '(n, _) ← read fd2 32;
  bad (negb (n =? 2)) (line "%s: read %d bytes, wanted 2") [name; AInt n];;
  unlink "truncfile";;
  close fd1;;
  close fd2;;
  close fd3;;
  mret tt.

(** write to an open FD whose file has just been truncated. *)
Definition truncate2 : U unit :=
  unlink "truncfile";;
  fd1 ← open "truncfile" (O_CREATE + O_TRUNC + O_WRONLY);
  write fd1 (str "abcd");;
  fd2 ← open "truncfile" (O_TRUNC + O_WRONLY);
  n ← write fd1 (str "x");
  bad (negb (n =? -1)) (line "%s: write returned %d, expected -1") [name; AInt n];;
  unlink "truncfile";;
  close fd1;;
  close fd2;;
  mret tt.

Definition truncate3 : U unit :=
  fd ← open "truncfile" (O_CREATE + O_TRUNC + O_WRONLY);
  close fd;;
  pid ← fork;
  bad (pid <? 0) (line "%s: fork failed") [name];;
  (if pid =? 0 then
     uforM (upto 100) (fun _ =>
       fd ← open "truncfile" O_WRONLY;
       bad (fd <? 0) (line "%s: open failed") [name];;
       n ← write fd (str "1234567890");
       bad (negb (n =? 10)) (line "%s: write got %d, expected 10") [name; AInt n];;
       close fd;;
       fd ← open "truncfile" O_RDONLY;
       read fd 32;;
       close fd;;
       mret tt);;
     uexit 0
   else mret tt);;
  uforM (upto 150) (fun _ =>
    fd ← open "truncfile" (O_CREATE + O_WRONLY + O_TRUNC);
    bad (fd <? 0) (line "%s: open failed") [name];;
    n ← write fd (str "xxx");
    bad (negb (n =? 3)) (line "%s: write got %d, expected 3") [name; AInt n];;
    close fd;;
    mret tt);;
  '(_, xstatus) ← wait 0;
  unlink "truncfile";;
  uexit xstatus.

(** does chdir() call iput(p->cwd) in a transaction? *)
Definition iputtest : U unit :=
  r ← mkdir "iputdir";
  bad (r <? 0) (line "%s: mkdir failed") [name];;
  r ← chdir "iputdir";
  bad (r <? 0) (line "%s: chdir iputdir failed") [name];;
  r ← unlink "../iputdir";
  bad (r <? 0) (line "%s: unlink ../iputdir failed") [name];;
  r ← chdir "/";
  bad (r <? 0) (line "%s: chdir / failed") [name].

(** does exit() call iput(p->cwd) in a transaction? *)
Definition exitiputtest : U unit :=
  pid ← fork;
  bad (pid <? 0) (line "%s: fork failed") [name];;
  (if pid =? 0 then
     r ← mkdir "iputdir";
     bad (r <? 0) (line "%s: mkdir failed") [name];;
     r ← chdir "iputdir";
     bad (r <? 0) (line "%s: child chdir failed") [name];;
     r ← unlink "../iputdir";
     bad (r <? 0) (line "%s: unlink ../iputdir failed") [name];;
     uexit 0
   else mret tt);;
  '(_, xstatus) ← wait 0;
  uexit xstatus.

(** does the error path in open() for attempt to write a directory call iput() in a
    transaction? *)
Definition openiputtest : U unit :=
  r ← mkdir "oidir";
  bad (r <? 0) (line "%s: mkdir oidir failed") [name];;
  pid ← fork;
  bad (pid <? 0) (line "%s: fork failed") [name];;
  (if pid =? 0 then
     fd ← open "oidir" O_RDWR;
     bad (0 <=? fd) (line "%s: open directory for write succeeded") [name];;
     uexit 0
   else mret tt);;
  sleep 1;;
  r ← unlink "oidir";
  bad (negb (r =? 0)) (line "%s: unlink failed") [name];;
  '(_, xstatus) ← wait 0;
  uexit xstatus.

Definition opentest : U unit :=
  fd ← open "echo" 0;
  bad (fd <? 0) (line "%s: open echo failed!") [name];;
  close fd;;
  fd ← open "doesnotexist" 0;
  bad (0 <=? fd) (line "%s: open doesnotexist succeeded!") [name].

Definition writetest : U unit :=
  fd ← open "small" (O_CREATE + O_RDWR);
  bad (fd <? 0) (line "%s: error: creat small failed!") [name];;
  uforM (upto 100) (fun i =>
    n ← write fd (str "aaaaaaaaaa");
    bad (negb (n =? 10)) (line "%s: error: write aa %d new file failed") [name; AInt i];;
    n ← write fd (str "bbbbbbbbbb");
    bad (negb (n =? 10)) (line "%s: error: write bb %d new file failed") [name; AInt i]);;
  close fd;;
  fd ← open "small" O_RDONLY;
  bad (fd <? 0) (line "%s: error: open small failed!") [name];;
  '(i, _) ← read fd 2000;
  bad (negb (i =? 2000)) (line "%s: read failed") [name];;
  close fd;;
  r ← unlink "small";
  bad (r <? 0) (line "%s: unlink small failed") [name].

(** The loop that reads the blocks back; [n] blocks have been read. *)
Fixpoint writebig_read (fuel : nat) (fd n : Z) : U unit :=
  match fuel with
  | O => UFuel
  | S fuel =>
      '(i, bs) ← read fd 1024;
      if i =? 0 then bad (n =? MAXFILE - 1) "%s: read only %d blocks from big" [name; AInt n] else
      if negb (i =? 1024) then bad true (line "%s: read failed %d") [name; AInt i] else
      let x := i32 (of_bytes (take 4 bs)) in
      bad (negb (x =? n)) (line "%s: read content of block %d is %d") [name; AInt n; AInt x];;
      writebig_read fuel fd (n + 1)
  end.
Definition writebig (fuel : nat) : U unit :=
  fd ← open "big" (O_CREATE + O_RDWR);
  bad (fd <? 0) (line "%s: error: creat big failed!") [name];;
  uforM (upto MAXFILE) (fun i =>
    n ← write fd (take 1024 (over (bytes_of 4 i) buf));
    bad (negb (n =? 1024)) (line "%s: error: write big file failed") [name; AInt i]);;
  close fd;;
  fd ← open "big" O_RDONLY;
  bad (fd <? 0) (line "%s: error: open big failed!") [name];;
  writebig_read fuel fd 0;;
  close fd;;
  r ← unlink "big";
  bad (r <? 0) (line "%s: unlink big failed") [name].

(** many creates, followed by unlink test *)
Definition createtest : U unit :=
  uforM (upto 52) (fun i => fd ← call (SOpen [97; 48 + i] (O_CREATE + O_RDWR)); close fd;; mret tt);;
  uforM (upto 52) (fun i => call (SUnlink [97; 48 + i]);; mret tt).

Definition dirtest : U unit :=
  r ← mkdir "dir0";
  bad (r <? 0) (line "%s: mkdir failed") [name];;
  r ← chdir "dir0";
  bad (r <? 0) (line "%s: chdir dir0 failed") [name];;
  r ← chdir "..";
  bad (r <? 0) (line "%s: chdir .. failed") [name];;
  r ← unlink "dir0";
  bad (r <? 0) (line "%s: unlink dir0 failed") [name].

Definition exectest : U unit :=
  unlink "echo-ok";;
  pid ← fork;
  bad (pid <? 0) (line "%s: fork failed") [name];;
  (if pid =? 0 then
     close 1;;
     fd ← open "echo-ok" (O_CREATE + O_WRONLY);
     bad (fd <? 0) (line "%s: create failed") [name];;
     bad (negb (fd =? 1)) (line "%s: wrong fd") [name];;
     r ← exec "echo" [str "echo"; str "OK"];
     bad (r <? 0) (line "%s: exec echo failed") [name]
   else mret tt);;
  '(r, xstatus) ← wait 0;
  (if negb (r =? pid) then printf (line "%s: wait failed!") [name] else mret tt);;
  (if negb (xstatus =? 0) then uexit xstatus else mret tt);;
  fd ← open "echo-ok" O_RDONLY;
  bad (fd <? 0) (line "%s: open failed") [name];;
  '(n, bs) ← read fd 2;
  bad (negb (n =? 2)) (line "%s: read failed") [name];;
  unlink "echo-ok";;
  if (bs !!! 0%nat =? 79) && (bs !!! 1%nat =? 75) then uexit 0 else bad true (line "%s: wrong output") [name].

(** ** Processes *)

(** The reader's loop of pipe1(): [None] when it returns early, the total otherwise. *)
Fixpoint pipe1_read (fuel : nat) (fd seq cc total : Z) : U (option Z) :=
  match fuel with
  | O => UFuel
  | S fuel =>
      '(n, bs) ← read fd cc;
      if n <=? 0 then mret (Some total) else
      if bool_decide (bs = (fun i => u8 (seq + i)) <$> upto n) then
        pipe1_read fuel fd (seq + n) (Z.min (cc * 2) BUFSZ) (total + n)
      else printf (line "%s: pipe1 oops 2") [name];; mret None
  end.

(** simple fork and pipe read/write; the message of the last failure lacks its
    first argument. *)
Definition pipe1 (fuel : nat) : U unit :=
  '(r, (rfd, wfd)) ← call SPipe;
  bad (negb (r =? 0)) (line "%s: pipe() failed") [name];;
  pid ← fork;
  if pid =? 0 then
    close rfd;;
    uforM (upto 5) (fun n =>
      r ← write wfd ((fun i => u8 (n * 1033 + i)) <$> upto 1033);
      bad (negb (r =? 1033)) (line "%s: pipe1 oops 1") [name]);;
    uexit 0
  else if 0 <? pid then
    close wfd;;
    t ← pipe1_read fuel rfd 0 1 0;
    match t with
    | None => mret tt
    | Some total =>
        bad (negb (total =? 5 * 1033)) (line "%s: pipe1 oops 3 total %d") [AInt total];;
        close rfd;;
        '(_, xstatus) ← wait 0;
        uexit xstatus
    end
  else bad true (line "%s: fork() failed") [name].

(** while(1) getpid(); *)
Fixpoint getpid_forever (fuel : nat) : U unit :=
  match fuel with
  | O => UFuel
  | S fuel => call SGetpid;; getpid_forever fuel
  end.

(** test if child is killed (status = -1) *)
Definition killstatus (fuel : nat) : U unit :=
  uforM (upto 100) (fun _ =>
    pid1 ← fork;
    bad (pid1 <? 0) (line "%s: fork failed") [name];;
    (if pid1 =? 0 then getpid_forever fuel;; uexit 0 else mret tt);;
    sleep 1;;
    kill pid1;;
    '(_, xst) ← wait 0;
    bad (negb (xst =? -1)) (line "%s: status should be -1") [name]);;
  uexit 0.

(** meant to be run w/ at most two CPUs; the children loop for ever. *)
Definition preempt : U unit :=
  pid1 ← fork;
  bad (pid1 <? 0) "%s: fork failed" [name];;
  if pid1 =? 0 then UFuel else
  pid2 ← fork;
  bad (pid2 <? 0) (line "%s: fork failed") [name];;
  if pid2 =? 0 then UFuel else
  '(_, (rfd, wfd)) ← call SPipe;
  pid3 ← fork;
  bad (pid3 <? 0) (line "%s: fork failed") [name];;
  if pid3 =? 0 then
    close rfd;;
    n ← write wfd (str "x");
    (if negb (n =? 1) then printf "%s: preempt write error" [name] else mret tt);;
    close wfd;;
    UFuel
  else
  close wfd;;
  '(n, _) ← read rfd BUFSZ;
  if negb (n =? 1) then printf "%s: preempt read error" [name] else
  close rfd;;
  printf "kill... " [];;
  kill pid1;; kill pid2;; kill pid3;;
  printf "wait... " [];;
  wait0;; wait0;; wait0;;
  mret tt.

(** try to find any races between exit and wait *)
Definition exitwait : U unit :=
  uforM (upto 100) (fun i =>
    pid ← fork;
    bad (pid <? 0) (line "%s: fork failed") [name];;
    if negb (pid =? 0) then
      '(r, xstate) ← wait 0;
      bad (negb (r =? pid)) (line "%s: wait wrong pid") [name];;
      bad (negb (i =? xstate)) (line "%s: wait wrong exit status") [name]
    else uexit i).

(** try to find races in the reparenting code that handles a parent exiting when it
    still has live children. *)
Definition reparent : U unit :=
  master_pid ← call SGetpid;
  uforM (upto 200) (fun _ =>
    pid ← fork;
    bad (pid <? 0) (line "%s: fork failed") [name];;
    if negb (pid =? 0) then
      r ← wait0;
      bad (negb (r =? pid)) (line "%s: wait wrong pid") [name]
    else
      pid2 ← fork;
      (if pid2 <? 0 then kill master_pid;; uexit 1 else uexit 0));;
  uexit 0.

(** what if two children exit() at the same time? *)
Definition twochildren : U unit :=
  uforM (upto 1000) (fun _ =>
    pid1 ← fork;
    bad (pid1 <? 0) (line "%s: fork failed") [name];;
    if pid1 =? 0 then uexit 0 else
    pid2 ← fork;
    bad (pid2 <? 0) (line "%s: fork failed") [name];;
    if pid2 =? 0 then uexit 0 else wait0;; wait0;; mret tt).

(** concurrent forks to try to expose locking bugs. *)
Definition forkfork : U unit :=
  uforM (upto 2) (fun _ =>
    pid ← fork;
    bad (pid <? 0) "%s: fork failed" [name];;
    if pid =? 0 then
      uforM (upto 200) (fun _ =>
        pid1 ← fork;
        if pid1 <? 0 then uexit 1 else
        if pid1 =? 0 then uexit 0 else wait0;; mret tt);;
      uexit 0
    else mret tt);;
  uforM (upto 2) (fun _ =>
    '(_, xstatus) ← wait 0;
    bad (negb (xstatus =? 0)) "%s: fork in child failed" [name]).

(** The child of forkforkfork(). *)
Fixpoint fork_until_stop (fuel : nat) : U unit :=
  match fuel with
  | O => UFuel
  | S fuel =>
      fd ← open "stopforking" 0;
      if 0 <=? fd then uexit 0 else
      r ← fork;
      (if r <? 0 then fd ← open "stopforking" (O_CREATE + O_RDWR); close fd;; mret tt else mret tt);;
      fork_until_stop fuel
  end.
Definition forkforkfork (fuel : nat) : U unit :=
  unlink "stopforking";;
  pid ← fork;
  bad (pid <? 0) "%s: fork failed" [name];;
  if pid =? 0 then fork_until_stop fuel else
  sleep 20;;
  fd ← open "stopforking" (O_CREATE + O_RDWR);
  close fd;;
  wait0;;
  sleep 10;;
  mret tt.

(** regression test: reparent() and the locking order. *)
Definition reparent2 : U unit :=
  uforM (upto 800) (fun _ =>
    pid1 ← fork;
    bad (pid1 <? 0) (line "fork failed") [];;
    if pid1 =? 0 then fork;; fork;; uexit 0 else wait0;; mret tt);;
  uexit 0.

(** ** More file system tests *)

(** The loops that read a file to its end: the chunks read, of up to [n] bytes. *)
Fixpoint read_all (fuel : nat) (fd n : Z) (acc : list (Z * list Z)) : U (list (Z * list Z)) :=
  match fuel with
  | O => UFuel
  | S fuel =>
      '(r, bs) ← read fd n;
      if 0 <? r then read_all fuel fd n (acc ++ [(r, bs)]) else mret acc
  end.

(** How often the byte [c] is in the ten bytes of buf after each read. *)
Fixpoint count_byte (c : Z) (b : list Z) (chunks : list (Z * list Z)) : Z :=
  match chunks with
  | [] => 0
  | (_, bs) :: chunks => let b := over bs b in Z.of_nat (length (filter (fun x => x = c) b)) + count_byte c b chunks
  end.

(** two processes write to the same file descriptor: is the offset shared? *)
Definition sharedfd (fuel : nat) : U unit :=
  unlink "sharedfd";;
  fd ← open "sharedfd" (O_CREATE + O_RDWR);
  bad (fd <? 0) "%s: cannot open sharedfd for writing" [name];;
  pid ← fork;
  let b := replicate 10 (if pid =? 0 then 99 else 112) in
  uforM (upto 1000) (fun _ =>
    n ← write fd b;
    bad (negb (n =? 10)) (line "%s: write sharedfd failed") [name]);;
  (if pid =? 0 then uexit 0 else
   '(_, xstatus) ← wait 0;
   if negb (xstatus =? 0) then uexit xstatus else mret tt);;
  close fd;;
  fd ← open "sharedfd" 0;
  bad (fd <? 0) (line "%s: cannot open sharedfd for reading") [name];;
  chunks ← read_all fuel fd 10 [];
  let nc := count_byte 99 b chunks in
  let np := count_byte 112 b chunks in
  close fd;;
  unlink "sharedfd";;
  if (nc =? 10000) && (np =? 10000) then uexit 0 else bad true (line "%s: nc/np test fails") [name].

(** The loop of fourfiles() that reads one of the files: its length. *)
Fixpoint fourfiles_read (fuel : nat) (fd i total : Z) : U Z :=
  match fuel with
  | O => UFuel
  | S fuel =>
      '(n, bs) ← read fd BUFSZ;
      if n <=? 0 then mret total else
      bad (negb (forallb (fun x => x =? 48 + i) bs)) (line "wrong char") [name];;
      fourfiles_read fuel fd i (total + n)
  end.

(** four processes write different files at the same time, to test block allocation. *)
Definition fourfiles (fuel : nat) : U unit :=
  let fname i := [102; 48 + i] in
  uforM (upto 4) (fun pi =>
    call (SUnlink (fname pi));;
    pid ← fork;
    bad (pid <? 0) (line "fork failed") [name];;
    if pid =? 0 then
      fd ← call (SOpen (fname pi) (O_CREATE + O_RDWR));
      bad (fd <? 0) (line "create failed") [name];;
      uforM (upto 12) (fun _ =>
        n ← write fd (replicate 500 (48 + pi));
        bad (negb (n =? 500)) (line "write failed %d") [AInt n]);;
      uexit 0
    else mret tt);;
  uforM (upto 4) (fun _ =>
    '(_, xstatus) ← wait 0;
    if negb (xstatus =? 0) then uexit xstatus else mret tt);;
  uforM (upto 4) (fun i =>
    fd ← call (SOpen (fname i) 0);
    total ← fourfiles_read fuel fd i 0;
    close fd;;
    bad (negb (total =? 12 * 500)) (line "wrong length %d") [AInt total];;
    call (SUnlink (fname i));;
    mret tt).

(** four processes create and delete different files in same directory; the last
    loop unlinks 'p' + i where the files are 'p' + pi. *)
Definition createdelete : U unit :=
  uforM (upto 4) (fun pi =>
    pid ← fork;
    bad (pid <? 0) (line "fork failed") [name];;
    if pid =? 0 then
      uforM (upto 20) (fun i =>
        fd ← call (SOpen [112 + pi; 48 + i] (O_CREATE + O_RDWR));
        bad (fd <? 0) (line "%s: create failed") [name];;
        close fd;;
        if (0 <? i) && (i `mod` 2 =? 0) then
          r ← call (SUnlink [112 + pi; 48 + i / 2]);
          bad (r <? 0) (line "%s: unlink failed") [name]
        else mret tt);;
      uexit 0
    else mret tt);;
  uforM (upto 4) (fun _ =>
    '(_, xstatus) ← wait 0;
    if negb (xstatus =? 0) then uexit 1 else mret tt);;
  uforM (upto 20) (fun i => uforM (upto 4) (fun pi =>
    let file := [112 + pi; 48 + i] in
    fd ← call (SOpen file 0);
    (if ((i =? 0) || (10 <=? i)) && (fd <? 0) then
       bad true (line "%s: oops createdelete %s didn't exist") [name; AStr (Some file)]
     else bad ((1 <=? i) && (i <? 10) && (0 <=? fd)) (line "%s: oops createdelete %s did exist") [name; AStr (Some file)]);;
    if 0 <=? fd then close fd;; mret tt else mret tt));;
  uforM (upto 20) (fun i => uforM (upto 4) (fun pi => call (SUnlink [112 + i; 48 + i]);; mret tt)).

(** can I unlink a file and still read it? *)
Definition unlinkread : U unit :=
  fd ← open "unlinkread" (O_CREATE + O_RDWR);
  bad (fd <? 0) (line "%s: create unlinkread failed") [name];;
  write fd (str "hello");;
  close fd;;
  fd ← open "unlinkread" O_RDWR;
  bad (fd <? 0) (line "%s: open unlinkread failed") [name];;
  r ← unlink "unlinkread";
  bad (negb (r =? 0)) (line "%s: unlink unlinkread failed") [name];;
  fd1 ← open "unlinkread" (O_CREATE + O_RDWR);
  write fd1 (str "yyy");;
  close fd1;;
  '(n, bs) ← read fd BUFSZ;
  bad (negb (n =? 5)) "%s: unlinkread read failed" [name];;
  bad (negb (bs !!! 0%nat =? 104)) (line "%s: unlinkread wrong data") [name];;
  n ← write fd (take 10 (over bs buf));
  bad (negb (n =? 10)) (line "%s: unlinkread write failed") [name];;
  close fd;;
  unlink "unlinkread";;
  mret tt.

Definition linktest : U unit :=
  unlink "lf1";;
  unlink "lf2";;
  fd ← open "lf1" (O_CREATE + O_RDWR);
  bad (fd <? 0) (line "%s: create lf1 failed") [name];;
  n ← write fd (str "hello");
  bad (negb (n =? 5)) (line "%s: write lf1 failed") [name];;
  close fd;;
  r ← link "lf1" "lf2";
  bad (r <? 0) (line "%s: link lf1 lf2 failed") [name];;
  unlink "lf1";;
  r ← open "lf1" 0;
  bad (0 <=? r) (line "%s: unlinked lf1 but it is still there!") [name];;
  fd ← open "lf2" 0;
  bad (fd <? 0) (line "%s: open lf2 failed") [name];;
  '(n, _) ← read fd BUFSZ;
  bad (negb (n =? 5)) (line "%s: read lf2 failed") [name];;
  close fd;;
  r ← link "lf2" "lf2";
  bad (0 <=? r) (line "%s: link lf2 lf2 succeeded! oops") [name];;
  unlink "lf2";;
  r ← link "lf2" "lf1";
  bad (0 <=? r) (line "%s: link non-existent succeeded! oops") [name];;
  r ← link "." "lf1";
  bad (0 <=? r) (line "%s: link . lf1 succeeded! oops") [name].

(** The loop of concreate() over the entries of the directory: [fa] are the files
    seen so far, the result their number. *)
Fixpoint concreate_list (fuel : nat) (fd : Z) (de : list Z) (fa : list Z) : U Z :=
  match fuel with
  | O => UFuel
  | S fuel =>
      '(r, bs) ← read fd 16;
      if r <=? 0 then mret (Z.of_nat (length fa)) else
      let de := over bs de in
      let dname := drop 2 de in
      let cname := AStr (Some (cstr dname)) in
      if of_bytes (take 2 de) =? 0 then concreate_list fuel fd de fa else
      if (dname !!! 0%nat =? 67) && (dname !!! 2%nat =? 0) then
        let i := dname !!! 1%nat - 48 in
        bad ((i <? 0) || (40 <=? i)) (line "%s: concreate weird file %s") [name; cname];;
        bad (bool_decide (i ∈ fa)) (line "%s: concreate duplicate file %s") [name; cname];;
        concreate_list fuel fd de (i :: fa)
      else concreate_list fuel fd de fa
  end.

(** test concurrent create/link/unlink of the same file *)
Definition concreate (fuel : nat) : U unit :=
  let file i := [67; 48 + i] in
  uforM (upto 40) (fun i =>
    call (SUnlink (file i));;
    pid ← fork;
    (if negb (pid =? 0) && (i `mod` 3 =? 1) then call (SLink (str "C0") (file i));; mret tt
     else if (pid =? 0) && (i `mod` 5 =? 1) then call (SLink (str "C0") (file i));; mret tt
     else
       fd ← call (SOpen (file i) (O_CREATE + O_RDWR));
       bad (fd <? 0) (line "concreate create %s failed") [AStr (Some (file i))];;
       close fd;;
       mret tt);;
    if pid =? 0 then uexit 0 else
    '(_, xstatus) ← wait 0;
    if negb (xstatus =? 0) then uexit 1 else mret tt);;
  fd ← open "." 0;
  n ← concreate_list fuel fd (replicate 16 0) [];
  close fd;;
  bad (negb (n =? 40)) (line "%s: concreate not enough files in directory listing") [name];;
  uforM (upto 40) (fun i =>
    pid ← fork;
    bad (pid <? 0) (line "%s: fork failed") [name];;
    (if ((i `mod` 3 =? 0) && (pid =? 0)) || ((i `mod` 3 =? 1) && negb (pid =? 0)) then
       uforM (upto 6) (fun _ => fd ← call (SOpen (file i) 0); close fd;; mret tt)
     else uforM (upto 6) (fun _ => call (SUnlink (file i));; mret tt));;
    if pid =? 0 then uexit 0 else wait0;; mret tt).

(** The random operations of linkunlink(). *)
Fixpoint linkunlink_loop (n : nat) (x : Z) : U unit :=
  match n with
  | O => mret tt
  | S n =>
      let x := u32 (x * 1103515245 + 12345) in
      (if x `mod` 3 =? 0 then fd ← open "x" (O_RDWR + O_CREATE); close fd;; mret tt
       else if x `mod` 3 =? 1 then link "cat" "x";; mret tt
       else unlink "x";; mret tt);;
      linkunlink_loop n x
  end.

(** another concurrent link/unlink/create test, to look for deadlocks. *)
Definition linkunlink : U unit :=
  unlink "x";;
  pid ← fork;
  bad (pid <? 0) (line "%s: fork failed") [name];;
  linkunlink_loop 100 (if negb (pid =? 0) then 1 else 97);;
  if negb (pid =? 0) then wait0;; mret tt else uexit 0.

(** directory that uses indirect blocks *)
Definition bigdir : U unit :=
  let file i := [120; 48 + i / 64; 48 + i `mod` 64] in
  unlink "bd";;
  fd ← open "bd" O_CREATE;
  bad (fd <? 0) (line "%s: bigdir create failed") [name];;
  close fd;;
  uforM (upto 500) (fun i =>
    r ← call (SLink (str "bd") (file i));
    bad (negb (r =? 0)) (line "%s: bigdir link(bd, %s) failed") [name; AStr (Some (file i))]);;
  unlink "bd";;
  uforM (upto 500) (fun i =>
    r ← call (SUnlink (file i));
    bad (negb (r =? 0)) "%s: bigdir unlink failed" [name]).

(** subdir(): files in directories of directories, then the paths that must fail,
    then the clean up. *)
Definition subdir_create : U unit :=
  unlink "ff";;
  r ← mkdir "dd";
  bad (negb (r =? 0)) (line "%s: mkdir dd failed") [name];;
  fd ← open "dd/ff" (O_CREATE + O_RDWR);
  bad (fd <? 0) (line "%s: create dd/ff failed") [name];;
  write fd (str "ff");;
  close fd;;
  r ← unlink "dd";
  bad (0 <=? r) (line "%s: unlink dd (non-empty dir) succeeded!") [name];;
  r ← mkdir "/dd/dd";
  bad (negb (r =? 0)) (line "subdir mkdir dd/dd failed") [name];;
  fd ← open "dd/dd/ff" (O_CREATE + O_RDWR);
  bad (fd <? 0) (line "%s: create dd/dd/ff failed") [name];;
  write fd (str "FF");;
  close fd;;
  fd ← open "dd/dd/../ff" 0;
  bad (fd <? 0) (line "%s: open dd/dd/../ff failed") [name];;
  '(cc, bs) ← read fd BUFSZ;
  bad (negb (cc =? 2) || negb (bs !!! 0%nat =? 102)) (line "%s: dd/dd/../ff wrong content") [name];;
  close fd;;
  r ← link "dd/dd/ff" "dd/dd/ffff";
  bad (negb (r =? 0)) (line "link dd/dd/ff dd/dd/ffff failed") [name];;
  r ← unlink "dd/dd/ff";
  bad (negb (r =? 0)) (line "%s: unlink dd/dd/ff failed") [name];;
  r ← open "dd/dd/ff" O_RDONLY;
  bad (0 <=? r) (line "%s: open (unlinked) dd/dd/ff succeeded") [name];;
  r ← chdir "dd";
  bad (negb (r =? 0)) (line "%s: chdir dd failed") [name];;
  r ← chdir "dd/../../dd";
  bad (negb (r =? 0)) (line "%s: chdir dd/../../dd failed") [name];;
  r ← chdir "dd/../../../dd";
  bad (negb (r =? 0)) (line "chdir dd/../../dd failed") [name];;
  r ← chdir "./..";
  bad (negb (r =? 0)) (line "%s: chdir ./.. failed") [name];;
  fd ← open "dd/dd/ffff" 0;
  bad (fd <? 0) (line "%s: open dd/dd/ffff failed") [name];;
  '(n, _) ← read fd BUFSZ;
  bad (negb (n =? 2)) (line "%s: read dd/dd/ffff wrong len") [name];;
  close fd;;
  mret tt.

Definition subdir_refused : U unit :=
  let nofile path mode msg := r ← open path mode; bad (0 <=? r) (line msg) [name] in
  let not0 (c : U Z) msg := r ← c; bad (r =? 0) (line msg) [name] in
  nofile "dd/dd/ff" O_RDONLY "%s: open (unlinked) dd/dd/ff succeeded!";;
  nofile "dd/ff/ff" (O_CREATE + O_RDWR) "%s: create dd/ff/ff succeeded!";;
  nofile "dd/xx/ff" (O_CREATE + O_RDWR) "%s: create dd/xx/ff succeeded!";;
  nofile "dd" O_CREATE "%s: create dd succeeded!";;
  nofile "dd" O_RDWR "%s: open dd rdwr succeeded!";;
  nofile "dd" O_WRONLY "%s: open dd wronly succeeded!";;
  not0 (link "dd/ff/ff" "dd/dd/xx") "%s: link dd/ff/ff dd/dd/xx succeeded!";;
  not0 (link "dd/xx/ff" "dd/dd/xx") "%s: link dd/xx/ff dd/dd/xx succeeded!";;
  not0 (link "dd/ff" "dd/dd/ffff") "%s: link dd/ff dd/dd/ffff succeeded!";;
  not0 (mkdir "dd/ff/ff") "%s: mkdir dd/ff/ff succeeded!";;
  not0 (mkdir "dd/xx/ff") "%s: mkdir dd/xx/ff succeeded!";;
  not0 (mkdir "dd/dd/ffff") "%s: mkdir dd/dd/ffff succeeded!";;
  not0 (unlink "dd/xx/ff") "%s: unlink dd/xx/ff succeeded!";;
  not0 (unlink "dd/ff/ff") "%s: unlink dd/ff/ff succeeded!";;
  not0 (chdir "dd/ff") "%s: chdir dd/ff succeeded!";;
  not0 (chdir "dd/xx") "%s: chdir dd/xx succeeded!".

Definition subdir : U unit :=
  subdir_create;;
  subdir_refused;;
  r ← unlink "dd/dd/ffff";
  bad (negb (r =? 0)) (line "%s: unlink dd/dd/ff failed") [name];;
  r ← unlink "dd/ff";
  bad (negb (r =? 0)) (line "%s: unlink dd/ff failed") [name];;
  r ← unlink "dd";
  bad (r =? 0) (line "%s: unlink non-empty dd succeeded!") [name];;
  r ← unlink "dd/dd";
  bad (r <? 0) (line "%s: unlink dd/dd failed") [name];;
  r ← unlink "dd";
  bad (r <? 0) (line "%s: unlink dd failed") [name].

(** test writes that are larger than the log. *)
Definition bigwrite : U unit :=
  unlink "bigwrite";;
  uforM ((fun i => 499 + 471 * i) <$> upto ((BUFSZ - 499 + 470) / 471)) (fun sz =>
    fd ← open "bigwrite" (O_CREATE + O_RDWR);
    bad (fd <? 0) (line "%s: cannot create bigwrite") [name];;
    uforM (upto 2) (fun _ =>
      cc ← write fd (take (Z.to_nat sz) buf);
      bad (negb (cc =? sz)) (line "%s: write(%d) ret %d") [name; AInt sz; AInt cc]);;
    close fd;;
    unlink "bigwrite";;
    mret tt).

(** concurrent writes to try to provoke deadlock in the virtio disk driver. *)
Definition manywrites : U unit :=
  uforM (upto 4) (fun ci =>
    pid ← fork;
    bad (pid <? 0) (line "fork failed") [];;
    if pid =? 0 then
      let file := [98; 97 + ci] in
      call (SUnlink file);;
      uforM (upto 30) (fun _ =>
        uforM (upto (ci + 1)) (fun _ =>
          fd ← call (SOpen file (O_CREATE + O_RDWR));
          bad (fd <? 0) (line "%s: cannot create %s") [name; AStr (Some file)];;
          cc ← write fd buf;
          bad (negb (cc =? BUFSZ)) (line "%s: write(%d) ret %d") [name; AInt BUFSZ; AInt cc];;
          close fd;;
          mret tt);;
        call (SUnlink file);;
        mret tt);;
      call (SUnlink file);;
      uexit 0
    else mret tt);;
  uforM (upto 4) (fun _ =>
    '(_, st) ← wait 0;
    if negb (st =? 0) then uexit st else mret tt);;
  uexit 0.

(** The loop of bigfile() that reads the file back: its length. *)
Fixpoint bigfile_read (fuel : nat) (fd i total : Z) : U Z :=
  match fuel with
  | O => UFuel
  | S fuel =>
      '(cc, bs) ← read fd 300;
      bad (cc <? 0) (line "%s: read bigfile failed") [name];;
      if cc =? 0 then mret total else
      bad (negb (cc =? 300)) (line "%s: short read bigfile") [name];;
      bad (negb (bs !!! 0%nat =? i / 2) || negb (bs !!! 299%nat =? i / 2)) (line "%s: read bigfile wrong data") [name];;
      bigfile_read fuel fd (i + 1) (total + cc)
  end.
Definition bigfile (fuel : nat) : U unit :=
  unlink "bigfile.dat";;
  fd ← open "bigfile.dat" (O_CREATE + O_RDWR);
  bad (fd <? 0) "%s: cannot create bigfile" [name];;
  uforM (upto 20) (fun i =>
    n ← write fd (replicate 600 (u8 i));
    bad (negb (n =? 600)) (line "%s: write bigfile failed") [name]);;
  close fd;;
  fd ← open "bigfile.dat" 0;
  bad (fd <? 0) (line "%s: cannot open bigfile") [name];;
  total ← bigfile_read fuel fd 0 0;
  close fd;;
  bad (negb (total =? 20 * 600)) (line "%s: read bigfile wrong total") [name];;
  unlink "bigfile.dat";;
  mret tt.

(** DIRSIZ is 14. *)
Definition fourteen : U unit :=
  r ← mkdir "12345678901234";
  bad (negb (r =? 0)) (line "%s: mkdir 12345678901234 failed") [name];;
  r ← mkdir "12345678901234/123456789012345";
  bad (negb (r =? 0)) (line "%s: mkdir 12345678901234/123456789012345 failed") [name];;
  fd ← open "123456789012345/123456789012345/123456789012345" O_CREATE;
  bad (fd <? 0) (line "%s: create 123456789012345/123456789012345/123456789012345 failed") [name];;
  close fd;;
  fd ← open "12345678901234/12345678901234/12345678901234" 0;
  bad (fd <? 0) (line "%s: open 12345678901234/12345678901234/12345678901234 failed") [name];;
  close fd;;
  r ← mkdir "12345678901234/12345678901234";
  bad (r =? 0) (line "%s: mkdir 12345678901234/12345678901234 succeeded!") [name];;
  r ← mkdir "123456789012345/12345678901234";
  bad (r =? 0) (line "%s: mkdir 12345678901234/123456789012345 succeeded!") [name];;
  unlink "123456789012345/12345678901234";;
  unlink "12345678901234/12345678901234";;
  unlink "12345678901234/12345678901234/12345678901234";;
  unlink "123456789012345/123456789012345/123456789012345";;
  unlink "12345678901234/123456789012345";;
  unlink "12345678901234";;
  mret tt.

Definition rmdot : U unit :=
  r ← mkdir "dots";
  bad (negb (r =? 0)) (line "%s: mkdir dots failed") [name];;
  r ← chdir "dots";
  bad (negb (r =? 0)) (line "%s: chdir dots failed") [name];;
  r ← unlink ".";
  bad (r =? 0) (line "%s: rm . worked!") [name];;
  r ← unlink "..";
  bad (r =? 0) (line "%s: rm .. worked!") [name];;
  r ← chdir "/";
  bad (negb (r =? 0)) (line "%s: chdir / failed") [name];;
  r ← unlink "dots/.";
  bad (r =? 0) (line "%s: unlink dots/. worked!") [name];;
  r ← unlink "dots/..";
  bad (r =? 0) (line "%s: unlink dots/.. worked!") [name];;
  r ← unlink "dots";
  bad (negb (r =? 0)) (line "%s: unlink dots failed!") [name].

Definition dirfile : U unit :=
  fd ← open "dirfile" O_CREATE;
  bad (fd <? 0) (line "%s: create dirfile failed") [name];;
  close fd;;
  r ← chdir "dirfile";
  bad (r =? 0) (line "%s: chdir dirfile succeeded!") [name];;
  fd ← open "dirfile/xx" 0;
  bad (0 <=? fd) (line "%s: create dirfile/xx succeeded!") [name];;
  fd ← open "dirfile/xx" O_CREATE;
  bad (0 <=? fd) (line "%s: create dirfile/xx succeeded!") [name];;
  r ← mkdir "dirfile/xx";
  bad (r =? 0) (line "%s: mkdir dirfile/xx succeeded!") [name];;
  r ← unlink "dirfile/xx";
  bad (r =? 0) (line "%s: unlink dirfile/xx succeeded!") [name];;
  r ← link "README" "dirfile/xx";
  bad (r =? 0) (line "%s: link to dirfile/xx succeeded!") [name];;
  r ← unlink "dirfile";
  bad (negb (r =? 0)) (line "%s: unlink dirfile failed!") [name];;
  fd ← open "." O_RDWR;
  bad (0 <=? fd) (line "%s: open . for writing succeeded!") [name];;
  fd ← open "." 0;
  n ← write fd (str "x");
  bad (0 <? n) (line "%s: write . succeeded!") [name];;
  close fd;;
  mret tt.

(** test that iput() is called at the end of _namei(); also tests empty file names. *)
Definition iref : U unit :=
  uforM (upto (Z.of_nat NINODE + 1)) (fun _ =>
    r ← mkdir "irefd";
    bad (negb (r =? 0)) (line "%s: mkdir irefd failed") [name];;
    r ← chdir "irefd";
    bad (negb (r =? 0)) (line "%s: chdir irefd failed") [name];;
    call (SMkdir []);;
    call (SLink (str "README") []);;
    fd ← call (SOpen [] O_CREATE);
    (if 0 <=? fd then close fd;; mret tt else mret tt);;
    fd ← open "xx" O_CREATE;
    (if 0 <=? fd then close fd;; mret tt else mret tt);;
    unlink "xx";;
    mret tt);;
  uforM (upto (Z.of_nat NINODE + 1)) (fun _ => chdir "..";; unlink "irefd";; mret tt);;
  chdir "/";;
  mret tt.

(** The loop that forks [n] processes that exit at once: how many forks worked. *)
Fixpoint fork_many (n : nat) (done : Z) : U Z :=
  match n with
  | O => mret done
  | S n =>
      pid ← fork;
      if pid <? 0 then mret done else
      if pid =? 0 then uexit 0 else fork_many n (done + 1)
  end.

(** test that fork fails gracefully: inside the bigger usertests binary, we run out
    of memory first. *)
Definition forktest : U unit :=
  n ← fork_many 1000 0;
  bad (n =? 0) (line "%s: no fork at all!") [name];;
  bad (n =? 1000) (line "%s: fork claimed to work 1000 times!") [name];;
  uforM (upto n) (fun _ =>
    r ← wait0;
    bad (r <? 0) (line "%s: wait stopped early") [name]);;
  r ← wait0;
  bad (negb (r =? -1)) (line "%s: wait got too many") [name].

(** ** Memory *)

Definition sbrkbasic : U unit :=
  let TOOMUCH := 1024 * 1024 * 1024 in
  pid ← fork;
  bad (pid <? 0) (line "fork failed in sbrkbasic") [];;
  (if pid =? 0 then
     a ← sbrk TOOMUCH;
     if a =? -1 then uexit 0 else
     uforM (upto (TOOMUCH / 4096)) (fun i => call (SStore (a + 4096 * i) 99);; mret tt);;
     uexit 1
   else mret tt);;
  '(_, xstatus) ← wait 0;
  bad (xstatus =? 1) (line "%s: too much memory allocated!") [name];;
  a0 ← sbrk 0;
  uforM (upto 5000) (fun i =>
    b ← sbrk 1;
    bad (negb (b =? a0 + i)) (line "%s: sbrk test failed %d %x %x") [name; AInt i; AInt (i32 (a0 + i)); AInt (i32 b)];;
    call (SStore b 1);;
    mret tt);;
  let a := a0 + 5000 in
  pid ← fork;
  bad (pid <? 0) (line "%s: sbrk test fork failed") [name];;
  sbrk 1;;
  c ← sbrk 1;
  bad (negb (c =? a + 1)) (line "%s: sbrk test failed post-fork") [name];;
  (if pid =? 0 then uexit 0 else mret tt);;
  '(_, xstatus) ← wait 0;
  uexit xstatus.

(** The argument of sbrk() is an int. *)
Definition sbrkmuch : U unit :=
  let BIG := 100 * 1024 * 1024 in
  oldbrk ← sbrk 0;
  a ← sbrk 0;
  p ← sbrk (i32 (BIG - a));
  bad (negb (p =? a)) (line "%s: sbrk test failed to grow big address space; enough phys mem?") [name];;
  eee ← sbrk 0;
  uforM (upto ((eee - a + 4095) / 4096)) (fun i => call (SStore (a + 4096 * i) 1);; mret tt);;
  let lastaddr := BIG - 1 in
  call (SStore lastaddr 99);;
  a ← sbrk 0;
  c ← sbrk (- PGSIZE);
  bad (c =? -1) (line "%s: sbrk could not deallocate") [name];;
  c ← sbrk 0;
  bad (negb (c =? a - PGSIZE)) (line "%s: sbrk deallocation produced wrong address, a %x c %x") [name; AInt (i32 a); AInt (i32 c)];;
  a ← sbrk 0;
  c ← sbrk PGSIZE;
  wrong ← (if negb (c =? a) then mret true else e ← sbrk 0; mret (negb (e =? a + PGSIZE)));
  bad wrong (line "%s: sbrk re-allocation failed, a %x c %x") [name; AInt (i32 a); AInt (i32 c)];;
  v ← call (SLoad lastaddr);
  bad (v =? 99) (line "%s: sbrk de-allocation didn't really deallocate") [name];;
  a ← sbrk 0;
  e ← sbrk 0;
  c ← sbrk (i32 (- (e - oldbrk)));
  bad (negb (c =? a)) (line "%s: sbrk downsize failed, a %x c %x") [name; AInt (i32 a); AInt (i32 c)].

(** can we read the kernel's memory? *)
Definition kernmem : U unit :=
  uforM ((fun i => KERNBASE + 50000 * i) <$> upto 40) (fun a =>
    pid ← fork;
    bad (pid <? 0) (line "%s: fork failed") [name];;
    (if pid =? 0 then
       v ← call (SLoad a);
       bad true (line "%s: oops could read %x = %x") [name; AInt (i32 a); AInt v]
     else mret tt);;
    '(_, xstatus) ← wait 0;
    if negb (xstatus =? -1) then uexit 1 else mret tt).

(** user code should not be able to write to addresses above MAXVA: MAXVA, shifted
    until it is 0. *)
Definition MAXVAplus : U unit :=
  uforM ((fun i => Z.shiftl MAXVA i) <$> upto 26) (fun a =>
    pid ← fork;
    bad (pid <? 0) (line "%s: fork failed") [name];;
    (if pid =? 0 then
       call (SStore a 99);;
       bad true (line "%s: oops wrote %x") [name; AInt (i32 a)]
     else mret tt);;
    '(_, xstatus) ← wait 0;
    if negb (xstatus =? -1) then uexit 1 else mret tt).

(** for(;;) sleep(1000); *)
Fixpoint sleep_forever (fuel : nat) : U unit :=
  match fuel with
  | O => UFuel
  | S fuel => sleep 1000;; sleep_forever fuel
  end.

(** The loop of sbrkfail() that starts the children: their pids. *)
Fixpoint sbrkfail_start (n fuel : nat) (rfd wfd : Z) : U (list Z) :=
  match n with
  | O => mret []
  | S n =>
      pid ← fork;
      (if pid =? 0 then
         e ← sbrk 0;
         sbrk (i32 (100 * 1024 * 1024 - e));;
         write wfd (str "x");;
         sleep_forever fuel
       else mret tt);;
      (if negb (pid =? -1) then read rfd 1;; mret tt else mret tt);;
      pids ← sbrkfail_start n fuel rfd wfd;
      mret (pid :: pids)
  end.

(** if we run the system out of memory, does it clean up the last failed
    allocation? *)
Definition sbrkfail (fuel : nat) : U unit :=
  let BIG := 100 * 1024 * 1024 in
  '(r, (rfd, wfd)) ← call SPipe;
  bad (negb (r =? 0)) (line "%s: pipe() failed") [name];;
  pids ← sbrkfail_start 10 fuel rfd wfd;
  c ← sbrk PGSIZE;
  uforM pids (fun pid => if pid =? -1 then mret tt else kill pid;; wait0;; mret tt);;
  bad (c =? -1) (line "%s: failed sbrk leaked memory") [name];;
  pid ← fork;
  bad (pid <? 0) (line "%s: fork failed") [name];;
  (if pid =? 0 then
     a ← sbrk 0;
     sbrk (10 * BIG);;
     n ← (fix sum (l : list Z) (n : Z) : U Z :=
            match l with
            | [] => mret n
            | i :: l => v ← call (SLoad (a + PGSIZE * i)); sum l (n + v)
            end) (upto (10 * BIG / PGSIZE)) 0;
     bad true (line "%s: allocate a lot of memory succeeded %d") [name; AInt n]
   else mret tt);;
  '(_, xstatus) ← wait 0;
  if negb (xstatus =? -1) && negb (xstatus =? 2) then uexit 1 else mret tt.

(** test reads/writes from/to allocated memory *)
Definition sbrkarg : U unit :=
  a ← sbrk PGSIZE;
  fd ← open "sbrk" (O_CREATE + O_WRONLY);
  unlink "sbrk";;
  bad (fd <? 0) (line "%s: open sbrk failed") [name];;
  n ← call (SRaw SYS_write [fd; a; PGSIZE]);
  bad (n <? 0) (line "%s: write sbrk failed") [name];;
  close fd;;
  a ← sbrk PGSIZE;
  r ← call (SRaw SYS_pipe [a]);
  bad (negb (r =? 0)) (line "%s: pipe() failed") [name].

(** A bad string pointer at every page; [nosuchfile] is the address of that string. *)
Definition validatetest (nosuchfile : Z) : U unit :=
  uforM ((fun i => PGSIZE * i) <$> upto (1100 * 1024 / PGSIZE + 1)) (fun p =>
    r ← call (SRaw SYS_link [nosuchfile; p]);
    bad (negb (r =? -1)) (line "%s: link should not succeed") [name]).

(** does exec return an error if the arguments are larger than a page? *)
Definition bigargtest : U unit :=
  let arg := str (line "bigargs test: failed") ++ replicate 199 32 in
  unlink "bigarg-ok";;
  pid ← fork;
  (if pid =? 0 then
     exec "echo" (replicate (MAXARG - 1) arg);;
     fd ← open "bigarg-ok" O_CREATE;
     close fd;;
     uexit 0
   else bad (pid <? 0) (line "%s: bigargtest: fork failed") [name]);;
  '(_, xstatus) ← wait 0;
  (if negb (xstatus =? 0) then uexit xstatus else mret tt);;
  fd ← open "bigarg-ok" 0;
  bad (fd <? 0) (line "%s: bigarg test failed!") [name];;
  close fd;;
  mret tt.

Definition argptest : U unit :=
  fd ← open "init" O_RDONLY;
  bad (fd <? 0) (line "%s: open failed") [name];;
  top ← sbrk 0;
  call (SRaw SYS_read [fd; top - 1; -1]);;
  close fd;;
  mret tt.

(** regression test: wild system call arguments; [argv] is the address of { 0 }. *)
Definition pgbug (argv : Z) : U unit :=
  call (SRaw SYS_exec [0xeaeb0b5b00002f5e; argv]);;
  call (SRaw SYS_pipe [0xeaeb0b5b00002f5e]);;
  uexit 0.

(** regression test: sbrk() to less than a page, zero, or by an amount too small to
    cause a page to be freed.  After sbrk(-sz) the program itself is gone: the
    access to it is a fault. *)
Definition sbrkbugs : U unit :=
  let child (c : U unit) :=
    pid ← fork;
    bad (pid <? 0) (line "fork failed") [];;
    (if pid =? 0 then c;; uexit 0 else mret tt);;
    wait0;;
    mret tt in
  child (sz ← sbrk 0; sbrk (- i32 sz);; call (SLoad 0);; mret tt);;
  child (sz ← sbrk 0; sbrk (- (i32 sz - 3500));; mret tt);;
  child (e ← sbrk 0; sbrk (i32 (10 * 4096 + 2048 - e));; sbrk (-10);; mret tt);;
  uexit 0.

(** if process size was somewhat more than a page boundary, and then shrunk to be
    somewhat less than that page boundary, can the kernel still copyin() from
    addresses in the last page? *)
Definition sbrklast : U unit :=
  top ← sbrk 0;
  (if negb (top `mod` 4096 =? 0) then sbrk (4096 - top `mod` 4096);; mret tt else mret tt);;
  sbrk 4096;;
  sbrk 10;;
  sbrk (-20);;
  top ← sbrk 0;
  let p := top - 64 in
  call (SStore p 120);;
  call (SStore (p + 1) 0);;
  fd ← call (SRaw SYS_open [p; O_RDWR + O_CREATE]);
  call (SRaw SYS_write [fd; p; 1]);;
  close fd;;
  fd ← call (SRaw SYS_open [p; O_RDWR]);
  call (SStore p 0);;
  call (SRaw SYS_read [fd; p; 1]);;
  c ← call (SLoad p);
  if negb (c =? 120) then uexit 1 else mret tt.

(** does sbrk handle signed int32 wrap-around with negative arguments? *)
Definition sbrk8000 : U unit :=
  sbrk (i32 0x80000004);;
  top ← sbrk 0;
  v ← call (SLoad (top - 1));
  call (SStore (top - 1) (v + 1));;
  mret tt.

(** regression test: does write() with an invalid buffer pointer cause a block to be
    allocated for a file that is then not freed when the file is deleted? *)
Definition badwrite : U unit :=
  unlink "junk";;
  uforM (upto 600) (fun _ =>
    fd ← open "junk" (O_CREATE + O_WRONLY);
    bad (fd <? 0) (line "open junk failed") [];;
    call (SRaw SYS_write [fd; 0xffffffffff; 1]);;
    close fd;;
    unlink "junk";;
    mret tt);;
  fd ← open "junk" (O_CREATE + O_WRONLY);
  bad (fd <? 0) (line "open junk failed") [];;
  n ← write fd (str "x");
  bad (negb (n =? 1)) (line "write failed") [];;
  close fd;;
  unlink "junk";;
  uexit 0.

(** sbrk(4096) until there is no more memory, with a store to each page. *)
Fixpoint eat_memory (fuel : nat) (report : U unit) : U unit :=
  match fuel with
  | O => UFuel
  | S fuel =>
      a ← sbrk 4096;
      if a =? -1 then mret tt else
      call (SStore (a + 4096 - 1) 1);;
      report;;
      eat_memory fuel report
  end.

(** test the exec() code that cleans up if it runs out of memory. *)
Definition execout (fuel : nat) : U unit :=
  uforM (upto 15) (fun avail =>
    pid ← fork;
    bad (pid <? 0) (line "fork failed") [];;
    if pid =? 0 then
      eat_memory fuel (mret tt);;
      uforM (upto avail) (fun _ => sbrk (-4096);; mret tt);;
      close 1;;
      exec "echo" [str "echo"; str "x"];;
      uexit 0
    else wait0;; mret tt);;
  uexit 0.

(** The loop of countfree() that counts the reports. *)
Fixpoint count_reports (fuel : nat) (fd n : Z) : U Z :=
  match fuel with
  | O => UFuel
  | S fuel =>
      '(cc, _) ← read fd 1;
      bad (cc <? 0) (line "read() failed in countfree()") [];;
      if cc =? 0 then mret n else count_reports fuel fd (n + 1)
  end.

(** use sbrk() to count how many free physical memory pages there are. *)
Definition countfree (fuel : nat) : U Z :=
  '(r, (rfd, wfd)) ← call SPipe;
  bad (r <? 0) (line "pipe() failed in countfree()") [];;
  pid ← fork;
  bad (pid <? 0) (line "fork failed in countfree()") [];;
  (if pid =? 0 then
     close rfd;;
     eat_memory fuel (n ← write wfd (str "x"); bad (negb (n =? 1)) (line "write() failed in countfree()") []);;
     uexit 0
   else mret tt);;
  close wfd;;
  n ← count_reports fuel rfd 0;
  close rfd;;
  wait0;;
  mret n.

(** The loop of mem() that allocates: the blocks, last first, which the program
    links through their first word. *)
Fixpoint mem_alloc (base : Z) (fuel : nat) (h : heap) (ms : list Z) : U (list Z * heap) :=
  match fuel with
  | O => UFuel
  | S fuel' =>
      '(m2, h) ← malloc base fuel h 10001;
      if m2 =? 0 then mret (ms, h) else mem_alloc base fuel' h (m2 :: ms)
  end.
Fixpoint mem_free (fuel : nat) (h : heap) (ms : list Z) : U heap :=
  match ms with
  | [] => mret h
  | m1 :: ms => match free fuel h m1 with Some h => mem_free fuel h ms | None => UFuel end
  end.

(** allocate all mem, free it, and allocate again; [base] is the address of the
    allocator's static header. *)
Definition mem (base : Z) (fuel : nat) : U unit :=
  pid ← fork;
  if pid =? 0 then
    '(ms, h) ← mem_alloc base fuel (Heap ∅ 0) [];
    h ← mem_free fuel h ms;
    '(m1, h) ← malloc base fuel h (1024 * 20);
    bad (m1 =? 0) (line "couldn't allocate mem?!!") [name];;
    mem_free fuel h [m1];;
    uexit 0
  else
    '(_, xstatus) ← wait 0;
    if xstatus =? -1 then uexit 0 else uexit xstatus.

(** does uninitialized data start out zero?  [uninit] is the address of the array. *)
Definition bsstest (uninit : Z) : U unit :=
  uforM (upto 10000) (fun i =>
    c ← call (SLoad (uninit + i));
    bad (negb (c =? 0)) (line "%s: bss test failed") [name]).

(** check that there's an invalid page beneath the user stack; [sp] is the stack
    pointer.  %p prints the byte as a pointer. *)
Definition stacktest (sp : Z) : U unit :=
  pid ← fork;
  (if pid =? 0 then
     c ← call (SLoad (sp - PGSIZE));
     bad true (line "%s: stacktest: read below stack %p") [name; ALong c]
   else bad (pid <? 0) (line "%s: fork failed") [name]);;
  '(_, xstatus) ← wait 0;
  if xstatus =? -1 then uexit 0 else uexit xstatus.

(** regression test: does exec() leak memory if one of the arguments is invalid?
    [echo] and [argv] are the addresses of the string and of the array. *)
Definition badarg (echo argv : Z) : U unit :=
  uforM (upto 50000) (fun _ =>
    uforM (upto 8) (fun i => call (SStore (argv + i) (bytes_of 8 0xffffffff !!! Z.to_nat i));; mret tt);;
    uforM (upto 8) (fun i => call (SStore (argv + 8 + i) 0);; mret tt);;
    call (SRaw SYS_exec [echo; argv]);;
    mret tt);;
  uexit 0.

(** what happens when the file system runs out of blocks?  fsfull() is not in the
    table of tests. *)
Definition fsfull_name (n : Z) : list Z :=
  [102; 48 + n / 1000; 48 + n `mod` 1000 / 100; 48 + n `mod` 100 / 10; 48 + n `mod` 10].
Fixpoint fsfull_fill (fuel : nat) (fd total : Z) : U Z :=
  match fuel with
  | O => UFuel
  | S fuel =>
      cc ← write fd (take 1024 buf);
      if cc <? 1024 then mret total else fsfull_fill fuel fd (total + cc)
  end.
Fixpoint fsfull_create (fuel rounds : nat) (nfiles : Z) : U Z :=
  match rounds with
  | O => UFuel
  | S rounds =>
      let file := fsfull_name nfiles in
      printf (line "writing %s") [AStr (Some file)];;
      fd ← call (SOpen file (O_CREATE + O_RDWR));
      if fd <? 0 then printf (line "open %s failed") [AStr (Some file)];; mret nfiles else
      total ← fsfull_fill fuel fd 0;
      printf (line "wrote %d bytes") [AInt total];;
      close fd;;
      if total =? 0 then mret nfiles else fsfull_create fuel rounds (nfiles + 1)
  end.
Definition fsfull (fuel : nat) : U unit :=
  printf (line "fsfull test") [];;
  nfiles ← fsfull_create fuel fuel 0;
  uforM (rev (upto (nfiles + 1))) (fun n => call (SUnlink (fsfull_name n));; mret tt);;
  printf (line "fsfull test finished") [].

End tests.

(** ** The test runner *)

(** run each test in its own process; 1 if child's exit() indicates success. *)
Definition run (f : list Z -> U unit) (s : list Z) : U Z :=
  printf "test %s: " [AStr (Some s)];;
  pid ← fork;
  bad (pid <? 0) (line "runtest: fork error") [];;
  if pid =? 0 then f s;; uexit 0 else
  '(_, xstatus) ← wait 0;
  printf (if negb (xstatus =? 0) then line "FAILED" else line "OK") [];;
  mret (if xstatus =? 0 then 1 else 0).

(** for(t = tests; t->s != 0; t++) run them, up to the first that fails if [stop]:
    whether one failed. *)
Fixpoint run_all (stop : bool) (fail : bool) (tests : list ((list Z -> U unit) * string)) : U bool :=
  match tests with
  | [] => mret fail
  | (f, s) :: tests =>
      r ← run f (str s);
      if r =? 0 then if stop then mret true else run_all stop true tests
      else run_all stop fail tests
  end.

(** The loop of usertests -c and -C. *)
Fixpoint continuously (fuel rounds : nat) (continuous : Z) (tests : list ((list Z -> U unit) * string)) : U unit :=
  match rounds with
  | O => UFuel
  | S rounds =>
      free0 ← countfree fuel;
      fail ← run_all true false tests;
      (if fail : bool then printf (line "SOME TESTS FAILED") [];; (if negb (continuous =? 2) then uexit 1 else mret tt) else mret tt);;
      free1 ← countfree fuel;
      (if free1 <? free0 then
         printf (line "FAILED -- lost %d free pages") [AInt (free0 - free1)];; (if negb (continuous =? 2) then uexit 1 else mret tt)
       else mret tt);;
      continuously fuel rounds continuous tests
  end.

(** The table tests[]: [fuel] bounds the loops, the addresses are those of
    copyinstr3()'s args, of "nosuchfile", of uninit, of the stack pointer, of the
    allocator's header, of pgbug()'s argv, and of "echo" and badarg()'s argv. *)
Definition tests (fuel : nat) (args nosuchfile uninit sp base argv0 echo argv : Z) : list ((list Z -> U unit) * string) :=
  [(MAXVAplus, "MAXVAplus"); (manywrites, "manywrites"); (fun _ => execout fuel, "execout"); (fun _ => copyin, "copyin");
   (fun _ => copyout, "copyout"); (fun _ => copyinstr1, "copyinstr1"); (fun _ => copyinstr2, "copyinstr2");
   (fun _ => copyinstr3 args, "copyinstr3"); (fun _ => rwsbrk, "rwsbrk"); (truncate1, "truncate1"); (truncate2, "truncate2");
   (truncate3, "truncate3"); (fun _ => reparent2, "reparent2"); (fun _ => pgbug argv0, "pgbug"); (fun _ => sbrkbugs, "sbrkbugs");
   (fun _ => badarg echo argv, "badarg"); (reparent, "reparent"); (twochildren, "twochildren"); (forkfork, "forkfork");
   (fun s => forkforkfork s fuel, "forkforkfork"); (argptest, "argptest"); (createdelete, "createdelete"); (linkunlink, "linkunlink");
   (linktest, "linktest"); (unlinkread, "unlinkread"); (fun s => concreate s fuel, "concreate"); (subdir, "subdir");
   (fun s => fourfiles s fuel, "fourfiles"); (fun s => sharedfd s fuel, "sharedfd"); (dirtest, "dirtest"); (exectest, "exectest");
   (bigargtest, "bigargtest"); (bigwrite, "bigwrite"); (fun s => bsstest s uninit, "bsstest"); (sbrkbasic, "sbrkbasic");
   (sbrkmuch, "sbrkmuch"); (kernmem, "kernmem"); (fun s => sbrkfail s fuel, "sbrkfail"); (sbrkarg, "sbrkarg");
   (fun _ => sbrklast, "sbrklast"); (fun _ => sbrk8000, "sbrk8000"); (fun s => validatetest s nosuchfile, "validatetest");
   (fun s => stacktest s sp, "stacktest"); (opentest, "opentest"); (writetest, "writetest"); (fun s => writebig s fuel, "writebig");
   (fun _ => createtest, "createtest"); (openiputtest, "openiput"); (exitiputtest, "exitiput"); (iputtest, "iput");
   (fun s => mem s base fuel, "mem"); (fun s => pipe1 s fuel, "pipe1"); (fun s => killstatus s fuel, "killstatus");
   (preempt, "preempt"); (exitwait, "exitwait"); (rmdot, "rmdot"); (fourteen, "fourteen"); (fun s => bigfile s fuel, "bigfile");
   (dirfile, "dirfile"); (iref, "iref"); (forktest, "forktest"); (bigdir, "bigdir")]%string.

(** main() with the table [tests]. *)
Definition main (fuel : nat) (tests : list ((list Z -> U unit) * string)) (argv : list (list Z)) : U unit :=
  let argc := length argv in
  let arg1 := argv !!! 1%nat in
  let one := bool_decide (argc = 2%nat) in
  '(continuous, justone) ←
    (if one && (Ulib.strcmp arg1 (str "-c") =? 0) then mret (1, None)
     else if one && (Ulib.strcmp arg1 (str "-C") =? 0) then mret (2, None)
     else if one && negb (default 0 (head arg1) =? 45) then mret (0, Some arg1)
     else if (1 <? argc)%nat then printf (line "Usage: usertests [-c] [testname]") [];; uexit 1
     else mret (0, None));
  (if negb (continuous =? 0) then printf (line "continuous usertests starting") [];; continuously fuel fuel continuous tests else mret tt);;
  printf (line "usertests starting") [];;
  free0 ← countfree fuel;
  fail ← run_all false false
    (match justone with None => tests | Some one => filter (fun t => Ulib.strcmp (str t.2) one = 0) tests end);
  if fail : bool then printf (line "SOME TESTS FAILED") [];; uexit 1 else
  free1 ← countfree fuel;
  if free1 <? free0 then
    printf (line "FAILED -- lost some free pages %d (out of %d)") [AInt free1; AInt free0];; uexit 1
  else printf (line "ALL TESTS PASSED") [];; uexit 0.
End Usertests.
