(* ===== verification/System.v ===== *)
(** The kernel as the operating system that user programs run on: a machine that
    boots from the disk image mkfs writes, and a system call as the trap it is,
    through usertrap(), with its arguments in the trapframe and its buffers in
    the memory of the process. *)

From Stdlib Require Import ZArith Lia.
From stdpp Require Import base gmap strings list numbers.
From S2P Require Import Prelude Params State Spinlock Sched CString Kalloc Vm PageTable Copy Uart Printf Console.
From S2P Require Import Frame Bio Cache Virtio Demo Log Fs Dir Pipe File Proc Exec Sysfile Trap Mkfs User Usertests.

Open Scope Z_scope.

(** ** System calls from user space *)

Section system.
Context `{DD : DiskDriver} `{KI : KernelImage} `{CA : CodeAddrs}.

Definition current (k : kst) : option proc := i ← h_proc (k_hart k); k_procs k !! i.

(** The physical address behind an access of the current process to its memory; a
    fault if there is none. *)
Definition user_pa (k : kst) (perm va : Z) : option Z :=
  p ← current k;
  if (va <? 0) || (MAXVA <=? va) then None else
  v ← pteof (k_mem k) (pr_pagetable p) va;
  if has v PTE_U && has v perm then Some (PTE2PA v + va `mod` PGSIZE) else None.

Fixpoint user_store (k : kst) (va : Z) (bs : list Z) : option kst :=
  match bs with
  | [] => Some k
  | b :: bs => pa ← user_pa k PTE_W va; user_store (set_k_mem (st8 (k_mem k) pa b) k) (va + 1) bs
  end.

Fixpoint user_load (k : kst) (va : Z) (n : nat) : option (list Z) :=
  match n with
  | O => Some []
  | S n => pa ← user_pa k PTE_R va; bs ← user_load k (va + 1) n; Some (ld8 (k_mem k) pa :: bs)
  end.

(** The argument registers, as uservec saves them. *)
Fixpoint save_args (m : bmem) (a : Z) (args : list Z) : bmem :=
  match args with
  | [] => m
  | x :: args => save_args (st64 m a x) (a + 8) args
  end.

(** ecall: the hart turns interrupts off and enters usertrap() with the cause 8;
    sret turns them on again.  The result is in a0.  The other registers play no
    role: [swtch] and the trampoline are in Asm. *)
Definition ecall (num : Z) (args : list Z) (k : kst) : option (Z * kst) :=
  p ← current k;
  let m := save_args (st64 (k_mem k) (pr_trapframe p + TF_A7) num) (pr_trapframe p + TF_A0) args in
  let csr := set_s_spie true (set_s_spp false (set_s_scause 8 (k_csr k))) in
  match usertrap (set_k_mem m (set_k_csr csr (set_k_hart (set_h_sie false (k_hart k)) k))) with
  | Ret _ k =>
      p ← current k;
      Some (ld64 (k_mem k) (pr_trapframe p + TF_A0), set_k_hart (set_h_sie (s_spie (k_csr k)) (k_hart k)) k)
  | _ => None
  end.

(** Where the program keeps its strings and its buffer. *)
Definition PATH : Z := 1024.
Definition PATH2 : Z := 2048.
Definition ARGV : Z := 3072.
Definition BUF : Z := PGSIZE.

(** A call with an int result. *)
Definition icall (num : Z) (args : list Z) (k : kst) : option (Z * kst) :=
  '(r, k) ← ecall num args k; Some (i32 r, k).

Definition path_call (num : Z) (path : list Z) (args : list Z) (k : kst) : option (Z * kst) :=
  k ← user_store k PATH (path ++ [0]); icall num (PATH :: args) k.

(** The strings of argv one after the other from [a], and their addresses. *)
Fixpoint store_argv (k : kst) (a : Z) (argv : list (list Z)) : option (list Z * kst) :=
  match argv with
  | [] => Some ([], k)
  | s :: argv =>
      k ← user_store k a (s ++ [0]);
      '(ps, k) ← store_argv k (a + Z.of_nat (length s) + 1) argv;
      Some (a :: ps, k)
  end.

Definition stat_of (bs : list Z) : stat :=
  Stat (i32 (of_bytes (take 4 bs))) (of_bytes (take 4 (drop 4 bs))) (i16 (of_bytes (take 2 (drop 8 bs))))
       (i16 (of_bytes (take 2 (drop 10 bs)))) (of_bytes (take 8 (drop 16 bs))).

(** The calls of a program.  [None]: the program does not continue, since the
    kernel panics, the call does not return before another process runs, the
    process is killed, or exec() succeeds. *)
Definition kcall (X : Type) (e : sys X) : kst -> option (X * kst) :=
  match e in sys X return kst -> option (X * kst) with
  | SFork => icall 1 []
  | SWait => icall 3 [0]
  | SWaitStatus => fun k =>
      '(r, k) ← icall 3 [BUF] k;
      if r <? 0 then Some ((r, 0), k) else bs ← user_load k BUF 4; Some ((r, i32 (of_bytes bs)), k)
  | SPipe => fun k =>
      '(r, k) ← icall 4 [BUF] k;
      bs ← user_load k BUF 8;
      Some ((r, (i32 (of_bytes (take 4 bs)), i32 (of_bytes (drop 4 bs)))), k)
  | SRead fd n => fun k =>
      '(r, k) ← icall 5 [fd; BUF; n] k;
      bs ← user_load k BUF (Z.to_nat r);
      Some ((r, bs), k)
  | SKill pid => icall 6 [pid]
  | SExec path argv => fun k =>
      '(ps, k) ← store_argv k BUF argv;
      k ← user_store k ARGV (concat (bytes_of 8 <$> ps ++ [0]));
      '(r, k) ← path_call 7 path [ARGV] k;
      if r <? 0 then Some (r, k) else None
  | SFstat fd => fun k =>
      '(r, k) ← icall 8 [fd; BUF] k;
      bs ← user_load k BUF 24;
      Some ((r, stat_of bs), k)
  | SChdir path => path_call 9 path []
  | SDup fd => icall 10 [fd]
  | SGetpid => icall 11 []
  | SSbrk n => fun k => '(r, k) ← ecall 12 [n] k; Some (i64 r, k)
  | SSleep n => icall 13 [n]
  | SUptime => icall 14 []
  | SOpen path mode => path_call 15 path [mode]
  | SWrite fd bs => fun k => k ← user_store k BUF bs; icall 16 [fd; BUF; Z.of_nat (length bs)] k
  | SMknod path major minor => path_call 17 path [major; minor]
  | SUnlink path => path_call 18 path []
  | SLink old new => fun k => k ← user_store k PATH2 (new ++ [0]); path_call 19 old [PATH2] k
  | SMkdir path => path_call 20 path []
  | SClose fd => icall 21 [fd]
  | SRaw num args => icall num args
  | SLoad a => fun k => bs ← user_load k a 1; Some (bs !!! 0%nat, k)
  | SStore a v => fun k => k ← user_store k a [u8 v]; Some (0, k)
  end.

Fixpoint krun {A} (p : U A) (k : kst) : option (ures A * kst) :=
  match p with
  | URet a => Some (Done a, k)
  | UExit n => Some (Exited n, k)
  | UFuel => Some (NoFuel, k)
  | UCall X e f => '(x, k) ← kcall X e k; krun (f x) k
  end.

End system.
