(* ===== verification/Boot.v ===== *)
(** The whole system at work: a machine boots from the disk image that mkfs writes,
    and tests of user/usertests.c run on it.  Their system calls go through
    usertrap() to the file system, the log, the buffer cache and the disk driver,
    and back. *)

From Stdlib Require Import ZArith Lia.
From stdpp Require Import base gmap strings list numbers.
From S2P Require Import Prelude Params State Spinlock Sched CString Kalloc Vm PageTable Copy Uart Printf Console.
From S2P Require Import Frame Bio Cache Virtio Demo Log Fs Dir Pipe File Proc Exec Sysfile Trap Main ProcSpec Mkfs MkfsImage User Usertests System.

Open Scope Z_scope.

(** A kernel that leaves eight pages of physical memory. *)
#[refine] Instance small_image : KernelImage :=
  { kend := PHYSTOP - 8 * PGSIZE; etext := KERNBASE + 0x8000; trampoline := KERNBASE + 0x7000 }.
Proof. all: abstract (by vm_compute). Defined.






(** ** A machine for tests *)

















